(* ===== verification/_CoqProject ===== *)
-Q . S2P
Prelude.v
PyStr.v
PyFloat.v
PyTime.v
Risk.v
StateMachine.v
PositionManager.v
DbCore.v
DbOrders.v
DbLedger.v
DbRuntime.v
DbApprovals.v
DbPaper.v
IsoText.v
DbMarket.v
Indicators.v
PyDecimal.v
PyFormat.v
MarketRules.v
ExitPolicy.v
Bars.v
PyDict.v
PaperLedger.v
PyJson.v
AiBudget.v
KisHttp.v
AiDecision.v
KisOrder.v
KisOrderStatus.v
KisAccount.v
DbFrames.v
System.v
SystemFrames.v
Reconciliation.v
OrderManagement.v
SupervisorStatus.v
Supervisor.v
FillNotice.v
KisWs.v
KisAuth.v
CredentialLock.v
Config.v
KisQueries.v
AutoUniverse.v
Collector.v
GuardedSubmitter.v
AutoTrade.v
Sha256.v
FillNoticeReconciliation.v
FillNoticeWorker.v
Idempotency.v
Shadow.v
Operator.v
Telegram.v
TelegramSafety.v
LiveExecution.v
RateLimit.v
Performance.v
Portfolio.v
ServiceSettings.v
ServiceGates.v
TradeCycle.v
Service.v
JsonText.v
Notifier.v
Commands.v
PaperReport.v
Healthcheck.v
OpenaiUsage.v
TelegramViews.v
Migration.v
Replay.v
