(* ===== verification/Prelude.v ===== *)
(** * KIS AI Scalper: verification development

    The program trades Korean stocks through the KIS broker.  One process, the
    trading service ([service_loop] of [cli.py]), wakes every few seconds: it renews
    its lease, checks its configuration, keeps its threads alive, collects market
    data, reads the account, and runs a trading cycle in which rules or an AI model
    propose entries, the risk engine judges them, and a guarded submitter sends
    orders.  A SQLite file is the only shared state: orders, fills, positions,
    approvals, runtime control, leases and metadata.  Threads beside the loop read
    fill notices, supervise open orders and poll Telegram for the operator.  This
    library models these parts as they are written in [src/kis_ai_scalper] and
    proves what makes them safe to run with money.

    ** How the code is rendered

    A Python call that may raise returns [res] ([Ok] or [Err] of an [exn]); code that
    changes state is [stm S A], a function of the state that keeps what was written
    before an exception.  The state of a component that talks to the world is
    [sys W] (System.v): the database, a world [W] that answers requests, and the
    trace of every call that could change something at the broker.  A database
    method is a function of the clock and the database ([on_db]), committed or not
    at all; a [with connect_database] block is [open_schema] and its methods.  Where a
    theorem speaks of a state in the middle of a run, it names the calls that lead
    there ([turn_starts], [symbol_starts], [open_cycle], [open_pass]), so that what
    was read is what the run read.
    Text is a byte string in UTF-8 ([slen], [take_points] count code points; case
    and letter tests are the ASCII ones), integers are [Z], floats are IEEE doubles
    (PyFloat.v, on [SpecFloat], with Python's arithmetic and printing), times are
    microseconds with an offset (PyTime.v), a dict whose order matters is an
    association list (PyDict.v), a SQLite table a [gmap] on its key.

    ** Files, in layers

    - Foundations: Prelude (results, state, lists, sorting), PyStr, PyFloat,
      PyTime, IsoText, PyDecimal, PyFormat, PyDict, PyJson and JsonText (the [json]
      module and its round trip), Sha256.
    - The database, [storage/database.py]: DbCore (tables, schema), DbOrders (orders,
      fills, positions), DbRuntime (metadata, leases, control), DbApprovals (audits,
      approvals), DbPaper, DbMarket, with DbLedger and DbFrames for their
      invariants; Migration (schema creation on a file of any age).
    - Judgement: Risk, StateMachine, PositionManager, ExitPolicy, MarketRules, Bars,
      Indicators, PaperLedger, Portfolio, Performance, PaperReport, Idempotency
      ([risk/], [execution/], [market/], [indicators/], [strategies/], [paper/]).
    - The broker, [broker/]: KisHttp, KisOrder, KisOrderStatus, KisAccount,
      KisQueries (balance, buying power, realized result, rankings, price), KisAuth,
      CredentialLock (the lock file as a step relation), RateLimit, KisWs,
      FillNotice.
    - Pipelines, [pipeline/] and [ai/]: System and SystemFrames (the interface to
      broker and clock, classes [Clock], [Broker], [Submitter]), Reconciliation,
      OrderManagement, FillNoticeReconciliation, GuardedSubmitter, AiBudget,
      AiDecision, AutoTrade, Shadow, LiveExecution.
    - Workers and operator, [ops/], [market/]: Supervisor and SupervisorStatus,
      FillNoticeWorker, Collector, Operator, Telegram, TelegramSafety,
      TelegramViews (the reports), AutoUniverse, Healthcheck, OpenaiUsage.
    - The process, [cli.py]: Config, ServiceSettings, ServiceGates, TradeCycle,
      Service, Notifier, Commands, Replay.

    ** What is shown

    - What may be sent.  Service: each order of the service comes from a turn of its
      loop whose gates were open, with a broker state without unknown facts.
      TradeCycle, AutoTrade: a cycle passes every gate before its pipeline runs, and
      each order of the pipeline rests on what its own pass over the symbol read
      (decision, approval, prices, risk verdict, budget, or the exit of an open
      position).  GuardedSubmitter: an order goes out exactly
      when lease, runtime state, window and the checks of its side hold at that
      moment.  RateLimit, LiveExecution, DbLedger: at most once per intent.
    - What is believed.  Reconciliation, OrderManagement, FillNoticeReconciliation
      and Supervisor change the ledger only as the broker reported, cancel only what
      is theirs to cancel, and block entries on every disagreement; the ledger
      invariants (DbLedger) hold in every reachable database, fills are applied
      exactly once and shares are conserved (also in PositionManager, PaperLedger,
      PaperReport, Performance).
    - Who decides.  TelegramSafety: only the authorized operator resumes, stops or
      changes the environment, and the real environment takes a fresh confirmation
      each time.  DbApprovals, Migration: an approval is used once, before its
      deadline, also one from before there were deadlines.
    - That it goes on.  Service, Supervisor, FillNoticeWorker, Notifier, Collector:
      the loops outlive failures, back off within bounds and give back what they
      hold; KisQueries, RateLimit, KisWs: paging, retries and sessions end.
    - Formats.  JsonText, Replay, DbMarket, AutoUniverse, Notifier: what is written
      is read back.  KisOrderStatus, Replay, ServiceSettings: what is accepted is
      well formed.

    ** Interfaces

    [Broker] and [Clock] (System.v) are the classes the pipelines are written
    against; KisHttp, KisOrder, KisOrderStatus and KisAccount give the instance that
    sends HTTP requests, and its [post] and [get] are parameters.  [Submitter] is
    what the trading cycle needs of a submitter and [SubmitterLaw] what it may assume;
    GuardedSubmitter gives both.
    [QuietNotifier] (Service.v) is what the service needs of a notifier; Notifier
    gives it.  The records [host] and [threads] (TradeCycle.v, Service.v) collect what the
    process gets from outside.

    ** Fuel and bounds

    [read_value] of PyJson and [replace_all] take the length of the text as fuel,
    which each call decreases ([loads] is total; JsonText proves that what was
    printed is read back).  The loops of threads ([service_turns], [poll_turns],
    the supervisor's and the worker's) take the number of turns: the theorems hold
    for every number, and the ending ones say that the loop completes all of them
    unless it is interrupted.  A streaming session takes a bound on the frames it
    reads; Collector, KisWs and FillNoticeWorker prove that a deadline or a closed
    socket ends it.  Page limits and retry counts are those of the code.

    ** Parameters

    Code outside the repository is a parameter: the HTTP and WebSocket transports,
    [exchange_calendars], AES-CBC, yaml and pydantic, the OpenAI and Telegram
    services, SQLite's [julianday] and the order in which it scans ties or sums
    reals, threads' liveness, and [str] of an exception.  Where a theorem relies on
    one, a named hypothesis says what is documented of it, and the witness runs a
    concrete instance.

    ** Not modelled

    - Interrupts inside the pipelines.  The service loop, its operator messages and
      its sleep treat [KeyboardInterrupt] as the code does ([except_Exception],
      [service_pass]); an [except Exception] inside a pipeline ([attempt]) treats every
      exception alike, so an interrupt that a call raises there is handled like a
      failure.  Threads are not interrupted.
    - Failures of SQLite itself (a full disk, a lock that times out): a statement
      fails only as its values make it fail, also in the handlers of failures.
    - The interleaving of the threads with the service loop between two of its
      database calls: each thread is modelled alone, with what the others wrote as
      an arbitrary database ([CredentialLock], whose point is concurrency, is a step
      relation).
    - Printed output, the argument parser and its dispatch, the smoke and sample
      commands of [cli.py], which call modelled functions once and print.
    - The building of the supervisor's clients by reflection on test factories, the
      transport and the live smoke test of the fill notices, the [__repr__] methods.
    - [broker/safety.py], used by printed previews only, [schemas/], which nothing
      imports, and the re-exporting [__init__] modules.
    - The non-ASCII part of [str.isdigit], [str.isalnum], [str.lower] and of
      whitespace; SQLite's 64-bit limit on integers; the limit on a CSV field;
      overflow of dates at the ends of the calendar. *)

From Stdlib Require Sorted.
From stdpp Require Export base gmap strings list fin_maps option.
From Stdlib Require Export ZArith Lia.
From Stdlib Require Export Ascii.
From Stdlib Require String.

#[global] Open Scope Z_scope.
#[global] Set Default Goal Selector "!".

(** ** Python exceptions and fallible results *)

(** The exception classes the modelled code raises or catches.  The classes the
    repository declares ([DuplicateSignalError], [ExitPolicyError],
    [OrderSafetyGateError], [KisHttpError], the AI errors) are constructors of their own;
    [OtherError] is an exception of code outside the repository (a transport
    error, an error of a user-supplied callback), known by its class name. *)
Inductive exn :=
  | ValueError (msg : string)
  | TypeError (msg : string)
  | KeyError (msg : string)
  | RuntimeError (msg : string)
  | OverflowError
  | ZeroDivisionError
  | AssertionError
  | InvalidOperation                      (* decimal.InvalidOperation *)
  | IntegrityError (msg : string)         (* sqlite3.IntegrityError *)
  | DuplicateSignalError (msg : string)   (* class (ValueError) *)
  | ExitPolicyError (msg : string)        (* class (ValueError) *)
  | OrderSafetyGateError (msg : string)   (* class (RuntimeError) *)
  | AIBudgetExceededError (msg : string)     (* class (RuntimeError) *)
  | AIDecisionTransportError (msg : string)  (* class (AIDecisionError) *)
  | AIDecisionRequestError (msg : string)    (* class (AIDecisionError) *)
  | AIDecisionResponseError (msg : string)   (* class (AIDecisionError) *)
  | KisHttpError (status_code : Z) (details : list (string * string)) (* class (RuntimeError) *)
  | TelegramApiError (summary : string)      (* class (RuntimeError) *)
  | OtherError (name : string).

#[export] Instance exn_eq_dec : EqDecision exn.
Proof. solve_decision. Defined.

(** [type(exc).__name__]. *)
Definition exn_name (e : exn) : string :=
  match e with
  | ValueError _ => "ValueError"
  | TypeError _ => "TypeError"
  | KeyError _ => "KeyError"
  | RuntimeError _ => "RuntimeError"
  | OverflowError => "OverflowError"
  | ZeroDivisionError => "ZeroDivisionError"
  | AssertionError => "AssertionError"
  | InvalidOperation => "InvalidOperation"
  | IntegrityError _ => "IntegrityError"
  | DuplicateSignalError _ => "DuplicateSignalError"
  | ExitPolicyError _ => "ExitPolicyError"
  | OrderSafetyGateError _ => "OrderSafetyGateError"
  | AIBudgetExceededError _ => "AIBudgetExceededError"
  | AIDecisionTransportError _ => "AIDecisionTransportError"
  | AIDecisionRequestError _ => "AIDecisionRequestError"
  | AIDecisionResponseError _ => "AIDecisionResponseError"
  | KisHttpError _ _ => "KisHttpError"
  | TelegramApiError _ => "TelegramApiError"
  | OtherError n => n
  end.

(** [isinstance(exc, ValueError)]: the test of an [except ValueError] clause. *)
Definition is_ValueError (e : exn) : bool :=
  match e with
  | ValueError _ | DuplicateSignalError _ | ExitPolicyError _ => true
  | _ => false
  end.

(** [isinstance(exc, RuntimeError)] *)
Definition is_RuntimeError (e : exn) : bool :=
  match e with
  | RuntimeError _ | OrderSafetyGateError _ | AIBudgetExceededError _ | AIDecisionTransportError _ | AIDecisionRequestError _
  | AIDecisionResponseError _ | KisHttpError _ _ | TelegramApiError _ => true
  | _ => false
  end.

(** The result of a call that may raise. *)
Inductive res (A : Type) : Type :=
  | Ok (a : A)
  | Err (e : exn).
Arguments Ok {A} _.
Arguments Err {A} _.

#[export] Instance res_eq_dec {A} `{EqDecision A} : EqDecision (res A).
Proof. solve_decision. Defined.

#[export] Instance res_ret : MRet res := fun A a => Ok a.
#[export] Instance res_bind : MBind res :=
  fun A B f m => match m with Ok a => f a | Err e => Err e end.
#[export] Instance res_fmap : FMap res :=
  fun A B f m => match m with Ok a => Ok (f a) | Err e => Err e end.

Definition is_ok {A} (m : res A) : bool :=
  match m with Ok _ => true | Err _ => false end.

(** [if cond: raise e]. *)
Definition raise_if (cond : bool) (e : exn) : res unit :=
  if cond then Err e else Ok tt.

(** A computation over a mutable state that may raise: an exception does not
    undo what was already written (the code's [try]/[except] around calls that
    have committed). *)
Definition stm (S A : Type) : Type := S -> res A * S.

#[export] Instance stm_ret {S} : MRet (stm S) := fun A a s => (Ok a, s).
#[export] Instance stm_bind {S} : MBind (stm S) :=
  fun A B f m s =>
    match m s with
    | (Ok a, s') => f a s'
    | (Err e, s') => (Err e, s')
    end.

(** [try: m  except Exception as exc: h exc]: the handler runs in the state the
    body left. *)
Definition catch {S A} (m : stm S A) (h : exn -> stm S A) : stm S A :=
  fun s => match m s with
           | (Ok a, s') => (Ok a, s')
           | (Err e, s') => h e s'
           end.

Definition raise {S A} (e : exn) : stm S A := fun s => (Err e, s).
(** The outcome of a pure computation. *)
Definition lift_res {S A} (r : res A) : stm S A := fun s => (r, s).
Definition gets {S A} (f : S -> A) : stm S A := fun s => (Ok (f s), s).
Definition modify {S} (f : S -> S) : stm S unit := fun s => (Ok tt, f s).

(** A transaction: [with self.connection:] commits the new state on success and
    rolls back on an exception. *)
Definition atomically {S A} (m : S -> res (A * S)) : stm S A :=
  fun s => match m s with
           | Ok (a, s') => (Ok a, s')
           | Err e => (Err e, s)
           end.

(** A [for] loop over a list in the state monad, threading local variables. *)
Fixpoint foldM {S A B} (f : B -> A -> stm S B) (b : B) (l : list A) : stm S B :=
  match l with
  | [] => mret b
  | x :: l' => b' ← f b x; foldM f b' l'
  end.

(** The success of a sequence, split. *)
Lemma stm_bind_Ok {S A B} (m : stm S A) (f : A -> stm S B) s b s' :
  mbind f m s = (Ok b, s') <-> exists a s1, m s = (Ok a, s1) /\ f a s1 = (Ok b, s').
Proof.
  unfold mbind, stm_bind. destruct (m s) as [[a|e] s1] eqn:E; split.
  - intros Hf. by exists a, s1.
  - by intros (a' & s2 & [= <- <-] & Hf).
  - done.
  - by intros (a' & s2 & ? & _).
Qed.

Lemma stm_bind_run {S A B} (m : stm S A) (f : A -> stm S B) s a s1 :
  m s = (Ok a, s1) -> mbind f m s = f a s1.
Proof. unfold mbind, stm_bind. by intros ->. Qed.

Lemma stm_bind_err {S A B} (m : stm S A) (f : A -> stm S B) s e s1 :
  m s = (Err e, s1) -> mbind f m s = (Err e, s1).
Proof. unfold mbind, stm_bind. by intros ->. Qed.

(** ** Small list and option operations the code uses *)

(** [len(l)] *)
Definition len {A} (l : list A) : Z := Z.of_nat (length l).

(** [x or y] on an optional value whose falsy cases are [None] and [falsy]. *)
Definition or_else {A} (x : option A) (y : A) : A :=
  match x with Some v => v | None => y end.

(** [dict.fromkeys(l)]: the elements in order of first occurrence. *)
Fixpoint dedup {A} `{EqDecision A} (seen l : list A) : list A :=
  match l with
  | [] => []
  | x :: l' => if bool_decide (x ∈ seen) then dedup seen l' else x :: dedup (x :: seen) l'
  end.

(** Insertion sort by a boolean order: the order of [ORDER BY] and [sorted]
    (stable; both are specified up to ties, broken by insertion order). *)
Fixpoint insert_by {A} (le : A -> A -> bool) (x : A) (l : list A) : list A :=
  match l with
  | [] => [x]
  | y :: l' => if le x y then x :: y :: l' else y :: insert_by le x l'
  end.

Fixpoint sort_by {A} (le : A -> A -> bool) (l : list A) : list A :=
  match l with
  | [] => []
  | x :: l' => insert_by le x (sort_by le l')
  end.

(** Sum of a measure over the rows of a table. *)
Definition map_sum {V} (f : V -> Z) (m : gmap string V) : Z :=
  map_fold (fun _ v acc => f v + acc) 0 m.

Fixpoint sum_by {A} (f : A -> Z) (l : list A) : Z :=
  match l with [] => 0 | x :: l' => f x + sum_by f l' end.

(** ** Automation *)

Create HintDb kis.

Lemma Ok_inj {A} (a b : A) : Ok a = Ok b -> a = b.
Proof. by intros [=]. Qed.

(** Splits a hypothesis that equates a monadic computation with [Ok]. *)
Lemma bind_Ok {A B} (m : res A) (f : A -> res B) b :
  (a ← m; f a) = Ok b <-> exists a, m = Ok a /\ f a = Ok b.
Proof.
  destruct m as [a|e]; cbn; split.
  - intros H. by exists a.
  - intros (a' & [= <-] & H). done.
  - discriminate.
  - intros (a' & H & _). discriminate.
Qed.

Lemma raise_if_Ok c e u : raise_if c e = Ok u <-> c = false.
Proof. destruct c, u; cbn; split; congruence. Qed.

Lemma raise_if_Err c e e' : raise_if c e = Err e' <-> c = true /\ e' = e.
Proof. destruct c; cbn; split; intuition congruence. Qed.

(** Inverts every monadic success in the context. *)
Ltac inv_ok :=
  repeat match goal with
  | H : mbind ?f ?m = Ok _ |- _ =>
      let a := fresh "v" in let H1 := fresh "Hv" in let H2 := fresh "Hk" in
      apply bind_Ok in H as (a & H1 & H2)
  | H : raise_if _ _ = Ok _ |- _ => apply raise_if_Ok in H
  | H : Ok _ = Ok _ |- _ => injection H as H; try subst
  | H : mret _ = Ok _ |- _ => injection H as H; try subst
  | H : Err _ = Ok _ |- _ => discriminate H
  | H : Ok _ = Err _ |- _ => discriminate H
  | u : unit |- _ => destruct u
  end.

(** Destructs the scrutinee of the first match or conditional of the goal. *)
Ltac split_match :=
  match goal with
  | |- context [match ?x with _ => _ end] => destruct x eqn:?
  end.

Ltac bool_to_prop :=
  repeat match goal with
  | H : _ && _ = true |- _ => apply andb_true_iff in H as [? ?]
  | H : _ || _ = false |- _ => apply orb_false_iff in H as [? ?]
  | H : negb _ = true |- _ => apply negb_true_iff in H
  | H : negb _ = false |- _ => apply negb_false_iff in H
  | H : (_ <? _)%Z = true |- _ => apply Z.ltb_lt in H
  | H : (_ <? _)%Z = false |- _ => apply Z.ltb_ge in H
  | H : (_ <=? _)%Z = true |- _ => apply Z.leb_le in H
  | H : (_ <=? _)%Z = false |- _ => apply Z.leb_gt in H
  | H : (_ =? _)%Z = true |- _ => apply Z.eqb_eq in H
  | H : (_ =? _)%Z = false |- _ => apply Z.eqb_neq in H
  | H : String.eqb _ _ = true |- _ => apply String.eqb_eq in H
  | H : String.eqb _ _ = false |- _ => apply String.eqb_neq in H
  | H : bool_decide _ = true |- _ => apply bool_decide_eq_true in H
  | H : bool_decide _ = false |- _ => apply bool_decide_eq_false in H
  end.

(** ** Generic lemmas *)

Lemma elem_of_dedup {A} `{EqDecision A} (l seen : list A) x :
  x ∈ dedup seen l <-> x ∈ l /\ x ∉ seen.
Proof.
  revert seen. induction l as [|y l IH]; intros seen; cbn.
  - rewrite elem_of_nil. tauto.
  - case_bool_decide as Hy; rewrite ?elem_of_cons, IH, ?elem_of_cons.
    + split; [tauto|]. intros [[->|?] ?]; tauto.
    + destruct (decide (x = y)) as [->|]; tauto.
Qed.

Lemma NoDup_dedup {A} `{EqDecision A} (l seen : list A) : NoDup (dedup seen l).
Proof.
  revert seen. induction l as [|y l IH]; intros seen; cbn; [constructor|].
  case_bool_decide; [apply IH|].
  constructor; [|apply IH]. rewrite elem_of_dedup. set_solver.
Qed.

Lemma dedup_nil {A} `{EqDecision A} (l : list A) : dedup [] l = [] <-> l = [].
Proof. destruct l; cbn; [done|]. case_bool_decide; set_solver. Qed.

Lemma elem_of_insert_by {A} le (x y : A) l : y ∈ insert_by le x l <-> y = x \/ y ∈ l.
Proof.
  induction l as [|z l IH]; cbn; [rewrite list_elem_of_singleton, elem_of_nil; tauto|].
  destruct (le x z); rewrite ?elem_of_cons, ?IH; tauto.
Qed.

Lemma elem_of_sort_by {A} le (y : A) l : y ∈ sort_by le l <-> y ∈ l.
Proof.
  induction l as [|x l IH]; cbn; [done|].
  rewrite elem_of_insert_by, elem_of_cons, IH. done.
Qed.

Lemma insert_by_perm {A} le (x : A) l : insert_by le x l ≡ₚ x :: l.
Proof.
  induction l as [|y l IH]; cbn; [done|].
  destruct (le x y); [done|]. rewrite IH. apply perm_swap.
Qed.

Lemma sort_by_perm {A} le (l : list A) : sort_by le l ≡ₚ l.
Proof. induction l as [|x l IH]; cbn; [done|]. by rewrite insert_by_perm, IH. Qed.

Lemma filter_perm {A} (p : A -> bool) (l l' : list A) : l ≡ₚ l' -> List.filter p l ≡ₚ List.filter p l'.
Proof.
  induction 1 as [|x l l' _ IH|x y l|]; cbn; [done| | |by etrans].
  - destruct (p x); by rewrite IH.
  - destruct (p x), (p y); try done. apply perm_swap.
Qed.

Lemma sort_by_length {A} le (l : list A) : length (sort_by le l) = length l.
Proof. apply Permutation_length, sort_by_perm. Qed.

Notation StronglySorted := Sorted.StronglySorted.

(** [sort_by] sorts, for a total and transitive order. *)
Lemma insert_by_sorted {A} (le : A -> A -> bool) (x : A) l :
  (forall a b, le a b = false -> le b a = true) ->
  (forall a b c, le a b = true -> le b c = true -> le a c = true) ->
  StronglySorted (fun a b => le a b = true) l ->
  StronglySorted (fun a b => le a b = true) (insert_by le x l).
Proof.
  intros Htot Htr. induction 1 as [|y l Hl IH Hy]; cbn; [repeat constructor|].
  destruct (le x y) eqn:E; constructor; try done.
  - by constructor.
  - constructor; [done|]. eapply Forall_impl; [|exact Hy]. intros z Hz. by eapply Htr.
  - apply List.Forall_forall. intros z Hz. apply list_elem_of_In, elem_of_insert_by in Hz as [->|Hz]; [auto|].
    rewrite List.Forall_forall in Hy. by apply Hy, list_elem_of_In.
Qed.

Lemma sort_by_sorted {A} (le : A -> A -> bool) l :
  (forall a b, le a b = false -> le b a = true) ->
  (forall a b c, le a b = true -> le b c = true -> le a c = true) ->
  StronglySorted (fun a b => le a b = true) (sort_by le l).
Proof. intros. induction l; cbn; [constructor|]. by apply insert_by_sorted. Qed.

(** A sorted permutation is unique, when the order separates the elements. *)
Lemma sorted_unique {A} (R : A -> A -> Prop) (l1 l2 : list A) :
  (forall x y, x ∈ l1 -> y ∈ l1 -> R x y -> R y x -> x = y) ->
  StronglySorted R l1 -> StronglySorted R l2 -> l1 ≡ₚ l2 -> l1 = l2.
Proof.
  revert l2. induction l1 as [|x l1 IH]; intros l2 Ha H1 H2 Hp.
  - by apply Permutation_nil in Hp.
  - destruct l2 as [|y l2]; [by apply Permutation_sym, Permutation_nil in Hp|].
    inversion H1 as [|? ? Hs1 Hf1]; inversion H2 as [|? ? Hs2 Hf2]; subst.
    rewrite List.Forall_forall in Hf1, Hf2.
    assert (Hxy : x = y).
    { assert (Hx : x ∈ y :: l2) by (rewrite <- Hp; apply list_elem_of_here).
      assert (Hy : y ∈ x :: l1) by (rewrite Hp; apply list_elem_of_here).
      apply elem_of_cons in Hx as [?|Hx]; [done|].
      assert (Hy' := Hy). apply elem_of_cons in Hy' as [->|Hy']; [done|].
      apply Ha; [apply list_elem_of_here|done|by apply Hf1, list_elem_of_In|
        by apply Hf2, list_elem_of_In]. }
    subst y. f_equal. apply IH; [|done..|by apply (Permutation_cons_inv (a := x))].
    intros a b Ha' Hb'. apply Ha; by apply list_elem_of_further.
Qed.

Lemma sorted_app {A} (R : A -> A -> Prop) l1 l2 :
  StronglySorted R (l1 ++ l2) <->
  StronglySorted R l1 /\ StronglySorted R l2 /\ (forall x y, In x l1 -> In y l2 -> R x y).
Proof.
  induction l1 as [|x l1 IH]; cbn.
  - split; [intros H; split_and!; [constructor|done|done]|by intros (_ & H & _)].
  - split.
    + inversion_clear 1 as [|? ? Hs Hf]. apply IH in Hs as (H1 & H2 & H3).
      rewrite List.Forall_app, !List.Forall_forall in Hf. destruct Hf as [Hf1 Hf2].
      split_and!; [constructor; [done|by apply List.Forall_forall]|done|].
      intros a b [<-|Ha] Hb; auto.
    + intros (H1 & H2 & H3). inversion_clear H1 as [|? ? Hs Hf].
      constructor; [apply IH; split_and!; auto|]. rewrite List.Forall_app, !List.Forall_forall in *. auto.
Qed.

Lemma sorted_rev {A} (R : A -> A -> Prop) l :
  StronglySorted R l -> StronglySorted (fun x y => R y x) (rev l).
Proof.
  induction 1 as [|x l Hs IH Hf]; cbn; [constructor|].
  rewrite List.Forall_forall in Hf. apply sorted_app. split_and!; [done|repeat constructor|].
  intros a b Ha [<-|[]]. apply Hf. by apply in_rev.
Qed.

Lemma foldM_app {S A B} (f : B -> A -> stm S B) b (l1 l2 : list A) s :
  foldM f b (l1 ++ l2) s = (b' ← foldM f b l1; foldM f b' l2) s.
Proof.
  revert b s. induction l1 as [|x l1 IH]; intros b s; cbn; [done|].
  unfold mbind, stm_bind in *. destruct (f b x s) as [[b'|e] s']; [apply IH|done].
Qed.

(** Invariant rule of the [for] loop: a relation that every iteration preserves
    holds of the final state, whether the loop ends or raises. *)
Lemma foldM_state_inv {S A B} (P : S -> S -> Prop) (f : B -> A -> stm S B)
  (l : list A) (b : B) (s : S) :
  (forall s, P s s) ->
  (forall s1 s2 s3, P s1 s2 -> P s2 s3 -> P s1 s3) ->
  (forall b x s, x ∈ l -> P s (f b x s).2) ->
  P s (foldM f b l s).2.
Proof.
  intros Hrefl Htrans. revert b s.
  induction l as [|x l IH]; intros b s Hstep; cbn; [apply Hrefl|].
  unfold mbind, stm_bind. pose proof (Hstep b x s ltac:(set_solver)) as H1.
  destruct (f b x s) as [[b'|e] s'] eqn:E; cbn in *; [|done].
  eapply Htrans; [apply H1|]. apply IH. intros. apply Hstep. set_solver.
Qed.

(** ** Sums over tables *)

Lemma map_sum_empty {V} (f : V -> Z) : map_sum f ∅ = 0.
Proof. apply map_fold_empty. Qed.

Lemma map_sum_insert {V} (f : V -> Z) m k v :
  m !! k = None -> map_sum f (<[k:=v]> m) = f v + map_sum f m.
Proof.
  intros Hk. unfold map_sum. rewrite (map_fold_insert_L _ 0 k v m); [done| |done].
  intros. lia.
Qed.

Lemma map_sum_delete {V} (f : V -> Z) m k v :
  m !! k = Some v -> map_sum f m = f v + map_sum f (delete k m).
Proof.
  intros Hk. rewrite <- (insert_delete_id m k v) at 1 by done.
  apply map_sum_insert. apply lookup_delete_eq.
Qed.

Lemma map_sum_update {V} (f : V -> Z) m k v v' :
  m !! k = Some v -> map_sum f (<[k:=v']> m) = map_sum f m - f v + f v'.
Proof.
  intros Hk. rewrite <- insert_delete_eq.
  rewrite map_sum_insert by apply lookup_delete_eq. rewrite (map_sum_delete f m k v) by done. lia.
Qed.

Lemma map_sum_nonneg {V} (f : V -> Z) m :
  (forall k v, m !! k = Some v -> 0 <= f v) -> 0 <= map_sum f m.
Proof.
  induction m as [|k v m Hk IH] using map_ind; intros H; [by rewrite map_sum_empty|].
  rewrite map_sum_insert by done.
  assert (0 <= f v) by (eapply (H k); apply lookup_insert_eq).
  assert (0 <= map_sum f m).
  { apply IH. intros k' v' Hk'. apply (H k'). rewrite lookup_insert_ne; [done|congruence]. }
  lia.
Qed.

Lemma map_sum_ext {V} (f g : V -> Z) m :
  (forall k v, m !! k = Some v -> f v = g v) -> map_sum f m = map_sum g m.
Proof.
  induction m as [|k v m Hk IH] using map_ind; intros H; [by rewrite !map_sum_empty|].
  rewrite !map_sum_insert by done. f_equal; [apply (H k); apply lookup_insert_eq|].
  apply IH. intros k' v' Hk'. apply (H k'). rewrite lookup_insert_ne; [done|congruence].
Qed.

Lemma sum_by_app {A} (f : A -> Z) l1 l2 : sum_by f (l1 ++ l2) = sum_by f l1 + sum_by f l2.
Proof. induction l1 as [|x l1 IH]; cbn; lia. Qed.

Lemma sum_by_perm {A} (f : A -> Z) l1 l2 : l1 ≡ₚ l2 -> sum_by f l1 = sum_by f l2.
Proof. induction 1; cbn; lia. Qed.

Lemma map_sum_list {V} (f : V -> Z) m : map_sum f m = sum_by f (map snd (map_to_list m)).
Proof.
  induction m as [|k v m Hk IH] using map_ind.
  - by rewrite map_sum_empty, map_to_list_empty.
  - rewrite map_sum_insert by done. rewrite IH.
    symmetry. apply (sum_by_perm f _ (map snd ((k, v) :: map_to_list m))).
    apply (Permutation_map snd). by apply map_to_list_insert.
Qed.
