(* ===== verification/PyStr.v ===== *)
(** * Python text operations

    A Python [str] is modelled by the bytes of its UTF-8 encoding.  The case
    mappings and the character classes below are those of ASCII; a byte of a
    longer code point belongs to no class and is its own upper and lower case,
    which is right for the Hangul literals of the repository.  SQLite compares
    TEXT columns byte by byte (the BINARY collation), as [text_ltb] does. *)

From stdpp Require Import pretty.

From S2P Require Import Prelude.

Definition code (c : ascii) : Z := Z.of_N (Ascii.N_of_ascii c).

(** [c.isspace()] *)
Definition is_space (c : ascii) : bool :=
  ((9 <=? code c) && (code c <=? 13)) || ((28 <=? code c) && (code c <=? 32)).
Definition is_digit (c : ascii) : bool := (48 <=? code c) && (code c <=? 57).
Definition is_upper (c : ascii) : bool := (65 <=? code c) && (code c <=? 90).
Definition is_lower (c : ascii) : bool := (97 <=? code c) && (code c <=? 122).
Definition is_alnum (c : ascii) : bool := is_digit c || is_upper c || is_lower c.

Definition ascii_upper (c : ascii) : ascii :=
  if is_lower c then Ascii.ascii_of_N (Ascii.N_of_ascii c - 32) else c.
Definition ascii_lower (c : ascii) : ascii :=
  if is_upper c then Ascii.ascii_of_N (Ascii.N_of_ascii c + 32) else c.

Fixpoint smap (f : ascii -> ascii) (s : string) : string :=
  match s with "" => "" | String c s' => String (f c) (smap f s') end.

(** [s.upper()], [s.lower()] *)
Definition upper : string -> string := smap ascii_upper.
Definition lower : string -> string := smap ascii_lower.

Fixpoint lstrip_by (p : ascii -> bool) (s : string) : string :=
  match s with
  | "" => ""
  | String c s' => if p c then lstrip_by p s' else s
  end.

Fixpoint rstrip_by (p : ascii -> bool) (s : string) : string :=
  match s with
  | "" => ""
  | String c s' =>
      match rstrip_by p s' with
      | "" => if p c then "" else String c ""
      | t => String c t
      end
  end.

(** [s.strip()] *)
Definition strip (s : string) : string := rstrip_by is_space (lstrip_by is_space s).

Fixpoint sforall (p : ascii -> bool) (s : string) : bool :=
  match s with "" => true | String c s' => p c && sforall p s' end.

(** [not s] *)
Definition sempty (s : string) : bool := String.eqb s "".

(** [s.isdigit()]: false on the empty string. *)
Definition isdigit (s : string) : bool := negb (sempty s) && sforall is_digit s.

(** [len(s)], in code points: continuation bytes do not count. *)
Fixpoint slen (s : string) : Z :=
  match s with
  | "" => 0
  | String c s' => (if (128 <=? code c) && (code c <? 192) then 0 else 1) + slen s'
  end.

(** [prefix in s] at the start: [s.startswith(prefix)]. *)
Definition startswith (pre s : string) : bool := String.prefix pre s.

(** [s.removeprefix(pre)] *)
Definition removeprefix (pre s : string) : string :=
  if String.prefix pre s
  then String.substring (String.length pre) (String.length s - String.length pre) s
  else s.

(** [sub in s] *)
Fixpoint contains (sub s : string) : bool :=
  String.prefix sub s ||
  match s with "" => false | String _ s' => contains sub s' end.

(** [s.split(c)] for a one-character separator. *)
Fixpoint split_on (sep : ascii) (s : string) : list string :=
  match s with
  | "" => [""]
  | String c s' =>
      if bool_decide (c = sep) then "" :: split_on sep s'
      else match split_on sep s' with
           | w :: ws => String c w :: ws
           | [] => [String c ""]
           end
  end.

(** [sep.join(l)] *)
Fixpoint join (sep : string) (l : list string) : string :=
  match l with
  | [] => ""
  | [w] => w
  | w :: ws => w +:+ sep +:+ join sep ws
  end.

(** [s.replace(c, "")] for a one-character pattern. *)
Fixpoint remove_char (c : ascii) (s : string) : string :=
  match s with
  | "" => ""
  | String d s' => if bool_decide (d = c) then remove_char c s' else String d (remove_char c s')
  end.

(** [str(n)] of an integer. *)
Definition str_int (z : Z) : string := pretty z.

(** The order of TEXT values in SQLite. *)
Definition text_ltb (a b : string) : bool := String.ltb a b.
Definition text_leb (a b : string) : bool := String.leb a b.

(** Reads a run of decimal digits: the value and how many digits were read. *)
Fixpoint digits (acc : Z) (n : nat) (s : string) : Z * nat * string :=
  match s with
  | String c s' =>
      if is_digit c then digits (10 * acc + (code c - 48)) (S n) s' else (acc, n, s)
  | "" => (acc, n, s)
  end.

(** ** Facts *)

Lemma text_leb_refl s : text_leb s s = true.
Proof.
  unfold text_leb, String.leb. induction s as [|c s IH]; cbn; [done|].
  unfold Ascii.compare. by rewrite N.compare_refl.
Qed.

Lemma lower_upper_idemp_c c : ascii_upper (ascii_upper c) = ascii_upper c.
Proof. destruct c as [[][][][][][][][]]; reflexivity. Qed.

Lemma upper_idemp s : upper (upper s) = upper s.
Proof.
  unfold upper. induction s as [|c s IH]; cbn; [done|].
  by rewrite lower_upper_idemp_c, IH.
Qed.

(** What [strip] returns has no surrounding space, so stripping twice is
    stripping once. *)
Lemma rstrip_by_idemp p s : rstrip_by p (rstrip_by p s) = rstrip_by p s.
Proof.
  induction s as [|c s IH]; cbn; [done|].
  destruct (rstrip_by p s) as [|d t] eqn:E.
  - destruct (p c) eqn:Hc; cbn; [done|]. by rewrite Hc.
  - cbn in *. by rewrite IH.
Qed.

Lemma lstrip_rstrip_by p s :
  lstrip_by p s = s -> lstrip_by p (rstrip_by p s) = rstrip_by p s.
Proof.
  destruct s as [|c s]; cbn; [done|].
  destruct (p c) eqn:Hc.
  - intros H. exfalso. assert (Hl : (String.length (lstrip_by p s) <= String.length s)%nat).
    { clear. induction s as [|c s IH]; cbn; [lia|]. destruct (p c); cbn; lia. }
    rewrite H in Hl. cbn in Hl. lia.
  - intros _. destruct (rstrip_by p s) as [|d t]; cbn; by rewrite Hc.
Qed.

Lemma lstrip_by_idemp p s : lstrip_by p (lstrip_by p s) = lstrip_by p s.
Proof. induction s as [|c s IH]; cbn; [done|]. destruct (p c) eqn:Hc; cbn; [done|by rewrite Hc]. Qed.

Lemma strip_idemp s : strip (strip s) = strip s.
Proof.
  unfold strip. rewrite lstrip_rstrip_by by apply lstrip_by_idemp. apply rstrip_by_idemp.
Qed.

Lemma strip_head c s : is_space c = false -> sempty (strip (String c s)) = false.
Proof. intros H. unfold strip. cbn. rewrite H. cbn. rewrite H. by destruct (rstrip_by is_space s). Qed.
