(* ===== verification/PyFloat.v ===== *)
(** * Python floats

    A Python [float] is an IEEE 754 binary64 number; it is modelled exactly, by
    the Standard Library's executable specification [SpecFloat] at precision 53
    and maximal exponent 1024.  Comparisons are those of IEEE 754 (false on
    NaN), arithmetic rounds to nearest even, and the conversions and the
    division raise where Python raises.  No algebraic law of the reals is
    assumed: the lemmas below are about the order only, and hold of every
    value, normalised or not. *)

From Stdlib Require Import Floats.SpecFloat.
From S2P Require Import Prelude.

Definition float : Type := spec_float.

#[export] Instance float_eq_dec : EqDecision float.
Proof. unfold EqDecision, Decision, float. decide equality; try apply Z.eq_dec; try apply Pos.eq_dec; apply Bool.bool_dec. Defined.

Declare Scope float_scope.
Delimit Scope float_scope with F.
Bind Scope float_scope with float.

(** ** Arithmetic and comparison *)

Definition fadd (x y : float) : float := SFadd 53 1024 x y.
Definition fsub (x y : float) : float := SFsub 53 1024 x y.
Definition fmul (x y : float) : float := SFmul 53 1024 x y.
Definition fopp (x : float) : float := SFopp x.
(** [abs(x)] *)
Definition fabs (x : float) : float := SFabs x.
Definition fltb (x y : float) : bool := SFltb x y.
Definition fleb (x y : float) : bool := SFleb x y.
Definition feqb (x y : float) : bool := SFeqb x y.

Definition fzero : float := S754_zero false.
Definition finf : float := S754_infinity false.

(** [math.isfinite(x)] *)
Definition isfinite (x : float) : bool :=
  match x with S754_zero _ | S754_finite _ _ _ => true | _ => false end.

(** The IEEE quotient, and [a / b], which raises on a zero divisor. *)
Definition fquot (x y : float) : float := SFdiv 53 1024 x y.
Definition fdiv (x y : float) : res float :=
  if feqb y fzero then Err ZeroDivisionError else Ok (fquot x y).

(** The representable numbers: a finite value in its canonical form.  Every
    float of a running program is one. *)
Definition is_double (x : float) : bool := valid_binary 53 1024 x.

(** [max(x, y)] and [min(x, y)]: the first argument unless the second is
    strictly better, so a NaN in first place stays. *)
Definition fmax (x y : float) : float := if fltb x y then y else x.
Definition fmin (x y : float) : float := if fltb y x then y else x.

(** The nearest float of an integer, and of a quotient of integers (how a
    decimal literal and [int / int] are rounded). *)
Definition f_of_Z (z : Z) : float := binary_normalize 53 1024 z 0 false.

Definition f_ratio (n : Z) (d : positive) : float :=
  match n with
  | Z0 => fzero
  | Zpos p => SFdiv 53 1024 (S754_finite false p 0) (S754_finite false d 0)
  | Zneg p => SFdiv 53 1024 (S754_finite true p 0) (S754_finite false d 0)
  end.

(** [float(n)] of an integer. *)
Definition float_of_int (z : Z) : res float :=
  let x := f_of_Z z in if isfinite x then Ok x else Err OverflowError.

(** ** Conversions to integers *)

(** The nearest integer of a quotient, ties to even. *)
Definition half_even (n d : Z) : Z :=
  let q := n / d in
  match 2 * (n mod d) ?= d with
  | Lt => q
  | Gt => q + 1
  | Eq => if Z.even q then q else q + 1
  end.


(** The value of a finite float as [m * 2^e] with a signed [m]. *)
Definition f_parts (x : float) : Z * Z :=
  match x with
  | S754_finite s m e => ((if s then Z.neg m else Z.pos m), e)
  | _ => (0, 0)
  end.

(** [int(x)]: truncation towards zero. *)
Definition f_trunc (x : float) : Z :=
  let '(m, e) := f_parts x in
  if 0 <=? e then m * 2 ^ e else Z.quot m (2 ^ (- e)).

(** [round(x)] *)
Definition round_int (x : float) : res Z :=
  match x with
  | S754_nan => Err (ValueError "cannot convert float NaN to integer")
  | S754_infinity _ => Err OverflowError
  | _ => let '(m, e) := f_parts x in Ok (if 0 <=? e then m * 2 ^ e else half_even m (2 ^ (- e)))
  end.

(** [math.floor(x)] *)
Definition f_floor (x : float) : Z :=
  let '(m, e) := f_parts x in
  if 0 <=? e then m * 2 ^ e else m / 2 ^ (- e).

Definition int_of_float (x : float) : res Z :=
  match x with
  | S754_nan => Err (ValueError "cannot convert float NaN to integer")
  | S754_infinity _ => Err OverflowError
  | _ => Ok (f_trunc x)
  end.

Definition floor_of_float (x : float) : res Z :=
  match x with
  | S754_nan => Err (ValueError "cannot convert float NaN to integer")
  | S754_infinity _ => Err OverflowError
  | _ => Ok (f_floor x)
  end.

(** [q * x] of an integer and a float: the integer is converted first. *)
Definition fmul_Z (q : Z) (x : float) : res float :=
  f ← float_of_int q; Ok (fmul f x).

(** ** Floor division, as CPython's [float_floor_div] computes it *)

(** C's [fmod]: exact, with the sign of the dividend. *)
Definition f_fmod (x y : float) : float :=
  match x, y with
  | S754_nan, _ | _, S754_nan | S754_infinity _, _ | _, S754_zero _ => S754_nan
  | _, S754_infinity _ => x
  | S754_zero _, _ => x
  | S754_finite sx mx ex, S754_finite _ my ey =>
      let e := Z.min ex ey in
      let a := Z.pos mx * 2 ^ (ex - e) in
      let b := Z.pos my * 2 ^ (ey - e) in
      let r := a mod b in
      binary_normalize 53 1024 (if sx then - r else r) e sx
  end.

Definition f_negative (x : float) : bool := fltb x fzero.

(** C's [floor] as a float. *)
Definition f_floor_float (x : float) : float :=
  match x with
  | S754_finite s m e => if 0 <=? e then x else binary_normalize 53 1024 (f_floor x) 0 s
  | _ => x
  end.

Definition f_half : float := f_ratio 1 2.
Definition f_one : float := f_of_Z 1.

(** [vx // wx] *)
Definition f_floordiv (vx wx : float) : res float :=
  if feqb wx fzero then Err ZeroDivisionError
  else
    let md := f_fmod vx wx in
    let div := SFdiv 53 1024 (fsub vx md) wx in
    let div := if negb (feqb md fzero) && negb (Bool.eqb (f_negative wx) (f_negative md))
               then fsub div f_one else div in
    if feqb div fzero
    then Ok (S754_zero (match SFdiv 53 1024 vx wx with
                        | S754_zero s | S754_infinity s | S754_finite s _ _ => s
                        | S754_nan => false end))
    else
      let fl := f_floor_float div in
      Ok (if fltb f_half (fsub div fl) then fadd fl f_one else fl).

Infix "+" := fadd : float_scope.
Infix "-" := fsub : float_scope.
Infix "*" := fmul : float_scope.
Infix "<?" := fltb : float_scope.
Infix "<=?" := fleb : float_scope.
Infix "=?" := feqb : float_scope.
Notation "x >? y" := (fltb y x) (only parsing) : float_scope.
Notation "x >=? y" := (fleb y x) (only parsing) : float_scope.

(** The literals of the source, rounded as the Python compiler rounds them. *)
Notation "# n" := (f_of_Z n) (at level 1, format "# n") : float_scope.

(** ** The order *)

(** A float's place in the order: class, signed exponent, signed mantissa. *)
Definition fkey (x : float) : option (Z * Z * Z) :=
  match x with
  | S754_nan => None
  | S754_infinity s => Some ((if s then -2 else 2), 0, 0)
  | S754_zero _ => Some (0, 0, 0)
  | S754_finite false m e => Some (1, e, Z.pos m)
  | S754_finite true m e => Some (-1, - e, Z.neg m)
  end.

Definition key_lt (a b : Z * Z * Z) : Prop :=
  let '(a1, a2, a3) := a in let '(b1, b2, b3) := b in
  a1 < b1 \/ (a1 = b1 /\ (a2 < b2 \/ (a2 = b2 /\ a3 < b3))).

Definition is_nan (x : float) : bool := match x with S754_nan => true | _ => false end.

Lemma fltb_key x y :
  fltb x y = true <-> exists a b, fkey x = Some a /\ fkey y = Some b /\ key_lt a b.
Proof.
  unfold fltb, SFltb, SFcompare.
  destruct x as [sx|sx| |sx mx ex], y as [sy|sy| |sy my ey]; cbn;
    try (destruct sx); try (destruct sy); cbn;
    (split; [intros H; try discriminate | intros (a & b & Ha & Hb & Hl); try discriminate]);
    try (eexists _, _; split; [reflexivity|split; [reflexivity|]]; cbn; lia);
    try (injection Ha as <-; injection Hb as <-; cbn in Hl; try lia; try reflexivity).
  all: try fold (Pos.compare mx my) in *; destruct (Z.compare_spec ex ey);
    try fold (Pos.compare mx my) in *; try destruct (Pos.compare_spec mx my);
    cbn in *; try discriminate; try reflexivity; try lia.
  all: eexists _, _; split; [reflexivity|split; [reflexivity|]]; cbn; lia.
Qed.

Lemma fleb_key x y :
  fleb x y = true <-> exists a b, fkey x = Some a /\ fkey y = Some b /\ ~ key_lt b a.
Proof.
  unfold fleb, SFleb, SFcompare.
  destruct x as [sx|sx| |sx mx ex], y as [sy|sy| |sy my ey]; cbn;
    try (destruct sx); try (destruct sy); cbn;
    (split; [intros H; try discriminate | intros (a & b & Ha & Hb & Hl); try discriminate]);
    try (eexists _, _; split; [reflexivity|split; [reflexivity|]]; cbn; lia);
    try (injection Ha as <-; injection Hb as <-; cbn in Hl; try lia; try reflexivity).
  all: try fold (Pos.compare mx my) in *; destruct (Z.compare_spec ex ey);
    try fold (Pos.compare mx my) in *; try destruct (Pos.compare_spec mx my);
    cbn in *; try discriminate; try reflexivity; try lia.
  all: eexists _, _; split; [reflexivity|split; [reflexivity|]]; cbn; lia.
Qed.

Lemma fkey_nan x : is_nan x = false <-> is_Some (fkey x).
Proof. destruct x as [|[]| |[]]; cbn; split; intros H; try done; try (by eexists); by destruct H. Qed.

Ltac float_order :=
  repeat match goal with
  | H : fltb _ _ = true |- _ => apply fltb_key in H as (?&?&?&?&?)
  | H : fleb _ _ = true |- _ => apply fleb_key in H as (?&?&?&?&?)
  | H : is_nan _ = false |- _ => apply fkey_nan in H as [? ?]
  | H1 : fkey ?x = Some _, H2 : fkey ?x = Some _ |- _ => rewrite H1 in H2; injection H2 as H2
  end; subst;
  repeat match goal with a : Z * Z * Z |- _ => destruct a as [[? ?] ?] end;
  cbn [key_lt] in *; simplify_eq.

Lemma fltb_trans x y z : fltb x y = true -> fltb y z = true -> fltb x z = true.
Proof. intros. float_order. apply fltb_key. eexists _, _. repeat split; eauto. cbn. lia. Qed.

Lemma fleb_trans x y z : fleb x y = true -> fleb y z = true -> fleb x z = true.
Proof. intros. float_order. apply fleb_key. eexists _, _. repeat split; eauto. cbn. lia. Qed.

Lemma fltb_fleb_trans x y z : fltb x y = true -> fleb y z = true -> fltb x z = true.
Proof. intros. float_order. apply fltb_key. eexists _, _. repeat split; eauto. cbn. lia. Qed.

Lemma fleb_fltb_trans x y z : fleb x y = true -> fltb y z = true -> fltb x z = true.
Proof. intros. float_order. apply fltb_key. eexists _, _. repeat split; eauto. cbn. lia. Qed.

Lemma fltb_fleb x y : fltb x y = true -> fleb x y = true.
Proof. intros. float_order. apply fleb_key. eexists _, _. repeat split; eauto. cbn. lia. Qed.

Lemma feqb_fleb x y : feqb x y = true -> fleb x y = true /\ fleb y x = true.
Proof.
  unfold feqb, fleb, SFeqb, SFleb, SFcompare.
  destruct x as [[]|[]| |[] mx ex], y as [[]|[]| |[] my ey]; cbn; try done;
    rewrite (Z.compare_antisym ex ey); destruct (ex ?= ey); cbn; try done;
    fold (Pos.compare mx my) (Pos.compare my mx);
    rewrite (Pos.compare_antisym mx my); by destruct (Pos.compare mx my).
Qed.

Lemma fltb_irrefl x : fltb x x = false.
Proof. apply not_true_iff_false. intros H. float_order. lia. Qed.

Lemma fltb_not_fleb x y : fltb x y = true -> fleb y x = false.
Proof. intros H. apply not_true_iff_false. intros H'. float_order. lia. Qed.

Lemma fltb_feqb x y : fltb x y = true -> feqb y x = false.
Proof.
  intros H. apply not_true_iff_false. intros [H' _]%feqb_fleb.
  apply fltb_not_fleb in H. congruence.
Qed.

Lemma fleb_not_fltb x y : fleb x y = true -> fltb y x = false.
Proof. intros H. apply not_true_iff_false. intros H'. float_order. lia. Qed.

Lemma fleb_refl x : is_nan x = false -> fleb x x = true.
Proof. intros H. float_order. apply fleb_key. eexists _, _. repeat split; eauto. cbn. lia. Qed.

(** On values that are not NaN the order is total. *)
Lemma fltb_false x y :
  is_nan x = false -> is_nan y = false -> fltb x y = false -> fleb y x = true.
Proof.
  intros Hx Hy H. apply fkey_nan in Hx as [a Ha], Hy as [b Hb]. apply fleb_key.
  exists b, a. split; [done|split; [done|]]. intros Hl.
  assert (fltb x y = true) by (apply fltb_key; eauto). congruence.
Qed.

Lemma fleb_false x y :
  is_nan x = false -> is_nan y = false -> fleb x y = false -> fltb y x = true.
Proof.
  intros Hx Hy H. apply fkey_nan in Hx as [a Ha], Hy as [b Hb].
  apply fltb_key. exists b, a. split; [done|split; [done|]].
  destruct a as [[a1 a2] a3], b as [[b1 b2] b3]; cbn.
  assert (Hn : ~ ~ key_lt (b1, b2, b3) (a1, a2, a3)).
  { intros Hn. assert (fleb x y = true) by (apply fleb_key; eauto). congruence. }
  cbn in Hn. lia.
Qed.

Lemma isfinite_not_nan x : isfinite x = true -> is_nan x = false.
Proof. by destruct x. Qed.

Lemma fltb_not_nan x y : fltb x y = true -> is_nan x = false /\ is_nan y = false.
Proof. intros H. apply fltb_key in H as (a & b & Ha & Hb & _). rewrite !fkey_nan. eauto. Qed.

Lemma fleb_not_nan x y : fleb x y = true -> is_nan x = false /\ is_nan y = false.
Proof. intros H. apply fleb_key in H as (a & b & Ha & Hb & _). rewrite !fkey_nan. eauto. Qed.

Lemma fmax_ge_l x y : is_nan x = false -> fleb x (fmax x y) = true.
Proof. unfold fmax. intros. destruct (fltb x y) eqn:E; [by apply fltb_fleb|by apply fleb_refl]. Qed.

Lemma fmax_ge_r x y : is_nan x = false -> is_nan y = false -> fleb y (fmax x y) = true.
Proof.
  unfold fmax. intros. destruct (fltb x y) eqn:E; [by apply fleb_refl|by apply fltb_false].
Qed.

Lemma fmin_le_l x y : is_nan x = false -> fleb (fmin x y) x = true.
Proof. unfold fmin. intros. destruct (fltb y x) eqn:E; [by apply fltb_fleb|by apply fleb_refl]. Qed.

Lemma fmin_le_r x y : is_nan x = false -> is_nan y = false -> fleb (fmin x y) y = true.
Proof. unfold fmin. intros. destruct (fltb y x) eqn:E; [by apply fleb_refl|by apply fltb_false]. Qed.

(** Multiplying a double by 1.0 leaves it unchanged. *)
Lemma shr_52 m :
  SpecFloat.iter_pos shr_1 52 {| shr_m := Z.pos (m * 4503599627370496); shr_r := false; shr_s := false |} =
  {| shr_m := Z.pos m; shr_r := false; shr_s := false |}.
Proof. rewrite Pos.mul_comm. reflexivity. Qed.

Lemma digits_52 m : Z.pos (digits2_pos (m * 4503599627370496)) = Z.pos (digits2_pos m) + 52.
Proof.
  rewrite Pos.mul_comm.
  assert (H : forall n p, Z.pos (digits2_pos (Nat.iter n xO p)) = Z.pos (digits2_pos p) + Z.of_nat n).
  { induction n as [|n IH]; intros p; [cbn; lia|].
    change (Z.pos (Pos.succ (digits2_pos (Nat.iter n xO p))) = Z.pos (digits2_pos p) + Z.of_nat (S n)).
    rewrite Pos2Z.inj_succ, IH. lia. }
  change (4503599627370496 * m)%positive with (Nat.iter 52 xO m). by rewrite H.
Qed.

Lemma fmul_one_r x : is_double x = true -> fmul x f_one = x.
Proof.
  destruct x as [s|s| |s m e]; cbn; try done; try (by destruct s).
  unfold bounded, canonical_mantissa. rewrite andb_true_iff, Z.eqb_eq, Z.leb_le.
  intros [Hc Hb]. unfold fmul, f_one, f_of_Z. cbn [SFmul binary_normalize].
  replace (binary_round 53 1024 false 1 0)
    with (S754_finite false 4503599627370496 (-52)) by reflexivity. cbn [SFmul].
  unfold binary_round_aux, shr_fexp at 1. cbn [Zdigits2 shr_record_of_loc].
  rewrite digits_52.
  replace (Z.pos (digits2_pos m) + 52 + (e + -52)) with (Z.pos (digits2_pos m) + e) by lia.
  rewrite Hc. replace (e - (e + -52)) with 52 by lia. cbn [shr]. rewrite shr_52.
  cbn [shr_m loc_of_shr_record round_nearest_even].
  unfold shr_fexp. cbn [Zdigits2 shr_record_of_loc].
  replace (e + -52 + 52) with e by lia. rewrite Hc.
  replace (e - e) with 0 by lia. cbn [shr shr_m].
  replace (e <=? 1024 - 53) with true by (symmetry; apply Z.leb_le; lia). by destruct s.
Qed.

(** A positive integer converts to a positive float. *)
Lemma shr_m_iter p mrs : 0 <= shr_m mrs -> shr_m (SpecFloat.iter_pos shr_1 p mrs) = shr_m mrs / 2 ^ Z.pos p.
Proof.
  assert (H1 : forall r, 0 <= shr_m r -> shr_m (shr_1 r) = shr_m r / 2).
  { intros [m ? ?] Hm. rewrite <- Z.div2_div. by destruct m as [|[?|?|]|]. }
  revert mrs. induction p as [p IH|p IH|]; intros mrs Hm; cbn [SpecFloat.iter_pos]; [| |by apply H1].
  - assert (P1 : 0 <= shr_m (shr_1 mrs)) by (rewrite H1 by done; by apply Z.div_pos).
    pose proof (IH _ P1) as E. assert (P2 : 0 <= shr_m (SpecFloat.iter_pos shr_1 p (shr_1 mrs))) by (rewrite E; apply Z.div_pos; [done|apply Z.pow_pos_nonneg; lia]).
    rewrite (IH _ P2), E, H1 by done.
    rewrite !Z.div_div by lia. f_equal. rewrite Pos2Z.inj_xI, Z.pow_add_r, Z.mul_comm, <- Z.add_diag, Z.pow_add_r by lia. lia.
  - pose proof (IH _ Hm) as E. assert (P2 : 0 <= shr_m (SpecFloat.iter_pos shr_1 p mrs)) by (rewrite E; apply Z.div_pos; [done|apply Z.pow_pos_nonneg; lia]).
    rewrite (IH _ P2), E.
    rewrite !Z.div_div by lia. f_equal. rewrite <- Z.pow_add_r by lia. f_equal. lia.
Qed.

Lemma digits2_bound p : 2 ^ (Z.pos (digits2_pos p) - 1) <= Z.pos p.
Proof.
  induction p as [p IH|p IH|]; cbn [digits2_pos]; [| |done];
    rewrite Pos2Z.inj_succ; replace (Z.succ (Z.pos (digits2_pos p)) - 1) with (Z.succ (Z.pos (digits2_pos p) - 1)) by lia;
    rewrite Z.pow_succ_r by lia; lia.
Qed.

Lemma shr_fexp_pos m e l : 0 < m -> -1074 <= e -> 0 < shr_m (fst (shr_fexp 53 1024 m e l)) /\ e <= snd (shr_fexp 53 1024 m e l).
Proof.
  intros Hm He. unfold shr_fexp, shr. destruct m as [|m|m]; try lia. cbn [Zdigits2].
  assert (Hr : shr_m (shr_record_of_loc (Z.pos m) l) = Z.pos m) by (by destruct l as [|[]]).
  destruct (SpecFloat.fexp 53 1024 (Z.pos (digits2_pos m) + e) - e) as [|n|n] eqn:En; cbn [fst snd]; rewrite ?Hr; try lia.
  split; [|lia]. rewrite shr_m_iter, Hr by lia. apply Z.div_str_pos. split; [lia|].
  etrans; [|apply digits2_bound]. apply Z.pow_le_mono_r; [lia|].
  unfold SpecFloat.fexp, SpecFloat.emin in En. lia.
Qed.

Lemma f_of_Z_pos z : 0 < z -> fltb fzero (f_of_Z z) = true.
Proof.
  intros Hz. destruct z as [|p|p]; try lia. unfold f_of_Z. cbn [binary_normalize]. unfold binary_round.
  destruct (shl_align p 0 _) as [mz ez] eqn:Es.
  assert (Hez : -1074 <= ez).
  { revert Es. unfold shl_align, SpecFloat.fexp, SpecFloat.emin.
    destruct (Z.max _ _ - 0) eqn:E; intros [= _ <-]; lia. }
  unfold binary_round_aux.
  destruct (shr_fexp 53 1024 (Z.pos mz) ez loc_Exact) as [m1 e1] eqn:E1.
  pose proof (shr_fexp_pos (Z.pos mz) ez loc_Exact ltac:(lia) Hez) as [H1 H2]. rewrite E1 in H1, H2. cbn [fst snd] in H1, H2.
  assert (Hr : 0 < round_nearest_even (shr_m m1) (loc_of_shr_record m1)).
  { destruct (loc_of_shr_record m1) as [|[]]; cbn; try lia. destruct (Z.even _); lia. }
  destruct (shr_fexp 53 1024 (round_nearest_even _ _) e1 loc_Exact) as [m2 e2] eqn:E2.
  pose proof (shr_fexp_pos _ e1 loc_Exact Hr ltac:(lia)) as [H3 _]. rewrite E2 in H3. cbn [fst] in H3.
  destruct (shr_m m2); try lia. by destruct (e2 <=? _).
Qed.

Lemma f_of_Z_nonzero z : 0 < z -> feqb (f_of_Z z) fzero = false.
Proof. intros H. by apply fltb_feqb, f_of_Z_pos. Qed.

#[export] Hint Resolve fltb_trans fleb_trans fltb_fleb_trans fleb_fltb_trans fltb_fleb
  fltb_not_fleb fleb_not_fltb isfinite_not_nan : kis.
