(* ===== verification/PyTime.v ===== *)
(** * Dates and times (the [datetime] module, [market/clock.py], [market/schedule.py])

    A [datetime] is its wall-clock reading in microseconds counted from
    1970-01-01T00:00:00 of the same wall clock, and its UTC offset in minutes
    ([None] for a naive value).  [isoformat] and [fromisoformat] are executable:
    timestamps are stored in SQLite as that text and compared as text there.
    [fromisoformat] reads the forms [isoformat] writes; the other spellings of
    ISO 8601 the library accepts do not occur in the ledger.  Offsets are whole
    minutes and years are those [datetime] has, 1 to 9999. *)

From stdpp Require Import pretty.
From S2P Require Import Prelude PyStr.

Record datetime := Datetime { dt_us : Z; dt_tz : option Z }.

#[export] Instance datetime_eq_dec : EqDecision datetime.
Proof. solve_decision. Defined.

Definition us_per_second : Z := 1000000.
Definition us_per_minute : Z := 60 * us_per_second.
Definition us_per_day : Z := 1440 * us_per_minute.

(** ** The proleptic Gregorian calendar *)

(** Days since 1970-01-01 to (year, month, day) and back. *)
Definition civil_of_days (n : Z) : Z * Z * Z :=
  let z := n + 719468 in
  let era := z / 146097 in
  let doe := z mod 146097 in
  let yoe := (doe - doe / 1460 + doe / 36524 - doe / 146096) / 365 in
  let doy := doe - (365 * yoe + yoe / 4 - yoe / 100) in
  let mp := (5 * doy + 2) / 153 in
  let d := doy - (153 * mp + 2) / 5 + 1 in
  let m := if mp <? 10 then mp + 3 else mp - 9 in
  ((yoe + era * 400 + (if m <=? 2 then 1 else 0)), m, d).

Definition days_of_civil (y m d : Z) : Z :=
  let y' := if m <=? 2 then y - 1 else y in
  let era := y' / 400 in
  let yoe := y' mod 400 in
  let doy := (153 * (if 2 <? m then m - 3 else m + 9) + 2) / 5 + d - 1 in
  era * 146097 + (yoe * 365 + yoe / 4 - yoe / 100 + doy) - 719468.

Definition dt_days (d : datetime) : Z := dt_us d / us_per_day.
Definition dt_tod (d : datetime) : Z := dt_us d mod us_per_day.

(** [value.weekday()]: Monday is 0. *)
Definition weekday (d : datetime) : Z := (dt_days d + 3) mod 7.

(** [value.time()] compared as microseconds since midnight. *)
Definition time_of (h m : Z) : Z := (60 * h + m) * us_per_minute.

(** [value.replace(second=0, microsecond=0)] *)
Definition truncate_minute (d : datetime) : datetime :=
  Datetime (dt_us d - dt_us d mod us_per_minute) (dt_tz d).

(** ** Instants *)

Definition instant (d : datetime) : Z :=
  match dt_tz d with
  | Some off => dt_us d - off * us_per_minute
  | None => dt_us d
  end.

Definition is_naive (d : datetime) : bool :=
  match dt_tz d with None => true | Some _ => false end.

(** [value.replace(tzinfo=tz)] and [value.astimezone(tz)] of an aware value. *)
Definition with_tz (d : datetime) (tz : option Z) : datetime := Datetime (dt_us d) tz.
Definition astimezone (d : datetime) (off : Z) : datetime :=
  Datetime (instant d + off * us_per_minute) (Some off).

Definition UTC : Z := 0.
Definition KST : Z := 540.

(** [a < b]: Python refuses to order an aware value against a naive one. *)
Definition dt_ltb (a b : datetime) : res bool :=
  if Bool.eqb (is_naive a) (is_naive b)
  then Ok (instant a <? instant b)
  else Err (TypeError "can't compare offset-naive and offset-aware datetimes").

(** [a - b] in microseconds, with the same restriction. *)
Definition dt_sub (a b : datetime) : res Z :=
  if Bool.eqb (is_naive a) (is_naive b)
  then Ok (instant a - instant b)
  else Err (TypeError "can't subtract offset-naive and offset-aware datetimes").

(** [value + timedelta(microseconds=us)]: wall-clock arithmetic. *)
Definition dt_add (d : datetime) (us : Z) : datetime := Datetime (dt_us d + us) (dt_tz d).

(** ** ISO text *)

(** [f"{n:0{w}d}"] of a non-negative integer. *)
Fixpoint pad_digits (w : nat) (n : Z) : string :=
  match w with
  | O => ""
  | S w' => pad_digits w' (n / 10) +:+ String (Ascii.ascii_of_N (Z.to_N (48 + n mod 10))) ""
  end.

Definition iso_date (n : Z) : string :=
  let '(y, m, d) := civil_of_days n in
  pad_digits 4 y +:+ "-" +:+ pad_digits 2 m +:+ "-" +:+ pad_digits 2 d.

Definition iso_time_seconds (tod : Z) : string :=
  let s := tod / us_per_second in
  pad_digits 2 (s / 3600) +:+ ":" +:+ pad_digits 2 (s / 60 mod 60) +:+ ":" +:+ pad_digits 2 (s mod 60).

Definition iso_micro (us : Z) : string :=
  if us =? 0 then "" else "." +:+ pad_digits 6 us.

Definition iso_offset (tz : option Z) : string :=
  match tz with
  | None => ""
  | Some off =>
      (if off <? 0 then "-" else "+") +:+
      pad_digits 2 (Z.abs off / 60) +:+ ":" +:+ pad_digits 2 (Z.abs off mod 60)
  end.

(** [value.isoformat()] *)
Definition isoformat (d : datetime) : string :=
  iso_date (dt_days d) +:+ "T" +:+ iso_time_seconds (dt_tod d) +:+
  iso_micro (dt_tod d mod us_per_second) +:+ iso_offset (dt_tz d).

(** [value.isoformat(timespec="seconds")] *)
Definition isoformat_seconds (d : datetime) : string :=
  iso_date (dt_days d) +:+ "T" +:+ iso_time_seconds (dt_tod d) +:+ iso_offset (dt_tz d).

(** A fixed-width field of decimal digits. *)
Fixpoint read_digits (w : nat) (acc : Z) (s : string) : option (Z * string) :=
  match w, s with
  | O, _ => Some (acc, s)
  | S w', String c s' => if is_digit c then read_digits w' (10 * acc + (code c - 48)) s' else None
  | S _, "" => None
  end.

Definition read_char (c : ascii) (s : string) : option string :=
  match s with
  | String d s' => if bool_decide (d = c) then Some s' else None
  | "" => None
  end.

Definition read_offset (s : string) : option (option Z) :=
  match s with
  | "" => Some None
  | String c s' =>
      sign ← (if bool_decide (c = "+"%char) then Some 1
              else if bool_decide (c = "-"%char) then Some (-1) else None);
      '(h, s1) ← read_digits 2 0 s';
      s2 ← read_char ":" s1;
      '(m, s3) ← read_digits 2 0 s2;
      if String.eqb s3 "" && (h <? 24) && (m <? 60) then Some (Some (sign * (60 * h + m))) else None
  end.

Definition days_in_month (y m : Z) : Z :=
  if m =? 2
  then if ((y mod 4 =? 0) && negb (y mod 100 =? 0)) || (y mod 400 =? 0) then 29 else 28
  else if (m =? 4) || (m =? 6) || (m =? 9) || (m =? 11) then 30 else 31.

(** [datetime.fromisoformat(text)] *)
Definition read_iso (s : string) : option datetime :=
  '(y, s) ← read_digits 4 0 s; s ← read_char "-" s;
  '(m, s) ← read_digits 2 0 s; s ← read_char "-" s;
  '(d, s) ← read_digits 2 0 s; s ← read_char "T" s;
  '(hh, s) ← read_digits 2 0 s; s ← read_char ":" s;
  '(mm, s) ← read_digits 2 0 s; s ← read_char ":" s;
  '(ss, s) ← read_digits 2 0 s;
  '(us, s) ← (match read_char "." s with
              | Some s' => read_digits 6 0 s'
              | None => Some (0, s)
              end);
  off ← read_offset s;
  if (1 <=? y) && (1 <=? m) && (m <=? 12) && (1 <=? d) && (d <=? days_in_month y m)
     && (hh <? 24) && (mm <? 60) && (ss <? 60)
  then Some (Datetime (days_of_civil y m d * us_per_day +
                       ((3600 * hh + 60 * mm + ss) * us_per_second + us)) off)
  else None.

Definition fromisoformat (s : string) : res datetime :=
  match read_iso s with
  | Some d => Ok d
  | None => Err (ValueError "Invalid isoformat string")
  end.

(** ** [market/schedule.py] *)

Definition REGULAR_ORDER_START : Z := time_of 9 0.
Definition REGULAR_ORDER_END : Z := time_of 15 20.
Definition NEW_ENTRY_END : Z := time_of 15 0.
Definition FORCED_EXIT_START : Z := time_of 15 10.

Definition as_kst (value : datetime) : datetime :=
  if is_naive value then value else with_tz (astimezone value KST) None.

Section Schedule.
(** The XKRX calendar of the [exchange_calendars] package when it could be
    loaded: what [_calendar()] returns; its argument is the KST wall clock. *)
Variable calendar : option (Z -> bool).

Definition is_regular_market_open (value : datetime) : bool :=
  let now := as_kst value in
  match calendar with
  | Some is_open_on_minute => is_open_on_minute (dt_us now)
  | None =>
      if 5 <=? weekday now then false
      else (REGULAR_ORDER_START <=? dt_tod now) && (dt_tod now <=? REGULAR_ORDER_END)
  end.

Definition exchange_calendar_available : bool :=
  match calendar with Some _ => true | None => false end.

Definition is_new_entry_window (value : datetime) : bool :=
  let now := as_kst value in
  is_regular_market_open now
    && (REGULAR_ORDER_START <=? dt_tod now) && (dt_tod now <=? NEW_ENTRY_END).

Definition is_forced_exit_window (value : datetime) : bool :=
  let now := as_kst value in
  is_regular_market_open now
    && (FORCED_EXIT_START <=? dt_tod now) && (dt_tod now <=? REGULAR_ORDER_END).
End Schedule.

Definition is_previous_trading_day_position (opened_at now : datetime) : bool :=
  dt_days (as_kst opened_at) <? dt_days (as_kst now).
