(* ===== verification/Risk.v ===== *)
(** * The deterministic risk engine ([risk/models.py], [risk/position_sizer.py],
    [risk/risk_engine.py])

    Amounts are floats, counts are integers.  [calculate_quantity] and
    [evaluate_order_intent] may raise (a NaN price reaches [int()]), so their
    results are of type [res]. *)

From S2P Require Import Prelude PyStr PyFloat.

(** ** [risk/models.py] *)

Record RiskConfig := mkRiskConfig {
  allocated_krw : float;
  risk_per_trade_pct : float;
  max_position_pct : float;
  max_total_exposure_pct : float;
  max_positions : Z;
  max_daily_loss_pct : float;
  consecutive_loss_limit : Z;
  max_trades_per_day : option Z;
  max_orders_per_symbol : Z;
  minimum_confidence : float;
}.

Definition default_risk_config : RiskConfig := {|
  allocated_krw := f_of_Z 3000000;
  risk_per_trade_pct := f_ratio 3 10;
  max_position_pct := f_of_Z 10;
  max_total_exposure_pct := f_of_Z 20;
  max_positions := 2;
  max_daily_loss_pct := f_of_Z 1;
  consecutive_loss_limit := 3;
  max_trades_per_day := None;
  max_orders_per_symbol := 3;
  minimum_confidence := f_ratio 75 100;
|}.

Record PositionState := mkPositionState {
  ps_symbol : string;
  ps_quantity : Z;
  ps_avg_price : float;
  ps_stop_loss : option float;
}.

Record PortfolioState := mkPortfolioState {
  current_exposure_krw : float;
  open_positions : list PositionState;
  daily_pnl_krw : float;
  consecutive_losses : Z;
  trades_today : Z;
  orders_by_symbol : gmap string Z;
}.

Record OrderIntent := mkOrderIntent {
  oi_symbol : string;
  oi_strategy : string;
  oi_signal_id : string;
  oi_entry_price : float;
  oi_stop_loss : float;
  oi_confidence : option float;
}.

Record RiskDecision := mkRiskDecision {
  approved : bool;
  rd_reason : string;
  rd_quantity : Z;
  max_loss_krw : float;
}.

(** [RiskDecision(False, reason)] *)
Definition rejected (reason : string) : RiskDecision := mkRiskDecision false reason 0 fzero.

(** ** [risk/position_sizer.py] *)

(** [config.allocated_krw * pct / 100] *)
Definition pct_of_allocation (config : RiskConfig) (pct : float) : res float :=
  fdiv (allocated_krw config * pct)%F (f_of_Z 100).

(** [entry_price <= 0 or stop_loss <= 0 or stop_loss >= entry_price] *)
Definition bad_entry_or_stop (entry_price stop_loss : float) : bool :=
  ((entry_price <=? fzero) || (stop_loss <=? fzero) || (stop_loss >=? entry_price))%F.

Definition calculate_quantity (config : RiskConfig) (entry_price stop_loss : float) : res Z :=
  if bad_entry_or_stop entry_price stop_loss then Ok 0
  else
    let per_share_risk := (entry_price - stop_loss)%F in
    risk_budget ← pct_of_allocation config (risk_per_trade_pct config);
    position_cap ← pct_of_allocation config (max_position_pct config);
    if (risk_budget <=? fzero)%F || (position_cap <=? fzero)%F then Ok 0
    else
      by_risk ← f_floordiv risk_budget per_share_risk ≫= int_of_float;
      by_capital ← f_floordiv position_cap entry_price ≫= int_of_float;
      Ok (Z.max 0 (Z.min by_risk by_capital)).

(** ** [risk/risk_engine.py] *)

Definition evaluate_order_intent
    (config : RiskConfig) (portfolio : PortfolioState) (intent : OrderIntent) : res RiskDecision :=
  if sempty (oi_symbol intent) || sempty (oi_strategy intent) || sempty (oi_signal_id intent)
  then Ok (rejected "invalid_intent") else
  if bad_entry_or_stop (oi_entry_price intent) (oi_stop_loss intent)
  then Ok (rejected "invalid_entry_or_stop") else
  if (match oi_confidence intent with
      | Some c => (c <? minimum_confidence config)%F
      | None => false
      end)
  then Ok (rejected "confidence_below_minimum") else
  if existsb (fun position => String.eqb (ps_symbol position) (oi_symbol intent))
       (open_positions portfolio)
  then Ok (rejected "existing_position_same_symbol") else
  if (max_positions config <=? Z.of_nat (length (open_positions portfolio)))
  then Ok (rejected "max_positions_reached") else
  daily_limit ← pct_of_allocation config (max_daily_loss_pct config);
  if (daily_pnl_krw portfolio <=? fopp daily_limit)%F
  then Ok (rejected "daily_loss_limit_reached") else
  if (consecutive_loss_limit config <=? consecutive_losses portfolio)
  then Ok (rejected "consecutive_loss_limit_reached") else
  if (match max_trades_per_day config with
      | Some limit => limit <=? trades_today portfolio
      | None => false
      end)
  then Ok (rejected "max_trades_per_day_reached") else
  if (max_orders_per_symbol config <=?
      or_else (orders_by_symbol portfolio !! oi_symbol intent) 0)
  then Ok (rejected "max_orders_per_symbol_reached") else
  quantity ← calculate_quantity config (oi_entry_price intent) (oi_stop_loss intent);
  if quantity <=? 0 then Ok (rejected "calculated_quantity_zero") else
  notional ← fmul_Z quantity (oi_entry_price intent);
  let new_exposure := (current_exposure_krw portfolio + notional)%F in
  exposure_cap ← pct_of_allocation config (max_total_exposure_pct config);
  if (exposure_cap <? new_exposure)%F
  then Ok (rejected "max_total_exposure_reached") else
  max_loss ← fmul_Z quantity (oi_entry_price intent - oi_stop_loss intent)%F;
  Ok (mkRiskDecision true "approved" quantity max_loss).

(** ** What an approval promises *)

(** The limits a new entry must respect, stated without the order in which the
    code tests them. *)
Record within_limits (config : RiskConfig) (portfolio : PortfolioState)
    (intent : OrderIntent) (quantity : Z) : Prop := {
  wl_named : oi_symbol intent <> "" /\ oi_strategy intent <> "" /\ oi_signal_id intent <> "";
  wl_ladder : bad_entry_or_stop (oi_entry_price intent) (oi_stop_loss intent) = false;
  wl_confident : forall c, oi_confidence intent = Some c ->
    fltb c (minimum_confidence config) = false;
  wl_new_symbol : forall p, p ∈ open_positions portfolio -> ps_symbol p <> oi_symbol intent;
  wl_positions : Z.of_nat (length (open_positions portfolio)) < max_positions config;
  wl_daily : forall lim, pct_of_allocation config (max_daily_loss_pct config) = Ok lim ->
    fleb (daily_pnl_krw portfolio) (fopp lim) = false;
  wl_losses : consecutive_losses portfolio < consecutive_loss_limit config;
  wl_trades : forall lim, max_trades_per_day config = Some lim -> trades_today portfolio < lim;
  wl_symbol_orders :
    or_else (orders_by_symbol portfolio !! oi_symbol intent) 0 < max_orders_per_symbol config;
  wl_quantity : calculate_quantity config (oi_entry_price intent) (oi_stop_loss intent) = Ok quantity
    /\ 0 < quantity;
  wl_exposure : forall notional cap,
    fmul_Z quantity (oi_entry_price intent) = Ok notional ->
    pct_of_allocation config (max_total_exposure_pct config) = Ok cap ->
    fltb cap (current_exposure_krw portfolio + notional)%F = false;
}.

(** A portfolio with at least the usage of another at the same exposure: more
    loss, losses in a row, trades and orders, and every position of the other. *)
Record more_used (p p' : PortfolioState) : Prop := {
  mu_exposure : current_exposure_krw p = current_exposure_krw p';
  mu_positions : forall q, q ∈ open_positions p -> q ∈ open_positions p';
  mu_count : (length (open_positions p) <= length (open_positions p'))%nat;
  mu_pnl : fleb (daily_pnl_krw p') (daily_pnl_krw p) = true;
  mu_losses : consecutive_losses p <= consecutive_losses p';
  mu_trades : trades_today p <= trades_today p';
  mu_orders : forall s, or_else (orders_by_symbol p !! s) 0 <= or_else (orders_by_symbol p' !! s) 0;
}.

(** Concrete inputs for the witnesses. *)
Definition sample_portfolio (losses : Z) : PortfolioState := {|
  current_exposure_krw := f_of_Z 100000;
  open_positions := [mkPositionState "000660" 1 (f_of_Z 100000) None];
  daily_pnl_krw := fopp (f_of_Z 1000);
  consecutive_losses := losses;
  trades_today := 4;
  orders_by_symbol := {["005930" := 1]};
|}.

Definition sample_intent : OrderIntent := {|
  oi_symbol := "005930";
  oi_strategy := "vwap_breakout";
  oi_signal_id := "sig-1";
  oi_entry_price := f_of_Z 70000;
  oi_stop_loss := f_of_Z 69000;
  oi_confidence := Some (f_ratio 8 10);
|}.

(** ** Lemmas *)

Lemma pct_of_allocation_ok config pct : exists x, pct_of_allocation config pct = Ok x.
Proof. eexists. unfold pct_of_allocation, fdiv. reflexivity. Qed.

Lemma existsb_symbol_false (s : string) l :
  existsb (fun p => String.eqb (ps_symbol p) s) l = false <->
  forall p, p ∈ l -> ps_symbol p <> s.
Proof.
  induction l as [|p l IH]; cbn.
  - split; [intros _ p Hp; by apply elem_of_nil in Hp|done].
  - rewrite orb_false_iff, String.eqb_neq, IH. split.
    + intros [H1 H2] q [->|Hq]%elem_of_cons; auto.
    + intros H. split; [apply H; left|intros q Hq; apply H; by right].
Qed.

Lemma calculate_quantity_nonneg config e s q : calculate_quantity config e s = Ok q -> 0 <= q.
Proof.
  unfold calculate_quantity. destruct (bad_entry_or_stop e s).
  - intros [= <-]. lia.
  - intros H. inv_ok.
    destruct (_ || _) in Hk0; inv_ok; [lia|]. apply Z.le_max_l.
Qed.

(** The size is capped by both budgets: it exceeds neither whole-share count. *)
Lemma calculate_quantity_caps config e s q :
  calculate_quantity config e s = Ok q -> 0 < q ->
  exists by_risk by_capital rb pc,
    pct_of_allocation config (risk_per_trade_pct config) = Ok rb /\
    pct_of_allocation config (max_position_pct config) = Ok pc /\
    f_floordiv rb (e - s)%F ≫= int_of_float = Ok by_risk /\
    f_floordiv pc e ≫= int_of_float = Ok by_capital /\
    q <= by_risk /\ q <= by_capital.
Proof.
  unfold calculate_quantity. destruct (bad_entry_or_stop e s).
  - intros [= <-]. lia.
  - intros H Hq. apply bind_Ok in H as (rb & Hrb & H). apply bind_Ok in H as (pc & Hpc & H).
    destruct (_ || _); [injection H as <-; lia|].
    apply bind_Ok in H as (br & Hbr & H). apply bind_Ok in H as (bc & Hbc & H).
    injection H as <-. exists br, bc, rb, pc. repeat split; try done; lia.
Qed.

(** Peels the first conditional or fallible step off an equation [_ = Ok d]. *)
Ltac peel H :=
  match type of H with
  | (if ?c then Ok (rejected _) else _) = Ok _ =>
      let E := fresh "Hg" in destruct c eqn:E; [injection H as <-|]
  | mbind _ _ = Ok _ =>
      let x := fresh "x" in let E := fresh "Hx" in apply bind_Ok in H as (x & E & H); cbn beta in H
  end.

Lemma evaluate_rejected_or config p i d :
  evaluate_order_intent config p i = Ok d ->
  approved d = true \/ exists r, d = rejected r.
Proof.
  unfold evaluate_order_intent. intros H.
  repeat (cbv zeta in H; peel H; try (right; by eexists)).
  injection H as <-. by left.
Qed.

Lemma guard_false {A} (b : bool) (x y : A) : b = false -> (if b then x else y) = y.
Proof. by intros ->. Qed.

Lemma nonempty_named a b c :
  sempty a || sempty b || sempty c = false <-> a <> "" /\ b <> "" /\ c <> "".
Proof. unfold sempty. rewrite !orb_false_iff, !String.eqb_neq. tauto. Qed.

(** The two directions of the approval: what an approved decision implies, and
    what suffices for one. *)
Lemma approved_inv config portfolio intent d :
  evaluate_order_intent config portfolio intent = Ok d -> approved d = true ->
  exists quantity notional loss,
    within_limits config portfolio intent quantity /\
    fmul_Z quantity (oi_entry_price intent) = Ok notional /\
    fmul_Z quantity (oi_entry_price intent - oi_stop_loss intent)%F = Ok loss /\
    d = mkRiskDecision true "approved" quantity loss.
Proof.
  unfold evaluate_order_intent. intros H Ha.
  repeat (cbv zeta in H; peel H; try (cbn in Ha; discriminate Ha)).
  injection H as <-. eexists _, _, _. split; [|done].
  rewrite nonempty_named in *. rewrite existsb_symbol_false in *.
  bool_to_prop. constructor; try done; try lia.
  - intros c Hc. by rewrite Hc in *.
  - intros lim Hl. congruence.
  - intros lim Hl. rewrite Hl in *. by bool_to_prop.
  - intros n cap Hn Hc. congruence.
Qed.

Lemma approved_intro config portfolio intent quantity notional loss :
  within_limits config portfolio intent quantity ->
  fmul_Z quantity (oi_entry_price intent) = Ok notional ->
  fmul_Z quantity (oi_entry_price intent - oi_stop_loss intent)%F = Ok loss ->
  evaluate_order_intent config portfolio intent =
    Ok (mkRiskDecision true "approved" quantity loss).
Proof.
  unfold evaluate_order_intent. intros [] Hn Hl.
  destruct wl_quantity0 as [Hq Hpos].
  destruct (pct_of_allocation_ok config (max_daily_loss_pct config)) as [dl Hdl].
  destruct (pct_of_allocation_ok config (max_total_exposure_pct config)) as [cap Hcap].
  rewrite guard_false by by apply nonempty_named.
  rewrite guard_false by done.
  rewrite guard_false by (destruct (oi_confidence intent); auto).
  rewrite guard_false by by apply existsb_symbol_false.
  rewrite guard_false by lia. rewrite Hdl. cbn.
  rewrite guard_false by auto. rewrite guard_false by lia.
  rewrite guard_false by (destruct (max_trades_per_day config) eqn:E; [apply Z.leb_gt; auto|done]).
  rewrite guard_false by lia. rewrite Hq. cbn.
  rewrite guard_false by lia. rewrite Hn. cbn. rewrite Hcap. cbn.
  rewrite guard_false by eauto. by rewrite Hl.
Qed.

Lemma within_limits_less_used config p p' intent q :
  more_used p p' -> within_limits config p' intent q -> within_limits config p intent q.
Proof.
  intros [Hx Hps Hc Hpnl Hl Ht Ho] [].
  constructor; try done; try (specialize (Ho (oi_symbol intent)); lia).
  - intros s Hs. by apply wl_new_symbol0, Hps.
  - intros lim Hlim. specialize (wl_daily0 _ Hlim). apply not_true_iff_false. intros H.
    apply not_true_iff_false in wl_daily0. apply wl_daily0. eauto with kis.
  - intros lim Hlim. specialize (wl_trades0 _ Hlim). lia.
  - intros n cap Hn Hcap. rewrite Hx. eauto.
Qed.

(** ** Properties *)

(** C32: an intent is approved exactly when it respects every limit of the
    configuration (the arithmetic not overflowing), and the decision then
    carries the positive size of the sizer and that size times the stop
    distance as its maximal loss. *)
Theorem evaluate_order_intent_approved_iff config portfolio intent d :
  (evaluate_order_intent config portfolio intent = Ok d /\ approved d = true) <->
  exists quantity notional loss,
    within_limits config portfolio intent quantity /\
    fmul_Z quantity (oi_entry_price intent) = Ok notional /\
    fmul_Z quantity (oi_entry_price intent - oi_stop_loss intent)%F = Ok loss /\
    d = mkRiskDecision true "approved" quantity loss.
Proof.
  split.
  - intros [H Ha]. by apply approved_inv.
  - intros (q & n & l & Hw & Hn & Hl & ->). split; [|done]. by eapply approved_intro.
Qed.

(** Fact: the gate is monotone: an intent that a more heavily used portfolio
    admits is admitted, with the same decision, by a less used one; no increase
    of losses, orders, trades or positions can open the gate. *)
Theorem evaluate_order_intent_monotone config p p' intent d :
  more_used p p' ->
  evaluate_order_intent config p' intent = Ok d -> approved d = true ->
  evaluate_order_intent config p intent = Ok d.
Proof.
  intros Hm H Ha. destruct (approved_inv _ _ _ _ H Ha) as (q & n & l & Hw & Hn & Hl & ->).
  eapply approved_intro; eauto using within_limits_less_used.
Qed.

(** Fact: a decision that is not an approval carries no quantity and no loss, so
    a rejection can never be read as an order. *)
Theorem evaluate_order_intent_rejection_empty config portfolio intent d :
  evaluate_order_intent config portfolio intent = Ok d ->
  approved d = false -> rd_quantity d = 0 /\ max_loss_krw d = fzero.
Proof.
  intros H Ha. apply evaluate_rejected_or in H as [H|[r ->]]; [congruence|done].
Qed.

(** ** Witnesses *)

(** The default budget risks 9000 KRW: nine shares at a stop 1000 below, but the
    position cap of 300000 KRW admits only four shares at 70000. *)
Lemma evaluate_order_intent_monotone_witness :
  evaluate_order_intent default_risk_config (sample_portfolio 0) sample_intent =
    Ok (mkRiskDecision true "approved" 4 (f_of_Z 4000)).
Proof.
  apply (evaluate_order_intent_monotone _ _ (sample_portfolio 2)).
  - constructor; try reflexivity; try (cbn; lia); try done.
  - vm_compute. reflexivity.
  - reflexivity.
Defined.

Lemma evaluate_order_intent_rejection_empty_witness :
  rd_quantity (rejected "consecutive_loss_limit_reached") = 0 /\
  max_loss_krw (rejected "consecutive_loss_limit_reached") = fzero.
Proof.
  apply (evaluate_order_intent_rejection_empty default_risk_config (sample_portfolio 3) sample_intent).
  - vm_compute. reflexivity.
  - reflexivity.
Defined.
