(* ===== verification/StateMachine.v ===== *)
(** * The order lifecycle ([execution/state_machine.py])

    The transition table is the source's dictionary, kept as an association
    list and consulted by key; [step] restates the lifecycle as a relation, and
    the theorems relate the two and derive invariants of whole command runs. *)

From S2P Require Import Prelude PyStr.

Inductive OrderState :=
  | FLAT | WATCHING | ARMED | ENTRY_PENDING | LONG | PARTIAL_LONG
  | EXIT_PENDING | COOLDOWN | SAFE_MODE.

Inductive Command :=
  | WATCH | ARM | SUBMIT_ENTRY | MARK_ENTRY_FILLED | MARK_TP1_FILLED
  | SUBMIT_EXIT | MARK_EXIT_FILLED | CMD_COOLDOWN | CMD_SAFE_MODE.

#[export] Instance OrderState_eq_dec : EqDecision OrderState.
Proof. solve_decision. Defined.
#[export] Instance Command_eq_dec : EqDecision Command.
Proof. solve_decision. Defined.

(** The values of the two [StrEnum]s. *)
Definition OrderState_value (s : OrderState) : string :=
  match s with
  | FLAT => "FLAT" | WATCHING => "WATCHING" | ARMED => "ARMED"
  | ENTRY_PENDING => "ENTRY_PENDING" | LONG => "LONG" | PARTIAL_LONG => "PARTIAL_LONG"
  | EXIT_PENDING => "EXIT_PENDING" | COOLDOWN => "COOLDOWN" | SAFE_MODE => "SAFE_MODE"
  end.

Definition Command_value (c : Command) : string :=
  match c with
  | WATCH => "WATCH" | ARM => "ARM" | SUBMIT_ENTRY => "SUBMIT_ENTRY"
  | MARK_ENTRY_FILLED => "MARK_ENTRY_FILLED" | MARK_TP1_FILLED => "MARK_TP1_FILLED"
  | SUBMIT_EXIT => "SUBMIT_EXIT" | MARK_EXIT_FILLED => "MARK_EXIT_FILLED"
  | CMD_COOLDOWN => "COOLDOWN" | CMD_SAFE_MODE => "SAFE_MODE"
  end.

Definition all_states : list OrderState :=
  [FLAT; WATCHING; ARMED; ENTRY_PENDING; LONG; PARTIAL_LONG; EXIT_PENDING; COOLDOWN; SAFE_MODE].
Definition all_commands : list Command :=
  [WATCH; ARM; SUBMIT_ENTRY; MARK_ENTRY_FILLED; MARK_TP1_FILLED; SUBMIT_EXIT;
   MARK_EXIT_FILLED; CMD_COOLDOWN; CMD_SAFE_MODE].

(** [OrderState(state)] and [Command(command)]: lookup of a member by value. *)
Definition OrderState_of (v : string) : res OrderState :=
  match List.find (fun s => String.eqb (OrderState_value s) v) all_states with
  | Some s => Ok s
  | None => Err (ValueError (v +:+ " is not a valid OrderState"))
  end.
Definition Command_of (v : string) : res Command :=
  match List.find (fun c => String.eqb (Command_value c) v) all_commands with
  | Some c => Ok c
  | None => Err (ValueError (v +:+ " is not a valid Command"))
  end.

Definition TRANSITIONS : list ((OrderState * Command) * OrderState) :=
  [ ((FLAT, WATCH), WATCHING);
    ((WATCHING, ARM), ARMED);
    ((ARMED, SUBMIT_ENTRY), ENTRY_PENDING);
    ((ENTRY_PENDING, MARK_ENTRY_FILLED), LONG);
    ((LONG, MARK_TP1_FILLED), PARTIAL_LONG);
    ((LONG, SUBMIT_EXIT), EXIT_PENDING);
    ((PARTIAL_LONG, SUBMIT_EXIT), EXIT_PENDING);
    ((EXIT_PENDING, MARK_EXIT_FILLED), FLAT);
    ((FLAT, CMD_COOLDOWN), COOLDOWN);
    ((WATCHING, CMD_COOLDOWN), COOLDOWN);
    ((ARMED, CMD_COOLDOWN), COOLDOWN);
    ((COOLDOWN, WATCH), WATCHING) ].

Definition invalid_transition (s : OrderState) (c : Command) : exn :=
  ValueError ("invalid transition: " +:+ OrderState_value s +:+ " + " +:+ Command_value c).

(** The body of [transition], after the two enum conversions. *)
Definition transition_enum (s : OrderState) (c : Command) : res OrderState :=
  if bool_decide (c = CMD_SAFE_MODE) then Ok SAFE_MODE
  else if bool_decide (s = SAFE_MODE) then Err (invalid_transition s c)
  else match List.find (fun kv => bool_decide (kv.1 = (s, c))) TRANSITIONS with
       | Some kv => Ok kv.2
       | None => Err (invalid_transition s c)
       end.

Definition transition (state command : string) : res OrderState :=
  s ← OrderState_of state;
  c ← Command_of command;
  transition_enum s c.

(** A run of commands; it stops at the first impossible one. *)
Fixpoint run (s : OrderState) (cs : list Command) : res OrderState :=
  match cs with
  | [] => Ok s
  | c :: cs' => s' ← transition_enum s c; run s' cs'
  end.

(** ** The lifecycle as a relation *)

Inductive step : OrderState -> Command -> OrderState -> Prop :=
  | step_safe s : step s CMD_SAFE_MODE SAFE_MODE
  | step_watch s : s = FLAT \/ s = COOLDOWN -> step s WATCH WATCHING
  | step_arm : step WATCHING ARM ARMED
  | step_entry : step ARMED SUBMIT_ENTRY ENTRY_PENDING
  | step_filled : step ENTRY_PENDING MARK_ENTRY_FILLED LONG
  | step_tp1 : step LONG MARK_TP1_FILLED PARTIAL_LONG
  | step_exit s : s = LONG \/ s = PARTIAL_LONG -> step s SUBMIT_EXIT EXIT_PENDING
  | step_exited : step EXIT_PENDING MARK_EXIT_FILLED FLAT
  | step_cooldown s : s = FLAT \/ s = WATCHING \/ s = ARMED -> step s CMD_COOLDOWN COOLDOWN.

(** A position is at stake between the submission of an entry and the fill of
    its exit. *)
Definition at_stake (s : OrderState) : bool :=
  match s with ENTRY_PENDING | LONG | PARTIAL_LONG | EXIT_PENDING => true | _ => false end.

Definition holding (s : OrderState) : bool :=
  match s with LONG | PARTIAL_LONG | EXIT_PENDING => true | _ => false end.

Definition countc (c : Command) (cs : list Command) : Z :=
  Z.of_nat (length (filter (fun d => d = c) cs)).

Definition b2z (b : bool) : Z := if b then 1 else 0.

(** ** Lemmas *)

Lemma transition_enum_step s c s' : transition_enum s c = Ok s' <-> step s c s'.
Proof.
  split.
  - destruct s, c; cbn; intros [= <-]; constructor; tauto.
  - destruct 1; subst; try destruct s; try reflexivity; intuition discriminate.
Qed.

Lemma transition_values s c :
  transition (OrderState_value s) (Command_value c) = transition_enum s c.
Proof. by destruct s, c. Qed.

Lemma countc_cons c d cs : countc c (d :: cs) = (if decide (d = c) then 1 else 0) + countc c cs.
Proof. unfold countc. rewrite filter_cons. case_decide; cbn; lia. Qed.

Lemma run_safe_mode cs s : run SAFE_MODE cs = Ok s -> s = SAFE_MODE.
Proof.
  revert s. induction cs as [|c cs IH]; cbn; intros s H; [congruence|].
  inv_ok. apply transition_enum_step in Hv. inversion Hv; subst; try (intuition discriminate); auto.
Qed.

(** One step keeps the books: submitted entries minus filled exits, and filled
    entries minus filled exits. *)
Lemma step_balance s c s' :
  step s c s' -> s' <> SAFE_MODE ->
  b2z (at_stake s') = b2z (at_stake s) + (if decide (c = SUBMIT_ENTRY) then 1 else 0)
                      - (if decide (c = MARK_EXIT_FILLED) then 1 else 0) /\
  b2z (holding s') = b2z (holding s) + (if decide (c = MARK_ENTRY_FILLED) then 1 else 0)
                     - (if decide (c = MARK_EXIT_FILLED) then 1 else 0).
Proof. destruct 1; intros; intuition (subst; try done). Qed.

Lemma run_balance cs s s' :
  run s cs = Ok s' -> s' <> SAFE_MODE ->
  b2z (at_stake s') = b2z (at_stake s) + countc SUBMIT_ENTRY cs - countc MARK_EXIT_FILLED cs /\
  b2z (holding s') = b2z (holding s) + countc MARK_ENTRY_FILLED cs - countc MARK_EXIT_FILLED cs.
Proof.
  revert s. induction cs as [|c cs IH]; cbn; intros s H Hs; [inv_ok; unfold countc; cbn; lia|].
  inv_ok. rewrite transition_enum_step in Hv.
  assert (v <> SAFE_MODE) by (intros ->; apply run_safe_mode in Hk; done).
  apply step_balance in Hv as [Hv1 Hv2]; [|done].
  specialize (IH _ Hk Hs) as [IH1 IH2]. rewrite !countc_cons. lia.
Qed.

(** ** Properties *)

(** Fact: on the string values of the two enums, [transition] implements exactly
    the lifecycle relation: it returns the state the relation reaches, and
    raises when there is none. *)
Theorem transition_spec s c s' :
  transition (OrderState_value s) (Command_value c) = Ok s' <-> step s c s'.
Proof. rewrite transition_values. apply transition_enum_step. Qed.

(** Fact: SAFE_MODE is absorbing and always reachable: from any state the
    SAFE_MODE command is accepted, and every run through it that is accepted
    ends in SAFE_MODE. *)
Theorem safe_mode_absorbing s cs1 cs2 s' :
  run s (cs1 ++ CMD_SAFE_MODE :: cs2) = Ok s' -> s' = SAFE_MODE.
Proof.
  revert s. induction cs1 as [|c cs1 IH]; cbn; intros s H.
  - by apply run_safe_mode in H.
  - inv_ok. eauto.
Qed.

(** Fact: from FLAT, a run that does not enter SAFE_MODE never submits two
    entries without a filled exit between them, and never fills an exit it did
    not enter: entries submitted minus exits filled is 1 exactly while a
    position is at stake and 0 otherwise, and the same holds of fills. *)
Theorem lifecycle_single_position cs s :
  run FLAT cs = Ok s -> s <> SAFE_MODE ->
  countc SUBMIT_ENTRY cs - countc MARK_EXIT_FILLED cs = b2z (at_stake s) /\
  countc MARK_ENTRY_FILLED cs - countc MARK_EXIT_FILLED cs = b2z (holding s).
Proof. intros H Hs. apply run_balance in H as [H1 H2]; [|done]. cbn in *. lia. Qed.

(** ** Witnesses *)

Lemma safe_mode_absorbing_witness :
  run WATCHING [ARM; CMD_SAFE_MODE; CMD_SAFE_MODE] = Ok SAFE_MODE /\ SAFE_MODE = SAFE_MODE.
Proof.
  split; [reflexivity|].
  apply (safe_mode_absorbing WATCHING [ARM] [CMD_SAFE_MODE]). reflexivity.
Defined.

Lemma lifecycle_single_position_witness :
  countc SUBMIT_ENTRY [WATCH; ARM; SUBMIT_ENTRY; MARK_ENTRY_FILLED; SUBMIT_EXIT; MARK_EXIT_FILLED;
    WATCH; ARM; SUBMIT_ENTRY; MARK_ENTRY_FILLED] -
  countc MARK_EXIT_FILLED [WATCH; ARM; SUBMIT_ENTRY; MARK_ENTRY_FILLED; SUBMIT_EXIT; MARK_EXIT_FILLED;
    WATCH; ARM; SUBMIT_ENTRY; MARK_ENTRY_FILLED] = 1.
Proof. apply (lifecycle_single_position _ LONG); [reflexivity|discriminate]. Defined.
