(* ===== verification/PositionManager.v ===== *)
(** * Position lifecycle evaluation ([execution/position_manager.py])

    Prices are floats, share counts integers, times [datetime] values.  The
    keyword arguments of [evaluate_position] are the fields of [TrailingRules].
    [x or y] on an optional float takes [y] when [x] is [None] or zero. *)

From S2P Require Import Prelude PyStr PyFloat PyTime.

Inductive PositionAction := HOLD | PARTIAL_EXIT | EXIT.

#[export] Instance PositionAction_eq_dec : EqDecision PositionAction.
Proof. solve_decision. Defined.

Record ManagedPosition := mkManagedPosition {
  mp_symbol : string;
  mp_quantity : Z;
  mp_entry_price : float;
  mp_stop_loss : float;
  mp_tp1_price : float;
  mp_tp2_price : float;
  mp_opened_at : datetime;
  mp_tp1_ratio : float;
  mp_tp1_filled : bool;
  mp_highest_price : option float;
  mp_trailing_active : bool;
  mp_max_holding_seconds : option Z;
}.

Record PositionDecision := mkPositionDecision {
  pd_action : PositionAction;
  pd_reason : string;
  pd_quantity : Z;
  pd_new_stop_loss : option float;
  pd_trailing_active : option bool;
  pd_highest_price : option float;
}.

Record TrailingRules := mkTrailingRules {
  trailing_start_pct : float;
  trailing_drop_pct : float;
  break_even_buffer_pct : float;
}.

Definition default_rules : TrailingRules :=
  mkTrailingRules (f_ratio 1 2) (f_ratio 1 4) fzero.

(** [x or y] for floats. *)
Definition f_or (x : option float) (y : float) : float :=
  match x with Some v => if feqb v fzero then y else v | None => y end.
Definition f_or_opt (x y : option float) : option float :=
  match x with Some v => if feqb v fzero then y else x | None => y end.

Definition positive_finite (x : float) : bool := isfinite x && (x >? fzero)%F.

(** [0 < ratio < 1] *)
Definition ratio_ok (r : float) : bool := ((fzero <? r) && (r <? f_one))%F.

(** [stop_loss < entry_price < tp1_price <= tp2_price] *)
Definition ladder_ok (p : ManagedPosition) : bool :=
  ((mp_stop_loss p <? mp_entry_price p) && (mp_entry_price p <? mp_tp1_price p)
   && (mp_tp1_price p <=? mp_tp2_price p))%F.

Definition ladder_error : exn :=
  ValueError "price ladder must satisfy stop_loss < entry_price < tp1_price <= tp2_price".

Definition validate (p : ManagedPosition) (current_price : float) (now : datetime) : res unit :=
  _ ← raise_if (sempty (strip (mp_symbol p))) (ValueError "symbol must not be empty");
  _ ← raise_if (mp_quantity p <? 1) (ValueError "quantity must be positive");
  _ ← raise_if (negb (forallb positive_finite
        [current_price; mp_entry_price p; mp_stop_loss p; mp_tp1_price p; mp_tp2_price p]))
        (ValueError "prices must be finite and positive");
  _ ← raise_if (negb (ratio_ok (mp_tp1_ratio p)))
        (ValueError "tp1_ratio must be greater than 0 and less than 1");
  _ ← raise_if (negb (ladder_ok p)) ladder_error;
  _ ← raise_if (match mp_max_holding_seconds p with Some s => s <? 0 | None => false end)
        (ValueError "max_holding_seconds must not be negative");
  _ ← raise_if (match mp_highest_price p with
                | Some h => negb (isfinite h) || (h <=? fzero)%F
                | None => false
                end) (ValueError "highest_price must be finite and positive");
  early ← dt_ltb now (mp_opened_at p);
  _ ← raise_if early (ValueError "now must not precede opened_at");
  raise_if (negb (Bool.eqb (is_naive now) (is_naive (mp_opened_at p))))
    (ValueError "opened_at and now must use compatible timezone information").

(** [x / 100], which cannot raise. *)
Definition per_cent (x : float) : float := fquot x (f_of_Z 100).
Definition scaled_up (x pct : float) : float := (x * (f_one + per_cent pct))%F.
Definition scaled_down (x pct : float) : float := (x * (f_one - per_cent pct))%F.

(** [min(quantity - 1, max(1, floor(quantity * tp1_ratio + 0.5)))], capped by
    the quantity itself. *)
Definition partial_quantity (p : ManagedPosition) : res Z :=
  share ← fmul_Z (mp_quantity p) (mp_tp1_ratio p);
  rounded ← floor_of_float (share + f_half)%F;
  Ok (Z.min (Z.min (mp_quantity p - 1) (Z.max 1 rounded)) (mp_quantity p)).

Definition evaluate_position (p : ManagedPosition) (current_price : float) (now : datetime)
    (rules : TrailingRules) : res PositionDecision :=
  _ ← validate p current_price now;
  _ ← raise_if ((trailing_start_pct rules <? fzero) || (trailing_drop_pct rules <? fzero)
                || (break_even_buffer_pct rules <? fzero))%F
        (ValueError "trailing and break-even percentages must not be negative");
  let highest_price := fmax current_price (f_or (mp_highest_price p) current_price) in
  let trailing_active := mp_trailing_active p ||
        (current_price >=? scaled_up (mp_entry_price p) (trailing_start_pct rules))%F in
  let decision action reason quantity new_stop :=
        mkPositionDecision action reason quantity new_stop (Some trailing_active)
          (Some highest_price) in
  if (current_price <=? mp_stop_loss p)%F
  then Ok (decision EXIT "stop_loss" (mp_quantity p) None) else
  elapsed ← dt_sub now (mp_opened_at p);
  let holding_seconds := f_ratio elapsed 1000000 in
  if (match mp_max_holding_seconds p with
      | Some limit => (holding_seconds >=? f_of_Z limit)%F
      | None => false
      end) && negb (mp_tp1_filled p) && (current_price <? mp_tp1_price p)%F
  then Ok (decision EXIT "time_stop" (mp_quantity p) None) else
  if (current_price >=? mp_tp2_price p)%F
  then Ok (decision EXIT "take_profit_2" (mp_quantity p) None) else
  if negb (mp_tp1_filled p) && (current_price >=? mp_tp1_price p)%F
  then
    if mp_quantity p =? 1
    then Ok (decision EXIT "take_profit_1_single_share" 1 None)
    else
      quantity ← partial_quantity p;
      Ok (decision PARTIAL_EXIT "take_profit_1" quantity
            (Some (scaled_up (mp_entry_price p) (break_even_buffer_pct rules))))
  else
  if trailing_active
     && (current_price <=? scaled_down highest_price (trailing_drop_pct rules))%F
  then Ok (decision EXIT "trailing_stop" (mp_quantity p) None)
  else Ok (decision HOLD "hold" 0 None).

(** [dataclasses.replace] on the fields a decision updates. *)
Definition update_position (p : ManagedPosition) (quantity : Z) (tp1_filled : bool)
    (stop_loss : float) (d : PositionDecision) : ManagedPosition := {|
  mp_symbol := mp_symbol p;
  mp_quantity := quantity;
  mp_entry_price := mp_entry_price p;
  mp_stop_loss := stop_loss;
  mp_tp1_price := mp_tp1_price p;
  mp_tp2_price := mp_tp2_price p;
  mp_opened_at := mp_opened_at p;
  mp_tp1_ratio := mp_tp1_ratio p;
  mp_tp1_filled := tp1_filled;
  mp_highest_price := f_or_opt (pd_highest_price d) (mp_highest_price p);
  mp_trailing_active :=
    match pd_trailing_active d with None => mp_trailing_active p | Some b => b end;
  mp_max_holding_seconds := mp_max_holding_seconds p;
|}.

Definition apply_position_decision (p : ManagedPosition) (d : PositionDecision)
    : res ManagedPosition :=
  match pd_action d with
  | PARTIAL_EXIT =>
      let remaining := mp_quantity p - pd_quantity d in
      _ ← raise_if (remaining <? 1) (ValueError "partial exit must leave at least one share");
      Ok (update_position p remaining true (f_or (pd_new_stop_loss d) (mp_stop_loss p)) d)
  | EXIT => Ok (update_position p 0 (mp_tp1_filled p) (mp_stop_loss p) d)
  | HOLD => Ok (update_position p (mp_quantity p) (mp_tp1_filled p) (mp_stop_loss p) d)
  end.

(** A caller that evaluates and applies at each quote; what it sold, and how
    many of the sales were partial. *)
Fixpoint manage (p : ManagedPosition) (rules : TrailingRules) (quotes : list (float * datetime))
    : res (ManagedPosition * Z * Z) :=
  match quotes with
  | [] => Ok (p, 0, 0)
  | (price, now) :: quotes' =>
      d ← evaluate_position p price now rules;
      p' ← apply_position_decision p d;
      '(pn, sold, partials) ← manage p' rules quotes';
      Ok (pn, pd_quantity d + sold,
          (if decide (pd_action d = PARTIAL_EXIT) then 1 else 0) + partials)
  end.

(** ** Concrete positions for the witnesses *)

Definition opened : datetime := Datetime 1700000000000000 (Some KST).
Definition later (seconds : Z) : datetime := dt_add opened (seconds * us_per_second).

Definition sample_position (quantity : Z) : ManagedPosition := {|
  mp_symbol := "005930"; mp_quantity := quantity; mp_entry_price := f_of_Z 100;
  mp_stop_loss := f_of_Z 98; mp_tp1_price := f_of_Z 101; mp_tp2_price := f_of_Z 102;
  mp_opened_at := opened; mp_tp1_ratio := f_ratio 1 2; mp_tp1_filled := false;
  mp_highest_price := None; mp_trailing_active := false;
  mp_max_holding_seconds := Some 600;
|}.

(** ** Lemmas *)

Record valid_position (p : ManagedPosition) (current_price : float) : Prop := {
  vp_quantity : 1 <= mp_quantity p;
  vp_price : positive_finite current_price = true;
  vp_ladder : ladder_ok p = true;
}.

Lemma validate_Ok p c now :
  validate p c now = Ok tt -> valid_position p c /\ is_naive now = is_naive (mp_opened_at p).
Proof.
  unfold validate. intros H. inv_ok. cbn [forallb] in *. bool_to_prop.
  split; [constructor; done || lia|]. by apply Bool.eqb_prop.
Qed.

Lemma partial_quantity_bounds p q :
  1 < mp_quantity p -> partial_quantity p = Ok q -> 1 <= q <= mp_quantity p - 1.
Proof. intros Hq H. unfold partial_quantity in H. inv_ok. lia. Qed.

(** The shape of every decision: which quantity each action may carry. *)
Lemma evaluate_position_shape p c now rules d :
  evaluate_position p c now rules = Ok d ->
  1 <= mp_quantity p /\
  match pd_action d with
  | HOLD => pd_quantity d = 0
  | EXIT => pd_quantity d = mp_quantity p
  | PARTIAL_EXIT =>
      1 <= pd_quantity d <= mp_quantity p - 1 /\ mp_tp1_filled p = false /\
      pd_new_stop_loss d = Some (scaled_up (mp_entry_price p) (break_even_buffer_pct rules))
  end.
Proof.
  unfold evaluate_position. intros H.
  apply bind_Ok in H as ([] & Hv & H). apply validate_Ok in Hv as [[Hq _ _] _].
  split; [done|]. apply bind_Ok in H as ([] & _ & H). cbv zeta in H.
  destruct (_ <=? mp_stop_loss p)%F; [by injection H as <-|].
  apply bind_Ok in H as (el & _ & H).
  destruct (_ && _ && _); [by injection H as <-|].
  destruct (mp_tp2_price p <=? c)%F; [by injection H as <-|].
  destruct (_ && _) eqn:E.
  - destruct (Z.eqb_spec (mp_quantity p) 1) as [H1|H1]; [injection H as <-; cbn; lia|].
    apply bind_Ok in H as (q & Hpq & H). injection H as <-. cbn.
    apply andb_true_iff in E as [E _]. apply negb_true_iff in E.
    split; [apply partial_quantity_bounds; [lia|done]|done].
  - destruct (_ && _) in H; by injection H as <-.
Qed.

(** [highest_price] after a step, and the trailing flag, never go back. *)
Lemma evaluate_position_carries p c now rules d :
  evaluate_position p c now rules = Ok d ->
  pd_highest_price d = Some (fmax c (f_or (mp_highest_price p) c)) /\
  exists b, pd_trailing_active d = Some b /\ (mp_trailing_active p = true -> b = true).
Proof.
  unfold evaluate_position. intros H.
  apply bind_Ok in H as ([] & _ & H). apply bind_Ok in H as ([] & _ & H). cbv zeta in H.
  assert (Hb : mp_trailing_active p = true ->
    mp_trailing_active p ||
    (scaled_up (mp_entry_price p) (trailing_start_pct rules) <=? c)%F = true) by (intros ->; done).
  destruct (_ <=? mp_stop_loss p)%F; [injection H as <-; cbn; eauto|].
  apply bind_Ok in H as (el & _ & H).
  destruct (_ && _ && _); [injection H as <-; cbn; eauto|].
  destruct (mp_tp2_price p <=? c)%F; [injection H as <-; cbn; eauto|].
  destruct (_ && _) in H.
  - destruct (mp_quantity p =? 1); [injection H as <-; cbn; eauto|].
    apply bind_Ok in H as (q & _ & H). injection H as <-. cbn. eauto.
  - destruct (_ && _) in H; injection H as <-; cbn; eauto.
Qed.

Lemma apply_decision_effect p c now rules d p' :
  evaluate_position p c now rules = Ok d -> apply_position_decision p d = Ok p' ->
  mp_quantity p' = mp_quantity p - pd_quantity d /\ 0 <= mp_quantity p' /\
  0 <= pd_quantity d /\
  (mp_tp1_filled p = true -> mp_tp1_filled p' = true) /\
  (pd_action d = PARTIAL_EXIT -> mp_tp1_filled p = false /\ mp_tp1_filled p' = true).
Proof.
  intros He Ha. apply evaluate_position_shape in He as [Hq Hs].
  unfold apply_position_decision in Ha. destruct (pd_action d) eqn:E.
  - injection Ha as <-. cbn. rewrite Hs. repeat split; try lia; try done.
  - destruct Hs as [Hs [Ht _]]. inv_ok. cbn. repeat split; try lia; try done.
  - injection Ha as <-. cbn. rewrite Hs. repeat split; try lia; try done.
Qed.

Lemma stop_not_above_tp p : ladder_ok p = true -> fltb (mp_stop_loss p) (mp_tp1_price p) = true.
Proof. unfold ladder_ok. intros. bool_to_prop. eauto with kis. Qed.

Lemma scaled_up_zero x : is_double x = true -> scaled_up x fzero = x.
Proof. apply fmul_one_r. Qed.

Lemma positive_finite_spec x : positive_finite x = true -> fltb fzero x = true /\ isfinite x = true.
Proof. unfold positive_finite. intros. by bool_to_prop. Qed.

(** A ladder whose stop is not below the entry is refused whatever the quote. *)
Lemma evaluate_broken_ladder p c now rules :
  fltb (mp_stop_loss p) (mp_entry_price p) = false ->
  exists msg, evaluate_position p c now rules = Err (ValueError msg).
Proof.
  intros Hl.
  assert (Hb : ladder_ok p = false) by (unfold ladder_ok; by rewrite Hl).
  assert (Hv : exists msg, validate p c now = Err (ValueError msg)).
  { unfold validate. rewrite Hb.
    do 4 (match goal with |- context [mbind _ (raise_if ?b _)] => destruct b end; cbn; [by eexists|]).
    by eexists. }
  destruct Hv as [msg Hv]. exists msg. unfold evaluate_position. by rewrite Hv.
Qed.

(** ** Properties *)

(** C40: over any sequence of quotes the manager conserves shares: what it sells
    plus what it still holds is the initial quantity, it never holds a negative
    amount, and it takes at most one partial profit. *)
Theorem manage_conserves_shares p rules quotes pn sold partials :
  0 <= mp_quantity p ->
  manage p rules quotes = Ok (pn, sold, partials) ->
  sold + mp_quantity pn = mp_quantity p /\ 0 <= sold /\ 0 <= mp_quantity pn /\
  0 <= partials <= (if mp_tp1_filled p then 0 else 1).
Proof.
  revert p pn sold partials. induction quotes as [|[c now] quotes IH];
    cbn; intros p pn sold partials Hp H.
  - injection H as <- <- <-. destruct (mp_tp1_filled p); lia.
  - apply bind_Ok in H as (d & Hd & H). apply bind_Ok in H as (p' & Hp' & H).
    apply bind_Ok in H as ([[pn' sold'] partials'] & Hm & H). injection H as <- <- <-.
    pose proof (apply_decision_effect _ _ _ _ _ _ Hd Hp') as (H1 & H2 & H3 & H4 & H5).
    specialize (IH _ _ _ _ H2 Hm) as (I1 & I2 & I3 & I4).
    case_decide as Ha.
    + destruct (H5 Ha) as [E1 E2]. rewrite E1. rewrite E2 in I4. lia.
    + destruct (mp_tp1_filled p); [rewrite H4 in I4 by done; lia|].
      destruct (mp_tp1_filled p'); lia.
Qed.

(** Fact: the hard stop has absolute priority: at or below the stop every valid
    position is closed in full, whatever its targets, trailing state or age. *)
Theorem stop_loss_exits_in_full p price now rules :
  validate p price now = Ok tt ->
  fltb (trailing_start_pct rules) fzero || fltb (trailing_drop_pct rules) fzero ||
    fltb (break_even_buffer_pct rules) fzero = false ->
  fleb price (mp_stop_loss p) = true ->
  exists d, evaluate_position p price now rules = Ok d /\
    pd_action d = EXIT /\ pd_reason d = "stop_loss" /\ pd_quantity d = mp_quantity p.
Proof.
  intros Hv Hr Hs. unfold evaluate_position. rewrite Hv. cbn. rewrite Hr. cbn.
  rewrite Hs. by eexists.
Qed.

(** Fact: with the default break-even buffer of zero, a first take-profit raises
    the stop to the entry price, and the position it leaves can never be
    evaluated again: every later call raises [ValueError], because the price
    ladder demands a stop strictly below the entry. *)
Theorem partial_exit_blocks_later_evaluation p price now d p' :
  is_double (mp_entry_price p) = true ->
  evaluate_position p price now default_rules = Ok d ->
  pd_action d = PARTIAL_EXIT ->
  apply_position_decision p d = Ok p' ->
  forall price' now' rules, exists msg,
    evaluate_position p' price' now' rules = Err (ValueError msg).
Proof.
  intros Hd He Ha Hp price' now' rules. apply evaluate_broken_ladder.
  assert (Hpos : fltb fzero (mp_entry_price p) = true).
  { unfold evaluate_position, validate in He. inv_ok. cbn [forallb] in *. bool_to_prop.
    by apply positive_finite_spec. }
  apply evaluate_position_shape in He as [_ Hs]. rewrite Ha in Hs. destruct Hs as (_ & _ & Hs).
  unfold apply_position_decision in Hp. rewrite Ha in Hp. inv_ok. cbn.
  rewrite Hs. cbn [break_even_buffer_pct default_rules]. rewrite scaled_up_zero by done.
  unfold f_or. rewrite fltb_feqb by done. apply fltb_irrefl.
Qed.

(** Fact: the trailing state only tightens: an evaluation that is applied never
    deactivates a trailing stop and never lowers the recorded high. *)
Theorem trailing_state_monotone p price now rules d p' h :
  evaluate_position p price now rules = Ok d ->
  apply_position_decision p d = Ok p' ->
  mp_highest_price p = Some h -> is_nan price = false -> feqb h fzero = false ->
  (mp_trailing_active p = true -> mp_trailing_active p' = true) /\
  exists h', mp_highest_price p' = Some h' /\ (is_nan h = false -> fleb h h' = true).
Proof.
  intros He Ha Hh Hn Hz. apply evaluate_position_carries in He as [Hhi (b & Hb & Htr)].
  rewrite Hh in Hhi. cbn in Hhi. rewrite Hz in Hhi.
  assert (Hp' : mp_trailing_active p' = b /\
    mp_highest_price p' = f_or_opt (pd_highest_price d) (mp_highest_price p)).
  { unfold apply_position_decision in Ha. destruct (pd_action d); inv_ok; cbn; by rewrite Hb. }
  destruct Hp' as [-> ->]. split; [done|]. rewrite Hhi, Hh. cbn.
  destruct (feqb (fmax price h) fzero); eexists; (split; [reflexivity|]).
  - intros. by apply fleb_refl.
  - intros. by apply fmax_ge_r.
Qed.

(** ** Witnesses *)

Lemma manage_conserves_shares_witness :
  manage (sample_position 10) (mkTrailingRules (f_ratio 1 2) (f_ratio 1 4) fzero)
    [(f_of_Z 101, later 30)] =
    Ok (update_position (sample_position 10) 5 true (f_of_Z 100)
          (mkPositionDecision PARTIAL_EXIT "take_profit_1" 5 (Some (f_of_Z 100)) (Some true)
             (Some (f_of_Z 101))), 5, 1) /\ 5 + 5 = 10.
Proof.
  split; [vm_compute; reflexivity|].
  apply (manage_conserves_shares (sample_position 10) default_rules [(f_of_Z 101, later 30)]
    (update_position (sample_position 10) 5 true (f_of_Z 100)
          (mkPositionDecision PARTIAL_EXIT "take_profit_1" 5 (Some (f_of_Z 100)) (Some true)
             (Some (f_of_Z 101)))) 5 1); [cbn; lia|vm_compute; reflexivity].
Defined.

Lemma stop_loss_exits_in_full_witness :
  exists d, evaluate_position (sample_position 10) (f_of_Z 97) (later 5) default_rules = Ok d /\
    pd_action d = EXIT /\ pd_reason d = "stop_loss" /\ pd_quantity d = 10.
Proof. apply (stop_loss_exits_in_full (sample_position 10)); vm_compute; reflexivity. Defined.

Lemma partial_exit_blocks_later_evaluation_witness :
  exists msg,
    evaluate_position
      (update_position (sample_position 10) 5 true (f_of_Z 100)
         (mkPositionDecision PARTIAL_EXIT "take_profit_1" 5 (Some (f_of_Z 100)) (Some true)
            (Some (f_of_Z 101))))
      (f_of_Z 101) (later 60) default_rules = Err (ValueError msg).
Proof.
  apply (partial_exit_blocks_later_evaluation (sample_position 10) (f_of_Z 101) (later 30)
    (mkPositionDecision PARTIAL_EXIT "take_profit_1" 5 (Some (f_of_Z 100)) (Some true)
       (Some (f_of_Z 101)))); vm_compute; reflexivity.
Defined.

Lemma trailing_state_monotone_witness :
  exists h', Some (f_of_Z 101) = Some h' /\ (is_nan (f_of_Z 100) = false -> fleb (f_of_Z 100) h' = true).
Proof.
  pose (p := update_position (sample_position 10) 10 true (f_of_Z 98)
          (mkPositionDecision HOLD "hold" 0 None (Some true) (Some (f_of_Z 100)))).
  pose (d := mkPositionDecision HOLD "hold" 0 None (Some true) (Some (f_of_Z 101))).
  apply (trailing_state_monotone p (f_of_Z 101) (later 30) default_rules d
    (update_position p 10 true (f_of_Z 98) d) (f_of_Z 100)); vm_compute; reflexivity.
Defined.
