(* ===== verification/DbCore.v ===== *)
(** * The SQLite database: tables and shared helpers ([storage/database.py])

    The database is a record of tables; a table with a primary key is a finite
    map from the key to the row, an append-only table a list in rowid order.
    Rows have the columns of the [SCHEMA] of the source, with [option] for the
    nullable ones.  TEXT columns are strings, REAL columns floats, INTEGER
    columns integers (SQLite's 64-bit range is not modelled: share counts stay
    far below it).  A write method is a transaction
    [db -> res (result * db)]: on an exception there is no new state, which is
    the rollback of [with self.connection].  A method that defaults a timestamp
    to [datetime.now().astimezone()] takes that reading as the argument
    [clock]. *)

From S2P Require Import Prelude PyStr PyFloat PyTime.

(** ** Rows *)

Record broker_order := mkBrokerOrder {
  bo_client_order_id : string;
  bo_signal_id : option string;
  bo_symbol : string;
  bo_side : string;
  bo_requested_qty : Z;
  bo_requested_price : float;
  bo_status : string;
  bo_broker_order_id : option string;
  bo_filled_qty : Z;
  bo_avg_fill_price : option float;
  bo_created_at : string;
  bo_updated_at : string;
  bo_submitted_at : option string;
  bo_completed_at : option string;
  bo_error : option string;
}.

Record broker_fill := mkBrokerFill {
  bf_fill_id : string;
  bf_client_order_id : string;
  bf_broker_order_id : option string;
  bf_symbol : string;
  bf_side : string;
  bf_quantity : Z;
  bf_price : float;
  bf_filled_at : string;
  bf_created_at : string;
}.

Record fill_application := mkFillApplication {
  fa_fill_id : string;
  fa_client_order_id : string;
  fa_applied_at : string;
}.

Record live_position := mkLivePosition {
  lp_position_id : string;
  lp_signal_id : string;
  lp_symbol : string;
  lp_quantity : Z;
  lp_entry_price : float;
  lp_stop_loss_price : float;
  lp_take_profit_price : float;
  lp_opened_at : string;
  lp_status : string;
  lp_entry_broker_order_id : option string;
  lp_exit_broker_order_id : option string;
  lp_closed_at : option string;
  lp_close_reason : option string;
  lp_max_holding_seconds : option Z;
}.

Record metadata_row := mkMetadata { md_value : string; md_updated_at : string }.

Record service_lease := mkLease {
  sl_owner_id : string;
  sl_acquired_at : string;
  sl_renewed_at : string;
  sl_expires_at : string;
}.

(** The [runtime_control] row; it is also the [RuntimeControl] value. *)
Record RuntimeControl := mkRuntimeControl {
  rc_paused : bool;
  rc_updated_at : string;
  rc_reason : string;
  rc_source : string;
  rc_environment : string;
}.

Record order_audit := mkOrderAudit {
  oa_audit_id : string;
  oa_signal_id : option string;
  oa_symbol : string;
  oa_side : string;
  oa_quantity : Z;
  oa_price : float;
  oa_status : string;
  oa_reason : string;
  oa_broker_order_id : option string;
  oa_created_at : string;
}.

Record ai_decision := mkAiDecision {
  ad_decision_id : string;
  ad_symbol : string;
  ad_action : string;
  ad_confidence : float;
  ad_entry_price : option float;
  ad_take_profit_price : option float;
  ad_stop_loss_price : option float;
  ad_risk_level : string;
  ad_requires_operator_approval : bool;
  ad_rationale : string;
  ad_created_at : string;
  ad_strategy : string;
  ad_model : string;
  ad_prompt_version : string;
  ad_max_holding_seconds : option Z;
}.

Record approval_request := mkApproval {
  ar_request_id : string;
  ar_symbol : string;
  ar_decision_id : option string;
  ar_reason : string;
  ar_status : string;
  ar_created_at : string;
  ar_resolved_at : option string;
  ar_expires_at : option string;
  ar_resolved_by : option string;
  ar_consumed_at : option string;
  ar_signal_id : option string;
  ar_quantity : option Z;
  ar_entry_price : option float;
  ar_take_profit_price : option float;
  ar_stop_loss_price : option float;
  ar_max_holding_seconds : option Z;
}.

Record paper_order := mkPaperOrder {
  po_order_id : string;
  po_signal_id : string;
  po_symbol : string;
  po_side : string;
  po_quantity : Z;
  po_price : float;
  po_status : string;
  po_created_at : string;
}.

Record paper_fill := mkPaperFillRow {
  pf_fill_id : string;
  pf_order_id : string;
  pf_signal_id : string;
  pf_symbol : string;
  pf_side : string;
  pf_quantity : Z;
  pf_price : float;
  pf_filled_at : string;
}.

Record watch_row := mkWatch { wr_enabled : bool; wr_added_at : string }.

(** [MarketTick] and [MinuteBar] of [market/tick.py], and their rows. *)
Record MarketTick := mkTick {
  tk_symbol : string; tk_timestamp : datetime; tk_price : float; tk_volume : Z }.
Record MinuteBar := mkBar {
  mb_symbol : string; mb_start : datetime; mb_open : float; mb_high : float;
  mb_low : float; mb_close : float; mb_volume : Z }.

Record tick_row := mkTickRow {
  tr_rowid : Z; tr_symbol : string; tr_timestamp : string; tr_price : float; tr_volume : Z;
  tr_received_at : string }.
Record bar_row := mkBarRow {
  br_open : float; br_high : float; br_low : float; br_close : float; br_volume : Z }.

(** ** The database *)

Record db := mkDb {
  t_broker_orders : gmap string broker_order;
  t_broker_fills : gmap string broker_fill;
  t_fill_applications : gmap string fill_application;
  t_live_positions : gmap string live_position;
  t_runtime_metadata : gmap string metadata_row;
  t_service_leases : gmap string service_lease;
  t_runtime_control : option RuntimeControl;
  t_order_audits : gmap string order_audit;
  t_ai_decisions : gmap string ai_decision;
  t_approvals : gmap string approval_request;
  t_paper_orders : gmap string paper_order;
  t_paper_fills : gmap string paper_fill;
  t_watchlist : gmap string watch_row;
  t_ticks : list tick_row;
  t_bars : gmap (string * string) bar_row;
}.

Definition set_orders f (d : db) : db :=
  mkDb (f (t_broker_orders d)) (t_broker_fills d) (t_fill_applications d) (t_live_positions d)
    (t_runtime_metadata d) (t_service_leases d) (t_runtime_control d) (t_order_audits d)
    (t_ai_decisions d) (t_approvals d) (t_paper_orders d) (t_paper_fills d) (t_watchlist d)
    (t_ticks d) (t_bars d).
Definition set_fills f (d : db) : db :=
  mkDb (t_broker_orders d) (f (t_broker_fills d)) (t_fill_applications d) (t_live_positions d)
    (t_runtime_metadata d) (t_service_leases d) (t_runtime_control d) (t_order_audits d)
    (t_ai_decisions d) (t_approvals d) (t_paper_orders d) (t_paper_fills d) (t_watchlist d)
    (t_ticks d) (t_bars d).
Definition set_applications f (d : db) : db :=
  mkDb (t_broker_orders d) (t_broker_fills d) (f (t_fill_applications d)) (t_live_positions d)
    (t_runtime_metadata d) (t_service_leases d) (t_runtime_control d) (t_order_audits d)
    (t_ai_decisions d) (t_approvals d) (t_paper_orders d) (t_paper_fills d) (t_watchlist d)
    (t_ticks d) (t_bars d).
Definition set_positions f (d : db) : db :=
  mkDb (t_broker_orders d) (t_broker_fills d) (t_fill_applications d) (f (t_live_positions d))
    (t_runtime_metadata d) (t_service_leases d) (t_runtime_control d) (t_order_audits d)
    (t_ai_decisions d) (t_approvals d) (t_paper_orders d) (t_paper_fills d) (t_watchlist d)
    (t_ticks d) (t_bars d).
Definition set_metadata f (d : db) : db :=
  mkDb (t_broker_orders d) (t_broker_fills d) (t_fill_applications d) (t_live_positions d)
    (f (t_runtime_metadata d)) (t_service_leases d) (t_runtime_control d) (t_order_audits d)
    (t_ai_decisions d) (t_approvals d) (t_paper_orders d) (t_paper_fills d) (t_watchlist d)
    (t_ticks d) (t_bars d).
Definition set_leases f (d : db) : db :=
  mkDb (t_broker_orders d) (t_broker_fills d) (t_fill_applications d) (t_live_positions d)
    (t_runtime_metadata d) (f (t_service_leases d)) (t_runtime_control d) (t_order_audits d)
    (t_ai_decisions d) (t_approvals d) (t_paper_orders d) (t_paper_fills d) (t_watchlist d)
    (t_ticks d) (t_bars d).
Definition set_control f (d : db) : db :=
  mkDb (t_broker_orders d) (t_broker_fills d) (t_fill_applications d) (t_live_positions d)
    (t_runtime_metadata d) (t_service_leases d) (f (t_runtime_control d)) (t_order_audits d)
    (t_ai_decisions d) (t_approvals d) (t_paper_orders d) (t_paper_fills d) (t_watchlist d)
    (t_ticks d) (t_bars d).
Definition set_audits f (d : db) : db :=
  mkDb (t_broker_orders d) (t_broker_fills d) (t_fill_applications d) (t_live_positions d)
    (t_runtime_metadata d) (t_service_leases d) (t_runtime_control d) (f (t_order_audits d))
    (t_ai_decisions d) (t_approvals d) (t_paper_orders d) (t_paper_fills d) (t_watchlist d)
    (t_ticks d) (t_bars d).
Definition set_decisions f (d : db) : db :=
  mkDb (t_broker_orders d) (t_broker_fills d) (t_fill_applications d) (t_live_positions d)
    (t_runtime_metadata d) (t_service_leases d) (t_runtime_control d) (t_order_audits d)
    (f (t_ai_decisions d)) (t_approvals d) (t_paper_orders d) (t_paper_fills d) (t_watchlist d)
    (t_ticks d) (t_bars d).
Definition set_approvals f (d : db) : db :=
  mkDb (t_broker_orders d) (t_broker_fills d) (t_fill_applications d) (t_live_positions d)
    (t_runtime_metadata d) (t_service_leases d) (t_runtime_control d) (t_order_audits d)
    (t_ai_decisions d) (f (t_approvals d)) (t_paper_orders d) (t_paper_fills d) (t_watchlist d)
    (t_ticks d) (t_bars d).
Definition set_paper_orders f (d : db) : db :=
  mkDb (t_broker_orders d) (t_broker_fills d) (t_fill_applications d) (t_live_positions d)
    (t_runtime_metadata d) (t_service_leases d) (t_runtime_control d) (t_order_audits d)
    (t_ai_decisions d) (t_approvals d) (f (t_paper_orders d)) (t_paper_fills d) (t_watchlist d)
    (t_ticks d) (t_bars d).
Definition set_paper_fills f (d : db) : db :=
  mkDb (t_broker_orders d) (t_broker_fills d) (t_fill_applications d) (t_live_positions d)
    (t_runtime_metadata d) (t_service_leases d) (t_runtime_control d) (t_order_audits d)
    (t_ai_decisions d) (t_approvals d) (t_paper_orders d) (f (t_paper_fills d)) (t_watchlist d)
    (t_ticks d) (t_bars d).
Definition set_watchlist f (d : db) : db :=
  mkDb (t_broker_orders d) (t_broker_fills d) (t_fill_applications d) (t_live_positions d)
    (t_runtime_metadata d) (t_service_leases d) (t_runtime_control d) (t_order_audits d)
    (t_ai_decisions d) (t_approvals d) (t_paper_orders d) (t_paper_fills d) (f (t_watchlist d))
    (t_ticks d) (t_bars d).
Definition set_ticks f (d : db) : db :=
  mkDb (t_broker_orders d) (t_broker_fills d) (t_fill_applications d) (t_live_positions d)
    (t_runtime_metadata d) (t_service_leases d) (t_runtime_control d) (t_order_audits d)
    (t_ai_decisions d) (t_approvals d) (t_paper_orders d) (t_paper_fills d) (t_watchlist d)
    (f (t_ticks d)) (t_bars d).
Definition set_bars f (d : db) : db :=
  mkDb (t_broker_orders d) (t_broker_fills d) (t_fill_applications d) (t_live_positions d)
    (t_runtime_metadata d) (t_service_leases d) (t_runtime_control d) (t_order_audits d)
    (t_ai_decisions d) (t_approvals d) (t_paper_orders d) (t_paper_fills d) (t_watchlist d)
    (t_ticks d) (f (t_bars d)).

(** [init_schema] on a fresh file: empty tables and the default control row
    ([INSERT OR IGNORE]: an existing row is kept). *)
Definition empty_db : db := mkDb ∅ ∅ ∅ ∅ ∅ ∅ None ∅ ∅ ∅ ∅ ∅ ∅ [] ∅.

Definition default_control : RuntimeControl :=
  mkRuntimeControl true "1970-01-01T00:00:00+00:00" "default_paused" "database_init" "demo".

Definition init_schema (d : db) : db :=
  set_control (fun c => match c with Some r => Some r | None => Some default_control end) d.

(** ** Module-level helpers *)

Definition BROKER_ORDER_STATUSES : list string :=
  ["INTENT"; "SUBMITTING"; "ACKNOWLEDGED"; "PARTIALLY_FILLED"; "FILLED"; "CANCEL_PENDING";
   "CANCELLED"; "REJECTED"; "UNKNOWN"].
Definition TERMINAL_BROKER_ORDER_STATUSES : list string := ["FILLED"; "CANCELLED"; "REJECTED"].

(** [value in frozenset({...})] *)
Definition mem_str (s : string) (l : list string) : bool := existsb (String.eqb s) l.

Definition iso (value : datetime) : string := isoformat value.

Definition canonical_market_time (value : datetime) : datetime :=
  match dt_tz value with
  | Some _ => with_tz (astimezone value KST) None
  | None => value
  end.

Definition validate_symbol (symbol : string) : res unit :=
  _ ← raise_if (sempty (strip symbol)) (ValueError "symbol must not be empty");
  raise_if (negb (isdigit symbol) || negb (slen symbol =? 6))
    (ValueError "symbol must be a six-digit domestic stock code").

(** [price <= 0] lets a NaN through, as in the source. *)
Definition validate_paper_record (symbol : string) (quantity : Z) (price : float) : res unit :=
  _ ← validate_symbol symbol;
  _ ← raise_if (quantity <=? 0) (ValueError "quantity must be positive");
  raise_if (price <=? fzero)%F (ValueError "price must be positive").

Definition require_nonempty (value name : string) : res unit :=
  raise_if (sempty (strip value)) (ValueError (name +:+ " must not be empty")).

Definition validate_order_status (status : string) : res unit :=
  raise_if (negb (mem_str status BROKER_ORDER_STATUSES)) (ValueError "invalid broker order status").

(** [_validate_positive_number] on an integer and on a float. *)
Definition validate_positive_int (value : Z) (name : string) : res unit :=
  raise_if (value <=? 0) (ValueError (name +:+ " must be positive")).
Definition validate_positive_float (value : float) (name : string) : res unit :=
  raise_if (negb (isfinite value) || (value <=? fzero)%F) (ValueError (name +:+ " must be positive")).

(** A check applied to a value that may be [None]. *)
Definition when_some {A} (x : option A) (f : A -> res unit) : res unit :=
  match x with Some v => f v | None => Ok tt end.

(** [a or b] on optional text: [None] and the empty string are falsy. *)
Definition text_or (a b : option string) : option string :=
  match a with
  | Some s => if sempty s then b else a
  | None => b
  end.

(** [str(x or y)] where [y] is a string. *)
Definition text_or_default (a : option string) (y : string) : string :=
  match text_or a None with Some s => s | None => y end.

(** [COALESCE(new, old)] *)
Definition coalesce {A} (new old : option A) : option A :=
  match new with Some v => Some v | None => old end.

(** [ORDER BY key, id] over the rows of a table: text order, ties by the id. *)
Definition order_leb {A} (key id : A -> string) (x y : A) : bool :=
  text_ltb (key x) (key y) ||
  (String.eqb (key x) (key y) && text_leb (id x) (id y)).

Definition rows_by {A} (key id : A -> string) (t : gmap string A) : list A :=
  sort_by (order_leb key id) (map snd (map_to_list t)).

(** ** Lemmas *)

Lemma mem_str_true s l : mem_str s l = true <-> s ∈ l.
Proof.
  unfold mem_str. rewrite existsb_exists. setoid_rewrite String.eqb_eq.
  rewrite list_elem_of_In. naive_solver.
Qed.

Lemma elem_of_rows_by {A} (key id : A -> string) (t : gmap string A) x :
  x ∈ rows_by key id t <-> exists k, t !! k = Some x.
Proof.
  unfold rows_by. rewrite elem_of_sort_by, list_elem_of_fmap.
  setoid_rewrite elem_of_map_to_list'.
  split; [intros ([k v] & -> & H); by exists k | intros [k H]; by exists (k, x)].
Qed.

Lemma require_nonempty_Ok v n u : require_nonempty v n = Ok u -> v <> "".
Proof. intros H%raise_if_Ok. intros ->. by vm_compute in H. Qed.

Lemma validate_positive_int_Ok v n u : validate_positive_int v n = Ok u <-> 0 < v.
Proof. unfold validate_positive_int. rewrite raise_if_Ok, Z.leb_gt. done. Qed.
