(* ===== verification/DbOrders.v ===== *)
(** * The broker order ledger ([storage/database.py])

    The life of a broker order in SQLite: the claim of a client order id, the
    submission marks, the reconciled status updates, the fills, and the
    application of fills to live positions. *)

From S2P Require Import Prelude PyStr PyFloat PyTime DbCore.

(** The columns an [UPDATE broker_orders] of this class may set. *)
Definition update_order (o : broker_order) (status : string) (broker_order_id : option string)
    (filled_qty : Z) (avg_fill_price : option float) (updated_at : string)
    (submitted_at completed_at error : option string) : broker_order := {|
  bo_client_order_id := bo_client_order_id o;
  bo_signal_id := bo_signal_id o;
  bo_symbol := bo_symbol o;
  bo_side := bo_side o;
  bo_requested_qty := bo_requested_qty o;
  bo_requested_price := bo_requested_price o;
  bo_status := status;
  bo_broker_order_id := broker_order_id;
  bo_filled_qty := filled_qty;
  bo_avg_fill_price := avg_fill_price;
  bo_created_at := bo_created_at o;
  bo_updated_at := updated_at;
  bo_submitted_at := submitted_at;
  bo_completed_at := completed_at;
  bo_error := error;
|}.

Definition get_order (client_order_id : string) (d : db) : option broker_order :=
  t_broker_orders d !! client_order_id.

Definition put_order (client_order_id : string) (o : broker_order) (d : db) : db :=
  set_orders (<[client_order_id := o]>) d.

(** ** Claim and submission *)

Definition claim_order_intent (client_order_id : string) (signal_id : option string)
    (symbol side : string) (requested_qty : Z) (requested_price : float)
    (created_at : option datetime) (clock : datetime) (d : db) : res (bool * db) :=
  _ ← require_nonempty client_order_id "client_order_id";
  _ ← when_some signal_id (fun s => require_nonempty s "signal_id");
  _ ← validate_symbol symbol;
  _ ← require_nonempty side "side";
  let normalized_side := upper side in
  _ ← raise_if (negb (mem_str normalized_side ["BUY"; "SELL"])) (ValueError "side must be BUY or SELL");
  _ ← validate_positive_int requested_qty "requested_qty";
  _ ← validate_positive_float requested_price "requested_price";
  let timestamp := iso (or_else created_at clock) in
  match get_order client_order_id d with
  | Some _ => Ok (false, d)
  | None =>
      Ok (true, put_order client_order_id (mkBrokerOrder client_order_id signal_id symbol
        normalized_side requested_qty requested_price "INTENT" None 0 None timestamp timestamp
        None None None) d)
  end.

(** [UPDATE ... WHERE client_order_id=?]: the row count says whether it exists. *)
Definition update_where (client_order_id : string) (cond : broker_order -> bool)
    (f : broker_order -> broker_order) (d : db) : bool * db :=
  match get_order client_order_id d with
  | Some o => if cond o then (true, put_order client_order_id (f o) d) else (false, d)
  | None => (false, d)
  end.

Definition mark_order_submitting (client_order_id : string) (updated_at : option datetime)
    (clock : datetime) (d : db) : res (bool * db) :=
  _ ← require_nonempty client_order_id "client_order_id";
  let timestamp := iso (or_else updated_at clock) in
  Ok (update_where client_order_id (fun _ => true) (fun o =>
    update_order o "SUBMITTING" (bo_broker_order_id o) (bo_filled_qty o) (bo_avg_fill_price o)
      timestamp (bo_submitted_at o) (bo_completed_at o) None) d).

Definition record_order_submission (client_order_id broker_order_id : string)
    (submitted_at : option datetime) (clock : datetime) (d : db) : res (bool * db) :=
  _ ← require_nonempty client_order_id "client_order_id";
  _ ← require_nonempty broker_order_id "broker_order_id";
  let timestamp := iso (or_else submitted_at clock) in
  Ok (update_where client_order_id (fun _ => true) (fun o =>
    update_order o "ACKNOWLEDGED" (Some broker_order_id) (bo_filled_qty o) (bo_avg_fill_price o)
      timestamp (Some timestamp) (bo_completed_at o) None) d).

Definition mark_order_unknown (client_order_id : string) (error : option string)
    (updated_at : option datetime) (clock : datetime) (d : db) : res (bool * db) :=
  _ ← require_nonempty client_order_id "client_order_id";
  _ ← when_some error (fun e => require_nonempty e "error");
  let timestamp := iso (or_else updated_at clock) in
  Ok (update_where client_order_id (fun _ => true) (fun o =>
    update_order o "UNKNOWN" (bo_broker_order_id o) (bo_filled_qty o) (bo_avg_fill_price o)
      timestamp (bo_submitted_at o) (bo_completed_at o) error) d).

(** ** Reconciled status *)

(** The optional keyword arguments of [update_broker_order_status]. *)
Record status_update := mkStatusUpdate {
  su_broker_order_id : option string;
  su_filled_qty : option Z;
  su_avg_fill_price : option float;
  su_error : option string;
  su_updated_at : option datetime;
  su_completed_at : option datetime;
}.

Definition update_broker_order_status (client_order_id status : string) (u : status_update)
    (clock : datetime) (d : db) : res (bool * db) :=
  _ ← require_nonempty client_order_id "client_order_id";
  _ ← validate_order_status status;
  _ ← when_some (su_broker_order_id u) (fun b => require_nonempty b "broker_order_id");
  _ ← when_some (su_filled_qty u) (fun q =>
        raise_if (q <? 0) (ValueError "filled_qty must be a non-negative integer"));
  _ ← when_some (su_avg_fill_price u) (fun p => validate_positive_float p "avg_fill_price");
  _ ← when_some (su_error u) (fun e => require_nonempty e "error");
  let timestamp := iso (or_else (su_updated_at u) clock) in
  let completion :=
    if mem_str status TERMINAL_BROKER_ORDER_STATUSES
    then Some (iso (or_else (su_completed_at u) (or_else (su_updated_at u) clock)))
    else None in
  Ok (update_where client_order_id
    (fun o => match su_filled_qty u with None => true | Some q => q <=? bo_requested_qty o end)
    (fun o => update_order o status (coalesce (su_broker_order_id u) (bo_broker_order_id o))
      (or_else (su_filled_qty u) (bo_filled_qty o))
      (coalesce (su_avg_fill_price u) (bo_avg_fill_price o))
      timestamp (bo_submitted_at o) completion (su_error u)) d).

(** ** Fills *)

(** [((filled_qty * COALESCE(avg_fill_price,0)) + (q * price)) / (filled_qty + q)] *)
Definition rolled_average (o : broker_order) (q : Z) (price : float) : float :=
  fquot (f_of_Z (bo_filled_qty o) * or_else (bo_avg_fill_price o) fzero + f_of_Z q * price)%F
        (f_of_Z (bo_filled_qty o + q)).

Record fill_args := mkFillArgs {
  fl_fill_id : string;
  fl_client_order_id : string;
  fl_quantity : Z;
  fl_price : float;
  fl_filled_at : datetime;
  fl_broker_order_id : option string;
  fl_symbol : option string;
  fl_side : option string;
  fl_created_at : option datetime;
}.

(** [x is not None and x != y] *)
Definition differs (x : option string) (y : string) : bool :=
  match x with Some s => negb (String.eqb s y) | None => false end.

Definition apply_broker_fill (a : fill_args) (clock : datetime) (d : db) : res (bool * db) :=
  _ ← require_nonempty (fl_fill_id a) "fill_id";
  _ ← require_nonempty (fl_client_order_id a) "client_order_id";
  _ ← validate_positive_int (fl_quantity a) "quantity";
  _ ← validate_positive_float (fl_price a) "price";
  _ ← when_some (fl_broker_order_id a) (fun b => require_nonempty b "broker_order_id");
  _ ← when_some (fl_symbol a) validate_symbol;
  _ ← when_some (fl_side a) (fun s => require_nonempty s "side");
  let normalized_side := upper <$> fl_side a in
  _ ← when_some normalized_side (fun s =>
        raise_if (negb (mem_str s ["BUY"; "SELL"])) (ValueError "side must be BUY or SELL"));
  let fill_timestamp := iso (fl_filled_at a) in
  let created_timestamp := iso (or_else (fl_created_at a) clock) in
  match get_order (fl_client_order_id a) d with
  | None => Err (ValueError ("unknown client_order_id: " +:+ fl_client_order_id a))
  | Some order =>
      _ ← raise_if (differs (fl_symbol a) (bo_symbol order))
            (ValueError "fill symbol does not match order");
      _ ← raise_if (differs normalized_side (bo_side order))
            (ValueError "fill side does not match order");
      _ ← raise_if (match bo_broker_order_id order with
                    | Some b => differs (fl_broker_order_id a) b
                    | None => false
                    end) (ValueError "fill broker_order_id does not match order");
      let effective := text_or (fl_broker_order_id a) (bo_broker_order_id order) in
      match t_broker_fills d !! fl_fill_id a with
      | Some _ => Ok (false, d)
      | None =>
          let q := fl_quantity a in
          let d := set_fills (<[fl_fill_id a := mkBrokerFill (fl_fill_id a)
            (fl_client_order_id a) effective (bo_symbol order) (bo_side order) q (fl_price a)
            fill_timestamp created_timestamp]>) d in
          _ ← raise_if (bo_requested_qty order <? bo_filled_qty order + q)
                (ValueError "fill quantity exceeds requested order quantity");
          let full := bo_filled_qty order + q =? bo_requested_qty order in
          Ok (true, put_order (fl_client_order_id a)
            (update_order order (if full then "FILLED" else "PARTIALLY_FILLED")
               (coalesce (bo_broker_order_id order) effective) (bo_filled_qty order + q)
               (Some (rolled_average order q (fl_price a))) fill_timestamp
               (bo_submitted_at order) (if full then Some fill_timestamp else None) None) d)
      end
  end.

(** ** Live positions *)

Definition set_position (p : live_position) (quantity : Z) (entry_price : float) (status : string)
    (exit_broker_order_id closed_at close_reason : option string) : live_position := {|
  lp_position_id := lp_position_id p;
  lp_signal_id := lp_signal_id p;
  lp_symbol := lp_symbol p;
  lp_quantity := quantity;
  lp_entry_price := entry_price;
  lp_stop_loss_price := lp_stop_loss_price p;
  lp_take_profit_price := lp_take_profit_price p;
  lp_opened_at := lp_opened_at p;
  lp_status := status;
  lp_entry_broker_order_id := lp_entry_broker_order_id p;
  lp_exit_broker_order_id := exit_broker_order_id;
  lp_closed_at := closed_at;
  lp_close_reason := close_reason;
  lp_max_holding_seconds := lp_max_holding_seconds p;
|}.

Definition is_open (p : live_position) : bool := String.eqb (lp_status p) "OPEN".

(** [SELECT * FROM live_positions WHERE status='OPEN' [AND symbol=?] ORDER BY
    opened_at, position_id] *)
Definition list_open_live_positions (symbol : option string) (d : db) : list live_position :=
  List.filter (fun p => is_open p && match symbol with
                                     | Some s => String.eqb (lp_symbol p) s
                                     | None => true
                                     end)
    (rows_by lp_opened_at lp_position_id (t_live_positions d)).

Definition first_open (symbol : string) (d : db) : option live_position :=
  head (list_open_live_positions (Some symbol) d).

Definition signal_taken (signal_id : string) (d : db) : bool :=
  existsb (fun kv => String.eqb (lp_signal_id kv.2) signal_id) (map_to_list (t_live_positions d)).

Definition put_position (p : live_position) (d : db) : db :=
  set_positions (<[lp_position_id p := p]>) d.

Definition open_live_position (position_id signal_id symbol : string) (quantity : Z)
    (entry_price stop_loss_price take_profit_price : float) (opened_at : datetime)
    (entry_broker_order_id : option string) (max_holding_seconds : option Z) (d : db)
    : res (bool * db) :=
  _ ← validate_paper_record symbol quantity entry_price;
  _ ← raise_if (sempty position_id || sempty signal_id)
        (ValueError "position_id and signal_id are required");
  _ ← raise_if (negb ((stop_loss_price <? entry_price) && (entry_price <? take_profit_price))%F)
        (ValueError "position prices must satisfy stop < entry < take_profit");
  match t_live_positions d !! position_id with
  | Some _ => Ok (false, d)
  | None =>
      if signal_taken signal_id d then Ok (false, d)
      else Ok (true, put_position (mkLivePosition position_id signal_id symbol quantity entry_price
        stop_loss_price take_profit_price (iso opened_at) "OPEN" entry_broker_order_id None None
        None max_holding_seconds) d)
  end.

Definition close_live_position (position_id : string) (exit_broker_order_id : option string)
    (close_reason : string) (closed_at : option datetime) (clock : datetime) (d : db)
    : res (bool * db) :=
  _ ← raise_if (sempty position_id || sempty close_reason)
        (ValueError "position_id and close_reason are required");
  let timestamp := iso (or_else closed_at clock) in
  match t_live_positions d !! position_id with
  | Some p =>
      if is_open p
      then Ok (true, set_positions (<[position_id := set_position p (lp_quantity p)
             (lp_entry_price p) "CLOSED" exit_broker_order_id (Some timestamp)
             (Some close_reason)]>) d)
      else Ok (false, d)
  | None => Ok (false, d)
  end.

(** ** Materialisation of fills *)

Record risk_terms := mkRiskTerms {
  rt_stop_loss_price : option float;
  rt_take_profit_price : option float;
  rt_max_holding_seconds : option Z;
}.

(** [(old_q * entry + q * price) / new_q]: floats, as Python computes it. *)
Definition averaged_entry (p : live_position) (f : broker_fill) : res float :=
  held ← fmul_Z (lp_quantity p) (lp_entry_price p);
  bought ← fmul_Z (bf_quantity f) (bf_price f);
  total ← float_of_int (lp_quantity p + bf_quantity f);
  fdiv (held + bought)%F total.

(** [not stop < price < take], with missing terms refused. *)
Definition bad_terms (t : risk_terms) (price : float) : bool :=
  match rt_stop_loss_price t, rt_take_profit_price t with
  | Some stop, Some take => negb ((stop <? price) && (price <? take))%F
  | _, _ => true
  end.

Definition apply_buy (t : risk_terms) (order : broker_order) (fill : broker_fill)
    (filled_at : datetime) (position : option live_position) (d : db) : res db :=
  match position with
  | None =>
      _ ← raise_if (bad_terms t (bf_price fill))
            (ValueError "BUY fill requires a valid stop/take price ladder");
      let signal_id := text_or_default (bo_signal_id order)
                         ("fill:" +:+ bo_client_order_id order) in
      let position_id := "live-position:" +:+ signal_id in
      match t_live_positions d !! position_id with
      | Some _ => Err (IntegrityError "UNIQUE constraint failed: live_positions.position_id")
      | None =>
          _ ← raise_if (signal_taken signal_id d)
                (IntegrityError "UNIQUE constraint failed: live_positions.signal_id");
          Ok (put_position (mkLivePosition position_id signal_id (bf_symbol fill)
            (bf_quantity fill) (bf_price fill) (or_else (rt_stop_loss_price t) fzero)
            (or_else (rt_take_profit_price t) fzero) (iso filled_at) "OPEN"
            (text_or (bf_broker_order_id fill) (bo_broker_order_id order)) None None None
            (rt_max_holding_seconds t)) d)
      end
  | Some p =>
      average ← averaged_entry p fill;
      Ok (put_position (set_position p (lp_quantity p + bf_quantity fill) average "OPEN"
        (lp_exit_broker_order_id p) (lp_closed_at p) (lp_close_reason p)) d)
  end.

Definition apply_sell (close_reason : string) (order : broker_order) (fill : broker_fill)
    (filled_at : datetime) (position : option live_position) (d : db) : res db :=
  match position with
  | None => Err (ValueError "SELL fill has no open live position")
  | Some p =>
      _ ← raise_if (lp_quantity p <? bf_quantity fill)
            (ValueError "SELL fill exceeds open live position");
      let new_quantity := lp_quantity p - bf_quantity fill in
      let exit_id := text_or (bf_broker_order_id fill) (bo_broker_order_id order) in
      Ok (put_position
        (if new_quantity =? 0
         then set_position p 0 (lp_entry_price p) "CLOSED" exit_id (Some (iso filled_at))
                (Some close_reason)
         else set_position p new_quantity (lp_entry_price p) "OPEN" exit_id
                (lp_closed_at p) (lp_close_reason p)) d)
  end.

(** One iteration of the loop: the position change, then the application mark. *)
Definition apply_fill_to_position (t : risk_terms) (close_reason : string) (order : broker_order)
    (clock : datetime) (fill : broker_fill) (d : db) : res db :=
  filled_at ← fromisoformat (bf_filled_at fill);
  let position := first_open (bf_symbol fill) d in
  d ← (if String.eqb (bf_side fill) "BUY"
       then apply_buy t order fill filled_at position d
       else apply_sell close_reason order fill filled_at position d);
  match t_fill_applications d !! bf_fill_id fill with
  | Some _ => Err (IntegrityError "UNIQUE constraint failed: live_position_fill_applications.fill_id")
  | None => Ok (set_applications (<[bf_fill_id fill := mkFillApplication (bf_fill_id fill)
                  (bo_client_order_id order) (iso clock)]>) d)
  end.

Fixpoint apply_fills (t : risk_terms) (close_reason : string) (order : broker_order)
    (clock : datetime) (fills : list broker_fill) (applied : Z) (d : db) : res (Z * db) :=
  match fills with
  | [] => Ok (applied, d)
  | f :: fills' =>
      d' ← apply_fill_to_position t close_reason order clock f d;
      apply_fills t close_reason order clock fills' (applied + 1) d'
  end.

Definition unmaterialized (d : db) (f : broker_fill) : bool :=
  match t_fill_applications d !! bf_fill_id f with None => true | Some _ => false end.

(** [SELECT * FROM broker_fills WHERE client_order_id=? ORDER BY filled_at, fill_id] *)
Definition list_broker_fills (client_order_id : string) (d : db) : list broker_fill :=
  List.filter (fun f => String.eqb (bf_client_order_id f) client_order_id)
    (rows_by bf_filled_at bf_fill_id (t_broker_fills d)).

(** The fills of the order that the LEFT JOIN finds unapplied. *)
Definition pending_fills (client_order_id : string) (d : db) : list broker_fill :=
  List.filter (unmaterialized d) (list_broker_fills client_order_id d).

Definition materialize_order_fills (client_order_id : string) (t : risk_terms)
    (close_reason : string) (clock : datetime) (d : db) : res (Z * db) :=
  _ ← require_nonempty client_order_id "client_order_id";
  _ ← when_some (rt_stop_loss_price t) (fun p => validate_positive_float p "stop_loss_price");
  _ ← when_some (rt_take_profit_price t) (fun p => validate_positive_float p "take_profit_price");
  _ ← when_some (rt_max_holding_seconds t) (fun s =>
        raise_if (s <=? 0) (ValueError "max_holding_seconds must be positive"));
  _ ← raise_if (sempty close_reason) (ValueError "close_reason must not be empty");
  match get_order client_order_id d with
  | None => Err (ValueError ("unknown client_order_id: " +:+ client_order_id))
  | Some order =>
      apply_fills t close_reason order clock (pending_fills client_order_id d) 0 d
  end.

Definition get_broker_order (client_order_id : string) (d : db) : res (option broker_order) :=
  _ ← require_nonempty client_order_id "client_order_id";
  Ok (get_order client_order_id d).
