(* ===== verification/DbLedger.v ===== *)
(** * Invariants of the broker order ledger

    What the write methods of [DbOrders] keep true of the database, however they
    are interleaved: the well-formedness of orders, fills and positions, the
    idempotence of claims and fills, and the exactly-once application of fills
    to live positions. *)

From stdpp Require Import relations.
From S2P Require Import Prelude PyStr PyFloat PyTime DbCore DbOrders.

(** ** Well-formed ledgers *)

Record order_ok (id : string) (o : broker_order) : Prop := {
  ok_id : bo_client_order_id o = id;
  ok_filled : 0 <= bo_filled_qty o <= bo_requested_qty o;
  ok_status : bo_status o ∈ BROKER_ORDER_STATUSES;
  ok_side : bo_side o ∈ ["BUY"; "SELL"];
}.

Record position_ok (id : string) (p : live_position) : Prop := {
  ok_position_id : lp_position_id p = id;
  ok_quantity : 0 <= lp_quantity p;
  ok_open : is_open p = true -> 0 < lp_quantity p;
}.

Record ledger_ok (d : db) : Prop := {
  lo_orders : map_Forall order_ok (t_broker_orders d);
  lo_fills : forall id f, t_broker_fills d !! id = Some f ->
    bf_fill_id f = id /\ 0 < bf_quantity f /\
    exists o, t_broker_orders d !! bf_client_order_id f = Some o /\
      bf_symbol f = bo_symbol o /\ bf_side f = bo_side o;
  lo_applications : forall id a, t_fill_applications d !! id = Some a ->
    exists f, t_broker_fills d !! id = Some f /\ bf_client_order_id f = fa_client_order_id a;
  lo_positions : map_Forall position_ok (t_live_positions d);
  lo_signals : forall k1 k2 p1 p2,
    t_live_positions d !! k1 = Some p1 -> t_live_positions d !! k2 = Some p2 ->
    lp_signal_id p1 = lp_signal_id p2 -> k1 = k2;
}.

(** The write methods of the ledger, with any arguments. *)
Inductive ledger_step : db -> db -> Prop :=
  | ls_claim c s sym side q p at_ clock b d d' :
      claim_order_intent c s sym side q p at_ clock d = Ok (b, d') -> ledger_step d d'
  | ls_submitting c at_ clock b d d' :
      mark_order_submitting c at_ clock d = Ok (b, d') -> ledger_step d d'
  | ls_submission c bid at_ clock b d d' :
      record_order_submission c bid at_ clock d = Ok (b, d') -> ledger_step d d'
  | ls_unknown c e at_ clock b d d' :
      mark_order_unknown c e at_ clock d = Ok (b, d') -> ledger_step d d'
  | ls_status c st u clock b d d' :
      update_broker_order_status c st u clock d = Ok (b, d') -> ledger_step d d'
  | ls_fill a clock b d d' :
      apply_broker_fill a clock d = Ok (b, d') -> ledger_step d d'
  | ls_open pid sid sym q e sl tp at_ bid mh b d d' :
      open_live_position pid sid sym q e sl tp at_ bid mh d = Ok (b, d') -> ledger_step d d'
  | ls_close pid bid r at_ clock b d d' :
      close_live_position pid bid r at_ clock d = Ok (b, d') -> ledger_step d d'
  | ls_materialize c t r clock n d d' :
      materialize_order_fills c t r clock d = Ok (n, d') -> ledger_step d d'.

(** Open shares of a symbol, and the signed effect of a fill on them. *)
Definition open_shares (symbol : string) (p : live_position) : Z :=
  if is_open p && String.eqb (lp_symbol p) symbol then lp_quantity p else 0.
Definition open_quantity (symbol : string) (d : db) : Z :=
  map_sum (open_shares symbol) (t_live_positions d).
Definition signed_fill (symbol : string) (f : broker_fill) : Z :=
  if String.eqb (bf_symbol f) symbol
  then if String.eqb (bf_side f) "BUY" then bf_quantity f else - bf_quantity f
  else 0.

(** ** A concrete ledger for the witnesses *)

Definition w_clock : datetime := Datetime 1700000000000000 (Some KST).

Definition run_or {A} (r : res (A * db)) : db :=
  match r with Ok (_, d) => d | Err _ => empty_db end.

(** A BUY of ten shares is claimed, four then six of them are filled. *)
Definition w_fill (id : string) (q : Z) : fill_args :=
  mkFillArgs id "c1" q (f_of_Z 70000) w_clock (Some "b1") (Some "005930") (Some "BUY") None.
Definition w_claim (d : db) : res (bool * db) :=
  claim_order_intent "c1" (Some "sig1") "005930" "buy" 10 (f_of_Z 70000) None w_clock d.
Definition w_terms : risk_terms :=
  mkRiskTerms (Some (f_of_Z 69000)) (Some (f_of_Z 72000)) (Some 600).

Definition w_claimed : db := run_or (w_claim (init_schema empty_db)).
Definition w_filled4 : db := run_or (apply_broker_fill (w_fill "f1" 4) w_clock w_claimed).
Definition w_filled10 : db := run_or (apply_broker_fill (w_fill "f2" 6) w_clock w_filled4).
Definition w_materialized : db :=
  run_or (materialize_order_fills "c1" w_terms "broker_fill" w_clock w_filled10).

(** ** Lemmas on single tables *)

Lemma orders_put id o d : t_broker_orders (put_order id o d) = <[id := o]> (t_broker_orders d).
Proof. done. Qed.

Lemma order_ok_update id o st bid q avg u s c e :
  order_ok id o -> st ∈ BROKER_ORDER_STATUSES -> 0 <= q <= bo_requested_qty o ->
  order_ok id (update_order o st bid q avg u s c e).
Proof. intros [] Hst Hq. by constructor. Qed.

(** Replacing an order by an update of itself keeps the ledger. *)
Lemma ledger_ok_put_order id o o' d :
  ledger_ok d -> get_order id d = Some o -> order_ok id o' ->
  bo_symbol o' = bo_symbol o -> bo_side o' = bo_side o ->
  ledger_ok (put_order id o' d).
Proof.
  intros [Ho Hf Ha Hp Hs] Hg Hok Hsym Hside. constructor; try done.
  - by apply map_Forall_insert_2.
  - intros k f Hk. destruct (Hf _ _ Hk) as (H1 & H2 & o1 & H3 & H4 & H5).
    split; [done|]. split; [done|]. rewrite orders_put.
    destruct (decide (bf_client_order_id f = id)) as [Heq|Hne].
    + rewrite Heq in *. rewrite lookup_insert_eq. unfold get_order in Hg. rewrite Hg in H3. injection H3 as <-.
      exists o'. rewrite Hsym, Hside. done.
    + rewrite lookup_insert_ne by done. by exists o1.
Qed.

Lemma update_where_Ok id cond f d b d' :
  update_where id cond f d = (b, d') ->
  (b = false /\ d' = d) \/
  (exists o, get_order id d = Some o /\ cond o = true /\ b = true /\ d' = put_order id (f o) d).
Proof.
  unfold update_where. destruct (get_order id d) as [o|]; [destruct (cond o) eqn:E|];
    intros [= <- <-]; eauto 10.
Qed.

Lemma update_where_ledger_ok id cond st bid q avg u s c e d b d' :
  ledger_ok d -> st ∈ BROKER_ORDER_STATUSES ->
  (forall o, order_ok id o -> cond o = true -> 0 <= q o <= bo_requested_qty o) ->
  update_where id cond (fun o => update_order o st (bid o) (q o) (avg o) (u o) (s o) (c o) (e o)) d
    = (b, d') -> ledger_ok d'.
Proof.
  intros Hd Hst Hq H. apply update_where_Ok in H as [[_ ->]|(o & Hg & Hc & _ & ->)]; [done|].
  assert (Hok : order_ok id o) by (by apply (lo_orders _ Hd)).
  apply (ledger_ok_put_order id o); try done. apply order_ok_update; auto.
Qed.

Lemma status_in st : mem_str st BROKER_ORDER_STATUSES = true -> st ∈ BROKER_ORDER_STATUSES.
Proof. apply mem_str_true. Qed.

(** ** Claims and status updates *)

Lemma claim_ledger_ok c s sym side q p at_ clock b d d' :
  ledger_ok d -> claim_order_intent c s sym side q p at_ clock d = Ok (b, d') -> ledger_ok d'.
Proof.
  intros Hd H. unfold claim_order_intent in H. inv_ok. cbv zeta in *. inv_ok.
  destruct (get_order c d) eqn:Hg; inv_ok; [by simplify_eq|]. simplify_eq.
  apply validate_positive_int_Ok in Hv4. apply negb_false_iff, mem_str_true in Hv3.
  destruct Hd as [Ho Hf Ha Hp Hs]. constructor; try done.
  - apply map_Forall_insert_2; [|done]. constructor; cbn; [done|lia| |done].
    apply mem_str_true. reflexivity.
  - intros k f Hk. destruct (Hf _ _ Hk) as (H1 & H2 & o1 & H3 & H4).
    split; [done|]. split; [done|]. exists o1. split; [|done].
    rewrite orders_put, lookup_insert_ne; [done|].
    intros Heq. unfold get_order in Hg. congruence.
Qed.

Lemma submitting_ledger_ok c at_ clock b d d' :
  ledger_ok d -> mark_order_submitting c at_ clock d = Ok (b, d') -> ledger_ok d'.
Proof.
  intros Hd H. unfold mark_order_submitting in H. inv_ok.
  match goal with H : update_where _ _ _ _ = _ |- _ =>
    eapply update_where_ledger_ok; [done| | |exact H] end; [by apply status_in|].
  intros o [] _. done.
Qed.

Lemma submission_ledger_ok c bid at_ clock b d d' :
  ledger_ok d -> record_order_submission c bid at_ clock d = Ok (b, d') -> ledger_ok d'.
Proof.
  intros Hd H. unfold record_order_submission in H. inv_ok.
  match goal with H : update_where _ _ _ _ = _ |- _ =>
    eapply update_where_ledger_ok; [done| | |exact H] end; [by apply status_in|].
  intros o [] _. done.
Qed.

Lemma unknown_ledger_ok c e at_ clock b d d' :
  ledger_ok d -> mark_order_unknown c e at_ clock d = Ok (b, d') -> ledger_ok d'.
Proof.
  intros Hd H. unfold mark_order_unknown in H. inv_ok.
  match goal with H : update_where _ _ _ _ = _ |- _ =>
    eapply update_where_ledger_ok; [done| | |exact H] end; [by apply status_in|].
  intros o [] _. done.
Qed.

Lemma status_ledger_ok c st u clock b d d' :
  ledger_ok d -> update_broker_order_status c st u clock d = Ok (b, d') -> ledger_ok d'.
Proof.
  intros Hd H. unfold update_broker_order_status in H. inv_ok.
  match goal with H : update_where _ _ _ _ = _ |- _ =>
    eapply update_where_ledger_ok; [done| | |exact H] end.
  - apply status_in. apply raise_if_Ok, negb_false_iff in Hv0. done.
  - intros o [] Hc. destruct (su_filled_qty u) as [q|]; cbn in *; [|done].
    apply raise_if_Ok in Hv2. bool_to_prop. lia.
Qed.

(** ** Fills *)

(** What an accepted fill does: one new fill row, and the order rolled forward
    within its requested quantity. *)
Lemma apply_broker_fill_Ok a clock d b d' :
  apply_broker_fill a clock d = Ok (b, d') ->
  exists o, get_order (fl_client_order_id a) d = Some o /\ 0 < fl_quantity a /\
  ((b = false /\ d' = d /\ is_Some (t_broker_fills d !! fl_fill_id a)) \/
   (b = true /\ t_broker_fills d !! fl_fill_id a = None /\
    bo_filled_qty o + fl_quantity a <= bo_requested_qty o /\
    exists f o', d' = put_order (fl_client_order_id a) o' (set_fills (<[fl_fill_id a := f]>) d) /\
      bf_fill_id f = fl_fill_id a /\ bf_client_order_id f = fl_client_order_id a /\
      bf_symbol f = bo_symbol o /\ bf_side f = bo_side o /\ bf_quantity f = fl_quantity a /\
      o' = update_order o
        (if bo_filled_qty o + fl_quantity a =? bo_requested_qty o
         then "FILLED" else "PARTIALLY_FILLED")
        (bo_broker_order_id o') (bo_filled_qty o + fl_quantity a)
        (Some (rolled_average o (fl_quantity a) (fl_price a))) (iso (fl_filled_at a))
        (bo_submitted_at o)
        (if bo_filled_qty o + fl_quantity a =? bo_requested_qty o
         then Some (iso (fl_filled_at a)) else None) None)).
Proof.
  unfold apply_broker_fill. intros H.
  do 7 (apply bind_Ok in H as ([] & ? & H)). cbv zeta in H. apply bind_Ok in H as ([] & ? & H).
  destruct (get_order _ d) as [o|] eqn:Hg; [|done]. exists o. split; [done|].
  split; [by eapply validate_positive_int_Ok|].
  do 3 (apply bind_Ok in H as ([] & ? & H)).
  destruct (t_broker_fills d !! fl_fill_id a) eqn:Hf.
  - injection H as <- <-. left. split_and!; eauto.
  - right. apply bind_Ok in H as ([] & Hq & H). injection H as <- <-.
    apply raise_if_Ok in Hq. bool_to_prop. repeat split; [lia|].
    eexists _, _. repeat split.
Qed.

Lemma fill_ledger_ok a clock b d d' :
  ledger_ok d -> apply_broker_fill a clock d = Ok (b, d') -> ledger_ok d'.
Proof.
  intros Hd H.
  apply apply_broker_fill_Ok in H as (o & Hg & Hq & [(_ & -> & _)|(_ & Hn & Hle & f & o' & -> &
    Hf1 & Hf2 & Hf3 & Hf4 & Hf5 & Ho')]); [done|].
  assert (Hok : order_ok (fl_client_order_id a) o) by (by apply (lo_orders _ Hd)).
  apply (ledger_ok_put_order _ o).
  - destruct Hd as [Ho Hf Ha Hp Hs]. constructor; try done; cbn.
    + intros k f' Hk. destruct (decide (k = fl_fill_id a)) as [->|Hne].
      * rewrite lookup_insert_eq in Hk. injection Hk as <-. rewrite Hf5.
        split_and!; try done. exists o. rewrite Hf2, Hf3, Hf4. done.
      * rewrite lookup_insert_ne in Hk by done. by apply Hf.
    + intros k a' Hk. destruct (Ha _ _ Hk) as (f' & H1 & H2).
      exists f'. split; [|done]. rewrite lookup_insert_ne; [done|]. congruence.
  - done.
  - rewrite Ho'. apply order_ok_update; [done| |destruct Hok; lia].
    apply status_in. by destruct (_ =? _).
  - by rewrite Ho'.
  - by rewrite Ho'.
Qed.

(** ** Live positions *)

Lemma positions_put p d :
  t_live_positions (put_position p d) = <[lp_position_id p := p]> (t_live_positions d).
Proof. done. Qed.

Lemma signal_taken_false s d :
  signal_taken s d = false <->
  forall k p, t_live_positions d !! k = Some p -> lp_signal_id p <> s.
Proof.
  unfold signal_taken. rewrite <- not_true_iff_false, existsb_exists.
  setoid_rewrite String.eqb_eq. split.
  - intros H k p Hk Heq. apply H. exists (k, p). split; [|done].
    by apply list_elem_of_In, elem_of_map_to_list.
  - intros H ([k p] & Hin & Heq). apply list_elem_of_In, elem_of_map_to_list in Hin. by eapply H.
Qed.

Lemma first_open_spec sym d p :
  ledger_ok d -> first_open sym d = Some p ->
  t_live_positions d !! lp_position_id p = Some p /\ is_open p = true /\ lp_symbol p = sym /\
  0 < lp_quantity p.
Proof.
  intros Hd H. unfold first_open in H. apply head_Some_elem_of in H.
  unfold list_open_live_positions in H. apply list_elem_of_In, filter_In in H as [H1 H2].
  apply andb_true_iff in H2 as [H2 H3]. apply String.eqb_eq in H3.
  apply list_elem_of_In, elem_of_rows_by in H1 as [k Hk].
  destruct (lo_positions _ Hd _ _ Hk) as [Hid Hq Ho]. rewrite Hid. auto.
Qed.

Lemma first_open_None sym d :
  first_open sym d = None ->
  forall k p, t_live_positions d !! k = Some p -> open_shares sym p = 0.
Proof.
  intros H k p Hk. unfold first_open in H. apply head_None in H.
  unfold open_shares. destruct (is_open p && _) eqn:E; [|done]. exfalso.
  assert (p ∈ list_open_live_positions (Some sym) d).
  { unfold list_open_live_positions. apply list_elem_of_In, filter_In. split; [|done].
    apply list_elem_of_In, elem_of_rows_by. by exists k. }
  rewrite H in *. by eapply elem_of_nil.
Qed.

(** Replacing a position by one of the same identity. *)
Lemma ledger_ok_put_position p p' d :
  ledger_ok d -> t_live_positions d !! lp_position_id p = Some p ->
  lp_position_id p' = lp_position_id p -> lp_signal_id p' = lp_signal_id p ->
  0 <= lp_quantity p' -> (is_open p' = true -> 0 < lp_quantity p') ->
  ledger_ok (put_position p' d).
Proof.
  intros [Ho Hf Ha Hp Hs] Hk Hid Hsig Hq Hop. constructor; try done.
  - rewrite positions_put. apply map_Forall_insert_2; [by constructor|done].
  - rewrite positions_put, Hid. intros k1 k2 p1 p2 H1 H2 Heq.
    destruct (decide (k1 = lp_position_id p)) as [->|], (decide (k2 = lp_position_id p)) as [->|];
      simplify_map_eq; try done.
    + apply (Hs _ _ p p2); congruence.
    + apply (Hs _ _ p1 p); congruence.
    + by eapply Hs.
Qed.

Lemma ledger_ok_new_position p d :
  ledger_ok d -> t_live_positions d !! lp_position_id p = None ->
  signal_taken (lp_signal_id p) d = false -> 0 < lp_quantity p ->
  ledger_ok (put_position p d).
Proof.
  intros [Ho Hf Ha Hp Hs] Hk Hsig Hq. rewrite signal_taken_false in Hsig. constructor; try done.
  - rewrite positions_put. apply map_Forall_insert_2; [constructor; done || lia|done].
  - rewrite positions_put. intros k1 k2 p1 p2 H1 H2 Heq.
    destruct (decide (k1 = lp_position_id p)) as [->|], (decide (k2 = lp_position_id p)) as [->|];
      simplify_map_eq; try done.
    + by exfalso; eapply Hsig.
    + by exfalso; eapply Hsig.
    + by eapply Hs.
Qed.

Lemma open_quantity_put sym p p' d :
  t_live_positions d !! lp_position_id p' = Some p ->
  open_quantity sym (put_position p' d) =
    open_quantity sym d - open_shares sym p + open_shares sym p'.
Proof. intros H. unfold open_quantity. rewrite positions_put. by apply map_sum_update. Qed.

Lemma open_quantity_new sym p d :
  t_live_positions d !! lp_position_id p = None ->
  open_quantity sym (put_position p d) = open_shares sym p + open_quantity sym d.
Proof. intros H. unfold open_quantity. rewrite positions_put. by apply map_sum_insert. Qed.

Lemma open_ledger_ok pid sid sym q e sl tp at_ bid mh b d d' :
  ledger_ok d -> open_live_position pid sid sym q e sl tp at_ bid mh d = Ok (b, d') -> ledger_ok d'.
Proof.
  intros Hd H. unfold open_live_position in H. inv_ok.
  destruct (t_live_positions d !! pid) eqn:Hp; inv_ok; simplify_eq; [done|].
  destruct (signal_taken sid d) eqn:Hs; inv_ok; simplify_eq; [done|].
  apply ledger_ok_new_position; try done.
  unfold validate_paper_record in Hv. inv_ok. bool_to_prop. done.
Qed.

Lemma close_ledger_ok pid bid r at_ clock b d d' :
  ledger_ok d -> close_live_position pid bid r at_ clock d = Ok (b, d') -> ledger_ok d'.
Proof.
  intros Hd H. unfold close_live_position in H. inv_ok. cbv zeta in *.
  destruct (t_live_positions d !! pid) as [p|] eqn:Hp; inv_ok; simplify_eq; [|done].
  destruct (is_open p) eqn:Ho; inv_ok; simplify_eq; [|done].
  destruct (lo_positions _ Hd _ _ Hp) as [Hid Hq Hop]. subst pid.
  set (p' := set_position _ _ _ _ _ _ _). change (ledger_ok (put_position p' d)).
  by apply (ledger_ok_put_position p).
Qed.

(** ** Materialisation *)

Lemma open_shares_set sym p q e st x c r :
  open_shares sym (set_position p q e st x c r) =
    if String.eqb st "OPEN" && String.eqb (lp_symbol p) sym then q else 0.
Proof. done. Qed.

Lemma open_shares_open sym p :
  is_open p = true -> open_shares sym p = if String.eqb (lp_symbol p) sym then lp_quantity p else 0.
Proof. unfold open_shares. by intros ->. Qed.

Lemma apply_buy_effect t o f at_ d d' sym :
  ledger_ok d -> 0 < bf_quantity f ->
  apply_buy t o f at_ (first_open (bf_symbol f) d) d = Ok d' ->
  ledger_ok d' /\
  open_quantity sym d' = open_quantity sym d +
    (if String.eqb (bf_symbol f) sym then bf_quantity f else 0) /\
  t_fill_applications d' = t_fill_applications d /\ t_broker_fills d' = t_broker_fills d.
Proof.
  intros Hd Hq H. unfold apply_buy in H.
  destruct (first_open (bf_symbol f) d) as [p|] eqn:Hf.
  - apply first_open_spec in Hf as (Hp & Ho & Hs & Hpos); [|done]. inv_ok.
    set (p' := set_position _ _ _ _ _ _ _).
    split; [apply (ledger_ok_put_position p); try done; cbn; lia|]. split; [|done].
    rewrite (open_quantity_put sym p) by done.
    unfold p'. rewrite open_shares_set, open_shares_open, <- Hs by done. cbn.
    destruct (String.eqb _ sym); lia.
  - inv_ok. cbv zeta in *.
    destruct (t_live_positions d !! _) eqn:Hfree; [done|]. inv_ok.
    set (p' := mkLivePosition _ _ _ _ _ _ _ _ _ _ _ _ _ _).
    split; [by apply ledger_ok_new_position|]. split; [|done].
    rewrite open_quantity_new by done. unfold p', open_shares. cbn.
    destruct (String.eqb _ sym); lia.
Qed.

Lemma apply_sell_effect r o f at_ d d' sym :
  ledger_ok d -> 0 < bf_quantity f ->
  apply_sell r o f at_ (first_open (bf_symbol f) d) d = Ok d' ->
  ledger_ok d' /\
  open_quantity sym d' = open_quantity sym d -
    (if String.eqb (bf_symbol f) sym then bf_quantity f else 0) /\
  t_fill_applications d' = t_fill_applications d /\ t_broker_fills d' = t_broker_fills d.
Proof.
  intros Hd Hq H. unfold apply_sell in H.
  destruct (first_open (bf_symbol f) d) as [p|] eqn:Hf; [|done].
  apply first_open_spec in Hf as (Hp & Ho & Hs & Hpos); [|done]. cbv zeta in H. inv_ok. bool_to_prop.
  set (p' := if _ =? 0 then _ else _).
  assert (Hid : lp_position_id p' = lp_position_id p) by (unfold p'; by destruct (_ =? 0)).
  split; [|split; [|done]].
  - apply (ledger_ok_put_position p); try done; unfold p'; destruct (Z.eqb_spec (lp_quantity p - bf_quantity f) 0);
      try done; cbn; intros; lia.
  - rewrite (open_quantity_put sym p) by (by rewrite Hid). rewrite open_shares_open, <- Hs by done.
    unfold p'. destruct (Z.eqb_spec (lp_quantity p - bf_quantity f) 0); rewrite open_shares_set; cbn;
      destruct (String.eqb _ sym); lia.
Qed.

(** A fill of the order [o] present in the ledger. *)
Definition fill_of (o : broker_order) (d : db) (f : broker_fill) : Prop :=
  t_broker_fills d !! bf_fill_id f = Some f /\ bf_client_order_id f = bo_client_order_id o.

Lemma apply_fill_effect t r o clock f d d' sym :
  ledger_ok d -> fill_of o d f ->
  apply_fill_to_position t r o clock f d = Ok d' ->
  ledger_ok d' /\
  open_quantity sym d' = open_quantity sym d + signed_fill sym f /\
  t_broker_fills d' = t_broker_fills d /\
  t_fill_applications d !! bf_fill_id f = None /\
  dom (t_fill_applications d') = {[bf_fill_id f]} ∪ dom (t_fill_applications d).
Proof.
  intros Hd [Hin Hc] H. unfold apply_fill_to_position in H.
  apply bind_Ok in H as (at_ & _ & H). cbv zeta in H. apply bind_Ok in H as (d1 & H1 & H).
  destruct (lo_fills _ Hd _ _ Hin) as (_ & Hq & _).
  assert (Heff : ledger_ok d1 /\ open_quantity sym d1 = open_quantity sym d + signed_fill sym f /\
    t_fill_applications d1 = t_fill_applications d /\ t_broker_fills d1 = t_broker_fills d).
  { unfold signed_fill. destruct (String.eqb (bf_side f) "BUY").
    - apply (apply_buy_effect t o f at_ d d1 sym) in H1 as (? & ? & ? & ?); try done.
    - apply (apply_sell_effect r o f at_ d d1 sym) in H1 as (? & Hx & ? & ?); try done.
      split_and!; try done. rewrite Hx. destruct (String.eqb _ _); lia. }
  destruct Heff as (Hd1 & Hopen & Happ & Hfills). rewrite Happ in H.
  destruct (t_fill_applications d !! bf_fill_id f) eqn:Ha; [done|]. injection H as <-.
  split; [|split; [done|split; [done|split; [done|cbn; rewrite dom_insert_L; by rewrite Happ]]]].
  destruct Hd1 as [Ho1 Hf1 Ha1 Hp1 Hs1]. constructor; try done. cbn.
  intros k a Hk. destruct (decide (k = bf_fill_id f)) as [->|Hne].
  - rewrite lookup_insert_eq in Hk. injection Hk as <-. exists f. cbn. by rewrite Hfills.
  - rewrite lookup_insert_ne in Hk by done. by apply Ha1.
Qed.

Lemma apply_fills_effect t r o clock fills n d n' d' sym :
  ledger_ok d -> Forall (fill_of o d) fills ->
  apply_fills t r o clock fills n d = Ok (n', d') ->
  ledger_ok d' /\
  open_quantity sym d' = open_quantity sym d + sum_by (signed_fill sym) fills /\
  t_broker_fills d' = t_broker_fills d /\
  n' = n + Z.of_nat (length fills) /\
  dom (t_fill_applications d') =
    list_to_set (map bf_fill_id fills) ∪ dom (t_fill_applications d).
Proof.
  revert n d. induction fills as [|f fills IH]; cbn; intros n d Hd Hall H.
  - injection H as <- <-. split_and!; try done; try lia. set_solver.
  - apply Forall_cons_1 in Hall as [Hf Hall]. apply bind_Ok in H as (d1 & H1 & H).
    destruct (apply_fill_effect _ _ _ _ _ _ _ sym Hd Hf H1) as (Hd1 & Hq1 & Hfl1 & _ & Hdom1).
    assert (Hall1 : Forall (fill_of o d1) fills).
    { revert Hall. apply Forall_impl. intros g [? ?]. split; [by rewrite Hfl1|done]. }
    specialize (IH _ _ Hd1 Hall1 H) as (Hd' & Hq' & Hfl' & Hn' & Hdom').
    split; [done|]. split; [lia|]. split; [congruence|]. split; [lia|].
    rewrite Hdom', Hdom1. set_solver.
Qed.

Lemma pending_fills_of o d :
  ledger_ok d -> get_order (bo_client_order_id o) d = Some o ->
  Forall (fill_of o d) (pending_fills (bo_client_order_id o) d).
Proof.
  intros Hd Ho. apply Forall_forall. intros f Hf. unfold pending_fills, list_broker_fills in Hf.
  apply filter_In in Hf as [Hf _]. apply filter_In in Hf as [Hf Hc].
  apply String.eqb_eq in Hc. apply list_elem_of_In, elem_of_rows_by in Hf as [k Hk].
  destruct (lo_fills _ Hd _ _ Hk) as (Hid & _). split; [by rewrite Hid|done].
Qed.

(** The whole effect of a materialisation that succeeds. *)
Lemma materialize_effect c t r clock d n d' :
  ledger_ok d -> materialize_order_fills c t r clock d = Ok (n, d') ->
  ledger_ok d' /\ n = Z.of_nat (length (pending_fills c d)) /\
  t_broker_fills d' = t_broker_fills d /\
  dom (t_fill_applications d') =
    list_to_set (map bf_fill_id (pending_fills c d)) ∪ dom (t_fill_applications d) /\
  forall sym, open_quantity sym d' =
    open_quantity sym d + sum_by (signed_fill sym) (pending_fills c d).
Proof.
  intros Hd H. unfold materialize_order_fills in H.
  do 5 (apply bind_Ok in H as ([] & _ & H)).
  destruct (get_order c d) as [o|] eqn:Ho; [|done].
  assert (Hid : bo_client_order_id o = c) by (apply (lo_orders _ Hd _ _ Ho)). subst c.
  assert (Hall := pending_fills_of _ _ Hd Ho).
  pose proof (fun sym => apply_fills_effect _ _ _ _ _ _ _ _ _ sym Hd Hall H) as He.
  destruct (He "") as (H1 & _ & H2 & H3 & H4).
  split_and!; try done. intros sym. by destruct (He sym) as (_ & ? & _).
Qed.

Lemma ledger_step_ok d d' : ledger_ok d -> ledger_step d d' -> ledger_ok d'.
Proof.
  intros Hd Hstep. revert Hd. destruct Hstep; intros Hd; [by eapply claim_ledger_ok|by eapply submitting_ledger_ok|
    by eapply submission_ledger_ok|by eapply unknown_ledger_ok|by eapply status_ledger_ok|
    by eapply fill_ledger_ok|by eapply open_ledger_ok|by eapply close_ledger_ok|].
  by eapply materialize_effect.
Qed.

Lemma empty_ledger_ok : ledger_ok (init_schema empty_db).
Proof. constructor; cbn; try apply map_Forall_empty; intros *; by rewrite ?lookup_empty. Qed.

(** Rows are never deleted. *)
Lemma update_where_grows id cond f d b d' :
  update_where id cond f d = (b, d') ->
  dom (t_broker_orders d') = dom (t_broker_orders d) /\ t_broker_fills d' = t_broker_fills d.
Proof.
  intros H. apply update_where_Ok in H as [[_ ->]|(o & Hg & _ & _ & ->)]; [done|].
  split; [|done]. rewrite orders_put. apply dom_insert_lookup_L. by exists o.
Qed.

Definition rows_grow (d d' : db) : Prop :=
  dom (t_broker_orders d) ⊆ dom (t_broker_orders d') /\
  dom (t_broker_fills d) ⊆ dom (t_broker_fills d').

Lemma rows_grow_eq d d' :
  dom (t_broker_orders d') = dom (t_broker_orders d) -> t_broker_fills d' = t_broker_fills d ->
  rows_grow d d'.
Proof. intros H1 H2. split; rewrite ?H1, ?H2; done. Qed.

Lemma apply_fill_orders t r o clock f d d' :
  apply_fill_to_position t r o clock f d = Ok d' ->
  t_broker_orders d' = t_broker_orders d /\ t_broker_fills d' = t_broker_fills d.
Proof.
  unfold apply_fill_to_position, apply_buy, apply_sell. intros H. inv_ok. cbv zeta in *. inv_ok.
  destruct (t_fill_applications _ !! _); inv_ok.
  destruct (String.eqb _ _), (first_open _ _); inv_ok; try done.
  cbv zeta in *. destruct (t_live_positions d !! _); inv_ok; done.
Qed.

Lemma apply_fills_orders t r o clock fills n d n' d' :
  apply_fills t r o clock fills n d = Ok (n', d') ->
  t_broker_orders d' = t_broker_orders d /\ t_broker_fills d' = t_broker_fills d.
Proof.
  revert n d. induction fills as [|f fills IH]; cbn; intros n d H; [by injection H as <- <-|].
  apply bind_Ok in H as (d1 & H1 & H). apply apply_fill_orders in H1 as [E1 E2].
  apply IH in H as [E3 E4]. split; congruence.
Qed.

Lemma ledger_step_grows d d' : ledger_step d d' -> rows_grow d d'.
Proof.
  intros Hstep. destruct Hstep; match goal with E : _ = Ok _ |- _ => rename E into H end.
  - unfold claim_order_intent in H. inv_ok. cbv zeta in *. inv_ok.
    destruct (get_order c d); inv_ok; simplify_eq; [done|].
    split; cbn; [|done]. rewrite dom_insert_L. set_solver.
  - unfold mark_order_submitting in H. inv_ok.
    apply rows_grow_eq; by eapply update_where_grows.
  - unfold record_order_submission in H. inv_ok.
    apply rows_grow_eq; by eapply update_where_grows.
  - unfold mark_order_unknown in H. inv_ok. apply rows_grow_eq; by eapply update_where_grows.
  - unfold update_broker_order_status in H. inv_ok.
    apply rows_grow_eq; by eapply update_where_grows.
  - apply apply_broker_fill_Ok in H as (o & _ & _ & [(_ & -> & _)|(_ & _ & _ & f & o' & -> & _)]);
      [done|]. split; cbn; rewrite dom_insert_L; set_solver.
  - unfold open_live_position in H. inv_ok.
    destruct (t_live_positions d !! pid); inv_ok; simplify_eq; [done|].
    destruct (signal_taken sid d); inv_ok; by simplify_eq.
  - unfold close_live_position in H. inv_ok. cbv zeta in *.
    destruct (t_live_positions d !! pid); inv_ok; simplify_eq; [|done].
    destruct (is_open _); inv_ok; by simplify_eq.
  - unfold materialize_order_fills in H. do 5 (apply bind_Ok in H as ([] & _ & H)).
    destruct (get_order _ d); [|done]. apply apply_fills_orders in H as [E1 E2].
    apply rows_grow_eq; congruence.
Qed.

Lemma ledger_steps_grow d d' : rtc ledger_step d d' -> rows_grow d d'.
Proof.
  induction 1 as [|d1 d2 d3 H _ [IH1 IH2]]; [done|].
  apply ledger_step_grows in H as [H1 H2]. split; set_solver.
Qed.

(** After a materialisation nothing of the order is left to apply. *)
Lemma materialize_pending_nil c t r clock d n d' :
  ledger_ok d -> materialize_order_fills c t r clock d = Ok (n, d') -> pending_fills c d' = [].
Proof.
  intros Hd H1. apply (materialize_effect _ _ _ _ _ _ _ Hd) in H1 as (Hd' & Hn & Hf & Ha & _).
  unfold pending_fills, list_broker_fills. rewrite Hf. fold (list_broker_fills c d).
  destruct (List.filter _ _) as [|f l] eqn:E; [done|]. exfalso.
  assert (Hin : In f (f :: l)) by (by left). rewrite <- E in Hin.
  apply filter_In in Hin as [Hin Hun]. unfold unmaterialized in Hun.
  destruct (t_fill_applications d' !! bf_fill_id f) eqn:Hl; [done|].
  apply not_elem_of_dom in Hl. apply Hl. rewrite Ha.
  destruct (decide (bf_fill_id f ∈ dom (t_fill_applications d))) as [Hi|Hi]; [set_solver|].
  apply elem_of_union_l, elem_of_list_to_set, list_elem_of_fmap. exists f. split; [done|].
  apply list_elem_of_In, filter_In. split; [done|]. unfold unmaterialized.
  apply not_elem_of_dom in Hi. by rewrite Hi.
Qed.

(** ** Properties *)

(** C19: every database reachable from a fresh one by the ledger's write methods
    is well formed: orders stay within 0 <= filled <= requested with a valid
    status and side, every fill and application refers to an existing row of
    the same symbol and side, open positions are positive, and no two positions
    share a signal. *)
Theorem reachable_ledger_ok d :
  rtc ledger_step (init_schema empty_db) d -> ledger_ok d.
Proof.
  intros H. assert (Hg : forall d0, rtc ledger_step d0 d -> ledger_ok d0 -> ledger_ok d).
  { induction 1; eauto using ledger_step_ok. }
  apply (Hg _ H), empty_ledger_ok.
Qed.

(** C20: a client order id is claimed at most once: after a successful claim,
    and whatever the ledger does next, no later claim of the same id succeeds
    or changes the database. *)
Theorem claim_order_intent_at_most_once c s sym side q p at_ clock d d1 d2
    s' sym' side' q' p' at' clock' b d3 :
  claim_order_intent c s sym side q p at_ clock d = Ok (true, d1) ->
  rtc ledger_step d1 d2 ->
  claim_order_intent c s' sym' side' q' p' at' clock' d2 = Ok (b, d3) ->
  b = false /\ d3 = d2.
Proof.
  intros H1 Hs H2.
  assert (Hin : c ∈ dom (t_broker_orders d1)).
  { unfold claim_order_intent in H1. inv_ok. cbv zeta in *. inv_ok.
    destruct (get_order c d); inv_ok; simplify_eq. cbn. rewrite dom_insert_L. set_solver. }
  apply ledger_steps_grow in Hs as [Hs _].
  assert (Hc : c ∈ dom (t_broker_orders d2)) by set_solver. apply elem_of_dom in Hc as [o Hc].
  unfold claim_order_intent in H2. inv_ok. cbv zeta in *. inv_ok.
  unfold get_order in *. rewrite Hc in *. by inv_ok; simplify_eq.
Qed.

(** C21: a fill id counts at most once: after it has been applied, and whatever
    the ledger does next, applying it again reports a duplicate and leaves
    every table as it was, or is refused. *)
Theorem apply_broker_fill_at_most_once a clock d d1 d2 a' clock' b d3 :
  apply_broker_fill a clock d = Ok (true, d1) ->
  rtc ledger_step d1 d2 ->
  fl_fill_id a' = fl_fill_id a ->
  apply_broker_fill a' clock' d2 = Ok (b, d3) ->
  b = false /\ d3 = d2.
Proof.
  intros H1 Hs Hid H2.
  apply apply_broker_fill_Ok in H1 as (o & _ & _ & [(? & _)|(_ & _ & _ & f & o' & -> & _)]); [done|].
  apply ledger_steps_grow in Hs as [_ Hs]. cbn in Hs. rewrite dom_insert_L in Hs.
  assert (Hf : fl_fill_id a ∈ dom (t_broker_fills d2)) by set_solver.
  apply elem_of_dom in Hf as [f' Hf].
  apply apply_broker_fill_Ok in H2 as (o2 & _ & _ & [(-> & -> & _)|(_ & Hn & _)]); [done|].
  rewrite Hid, Hf in Hn. done.
Qed.

(** Fact: an accepted fill moves its order forward by exactly its quantity, never
    past the requested quantity, and the order is FILLED exactly when the two
    are equal. *)
Theorem apply_broker_fill_rolls_forward a clock d d' o :
  apply_broker_fill a clock d = Ok (true, d') ->
  get_order (fl_client_order_id a) d = Some o ->
  exists o', get_order (fl_client_order_id a) d' = Some o' /\
    bo_filled_qty o' = bo_filled_qty o + fl_quantity a /\
    bo_filled_qty o' <= bo_requested_qty o' /\
    (bo_status o' = "FILLED" <-> bo_filled_qty o' = bo_requested_qty o') /\
    (is_Some (bo_completed_at o') <-> bo_filled_qty o' = bo_requested_qty o').
Proof.
  intros H Ho. apply apply_broker_fill_Ok in H as (o1 & Hg & Hq & [(? & _)|(_ & _ & Hle & f & o' & -> & H)]);
    [done|]. rewrite Ho in Hg. injection Hg as <-. destruct H as (_ & _ & _ & _ & _ & Ho').
  exists o'. split; [unfold get_order; rewrite orders_put; apply lookup_insert_eq|].
  rewrite Ho'. cbn. destruct (Z.eqb_spec (bo_filled_qty o + fl_quantity a) (bo_requested_qty o));
    split_and!; try done; try lia; split; intros; try done; try (by eexists); by destruct H.
Qed.

(** C17: materialisation is exactly-once: a call that succeeds applies every
    pending fill of the order, and any later call for it applies none and
    changes nothing. *)
Theorem materialize_order_fills_exactly_once c t r clock t' r' clock' d n d' n' d'' :
  ledger_ok d ->
  materialize_order_fills c t r clock d = Ok (n, d') ->
  materialize_order_fills c t' r' clock' d' = Ok (n', d'') ->
  n = Z.of_nat (length (pending_fills c d)) /\ n' = 0 /\ d'' = d'.
Proof.
  intros Hd H1 H2. pose proof (materialize_pending_nil _ _ _ _ _ _ _ Hd H1) as Hnone.
  apply (materialize_effect _ _ _ _ _ _ _ Hd) in H1 as (_ & Hn & _). split; [done|].
  unfold materialize_order_fills in H2. do 5 (apply bind_Ok in H2 as ([] & _ & H2)).
  destruct (get_order c d'); [|done]. rewrite Hnone in H2. cbn in H2. by injection H2 as <- <-.
Qed.

(** C18: materialisation conserves shares: for every symbol, the open live
    quantity changes by exactly the bought minus the sold shares of the fills
    it applies; no share is invented or lost. *)
Theorem materialize_order_fills_conserves c t r clock d n d' sym :
  ledger_ok d ->
  materialize_order_fills c t r clock d = Ok (n, d') ->
  open_quantity sym d' = open_quantity sym d + sum_by (signed_fill sym) (pending_fills c d).
Proof. intros Hd H. by apply (materialize_effect _ _ _ _ _ _ _ Hd) in H as (_ & _ & _ & _ & ?). Qed.

(** ** Witnesses *)

Lemma w_filled10_steps : rtc ledger_step (init_schema empty_db) w_filled10.
Proof.
  eapply rtc_l; [apply (ls_claim "c1" (Some "sig1") "005930" "buy" 10 (f_of_Z 70000) None w_clock true
    _ w_claimed); vm_compute; reflexivity|].
  eapply rtc_l; [apply (ls_fill (w_fill "f1" 4) w_clock true _ w_filled4); vm_compute; reflexivity|].
  apply rtc_once. apply (ls_fill (w_fill "f2" 6) w_clock true). vm_compute. reflexivity.
Qed.

Lemma w_filled10_ok : ledger_ok w_filled10.
Proof.
  pose proof w_filled10_steps as H. revert H. generalize w_filled10.
  pose proof empty_ledger_ok as H0. revert H0. generalize (init_schema empty_db).
  intros d0 H0 d H. induction H; eauto using ledger_step_ok.
Qed.

Lemma reachable_ledger_ok_witness : ledger_ok w_filled10.
Proof. apply reachable_ledger_ok. apply w_filled10_steps. Defined.

Lemma claim_order_intent_at_most_once_witness :
  w_claim w_filled4 = Ok (false, w_filled4) /\ w_filled4 = w_filled4.
Proof.
  split; [vm_compute; reflexivity|].
  apply (claim_order_intent_at_most_once "c1" (Some "sig1") "005930" "buy" 10 (f_of_Z 70000) None
    w_clock (init_schema empty_db) w_claimed w_filled4
    (Some "sig1") "005930" "buy" 10 (f_of_Z 70000) None w_clock false).
  - vm_compute. reflexivity.
  - apply rtc_once, (ls_fill (w_fill "f1" 4) w_clock true). vm_compute. reflexivity.
  - vm_compute. reflexivity.
Defined.

Lemma apply_broker_fill_at_most_once_witness :
  apply_broker_fill (w_fill "f1" 4) w_clock w_filled10 = Ok (false, w_filled10) /\
  w_filled10 = w_filled10.
Proof.
  split; [vm_compute; reflexivity|].
  apply (apply_broker_fill_at_most_once (w_fill "f1" 4) w_clock w_claimed w_filled4 w_filled10
    (w_fill "f1" 4) w_clock false).
  - vm_compute. reflexivity.
  - apply rtc_once, (ls_fill (w_fill "f2" 6) w_clock true). vm_compute. reflexivity.
  - reflexivity.
  - vm_compute. reflexivity.
Defined.

Lemma apply_broker_fill_rolls_forward_witness :
  exists o', get_order "c1" w_filled10 = Some o' /\ bo_filled_qty o' = 10 /\
    bo_filled_qty o' <= bo_requested_qty o' /\
    (bo_status o' = "FILLED" <-> bo_filled_qty o' = bo_requested_qty o') /\
    (is_Some (bo_completed_at o') <-> bo_filled_qty o' = bo_requested_qty o').
Proof.
  destruct (get_order "c1" w_filled4) as [o|] eqn:Ho; [|vm_compute in Ho; discriminate].
  assert (Hq : bo_filled_qty o + 6 = 10) by (vm_compute in Ho; injection Ho as <-; reflexivity).
  rewrite <- Hq.
  apply (apply_broker_fill_rolls_forward (w_fill "f2" 6) w_clock w_filled4 w_filled10 o).
  - vm_compute. reflexivity.
  - exact Ho.
Defined.

Lemma materialize_order_fills_exactly_once_witness :
  Z.of_nat (length (pending_fills "c1" w_filled10)) = 2 /\
  (2 = Z.of_nat (length (pending_fills "c1" w_filled10)) /\ 0 = 0 /\ w_materialized = w_materialized).
Proof.
  split; [vm_compute; reflexivity|].
  apply (materialize_order_fills_exactly_once "c1" w_terms "broker_fill" w_clock
    w_terms "broker_fill" w_clock w_filled10 2 w_materialized 0 w_materialized).
  - apply w_filled10_ok.
  - vm_compute. reflexivity.
  - vm_compute. reflexivity.
Defined.

Lemma materialize_order_fills_conserves_witness :
  open_quantity "005930" w_materialized = 10.
Proof.
  rewrite (materialize_order_fills_conserves "c1" w_terms "broker_fill" w_clock w_filled10 2
    w_materialized "005930"); [vm_compute; reflexivity|apply w_filled10_ok|vm_compute; reflexivity].
Defined.
