(* ===== verification/DbRuntime.v ===== *)
(** * Runtime control, metadata, leases, audits and watchlist
    ([storage/database.py])

    The operator gate ([runtime_control]), the key/value metadata, the service
    lease that keeps one trading service alive, the audit trail of broker order
    decisions and the watchlist. *)

From stdpp Require Import pretty.
From S2P Require Import Prelude PyStr PyFloat PyTime DbCore DbOrders.

(** ** Runtime metadata and heartbeats *)

Definition get_metadata (key : string) (d : db) : option string :=
  md_value <$> t_runtime_metadata d !! key.

Definition get_runtime_metadata (key : string) (d : db) : res (option string) :=
  _ ← require_nonempty key "key";
  Ok (get_metadata key d).

Definition put_metadata (key value : string) (timestamp : string) (d : db) : db :=
  set_metadata (<[key := mkMetadata value timestamp]>) d.

Definition set_runtime_metadata (key value : string) (updated_at : option datetime)
    (clock : datetime) (d : db) : res (string * db) :=
  _ ← require_nonempty key "key";
  let timestamp := iso (or_else updated_at clock) in
  Ok (timestamp, put_metadata key value timestamp d).

(** [int(text)] of the decimal text the store writes: an optional sign and
    digits, with surrounding spaces and single underscores between digits. *)
Fixpoint digits_value (acc : Z) (s : string) : Z :=
  match s with
  | "" => acc
  | String c s' => digits_value (10 * acc + (code c - 48)) s'
  end.

Definition parse_int (text : string) : res Z :=
  let s := strip text in
  let '(sign, s) :=
    match s with
    | String c s' => if bool_decide (c = "-"%char) then (-1, s')
                     else if bool_decide (c = "+"%char) then (1, s') else (1, s)
    | "" => (1, s)
    end in
  let parts := split_on "_" s in
  if forallb isdigit parts then Ok (sign * digits_value 0 (join "" parts))
  else Err (ValueError "invalid literal for int() with base 10").

Definition TELEGRAM_UPDATE_OFFSET_KEY : string := "telegram.update_offset".

Definition get_telegram_update_offset (d : db) : res (option Z) :=
  value ← get_runtime_metadata TELEGRAM_UPDATE_OFFSET_KEY d;
  match value with
  | None => Ok None
  | Some text => n ← parse_int text; Ok (Some n)
  end.

Definition set_telegram_update_offset (offset : Z) (updated_at : option datetime)
    (clock : datetime) (d : db) : res (string * db) :=
  _ ← raise_if (offset <? 0)
        (ValueError "Telegram update offset must be a non-negative integer");
  set_runtime_metadata TELEGRAM_UPDATE_OFFSET_KEY (str_int offset) updated_at clock d.

Definition set_heartbeat (key : string) (heartbeat_at : option datetime) (clock : datetime)
    (d : db) : res (string * db) :=
  let heartbeat_time := or_else heartbeat_at clock in
  let timestamp := iso heartbeat_time in
  '(_, d) ← set_runtime_metadata key timestamp (Some heartbeat_time) clock d;
  Ok (timestamp, d).

Definition record_heartbeat (component : string) (heartbeat_at : option datetime)
    (clock : datetime) (d : db) : res (string * db) :=
  _ ← require_nonempty component "component";
  set_heartbeat ("heartbeat:" +:+ component) heartbeat_at clock d.

Definition get_heartbeat (component : string) (d : db) : res (option string) :=
  _ ← require_nonempty component "component";
  get_runtime_metadata ("heartbeat:" +:+ component) d.

(** ** Service leases *)

Section Leases.
(** SQLite's [julianday]: the ordering key of a timestamp text, [None] (NULL)
    for text it cannot read.  SQLite is a C library outside the repository. *)
Variable julianday : string -> option Z.

(** [julianday(a) <= julianday(b)] and [julianday(a) > julianday(b)] in a WHERE
    clause: a NULL is not true. *)
Definition julian_leb (a b : string) : bool :=
  match julianday a, julianday b with Some x, Some y => x <=? y | _, _ => false end.
Definition julian_gtb (a b : string) : bool :=
  match julianday a, julianday b with Some x, Some y => y <? x | _, _ => false end.

Definition put_lease (lease_name : string) (l : service_lease) (d : db) : db :=
  set_leases (<[lease_name := l]>) d.

(** The time to live is in whole seconds, as the services pass it. *)
Definition acquire_service_lease (lease_name owner_id : string) (ttl_seconds : Z)
    (now : option datetime) (clock : datetime) (d : db) : res (bool * db) :=
  _ ← require_nonempty lease_name "lease_name";
  _ ← require_nonempty owner_id "owner_id";
  _ ← validate_positive_int ttl_seconds "ttl_seconds";
  let acquired := or_else now clock in
  let acquired_at := iso acquired in
  let expires_at := iso (dt_add acquired (ttl_seconds * us_per_second)) in
  let row := mkLease owner_id acquired_at acquired_at expires_at in
  match t_service_leases d !! lease_name with
  | None => Ok (true, put_lease lease_name row d)
  | Some l =>
      if String.eqb (sl_owner_id l) owner_id || julian_leb (sl_expires_at l) acquired_at
      then Ok (true, put_lease lease_name row d)
      else Ok (false, d)
  end.

Definition renew_service_lease (lease_name owner_id : string) (ttl_seconds : Z)
    (now : option datetime) (clock : datetime) (d : db) : res (bool * db) :=
  _ ← require_nonempty lease_name "lease_name";
  _ ← require_nonempty owner_id "owner_id";
  _ ← validate_positive_int ttl_seconds "ttl_seconds";
  let renewed := or_else now clock in
  let renewed_at := iso renewed in
  let expires_at := iso (dt_add renewed (ttl_seconds * us_per_second)) in
  match t_service_leases d !! lease_name with
  | None => Ok (false, d)
  | Some l =>
      if String.eqb (sl_owner_id l) owner_id && julian_gtb (sl_expires_at l) renewed_at
      then Ok (true, put_lease lease_name
                 (mkLease owner_id (sl_acquired_at l) renewed_at expires_at) d)
      else Ok (false, d)
  end.

Definition release_service_lease (lease_name owner_id : string) (d : db) : res (bool * db) :=
  _ ← require_nonempty lease_name "lease_name";
  _ ← require_nonempty owner_id "owner_id";
  match t_service_leases d !! lease_name with
  | None => Ok (false, d)
  | Some l =>
      if String.eqb (sl_owner_id l) owner_id
      then Ok (true, set_leases (delete lease_name) d) else Ok (false, d)
  end.

(** The lease calls the services may make, and a run of them; a call that
    raises leaves the database as it was. *)
Inductive lease_call :=
  | Acquire (owner : string) (ttl : Z) (now : datetime)
  | Renew (owner : string) (ttl : Z) (now : datetime)
  | Release (owner : string).

Definition lease_caller (c : lease_call) : string :=
  match c with Acquire o _ _ | Renew o _ _ | Release o => o end.

Definition lease_call_run (name : string) (c : lease_call) (d : db) : db :=
  match (match c with
         | Acquire o ttl now => acquire_service_lease name o ttl (Some now) now d
         | Renew o ttl now => renew_service_lease name o ttl (Some now) now d
         | Release o => release_service_lease name o d
         end) with
  | Ok (_, d') => d'
  | Err _ => d
  end.

(** The call is made before the expiry [e] of a running lease. *)
Definition call_before (e : string) (c : lease_call) : Prop :=
  match c with
  | Acquire _ _ now => julian_leb e (iso now) = false
  | _ => True
  end.
End Leases.

Definition get_service_lease (lease_name : string) (d : db) : res (option service_lease) :=
  _ ← require_nonempty lease_name "lease_name";
  Ok (t_service_leases d !! lease_name).

(** ** Runtime control *)

Definition get_runtime_control (d : db) : RuntimeControl :=
  match t_runtime_control d with
  | None => default_control
  | Some r => mkRuntimeControl (rc_paused r) (rc_updated_at r) (rc_reason r) (rc_source r)
                (text_or_default (Some (rc_environment r)) "demo")
  end.

Definition set_runtime_paused (paused : bool) (reason source : string) (clock : datetime) (d : db)
    : res (RuntimeControl * db) :=
  _ ← raise_if (sempty reason || sempty source) (ValueError "reason and source are required");
  let updated_at := iso clock in
  let d' := set_control (fun c => Some (mkRuntimeControl paused updated_at reason source
              (match c with Some r => rc_environment r | None => "demo" end))) d in
  Ok (mkRuntimeControl paused updated_at reason source (rc_environment (get_runtime_control d')), d').

Definition ACTIVE_ORDER_STATUSES : list string :=
  ["INTENT"; "SUBMITTING"; "ACKNOWLEDGED"; "PARTIALLY_FILLED"; "CANCEL_PENDING"; "UNKNOWN"].

Definition active_order (o : broker_order) : bool := mem_str (bo_status o) ACTIVE_ORDER_STATUSES.

Definition has_open_position (d : db) : bool :=
  existsb (fun kv => is_open kv.2) (map_to_list (t_live_positions d)).
Definition has_active_order (d : db) : bool :=
  existsb (fun kv => active_order kv.2) (map_to_list (t_broker_orders d)).

Definition set_runtime_environment (environment reason source : string) (clock : datetime) (d : db)
    : res (RuntimeControl * db) :=
  _ ← raise_if (negb (mem_str environment ["demo"; "real"]))
        (ValueError "runtime environment must be demo or real");
  _ ← raise_if (sempty reason || sempty source) (ValueError "reason and source are required");
  let control := get_runtime_control d in
  _ ← raise_if (negb (rc_paused control))
        (ValueError "runtime environment can only be changed while paused");
  _ ← raise_if (negb (String.eqb environment (rc_environment control))
                && (has_open_position d || has_active_order d))
        (ValueError "runtime environment cannot change with local open positions or active/unknown broker orders");
  let updated_at := iso clock in
  Ok (mkRuntimeControl true updated_at reason source environment,
      set_control (fun c => Some (mkRuntimeControl
        (match c with Some r => rc_paused r | None => true end) updated_at reason source
        environment)) d).

(** ** Broker order audits *)

(** A price that is not a number is NULL in SQLite, and the row is ignored. *)
Definition record_broker_order_audit (a : order_audit) (created_at : option datetime)
    (clock : datetime) (d : db) : res (bool * db) :=
  _ ← validate_paper_record (oa_symbol a) (oa_quantity a) (oa_price a);
  _ ← raise_if (sempty (oa_audit_id a) || sempty (oa_side a) || sempty (oa_status a)
                || sempty (oa_reason a))
        (ValueError "audit_id, side, status, and reason are required");
  let timestamp := iso (or_else created_at clock) in
  match t_order_audits d !! oa_audit_id a, is_nan (oa_price a) with
  | None, false =>
      Ok (true, set_audits (<[oa_audit_id a := mkOrderAudit (oa_audit_id a) (oa_signal_id a)
        (oa_symbol a) (oa_side a) (oa_quantity a) (oa_price a) (oa_status a) (oa_reason a)
        (oa_broker_order_id a) timestamp]>) d)
  | _, _ => Ok (false, d)
  end.

Definition broker_signal_submitted (signal_id : string) (d : db) : bool :=
  existsb (fun kv => match oa_signal_id kv.2 with
                     | Some s => String.eqb s signal_id
                     | None => false
                     end && String.eqb (oa_status kv.2) "SUBMITTED")
    (map_to_list (t_order_audits d)).

Definition list_broker_order_audits (symbol : option string) (d : db) : list order_audit :=
  List.filter (fun a => match symbol with
                        | Some s => String.eqb (oa_symbol a) s
                        | None => true
                        end)
    (rows_by oa_created_at oa_audit_id (t_order_audits d)).

(** ** Watchlist *)

Definition add_watchlist_symbol (symbol : string) (enabled : bool) (added_at : option datetime)
    (clock : datetime) (d : db) : res (bool * db) :=
  _ ← validate_symbol symbol;
  let timestamp := iso (or_else added_at clock) in
  match t_watchlist d !! symbol with
  | None => Ok (true, set_watchlist (<[symbol := mkWatch enabled timestamp]>) d)
  | Some w => Ok (false, set_watchlist (<[symbol := mkWatch enabled (wr_added_at w)]>) d)
  end.

Definition set_watchlist_enabled (symbol : string) (enabled : bool) (d : db) : res (bool * db) :=
  _ ← validate_symbol symbol;
  match t_watchlist d !! symbol with
  | None => Ok (false, d)
  | Some w => Ok (true, set_watchlist (<[symbol := mkWatch enabled (wr_added_at w)]>) d)
  end.

Definition list_watchlist_symbols (enabled_only : bool) (d : db) : list string :=
  sort_by text_leb
    (map fst (List.filter (fun kv => negb enabled_only || wr_enabled kv.2)
                (map_to_list (t_watchlist d)))).

(** ** Lemmas *)

Lemma parts_of_digits s :
  sforall is_digit s = true -> split_on "_" s = [s].
Proof.
  induction s as [|c s IH]; cbn; [done|]. intros [Hc Hs]%andb_true_iff.
  rewrite IH by done. case_bool_decide; [subst; done|done].
Qed.

Lemma pretty_N_char_digit n : (n < 10)%N ->
  is_digit (pretty_N_char n) = true /\ code (pretty_N_char n) = 48 + Z.of_N n.
Proof. intros H. destruct n as [|p]; [done|]. do 4 (destruct p as [p|p|]; try done; try lia). Qed.

Lemma pretty_go_value n : forall s acc0,
  acc0 = 0 -> sforall is_digit s = true ->
  sforall is_digit (pretty_N_go n s) = true /\
  digits_value acc0 (pretty_N_go n s) = digits_value (Z.of_N n) s.
Proof.
  induction n as [n IH] using (well_founded_induction N.lt_wf_0). intros s acc0 -> Hs.
  destruct (decide (n = 0%N)) as [->|Hn]; [by rewrite pretty_N_go_0|].
  rewrite pretty_N_go_step by lia.
  destruct (pretty_N_char_digit (n `mod` 10)%N) as [Hd Hc]; [apply N.mod_lt; lia|].
  destruct (IH (n `div` 10)%N ltac:(apply N.div_lt; lia)
    (String (pretty_N_char (n `mod` 10)) s) 0 eq_refl) as [H1 H2]; [cbn; by rewrite Hd, Hs|].
  split; [done|]. rewrite H2. cbn [digits_value]. rewrite Hc. f_equal.
  rewrite (N.div_mod n 10) at 3 by lia. lia.
Qed.

Lemma lstrip_digit s : sforall is_digit s = true -> s <> "" -> lstrip_by is_space s = s.
Proof.
  destruct s as [|c s]; [done|]. cbn. intros [Hc _]%andb_true_iff _.
  replace (is_space c) with false; [done|]. symmetry.
  unfold is_digit, is_space in *. bool_to_prop. apply orb_false_iff.
  split; apply andb_false_iff; right; apply Z.leb_gt; lia.
Qed.

Lemma rstrip_digits s : sforall is_digit s = true -> rstrip_by is_space s = s.
Proof.
  induction s as [|c s IH]; [done|]. cbn. intros [Hc Hs]%andb_true_iff. rewrite IH by done.
  destruct s; [|done]. replace (is_space c) with false; [done|]. symmetry.
  unfold is_digit, is_space in *. bool_to_prop. apply orb_false_iff.
  split; apply andb_false_iff; right; apply Z.leb_gt; lia.
Qed.

Lemma parse_int_digits s : sforall is_digit s = true -> s <> "" -> parse_int s = Ok (digits_value 0 s).
Proof.
  intros Hs Hne. unfold parse_int, strip. rewrite lstrip_digit, rstrip_digits by done.
  assert (Hd : isdigit s = true).
  { unfold isdigit. rewrite Hs, andb_true_r. apply negb_true_iff, String.eqb_neq. done. }
  destruct s as [|c s']; [done|]. cbn in Hs. apply andb_true_iff in Hs as [Hc Hs].
  case_bool_decide; [subst; done|]. case_bool_decide; [subst; done|].
  rewrite parts_of_digits by (cbn; by rewrite Hc, Hs). cbn [forallb join].
  rewrite Hd. cbn [andb]. by rewrite Z.mul_1_l.
Qed.

Lemma parse_int_str n : 0 <= n -> parse_int (str_int n) = Ok n.
Proof.
  intros Hn. unfold str_int. destruct n as [|p|p]; [reflexivity| |lia].
  change (pretty (Z.pos p)) with (pretty_N_go (N.pos p) "").
  destruct (pretty_go_value (N.pos p) "" 0 eq_refl eq_refl) as [H1 H2].
  rewrite parse_int_digits; [by rewrite H2|done|].
  intros E. rewrite E in H2. cbn in H2. lia.
Qed.

Lemma metadata_put_get k v ts d : get_metadata k (put_metadata k v ts d) = Some v.
Proof. unfold get_metadata. cbn. by rewrite lookup_insert_eq. Qed.

Lemma metadata_put_other k k' v ts d :
  k <> k' -> get_metadata k' (put_metadata k v ts d) = get_metadata k' d.
Proof. intros H. unfold get_metadata. cbn. by rewrite lookup_insert_ne. Qed.

Lemma control_init d : get_runtime_control (init_schema d) = get_runtime_control d.
Proof. unfold get_runtime_control, init_schema. cbn. by destruct (t_runtime_control d). Qed.

Lemma init_idempotent d : init_schema (init_schema d) = init_schema d.
Proof. unfold init_schema, set_control. cbn. by destruct (t_runtime_control d). Qed.

Lemma existsb_table {A} (p : A -> bool) (t : gmap string A) :
  existsb (fun kv => p kv.2) (map_to_list t) = false <->
  forall k x, t !! k = Some x -> p x = false.
Proof.
  rewrite <- not_true_iff_false, existsb_exists. split.
  - intros H k x Hk. apply not_true_iff_false. intros Hp. apply H. exists (k, x).
    split; [by apply list_elem_of_In, elem_of_map_to_list|done].
  - intros H ([k x] & Hin & Hp). apply list_elem_of_In, elem_of_map_to_list in Hin.
    apply H in Hin. cbn in Hp. congruence.
Qed.

Lemma lease_call_other julianday name l c d :
  t_service_leases d !! name = Some l ->
  lease_caller c <> sl_owner_id l -> call_before julianday (sl_expires_at l) c ->
  t_service_leases (lease_call_run julianday name c d) !! name = Some l.
Proof.
  intros Hl Hc Hb. assert (Hne : String.eqb (sl_owner_id l) (lease_caller c) = false)
    by (apply String.eqb_neq; congruence).
  unfold lease_call_run. destruct c as [o ttl now|o ttl now|o]; cbn in *;
    [unfold acquire_service_lease|unfold renew_service_lease|unfold release_service_lease];
    repeat (match goal with |- context [mbind _ ?m] => destruct m as [[]|] end; cbn; [|done]);
    rewrite Hl; rewrite Hne; cbn; [|done|done].
  by rewrite Hb.
Qed.

(** ** Properties *)

(** C35: a live service lease cannot be taken, renewed, released or shortened
    by anyone but its owner: through any sequence of lease calls of other
    owners made before its expiry, the row stays exactly as it is. *)
Theorem live_lease_undisturbed julianday name l calls d :
  t_service_leases d !! name = Some l ->
  Forall (fun c => lease_caller c <> sl_owner_id l /\ call_before julianday (sl_expires_at l) c) calls ->
  t_service_leases (foldl (fun d c => lease_call_run julianday name c d) d calls) !! name = Some l.
Proof.
  intros Hl Hall. revert d Hl. induction Hall as [|c calls [Hc Hb] _ IH]; intros d Hl; [done|].
  cbn. apply IH. by apply lease_call_other.
Qed.

(** Fact: the target environment changes only behind the pause gate and with no
    local broker state: a switch that succeeds found the runtime paused, leaves
    it paused, and either kept the environment or found no open live position
    and no active or unknown order. *)
Theorem set_runtime_environment_guarded env reason source clock d c d' :
  set_runtime_environment env reason source clock d = Ok (c, d') ->
  rc_paused (get_runtime_control d) = true /\
  rc_paused (get_runtime_control d') = true /\
  rc_environment (get_runtime_control d') = env /\
  (rc_environment (get_runtime_control d) <> env ->
     (forall k p, t_live_positions d !! k = Some p -> lp_status p <> "OPEN") /\
     (forall k o, t_broker_orders d !! k = Some o -> bo_status o ∉ ACTIVE_ORDER_STATUSES)).
Proof.
  intros H. unfold set_runtime_environment in H.
  apply bind_Ok in H as ([] & Henv & H). apply bind_Ok in H as ([] & _ & H). cbv zeta in H.
  apply bind_Ok in H as ([] & Hp & H). apply bind_Ok in H as ([] & Hs & H). injection H as <- <-.
  apply raise_if_Ok in Henv, Hp, Hs. apply negb_false_iff in Hp, Henv.
  split; [done|]. unfold get_runtime_control in *. cbn.
  split; [by destruct (t_runtime_control d)|].
  split.
  - apply mem_str_true in Henv. unfold text_or_default, text_or.
    apply elem_of_cons in Henv as [->|Henv]; [done|]. by apply list_elem_of_singleton in Henv as ->.
  - intros Hne. apply andb_false_iff in Hs as [Hs|Hs].
    { apply negb_false_iff, String.eqb_eq in Hs. congruence. }
    apply orb_false_iff in Hs as [H1 H2].
    pose proof (proj1 (existsb_table is_open _) H1) as H1'. pose proof (proj1 (existsb_table active_order _) H2) as H2'.
    split; [intros k p Hk Ho|intros k o Hk Ho].
    + apply H1' in Hk. unfold is_open in Hk. by apply String.eqb_neq in Hk.
    + apply H2' in Hk. unfold active_order in Hk. apply mem_str_true in Ho. congruence.
Qed.

(** Fact: the Telegram update offset survives the store: what is written is
    stored as decimal text and reads back as the same integer. *)
Theorem telegram_update_offset_roundtrip offset updated_at clock d ts d' :
  set_telegram_update_offset offset updated_at clock d = Ok (ts, d') ->
  get_telegram_update_offset d' = Ok (Some offset).
Proof.
  intros H. unfold set_telegram_update_offset, set_runtime_metadata in H.
  apply bind_Ok in H as ([] & Hn & H). apply bind_Ok in H as ([] & _ & H). injection H as <- <-.
  apply raise_if_Ok in Hn. bool_to_prop.
  unfold get_telegram_update_offset, get_runtime_metadata.
  change (require_nonempty TELEGRAM_UPDATE_OFFSET_KEY "key") with (Ok ()). cbn [mbind res_bind].
  rewrite metadata_put_get. cbn [mbind res_bind]. rewrite parse_int_str by done. done.
Qed.

(** ** Witnesses *)

Definition w_julianday (s : string) : option Z := instant <$> read_iso s.
Definition w_now (s : Z) : datetime := Datetime (1700000000000000 + s * us_per_second) (Some KST).
Definition w_leased : db :=
  match acquire_service_lease w_julianday "trading-service" "A" 60 (Some (w_now 0)) (w_now 0) empty_db with
  | Ok (_, d) => d | Err _ => empty_db end.

(** Owner B tries to acquire 30 seconds in, to release, and to renew. *)
Lemma live_lease_undisturbed_witness :
  t_service_leases (foldl (fun d c => lease_call_run w_julianday "trading-service" c d) w_leased
    [Acquire "B" 60 (w_now 30); Release "B"; Renew "B" 60 (w_now 31)]) !! "trading-service"
  = Some (mkLease "A" (iso (w_now 0)) (iso (w_now 0)) (iso (w_now 60))).
Proof.
  apply (live_lease_undisturbed w_julianday).
  - vm_compute. reflexivity.
  - repeat constructor; cbn; try discriminate.
Defined.

Lemma set_runtime_environment_guarded_witness :
  exists c d', set_runtime_environment "real" "go live" "telegram" (w_now 0) (init_schema empty_db)
    = Ok (c, d') /\ rc_paused (get_runtime_control d') = true.
Proof.
  eexists _, _. split; [vm_compute; reflexivity|].
  eapply (set_runtime_environment_guarded "real" "go live" "telegram" (w_now 0) (init_schema empty_db)).
  vm_compute. reflexivity.
Defined.

Lemma telegram_update_offset_roundtrip_witness :
  exists ts d', set_telegram_update_offset 123456789 None (w_now 0) empty_db = Ok (ts, d') /\
    get_telegram_update_offset d' = Ok (Some 123456789).
Proof.
  eexists _, _. split; [vm_compute; reflexivity|].
  eapply (telegram_update_offset_roundtrip 123456789 None (w_now 0) empty_db). vm_compute. reflexivity.
Defined.
