(* ===== verification/DbApprovals.v ===== *)
(** * AI decisions and operator approvals ([storage/database.py])

    An approval request is PENDING until the operator resolves it; an APPROVED
    one is consumed (CONSUMING) by the order path and finished as EXECUTED or
    FAILED; requests past their deadline become EXPIRED.  Deadlines are ISO text
    and are compared as text, as the SQL of the source does. *)

From stdpp Require Import relations.
From S2P Require Import Prelude PyStr PyFloat PyTime DbCore.

(** ** AI decisions *)

(** [(x or "UNKNOWN").strip() or "UNKNOWN"] *)
Definition or_unknown (x : option string) : string :=
  let s := strip (text_or_default x "UNKNOWN") in
  if sempty s then "UNKNOWN" else s.

(** SQLite stores a number that is none as NULL: a row with such a confidence is
    ignored. *)
Definition sql_real (x : option float) : option float :=
  match x with Some v => if is_nan v then None else Some v | None => None end.

Definition record_ai_decision (decision_id symbol action : string) (confidence : float)
    (entry_price take_profit_price stop_loss_price : option float) (risk_level : string)
    (requires_operator_approval : bool) (rationale : string) (max_holding_seconds : option Z)
    (strategy model prompt_version : option string) (created_at : option datetime)
    (clock : datetime) (d : db) : res (bool * db) :=
  _ ← validate_symbol symbol;
  _ ← raise_if (sempty decision_id || sempty action || sempty risk_level || sempty rationale)
        (ValueError "decision_id, action, risk_level, and rationale are required");
  let timestamp := iso (or_else created_at clock) in
  match t_ai_decisions d !! decision_id, is_nan confidence with
  | None, false =>
      Ok (true, set_decisions (<[decision_id := mkAiDecision decision_id symbol action confidence
        (sql_real entry_price) (sql_real take_profit_price) (sql_real stop_loss_price) risk_level requires_operator_approval
        rationale timestamp (or_unknown strategy) (or_unknown model) (or_unknown prompt_version)
        max_holding_seconds]>) d)
  | _, _ => Ok (false, d)
  end.

Definition get_ai_decision_audit (decision_id : string) (d : db) : res (option ai_decision) :=
  _ ← require_nonempty decision_id "decision_id";
  Ok (t_ai_decisions d !! decision_id).

(** ** Approval requests *)

Definition two_minutes : Z := 120 * us_per_second.

Record approval_args := mkApprovalArgs {
  aa_request_id : string;
  aa_symbol : string;
  aa_decision_id : option string;
  aa_reason : string;
  aa_status : string;
  aa_signal_id : option string;
  aa_quantity : option Z;
  aa_entry_price : option float;
  aa_take_profit_price : option float;
  aa_stop_loss_price : option float;
  aa_max_holding_seconds : option Z;
  aa_expires_at : option datetime;
  aa_created_at : option datetime;
}.

Definition record_approval_request (a : approval_args) (clock : datetime) (d : db)
    : res (bool * db) :=
  _ ← validate_symbol (aa_symbol a);
  _ ← raise_if (sempty (aa_request_id a) || sempty (aa_reason a) || sempty (aa_status a))
        (ValueError "request_id, reason, and status are required");
  let base_time := or_else (aa_created_at a) clock in
  let timestamp := iso base_time in
  let expiry := iso (or_else (aa_expires_at a) (dt_add base_time two_minutes)) in
  _ ← when_some (aa_signal_id a) (fun s => require_nonempty s "signal_id");
  _ ← when_some (aa_quantity a) (fun q =>
        raise_if (q <=? 0) (ValueError "quantity must be positive integer"));
  _ ← when_some (aa_entry_price a) (fun p => validate_positive_float p "entry_price");
  _ ← when_some (aa_take_profit_price a) (fun p => validate_positive_float p "take_profit_price");
  _ ← when_some (aa_stop_loss_price a) (fun p => validate_positive_float p "stop_loss_price");
  match t_approvals d !! aa_request_id a with
  | Some _ => Ok (false, d)
  | None =>
      Ok (true, set_approvals (<[aa_request_id a := mkApproval (aa_request_id a) (aa_symbol a)
        (aa_decision_id a) (aa_reason a) (aa_status a) timestamp None (Some expiry) None None
        (aa_signal_id a) (aa_quantity a) (aa_entry_price a) (aa_take_profit_price a)
        (aa_stop_loss_price a) (aa_max_holding_seconds a)]>) d)
  end.

Definition get_approval_request (request_id : string) (d : db) : res (option approval_request) :=
  _ ← require_nonempty request_id "request_id";
  Ok (t_approvals d !! request_id).

(** [ORDER BY created_at DESC LIMIT ?] *)
Definition list_approval_requests (status : option string) (limit : Z) (d : db)
    : res (list approval_request) :=
  _ ← raise_if (limit <=? 0) (ValueError "limit must be positive");
  Ok (take (Z.to_nat limit) (List.filter
        (fun a => match status with Some s => String.eqb (ar_status a) s | None => true end)
        (reverse (rows_by ar_created_at ar_request_id (t_approvals d))))).

(** The columns the updates set. *)
Definition update_approval (a : approval_request) (status : string)
    (resolved_at resolved_by consumed_at : option string) : approval_request := {|
  ar_request_id := ar_request_id a;
  ar_symbol := ar_symbol a;
  ar_decision_id := ar_decision_id a;
  ar_reason := ar_reason a;
  ar_status := status;
  ar_created_at := ar_created_at a;
  ar_resolved_at := resolved_at;
  ar_expires_at := ar_expires_at a;
  ar_resolved_by := resolved_by;
  ar_consumed_at := consumed_at;
  ar_signal_id := ar_signal_id a;
  ar_quantity := ar_quantity a;
  ar_entry_price := ar_entry_price a;
  ar_take_profit_price := ar_take_profit_price a;
  ar_stop_loss_price := ar_stop_loss_price a;
  ar_max_holding_seconds := ar_max_holding_seconds a;
|}.

(** [expires_at IS NOT NULL AND expires_at <= ?], and its complement
    [expires_at IS NULL OR expires_at > ?]. *)
Definition past_deadline (timestamp : string) (a : approval_request) : bool :=
  match ar_expires_at a with Some e => text_leb e timestamp | None => false end.
Definition before_deadline (timestamp : string) (a : approval_request) : bool :=
  match ar_expires_at a with Some e => text_ltb timestamp e | None => true end.

Definition has_status (s : string) (a : approval_request) : bool := String.eqb (ar_status a) s.

(** [UPDATE approval_requests SET ... WHERE request_id=? AND cond] *)
Definition update_request (request_id : string) (cond : approval_request -> bool)
    (f : approval_request -> approval_request) (d : db) : bool * db :=
  match t_approvals d !! request_id with
  | Some a => if cond a then (true, set_approvals (<[request_id := f a]>) d) else (false, d)
  | None => (false, d)
  end.

Definition expire_row (timestamp : string) (a : approval_request) : approval_request :=
  update_approval a "EXPIRED" (Some timestamp) (ar_resolved_by a) (ar_consumed_at a).

Definition expirable (timestamp : string) (a : approval_request) : bool :=
  (has_status "PENDING" a || has_status "APPROVED" a) && past_deadline timestamp a.

Definition expire_approval_requests (now : option datetime) (clock : datetime) (d : db) : Z * db :=
  let timestamp := iso (or_else now clock) in
  (map_sum (fun a => if expirable timestamp a then 1 else 0) (t_approvals d),
   set_approvals (fmap (fun a => if expirable timestamp a then expire_row timestamp a else a)) d).

Definition resolve_approval_request (request_id decision : string) (resolved_by : option string)
    (now : option datetime) (clock : datetime) (d : db) : res (bool * db) :=
  _ ← require_nonempty request_id "request_id";
  let normalized := upper decision in
  _ ← raise_if (negb (mem_str normalized ["APPROVED"; "REJECTED"]))
        (ValueError "decision must be APPROVED or REJECTED");
  let timestamp := iso (or_else now clock) in
  let '(_, d) := update_request request_id
        (fun a => has_status "PENDING" a && past_deadline timestamp a) (expire_row timestamp) d in
  Ok (update_request request_id
        (fun a => has_status "PENDING" a && before_deadline timestamp a)
        (fun a => update_approval a normalized (Some timestamp) resolved_by (ar_consumed_at a)) d).

Definition consume_approval_request (request_id : string) (now : option datetime)
    (clock : datetime) (d : db) : res (bool * db) :=
  _ ← require_nonempty request_id "request_id";
  let timestamp := iso (or_else now clock) in
  let '(_, d) := update_request request_id
        (fun a => has_status "APPROVED" a && past_deadline timestamp a) (expire_row timestamp) d in
  Ok (update_request request_id
        (fun a => has_status "APPROVED" a && before_deadline timestamp a)
        (fun a => update_approval a "CONSUMING" (ar_resolved_at a) (ar_resolved_by a)
                    (Some timestamp)) d).

Definition finish_approval_request (request_id : string) (success : bool) (now : option datetime)
    (clock : datetime) (d : db) : res (bool * db) :=
  _ ← require_nonempty request_id "request_id";
  let timestamp := iso (or_else now clock) in
  let status := if success then "EXECUTED" else "FAILED" in
  Ok (update_request request_id (has_status "CONSUMING")
        (fun a => update_approval a status (Some timestamp) (ar_resolved_by a) (ar_consumed_at a)) d).

(** ** Runs of approval calls *)

Inductive approval_step : db -> db -> Prop :=
  | as_record a clock b d d' :
      record_approval_request a clock d = Ok (b, d') -> approval_step d d'
  | as_expire now clock n d d' :
      expire_approval_requests now clock d = (n, d') -> approval_step d d'
  | as_resolve id dec by_ now clock b d d' :
      resolve_approval_request id dec by_ now clock d = Ok (b, d') -> approval_step d d'
  | as_consume id now clock b d d' :
      consume_approval_request id now clock d = Ok (b, d') -> approval_step d d'
  | as_finish id ok now clock b d d' :
      finish_approval_request id ok now clock d = Ok (b, d') -> approval_step d d'.

(** The life cycle of a request, as the allowed status changes. *)
Definition status_edge (s s' : string) : Prop :=
  (s = "PENDING" /\ s' ∈ ["APPROVED"; "REJECTED"; "EXPIRED"]) \/
  (s = "APPROVED" /\ s' ∈ ["CONSUMING"; "EXPIRED"]) \/
  (s = "CONSUMING" /\ s' ∈ ["EXECUTED"; "FAILED"]).

Definition status_of (id : string) (d : db) : option string := ar_status <$> t_approvals d !! id.

(** The statuses from which no order can be consumed any more. *)
Definition SPENT : list string := ["CONSUMING"; "EXECUTED"; "FAILED"; "REJECTED"; "EXPIRED"].

(** ** Lemmas *)

Lemma text_ltb_leb a b : text_ltb a b = negb (text_leb b a).
Proof.
  unfold text_ltb, text_leb, String.ltb, String.leb.
  revert b. induction a as [|c a IH]; intros [|c' b]; cbn; try done.
  unfold Ascii.compare. rewrite (N.compare_antisym (Ascii.N_of_ascii c')).
  destruct (Ascii.N_of_ascii c' ?= Ascii.N_of_ascii c)%N; cbn; done.
Qed.

Lemma deadline_split ts a : before_deadline ts a = negb (past_deadline ts a).
Proof. unfold before_deadline, past_deadline. destruct (ar_expires_at a); [apply text_ltb_leb|done]. Qed.

Lemma has_status_eq s a : has_status s a = true <-> ar_status a = s.
Proof. apply String.eqb_eq. Qed.

Lemma update_request_spec id cond f d b d' :
  update_request id cond f d = (b, d') ->
  (b = false /\ d' = d /\ forall a, t_approvals d !! id = Some a -> cond a = false) \/
  (exists a, t_approvals d !! id = Some a /\ cond a = true /\ b = true /\
    d' = set_approvals (<[id := f a]>) d).
Proof.
  unfold update_request. destruct (t_approvals d !! id) as [a|] eqn:E; [destruct (cond a) eqn:Ec|];
    intros [= <- <-]; [right; eauto 10|left|left]; split_and!; try done; congruence.
Qed.

Lemma status_set id a d id' :
  status_of id' (set_approvals (<[id := a]>) d) =
    if decide (id = id') then Some (ar_status a) else status_of id' d.
Proof. unfold status_of. cbn. rewrite lookup_insert. by case_decide. Qed.

(** Each statement moves the status of each request along at most one edge. *)
Definition moves (d d' : db) : Prop :=
  forall id s, status_of id d = Some s ->
    exists s', status_of id d' = Some s' /\ (s' = s \/ status_edge s s').

Lemma moves_refl d : moves d d.
Proof. intros id s H. eauto. Qed.

Lemma update_request_moves id cond f d b d' :
  (forall a, cond a = true -> status_edge (ar_status a) (ar_status (f a))) ->
  update_request id cond f d = (b, d') -> moves d d'.
Proof.
  intros Hf H. apply update_request_spec in H as [(_ & -> & _)|(a & Ha & Hc & _ & ->)];
    [apply moves_refl|].
  intros id' s Hs. rewrite status_set. case_decide as Heq; [|eauto].
  subst id'. unfold status_of in Hs. rewrite Ha in Hs. injection Hs as <-. eauto.
Qed.

(** A call is one or two such statements. *)
Inductive moves_star : db -> db -> Prop :=
  | ms_one d d' : moves d d' -> moves_star d d'
  | ms_two d d1 d' : moves d d1 -> moves d1 d' -> moves_star d d'.

Ltac listed := cbn; repeat first [apply list_elem_of_here | apply list_elem_of_further].
Ltac edge := first [ left; split; [reflexivity|solve [listed]]
                   | right; left; split; [reflexivity|solve [listed]]
                   | right; right; split; [reflexivity|solve [listed]] ].

Ltac edge_tac :=
  let a := fresh in let H := fresh in
  intros a H; cbn beta in H; cbn; bool_to_prop;
  repeat match goal with E : has_status _ _ = true |- _ => apply has_status_eq in E; rewrite E end;
  edge.

Lemma approval_step_moves d d' : approval_step d d' -> moves_star d d'.
Proof.
  intros H. destruct H as [a clock b d d' H|now clock n d d' H|id dec by_ now clock b d d' H
    |id now clock b d d' H|id ok now clock b d d' H].
  - apply ms_one. unfold record_approval_request in H.
    do 2 (apply bind_Ok in H as ([] & _ & H)). cbv zeta in H.
    do 5 (apply bind_Ok in H as ([] & _ & H)).
    destruct (t_approvals d !! aa_request_id a) eqn:E; injection H as <- <-; [apply moves_refl|].
    intros id s Hs. rewrite status_set. case_decide; [|eauto].
    subst. unfold status_of in Hs. by rewrite E in Hs.
  - apply ms_one. unfold expire_approval_requests in H. injection H as _ <-.
    intros id s Hs. unfold status_of in *. cbn. rewrite lookup_fmap.
    destruct (t_approvals d !! id) as [a|]; cbn in *; [|done]. injection Hs as <-.
    eexists. split; [done|]. destruct (expirable _ a) eqn:E; [|by left]. right. cbn.
    unfold expirable in E. apply andb_true_iff in E as [E _].
    apply orb_true_iff in E as [E|E]; apply has_status_eq in E; rewrite E; edge.
  - unfold resolve_approval_request in H. apply bind_Ok in H as ([] & _ & H). cbv zeta in H.
    apply bind_Ok in H as ([] & Hn & H).
    destruct (update_request id _ _ d) as [b1 d1] eqn:E1. injection H as H.
    apply (ms_two _ d1); (eapply update_request_moves; [|eassumption]); [edge_tac|].
    apply raise_if_Ok, negb_false_iff, mem_str_true in Hn. revert Hn. rewrite !elem_of_cons.
    intros Hn a Ha. cbn beta in Ha. cbn. bool_to_prop.
    match goal with E : has_status _ _ = true |- _ => apply has_status_eq in E; rewrite E end.
    left. rewrite !elem_of_cons. tauto.
  - unfold consume_approval_request in H. apply bind_Ok in H as ([] & _ & H). cbv zeta in H.
    destruct (update_request id _ _ d) as [b1 d1] eqn:E1. injection H as H.
    apply (ms_two _ d1); (eapply update_request_moves; [|eassumption]); edge_tac.
  - apply ms_one. unfold finish_approval_request in H. apply bind_Ok in H as ([] & _ & H).
    cbv zeta in H. injection H as H. eapply update_request_moves; [|eassumption].
    intros a Ha. apply has_status_eq in Ha. rewrite Ha. cbn.
    destruct ok; edge.
Qed.

Lemma edge_from_spent s s' : s ∈ SPENT -> status_edge s s' -> s' ∈ SPENT.
Proof.
  unfold SPENT, status_edge. rewrite !elem_of_cons, !elem_of_nil.
  intuition (subst; first [discriminate | tauto]).
Qed.

Lemma moves_spent d d' id s :
  moves d d' -> status_of id d = Some s -> s ∈ SPENT ->
  exists s', status_of id d' = Some s' /\ s' ∈ SPENT.
Proof.
  intros Hm Hs Hin. destruct (Hm _ _ Hs) as (s' & Hs' & [->|He]); eauto using edge_from_spent.
Qed.

Lemma steps_spent d d' id s :
  rtc approval_step d d' -> status_of id d = Some s -> s ∈ SPENT ->
  exists s', status_of id d' = Some s' /\ s' ∈ SPENT.
Proof.
  intros H. revert s. induction H as [|d1 d2 d3 H _ IH]; intros s Hs Hin; [eauto|].
  apply approval_step_moves in H. inversion H as [? ? H0|? dm ? H1 H2]; subst.
  - destruct (moves_spent _ _ _ _ H0 Hs Hin) as (s1 & ? & ?). eauto.
  - destruct (moves_spent _ _ _ _ H1 Hs Hin) as (s1 & E1 & I1).
    destruct (moves_spent _ _ _ _ H2 E1 I1) as (s2 & ? & ?). eauto.
Qed.

(** What a successful consumption found and left. *)
Lemma consume_true id now clock d d' :
  consume_approval_request id now clock d = Ok (true, d') ->
  exists a, t_approvals d !! id = Some a /\ ar_status a = "APPROVED" /\
    before_deadline (iso (or_else now clock)) a = true /\ status_of id d' = Some "CONSUMING".
Proof.
  intros H. unfold consume_approval_request in H. apply bind_Ok in H as ([] & _ & H). cbv zeta in H.
  destruct (update_request id _ _ d) as [b1 d1] eqn:E1. injection H as H.
  apply update_request_spec in H as [(? & _)|(a & Ha & Hc & _ & ->)]; [done|].
  apply andb_true_iff in Hc as [Hs Hb]. apply has_status_eq in Hs.
  apply update_request_spec in E1 as [(_ & -> & _)|(a1 & _ & _ & _ & ->)].
  - exists a. rewrite status_set. case_decide; [done|]. done.
  - cbn in Ha. rewrite lookup_insert_eq in Ha. injection Ha as <-. done.
Qed.

(** ** Properties *)

(** C36: an approval is consumed at most once: after a successful consumption,
    and whatever approval calls follow, no later consumption of the same
    request succeeds. *)
Theorem consume_approval_request_at_most_once id now clock now' clock' d d1 d2 b d3 :
  consume_approval_request id now clock d = Ok (true, d1) ->
  rtc approval_step d1 d2 ->
  consume_approval_request id now' clock' d2 = Ok (b, d3) ->
  b = false.
Proof.
  intros H1 Hs H2. destruct b; [|done]. exfalso.
  apply consume_true in H1 as (_ & _ & _ & _ & Hc).
  destruct (steps_spent _ _ _ _ Hs Hc) as (s & E & Hin); [unfold SPENT; rewrite elem_of_cons; by left|].
  apply consume_true in H2 as (a & Ha & Hst & _). unfold status_of in E. rewrite Ha in E.
  injection E as <-. rewrite Hst in Hin. unfold SPENT in Hin.
  rewrite !elem_of_cons, elem_of_nil in Hin. intuition discriminate.
Qed.

(** Fact: an approval is consumed only when the operator approved it and its
    deadline, compared as ISO text, has not passed; a request that is past its
    deadline is marked EXPIRED instead. *)
Theorem consume_requires_live_approval id now clock d b d' a :
  t_approvals d !! id = Some a ->
  consume_approval_request id now clock d = Ok (b, d') ->
  (b = true <-> ar_status a = "APPROVED" /\ past_deadline (iso (or_else now clock)) a = false) /\
  (ar_status a = "APPROVED" -> past_deadline (iso (or_else now clock)) a = true ->
     status_of id d' = Some "EXPIRED").
Proof.
  intros Ha H. assert (H0 := H). unfold consume_approval_request in H.
  apply bind_Ok in H as ([] & _ & H). cbv zeta in H.
  destruct (update_request id _ _ d) as [b1 d1] eqn:E1. injection H as H.
  split; [split|].
  - intros ->. apply consume_true in H0 as (a' & Ha' & Hst & Hb & _).
    rewrite Ha in Ha'. injection Ha' as <-. rewrite deadline_split in Hb.
    by apply negb_true_iff in Hb.
  - intros [Hst Hp]. apply update_request_spec in E1 as [(_ & -> & _)|(a1 & Ha1 & Hc & _)].
    + apply update_request_spec in H as [(_ & _ & Hn)|(a2 & _ & _ & -> & _)]; [|done].
      specialize (Hn _ Ha). rewrite deadline_split, Hp in Hn.
      apply has_status_eq in Hst. by rewrite Hst in Hn.
    + rewrite Ha in Ha1. injection Ha1 as <-. rewrite Hp, andb_false_r in Hc. done.
  - intros Hst Hp. apply update_request_spec in E1 as [(_ & _ & Hn)|(a1 & Ha1 & Hc & _ & ->)].
    + specialize (Hn _ Ha). apply has_status_eq in Hst. rewrite Hst, Hp in Hn. done.
    + rewrite Ha in Ha1. injection Ha1 as <-.
      apply update_request_spec in H as [(_ & -> & _)|(a2 & Ha2 & Hc2 & _)].
      * rewrite status_set. by case_decide.
      * cbn in Ha2. rewrite lookup_insert_eq in Ha2. injection Ha2 as <-. done.
Qed.

(** Fact: once a request is rejected, expired, being executed or finished, no
    sequence of approval calls brings it back to PENDING or APPROVED. *)
Theorem spent_approval_stays_spent id s d d' :
  status_of id d = Some s -> s ∈ SPENT -> rtc approval_step d d' ->
  exists s', status_of id d' = Some s' /\ s' ∈ SPENT.
Proof. intros Hs Hin H. by eapply steps_spent. Qed.

(** ** Witnesses *)

Definition w_at (s : Z) : datetime := Datetime (1700000000000000 + s * us_per_second) (Some KST).
Definition w_request : approval_args :=
  mkApprovalArgs "r1" "005930" None "high risk" "PENDING" None (Some 1) None None None None None
    (Some (w_at 0)).
Definition w_db_of {A} (r : res (A * db)) : db := match r with Ok (_, d) => d | Err _ => empty_db end.
Definition w_recorded : db := w_db_of (record_approval_request w_request (w_at 0) empty_db).
Definition w_approved : db :=
  w_db_of (resolve_approval_request "r1" "approved" (Some "op") (Some (w_at 10)) (w_at 10) w_recorded).
Definition w_consumed : db := w_db_of (consume_approval_request "r1" (Some (w_at 20)) (w_at 20) w_approved).
Definition w_finished : db := w_db_of (finish_approval_request "r1" true (Some (w_at 30)) (w_at 30) w_consumed).

Lemma consume_approval_request_at_most_once_witness :
  exists d, consume_approval_request "r1" (Some (w_at 40)) (w_at 40) w_finished = Ok (false, d) /\
    false = false.
Proof.
  eexists. split; [vm_compute; reflexivity|].
  eapply (consume_approval_request_at_most_once "r1" (Some (w_at 20)) (w_at 20) (Some (w_at 40))
    (w_at 40) w_approved w_consumed w_finished false).
  - vm_compute. reflexivity.
  - apply rtc_once, (as_finish "r1" true (Some (w_at 30)) (w_at 30) true). vm_compute. reflexivity.
  - vm_compute. reflexivity.
Defined.

Lemma consume_requires_live_approval_witness :
  exists d' a, t_approvals w_approved !! "r1" = Some a /\
    consume_approval_request "r1" (Some (w_at 121)) (w_at 121) w_approved = Ok (false, d') /\
    status_of "r1" d' = Some "EXPIRED".
Proof.
  eexists _, _. split; [vm_compute; reflexivity|]. split; [vm_compute; reflexivity|].
  eapply (consume_requires_live_approval "r1" (Some (w_at 121)) (w_at 121) w_approved false);
    vm_compute; reflexivity.
Defined.

Lemma spent_approval_stays_spent_witness :
  exists s', status_of "r1" w_finished = Some s' /\ s' ∈ SPENT.
Proof.
  apply (spent_approval_stays_spent "r1" "CONSUMING" w_consumed).
  - vm_compute. reflexivity.
  - left.
  - apply rtc_once, (as_finish "r1" true (Some (w_at 30)) (w_at 30) true). vm_compute. reflexivity.
Defined.
