(* ===== verification/DbPaper.v ===== *)
(** * Simulated orders ([storage/database.py], the [paper_*] tables)

    A simulated order is filled as it is recorded: one row in [paper_orders] and
    one in [paper_fills].  The aggregate query of [paper_positions] is modelled as
    SQLite runs it: the unqualified [quantity] of its HAVING clause is the column
    of [paper_fills] (a column name wins over a result alias), taken from a row
    of the group the engine chooses, so it does not test the net quantity. *)

From stdpp Require Import relations.
From S2P Require Import Prelude PyStr PyFloat PyTime DbCore Risk.

(** ** Recording *)

Definition paper_signal_exists (signal_id : string) (d : db) : bool :=
  existsb (fun kv => String.eqb (po_signal_id kv.2) signal_id) (map_to_list (t_paper_orders d)).

(** A row of [paper_fills] with the same order or signal. *)
Definition fill_conflict (order_id signal_id : string) (d : db) : bool :=
  existsb (fun kv => String.eqb (pf_order_id kv.2) order_id || String.eqb (pf_signal_id kv.2) signal_id)
    (map_to_list (t_paper_fills d)).

(** The transaction both methods share.  [INSERT OR IGNORE] skips the row on a
    key conflict, and also on a NaN price, which SQLite stores as NULL in a NOT
    NULL column. *)
Definition insert_paper_trade (order_id fill_id signal_id symbol side : string) (quantity : Z)
    (price : float) (timestamp : string) (d : db) : res (bool * db) :=
  if bool_decide (is_Some (t_paper_orders d !! order_id)) || paper_signal_exists signal_id d
     || is_nan price
  then Ok (false, d)
  else
    let d1 := set_paper_orders (<[order_id := mkPaperOrder order_id signal_id symbol side quantity
                price "FILLED" timestamp]>) d in
    _ ← raise_if (bool_decide (is_Some (t_paper_fills d1 !! fill_id)) || fill_conflict order_id signal_id d1)
          (IntegrityError "UNIQUE constraint failed: paper_fills");
    Ok (true, set_paper_fills (<[fill_id := mkPaperFillRow fill_id order_id signal_id symbol side
                quantity price timestamp]>) d1).

Definition record_paper_buy (order_id fill_id signal_id symbol : string) (quantity : Z)
    (price : float) (created_at : option datetime) (clock : datetime) (d : db) : res (bool * db) :=
  _ ← validate_paper_record symbol quantity price;
  insert_paper_trade order_id fill_id signal_id symbol "BUY" quantity price
    (iso (or_else created_at clock)) d.

Definition list_paper_orders (symbol : option string) (d : db) : list paper_order :=
  List.filter (fun o => match symbol with Some s => String.eqb (po_symbol o) s | None => true end)
    (rows_by po_created_at po_order_id (t_paper_orders d)).

Definition list_paper_fills (symbol : option string) (d : db) : list paper_fill :=
  List.filter (fun f => match symbol with Some s => String.eqb (pf_symbol f) s | None => true end)
    (rows_by pf_filled_at pf_fill_id (t_paper_fills d)).

(** ** Positions *)

Definition fill_rows (d : db) : list paper_fill := map snd (map_to_list (t_paper_fills d)).

Definition symbol_fills (symbol : string) (d : db) : list paper_fill :=
  List.filter (fun f => String.eqb (pf_symbol f) symbol) (fill_rows d).

Definition is_buy (f : paper_fill) : bool := String.eqb (pf_side f) "BUY".
Definition signed_quantity (f : paper_fill) : Z := if is_buy f then pf_quantity f else - pf_quantity f.
Definition bought_quantity (f : paper_fill) : Z := if is_buy f then pf_quantity f else 0.
Definition fill_value (f : paper_fill) : float :=
  if is_buy f then fmul (f_of_Z (pf_quantity f)) (pf_price f) else fzero.

(** [GROUP BY symbol ORDER BY symbol] *)
Definition traded_symbols (d : db) : list string :=
  sort_by text_leb (dedup [] (map pf_symbol (fill_rows d))).

Section Positions.
(** SQLite: the SUM of REAL values (the order of the additions and the
    compensation are the engine's), and the row of a non-empty group it takes a
    bare column from. *)
Variable sum_real : list float -> float.
Variable group_row : paper_fill -> list paper_fill -> paper_fill.

Definition group_position (symbol : string) (d : db) : option PositionState :=
  match symbol_fills symbol d with
  | [] => None
  | f :: l =>
      let group := f :: l in
      if 0 <? pf_quantity (group_row f l) then
        let buy_quantity := sum_by bought_quantity group in
        let avg_price :=
          if buy_quantity =? 0 then fzero
          else fquot (sum_real (map fill_value group)) (f_of_Z buy_quantity) in
        Some (mkPositionState symbol (sum_by signed_quantity group) avg_price None)
      else None
  end.

Definition paper_positions (d : db) : list PositionState :=
  omap (fun s => group_position s d) (traded_symbols d).

Definition record_paper_sell (order_id fill_id signal_id symbol : string) (quantity : Z)
    (price : float) (created_at : option datetime) (clock : datetime) (d : db) : res (bool * db) :=
  _ ← validate_paper_record symbol quantity price;
  if paper_signal_exists signal_id d then Ok (false, d)
  else
    _ ← (match find (fun p => String.eqb (ps_symbol p) symbol) (paper_positions d) with
         | None => Err (ValueError ("paper sell exceeds long position for " +:+ symbol))
         | Some p => raise_if (ps_quantity p <? quantity)
                       (ValueError ("paper sell exceeds long position for " +:+ symbol))
         end);
    insert_paper_trade order_id fill_id signal_id symbol "SELL" quantity price
      (iso (or_else created_at clock)) d.

(** Runs of the two writes. *)
Inductive paper_step : db -> db -> Prop :=
  | ps_buy o f s sym q p at_ clock b d d' :
      record_paper_buy o f s sym q p at_ clock d = Ok (b, d') -> paper_step d d'
  | ps_sell o f s sym q p at_ clock b d d' :
      record_paper_sell o f s sym q p at_ clock d = Ok (b, d') -> paper_step d d'.

End Positions.

(** Net quantity of a symbol over the journal. *)
Definition journal_quantity (symbol : string) (d : db) : Z :=
  map_sum (fun f => if String.eqb (pf_symbol f) symbol then signed_quantity f else 0) (t_paper_fills d).

(** The journal is well formed: each fill is that of a FILLED order and each
    order has its fill, quantities are positive, and no symbol is net short. *)
Record journal_ok (d : db) : Prop := mkJournalOk {
  jo_fill : forall k f, t_paper_fills d !! k = Some f ->
    pf_fill_id f = k /\ 0 < pf_quantity f /\
    exists o, t_paper_orders d !! pf_order_id f = Some o /\
      po_signal_id o = pf_signal_id f /\ po_symbol o = pf_symbol f /\ po_side o = pf_side f /\
      po_quantity o = pf_quantity f /\ po_status o = "FILLED";
  jo_order : forall k o, t_paper_orders d !! k = Some o ->
    po_order_id o = k /\ exists f, t_paper_fills d !! pf_fill_id f = Some f /\ pf_order_id f = k;
  jo_signal : forall k1 k2 o1 o2, t_paper_orders d !! k1 = Some o1 -> t_paper_orders d !! k2 = Some o2 ->
    po_signal_id o1 = po_signal_id o2 -> k1 = k2;
  jo_long : forall s, 0 <= journal_quantity s d;
}.

(** ** Lemmas *)

Lemma existsb_map_to_list {V} (p : string * V -> bool) (m : gmap string V) :
  existsb p (map_to_list m) = true <-> exists k v, m !! k = Some v /\ p (k, v) = true.
Proof.
  rewrite existsb_exists. split.
  - intros ([k v] & Hin%list_elem_of_In%elem_of_map_to_list & Hp). eauto.
  - intros (k & v & Hm & Hp). exists (k, v). split; [|done].
    by apply list_elem_of_In, elem_of_map_to_list.
Qed.

Lemma paper_signal_exists_true s d :
  paper_signal_exists s d = true <-> exists k o, t_paper_orders d !! k = Some o /\ po_signal_id o = s.
Proof. unfold paper_signal_exists. rewrite existsb_map_to_list. cbn. by setoid_rewrite String.eqb_eq. Qed.

Lemma elem_of_symbol_fills f s d :
  f ∈ symbol_fills s d <-> pf_symbol f = s /\ exists k, t_paper_fills d !! k = Some f.
Proof.
  unfold symbol_fills, fill_rows. rewrite list_elem_of_In, filter_In, <- list_elem_of_In,
    list_elem_of_fmap, String.eqb_eq.
  split.
  - intros [([k v] & -> & H%elem_of_map_to_list) <-]. eauto.
  - intros [<- [k H]]. split; [|done]. exists (k, f). split; [done|]. by apply elem_of_map_to_list.
Qed.

Lemma journal_quantity_list s d : journal_quantity s d = sum_by signed_quantity (symbol_fills s d).
Proof.
  unfold journal_quantity, symbol_fills, fill_rows. rewrite map_sum_list.
  induction (map snd (map_to_list (t_paper_fills d))) as [|f l IH]; cbn; [done|].
  destruct (String.eqb (pf_symbol f) s); cbn; lia.
Qed.

Lemma elem_of_traded s d : s ∈ traded_symbols d <-> symbol_fills s d <> [].
Proof.
  unfold traded_symbols. rewrite elem_of_sort_by, elem_of_dedup, list_elem_of_fmap. split.
  - intros [(f & -> & Hf) _] He. unfold fill_rows in Hf.
    apply list_elem_of_fmap in Hf as ([k v] & -> & Hf%elem_of_map_to_list).
    assert (H : v ∈ symbol_fills (pf_symbol v) d) by (apply elem_of_symbol_fills; eauto).
    cbn in He. rewrite He in H. inversion H.
  - intros He. split; [|apply not_elem_of_nil].
    destruct (symbol_fills s d) as [|f l] eqn:E; [done|].
    assert (H : f ∈ symbol_fills s d) by (rewrite E; apply list_elem_of_here).
    apply elem_of_symbol_fills in H as [<- [k H]]. exists f. split; [done|].
    unfold fill_rows. apply list_elem_of_fmap. exists (k, f). split; [done|].
    by apply elem_of_map_to_list.
Qed.

Lemma insert_paper_trade_Ok o fid s sym side q p ts d b d' :
  insert_paper_trade o fid s sym side q p ts d = Ok (b, d') ->
  (b = false /\ d' = d) \/
  (b = true /\ t_paper_orders d !! o = None /\ paper_signal_exists s d = false /\
   t_paper_fills d !! fid = None /\
   d' = set_paper_fills (<[fid := mkPaperFillRow fid o s sym side q p ts]>)
          (set_paper_orders (<[o := mkPaperOrder o s sym side q p "FILLED" ts]>) d)).
Proof.
  unfold insert_paper_trade. destruct (_ || _ || _) eqn:E.
  - intros [= <- <-]. by left.
  - intros H. apply bind_Ok in H as ([] & Hc & H). injection H as <- <-. right.
    apply raise_if_Ok in Hc. bool_to_prop. cbn in *. rewrite <- !eq_None_not_Some in *. done.
Qed.

Lemma validate_paper_record_Ok sym q p u : validate_paper_record sym q p = Ok u -> 0 < q.
Proof.
  unfold validate_paper_record. intros H. apply bind_Ok in H as ([] & _ & H).
  apply bind_Ok in H as ([] & H & _). apply raise_if_Ok in H. by apply Z.leb_gt in H.
Qed.

(** The quantity a trade adds to a symbol. *)
Lemma journal_quantity_insert s d fid f g :
  t_paper_fills d !! fid = None ->
  journal_quantity s (set_paper_fills (<[fid := f]>) (set_paper_orders g d)) =
  (if String.eqb (pf_symbol f) s then signed_quantity f else 0) + journal_quantity s d.
Proof. intros H. unfold journal_quantity. cbn. by rewrite map_sum_insert. Qed.

Lemma insert_paper_trade_ok o fid s sym side q p ts d b d' :
  journal_ok d -> 0 < q ->
  (String.eqb side "BUY" = true \/ q <= journal_quantity sym d) ->
  insert_paper_trade o fid s sym side q p ts d = Ok (b, d') -> journal_ok d'.
Proof.
  intros [Jf Jo Js Jl] Hq Hs H.
  apply insert_paper_trade_Ok in H as [(_ & ->)|(_ & Ho & Hsig & Hf & ->)]; [done|].
  assert (Hfresh : forall k o', t_paper_orders d !! k = Some o' -> po_signal_id o' <> s).
  { intros k o' Hk He. apply not_true_iff_false in Hsig. apply Hsig.
    apply paper_signal_exists_true. eauto. }
  split; cbn.
  - intros k f Hk. apply lookup_insert_Some in Hk as [[<- <-]|[Hne Hk]]; cbn.
    + split_and!; try done. eexists. by rewrite lookup_insert_eq.
    + destruct (Jf _ _ Hk) as (? & ? & o' & Ho' & ?). split_and!; try done. exists o'.
      rewrite lookup_insert_ne by congruence. done.
  - intros k o' Hk. apply lookup_insert_Some in Hk as [[<- <-]|[Hne Hk]]; cbn.
    + split; [done|]. exists (mkPaperFillRow fid o s sym side q p ts). cbn. by rewrite lookup_insert_eq.
    + destruct (Jo _ _ Hk) as (? & f & Hkf & ?). split; [done|]. exists f.
      rewrite lookup_insert_ne by congruence. done.
  - intros k1 k2 o1 o2 H1 H2 He.
    apply lookup_insert_Some in H1 as [[<- <-]|[? H1]], H2 as [[<- <-]|[? H2]]; cbn in *;
      [done| | |by eapply Js]; exfalso; eapply Hfresh; eauto.
  - intros s'. rewrite journal_quantity_insert by done. cbn. unfold signed_quantity, is_buy. cbn.
    pose proof (Jl s'). destruct (String.eqb_spec sym s') as [<-|]; [|lia].
    destruct Hs as [->|Hs]; [lia|]. destruct (String.eqb side "BUY"); lia.
Qed.

Lemma find_position_quantity sum_real group_row sym d p :
  find (fun p => String.eqb (ps_symbol p) sym) (paper_positions sum_real group_row d) = Some p ->
  ps_quantity p = journal_quantity sym d.
Proof.
  intros H. apply find_some in H as [Hin Hs]. apply String.eqb_eq in Hs.
  apply list_elem_of_In, list_elem_of_omap in Hin as (s & _ & Hg). unfold group_position in Hg.
  rewrite <- Hs, journal_quantity_list.
  destruct (symbol_fills s d) as [|f l] eqn:E; [done|]. destruct (0 <? _); [|done].
  injection Hg as <-. cbn -[sum_by]. by rewrite E.
Qed.

Lemma paper_step_ok sum_real group_row d d' :
  journal_ok d -> paper_step sum_real group_row d d' -> journal_ok d'.
Proof.
  intros J H.
  destruct H as [o f s sym q p at_ clock b d d' H|o f s sym q p at_ clock b d d' H].
  - unfold record_paper_buy in H. apply bind_Ok in H as ([] & Hq%validate_paper_record_Ok & H).
    eapply insert_paper_trade_ok; [done..| |exact H]. by left.
  - unfold record_paper_sell in H. apply bind_Ok in H as ([] & Hq%validate_paper_record_Ok & H).
    destruct (paper_signal_exists s d); [by injection H as _ <-|].
    apply bind_Ok in H as ([] & Hp & H).
    destruct (find _ _) as [pos|] eqn:E; [|done]. apply find_position_quantity in E.
    apply raise_if_Ok, Z.ltb_ge in Hp.
    eapply insert_paper_trade_ok; [done..| |exact H]. right. lia.
Qed.

(** ** Properties *)

(** Fact: whatever simulated trades are recorded, the paper journal stays well
    formed: every fill belongs to a FILLED order with the same symbol, side and
    quantity, every order has its fill, no signal is traded twice, and no
    symbol is ever sold short. *)
Theorem paper_journal_stays_ok sum_real group_row d d' :
  journal_ok d -> rtc (paper_step sum_real group_row) d d' -> journal_ok d'.
Proof. intros J H. induction H; [done|]. eauto using paper_step_ok. Qed.

(** Fact: [paper_positions] reports every symbol that ever traded, in text order
    and each with its net quantity, also the symbols whose net quantity is zero:
    the HAVING clause does not filter them out. *)
Theorem paper_positions_keeps_flat_symbols sum_real group_row d :
  journal_ok d ->
  (forall f l, group_row f l ∈ f :: l) ->
  map (fun p => (ps_symbol p, ps_quantity p)) (paper_positions sum_real group_row d) =
  map (fun s => (s, journal_quantity s d)) (traded_symbols d).
Proof.
  intros J Hrow. unfold paper_positions.
  assert (Ht : forall s, s ∈ traded_symbols d -> symbol_fills s d <> []) by
    (intros s; apply elem_of_traded).
  induction (traded_symbols d) as [|s l IH]; [done|]. cbn.
  rewrite journal_quantity_list.
  assert (Hs : symbol_fills s d <> []) by (apply Ht, list_elem_of_here).
  unfold group_position at 1. destruct (symbol_fills s d) as [|f fs] eqn:E; [done|].
  assert (Hg : group_row f fs ∈ symbol_fills s d) by (rewrite E; apply Hrow).
  apply elem_of_symbol_fills in Hg as (_ & k & Hk).
  destruct (jo_fill d J _ _ Hk) as (_ & Hpos & _). apply Z.ltb_lt in Hpos. rewrite Hpos. cbn.
  f_equal. apply IH. intros s' Hs'. apply Ht. by apply list_elem_of_further.
Qed.

(** ** Witnesses *)

Definition w_clock : datetime := Datetime 1700000000000000 (Some KST).
Definition w_row (f : paper_fill) (l : list paper_fill) : paper_fill := f.
Definition w_sum (l : list float) : float := foldr fadd fzero l.
Definition w_run (r : res (bool * db)) : db := match r with Ok (_, d) => d | Err _ => empty_db end.
Definition w_bought : db :=
  w_run (record_paper_buy "o1" "f1" "s1" "005930" 10 (f_of_Z 70000) None w_clock empty_db).
Definition w_closed : db :=
  w_run (record_paper_sell w_sum w_row "o2" "f2" "s2" "005930" 10 (f_of_Z 71000) None w_clock w_bought).

Lemma empty_journal_ok : journal_ok empty_db.
Proof. split; intros; try done; by vm_compute. Qed.

Lemma w_closed_steps : rtc (paper_step w_sum w_row) empty_db w_closed.
Proof.
  apply (rtc_l _ _ w_bought).
  - apply (ps_buy _ _ "o1" "f1" "s1" "005930" 10 (f_of_Z 70000) None w_clock true).
    vm_compute. reflexivity.
  - apply rtc_once, (ps_sell _ _ "o2" "f2" "s2" "005930" 10 (f_of_Z 71000) None w_clock true).
    vm_compute. reflexivity.
Qed.

Lemma w_closed_ok : journal_ok w_closed.
Proof.
  eapply paper_step_ok; [eapply paper_step_ok; [apply empty_journal_ok|]|].
  - apply (ps_buy w_sum w_row "o1" "f1" "s1" "005930" 10 (f_of_Z 70000) None w_clock true _ w_bought).
    vm_compute. reflexivity.
  - apply (ps_sell w_sum w_row "o2" "f2" "s2" "005930" 10 (f_of_Z 71000) None w_clock true).
    vm_compute. reflexivity.
Qed.

Lemma paper_journal_stays_ok_witness :
  journal_ok w_closed /\ journal_quantity "005930" w_closed = 0.
Proof.
  split; [|vm_compute; reflexivity].
  apply (paper_journal_stays_ok w_sum w_row empty_db); [apply empty_journal_ok|apply w_closed_steps].
Defined.

Lemma paper_positions_keeps_flat_symbols_witness :
  map (fun p => (ps_symbol p, ps_quantity p)) (paper_positions w_sum w_row w_closed) = [("005930", 0)].
Proof.
  rewrite (paper_positions_keeps_flat_symbols w_sum w_row w_closed).
  - vm_compute. reflexivity.
  - apply w_closed_ok.
  - intros f l. apply list_elem_of_here.
Defined.
