(* ===== verification/IsoText.v ===== *)
(** * ISO text of dates: reading back and ordering

    Facts about the timestamps the ledger stores as text: [fromisoformat] reads
    back what [isoformat] writes, and for values of one zone the text order of
    SQLite is the chronological order. *)

From S2P Require Import Prelude PyStr PyTime DbCore.

(** The values [datetime] has: years 1 to 9999, offsets under a day. *)
Definition MIN_US : Z := -62135596800000000.
Definition MAX_US : Z := 253402300800000000.

Definition valid_dt (d : datetime) : Prop :=
  MIN_US <= dt_us d < MAX_US /\
  match dt_tz d with Some off => Z.abs off < 1440 | None => True end.

(** The day a March-based year starts on, counted from 0000-03-01. *)
Definition year_start (y : Z) : Z := 365 * y + y / 4 - y / 100 + y / 400.

(** Month and day of the day [doy] of a March-based year [y]. *)
Definition month_day (y doy : Z) : Z * Z * Z :=
  let mp := (5 * doy + 2) / 153 in
  let m := if mp <? 10 then mp + 3 else mp - 9 in
  (y + (if m <=? 2 then 1 else 0), m, doy - (153 * mp + 2) / 5 + 1).

Definition last_day_ok (y doy : Z) : Prop :=
  doy = 365 -> (y + 1) mod 4 = 0 /\ ((y + 1) mod 100 <> 0 \/ (y + 1) mod 400 = 0).

(** Lexicographic order of dates. *)
Definition date_cmp (a b : Z * Z * Z) : comparison :=
  let '(y, m, d) := a in let '(y', m', d') := b in
  match y ?= y' with
  | Eq => match m ?= m' with Eq => d ?= d' | c => c end
  | c => c
  end.

(** ** The calendar *)

Ltac div_lia := Z.to_euclidean_division_equations; lia.

Lemma year_of_era_ok doe : 0 <= doe < 146097 ->
  let yoe := (doe - doe / 1460 + doe / 36524 - doe / 146096) / 365 in
  let doy := doe - (365 * yoe + yoe / 4 - yoe / 100) in
  0 <= yoe < 400 /\ 0 <= doy <= 365 /\
  (doy = 365 -> (yoe + 1) mod 4 = 0 /\ ((yoe + 1) mod 100 <> 0 \/ yoe = 399)).
Proof.
  intros H yoe doy. subst doy yoe. destruct (decide (doe = 146096)) as [->|Hne].
  { vm_compute. intuition congruence. }
  replace (doe / 146096) with 0 by (symmetry; apply Z.div_small; lia).
  assert (0 <= doe / 36524 <= 3 /\ 36524 * (doe / 36524) <= doe < 36524 * (doe / 36524) + 36524)
    as [H1 H2] by div_lia.
  set (c := doe / 36524) in *. clearbody c.
  assert (exists r, doe = 36524 * c + r /\ 0 <= r < 36524) as (r & -> & Hr)
    by (exists (doe - 36524 * c); lia).
  assert (c = 0 \/ c = 1 \/ c = 2 \/ c = 3) as [->|[->|[->| ->]]] by lia; div_lia.
Qed.

Lemma civil_split n : exists y doy,
  civil_of_days n = month_day y doy /\ n + 719468 = year_start y + doy /\
  0 <= doy <= 365 /\ last_day_ok y doy.
Proof.
  unfold civil_of_days. cbv zeta. set (z := n + 719468).
  pose proof (Z.mod_pos_bound z 146097 ltac:(lia)) as Hb.
  pose proof (Z.div_mod z 146097 ltac:(lia)) as Hz.
  pose proof (year_of_era_ok _ Hb) as H. cbv zeta in H.
  set (doe := z mod 146097) in *. set (era := z / 146097) in *. clearbody doe era z.
  set (yoe := (doe - doe / 1460 + doe / 36524 - doe / 146096) / 365) in *.
  destruct H as (Hy & Hd & Hl). clearbody yoe.
  exists (yoe + era * 400), (doe - (365 * yoe + yoe / 4 - yoe / 100)).
  split_and!; try lia.
  - done.
  - unfold year_start. div_lia.
  - intros E. specialize (Hl E). div_lia.
Qed.

Lemma days_of_month_day y doy : 0 <= doy <= 365 ->
  let '(y', m, d) := month_day y doy in days_of_civil y' m d + 719468 = year_start y + doy.
Proof.
  intros H. unfold month_day.
  assert (Hm : 0 <= (5 * doy + 2) / 153 <= 11) by div_lia.
  set (mp := (5 * doy + 2) / 153) in *. clearbody mp. cbv zeta. unfold days_of_civil, year_start.
  destruct (Z.ltb_spec mp 10).
  - replace (mp + 3 <=? 2) with false by (symmetry; apply Z.leb_gt; lia).
    replace (2 <? mp + 3) with true by (symmetry; apply Z.ltb_lt; lia).
    replace (mp + 3 - 3) with mp by lia. rewrite Z.add_0_r. div_lia.
  - replace (mp - 9 <=? 2) with true by (symmetry; apply Z.leb_le; lia).
    replace (2 <? mp - 9) with false by (symmetry; apply Z.ltb_ge; lia).
    replace (mp - 9 + 9) with mp by lia. replace (y + 1 - 1) with y by lia. div_lia.
Qed.

Lemma month_day_range y doy : 0 <= doy <= 365 -> last_day_ok y doy ->
  let '(y', m, d) := month_day y doy in 1 <= m <= 12 /\ 1 <= d <= days_in_month y' m.
Proof.
  intros H Hl. unfold month_day.
  assert (Hm : 0 <= (5 * doy + 2) / 153 <= 11) by div_lia.
  assert (Hdiv : 153 * ((5 * doy + 2) / 153) <= 5 * doy + 2 < 153 * ((5 * doy + 2) / 153) + 153) by div_lia.
  set (mp := (5 * doy + 2) / 153) in *. clearbody mp.
  assert (mp = 11 \/ mp = 0 \/ mp = 1 \/ mp = 2 \/ mp = 3 \/ mp = 4 \/ mp = 5 \/ mp = 6 \/ mp = 7 \/
    mp = 8 \/ mp = 9 \/ mp = 10) as [->|Hc] by lia.
  - change (1 <= 2 <= 12 /\ 1 <= doy - 337 + 1 <= days_in_month (y + 1) 2).
    split; [lia|]. unfold days_in_month. cbn -[Z.modulo Z.add Z.sub].
    destruct (decide (doy = 365)) as [->|Hne].
    + destruct (Hl eq_refl) as [-> [H100| ->]]; [|rewrite orb_true_r; lia].
      apply Z.eqb_neq in H100. rewrite H100. cbn. lia.
    + destruct (_ || _); lia.
  - split; [destruct (Z.ltb_spec mp 10); lia|].
    repeat (destruct Hc as [-> | Hc]); [..|subst mp];
      match goal with |- 1 <= doy - ?a + 1 <= days_in_month ?yy ?mm =>
        let a' := eval vm_compute in a in let m' := eval vm_compute in mm in
        generalize yy; intros yy'; change (1 <= doy - a' + 1 <= days_in_month yy' m');
        cbn -[Z.sub Z.add]; lia
      end.
Qed.

Lemma civil_of_days_range n : let '(y, m, d) := civil_of_days n in
  1 <= m <= 12 /\ 1 <= d <= days_in_month y m /\ days_of_civil y m d = n.
Proof.
  destruct (civil_split n) as (y & doy & -> & Hn & Hd & Hl).
  pose proof (month_day_range y doy Hd Hl) as H1. pose proof (days_of_month_day y doy Hd) as H2.
  destruct (month_day y doy) as [[y' m] d]. split_and!; try apply H1. lia.
Qed.

Lemma year_start_mono y y' : y < y' -> year_start y + 365 <= year_start y'.
Proof. intros H. unfold year_start. div_lia. Qed.

Lemma year_start_leap y : (y + 1) mod 4 = 0 /\ ((y + 1) mod 100 <> 0 \/ (y + 1) mod 400 = 0) ->
  year_start (y + 1) = year_start y + 366.
Proof. intros H. unfold year_start. div_lia. Qed.

Lemma year_doy_lt y doy y' doy' :
  0 <= doy <= 365 -> last_day_ok y doy -> 0 <= doy' <= 365 -> last_day_ok y' doy' ->
  year_start y + doy < year_start y' + doy' -> y < y' \/ (y = y' /\ doy < doy').
Proof.
  intros Hd Hl Hd' Hl' H. destruct (Z.lt_trichotomy y y') as [Hy|[Hy|Hy]]; [lia|subst; lia|].
  exfalso. destruct (decide (doy' = 365)) as [He|He].
  - pose proof (year_start_leap y' (Hl' He)). destruct (decide (y = y' + 1)) as [->|]; [lia|].
    pose proof (year_start_mono (y' + 1) y ltac:(lia)). lia.
  - pose proof (year_start_mono y' y Hy). lia.
Qed.

Lemma month_day_lt y doy y' doy' : 0 <= doy <= 365 -> 0 <= doy' <= 365 ->
  y < y' \/ (y = y' /\ doy < doy') -> date_cmp (month_day y doy) (month_day y' doy') = Lt.
Proof.
  intros Hd Hd' H. unfold month_day, date_cmp.
  set (mp := (5 * doy + 2) / 153). set (mp' := (5 * doy' + 2) / 153).
  assert (Hm : 0 <= mp <= 11) by (unfold mp; div_lia).
  assert (Hm' : 0 <= mp' <= 11) by (unfold mp'; div_lia).
  assert (Hq : y = y' -> mp <= mp' /\ (mp = mp' -> doy < doy')).
  { intros ->. destruct H as [?|[_ H]]; [lia|]. split; [unfold mp, mp'; div_lia|done]. }
  clearbody mp mp'. cbv zeta.
  assert (Hy : forall k, 0 <= k <= 11 -> ((if k <? 10 then k + 3 else k - 9) <=? 2) = negb (k <? 10)).
  { intros k Hk. destruct (Z.ltb_spec k 10); cbn; [apply Z.leb_gt|apply Z.leb_le]; lia. }
  rewrite !Hy by done.
  destruct (Z.ltb_spec mp 10), (Z.ltb_spec mp' 10); cbn -[Z.add Z.sub Z.mul Z.div]; repeat case_match; try done;
    repeat match goal with
      | E : (_ ?= _) = Eq |- _ => apply Z.compare_eq in E
      | E : (_ ?= _) = Gt |- _ => apply Z.compare_gt_iff in E
      | E : (_ <=? _) = true |- _ => apply Z.leb_le in E
      | E : (_ <=? _) = false |- _ => apply Z.leb_gt in E
      end; first [lia | apply Z.compare_lt_iff; assert (mp = mp') by lia; subst; lia].
Qed.

(** Later days have later dates. *)
Lemma civil_of_days_lt n n' : n < n' -> date_cmp (civil_of_days n) (civil_of_days n') = Lt.
Proof.
  intros H. destruct (civil_split n) as (y & doy & -> & Hn & Hd & Hl).
  destruct (civil_split n') as (y' & doy' & -> & Hn' & Hd' & Hl').
  apply month_day_lt; [done..|]. apply year_doy_lt; try done. lia.
Qed.

(** ** Fields of digits *)

Lemma app_assoc_string (a b c : string) : (a +:+ b) +:+ c = a +:+ (b +:+ c).
Proof. induction a as [|x a IH]; [done|exact (f_equal (String x) IH)]. Qed.

Lemma app_nil_string (a : string) : a +:+ "" = a.
Proof. induction a as [|x a IH]; [done|exact (f_equal (String x) IH)]. Qed.

Lemma length_app_string (a b : string) :
  String.length (a +:+ b) = (String.length a + String.length b)%nat.
Proof. induction a as [|x a IH]; [done|exact (f_equal S IH)]. Qed.

Definition digit_char (n : Z) : ascii := Ascii.ascii_of_N (Z.to_N (48 + n mod 10)).

Lemma code_digit n : code (digit_char n) = 48 + n mod 10.
Proof.
  pose proof (Z.mod_pos_bound n 10 ltac:(lia)). unfold code, digit_char.
  rewrite Ascii.N_ascii_embedding by lia. lia.
Qed.

Lemma length_pad w n : String.length (pad_digits w n) = w.
Proof. revert n. induction w as [|w IH]; intros n; cbn; [done|]. rewrite length_app_string, IH. cbn. lia. Qed.

Lemma read_digits_S w acc s :
  read_digits (S w) acc s =
  ('(a, s') ← read_digits w acc s; read_digits 1 a s').
Proof.
  revert acc s. induction w as [|w IH]; intros acc s; [done|].
  destruct s as [|c s]; cbn [read_digits]; [done|].
  destruct (is_digit c); [|done]. rewrite <- IH. done.
Qed.

Lemma read_digit acc n t : read_digits 1 acc (String (digit_char n) t) = Some (10 * acc + n mod 10, t).
Proof.
  cbn -[code Z.mul]. unfold is_digit. rewrite code_digit.
  pose proof (Z.mod_pos_bound n 10 ltac:(lia)).
  replace (48 <=? 48 + n mod 10) with true by (symmetry; apply Z.leb_le; lia).
  replace (48 + n mod 10 <=? 57) with true by (symmetry; apply Z.leb_le; lia).
  cbn -[Z.mul]. do 2 f_equal. lia.
Qed.

Lemma read_pad w acc n t : 0 <= n < 10 ^ Z.of_nat w ->
  read_digits w acc (pad_digits w n +:+ t) = Some (acc * 10 ^ Z.of_nat w + n, t).
Proof.
  revert acc n t. induction w as [|w IH]; intros acc n t H; [cbn in *; do 2 f_equal; lia|].
  rewrite read_digits_S. cbn [pad_digits]. rewrite app_assoc_string.
  rewrite Nat2Z.inj_succ, Z.pow_succ_r in * by lia.
  rewrite IH by div_lia. cbn [mbind option_bind].
  change ((String (Ascii.ascii_of_N (Z.to_N (48 + n mod 10))) "" +:+ t))
    with (String (digit_char n) t).
  rewrite read_digit. do 2 f_equal. pose proof (Z.div_mod n 10). lia.
Qed.

Lemma compare_app a a' b b' : String.length a = String.length a' ->
  String.compare (a +:+ b) (a' +:+ b') =
  match String.compare a a' with Eq => String.compare b b' | c => c end.
Proof.
  revert a'. induction a as [|c a IH]; intros [|c' a'] H; try done.
  change (match Ascii.compare c c' with Eq => String.compare (a +:+ b) (a' +:+ b') | r => r end =
    match match Ascii.compare c c' with Eq => String.compare a a' | r => r end with
    | Eq => String.compare b b' | r => r end).
  destruct (Ascii.compare c c'); [|done..]. apply IH. by injection H.
Qed.

Lemma compare_digit m n : Ascii.compare (digit_char m) (digit_char n) = (m mod 10 ?= n mod 10).
Proof.
  unfold Ascii.compare. rewrite <- N2Z.inj_compare.
  change (code (digit_char m) ?= code (digit_char n) = (m mod 10 ?= n mod 10)). rewrite !code_digit. pose proof (Z.mod_pos_bound m 10 ltac:(lia)).
  destruct (Z.compare_spec (m mod 10) (n mod 10)); [apply Z.compare_eq_iff|apply Z.compare_lt_iff|
    apply Z.compare_gt_iff]; lia.
Qed.

(** A comparison is the one of the quotients, then of the remainders. *)
Lemma compare_div_mod k m n : 0 < k ->
  (m ?= n) = match m / k ?= n / k with Eq => m mod k ?= n mod k | c => c end.
Proof.
  intros Hk. pose proof (Z.div_mod m k ltac:(lia)). pose proof (Z.div_mod n k ltac:(lia)).
  pose proof (Z.mod_pos_bound m k ltac:(lia)). pose proof (Z.mod_pos_bound n k ltac:(lia)).
  destruct (Z.compare_spec (m / k) (n / k)) as [He|Hl|Hg].
  - rewrite He in *. destruct (Z.compare_spec (m mod k) (n mod k)); [apply Z.compare_eq_iff|
      apply Z.compare_lt_iff|apply Z.compare_gt_iff]; lia.
  - apply Z.compare_lt_iff. nia.
  - apply Z.compare_gt_iff. nia.
Qed.

Lemma compare_pad w m n : 0 <= m < 10 ^ Z.of_nat w -> 0 <= n < 10 ^ Z.of_nat w ->
  String.compare (pad_digits w m) (pad_digits w n) = (m ?= n).
Proof.
  revert m n. induction w as [|w IH]; intros m n Hm Hn.
  - cbn in *. symmetry. apply Z.compare_eq_iff. lia.
  - cbn [pad_digits]. rewrite compare_app by by rewrite !length_pad.
    rewrite Nat2Z.inj_succ, Z.pow_succ_r in * by lia. rewrite IH by div_lia.
    rewrite (compare_div_mod 10 m n) by lia. destruct (m / 10 ?= n / 10); try done.
    fold (digit_char m) (digit_char n). cbn. rewrite compare_digit. by destruct (_ ?= _).
Qed.

(** ** Dates and times *)

Lemma date_range n : MIN_US / us_per_day <= n < MAX_US / us_per_day ->
  let '(y, m, d) := civil_of_days n in
  (0 <= y < 10 ^ 4 /\ 1 <= y) /\ 0 <= m < 10 ^ 2 /\ 0 <= d < 10 ^ 2 /\ 1 <= m <= 12 /\
  1 <= d <= days_in_month y m /\ days_of_civil y m d = n.
Proof.
  change (MIN_US / us_per_day) with (-719162). change (MAX_US / us_per_day) with 2932897.
  intros H. pose proof (civil_of_days_range n) as Hr.
  pose proof (civil_of_days_lt (-719163) n ltac:(lia)) as H1.
  pose proof (civil_of_days_lt n 2932897 ltac:(lia)) as H2.
  change (civil_of_days (-719163)) with (0, 12, 31) in H1.
  change (civil_of_days 2932897) with (10000, 1, 1) in H2.
  destruct (civil_of_days n) as [[y m] d]. destruct Hr as (Hm & Hd & E).
  assert (days_in_month y m <= 31) by (unfold days_in_month; repeat case_match; lia).
  assert (0 < y).
  { unfold date_cmp in H1. destruct (0 ?= y) eqn:E1; [|rewrite Z.compare_lt_iff in E1; lia|done].
    exfalso. apply Z.compare_eq in E1. subst y.
    destruct (12 ?= m) eqn:E1; [|rewrite Z.compare_lt_iff in E1; lia|done].
    rewrite Z.compare_lt_iff in H1. lia. }
  assert (y < 10000).
  { unfold date_cmp in H2. destruct (y ?= 10000) eqn:E1; [|by apply Z.compare_lt_iff|done].
    exfalso. destruct (m ?= 1) eqn:E2; [|rewrite Z.compare_lt_iff in E2; lia|done].
    rewrite Z.compare_lt_iff in H2. lia. }
  split_and!; try lia.
Qed.

Lemma read_char_app c s : read_char c (String c "" +:+ s) = Some s.
Proof. change (String c "" +:+ s) with (String c s). unfold read_char. by rewrite bool_decide_eq_true_2. Qed.

Lemma read_pad2 acc n t : 0 <= n < 10 ^ 2 ->
  read_digits 2 acc (pad_digits 2 n +:+ t) = Some (acc * 10 ^ 2 + n, t).
Proof. apply (read_pad 2). Qed.
Lemma read_pad4 acc n t : 0 <= n < 10 ^ 4 ->
  read_digits 4 acc (pad_digits 4 n +:+ t) = Some (acc * 10 ^ 4 + n, t).
Proof. apply (read_pad 4). Qed.
Lemma read_pad6 acc n t : 0 <= n < 10 ^ 6 ->
  read_digits 6 acc (pad_digits 6 n +:+ t) = Some (acc * 10 ^ 6 + n, t).
Proof. apply (read_pad 6). Qed.

Ltac read_step := first
  [ rewrite read_char_app | rewrite read_pad2 by lia | rewrite read_pad4 by lia
  | rewrite read_pad6 by lia ]; cbn [mbind option_bind].

Lemma read_offset_iso tz :
  match tz with Some off => Z.abs off < 1440 | None => True end ->
  read_offset (iso_offset tz) = Some tz.
Proof.
  destruct tz as [off|]; [|done]. intros H. unfold iso_offset.
  assert (0 <= Z.abs off / 60 < 24 /\ 0 <= Z.abs off mod 60 < 60) as [Hh Hm] by div_lia.
  pose proof (Z.div_mod (Z.abs off) 60 ltac:(lia)) as Hd.
  set (h := Z.abs off / 60) in *. set (m := Z.abs off mod 60) in *. clearbody h m.
  rewrite <- (app_nil_string (pad_digits 2 m)).
  assert (Hs : read_offset ((if off <? 0 then "-" else "+") +:+ pad_digits 2 h +:+ ":" +:+
                 pad_digits 2 m +:+ "") =
    '(h', s1) ← read_digits 2 0 (pad_digits 2 h +:+ ":" +:+ pad_digits 2 m +:+ "");
    s2 ← read_char ":" s1;
    '(m', s3) ← read_digits 2 0 s2;
    if String.eqb s3 "" && (h' <? 24) && (m' <? 60)
    then Some (Some ((if off <? 0 then -1 else 1) * (60 * h' + m'))) else None)
    by (destruct (off <? 0); reflexivity).
  rewrite Hs. do 3 read_step. cbn [String.eqb].
  replace (0 * 10 ^ 2 + h <? 24) with true by (symmetry; apply Z.ltb_lt; lia).
  replace (0 * 10 ^ 2 + m <? 60) with true by (symmetry; apply Z.ltb_lt; lia).
  cbn [andb]. do 2 f_equal. destruct (Z.ltb_spec off 0); lia.
Qed.

Lemma read_char_offset c tz : (c = "." \/ c = "T")%char -> read_char c (iso_offset tz) = None.
Proof. intros [-> | ->]; destruct tz as [off|]; cbn; try done; by destruct (off <? 0). Qed.

(** [fromisoformat] reads back what [isoformat] writes. *)
Lemma read_iso_isoformat d : valid_dt d -> read_iso (isoformat d) = Some d.
Proof.
  destruct d as [us tz]. intros [Hr Htz]. cbn [dt_us dt_tz] in *.
  unfold isoformat, iso_date, iso_time_seconds, dt_days, dt_tod. cbn [dt_us dt_tz].
  pose proof (date_range (us / us_per_day)) as Hd.
  pose proof (Z.div_mod us us_per_day ltac:(done)) as Hus.
  pose proof (Z.mod_pos_bound us us_per_day ltac:(done)) as Htod.
  unfold MIN_US, MAX_US, us_per_day, us_per_minute, us_per_second in *.
  specialize (Hd ltac:(div_lia)).
  set (tod := us mod (1440 * (60 * 1000000))) in *. set (days := us / (1440 * (60 * 1000000))) in *.
  clearbody tod days.
  destruct (civil_of_days days) as [[y m] dd]. destruct Hd as ([Hy Hy1] & Hm & Hdd & Hm1 & Hd1 & Hdays).
  set (s := tod / 1000000). set (u := tod mod 1000000).
  assert (Hu : 0 <= u < 10 ^ 6) by (unfold u; div_lia).
  assert (Htu : tod = 1000000 * s + u) by (unfold s, u; div_lia).
  assert (Hs : 0 <= s < 86400) by div_lia. clearbody s u.
  assert (Hhh : 0 <= s / 3600 < 24) by div_lia.
  assert (Hmm : 0 <= s / 60 mod 60 < 60) by div_lia.
  assert (Hss : 0 <= s mod 60 < 60) by div_lia.
  assert (Hst : s = 3600 * (s / 3600) + 60 * (s / 60 mod 60) + s mod 60) by div_lia.
  set (hh := s / 3600) in *. set (mm := s / 60 mod 60) in *. set (ss := s mod 60) in *.
  clearbody hh mm ss.
  rewrite !app_assoc_string. unfold read_iso. do 11 read_step.
  assert (Hmic : (match read_char "." (iso_micro u +:+ iso_offset tz) with
     | Some s' => read_digits 6 0 s'
     | None => Some (0, iso_micro u +:+ iso_offset tz)
     end) = Some (u, iso_offset tz)).
  { unfold iso_micro. destruct (Z.eqb_spec u 0) as [->|].
    - change ("" +:+ iso_offset tz) with (iso_offset tz). rewrite read_char_offset; auto.
    - rewrite app_assoc_string, read_char_app, read_pad6 by lia. do 2 f_equal. }
  rewrite Hmic. cbn [mbind option_bind]. rewrite read_offset_iso by done. cbn [mbind option_bind].
  rewrite ?Z.mul_0_l, ?Z.add_0_l.
  assert (Hc : (1 <=? y) && (1 <=? m) && (m <=? 12) && (1 <=? dd) && (dd <=? days_in_month y m)
    && (hh <? 24) && (mm <? 60) && (ss <? 60) = true).
  { rewrite !andb_true_iff, !Z.leb_le, !Z.ltb_lt. lia. }
  rewrite Hc, Hdays. do 2 f_equal. unfold us_per_day, us_per_minute, us_per_second. lia.
Qed.

(** ** Text order *)

Lemma compare_refl_string s : String.compare s s = Eq.
Proof. induction s as [|c s IH]; cbn; [done|]. unfold Ascii.compare. by rewrite N.compare_refl. Qed.

Lemma compare_prefix p s t : String.compare (p +:+ s) (p +:+ t) = String.compare s t.
Proof. rewrite compare_app by done. by rewrite compare_refl_string. Qed.

Lemma compare_pad_app w m n s t : 0 <= m < 10 ^ Z.of_nat w -> 0 <= n < 10 ^ Z.of_nat w ->
  String.compare (pad_digits w m +:+ s) (pad_digits w n +:+ t) =
  match m ?= n with Eq => String.compare s t | c => c end.
Proof. intros. rewrite compare_app by by rewrite !length_pad. by rewrite compare_pad. Qed.

(** The offset, or its absence, comes before the point of the fraction. *)
Lemma compare_offset_point tz s : String.compare (iso_offset tz) (String "." s) = Lt.
Proof. destruct tz as [off|]; [|done]. unfold iso_offset. by destruct (off <? 0). Qed.

Lemma compare_point_offset tz s : String.compare (String "." s) (iso_offset tz) = Gt.
Proof. destruct tz as [off|]; [|done]. unfold iso_offset. by destruct (off <? 0). Qed.

Lemma compare_iso_micro tz u v : 0 <= u < 10 ^ 6 -> 0 <= v < 10 ^ 6 ->
  String.compare (iso_micro u +:+ iso_offset tz) (iso_micro v +:+ iso_offset tz) = (u ?= v).
Proof.
  intros Hu Hv. unfold iso_micro.
  destruct (Z.eqb_spec u 0) as [->|], (Z.eqb_spec v 0) as [->|].
  - apply compare_refl_string.
  - rewrite app_assoc_string. symmetry. etrans; [apply Z.compare_lt_iff; lia|]. symmetry. apply compare_offset_point.
  - rewrite app_assoc_string. symmetry. etrans; [apply Z.compare_gt_iff; lia|]. symmetry. apply compare_point_offset.
  - rewrite !app_assoc_string, compare_prefix, (compare_pad_app 6), compare_refl_string by done. by destruct (u ?= v).
Qed.

Lemma compare_iso_date n n' t t' :
  MIN_US / us_per_day <= n < MAX_US / us_per_day -> MIN_US / us_per_day <= n' < MAX_US / us_per_day ->
  String.compare (iso_date n +:+ t) (iso_date n' +:+ t') =
  match n ?= n' with Eq => String.compare t t' | c => c end.
Proof.
  intros H H'. unfold iso_date. pose proof (date_range n H) as Hr. pose proof (date_range n' H') as Hr'.
  assert (Hc : date_cmp (civil_of_days n) (civil_of_days n') = (n ?= n')).
  { destruct (Z.compare_spec n n') as [->|Hl|Hg].
    - destruct (civil_of_days n') as [[y m] d]. cbn. by rewrite !Z.compare_refl.
    - by apply civil_of_days_lt.
    - apply civil_of_days_lt in Hg. revert Hg.
      destruct (civil_of_days n) as [[y m] d], (civil_of_days n') as [[y' m'] d']. cbn.
      rewrite (Z.compare_antisym y y'), (Z.compare_antisym m m'), (Z.compare_antisym d d').
      destruct (y ?= y'), (m ?= m'), (d ?= d'); cbn; done. }
  destruct (civil_of_days n) as [[y m] d], (civil_of_days n') as [[y' m'] d'].
  destruct Hr as ([Hy _] & Hm & Hd & _), Hr' as ([Hy' _] & Hm' & Hd' & _).
  rewrite !app_assoc_string, (compare_pad_app 4), compare_prefix, (compare_pad_app 2),
    compare_prefix, (compare_pad_app 2) by done.
  rewrite <- Hc. cbn. by destruct (y ?= y'), (m ?= m').
Qed.

Lemma compare_iso_time s s' t t' : 0 <= s < 86400 -> 0 <= s' < 86400 ->
  String.compare
    (pad_digits 2 (s / 3600) +:+ ":" +:+ pad_digits 2 (s / 60 mod 60) +:+ ":" +:+ pad_digits 2 (s mod 60) +:+ t)
    (pad_digits 2 (s' / 3600) +:+ ":" +:+ pad_digits 2 (s' / 60 mod 60) +:+ ":" +:+ pad_digits 2 (s' mod 60) +:+ t') =
  match s ?= s' with Eq => String.compare t t' | c => c end.
Proof.
  intros H H'.
  assert (Hb : forall x, 0 <= x < 86400 -> 0 <= x / 3600 < 10 ^ 2 /\ 0 <= x / 60 mod 60 < 10 ^ 2 /\
    0 <= x mod 60 < 10 ^ 2 /\ 0 <= x / 60 mod 60 < 60 /\ 0 <= x mod 60 < 60) by (intros; div_lia).
  destruct (Hb s H) as (? & ? & ? & ? & ?), (Hb s' H') as (? & ? & ? & ? & ?).
  rewrite (compare_pad_app 2), compare_prefix, (compare_pad_app 2), compare_prefix, (compare_pad_app 2)
    by done.
  rewrite (compare_div_mod 60 s s'), (compare_div_mod 60 (s / 60) (s' / 60)) by lia.
  rewrite !Z.div_div by lia. change (60 * 60) with 3600.
  by destruct (s / 3600 ?= s' / 3600), (s / 60 mod 60 ?= s' / 60 mod 60).
Qed.

(** Values of the same offset, or without one, order as text the way they order in time. *)
Lemma compare_isoformat a b : valid_dt a -> valid_dt b -> dt_tz a = dt_tz b ->
  String.compare (isoformat a) (isoformat b) = (dt_us a ?= dt_us b).
Proof.
  destruct a as [x tz], b as [x' tz']. cbn. intros [Hx _] [Hx' _] <-. cbn in Hx, Hx'.
  unfold isoformat, iso_time_seconds, dt_days, dt_tod. cbn [dt_us dt_tz].
  rewrite !app_assoc_string.
  assert (Hb : forall v, MIN_US <= v < MAX_US -> MIN_US / us_per_day <= v / us_per_day < MAX_US / us_per_day /\
    0 <= (v mod us_per_day) / us_per_second < 86400 /\
    0 <= (v mod us_per_day) mod us_per_second < 10 ^ 6 /\ 0 <= v mod us_per_day < us_per_day).
  { unfold MIN_US, MAX_US, us_per_day, us_per_minute, us_per_second. intros; div_lia. }
  destruct (Hb _ Hx) as (Hd & Hs & Hu & Ht), (Hb _ Hx') as (Hd' & Hs' & Hu' & Ht').
  rewrite compare_iso_date, compare_prefix, compare_iso_time, compare_iso_micro by done.
  rewrite (compare_div_mod us_per_day x x') by done.
  by rewrite (compare_div_mod us_per_second (x mod us_per_day) (x' mod us_per_day)).
Qed.

Lemma text_ltb_isoformat a b : valid_dt a -> valid_dt b -> dt_tz a = dt_tz b ->
  text_ltb (isoformat a) (isoformat b) = (dt_us a <? dt_us b).
Proof. intros. unfold text_ltb, String.ltb. by rewrite compare_isoformat. Qed.

Lemma compare_isoformat_naive a b :
  valid_dt a -> valid_dt b -> dt_tz a = None -> dt_tz b = None ->
  String.compare (isoformat a) (isoformat b) = (dt_us a ?= dt_us b).
Proof. intros ? ? Ha Hb. apply compare_isoformat; [done..|]. by rewrite Ha, Hb. Qed.

Lemma text_ltb_isoformat_naive a b :
  valid_dt a -> valid_dt b -> dt_tz a = None -> dt_tz b = None ->
  text_ltb (isoformat a) (isoformat b) = (dt_us a <? dt_us b).
Proof.
  intros. unfold text_ltb, String.ltb. by rewrite compare_isoformat_naive.
Qed.
