(* ===== verification/DbMarket.v ===== *)
(** * Market data ([storage/database.py]: ticks and one-minute bars)

    Timestamps are stored as the ISO text of the naive KST wall clock and
    ordered, filtered and deleted as text.  A REAL column that receives a NaN
    gets SQL NULL, which these NOT NULL columns refuse. *)

From S2P Require Import Prelude PyStr PyFloat PyTime DbCore IsoText.

(** ** Writing *)

Definition not_null : exn := IntegrityError "NOT NULL constraint failed".

Definition save_bar (bar : MinuteBar) (d : db) : res db :=
  let start := canonical_market_time (mb_start bar) in
  _ ← raise_if (is_nan (mb_open bar) || is_nan (mb_high bar) || is_nan (mb_low bar)
        || is_nan (mb_close bar)) not_null;
  Ok (set_bars (<[(mb_symbol bar, iso start) :=
        mkBarRow (mb_open bar) (mb_high bar) (mb_low bar) (mb_close bar) (mb_volume bar)]>) d).

(** A new row's rowid is one more than the largest of the table. *)
Definition next_rowid (l : list tick_row) : Z := 1 + foldr (fun r => Z.max (tr_rowid r)) 0 l.

Definition save_tick (tick : MarketTick) (received_at : option datetime) (clock : datetime) (d : db)
    : res db :=
  let received := or_else received_at clock in
  let timestamp := canonical_market_time (tk_timestamp tick) in
  _ ← raise_if (is_nan (tk_price tick)) not_null;
  Ok (set_ticks (fun l => l ++ [mkTickRow (next_rowid l) (tk_symbol tick) (iso timestamp)
        (tk_price tick) (tk_volume tick) (iso received)]) d).

Definition delete_old_ticks (cutoff : datetime) (d : db) : Z * db :=
  let old r := text_ltb (tr_timestamp r) (iso (canonical_market_time cutoff)) in
  (Z.of_nat (length (List.filter old (t_ticks d))),
   set_ticks (List.filter (fun r => negb (old r))) d).

Definition delete_old_bars (cutoff : datetime) (d : db) : Z * db :=
  let cut := iso (canonical_market_time cutoff) in
  (Z.of_nat (size (filter (fun kv => text_ltb kv.1.2 cut = true) (t_bars d))),
   set_bars (filter (fun kv => text_ltb kv.1.2 cut = false)) d).

(** ** Reading *)

Definition symbol_bars (symbol : string) (d : db) : list (string * bar_row) :=
  omap (fun kv => if String.eqb kv.1.1 symbol then Some (kv.1.2, kv.2) else None)
    (map_to_list (t_bars d)).

Definition start_asc (x y : string * bar_row) : bool := text_leb x.1 y.1.
Definition start_desc (x y : string * bar_row) : bool := text_leb y.1 x.1.

Definition read_bar (symbol : string) (r : string * bar_row) : res MinuteBar :=
  start ← fromisoformat r.1;
  Ok (mkBar symbol start (br_open r.2) (br_high r.2) (br_low r.2) (br_close r.2) (br_volume r.2)).

Fixpoint map_res {A B} (f : A -> res B) (l : list A) : res (list B) :=
  match l with
  | [] => Ok []
  | x :: l' => y ← f x; ys ← map_res f l'; Ok (y :: ys)
  end.

Definition load_bars (symbol : string) (limit : option Z) (d : db) : res (list MinuteBar) :=
  match limit with
  | None => map_res (read_bar symbol) (sort_by start_asc (symbol_bars symbol d))
  | Some n =>
      _ ← raise_if (n <=? 0) (ValueError "limit must be a positive integer");
      map_res (read_bar symbol)
        (sort_by start_asc (take (Z.to_nat n) (sort_by start_desc (symbol_bars symbol d))))
  end.

Definition load_recent_bars (symbol : string) (limit : Z) (d : db) : res (list MinuteBar) :=
  load_bars symbol (Some limit) d.

Definition latest_bar (symbol : string) (d : db) : res (option MinuteBar) :=
  match sort_by start_desc (symbol_bars symbol d) with
  | [] => Ok None
  | r :: _ => b ← read_bar symbol r; Ok (Some b)
  end.

Definition symbol_ticks (symbol : string) (d : db) : list tick_row :=
  List.filter (fun r => String.eqb (tr_symbol r) symbol) (t_ticks d).

(** [ORDER BY timestamp, rowid], and the reverse. *)
Definition tick_asc (x y : tick_row) : bool :=
  text_ltb (tr_timestamp x) (tr_timestamp y) ||
  (String.eqb (tr_timestamp x) (tr_timestamp y) && (tr_rowid x <=? tr_rowid y)).
Definition tick_desc (x y : tick_row) : bool := tick_asc y x.

Definition read_tick (r : tick_row) : res MarketTick :=
  timestamp ← fromisoformat (tr_timestamp r);
  Ok (mkTick (tr_symbol r) timestamp (tr_price r) (tr_volume r)).

Definition load_ticks (symbol : string) (d : db) : res (list MarketTick) :=
  map_res read_tick (sort_by tick_asc (symbol_ticks symbol d)).

Definition latest_tick (symbol : string) (d : db) : res (option MarketTick) :=
  match sort_by tick_desc (symbol_ticks symbol d) with
  | [] => Ok None
  | r :: _ => t ← read_tick r; Ok (Some t)
  end.

(** ** What the tables hold *)

(** Stored timestamps are ISO text of naive values; rows are in rowid order. *)
Definition stored_time (s : string) : Prop :=
  exists t, valid_dt t /\ dt_tz t = None /\ s = iso t.

Record market_ok (d : db) : Prop := mkMarketOk {
  mo_ticks : Forall (fun r => stored_time (tr_timestamp r)) (t_ticks d);
  mo_rowids : StronglySorted Z.lt (map tr_rowid (t_ticks d));
  mo_bars : forall sym s r, t_bars d !! (sym, s) = Some r -> stored_time s;
}.

(** The instant a canonical value stands for: its wall clock, in KST. *)
Definition canonical_tick (t : MarketTick) : MarketTick :=
  mkTick (tk_symbol t) (canonical_market_time (tk_timestamp t)) (tk_price t) (tk_volume t).

Definition canonical_bar (b : MinuteBar) : MinuteBar :=
  mkBar (mb_symbol b) (canonical_market_time (mb_start b)) (mb_open b) (mb_high b) (mb_low b)
    (mb_close b) (mb_volume b).

(** ** Lemmas *)

Lemma canonical_naive v : dt_tz (canonical_market_time v) = None.
Proof. unfold canonical_market_time. by destruct (dt_tz v) eqn:E. Qed.

Lemma canonical_us_aware v off : dt_tz v = Some off ->
  dt_us (canonical_market_time v) = instant v + KST * us_per_minute.
Proof. unfold canonical_market_time. by intros ->. Qed.

Lemma stored_iso v : valid_dt (canonical_market_time v) -> stored_time (iso (canonical_market_time v)).
Proof. intros H. eexists. eauto using canonical_naive. Qed.

Lemma fromisoformat_iso t : valid_dt t -> fromisoformat (iso t) = Ok t.
Proof. intros H. unfold fromisoformat, iso. by rewrite read_iso_isoformat. Qed.

Lemma text_leb_total a b : text_leb a b = false -> text_leb b a = true.
Proof.
  unfold text_leb, String.leb. rewrite (String.compare_antisym b a).
  by destruct (String.compare a b).
Qed.

Lemma string_compare_trans a b c :
  String.compare a b = Lt -> String.compare b c = Lt -> String.compare a c = Lt.
Proof.
  revert b c. induction a as [|x a IH]; intros [|y b] [|z c]; cbn; try done.
  unfold Ascii.compare.
  destruct (N.compare_spec (Ascii.N_of_ascii x) (Ascii.N_of_ascii y)) as [E|L|]; try done;
    destruct (N.compare_spec (Ascii.N_of_ascii y) (Ascii.N_of_ascii z)) as [E'|L'|]; try done.
  - rewrite E, E', N.compare_refl. apply IH.
  - intros _ _. rewrite E. by rewrite (proj2 (N.compare_lt_iff _ _) L').
  - intros _ _. rewrite <- E'. by rewrite (proj2 (N.compare_lt_iff _ _) L).
  - intros _ _. by rewrite (proj2 (N.compare_lt_iff _ _) (N.lt_trans _ _ _ L L')).
Qed.

Lemma text_leb_trans a b c : text_leb a b = true -> text_leb b c = true -> text_leb a c = true.
Proof.
  unfold text_leb, String.leb.
  destruct (String.compare a b) eqn:E1; [apply String.compare_eq_iff in E1 as ->; done| |done].
  destruct (String.compare b c) eqn:E2; [apply String.compare_eq_iff in E2 as <-; by rewrite E1| |done].
  intros _ _. by rewrite (string_compare_trans _ _ _ E1 E2).
Qed.

Lemma text_leb_antisym a b : text_leb a b = true -> text_leb b a = true -> a = b.
Proof.
  unfold text_leb, String.leb. rewrite (String.compare_antisym b a).
  destruct (String.compare a b) eqn:E; [by apply String.compare_eq_iff in E|done..].
Qed.

Lemma text_leb_iso a b : valid_dt a -> valid_dt b -> dt_tz a = None -> dt_tz b = None ->
  text_leb (iso a) (iso b) = (dt_us a <=? dt_us b).
Proof. intros. unfold text_leb, String.leb, iso. by rewrite compare_isoformat_naive. Qed.

(** *** Loading a list of rows *)

Lemma map_res_length {A B} (f : A -> res B) l ys : map_res f l = Ok ys -> length ys = length l.
Proof.
  revert ys. induction l as [|x l IH]; intros ys H; cbn in H; [by injection H as <-|].
  apply bind_Ok in H as (y & _ & H). apply bind_Ok in H as (ys' & H & E). injection E as <-.
  cbn. by rewrite (IH _ H).
Qed.

Lemma map_res_drop {A B} (f : A -> res B) k l ys :
  map_res f l = Ok ys -> map_res f (drop k l) = Ok (drop k ys).
Proof.
  revert k ys. induction l as [|x l IH]; intros k ys H; cbn in H.
  - injection H as <-. by destruct k.
  - assert (H0 := H). apply bind_Ok in H as (y & Hy & H). apply bind_Ok in H as (ys' & H & E).
    injection E as <-. destruct k as [|k]; [exact H0|]. cbn. by apply IH.
Qed.

Lemma map_res_total {A B} (f : A -> res B) (P : A -> B -> Prop) l :
  (forall x, x ∈ l -> exists y, f x = Ok y /\ P x y) ->
  exists ys, map_res f l = Ok ys /\ Forall2 P l ys.
Proof.
  induction l as [|x l IH]; intros H; cbn; [eauto|].
  destruct (H x) as (y & -> & Hy); [apply list_elem_of_here|].
  destruct IH as (ys & -> & Hys); [intros; apply H; by apply list_elem_of_further|].
  cbn. eauto.
Qed.

Lemma elem_of_symbol_bars s d k r :
  (k, r) ∈ symbol_bars s d <-> t_bars d !! (s, k) = Some r.
Proof.
  unfold symbol_bars. rewrite list_elem_of_omap. split.
  - intros ([[s' k'] r'] & Hin & H). cbn in H. destruct (String.eqb_spec s' s) as [->|]; [|done].
    injection H as <- <-. by apply elem_of_map_to_list in Hin.
  - intros H. exists ((s, k), r). split; [by apply elem_of_map_to_list|]. cbn. by rewrite String.eqb_refl.
Qed.

Lemma start_asc_total a b : start_asc a b = false -> start_asc b a = true.
Proof. apply text_leb_total. Qed.
Lemma start_asc_trans a b c : start_asc a b = true -> start_asc b c = true -> start_asc a c = true.
Proof. apply text_leb_trans. Qed.

Lemma start_asc_antisym s d a b :
  a ∈ symbol_bars s d -> b ∈ symbol_bars s d -> start_asc a b = true -> start_asc b a = true -> a = b.
Proof.
  destruct a as [k r], b as [k' r']. intros Ha%elem_of_symbol_bars Hb%elem_of_symbol_bars H1 H2.
  assert (k = k') as <- by (by apply text_leb_antisym).
  rewrite Ha in Hb. injection Hb as ->. done.
Qed.

(** The limited query is the tail of the unlimited one. *)
Lemma limited_rows s d n :
  sort_by start_asc (take n (sort_by start_desc (symbol_bars s d))) =
  drop (length (symbol_bars s d) - n) (sort_by start_asc (symbol_bars s d)).
Proof.
  set (L := symbol_bars s d).
  assert (Hasc : StronglySorted (fun a b => start_asc a b = true) (sort_by start_asc L))
    by (apply sort_by_sorted; [apply start_asc_total|apply start_asc_trans]).
  assert (Hdesc : StronglySorted (fun a b => start_asc b a = true) (sort_by start_desc L)).
  { apply (sort_by_sorted start_desc); unfold start_desc; intros ? ?.
    - apply start_asc_total.
    - intros c H1 H2. by eapply start_asc_trans. }
  assert (Hrev : sort_by start_asc L = rev (sort_by start_desc L)).
  { apply (sorted_unique (fun a b => start_asc a b = true)).
    - intros x y Hx Hy. rewrite elem_of_sort_by in Hx, Hy. by eapply start_asc_antisym.
    - done.
    - apply sorted_rev in Hdesc. exact Hdesc.
    - rewrite <- Permutation_rev, !sort_by_perm. done. }
  assert (Hlen : length (sort_by start_desc L) = length L) by (by rewrite sort_by_perm).
  rewrite Hrev, <- Hlen, List.skipn_rev.
  replace (length (sort_by start_desc L) - (length (sort_by start_desc L) - n))%nat
    with (Nat.min n (length (sort_by start_desc L))) by lia.
  replace (take (Nat.min n (length (sort_by start_desc L))) (sort_by start_desc L))
    with (take n (sort_by start_desc L))
    by (destruct (decide (n <= length (sort_by start_desc L))%nat);
        [f_equal; lia|rewrite !take_ge by lia; done]).
  assert (Hs : StronglySorted (fun a b => start_asc b a = true) (take n (sort_by start_desc L))).
  { rewrite <- (take_drop n (sort_by start_desc L)) in Hdesc. by apply sorted_app in Hdesc as (? & _). }
  apply (sorted_unique (fun a b => start_asc a b = true)).
  - intros x y Hx Hy. rewrite elem_of_sort_by in Hx, Hy.
    assert (Hsub : forall z, z ∈ take n (sort_by start_desc L) -> z ∈ L).
    { intros z Hz. apply (elem_of_sort_by start_desc). rewrite <- (take_drop n (sort_by start_desc L)).
      apply elem_of_app. by left. }
    by eapply start_asc_antisym; apply Hsub.
  - apply sort_by_sorted; [apply start_asc_total|apply start_asc_trans].
  - apply sorted_rev in Hs. exact Hs.
  - by rewrite sort_by_perm, <- Permutation_rev.
Qed.

Lemma symbol_bars_readable d s : market_ok d ->
  exists l, load_bars s None d = Ok l /\
    Forall2 (fun r b => exists t, valid_dt t /\ dt_tz t = None /\ r.1 = iso t /\ mb_start b = t)
      (sort_by start_asc (symbol_bars s d)) l.
Proof.
  intros [_ _ Hb]. unfold load_bars. apply map_res_total. intros [k r] Hin.
  apply elem_of_sort_by, elem_of_symbol_bars in Hin. destruct (Hb _ _ _ Hin) as (t & Hv & Hn & ->).
  unfold read_bar. cbn. rewrite fromisoformat_iso by done. cbn. eauto 10.
Qed.

Lemma loaded_bars_sorted s d l :
  Forall2 (fun r b => exists t, valid_dt t /\ dt_tz t = None /\ r.1 = iso t /\ mb_start b = t)
      (sort_by start_asc (symbol_bars s d)) l ->
  StronglySorted (fun x y => dt_us (mb_start x) <= dt_us (mb_start y)) l.
Proof.
  assert (Hasc : StronglySorted (fun a b => start_asc a b = true) (sort_by start_asc (symbol_bars s d)))
    by (apply sort_by_sorted; [apply start_asc_total|apply start_asc_trans]).
  revert Hasc. generalize (sort_by start_asc (symbol_bars s d)). intros L Hs H. revert Hs.
  induction H as [|r b L l (t & Hv & Hn & Hr & <-) HF IH]; intros Hs; [constructor|].
  inversion_clear Hs as [|? ? Hs' Hf]. constructor; [auto|].
  clear IH Hs'. induction HF as [|r' b' L l (t' & Hv' & Hn' & Hr' & <-) HF IH]; [constructor|].
  inversion_clear Hf as [|? ? Hf1 Hf2]. constructor; [|auto].
  unfold start_asc in Hf1. rewrite Hr, Hr', text_leb_iso in Hf1 by done. by apply Z.leb_le in Hf1.
Qed.

Lemma save_bar_ok b d d' :
  valid_dt (canonical_market_time (mb_start b)) -> market_ok d -> save_bar b d = Ok d' -> market_ok d'.
Proof.
  intros Hv [H1 H2 H3] H. unfold save_bar in H. cbv zeta in H. apply bind_Ok in H as ([] & _ & H).
  injection H as <-. split; cbn; [done..|]. intros sym s r Hl.
  apply lookup_insert_Some in Hl as [[[= <- <-] _]|[_ Hl]]; [by apply stored_iso|eauto].
Qed.

Lemma next_rowid_above l : Forall (fun r => tr_rowid r < next_rowid l) l.
Proof.
  unfold next_rowid. induction l as [|r l IH]; [constructor|]. constructor; cbn; [lia|].
  eapply List.Forall_impl; [|exact IH]. cbn. intros. lia.
Qed.

Lemma save_tick_ok t rcv clock d d' :
  valid_dt (canonical_market_time (tk_timestamp t)) -> market_ok d -> save_tick t rcv clock d = Ok d' ->
  market_ok d'.
Proof.
  intros Hv [H1 H2 H3] H. unfold save_tick in H. cbv zeta in H. apply bind_Ok in H as ([] & _ & H).
  injection H as <-. split; cbn; [| |done].
  - apply List.Forall_app. split; [done|]. constructor; [|constructor]. by apply stored_iso.
  - rewrite map_app. apply sorted_app. split_and!; [done|repeat constructor|].
    intros x y Hx [<-|[]]. apply in_map_iff in Hx as (r & <- & Hr). cbn.
    pose proof (next_rowid_above (t_ticks d)) as Ha. rewrite List.Forall_forall in Ha. auto.
Qed.

(** ** Properties *)

(** Fact: a bar that was saved is read back, in the KST wall clock; the bars of a
    symbol come in chronological order, and asking for the last [n] of them
    gives the last [n] of the full list. *)
Theorem load_bars_roundtrip b d d' :
  market_ok d -> valid_dt (canonical_market_time (mb_start b)) -> save_bar b d = Ok d' ->
  exists l, load_bars (mb_symbol b) None d' = Ok l /\ canonical_bar b ∈ l /\
    StronglySorted (fun x y => dt_us (mb_start x) <= dt_us (mb_start y)) l /\
    forall n, 0 < n -> load_bars (mb_symbol b) (Some n) d' = Ok (drop (length l - Z.to_nat n) l).
Proof.
  intros Hok Hv Hs. pose proof (save_bar_ok _ _ _ Hv Hok Hs) as Hok'.
  destruct (symbol_bars_readable d' (mb_symbol b) Hok') as (l & Hl & HF).
  exists l. split_and!; [done| |by eapply loaded_bars_sorted|].
  - unfold save_bar in Hs. cbv zeta in Hs. apply bind_Ok in Hs as ([] & _ & Hs). injection Hs as Hd'.
    set (row := mkBarRow (mb_open b) (mb_high b) (mb_low b) (mb_close b) (mb_volume b)) in *.
    assert (Hin : (iso (canonical_market_time (mb_start b)), row)
        ∈ sort_by start_asc (symbol_bars (mb_symbol b) d')).
    { apply elem_of_sort_by, elem_of_symbol_bars. rewrite <- Hd'. cbn. by rewrite lookup_insert_eq. }
    unfold load_bars in Hl. revert Hl Hin. clear -Hv.
    generalize (sort_by start_asc (symbol_bars (mb_symbol b) d')). intros L. revert l.
    induction L as [|x L IH]; intros l Hl Hin; [by inversion Hin|]. cbn in Hl.
    apply bind_Ok in Hl as (y & Hy & Hl). apply bind_Ok in Hl as (ys & Hys & E). injection E as <-.
    apply elem_of_cons in Hin as [<-|Hin].
    + unfold read_bar in Hy. cbn [fst snd] in Hy. rewrite fromisoformat_iso in Hy by done.
      injection Hy as <-. apply list_elem_of_here.
    + apply list_elem_of_further. by apply IH.
  - intros n Hn. unfold load_bars in *.
    replace (n <=? 0) with false by (symmetry; apply Z.leb_gt; lia). cbn [raise_if mbind res_bind].
    rewrite limited_rows, (map_res_length _ _ _ Hl), sort_by_length. by apply map_res_drop.
Qed.

(** Fact: [delete_old_ticks] compares text, and removes exactly the ticks that are
    chronologically before the cutoff, whatever UTC offset the cutoff is given
    in; it returns how many it removed and leaves the rest alone. *)
Theorem delete_old_ticks_exact cutoff off d n d' r t :
  market_ok d -> dt_tz cutoff = Some off -> valid_dt (canonical_market_time cutoff) ->
  delete_old_ticks cutoff d = (n, d') ->
  r ∈ t_ticks d -> tr_timestamp r = iso t -> valid_dt t -> dt_tz t = None ->
  (r ∈ t_ticks d' <-> instant cutoff <= instant (with_tz t (Some KST))) /\
  n + Z.of_nat (length (t_ticks d')) = Z.of_nat (length (t_ticks d)).
Proof.
  intros _ Htz Hv H Hr Hts Hvt Hnt. unfold delete_old_ticks in H. injection H as <- <-. cbn. split.
  - rewrite list_elem_of_In, filter_In, <- list_elem_of_In, negb_true_iff, Hts. unfold iso.
    rewrite text_ltb_isoformat_naive by (try done; apply canonical_naive).
    rewrite (canonical_us_aware _ _ Htz), Z.ltb_ge.
    change (instant (with_tz t (Some KST))) with (dt_us t - KST * us_per_minute).
    split; [intros [_ ?]; lia|intros; split; [done|lia]].
  - clear. induction (t_ticks d) as [|x l IH]; cbn; [done|]. destruct (text_ltb _ _); cbn; lia.
Qed.

(** ** Witnesses *)

Definition w_utc (s : Z) : datetime := Datetime (1700000000000000 + s * us_per_second) (Some UTC).
Definition w_bar (s : Z) : MinuteBar :=
  mkBar "005930" (w_utc s) (f_of_Z 70000) (f_of_Z 70100) (f_of_Z 69900) (f_of_Z 70050) 12.
Definition w_db_of (r : res db) : db := match r with Ok d => d | Err _ => empty_db end.
Definition w_one_bar : db := w_db_of (save_bar (w_bar 40) empty_db).
Definition w_two_bars : db := w_db_of (save_bar (w_bar 100) w_one_bar).

Lemma empty_market_ok : market_ok empty_db.
Proof. split; cbn; [constructor..|]. intros ? ? ? H. by rewrite lookup_empty in H. Qed.

Lemma w_valid s : 0 <= s < 1000 -> valid_dt (canonical_market_time (w_utc s)).
Proof.
  intros H. split; [|done]. rewrite (canonical_us_aware _ UTC) by done.
  unfold instant, w_utc, MIN_US, MAX_US, us_per_minute, us_per_second, KST, UTC.
  cbn [dt_us dt_tz]. lia.
Qed.

Lemma w_one_bar_ok : market_ok w_one_bar.
Proof.
  apply (save_bar_ok (w_bar 40) empty_db); [by apply w_valid|apply empty_market_ok|].
  vm_compute. reflexivity.
Qed.

Lemma load_bars_roundtrip_witness :
  exists l, load_bars "005930" (Some 1) w_two_bars = Ok (drop (length l - 1) l) /\
    canonical_bar (w_bar 100) ∈ l.
Proof.
  destruct (load_bars_roundtrip (w_bar 100) w_one_bar w_two_bars) as (l & _ & Hin & _ & Hn).
  - apply w_one_bar_ok.
  - by apply w_valid.
  - vm_compute. reflexivity.
  - exists l. split; [by apply (Hn 1)|done].
Defined.

Definition w_tick (s : Z) : MarketTick := mkTick "005930" (w_utc s) (f_of_Z 70000) 5.
Definition w_one_tick : db := w_db_of (save_tick (w_tick 40) None (w_utc 41) empty_db).
Definition w_two_ticks : db := w_db_of (save_tick (w_tick 100) None (w_utc 101) w_one_tick).
Lemma w_two_ticks_ok : market_ok w_two_ticks.
Proof.
  apply (save_tick_ok (w_tick 100) None (w_utc 101) w_one_tick); [by apply w_valid| |vm_compute; reflexivity].
  apply (save_tick_ok (w_tick 40) None (w_utc 41) empty_db); [by apply w_valid|apply empty_market_ok|].
  vm_compute. reflexivity.
Qed.

(** A cutoff in New York time (UTC-5). *)
Definition w_cutoff : datetime := astimezone (w_utc 60) (-300).

Definition w_old_row : tick_row :=
  mkTickRow 1 "005930" (iso (canonical_market_time (w_utc 40))) (f_of_Z 70000) 5 (iso (w_utc 41)).

Lemma w_old_row_in : w_old_row ∈ t_ticks w_two_ticks.
Proof.
  assert (H : t_ticks w_two_ticks !! 0%nat = Some w_old_row) by (vm_compute; reflexivity).
  by eapply list_elem_of_lookup_2.
Qed.

Lemma w_cutoff_valid : valid_dt (canonical_market_time w_cutoff).
Proof. split; [vm_compute; split; congruence|exact I]. Qed.

Lemma delete_old_ticks_exact_witness :
  let d' := (delete_old_ticks w_cutoff w_two_ticks).2 in
  (w_old_row ∈ t_ticks d' <->
    instant w_cutoff <= instant (with_tz (canonical_market_time (w_utc 40)) (Some KST))) /\
  (delete_old_ticks w_cutoff w_two_ticks).1 + Z.of_nat (length (t_ticks d')) =
    Z.of_nat (length (t_ticks w_two_ticks)).
Proof.
  exact (delete_old_ticks_exact w_cutoff (-300) w_two_ticks _ _ w_old_row (canonical_market_time (w_utc 40))
    w_two_ticks_ok eq_refl w_cutoff_valid (surjective_pairing _) w_old_row_in eq_refl
    (w_valid 40 (conj (proj1 (Z.leb_le 0 40) eq_refl) (proj1 (Z.ltb_lt 40 1000) eq_refl))) eq_refl).
Defined.
