(* ===== verification/Indicators.v ===== *)
(** * Indicators, features and candidates

    The moving averages, the volume ratio and the volume-weighted price
    ([indicators/]), the feature snapshot of a run of completed bars
    ([market/features.py]) and the deterministic watch-list candidates
    ([strategies/candidate.py]).  Prices are floats, volumes are integers. *)

From S2P Require Import Prelude PyStr PyFloat PyTime DbCore.

(** ** Moving averages *)

(** [_validate] *)
Definition validate_series (values : list float) (period : Z) : res unit :=
  _ ← raise_if (period <=? 0) (ValueError "period must be positive");
  raise_if (existsb (fun v => negb (v =? v)%F) values) (ValueError "values must not contain NaN").

(** [values[-period:]] of a positive period *)
Definition last_n {A} (period : Z) (values : list A) : list A := drop (length values - Z.to_nat period)%nat values.

Section Averages.
(** [sum] of floats, whose rounding differs between the Python versions the
    package allows. *)
Variable float_sum : list float -> float.

Definition sma (values : list float) (period : Z) : res (option float) :=
  _ ← validate_series values period;
  if len values <? period then Ok None
  else x ← fdiv (float_sum (last_n period values)) (f_of_Z period); Ok (Some x).

(** [values[:index + 1]] for each index *)
Definition prefixes {A} (values : list A) : list (list A) := map (fun i => take (S i) values) (seq 0 (length values)).

Definition sma_series (values : list float) (period : Z) : res (list (option float)) :=
  _ ← validate_series values period;
  foldr (fun l acc => x ← sma l period; xs ← acc; Ok (x :: xs)) (Ok []) (prefixes values).

(** The loop of [ema_series] *)
Fixpoint ema_from (multiplier current : float) (values : list float) : list (option float) :=
  match values with
  | [] => []
  | v :: rest => let current := ((v - current) * multiplier + current)%F in Some current :: ema_from multiplier current rest
  end.

Definition ema_series (values : list float) (period : Z) : res (list (option float)) :=
  _ ← validate_series values period;
  if len values <? period then Ok (repeat None (length values))
  else
    let p := Z.to_nat period in
    current ← fdiv (float_sum (take p values)) (f_of_Z period);
    multiplier ← fdiv (f_of_Z 2) (f_of_Z (period + 1));
    Ok (repeat None (p - 1) ++ Some current :: ema_from multiplier current (drop p values)).

Definition ema (values : list float) (period : Z) : res (option float) :=
  series ← ema_series values period; Ok (List.last series None).

(** ** Volume *)

Definition sum_Z (l : list Z) : Z := fold_left Z.add l 0.

(** A quotient of integers. *)
Definition int_div (n d : Z) : res float :=
  match d with
  | Zpos p => let x := f_ratio n p in if isfinite x then Ok x else Err OverflowError
  | Z0 => Err ZeroDivisionError
  | Zneg p => let x := f_ratio (- n) p in if isfinite x then Ok x else Err OverflowError
  end.

Definition volume_average (volumes : list Z) (period : Z) : res (option float) :=
  _ ← raise_if (period <=? 0) (ValueError "period must be positive");
  if len volumes <? period then Ok None
  else x ← int_div (sum_Z (last_n period volumes)) period; Ok (Some x).

Definition volume_ratio (volumes : list Z) (period : Z) : res (option float) :=
  match volumes with
  | [] => Ok None
  | _ =>
      average ← volume_average (removelast volumes) period;
      average ← (match average with Some a => Ok (Some a) | None => volume_average volumes period end);
      match average with
      | None => Ok None
      | Some a =>
          if (a <=? fzero)%F then Ok None
          else v ← float_of_int (List.last volumes 0); x ← fdiv v a; Ok (Some x)
      end
  end.

(** ** Volume-weighted price *)

(** [price * volume for price, volume in zip(prices, volumes)] *)
Fixpoint weighted (prices : list float) (volumes : list Z) : res (list float) :=
  match prices, volumes with
  | p :: ps, v :: vs => x ← float_of_int v; rest ← weighted ps vs; Ok ((p * x)%F :: rest)
  | _, _ => Ok []
  end.

Definition vwap (prices : list float) (volumes : list Z) : res (option float) :=
  _ ← raise_if (negb (len prices =? len volumes)) (ValueError "prices and volumes must have equal length");
  match prices with
  | [] => Ok None
  | _ =>
      let total_volume := sum_Z volumes in
      if total_volume <=? 0 then Ok None
      else
        terms ← weighted prices volumes;
        total ← float_of_int total_volume;
        x ← fdiv (float_sum terms) total;
        Ok (Some x)
  end.

Definition ohlc4 (bar : MinuteBar) : float :=
  fquot (mb_open bar + mb_high bar + mb_low bar + mb_close bar)%F (f_of_Z 4).

Definition vwap_bars (bars : list MinuteBar) : res (option float) := vwap (map ohlc4 bars) (map mb_volume bars).

(** ** [market/features.py] *)

Record BarFeatureSnapshot := mkFeatures {
  bf_symbol : string;
  latest_close : float;
  ema5 : option float;
  ema10 : option float;
  ema20 : option float;
  ma60 : option float;
  bf_vwap : option float;
  bf_volume_ratio : option float;
  high_n : option float;
  low_n : option float;
  distance_from_high_pct : option float;
  ema20_slope_pct : option float;
}.

(** [max(l)] and [min(l)] of a non-empty list *)
Definition max_of (x : float) (l : list float) : float := fold_left fmax l x.
Definition min_of (x : float) (l : list float) : float := fold_left fmin l x.

(** [(a - b) / b * 100] when [b] is not zero *)
Definition change_pct (a b : float) : option float :=
  if (b =? fzero)%F then None else Some (fquot (a - b) b * f_of_Z 100)%F.

(** [bars[-lookback - 1:-1]] *)
Definition lookback_window (bars : list MinuteBar) (lookback : Z) : list MinuteBar :=
  removelast (last_n (lookback + 1) bars).

(** [bars[...] if len(bars) > 1 else bars], and [bars] when that is empty *)
Definition recent_bars (bars : list MinuteBar) (lookback : Z) : list MinuteBar :=
  match (if 1 <? len bars then lookback_window bars lookback else bars) with [] => bars | l => l end.

(** The slope of the last two values of the series *)
Definition series_slope (series : list (option float)) : option float :=
  match rev series with
  | Some x :: Some previous :: _ => change_pct x previous
  | _ => None
  end.

Definition build_feature_snapshot (bars : list MinuteBar) (lookback : Z) : res (option BarFeatureSnapshot) :=
  match bars with
  | [] => Ok None
  | first :: _ =>
      _ ← raise_if (lookback <=? 0) (ValueError "lookback must be positive");
      let latest := List.last bars first in
      let closes := map mb_close bars in
      let volumes := map mb_volume bars in
      let recent := recent_bars bars lookback in
      let high := max_of (mb_high (hd first recent)) (map mb_high (tail recent)) in
      let low := min_of (mb_low (hd first recent)) (map mb_low (tail recent)) in
      let distance := change_pct (mb_close latest) high in
      ema20_values ← ema_series closes 20;
      e5 ← ema closes 5;
      e10 ← ema closes 10;
      m60 ← sma closes 60;
      v ← vwap_bars bars;
      vr ← volume_ratio volumes (Z.min 20 (Z.max 1 (len volumes - 1)));
      Ok (Some (mkFeatures (mb_symbol latest) (mb_close latest) e5 e10 (List.last ema20_values None) m60 v vr
        (Some high) (Some low) distance (series_slope ema20_values)))
  end.
End Averages.

(** ** [strategies/candidate.py] *)

Record CandidateSignal := mkCandidate {
  cs_symbol : string;
  cs_strategy : string;
  cs_score : float;
  cs_reason : string;
  cs_features : BarFeatureSnapshot;
}.

Record CandidateThresholds := mkThresholds {
  pullback_distance_min : float;
  pullback_distance_max : float;
  pullback_volume_ratio : float;
  momentum_distance_min : float;
  momentum_volume_ratio : float;
  breakout_volume_ratio : float;
}.

Definition conservative : CandidateThresholds :=
  mkThresholds (f_of_Z (-1)) (f_ratio (-4) 10) (f_ratio 13 10) (f_ratio (-2) 10) (f_ratio 9 10) (f_ratio 15 10).
Definition normal : CandidateThresholds :=
  mkThresholds (f_ratio (-15) 10) (f_ratio (-3) 10) f_one (f_ratio (-3) 10) (f_ratio 6 10) (f_ratio 12 10).
Definition aggressive : CandidateThresholds :=
  mkThresholds (f_of_Z (-3)) (f_ratio (-1) 10) (f_ratio 5 10) (f_ratio (-9) 10) (f_ratio 35 100) (f_ratio 7 10).

(** [CANDIDATE_PROFILES] *)
Definition candidate_profile (profile : string) : option CandidateThresholds :=
  if String.eqb profile "conservative" then Some conservative
  else if String.eqb profile "normal" then Some normal
  else if String.eqb profile "aggressive" then Some aggressive
  else None.

(** [x is not None and p x] *)
Definition some_and (x : option float) (p : float -> bool) : bool := match x with Some v => p v | None => false end.

Definition above_vwap (s : BarFeatureSnapshot) : bool := some_and (bf_vwap s) (fun v => v <? latest_close s)%F.
Definition rising_ema20 (s : BarFeatureSnapshot) : bool :=
  match ema20 s with Some _ => some_and (ema20_slope_pct s) (fun x => fzero <? x)%F | None => false end.
Definition volume_at_least (s : BarFeatureSnapshot) (t : float) : bool := some_and (bf_volume_ratio s) (fun v => t <=? v)%F.

Definition long_trend_confirmed (s : BarFeatureSnapshot) : bool :=
  rising_ema20 s && some_and (ema5 s) (fun e5 => (e5 <? latest_close s)%F && some_and (ema20 s) (fun e20 => (e20 <? e5)%F)).
Definition short_trend_confirmed (s : BarFeatureSnapshot) : bool :=
  match ema20 s with
  | Some _ => false
  | None => some_and (ema5 s) (fun e5 => (e5 * f_ratio 999 1000 <=? latest_close s)%F)
  end.

Definition pullback (t : CandidateThresholds) (s : BarFeatureSnapshot) : bool :=
  rising_ema20 s && above_vwap s
  && some_and (distance_from_high_pct s) (fun d => (pullback_distance_min t <=? d)%F && (d <=? pullback_distance_max t)%F)
  && volume_at_least s (pullback_volume_ratio t).

Definition momentum (t : CandidateThresholds) (s : BarFeatureSnapshot) : bool :=
  some_and (high_n s) (fun h => (latest_close s <? h)%F)
  && some_and (distance_from_high_pct s) (fun d => (momentum_distance_min t <? d)%F && (d <=? fzero)%F)
  && (long_trend_confirmed s || short_trend_confirmed s)
  && above_vwap s && volume_at_least s (momentum_volume_ratio t).

Definition breakout (t : CandidateThresholds) (s : BarFeatureSnapshot) : bool :=
  some_and (high_n s) (fun h => (h <=? latest_close s)%F)
  && above_vwap s && volume_at_least s (breakout_volume_ratio t).

Definition scan_candidates (snapshot : BarFeatureSnapshot) (profile : string) : res (list CandidateSignal) :=
  match candidate_profile profile with
  | None => Err (ValueError ("unknown candidate profile: " +:+ profile))
  | Some t =>
      let candidate strategy score reason := mkCandidate (bf_symbol snapshot) strategy score reason snapshot in
      Ok ((if pullback t snapshot
           then [candidate "PULLBACK_WATCH" (f_ratio 76 100)
                   "close above VWAP, rising EMA20, controlled pullback from recent high"] else [])
          ++ (if momentum t snapshot
              then [candidate "MOMENTUM_CONTINUATION" (f_ratio 76 100)
                      "close is pressing the recent high with rising EMA stack and above-normal volume"] else [])
          ++ (if breakout t snapshot
              then [candidate "BREAKOUT_WATCH" (f_ratio 8 10)
                      "close at recent high, above VWAP, with elevated volume"] else []))
  end.

(** ** Lemmas *)

Lemma validate_series_Ok values period :
  0 < period -> Forall (fun v => is_nan v = false) values -> validate_series values period = Ok tt.
Proof.
  intros Hp Hv. unfold validate_series. assert (E : (period <=? 0) = false) by lia. rewrite E. cbn [raise_if mbind res_bind].
  replace (existsb _ values) with false; [done|]. symmetry. induction Hv as [|v l Hn _ IH]; [done|]. cbn [existsb].
  rewrite IH, orb_false_r. destruct (feqb v v) eqn:Ef; [done|].
  apply fleb_refl in Hn. unfold fleb, SpecFloat.SFleb, feqb, SpecFloat.SFeqb in *.
  destruct (SpecFloat.SFcompare v v) as [[]|] eqn:Ec; try done. pose proof (fltb_irrefl v) as Hi.
  unfold fltb, SpecFloat.SFltb in Hi. by rewrite Ec in Hi.
Qed.

Lemma fdiv_int x z : 0 < z -> fdiv x (f_of_Z z) = Ok (fquot x (f_of_Z z)).
Proof. intros Hz. unfold fdiv. by rewrite f_of_Z_nonzero. Qed.

(** An [EMA] at the end of a series is the [EMA] of the values so far. *)
Lemma ema_from_length m c l : length (ema_from m c l) = length l.
Proof. revert c. induction l as [|v l IH]; intros c; cbn; [done|by rewrite IH]. Qed.

Lemma ema_from_take m c l k : ema_from m c (take k l) = take k (ema_from m c l).
Proof. revert c k. induction l as [|v l IH]; intros c [|k]; cbn; [done..|by rewrite IH]. Qed.

Lemma ema_from_Some m c l x : x ∈ ema_from m c l -> is_Some x.
Proof.
  revert c. induction l as [|v l IH]; intros c; cbn; [by inversion 1|].
  intros [-> |H]%elem_of_cons; [done|by eapply IH].
Qed.

Lemma repeat_take {A} (x : A) n k : take k (repeat x n) = repeat x (Nat.min k n).
Proof. revert k. induction n as [|n IH]; intros [|k]; cbn; [done..|by rewrite IH]. Qed.

(** What can only fail by the size of an integer. *)
Definition overflow_only {A} (r : res A) : Prop := match r with Ok _ => True | Err e => e = OverflowError end.

Lemma overflow_bind {A B} (r : res A) (f : A -> res B) :
  overflow_only r -> (forall a, r = Ok a -> overflow_only (f a)) -> overflow_only (mbind f r).
Proof. destruct r as [a|e]; cbn; [by intros _ H; apply H|done]. Qed.

Lemma float_of_int_overflow z : overflow_only (float_of_int z).
Proof. unfold float_of_int. by destruct (isfinite _). Qed.

Lemma int_div_overflow n d : 0 < d -> overflow_only (int_div n d).
Proof. intros Hd. unfold int_div. destruct d as [|d|d]; try lia. by destruct (isfinite _). Qed.

Lemma volume_average_overflow l p : 0 < p -> overflow_only (volume_average l p).
Proof.
  intros Hp. unfold volume_average. assert (E : (p <=? 0) = false) by lia. rewrite E. cbn [raise_if mbind res_bind].
  destruct (_ <? _); [done|]. apply overflow_bind; [by apply int_div_overflow|done].
Qed.

Lemma fdiv_pos x y : fleb y fzero = false -> overflow_only (fdiv x y).
Proof.
  intros Hy. unfold fdiv. destruct (feqb y fzero) eqn:E; [|done]. apply feqb_fleb in E as [E _]. congruence.
Qed.

Lemma volume_ratio_overflow l p : 0 < p -> overflow_only (volume_ratio l p).
Proof.
  intros Hp. unfold volume_ratio. destruct l as [|v l]; [done|]. apply overflow_bind; [by apply volume_average_overflow|].
  intros a _. apply overflow_bind; [destruct a; [done|by apply volume_average_overflow]|].
  intros [b|] _; [|done]. destruct (fleb b fzero) eqn:Eb; [done|].
  apply overflow_bind; [apply float_of_int_overflow|]. intros x _. apply overflow_bind; [by apply fdiv_pos|done].
Qed.

Lemma weighted_overflow ps vs : overflow_only (weighted ps vs).
Proof.
  revert vs. induction ps as [|p ps IH]; intros [|v vs]; cbn [weighted]; try done.
  apply overflow_bind; [apply float_of_int_overflow|]. intros x _. by apply overflow_bind.
Qed.

Lemma vwap_overflow fs ps vs : length ps = length vs -> overflow_only (vwap fs ps vs).
Proof.
  intros Hl. unfold vwap, len. rewrite Hl, Z.eqb_refl. cbn [negb raise_if mbind res_bind]. destruct ps as [|p ps]; [done|].
  destruct (sum_Z vs <=? 0) eqn:Ev; [done|]. apply overflow_bind; [apply weighted_overflow|]. intros terms _.
  apply overflow_bind; [apply float_of_int_overflow|]. intros t Ht.
  assert (Et : t = f_of_Z (sum_Z vs)) by (unfold float_of_int in Ht; destruct (isfinite _); congruence).
  rewrite Et, fdiv_int by lia. done.
Qed.

(** The extreme of a list is one of its elements and is not exceeded. *)
Lemma max_of_spec x l : is_nan x = false -> Forall (fun v => is_nan v = false) l ->
  max_of x l ∈ x :: l /\ Forall (fun v => fleb v (max_of x l) = true) (x :: l).
Proof.
  unfold max_of. revert x. induction l as [|y l IH]; intros x Hx Hl; cbn [fold_left].
  - split; [by left|]. constructor; [by apply fleb_refl|done].
  - inversion_clear Hl as [|? ? Hy Hl']. assert (Hm : is_nan (fmax x y) = false) by (unfold fmax; by destruct (fltb x y)).
    destruct (IH _ Hm Hl') as [H1 H2]. split.
    + apply elem_of_cons in H1 as [-> |H1]; [|set_solver]. unfold fmax. destruct (fltb x y); set_solver.
    + inversion_clear H2 as [|? ? Hf H3]. pose proof (fmax_ge_l x y Hx). pose proof (fmax_ge_r x y Hx Hy).
      repeat constructor; eauto using fleb_trans.
Qed.

Lemma min_of_spec x l : is_nan x = false -> Forall (fun v => is_nan v = false) l ->
  min_of x l ∈ x :: l /\ Forall (fun v => fleb (min_of x l) v = true) (x :: l).
Proof.
  unfold min_of. revert x. induction l as [|y l IH]; intros x Hx Hl; cbn [fold_left].
  - split; [by left|]. constructor; [by apply fleb_refl|done].
  - inversion_clear Hl as [|? ? Hy Hl']. assert (Hm : is_nan (fmin x y) = false) by (unfold fmin; by destruct (fltb y x)).
    destruct (IH _ Hm Hl') as [H1 H2]. split.
    + apply elem_of_cons in H1 as [-> |H1]; [|set_solver]. unfold fmin. destruct (fltb y x); set_solver.
    + inversion_clear H2 as [|? ? Hf H3]. pose proof (fmin_le_l x y Hx). pose proof (fmin_le_r x y Hx Hy).
      repeat constructor; eauto using fleb_trans.
Qed.

(** Looser thresholds keep every candidate. *)
Record looser (t t' : CandidateThresholds) : Prop := mkLooser {
  ls_pull_min : fleb (pullback_distance_min t') (pullback_distance_min t) = true;
  ls_pull_max : fleb (pullback_distance_max t) (pullback_distance_max t') = true;
  ls_pull_vol : fleb (pullback_volume_ratio t') (pullback_volume_ratio t) = true;
  ls_mom_min : fleb (momentum_distance_min t') (momentum_distance_min t) = true;
  ls_mom_vol : fleb (momentum_volume_ratio t') (momentum_volume_ratio t) = true;
  ls_break_vol : fleb (breakout_volume_ratio t') (breakout_volume_ratio t) = true;
}.

Lemma volume_at_least_mono s t t' : fleb t' t = true -> volume_at_least s t = true -> volume_at_least s t' = true.
Proof. unfold volume_at_least, some_and. destruct (bf_volume_ratio s); eauto using fleb_trans. Qed.

Lemma pullback_mono t t' s : looser t t' -> pullback t s = true -> pullback t' s = true.
Proof.
  intros [H1 H2 H3 _ _ _]. unfold pullback. rewrite !andb_true_iff. intros [[[-> ->] Hd] Hv].
  split_and!; eauto using volume_at_least_mono. destruct (distance_from_high_pct s); cbn in *; [|done].
  rewrite andb_true_iff in *. destruct Hd. split; eauto using fleb_trans.
Qed.

Lemma momentum_mono t t' s : looser t t' -> momentum t s = true -> momentum t' s = true.
Proof.
  intros [_ _ _ H1 H2 _]. unfold momentum. rewrite !andb_true_iff. intros [[[[-> Hd] ->] ->] Hv].
  split_and!; eauto using volume_at_least_mono. destruct (distance_from_high_pct s); cbn in *; [|done].
  rewrite andb_true_iff in *. destruct Hd. split; eauto using fleb_fltb_trans.
Qed.

Lemma breakout_mono t t' s : looser t t' -> breakout t s = true -> breakout t' s = true.
Proof.
  intros [_ _ _ _ _ H1]. unfold breakout. rewrite !andb_true_iff. intros [[-> ->] Hv].
  split_and!; eauto using volume_at_least_mono.
Qed.

Lemma when_sublist {A} (b b' : bool) (l : list A) : (b = true -> b' = true) -> (if b then l else []) `sublist_of` (if b' then l else []).
Proof. intros H. destruct b; [by rewrite H|apply sublist_nil_l]. Qed.

Lemma scan_mono p p' t t' s cs : candidate_profile p = Some t -> candidate_profile p' = Some t' -> looser t t' ->
  scan_candidates s p = Ok cs -> exists cs', scan_candidates s p' = Ok cs' /\ cs `sublist_of` cs'.
Proof.
  intros Hp Hp' Hl. unfold scan_candidates. rewrite Hp, Hp'. intros [= <-]. eexists. split; [done|].
  repeat apply sublist_app; apply when_sublist; eauto using pullback_mono, momentum_mono, breakout_mono.
Qed.

Lemma conservative_looser : looser conservative normal.
Proof. constructor; vm_compute; reflexivity. Qed.

Lemma normal_looser : looser normal aggressive.
Proof. constructor; vm_compute; reflexivity. Qed.

(** The window is the bars before the latest, or the latest when it is alone. *)
Lemma recent_bars_spec before latest lookback : 0 < lookback ->
  recent_bars (before ++ [latest]) lookback =
  match before with [] => [latest] | _ => last_n lookback before end.
Proof.
  intros Hl. unfold recent_bars, lookback_window, last_n, len. rewrite length_app. cbn [length].
  destruct before as [|b before]; [done|].
  assert (E1 : (1 <? Z.of_nat (length (b :: before) + 1)) = true). { apply Z.ltb_lt. cbn [length]. lia. } rewrite E1.
  rewrite drop_app_le. 2: { cbn [length]. lia. } rewrite removelast_last.
  replace (length (b :: before) + 1 - Z.to_nat (lookback + 1))%nat with (length (b :: before) - Z.to_nat lookback)%nat by lia.
  destruct (drop _ (b :: before)) eqn:E; [|done]. apply (f_equal length) in E. rewrite length_drop in E. cbn [length] in E. lia.
Qed.

Lemma ema_total fs values period : 0 < period -> Forall (fun v => is_nan v = false) values ->
  exists series, ema_series fs values period = Ok series.
Proof.
  intros Hp Hv. unfold ema_series. rewrite validate_series_Ok by done. cbn [mbind res_bind].
  destruct (_ <? _); [by eexists|]. cbv zeta. rewrite !fdiv_int by lia. by eexists.
Qed.

Lemma sma_total fs values period : 0 < period -> Forall (fun v => is_nan v = false) values ->
  exists x, sma fs values period = Ok x.
Proof.
  intros Hp Hv. unfold sma. rewrite validate_series_Ok by done. cbn [mbind res_bind].
  destruct (_ <? _); [by eexists|]. rewrite !fdiv_int by lia. by eexists.
Qed.

(** ** Properties *)

(** Fact: the profiles are nested.  Whatever the snapshot, every candidate of the
    conservative profile is one of the normal profile, and every one of that is a
    candidate of the aggressive profile, in the same order. *)
Theorem candidate_profiles_nested s : exists c n a,
  scan_candidates s "conservative" = Ok c /\ scan_candidates s "normal" = Ok n /\
  scan_candidates s "aggressive" = Ok a /\ c `sublist_of` n /\ n `sublist_of` a.
Proof.
  destruct (scan_candidates s "conservative") as [c|e] eqn:Ec; [|by unfold scan_candidates in Ec].
  destruct (scan_mono "conservative" "normal" _ _ s c eq_refl eq_refl conservative_looser Ec) as (n & En & H1).
  destruct (scan_mono "normal" "aggressive" _ _ s n eq_refl eq_refl normal_looser En) as (a & Ea & H2).
  by exists c, n, a.
Qed.

(** Fact: what a candidate means.  Of a known profile there is at most one candidate
    per strategy, of the snapshot's symbol; each has its close above the volume-
    weighted price and a measured volume; continuation needs the close below the
    recent high and breakout needs it at or above, so they never come together. *)
Theorem scan_candidates_sound s profile : match candidate_profile profile with
  | None => scan_candidates s profile = Err (ValueError ("unknown candidate profile: " +:+ profile))
  | Some t => exists cs, scan_candidates s profile = Ok cs /\ NoDup (map cs_strategy cs) /\
      ~ ("MOMENTUM_CONTINUATION" ∈ map cs_strategy cs /\ "BREAKOUT_WATCH" ∈ map cs_strategy cs) /\
      Forall (fun c => cs_symbol c = bf_symbol s /\ cs_features c = s /\ above_vwap s = true /\
        is_Some (bf_volume_ratio s) /\ cs_strategy c ∈ ["PULLBACK_WATCH"; "MOMENTUM_CONTINUATION"; "BREAKOUT_WATCH"]) cs
  end.
Proof.
  unfold scan_candidates. destruct (candidate_profile profile) as [t|]; [|done]. eexists. split; [done|].
  assert (Hx : momentum t s = true -> breakout t s = true -> False).
  { unfold momentum, breakout. rewrite !andb_true_iff. intros [[[[H1 _] _] _] _] [[H2 _] _].
    unfold some_and in *. destruct (high_n s); [|done]. by rewrite (fltb_not_fleb _ _ H1) in H2. }
  assert (Hv : forall r, volume_at_least s r = true -> is_Some (bf_volume_ratio s)).
  { intros r. unfold volume_at_least. by destruct (bf_volume_ratio s). }
  assert (Hp : pullback t s = true -> above_vwap s = true /\ is_Some (bf_volume_ratio s)).
  { unfold pullback. rewrite !andb_true_iff. intros [[[_ ?] _] ?]. eauto. }
  assert (Hm : momentum t s = true -> above_vwap s = true /\ is_Some (bf_volume_ratio s)).
  { unfold momentum. rewrite !andb_true_iff. intros [[[[_ _] _] ?] ?]. eauto. }
  assert (Hb : breakout t s = true -> above_vwap s = true /\ is_Some (bf_volume_ratio s)).
  { unfold breakout. rewrite !andb_true_iff. intros [[_ ?] ?]. eauto. }
  destruct (pullback t s), (momentum t s), (breakout t s); cbn [app map cs_strategy];
    try (destruct (Hx eq_refl eq_refl));
    repeat match goal with H : true = true -> _ /\ _ |- _ => destruct (H eq_refl); clear H end;
    (split; [apply (bool_decide_unpack _); vm_compute; exact I|]);
    (split; [apply (bool_decide_unpack _); vm_compute; exact I|]); repeat constructor; try done.
Qed.

(** Fact: a moving average never looks ahead.  The series over the first [k] values
    is the first [k] entries of the whole series; so its last entry, the value a
    snapshot uses, is what the whole series has at that position, and nothing is
    defined before the first complete window. *)
Theorem ema_series_causal float_sum values period series k :
  ema_series float_sum values period = Ok series -> (k <= length values)%nat ->
  ema_series float_sum (take k values) period = Ok (take k series) /\ length series = length values /\
  forall i x, series !! i = Some (Some x) -> period - 1 <= Z.of_nat i.
Proof.
  intros H Hk. apply bind_Ok in H as ([] & Hv & H).
  assert (Hv' : validate_series (take k values) period = Ok tt).
  { unfold validate_series in *. apply bind_Ok in Hv as ([] & Hp & Hn). rewrite Hp. cbn [mbind res_bind].
    apply raise_if_Ok in Hn as Hn'. rewrite <- (take_drop k values), existsb_app, orb_false_iff in Hn'.
    destruct Hn' as [-> _]. done. }
  assert (Hp : 0 < period).
  { unfold validate_series in Hv. apply bind_Ok in Hv as ([] & Hp & _). apply raise_if_Ok in Hp. lia. }
  unfold ema_series. rewrite Hv'. cbn [mbind res_bind]. unfold len in *. rewrite length_take, Nat.min_l by done.
  destruct (Z.of_nat (length values) <? period) eqn:El.
  { injection H as <-. replace (Z.of_nat k <? period) with true by lia.
    rewrite repeat_take, Nat.min_l, repeat_length by done. split_and!; try done.
    intros i x Hi. apply list_elem_of_lookup_2, list_elem_of_In, repeat_spec in Hi. done. }
  cbv zeta in H. rewrite !fdiv_int in H by lia. cbn [mbind res_bind] in H. injection H as <-.
  set (c := fquot (float_sum _) _).
  split; [|split].
  - destruct (Z.of_nat k <? period) eqn:Ek.
    + rewrite take_app_le, repeat_take, Nat.min_l by (rewrite ?repeat_length; lia). done.
    + cbv zeta. rewrite !fdiv_int by lia. cbn [mbind res_bind]. rewrite take_take, Nat.min_l by lia. fold c.
      rewrite take_app_ge, repeat_length by (rewrite ?repeat_length; lia).
      replace (k - (Z.to_nat period - 1))%nat with (S (k - Z.to_nat period)) by lia. cbn [take].
      by rewrite <- ema_from_take, take_drop_commute, Nat.add_comm, Nat.sub_add by lia.
  - rewrite length_app, repeat_length. cbn [length]. rewrite ema_from_length, length_drop. lia.
  - intros i x Hi. destruct (decide (period - 1 <= Z.of_nat i)) as [|Hn]; [done|].
    rewrite lookup_app_l in Hi by (rewrite ?repeat_length; lia).
    apply list_elem_of_lookup_2, list_elem_of_In, repeat_spec in Hi. done.
Qed.

(** Fact: a snapshot of a non-empty run of bars without NaN is built, or an integer
    of the bars is too large for a float; nothing else is raised.  It carries the
    symbol and close of the latest bar; its recent high and low are the extreme
    prices of the (at most [lookback]) bars before it, and of the latest bar
    itself only when it is alone. *)
Theorem feature_snapshot_window float_sum before latest lookback :
  0 < lookback ->
  Forall (fun b => is_nan (mb_close b) = false /\ is_nan (mb_high b) = false /\ is_nan (mb_low b) = false) (before ++ [latest]) ->
  build_feature_snapshot float_sum (before ++ [latest]) lookback = Err OverflowError \/
  exists s high low, build_feature_snapshot float_sum (before ++ [latest]) lookback = Ok (Some s) /\
    bf_symbol s = mb_symbol latest /\ latest_close s = mb_close latest /\ high_n s = Some high /\ low_n s = Some low /\
    let window := match before with [] => [latest] | _ => last_n lookback before end in
    high ∈ map mb_high window /\ low ∈ map mb_low window /\
    Forall (fun b => fleb (mb_high b) high = true /\ fleb low (mb_low b) = true) window.
Proof.
  intros Hl Hn. pose proof (recent_bars_spec before latest lookback Hl) as Hw. cbv zeta.
  set (window := match before with [] => _ | _ => _ end) in *.
  assert (Hsub : forall b, b ∈ window -> b ∈ before ++ [latest]).
  { intros b. subst window. destruct before as [|b0 l]; [done|]. unfold last_n. intros Hb. apply elem_of_app. left.
    rewrite <- (take_drop (length (b0 :: l) - Z.to_nat lookback) (b0 :: l)). apply elem_of_app. by right. }
  assert (Hcl : Forall (fun v => is_nan v = false) (map mb_close (before ++ [latest]))).
  { apply Forall_map. eapply list.Forall_impl; [exact Hn|]. by intros b (? & _). }
  rewrite list.Forall_forall in Hn.
  assert (Hne : exists b0 l, window = b0 :: l).
  { destruct window as [|b0 l] eqn:E; [|by eexists _, _]. subst window. destruct before as [|b1 l]; [done|].
    apply (f_equal length) in E. unfold last_n in E. rewrite length_drop in E. cbn [length] in E. lia. }
  destruct Hne as (b0 & l & Ew). unfold build_feature_snapshot.
  destruct (before ++ [latest]) as [|first bars] eqn:Eb; [by destruct before|]. rewrite <- Eb in *.
  replace (lookback <=? 0) with false by lia. cbn [raise_if mbind res_bind]. rewrite Hw, Ew. cbn [hd tail].
  assert (El : List.last (before ++ [latest]) first = latest) by apply last_last. rewrite El.
  destruct (ema_total float_sum _ 20 ltac:(lia) Hcl) as [s20 ->]. unfold ema.
  destruct (ema_total float_sum _ 5 ltac:(lia) Hcl) as [s5 ->]. destruct (ema_total float_sum _ 10 ltac:(lia) Hcl) as [s10 ->].
  destruct (sma_total float_sum _ 60 ltac:(lia) Hcl) as [s60 ->]. cbn [mbind res_bind].
  pose proof (vwap_overflow float_sum (map ohlc4 (before ++ [latest])) (map mb_volume (before ++ [latest]))) as Hv.
  rewrite !length_map in Hv. specialize (Hv eq_refl). unfold vwap_bars.
  destruct (vwap float_sum _ _) as [v|e]; [|left; cbn in *; by subst]. cbn [mbind res_bind].
  pose proof (volume_ratio_overflow (map mb_volume (before ++ [latest]))
    (Z.min 20 (Z.max 1 (len (map mb_volume (before ++ [latest])) - 1))) ltac:(lia)) as Hr.
  destruct (volume_ratio _ _) as [vr|e]; [|left; cbn in *; by subst]. cbn [mbind res_bind]. right.
  assert (Hall : forall b, b ∈ b0 :: l -> is_nan (mb_high b) = false /\ is_nan (mb_low b) = false).
  { intros b Hb. rewrite Ew in Hsub. by destruct (Hn b (Hsub b Hb)) as (_ & ? & ?). }
  destruct (max_of_spec (mb_high b0) (map mb_high l)) as [M1 M2]; [apply Hall; by left| |].
  { apply Forall_map, list.Forall_forall. intros b Hb. apply Hall. by right. }
  destruct (min_of_spec (mb_low b0) (map mb_low l)) as [m1 m2]; [apply Hall; by left| |].
  { apply Forall_map, list.Forall_forall. intros b Hb. apply Hall. by right. }
  eexists _, _, _. split; [reflexivity|]. cbn [bf_symbol latest_close high_n low_n]. split_and!; try done.
  apply (Forall_map mb_high (fun x => fleb x _ = true) (b0 :: l)) in M2.
  apply (Forall_map mb_low (fun x => fleb _ x = true) (b0 :: l)) in m2.
  by apply Forall_and.
Qed.

(** ** Witnesses *)

Definition w_bars : list MinuteBar :=
  map (fun k => mkBar "005930" (Datetime (k * us_per_minute) None) (f_of_Z (70000 + k)) (f_of_Z (70010 + k)) (f_of_Z (69990 + k))
    (f_of_Z (70005 + k)) (100 + k)) [0; 1; 2].
Definition w_latest : MinuteBar :=
  mkBar "005930" (Datetime (3 * us_per_minute) None) (f_of_Z 70100) (f_of_Z 70200) (f_of_Z 70000) (f_of_Z 70150) 300.
Definition w_closes : list float := map f_of_Z [100; 101; 102; 103; 104; 105].
Definition w_total (l : list float) : float := foldl fadd fzero l.

Lemma ema_series_causal_witness : exists series,
  ema_series w_total w_closes 3 = Ok series /\ ema_series w_total (take 4 w_closes) 3 = Ok (take 4 series).
Proof.
  destruct (ema_series w_total w_closes 3) as [series|e] eqn:E; [|vm_compute in E; discriminate].
  exists series. split; [reflexivity|]. exact (proj1 (ema_series_causal w_total w_closes 3 series 4 E ltac:(cbn; lia))).
Defined.

Lemma feature_snapshot_window_witness : exists s high,
  build_feature_snapshot w_total (w_bars ++ [w_latest]) 20 = Ok (Some s) /\ high_n s = Some high /\ high ∈ map mb_high w_bars.
Proof.
  destruct (feature_snapshot_window w_total w_bars w_latest 20) as [E|(s & high & low & E & _ & _ & H1 & _ & H2 & _)].
  - lia.
  - repeat constructor; vm_compute; reflexivity.
  - vm_compute in E. discriminate.
  - exists s, high. split; [exact E|]. split; [exact H1|exact H2].
Defined.
