(* ===== verification/PyDecimal.v ===== *)
(** * Python decimals (the [decimal] module with its default context)

    A finite [Decimal] is a coefficient and a power of ten; arithmetic rounds
    half-even to 28 digits and raises [InvalidOperation] where the default
    context traps it.  The exponent limits of the context (999999) are not
    modelled: no price comes near them.  [Decimal(str(x))] of a float goes
    through the shortest decimal that reads back as [x], which is what [repr]
    writes. *)

From Stdlib Require Import Floats.SpecFloat.
From S2P Require Import Prelude PyStr PyFloat.

Record dec := mkDec { d_coef : Z; d_exp : Z }.

Inductive pydec := DFin (d : dec) | DInf (negative : bool) | DNaN.

(** What a parameter annotated [Any] holds in practice. *)
Inductive pynum :=
  | PNone
  | PBool (b : bool)
  | PInt (z : Z)
  | PFloat (x : float)
  | PDec (d : pydec)
  | PStr (s : string).

Definition PREC : Z := 28.

(** ** Comparison and exact alignment *)

(** The coefficients of two numbers over their smaller exponent. *)
Definition dec_align (a b : dec) : Z * Z * Z :=
  let e := Z.min (d_exp a) (d_exp b) in
  (d_coef a * 10 ^ (d_exp a - e), d_coef b * 10 ^ (d_exp b - e), e).

Definition dec_cmp (a b : dec) : comparison := let '(x, y, _) := dec_align a b in x ?= y.
Definition dec_ltb (a b : dec) : bool := match dec_cmp a b with Lt => true | _ => false end.
Definition dec_leb (a b : dec) : bool := match dec_cmp a b with Gt => false | _ => true end.
Definition dec_eqb (a b : dec) : bool := match dec_cmp a b with Eq => true | _ => false end.

Definition dec_int (z : Z) : dec := mkDec z 0.

(** ** Rounding to the context precision *)

(** The number of decimal digits of [|z|], by halving the binary size. *)
Fixpoint count_digits (fuel : nat) (z : Z) : Z :=
  match fuel with
  | O => 1
  | S f => if z <? 10 then 1 else 1 + count_digits f (z / 10)
  end.
Definition ndigits (z : Z) : Z := count_digits (Z.to_nat (Z.log2 (Z.abs z))) (Z.abs z).

(** Drops [k] digits, rounding half to even. *)
Definition drop_half_even (k z : Z) : Z :=
  let p := 10 ^ k in
  let q := Z.abs z / p in let r := Z.abs z mod p in
  let q' := if (p <? 2 * r) || ((2 * r =? p) && Z.odd q) then q + 1 else q in
  Z.sgn z * q'.

Definition dec_fix (d : dec) : dec :=
  let n := ndigits (d_coef d) in
  if n <=? PREC then d
  else mkDec (drop_half_even (n - PREC) (d_coef d)) (d_exp d + (n - PREC)).

(** ** Arithmetic *)

Definition dec_sub (a b : dec) : dec := let '(x, y, e) := dec_align a b in dec_fix (mkDec (x - y) e).
Definition dec_mul (a b : dec) : dec := dec_fix (mkDec (d_coef a * d_coef b) (d_exp a + d_exp b)).

(** [a / b] of a non-zero [b]: 28 digits and a sticky digit, then rounded. *)
Definition dec_quot (a b : dec) : dec :=
  let shift := ndigits (d_coef b) - ndigits (d_coef a) + PREC + 1 in
  let op1 := Z.abs (d_coef a) * 10 ^ Z.max 0 shift in
  let op2 := Z.abs (d_coef b) * 10 ^ Z.max 0 (- shift) in
  let q := op1 / op2 in
  let q := if negb (op1 mod op2 =? 0) && (q mod 5 =? 0) then q + 1 else q in
  dec_fix (mkDec (Z.sgn (d_coef a) * Z.sgn (d_coef b) * q) (d_exp a - d_exp b - shift)).

Definition dec_div (a b : dec) : res dec :=
  if d_coef b =? 0
  then Err (if d_coef a =? 0 then InvalidOperation else ZeroDivisionError)
  else Ok (dec_quot a b).

(** [a % b] of non-negative numbers: the integer quotient must fit the
    precision. *)
Definition dec_rem (a b : dec) : res dec :=
  if d_coef b =? 0 then Err InvalidOperation
  else
    let '(x, y, e) := dec_align a b in
    if 10 ^ PREC <=? x / y then Err InvalidOperation
    else Ok (dec_fix (mkDec (x mod y) e)).

(** [to_integral_value] with ROUND_FLOOR and ROUND_CEILING, and [int]. *)
Definition dec_floor (a : dec) : dec :=
  if 0 <=? d_exp a then a else mkDec (d_coef a / 10 ^ (- d_exp a)) 0.
Definition dec_ceiling (a : dec) : dec :=
  if 0 <=? d_exp a then a else mkDec (- (- d_coef a / 10 ^ (- d_exp a))) 0.
(** [to_integral_value()]: ROUND_HALF_EVEN. *)
Definition dec_integral (a : dec) : dec :=
  if 0 <=? d_exp a then a else mkDec (drop_half_even (- d_exp a) (d_coef a)) 0.
Definition int_of_dec (a : dec) : Z :=
  if 0 <=? d_exp a then d_coef a * 10 ^ d_exp a else Z.quot (d_coef a) (10 ^ (- d_exp a)).

(** [float(d)]: correctly rounded. *)
Definition float_of_dec (a : dec) : float :=
  if 0 <=? d_exp a then f_of_Z (d_coef a * 10 ^ d_exp a)
  else f_ratio (d_coef a) (Z.to_pos (10 ^ (- d_exp a))).

(** ** [repr] of a float, as a decimal *)

(** A positive finite float as a fraction. *)
Definition f_fraction (x : float) : Z * Z :=
  let '(m, e) := f_parts x in
  if 0 <=? e then (Z.abs m * 2 ^ e, 1) else (Z.abs m, 2 ^ (- e)).

(** [num / den < 10^k] *)
Definition below_pow10 (num den k : Z) : bool :=
  num * 10 ^ Z.max 0 (- k) <? den * 10 ^ Z.max 0 k.

(** The [k] with [10^(k-1) <= num/den < 10^k], from a logarithm estimate. *)
Definition decimal_point (num den : Z) : Z :=
  let k0 := (Z.log2 num - Z.log2 den) * 30103 / 100000 in
  if below_pow10 num den (k0 - 1) then k0 - 1
  else if below_pow10 num den k0 then k0
  else if below_pow10 num den (k0 + 1) then k0 + 1
  else if below_pow10 num den (k0 + 2) then k0 + 2 else k0 + 3.

(** The closest decimal of [n] digits that reads back as [x], if any. *)
Definition repr_digits (x : float) (num den k n : Z) : option dec :=
  let e := k - n in
  let top := num * 10 ^ Z.max 0 (- e) in let bot := den * 10 ^ Z.max 0 e in
  let lo := top / bot in let r := top mod bot in
  let ok c := feqb (float_of_dec (mkDec c e)) x in
  match ok lo, ok (lo + 1) with
  | true, true => Some (mkDec (if 2 * r <=? bot then lo else lo + 1) e)
  | true, false => Some (mkDec lo e)
  | false, true => Some (mkDec (lo + 1) e)
  | false, false => None
  end.

Fixpoint repr_search (fuel : nat) (x : float) (num den k n : Z) : option dec :=
  match fuel with
  | O => None
  | S f => match repr_digits x num den k n with
           | Some d => Some d
           | None => repr_search f x num den k (n + 1)
           end
  end.

(** Every double has such a decimal of at most 17 digits; the exact expansion
    stands in for the impossible case. *)
Definition repr_dec (x : float) : dec :=
  match f_parts x with
  | (0, _) => mkDec 0 0
  | (m, e) =>
      let '(num, den) := f_fraction x in
      let d := match repr_search 17 (if m <? 0 then fopp x else x) num den (decimal_point num den) 1 with
               | Some d => d
               | None => if 0 <=? e then mkDec num 0 else mkDec (num * 5 ^ (- e)) e
               end in
      mkDec (Z.sgn m * d_coef d) (d_exp d)
  end.

(** ** [Decimal(text)] *)

Fixpoint read_number (acc scale : Z) (n : nat) (point : bool) (s : string)
    : Z * Z * nat * string :=
  match s with
  | "" => (acc, scale, n, "")
  | String c s' =>
      if is_digit c
      then read_number (10 * acc + (code c - 48)) (if point then scale - 1 else scale) (S n) point s'
      else if bool_decide (c = "."%char) && negb point then read_number acc scale n true s'
      else (acc, scale, n, s)
  end.

Definition read_exponent (s : string) : option Z :=
  match s with
  | "" => Some 0
  | String c s' =>
      if bool_decide (c = "e" \/ c = "E")%char then
        let '(sign, s') := match s' with
                           | String d t => if bool_decide (d = "-"%char) then (-1, t)
                                           else if bool_decide (d = "+"%char) then (1, t) else (1, s')
                           | "" => (1, "") end in
        match digits 0 0 s' with
        | (v, S _, "") => Some (sign * v)
        | _ => None
        end
      else None
  end.

Definition decimal_of_string (text : string) : option pydec :=
  let s := remove_char "_"%char (strip text) in
  let '(neg, s) := match s with
                   | String c t => if bool_decide (c = "-"%char) then (true, t)
                                   else if bool_decide (c = "+"%char) then (false, t) else (false, s)
                   | "" => (false, "") end in
  let l := lower s in
  if String.eqb l "inf" || String.eqb l "infinity" then Some (DInf neg)
  else if startswith "nan" l && sforall is_digit (removeprefix "nan" l) then Some DNaN
  else if startswith "snan" l && sforall is_digit (removeprefix "snan" l) then Some DNaN
  else match read_number 0 0 0 false s with
       | (v, scale, S _, rest) =>
           match read_exponent rest with
           | Some e => Some (DFin (mkDec (if neg then - v else v) (scale + e)))
           | None => None
           end
       | _ => None
       end.

(** [Decimal(str(value))], [None] when it raises [InvalidOperation]. *)
Definition decimal_of (value : pynum) : option pydec :=
  match value with
  | PNone | PBool _ => None
  | PInt z => Some (DFin (dec_int z))
  | PFloat x =>
      Some (match x with
            | S754_nan => DNaN
            | S754_infinity s => DInf s
            | _ => DFin (repr_dec x)
            end)
  | PDec d => Some d
  | PStr s => decimal_of_string s
  end.

(** ** Lemmas *)

Lemma count_digits_spec fuel z : 0 < z -> z < 10 ^ (Z.of_nat fuel + 1) ->
  10 ^ (count_digits fuel z - 1) <= z < 10 ^ count_digits fuel z /\ 1 <= count_digits fuel z.
Proof.
  revert z. induction fuel as [|f IH]; intros z Hz Hb; cbn [count_digits].
  - split; [|lia]. change (10 ^ (1 - 1)) with 1. change (10 ^ (Z.of_nat 0 + 1)) with 10 in Hb.
    change (10 ^ 1) with 10. lia.
  - destruct (Z.ltb_spec z 10) as [Hl|Hl]; [change (10 ^ (1 - 1)) with 1; change (10 ^ 1) with 10; lia|].
    assert (H1 : 0 < z / 10) by (apply Z.div_str_pos; lia).
    assert (H2 : z / 10 < 10 ^ (Z.of_nat f + 1)).
    { apply Z.div_lt_upper_bound; [lia|]. rewrite <- Z.pow_succ_r by lia.
      replace (Z.succ (Z.of_nat f + 1)) with (Z.of_nat (S f) + 1) by lia. done. }
    destruct (IH _ H1 H2) as [[H3 H4] H5]. set (c := count_digits f (z / 10)) in *.
    assert (E1 : 10 ^ (1 + c - 1) = 10 * 10 ^ (c - 1))
      by (replace (1 + c - 1) with (1 + (c - 1)) by lia; rewrite Z.pow_add_r by lia; done).
    assert (E2 : 10 ^ (1 + c) = 10 * 10 ^ c) by (rewrite Z.pow_add_r by lia; done).
    rewrite E1, E2. pose proof (Z.div_mod z 10 ltac:(lia)).
    pose proof (Z.mod_pos_bound z 10 ltac:(lia)). lia.
Qed.

Lemma ndigits_spec z : z <> 0 -> 10 ^ (ndigits z - 1) <= Z.abs z < 10 ^ ndigits z /\ 1 <= ndigits z.
Proof.
  intros H. unfold ndigits. apply count_digits_spec; [lia|].
  pose proof (Z.log2_spec (Z.abs z) ltac:(lia)) as [_ Hl]. pose proof (Z.log2_nonneg (Z.abs z)).
  eapply Z.lt_le_trans; [exact Hl|]. rewrite Z2Nat.id by lia.
  replace (Z.succ (Z.log2 (Z.abs z))) with (Z.log2 (Z.abs z) + 1) by lia.
  apply Z.pow_le_mono_l. lia.
Qed.

Lemma ndigits_le z n : 1 <= n -> Z.abs z < 10 ^ n -> ndigits z <= n.
Proof.
  intros Hn H. destruct (decide (z = 0)) as [->|Hz]; [change (ndigits 0) with 1; lia|].
  destruct (ndigits_spec z Hz) as [[Hl _] H1]. apply Z.nlt_ge. intros Hc.
  assert (10 ^ n <= 10 ^ (ndigits z - 1)) by (apply Z.pow_le_mono_r; lia). lia.
Qed.

Lemma dec_fix_small d : Z.abs (d_coef d) < 10 ^ PREC -> dec_fix d = d.
Proof.
  intros H. unfold dec_fix. apply ndigits_le in H; [|done].
  by replace (_ <=? PREC) with true by (symmetry; by apply Z.leb_le).
Qed.
