(* ===== verification/PyFormat.v ===== *)
(** * Formatted numbers

    The format codes [g] and [.2f] of f-strings and the minute texts of
    timestamps, as the messages and identifiers of the pipeline use them. *)

From Stdlib Require Import Floats.SpecFloat.
From S2P Require Import Prelude PyStr PyFloat PyTime PyDecimal.

(** The exponent and the six significant digits of a positive quotient. *)
Definition six_digits (num den : Z) : Z * Z :=
  let e := decimal_point num den - 1 in
  let k := 5 - e in
  let d := half_even (num * 10 ^ Z.max 0 k) (den * 10 ^ Z.max 0 (- k)) in
  if d =? 1000000 then (e + 1, 100000) else (e, d).

(** Trailing zeros dropped from [c * 10^-n], the number of decimals left. *)
Fixpoint drop_zeros (n : nat) (c : Z) : nat * Z :=
  match n with
  | O => (O, c)
  | S n' => if c mod 10 =? 0 then drop_zeros n' (c / 10) else (n, c)
  end.

Definition fixed_text (n : nat) (c : Z) : string :=
  let p := 10 ^ Z.of_nat n in
  match n with
  | O => str_int c
  | _ => str_int (c / p) +:+ "." +:+ pad_digits n (c mod p)
  end.

(** [f"{x:g}"] *)
Definition format_g (x : float) : string :=
  match x with
  | S754_nan => "nan"
  | S754_infinity s => if s then "-inf" else "inf"
  | S754_zero s => if s then "-0" else "0"
  | S754_finite s _ _ =>
      let '(num, den) := f_fraction x in
      let '(e, d) := six_digits num den in
      (if s then "-" else "") +:+
      (if (-4 <=? e) && (e <? 6)
       then let '(n, c) := drop_zeros (Z.to_nat (5 - e)) d in fixed_text n c
       else let '(n, c) := drop_zeros 5 d in
            fixed_text n c +:+ "e" +:+ (if e <? 0 then "-" else "+") +:+
            (if Z.abs e <? 10 then "0" else "") +:+ str_int (Z.abs e))
  end.

(** [f"{x:.2f}"] *)
Definition format_2f (x : float) : string :=
  match x with
  | S754_nan => "nan"
  | S754_infinity s => if s then "-inf" else "inf"
  | S754_zero s => (if s then "-" else "") +:+ "0.00"
  | S754_finite s _ _ =>
      let '(num, den) := f_fraction x in
      (if s then "-" else "") +:+ fixed_text 2 (half_even (num * 100) den)
  end.

(** [value.isoformat(timespec="minutes")] and [value.strftime("%Y%m%d%H%M")] of a
    naive value *)
Definition isoformat_minutes (d : datetime) : string :=
  let m := dt_tod d / us_per_minute in
  iso_date (dt_days d) +:+ "T" +:+ pad_digits 2 (m / 60) +:+ ":" +:+ pad_digits 2 (m mod 60).

Definition minute_stamp (d : datetime) : string :=
  let '(y, mo, day) := civil_of_days (dt_days d) in
  let m := dt_tod d / us_per_minute in
  pad_digits 4 y +:+ pad_digits 2 mo +:+ pad_digits 2 day +:+ pad_digits 2 (m / 60) +:+ pad_digits 2 (m mod 60).

(** [timedelta(seconds=x)] in microseconds: whole seconds exactly, the fraction
    rounded once to the nearest microsecond, ties to even. *)
Definition timedelta_seconds (x : float) : res Z :=
  match x with
  | S754_nan => Err (ValueError "cannot convert float NaN to integer")
  | S754_infinity _ => Err OverflowError
  | _ =>
      let whole := f_trunc x in
      let '(num, den) := f_fraction ((x - f_of_Z whole) * f_of_Z 1000000)%F in
      let us := half_even num den in
      let total := whole * 1000000 + (if (x <? fzero)%F then - us else us) in
      if 999999999 <? Z.abs total / 86400000000 then Err OverflowError else Ok total
  end.

Example format_g_text : map format_g [f_of_Z 70000; f_ratio 705 10; f_of_Z 1234567; f_ratio 1 3; fzero; f_ratio 1 100000] =
  ["70000"; "70.5"; "1.23457e+06"; "0.333333"; "0"; "1e-05"].
Proof. vm_compute. reflexivity. Qed.

Example format_2f_text : map format_2f [f_ratio 8 10; f_one; f_ratio 755 1000] = ["0.80"; "1.00"; "0.76"].
Proof. vm_compute. reflexivity. Qed.
