(* ===== verification/MarketRules.v ===== *)
(** * KRX price rules ([broker/kis_market_rules.py])

    The tick ladder, the normalisation of a limit price to it, and the
    risk-reward check of a long trade, on exact decimals. *)

From Stdlib Require Import Floats.SpecFloat.
From S2P Require Import Prelude PyStr PyFloat PyDecimal.

Definition decimal_error (name : string) : exn :=
  ValueError (name +:+ " must be a finite positive number").

(** [_decimal] *)
Definition krx_decimal (value : pynum) (name : string) : res dec :=
  match decimal_of value with
  | Some (DFin d) => if 0 <? d_coef d then Ok d else Err (decimal_error name)
  | _ => Err (decimal_error name)
  end.

Definition tick_of (value : dec) : Z :=
  if dec_ltb value (dec_int 2000) then 1
  else if dec_ltb value (dec_int 5000) then 5
  else if dec_ltb value (dec_int 20000) then 10
  else if dec_ltb value (dec_int 50000) then 50
  else if dec_ltb value (dec_int 200000) then 100
  else if dec_ltb value (dec_int 500000) then 500
  else 1000.

Definition krx_tick_size (price : pynum) : res Z :=
  value ← krx_decimal price "price"; Ok (tick_of value).

Definition normalize_krx_limit_price (price : pynum) (side : string) : res Z :=
  value ← krx_decimal price "price";
  let side_value := lower side in
  let buy := String.eqb side_value "buy" || String.eqb side_value "b" in
  let sell := String.eqb side_value "sell" || String.eqb side_value "s" in
  _ ← raise_if (negb (buy || sell)) (ValueError "side must be buy or sell");
  tick ← krx_tick_size (PDec (DFin value));
  q ← dec_div value (dec_int tick);
  let normalized := dec_mul (if buy then dec_floor q else dec_ceiling q) (dec_int tick) in
  _ ← raise_if (d_coef normalized <=? 0) (ValueError "normalized price must be positive");
  Ok (int_of_dec normalized).

(** The body of the [try], and its [except ValueError]: other exceptions escape. *)
Definition krx_limit_price_check (price : pynum) : res bool :=
  value ← krx_decimal price "price";
  if negb (dec_eqb value (dec_integral value)) then Ok false
  else
    tick ← krx_tick_size (PDec (DFin value));
    r ← dec_rem value (dec_int tick);
    Ok (dec_eqb r (dec_int 0)).

Definition is_valid_krx_limit_price (price : pynum) : res bool :=
  match krx_limit_price_check price with
  | Err e => if is_ValueError e then Ok false else Err e
  | r => r
  end.

Definition validate_krx_limit_price (price : pynum) : res Z :=
  normalized ← normalize_krx_limit_price price "buy";
  valid ← is_valid_krx_limit_price price;
  if valid : bool then Ok normalized
  else
    tick ← krx_tick_size price;
    Err (ValueError ("price is not a valid KRX tick price; expected tick=" +:+ str_int tick)).

Record RiskRewardCheck := mkRiskReward {
  risk_per_share : float;
  reward_per_share : float;
  ratio : float;
  stop_distance_pct : float;
}.

Definition validate_risk_reward (entry_price take_profit_price stop_loss_price : pynum)
    (minimum_ratio minimum_stop_distance_pct : float) : res RiskRewardCheck :=
  entry ← krx_decimal entry_price "entry_price";
  take_profit ← krx_decimal take_profit_price "take_profit_price";
  stop_loss ← krx_decimal stop_loss_price "stop_loss_price";
  _ ← raise_if (dec_leb take_profit entry || dec_leb entry stop_loss)
        (ValueError "long trade prices must satisfy stop_loss < entry < take_profit");
  _ ← raise_if (negb (isfinite minimum_ratio) || (minimum_ratio <=? fzero)%F)
        (ValueError "minimum_ratio must be positive");
  _ ← raise_if (negb (isfinite minimum_stop_distance_pct) || (minimum_stop_distance_pct <? fzero)%F)
        (ValueError "minimum_stop_distance_pct must be non-negative");
  let risk := dec_sub entry stop_loss in
  let reward := dec_sub take_profit entry in
  ratio ← dec_div reward risk;
  stop_distance_pct ← dec_div risk entry;
  _ ← raise_if (dec_ltb stop_distance_pct (repr_dec minimum_stop_distance_pct))
        (ValueError "stop-loss distance is below the minimum");
  _ ← raise_if (dec_ltb ratio (repr_dec minimum_ratio))
        (ValueError "risk-reward ratio is below the minimum");
  Ok (mkRiskReward (float_of_dec risk) (float_of_dec reward) (float_of_dec ratio)
        (float_of_dec stop_distance_pct)).

(** The defaults of the keyword arguments. *)
Definition default_minimum_ratio : float := f_ratio 15 10.
Definition default_minimum_stop_distance : float := f_ratio 5 1000.

Definition is_valid_risk_reward (entry_price take_profit_price stop_loss_price : pynum)
    (minimum_ratio minimum_stop_distance_pct : float) : res bool :=
  match validate_risk_reward entry_price take_profit_price stop_loss_price minimum_ratio
          minimum_stop_distance_pct with
  | Ok _ => Ok true
  | Err e => if is_ValueError e then Ok false else Err e
  end.

(** A decimal as a fraction of integers. *)
Definition units (d : dec) : Z := d_coef d * 10 ^ Z.max 0 (d_exp d).
Definition scale (d : dec) : Z := 10 ^ Z.max 0 (- d_exp d).

(** Prices whose arithmetic is exact at 28 digits: positive, below [10^24],
    with at most 24 decimal places (every KRW price is far inside). *)
Definition price_range (d : dec) : Prop :=
  0 < d_coef d /\ units d < 10 ^ 24 /\ -24 <= d_exp d.

Definition is_tick (t : Z) : Prop := t ∈ [1; 5; 10; 50; 100; 500; 1000].

(** ** Lemmas *)

Lemma scale_pos d : 0 < scale d.
Proof. unfold scale. apply Z.pow_pos_nonneg; lia. Qed.

Lemma units_pos d : 0 < d_coef d -> 0 < units d.
Proof. intros H. unfold units. apply Z.mul_pos_pos; [done|]. apply Z.pow_pos_nonneg; lia. Qed.

Lemma dec_align_int d n :
  dec_align d (dec_int n) = (units d, n * scale d, Z.min (d_exp d) 0).
Proof.
  unfold dec_align, units, scale, dec_int. cbn [d_coef d_exp].
  destruct (Z.le_ge_cases 0 (d_exp d)); [rewrite Z.min_r, !Z.max_r, Z.max_l by lia|
    rewrite Z.min_l, Z.max_l, Z.max_r by lia]; repeat f_equal; lia.
Qed.

Lemma dec_ltb_int d n : dec_ltb d (dec_int n) = (units d <? n * scale d).
Proof. unfold dec_ltb, dec_cmp. rewrite dec_align_int. unfold Z.ltb. by destruct (_ ?= _). Qed.

Lemma tick_of_spec d : is_tick (tick_of d).
Proof. unfold tick_of, is_tick. repeat case_match; set_solver. Qed.

Lemma is_tick_range t : is_tick t -> 1 <= t <= 1000 /\ exists m, 1000 = t * m /\ 1 <= m <= 1000.
Proof.
  unfold is_tick. rewrite !elem_of_cons, elem_of_nil.
  intros [->|[->|[->|[->|[->|[->|[->|[]]]]]]]]; (split; [lia|]);
    [exists 1000|exists 200|exists 100|exists 20|exists 10|exists 2|exists 1]; lia.
Qed.

Lemma dec_eqb_int0 r e : dec_eqb (mkDec r e) (dec_int 0) = (r =? 0).
Proof.
  unfold dec_eqb, dec_cmp. rewrite dec_align_int. unfold units. cbn [d_coef d_exp].
  rewrite Z.mul_0_l. assert (Hp : 0 < 10 ^ Z.max 0 e) by (apply Z.pow_pos_nonneg; lia).
  destruct (Z.compare_spec (r * 10 ^ Z.max 0 e) 0) as [E|E|E]; destruct (Z.eqb_spec r 0); try done; nia.
Qed.

(** *** The quotient of a price by a tick is exact *)

Lemma pow10_pos k : 0 <= k -> 0 < 10 ^ k.
Proof. intros. apply Z.pow_pos_nonneg; lia. Qed.

Lemma drop_exact k q c : 0 <= k -> 0 <= q -> q = c * 10 ^ k -> drop_half_even k q = c.
Proof.
  intros Hk Hq E. pose proof (pow10_pos k Hk) as Hp. unfold drop_half_even.
  rewrite Z.abs_eq by done.
  assert (Hd : q / 10 ^ k = c) by (rewrite E; apply Z.div_mul; lia).
  assert (Hm : q mod 10 ^ k = 0) by (rewrite E; apply Z.mod_mul; lia).
  cbv zeta. rewrite Hd, Hm. rewrite Z.mul_0_r.
  replace (10 ^ k <? 0) with false by (symmetry; apply Z.ltb_ge; lia).
  replace (0 =? 10 ^ k) with false by (symmetry; apply Z.eqb_neq; lia). cbn [orb andb].
  assert (0 <= c) by nia. destruct (Z.eq_dec c 0) as [->|Hc]; [lia|].
  assert (0 < q) by nia. rewrite Z.sgn_pos by done. lia.
Qed.

(** Both digits kept and digits dropped, as one power of ten. *)
Lemma dec_fix_exact q e s c0 : 0 <= s -> 0 < c0 < 10 ^ PREC -> q = c0 * 10 ^ s ->
  exists c k, dec_fix (mkDec q e) = mkDec c (e + k) /\ 0 <= k <= s /\ q = c * 10 ^ k /\
    (ndigits q <= PREC \/ 10 ^ (PREC - 1) <= c).
Proof.
  intros Hs Hc E. unfold dec_fix. cbn [d_coef d_exp]. pose proof (pow10_pos s Hs) as Hp.
  destruct (Z.leb_spec (ndigits q) PREC) as [Hn|Hn].
  - exists q, 0. rewrite Z.add_0_r. split_and!; [done|lia|lia|lia|by left].
  - set (k := ndigits q - PREC) in *.
    assert (Hq : q <> 0) by nia. destruct (ndigits_spec q Hq) as [[Hlo _] _].
    assert (Hk : k <= s).
    { assert (Hb : ndigits q <= PREC + s); [|lia]. apply ndigits_le; [unfold PREC; lia|].
      rewrite Z.pow_add_r by (unfold PREC in *; lia). rewrite Z.abs_eq by nia. nia. }
    assert (E' : q = c0 * 10 ^ (s - k) * 10 ^ k).
    { rewrite E. rewrite <- Z.mul_assoc, <- Z.pow_add_r by lia. do 2 f_equal. lia. }
    exists (c0 * 10 ^ (s - k)), k. split_and!; [|lia|lia|done|right].
    + f_equal. apply drop_exact; [lia|nia|done].
    + rewrite Z.abs_eq in Hlo by nia. replace (ndigits q - 1) with ((PREC - 1) + k) in Hlo by lia.
      rewrite Z.pow_add_r in Hlo by (unfold PREC in *; lia). rewrite E' in Hlo at 1.
      pose proof (pow10_pos k ltac:(lia)). nia.
Qed.

Lemma coef_lt d : price_range d -> d_coef d < 10 ^ 24.
Proof.
  intros (H1 & H2 & _). unfold units in H2. pose proof (pow10_pos (Z.max 0 (d_exp d)) ltac:(lia)). nia.
Qed.

Lemma dec_quot_tick d t : price_range d -> is_tick t ->
  exists c e, dec_quot d (dec_int t) = mkDec c (- e) /\ 0 < c /\ 0 <= e /\
    c * (t * scale d) = units d * 10 ^ e.
Proof.
  intros Hr Ht. pose proof (coef_lt d Hr) as Hc. destruct Hr as (Hpos & Hu & Hexp).
  destruct (is_tick_range t Ht) as (Ht1 & m & Hm & Hm1).
  unfold dec_quot, dec_int. cbn [d_coef d_exp].
  destruct (ndigits_spec (d_coef d) ltac:(lia)) as [[Hn1 Hn2] Hn3].
  destruct (ndigits_spec t ltac:(lia)) as [[Hk1 Hk2] Hk3].
  assert (Hn4 : ndigits (d_coef d) <= 24) by (apply ndigits_le; lia).
  rewrite Z.abs_eq in Hn1, Hn2, Hk1, Hk2 by lia. rewrite !Z.abs_eq by lia.
  set (s := ndigits t - ndigits (d_coef d) + PREC + 1).
  assert (Hs : 6 <= s) by (unfold s, PREC; lia).
  rewrite Z.max_r, Z.max_l by lia. change (10 ^ 0) with 1. rewrite Z.mul_1_r.
  assert (Hop : d_coef d * 10 ^ s = (d_coef d * m * 10 ^ (s - 3)) * t).
  { replace (10 ^ s) with (1000 * 10 ^ (s - 3)); [rewrite Hm; ring|].
    change 1000 with (10 ^ 3). rewrite <- Z.pow_add_r by lia. f_equal. lia. }
  rewrite Hop, Z.div_mul, Z.mod_mul by lia. cbn [Z.eqb negb andb].
  rewrite !Z.sgn_pos by lia. rewrite ?Z.mul_1_l, ?Z.sub_0_r.
  set (q := d_coef d * m * 10 ^ (s - 3)) in *.
  assert (Hq : 10 ^ PREC <= q).
  { assert (10 ^ (ndigits (d_coef d) - 1) * 10 ^ s <= q * t) by (rewrite <- Hop; pose proof (pow10_pos s); nia).
    rewrite <- Z.pow_add_r in H by lia.
    replace (ndigits (d_coef d) - 1 + s) with (PREC + ndigits t) in H by (unfold s; lia).
    rewrite Z.pow_add_r in H by (unfold PREC; lia).
    pose proof (pow10_pos PREC ltac:(unfold PREC; lia)). nia. }
  destruct (dec_fix_exact q (d_exp d - s) (s - 3) (d_coef d * m)) as (c & k & -> & Hk & Ec & Hor);
    [lia|unfold PREC; nia|done|].
  destruct Hor as [Hle|Hc27].
  { exfalso. assert (q < 10 ^ PREC); [|lia]. destruct (ndigits_spec q ltac:(lia)) as [[_ H] _].
    rewrite Z.abs_eq in H by lia. eapply Z.lt_le_trans; [exact H|]. apply Z.pow_le_mono_r; lia. }
  pose proof (pow10_pos k ltac:(lia)) as Hpk. pose proof (pow10_pos s ltac:(lia)) as Hps.
  assert (Ekey : c * t * 10 ^ k = d_coef d * 10 ^ s) by (rewrite Hop, Ec; ring).
  assert (He : d_exp d - s + k < 0).
  { destruct (Z.lt_ge_cases (d_exp d - s + k) 0) as [|Hge]; [done|exfalso].
    assert (Hx : d_coef d * 10 ^ (d_exp d) = c * t * 10 ^ (d_exp d - s + k)).
    { apply (Z.mul_cancel_r _ _ (10 ^ s)); [lia|].
      transitivity (c * t * 10 ^ k * 10 ^ d_exp d); [rewrite Ekey; ring|].
      rewrite <- !Z.mul_assoc. rewrite <- !Z.pow_add_r by lia. do 3 f_equal. lia. }
    unfold units in Hu. rewrite Z.max_r in Hu by lia. rewrite Hx in Hu.
    pose proof (pow10_pos (d_exp d - s + k) Hge). unfold PREC in Hc27.
    assert (10 ^ 24 <= 10 ^ (28 - 1)) by (apply Z.pow_le_mono_r; lia). nia. }
  exists c, (s - k - d_exp d). split_and!; [f_equal; lia|nia|lia|].
  unfold scale, units.
  apply (Z.mul_cancel_r _ _ (10 ^ k)); [lia|].
  transitivity (c * t * 10 ^ k * 10 ^ Z.max 0 (- d_exp d)); [ring|]. rewrite Ekey.
  rewrite <- !Z.mul_assoc. f_equal. rewrite <- !Z.pow_add_r by lia. f_equal. lia.
Qed.

(** Division of equal fractions. *)
Lemma div_cross a b x y : 0 < b -> 0 < y -> a * y = x * b -> a / b = x / y.
Proof.
  intros Hb Hy E. rewrite <- (Z.div_mul_cancel_r a b y), <- (Z.div_mul_cancel_r x y b) by lia.
  rewrite E. f_equal. ring.
Qed.

Lemma dec_floor_tick d t : price_range d -> is_tick t ->
  dec_floor (dec_quot d (dec_int t)) = dec_int (units d / (t * scale d)).
Proof.
  intros Hr Ht. destruct (dec_quot_tick d t Hr Ht) as (c & e & -> & Hc & He & E).
  pose proof (is_tick_range t Ht). pose proof (scale_pos d).
  unfold dec_floor. cbn [d_coef d_exp].
  assert (Hd : c / 10 ^ e = units d / (t * scale d)) by (apply div_cross; [apply pow10_pos; lia|nia|done]).
  destruct (Z.leb_spec 0 (- e)) as [He'|He'].
  - assert (e = 0) as -> by lia. change (10 ^ 0) with 1 in Hd. rewrite Z.div_1_r in Hd. by rewrite Hd.
  - rewrite Z.opp_involutive. by rewrite Hd.
Qed.

Lemma dec_ceiling_tick d t : price_range d -> is_tick t ->
  dec_ceiling (dec_quot d (dec_int t)) = dec_int (- (- units d / (t * scale d))).
Proof.
  intros Hr Ht. destruct (dec_quot_tick d t Hr Ht) as (c & e & -> & Hc & He & E).
  pose proof (is_tick_range t Ht). pose proof (scale_pos d).
  unfold dec_ceiling. cbn [d_coef d_exp].
  assert (Hd : - c / 10 ^ e = - units d / (t * scale d)) by (apply div_cross; [apply pow10_pos; lia|nia|nia]).
  destruct (Z.leb_spec 0 (- e)) as [He'|He'].
  - assert (e = 0) as -> by lia. change (10 ^ 0) with 1 in Hd. rewrite Z.div_1_r in Hd.
    unfold dec_int. f_equal. lia.
  - rewrite Z.opp_involutive. by rewrite Hd.
Qed.

Lemma dec_mul_int a b : Z.abs (a * b) < 10 ^ PREC -> dec_mul (dec_int a) (dec_int b) = dec_int (a * b).
Proof. intros H. unfold dec_mul, dec_int. cbn [d_coef d_exp]. by apply dec_fix_small. Qed.

(** *** Validity *)

Lemma dec_eqb_integral d : price_range d -> dec_eqb d (dec_integral d) = (units d mod scale d =? 0).
Proof.
  intros (Hpos & _ & _). unfold dec_integral. destruct (Z.leb_spec 0 (d_exp d)) as [H|H].
  - assert (Hs : scale d = 1) by (unfold scale; by rewrite Z.max_l by lia).
    rewrite Hs, Z.mod_1_r. unfold dec_eqb, dec_cmp, dec_align. by rewrite Z.compare_refl.
  - unfold dec_eqb, dec_cmp. fold (dec_int (drop_half_even (- d_exp d) (d_coef d))). rewrite dec_align_int.
    assert (Hu : units d = d_coef d) by (unfold units; rewrite Z.max_l by lia; lia).
    assert (Hs : scale d = 10 ^ (- d_exp d)) by (unfold scale; by rewrite Z.max_r by lia).
    pose proof (scale_pos d) as Hp. rewrite Hu. rewrite Hs in *. set (p := 10 ^ (- d_exp d)) in *.
    pose proof (Z.div_mod (d_coef d) p ltac:(lia)) as Hdm.
    destruct (Z.eqb_spec (d_coef d mod p) 0) as [E|E].
    + assert (Hd : d_coef d = d_coef d / p * 10 ^ (- d_exp d)) by (fold p; lia).
      rewrite (drop_exact (- d_exp d) (d_coef d) (d_coef d / p)) by (try done; lia).
      replace (d_coef d / p * p) with (d_coef d) by lia. by rewrite Z.compare_refl.
    + destruct (Z.compare_spec (d_coef d) (drop_half_even (- d_exp d) (d_coef d) * p)) as [C|C|C]; try done.
      exfalso. apply E. rewrite C. by apply Z.mod_mul; lia.
Qed.

Lemma krx_limit_price_check_spec price d :
  decimal_of price = Some (DFin d) -> price_range d ->
  krx_limit_price_check price = Ok (units d mod (tick_of d * scale d) =? 0).
Proof.
  intros Hd Hr. assert (Hr' := Hr). destruct Hr' as (Hpos & Hu & Hexp).
  unfold krx_limit_price_check, krx_tick_size, krx_decimal. rewrite Hd. cbn [decimal_of].
  apply Z.ltb_lt in Hpos as Hpos'. rewrite Hpos'. cbn [mbind res_bind].
  pose proof (is_tick_range _ (tick_of_spec d)) as (Ht & _). pose proof (scale_pos d) as Hs.
  rewrite dec_eqb_integral by done.
  destruct (Z.eqb_spec (units d mod scale d) 0) as [E|E]; cbn [negb].
  - rewrite Hpos'. cbn [mbind res_bind]. unfold dec_rem. change (d_coef (dec_int (tick_of d))) with (tick_of d). replace (tick_of d =? 0) with false by (symmetry; apply Z.eqb_neq; lia).
    rewrite dec_align_int. pose proof (units_pos d Hpos) as Hup.
    set (y := tick_of d * scale d) in *. assert (0 < y) by nia.
    assert (units d / y <= units d) by (apply Z.div_le_upper_bound; nia).
    assert (10 ^ 24 <= 10 ^ PREC) by (apply Z.pow_le_mono_r; unfold PREC; lia).
    replace (10 ^ PREC <=? units d / y) with false by (symmetry; apply Z.leb_gt; lia).
    cbn [mbind res_bind].
    assert (Hm : 0 <= units d mod y < y) by (apply Z.mod_pos_bound; lia).
    assert (Hm' : units d mod y <= units d) by (apply Z.mod_le; lia).
    rewrite dec_fix_small by (cbn [d_coef]; lia).
    by rewrite dec_eqb_int0.
  - f_equal. symmetry. apply Z.eqb_neq. intros C. apply E.
    apply Z.mod_divide; [lia|]. apply Z.mod_divide in C; [|nia]. destruct C as [x Hx]. exists (x * tick_of d).
    rewrite Hx. ring.
Qed.

Lemma is_valid_spec price d :
  decimal_of price = Some (DFin d) -> price_range d ->
  is_valid_krx_limit_price price = Ok (units d mod (tick_of d * scale d) =? 0).
Proof. intros. unfold is_valid_krx_limit_price. by rewrite (krx_limit_price_check_spec price d). Qed.

Lemma price_range_int n : 0 < n < 10 ^ 24 -> price_range (dec_int n).
Proof. intros H. split_and!; cbn -[Z.pow]; [lia| |lia]. unfold units. cbn [d_coef d_exp dec_int]. change (10 ^ Z.max 0 0) with 1. lia. Qed.

Lemma cancel_scale a b u k : 0 < k -> a * k <= u -> u < b * k -> a < b.
Proof. intros. nia. Qed.

(** The ladder at an integer. *)
Lemma tick_of_int n : tick_of (dec_int n) =
  if n <? 2000 then 1 else if n <? 5000 then 5 else if n <? 20000 then 10 else if n <? 50000 then 50
  else if n <? 200000 then 100 else if n <? 500000 then 500 else 1000.
Proof.
  unfold tick_of. rewrite !dec_ltb_int. unfold units, scale. cbn [dec_int d_coef d_exp].
  change (10 ^ Z.max 0 0) with 1. change (10 ^ Z.max 0 (- 0)) with 1. by rewrite !Z.mul_1_r.
Qed.

(** Discards the bands below a known lower bound. *)
Ltac lower_bands :=
  repeat match goal with
    | |- context [?a <? ?b] => destruct (Z.ltb_spec a b); [exfalso; lia|]
    end.

(** A multiple of the tick of a price that is less than one tick away from it
    is on the ladder, also when it reaches the next band. *)
Lemma near_multiple_on_ladder d q : price_range d -> 0 < q ->
  (q - 1) * (tick_of d * scale d) < units d < (q + 1) * (tick_of d * scale d) ->
  (tick_of d * q) mod tick_of (dec_int (tick_of d * q)) = 0.
Proof.
  intros (Hpos & _ & _) Hq H. pose proof (scale_pos d) as Hs. rewrite tick_of_int.
  unfold tick_of in *. rewrite !dec_ltb_int in *.
  set (u := units d) in *. set (k := scale d) in *. clearbody u k.
  destruct (Z.ltb_spec u (2000 * k)).
  { destruct (Z.ltb_spec (1 * q) 2000); [by apply Z.mod_1_r|].
    assert (q - 1 < 2000) by nia. replace (1 * q) with 2000 by lia. done. }
  destruct (Z.ltb_spec u (5000 * k)).
  { assert (2000 <= 5 * q <= 5000) by nia. lower_bands.
    destruct (Z.ltb_spec (5 * q) 5000); [rewrite Z.mul_comm; by apply Z.mod_mul|].
    by replace (5 * q) with 5000 by lia. }
  destruct (Z.ltb_spec u (20000 * k)).
  { assert (5000 <= 10 * q <= 20000) by nia. lower_bands.
    destruct (Z.ltb_spec (10 * q) 20000); [rewrite Z.mul_comm; by apply Z.mod_mul|].
    by replace (10 * q) with 20000 by lia. }
  destruct (Z.ltb_spec u (50000 * k)).
  { assert (20000 <= 50 * q <= 50000) by nia. lower_bands.
    destruct (Z.ltb_spec (50 * q) 50000); [rewrite Z.mul_comm; by apply Z.mod_mul|].
    by replace (50 * q) with 50000 by lia. }
  destruct (Z.ltb_spec u (200000 * k)).
  { assert (50000 <= 100 * q <= 200000) by nia. lower_bands.
    destruct (Z.ltb_spec (100 * q) 200000); [rewrite Z.mul_comm; by apply Z.mod_mul|].
    by replace (100 * q) with 200000 by lia. }
  destruct (Z.ltb_spec u (500000 * k)).
  { assert (200000 <= 500 * q <= 500000) by nia. lower_bands.
    destruct (Z.ltb_spec (500 * q) 500000); [rewrite Z.mul_comm; by apply Z.mod_mul|].
    by replace (500 * q) with 500000 by lia. }
  assert (500000 <= 1000 * q) by nia. lower_bands.
  rewrite Z.mul_comm. by apply Z.mod_mul.
Qed.

(** What the normalisation computes. *)
Lemma normalize_eq price d side (buy : bool) :
  decimal_of price = Some (DFin d) -> price_range d ->
  (if buy then lower side = "buy" \/ lower side = "b" else lower side = "sell" \/ lower side = "s") ->
  let n := tick_of d * (if buy then units d / (tick_of d * scale d) else - (- units d / (tick_of d * scale d))) in
  normalize_krx_limit_price price side =
    if n <=? 0 then Err (ValueError "normalized price must be positive") else Ok n.
Proof.
  intros Hd Hr Hside n. assert (Hr' := Hr). destruct Hr' as (Hpos & Hu & _).
  pose proof (is_tick_range _ (tick_of_spec d)) as (Ht & _). pose proof (scale_pos d) as Hs.
  pose proof (units_pos d Hpos) as Hup. apply Z.ltb_lt in Hpos as Hpos'.
  unfold normalize_krx_limit_price, krx_tick_size, krx_decimal. rewrite Hd. cbn [decimal_of].
  rewrite Hpos'. cbn [mbind res_bind].
  assert (Hsd : String.eqb (lower side) "buy" || String.eqb (lower side) "b" = buy /\
    (buy = false -> String.eqb (lower side) "sell" || String.eqb (lower side) "s" = true)).
  { destruct buy, Hside as [-> | ->]; done. }
  destruct Hsd as [-> Hsell].
  assert (Hok : negb (buy || (String.eqb (lower side) "sell" || String.eqb (lower side) "s")) = false)
    by (destruct buy; [done|by rewrite Hsell]).
  rewrite Hok. cbn [raise_if mbind res_bind]. rewrite Hpos'. cbn [mbind res_bind].
  unfold dec_div. change (d_coef (dec_int (tick_of d))) with (tick_of d).
  replace (tick_of d =? 0) with false by (symmetry; apply Z.eqb_neq; lia). cbn [mbind res_bind].
  set (y := tick_of d * scale d) in *. assert (Hy : 0 < y) by (unfold y; nia).
  pose proof (Z.div_mod (units d) y ltac:(lia)). pose proof (Z.mod_pos_bound (units d) y Hy).
  pose proof (Z.div_mod (- units d) y ltac:(lia)). pose proof (Z.mod_pos_bound (- units d) y Hy).
  set (q := if buy then units d / y else - (- units d / y)).
  assert (Hround : (if buy then dec_floor (dec_quot d (dec_int (tick_of d)))
      else dec_ceiling (dec_quot d (dec_int (tick_of d)))) = dec_int q).
  { unfold q. destruct buy; [apply dec_floor_tick|apply dec_ceiling_tick]; auto using tick_of_spec. }
  rewrite Hround.
  assert (Hbound : Z.abs (q * tick_of d) < 10 ^ PREC).
  { assert (Hlt : 10 ^ 24 * 1000 + 1000 <= 10 ^ PREC) by (vm_compute; congruence).
    assert (0 <= q <= units d + 1) by (unfold q; destruct buy; nia). nia. }
  rewrite dec_mul_int by done. unfold dec_int, int_of_dec. cbn [d_coef d_exp].
  assert (En : n = q * tick_of d) by (unfold n, q; fold y; destruct buy; ring). rewrite <- En.
  change (0 <=? 0) with true. change (10 ^ 0) with 1. rewrite Z.mul_1_r. by destruct (n <=? 0).
Qed.

(** A normalised price is a valid one. *)
Lemma normalized_valid d q : price_range d -> 0 < q ->
  (q - 1) * (tick_of d * scale d) < units d < (q + 1) * (tick_of d * scale d) ->
  is_valid_krx_limit_price (PInt (tick_of d * q)) = Ok true.
Proof.
  intros Hr Hq H. pose proof (near_multiple_on_ladder d q Hr Hq H) as Hm.
  pose proof (is_tick_range _ (tick_of_spec d)) as (Ht & _). pose proof (scale_pos d) as Hs.
  assert (Hz : 0 < tick_of d * q) by nia.
  unfold is_valid_krx_limit_price, krx_limit_price_check, krx_tick_size, krx_decimal. cbn [decimal_of].
  change (d_coef (dec_int (tick_of d * q))) with (tick_of d * q).
  apply Z.ltb_lt in Hz as Hz'. rewrite Hz'. cbn [mbind res_bind].
  unfold dec_integral. change (0 <=? d_exp (dec_int (tick_of d * q))) with true. cbn iota.
  unfold dec_eqb at 1, dec_cmp at 1, dec_align at 1. rewrite Z.compare_refl. cbn [negb].
  change (d_coef (dec_int (tick_of d * q))) with (tick_of d * q). rewrite Hz'. cbn [mbind res_bind].
  set (n := tick_of d * q) in *.
  pose proof (is_tick_range _ (tick_of_spec (dec_int n))) as (Ht' & _). set (t' := tick_of (dec_int n)) in *.
  unfold dec_rem. change (d_coef (dec_int t')) with t'.
  replace (t' =? 0) with false by (symmetry; apply Z.eqb_neq; lia). rewrite dec_align_int.
  unfold units, scale. change (d_coef (dec_int n)) with n. change (d_exp (dec_int n)) with 0.
  change (10 ^ Z.max 0 0) with 1. change (10 ^ Z.max 0 (- 0)) with 1. rewrite !Z.mul_1_r, Hm.
  assert (Hb : n / t' < 10 ^ PREC).
  { destruct Hr as (_ & Hu & _). apply Z.div_lt_upper_bound; [lia|].
    assert (Hlt : 10 ^ 24 + 1000 <= 10 ^ PREC) by (vm_compute; congruence).
    assert (n < 10 ^ 24 + 1000); [|nia]. unfold n. nia. }
  replace (10 ^ PREC <=? n / t') with false by (symmetry; apply Z.leb_gt; lia).
  cbn [mbind res_bind]. rewrite dec_fix_small by (cbn -[Z.pow]; unfold PREC; lia).
  by rewrite dec_eqb_int0.
Qed.

(** ** Properties *)

(** Fact: a price is normalised to the tick ladder: a BUY to the largest multiple
    of its tick not above it (an error when that is zero), a SELL to the
    smallest multiple not below it; the result is a price
    [is_valid_krx_limit_price] accepts, also when the rounding reaches the next
    band of the ladder. *)
Theorem normalize_krx_limit_price_spec price d side (buy : bool) :
  decimal_of price = Some (DFin d) -> price_range d ->
  (if buy then lower side = "buy" \/ lower side = "b" else lower side = "sell" \/ lower side = "s") ->
  let t := tick_of d in
  if buy && (units d <? t * scale d)
  then normalize_krx_limit_price price side = Err (ValueError "normalized price must be positive")
  else exists n, normalize_krx_limit_price price side = Ok n /\ (t | n) /\ 0 < n /\
    (if buy then n * scale d <= units d < (n + t) * scale d
     else (n - t) * scale d < units d <= n * scale d) /\
    is_valid_krx_limit_price (PInt n) = Ok true.
Proof.
  intros Hd Hr Hside t. pose proof (normalize_eq price d side buy Hd Hr Hside) as E. cbv zeta in E.
  assert (Hr' := Hr). destruct Hr' as (Hpos & _ & _).
  pose proof (is_tick_range _ (tick_of_spec d)) as (Ht & _). pose proof (scale_pos d) as Hs.
  pose proof (units_pos d Hpos) as Hup. fold t in E, Ht.
  set (y := t * scale d) in *. assert (Hy : 0 < y) by (unfold y; nia).
  pose proof (Z.div_mod (units d) y ltac:(lia)). pose proof (Z.mod_pos_bound (units d) y Hy).
  pose proof (Z.div_mod (- units d) y ltac:(lia)). pose proof (Z.mod_pos_bound (- units d) y Hy).
  set (q := if buy then units d / y else - (- units d / y)) in *.
  destruct (buy && (units d <? y)) eqn:Eb.
  - apply andb_true_iff in Eb as [-> Hlt%Z.ltb_lt].
    assert (q = 0) as Hq by (apply Z.div_small; lia). rewrite E, Hq, Z.mul_0_r. done.
  - assert (Hq : 0 < q).
    { unfold q. destruct buy; cbn in Eb; [apply Z.ltb_ge in Eb; nia|nia]. }
    replace (t * q <=? 0) with false in E by (symmetry; apply Z.leb_gt; nia).
    exists (t * q). split_and!; [done|by exists q; ring|nia| |].
    + unfold q, y in *. destruct buy; nia.
    + apply normalized_valid; [done|done|]. fold t y. unfold q. destruct buy; nia.
Qed.

(** Fact: [validate_krx_limit_price] accepts exactly the integral multiples of
    their own tick, and returns the price unchanged. *)
Theorem validate_krx_limit_price_spec price d n :
  decimal_of price = Some (DFin d) -> price_range d ->
  validate_krx_limit_price price = Ok n <-> n * scale d = units d /\ (tick_of d | n).
Proof.
  intros Hd Hr. unfold validate_krx_limit_price.
  rewrite (normalize_eq price d "buy" true) by auto. rewrite (is_valid_spec price d) by done.
  assert (Hr' := Hr). destruct Hr' as (Hpos & _ & _).
  pose proof (is_tick_range _ (tick_of_spec d)) as (Ht & _). pose proof (scale_pos d) as Hs.
  pose proof (units_pos d Hpos) as Hup. set (t := tick_of d) in *.
  set (y := t * scale d) in *. assert (Hy : 0 < y) by (unfold y; nia). cbv zeta.
  pose proof (Z.div_mod (units d) y ltac:(lia)) as Hdm. pose proof (Z.mod_pos_bound (units d) y Hy).
  split.
  - intros H1. apply bind_Ok in H1 as (m & Hm & H1). destruct (_ <=? 0); [done|]. injection Hm as <-.
    cbn [mbind res_bind] in H1. destruct (Z.eqb_spec (units d mod y) 0) as [E|E].
    + injection H1 as <-. split; [unfold y in *; nia|by exists (units d / y); ring].
    + unfold krx_tick_size, krx_decimal in H1. rewrite Hd in H1. by destruct (0 <? d_coef d).
  - intros [Hn [x ->]]. assert (Hx : units d = x * y) by (unfold y; rewrite <- Hn; ring).
    rewrite Hx, Z.div_mul, Z.mod_mul by lia. assert (0 < x) by nia.
    replace (t * x <=? 0) with false by (symmetry; apply Z.leb_gt; nia).
    cbn. f_equal. ring.
Qed.

(** Fact: an integral price of [10^31] or more makes [is_valid_krx_limit_price]
    raise [InvalidOperation] instead of answering: the remainder by the tick
    does not fit the decimal context, and only [ValueError] is caught. *)
Theorem is_valid_krx_limit_price_escapes z :
  10 ^ 31 <= z -> is_valid_krx_limit_price (PInt z) = Err InvalidOperation.
Proof.
  intros Hz. assert (H0 : 0 < z) by lia. apply Z.ltb_lt in H0 as H0'.
  unfold is_valid_krx_limit_price, krx_limit_price_check, krx_tick_size, krx_decimal. cbn [decimal_of].
  change (d_coef (dec_int z)) with z. rewrite H0'. cbn [mbind res_bind].
  unfold dec_integral. change (0 <=? d_exp (dec_int z)) with true. cbn iota.
  unfold dec_eqb at 1, dec_cmp at 1, dec_align at 1. rewrite Z.compare_refl. cbn [negb].
  change (d_coef (dec_int z)) with z. rewrite H0'. cbn [mbind res_bind].
  pose proof (is_tick_range _ (tick_of_spec (dec_int z))) as (Ht' & _). set (t' := tick_of (dec_int z)) in *.
  unfold dec_rem. change (d_coef (dec_int t')) with t'.
  replace (t' =? 0) with false by (symmetry; apply Z.eqb_neq; lia). rewrite dec_align_int.
  unfold units, scale. change (d_coef (dec_int z)) with z. change (d_exp (dec_int z)) with 0.
  change (10 ^ Z.max 0 0) with 1. change (10 ^ Z.max 0 (- 0)) with 1. rewrite !Z.mul_1_r.
  assert (Hb : 10 ^ PREC <= z / t').
  { apply Z.div_le_lower_bound; [lia|].
    assert (10 ^ 31 = 1000 * 10 ^ PREC) by reflexivity. nia. }
  by replace (10 ^ PREC <=? z / t') with true by (symmetry; apply Z.leb_le; lia).
Qed.

(** ** Witnesses *)

Lemma w_price_range n e : 0 < n < 10 ^ 20 -> -24 <= e <= 0 -> price_range (mkDec n e).
Proof.
  intros Hn He. split_and!; cbn [d_coef d_exp]; [lia| |lia]. unfold units. cbn [d_coef d_exp].
  rewrite Z.max_l by lia. change (10 ^ 0) with 1. lia.
Qed.

(** 4998.5 won on the sell side reaches the next band. *)
Lemma normalize_krx_limit_price_spec_witness :
  exists n, normalize_krx_limit_price (PFloat (f_ratio 49985 10)) "SELL" = Ok n /\ n = 5000 /\
    is_valid_krx_limit_price (PInt n) = Ok true.
Proof.
  pose proof (normalize_krx_limit_price_spec (PFloat (f_ratio 49985 10)) (mkDec 49985 (-1)) "SELL" false
    ltac:(vm_compute; reflexivity) (w_price_range 49985 (-1) ltac:(lia) ltac:(lia)) (or_introl eq_refl)) as H.
  cbn [andb] in H. destruct H as (n & Hn & _ & _ & _ & Hv). exists n. split_and!; [done| |done].
  assert (E : normalize_krx_limit_price (PFloat (f_ratio 49985 10)) "SELL" = Ok 5000) by (vm_compute; reflexivity).
  rewrite E in Hn. by injection Hn.
Defined.

Lemma validate_krx_limit_price_spec_witness :
  validate_krx_limit_price (PFloat (f_of_Z 70100)) = Ok 70100.
Proof.
  apply (validate_krx_limit_price_spec (PFloat (f_of_Z 70100)) (mkDec 701 2) 70100).
  - vm_compute. reflexivity.
  - split_and!; vm_compute; congruence.
  - split; [vm_compute; reflexivity|]. exists 701. vm_compute. reflexivity.
Defined.

Lemma is_valid_krx_limit_price_escapes_witness :
  is_valid_krx_limit_price (PInt (10 ^ 40)) = Err InvalidOperation.
Proof. apply is_valid_krx_limit_price_escapes. apply Z.pow_le_mono_r; lia. Defined.
