(* ===== verification/ExitPolicy.v ===== *)
(** * The protective exit policy ([execution/exit_policy.py])

    Prices of SELL limit orders and the life cycle of one exit order and its
    replacements.  Every [dataclasses.replace] runs [__post_init__] again, so a
    transition is fallible here as it is in the source.  The [isinstance] guards
    on integers are the types of the model. *)

From Stdlib Require Import Floats.SpecFloat.
From S2P Require Import Prelude PyStr PyFloat PyTime PyDecimal MarketRules.

Inductive ExitOrderState :=
  | SUBMITTED | STALE | CANCEL_PENDING | CANCELLED | REJECTED | FILLED | UNKNOWN
  | OPERATOR_REVIEW | REPLACEMENT_INTENT_CREATED.

#[export] Instance exit_state_eq_dec : EqDecision ExitOrderState.
Proof. solve_decision. Defined.

Definition TERMINAL_STATES : list ExitOrderState := [CANCELLED; REJECTED; FILLED].

Definition in_states (s : ExitOrderState) (l : list ExitOrderState) : bool := bool_decide (s ∈ l).

(** ** Validators *)

Definition exit_decimal (value : pynum) (name : string) (positive : bool) : res dec :=
  match decimal_of value with
  | Some (DFin d) =>
      if (if positive then d_coef d <=? 0 else d_coef d <? 0)
      then Err (ExitPolicyError (name +:+ " must be a finite " +:+
                 (if positive then "positive" else "non-negative") +:+ " number"))
      else Ok d
  | Some _ =>
      Err (ExitPolicyError (name +:+ " must be a finite " +:+
                 (if positive then "positive" else "non-negative") +:+ " number"))
  | None => Err (ExitPolicyError (name +:+ " must be a finite number"))
  end.

Definition whole_positive (value : Z) (name : string) : res Z :=
  if value <=? 0 then Err (ExitPolicyError (name +:+ " must be a positive integer")) else Ok value.

Definition exit_symbol (value : string) : res string :=
  let symbol := strip value in
  if negb (slen symbol =? 6) || negb (isdigit symbol)
  then Err (ExitPolicyError "symbol must be a six-digit domestic stock code")
  else Ok symbol.

Definition tick_floor (price : dec) (tick_size_fn : dec -> res Z) : res (Z * Z) :=
  match tick_size_fn price with
  | Err _ => Err (ExitPolicyError "KRX tick rule failed")
  | Ok tick =>
      _ ← raise_if (tick <=? 0) (ExitPolicyError "KRX tick rule returned an invalid tick");
      let normalized := dec_mul (dec_floor (dec_quot price (dec_int tick))) (dec_int tick) in
      _ ← raise_if ((d_coef normalized <=? 0) || negb (dec_eqb normalized (dec_integral normalized)))
            (ExitPolicyError "normalized SELL price is invalid");
      Ok (int_of_dec normalized, tick)
  end.

Definition validate_order_type (order_type : string) (allow_market_order : bool) : res string :=
  let normalized := upper (strip order_type) in
  if String.eqb normalized "LIMIT" then Ok normalized
  else if String.eqb normalized "MARKET" && allow_market_order then Ok normalized
  else if String.eqb normalized "MARKET"
       then Err (ExitPolicyError "market orders are disabled by exit policy")
  else Err (ExitPolicyError "exit order type must be LIMIT").

(** ** Configuration, quotes and intents *)

Record ExitPolicyConfig := mkExitConfig {
  max_slippage_bps : float;
  max_requotes : Z;
  requote_interval_seconds : float;
  close_urgency_seconds : float;
  min_quantity : Z;
  max_quantity : Z;
  allow_market_order : bool;
}.

Definition default_exit_config : ExitPolicyConfig :=
  mkExitConfig (f_of_Z 50) 3 (f_of_Z 5) (f_of_Z 30) 1 1000000 false.

(** [ExitPolicyConfig.__post_init__] *)
Definition config_post_init (c : ExitPolicyConfig) : res ExitPolicyConfig :=
  slippage ← exit_decimal (PFloat (max_slippage_bps c)) "max_slippage_bps" false;
  _ ← raise_if (dec_leb (dec_int 10000) slippage) (ExitPolicyError "max_slippage_bps must be below 10000");
  _ ← raise_if (max_requotes c <? 0) (ExitPolicyError "max_requotes must be a non-negative integer");
  interval ← exit_decimal (PFloat (requote_interval_seconds c)) "requote_interval_seconds" false;
  _ ← raise_if (d_coef interval <=? 0) (ExitPolicyError "requote_interval_seconds must be positive");
  _ ← exit_decimal (PFloat (close_urgency_seconds c)) "close_urgency_seconds" false;
  _ ← raise_if (min_quantity c <=? 0) (ExitPolicyError "min_quantity must be a positive integer");
  _ ← raise_if (max_quantity c <? min_quantity c)
        (ExitPolicyError "max_quantity must be at least min_quantity");
  Ok c.

Record ExitQuote := mkExitQuote {
  bid : option pynum;
  ask : option pynum;
  current_price : option pynum;
}.

Record SellLimitPlan := mkSellPlan {
  sp_price : Z;
  sp_tick_size : Z;
  sp_slippage_bps : float;
  sp_source : string;
  sp_urgent : bool;
}.

Record SellOrderIntent := mkSellIntent {
  si_symbol : string;
  si_quantity : Z;
  si_price : Z;
  si_side : string;
  si_order_type : string;
  si_reason : string;
  si_requote_count : Z;
  si_replacement_of : option string;
  si_urgent : bool;
}.

(** [SellOrderIntent.__post_init__] *)
Definition intent_post_init (i : SellOrderIntent) : res SellOrderIntent :=
  s ← exit_symbol (si_symbol i);
  _ ← raise_if (negb (String.eqb s (si_symbol i)))
        (ExitPolicyError "symbol must be a six-digit domestic stock code");
  _ ← whole_positive (si_quantity i) "quantity";
  _ ← whole_positive (si_price i) "price";
  _ ← raise_if (negb (String.eqb (si_side i) "SELL") || negb (String.eqb (si_order_type i) "LIMIT"))
        (ExitPolicyError "exit intents must be SELL LIMIT orders");
  _ ← raise_if (si_requote_count i <? 0) (ExitPolicyError "requote_count must be a non-negative integer");
  Ok i.

(** A time is a [datetime] or a number of seconds. *)
Inductive exit_time := AtDatetime (d : datetime) | AtSeconds (x : float).

(** ** The policy *)

Record ExitPolicy := mkExitPolicy {
  config : ExitPolicyConfig;
  tick_size_fn : dec -> res Z;
}.

Definition default_tick_size (price : dec) : res Z := krx_tick_size (PDec (DFin price)).

Definition is_close_urgent (p : ExitPolicy) (seconds_to_close : option pynum) : res bool :=
  match seconds_to_close with
  | None => Ok false
  | Some s =>
      d ← exit_decimal s "seconds_to_close" false;
      Ok (dec_leb d (repr_dec (close_urgency_seconds (config p))))
  end.

Definition interval_elapsed (p : ExitPolicy) (last_intent_at now : option exit_time) : bool :=
  match last_intent_at, now with
  | Some l, Some n =>
      match l, n with
      | AtDatetime a, AtDatetime b =>
          match dt_sub b a with
          | Ok us => (requote_interval_seconds (config p) <=? f_ratio us 1000000)%F
          | Err _ => false
          end
      | AtSeconds a, AtSeconds b =>
          isfinite (b - a)%F && (requote_interval_seconds (config p) <=? (b - a))%F
      | _, _ => false
      end
  | _, _ => false
  end.

Definition plan_sell_limit (p : ExitPolicy) (quote : ExitQuote) (seconds_to_close : option pynum)
    : res SellLimitPlan :=
  match bid quote with
  | None => Err (ExitPolicyError "latest bid is required for a marketable SELL limit")
  | Some b =>
      bid ← exit_decimal b "bid" true;
      current ← (match current_price quote with
                 | Some c => exit_decimal c "current_price" true
                 | None => Ok bid
                 end);
      _ ← (match ask quote with
           | Some a => ask ← exit_decimal a "ask" true;
                       raise_if (dec_ltb ask bid) (ExitPolicyError "crossed quote: bid must not exceed ask")
           | None => Ok tt
           end);
      pt ← tick_floor bid (tick_size_fn p);
      let price := dec_int (fst pt) in
      let max_loss_price :=
        dec_mul current (dec_sub (dec_int 1)
          (dec_quot (repr_dec (max_slippage_bps (config p))) (dec_int 10000))) in
      _ ← raise_if (dec_ltb price max_loss_price) (ExitPolicyError "SELL price exceeds max slippage");
      let slip := dec_mul (dec_quot (dec_sub current price) current) (dec_int 10000) in
      let actual_slippage := if dec_ltb (dec_int 0) slip then slip else dec_int 0 in
      urgent ← is_close_urgent p seconds_to_close;
      Ok (mkSellPlan (fst pt) (snd pt) (float_of_dec actual_slippage) "bid" urgent)
  end.

Definition create_sell_intent (p : ExitPolicy) (symbol : string) (quantity : Z) (quote : ExitQuote)
    (reason : string) (requote_count : Z) (replacement_of : option string)
    (seconds_to_close : option pynum) (order_type : string) : res SellOrderIntent :=
  _ ← exit_symbol symbol;
  _ ← raise_if ((quantity <? min_quantity (config p)) || (max_quantity (config p) <? quantity))
        (ExitPolicyError "quantity is outside exit policy bounds");
  _ ← raise_if (negb ((0 <=? requote_count) && (requote_count <=? max_requotes (config p))))
        (ExitPolicyError "requote_count is outside exit policy bounds");
  _ ← validate_order_type order_type (allow_market_order (config p));
  plan ← plan_sell_limit p quote seconds_to_close;
  intent_post_init (mkSellIntent symbol quantity (sp_price plan) "SELL" "LIMIT"
    (if sempty (strip reason) then "exit" else strip reason) requote_count replacement_of
    (sp_urgent plan)).

(** ** The life cycle of an exit order *)

Record ExitOrderLifecycle := mkExitLifecycle {
  el_order_id : string;
  el_symbol : string;
  el_requested_quantity : Z;
  el_state : ExitOrderState;
  el_filled_quantity : Z;
  el_remaining_quantity : Z;
  el_requote_count : Z;
  el_last_intent_at : option exit_time;
}.

(** [__post_init__], once [remaining_quantity] has its default. *)
Definition lifecycle_post_init (l : ExitOrderLifecycle) : res ExitOrderLifecycle :=
  _ ← raise_if (sempty (strip (el_order_id l))) (ExitPolicyError "order_id is required");
  _ ← exit_symbol (el_symbol l);
  _ ← whole_positive (el_requested_quantity l) "requested_quantity";
  _ ← raise_if (el_filled_quantity l <? 0) (ExitPolicyError "filled_quantity must be a non-negative integer");
  _ ← raise_if (el_remaining_quantity l <? 0) (ExitPolicyError "remaining_quantity must be a non-negative integer");
  _ ← raise_if (negb (el_filled_quantity l + el_remaining_quantity l =? el_requested_quantity l))
        (ExitPolicyError "filled and remaining quantities must reconcile");
  _ ← raise_if (el_requote_count l <? 0) (ExitPolicyError "requote_count must be a non-negative integer");
  Ok l.

Record ExitTransition := mkExitTransition {
  et_lifecycle : ExitOrderLifecycle;
  et_action : string;
  et_reason : string;
  et_intent : option SellOrderIntent;
  et_operator_review : bool;
}.

Definition initial_lifecycle (p : ExitPolicy) (order_id symbol : string) (quantity : Z)
    (now : option exit_time) : res ExitOrderLifecycle :=
  _ ← raise_if ((quantity <? min_quantity (config p)) || (max_quantity (config p) <? quantity))
        (ExitPolicyError "quantity is outside exit policy bounds");
  lifecycle_post_init (mkExitLifecycle order_id symbol quantity SUBMITTED 0 quantity 0 now).

(** [replace(self, state=...)] *)
Definition with_state (l : ExitOrderLifecycle) (s : ExitOrderState) : res ExitOrderLifecycle :=
  lifecycle_post_init (mkExitLifecycle (el_order_id l) (el_symbol l) (el_requested_quantity l) s
    (el_filled_quantity l) (el_remaining_quantity l) (el_requote_count l) (el_last_intent_at l)).

Definition with_progress (l : ExitOrderLifecycle) (s : ExitOrderState) (filled remaining : Z)
    : res ExitOrderLifecycle :=
  lifecycle_post_init (mkExitLifecycle (el_order_id l) (el_symbol l) (el_requested_quantity l) s
    filled remaining (el_requote_count l) (el_last_intent_at l)).

Definition wait (l : ExitOrderLifecycle) (reason : string) : res ExitTransition :=
  Ok (mkExitTransition l "WAIT" reason None false).
Definition review (l : ExitOrderLifecycle) (reason : string) : res ExitTransition :=
  Ok (mkExitTransition l "OPERATOR_REVIEW" reason None true).

Definition mark_stale (l : ExitOrderLifecycle) : res ExitTransition :=
  if in_states (el_state l) [UNKNOWN; OPERATOR_REVIEW] then review l "unknown_order_no_action"
  else if in_states (el_state l) [CANCEL_PENDING] then wait l "cancel_pending_no_duplicate_cancel"
  else if in_states (el_state l) TERMINAL_STATES then wait l "terminal_order_no_action"
  else if in_states (el_state l) [STALE] then wait l "stale_cancel_not_yet_requested"
  else
    l' ← with_state l STALE;
    Ok (mkExitTransition l' "CANCEL_REQUIRED" "stale_sell" None false).

Definition mark_cancel_pending (l : ExitOrderLifecycle) : res ExitTransition :=
  if in_states (el_state l) [CANCEL_PENDING] then wait l "cancel_pending_no_duplicate_cancel"
  else if negb (in_states (el_state l) [STALE]) then review l "cancel_requires_stale_state"
  else
    l' ← with_state l CANCEL_PENDING;
    Ok (mkExitTransition l' "CANCEL" "cancel_requested" None false).

Definition to_unknown (l : ExitOrderLifecycle) (reason : string) : res ExitTransition :=
  l' ← with_state l UNKNOWN; review l' reason.

(** The quantities an observation states, completed from the requested one;
    [default] when it states none. *)
Definition observed_quantities (l : ExitOrderLifecycle) (filled remaining : option Z)
    (default : Z * Z) : Z * Z :=
  match filled, remaining with
  | None, None => default
  | None, Some r => (el_requested_quantity l - r, r)
  | Some f, None => (f, el_requested_quantity l - f)
  | Some f, Some r => (f, r)
  end.

Definition mismatch (l : ExitOrderLifecycle) (q : Z * Z) : bool :=
  (fst q <? 0) || (snd q <? 0) || negb (fst q + snd q =? el_requested_quantity l).

Definition terminal_state (normalized : string) : ExitOrderState :=
  if String.eqb normalized "CANCELLED" then CANCELLED
  else if String.eqb normalized "REJECTED" then REJECTED else FILLED.

Definition listed (s : string) (l : list string) : bool := existsb (String.eqb s) l.

Definition observe_broker_status (l : ExitOrderLifecycle) (status : string)
    (filled_quantity remaining_quantity : option Z) : res ExitTransition :=
  let normalized := upper (strip status) in
  if listed normalized ["TIMEOUT"; "UNKNOWN"; "ERROR"; "UNAVAILABLE"]
  then to_unknown l "broker_status_unknown"
  else if listed normalized ["UNFILLED"; "PARTIALLY_FILLED"; "ACKNOWLEDGED"; "CANCEL_PENDING"] then
    match filled_quantity, remaining_quantity with
    | None, None => wait l "terminal_confirmation_required"
    | _, _ =>
        let q := observed_quantities l filled_quantity remaining_quantity (0, 0) in
        if mismatch l q then to_unknown l "broker_quantity_mismatch"
        else
          updated ← with_progress l (el_state l) (fst q) (snd q);
          wait updated "terminal_confirmation_required"
    end
  else if negb (listed normalized ["CANCELLED"; "REJECTED"; "FILLED"])
  then to_unknown l "unrecognized_broker_status"
  else
    let is_filled := String.eqb normalized "FILLED" in
    let q := observed_quantities l filled_quantity remaining_quantity
               (if is_filled then (el_requested_quantity l, 0)
                else (el_filled_quantity l, el_remaining_quantity l)) in
    if mismatch l q || (is_filled && negb (snd q =? 0)) then to_unknown l "broker_quantity_mismatch"
    else
      terminal ← with_progress l (terminal_state normalized) (fst q) (snd q);
      Ok (mkExitTransition terminal "TERMINAL_CONFIRMED" (lower normalized +:+ "_confirmed") None false).

Definition replacement (l : ExitOrderLifecycle) (policy : ExitPolicy) (quote : ExitQuote)
    (now : option exit_time) (seconds_to_close : option pynum) (reason : string) : res ExitTransition :=
  if in_states (el_state l) [UNKNOWN; OPERATOR_REVIEW] then review l "unknown_order_no_replacement"
  else if in_states (el_state l) [CANCEL_PENDING; STALE] then wait l "terminal_confirmation_required"
  else if in_states (el_state l) [REPLACEMENT_INTENT_CREATED] then wait l "duplicate_replacement_blocked"
  else if in_states (el_state l) [FILLED] || (el_remaining_quantity l =? 0)
       then Ok (mkExitTransition l "DONE" "no_remaining_quantity" None false)
  else if negb (in_states (el_state l) [CANCELLED; REJECTED])
       then wait l "replacement_requires_terminal_cancel_or_reject"
  else if max_requotes (config policy) <=? el_requote_count l then review l "max_requotes_reached"
  else
    urgent ← is_close_urgent policy seconds_to_close;
    if negb urgent && negb (interval_elapsed policy (el_last_intent_at l) now)
    then wait l "requote_interval_not_elapsed"
    else
      intent ← create_sell_intent policy (el_symbol l) (el_remaining_quantity l) quote reason
                 (el_requote_count l + 1) (Some (el_order_id l)) seconds_to_close "LIMIT";
      next_lifecycle ← lifecycle_post_init (mkExitLifecycle (el_order_id l) (el_symbol l)
        (el_remaining_quantity l) REPLACEMENT_INTENT_CREATED 0 (el_remaining_quantity l)
        (el_requote_count l + 1) now);
      Ok (mkExitTransition next_lifecycle "CREATE_REPLACEMENT_INTENT" "terminal_cancel_confirmed"
            (Some intent) false).

(** [calculate_sell_limit_price] *)
Definition calculate_sell_limit_price (bid : pynum) (ask : option pynum) (current_price : option pynum)
    (max_slippage : float) (tick_fn : dec -> res Z) : res Z :=
  cfg ← config_post_init (mkExitConfig max_slippage 3 (f_of_Z 5) (f_of_Z 30) 1 1000000 false);
  plan ← plan_sell_limit (mkExitPolicy cfg tick_fn) (mkExitQuote (Some bid) ask current_price) None;
  Ok (sp_price plan).

(** [transition_exit_order]: the events and their arguments. *)
Definition transition_exit_order (l : ExitOrderLifecycle) (event : string) (status : option string)
    (filled_quantity remaining_quantity : option Z) : res ExitTransition :=
  let normalized := upper (strip event) in
  if String.eqb normalized "STALE" then mark_stale l
  else if listed normalized ["CANCEL"; "CANCEL_REQUESTED"; "CANCEL_PENDING"] then mark_cancel_pending l
  else if listed normalized ["STATUS"; "BROKER_STATUS"; "TERMINAL"] then
    match status with
    | None => Err (ExitPolicyError "broker status is required")
    | Some s => observe_broker_status l s filled_quantity remaining_quantity
    end
  else Err (ExitPolicyError "unsupported exit lifecycle event").

(** ** Runs of one exit chain *)

Inductive exit_event :=
  | Observe (event : string) (status : option string) (filled remaining : option Z)
  | Replace (quote : ExitQuote) (now : option exit_time) (seconds_to_close : option pynum) (reason : string).

Definition exit_step (p : ExitPolicy) (l : ExitOrderLifecycle) (e : exit_event) : res ExitTransition :=
  match e with
  | Observe event status f r => transition_exit_order l event status f r
  | Replace quote now secs reason => replacement l p quote now secs reason
  end.

(** The transitions that went through; an event that raises leaves the caller
    with the life cycle it had. *)
Inductive exit_run (p : ExitPolicy) : ExitOrderLifecycle -> list ExitTransition -> ExitOrderLifecycle -> Prop :=
  | er_nil l : exit_run p l [] l
  | er_step l e tr trs l' :
      exit_step p l e = Ok tr -> exit_run p (et_lifecycle tr) trs l' -> exit_run p l (tr :: trs) l'.

Definition count_action (a : string) (trs : list ExitTransition) : Z :=
  sum_by (fun tr => if String.eqb (et_action tr) a then 1 else 0) trs.

(** Whether a cancellation can still be requested without a new order. *)
Definition cancellable (s : ExitOrderState) : Z :=
  match s with SUBMITTED | STALE | REPLACEMENT_INTENT_CREATED => 1 | _ => 0 end.

Definition valid_lifecycle (l : ExitOrderLifecycle) : Prop := lifecycle_post_init l = Ok l.

(** ** Lemmas *)

Lemma post_init_id l l' : lifecycle_post_init l = Ok l' -> l' = l /\ valid_lifecycle l.
Proof.
  intros H. assert (E : l' = l).
  { unfold lifecycle_post_init in H. repeat (apply bind_Ok in H as (? & _ & H)). by injection H. }
  subst. done.
Qed.

Lemma valid_lifecycle_iff l : valid_lifecycle l <->
  strip (el_order_id l) <> "" /\ is_ok (exit_symbol (el_symbol l)) = true /\
  0 < el_requested_quantity l /\ 0 <= el_filled_quantity l /\ 0 <= el_remaining_quantity l /\
  el_filled_quantity l + el_remaining_quantity l = el_requested_quantity l /\ 0 <= el_requote_count l.
Proof.
  unfold valid_lifecycle, lifecycle_post_init, whole_positive, sempty.
  destruct (String.eqb_spec (strip (el_order_id l)) ""); cbn; [intuition congruence|].
  destruct (exit_symbol (el_symbol l)); cbn; [|intuition congruence].
  destruct (Z.leb_spec (el_requested_quantity l) 0); cbn; [intuition (congruence || lia)|].
  destruct (Z.ltb_spec (el_filled_quantity l) 0); cbn; [intuition (congruence || lia)|].
  destruct (Z.ltb_spec (el_remaining_quantity l) 0); cbn; [intuition (congruence || lia)|].
  destruct (Z.eqb_spec (el_filled_quantity l + el_remaining_quantity l) (el_requested_quantity l)); cbn;
    [|intuition (congruence || lia)].
  destruct (Z.ltb_spec (el_requote_count l) 0); cbn; intuition (congruence || lia).
Qed.

Lemma valid_with_progress l s f r : valid_lifecycle l -> mismatch l (f, r) = false ->
  with_progress l s f r = Ok (mkExitLifecycle (el_order_id l) (el_symbol l) (el_requested_quantity l) s f r
    (el_requote_count l) (el_last_intent_at l)).
Proof.
  intros Hv Hm. apply valid_lifecycle_iff in Hv as (H1 & H2 & H3 & H4 & H5 & H6 & H7).
  unfold mismatch in Hm. cbn in Hm. bool_to_prop.
  unfold with_progress. apply valid_lifecycle_iff. cbn. split_and!; (done || lia).
Qed.

Lemma valid_with_state l s : valid_lifecycle l ->
  with_state l s = Ok (mkExitLifecycle (el_order_id l) (el_symbol l) (el_requested_quantity l) s
    (el_filled_quantity l) (el_remaining_quantity l) (el_requote_count l) (el_last_intent_at l)).
Proof.
  intros Hv. apply valid_lifecycle_iff in Hv as (H1 & H2 & H3 & H4 & H5 & H6 & H7).
  unfold with_state. apply valid_lifecycle_iff. cbn. split_and!; (done || lia).
Qed.

Lemma in_states_true s l : in_states s l = true <-> s ∈ l.
Proof. apply bool_decide_eq_true. Qed.
Lemma in_states_false s l : in_states s l = false <-> s ∉ l.
Proof. apply bool_decide_eq_false. Qed.

(** What an observation, a stale mark or a cancel request can do: it never
    creates an intent, keeps the requote count, and a CANCEL uses up the
    possibility to cancel. *)
Definition quiet (l : ExitOrderLifecycle) (tr : ExitTransition) : Prop :=
  et_intent tr = None /\ et_action tr <> "CREATE_REPLACEMENT_INTENT" /\
  el_requote_count (et_lifecycle tr) = el_requote_count l /\
  cancellable (el_state (et_lifecycle tr)) + (if String.eqb (et_action tr) "CANCEL" then 1 else 0)
    <= cancellable (el_state l).

Lemma with_state_Ok l s l' : with_state l s = Ok l' ->
  el_state l' = s /\ el_requote_count l' = el_requote_count l.
Proof. unfold with_state. intros H. by apply post_init_id in H as [-> _]. Qed.
Lemma with_progress_Ok l s f r l' : with_progress l s f r = Ok l' ->
  el_state l' = s /\ el_requote_count l' = el_requote_count l.
Proof. unfold with_progress. intros H. by apply post_init_id in H as [-> _]. Qed.

Ltac quiet_tac :=
  repeat match goal with
    | H : with_state _ _ = Ok _ |- _ => apply with_state_Ok in H as [? ?]
    | H : with_progress _ _ _ _ = Ok _ |- _ => apply with_progress_Ok in H as [? ?]
    end;
  unfold quiet; cbn;
  repeat match goal with E : el_state _ = _ |- _ => rewrite E end;
  split_and!; try done; try lia.

Lemma to_unknown_quiet l r tr : to_unknown l r = Ok tr -> quiet l tr.
Proof.
  unfold to_unknown, review. intros H. apply bind_Ok in H as (l' & H & Hk). injection Hk as <-.
  quiet_tac. cbn. destruct (el_state l); cbn; lia.
Qed.

Lemma mark_stale_quiet l tr : mark_stale l = Ok tr -> quiet l tr.
Proof.
  unfold mark_stale, wait, review. intros H.
  destruct (in_states _ [UNKNOWN; OPERATOR_REVIEW]) eqn:Hu; [injection H as <-; by quiet_tac|].
  destruct (in_states _ [CANCEL_PENDING]) eqn:Hc; [injection H as <-; by quiet_tac|].
  destruct (in_states _ TERMINAL_STATES) eqn:Ht; [injection H as <-; by quiet_tac|].
  destruct (in_states _ [STALE]) eqn:Hs; [injection H as <-; by quiet_tac|].
  apply bind_Ok in H as (l' & H & Hk). injection Hk as <-. quiet_tac.
  clear -Hu Hc Ht Hs. destruct (el_state l); cbn; try lia; (exfalso; revert Hu Hc Ht Hs; by vm_compute).
Qed.

Lemma mark_cancel_quiet l tr : mark_cancel_pending l = Ok tr -> quiet l tr.
Proof.
  unfold mark_cancel_pending, wait, review. intros H.
  destruct (in_states _ [CANCEL_PENDING]) eqn:?; [injection H as <-; by quiet_tac|].
  destruct (negb _) eqn:Hs; [injection H as <-; by quiet_tac|].
  apply bind_Ok in H as (l' & H & Hk). injection Hk as <-.
  apply negb_false_iff, in_states_true, list_elem_of_singleton in Hs. quiet_tac.
Qed.

Lemma observe_quiet l s f r tr : observe_broker_status l s f r = Ok tr -> quiet l tr.
Proof.
  unfold observe_broker_status. intros H. cbv zeta in H.
  destruct (listed _ _); [by eapply to_unknown_quiet|].
  destruct (listed _ _).
  - assert (Hw : wait l "terminal_confirmation_required" = Ok tr -> quiet l tr)
      by (intros [= <-]; by quiet_tac).
    destruct f as [f|], r as [r|]; try (by apply Hw);
      (destruct (mismatch _ _); [by eapply to_unknown_quiet|]);
      apply bind_Ok in H as (l' & H & Hk); injection Hk as <-; quiet_tac.
  - destruct (negb _); [by eapply to_unknown_quiet|].
    destruct (_ || _); [by eapply to_unknown_quiet|].
    apply bind_Ok in H as (l' & H & Hk). injection Hk as <-. quiet_tac.
    unfold terminal_state. repeat case_match; destruct (el_state l); cbn; lia.
Qed.

Lemma transition_quiet l e s f r tr : transition_exit_order l e s f r = Ok tr -> quiet l tr.
Proof.
  unfold transition_exit_order. cbv zeta. intros H.
  destruct (String.eqb _ _); [by apply mark_stale_quiet|].
  destruct (listed _ _); [by apply mark_cancel_quiet|].
  destruct (listed _ _); [|done]. destruct s as [s|]; [|done]. by eapply observe_quiet.
Qed.

(** A replacement either does nothing or creates the next intent. *)
Definition creates (p : ExitPolicy) (l : ExitOrderLifecycle) (tr : ExitTransition) : Prop :=
  exists i, et_intent tr = Some i /\ et_action tr = "CREATE_REPLACEMENT_INTENT" /\
    el_state l ∈ [CANCELLED; REJECTED] /\ el_requote_count l < max_requotes (config p) /\
    si_symbol i = el_symbol l /\ si_quantity i = el_remaining_quantity l /\ 0 < si_quantity i /\
    si_quantity i <= max_quantity (config p) /\ 0 < si_price i /\
    si_side i = "SELL" /\ si_order_type i = "LIMIT" /\ si_requote_count i = el_requote_count l + 1 /\
    si_replacement_of i = Some (el_order_id l) /\
    el_state (et_lifecycle tr) = REPLACEMENT_INTENT_CREATED /\
    el_requested_quantity (et_lifecycle tr) = si_quantity i /\
    el_remaining_quantity (et_lifecycle tr) = si_quantity i /\
    el_filled_quantity (et_lifecycle tr) = 0 /\
    el_requote_count (et_lifecycle tr) = el_requote_count l + 1.

Lemma whole_positive_Ok v n u : whole_positive v n = Ok u -> 0 < v.
Proof. unfold whole_positive. destruct (Z.leb_spec v 0); [done|lia]. Qed.

Lemma intent_post_init_Ok i i' : intent_post_init i = Ok i' -> i' = i /\ 0 < si_quantity i /\ 0 < si_price i.
Proof.
  unfold intent_post_init. intros H. apply bind_Ok in H as (s & _ & H). apply bind_Ok in H as (? & _ & H).
  apply bind_Ok in H as (q & Hq%whole_positive_Ok & H). apply bind_Ok in H as (pr & Hp%whole_positive_Ok & H).
  do 2 (apply bind_Ok in H as (? & _ & H)). injection H as <-. done.
Qed.

Lemma create_sell_intent_Ok p sym q quote reason n repl secs ty i :
  create_sell_intent p sym q quote reason n repl secs ty = Ok i ->
  si_symbol i = sym /\ si_quantity i = q /\ 0 < q <= max_quantity (config p) /\ 0 < si_price i /\
  si_side i = "SELL" /\ si_order_type i = "LIMIT" /\ si_requote_count i = n /\
  n <= max_requotes (config p) /\ si_replacement_of i = repl /\
  exists plan, plan_sell_limit p quote secs = Ok plan /\ si_price i = sp_price plan.
Proof.
  unfold create_sell_intent. intros H. apply bind_Ok in H as (? & _ & H).
  apply bind_Ok in H as ([] & Hq%raise_if_Ok & H). apply bind_Ok in H as ([] & Hn%raise_if_Ok & H).
  apply bind_Ok in H as (? & _ & H). apply bind_Ok in H as (plan & Hplan & H).
  apply intent_post_init_Ok in H as (-> & H1 & H2). cbn in *. bool_to_prop.
  split_and!; eauto.
Qed.

Lemma replacement_cases l p quote now secs reason tr :
  replacement l p quote now secs reason = Ok tr -> quiet l tr \/ creates p l tr.
Proof.
  unfold replacement, wait, review. intros H.
  destruct (in_states _ [UNKNOWN; OPERATOR_REVIEW]); [injection H as <-; left; by quiet_tac|].
  destruct (in_states _ [CANCEL_PENDING; STALE]); [injection H as <-; left; by quiet_tac|].
  destruct (in_states _ [REPLACEMENT_INTENT_CREATED]); [injection H as <-; left; by quiet_tac|].
  destruct (_ || _); [injection H as <-; left; by quiet_tac|].
  destruct (negb _) eqn:Hs; [injection H as <-; left; by quiet_tac|].
  destruct (Z.leb_spec (max_requotes (config p)) (el_requote_count l)) as [Hm|Hm];
    [injection H as <-; left; by quiet_tac|].
  apply bind_Ok in H as (urgent & _ & H). destruct (_ && _); [injection H as <-; left; by quiet_tac|].
  apply bind_Ok in H as (i & Hi & H). apply bind_Ok in H as (next & Hnext & H). injection H as <-.
  right. apply post_init_id in Hnext as [-> _].
  apply create_sell_intent_Ok in Hi as (? & Hq & ? & ? & ? & ? & ? & ? & ? & _).
  apply negb_false_iff, in_states_true in Hs.
  exists i. cbn. split_and!; try done; lia.
Qed.

Lemma tick_floor_default d n t : price_range d -> tick_floor d default_tick_size = Ok (n, t) ->
  t = tick_of d /\ (t | n) /\ 0 < n /\ n * scale d <= units d < (n + t) * scale d /\
  is_valid_krx_limit_price (PInt n) = Ok true.
Proof.
  intros Hr H. assert (Hr' := Hr). destruct Hr' as (Hpos & Hu & _).
  pose proof (is_tick_range _ (tick_of_spec d)) as (Ht & _). pose proof (scale_pos d) as Hs.
  unfold tick_floor, default_tick_size, krx_tick_size, krx_decimal in H. cbn [decimal_of] in H.
  apply Z.ltb_lt in Hpos as Hpos'. rewrite Hpos' in H. cbn [mbind res_bind] in H.
  replace (tick_of d <=? 0) with false in H by (symmetry; apply Z.leb_gt; lia).
  cbn [raise_if mbind res_bind] in H. rewrite dec_floor_tick in H by auto using tick_of_spec.
  set (y := tick_of d * scale d) in *. assert (Hy : 0 < y) by (unfold y; nia).
  pose proof (Z.div_mod (units d) y ltac:(lia)). pose proof (Z.mod_pos_bound (units d) y Hy).
  pose proof (units_pos d Hpos) as Hup.
  set (q := units d / y) in *.
  assert (Hq : 0 <= q <= units d) by (unfold q; split; [apply Z.div_pos; lia|apply Z.div_le_upper_bound; nia]).
  assert (Hb : Z.abs (q * tick_of d) < 10 ^ PREC).
  { assert (Hlt : 10 ^ 24 * 1000 <= 10 ^ PREC) by (vm_compute; congruence). nia. }
  rewrite dec_mul_int in H by done.
  apply bind_Ok in H as ([] & Hc%raise_if_Ok & H). injection H as Hn <-.
  apply orb_false_iff in Hc as [Hc _]. change (d_coef (dec_int (q * tick_of d))) with (q * tick_of d) in Hc.
  apply Z.leb_gt in Hc.
  assert (En : n = tick_of d * q).
  { rewrite <- Hn. unfold int_of_dec, dec_int. cbn [d_coef d_exp]. change (0 <=? 0) with true.
    change (10 ^ 0) with 1. cbn iota. ring. }
  clear Hn. subst n. split_and!; [done|by exists q; ring|lia|unfold y in *; nia|unfold y in *; nia|].
  apply normalized_valid; [done|nia|]. fold y. nia.
Qed.

(** ** Properties *)

(** Fact: a replacement order is created only after the broker confirmed that the
    previous order was CANCELLED or REJECTED, for exactly the quantity that
    remained, as a SELL LIMIT order with the next requote number within the
    configured limit; the life cycle then stands for the new order. *)
Theorem replacement_only_after_terminal_cancel l p quote now secs reason tr i :
  replacement l p quote now secs reason = Ok tr -> et_intent tr = Some i ->
  el_state l ∈ [CANCELLED; REJECTED] /\
  si_quantity i = el_remaining_quantity l /\ 0 < si_quantity i <= max_quantity (config p) /\
  0 < si_price i /\ si_side i = "SELL" /\ si_order_type i = "LIMIT" /\
  si_requote_count i = el_requote_count l + 1 /\ si_requote_count i <= max_requotes (config p) /\
  el_state (et_lifecycle tr) = REPLACEMENT_INTENT_CREATED /\
  el_requested_quantity (et_lifecycle tr) = si_quantity i /\ el_filled_quantity (et_lifecycle tr) = 0.
Proof.
  intros H Hi. apply replacement_cases in H as [(Hn & _)|(i' & Hi' & Hc)]; [congruence|].
  rewrite Hi in Hi'. injection Hi' as <-. intuition (try done; lia).
Qed.

(** C33: over any sequence of broker observations, stale marks, cancel requests
    and replacement attempts on one exit chain, at most [max_requotes]
    replacement intents are created, and every CANCEL beyond the first needs a
    replacement of its own: no order of the chain is cancelled twice. *)
Theorem exit_chain_bounded p l trs l' :
  exit_run p l trs l' -> el_requote_count l = 0 -> 0 <= max_requotes (config p) ->
  count_action "CREATE_REPLACEMENT_INTENT" trs <= max_requotes (config p) /\
  count_action "CANCEL" trs <= 1 + count_action "CREATE_REPLACEMENT_INTENT" trs.
Proof.
  intros H H0 Hm.
  assert (Hc : cancellable (el_state l) <= 1) by (destruct (el_state l); cbn; lia).
  assert (G : el_requote_count l <= max_requotes (config p) ->
    el_requote_count l + count_action "CREATE_REPLACEMENT_INTENT" trs <= max_requotes (config p) /\
    count_action "CANCEL" trs <= cancellable (el_state l) + count_action "CREATE_REPLACEMENT_INTENT" trs);
    [|destruct G; lia].
  clear H0 Hc Hm. induction H as [l|l e tr trs l' He Hrun IH]; intros Hl.
  { unfold count_action. cbn. destruct (el_state l); cbn; lia. }
  assert (Hcase : quiet l tr \/ creates p l tr).
  { destruct e; cbn in He; [left; by eapply transition_quiet|by eapply replacement_cases]. }
  unfold count_action in *. cbn [sum_by].
  destruct Hcase as [(_ & Ha & Hn & Hp)|(i & _ & Ha & _ & Hlt & _ & _ & _ & _ & _ & _ & _ & _ & _ & Hs & _ & _ & _ & Hn)].
  - apply String.eqb_neq in Ha. rewrite Ha. rewrite Hn in IH. specialize (IH Hl).
    destruct (String.eqb (et_action tr) "CANCEL"); lia.
  - rewrite Ha. cbn. rewrite Hs, Hn in IH. cbn in IH. specialize (IH ltac:(lia)).
    destruct (el_state l); cbn; lia.
Qed.

(** Fact: a valid life cycle never makes an event raise, except an unknown event
    name or a missing status, and every transition leaves a valid life cycle of
    the same order whose quantities reconcile. *)
Theorem transition_exit_order_total l event status f r :
  valid_lifecycle l ->
  match transition_exit_order l event status f r with
  | Ok tr => valid_lifecycle (et_lifecycle tr) /\ el_order_id (et_lifecycle tr) = el_order_id l /\
      el_filled_quantity (et_lifecycle tr) + el_remaining_quantity (et_lifecycle tr) = el_requested_quantity l
  | Err e => e = ExitPolicyError "broker status is required" \/
             e = ExitPolicyError "unsupported exit lifecycle event"
  end.
Proof.
  intros Hv. assert (Hsum := Hv). apply valid_lifecycle_iff in Hsum as (_ & _ & _ & _ & _ & Hsum & _).
  assert (Hid : valid_lifecycle l /\ el_order_id l = el_order_id l /\
    el_filled_quantity l + el_remaining_quantity l = el_requested_quantity l) by done.
  assert (Hs : forall s, valid_lifecycle (mkExitLifecycle (el_order_id l) (el_symbol l) (el_requested_quantity l) s
      (el_filled_quantity l) (el_remaining_quantity l) (el_requote_count l) (el_last_intent_at l))).
  { intros s. pose proof (valid_with_state l s Hv) as H. by apply post_init_id in H as [_ H]. }
  assert (Hp : forall s f r, mismatch l (f, r) = false ->
      valid_lifecycle (mkExitLifecycle (el_order_id l) (el_symbol l) (el_requested_quantity l) s
        f r (el_requote_count l) (el_last_intent_at l))).
  { intros s f' r' Hm. pose proof (valid_with_progress l s f' r' Hv Hm) as H. by apply post_init_id in H as [_ H]. }
  assert (Hm : forall f r, mismatch l (f, r) = false -> f + r = el_requested_quantity l).
  { intros f' r'. unfold mismatch. cbn. intros. bool_to_prop. done. }
  assert (Hunk : forall reason, match to_unknown l reason with
    | Ok tr => valid_lifecycle (et_lifecycle tr) /\ el_order_id (et_lifecycle tr) = el_order_id l /\
      el_filled_quantity (et_lifecycle tr) + el_remaining_quantity (et_lifecycle tr) = el_requested_quantity l
    | Err e => False end).
  { intros reason. unfold to_unknown. rewrite valid_with_state by done. cbn. auto. }
  assert (Hu : forall reason, match to_unknown l reason with
    | Ok tr => valid_lifecycle (et_lifecycle tr) /\ el_order_id (et_lifecycle tr) = el_order_id l /\
      el_filled_quantity (et_lifecycle tr) + el_remaining_quantity (et_lifecycle tr) = el_requested_quantity l
    | Err e => e = ExitPolicyError "broker status is required" \/
             e = ExitPolicyError "unsupported exit lifecycle event" end).
  { intros reason. specialize (Hunk reason). by destruct (to_unknown l reason). }
  unfold transition_exit_order. cbv zeta.
  destruct (String.eqb _ "STALE").
  { unfold mark_stale, wait, review. repeat (destruct (in_states _ _); [exact Hid|]).
    rewrite valid_with_state by done. cbn. auto. }
  destruct (listed _ ["CANCEL"; _; _]).
  { unfold mark_cancel_pending, wait, review. destruct (in_states _ _); [exact Hid|].
    destruct (negb _); [exact Hid|]. rewrite valid_with_state by done. cbn. auto. }
  destruct (listed _ _); [|by right]. destruct status as [s|]; [|by left].
  unfold observe_broker_status. cbv zeta. destruct (listed _ _); [apply Hu|].
  destruct (listed _ _).
  { destruct f as [f|], r as [r|]; try exact Hid; cbn [observed_quantities];
      (destruct (mismatch _ _) eqn:E; [apply Hu|]); cbn [fst snd];
      rewrite valid_with_progress by done; cbn; auto. }
  destruct (negb _); [apply Hu|].
  set (q := observed_quantities _ _ _ _). destruct q as [qf qr].
  destruct (mismatch l (qf, qr)) eqn:E; cbn [orb]; [apply Hu|].
  destruct (_ && _); [apply Hu|]. cbn [fst snd]. rewrite valid_with_progress by done. cbn. auto.
Qed.

(** Fact: a SELL limit price planned with the KRX ladder is the bid rounded down
    to its tick: a valid limit price at most one tick below the bid, so that it
    is marketable, and never below the slippage limit. *)
Theorem plan_sell_limit_marketable p quote secs plan b d :
  plan_sell_limit p quote secs = Ok plan -> tick_size_fn p = default_tick_size ->
  bid quote = Some b -> decimal_of b = Some (DFin d) -> price_range d ->
  sp_tick_size plan = tick_of d /\ (sp_tick_size plan | sp_price plan) /\ 0 < sp_price plan /\
  sp_price plan * scale d <= units d < (sp_price plan + sp_tick_size plan) * scale d /\
  is_valid_krx_limit_price (PInt (sp_price plan)) = Ok true /\
  (forall c, (match current_price quote with Some x => exit_decimal x "current_price" true | None => Ok d end) = Ok c ->
     dec_leb (dec_mul c (dec_sub (dec_int 1) (dec_quot (repr_dec (max_slippage_bps (config p))) (dec_int 10000))))
             (dec_int (sp_price plan)) = true).
Proof.
  intros H Ht Hb Hd Hr. unfold plan_sell_limit in H. rewrite Hb in H.
  assert (Hbid : exit_decimal b "bid" true = Ok d).
  { unfold exit_decimal. rewrite Hd. destruct Hr as (Hpos & _).
    by replace (d_coef d <=? 0) with false by (symmetry; by apply Z.leb_gt). }
  rewrite Hbid in H. cbn [mbind res_bind] in H. apply bind_Ok in H as (c & Hc & H).
  apply bind_Ok in H as ([] & _ & H). apply bind_Ok in H as ([n t] & Hf & H). cbv zeta in H. cbn [fst snd] in H.
  apply bind_Ok in H as ([] & Hslip%raise_if_Ok & H). apply bind_Ok in H as (u & _ & H). apply Ok_inj in H. subst plan.
  cbn [sp_price sp_tick_size]. rewrite Ht in Hf. apply tick_floor_default in Hf as (-> & ? & ? & ? & ?); [|done].
  split_and!; try done; try lia. intros c' Hc'. rewrite Hc in Hc'. injection Hc' as <-.
  unfold dec_ltb, dec_leb, dec_cmp, dec_align in *. rewrite (Z.min_comm (d_exp (dec_mul _ _))).
  match goal with |- match ?a ?= ?b with _ => _ end = _ => rewrite (Z.compare_antisym b a) end.
  by destruct (_ ?= _).
Qed.

(** ** Witnesses *)

Definition w_policy : ExitPolicy := mkExitPolicy default_exit_config default_tick_size.
Definition w_quote : ExitQuote :=
  mkExitQuote (Some (PFloat (f_of_Z 70050))) (Some (PFloat (f_of_Z 70100))) (Some (PFloat (f_of_Z 70100))).
Definition w_life (s : ExitOrderState) : ExitOrderLifecycle :=
  mkExitLifecycle "x1" "005930" 10 s 4 6 0 (Some (AtSeconds (f_of_Z 100))).

Definition w_replaced : res ExitTransition :=
  replacement (w_life CANCELLED) w_policy w_quote (Some (AtSeconds (f_of_Z 106))) None "exit_requote".
Definition w_transition (r : res ExitTransition) : ExitTransition :=
  match r with Ok tr => tr | Err _ => mkExitTransition (w_life UNKNOWN) "" "" None true end.
Definition w_intent : SellOrderIntent :=
  mkSellIntent "005930" 6 70000 "SELL" "LIMIT" "exit_requote" 1 (Some "x1") false.

Lemma replacement_only_after_terminal_cancel_witness :
  el_state (w_life CANCELLED) ∈ [CANCELLED; REJECTED] /\ si_quantity w_intent = el_remaining_quantity (w_life CANCELLED).
Proof.
  destruct (replacement_only_after_terminal_cancel (w_life CANCELLED) w_policy w_quote
    (Some (AtSeconds (f_of_Z 106))) None "exit_requote" (w_transition w_replaced) w_intent) as (H1 & H2 & _).
  - vm_compute. reflexivity.
  - vm_compute. reflexivity.
  - by split.
Defined.

Definition w_chain : list ExitTransition :=
  let t1 := w_transition (exit_step w_policy (w_life SUBMITTED) (Observe "stale" None None None)) in
  let t2 := w_transition (exit_step w_policy (et_lifecycle t1) (Observe "cancel" None None None)) in
  let t3 := w_transition (exit_step w_policy (et_lifecycle t2) (Observe "status" (Some "cancelled") None None)) in
  let t4 := w_transition (exit_step w_policy (et_lifecycle t3)
              (Replace w_quote (Some (AtSeconds (f_of_Z 106))) None "exit_requote")) in
  [t1; t2; t3; t4].

Lemma exit_chain_bounded_witness :
  count_action "CANCEL" w_chain = 1 /\ count_action "CREATE_REPLACEMENT_INTENT" w_chain = 1 /\
  count_action "CANCEL" w_chain <= 1 + count_action "CREATE_REPLACEMENT_INTENT" w_chain.
Proof.
  split_and!; [vm_compute; reflexivity..|].
  eapply (exit_chain_bounded w_policy (w_life SUBMITTED) w_chain); [|reflexivity|vm_compute; congruence].
  eapply (er_step _ _ (Observe "stale" None None None)); [vm_compute; reflexivity|].
  eapply (er_step _ _ (Observe "cancel" None None None)); [vm_compute; reflexivity|].
  eapply (er_step _ _ (Observe "status" (Some "cancelled") None None)); [vm_compute; reflexivity|].
  eapply (er_step _ _ (Replace w_quote (Some (AtSeconds (f_of_Z 106))) None "exit_requote"));
    [vm_compute; reflexivity|].
  apply er_nil.
Defined.

Lemma transition_exit_order_total_witness :
  exists tr, transition_exit_order (w_life STALE) "status" (Some "partially_filled") (Some 5) None = Ok tr /\
    el_filled_quantity (et_lifecycle tr) + el_remaining_quantity (et_lifecycle tr) = 10.
Proof.
  pose proof (transition_exit_order_total (w_life STALE) "status" (Some "partially_filled") (Some 5) None
    ltac:(vm_compute; reflexivity)) as H.
  destruct (transition_exit_order _ _ _ _ _) as [tr|e] eqn:E; [|by vm_compute in E].
  exists tr. split; [done|]. apply H.
Defined.

Lemma plan_sell_limit_marketable_witness :
  exists plan, plan_sell_limit w_policy w_quote None = Ok plan /\ sp_price plan = 70000 /\
    is_valid_krx_limit_price (PInt (sp_price plan)) = Ok true.
Proof.
  destruct (plan_sell_limit w_policy w_quote None) as [plan|e] eqn:E; [|by vm_compute in E].
  exists plan. split; [done|].
  destruct (plan_sell_limit_marketable w_policy w_quote None plan (PFloat (f_of_Z 70050)) (mkDec 7005 1) E)
    as (_ & _ & _ & _ & Hv & _); [reflexivity|reflexivity|vm_compute; reflexivity| |].
  - split_and!; vm_compute; congruence.
  - split; [|done]. vm_compute in E. injection E as <-. vm_compute. reflexivity.
Defined.
