(* ===== verification/Bars.v ===== *)
(** * One-minute bars ([market/bar_builder.py], [market/completed_bars.py])

    The streaming builder folds ticks into the bar of the current minute; the
    materialisation aggregates the persisted ticks of a lookback range.  The
    rows of its query come grouped by symbol in an order the SQLite engine
    chooses within a symbol: [engine_order] is that choice. *)

From S2P Require Import Prelude PyStr PyFloat PyTime DbCore IsoText DbMarket.

(** ** The streaming builder *)

(** [MinuteBarBuilder._bar] is the state. *)
Definition bar_start (tick : MarketTick) : datetime := truncate_minute (tk_timestamp tick).

Definition new_bar (tick : MarketTick) : MinuteBar :=
  mkBar (tk_symbol tick) (bar_start tick) (tk_price tick) (tk_price tick) (tk_price tick) (tk_price tick)
    (tk_volume tick).

Definition same_instant (a b : datetime) : bool :=
  Bool.eqb (is_naive a) (is_naive b) && (instant a =? instant b).

Definition update_bar (tick : MarketTick) (bar : option MinuteBar)
    : res (option MinuteBar * option MinuteBar) :=
  let start := bar_start tick in
  match bar with
  | None => Ok (None, Some (new_bar tick))
  | Some b =>
      _ ← raise_if (negb (String.eqb (tk_symbol tick) (mb_symbol b))) (ValueError "bar builder accepts one symbol");
      early ← dt_ltb start (mb_start b);
      _ ← raise_if early (ValueError "ticks must be chronological");
      if same_instant start (mb_start b)
      then Ok (None, Some (mkBar (mb_symbol b) (mb_start b) (mb_open b) (fmax (mb_high b) (tk_price tick))
                 (fmin (mb_low b) (tk_price tick)) (tk_price tick) (mb_volume b + tk_volume tick)))
      else Ok (Some b, Some (new_bar tick))
  end.

(** [flush] *)
Definition flush_bar (bar : option MinuteBar) : option MinuteBar * option MinuteBar := (bar, None).

(** Feeding ticks and flushing, as the collectors do. *)
Fixpoint feed (ticks : list MarketTick) (bar : option MinuteBar) : res (list MinuteBar * option MinuteBar) :=
  match ticks with
  | [] => Ok ([], bar)
  | t :: ts =>
      r ← update_bar t bar;
      rest ← feed ts (snd r);
      Ok ((match fst r with Some b => b :: fst rest | None => fst rest end), snd rest)
  end.

Definition feed_all (ticks : list MarketTick) : res (list MinuteBar) :=
  r ← feed ticks None;
  Ok (fst r ++ match fst (flush_bar (snd r)) with Some b => [b] | None => [] end).

(** ** Completed bars from the stored ticks *)

Definition aware_kst (value : datetime) : datetime :=
  if is_naive value then with_tz value (Some KST) else astimezone value KST.

Definition minute_start (value : datetime) : datetime := truncate_minute (aware_kst value).

Definition parse_timestamp (value : string) : res datetime :=
  d ← fromisoformat value; Ok (aware_kst d).

Definition validate_symbols (symbols : option (list string)) : res (option (list string)) :=
  match symbols with
  | None => Ok None
  | Some l =>
      _ ← raise_if (existsb (fun s => negb (isdigit s) || negb (slen s =? 6)) l)
            (ValueError "domestic stock symbols must be six-digit codes");
      _ ← raise_if (match dedup [] l with [] => true | _ => false end)
            (ValueError "symbols must not be empty");
      Ok (Some (dedup [] l))
  end.

(** [date.isoformat()] of a shifted date. *)
Definition iso_day (d : datetime) (shift : Z) : string := iso_date (dt_days d + shift).

(** The WHERE clause of the query. *)
Definition in_query_range (symbols : option (list string)) (range_start range_end : datetime)
    (r : tick_row) : bool :=
  text_leb (iso_day range_start (-1)) (tr_timestamp r) &&
  text_ltb (tr_timestamp r) (iso_day range_end 2) &&
  match symbols with Some l => mem_str (tr_symbol r) l | None => true end.

Definition same_tick (a b : tick_row) : bool :=
  String.eqb (tr_symbol a) (tr_symbol b) && String.eqb (tr_timestamp a) (tr_timestamp b) &&
  (tr_price a =? tr_price b)%F && (tr_volume a =? tr_volume b).

(** [GROUP BY symbol,timestamp,price,volume] with [MIN(rowid)]: the first of
    equal rows, in rowid order. *)
Fixpoint group_ticks (seen l : list tick_row) : list tick_row :=
  match l with
  | [] => []
  | r :: l' => if existsb (same_tick r) seen then group_ticks seen l'
               else r :: group_ticks (r :: seen) l'
  end.

Definition query_ticks (symbols : option (list string)) (range_start range_end : datetime) (d : db)
    : list tick_row :=
  group_ticks [] (List.filter (in_query_range symbols range_start range_end) (t_ticks d)).

Record MinuteAggregate := mkAggregate {
  ag_open : float;
  ag_high : float;
  ag_low : float;
  ag_close : float;
  ag_volume : Z;
  ag_first_order : Z * Z;
  ag_last_order : Z * Z;
}.

(** Tuples [(timestamp, rowid)] compare lexicographically. *)
Definition order_ltb (a b : Z * Z) : bool :=
  (fst a <? fst b) || ((fst a =? fst b) && (snd a <? snd b)).

(** A minute is its symbol and the KST wall clock of its start. *)
Notation aggregates := (gmap (string * Z) MinuteAggregate).

Definition add_to_aggregate (price : float) (volume : Z) (order : Z * Z) (a : option MinuteAggregate)
    : MinuteAggregate :=
  match a with
  | None => mkAggregate price price price price volume order order
  | Some a =>
      let first := order_ltb order (ag_first_order a) in
      let last := order_ltb (ag_last_order a) order in
      mkAggregate (if first then price else ag_open a) (fmax (ag_high a) price) (fmin (ag_low a) price)
        (if last then price else ag_close a) (ag_volume a + volume)
        (if first then order else ag_first_order a) (if last then order else ag_last_order a)
  end.

(** The body of the loop over the rows. *)
Definition aggregate_row (range_start watermark : datetime) (aggs : aggregates) (r : tick_row)
    : res aggregates :=
  timestamp ← parse_timestamp (tr_timestamp r);
  if (instant timestamp <? instant range_start) || (instant watermark <? instant timestamp) then Ok aggs
  else
    let start := minute_start timestamp in
    if instant watermark <? instant (dt_add start us_per_minute) then Ok aggs
    else
      let key := (tr_symbol r, dt_us start) in
      Ok (<[key := add_to_aggregate (tr_price r) (tr_volume r) (instant timestamp, tr_rowid r)
             (aggs !! key)]> aggs).

Fixpoint aggregate_rows (range_start watermark : datetime) (rows : list tick_row) (aggs : aggregates)
    : res aggregates :=
  match rows with
  | [] => Ok aggs
  | r :: rows' => aggs' ← aggregate_row range_start watermark aggs r;
                  aggregate_rows range_start watermark rows' aggs'
  end.

Definition key_leb (a b : (string * Z) * MinuteAggregate) : bool :=
  text_ltb a.1.1 b.1.1 || (String.eqb a.1.1 b.1.1 && (a.1.2 <=? b.1.2)).

Definition aggregate_bar (kv : (string * Z) * MinuteAggregate) : MinuteBar :=
  mkBar kv.1.1 (Datetime kv.1.2 (Some KST)) (ag_open kv.2) (ag_high kv.2) (ag_low kv.2) (ag_close kv.2)
    (ag_volume kv.2).

Fixpoint save_bars (bars : list MinuteBar) : stm db unit :=
  match bars with
  | [] => mret tt
  | b :: bs => fun d => match save_bar b d with
                        | Ok d' => save_bars bs d'
                        | Err e => (Err e, d)
                        end
  end.

(** The argument checks, before the database is touched. *)
Definition check_arguments (symbols : option (list string)) (as_of : option datetime)
    (batch_size lookback_minutes : Z) : res (option (list string)) :=
  selected ← validate_symbols symbols;
  _ ← raise_if (match as_of with Some t => is_naive t | None => false end)
        (ValueError "as_of must be timezone-aware");
  _ ← raise_if (batch_size <=? 0) (ValueError "batch_size must be a positive integer");
  _ ← raise_if (lookback_minutes <=? 0) (ValueError "lookback_minutes must be a positive integer");
  Ok selected.

Definition bar_watermark (as_of : option datetime) (clock : datetime) : datetime :=
  match as_of with Some t => aware_kst t | None => astimezone clock KST end.
Definition bar_range_start (lookback_minutes : Z) (watermark : datetime) : datetime :=
  dt_add watermark (- lookback_minutes * us_per_minute).

Section Materialize.
Variable engine_order : list tick_row -> list tick_row.

(** The bars of the query, in the order they are saved. *)
Definition completed_bars (selected : option (list string)) (lookback_minutes : Z)
    (watermark : datetime) (d : db) : res (list MinuteBar) :=
  let range_start := bar_range_start lookback_minutes watermark in
  aggs ← aggregate_rows range_start watermark
           (engine_order (query_ticks selected range_start watermark d)) ∅;
  Ok (map aggregate_bar (sort_by key_leb (map_to_list aggs))).

(** The rows are streamed in batches of [batch_size]; the batches concatenate
    to the whole answer, which is what is folded here. *)
Definition materialize_completed_bars (symbols : option (list string)) (as_of : option datetime)
    (batch_size : Z) (lookback_minutes : Z) (clock : datetime) : stm db (list MinuteBar) :=
  fun d =>
    match check_arguments symbols as_of batch_size lookback_minutes with
    | Err e => (Err e, d)
    | Ok selected =>
        let d := init_schema d in
        match completed_bars selected lookback_minutes (bar_watermark as_of clock) d with
        | Err e => (Err e, d)
        | Ok bars => (_ ← save_bars bars; mret bars) d
        end
    end.
End Materialize.

(** ** The specification of a bar *)






(** ** Lemmas *)








(** *** The query keeps every row of the range *)









(** ** The builder *)

Definition good_bar (b : MinuteBar) : Prop :=
  fleb (mb_low b) (mb_open b) = true /\ fleb (mb_open b) (mb_high b) = true /\
  fleb (mb_low b) (mb_close b) = true /\ fleb (mb_close b) (mb_high b) = true.

Definition bar_after (t : datetime) (b : MinuteBar) : Prop :=
  instant t < instant (mb_start b).

Definition pending_volume (bar : option MinuteBar) : Z :=
  match bar with Some b => mb_volume b | None => 0 end.

Lemma good_not_nan b : good_bar b -> is_nan (mb_low b) = false /\ is_nan (mb_open b) = false /\
  is_nan (mb_high b) = false /\ is_nan (mb_close b) = false.
Proof.
  intros (H1 & H2 & H3 & _). apply fleb_not_nan in H1 as [? ?], H2 as [? ?], H3 as [? ?]. done.
Qed.

Lemma new_bar_good t : is_nan (tk_price t) = false -> good_bar (new_bar t).
Proof. intros H. unfold good_bar. cbn. by rewrite fleb_refl. Qed.

(** One update: volumes add up, the pending bar stays well formed, and a
    completed bar is strictly before the new pending one. *)
Lemma update_bar_spec t bar done bar' :
  is_nan (tk_price t) = false -> (forall b, bar = Some b -> good_bar b) ->
  update_bar t bar = Ok (done, bar') ->
  (forall b, bar' = Some b -> good_bar b) /\ is_Some bar' /\
  pending_volume bar + tk_volume t = pending_volume done + pending_volume bar' /\
  (forall b, done = Some b -> bar = Some b /\ forall b', bar' = Some b' -> instant (mb_start b) < instant (mb_start b')) /\
  (done = None -> forall b b', bar = Some b -> bar' = Some b' -> mb_start b' = mb_start b).
Proof.
  intros Hp Hg H. unfold update_bar in H. destruct bar as [b|].
  - apply bind_Ok in H as ([] & _ & H). apply bind_Ok in H as (early & He & H).
    apply bind_Ok in H as ([] & Hr%raise_if_Ok & H). subst early.
    specialize (Hg b eq_refl). destruct (good_not_nan b Hg) as (Hl & Ho & Hh & Hc). destruct Hg as (G1 & G2 & G3 & G4).
    destruct (same_instant _ _) eqn:Es; injection H as <- <-.
    + split_and!; [|done|cbn; lia|done|by intros _ ? ? [= <-] [= <-]].
      intros ? [= <-]. unfold good_bar. cbn.
      pose proof (fmin_le_l (mb_low b) (tk_price t) Hl). pose proof (fmin_le_r (mb_low b) (tk_price t) Hl Hp).
      pose proof (fmax_ge_l (mb_high b) (tk_price t) Hh). pose proof (fmax_ge_r (mb_high b) (tk_price t) Hh Hp).
      split_and!; eauto using fleb_trans.
    + split_and!; [|done|cbn; lia| |done].
      * intros ? [= <-]. by apply new_bar_good.
      * intros ? [= <-]. split; [done|]. intros ? [= <-]. cbn.
        unfold dt_ltb in He. unfold same_instant in Es.
        destruct (Bool.eqb _ _); [|done]. injection He as He. apply Z.ltb_ge in He.
        apply Z.eqb_neq in Es. lia.
  - injection H as <- <-. split_and!; [|done|cbn; lia|done|done]. intros ? [= <-]. by apply new_bar_good.
Qed.

Lemma feed_spec ticks : forall bar bars bar',
  Forall (fun t => is_nan (tk_price t) = false) ticks -> (forall b, bar = Some b -> good_bar b) ->
  feed ticks bar = Ok (bars, bar') ->
  Forall good_bar (bars ++ match bar' with Some b => [b] | None => [] end) /\
  pending_volume bar + sum_by tk_volume ticks = sum_by mb_volume bars + pending_volume bar' /\
  StronglySorted (fun x y => instant (mb_start x) < instant (mb_start y))
    (bars ++ match bar' with Some b => [b] | None => [] end) /\
  (forall b, bar = Some b -> Forall (fun x => instant (mb_start b) <= instant (mb_start x))
    (bars ++ match bar' with Some b => [b] | None => [] end)).
Proof.
  induction ticks as [|t ts IH]; intros bar bars bar' Hp Hg H; cbn [feed] in H.
  - injection H as <- <-. split_and!.
    + destruct bar as [b|]; [|constructor]. constructor; [by apply Hg|constructor].
    + cbn. lia.
    + destruct bar; repeat constructor.
    + intros b ->. repeat constructor. lia.
  - apply bind_Ok in H as ([done mid] & Hu & H). apply bind_Ok in H as ([rest fin] & Hf & H).
    cbn [fst snd] in *. inversion_clear Hp as [|? ? Hp1 Hp2].
    destruct (update_bar_spec t bar done mid Hp1 Hg Hu) as (Hg' & [m ->] & Hv & Hd & Hn).
    destruct (IH _ _ _ Hp2 Hg' Hf) as (I1 & I2 & I3 & I4). specialize (I4 m eq_refl).
    destruct done as [b0|]; injection H as <- <-; cbn [sum_by].
    + destruct (Hd b0 eq_refl) as (-> & Hlt). specialize (Hlt m eq_refl).
      assert (Hall : Forall (fun x => instant (mb_start b0) < instant (mb_start x))
        (rest ++ match fin with Some b => [b] | None => [] end))
        by (eapply List.Forall_impl; [|exact I4]; cbn; intros; lia).
      split_and!.
      * constructor; [by apply Hg|done].
      * cbn in *. lia.
      * by constructor.
      * intros b [= <-]. constructor; [lia|]. eapply List.Forall_impl; [|exact Hall]. cbn. intros. lia.
    + split_and!; [done|cbn in *; lia|done|].
      intros b ->. specialize (Hn eq_refl b m eq_refl eq_refl). by rewrite <- Hn.
Qed.

(** ** Properties *)

(** Fact: fed with ticks that have prices, the streaming builder loses and invents
    nothing: the completed bars and the flushed one carry exactly the volume of
    the ticks, each has low <= open, close <= high, and their minutes strictly
    increase. *)
Theorem feed_all_spec ticks bars :
  Forall (fun t => is_nan (tk_price t) = false) ticks -> feed_all ticks = Ok bars ->
  sum_by mb_volume bars = sum_by tk_volume ticks /\ Forall good_bar bars /\
  StronglySorted (fun x y => instant (mb_start x) < instant (mb_start y)) bars.
Proof.
  intros Hp H. unfold feed_all in H. apply bind_Ok in H as ([rest fin] & Hf & H). cbn [fst snd flush_bar] in H.
  injection H as <-. destruct (feed_spec ticks None rest fin Hp ltac:(done) Hf) as (H1 & H2 & H3 & _).
  split_and!; [|done|done]. rewrite sum_by_app. cbn in H2. destruct fin; cbn in *; lia.
Qed.


(** ** Witnesses *)

Definition w_feed : list MarketTick :=
  [mkTick "005930" (w_utc 40) (f_of_Z 70000) 5; mkTick "005930" (w_utc 45) (f_of_Z 70100) 3;
   mkTick "005930" (w_utc 100) (f_of_Z 69900) 2].

Lemma feed_all_spec_witness : exists bars, feed_all w_feed = Ok bars /\ length bars = 2%nat /\
  sum_by mb_volume bars = 10.
Proof.
  destruct (feed_all w_feed) as [bars|e] eqn:E; [|by vm_compute in E].
  exists bars. split; [done|]. split.
  - vm_compute in E. injection E as <-. reflexivity.
  - destruct (feed_all_spec w_feed bars) as (H & _); [repeat constructor|exact E|]. rewrite H. reflexivity.
Defined.


