(* ===== verification/PyDict.v ===== *)
(** * Insertion-ordered dictionaries (Python [dict] with text keys)

    Where the order of iteration is observable a [dict] is an association list:
    assigning an existing key keeps its place, a new key goes last. *)

From S2P Require Import Prelude.

Definition dict (A : Type) : Type := list (string * A).

Fixpoint dget {A} (k : string) (d : dict A) : option A :=
  match d with
  | [] => None
  | (k', v) :: d' => if String.eqb k' k then Some v else dget k d'
  end.

(** [d[k] = v] *)
Fixpoint dset {A} (k : string) (v : A) (d : dict A) : dict A :=
  match d with
  | [] => [(k, v)]
  | (k', v') :: d' => if String.eqb k' k then (k', v) :: d' else (k', v') :: dset k v d'
  end.

(** [d.pop(k, None)] *)
Fixpoint dpop {A} (k : string) (d : dict A) : dict A :=
  match d with
  | [] => []
  | (k', v) :: d' => if String.eqb k' k then d' else (k', v) :: dpop k d'
  end.

Definition dkeys {A} (d : dict A) : list string := map fst d.
Definition dvalues {A} (d : dict A) : list A := map snd d.

(** ** Lemmas *)

Lemma dget_dset {A} k k' (v : A) d : dget k' (dset k v d) = if decide (k = k') then Some v else dget k' d.
Proof.
  induction d as [|[k0 v0] d IH]; cbn.
  - destruct (String.eqb_spec k k'); case_decide; congruence.
  - destruct (String.eqb_spec k0 k) as [->|]; cbn.
    + destruct (String.eqb_spec k k'); case_decide; congruence.
    + rewrite IH. destruct (String.eqb_spec k0 k'), (decide (k = k')); congruence.
Qed.

Lemma dget_None {A} k (d : dict A) : dget k d = None <-> k ∉ dkeys d.
Proof.
  induction d as [|[k0 v0] d IH]; cbn; [split; [intros _; apply not_elem_of_nil|done]|].
  rewrite not_elem_of_cons. destruct (String.eqb_spec k0 k); [split; [done|intros [? ?]; congruence]|].
  rewrite IH. intuition congruence.
Qed.

Lemma dget_In {A} k (v : A) d : dget k d = Some v -> (k, v) ∈ d.
Proof.
  induction d as [|[k0 v0] d IH]; cbn; [done|].
  destruct (String.eqb_spec k0 k) as [->|]; [intros [= ->]; apply list_elem_of_here|].
  intros H. apply list_elem_of_further. auto.
Qed.

Lemma dkeys_dset {A} k (v : A) d x : x ∈ dkeys (dset k v d) <-> x = k \/ x ∈ dkeys d.
Proof.
  induction d as [|[k0 v0] d IH]; cbn; [rewrite list_elem_of_singleton, elem_of_nil; tauto|].
  destruct (String.eqb_spec k0 k) as [->|]; cbn; rewrite !elem_of_cons, ?IH; tauto.
Qed.

Lemma dset_NoDup {A} k (v : A) d : NoDup (dkeys d) -> NoDup (dkeys (dset k v d)).
Proof.
  induction d as [|[k0 v0] d IH]; cbn; [intros _; apply NoDup_singleton|].
  rewrite list.NoDup_cons. intros [Hn Hd]. destruct (String.eqb_spec k0 k) as [->|]; cbn; constructor; auto.
  change (k0 ∉ dkeys (dset k v d)). rewrite dkeys_dset. intros [->|]; done.
Qed.

Lemma dpop_subset {A} k (d : dict A) x : x ∈ dkeys (dpop k d) -> x ∈ dkeys d.
Proof.
  induction d as [|[k0 v0] d IH]; cbn; [done|].
  destruct (String.eqb_spec k0 k); cbn; rewrite !elem_of_cons; tauto.
Qed.

Lemma dpop_NoDup {A} k (d : dict A) : NoDup (dkeys d) -> NoDup (dkeys (dpop k d)).
Proof.
  induction d as [|[k0 v0] d IH]; cbn; [done|]. rewrite list.NoDup_cons. intros [Hn Hd].
  destruct (String.eqb_spec k0 k); cbn; [done|]. constructor; [|auto].
  intros H. by apply Hn, (dpop_subset k).
Qed.

Lemma dget_dpop {A} k k' (d : dict A) : NoDup (dkeys d) ->
  dget k' (dpop k d) = if decide (k = k') then None else dget k' d.
Proof.
  induction d as [|[k0 v0] d IH]; cbn; [by case_decide|]. rewrite list.NoDup_cons. intros [Hn Hd].
  destruct (String.eqb_spec k0 k) as [->|].
  - case_decide as He; [subst; by apply dget_None|]. by destruct (String.eqb_spec k k').
  - cbn. rewrite IH by done. destruct (String.eqb_spec k0 k'), (decide (k = k')); congruence.
Qed.

(** Sums over the values. *)
Lemma sum_dset_new {A} (f : A -> Z) k v (d : dict A) : dget k d = None ->
  sum_by f (dvalues (dset k v d)) = sum_by f (dvalues d) + f v.
Proof.
  induction d as [|[k0 v0] d IH]; cbn; [lia|]. destruct (String.eqb_spec k0 k); [done|].
  intros H. cbn. fold (dvalues (dset k v d)) (dvalues d). rewrite IH by done. lia.
Qed.

Lemma sum_dset_old {A} (f : A -> Z) k v v' (d : dict A) : dget k d = Some v ->
  sum_by f (dvalues (dset k v' d)) = sum_by f (dvalues d) - f v + f v'.
Proof.
  induction d as [|[k0 v0] d IH]; cbn; [done|]. destruct (String.eqb_spec k0 k).
  - intros [= ->]. cbn. fold (dvalues d). lia.
  - intros H. cbn. fold (dvalues (dset k v' d)) (dvalues d). rewrite IH by done. lia.
Qed.

#[global] Arguments dvalues {A} d : simpl never.
#[global] Arguments dkeys {A} d : simpl never.
