(* ===== verification/PaperLedger.v ===== *)
(** * The in-memory paper ledger ([paper/ledger.py])

    Orders, fills and long-only positions of one simulated session.  The state
    is the record of the four private attributes; a call that raises leaves it
    as it was. *)

From stdpp Require Import relations.
From S2P Require Import Prelude PyStr PyFloat PyDict.

Inductive PaperSide := BUY | SELL.
Inductive PaperOrderStatus := PENDING | FILLED | REJECTED | CANCELLED.

#[export] Instance paper_side_eq_dec : EqDecision PaperSide.
Proof. solve_decision. Defined.
#[export] Instance paper_status_eq_dec : EqDecision PaperOrderStatus.
Proof. solve_decision. Defined.

(** [PaperSide(value)] *)
Definition PaperSide_of (value : string) : res PaperSide :=
  if String.eqb value "BUY" then Ok BUY
  else if String.eqb value "SELL" then Ok SELL
  else Err (ValueError (value +:+ " is not a valid PaperSide")).

Definition status_text (s : PaperOrderStatus) : string :=
  match s with PENDING => "PENDING" | FILLED => "FILLED" | REJECTED => "REJECTED" | CANCELLED => "CANCELLED" end.

(** An intent as submitted: its side is still text. *)
Record PaperIntent := mkPaperIntent {
  pi_order_id : string; pi_symbol : string; pi_side : string; pi_quantity : Z; pi_price : float }.

Record PaperOrderIntent := mkPaperOrderIntent {
  poi_order_id : string;
  poi_symbol : string;
  poi_side : PaperSide;
  poi_quantity : Z;
  poi_price : float;
  poi_status : PaperOrderStatus;
  poi_filled_quantity : Z;
}.

Record PaperFill := mkPaperFill {
  pfl_fill_id : string; pfl_order_id : string; pfl_quantity : Z; pfl_price : float }.

Record PaperPosition := mkPaperPosition {
  pp_symbol : string; pp_quantity : Z; pp_avg_price : float }.

Record PaperLedger := mkPaperLedger {
  orders : dict PaperOrderIntent;
  fills : dict PaperFill;
  positions : dict PaperPosition;
  realized_pnl : float;
}.

Definition new_ledger : PaperLedger := mkPaperLedger [] [] [] fzero.

Definition validate_trade_values (symbol : string) (quantity : Z) (price : float) : res unit :=
  _ ← raise_if (sempty (strip symbol)) (ValueError "symbol must not be empty");
  _ ← raise_if (quantity <=? 0) (ValueError "quantity must be positive");
  raise_if (negb (isfinite price) || (price <=? fzero)%F) (ValueError "price must be finite and positive").

Definition validate_identifier (value label : string) : res unit :=
  raise_if (sempty (strip value)) (ValueError (label +:+ " must not be empty")).

Definition submit_order (intent : PaperIntent) (s : PaperLedger) : res (PaperOrderIntent * PaperLedger) :=
  _ ← validate_identifier (pi_order_id intent) "order_id";
  _ ← validate_trade_values (pi_symbol intent) (pi_quantity intent) (pi_price intent);
  side ← PaperSide_of (pi_side intent);
  match dget (pi_order_id intent) (orders s) with
  | Some existing =>
      _ ← raise_if (negb (String.eqb (poi_symbol existing) (pi_symbol intent))
             || negb (bool_decide (poi_side existing = side))
             || negb (poi_quantity existing =? pi_quantity intent)
             || negb (poi_price existing =? pi_price intent)%F)
            (ValueError ("conflicting paper order id: " +:+ pi_order_id intent));
      Ok (existing, s)
  | None =>
      let short := match dget (pi_symbol intent) (positions s) with
                   | None => true
                   | Some p => pp_quantity p <? pi_quantity intent
                   end in
      let status := if bool_decide (side = SELL) && short then REJECTED else PENDING in
      let stored := mkPaperOrderIntent (pi_order_id intent) (pi_symbol intent) side (pi_quantity intent)
                      (pi_price intent) status 0 in
      Ok (stored, mkPaperLedger (dset (pi_order_id intent) stored (orders s)) (fills s) (positions s) (realized_pnl s))
  end.

(** [_apply_fill]: the positions and the realized profit after it. *)
Definition apply_fill (order : PaperOrderIntent) (fill : PaperFill) (position : option PaperPosition)
    (s : PaperLedger) : res (dict PaperPosition * float) :=
  match poi_side order with
  | BUY =>
      let old_quantity := match position with Some p => pp_quantity p | None => 0 end in
      let old_avg := match position with Some p => pp_avg_price p | None => fzero end in
      let quantity := old_quantity + pfl_quantity fill in
      old_cost ← fmul_Z old_quantity old_avg;
      new_cost ← fmul_Z (pfl_quantity fill) (pfl_price fill);
      q ← float_of_int quantity;
      average ← fdiv (old_cost + new_cost)%F q;
      Ok (dset (poi_symbol order) (mkPaperPosition (poi_symbol order) quantity average) (positions s), realized_pnl s)
  | SELL =>
      match position with
      | None => Err AssertionError
      | Some p =>
          q ← float_of_int (pfl_quantity fill);
          let pnl := (realized_pnl s + ((pfl_price fill - pp_avg_price p) * q))%F in
          let remaining := pp_quantity p - pfl_quantity fill in
          Ok (if remaining =? 0 then dpop (poi_symbol order) (positions s)
              else dset (poi_symbol order) (mkPaperPosition (poi_symbol order) remaining (pp_avg_price p)) (positions s),
              pnl)
      end
  end.

Definition fill_order (fill : PaperFill) (s : PaperLedger) : res (PaperFill * PaperLedger) :=
  _ ← validate_identifier (pfl_fill_id fill) "fill_id";
  _ ← validate_identifier (pfl_order_id fill) "order_id";
  _ ← validate_trade_values "fill" (pfl_quantity fill) (pfl_price fill);
  match dget (pfl_fill_id fill) (fills s) with
  | Some existing =>
      _ ← raise_if (negb (String.eqb (pfl_order_id existing) (pfl_order_id fill))
             || negb (pfl_quantity existing =? pfl_quantity fill)
             || negb (pfl_price existing =? pfl_price fill)%F)
            (ValueError ("conflicting paper fill id: " +:+ pfl_fill_id fill));
      Ok (existing, s)
  | None =>
      match dget (pfl_order_id fill) (orders s) with
      | None => Err (KeyError ("unknown paper order: " +:+ pfl_order_id fill))
      | Some order =>
          _ ← raise_if (bool_decide (poi_status order = REJECTED) || bool_decide (poi_status order = CANCELLED))
                (ValueError ("cannot fill order in " +:+ status_text (poi_status order) +:+ " status"));
          _ ← raise_if (poi_quantity order <? poi_filled_quantity order + pfl_quantity fill)
                (ValueError "fill quantity exceeds order quantity");
          let position := dget (poi_symbol order) (positions s) in
          let short := match position with None => true | Some p => pp_quantity p <? pfl_quantity fill end in
          _ ← raise_if (bool_decide (poi_side order = SELL) && short)
                (ValueError "sell fill exceeds current long position");
          applied ← apply_fill order fill position s;
          let filled := poi_filled_quantity order + pfl_quantity fill in
          let order' := mkPaperOrderIntent (poi_order_id order) (poi_symbol order) (poi_side order)
                          (poi_quantity order) (poi_price order)
                          (if filled =? poi_quantity order then FILLED else poi_status order) filled in
          Ok (fill, mkPaperLedger (dset (pfl_order_id fill) order' (orders s))
                      (dset (pfl_fill_id fill) fill (fills s)) (fst applied) (snd applied))
      end
  end.

Definition open_orders (s : PaperLedger) : list PaperOrderIntent :=
  List.filter (fun o => bool_decide (poi_status o = PENDING)) (dvalues (orders s)).

Record PaperTradeReport := mkPaperTradeReport {
  rep_realized_pnl : float; rep_positions : list PaperPosition; rep_open_orders : list PaperOrderIntent }.

Definition report (s : PaperLedger) : PaperTradeReport :=
  mkPaperTradeReport (realized_pnl s) (dvalues (positions s)) (open_orders s).

(** ** Runs *)

Inductive ledger_step : PaperLedger -> PaperLedger -> Prop :=
  | ls_submit i o s s' : submit_order i s = Ok (o, s') -> ledger_step s s'
  | ls_fill f f' s s' : fill_order f s = Ok (f', s') -> ledger_step s s'.

(** The shares an order has added to its symbol, and the position held. *)
Definition order_effect (symbol : string) (o : PaperOrderIntent) : Z :=
  if String.eqb (poi_symbol o) symbol
  then match poi_side o with BUY => poi_filled_quantity o | SELL => - poi_filled_quantity o end
  else 0.

Definition held (symbol : string) (s : PaperLedger) : Z :=
  match dget symbol (positions s) with Some p => pp_quantity p | None => 0 end.

Definition fill_of_order (id : string) (f : PaperFill) : Z :=
  if String.eqb (pfl_order_id f) id then pfl_quantity f else 0.

Record paper_ledger_ok (s : PaperLedger) : Prop := mkPaperLedgerOk {
  plo_positions : NoDup (dkeys (positions s));
  plo_long : forall sym p, dget sym (positions s) = Some p -> 0 < pp_quantity p /\ pp_symbol p = sym;
  plo_order : forall id o, dget id (orders s) = Some o ->
    0 <= poi_filled_quantity o <= poi_quantity o /\ 0 < poi_quantity o /\
    (poi_status o = FILLED <-> poi_filled_quantity o = poi_quantity o) /\
    (poi_status o = REJECTED -> poi_filled_quantity o = 0) /\
    poi_filled_quantity o = sum_by (fill_of_order id) (dvalues (fills s));
  plo_unknown : forall id, dget id (orders s) = None -> sum_by (fill_of_order id) (dvalues (fills s)) = 0;
  plo_held : forall sym, held sym s = sum_by (order_effect sym) (dvalues (orders s));
}.

(** ** Lemmas *)

Lemma validate_trade_values_Ok sym q p u : validate_trade_values sym q p = Ok u -> 0 < q /\ isfinite p = true.
Proof.
  unfold validate_trade_values. intros H. apply bind_Ok in H as ([] & _ & H).
  apply bind_Ok in H as ([] & Hq%raise_if_Ok%Z.leb_gt & H). apply raise_if_Ok in H. bool_to_prop. done.
Qed.

Lemma feqb_refl x : isfinite x = true -> feqb x x = true.
Proof.
  intros H. unfold feqb, SpecFloat.SFeqb, SpecFloat.SFcompare.
  destruct x as [s|s| |s m e]; try done; cbn; destruct s; try done;
    rewrite Z.compare_refl, Pos.compare_cont_refl; done.
Qed.

Lemma held_dset sym sym' q a (ps : dict PaperPosition) :
  match dget sym (dset sym' (mkPaperPosition sym' q a) ps) with Some p => pp_quantity p | None => 0 end =
  if decide (sym' = sym) then q else match dget sym ps with Some p => pp_quantity p | None => 0 end.
Proof. rewrite dget_dset. by case_decide. Qed.

(** What an accepted fill does to the positions. *)
Lemma apply_fill_Ok o f s ps pnl :
  NoDup (dkeys (positions s)) -> (forall sym p, dget sym (positions s) = Some p -> 0 < pp_quantity p /\ pp_symbol p = sym) ->
  0 < pfl_quantity f ->
  (poi_side o = SELL -> exists p, dget (poi_symbol o) (positions s) = Some p /\ pfl_quantity f <= pp_quantity p) ->
  apply_fill o f (dget (poi_symbol o) (positions s)) s = Ok (ps, pnl) ->
  NoDup (dkeys ps) /\ (forall sym p, dget sym ps = Some p -> 0 < pp_quantity p /\ pp_symbol p = sym) /\
  forall sym, match dget sym ps with Some p => pp_quantity p | None => 0 end =
    held sym s + (if String.eqb (poi_symbol o) sym
                  then match poi_side o with BUY => pfl_quantity f | SELL => - pfl_quantity f end else 0).
Proof.
  intros Hnd Hlong Hq Hsell H. unfold apply_fill in H. destruct (poi_side o) eqn:Eside.
  - apply bind_Ok in H as (? & _ & H). apply bind_Ok in H as (? & _ & H). apply bind_Ok in H as (? & _ & H).
    apply bind_Ok in H as (avg & _ & H). apply Ok_inj in H. injection H as <- <-.
    split_and!; [by apply dset_NoDup| |].
    + intros sym p. rewrite dget_dset. case_decide as He; [|apply Hlong].
      intros [= <-]. cbn. split; [|done].
      destruct (dget (poi_symbol o) (positions s)) as [p0|] eqn:E0; [|lia]. apply Hlong in E0. lia.
    + intros sym. rewrite held_dset. unfold held.
      destruct (String.eqb_spec (poi_symbol o) sym) as [->|]; case_decide; try done; lia.
  - destruct (Hsell eq_refl) as (p0 & Hp0 & Hle). rewrite Hp0 in H.
    apply bind_Ok in H as (? & _ & H). apply Ok_inj in H. injection H as <- <-.
    destruct (Z.eqb_spec (pp_quantity p0 - pfl_quantity f) 0) as [Ez|Ez].
    + split_and!; [by apply dpop_NoDup| |].
      * intros sym p. rewrite dget_dpop by done. case_decide; [done|apply Hlong].
      * intros sym. rewrite dget_dpop by done. unfold held.
        destruct (String.eqb_spec (poi_symbol o) sym) as [<-|]; case_decide; try done; [|lia].
        rewrite Hp0. lia.
    + split_and!; [by apply dset_NoDup| |].
      * intros sym p. rewrite dget_dset. case_decide as He; [|apply Hlong].
        intros [= <-]. cbn. split; [lia|done].
      * intros sym. rewrite held_dset. unfold held.
        destruct (String.eqb_spec (poi_symbol o) sym) as [<-|]; case_decide; try done; [|lia].
        rewrite Hp0. lia.
Qed.

Lemma submit_order_ok i o s s' : paper_ledger_ok s -> submit_order i s = Ok (o, s') -> paper_ledger_ok s'.
Proof.
  intros J H. unfold submit_order in H. apply bind_Ok in H as ([] & _ & H).
  apply bind_Ok in H as ([] & [Hq _]%validate_trade_values_Ok & H). apply bind_Ok in H as (side & _ & H).
  destruct (dget (pi_order_id i) (orders s)) as [e|] eqn:E.
  { apply bind_Ok in H as ([] & _ & H). by injection H as _ <-. }
  cbv zeta in H. apply Ok_inj in H. injection H as _ <-. destruct J as [J1 J2 J3 J4 J5].
  split; cbn; [done|done| | |].
  - intros id o'. rewrite dget_dset. case_decide as He; [|apply J3].
    intros [= <-]. cbn. subst id. rewrite (J4 _ E).
    split_and!; try lia; destruct (_ && _); (split; [done|lia]) || done.
  - intros id. rewrite dget_dset. case_decide; [done|apply J4].
  - intros sym. rewrite sum_dset_new by done. rewrite <- J5. unfold held. cbn.
    unfold order_effect. cbn. destruct (String.eqb _ _), side; lia.
Qed.

Lemma fill_order_ok f f' s s' : paper_ledger_ok s -> fill_order f s = Ok (f', s') -> paper_ledger_ok s'.
Proof.
  intros J H. unfold fill_order in H. do 2 (apply bind_Ok in H as ([] & _ & H)).
  apply bind_Ok in H as ([] & [Hq _]%validate_trade_values_Ok & H).
  destruct (dget (pfl_fill_id f) (fills s)) as [e|] eqn:Ef.
  { apply bind_Ok in H as ([] & _ & H). by injection H as _ <-. }
  destruct (dget (pfl_order_id f) (orders s)) as [o|] eqn:Eo; [|done].
  apply bind_Ok in H as ([] & Hst%raise_if_Ok & H). apply bind_Ok in H as ([] & Hcap%raise_if_Ok & H).
  cbv zeta in H. apply bind_Ok in H as ([] & Hshort%raise_if_Ok & H).
  apply bind_Ok in H as ([ps pnl] & Ha & H). apply Ok_inj in H. injection H as _ <-.
  apply Z.ltb_ge in Hcap. destruct J as [J1 J2 J3 J4 J5].
  destruct (J3 _ _ Eo) as (Hb & Hpos & Hfilled & Hrej & Hsum).
  apply apply_fill_Ok in Ha as (H1 & H2 & H3); [|done..|].
  2: { intros Hs. rewrite Hs in Hshort. rewrite bool_decide_eq_true_2 in Hshort by done. cbn in Hshort.
       destruct (dget (poi_symbol o) (positions s)) as [p|]; [|done]. exists p. split; [done|].
       by apply Z.ltb_ge in Hshort. }
  split; cbn; [done|done| | |].
  - intros id o'. rewrite dget_dset. rewrite sum_dset_new by done.
    destruct (decide (pfl_order_id f = id)) as [He|He].
    + intros [= <-]. cbn. subst id. rewrite <- Hsum. unfold fill_of_order. rewrite String.eqb_refl.
      split_and!; try lia.
      * destruct (Z.eqb_spec (poi_filled_quantity o + pfl_quantity f) (poi_quantity o)) as [E|E]; [done|].
        rewrite Hfilled. lia.
      * destruct (Z.eqb_spec (poi_filled_quantity o + pfl_quantity f) (poi_quantity o)) as [E|E]; [done|].
        intros Hr. rewrite Hr in Hst. done.
    + intros Ho'. destruct (J3 _ _ Ho') as (? & ? & ? & ? & Hs'). rewrite <- Hs'. unfold fill_of_order.
      destruct (String.eqb_spec (pfl_order_id f) id); [done|]. split_and!; try done; lia.
  - intros id. rewrite dget_dset. destruct (decide (pfl_order_id f = id)) as [He|He]; [done|]. intros Hn. rewrite sum_dset_new by done.
    rewrite (J4 _ Hn). unfold fill_of_order. by destruct (String.eqb_spec (pfl_order_id f) id).
  - intros sym. unfold held at 1. cbn [positions]. rewrite H3, (sum_dset_old _ _ o) by done. rewrite J5.
    unfold order_effect. cbn. destruct (String.eqb (poi_symbol o) sym), (poi_side o); lia.
Qed.

Lemma fills_kept s s' id f : ledger_step s s' -> dget id (fills s) = Some f -> dget id (fills s') = Some f.
Proof.
  intros H Hf. destruct H as [i o s s' H|f0 f1 s s' H].
  - unfold submit_order in H. do 3 (apply bind_Ok in H as (? & _ & H)).
    destruct (dget (pi_order_id i) (orders s)); [apply bind_Ok in H as (? & _ & H)|cbv zeta in H];
      apply Ok_inj in H; by injection H as _ <-.
  - unfold fill_order in H. do 3 (apply bind_Ok in H as (? & _ & H)).
    destruct (dget (pfl_fill_id f0) (fills s)) as [e|] eqn:Ef.
    { apply bind_Ok in H as (? & _ & H). by injection H as _ <-. }
    destruct (dget (pfl_order_id f0) (orders s)); [|done].
    do 2 (apply bind_Ok in H as (? & _ & H)). cbv zeta in H. apply bind_Ok in H as (? & _ & H).
    apply bind_Ok in H as (? & _ & H). apply Ok_inj in H. injection H as _ <-. cbn.
    rewrite dget_dset. case_decide; [congruence|done].
Qed.

(** An accepted fill is recorded with the caller's order, quantity and price. *)
Lemma fill_order_recorded f x s s1 : fill_order f s = Ok (x, s1) ->
  dget (pfl_fill_id f) (fills s1) = Some x /\ pfl_order_id x = pfl_order_id f /\
  pfl_quantity x = pfl_quantity f /\ feqb (pfl_price x) (pfl_price f) = true.
Proof.
  intros H. unfold fill_order in H. do 2 (apply bind_Ok in H as ([] & _ & H)).
  apply bind_Ok in H as ([] & [_ Hfin]%validate_trade_values_Ok & H).
  destruct (dget (pfl_fill_id f) (fills s)) as [e|] eqn:Ef.
  - apply bind_Ok in H as ([] & Hc%raise_if_Ok & H). injection H as <- <-. bool_to_prop. done.
  - destruct (dget (pfl_order_id f) (orders s)); [|done].
    do 2 (apply bind_Ok in H as (? & _ & H)). cbv zeta in H. apply bind_Ok in H as (? & _ & H).
    apply bind_Ok in H as (? & _ & H). apply Ok_inj in H. injection H as <- <-. cbn.
    rewrite dget_dset. case_decide; [|done]. split_and!; try done. by apply feqb_refl.
Qed.

(** ** Properties *)

(** Fact: every ledger the two operations can reach reconciles: the position of a
    symbol is the filled BUY quantity minus the filled SELL quantity of its
    orders and is never negative; an order's filled quantity is the sum of its
    recorded fills, never exceeds the order, and reaches it exactly when the
    order is FILLED; a REJECTED order has no fill. *)
Theorem paper_ledger_reconciles s :
  rtc ledger_step new_ledger s -> paper_ledger_ok s.
Proof.
  assert (Hnew : paper_ledger_ok new_ledger) by (split; cbn; (done || constructor)).
  generalize new_ledger Hnew. intros s0 H0 H. induction H as [|s0 s1 s2 H _ IH]; [done|].
  apply IH. destruct H as [i o s0 s1 H|f f' s0 s1 H]; eauto using submit_order_ok, fill_order_ok.
Qed.

(** Fact: a fill is applied once: however the ledger moves on after a fill was
    accepted, submitting the same fill again returns the recorded one and
    changes nothing. *)
Theorem fill_order_idempotent f x s s1 s2 :
  fill_order f s = Ok (x, s1) -> rtc ledger_step s1 s2 -> fill_order f s2 = Ok (x, s2).
Proof.
  intros H Hs. assert (Hrec := fill_order_recorded _ _ _ _ H). destruct Hrec as (Hx & Ho & Hq & Hp).
  assert (Hx2 : dget (pfl_fill_id f) (fills s2) = Some x) by (clear H; induction Hs; eauto using fills_kept).
  unfold fill_order in *. apply bind_Ok in H as ([] & -> & H). apply bind_Ok in H as ([] & -> & H).
  apply bind_Ok in H as ([] & -> & _). cbn [mbind res_bind]. rewrite Hx2, Ho, Hq, Hp.
  by rewrite String.eqb_refl, Z.eqb_refl.
Qed.

(** ** Witnesses *)

Definition w_s {A} (r : res (A * PaperLedger)) : PaperLedger := match r with Ok (_, s) => s | Err _ => new_ledger end.
Definition w_submitted : PaperLedger :=
  w_s (submit_order (mkPaperIntent "o1" "005930" "BUY" 10 (f_of_Z 70000)) new_ledger).
Definition w_fill1 : PaperFill := mkPaperFill "f1" "o1" 4 (f_of_Z 70000).
Definition w_filled1 : PaperLedger := w_s (fill_order w_fill1 w_submitted).
Definition w_filled2 : PaperLedger := w_s (fill_order (mkPaperFill "f2" "o1" 6 (f_of_Z 70100)) w_filled1).

Lemma paper_ledger_reconciles_witness : paper_ledger_ok w_filled2 /\ held "005930" w_filled2 = 10.
Proof.
  split; [|vm_compute; reflexivity]. apply paper_ledger_reconciles.
  eapply rtc_l; [eapply (ls_submit (mkPaperIntent "o1" "005930" "BUY" 10 (f_of_Z 70000)) _ _ w_submitted); vm_compute; reflexivity|].
  eapply rtc_l; [eapply (ls_fill w_fill1 _ _ w_filled1); vm_compute; reflexivity|].
  apply rtc_once. eapply (ls_fill (mkPaperFill "f2" "o1" 6 (f_of_Z 70100))); vm_compute; reflexivity.
Defined.

Lemma fill_order_idempotent_witness : fill_order w_fill1 w_filled2 = Ok (w_fill1, w_filled2).
Proof.
  apply (fill_order_idempotent w_fill1 w_fill1 w_submitted w_filled1).
  - vm_compute. reflexivity.
  - apply rtc_once. eapply (ls_fill (mkPaperFill "f2" "o1" 6 (f_of_Z 70100))); vm_compute; reflexivity.
Defined.
