(* ===== verification/PyJson.v ===== *)
(** * JSON values and the [json] module

    A parsed JSON document, [json.dumps] with its default settings (ASCII output,
    separators [", "] and [": "]) and [json.loads].  Objects are insertion-ordered
    dictionaries; a repeated key keeps its place and takes the last value. *)

From Stdlib Require Import Floats.SpecFloat.
From S2P Require Import Prelude PyStr PyFloat PyDecimal PyDict.

Inductive json :=
  | JNull
  | JBool (b : bool)
  | JInt (z : Z)
  | JFloat (x : float)
  | JStr (s : string)
  | JList (l : list json)
  | JObj (o : list (string * json)).

(** ** Text of floats *)

Fixpoint repeat_char (c : ascii) (n : nat) : string :=
  match n with O => "" | S m => String c (repeat_char c m) end.

(** [repr(x)] of a finite positive float with digits [c] and exponent [e]:
    fixed notation for decimal points from -3 to 16, else scientific. *)
Fixpoint strip_zeros (fuel : nat) (c e : Z) : Z * Z :=
  match fuel with
  | O => (c, e)
  | S f => if (c mod 10 =? 0) && negb (c =? 0) then strip_zeros f (c / 10) (e + 1) else (c, e)
  end.

Definition repr_positive (d : dec) : string :=
  let '(c, e) := strip_zeros 400 (d_coef d) (d_exp d) in
  let ds := str_int c in
  let n := Z.of_nat (String.length ds) in
  let point := n + e in
  if (-4 <? point) && (point <=? 16) then
    if point <=? 0 then "0." +:+ repeat_char "0" (Z.to_nat (- point)) +:+ ds
    else if n <=? point then ds +:+ repeat_char "0" (Z.to_nat (point - n)) +:+ ".0"
    else String.substring 0 (Z.to_nat point) ds +:+ "." +:+
         String.substring (Z.to_nat point) (String.length ds - Z.to_nat point) ds
  else
    let x := point - 1 in
    let mant := String.substring 0 1 ds +:+
                (if n =? 1 then "" else "." +:+ String.substring 1 (String.length ds - 1) ds) in
    mant +:+ "e" +:+ (if x <? 0 then "-" else "+") +:+
    (if Z.abs x <? 10 then "0" else "") +:+ str_int (Z.abs x).

(** [repr(x)] *)
Definition float_text (x : float) : string :=
  match x with
  | S754_nan => "nan"
  | S754_infinity s => if s then "-inf" else "inf"
  | S754_zero s => if s then "-0.0" else "0.0"
  | S754_finite s _ _ => (if s then "-" else "") +:+ repr_positive (repr_dec (if s then fopp x else x))
  end.

(** ** Code points *)

(** The code points of UTF-8 text; a byte that starts no well-formed sequence
    stands for itself, which no text of a running program has. *)
Definition cont (c : ascii) : bool := (128 <=? code c) && (code c <? 192).

Fixpoint code_points (s : string) : list Z :=
  match s with
  | "" => []
  | String c s1 =>
      let v := code c in
      if v <? 128 then v :: code_points s1
      else if (192 <=? v) && (v <? 224) then
        match s1 with
        | String c1 s2 => if cont c1 then (v - 192) * 64 + (code c1 - 128) :: code_points s2 else v :: code_points s1
        | "" => [v]
        end
      else if (224 <=? v) && (v <? 240) then
        match s1 with
        | String c1 (String c2 s3) =>
            if cont c1 && cont c2
            then ((v - 224) * 64 + (code c1 - 128)) * 64 + (code c2 - 128) :: code_points s3
            else v :: code_points s1
        | _ => v :: code_points s1
        end
      else if (240 <=? v) && (v <? 248) then
        match s1 with
        | String c1 (String c2 (String c3 s4)) =>
            if cont c1 && cont c2 && cont c3
            then (((v - 240) * 64 + (code c1 - 128)) * 64 + (code c2 - 128)) * 64 + (code c3 - 128) :: code_points s4
            else v :: code_points s1
        | _ => v :: code_points s1
        end
      else v :: code_points s1
  end.

Definition byte (z : Z) : ascii := Ascii.ascii_of_N (Z.to_N z).

Definition utf8 (p : Z) : string :=
  if p <? 128 then String (byte p) ""
  else if p <? 2048 then String (byte (192 + p / 64)) (String (byte (128 + p mod 64)) "")
  else if p <? 65536 then
    String (byte (224 + p / 4096)) (String (byte (128 + p / 64 mod 64)) (String (byte (128 + p mod 64)) ""))
  else
    String (byte (240 + p / 262144)) (String (byte (128 + p / 4096 mod 64))
      (String (byte (128 + p / 64 mod 64)) (String (byte (128 + p mod 64)) ""))).

(** ** [json.dumps] *)

Definition hex_digit (n : Z) : ascii := byte (if n <? 10 then 48 + n else 87 + n).
Definition u_escape (n : Z) : string :=
  String "\" (String "u" (String (hex_digit (n / 4096 mod 16)) (String (hex_digit (n / 256 mod 16))
    (String (hex_digit (n / 16 mod 16)) (String (hex_digit (n mod 16)) ""))))).

Definition quote : ascii := Ascii.ascii_of_N 34.

Definition escape_point (p : Z) : string :=
  if p =? 34 then String "\" (String quote "")
  else if p =? 92 then "\\"
  else if p =? 10 then "\n"
  else if p =? 13 then "\r"
  else if p =? 9 then "\t"
  else if p =? 8 then "\b"
  else if p =? 12 then "\f"
  else if (32 <=? p) && (p <=? 126) then String (byte p) ""
  else if p <? 65536 then u_escape p
  else let v := p - 65536 in u_escape (55296 + v / 1024) +:+ u_escape (56320 + v mod 1024).

Definition escape (s : string) : string := fold_right (fun p acc => escape_point p +:+ acc) "" (code_points s).

Definition quoted (s : string) : string := String quote (escape s +:+ String quote "").

Fixpoint dumps (v : json) : string :=
  match v with
  | JNull => "null"
  | JBool b => if b then "true" else "false"
  | JInt z => str_int z
  | JFloat x => match x with
                | S754_nan => "NaN"
                | S754_infinity s => if s then "-Infinity" else "Infinity"
                | _ => float_text x
                end
  | JStr s => quoted s
  | JList l => "[" +:+ join ", " (map dumps l) +:+ "]"
  | JObj o => "{" +:+ join ", " (map (fun kv => quoted (fst kv) +:+ ": " +:+ dumps (snd kv)) o) +:+ "}"
  end.

(** [sort_keys=True] *)
Fixpoint sort_keys (v : json) : json :=
  match v with
  | JObj o => JObj (sort_by (fun a b => text_leb a.1 b.1) (map (fun kv => (kv.1, sort_keys kv.2)) o))
  | JList l => JList (map sort_keys l)
  | _ => v
  end.

(** ** [json.loads] *)

Definition json_space (c : ascii) : bool :=
  (code c =? 32) || (code c =? 9) || (code c =? 10) || (code c =? 13).
Definition skip (s : string) : string := lstrip_by json_space s.

Definition hex_value (c : ascii) : option Z :=
  let v := code c in
  if (48 <=? v) && (v <=? 57) then Some (v - 48)
  else if (97 <=? v) && (v <=? 102) then Some (v - 87)
  else if (65 <=? v) && (v <=? 70) then Some (v - 55)
  else None.

Definition read_hex4 (s : string) : option (Z * string) :=
  match s with
  | String a (String b (String c (String d t))) =>
      a' ← hex_value a; b' ← hex_value b; c' ← hex_value c; d' ← hex_value d;
      Some (((a' * 16 + b') * 16 + c') * 16 + d', t)
  | _ => None
  end.

Definition simple_escape (c : ascii) : option ascii :=
  if bool_decide (c = quote) then Some quote
  else if bool_decide (c = "\"%char) then Some "\"%char
  else if bool_decide (c = "/"%char) then Some "/"%char
  else if bool_decide (c = "b"%char) then Some (byte 8)
  else if bool_decide (c = "f"%char) then Some (byte 12)
  else if bool_decide (c = "n"%char) then Some (byte 10)
  else if bool_decide (c = "r"%char) then Some (byte 13)
  else if bool_decide (c = "t"%char) then Some (byte 9)
  else None.

(** The rest of a string literal after its opening quote. *)
Fixpoint read_string (fuel : nat) (s : string) : option (string * string) :=
  match fuel with
  | O => None
  | S f =>
      match s with
      | "" => None
      | String c t =>
          if bool_decide (c = quote) then Some ("", t)
          else if bool_decide (c = "\"%char) then
            match t with
            | "" => None
            | String e t' =>
                if bool_decide (e = "u"%char) then
                  '(n, t1) ← read_hex4 t';
                  '(p, t2) ← (if (55296 <=? n) && (n <=? 56319) then
                                match t1 with
                                | String b (String u t3) =>
                                    if bool_decide (b = "\"%char) && bool_decide (u = "u"%char) then
                                      match read_hex4 t3 with
                                      | Some (m, t4) =>
                                          if (56320 <=? m) && (m <=? 57343)
                                          then Some (65536 + (n - 55296) * 1024 + (m - 56320), t4)
                                          else Some (n, t1)
                                      | None => Some (n, t1)
                                      end
                                    else Some (n, t1)
                                | _ => Some (n, t1)
                                end
                              else Some (n, t1));
                  '(r, t3) ← read_string f t2; Some (utf8 p +:+ r, t3)
                else
                  x ← simple_escape e;
                  '(r, t3) ← read_string f t'; Some (String x r, t3)
            end
          else if code c <? 32 then None
          else '(r, t3) ← read_string f t; Some (String c r, t3)
      end
  end.

(** The longest prefix of number characters, validated and valued. *)
Fixpoint span (p : ascii -> bool) (s : string) : string * string :=
  match s with
  | "" => ("", "")
  | String c t => if p c then let '(a, b) := span p t in (String c a, b) else ("", s)
  end.

Definition float_of_pydec (d : pydec) : float :=
  match d with DFin d => float_of_dec d | DInf s => S754_infinity s | DNaN => S754_nan end.

(** A number: an optional sign, an integer part without leading zeros, and an
    optional fraction and exponent, which make it a float. *)
Definition read_json_number (s : string) : option (json * string) :=
  let '(neg, s1) := match s with
                    | String c t => if bool_decide (c = "-"%char) then ("-", t) else ("", s)
                    | "" => ("", s)
                    end in
  let '(ip, s2) := match s1 with
                   | String c t => if bool_decide (c = "0"%char) then ("0", t) else span is_digit s1
                   | "" => ("", "")
                   end in
  if sempty ip then None
  else
    let '(frac, s3) := match s2 with
                       | String c t => if bool_decide (c = "."%char)
                                       then let '(a, b) := span is_digit t in
                                            if sempty a then ("", s2) else ("." +:+ a, b)
                                       else ("", s2)
                       | "" => ("", s2)
                       end in
    let '(ex, s4) := match s3 with
                     | String c t =>
                         if bool_decide (c = "e"%char \/ c = "E"%char) then
                           let '(sg, t') := match t with
                                            | String d u => if bool_decide (d = "-"%char \/ d = "+"%char)
                                                            then (String d "", u) else ("", t)
                                            | "" => ("", t)
                                            end in
                           let '(a, b) := span is_digit t' in
                           if sempty a then ("", s3) else ("e" +:+ sg +:+ a, b)
                         else ("", s3)
                     | "" => ("", s3)
                     end in
    if sempty frac && sempty ex
    then Some (JInt ((if sempty neg then 1 else -1) * (digits 0 0 ip).1.1), s4)
    else match decimal_of_string (neg +:+ ip +:+ frac +:+ ex) with
         | Some d => Some (JFloat (match d with
                                   | DFin (mkDec 0 _) => S754_zero (negb (sempty neg))
                                   | _ => float_of_pydec d end), s4)
         | None => None
         end.

Fixpoint read_value (fuel : nat) (s : string) {struct fuel} : option (json * string) :=
  match fuel with
  | O => None
  | S f =>
      match s with
      | "" => None
      | String c t =>
          if bool_decide (c = quote) then '(x, r) ← read_string (S (String.length t)) t; Some (JStr x, r)
          else if bool_decide (c = "{"%char) then
            match skip t with
            | String c1 r => if bool_decide (c1 = "}"%char) then Some (JObj [], r) else read_members f [] (skip t)
            | "" => None
            end
          else if bool_decide (c = "["%char) then
            match skip t with
            | String c1 r => if bool_decide (c1 = "]"%char) then Some (JList [], r) else read_elements f [] (skip t)
            | "" => None
            end
          else if startswith "null" s then Some (JNull, removeprefix "null" s)
          else if startswith "true" s then Some (JBool true, removeprefix "true" s)
          else if startswith "false" s then Some (JBool false, removeprefix "false" s)
          else if startswith "NaN" s then Some (JFloat S754_nan, removeprefix "NaN" s)
          else if startswith "Infinity" s then Some (JFloat (S754_infinity false), removeprefix "Infinity" s)
          else if startswith "-Infinity" s then Some (JFloat (S754_infinity true), removeprefix "-Infinity" s)
          else read_json_number s
      end
  end
with read_members (fuel : nat) (acc : list (string * json)) (s : string) {struct fuel} : option (json * string) :=
  match fuel with
  | O => None
  | S f =>
      match s with
      | String c t =>
          if bool_decide (c = quote) then
            '(k, r) ← read_string (S (String.length t)) t;
            match skip r with
            | String c1 r1 =>
                if bool_decide (c1 = ":"%char) then
                  '(v, r2) ← read_value f (skip r1);
                  let acc := dset k v acc in
                  match skip r2 with
                  | String c2 r3 =>
                      if bool_decide (c2 = "}"%char) then Some (JObj acc, r3)
                      else if bool_decide (c2 = ","%char) then read_members f acc (skip r3)
                      else None
                  | "" => None
                  end
                else None
            | "" => None
            end
          else None
      | "" => None
      end
  end
with read_elements (fuel : nat) (acc : list json) (s : string) {struct fuel} : option (json * string) :=
  match fuel with
  | O => None
  | S f =>
      '(v, r) ← read_value f s;
      let acc := acc ++ [v] in
      match skip r with
      | String c r1 =>
          if bool_decide (c = "]"%char) then Some (JList acc, r1)
          else if bool_decide (c = ","%char) then read_elements f acc (skip r1)
          else None
      | "" => None
      end
  end.

(** [json.loads(text)]; [None] is the [ValueError] it raises. *)
Definition loads (s : string) : option json :=
  match read_value (S (S (String.length s))) (skip s) with
  | Some (v, r) => if sempty (skip r) then Some v else None
  | None => None
  end.

(** [payload.get(key)] of an object. *)
Definition jget (k : string) (v : json) : option json :=
  match v with JObj o => dget k o | _ => None end.

(** ** Lemmas *)

Lemma read_members_object f : forall acc s v r, read_members f acc s = Some (v, r) -> exists o, v = JObj o.
Proof.
  induction f as [|f IH]; intros acc s v r H; [done|]. cbn [read_members] in H.
  destruct s as [|c t]; [done|]. destruct (bool_decide (c = quote)); [|done].
  apply bind_Some in H as ([k r1] & _ & H). destruct (skip r1) as [|c1 r2]; [done|].
  destruct (bool_decide (c1 = ":"%char)); [|done]. apply bind_Some in H as ([x r3] & _ & H). cbv zeta in H.
  destruct (skip r3) as [|c2 r4]; [done|]. destruct (bool_decide (c2 = "}"%char)); [injection H as <- _; by eexists|].
  destruct (bool_decide (c2 = ","%char)); [by eapply IH|done].
Qed.

(** A text that opens a brace is an object, or no JSON. *)
Lemma loads_brace s v : loads (String "{" s) = Some v -> exists o, v = JObj o.
Proof.
  unfold loads. change (skip (String "{" s)) with (String "{" s).
  set (n := S (String.length (String "{" s))). cbn [read_value].
  rewrite bool_decide_eq_false_2 by (by vm_compute). rewrite bool_decide_eq_true_2 by done.
  destruct (skip s) as [|c1 r]; [done|]. destruct (bool_decide (c1 = "}"%char)).
  - destruct (sempty (skip r)); [|done]. intros [= <-]. by eexists.
  - destruct (read_members n [] (String c1 r)) as [[x t]|] eqn:E; [|done].
    destruct (sempty (skip t)); [|done]. intros [= <-]. by eapply read_members_object.
Qed.

(** ** Reading back what was written *)

(** A character that [json.dumps] writes as it is. *)
Definition plain_char (c : ascii) : bool := (32 <=? code c) && (code c <=? 126) && negb (code c =? 34) && negb (code c =? 92).

Lemma byte_code c : byte (code c) = c.
Proof. unfold byte, code. rewrite N2Z.id. apply Ascii.ascii_N_embedding. Qed.

Lemma plain_escape s : sforall plain_char s = true -> escape s = s.
Proof.
  unfold escape. induction s as [|c s IH]; [done|]. cbn [sforall]. intros [Hc Hs]%andb_true_iff.
  unfold plain_char in Hc. cbn [code_points]. rewrite (proj2 (Z.ltb_lt (code c) 128)) by lia. cbn [fold_right].
  rewrite IH by done. unfold escape_point.
  repeat (rewrite (proj2 (Z.eqb_neq (code c) _)) by lia). replace ((32 <=? code c) && (code c <=? 126)) with true by lia.
  by rewrite byte_code.
Qed.

Lemma read_plain s : forall n r, sforall plain_char s = true -> (String.length s < n)%nat ->
  read_string n (s +:+ String quote r) = Some (s, r).
Proof.
  induction s as [|c s IH]; intros [|n] r Hs Hn; cbn [String.length] in Hn; try lia.
  - change ("" +:+ String quote r) with (String quote r). cbn [read_string]. by rewrite bool_decide_eq_true_2.
  - cbn [sforall] in Hs. apply andb_true_iff in Hs as [Hc Hs]. unfold plain_char in Hc.
    change (String c s +:+ String quote r) with (String c (s +:+ String quote r)). cbn [read_string].
    rewrite bool_decide_eq_false_2 by (intros ->; by vm_compute in Hc).
    rewrite bool_decide_eq_false_2 by (intros ->; by vm_compute in Hc).
    rewrite (proj2 (Z.ltb_ge (code c) 32)) by lia. rewrite IH by (done || lia). done.
Qed.


Lemma sapp_assoc a b c : (a +:+ b) +:+ c = a +:+ (b +:+ c).
Proof. induction a as [|x a IH]; [done|]. cbn [String.append]. exact (f_equal (String x) IH). Qed.

Lemma slength_app a b : String.length (a +:+ b) = (String.length a + String.length b)%nat.
Proof. induction a as [|x a IH]; [done|exact (f_equal S IH)]. Qed.

Lemma read_quoted s r n : sforall plain_char s = true -> read_value (S n) (quoted s +:+ r) = Some (JStr s, r).
Proof.
  intros Hs. unfold quoted. rewrite plain_escape by done.
  change (String quote (s +:+ String quote "") +:+ r) with (String quote ((s +:+ String quote "") +:+ r)).
  rewrite sapp_assoc. change (String quote "" +:+ r) with (String quote r). cbn [read_value].
  rewrite bool_decide_eq_true_2 by done.
  rewrite read_plain; [done..|]. rewrite slength_app. cbn [String.length]. lia.
Qed.

Lemma quoted_strings s l : exists u, join ", " (map quoted (s :: l)) +:+ "]" = String quote u.
Proof. cbn [map]. destruct (map quoted l); cbn [join]; unfold quoted; by eexists. Qed.

Lemma read_strings l : forall s n acc, forallb (sforall plain_char) (s :: l) = true -> (length l < n)%nat ->
  read_elements (S n) acc (join ", " (map quoted (s :: l)) +:+ "]") = Some (JList (acc ++ map JStr (s :: l)), "").
Proof.
  induction l as [|s' l IH]; intros s n acc Hl Hn; cbn [forallb] in Hl; apply andb_true_iff in Hl as [Hs Hl];
    destruct n as [|n]; cbn [length] in Hn; try lia.
  - cbn [map join]. cbn [read_elements]. by rewrite read_quoted.
  - change (join ", " (map quoted (s :: s' :: l))) with (quoted s +:+ (", " +:+ join ", " (map quoted (s' :: l)))).
    transitivity (read_elements (S n) (acc ++ [JStr s]) (join ", " (map quoted (s' :: l)) +:+ "]"));
      [|rewrite IH by (done || lia); by rewrite <- app_assoc].
    clear IH Hl. rewrite !sapp_assoc. destruct (quoted_strings s' l) as [u Hu]. rewrite Hu. remember (S n) as m eqn:Em. cbn [read_elements].
    subst m. by rewrite read_quoted.
Qed.

Lemma join_length l : (length l <= String.length (join ", " (map quoted l)))%nat.
Proof.
  induction l as [|s l IH]; [done|]. destruct l as [|s' l]; cbn [map join] in *; [cbn; lia|].
  unfold quoted at 1. cbn [length] in *. rewrite !slength_app. cbn [String.length]. lia.
Qed.

(** A list of plain texts is read back as it was written. *)
Lemma loads_strings l : forallb (sforall plain_char) l = true -> loads (dumps (JList (map JStr l))) = Some (JList (map JStr l)).
Proof.
  intros Hl. cbn [dumps]. rewrite map_map. rewrite (map_ext _ quoted) by done. destruct l as [|s l]; [done|].
  unfold loads. set (t := join ", " (map quoted (s :: l)) +:+ "]").
  change (skip ("[" +:+ t)) with (String "[" t). set (n := S (String.length ("[" +:+ t))).
  cbn [read_value]. rewrite bool_decide_eq_false_2 by (by vm_compute). rewrite bool_decide_eq_false_2 by (by vm_compute).
  rewrite bool_decide_eq_true_2 by done.
  destruct (quoted_strings s l) as [u Hu]. fold t in Hu. rewrite Hu. change (skip (String quote u)) with (String quote u).
  cbv iota beta. rewrite bool_decide_eq_false_2 by (by vm_compute). rewrite <- Hu.
  assert (H : (length l < String.length ("[" +:+ t))%nat).
  { subst t. pose proof (join_length (s :: l)) as Hj. rewrite !slength_app. cbn [length String.length] in *. lia. }
  subst n t. by rewrite read_strings.
Qed.
