(* ===== verification/AiBudget.v ===== *)
(** * The AI usage budget ([ai/reliable.py])

    Every request to the model is reserved in a budget before it is sent, under
    a lock, and then settled with its cost or cancelled.  One operation of the
    budget is a function of its state, of the day its clock shows and, for a
    reservation, of the fresh token. *)

From S2P Require Import Prelude PyStr PyFloat PyDict.

Record AIUsage := mkUsage {
  prompt_tokens : Z;
  completion_tokens : Z;
  total_tokens : Z;
  estimated_cost_usd : float;
}.

Record Reservation := mkReservation {
  rs_token : string;
  rs_day : Z;
  rs_cost : float;
}.

Record UsageBudget := mkBudget {
  max_process_calls : Z;
  max_daily_calls : Z;
  max_process_cost_usd : float;
  max_daily_cost_usd : float;
  ub_day : Z;
  process_calls : Z;
  daily_calls : Z;
  process_cost : float;
  daily_cost : float;
  process_reserved : float;
  daily_reserved : float;
  reservations : dict Reservation;
}.

(** [_non_negative_int] and [_non_negative_float] of numbers *)
Definition non_negative_int (value : Z) (name : string) : res Z :=
  _ ← raise_if (value <? 0) (ValueError (name +:+ " must be non-negative")); Ok value.
Definition non_negative_float (value : float) (name : string) : res float :=
  _ ← raise_if (value <? fzero)%F (ValueError (name +:+ " must be non-negative")); Ok value.

(** [_env_int], [_env_float]: the variable's text, read by [read]. *)
Definition env_number {A} (read : string -> res A) (variable : option string) (default : A) : res A :=
  match variable with
  | None => Ok default
  | Some text => if sempty text then Ok default else read text
  end.

(** [UsageBudget.__init__] on the day [today] *)
Definition new_budget (process daily : Z) (process_usd daily_usd : float) (today : Z) : res UsageBudget :=
  p ← non_negative_int process "max_process_calls";
  d ← non_negative_int daily "max_daily_calls";
  pc ← non_negative_float process_usd "max_process_cost_usd";
  dc ← non_negative_float daily_usd "max_daily_cost_usd";
  Ok (mkBudget p d pc dc today 0 0 fzero fzero fzero fzero []).

(** [UsageBudget.from_env]: the values of the four variables *)
Definition budget_from_env (read_int : string -> res Z) (read_float : string -> res float)
    (calls daily cost daily_usd : option string) (today : Z) : res UsageBudget :=
  p ← env_number read_int calls 500;
  d ← env_number read_int daily 1000;
  pc ← env_number read_float cost (f_of_Z 10);
  dc ← env_number read_float daily_usd (f_of_Z 25);
  new_budget p d pc dc today.

Section Budget.
(** [sum] of floats, whose rounding differs between the Python versions the
    package allows. *)
Variable float_sum : list float -> float.

(** The counters of a new day, and the other state unchanged. *)
Definition roll_day (today : Z) (b : UsageBudget) : UsageBudget :=
  if today =? ub_day b then b
  else mkBudget (max_process_calls b) (max_daily_calls b) (max_process_cost_usd b) (max_daily_cost_usd b) today
         (process_calls b) 0 (process_cost b) fzero (process_reserved b)
         (float_sum (map rs_cost (List.filter (fun r => rs_day r =? today) (dvalues (reservations b)))))
         (reservations b).

(** [reserve_call]: the budget it leaves also when it raises. *)
Definition reserve_call (estimated : float) (today : Z) (token : string) : stm UsageBudget Reservation := fun b =>
  match non_negative_float estimated "estimated_cost_usd" with
  | Err e => (Err e, b)
  | Ok estimated =>
      let b := roll_day today b in
      if max_process_calls b <=? process_calls b
      then (Err (AIBudgetExceededError "process AI call limit exceeded"), b)
      else if max_daily_calls b <=? daily_calls b
      then (Err (AIBudgetExceededError "daily AI call limit exceeded"), b)
      else if (max_process_cost_usd b <? process_cost b + process_reserved b + estimated)%F
      then (Err (AIBudgetExceededError "process AI cost limit exceeded"), b)
      else if (max_daily_cost_usd b <? daily_cost b + daily_reserved b + estimated)%F
      then (Err (AIBudgetExceededError "daily AI cost limit exceeded"), b)
      else
        let r := mkReservation token (ub_day b) estimated in
        (Ok r, mkBudget (max_process_calls b) (max_daily_calls b) (max_process_cost_usd b) (max_daily_cost_usd b)
           (ub_day b) (process_calls b + 1) (daily_calls b + 1) (process_cost b) (daily_cost b)
           (process_reserved b + estimated)%F (daily_reserved b + estimated)%F (dset token r (reservations b)))
  end.

(** The reservation is popped and no longer held. *)
Definition release (token : string) (current : Reservation) (b : UsageBudget) : UsageBudget :=
  mkBudget (max_process_calls b) (max_daily_calls b) (max_process_cost_usd b) (max_daily_cost_usd b)
    (ub_day b) (process_calls b) (daily_calls b) (process_cost b) (daily_cost b)
    (process_reserved b - rs_cost current)%F
    (if rs_day current =? ub_day b then (daily_reserved b - rs_cost current)%F else daily_reserved b)
    (dpop token (reservations b)).

(** The actual cost is added. *)
Definition charge (day : Z) (actual : float) (b : UsageBudget) : UsageBudget :=
  mkBudget (max_process_calls b) (max_daily_calls b) (max_process_cost_usd b) (max_daily_cost_usd b)
    (ub_day b) (process_calls b) (daily_calls b) (process_cost b + actual)%F
    (if day =? ub_day b then (daily_cost b + actual)%F else daily_cost b)
    (process_reserved b) (daily_reserved b) (reservations b).

Definition settle (r : Reservation) (actual : float) : stm UsageBudget unit := fun b =>
  match non_negative_float actual "actual_cost_usd" with
  | Err e => (Err e, b)
  | Ok actual =>
      match dget (rs_token r) (reservations b) with
      | None => (Ok tt, b)
      | Some current =>
          let b := charge (rs_day current) actual (release (rs_token r) current b) in
          if (max_process_cost_usd b <? process_cost b)%F
          then (Err (AIBudgetExceededError "process AI cost limit exceeded"), b)
          else if (max_daily_cost_usd b <? daily_cost b)%F
          then (Err (AIBudgetExceededError "daily AI cost limit exceeded"), b)
          else (Ok tt, b)
      end
  end.

Definition cancel (r : Reservation) : stm UsageBudget unit := fun b =>
  match dget (rs_token r) (reservations b) with
  | None => (Ok tt, b)
  | Some current => (Ok tt, release (rs_token r) current b)
  end.

Record UsageBudgetSnapshot := mkBudgetSnapshot {
  bs_process_calls : Z;
  bs_daily_calls : Z;
  bs_process_cost_usd : float;
  bs_daily_cost_usd : float;
  bs_process_reserved_cost_usd : float;
  bs_daily_reserved_cost_usd : float;
}.

Definition snapshot (today : Z) : stm UsageBudget UsageBudgetSnapshot := fun b =>
  let b := roll_day today b in
  (Ok (mkBudgetSnapshot (process_calls b) (daily_calls b) (process_cost b) (daily_cost b) (process_reserved b)
     (daily_reserved b)), b).

(** ** Runs of concurrent callers, one operation at a time *)

Inductive budget_call :=
  | Reserve (estimated : float) (today : Z) (token : string)
  | Settle (r : Reservation) (actual : float)
  | Cancel (r : Reservation)
  | Snapshot (today : Z).

Definition budget_step (c : budget_call) (b : UsageBudget) : UsageBudget :=
  match c with
  | Reserve e t k => (reserve_call e t k b).2
  | Settle r a => (settle r a b).2
  | Cancel r => (cancel r b).2
  | Snapshot t => (snapshot t b).2
  end.

Definition budget_run (l : list budget_call) (b : UsageBudget) : UsageBudget := fold_left (fun b c => budget_step c b) l b.

(** The reservations of a run that were granted. *)
Fixpoint granted (l : list budget_call) (b : UsageBudget) : list Reservation :=
  match l with
  | [] => []
  | c :: l' =>
      (match c with
       | Reserve e t k => match (reserve_call e t k b).1 with Ok r => [r] | Err _ => [] end
       | _ => []
       end) ++ granted l' (budget_step c b)
  end.
End Budget.

(** ** Lemmas *)

Record budget_ok (b : UsageBudget) : Prop := mkBudgetOk {
  bo_process : 0 <= process_calls b <= max_process_calls b;
  bo_daily : 0 <= daily_calls b <= max_daily_calls b;
  bo_keys : NoDup (dkeys (reservations b));
}.

Lemma non_negative_int_Ok v name x : non_negative_int v name = Ok x -> x = v /\ 0 <= v.
Proof. unfold non_negative_int. intros H. apply bind_Ok in H as ([] & Hr & [= <-]). apply raise_if_Ok in Hr. lia. Qed.

Lemma new_budget_ok p d pc dc t b : new_budget p d pc dc t = Ok b ->
  budget_ok b /\ process_calls b = 0 /\ daily_calls b = 0 /\ max_process_calls b = p /\ max_daily_calls b = d /\ ub_day b = t.
Proof.
  unfold new_budget. intros H.
  apply bind_Ok in H as (p' & Hp & H). apply bind_Ok in H as (d' & Hd & H).
  apply bind_Ok in H as (x & _ & H). apply bind_Ok in H as (y & _ & H).
  apply non_negative_int_Ok in Hp as [-> ?], Hd as [-> ?].
  injection H as <-. split_and!; try done. split; cbn; [lia|lia|constructor].
Qed.

Section BudgetFacts.
Variable float_sum : list float -> float.

Lemma roll_day_fields t b : max_process_calls (roll_day float_sum t b) = max_process_calls b /\
  max_daily_calls (roll_day float_sum t b) = max_daily_calls b /\ process_calls (roll_day float_sum t b) = process_calls b /\
  reservations (roll_day float_sum t b) = reservations b /\ ub_day (roll_day float_sum t b) = t /\
  daily_calls (roll_day float_sum t b) = (if t =? ub_day b then daily_calls b else 0).
Proof. unfold roll_day. destruct (Z.eqb_spec t (ub_day b)); by split_and!. Qed.

Lemma roll_day_ok t b : budget_ok b -> budget_ok (roll_day float_sum t b).
Proof.
  intros [H1 H2 H3]. destruct (roll_day_fields t b) as (E1 & E2 & E3 & E4 & _ & E6).
  split; rewrite ?E1, ?E2, ?E3, ?E4, ?E6; try done. destruct (_ =? _); lia.
Qed.

(** What a reservation does: it is granted and counted, or changes nothing but
    the day. *)
Lemma reserve_call_cases e t k b :
  (exists r, (reserve_call float_sum e t k b).1 = Ok r /\ rs_token r = k /\ rs_day r = t /\
     let b' := (reserve_call float_sum e t k b).2 in
     max_process_calls b' = max_process_calls b /\ max_daily_calls b' = max_daily_calls b /\ ub_day b' = t /\
     process_calls b < max_process_calls b /\ process_calls b' = process_calls b + 1 /\
     daily_calls (roll_day float_sum t b) < max_daily_calls b /\ daily_calls b' = daily_calls (roll_day float_sum t b) + 1 /\
     reservations b' = dset k r (reservations b)) \/
  (exists x, (reserve_call float_sum e t k b).1 = Err x /\
     ((reserve_call float_sum e t k b).2 = b \/ (reserve_call float_sum e t k b).2 = roll_day float_sum t b)).
Proof.
  destruct (roll_day_fields t b) as (E1 & E2 & E3 & E4 & E5 & _). unfold reserve_call.
  destruct (non_negative_float e _) as [e'|x]; [|right; eauto].
  cbv zeta. rewrite E1, E2, E3, E4, E5. destruct (_ <=? _) eqn:H1; [right; eauto|].
  destruct (max_daily_calls b <=? _) eqn:H2; [right; eauto|]. destruct (_ <? _)%F; [right; eauto|].
  destruct (_ <? _)%F; [right; eauto|]. left. eexists. split; [done|]. cbn. split_and!; lia || done.
Qed.

Lemma release_cases k c b : budget_ok b -> budget_ok (release k c b) /\ process_calls (release k c b) = process_calls b /\
  daily_calls (release k c b) = daily_calls b /\ ub_day (release k c b) = ub_day b /\
  max_process_calls (release k c b) = max_process_calls b /\ max_daily_calls (release k c b) = max_daily_calls b.
Proof. intros [H1 H2 H3]. split_and!; try done. split; try done. by apply dpop_NoDup. Qed.

(** A settlement or cancellation releases the reservation, or is a repetition. *)
Lemma settle_cases r a b : (settle r a b).2 = b \/ exists c,
  (settle r a b).2 = release (rs_token r) c b \/ (settle r a b).2 = charge (rs_day c) a (release (rs_token r) c b).
Proof.
  unfold settle, non_negative_float. destruct (raise_if _ _) as [[]|]; cbn [mbind res_bind]; [|by left].
  destruct (dget _ _) as [c|]; [|by left]. right. exists c. right. cbv zeta. by repeat destruct (_ <? _)%F.
Qed.

Lemma cancel_cases r b : (cancel r b).2 = b \/ exists c, (cancel r b).2 = release (rs_token r) c b.
Proof. unfold cancel. destruct (dget _ _) as [c|]; [right; by exists c|by left]. Qed.

(** Every operation other than a granted reservation leaves the counters. *)
Lemma budget_step_quiet c b : (forall e t k, c = Reserve e t k -> exists x, (reserve_call float_sum e t k b).1 = Err x) ->
  let b' := budget_step float_sum c b in
  process_calls b' = process_calls b /\ max_process_calls b' = max_process_calls b /\ max_daily_calls b' = max_daily_calls b /\
  ((ub_day b' = ub_day b /\ daily_calls b' = daily_calls b) \/
   exists t, (c = Snapshot t \/ exists e k, c = Reserve e t k) /\ ub_day b' = t /\ daily_calls b' = daily_calls (roll_day float_sum t b)).
Proof.
  intros Hc. destruct c as [e t k|r a|r|t]; cbn.
  - destruct (roll_day_fields t b) as (E1 & E2 & E3 & E4 & E5 & E6).
    destruct (Hc e t k eq_refl) as [x Hx]. destruct (reserve_call_cases e t k b) as [(r & Hr & _)|(y & _ & [-> | ->])]; [congruence| |].
    + split_and!; try done. by left.
    + split_and!; try done. right. exists t. split; [eauto|done].
  - destruct (settle_cases r a b) as [-> |(c & [-> | ->])]; split_and!; try done; by left.
  - destruct (cancel_cases r b) as [-> |(c & ->)]; split_and!; try done; by left.
  - destruct (roll_day_fields t b) as (E1 & E2 & E3 & E4 & E5 & E6). split_and!; try done. right. exists t. eauto.
Qed.
End BudgetFacts.

(** The days that the clock shows to a run. *)
Definition call_days (l : list budget_call) : list Z :=
  flat_map (fun c => match c with Reserve _ t _ | Snapshot t => [t] | _ => [] end) l.

Definition on_day (D : Z) (r : Reservation) : bool := rs_day r =? D.

(** What is left of the daily limit for the day [D]. *)
Definition day_room (D : Z) (b : UsageBudget) : Z :=
  if D =? ub_day b then max_daily_calls b - daily_calls b else if D <? ub_day b then 0 else max_daily_calls b.

Section BudgetRuns.
Variable float_sum : list float -> float.

Lemma budget_step_ok c b : budget_ok b -> budget_ok (budget_step float_sum c b).
Proof.
  intros Hb. pose proof Hb as [H1 H2 H3]. destruct c as [e t k|r a|r|t]; cbn.
  - destruct (reserve_call_cases float_sum e t k b) as [(r & _ & _ & _ & E1 & E2 & E3 & ? & E4 & ? & E5 & E6)|(x & _ & [-> | ->])];
      [|done|by apply roll_day_ok].
    pose proof (bo_daily _ (roll_day_ok float_sum t b Hb)). cbv zeta in *.
    split; rewrite ?E1, ?E2, ?E4, ?E5, ?E6; [lia|lia|by apply dset_NoDup].
  - destruct (settle_cases r a b) as [-> |(c & [-> | ->])]; [done|by apply release_cases|].
    by destruct (release_cases (rs_token r) c b Hb) as ([? ? ?] & _).
  - destruct (cancel_cases r b) as [-> |(c & ->)]; [done|by apply release_cases].
  - by apply roll_day_ok.
Qed.

(** One step: granted, or quiet. *)
Lemma budget_step_cases c b :
  (exists e t k r, c = Reserve e t k /\ (reserve_call float_sum e t k b).1 = Ok r /\ rs_day r = t) \/
  (forall e t k, c = Reserve e t k -> exists x, (reserve_call float_sum e t k b).1 = Err x).
Proof.
  destruct c as [e t k|r a|r|t]; [|by right..].
  destruct (reserve_call_cases float_sum e t k b) as [(r & H & _ & H2 & _)|(x & H & _)]; [left; by exists e, t, k, r|].
  right. intros ? ? ? [= -> -> ->]. eauto.
Qed.

Lemma granted_quiet c l b : (forall e t k, c = Reserve e t k -> exists x, (reserve_call float_sum e t k b).1 = Err x) ->
  granted float_sum (c :: l) b = granted float_sum l (budget_step float_sum c b).
Proof. intros H. cbn. destruct c as [e t k|r a|r|t]; try done. by destruct (H e t k eq_refl) as [x ->]. Qed.

Lemma granted_total l b : budget_ok b ->
  process_calls b + len (granted float_sum l b) <= max_process_calls b /\
  process_calls (budget_run float_sum l b) = process_calls b + len (granted float_sum l b).
Proof.
  revert b. induction l as [|c l IH]; intros b Hb; [unfold budget_run, len; destruct Hb; cbn; lia|].
  destruct (IH _ (budget_step_ok c b Hb)) as [I1 I2]. unfold budget_run in *. cbn [fold_left].
  destruct (budget_step_cases c b) as [(e & t & k & r & -> & Hr & _)|Hq].
  - destruct (reserve_call_cases float_sum e t k b) as [(r' & Hr' & _ & _ & E1 & E2 & E3 & ? & E4 & _)|(x & Hx & _)]; [|congruence].
    cbn [granted] in *. rewrite Hr. cbn [app]. unfold len in *. cbn [length budget_step] in *. cbv zeta in *. lia.
  - rewrite granted_quiet by done. destruct (budget_step_quiet float_sum c b Hq) as (E1 & E2 & _). cbv zeta in *. lia.
Qed.

Lemma granted_daily l b D : budget_ok b -> StronglySorted Z.le (ub_day b :: call_days l) ->
  len (List.filter (on_day D) (granted float_sum l b)) <= day_room D b.
Proof.
  revert b. induction l as [|c l IH]; intros b Hb Hs.
  { pose proof (bo_daily _ Hb). unfold day_room, len. cbn [granted List.filter length]. repeat case_match; lia. }
  pose proof (budget_step_ok c b Hb) as Hb'. specialize (IH _ Hb'). pose proof (bo_daily _ Hb) as H1.
  destruct (budget_step_cases c b) as [(e & t & k & r & -> & Hr & Ht)|Hq].
  - destruct (reserve_call_cases float_sum e t k b) as [(r' & Hr' & _ & _ & _ & E2 & E3 & _ & _ & ? & E5 & _)|(x & Hx & _)]; [|congruence].
    destruct (roll_day_fields float_sum t b) as (_ & _ & _ & _ & _ & E6).
    cbn [granted]. rewrite Hr. cbn [app List.filter budget_step] in *. cbv zeta in *. cbn [call_days flat_map app] in Hs.
    apply Sorted.StronglySorted_inv in Hs as [Hs Hle]. inversion_clear Hle as [|? ? Hle' _]. rewrite E3 in IH. specialize (IH Hs).
    unfold day_room in *. rewrite E2, E3, E5 in IH. unfold on_day at 1. rewrite Ht. rewrite E6 in *.
    destruct (Z.eqb_spec t D) as [<-|]; [unfold len in *; cbn [length]; rewrite Z.eqb_refl in IH|];
      destruct (Z.eqb_spec t (ub_day b)); repeat case_match; lia.
  - rewrite granted_quiet by done. destruct (budget_step_quiet float_sum c b Hq) as (_ & _ & E3 & Hd). cbv zeta in *.
    unfold day_room in *. rewrite E3 in IH. destruct Hd as [[E1 E2]|(t & Hc & E1 & E2)].
    + rewrite E1, E2 in IH. apply IH. apply Sorted.StronglySorted_inv in Hs as [Hs Hle]. constructor.
      * destruct c; cbn in Hs; try done; by apply Sorted.StronglySorted_inv in Hs as [? _].
      * destruct c; cbn in Hle; try done; by inversion_clear Hle.
    + assert (Hcd : call_days (c :: l) = t :: call_days l) by (by destruct Hc as [-> |(e & k & ->)]). rewrite Hcd in Hs.
      apply Sorted.StronglySorted_inv in Hs as [Hs Hle]. inversion_clear Hle as [|? ? Hle' _].
      destruct (roll_day_fields float_sum t b) as (_ & _ & _ & _ & _ & E6).
      rewrite E1, E2, E6 in IH. specialize (IH Hs). destruct (Z.eqb_spec t (ub_day b)); repeat case_match; lia.
Qed.
End BudgetRuns.

(** ** Properties *)

(** Fact: the budget bounds the calls of all callers together.  However reserva-
    tions, settlements, cancellations and day changes interleave, the granted
    reservations are counted exactly and never exceed the limit of the process;
    and while the clock does not go back, those of any one day never exceed the
    daily limit. *)
Theorem budget_limits_calls float_sum p d pc dc today b l :
  new_budget p d pc dc today = Ok b ->
  len (granted float_sum l b) = process_calls (budget_run float_sum l b) /\ len (granted float_sum l b) <= p /\
  (StronglySorted Z.le (today :: call_days l) -> forall D, len (List.filter (on_day D) (granted float_sum l b)) <= d).
Proof.
  intros H. destruct (new_budget_ok _ _ _ _ _ _ H) as (Hb & E1 & E2 & E3 & E4 & E5).
  destruct (granted_total float_sum l b Hb) as [H1 H2]. split; [lia|]. split; [lia|].
  intros Hs D. etrans; [apply granted_daily; [done|by rewrite E5]|].
  pose proof (bo_daily _ Hb). unfold day_room. repeat case_match; lia.
Qed.

(** Fact: a reservation is released once.  After it was settled or cancelled, to do
    either again changes nothing. *)
Theorem reservation_released_once r a a' b : budget_ok b ->
  let b1 := (cancel r b).2 in let b2 := (settle r a b).2 in
  (cancel r b1).2 = b1 /\ (settle r a' b1).2 = b1 /\
  (fleb fzero a = true -> (cancel r b2).2 = b2 /\ (settle r a' b2).2 = b2).
Proof.
  intros [_ _ Hk]. cbv zeta.
  assert (Hgone : forall b', dget (rs_token r) (reservations b') = None -> (cancel r b').2 = b' /\ (settle r a' b').2 = b').
  { intros b' Hb'. unfold cancel, settle. rewrite Hb'. split; [done|]. by destruct (non_negative_float _ _). }
  assert (Hpop : dget (rs_token r) (dpop (rs_token r) (reservations b)) = None).
  { rewrite dget_dpop by done. by case_decide. }
  split; [|split].
  - apply Hgone. unfold cancel. destruct (dget (rs_token r) (reservations b)) eqn:E; [exact Hpop|exact E].
  - apply Hgone. unfold cancel. destruct (dget (rs_token r) (reservations b)) eqn:E; [exact Hpop|exact E].
  - intros Ha. apply Hgone. unfold settle, non_negative_float. rewrite (fleb_not_fltb _ _ Ha). cbn [raise_if mbind res_bind].
    destruct (dget (rs_token r) (reservations b)) eqn:E; [|exact E]. cbv zeta. destruct (_ <? _)%F; [exact Hpop|]. destruct (_ <? _)%F; exact Hpop.
Qed.

(** ** Witnesses *)

Definition w_sum (l : list float) : float := foldl fadd fzero l.
Definition w_limits : UsageBudget := mkBudget 3 2 (f_of_Z 10) (f_of_Z 25) 0 0 0 fzero fzero fzero fzero [].
Definition w_calls : list budget_call :=
  [Reserve f_one 0 "a"; Reserve f_one 0 "b"; Reserve f_one 0 "c"; Cancel (mkReservation "a" 0 f_one); Reserve f_one 1 "d"; Reserve f_one 1 "e"].

Lemma budget_limits_calls_witness :
  map rs_token (granted w_sum w_calls w_limits) = ["a"; "b"; "d"] /\ len (granted w_sum w_calls w_limits) <= 3 /\
  len (List.filter (on_day 0) (granted w_sum w_calls w_limits)) <= 2.
Proof.
  destruct (budget_limits_calls w_sum 3 2 (f_of_Z 10) (f_of_Z 25) 0 w_limits w_calls eq_refl) as (_ & H1 & H2).
  split; [vm_compute; reflexivity|]. split; [exact H1|]. apply H2. repeat constructor; cbn; lia.
Defined.

Lemma reservation_released_once_witness :
  (settle (mkReservation "b" 0 f_one) f_one (cancel (mkReservation "b" 0 f_one) (budget_run w_sum w_calls w_limits)).2).2 =
  (cancel (mkReservation "b" 0 f_one) (budget_run w_sum w_calls w_limits)).2.
Proof.
  apply (reservation_released_once (mkReservation "b" 0 f_one) f_one f_one (budget_run w_sum w_calls w_limits)).
  split; [vm_compute; split; discriminate..|]. apply (bool_decide_unpack _). vm_compute. exact I.
Defined.
