(* ===== verification/KisHttp.v ===== *)
(** * KIS endpoints, responses and errors ([broker/kis_endpoints.py],
    [broker/kis_auth.py], [broker/kis_order_status.py])

    An HTTP response is its status, its headers and its body, which is a JSON
    document or not JSON at all.  [response.raise_for_status] does nothing below
    status 400, the only place it is called. *)

From S2P Require Import Prelude PyStr PyFloat PyTime PyDecimal PyDict PyJson DbCore DbRuntime.

Inductive KisEnvironment := DEMO | REAL.

#[export] Instance kis_environment_eq_dec : EqDecision KisEnvironment.
Proof. solve_decision. Defined.

Definition environment_value (e : KisEnvironment) : string := match e with DEMO => "demo" | REAL => "real" end.

(** [KisEnvironment.parse] *)
Definition parse_environment (value : string) : res KisEnvironment :=
  let v := lower value in
  if String.eqb v "demo" then Ok DEMO
  else if String.eqb v "real" then Ok REAL
  else Err (ValueError "KIS environment must be 'demo' or 'real'").

Definition base_url (e : KisEnvironment) : string :=
  match e with
  | REAL => "https://openapi.koreainvestment.com:9443"
  | DEMO => "https://openapivts.koreainvestment.com:29443"
  end.

Definition is_slash (c : ascii) : bool := bool_decide (c = "/"%char).

Definition api_url (e : KisEnvironment) (path : string) : string :=
  rstrip_by is_slash (base_url e) +:+ "/" +:+ lstrip_by is_slash path.

(** ** [str] of a JSON value *)

Definition apostrophe : ascii := Ascii.ascii_of_N 39.

Fixpoint has_char (c : ascii) (s : string) : bool :=
  match s with "" => false | String d t => bool_decide (d = c) || has_char c t end.

Fixpoint repr_chars (q : ascii) (s : string) : string :=
  match s with
  | "" => ""
  | String c t =>
      (if bool_decide (c = q) || bool_decide (c = "\"%char) then String "\" (String c "")
       else if code c =? 10 then "\n" else if code c =? 13 then "\r" else if code c =? 9 then "\t"
       else if (code c <? 32) || (code c =? 127)
            then "\x" +:+ String (hex_digit (code c / 16)) (String (hex_digit (code c mod 16)) "")
       else String c "") +:+ repr_chars q t
  end.

(** [repr(s)]: single quotes, unless the text has one and no double quote. *)
Definition repr_str (s : string) : string :=
  let q := if has_char apostrophe s && negb (has_char quote s) then quote else apostrophe in
  String q (repr_chars q s +:+ String q "").

Fixpoint py_repr (v : json) : string :=
  match v with
  | JNull => "None"
  | JBool b => if b then "True" else "False"
  | JInt z => str_int z
  | JFloat x => float_text x
  | JStr s => repr_str s
  | JList l => "[" +:+ join ", " (map py_repr l) +:+ "]"
  | JObj o => "{" +:+ join ", " (map (fun kv => repr_str (fst kv) +:+ ": " +:+ py_repr (snd kv)) o) +:+ "}"
  end.

(** [str(v)] *)
Definition py_str (v : json) : string := match v with JStr s => s | _ => py_repr v end.

(** [value in (None, "")] *)
Definition is_blank (v : json) : bool :=
  match v with JNull => true | JStr s => sempty s | _ => false end.

(** [bool(v)] *)
Definition truthy (v : json) : bool :=
  match v with
  | JNull => false
  | JBool b => b
  | JInt z => negb (z =? 0)
  | JFloat x => negb (x =? fzero)%F
  | JStr s => negb (sempty s)
  | JList l => match l with [] => false | _ => true end
  | JObj o => match o with [] => false | _ => true end
  end.

(** [int(value)] of a JSON value *)
Definition json_int (v : json) : res Z :=
  match v with
  | JInt z => Ok z
  | JBool b => Ok (if b then 1 else 0)
  | JFloat x => int_of_float x
  | JStr s => parse_int s
  | _ => Err (TypeError "int() argument must be a string, a bytes-like object or a real number")
  end.

Definition no_attribute : exn := OtherError "AttributeError".

(** ** Responses *)

Record response := mkResponse {
  status_code : Z;
  headers : dict string;
  body : option json;
}.

(** The first [n] code points of a text: continuation bytes stay with theirs. *)
Fixpoint take_points (n : Z) (s : string) : string :=
  match s with
  | "" => ""
  | String c t =>
      if cont c then String c (take_points n t)
      else if n <=? 0 then "" else String c (take_points (n - 1) t)
  end.

(** [s.replace(old, new)] of a non-empty [old]. *)
Fixpoint replace_all (fuel : nat) (old new s : string) : string :=
  match fuel with
  | O => s
  | S f =>
      match s with
      | "" => ""
      | String c t =>
          if startswith old s then new +:+ replace_all f old new (removeprefix old s)
          else String c (replace_all f old new t)
      end
  end.

Definition redact_secrets (secrets : list string) (text : string) : string :=
  fold_left (fun acc secret =>
    if sempty secret then acc else replace_all (S (String.length acc)) secret "[redacted]" acc) secrets text.

Definition ERROR_KEYS : list string := ["rt_cd"; "msg_cd"; "msg1"; "error_description"].

(** The response metadata an error carries: never the caller's secrets. *)
Definition error_details (secrets : list string) (payload : json) : list (string * string) :=
  omap (fun key =>
    match jget key payload with
    | Some v => if is_blank v then None else Some (key, take_points 300 (redact_secrets secrets (py_str v)))
    | None => None
    end) ERROR_KEYS.

(** [_raise_for_kis_response] *)
Definition raise_for_kis_response (r : response) (secrets : list string) : res unit :=
  if status_code r <? 400 then Ok tt
  else Err (KisHttpError (status_code r)
             (match body r with Some v => error_details secrets v | None => [] end)).

(** [_payload] of [kis_order_status.py] *)
Definition payload_of (r : response) (secrets : list string) : res (dict json) :=
  _ ← raise_for_kis_response r secrets;
  match body r with
  | None => Err (RuntimeError "KIS response was not valid JSON")
  | Some (JObj o) =>
      let rt_cd := match dget "rt_cd" o with Some v => py_str v | None => "1" end in
      if String.eqb rt_cd "0" then Ok o
      else Err (KisHttpError (status_code r) (error_details secrets (JObj o)))
  | Some _ => Err (RuntimeError "KIS response was not an object")
  end.

(** [_header] *)
Definition header_of (r : response) (name : string) : string :=
  match dget name (headers r) with
  | Some v => v
  | None => match dget (lower name) (headers r) with Some v => v | None => "" end
  end.

(** [_first(row, *names)] *)
Fixpoint first_of (row : dict json) (names : list string) : option json :=
  match names with
  | [] => None
  | n :: ns =>
      match dget n row with
      | Some v => if is_blank v then first_of row ns else Some v
      | None => first_of row ns
      end
  end.

(** [_text(value)] *)
Definition text_of (v : option json) : option string :=
  match v with
  | None => None
  | Some v => if is_blank v then None
              else let s := strip (py_str v) in if sempty s then None else Some s
  end.

(** ** Numbers of a broker row *)

(** Python's [float(text)]: the decimal grammar with underscores only between
    digits, [inf], [infinity] and [nan]. *)
Fixpoint underscores_ok (prev : bool) (s : string) : bool :=
  match s with
  | "" => true
  | String c t =>
      if bool_decide (c = "_"%char)
      then prev && match t with String d _ => is_digit d | "" => false end && underscores_ok false t
      else underscores_ok (is_digit c) t
  end.

Definition float_of_text (text : string) : res float :=
  let s := strip text in
  let bad := Err (ValueError "could not convert string to float") in
  if negb (underscores_ok false s) then bad
  else match decimal_of_string s with
       | Some (DFin (mkDec 0 _)) => Ok (SpecFloat.S754_zero (startswith "-" s))
       | Some (DFin d) => Ok (float_of_dec d)
       | Some (DInf neg) => Ok (SpecFloat.S754_infinity neg)
       | Some DNaN =>
           let l := lower s in
           if String.eqb l "nan" || String.eqb l "+nan" || String.eqb l "-nan" then Ok SpecFloat.S754_nan else bad
       | None => bad
       end.

Definition number_text (v : json) : string := strip (remove_char ","%char (py_str v)).

(** [_int_value]: [int(float(...))] raises [OverflowError] on an infinity, which
    the source does not catch. *)
Definition int_value (v : option json) : res Z :=
  match v with
  | None => Ok 0
  | Some v =>
      if is_blank v then Ok 0
      else match (x ← float_of_text (number_text v); int_of_float x) with
           | Ok z => Ok (Z.max 0 z)
           | Err e => if is_ValueError e then Ok 0 else Err e
           end
  end.

(** [_float_value] *)
Definition float_value (v : option json) : option float :=
  match v with
  | None => None
  | Some v =>
      if is_blank v then None
      else match float_of_text (number_text v) with Ok x => Some x | Err _ => None end
  end.

(** [_flag] *)
Definition flag (v : option json) : bool :=
  match v with
  | Some v => truthy v && existsb (String.eqb (upper (strip (py_str v)))) ["Y"; "1"; "TRUE"; "REJECT"; "REJECTED"]
  | None => false
  end.

(** ** Lemmas *)

Lemma int_value_nonneg v z : int_value v = Ok z -> 0 <= z.
Proof.
  unfold int_value. destruct v as [v|]; [|intros [= <-]; lia]. destruct (is_blank v); [intros [= <-]; lia|].
  destruct (mbind _ _) as [z'|e]; [intros [= <-]; lia|]. destruct (is_ValueError e); [intros [= <-]; lia|done].
Qed.

Lemma payload_of_Ok r secrets o : payload_of r secrets = Ok o -> status_code r < 400 /\ body r = Some (JObj o).
Proof.
  unfold payload_of. intros H. apply bind_Ok in H as ([] & Hr & H). unfold raise_for_kis_response in Hr.
  destruct (Z.ltb_spec (status_code r) 400); [|done]. split; [done|].
  destruct (body r) as [[| | | | | |o']|]; try done. destruct (String.eqb _ _); [|done]. by injection H as ->.
Qed.
