(* ===== verification/AiDecision.v ===== *)
(** * AI trading decisions ([ai/decision.py])

    The decision record with its validation, the rule-based client, and the
    client of the OpenAI service: the snapshot check, the request, the bounded
    retries, the budget of every attempt, the reading of the usage and the
    normalisation of a BUY.  The HTTP session, the sleeps, the random jitter and
    the fresh tokens belong to the world; the parser of a decision text (the
    pydantic package) is a parameter. *)

From S2P Require Import Prelude PyStr PyFloat PyTime PyDecimal PyDict PyJson DbCore DbRuntime MarketRules Indicators AiBudget KisHttp.

Inductive AIDecisionAction := ActHold | ActBuy | ActSell.
Inductive AIRiskLevel := RiskLow | RiskNormal | RiskHigh.

#[export] Instance ai_action_eq_dec : EqDecision AIDecisionAction.
Proof. solve_decision. Defined.
#[export] Instance ai_risk_eq_dec : EqDecision AIRiskLevel.
Proof. solve_decision. Defined.

Definition action_value (a : AIDecisionAction) : string :=
  match a with ActHold => "HOLD" | ActBuy => "BUY" | ActSell => "SELL" end.
Definition risk_value (r : AIRiskLevel) : string :=
  match r with RiskLow => "LOW" | RiskNormal => "NORMAL" | RiskHigh => "HIGH" end.

Record TradingAIDecision := mkDecision {
  td_decision_id : string;
  td_symbol : string;
  td_action : AIDecisionAction;
  td_strategy : option string;
  td_model : option string;
  td_prompt_version : option string;
  td_confidence : float;
  td_entry_price : option float;
  td_take_profit_price : option float;
  td_stop_loss_price : option float;
  td_max_holding_seconds : option Z;
  td_risk_level : AIRiskLevel;
  td_requires_operator_approval : bool;
  td_rationale : string;
  td_generated_at : datetime;
}.

(** The constraints of the fields, as the class declares them. *)
Definition length_between (lo hi : Z) (s : string) : bool := (lo <=? slen s) && (slen s <=? hi).
Definition none_or {A} (p : A -> bool) (x : option A) : bool := match x with Some v => p v | None => true end.

Definition fields_valid (d : TradingAIDecision) : bool :=
  isdigit (td_symbol d) && (slen (td_symbol d) =? 6)
  && none_or (length_between 1 80) (td_strategy d)
  && none_or (length_between 1 120) (td_model d)
  && none_or (length_between 1 80) (td_prompt_version d)
  && ((fzero <=? td_confidence d) && (td_confidence d <=? f_one))%F
  && none_or (fun p => fzero <? p)%F (td_entry_price d)
  && none_or (fun p => fzero <? p)%F (td_take_profit_price d)
  && none_or (fun p => fzero <? p)%F (td_stop_loss_price d)
  && none_or (fun s => (30 <=? s) && (s <=? 7200)) (td_max_holding_seconds d)
  && length_between 1 1000 (td_rationale d).

(** [validate_price_ladder] *)
Definition validate_price_ladder (d : TradingAIDecision) : res TradingAIDecision :=
  match td_action d with
  | ActBuy =>
      match td_entry_price d, td_take_profit_price d, td_stop_loss_price d with
      | Some entry, Some take_profit, Some stop_loss =>
          if (stop_loss <? entry)%F && (entry <? take_profit)%F then Ok d
          else Err (ValueError "BUY prices must satisfy stop_loss < entry < take_profit")
      | _, _, _ => Err (ValueError "BUY requires entry, take_profit, and stop_loss prices")
      end
  | _ => Ok d
  end.

(** [TradingAIDecision(...)]: a ValidationError is a ValueError. *)
Definition trading_ai_decision (d : TradingAIDecision) : res TradingAIDecision :=
  if fields_valid d then validate_price_ladder d else Err (ValueError "validation error for TradingAIDecision").

(** [high_risk] *)
Definition high_risk (d : TradingAIDecision) : bool :=
  bool_decide (td_risk_level d = RiskHigh) || td_requires_operator_approval d.

Record AIDecisionContext := mkContext {
  ctx_symbol : string;
  ctx_features : dict json;
  ctx_candidates : list (dict json);
  ctx_latest_price : float;
  ctx_open_position : option (dict json);
  ctx_market_snapshot_at : option datetime;
  ctx_trade_profile : string;
}.

Definition json_opt (x : option float) : json := match x with Some v => JFloat v | None => JNull end.

(** [snapshot.as_dict()] and [candidate.__dict__] *)
Definition snapshot_dict (s : BarFeatureSnapshot) : dict json :=
  [("symbol", JStr (bf_symbol s)); ("latest_close", JFloat (latest_close s)); ("ema5", json_opt (ema5 s));
   ("ema10", json_opt (ema10 s)); ("ema20", json_opt (ema20 s)); ("ma60", json_opt (ma60 s)); ("vwap", json_opt (bf_vwap s));
   ("volume_ratio", json_opt (bf_volume_ratio s)); ("high_n", json_opt (high_n s)); ("low_n", json_opt (low_n s));
   ("distance_from_high_pct", json_opt (distance_from_high_pct s)); ("ema20_slope_pct", json_opt (ema20_slope_pct s))].
Definition candidate_dict (c : CandidateSignal) : dict json :=
  [("symbol", JStr (cs_symbol c)); ("strategy", JStr (cs_strategy c)); ("score", JFloat (cs_score c));
   ("reason", JStr (cs_reason c)); ("features", JObj (snapshot_dict (cs_features c)))].

Definition context_from_snapshot (snapshot : BarFeatureSnapshot) (candidates : list (dict json))
    (open_position : option (dict json)) (market_snapshot_at : option datetime) (trade_profile : string) : AIDecisionContext :=
  mkContext (bf_symbol snapshot) (snapshot_dict snapshot) candidates (latest_close snapshot) open_position
    market_snapshot_at trade_profile.

(** [_aware] *)
Definition aware (value : datetime) : datetime :=
  if is_naive value then with_tz value (Some UTC) else astimezone value UTC.

(** [_context_payload] *)
Definition context_payload (c : AIDecisionContext) : json :=
  JObj ([("symbol", JStr (ctx_symbol c)); ("features", JObj (ctx_features c));
         ("candidates", JList (map JObj (ctx_candidates c))); ("latest_price", JFloat (ctx_latest_price c));
         ("open_position", match ctx_open_position c with Some o => JObj o | None => JNull end);
         ("trade_profile", JStr (ctx_trade_profile c))] ++
        match ctx_market_snapshot_at c with
        | Some t => [("market_snapshot_at", JStr (isoformat (aware t)))]
        | None => [] end).

(** [_snapshot_timestamp] *)
Definition SNAPSHOT_KEYS : list string :=
  ["market_snapshot_at"; "snapshot_at"; "timestamp"; "bar_timestamp"; "bar_start"; "latest_bar_timestamp"].
Fixpoint snapshot_timestamp (keys : list string) (features : dict json) : option json :=
  match keys with
  | [] => None
  | k :: ks =>
      match dget k features with
      | Some JNull | None => snapshot_timestamp ks features
      | Some v => Some v
      end
  end.

(** [_model_cost_rates] *)
Definition model_cost_rates (model : string) : float * float :=
  if String.eqb (lower model) "gpt-4o-mini" then (f_ratio 15 100, f_ratio 60 100)
  else if String.eqb (lower model) "gpt-4o" then (f_ratio 250 100, f_of_Z 10)
  else (f_ratio 15 100, f_ratio 60 100).

Definition AI_DECISION_PROMPT_VERSION : string := "trade-decision-v4".
Definition SYSTEM_PROMPT : string :=
  "You are an intraday Korean equity trading decision engine. Return only the requested JSON schema. The candidates already passed deterministic trend, VWAP, price-position, and volume filters. Use trade_profile to calibrate entry: for aggressive, accept a coherent candidate and do not require an exceptional setup; use HOLD only for a concrete contradiction, stale/ambiguous data, or unsafe risk plan. For BUY, set strategy to one of the provided deterministic candidate strategy values. For BUY, provide a limit entry near the latest price, take-profit above entry, and stop-loss at least 0.5% below entry. The take-profit reward must be at least 1.5 times the per-share risk after KRX tick-size rounding, so leave a conservative rounding buffer. Use a short max holding time. Mark HIGH risk or requires_operator_approval when volatility, weak confidence, or ambiguous data makes automatic entry inappropriate. Never ask questions.".

(** [trading_ai_decision_schema] *)
Definition nullable (t : string) : json := JList [JStr t; JStr "null"].
Definition price_schema : json := JObj [("type", nullable "number"); ("exclusiveMinimum", JInt 0)].
Definition trading_ai_decision_schema : json :=
  JObj [("type", JStr "object"); ("additionalProperties", JBool false);
    ("properties", JObj
      [("symbol", JObj [("type", JStr "string"); ("pattern", JStr "^\d{6}$")]);
       ("action", JObj [("type", JStr "string"); ("enum", JList [JStr "HOLD"; JStr "BUY"; JStr "SELL"])]);
       ("strategy", JObj [("type", nullable "string"); ("minLength", JInt 1); ("maxLength", JInt 80)]);
       ("confidence", JObj [("type", JStr "number"); ("minimum", JInt 0); ("maximum", JInt 1)]);
       ("entry_price", price_schema); ("take_profit_price", price_schema); ("stop_loss_price", price_schema);
       ("max_holding_seconds", JObj [("type", nullable "integer"); ("minimum", JInt 30); ("maximum", JInt 7200)]);
       ("risk_level", JObj [("type", JStr "string"); ("enum", JList [JStr "LOW"; JStr "NORMAL"; JStr "HIGH"])]);
       ("requires_operator_approval", JObj [("type", JStr "boolean")]);
       ("rationale", JObj [("type", JStr "string"); ("minLength", JInt 1); ("maxLength", JInt 1000)])]);
    ("required", JList (map JStr ["symbol"; "action"; "strategy"; "confidence"; "entry_price"; "take_profit_price";
       "stop_loss_price"; "max_holding_seconds"; "risk_level"; "requires_operator_approval"; "rationale"]))].

(** [_normalize_buy_risk_plan]: [model_copy] does not validate again. *)
Definition with_prices (d : TradingAIDecision) (entry stop take_profit : float) : TradingAIDecision :=
  mkDecision (td_decision_id d) (td_symbol d) (td_action d) (td_strategy d) (td_model d) (td_prompt_version d)
    (td_confidence d) (Some entry) (Some take_profit) (Some stop) (td_max_holding_seconds d) (td_risk_level d)
    (td_requires_operator_approval d) (td_rationale d) (td_generated_at d).

Definition normalize_buy_risk_plan (d : TradingAIDecision) : res TradingAIDecision :=
  match td_action d with
  | ActBuy =>
      match td_entry_price d with
      | None => Err AssertionError
      | Some price =>
          entry ← normalize_krx_limit_price (PFloat price) "buy";
          e ← float_of_int entry;
          stop ← normalize_krx_limit_price (PFloat (e * f_ratio 992 1000)%F) "buy";
          risk_per_share ← float_of_int (entry - stop);
          take_profit ← normalize_krx_limit_price (PFloat (e + risk_per_share * f_ratio 16 10)%F) "sell";
          _ ← validate_risk_reward (PInt entry) (PInt take_profit) (PInt stop) default_minimum_ratio default_minimum_stop_distance;
          stop_f ← float_of_int stop;
          take_f ← float_of_int take_profit;
          Ok (with_prices d e stop_f take_f)
      end
  | _ => Ok d
  end.

(** [model_copy(update={"model": ..., "prompt_version": ...})] *)
Definition text_or (x : option string) (default : string) : string :=
  match x with Some s => if sempty s then default else s | None => default end.
Definition with_model (d : TradingAIDecision) (model : string) : TradingAIDecision :=
  mkDecision (td_decision_id d) (td_symbol d) (td_action d) (td_strategy d) (Some (text_or (td_model d) model))
    (Some (text_or (td_prompt_version d) AI_DECISION_PROMPT_VERSION))
    (td_confidence d) (td_entry_price d) (td_take_profit_price d) (td_stop_loss_price d) (td_max_holding_seconds d)
    (td_risk_level d) (td_requires_operator_approval d) (td_rationale d) (td_generated_at d).

(** ** The rule-based client *)

(** [float(value)] of a JSON value *)
Definition json_float (v : json) : res float :=
  match v with
  | JFloat x => Ok x
  | JInt z => float_of_int z
  | JBool b => Ok (if b then f_one else fzero)
  | JStr s => float_of_text s
  | _ => Err (TypeError "float() argument must be a string or a real number")
  end.

(** [float(item.get("score", 0))] *)
Definition item_score (item : dict json) : res float :=
  match dget "score" item with Some v => json_float v | None => Ok fzero end.

(** [max(candidates, key=..., default=None)]: the first of the highest. *)
Fixpoint best_candidate (best : dict json) (score : float) (l : list (dict json)) : res (dict json * float) :=
  match l with
  | [] => Ok (best, score)
  | c :: l' => s ← item_score c; if (score <? s)%F then best_candidate c s l' else best_candidate best score l'
  end.

(** What a decision takes from outside: a fresh identifier and the clock. *)
Definition rule_decision (fresh : string) (now : datetime) (symbol : string) (action : AIDecisionAction)
    (strategy : option string) (confidence : float) (entry take_profit stop : option float) (risk : AIRiskLevel)
    (rationale : string) : res TradingAIDecision :=
  trading_ai_decision (mkDecision ("ai-decision:" +:+ fresh) symbol action strategy (Some "rule")
    (Some AI_DECISION_PROMPT_VERSION) confidence entry take_profit stop (Some 900) risk false rationale now).

(** [RuleBasedAIClient.__init__] *)
Definition rule_based_client (buy_threshold : float) : res float :=
  if (fzero <=? buy_threshold)%F && (buy_threshold <=? f_one)%F then Ok buy_threshold
  else Err (ValueError "buy_threshold must be between 0 and 1").

(** [RuleBasedAIClient.decide] *)
Definition rule_based_decide (buy_threshold : float) (fresh : string) (now : datetime) (c : AIDecisionContext)
    : res TradingAIDecision :=
  best ← (match ctx_candidates c with
          | [] => Ok None
          | x :: l => s ← item_score x; b ← best_candidate x s l; Ok (Some b)
          end);
  let score := match best with Some (_, s) => s | None => fzero end in
  match ctx_open_position c with
  | Some _ => rule_decision fresh now (ctx_symbol c) ActHold None (f_ratio 6 10) None None None RiskLow
                "Existing position is managed by deterministic exits."
  | None =>
      if (buy_threshold <=? score)%F then
        match best with
        | None => Err (OtherError "AttributeError")
        | Some (item, _) =>
            let entry := ctx_latest_price c in
            let strategy := match dget "strategy" item with
                            | Some v => if truthy v then py_str v else "UNKNOWN"
                            | None => "UNKNOWN" end in
            stop ← round_int (entry * f_ratio 992 1000)%F;
            stop ← float_of_int stop;
            take_profit ← round_int (entry * f_ratio 1015 1000)%F;
            take_profit ← float_of_int take_profit;
            rule_decision fresh now (ctx_symbol c) ActBuy (Some strategy) (fmin (f_ratio 95 100) score)
              (Some entry) (Some take_profit) (Some stop) RiskNormal
              "Rule-based candidate score passed the entry threshold."
        end
      else rule_decision fresh now (ctx_symbol c) ActHold None (f_ratio 5 10) None None None RiskLow
             "No candidate passed the deterministic threshold."
  end.

(** ** The OpenAI client *)

Record openai_client := mkOpenAi {
  oa_model : string;
  oa_max_retries : Z;
  oa_retry_base_delay : float;
  oa_retry_max_delay : float;
  oa_max_snapshot_age : option float;
  oa_require_timestamp : bool;
  oa_estimated_cost : float;
  oa_input_cost : float;
  oa_output_cost : float;
  oa_on_exceeded : string;
}.

(** [OpenAITradingDecisionClient.__init__]; [environment_model] is the variable
    OPENAI_MODEL. *)
Definition new_openai_client (api_key : string) (model environment_model : option string) (timeout : float) (max_retries : Z)
    (base_delay max_delay : float) (max_age : option float) (require_timestamp : bool) (estimated : float)
    (input_cost output_cost : option float) (on_exceeded : string) : res openai_client :=
  _ ← raise_if (sempty api_key) (ValueError "OPENAI_API_KEY is required");
  _ ← raise_if (timeout <=? fzero)%F (ValueError "timeout must be positive");
  _ ← raise_if (max_retries <? 0) (ValueError "max_retries must be non-negative");
  _ ← raise_if ((base_delay <? fzero) || (max_delay <? fzero))%F (ValueError "retry delays must be non-negative");
  _ ← raise_if (max_delay <? base_delay)%F (ValueError "retry_max_delay must be >= retry_base_delay");
  _ ← raise_if (negb (none_or (fun a => negb (a <? fzero)%F) max_age)) (ValueError "max_snapshot_age_seconds must be non-negative");
  _ ← raise_if (negb (mem_str on_exceeded ["hold"; "raise"])) (ValueError "on_budget_exceeded must be 'hold' or 'raise'");
  let model := text_or model (text_or environment_model "gpt-4o-mini") in
  _ ← raise_if (estimated <? fzero)%F (ValueError "estimated_cost_per_call_usd must be non-negative");
  let '(default_input, default_output) := model_cost_rates model in
  let input := or_else input_cost default_input in
  let output := or_else output_cost default_output in
  _ ← raise_if ((input <? fzero) || (output <? fzero))%F (ValueError "token costs must be non-negative");
  Ok (mkOpenAi model max_retries base_delay max_delay max_age require_timestamp estimated input output on_exceeded).

(** The JSON of a request *)
Definition chat_request (c : openai_client) (ctx : AIDecisionContext) : json :=
  JObj [("model", JStr (oa_model c));
    ("messages", JList [JObj [("role", JStr "system"); ("content", JStr SYSTEM_PROMPT)];
                        JObj [("role", JStr "user"); ("content", JStr (dumps (sort_keys (context_payload ctx))))]]);
    ("response_format", JObj [("type", JStr "json_schema");
       ("json_schema", JObj [("name", JStr "trading_ai_decision"); ("strict", JBool true);
                             ("schema", trading_ai_decision_schema)])]);
    ("temperature", JInt 0)].

(** [int(raw.get(k, default) or 0)] *)
Definition usage_count (raw : dict json) (keys : list string) (default : Z) : res Z :=
  let fix find l := match l with [] => JInt default | k :: ks => match dget k raw with Some v => v | None => find ks end end in
  let v := find keys in if truthy v then json_int v else Ok 0.

(** [_extract_usage] *)
Definition extract_usage (c : openai_client) (payload : json) : res AIUsage :=
  match payload with
  | JObj o =>
      raw ← (match dget "usage" o with
             | Some (JObj u) => Ok u
             | Some v => if truthy v then Err no_attribute else Ok []
             | None => Ok []
             end);
      prompt ← usage_count raw ["prompt_tokens"; "input_tokens"] 0;
      completion ← usage_count raw ["completion_tokens"; "output_tokens"] 0;
      total ← usage_count raw ["total_tokens"] (prompt + completion);
      input ← fmul_Z prompt (oa_input_cost c);
      output ← fmul_Z completion (oa_output_cost c);
      cost ← fdiv (input + output)%F (f_of_Z 1000000);
      Ok (mkUsage prompt completion total cost)
  | _ => Err no_attribute
  end.

(** [value[key]] and [value[0]] *)
Definition json_item (k : string) (v : json) : res json :=
  match v with
  | JObj o => match dget k o with Some x => Ok x | None => Err (KeyError k) end
  | _ => Err (TypeError "indices must be integers")
  end.
Definition json_first (v : json) : res json :=
  match v with
  | JList (x :: _) => Ok x
  | JList [] => Err (OtherError "IndexError")
  | JObj _ => Err (KeyError "0")
  | JStr (String ch _) => Ok (JStr (String ch ""))
  | JStr "" => Err (OtherError "IndexError")
  | _ => Err (TypeError "object is not subscriptable")
  end.
Definition decision_content (payload : json) : res json :=
  choices ← json_item "choices" payload;
  choice ← json_first choices;
  message ← json_item "message" choice;
  json_item "content" message.

(** The exceptions of the handlers, by class. *)
Definition is_budget_error (e : exn) : bool := match e with AIBudgetExceededError _ => true | _ => false end.
Definition is_retryable (e : exn) : bool :=
  match e with
  | OtherError n => mem_str n ["_RetryableHTTPError"; "Timeout"; "ReadTimeout"; "ConnectTimeout"]
  | _ => false
  end.
Definition is_response_error (e : exn) : bool :=
  match e with KeyError _ | TypeError _ => true | _ => is_ValueError e end.

Record http_answer := mkAnswer { ha_status : Z; ha_json : res json }.

(** The timestamp that [_validate_snapshot] judges *)
Definition snapshot_instant (ctx : AIDecisionContext) : res (option datetime) :=
  match ctx_market_snapshot_at ctx with
  | Some t => Ok (Some t)
  | None =>
      match snapshot_timestamp SNAPSHOT_KEYS (ctx_features ctx) with
      | None => Ok None
      | Some (JStr text) =>
          match fromisoformat text with
          | Ok t => Ok (Some t)
          | Err e => if is_ValueError e then Err (AIDecisionResponseError "market snapshot timestamp is invalid") else Err e
          end
      | Some _ => Err no_attribute
      end
  end.

(** Its age limits *)
Definition check_age (c : openai_client) (now t : datetime) : res unit :=
  us ← dt_sub now (aware t);
  let age := f_ratio us 1000000 in
  _ ← raise_if (age <? f_of_Z (-5))%F (AIDecisionResponseError "market snapshot timestamp is in the future");
  raise_if (negb (none_or (fun m => negb (m <? age)%F) (oa_max_snapshot_age c))) (AIDecisionResponseError "market snapshot is stale").

(** The client with its budget and usage over the world; [ai_posts] counts the
    requests that were sent. *)
Record ai_state (W : Type) := mkAi {
  ai_budget : UsageBudget;
  ai_last : AIUsage;
  ai_total : AIUsage;
  ai_world : W;
  ai_posts : Z;
}.
Arguments mkAi {W} _ _ _ _ _.
Arguments ai_budget {W} _.
Arguments ai_last {W} _.
Arguments ai_total {W} _.
Arguments ai_world {W} _.
Arguments ai_posts {W} _.

Section Client.
Context {W : Type}.
Variable float_sum : list float -> float.
Variable c : openai_client.
(** [session.post(...)], [sleep], [random_fn], the clock and [uuid4].  A clock
    that reads the day and the instant. *)
Variable post : json -> stm W http_answer.
Variable sleep : float -> stm W unit.
Variable random : W -> float * W.
Variable clock : W -> datetime * W.
Variable fresh : W -> string * W.
(** The pydantic parser of a decision, and [str] of an exception. *)
Variable parse_decision : json -> res TradingAIDecision.
Variable exn_text : exn -> string.

Definition set_world (s : ai_state W) (w : W) : ai_state W := mkAi (ai_budget s) (ai_last s) (ai_total s) w (ai_posts s).
Definition in_world {A} (f : W -> A * W) : stm (ai_state W) A := fun s =>
  let '(a, w) := f (ai_world s) in (Ok a, set_world s w).
Definition on_budget {A} (m : stm UsageBudget A) : stm (ai_state W) A := fun s =>
  let '(a, b) := m (ai_budget s) in (a, mkAi b (ai_last s) (ai_total s) (ai_world s) (ai_posts s)).

Definition send_request (ctx : AIDecisionContext) : stm (ai_state W) http_answer := fun s =>
  let '(a, w) := post (chat_request c ctx) (ai_world s) in
  (a, mkAi (ai_budget s) (ai_last s) (ai_total s) w (ai_posts s + 1)).

Definition note_usage (u : AIUsage) : stm (ai_state W) unit := fun s =>
  let t := ai_total s in
  (Ok tt, mkAi (ai_budget s) u
    (mkUsage (prompt_tokens t + prompt_tokens u) (completion_tokens t + completion_tokens u)
       (total_tokens t + total_tokens u) (estimated_cost_usd t + estimated_cost_usd u)%F) (ai_world s) (ai_posts s)).

(** [reserve_call]: the day is read from the clock under the lock. *)
Definition reserve : stm (ai_state W) Reservation :=
  now ← in_world clock;
  token ← in_world fresh;
  on_budget (reserve_call float_sum (oa_estimated_cost c) (dt_days now) token).

(** The [try] while the reservation is held: the request, its status, the usage
    and the settlement. *)
Definition exchange (ctx : AIDecisionContext) (r : Reservation) : stm (ai_state W) json :=
  answer ← send_request ctx;
  let status := ha_status answer in
  if (status =? 429) || ((500 <=? status) && (status <=? 599)) then raise (OtherError "_RetryableHTTPError")
  else if (400 <=? status) && (status <=? 499) then
    _ ← on_budget (cancel r);
    raise (AIDecisionRequestError ("OpenAI request rejected with HTTP " +:+ str_int status))
  else
    payload ← lift_res (ha_json answer);
    usage ← lift_res (extract_usage c payload);
    _ ← note_usage usage;
    _ ← on_budget (settle r (estimated_cost_usd usage));
    mret payload.

(** The rest of the [try], after the settlement. *)
Definition read_decision (ctx : AIDecisionContext) (payload : json) : res TradingAIDecision :=
  content ← decision_content payload;
  d ← parse_decision content;
  d ← normalize_buy_risk_plan (with_model d (oa_model c));
  _ ← raise_if (negb (String.eqb (td_symbol d) (ctx_symbol ctx)))
        (AIDecisionResponseError ("OpenAI response symbol mismatch: expected " +:+ ctx_symbol ctx +:+ ", got " +:+ td_symbol d));
  Ok d.

(** [_budget_fallback] *)
Definition budget_fallback (ctx : AIDecisionContext) (e : exn) : stm (ai_state W) TradingAIDecision :=
  if String.eqb (oa_on_exceeded c) "raise" then raise e
  else
    id ← in_world fresh;
    now ← in_world clock;
    lift_res (trading_ai_decision (mkDecision ("ai-decision:" +:+ id) (ctx_symbol ctx) ActHold None None None fzero None None None
      (Some 900) RiskHigh true ("AI call blocked by safety budget: " +:+ exn_text e) now)).

(** The delay after the failed attempt [n]. *)
Definition retry_delay (n : Z) (jitter : float) : float :=
  let delay := fmin (oa_retry_max_delay c) (oa_retry_base_delay c * f_of_Z (2 ^ n))%F in
  (delay * (f_ratio 1 2 + jitter))%F.

Definition pause (t : float) : stm (ai_state W) unit := fun s =>
  let '(r, w) := sleep t (ai_world s) in (r, set_world s w).

(** The handlers of attempt [n]: the reservation that is still held is cancelled;
    [None] asks for the next attempt. *)
Definition handle (ctx : AIDecisionContext) (n : Z) (held : option Reservation) (e : exn)
    : stm (ai_state W) (option TradingAIDecision) :=
  _ ← (match held with Some r => on_budget (cancel r) | None => mret tt end);
  if is_budget_error e then d ← budget_fallback ctx e; mret (Some d)
  else if is_retryable e then
    if oa_max_retries c <=? n then raise (AIDecisionTransportError (exn_text e))
    else
      jitter ← in_world random;
      _ ← pause (retry_delay n jitter);
      mret None
  else if is_response_error e then raise (AIDecisionResponseError "OpenAI response did not match the decision schema")
  else raise e.

Definition outcome {A} (m : stm (ai_state W) A) : stm (ai_state W) (res A) := fun s => let '(r, s') := m s in (Ok r, s').

(** One turn of the loop. *)
Definition one_attempt (ctx : AIDecisionContext) (n : Z) : stm (ai_state W) (option TradingAIDecision) :=
  reserved ← outcome reserve;
  match reserved : res Reservation with
  | Err e => handle ctx n None e
  | Ok r =>
      exchanged ← outcome (exchange ctx r);
      match exchanged : res json with
      | Err e => handle ctx n (Some r) e
      | Ok payload =>
          match read_decision ctx payload with
          | Err e => handle ctx n None e
          | Ok d => mret (Some d)
          end
      end
  end.

(** [for attempt in range(max_retries + 1)], from attempt [n] on. *)
Fixpoint attempts (ctx : AIDecisionContext) (k : nat) (n : Z) : stm (ai_state W) TradingAIDecision :=
  match k with
  | O => raise AssertionError
  | S k' =>
      d ← one_attempt ctx n;
      match d : option TradingAIDecision with
      | Some d => mret d
      | None => attempts ctx k' (n + 1)
      end
  end.

(** [_validate_snapshot] *)
Definition validate_snapshot (ctx : AIDecisionContext) : stm (ai_state W) unit :=
  stamp ← lift_res (snapshot_instant ctx);
  match stamp : option datetime with
  | None => lift_res (raise_if (oa_require_timestamp c) (AIDecisionResponseError "market snapshot timestamp is required"))
  | Some t => now ← in_world clock; lift_res (check_age c now t)
  end.

(** [OpenAITradingDecisionClient.decide] *)
Definition openai_decide (ctx : AIDecisionContext) : stm (ai_state W) TradingAIDecision :=
  _ ← validate_snapshot ctx;
  attempts ctx (S (Z.to_nat (oa_max_retries c))) 0.
End Client.

(** ** Lemmas *)

Lemma dpop_dset_new {A} k (v : A) d : dget k d = None -> dpop k (dset k v d) = d.
Proof.
  induction d as [|[k0 v0] d IH]; cbn; [by rewrite String.eqb_refl|].
  destruct (String.eqb_spec k0 k); [done|]. intros H. cbn. destruct (String.eqb_spec k0 k); [done|]. by rewrite IH.
Qed.

(** The counters of a budget, apart from the reservations it holds. *)
Record same_calls (b b' : UsageBudget) : Prop := mkSameCalls {
  sc_process : process_calls b' = process_calls b;
  sc_max : max_process_calls b' = max_process_calls b;
  sc_ok : budget_ok b -> budget_ok b';
}.

(** The reservation [r] is still held, or released; the others are [R]. *)
Definition holds (R : dict Reservation) (r : Reservation) (b : UsageBudget) : Prop :=
  reservations b = dset (rs_token r) r R \/ reservations b = R.

Lemma same_calls_refl b : same_calls b b.
Proof. by split. Qed.

Lemma same_calls_trans b1 b2 b3 : same_calls b1 b2 -> same_calls b2 b3 -> same_calls b1 b3.
Proof. intros [? ? ?] [? ? ?]. split; [congruence..|auto]. Qed.

Lemma cancel_holds R r b : dget (rs_token r) R = None -> holds R r b ->
  (cancel r b).1 = Ok tt /\ reservations (cancel r b).2 = R /\ same_calls b (cancel r b).2.
Proof.
  intros Hn [E|E]; unfold cancel; rewrite E.
  - rewrite dget_dset, decide_True by done. split; [done|]. split; [cbn; rewrite E; by apply dpop_dset_new|].
    split; [done..|]. intros Hb. by apply release_cases.
  - rewrite Hn. split; [done|]. split; [done|apply same_calls_refl].
Qed.

Lemma settle_holds R r a b : dget (rs_token r) R = None -> reservations b = dset (rs_token r) r R ->
  holds R r (settle r a b).2 /\ same_calls b (settle r a b).2 /\ ((settle r a b).1 = Ok tt -> reservations (settle r a b).2 = R).
Proof.
  intros Hn E. unfold settle. destruct (non_negative_float a _) as [a'|e].
  - rewrite E, dget_dset, decide_True by done. cbv zeta.
    assert (Hr : reservations (charge (rs_day r) a' (release (rs_token r) r b)) = R) by (cbn; rewrite E; by apply dpop_dset_new).
    assert (Hs : same_calls b (charge (rs_day r) a' (release (rs_token r) r b))).
    { split; [done..|]. intros Hb. by destruct (release_cases (rs_token r) r b Hb) as ([? ? ?] & _). }
    repeat destruct (_ <? _)%F; (split; [by right|]); (split; [exact Hs|done]).
  - split; [by left|]. split; [apply same_calls_refl|done].
Qed.

Section ClientFacts.
Context {W : Type}.
Variable float_sum : list float -> float.
Variable c : openai_client.
Variable post : json -> stm W http_answer.
Variable sleep : float -> stm W unit.
Variable random : W -> float * W.
Variable clock : W -> datetime * W.
Variable fresh : W -> string * W.
Variable parse_decision : json -> res TradingAIDecision.
Variable exn_text : exn -> string.
(** The reservations of other callers; a fresh token is none of theirs. *)
Variable R : dict Reservation.
Hypothesis fresh_token : forall w, dget (fresh w).1 R = None.

(** At most [k] requests were sent, each counted by the budget, and no
    reservation is left behind. *)
Record accounted (k : Z) (s s' : ai_state W) : Prop := mkAccounted {
  ac_posts : 0 <= ai_posts s' - ai_posts s <= k;
  ac_counted : process_calls (ai_budget s') - process_calls (ai_budget s) = ai_posts s' - ai_posts s;
  ac_max : max_process_calls (ai_budget s') = max_process_calls (ai_budget s);
  ac_ok : budget_ok (ai_budget s) -> budget_ok (ai_budget s');
  ac_held : reservations (ai_budget s') = R;
}.

Lemma accounted_trans k1 k2 s1 s2 s3 : accounted k1 s1 s2 -> accounted k2 s2 s3 -> accounted (k1 + k2) s1 s3.
Proof. intros [? ? ? ? ?] [? ? ? ? ?]. split; [lia|lia|congruence|auto|done]. Qed.

Lemma accounted_refl s : reservations (ai_budget s) = R -> accounted 0 s s.
Proof. intros H. split; [lia|lia|done|done|done]. Qed.

Lemma accounted_weaken k k' s s' : k <= k' -> accounted k s s' -> accounted k' s s'.
Proof. intros Hk [? ? ? ? ?]. split; [lia|done..]. Qed.

(** Only the world moves. *)
Definition world_only (s s' : ai_state W) : Prop := ai_budget s' = ai_budget s /\ ai_posts s' = ai_posts s.

Lemma accounted_world k s1 s2 s3 : accounted k s1 s2 -> world_only s2 s3 -> accounted k s1 s3.
Proof. intros [? ? ? ? ?] [E1 E2]. split; rewrite ?E1, ?E2; done. Qed.

Lemma in_world_only {A} (f : W -> A * W) s : world_only s (in_world f s).2.
Proof. unfold in_world. by destruct (f _). Qed.

Lemma pause_only t s : world_only s (pause sleep t s).2.
Proof. unfold pause. by destruct (sleep _ _). Qed.

#[export] Instance world_only_preorder : PreOrder world_only.
Proof. split; [by split|]. intros a b d [? ?] [? ?]. split; congruence. Qed.

Lemma fallback_only ctx e s : world_only s (budget_fallback c clock fresh exn_text ctx e s).2.
Proof.
  unfold budget_fallback. destruct (String.eqb _ _); [reflexivity|].
  unfold in_world, lift_res, mbind, stm_bind. destruct (fresh _). cbn. by destruct (clock _).
Qed.

Lemma reserve_spec s : reservations (ai_budget s) = R ->
  let '(r, s') := reserve float_sum c clock fresh s in
  ai_posts s' = ai_posts s /\ max_process_calls (ai_budget s') = max_process_calls (ai_budget s) /\
  (budget_ok (ai_budget s) -> budget_ok (ai_budget s')) /\
  match r with
  | Ok r => dget (rs_token r) R = None /\ reservations (ai_budget s') = dset (rs_token r) r R /\
            process_calls (ai_budget s') = process_calls (ai_budget s) + 1
  | Err _ => reservations (ai_budget s') = R /\ process_calls (ai_budget s') = process_calls (ai_budget s)
  end.
Proof.
  intros HR. unfold reserve, mbind, stm_bind, in_world. destruct (clock (ai_world s)) as [now w1]. cbn.
  pose proof (fresh_token w1) as Hf. destruct (fresh w1) as [k w2]. cbn in *. unfold on_budget. cbn [ai_budget].
  pose proof (budget_step_ok float_sum (Reserve (oa_estimated_cost c) (dt_days now) k) (ai_budget s)) as Hok. cbn in Hok.
  destruct (reserve_call_cases float_sum (oa_estimated_cost c) (dt_days now) k (ai_budget s))
    as [(r & E & Ek & _ & H)|(x & E & H)]; destruct (reserve_call _ _ _ _ _) as [r' b'] eqn:Er; cbn in E, H, Hok; subst r'.
  - destruct H as (H1 & H2 & H3 & H4 & H5 & H6 & H7 & H8). cbn. rewrite Ek, <- HR. split_and!; try done. by rewrite HR.
  - destruct (roll_day_fields float_sum (dt_days now) (ai_budget s)) as (E1 & _ & E3 & E4 & _).
    cbn. rewrite <- HR. destruct H as [-> | ->]; split_and!; done.
Qed.

Lemma exchange_spec ctx r s : dget (rs_token r) R = None -> reservations (ai_budget s) = dset (rs_token r) r R ->
  let '(x, s') := exchange c post ctx r s in
  ai_posts s' = ai_posts s + 1 /\ same_calls (ai_budget s) (ai_budget s') /\ holds R r (ai_budget s') /\
  match x with Ok _ => reservations (ai_budget s') = R | Err _ => True end.
Proof.
  intros Hn Hr. unfold exchange, mbind, stm_bind, send_request. destruct (post _ (ai_world s)) as [[a|e] w]; cbn [stm_ret mret];
    [|split_and!; [done|apply same_calls_refl|by left|done]].
  set (s1 := mkAi (ai_budget s) _ _ w _). cbv zeta.
  destruct (_ || _); [split_and!; [done|apply same_calls_refl|by left|done]|].
  destruct (_ && _).
  - unfold on_budget. destruct (cancel_holds R r (ai_budget s1) Hn ltac:(by left)) as (E1 & E2 & E3).
    destruct (cancel r (ai_budget s1)) as [x b]; cbn in *. subst x. cbn. split_and!; try done. by right.
  - unfold lift_res. destruct (ha_json a) as [payload|e]; [|split_and!; [done|apply same_calls_refl|by left|done]].
    destruct (extract_usage c payload) as [u|e]; [|split_and!; [done|apply same_calls_refl|by left|done]].
    unfold note_usage, on_budget. cbn [ai_budget]. destruct (settle_holds R r (estimated_cost_usd u) (ai_budget s) Hn Hr) as (H1 & H2 & H3).
    destruct (settle r _ _) as [[[]|e] b]; cbn in *; split_and!; auto.
Qed.

Definition held_by (held : option Reservation) (s : ai_state W) : Prop :=
  match held with
  | Some r => dget (rs_token r) R = None /\ holds R r (ai_budget s)
  | None => reservations (ai_budget s) = R
  end.

(** The handlers release the reservation and send nothing. *)
Lemma handle_spec ctx n held e s : held_by held s ->
  let '(x, s') := handle c sleep random clock fresh exn_text ctx n held e s in
  ai_posts s' = ai_posts s /\ same_calls (ai_budget s) (ai_budget s') /\ reservations (ai_budget s') = R /\
  match x with Ok None => n < oa_max_retries c | _ => True end.
Proof.
  intros Hh. unfold handle.
  assert (Hc : exists s1, (match held with Some r => on_budget (cancel r) | None => mret tt end) s = (Ok tt, s1) /\
    ai_posts s1 = ai_posts s /\ same_calls (ai_budget s) (ai_budget s1) /\ reservations (ai_budget s1) = R).
  { destruct held as [r|]; cbn in Hh; [|exists s; split_and!; try done; apply same_calls_refl].
    destruct Hh as [Hn Hh]. destruct (cancel_holds R r _ Hn Hh) as (E1 & E2 & E3). unfold on_budget.
    destruct (cancel r (ai_budget s)) as [x b]; cbn in *. subst x. by eexists. }
  destruct Hc as (s1 & E & H1 & H2 & H3). rewrite (stm_bind_run _ _ _ _ _ E).
  assert (Hw : forall s2 : ai_state W, world_only s1 s2 ->
    ai_posts s2 = ai_posts s /\ same_calls (ai_budget s) (ai_budget s2) /\ reservations (ai_budget s2) = R).
  { intros s2 [E1 E2]. rewrite E1, E2. done. }
  destruct (is_budget_error e).
  { unfold mbind, stm_bind. pose proof (fallback_only ctx e s1) as Hf. destruct (budget_fallback _ _ _ _ _ _ _) as [[d|x] s2];
      cbn in *; destruct (Hw _ Hf) as (? & ? & ?); done. }
  destruct (is_retryable e); [|destruct (is_response_error e); cbn; done].
  destruct (oa_max_retries c <=? n) eqn:En; [cbn; done|].
  unfold mbind, stm_bind. pose proof (in_world_only random s1) as Hr. destruct (in_world random s1) as [[j|x] s2] eqn:Ej; cbn in *.
  - pose proof (pause_only (retry_delay c n j) s2) as Hp. destruct (pause _ _ s2) as [[[]|x] s3]; cbn in *;
      (assert (Hs3 : world_only s1 s3) by (by etrans)); destruct (Hw _ Hs3) as (? & ? & ?); split_and!; try done; lia.
  - destruct (Hw _ Hr) as (? & ? & ?). done.
Qed.

Lemma one_attempt_spec ctx n s : reservations (ai_budget s) = R ->
  let '(x, s') := one_attempt float_sum c post sleep random clock fresh parse_decision exn_text ctx n s in
  accounted 1 s s' /\ match x with Ok None => n < oa_max_retries c | _ => True end.
Proof.
  intros HR. unfold one_attempt, mbind, stm_bind, outcome. pose proof (reserve_spec s HR) as Hr.
  destruct (reserve _ _ _ _ s) as [[r|e] s1].
  - destruct Hr as (P1 & M1 & O1 & Hn & Hd & C1). pose proof (exchange_spec ctx r s1 Hn Hd) as Hx.
    destruct (exchange c post ctx r s1) as [x s2]. destruct Hx as (P2 & [C2 M2 O2] & Hh & Hx).
    assert (Hfinal : forall s3 : ai_state W, ai_posts s3 = ai_posts s2 -> same_calls (ai_budget s2) (ai_budget s3) ->
      reservations (ai_budget s3) = R -> accounted 1 s s3).
    { intros s3 P3 [C3 M3 O3] R3. split; [lia|lia|congruence|auto|done]. }
    assert (Hhandle : forall held e, held_by held s2 ->
      let '(x, s') := handle c sleep random clock fresh exn_text ctx n held e s2 in
      accounted 1 s s' /\ match x with Ok None => n < oa_max_retries c | _ => True end).
    { intros held e Hheld. pose proof (handle_spec ctx n held e s2 Hheld) as H. destruct (handle _ _ _ _ _ _ _ _ _ _ s2) as [y s3].
      destruct H as (? & ? & ? & ?). split; [by apply Hfinal|done]. }
    destruct x as [payload|e]; [|by apply (Hhandle (Some r) e)].
    destruct (read_decision _ _ _ _) as [d|e]; [|by apply (Hhandle None e)].
    cbn. split; [|done]. apply Hfinal; [done|apply same_calls_refl|done].
  - destruct Hr as (P1 & M1 & O1 & Hd & C1). pose proof (handle_spec ctx n None e s1 Hd) as H.
    destruct (handle _ _ _ _ _ _ _ _ _ _ s1) as [y s3]. destruct H as (P3 & [C3 M3 O3] & R3 & ?).
    split; [|done]. split; [lia|lia|congruence|auto|done].
Qed.

Lemma attempts_spec ctx k n s : reservations (ai_budget s) = R -> Z.of_nat k = oa_max_retries c + 1 - n -> 0 <= n ->
  (0 < k)%nat ->
  let '(x, s') := attempts float_sum c post sleep random clock fresh parse_decision exn_text ctx k n s in
  accounted (Z.of_nat k) s s'.
Proof.
  revert n s. induction k as [|k IH]; intros n s HR Hk Hn H0; [lia|]. cbn [attempts].
  unfold mbind, stm_bind. pose proof (one_attempt_spec ctx n s HR) as H1.
  destruct (one_attempt _ _ _ _ _ _ _ _ _ _ _ s) as [[[d|]|e] s1]; destruct H1 as [H1 H2].
  - cbn. eapply accounted_weaken; [|exact H1]. lia.
  - destruct k as [|k]; [lia|]. specialize (IH (n + 1) s1 ltac:(by destruct H1) ltac:(lia) ltac:(lia) ltac:(lia)).
    destruct (attempts _ _ _ _ _ _ _ _ _ _ (S k) (n + 1) s1) as [x s2].
    replace (Z.of_nat (S (S k))) with (1 + Z.of_nat (S k)) by lia. by eapply accounted_trans.
  - eapply accounted_weaken; [|exact H1]. lia.
Qed.

Lemma validate_snapshot_only ctx s : world_only s (validate_snapshot c clock ctx s).2.
Proof.
  unfold validate_snapshot, mbind, stm_bind, lift_res. destruct (snapshot_instant ctx) as [[t|]|e]; cbn; [|reflexivity..].
  unfold in_world. by destruct (clock _).
Qed.
End ClientFacts.

(** An integer ladder is what the risk-reward check compares. *)
Lemma dec_leb_ints a b : dec_leb (dec_int a) (dec_int b) = (a <=? b).
Proof.
  unfold dec_leb, dec_cmp, dec_align, dec_int, Z.leb. cbn [d_coef d_exp]. rewrite Z.min_id, Z.sub_diag, !Z.mul_1_r.
  by destruct (a ?= b).
Qed.

Lemma risk_reward_ladder entry take_profit stop r d x :
  validate_risk_reward (PInt entry) (PInt take_profit) (PInt stop) r d = Ok x -> 0 < stop < entry /\ entry < take_profit.
Proof.
  intros H. unfold validate_risk_reward, krx_decimal in H. cbn [decimal_of dec_int d_coef] in H.
  destruct (0 <? entry) eqn:E1; [|done]. destruct (0 <? take_profit) eqn:E2; [|done]. destruct (0 <? stop) eqn:E3; [|done].
  cbn [mbind res_bind] in H. apply bind_Ok in H as ([] & H & _). apply raise_if_Ok, orb_false_iff in H as [H1 H2].
  change (mkDec take_profit 0) with (dec_int take_profit) in *. change (mkDec entry 0) with (dec_int entry) in *.
  change (mkDec stop 0) with (dec_int stop) in *. rewrite dec_leb_ints in *. lia.
Qed.

(** A plan on the integer ladder that passed the risk-reward check. *)
Definition planned (d : TradingAIDecision) : Prop := exists entry stop take_profit x,
  td_entry_price d = Some (f_of_Z entry) /\ td_stop_loss_price d = Some (f_of_Z stop) /\
  td_take_profit_price d = Some (f_of_Z take_profit) /\ 0 < stop < entry /\ entry < take_profit /\
  validate_risk_reward (PInt entry) (PInt take_profit) (PInt stop) default_minimum_ratio default_minimum_stop_distance = Ok x.

Lemma float_of_int_Ok z x : float_of_int z = Ok x -> x = f_of_Z z.
Proof. unfold float_of_int. destruct (isfinite _); congruence. Qed.

Lemma normalize_buy_planned d d' : normalize_buy_risk_plan d = Ok d' ->
  td_symbol d' = td_symbol d /\ td_action d' = td_action d /\ td_model d' = td_model d /\ td_prompt_version d' = td_prompt_version d /\
  (td_action d = ActBuy -> planned d').
Proof.
  unfold normalize_buy_risk_plan. destruct (td_action d) eqn:Ea; [by intros [= <-]| |by intros [= <-]].
  destruct (td_entry_price d) as [price|]; [|done]. intros H.
  apply bind_Ok in H as (entry & _ & H). apply bind_Ok in H as (e & He & H). apply bind_Ok in H as (stop & _ & H).
  apply bind_Ok in H as (rps & _ & H). apply bind_Ok in H as (take_profit & _ & H). apply bind_Ok in H as (x & Hx & H).
  apply bind_Ok in H as (sf & Hs & H). apply bind_Ok in H as (tf & Ht & H). injection H as <-.
  apply float_of_int_Ok in He as ->, Hs as ->, Ht as ->. split_and!; try done. intros _.
  destruct (risk_reward_ladder _ _ _ _ _ _ Hx). by exists entry, stop, take_profit, x.
Qed.

(** The fallback of an exhausted budget. *)
Definition fallback_hold (symbol : string) (d : TradingAIDecision) : Prop :=
  td_symbol d = symbol /\ td_action d = ActHold /\ td_confidence d = fzero /\ high_risk d = true.

Definition usable (symbol : string) (d : TradingAIDecision) : Prop :=
  td_symbol d = symbol /\ is_Some (td_model d) /\ is_Some (td_prompt_version d) /\ (td_action d = ActBuy -> planned d).

Section ClientResults.
Context {W : Type}.
Variable float_sum : list float -> float.
Variable c : openai_client.
Variable post : json -> stm W http_answer.
Variable sleep : float -> stm W unit.
Variable random : W -> float * W.
Variable clock : W -> datetime * W.
Variable fresh : W -> string * W.
Variable parse_decision : json -> res TradingAIDecision.
Variable exn_text : exn -> string.

Lemma read_decision_usable ctx payload d : read_decision c parse_decision ctx payload = Ok d -> usable (ctx_symbol ctx) d.
Proof.
  unfold read_decision. intros H. apply bind_Ok in H as (content & _ & H). apply bind_Ok in H as (d0 & _ & H).
  apply bind_Ok in H as (d1 & Hn & H). apply bind_Ok in H as ([] & Hs & [= <-]). apply raise_if_Ok, negb_false_iff, String.eqb_eq in Hs.
  apply normalize_buy_planned in Hn as (E1 & E2 & E3 & E4 & E5). split; [done|]. rewrite E3, E4. cbn. split; [by eexists|].
  split; [by eexists|]. intros Ha. apply E5. by rewrite <- E2.
Qed.

Lemma fallback_result ctx e (s : ai_state W) d s' : budget_fallback c clock fresh exn_text ctx e s = (Ok d, s') ->
  oa_on_exceeded c <> "raise" /\ fallback_hold (ctx_symbol ctx) d.
Proof.
  unfold budget_fallback. destruct (String.eqb_spec (oa_on_exceeded c) "raise"); [done|]. intros H. split; [done|].
  apply stm_bind_Ok in H as (id & s1 & _ & H). apply stm_bind_Ok in H as (now & s2 & _ & H). injection H as H _.
  unfold trading_ai_decision in H. destruct (fields_valid _); [|done]. injection H as <-. by split_and!.
Qed.

Lemma handle_result ctx n held e (s : ai_state W) d s' :
  handle c sleep random clock fresh exn_text ctx n held e s = (Ok (Some d), s') ->
  oa_on_exceeded c <> "raise" /\ fallback_hold (ctx_symbol ctx) d.
Proof.
  unfold handle. intros H. apply stm_bind_Ok in H as ([] & s1 & _ & H). destruct (is_budget_error e).
  { apply stm_bind_Ok in H as (d' & s2 & H & [= -> ->]). by eapply fallback_result. }
  destruct (is_retryable e); [|by destruct (is_response_error e)]. destruct (_ <=? _); [done|].
  apply stm_bind_Ok in H as (j & s2 & _ & H). by apply stm_bind_Ok in H as ([] & s3 & _ & [=]).
Qed.

Lemma one_attempt_result ctx n (s : ai_state W) d s' :
  one_attempt float_sum c post sleep random clock fresh parse_decision exn_text ctx n s = (Ok (Some d), s') ->
  usable (ctx_symbol ctx) d \/ (oa_on_exceeded c <> "raise" /\ fallback_hold (ctx_symbol ctx) d).
Proof.
  unfold one_attempt. intros H. apply stm_bind_Ok in H as (r & s1 & _ & H).
  destruct r as [r|e]; [|right; by eapply handle_result]. apply stm_bind_Ok in H as (x & s2 & _ & H).
  destruct x as [payload|e]; [|right; by eapply handle_result].
  destruct (read_decision _ _ _ _) as [d'|e] eqn:E; [|right; by eapply handle_result].
  injection H as -> _. left. by eapply read_decision_usable.
Qed.

Lemma attempts_result ctx k n (s : ai_state W) d s' :
  attempts float_sum c post sleep random clock fresh parse_decision exn_text ctx k n s = (Ok d, s') ->
  usable (ctx_symbol ctx) d \/ (oa_on_exceeded c <> "raise" /\ fallback_hold (ctx_symbol ctx) d).
Proof.
  revert n s. induction k as [|k IH]; intros n s H; [done|]. cbn [attempts] in H.
  apply stm_bind_Ok in H as ([d'|] & s1 & H1 & H); [|by eapply IH]. injection H as -> _. by eapply one_attempt_result.
Qed.
End ClientResults.

(** The best candidate is one of the candidates, with its score. *)
Lemma best_candidate_spec best score l b s : best_candidate best score l = Ok (b, s) ->
  (b = best /\ s = score) \/ (b ∈ l /\ item_score b = Ok s).
Proof.
  revert best score. induction l as [|x l IH]; intros best score; cbn; [intros [= <- <-]; by left|]. intros H.
  apply bind_Ok in H as (s0 & Hs & H). destruct (score <? s0)%F.
  - destruct (IH _ _ H) as [[-> ->]|[? ?]]; right; [by split; [apply list_elem_of_here|]|]. split; [by apply list_elem_of_further|done].
  - destruct (IH _ _ H) as [[-> ->]|[? ?]]; [by left|]. right. split; [by apply list_elem_of_further|done].
Qed.

Lemma trading_ai_decision_Ok d d' : trading_ai_decision d = Ok d' -> d' = d /\ fields_valid d = true /\
  (td_action d = ActBuy -> exists entry take_profit stop, td_entry_price d = Some entry /\ td_take_profit_price d = Some take_profit /\
     td_stop_loss_price d = Some stop /\ fltb stop entry = true /\ fltb entry take_profit = true).
Proof.
  unfold trading_ai_decision, validate_price_ladder. destruct (fields_valid d); [|done].
  destruct (td_action d); [by intros [= ->]| |by intros [= ->]].
  destruct (td_entry_price d) as [entry|], (td_take_profit_price d) as [tp|], (td_stop_loss_price d) as [stop|]; try done.
  destruct (_ && _) eqn:E; [|done]. intros [= ->]. apply andb_true_iff in E as [? ?]. split_and!; try done. intros _. by exists entry, tp, stop.
Qed.

(** ** Properties *)

(** C28: a decision costs a bounded number of counted requests.  Whatever the
    service answers, one decision sends at most one request more than the retries
    of the client; each was granted by the budget first and counted there, so
    that the limit of the process is respected; and when the decision ends, by a
    result or an exception, none of its reservations is left behind. *)
Theorem ai_requests_bounded {W} float_sum c (post : json -> stm W http_answer) sleep random clock fresh parse_decision exn_text ctx s :
  0 <= oa_max_retries c -> budget_ok (ai_budget s) ->
  (forall w, dget (fresh w).1 (reservations (ai_budget s)) = None) ->
  let s' := (openai_decide float_sum c post sleep random clock fresh parse_decision exn_text ctx s).2 in
  0 <= ai_posts s' - ai_posts s <= oa_max_retries c + 1 /\
  ai_posts s' - ai_posts s = process_calls (ai_budget s') - process_calls (ai_budget s) /\
  process_calls (ai_budget s') <= max_process_calls (ai_budget s) /\
  reservations (ai_budget s') = reservations (ai_budget s).
Proof.
  intros Hm Hb Hf. cbv zeta. unfold openai_decide, mbind, stm_bind.
  pose proof (validate_snapshot_only c clock ctx s) as [V1 V2]. destruct (validate_snapshot c clock ctx s) as [[[]|e] s1]; cbn in V1, V2.
  - pose proof (attempts_spec float_sum c post sleep random clock fresh parse_decision exn_text _ Hf ctx
      (S (Z.to_nat (oa_max_retries c))) 0 s1 ltac:(by rewrite V1) ltac:(lia) ltac:(lia) ltac:(lia)) as H.
    destruct (attempts _ _ _ _ _ _ _ _ _ _ _ _ s1) as [x s2]. cbn. destruct H as [H1 H2 H3 H4 H5]. rewrite V1, V2 in *.
    specialize (H4 Hb). pose proof (bo_process _ H4). split_and!; try lia. done.
  - cbn. rewrite V1, V2. pose proof (bo_process _ Hb). split_and!; lia || done.
Qed.

(** Fact: what a decision of the service can be.  It is for the symbol that was asked
    for.  Unless it is the cautious HOLD of an exhausted budget, a BUY carries
    whole prices with stop below entry below target that pass the risk-reward
    check; no other decision reaches the caller. *)
Theorem openai_decision_usable {W} float_sum c (post : json -> stm W http_answer) sleep random clock fresh parse_decision exn_text ctx s d s' :
  openai_decide float_sum c post sleep random clock fresh parse_decision exn_text ctx s = (Ok d, s') ->
  usable (ctx_symbol ctx) d \/ (oa_on_exceeded c <> "raise" /\ fallback_hold (ctx_symbol ctx) d).
Proof.
  unfold openai_decide. intros H. apply stm_bind_Ok in H as ([] & s1 & _ & H). by eapply attempts_result.
Qed.

(** Fact: the rule-based client follows its candidates.  It decides for the symbol it
    was asked about, never SELL; it decides BUY only without an open position and
    for a candidate among those given whose score reaches the threshold, at the
    latest price with stop below and target above it, and with a confidence of
    at most 0.95. *)
Theorem rule_based_decide_sound threshold fresh now c d :
  rule_based_decide threshold fresh now c = Ok d ->
  fields_valid d = true /\ td_symbol d = ctx_symbol c /\ td_action d <> ActSell /\
  (td_action d = ActBuy -> ctx_open_position c = None /\ td_entry_price d = Some (ctx_latest_price c) /\
     fleb (td_confidence d) (f_ratio 95 100) = true /\
     (exists item score, item ∈ ctx_candidates c /\ item_score item = Ok score /\ fleb threshold score = true) /\
     (exists take_profit stop, td_take_profit_price d = Some take_profit /\ td_stop_loss_price d = Some stop /\
        fltb stop (ctx_latest_price c) = true /\ fltb (ctx_latest_price c) take_profit = true)).
Proof.
  unfold rule_based_decide, rule_decision. intros H. apply bind_Ok in H as (best & Hb & H).
  destruct (ctx_open_position c) as [p|]; [apply trading_ai_decision_Ok in H as (-> & Hv & _); by split_and!|].
  destruct (threshold <=? _)%F eqn:Et; [|apply trading_ai_decision_Ok in H as (-> & Hv & _); by split_and!].
  destruct best as [[item score]|]; [|done]. cbn in Et.
  apply bind_Ok in H as (st & _ & H). apply bind_Ok in H as (stop & _ & H). apply bind_Ok in H as (t & _ & H).
  apply bind_Ok in H as (tp & _ & H). apply trading_ai_decision_Ok in H as (-> & Hv & Hl).
  pose proof (fmin_le_l (f_ratio 95 100) score eq_refl) as Hconf. cbn in *.
  split_and!; try done. intros _. split_and!; try done.
  - destruct (ctx_candidates c) as [|x l]; [done|]. apply bind_Ok in Hb as (s & Hs & Hb). apply bind_Ok in Hb as ([b s2] & Hb & [= -> ->]).
    destruct (best_candidate_spec _ _ _ _ _ Hb) as [[-> ->]|[? ?]].
    + exists x, s. split; [apply list_elem_of_here|done].
    + exists item, score. split; [by apply list_elem_of_further|done].
  - destruct (Hl eq_refl) as (e & tp' & st' & [= <-] & [= <-] & [= <-] & H1 & H2). by exists tp, stop.
Qed.

(** ** Witnesses *)

Definition w_now : datetime := Datetime 1700000000000000 (Some UTC).
Definition w_client : openai_client :=
  mkOpenAi "gpt-4o-mini" 2 (f_ratio 1 4) (f_of_Z 2) (Some (f_of_Z 90)) false (f_ratio 1 100) (f_ratio 15 100) (f_ratio 60 100) "hold".
Definition w_raw_decision : TradingAIDecision :=
  mkDecision "d1" "005930" ActBuy (Some "BREAKOUT_WATCH") None None (f_ratio 8 10) (Some (f_of_Z 70050)) (Some (f_of_Z 71000))
    (Some (f_of_Z 69000)) (Some 600) RiskNormal false "breakout" w_now.
Definition w_payload : json :=
  JObj [("usage", JObj [("prompt_tokens", JInt 900); ("completion_tokens", JInt 100)]);
        ("choices", JList [JObj [("message", JObj [("content", JStr "...")])]])].
(** A service that fails once and then answers; the world counts the requests. *)
Definition w_post (_ : json) : stm Z http_answer := fun w => (Ok (mkAnswer (if w =? 0 then 503 else 200) (Ok w_payload)), w + 1).
Definition w_context : AIDecisionContext := mkContext "005930" [] [] (f_of_Z 70050) None (Some w_now) "normal".
Definition w_total (l : list float) : float := foldl fadd fzero l.
Definition w_state : ai_state Z := mkAi (mkBudget 10 10 (f_of_Z 10) (f_of_Z 10) 0 0 0 fzero fzero fzero fzero []) (mkUsage 0 0 0 fzero)
  (mkUsage 0 0 0 fzero) 0 0.
Definition w_text (_ : exn) : string := "".
Definition w_decided : res TradingAIDecision * ai_state Z :=
  openai_decide w_total w_client w_post (fun _ => mret tt) (fun w => (fzero, w)) (fun w => (w_now, w)) (fun w => ("tok", w))
    (fun _ => trading_ai_decision w_raw_decision) w_text w_context w_state.

Lemma ai_requests_bounded_witness :
  ai_posts w_decided.2 = 2 /\ 0 <= ai_posts w_decided.2 - 0 <= 3 /\ process_calls (ai_budget w_decided.2) <= 10.
Proof.
  split; [vm_compute; reflexivity|].
  destruct (ai_requests_bounded w_total w_client w_post (fun _ => mret tt) (fun w => (fzero, w)) (fun w => (w_now, w)) (fun w => ("tok", w))
    (fun _ => trading_ai_decision w_raw_decision) w_text w_context w_state) as (H1 & _ & H2 & _).
  - vm_compute. discriminate.
  - split; [cbn; lia|cbn; lia|constructor].
  - intros w. reflexivity.
  - split; [exact H1|exact H2].
Defined.

Definition w_result : TradingAIDecision := match w_decided.1 with Ok d => d | Err _ => w_raw_decision end.

Lemma openai_decision_usable_witness : td_entry_price w_result = Some (f_of_Z 70000) /\
  (usable "005930" w_result \/ (oa_on_exceeded w_client <> "raise" /\ fallback_hold "005930" w_result)).
Proof.
  split; [vm_compute; reflexivity|].
  assert (E : w_decided.1 = Ok w_result) by (vm_compute; reflexivity).
  refine (openai_decision_usable w_total w_client w_post (fun _ => mret tt) (fun w => (fzero, w)) (fun w => (w_now, w)) (fun w => ("tok", w))
    (fun _ => trading_ai_decision w_raw_decision) w_text w_context w_state w_result w_decided.2 _).
  rewrite <- E. unfold w_decided. apply surjective_pairing.
Defined.

Definition w_candidates : AIDecisionContext :=
  mkContext "005930" [] [[("score", JFloat (f_ratio 8 10)); ("strategy", JStr "BREAKOUT_WATCH")]] (f_of_Z 70000) None None "normal".

Lemma rule_based_decide_sound_witness : exists d,
  rule_based_decide (f_ratio 75 100) "id" w_now w_candidates = Ok d /\ td_action d = ActBuy /\ td_symbol d = "005930".
Proof.
  destruct (rule_based_decide (f_ratio 75 100) "id" w_now w_candidates) as [d|e] eqn:E; [|vm_compute in E; discriminate].
  exists d. split; [reflexivity|]. split; [vm_compute in E; by injection E as <-|].
  exact (proj1 (proj2 (rule_based_decide_sound (f_ratio 75 100) "id" w_now w_candidates d E))).
Defined.
