(* ===== verification/KisOrder.v ===== *)
(** * The cash order adapter ([broker/kis_order.py])

    The broker is a world [W] that each HTTP call may change; the session is the
    only way to reach it. *)

From S2P Require Import Prelude PyStr PyFloat PyDecimal PyDict PyJson KisHttp.

Inductive KisOrderSide := BUY | SELL.
Inductive KisOrderType := LIMIT | MARKET.

#[export] Instance kis_order_side_eq_dec : EqDecision KisOrderSide.
Proof. solve_decision. Defined.
#[export] Instance kis_order_type_eq_dec : EqDecision KisOrderType.
Proof. solve_decision. Defined.

(** [side.name] *)
Definition side_name (s : KisOrderSide) : string := match s with BUY => "BUY" | SELL => "SELL" end.

(** [KisOrderSide(value)], [KisOrderType(value)] *)
Definition KisOrderSide_of (v : string) : res KisOrderSide :=
  if String.eqb v "buy" then Ok BUY else if String.eqb v "sell" then Ok SELL
  else Err (ValueError (v +:+ " is not a valid KisOrderSide")).
Definition KisOrderType_of (v : string) : res KisOrderType :=
  if String.eqb v "limit" then Ok LIMIT else if String.eqb v "market" then Ok MARKET
  else Err (ValueError (v +:+ " is not a valid KisOrderType")).

Record KisOrderRequest := mkOrderRequest {
  rq_symbol : string;
  rq_side : KisOrderSide;
  rq_quantity : Z;
  rq_price : float;
  rq_order_type : KisOrderType;
  rq_exchange_id : string;
  rq_sell_type : string;
  rq_condition_price : string;
}.

(** The constructor with its [__post_init__]. *)
Definition order_request (symbol side : string) (quantity : Z) (price : float)
    (order_type exchange_id sell_type condition_price : string) : res KisOrderRequest :=
  s ← KisOrderSide_of side;
  t ← KisOrderType_of order_type;
  _ ← raise_if (negb (isdigit symbol) || negb (slen symbol =? 6))
        (ValueError "symbol must be a six-digit domestic stock code");
  _ ← raise_if (quantity <=? 0) (ValueError "quantity must be a positive integer");
  _ ← raise_if (bool_decide (t = LIMIT) && (price <=? fzero)%F)
        (ValueError "limit orders require a positive price");
  _ ← raise_if (bool_decide (t = MARKET) && (price <? fzero)%F)
        (ValueError "market order price must be zero or positive");
  _ ← raise_if (sempty exchange_id) (ValueError "exchange_id is required");
  Ok (mkOrderRequest symbol s quantity price t exchange_id sell_type condition_price).

Record KisOrderResult := mkOrderResult {
  or_symbol : string;
  or_side : KisOrderSide;
  or_quantity : Z;
  or_price : float;
  or_order_type : KisOrderType;
  or_tr_id : string;
  or_broker_order_id : option string;
}.

Definition order_tr_id (e : KisEnvironment) (s : KisOrderSide) : string :=
  match e, s with
  | REAL, BUY => "TTTC0012U"
  | REAL, SELL => "TTTC0011U"
  | DEMO, BUY => "VTTC0012U"
  | DEMO, SELL => "VTTC0011U"
  end.

Definition order_division (t : KisOrderType) : string := match t with LIMIT => "00" | MARKET => "01" end.

(** [_format_int] of a float *)
Definition format_int (value : float) (field_name : string) : res string :=
  z ← int_of_float value;
  _ ← raise_if (negb (f_of_Z z =? value)%F) (ValueError (field_name +:+ " must be a whole number"));
  Ok (str_int z).

Definition build_order_body (account_no account_product_code : string) (request : KisOrderRequest)
    : res (dict json) :=
  _ ← raise_if (negb (isdigit account_no) || negb (slen account_no =? 8))
        (ValueError "KIS account_no must be exactly eight digits");
  _ ← raise_if (negb (isdigit account_product_code) || negb (slen account_product_code =? 2))
        (ValueError "KIS account_product_code must be exactly two digits");
  price ← (match rq_order_type request with
           | MARKET => Ok (str_int 0)
           | LIMIT => format_int (rq_price request) "price"
           end);
  Ok [("CANO", JStr account_no);
      ("ACNT_PRDT_CD", JStr account_product_code);
      ("PDNO", JStr (rq_symbol request));
      ("ORD_DVSN", JStr (order_division (rq_order_type request)));
      ("ORD_QTY", JStr (str_int (rq_quantity request)));
      ("ORD_UNPR", JStr price);
      ("EXCG_ID_DVSN_CD", JStr (rq_exchange_id request));
      ("SLL_TYPE", JStr (rq_sell_type request));
      ("CNDT_PRIC", JStr (rq_condition_price request))].

(** The credentials and the account of a client. *)
Record kis_client := mkClient {
  environment : KisEnvironment;
  app_key : string;
  app_secret : string;
  access_token : string;
  account_no : string;
  account_product_code : string;
  include_hashkey : bool;
}.

Record http_request := mkHttp {
  url : string;
  http_headers : dict string;
  params : dict json;
}.

Definition client_secrets (c : kis_client) : list string := [app_key c; app_secret c; access_token c].

Definition ORDER_CASH_PATH : string := "/uapi/domestic-stock/v1/trading/order-cash".
Definition HASHKEY_PATH : string := "/uapi/hashkey".

Definition build_headers (c : kis_client) (request : KisOrderRequest) (hashkey : option string) : dict string :=
  [("content-type", "application/json; charset=utf-8");
   ("authorization", "Bearer " +:+ access_token c);
   ("appkey", app_key c);
   ("appsecret", app_secret c);
   ("tr_id", order_tr_id (environment c) (rq_side request));
   ("custtype", "P")] ++
  match hashkey with Some h => if sempty h then [] else [("hashkey", h)] | None => [] end.

(** [payload.get(...)] of a body that may not be an object. *)
Definition json_object (r : response) : res (dict json) :=
  match body r with
  | Some (JObj o) => Ok o
  | Some _ => Err (OtherError "AttributeError")
  | None => Err (ValueError "response body is not JSON")
  end.

Section Client.
Context {W : Type}.
(** [session.post] *)
Variable post : http_request -> stm W response.

Definition issue_hashkey (c : kis_client) (order_body : dict json) : stm W string :=
  r ← post (mkHttp (api_url (environment c) HASHKEY_PATH)
        [("content-type", "application/json; charset=utf-8"); ("appkey", app_key c);
         ("appsecret", app_secret c)] order_body);
  _ ← lift_res (raise_for_kis_response r (client_secrets c));
  o ← lift_res (json_object r);
  lift_res (match dget "HASH" o with
            | Some v => if truthy v then Ok (py_str v)
                        else Err (ValueError "KIS hashkey response did not contain HASH")
            | None => Err (ValueError "KIS hashkey response did not contain HASH")
            end).

Definition order_result (c : kis_client) (request : KisOrderRequest) (r : response) : res KisOrderResult :=
  _ ← raise_for_kis_response r (client_secrets c);
  o ← json_object r;
  _ ← raise_if (negb (String.eqb (match dget "rt_cd" o with Some v => py_str v | None => "0" end) "0"))
        (RuntimeError ("KIS order request failed: " +:+
           match dget "msg1" o with Some v => py_str v | None => "unknown error" end));
  let output := match dget "output" o with Some (JObj out) => out | _ => [] end in
  let odno := match dget "ODNO" output with Some v => if truthy v then Some v else dget "odno" output
              | None => dget "odno" output end in
  Ok (mkOrderResult (rq_symbol request) (rq_side request) (rq_quantity request) (rq_price request)
        (rq_order_type request) (order_tr_id (environment c) (rq_side request))
        (match odno with Some v => if truthy v then Some (py_str v) else None | None => None end)).

(** The order is posted once; nothing is retried. *)
Definition submit_order (c : kis_client) (request : KisOrderRequest) : stm W KisOrderResult :=
  order_body ← lift_res (build_order_body (account_no c) (account_product_code c) request);
  hashkey ← (if include_hashkey c then h ← issue_hashkey c order_body; mret (Some h) else mret None);
  r ← post (mkHttp (api_url (environment c) ORDER_CASH_PATH) (build_headers c request hashkey) order_body);
  lift_res (order_result c request r).

End Client.
