(* ===== verification/KisOrderStatus.v ===== *)
(** * Order status and cancellation ([broker/kis_order_status.py])

    Rows of the daily order inquiry are parsed into records; the inquiry is
    paged; a cancellation is one POST. *)

From S2P Require Import Prelude PyStr PyFloat PyDecimal PyDict PyJson KisHttp KisOrder.

Inductive KisOrderStatus := UNKNOWN | UNFILLED | PARTIALLY_FILLED | FILLED | CANCELLED | REJECTED.

#[export] Instance kis_order_status_eq_dec : EqDecision KisOrderStatus.
Proof. solve_decision. Defined.

Record KisPaginationContext := mkPagination {
  tr_cont : string;
  ctx_area_fk100 : string;
  ctx_area_nk100 : string;
}.

#[export] Instance pagination_eq_dec : EqDecision KisPaginationContext.
Proof. solve_decision. Defined.

Definition has_next (p : KisPaginationContext) : bool :=
  (String.eqb (tr_cont p) "M" || String.eqb (tr_cont p) "F")
  && (negb (sempty (ctx_area_fk100 p)) || negb (sempty (ctx_area_nk100 p))).

Definition next_request (p : KisPaginationContext) : KisPaginationContext :=
  mkPagination "N" (ctx_area_fk100 p) (ctx_area_nk100 p).

(** The parsed row; [raw], the copy of the row kept for display, is left out. *)
Record KisOrderStatusRecord := mkStatusRecord {
  sr_order_number : string;
  sr_symbol : string;
  sr_side : option KisOrderSide;
  sr_ordered_quantity : Z;
  sr_filled_quantity : Z;
  sr_remaining_quantity : Z;
  sr_order_price : option float;
  sr_average_fill_price : option float;
  sr_status : KisOrderStatus;
  sr_order_time : option string;
  sr_order_date : option string;
  sr_order_branch : option string;
  sr_original_order_number : option string;
  sr_exchange_id : option string;
}.

Record KisOrderStatusPage := mkStatusPage {
  pg_orders : list KisOrderStatusRecord;
  pg_pagination : KisPaginationContext;
}.

Record KisCancelResult := mkCancelResult {
  cr_order_number : option string;
  cr_original_order_number : string;
  cr_status : string;
  cr_tr_id : string;
}.

Definition DAILY_ORDER_PATH : string := "/uapi/domestic-stock/v1/trading/inquire-daily-ccld".
Definition ORDER_REVISE_CANCEL_PATH : string := "/uapi/domestic-stock/v1/trading/order-rvsecncl".

Definition daily_order_tr_id (e : KisEnvironment) (pd_dv : string) : string :=
  match e with
  | REAL => if String.eqb pd_dv "inner" then "TTTC0081R" else "CTSC9215R"
  | DEMO => if String.eqb pd_dv "inner" then "VTTC0081R" else "VTSC9215R"
  end.

Definition revision_cancel_tr_id (e : KisEnvironment) : string :=
  match e with REAL => "TTTC0013U" | DEMO => "VTTC0013U" end.

Definition REVISION_CANCELABLE_PATH : string := "/uapi/domestic-stock/v1/trading/inquire-psbl-rvsecncl".

Definition revision_cancelable_tr_id (e : KisEnvironment) : string :=
  match e with REAL => "TTTC0084R" | DEMO => "VTTC0084R" end.

(** ** Parsing a row *)

(** [str(x or "")] *)
Definition text_or_empty (v : option json) : string :=
  match v with Some v => if truthy v then py_str v else "" | None => "" end.

Definition parse_side (row : dict json) : option KisOrderSide :=
  let value := lower (text_or_empty (first_of row ["sll_buy_dvsn_cd"; "SLL_BUY_DVSN_CD"; "side"; "SIDE"])) in
  if existsb (String.eqb value) ["01"; "sell"; "s"; "매도"] then Some SELL
  else if existsb (String.eqb value) ["02"; "buy"; "b"; "매수"] then Some BUY
  else None.

Definition direct_status (direct : string) : option KisOrderStatus :=
  if existsb (String.eqb direct) ["filled"; "체결"] then Some FILLED
  else if existsb (String.eqb direct) ["partial"; "partially_filled"; "부분체결"] then Some PARTIALLY_FILLED
  else if existsb (String.eqb direct) ["cancelled"; "취소"] then Some CANCELLED
  else if existsb (String.eqb direct) ["rejected"; "거부"] then Some REJECTED
  else None.

Definition parse_status (row : dict json) (ordered filled remaining : Z) : res KisOrderStatus :=
  let direct := lower (text_or_empty (first_of row ["order_status"; "ord_status"; "status"; "STATUS"])) in
  match direct_status direct with
  | Some s => Ok s
  | None =>
      rejected ← int_value (first_of row ["rjct_qty"; "reject_qty"; "RJCT_QTY"]);
      if (0 <? rejected) || flag (first_of row ["rjct_yn"; "reject_yn"]) then Ok REJECTED
      else
        cancelled ← int_value (first_of row ["cncl_cfrm_qty"; "cancel_qty"; "CNCL_CFRM_QTY"]);
        Ok (if (0 <? cancelled) && (remaining =? 0) then CANCELLED
            else if (0 <? ordered) && (ordered <=? filled) && (remaining =? 0) then FILLED
            else if 0 <? filled then PARTIALLY_FILLED
            else if (0 <? remaining) || (0 <? ordered) then UNFILLED
            else UNKNOWN)
  end.

(** [None] is a malformed row, which is ignored; an infinite quantity raises. *)
Definition parse_order_status (row : json) : res (option KisOrderStatusRecord) :=
  match row with
  | JObj row =>
      match text_of (first_of row ["odno"; "ODNO"; "order_number"]), text_of (first_of row ["pdno"; "PDNO"; "symbol"]) with
      | Some order_number, Some symbol =>
          if negb (isdigit symbol) || negb (slen symbol =? 6) then Ok None
          else
            ordered ← int_value (first_of row ["ord_qty"; "ORD_QTY"; "ordered_quantity"]);
            filled ← int_value (first_of row ["tot_ccld_qty"; "ccld_qty"; "filled_qty"; "TOT_CCLD_QTY"]);
            remaining ← (match first_of row ["rmn_qty"; "remaining_qty"; "RMN_QTY"] with
                         | Some v => int_value (Some v)
                         | None => Ok (Z.max 0 (ordered - filled))
                         end);
            status ← parse_status row ordered filled remaining;
            Ok (Some (mkStatusRecord order_number symbol (parse_side row) ordered filled remaining
              (float_value (first_of row ["ord_unpr"; "order_price"; "ORD_UNPR"]))
              (float_value (first_of row ["avg_prvs"; "avg_fill_price"; "avg_pric"; "AVG_PRVS"]))
              status
              (text_of (first_of row ["ord_tmd"; "order_time"; "ORD_TMD"]))
              (text_of (first_of row ["ord_dt"; "order_date"; "ORD_DT"]))
              (text_of (first_of row ["ord_gno_brno"; "order_branch"; "ORD_GNO_BRNO"]))
              (text_of (first_of row ["orgn_odno"; "original_order_number"; "ORGN_ODNO"]))
              (text_of (first_of row ["excg_id_dvsn_cd"; "exchange_id"; "EXCG_ID_DVSN_CD"]))))
      | _, _ => Ok None
      end
  | _ => Ok None
  end.

(** The rows of an answer that parse. *)
Fixpoint parse_rows (rows : list json) : res (list KisOrderStatusRecord) :=
  match rows with
  | [] => Ok []
  | r :: rs =>
      parsed ← parse_order_status r;
      rest ← parse_rows rs;
      Ok (match parsed : option KisOrderStatusRecord with Some x => x :: rest | None => rest end)
  end.

(** ** The client *)

Definition validate_account (c : kis_client) : res unit :=
  _ ← raise_if (negb (isdigit (account_no c)) || negb (slen (account_no c) =? 8))
        (ValueError "KIS account_no must be exactly eight digits");
  raise_if (negb (isdigit (account_product_code c)) || negb (slen (account_product_code c) =? 2))
    (ValueError "KIS account_product_code must be exactly two digits").

Definition status_headers (c : kis_client) (tr_id : string) (cont : string) : dict string :=
  [("content-type", "application/json; charset=utf-8");
   ("authorization", "Bearer " +:+ access_token c);
   ("appkey", app_key c);
   ("appsecret", app_secret c);
   ("tr_id", tr_id);
   ("custtype", "P")] ++ (if sempty cont then [] else [("tr_cont", cont)]).

Definition status_secrets (c : kis_client) : list string :=
  [app_key c; app_secret c; access_token c; account_no c].

(** [payload.get("output1") or []], when it is a list. *)
Definition rows_of (o : dict json) (key : string) : list json :=
  match dget key o with Some (JList l) => l | _ => [] end.

Definition page_of (r : response) (c : kis_client) (unfilled_only : bool) : res KisOrderStatusPage :=
  o ← payload_of r (status_secrets c);
  orders ← parse_rows (rows_of o "output1");
  let next := mkPagination (header_of r "tr_cont")
                (text_or_empty (first_of o ["ctx_area_fk100"; "CTX_AREA_FK100"]))
                (text_or_empty (first_of o ["ctx_area_nk100"; "CTX_AREA_NK100"])) in
  Ok (mkStatusPage (if unfilled_only then List.filter (fun x => 0 <? sr_remaining_quantity x) orders else orders) next).

Definition or_context (p : option KisPaginationContext) : KisPaginationContext :=
  match p with Some p => p | None => mkPagination "" "" "" end.

Definition orders_request (c : kis_client) (inquiry_date : string) (unfilled_only : bool)
    (context : KisPaginationContext) (pd_dv exchange_id : string) : http_request :=
  mkHttp (api_url (environment c) DAILY_ORDER_PATH)
    (status_headers c (daily_order_tr_id (environment c) pd_dv) (tr_cont context))
    [("CANO", JStr (account_no c)); ("ACNT_PRDT_CD", JStr (account_product_code c));
     ("INQR_STRT_DT", JStr inquiry_date); ("INQR_END_DT", JStr inquiry_date);
     ("SLL_BUY_DVSN_CD", JStr "00"); ("PDNO", JStr "");
     ("CCLD_DVSN", JStr (if unfilled_only then "02" else "00")); ("INQR_DVSN", JStr "00");
     ("INQR_DVSN_3", JStr "00"); ("ORD_GNO_BRNO", JStr ""); ("ODNO", JStr ""); ("INQR_DVSN_1", JStr "");
     ("CTX_AREA_FK100", JStr (ctx_area_fk100 context)); ("CTX_AREA_NK100", JStr (ctx_area_nk100 context));
     ("EXCG_ID_DVSN_CD", JStr exchange_id)].

Section Client.
Context {W : Type}.
Variables get post : http_request -> stm W response.
(** [_today()]: the KST date as YYYYMMDD. *)
Variable today : string.

Definition get_orders_page (c : kis_client) (inquiry_date : option string) (unfilled_only : bool)
    (pagination : option KisPaginationContext) (pd_dv exchange_id : string) : stm W KisOrderStatusPage :=
  _ ← lift_res (validate_account c);
  let date := match inquiry_date with Some d => if sempty d then today else d | None => today end in
  _ ← lift_res (raise_if (negb (isdigit date) || negb (slen date =? 8)) (ValueError "inquiry_date must be YYYYMMDD"));
  _ ← lift_res (raise_if (negb (String.eqb pd_dv "inner") && negb (String.eqb pd_dv "before"))
                  (ValueError "pd_dv must be 'inner' or 'before'"));
  r ← get (orders_request c date unfilled_only (or_context pagination) pd_dv exchange_id);
  lift_res (page_of r c unfilled_only).

(** The loop over at most [n] more pages. *)
Fixpoint order_pages (n : nat) (c : kis_client) (inquiry_date : option string) (unfilled_only : bool)
    (pd_dv exchange_id : string) (context : option KisPaginationContext) (result : list KisOrderStatusRecord)
    : stm W (list KisOrderStatusRecord) :=
  match n with
  | O => raise (RuntimeError "KIS order status pagination exceeded max_pages")
  | S n' =>
      page ← get_orders_page c inquiry_date unfilled_only context pd_dv exchange_id;
      let result := result ++ pg_orders page in
      if negb (has_next (pg_pagination page)) then mret result
      else
        let next_context := next_request (pg_pagination page) in
        if bool_decide (Some next_context = context)
        then raise (RuntimeError "KIS pagination did not advance")
        else order_pages n' c inquiry_date unfilled_only pd_dv exchange_id (Some next_context) result
  end.

Definition get_orders (c : kis_client) (inquiry_date : option string) (unfilled_only : bool)
    (pd_dv exchange_id : string) (max_pages : Z) : stm W (list KisOrderStatusRecord) :=
  _ ← lift_res (raise_if (max_pages <=? 0) (ValueError "max_pages must be positive"));
  order_pages (Z.to_nat max_pages) c inquiry_date unfilled_only pd_dv exchange_id None [].

Definition get_today_orders (c : kis_client) : stm W (list KisOrderStatusRecord) :=
  get_orders c None false "inner" "KRX" 10.

Definition get_unfilled_orders (c : kis_client) (inquiry_date : option string) : stm W (list KisOrderStatusRecord) :=
  get_orders c inquiry_date true "inner" "KRX" 10.

Definition cancel_body (c : kis_client) (original_order_number krx_forward_order_orgno : string)
    (quantity : option Z) (order_price : Z) (order_division exchange_id : string) (condition_price : Z)
    : dict json :=
  [("CANO", JStr (account_no c)); ("ACNT_PRDT_CD", JStr (account_product_code c));
   ("KRX_FWDG_ORD_ORGNO", JStr krx_forward_order_orgno); ("ORGN_ODNO", JStr original_order_number);
   ("ORD_DVSN", JStr order_division); ("RVSE_CNCL_DVSN_CD", JStr "02");
   ("ORD_QTY", JStr (str_int (match quantity with Some q => q | None => 0 end)));
   ("ORD_UNPR", JStr (str_int order_price));
   ("QTY_ALL_ORD_YN", JStr (match quantity with None => "Y" | Some _ => "N" end));
   ("EXCG_ID_DVSN_CD", JStr exchange_id)]
  ++ (if condition_price =? 0 then [] else [("CNDT_PRIC", JStr (str_int condition_price))]).

Definition cancel_order (c : kis_client) (original_order_number krx_forward_order_orgno : string)
    (quantity : option Z) (order_price : Z) (order_division exchange_id : string) (condition_price : Z)
    : stm W KisCancelResult :=
  _ ← lift_res (validate_account c);
  _ ← lift_res (raise_if (sempty original_order_number || sempty krx_forward_order_orgno)
        (ValueError "original_order_number and krx_forward_order_orgno are required"));
  _ ← lift_res (raise_if (match quantity with Some q => q <=? 0 | None => false end)
        (ValueError "quantity must be positive when supplied"));
  _ ← lift_res (raise_if ((order_price <? 0) || (condition_price <? 0)) (ValueError "prices must be non-negative"));
  let tr_id := revision_cancel_tr_id (environment c) in
  r ← post (mkHttp (api_url (environment c) ORDER_REVISE_CANCEL_PATH) (status_headers c tr_id "")
        (cancel_body c original_order_number krx_forward_order_orgno quantity order_price order_division
           exchange_id condition_price));
  o ← lift_res (payload_of r (status_secrets c));
  let output := match dget "output" o with Some (JObj out) => out | _ => [] end in
  mret (mkCancelResult (text_of (first_of output ["ODNO"; "odno"])) original_order_number "cancel_requested" tr_id).

(** [payload.get("output") or payload.get("output1") or []] *)
Definition cancelable_rows (o : dict json) : list json :=
  match (match dget "output" o with Some v => if truthy v then Some v else dget "output1" o | None => dget "output1" o end) with
  | Some (JList l) => l
  | _ => []
  end.

Definition get_cancelable_orders_page (c : kis_client) (side : string) (pagination : option KisPaginationContext)
    : stm W KisOrderStatusPage :=
  _ ← lift_res (validate_account c);
  _ ← lift_res (raise_if (negb (existsb (String.eqb side) ["0"; "1"; "2"])) (ValueError "side must be 0, 1, or 2"));
  let context := or_context pagination in
  r ← get (mkHttp (api_url (environment c) REVISION_CANCELABLE_PATH)
        (status_headers c (revision_cancelable_tr_id (environment c)) (tr_cont context))
        [("CANO", JStr (account_no c)); ("ACNT_PRDT_CD", JStr (account_product_code c));
         ("INQR_DVSN_1", JStr "0"); ("INQR_DVSN_2", JStr side);
         ("CTX_AREA_FK100", JStr (ctx_area_fk100 context)); ("CTX_AREA_NK100", JStr (ctx_area_nk100 context))]);
  o ← lift_res (payload_of r (status_secrets c));
  orders ← lift_res (parse_rows (cancelable_rows o));
  mret (mkStatusPage orders
    (mkPagination (header_of r "tr_cont") (text_or_empty (first_of o ["ctx_area_fk100"; "CTX_AREA_FK100"]))
       (text_or_empty (first_of o ["ctx_area_nk100"; "CTX_AREA_NK100"])))).

(** ** What a page sequence is *)

(** The pages the loop reads from a state, each with the context the one before
    it announced, and the state after the last. *)
Inductive page_chain (c : kis_client) (date : option string) (unfilled : bool) (pd ex : string)
    : option KisPaginationContext -> W -> list KisOrderStatusPage -> W -> Prop :=
  | pc_last ctx w p w' :
      get_orders_page c date unfilled ctx pd ex w = (Ok p, w') ->
      has_next (pg_pagination p) = false ->
      page_chain c date unfilled pd ex ctx w [p] w'
  | pc_next ctx w p w1 ps w' :
      get_orders_page c date unfilled ctx pd ex w = (Ok p, w1) ->
      has_next (pg_pagination p) = true -> Some (next_request (pg_pagination p)) <> ctx ->
      page_chain c date unfilled pd ex (Some (next_request (pg_pagination p))) w1 ps w' ->
      page_chain c date unfilled pd ex ctx w (p :: ps) w'.

(** ** Lemmas *)

Lemma order_pages_spec n c date unfilled pd ex : forall ctx result w l w',
  order_pages n c date unfilled pd ex ctx result w = (Ok l, w') <->
  exists ps, page_chain c date unfilled pd ex ctx w ps w' /\ (length ps <= n)%nat /\
    l = result ++ concat (map pg_orders ps).
Proof.
  induction n as [|n IH]; intros ctx result w l w'; cbn [order_pages].
  { split; [done|]. intros (ps & Hp & Hn & _). destruct Hp; cbn in Hn; lia. }
  unfold mbind at 1, stm_bind at 1.
  destruct (get_orders_page c date unfilled ctx pd ex w) as [[p|e] w1] eqn:E.
  2: { split; [done|]. intros (ps & Hp & _). by destruct Hp; congruence. }
  destruct (has_next (pg_pagination p)) eqn:En; cbn [negb].
  - case_bool_decide as Ed.
    + split; [done|]. intros (ps & Hp & _). destruct Hp; congruence.
    + rewrite IH. split.
      * intros (ps & Hp & Hn & ->). exists (p :: ps). split_and!; [by eapply pc_next|cbn; lia|].
        cbn. by rewrite <- app_assoc.
      * intros (ps & Hp & Hn & ->). destruct Hp as [|ctx w p' w2 ps w' E' _ _ Hp]; [congruence|].
        rewrite E in E'. injection E' as <- <-. exists ps. cbn in Hn. split_and!; [done|lia|].
        cbn. by rewrite <- app_assoc.
  - split.
    + intros H. injection H as <- <-. exists [p]. split_and!; [by apply pc_last|cbn; lia|].
      cbn. by rewrite app_nil_r.
    + intros (ps & Hp & Hn & ->). destruct Hp as [ctx w p' w2 E' _|]; [|congruence].
      rewrite E in E'. injection E' as <- <-. cbn. by rewrite app_nil_r.
Qed.
End Client.

(** The status that the quantities of a row give, when it names none itself: what
    was rejected, then what was cancelled, filled and remains *)
Record inferred (row : dict json) (ordered filled remaining : Z) (s : KisOrderStatus) : Prop := {
  in_rejected : exists rejected, int_value (first_of row ["rjct_qty"; "reject_qty"; "RJCT_QTY"]) = Ok rejected /\
    (s = REJECTED <-> 0 < rejected \/ flag (first_of row ["rjct_yn"; "reject_yn"]) = true);
  in_others : s <> REJECTED -> exists cancelled, int_value (first_of row ["cncl_cfrm_qty"; "cancel_qty"; "CNCL_CFRM_QTY"]) = Ok cancelled /\
    (s = CANCELLED <-> 0 < cancelled /\ remaining = 0) /\
    (s = FILLED <-> 0 < ordered <= filled /\ remaining = 0 /\ cancelled = 0) /\
    (s = PARTIALLY_FILLED <-> 0 < filled /\ (0 < remaining \/ cancelled = 0 /\ (ordered = 0 \/ filled < ordered))) /\
    (s = UNFILLED <-> filled = 0 /\ (0 < remaining \/ cancelled = 0 /\ 0 < ordered)) /\
    (s = UNKNOWN <-> filled = 0 /\ remaining = 0 /\ ordered = 0 /\ cancelled = 0);
}.

Lemma parse_status_inferred row o f r s : parse_status row o f r = Ok s -> 0 <= o -> 0 <= f -> 0 <= r ->
  match direct_status (lower (text_or_empty (first_of row ["order_status"; "ord_status"; "status"; "STATUS"]))) with
  | Some direct => s = direct
  | None => inferred row o f r s
  end.
Proof.
  unfold parse_status. cbv zeta. destruct (direct_status _) as [direct|]; [by intros [= <-]|]. intros H Ho Hf Hr.
  apply bind_Ok in H as (rejected & Hj & H). destruct ((0 <? rejected) || flag _) eqn:Ej.
  - injection H as <-. split; [|done]. exists rejected. split; [exact Hj|]. split; [intros _|done].
    apply orb_true_iff in Ej as [Ej|Ej]; [left; by apply Z.ltb_lt|by right].
  - apply bind_Ok in H as (cancelled & Hc & H). injection H as <-. pose proof (int_value_nonneg _ _ Hc) as Hc0.
    apply orb_false_iff in Ej as [Ej1 Ej2]. apply Z.ltb_ge in Ej1.
    split; [exists rejected; split; [exact Hj|]|intros _; exists cancelled; split; [exact Hc|]].
    { split; [by repeat case_match|]. intros [?|?]; [lia|congruence]. }
    destruct (Z.ltb_spec 0 cancelled), (Z.eqb_spec r 0), (Z.ltb_spec 0 o), (Z.leb_spec o f), (Z.ltb_spec 0 f), (Z.ltb_spec 0 r);
      cbn [andb orb]; split_and!; split; intros; try discriminate;
      first [done|lia|match goal with Hx : _ \/ _ |- _ => destruct Hx; (done || lia) end].
Qed.

(** ** Properties *)

(** C39: a parsed order row is usable, and its status is exactly what the row says:
    its order number is not blank, its symbol is a six-digit code, its quantities
    are not negative and are those of the row (the remaining one, when the row has
    none, the ordered less the filled quantity); the status is the one the row
    names, or else REJECTED, CANCELLED, FILLED, PARTIALLY_FILLED, UNFILLED or
    UNKNOWN exactly under the conditions of [inferred] on the quantities. *)
Theorem parse_order_status_sound row x :
  parse_order_status (JObj row) = Ok (Some x) ->
  sr_order_number x <> "" /\ isdigit (sr_symbol x) = true /\ slen (sr_symbol x) = 6 /\
  0 <= sr_ordered_quantity x /\ 0 <= sr_filled_quantity x /\ 0 <= sr_remaining_quantity x /\
  int_value (first_of row ["ord_qty"; "ORD_QTY"; "ordered_quantity"]) = Ok (sr_ordered_quantity x) /\
  int_value (first_of row ["tot_ccld_qty"; "ccld_qty"; "filled_qty"; "TOT_CCLD_QTY"]) = Ok (sr_filled_quantity x) /\
  match first_of row ["rmn_qty"; "remaining_qty"; "RMN_QTY"] with
  | Some v => int_value (Some v) = Ok (sr_remaining_quantity x)
  | None => sr_remaining_quantity x = Z.max 0 (sr_ordered_quantity x - sr_filled_quantity x)
  end /\
  match direct_status (lower (text_or_empty (first_of row ["order_status"; "ord_status"; "status"; "STATUS"]))) with
  | Some direct => sr_status x = direct
  | None => inferred row (sr_ordered_quantity x) (sr_filled_quantity x) (sr_remaining_quantity x) (sr_status x)
  end.
Proof.
  unfold parse_order_status. destruct (text_of _) as [num|] eqn:En; [|done].
  destruct (text_of (first_of row ["pdno"; "PDNO"; "symbol"])) as [sym|]; [|done].
  destruct (_ || _) eqn:Es; [done|]. intros H.
  apply bind_Ok in H as (o & Ho & H). apply bind_Ok in H as (f & Hf & H).
  apply bind_Ok in H as (r & Hr & H). apply bind_Ok in H as (s & Hs & H). apply Ok_inj in H. injection H as <-.
  pose proof (int_value_nonneg _ _ Ho) as Ho0. pose proof (int_value_nonneg _ _ Hf) as Hf0.
  cbn [sr_order_number sr_symbol sr_ordered_quantity sr_filled_quantity sr_remaining_quantity sr_status]. bool_to_prop.
  assert (Hr0 : 0 <= r).
  { destruct (first_of row ["rmn_qty"; "remaining_qty"; "RMN_QTY"]); [by eapply int_value_nonneg|].
    injection Hr as <-. lia. }
  split_and!; try done.
  - intros ->. unfold text_of in En. destruct (first_of _ _) as [v|]; [|done]. destruct (is_blank v); [done|].
    cbv zeta in En. destruct (sempty (strip (py_str v))) eqn:E; [done|]. injection En as En. rewrite En in E. done.
  - destruct (first_of row ["rmn_qty"; "remaining_qty"; "RMN_QTY"]) as [v|]; [exact Hr|]. by injection Hr.
  - by apply parse_status_inferred.
Qed.

(** Fact: the paged inquiry returns exactly the orders of a chain of at most
    [max_pages] pages, each requested with the context its predecessor
    announced, the last announcing no more; a context that repeats or too many
    pages is an error, never a partial result. *)
Theorem get_orders_pages {W} (get : http_request -> stm W response) today c date unfilled pd ex max_pages w l w' :
  get_orders get today c date unfilled pd ex max_pages w = (Ok l, w') <->
  0 < max_pages /\ exists ps, page_chain get today c date unfilled pd ex None w ps w' /\
    Z.of_nat (length ps) <= max_pages /\ l = concat (map pg_orders ps).
Proof.
  unfold get_orders, lift_res, mbind, stm_bind, raise_if.
  destruct (Z.leb_spec max_pages 0) as [H|H]; cbn.
  - split; [done|lia].
  - pose proof (order_pages_spec get today (Z.to_nat max_pages) c date unfilled pd ex None [] w l w') as Hs.
    cbn [app] in Hs. rewrite Hs. split.
    + intros (ps & H1 & H2 & ->). split; [done|]. exists ps. split_and!; [done|lia|done].
    + intros [_ (ps & H1 & H2 & ->)]. exists ps. split_and!; [done|lia|done].
Qed.

(** ** Witnesses *)

Definition w_row : dict json :=
  [("odno", JStr "0000123456"); ("pdno", JStr "005930"); ("sll_buy_dvsn_cd", JStr "02"); ("ord_qty", JStr "10");
   ("tot_ccld_qty", JStr "4"); ("rmn_qty", JStr "6"); ("ord_unpr", JStr "70000"); ("avg_prvs", JStr "69,950.5");
   ("ord_gno_brno", JStr "91252")].

Lemma parse_order_status_sound_witness :
  exists x, parse_order_status (JObj w_row) = Ok (Some x) /\ sr_status x = PARTIALLY_FILLED /\
    0 <= sr_remaining_quantity x.
Proof.
  destruct (parse_order_status (JObj w_row)) as [[x|]|e] eqn:E; [|by vm_compute in E..].
  exists x. split; [done|]. split.
  - vm_compute in E. injection E as <-. reflexivity.
  - destruct (parse_order_status_sound w_row x E) as (_ & _ & _ & _ & _ & H & _). exact H.
Defined.
