(* ===== verification/KisAccount.v ===== *)
(** * The account snapshot ([broker/kis_account.py])

    Holdings and cash of the account: rows of the balance inquiry are parsed,
    the inquiry is paged until its cursor stops, and a cursor that repeats or a
    page too many is an error, never a partial snapshot. *)

From S2P Require Import Prelude PyStr PyFloat PyDecimal PyDict PyJson KisHttp KisOrder KisOrderStatus.

Record KisAccountPosition := mkAccountPosition {
  kp_symbol : string;
  kp_qty : Z;
  kp_sellable_qty : option Z;
  kp_avg_price : option float;
  kp_current_price : option float;
  kp_evaluation_pnl : option float;
  kp_evaluation_amount : option float;
  kp_name : string;
}.

Record KisAccountSummary := mkAccountSummary {
  ks_deposit : option float;
  ks_orderable_cash_estimate : option float;
  ks_total_evaluation : option float;
  ks_evaluation_pnl : option float;
}.

Record KisAccountPagination := mkAccountPagination {
  ap_tr_cont : string;
  ap_ctx_area_fk100 : string;
  ap_ctx_area_nk100 : string;
}.

Definition account_has_next (p : KisAccountPagination) : bool :=
  (String.eqb (upper (ap_tr_cont p)) "M" || String.eqb (upper (ap_tr_cont p)) "F")
  && (negb (sempty (ap_ctx_area_fk100 p)) || negb (sempty (ap_ctx_area_nk100 p))).

Record KisAccountPage := mkAccountPage {
  pa_positions : list KisAccountPosition;
  pa_summary : KisAccountSummary;
  pa_pagination : KisAccountPagination;
}.

Record KisAccountSnapshot := mkAccountSnapshot {
  as_positions : list KisAccountPosition;
  as_summary : KisAccountSummary;
}.

Definition BALANCE_PATH : string := "/uapi/domestic-stock/v1/trading/inquire-balance".
Definition balance_tr_id (e : KisEnvironment) : string :=
  match e with REAL => "TTTC8434R" | DEMO => "VTTC8434R" end.

(** ** Rows *)

(** [_int_value]: [None] for text that is no number; an infinity raises. *)
Definition account_int (v : option json) : res (option Z) :=
  match v with
  | None => Ok None
  | Some v =>
      if is_blank v then Ok None
      else match (x ← float_of_text (number_text v); int_of_float x) with
           | Ok z => Ok (Some z)
           | Err e => if is_ValueError e then Ok None else Err e
           end
  end.

(** [_float_value]: a NaN is no value. *)
Definition account_float (v : option json) : option float :=
  match float_value v with
  | Some x => if (x =? x)%F then Some x else None
  | None => None
  end.

(** [_as_rows] *)
Definition as_rows (v : option json) : list (dict json) :=
  match v with
  | Some (JObj o) => [o]
  | Some (JList l) => omap (fun r => match r with JObj o => Some o | _ => None end) l
  | _ => []
  end.

(** [None if x is not None and x < 0 else x] *)
Definition drop_negative (x : option float) : option float :=
  match x with Some v => if (v <? fzero)%F then None else Some v | None => None end.

Definition parse_account_position (row : dict json) : res (option KisAccountPosition) :=
  let symbol := text_of (first_of row ["pdno"; "PDNO"; "symbol"; "SYMBOL"]) in
  qty ← account_int (first_of row ["hldg_qty"; "HLDG_QTY"; "qty"; "quantity"]);
  match symbol, qty : option Z with
  | Some symbol, Some qty =>
      if negb (isdigit symbol) || negb (slen symbol =? 6) || (qty <=? 0) then Ok None
      else
        sellable ← account_int (first_of row ["ord_psbl_qty"; "ORD_PSBL_QTY"; "sellable_qty"; "sellable_quantity"]);
        Ok (Some (mkAccountPosition symbol qty
          (match sellable : option Z with Some s => if s <? 0 then None else Some s | None => None end)
          (drop_negative (account_float (first_of row ["pchs_avg_pric"; "PCHS_AVG_PRIC"; "avg_price"])))
          (drop_negative (account_float (first_of row ["prpr"; "PRPR"; "current_price"])))
          (account_float (first_of row ["evlu_pfls_amt"; "EVLU_PFLS_AMT"; "evaluation_pnl"]))
          (account_float (first_of row ["evlu_amt"; "EVLU_AMT"; "evaluation_amount"]))
          (text_or_empty (first_of row ["prdt_name"; "PRDT_NAME"; "name"]))))
  | _, _ => Ok None
  end.

Fixpoint parse_positions (rows : list (dict json)) : res (list KisAccountPosition) :=
  match rows with
  | [] => Ok []
  | r :: rs =>
      p ← parse_account_position r;
      rest ← parse_positions rs;
      Ok (match p : option KisAccountPosition with Some p => p :: rest | None => rest end)
  end.

Definition parse_account_summary (row : dict json) : KisAccountSummary :=
  mkAccountSummary
    (account_float (first_of row ["dnca_tot_amt"; "DNCA_TOT_AMT"; "deposit"]))
    (account_float (first_of row ["ord_psbl_cash"; "ORD_PSBL_CASH"; "ord_psbl_amt"; "ORD_PSBL_AMT"; "orderable_cash"]))
    (account_float (first_of row ["tot_evlu_amt"; "TOT_EVLU_AMT"; "evlu_amt_smtl"; "total_evaluation"]))
    (account_float (first_of row ["evlu_pfls_smtl_amt"; "EVLU_PFLS_SMTL_AMT"; "evaluation_pnl"])).

(** [_response_payload] *)
Definition account_payload (r : response) (secrets : list string) : res (dict json) :=
  _ ← raise_for_kis_response r secrets;
  match body r with
  | None => Err (RuntimeError "KIS account response was not valid JSON")
  | Some (JObj o) =>
      if String.eqb (match dget "rt_cd" o with Some v => py_str v | None => "1" end) "0" then Ok o
      else Err (RuntimeError "KIS account request failed")
  | Some _ => Err (RuntimeError "KIS account response was not an object")
  end.

(** [str(payload.get(a) or payload.get(b) or "")] *)
Definition text_either (o : dict json) (a b : string) : string :=
  match dget a o with
  | Some v => if truthy v then py_str v else text_or_empty (dget b o)
  | None => text_or_empty (dget b o)
  end.

Definition account_pagination (o : dict json) (r : response) : KisAccountPagination :=
  mkAccountPagination (header_of r "tr_cont") (text_either o "ctx_area_fk100" "CTX_AREA_FK100")
    (text_either o "ctx_area_nk100" "CTX_AREA_NK100").

(** ** The client *)

Definition validate_account_client (c : kis_client) (max_pages : Z) : res unit :=
  _ ← validate_account c;
  raise_if (max_pages <=? 0) (ValueError "max_pages must be positive").

Definition balance_request (c : kis_client) (p : KisAccountPagination) : http_request :=
  mkHttp (api_url (environment c) BALANCE_PATH)
    [("content-type", "application/json; charset=utf-8");
     ("authorization", "Bearer " +:+ access_token c);
     ("appkey", app_key c); ("appsecret", app_secret c);
     ("tr_id", balance_tr_id (environment c)); ("custtype", "P");
     ("tr_cont", if negb (sempty (ap_ctx_area_fk100 p)) || negb (sempty (ap_ctx_area_nk100 p)) then "N" else "")]
    [("CANO", JStr (account_no c)); ("ACNT_PRDT_CD", JStr (account_product_code c));
     ("AFHR_FLPR_YN", JStr "N"); ("OFL_YN", JStr ""); ("INQR_DVSN", JStr "02"); ("UNPR_DVSN", JStr "01");
     ("FUND_STTL_ICLD_YN", JStr "N"); ("FNCG_AMT_AUTO_RDPT_YN", JStr "N"); ("PRCS_DVSN", JStr "01");
     ("CTX_AREA_FK100", JStr (ap_ctx_area_fk100 p)); ("CTX_AREA_NK100", JStr (ap_ctx_area_nk100 p))].

Definition account_page_of (r : response) (c : kis_client) : res KisAccountPage :=
  o ← account_payload r (status_secrets c);
  positions ← parse_positions (as_rows (dget "output1" o));
  Ok (mkAccountPage positions
    (parse_account_summary (match as_rows (dget "output2" o) with row :: _ => row | [] => [] end))
    (account_pagination o r)).

Section Client.
Context {W : Type}.
Variable get : http_request -> stm W response.

Definition get_page (c : kis_client) (max_pages : Z) (pagination : KisAccountPagination) : stm W KisAccountPage :=
  _ ← lift_res (validate_account_client c max_pages);
  r ← get (balance_request c pagination);
  lift_res (account_page_of r c).

(** The loop over at most [n] pages: [summary] is the first page's. *)
Fixpoint account_pages (n : nat) (c : kis_client) (max_pages : Z) (pagination : KisAccountPagination)
    (seen : list (string * string)) (positions : list KisAccountPosition) (summary : option KisAccountSummary)
    : stm W KisAccountSnapshot :=
  match n with
  | O => raise (RuntimeError "KIS account pagination exceeded max_pages")
  | S n' =>
      page ← get_page c max_pages pagination;
      let positions := positions ++ pa_positions page in
      let summary := Some (or_else summary (pa_summary page)) in
      if negb (account_has_next (pa_pagination page))
      then mret (mkAccountSnapshot positions (or_else summary (parse_account_summary [])))
      else
        let marker := (ap_ctx_area_fk100 (pa_pagination page), ap_ctx_area_nk100 (pa_pagination page)) in
        if bool_decide (marker ∈ seen)
        then raise (RuntimeError "KIS account pagination cursor did not advance")
        else account_pages n' c max_pages (pa_pagination page) (seen ++ [marker]) positions summary
  end.

(** [self.max_pages = min(max_pages, 10)] *)
Definition get_account_snapshot (c : kis_client) (max_pages : Z) : stm W KisAccountSnapshot :=
  let n := Z.min max_pages 10 in
  account_pages (Z.to_nat n) c n (mkAccountPagination "" "" "") [] [] None.

(** ** Lemmas *)

(** The trace of pages that a successful snapshot consists of. *)
Inductive account_chain (c : kis_client) (m : Z) : KisAccountPagination -> list (string * string) -> W ->
    list KisAccountPage -> W -> Prop :=
  | ac_last p seen w g w' :
      get_page c m p w = (Ok g, w') -> account_has_next (pa_pagination g) = false ->
      account_chain c m p seen w [g] w'
  | ac_next p seen w g w1 gs w' :
      get_page c m p w = (Ok g, w1) -> account_has_next (pa_pagination g) = true ->
      (ap_ctx_area_fk100 (pa_pagination g), ap_ctx_area_nk100 (pa_pagination g)) ∉ seen ->
      account_chain c m (pa_pagination g)
        (seen ++ [(ap_ctx_area_fk100 (pa_pagination g), ap_ctx_area_nk100 (pa_pagination g))]) w1 gs w' ->
      account_chain c m p seen w (g :: gs) w'.

Lemma account_pages_chain n c m : forall p seen pos sm w snap w',
  account_pages n c m p seen pos sm w = (Ok snap, w') ->
  exists gs, account_chain c m p seen w gs w' /\ (length gs <= n)%nat /\
    as_positions snap = pos ++ concat (map pa_positions gs).
Proof.
  induction n as [|n IH]; intros p seen pos sm w snap w' H; cbn [account_pages] in H; [done|].
  unfold mbind at 1, stm_bind at 1 in H.
  destruct (get_page c m p w) as [[g|e] w1] eqn:E; [|done].
  destruct (account_has_next (pa_pagination g)) eqn:En; cbn [negb] in H.
  - case_bool_decide as Ed; [done|]. apply IH in H as (gs & Hg & Hn & ->).
    exists (g :: gs). split_and!; [by eapply ac_next|cbn; lia|]. cbn. by rewrite <- app_assoc.
  - injection H as <- <-. exists [g]. split_and!; [by apply ac_last|cbn; lia|]. cbn. by rewrite app_nil_r.
Qed.
End Client.

(** Every parsed holding is of a six-digit symbol and positive. *)
Lemma parse_account_position_sound row p :
  parse_account_position row = Ok (Some p) ->
  isdigit (kp_symbol p) = true /\ slen (kp_symbol p) = 6 /\ 0 < kp_qty p.
Proof.
  unfold parse_account_position. intros H. apply bind_Ok in H as (q & _ & H).
  destruct (text_of _) as [s|]; [|done]. destruct q as [q|]; [|done].
  destruct (_ || _ || _) eqn:E; [done|]. apply bind_Ok in H as (x & _ & H). apply Ok_inj in H. injection H as <-.
  cbn. bool_to_prop. split_and!; done.
Qed.
