(* ===== verification/DbFrames.v ===== *)
(** * What a database method leaves alone

    Frame lemmas of the write methods of [DbOrders]: which orders they touch,
    that applied fills stay applied and that nothing but the order's own fills
    appears.  The pipeline stages compose them. *)

From S2P Require Import Prelude PyStr PyFloat PyTime DbCore DbOrders DbRuntime DbApprovals DbLedger.

(** Only the orders [ids] and their fills may change; no fill or application
    disappears. *)
Record touches (ids : list string) (d d' : db) : Prop := {
  tc_orders : forall k, k ∉ ids -> get_order k d' = get_order k d;
  tc_fills : forall k f, t_broker_fills d' !! k = Some f ->
    t_broker_fills d !! k = Some f \/ bf_client_order_id f ∈ ids;
  tc_applications : dom (t_fill_applications d) ⊆ dom (t_fill_applications d');
}.

(** A well-formed ledger stays well formed and only [ids] are touched. *)
Definition ledger_frame (ids : list string) (d d' : db) : Prop :=
  ledger_ok d -> ledger_ok d' /\ touches ids d d'.

(** Everything but the metadata is as it was. *)
Definition only_metadata (d d' : db) : Prop := exists f, d' = set_metadata f d.

(** The tables of the ledger are as they were. *)
Record same_ledger (d d' : db) : Prop := mkSameLedger {
  sl_orders : t_broker_orders d' = t_broker_orders d;
  sl_fills : t_broker_fills d' = t_broker_fills d;
  sl_applications : t_fill_applications d' = t_fill_applications d;
  sl_positions : t_live_positions d' = t_live_positions d;
}.

(** ** Lemmas *)

#[export] Instance same_ledger_preorder : PreOrder same_ledger.
Proof. split; [done|]. intros d1 d2 d3 [? ? ? ?] [? ? ? ?]. split; congruence. Qed.

Lemma same_ledger_ok d d' : same_ledger d d' -> ledger_ok d -> ledger_ok d'.
Proof. intros [E1 E2 E3 E4] [H1 H2 H3 H4 H5]. constructor; rewrite ?E1, ?E2, ?E3, ?E4; done. Qed.

Lemma same_ledger_order d d' k : same_ledger d d' -> get_order k d' = get_order k d.
Proof. intros [E _ _ _]. unfold get_order. by rewrite E. Qed.

Lemma schema_same_ledger d : same_ledger d (init_schema d).
Proof. done. Qed.

Lemma metadata_same_ledger k v at_ clock d t d' : set_runtime_metadata k v at_ clock d = Ok (t, d') -> same_ledger d d'.
Proof. unfold set_runtime_metadata. intros H. inv_ok. cbv zeta in *. by inv_ok. Qed.

Lemma audit_same_ledger a at_ clock d b d' : record_broker_order_audit a at_ clock d = Ok (b, d') -> same_ledger d d'.
Proof.
  unfold record_broker_order_audit. intros H. do 2 (apply bind_Ok in H as ([] & _ & H)). cbv zeta in H.
  by repeat case_match; simplify_eq.
Qed.

Lemma decision_same_ledger i sy ac cf e t s r q ra mh st m p at_ clock d b d' :
  record_ai_decision i sy ac cf e t s r q ra mh st m p at_ clock d = Ok (b, d') -> same_ledger d d'.
Proof.
  unfold record_ai_decision. intros H. do 2 (apply bind_Ok in H as ([] & _ & H)). cbv zeta in H.
  by repeat case_match; simplify_eq.
Qed.

Lemma update_request_same_ledger i p f d b d' : update_request i p f d = (b, d') -> same_ledger d d'.
Proof. unfold update_request. destruct (t_approvals d !! i) as [a|]; [destruct (p a)|]; by intros [= _ <-]. Qed.

Lemma approval_same_ledger a clock d b d' : record_approval_request a clock d = Ok (b, d') -> same_ledger d d'.
Proof.
  unfold record_approval_request. intros H. do 2 (apply bind_Ok in H as ([] & _ & H)). cbv zeta in H.
  do 5 (apply bind_Ok in H as ([] & _ & H)). destruct (t_approvals d !! _); by injection H as _ <-.
Qed.

Lemma consume_same_ledger i at_ clock d b d' : consume_approval_request i at_ clock d = Ok (b, d') -> same_ledger d d'.
Proof.
  unfold consume_approval_request. intros H. apply bind_Ok in H as ([] & _ & H). cbv zeta in H.
  destruct (update_request i _ (expire_row _) d) as [b1 d1] eqn:E1. injection H as H.
  apply update_request_same_ledger in E1, H. by etrans.
Qed.

Lemma finish_same_ledger i s at_ clock d b d' : finish_approval_request i s at_ clock d = Ok (b, d') -> same_ledger d d'.
Proof.
  unfold finish_approval_request. intros H. apply bind_Ok in H as ([] & _ & H). injection H as H.
  by apply update_request_same_ledger in H.
Qed.

Lemma touches_refl ids d : touches ids d d.
Proof. constructor; auto. Qed.

Lemma touches_trans ids d1 d2 d3 : touches ids d1 d2 -> touches ids d2 d3 -> touches ids d1 d3.
Proof.
  intros [H1 H2 H3] [H4 H5 H6]. constructor.
  - intros k Hk. rewrite H4, H1; done.
  - intros k f Hk. destruct (H5 _ _ Hk); auto.
  - by etrans.
Qed.

Lemma touches_mono ids ids' d d' : ids ⊆ ids' -> touches ids d d' -> touches ids' d d'.
Proof.
  intros Hs [H1 H2 H3]. constructor; [|intros k f Hk; destruct (H2 _ _ Hk); auto|done].
  intros k Hk. apply H1. set_solver.
Qed.

#[export] Instance ledger_frame_preorder ids : PreOrder (ledger_frame ids).
Proof.
  split.
  - intros d Hd. split; [done|apply touches_refl].
  - intros d1 d2 d3 H1 H2 Hd. destruct (H1 Hd) as [Hd2 T1]. destruct (H2 Hd2) as [Hd3 T2].
    split; [done|]. by eapply touches_trans.
Qed.

Lemma ledger_frame_mono ids ids' d d' : ids ⊆ ids' -> ledger_frame ids d d' -> ledger_frame ids' d d'.
Proof. intros Hs H Hd. destruct (H Hd). split; [done|]. by eapply touches_mono. Qed.

#[export] Instance only_metadata_preorder : PreOrder only_metadata.
Proof.
  split; [intros d; exists (fun x => x); by destruct d|].
  intros d1 d2 d3 [f ->] [g ->]. exists (fun x => g (f x)). by destruct d1.
Qed.

Lemma touches_same d d' ids :
  t_broker_orders d' = t_broker_orders d -> t_broker_fills d' = t_broker_fills d ->
  dom (t_fill_applications d) ⊆ dom (t_fill_applications d') -> touches ids d d'.
Proof.
  intros H1 H2 H3. constructor; [intros; unfold get_order; by rewrite H1| |done].
  intros k f. rewrite H2. auto.
Qed.

Lemma touches_put_order c o d : touches [c] d (put_order c o d).
Proof.
  constructor; cbn; auto. intros k Hk. unfold get_order. rewrite orders_put, lookup_insert_ne; [done|].
  intros ->. apply Hk. by apply list_elem_of_singleton.
Qed.

Lemma touches_update_where c cond f d b d' : update_where c cond f d = (b, d') -> touches [c] d d'.
Proof.
  intros H. apply update_where_Ok in H as [[_ ->]|(o & _ & _ & _ & ->)]; [apply touches_refl|].
  apply touches_put_order.
Qed.

Lemma status_frame c st u clock d b d' :
  update_broker_order_status c st u clock d = Ok (b, d') -> ledger_frame [c] d d'.
Proof.
  intros H Hd. split; [by eapply status_ledger_ok|]. unfold update_broker_order_status in H. inv_ok.
  eapply touches_update_where. eassumption.
Qed.

Lemma unknown_frame c e at_ clock d b d' :
  mark_order_unknown c e at_ clock d = Ok (b, d') -> ledger_frame [c] d d'.
Proof.
  intros H Hd. split; [by eapply unknown_ledger_ok|]. unfold mark_order_unknown in H. inv_ok.
  eapply touches_update_where. eassumption.
Qed.

Lemma fill_frame a clock d b d' :
  apply_broker_fill a clock d = Ok (b, d') -> ledger_frame [fl_client_order_id a] d d'.
Proof.
  intros H Hd. split; [by eapply fill_ledger_ok|].
  apply apply_broker_fill_Ok in H as (o & Hg & Hq & [(_ & -> & _)|(_ & Hn & Hle & f & o' & -> & _ & Hf2 & _)]);
    [apply touches_refl|].
  eapply touches_trans; [|apply touches_put_order]. constructor; cbn; auto.
  intros k g Hk. apply lookup_insert_Some in Hk as [[_ <-]|[_ Hk]]; [|by left].
  right. rewrite Hf2. by apply list_elem_of_singleton.
Qed.

Lemma materialize_frame c t r clock d n d' :
  materialize_order_fills c t r clock d = Ok (n, d') -> ledger_frame [] d d'.
Proof.
  intros H Hd. destruct (materialize_effect _ _ _ _ _ _ _ Hd H) as (Hd' & _ & Hf & Ha & _).
  split; [done|]. unfold materialize_order_fills in H. do 5 (apply bind_Ok in H as ([] & _ & H)).
  destruct (get_order _ d); [|done]. apply apply_fills_orders in H as [E1 E2].
  apply touches_same; try done. rewrite Ha. set_solver.
Qed.

Lemma metadata_only k v at_ clock d t d' :
  set_runtime_metadata k v at_ clock d = Ok (t, d') -> only_metadata d d'.
Proof. unfold set_runtime_metadata. intros H. inv_ok. cbv zeta in *. inv_ok. by eexists. Qed.

Lemma only_metadata_ledger ids d d' : only_metadata d d' -> ledger_frame ids d d'.
Proof.
  intros [f ->] [H1 H2 H3 H4 H5]. split; [by constructor|]. by apply touches_same.
Qed.

(** A change that leaves an order alone leaves its pending fills alone or applies them. *)
Lemma touches_pending ids d d' c :
  ledger_ok d' -> touches ids d d' -> c ∉ ids -> pending_fills c d = [] -> pending_fills c d' = [].
Proof.
  intros Hd' [_ Hf Ha] Hc H. unfold pending_fills in *.
  destruct (List.filter (unmaterialized d') (list_broker_fills c d')) as [|f l] eqn:E; [done|]. exfalso.
  assert (Hin : In f (f :: l)) by (by left). rewrite <- E in Hin.
  apply filter_In in Hin as [Hin Hun]. unfold list_broker_fills in Hin.
  apply filter_In in Hin as [Hin Heq]. apply String.eqb_eq in Heq.
  apply list_elem_of_In, elem_of_rows_by in Hin as [k Hk].
  destruct (lo_fills _ Hd' _ _ Hk) as (Hid & _).
  destruct (Hf _ _ Hk) as [Hk'|Hin']; [|by rewrite Heq in Hin'].
  assert (Hin' : In f (List.filter (unmaterialized d) (list_broker_fills c d))).
  { apply filter_In. split.
    - unfold list_broker_fills. apply filter_In. split; [|by apply String.eqb_eq].
      apply list_elem_of_In, elem_of_rows_by. by exists k.
    - unfold unmaterialized in *. destruct (t_fill_applications d !! bf_fill_id f) eqn:El; [|done].
      assert (Hd : bf_fill_id f ∈ dom (t_fill_applications d')) by (apply Ha, elem_of_dom; by eexists).
      apply elem_of_dom in Hd as [? Hd]. by rewrite Hd in Hun. }
  rewrite H in Hin'. done.
Qed.

(** The rows of a table have distinct keys. *)
Lemma rows_by_NoDup {A} (key id : A -> string) (t : gmap string A) :
  (forall k o, t !! k = Some o -> id o = k) -> NoDup (map id (rows_by key id t)).
Proof.
  intros H. assert (E : map id (map snd (map_to_list t)) = map fst (map_to_list t)).
  { rewrite map_map. apply map_ext_in. intros [k o] Hin. cbn. apply H.
    by apply elem_of_map_to_list, list_elem_of_In. }
  assert (Hp : map id (rows_by key id t) ≡ₚ map fst (map_to_list t)).
  { rewrite <- E. apply Permutation_map, sort_by_perm. }
  rewrite Hp. apply (NoDup_fst_map_to_list t).
Qed.

Lemma NoDup_map_filter {A} (f : A -> string) (P : A -> bool) l :
  NoDup (map f l) -> NoDup (map f (List.filter P l)).
Proof.
  induction l as [|x l IH]; cbn; [done|]. rewrite list.NoDup_cons. intros [Hn Hl].
  destruct (P x); cbn; [|auto]. constructor; [|auto]. intros Hin. apply Hn.
  apply list_elem_of_fmap in Hin as (y & -> & Hy). apply list_elem_of_fmap. exists y. split; [done|].
  apply list_elem_of_In in Hy. apply filter_In in Hy as [Hy _]. by apply list_elem_of_In.
Qed.

(** What an accepted status update leaves in the row. *)
Lemma status_effect c st u clock d b d' o q :
  update_broker_order_status c st u clock d = Ok (b, d') -> get_order c d = Some o ->
  su_filled_qty u = Some q -> q <= bo_requested_qty o ->
  exists o', get_order c d' = Some o' /\ bo_filled_qty o' = q /\ bo_status o' = st.
Proof.
  intros H Ho Hq Hle. unfold update_broker_order_status in H. inv_ok.
  match goal with H : update_where _ _ _ _ = _ |- _ => rename H into Hu end.
  unfold update_where in Hu. rewrite Ho, Hq in Hu. cbn in Hu. destruct (Z.leb_spec q (bo_requested_qty o)); [|lia].
  injection Hu as _ <-. eexists. split; [unfold get_order; rewrite orders_put; apply lookup_insert_eq|]. done.
Qed.
