(* ===== verification/System.v ===== *)
(** * The running system: database, broker and clock

    A pipeline stage runs over the SQLite database and the outside world (the
    broker behind its HTTP clients, and the wall clock).  What a stage needs of
    the broker is the class [Broker]; [kis_broker] implements it by the KIS
    clients of [KisOrder], [KisOrderStatus] and [KisAccount] over an HTTP
    session.  The state also carries the trace of the calls that change
    something at the broker, each with the database at the moment of the call,
    so that theorems can speak about what was persisted before a call. *)

From S2P Require Import Prelude PyStr PyFloat PyTime PyDecimal PyDict PyJson DbCore DbRuntime.
From S2P Require Import KisHttp KisOrder KisOrderStatus KisAccount.

(** A cancellation as the order manager requests it. *)
Record cancel_request := mkCancelRequest {
  cq_order_number : string;
  cq_order_branch : string;
  cq_quantity : Z;
  cq_order_price : Z;
}.

#[export] Instance cancel_request_eq_dec : EqDecision cancel_request.
Proof. solve_decision. Defined.

(** [datetime.now()] of the machine. *)
Class Clock (W : Type) := wall_clock : W -> datetime * W.

Class Broker (W : Type) := {
  broker_clock :: Clock W;
  today_orders : stm W (list KisOrderStatusRecord);
  account_snapshot : stm W KisAccountSnapshot;
  cancel_at_broker : cancel_request -> stm W KisCancelResult;
  submit_at_broker : KisOrderRequest -> stm W KisOrderResult;
}.

(** The clients of one account over a session. *)
Definition kis_broker {W} (clock : W -> datetime * W) (get post : http_request -> stm W response)
    (today : string) (c : kis_client) : Broker W := {|
  broker_clock := clock;
  today_orders := get_today_orders get today c;
  account_snapshot := get_account_snapshot get c 10;
  cancel_at_broker q := cancel_order post c (cq_order_number q) (cq_order_branch q) (Some (cq_quantity q))
                          (cq_order_price q) "00" "KRX" 0;
  submit_at_broker := submit_order post c;
|}.

Inductive broker_call :=
  | CancelCall (q : cancel_request)
  | SubmitCall (r : KisOrderRequest).

Record sys (W : Type) := mkSys {
  s_db : db;
  s_world : W;
  s_trace : list (broker_call * db);
}.
Arguments mkSys {W} _ _ _.
Arguments s_db {W} _.
Arguments s_world {W} _.
Arguments s_trace {W} _.

(** ** Reasoning about runs *)

(** [m] relates the state before and after by [R], whether it ends or raises. *)
Definition keeps {S} (R : S -> S -> Prop) {A} (m : stm S A) : Prop := forall s, R s (m s).2.

Section Keeps.
Context {S : Type} (R : S -> S -> Prop) `{!PreOrder R}.

Lemma keeps_ret {A} (a : A) : keeps R (mret a).
Proof. intros s. reflexivity. Qed.

Lemma keeps_raise {A} e : keeps R (A := A) (raise e).
Proof. intros s. reflexivity. Qed.

Lemma keeps_lift {A} (r : res A) : keeps R (lift_res r).
Proof. intros s. reflexivity. Qed.

Lemma keeps_gets {A} (f : S -> A) : keeps R (gets f).
Proof. intros s. reflexivity. Qed.

Lemma keeps_bind {A B} (m : stm S A) (f : A -> stm S B) :
  keeps R m -> (forall a, keeps R (f a)) -> keeps R (mbind f m).
Proof.
  intros Hm Hf s. unfold mbind, stm_bind. specialize (Hm s).
  destruct (m s) as [[a|e] s'] eqn:E; cbn in *; [|done]. etrans; [exact Hm|apply Hf].
Qed.

Lemma keeps_catch {A} (m : stm S A) h : keeps R m -> (forall e, keeps R (h e)) -> keeps R (catch m h).
Proof.
  intros Hm Hh s. unfold catch. specialize (Hm s).
  destruct (m s) as [[a|e] s'] eqn:E; cbn in *; [done|]. etrans; [exact Hm|apply Hh].
Qed.

Lemma keeps_foldM {A B} (f : B -> A -> stm S B) b l :
  (forall b x, x ∈ l -> keeps R (f b x)) -> keeps R (foldM f b l).
Proof.
  revert b. induction l as [|x l IH]; intros b Hf; cbn; [apply keeps_ret|].
  apply keeps_bind; [apply Hf; set_solver|]. intros b'. apply IH. intros. apply Hf. set_solver.
Qed.
End Keeps.

Section System.
Context {W : Type} {CW : Clock W}.

(** A database method: it reads the clock, and commits or leaves the database. *)
Definition on_db {A} (f : datetime -> db -> res (A * db)) : stm (sys W) A := fun s =>
  let '(now, w) := wall_clock (s_world s) in
  match f now (s_db s) with
  | Ok (a, d) => (Ok a, mkSys d w (s_trace s))
  | Err e => (Err e, mkSys (s_db s) w (s_trace s))
  end.

(** A query. *)
Definition query {A} (f : db -> A) : stm (sys W) A := gets (fun s => f (s_db s)).

(** A reading of the broker. *)
Definition on_world {A} (m : stm W A) : stm (sys W) A := fun s =>
  let '(r, w) := m (s_world s) in (r, mkSys (s_db s) w (s_trace s)).

(** A call that changes something at the broker. *)
Definition broker_write {A} (c : broker_call) (m : stm W A) : stm (sys W) A := fun s =>
  let '(r, w) := m (s_world s) in (r, mkSys (s_db s) w (s_trace s ++ [(c, s_db s)])).

Definition call_cancel {BW : Broker W} (q : cancel_request) : stm (sys W) KisCancelResult :=
  broker_write (CancelCall q) (cancel_at_broker q).
Definition call_submit {BW : Broker W} (r : KisOrderRequest) : stm (sys W) KisOrderResult :=
  broker_write (SubmitCall r) (submit_at_broker r).

(** [datetime.now()] *)
Definition read_clock : stm (sys W) datetime := fun s =>
  let '(now, w) := wall_clock (s_world s) in (Ok now, mkSys (s_db s) w (s_trace s)).

Definition set_metadata_now (key value : string) (updated_at : option datetime) : stm (sys W) string :=
  on_db (set_runtime_metadata key value updated_at).

(** [database.init_schema()] of a new connection *)
Definition open_schema : stm (sys W) unit := on_db (fun _ d => Ok (tt, init_schema d)).

(** [try: m  except Exception as exc: ...]: the outcome, as a value. *)
Definition attempt {A} (m : stm (sys W) A) : stm (sys W) (res A) := fun s =>
  let '(r, s') := m s in (Ok r, s').

(** What an interrupt raises in the main thread: not an [Exception]. *)
Definition KeyboardInterrupt : exn := OtherError "KeyboardInterrupt".

(** [try: m  except Exception as exc: ...] where the main thread can be
    interrupted: the outcome as a value, but for an interrupt, which passes. *)
Definition except_Exception {A} (m : stm (sys W) A) : stm (sys W) (res A) := fun s =>
  let '(r, s') := m s in
  match r with
  | Err e => if bool_decide (e = KeyboardInterrupt) then (Err e, s') else (Ok r, s')
  | Ok _ => (Ok r, s')
  end.

(** ** Runs over the system *)

Lemma keeps_query (R : sys W -> sys W -> Prop) `{!PreOrder R} {A} (f : db -> A) : keeps R (query f).
Proof. intros s. reflexivity. Qed.

Lemma keeps_attempt (R : sys W -> sys W -> Prop) {A} (m : stm (sys W) A) : keeps R m -> keeps R (attempt m).
Proof. intros Hm s. unfold attempt. specialize (Hm s). by destruct (m s). Qed.

Lemma keeps_except (R : sys W -> sys W -> Prop) {A} (m : stm (sys W) A) : keeps R m -> keeps R (except_Exception m).
Proof. intros Hm s. unfold except_Exception. specialize (Hm s). destruct (m s) as [[a|e] s']; [done|]. by destruct (bool_decide _). Qed.

(** A relation of databases that database methods and readings respect. *)
Definition db_rel (R : db -> db -> Prop) (s s' : sys W) : Prop :=
  R (s_db s) (s_db s') /\ s_trace s' = s_trace s.

#[export] Instance db_rel_preorder (R : db -> db -> Prop) `{!PreOrder R} : PreOrder (db_rel R).
Proof.
  split; [by intros s; split|]. intros a b c [H1 E1] [H2 E2]. split; [by etrans|congruence].
Qed.

Lemma keeps_on_db (R : db -> db -> Prop) `{!PreOrder R} {A} (f : datetime -> db -> res (A * db)) :
  (forall now d a d', f now d = Ok (a, d') -> R d d') -> keeps (db_rel R) (on_db f).
Proof.
  intros Hf s. unfold on_db. destruct (wall_clock (s_world s)) as [now w].
  destruct (f now (s_db s)) as [[a d]|e] eqn:E; cbn; split; try done. by eapply Hf.
Qed.

Lemma keeps_on_world (R : db -> db -> Prop) `{!PreOrder R} {A} (m : stm W A) : keeps (db_rel R) (on_world m).
Proof. intros s. unfold on_world. destruct (m (s_world s)). by split. Qed.

Lemma keeps_read_clock (R : db -> db -> Prop) `{!PreOrder R} : keeps (db_rel R) read_clock.
Proof. intros s. unfold read_clock. destruct (wall_clock (s_world s)). by split. Qed.

(** Relations of the databases alone, and the trace alone. *)
Definition on_dbs (R : db -> db -> Prop) (s s' : sys W) : Prop := R (s_db s) (s_db s').
Definition same_trace (s s' : sys W) : Prop := s_trace s' = s_trace s.

#[export] Instance on_dbs_preorder (R : db -> db -> Prop) `{!PreOrder R} : PreOrder (on_dbs R).
Proof. split; [by intros s; unfold on_dbs|]. intros a b c. unfold on_dbs. by etrans. Qed.

#[export] Instance same_trace_preorder : PreOrder same_trace.
Proof. split; [done|]. unfold same_trace. intros a b c. congruence. Qed.

Lemma dbs_on_db (R : db -> db -> Prop) `{!PreOrder R} {A} (f : datetime -> db -> res (A * db)) :
  (forall now d a d', f now d = Ok (a, d') -> R d d') -> keeps (on_dbs R) (on_db f).
Proof. intros Hf s. by apply (keeps_on_db R f Hf). Qed.

Lemma dbs_on_world (R : db -> db -> Prop) `{!PreOrder R} {A} (m : stm W A) : keeps (on_dbs R) (on_world m).
Proof. intros s. by apply (keeps_on_world R m). Qed.

Lemma dbs_broker_write (R : db -> db -> Prop) `{!PreOrder R} {A} c (m : stm W A) : keeps (on_dbs R) (broker_write c m).
Proof. intros s. unfold broker_write, on_dbs. by destruct (m (s_world s)). Qed.

Lemma dbs_read_clock (R : db -> db -> Prop) `{!PreOrder R} : keeps (on_dbs R) read_clock.
Proof. intros s. by apply (keeps_read_clock R). Qed.

Lemma quiet_on_db {A} (f : datetime -> db -> res (A * db)) : keeps same_trace (on_db f).
Proof.
  intros s. unfold on_db, same_trace. destruct (wall_clock (s_world s)) as [now w].
  by destruct (f now (s_db s)) as [[a d]|e].
Qed.

Lemma quiet_on_world {A} (m : stm W A) : keeps same_trace (on_world m).
Proof. intros s. unfold on_world, same_trace. by destruct (m (s_world s)). Qed.

Lemma quiet_read_clock : keeps same_trace read_clock.
Proof. intros s. unfold read_clock, same_trace. by destruct (wall_clock (s_world s)). Qed.

Lemma open_schema_run (s : sys W) : open_schema s = (Ok tt, mkSys (init_schema (s_db s)) (wall_clock (s_world s)).2 (s_trace s)).
Proof. unfold open_schema, on_db. by destruct (wall_clock (s_world s)). Qed.

Lemma attempt_run {A} (m : stm (sys W) A) s r s1 : m s = (r, s1) -> attempt m s = (Ok r, s1).
Proof. unfold attempt. by intros ->. Qed.

Lemma on_db_Ok {A} (f : datetime -> db -> res (A * db)) s a s' :
  on_db f s = (Ok a, s') ->
  f (wall_clock (s_world s)).1 (s_db s) = Ok (a, s_db s') /\ s_trace s' = s_trace s.
Proof.
  unfold on_db. destruct (wall_clock (s_world s)) as [now w]. cbn.
  destruct (f now (s_db s)) as [[a' d]|e]; [|done]. by intros [= <- <-].
Qed.
End System.
