(* ===== verification/SystemFrames.v ===== *)
(** * Quiet operations of the system

    Writing metadata, reading the clock and reading the broker leave the ledger
    well formed and call nothing at the broker; a metadata write with a real key
    succeeds.  The pipeline stages share these facts. *)

From S2P Require Import Prelude PyStr PyTime DbCore DbOrders DbRuntime DbLedger DbFrames System.

Section Quiet.
Context {W : Type} {CW : Clock W}.

Lemma set_metadata_run k v now (s : sys W) : sempty (strip k) = false -> exists w,
  set_metadata_now k v (Some now) s = (Ok (iso now), mkSys (put_metadata k v (iso now) (s_db s)) w (s_trace s)).
Proof.
  intros Hk. unfold set_metadata_now, on_db. destruct (wall_clock (s_world s)) as [t w]. exists w.
  unfold set_runtime_metadata, require_nonempty. rewrite Hk. reflexivity.
Qed.

Lemma set_metadata_success k v at_ (s : sys W) : sempty (strip k) = false -> exists ts w,
  set_metadata_now k v at_ s = (Ok ts, mkSys (put_metadata k v ts (s_db s)) w (s_trace s)).
Proof.
  intros Hk. unfold set_metadata_now, on_db. destruct (wall_clock (s_world s)) as [t w].
  unfold set_runtime_metadata, require_nonempty. rewrite Hk. by eexists _, w.
Qed.

(** Nothing happens at the broker, and the ledger stays well formed. *)
Definition quiet_ok (s s' : sys W) : Prop :=
  (ledger_ok (s_db s) -> ledger_ok (s_db s')) /\ s_trace s' = s_trace s.

#[export] Instance quiet_ok_preorder : PreOrder quiet_ok.
Proof. split; [by split|]. intros a b c [H1 E1] [H2 E2]. split; [auto|congruence]. Qed.

Lemma keeps_quiet {A} (m : stm (sys W) A) : keeps (db_rel only_metadata) m -> keeps quiet_ok m.
Proof.
  intros Hm s. destruct (Hm s) as [Ho Ht]. split; [|exact Ht]. intros Hd.
  exact (proj1 (only_metadata_ledger [] _ _ Ho Hd)).
Qed.

Lemma set_metadata_quiet k v t : keeps quiet_ok (set_metadata_now k v t).
Proof. apply keeps_quiet, keeps_on_db; [exact _|]. intros. by eapply metadata_only. Qed.

Lemma on_world_quiet {A} (m : stm W A) : keeps quiet_ok (on_world m).
Proof. apply keeps_quiet, keeps_on_world, _. Qed.

Lemma read_clock_quiet : keeps quiet_ok read_clock.
Proof. apply keeps_quiet, keeps_read_clock, _. Qed.

Lemma quiet_trace {A} (m : stm (sys W) A) : keeps quiet_ok m -> keeps same_trace m.
Proof. intros Hm s. by apply Hm. Qed.
End Quiet.
