(* ===== verification/Reconciliation.v ===== *)
(** * Reconciliation with the broker ([pipeline/broker_reconciliation.py])

    One pass: today's broker orders are matched with the local orders that are
    active or have unapplied fills, new fills are adopted and materialised, then
    the local positions are compared with the account.  Every disagreement is a
    reason, and any reason blocks new entries.  The order inquiry and the
    account snapshot may also be handed in, or their failure. *)

From S2P Require Import Prelude PyStr PyFloat PyTime PyDecimal PyDict PyJson DbCore DbOrders DbRuntime DbLedger DbFrames.
From S2P Require Import KisHttp KisOrder KisOrderStatus KisAccount System SystemFrames.

(** Sorted, as the source passes them; the order is of no consequence. *)
Definition ACTIVE_LOCAL_STATUSES : list string :=
  ["INTENT"; "SUBMITTING"; "ACKNOWLEDGED"; "PARTIALLY_FILLED"; "CANCEL_PENDING"; "UNKNOWN"].

Record ReconciliationReport := mkReport {
  rr_updated_orders : Z;
  rr_new_fills : Z;
  rr_materialized_fills : Z;
  rr_operator_review : bool;
  rr_block_new_entries : bool;
  rr_reasons : list string;
}.

(** The local variables of the pass. *)
Record progress := mkProgress {
  pr_updated : Z;
  pr_new_fills : Z;
  pr_materialized : Z;
  pr_reasons : list string;
  pr_matched : list string;
}.

Definition no_progress : progress := mkProgress 0 0 0 [] [].

Definition add_reason (r : string) (p : progress) : progress :=
  mkProgress (pr_updated p) (pr_new_fills p) (pr_materialized p) (pr_reasons p ++ [r]) (pr_matched p).
Definition add_matched (id : string) (p : progress) : progress :=
  mkProgress (pr_updated p) (pr_new_fills p) (pr_materialized p) (pr_reasons p) (id :: pr_matched p).
Definition add_counts (updated fills materialized : Z) (p : progress) : progress :=
  mkProgress (pr_updated p + updated) (pr_new_fills p + fills) (pr_materialized p + materialized)
    (pr_reasons p) (pr_matched p).

(** [_exception_code], of error texts in ASCII *)
Definition code_char (c : ascii) : bool :=
  is_alnum c || bool_decide (c = "-"%char) || bool_decide (c = "_"%char).

Definition exception_code (e : exn) : string :=
  match e with
  | KisHttpError status details =>
      join ":" (["KisHttpError"; "http_" +:+ str_int status] ++
        omap (fun key =>
          let value := strip (or_else (dget key details) "") in
          if negb (sempty value) && sforall code_char value then Some (key +:+ "_" +:+ value) else None)
          ["rt_cd"; "msg_cd"])
  | _ => exn_name e
  end.

(** [_same_order] *)
Definition broker_side (b : KisOrderStatusRecord) : string :=
  match sr_side b with Some s => side_name s | None => "" end.
Definition same_order (local : broker_order) (b : KisOrderStatusRecord) : bool :=
  String.eqb (bo_symbol local) (sr_symbol b) && String.eqb (upper (bo_side local)) (broker_side b).

Definition local_status_for_broker (s : KisOrderStatus) : option string :=
  match s with
  | UNFILLED => Some "ACKNOWLEDGED"
  | PARTIALLY_FILLED => Some "PARTIALLY_FILLED"
  | FILLED => Some "FILLED"
  | CANCELLED => Some "CANCELLED"
  | REJECTED => Some "REJECTED"
  | UNKNOWN => None
  end.

(** [_incremental_fill_price] *)
Definition incremental_fill_price (local : broker_order) (b : KisOrderStatusRecord) (delta : Z) : res float :=
  _ ← raise_if (delta <=? 0) (ValueError "fill delta must be positive");
  match sr_average_fill_price b with
  | None => Ok (bo_requested_price local)
  | Some broker_average =>
      match bo_avg_fill_price local with
      | None => Ok broker_average
      | Some previous_average =>
          if bo_filled_qty local <=? 0 then Ok broker_average
          else
            cumulative ← fmul_Z (sr_filled_quantity b) broker_average;
            previous ← fmul_Z (bo_filled_qty local) previous_average;
            divisor ← float_of_int delta;
            price ← fdiv (cumulative - previous)%F divisor;
            _ ← raise_if (price <=? fzero)%F (ValueError "derived incremental fill price must be positive");
            Ok price
      end
  end.

(** ** The rows of a pass *)

(** The active orders and those with unapplied fills, in creation order. *)
Definition needs_reconciliation (d : db) (o : broker_order) : bool :=
  mem_str (bo_status o) ACTIVE_LOCAL_STATUSES
  || match pending_fills (bo_client_order_id o) d with [] => false | _ => true end.

Definition reconcilable_orders (d : db) : list broker_order :=
  List.filter (needs_reconciliation d) (rows_by bo_created_at bo_client_order_id (t_broker_orders d)).

(** [by_broker_id]: a later row of the same number replaces an earlier one. *)
Definition by_broker_id (orders : list KisOrderStatusRecord) : dict KisOrderStatusRecord :=
  fold_left (fun acc o => if sempty (sr_order_number o) then acc else dset (sr_order_number o) o acc) orders [].

(** [_local_position_quantities] *)
Definition local_quantity (symbol : string) (d : db) : Z :=
  sum_by lp_quantity (list_open_live_positions (Some symbol) d).
Definition open_symbols (d : db) : list string := dedup [] (map lp_symbol (list_open_live_positions None d)).

(** [{position.symbol: int(position.qty)}] *)
Definition broker_quantities (positions : list KisAccountPosition) : dict Z :=
  fold_left (fun acc p => dset (kp_symbol p) (kp_qty p) acc) positions [].
Definition broker_quantity (symbol : string) (positions : list KisAccountPosition) : Z :=
  or_else (dget symbol (broker_quantities positions)) 0.

Definition position_reasons (d : db) (positions : list KisAccountPosition) : list string :=
  omap (fun symbol =>
    let local_qty := local_quantity symbol d in
    let broker_qty := broker_quantity symbol positions in
    if local_qty =? broker_qty then None
    else Some ("position_mismatch:" +:+ symbol +:+ ":local=" +:+ str_int local_qty +:+
               ":broker=" +:+ str_int broker_qty))
    (sort_by text_leb (dedup [] (open_symbols d ++ dkeys (broker_quantities positions)))).

(** Broker orders that still work without a local row. *)
Definition open_at_broker (b : KisOrderStatusRecord) : bool :=
  (0 <? sr_remaining_quantity b) || bool_decide (sr_status b = UNFILLED)
  || bool_decide (sr_status b = PARTIALLY_FILLED).

Definition broker_only_reasons (matched : list string) (orders : list KisOrderStatusRecord) : list string :=
  omap (fun b => if mem_str (sr_order_number b) matched then None
                 else if open_at_broker b then Some ("broker_only_open_order:" +:+ sr_order_number b) else None)
    orders.

(** ** The pass *)

Section Pass.
Context {W : Type} {BW : Broker W}.

(** [_materialize_local_fills] *)
Definition materialize_local_fills (local : broker_order) : stm (sys W) Z :=
  if String.eqb (upper (bo_side local)) "BUY" then
    decision ← query (fun d => s ← bo_signal_id local; t_ai_decisions d !! s);
    match decision : option ai_decision with
    | None => raise (ValueError "missing entry risk metadata")
    | Some a =>
        on_db (materialize_order_fills (bo_client_order_id local)
          (mkRiskTerms (ad_stop_loss_price a) (ad_take_profit_price a)
             (Some (match ad_max_holding_seconds a with Some n => if n =? 0 then 900 else n | None => 900 end)))
          "broker_fill")
    end
  else on_db (materialize_order_fills (bo_client_order_id local) (mkRiskTerms None None None) "broker_fill").

(** A cancel acknowledgement is not a confirmed cancellation. *)
Definition merged_status (local_status status : string) : string :=
  if String.eqb local_status "CANCEL_PENDING" && mem_str status ["ACKNOWLEDGED"; "PARTIALLY_FILLED"]
  then "CANCEL_PENDING" else status.

Definition status_row (now : datetime) (status : string) (b : KisOrderStatusRecord) : status_update :=
  mkStatusUpdate (Some (sr_order_number b)) (Some (sr_filled_quantity b)) (sr_average_fill_price b) None (Some now)
    (if mem_str status ["FILLED"; "CANCELLED"; "REJECTED"] then Some now else None).

(** The status update and the materialisation of a matched order. *)
Definition settle_local (now : datetime) (local : broker_order) (b : KisOrderStatusRecord) (p : progress)
    : stm (sys W) progress :=
  let client_order_id := bo_client_order_id local in
  match local_status_for_broker (sr_status b) with
  | None => mret (add_reason ("broker_status_unknown:" +:+ client_order_id) p)
  | Some s =>
      let status := merged_status (bo_status local) s in
      updated ← on_db (update_broker_order_status client_order_id status (status_row now status b));
      let p := if updated : bool then add_counts 1 0 0 p else p in
      materialized ← attempt (materialize_local_fills local);
      mret (match materialized : res Z with
            | Ok n => add_counts 0 0 n p
            | Err e => add_reason ("materialize_failed:" +:+ client_order_id +:+ ":" +:+ exn_name e) p
            end)
  end.

Definition reconcile_fill (now : datetime) (local : broker_order) (b : KisOrderStatusRecord) (delta : Z)
    (price : float) : fill_args :=
  mkFillArgs ("reconcile:" +:+ bo_client_order_id local +:+ ":cum:" +:+ str_int (sr_filled_quantity b))
    (bo_client_order_id local) delta price now (Some (sr_order_number b)) (Some (sr_symbol b))
    (side_name <$> sr_side b) None.

(** The new shares of a matched order, then its status. *)
Definition adopt_fill (now : datetime) (local : broker_order) (b : KisOrderStatusRecord) (p : progress)
    : stm (sys W) progress :=
  let client_order_id := bo_client_order_id local in
  let delta := sr_filled_quantity b - bo_filled_qty local in
  if delta =? 0 then settle_local now local b p
  else
    fill_price ← lift_res (incremental_fill_price local b delta);
    inserted ← attempt (on_db (apply_broker_fill (reconcile_fill now local b delta fill_price)));
    match inserted : res bool with
    | Err e => mret (add_reason ("fill_apply_failed:" +:+ client_order_id +:+ ":" +:+ exn_name e) p)
    | Ok inserted => settle_local now local b (if inserted then add_counts 0 1 0 p else p)
    end.

(** One iteration of the loop over the local orders. *)
Definition reconcile_local (now : datetime) (orders : list KisOrderStatusRecord) (p : progress)
    (local : broker_order) : stm (sys W) progress :=
  let client_order_id := bo_client_order_id local in
  let broker_order_id := or_else (bo_broker_order_id local) "" in
  let p := if String.eqb (bo_status local) "UNKNOWN"
           then add_reason ("local_unknown:" +:+ client_order_id) p else p in
  if sempty broker_order_id then mret (add_reason ("local_order_unconfirmed:" +:+ client_order_id) p)
  else
    match dget broker_order_id (by_broker_id orders) with
    | None => mret (add_reason ("broker_order_missing:" +:+ client_order_id +:+ ":" +:+ broker_order_id) p)
    | Some b =>
        let p := add_matched broker_order_id p in
        if negb (same_order local b)
        then mret (add_reason ("order_identity_mismatch:" +:+ client_order_id +:+ ":" +:+ broker_order_id) p)
        else if sr_filled_quantity b <? bo_filled_qty local
        then mret (add_reason ("fill_regression:" +:+ client_order_id) p)
        else if negb (sr_ordered_quantity b =? 0) && negb (sr_ordered_quantity b =? bo_requested_qty local)
        then mret (add_reason ("order_quantity_mismatch:" +:+ client_order_id) p)
        else adopt_fill now local b p
    end.

(** [_finish] *)
Definition finish (now : datetime) (p : progress) : stm (sys W) ReconciliationReport :=
  let unique_reasons := dedup [] (pr_reasons p) in
  let review := match unique_reasons with [] => false | _ => true end in
  let text := if review then "true" else "false" in
  _ ← set_metadata_now "operator_review" text (Some now);
  _ ← set_metadata_now "block_new_entries" text (Some now);
  mret (mkReport (pr_updated p) (pr_new_fills p) (pr_materialized p) review review unique_reasons).

Definition with_reasons (rs : list string) (p : progress) : progress :=
  fold_left (fun p r => add_reason r p) rs p.

Definition reconcile_orders (now : datetime) (orders : list KisOrderStatusRecord) : stm (sys W) progress :=
  local_rows ← query reconcilable_orders;
  p ← foldM (reconcile_local now orders) no_progress local_rows;
  mret (with_reasons (broker_only_reasons (pr_matched p) orders) p).

Definition compare_positions (now : datetime) (account : option KisAccountSnapshot) (account_error : option exn)
    (p : progress) : stm (sys W) ReconciliationReport :=
  match account_error with
  | Some e => finish now (add_reason ("account_snapshot_unavailable:" +:+ exception_code e) p)
  | None =>
      answer ← (match account with
                | Some a => mret (Ok a)
                | None => attempt (on_world account_snapshot)
                end);
      match answer : res KisAccountSnapshot with
      | Err e => finish now (add_reason ("account_snapshot_unavailable:" +:+ exception_code e) p)
      | Ok a =>
          mismatches ← query (fun d => position_reasons d (as_positions a));
          finish now (with_reasons mismatches p)
      end
  end.

Definition reconcile_broker_state (current_time : option datetime)
    (broker_orders : option (list KisOrderStatusRecord)) (broker_orders_error : option exn)
    (account : option KisAccountSnapshot) (account_error : option exn) : stm (sys W) ReconciliationReport :=
  now ← (match current_time with Some t => mret t | None => read_clock end);
  match broker_orders_error with
  | Some e => finish now (add_reason ("order_status_unavailable:" +:+ exception_code e) no_progress)
  | None =>
      answer ← (match broker_orders with
                | Some l => mret (Ok l)
                | None => attempt (on_world today_orders)
                end);
      match answer : res (list KisOrderStatusRecord) with
      | Err e => finish now (add_reason ("order_status_unavailable:" +:+ exception_code e) no_progress)
      | Ok orders =>
          p ← reconcile_orders now orders;
          compare_positions now account account_error p
      end
  end.

(** ** What a settled order is *)

(** The local order and the broker's row of it agree. *)
Record settled (orders : list KisOrderStatusRecord) (local : broker_order) (b : KisOrderStatusRecord) : Prop := {
  st_known : bo_status local <> "UNKNOWN";
  st_broker : b ∈ orders;
  st_number : bo_broker_order_id local = Some (sr_order_number b);
  st_same : same_order local b = true;
  st_filled : bo_filled_qty local <= sr_filled_quantity b;
  st_quantity : sr_ordered_quantity b = 0 \/ sr_ordered_quantity b = bo_requested_qty local;
  st_status : sr_status b <> UNKNOWN;
}.

(** ** Lemmas *)

Lemma by_broker_id_spec orders k b :
  dget k (by_broker_id orders) = Some b -> b ∈ orders /\ sr_order_number b = k /\ k <> "".
Proof.
  unfold by_broker_id. induction orders as [|o l IH] using rev_ind; cbn; [done|].
  rewrite fold_left_app, elem_of_app, list_elem_of_singleton. cbn.
  destruct (String.eqb_spec (sr_order_number o) "") as [E|E].
  - unfold sempty. rewrite E. cbn. intros H. destruct (IH H) as (? & ? & ?). auto.
  - unfold sempty. destruct (String.eqb_spec (sr_order_number o) "") as [|_]; [done|].
    rewrite dget_dset. case_decide as Ek; [intros [= <-]; subst; auto|].
    intros H. destruct (IH H) as (? & ? & ?). auto.
Qed.

Lemma with_reasons_spec rs p :
  pr_reasons (with_reasons rs p) = pr_reasons p ++ rs /\ pr_matched (with_reasons rs p) = pr_matched p.
Proof.
  unfold with_reasons. revert p. induction rs as [|r rs IH]; intros p; cbn; [by rewrite app_nil_r|].
  destruct (IH (add_reason r p)) as [-> ->]. cbn. by rewrite <- app_assoc.
Qed.

Definition flags (text : string) (now : datetime) (d : db) : db :=
  put_metadata "block_new_entries" text (iso now) (put_metadata "operator_review" text (iso now) d).

Lemma finish_run now p (s : sys W) :
  let rs := dedup [] (pr_reasons p) in
  let review := match rs with [] => false | _ => true end in
  exists w, finish now p s =
    (Ok (mkReport (pr_updated p) (pr_new_fills p) (pr_materialized p) review review rs),
     mkSys (flags (if review then "true" else "false") now (s_db s)) w (s_trace s)).
Proof.
  cbv zeta. unfold finish. unfold mbind, stm_bind.
  destruct (set_metadata_run "operator_review"
    (if match dedup [] (pr_reasons p) with [] => false | _ => true end then "true" else "false") now s) as [w1 ->]; [done|].
  match goal with |- context [set_metadata_now ?k ?v (Some now) ?s1] =>
    destruct (set_metadata_run k v now s1) as [w2 ->]; [done|] end.
  by exists w2.
Qed.

Lemma finish_Ok now p (s : sys W) rep s' : finish now p s = (Ok rep, s') ->
  rr_reasons rep = dedup [] (pr_reasons p) /\
  rr_block_new_entries rep = (match rr_reasons rep with [] => false | _ => true end) /\
  rr_operator_review rep = rr_block_new_entries rep /\
  s_trace s' = s_trace s /\
  s_db s' = flags (if rr_block_new_entries rep then "true" else "false") now (s_db s).
Proof. intros H. destruct (finish_run now p s) as [w E]. rewrite E in H. by injection H as <- <-. Qed.

Lemma finish_no_reasons now p (s : sys W) rep s' :
  finish now p s = (Ok rep, s') -> rr_reasons rep = [] -> pr_reasons p = [].
Proof. intros H Hr. apply finish_Ok in H as (E & _). by apply (proj1 (dedup_nil _)); rewrite <- E. Qed.

(** ** One order *)

Lemma settle_local_Ok now local b p (s : sys W) p' s' :
  settle_local now local b p s = (Ok p', s') ->
  pr_matched p' = pr_matched p /\
  exists extra, pr_reasons p' = pr_reasons p ++ extra /\ (extra = [] -> sr_status b <> UNKNOWN).
Proof.
  unfold settle_local. destruct (local_status_for_broker (sr_status b)) as [st|] eqn:Es.
  - intros H. apply stm_bind_Ok in H as (u & s1 & _ & H). apply stm_bind_Ok in H as (m & s2 & _ & H).
    injection H as <- _. assert (Hn : sr_status b <> UNKNOWN) by (by intros E; rewrite E in Es).
    destruct m as [n|e], u; (split; [done|]); cbn;
      first [exists []; rewrite app_nil_r; by split|eexists; by split].
  - intros H. injection H as <- _. split; [done|]. eexists. by split.
Qed.

Lemma adopt_fill_Ok now local b p (s : sys W) p' s' :
  adopt_fill now local b p s = (Ok p', s') ->
  pr_matched p' = pr_matched p /\
  exists extra, pr_reasons p' = pr_reasons p ++ extra /\ (extra = [] -> sr_status b <> UNKNOWN).
Proof.
  unfold adopt_fill. destruct (_ =? 0); [apply settle_local_Ok|]. intros H.
  apply stm_bind_Ok in H as (price & s1 & _ & H). apply stm_bind_Ok in H as ([ins|e] & s2 & _ & H).
  - apply settle_local_Ok in H. by destruct ins.
  - injection H as <- _. split; [done|]. eexists. by split.
Qed.

Lemma reconcile_local_Ok now orders p local (s : sys W) p' s' :
  reconcile_local now orders p local s = (Ok p', s') ->
  exists extra ids, pr_reasons p' = pr_reasons p ++ extra /\ pr_matched p' = ids ++ pr_matched p /\
    (forall i, i ∈ ids -> bo_broker_order_id local = Some i) /\
    (extra = [] -> exists b, settled orders local b /\ adopt_fill now local b (add_matched (sr_order_number b) p) s = (Ok p', s')).
Proof.
  unfold reconcile_local. set (p0 := if String.eqb (bo_status local) "UNKNOWN" then _ else p).
  assert (Hp0 : exists e0, pr_reasons p0 = pr_reasons p ++ e0 /\ pr_matched p0 = pr_matched p /\
    (e0 = [] -> bo_status local <> "UNKNOWN" /\ p0 = p)).
  { unfold p0. destruct (String.eqb_spec (bo_status local) "UNKNOWN"); cbn;
      [eexists [_]; by split_and!|exists []; rewrite app_nil_r; by split_and!]. }
  destruct Hp0 as (e0 & Hr0 & Hm0 & Hu). clearbody p0. cbv zeta.
  destruct (sempty _) eqn:Eb.
  { intros H. injection H as <- _. exists (e0 ++ ["local_order_unconfirmed:" +:+ bo_client_order_id local]), [].
    cbn. rewrite Hr0, app_assoc. split_and!; try done; [by intros i ?%elem_of_nil|by destruct e0]. }
  destruct (dget _ (by_broker_id orders)) as [b|] eqn:Ed.
  2: { intros H. injection H as <- _. eexists (e0 ++ [_]), []. cbn. rewrite Hr0, app_assoc.
       split_and!; try done; [by intros i ?%elem_of_nil|by destruct e0]. }
  apply by_broker_id_spec in Ed as (Hin & Hnum & Hne).
  destruct (bo_broker_order_id local) as [bid|] eqn:Hbid; cbn in *; [|done]. subst bid.
  assert (Hids : forall i, i ∈ [sr_order_number b] -> Some (sr_order_number b) = Some i)
    by (by intros i ->%list_elem_of_singleton).
  destruct (same_order local b) eqn:Esame; cbn [negb].
  2: { intros H. injection H as <- _. eexists (e0 ++ [_]), [_]. cbn. rewrite Hr0, Hm0, app_assoc.
       split_and!; try done. by destruct e0. }
  destruct (Z.ltb_spec (sr_filled_quantity b) (bo_filled_qty local)) as [Hf|Hf].
  { intros H. injection H as <- _. eexists (e0 ++ [_]), [_]. cbn. rewrite Hr0, Hm0, app_assoc.
    split_and!; try done. by destruct e0. }
  destruct (negb (sr_ordered_quantity b =? 0) && negb (sr_ordered_quantity b =? bo_requested_qty local)) eqn:Eq.
  { intros H. injection H as <- _. eexists (e0 ++ [_]), [_]. cbn. rewrite Hr0, Hm0, app_assoc.
    split_and!; try done. by destruct e0. }
  intros H. pose proof H as H0. apply adopt_fill_Ok in H as (Hm & e & Hr & Hs).
  exists (e0 ++ e), [sr_order_number b]. cbn in *. rewrite Hr, Hm, Hr0, Hm0, app_assoc.
  split_and!; try done. intros [-> ->]%app_eq_nil. destruct (Hu eq_refl) as [Hk ->]. exists b. split; [|done].
  apply andb_false_iff in Eq. split; auto.
  destruct Eq as [E|E]; apply negb_false_iff, Z.eqb_eq in E; auto.
Qed.

Lemma reconcile_loop_Ok now orders l : forall p (s : sys W) p' s',
  foldM (reconcile_local now orders) p l s = (Ok p', s') ->
  exists extra ids, pr_reasons p' = pr_reasons p ++ extra /\ pr_matched p' = ids ++ pr_matched p /\
    (forall i, i ∈ ids -> exists local, local ∈ l /\ bo_broker_order_id local = Some i) /\
    (extra = [] -> forall local, local ∈ l -> exists b, settled orders local b).
Proof.
  induction l as [|x l IH]; intros p s p' s' H; cbn [foldM] in H.
  - injection H as <- _. exists [], []. rewrite app_nil_r. split_and!; try done; set_solver.
  - apply stm_bind_Ok in H as (p1 & s1 & H1 & H).
    apply reconcile_local_Ok in H1 as (e1 & i1 & Hr1 & Hm1 & Hi1 & Hs1).
    apply IH in H as (e2 & i2 & Hr2 & Hm2 & Hi2 & Hs2). exists (e1 ++ e2), (i2 ++ i1).
    rewrite Hr2, Hm2, Hr1, Hm1, !app_assoc. split_and!; try done.
    + intros i [Hi|Hi]%elem_of_app.
      * destruct (Hi2 _ Hi) as (lo & ? & ?). exists lo. set_solver.
      * exists x. split; [set_solver|auto].
    + intros [-> ->]%app_eq_nil lo [->|Hl]%elem_of_cons; [|auto]. destruct (Hs1 eq_refl) as (b & Hb & _). by exists b.
Qed.

Lemma reconcile_orders_Ok now orders (s : sys W) p s' :
  reconcile_orders now orders s = (Ok p, s') -> pr_reasons p = [] ->
  (forall local, local ∈ reconcilable_orders (s_db s) -> exists b, settled orders local b) /\
  (forall b, b ∈ orders -> open_at_broker b = true ->
     exists local, local ∈ reconcilable_orders (s_db s) /\ bo_broker_order_id local = Some (sr_order_number b)).
Proof.
  unfold reconcile_orders. intros H Hr. apply stm_bind_Ok in H as (rows & s1 & Hq & H).
  injection Hq as <- <-. apply stm_bind_Ok in H as (p1 & s2 & H & Hp). injection Hp as <- _.
  destruct (with_reasons_spec (broker_only_reasons (pr_matched p1) orders) p1) as [Er _].
  rewrite Er in Hr. apply app_eq_nil in Hr as [Hr1 Hr2].
  apply reconcile_loop_Ok in H as (e & ids & Hre & Hme & Hids & Hs). cbn in *.
  rewrite Hr1 in Hre. split; [by apply Hs|]. intros b Hb Ho.
  assert (Hin : sr_order_number b ∈ pr_matched p1).
  { destruct (mem_str (sr_order_number b) (pr_matched p1)) eqn:Em; [by apply mem_str_true|].
    assert (Hx : "broker_only_open_order:" +:+ sr_order_number b ∈ broker_only_reasons (pr_matched p1) orders).
    { apply list_elem_of_omap. exists b. by rewrite Em, Ho. }
    rewrite Hr2 in Hx. by apply elem_of_nil in Hx. }
  rewrite Hme, app_nil_r in Hin. by apply Hids.
Qed.

Lemma open_symbols_spec sym d : sym ∉ open_symbols d -> local_quantity sym d = 0.
Proof.
  intros Hn. unfold local_quantity. destruct (list_open_live_positions (Some sym) d) as [|p l] eqn:E; [done|].
  exfalso. apply Hn. apply elem_of_dedup. split; [|apply not_elem_of_nil].
  assert (Hp : In p (list_open_live_positions (Some sym) d)) by (rewrite E; by left).
  unfold list_open_live_positions in Hp. apply filter_In in Hp as [Hp Hq].
  apply andb_true_iff in Hq as [Ho Hs]. apply String.eqb_eq in Hs. subst sym.
  apply list_elem_of_fmap. exists p. split; [done|]. apply list_elem_of_In, filter_In. by rewrite Ho.
Qed.

Lemma position_reasons_nil d positions sym :
  position_reasons d positions = [] -> local_quantity sym d = broker_quantity sym positions.
Proof.
  intros H. destruct (decide (local_quantity sym d = broker_quantity sym positions)) as [|Hne]; [done|].
  exfalso. assert (Hin : sym ∈ open_symbols d ++ dkeys (broker_quantities positions)).
  { apply elem_of_app. destruct (decide (sym ∈ open_symbols d)) as [|Hn]; [by left|right].
    destruct (decide (sym ∈ dkeys (broker_quantities positions))) as [|Hk]; [done|]. exfalso. apply Hne.
    rewrite open_symbols_spec by done. unfold broker_quantity. apply dget_None in Hk. by rewrite Hk. }
  assert (Hx : forall x, x ∈ position_reasons d positions -> False) by (rewrite H; by intros ? ?%elem_of_nil).
  eapply Hx. apply list_elem_of_omap. exists sym. split.
  - apply elem_of_sort_by, elem_of_dedup. split; [done|apply not_elem_of_nil].
  - cbv zeta. rewrite (proj2 (Z.eqb_neq _ _) Hne). reflexivity.
Qed.

(** ** Frames *)

Lemma keeps_frame_on_db ids {A} (f : datetime -> db -> res (A * db)) :
  (forall now d a d', f now d = Ok (a, d') -> ledger_frame ids d d') -> keeps (db_rel (ledger_frame ids)) (on_db f).
Proof. apply keeps_on_db, _. Qed.

Lemma materialize_local_frame local :
  keeps (db_rel (ledger_frame [bo_client_order_id local])) (materialize_local_fills local).
Proof.
  unfold materialize_local_fills. destruct (String.eqb _ _).
  - apply keeps_bind; [exact _|apply keeps_query, _|]. intros [a|]; [|apply keeps_raise, _].
    apply keeps_frame_on_db. intros. eapply ledger_frame_mono; [|by eapply materialize_frame]. set_solver.
  - apply keeps_frame_on_db. intros. eapply ledger_frame_mono; [|by eapply materialize_frame]. set_solver.
Qed.

Lemma settle_local_frame now local b p :
  keeps (db_rel (ledger_frame [bo_client_order_id local])) (settle_local now local b p).
Proof.
  unfold settle_local. destruct (local_status_for_broker _); [|apply keeps_ret, _].
  apply keeps_bind; [exact _|apply keeps_frame_on_db; intros; by eapply status_frame|]. intros u.
  apply keeps_bind; [exact _|apply keeps_attempt, materialize_local_frame|]. intros. apply keeps_ret, _.
Qed.

Lemma adopt_fill_frame now local b p :
  keeps (db_rel (ledger_frame [bo_client_order_id local])) (adopt_fill now local b p).
Proof.
  unfold adopt_fill. destruct (_ =? 0); [apply settle_local_frame|].
  apply keeps_bind; [exact _|apply keeps_lift, _|]. intros price. apply keeps_bind; [exact _| |].
  - apply keeps_attempt, keeps_frame_on_db. intros now' d a d' E. by apply fill_frame in E.
  - intros [ins|e]; [apply settle_local_frame|apply keeps_ret, _].
Qed.

Lemma reconcile_local_frame now orders p local :
  keeps (db_rel (ledger_frame [bo_client_order_id local])) (reconcile_local now orders p local).
Proof.
  unfold reconcile_local. cbv zeta. destruct (sempty _); [apply keeps_ret, _|].
  destruct (dget _ _); [|apply keeps_ret, _].
  repeat (match goal with |- context [if ?c then _ else _] => destruct c end; try apply keeps_ret, _);
    apply adopt_fill_frame.
Qed.

Lemma keeps_mono ids ids' {A} (m : stm (sys W) A) : ids ⊆ ids' ->
  keeps (db_rel (ledger_frame ids)) m -> keeps (db_rel (ledger_frame ids')) m.
Proof. intros Hs Hm s. destruct (Hm s) as [H1 H2]. split; [by eapply ledger_frame_mono|done]. Qed.

Lemma reconcile_loop_frame now orders p l :
  keeps (db_rel (ledger_frame (map bo_client_order_id l))) (foldM (reconcile_local now orders) p l).
Proof.
  apply keeps_foldM; [exact _|]. intros b x Hx. eapply keeps_mono; [|apply reconcile_local_frame].
  intros i ->%list_elem_of_singleton. apply list_elem_of_fmap. by exists x.
Qed.

(** ** What adopting a fill leaves behind *)

Definition adopted (local : broker_order) (b : KisOrderStatusRecord) (d : db) : Prop :=
  pending_fills (bo_client_order_id local) d = [] /\
  (sr_filled_quantity b <= bo_requested_qty local -> exists o st,
     get_order (bo_client_order_id local) d = Some o /\ bo_filled_qty o = sr_filled_quantity b /\
     local_status_for_broker (sr_status b) = Some st /\ bo_status o = merged_status (bo_status local) st).

Lemma app_self {A} (l e : list A) : l = l ++ e -> e = [].
Proof. intros H. rewrite <- (app_nil_r l) in H at 1. by apply app_inv_head in H. Qed.

Lemma materialize_local_Ok local (s : sys W) n s' :
  ledger_ok (s_db s) -> materialize_local_fills local s = (Ok n, s') ->
  pending_fills (bo_client_order_id local) (s_db s') = [].
Proof.
  intros Hd. unfold materialize_local_fills. destruct (String.eqb _ _).
  - intros H. apply stm_bind_Ok in H as ([a|] & s1 & Hq & H); [|done]. injection Hq as _ <-.
    apply on_db_Ok in H as [H _]. by eapply materialize_pending_nil.
  - intros H. apply on_db_Ok in H as [H _]. by eapply materialize_pending_nil.
Qed.

Lemma settle_local_adopts now local b p (s : sys W) p' s' o :
  ledger_ok (s_db s) -> get_order (bo_client_order_id local) (s_db s) = Some o ->
  bo_requested_qty o = bo_requested_qty local ->
  settle_local now local b p s = (Ok p', s') -> pr_reasons p' = pr_reasons p -> adopted local b (s_db s').
Proof.
  intros Hd Ho Hq H Hr. unfold settle_local in H.
  destruct (local_status_for_broker (sr_status b)) as [st|] eqn:Est.
  2: { injection H as <- _. cbn in Hr. by apply eq_sym, app_self in Hr. }
  apply stm_bind_Ok in H as (u & s1 & Hu & H). apply on_db_Ok in Hu as [Hu _].
  apply stm_bind_Ok in H as (m & s2 & Hm & H). injection H as <- <-.
  unfold attempt in Hm. destruct (materialize_local_fills local s1) as [r s3] eqn:Em. injection Hm as <- <-.
  destruct r as [n|e]; [|destruct u; cbn in Hr; by apply eq_sym, app_self in Hr].
  assert (Hd1 : ledger_ok (s_db s1)) by by eapply status_ledger_ok. split; [by eapply materialize_local_Ok|].
  intros Hle. eapply status_effect in Hu as (o' & Ho' & Hf' & Hst'); [|exact Ho|reflexivity|lia].
  exists o', st. split_and!; try done.
  assert (He : touches [] (s_db s1) (s_db s3)); [|by rewrite (tc_orders _ _ _ He) by apply not_elem_of_nil].
  revert Em. unfold materialize_local_fills. destruct (String.eqb _ _).
  - intros E. apply stm_bind_Ok in E as ([a|] & s4 & Hx & E); [|done]. injection Hx as _ <-.
    apply on_db_Ok in E as [E _]. by apply materialize_frame in E as [_ ?].
  - intros E. apply on_db_Ok in E as [E _]. by apply materialize_frame in E as [_ ?].
Qed.

Lemma adopt_fill_adopts now local b p (s : sys W) p' s' :
  ledger_ok (s_db s) -> get_order (bo_client_order_id local) (s_db s) = Some local ->
  adopt_fill now local b p s = (Ok p', s') -> pr_reasons p' = pr_reasons p -> adopted local b (s_db s').
Proof.
  intros Hd Ho H Hr. unfold adopt_fill in H. destruct (_ =? 0); [by eapply settle_local_adopts|].
  apply stm_bind_Ok in H as (price & s1 & Hp & H). injection Hp as _ <-.
  apply stm_bind_Ok in H as (r & s2 & Ha & H). unfold attempt in Ha.
  destruct (on_db _ s) as [r' s3] eqn:E. injection Ha as <- <-.
  destruct r' as [ins|e]; [|injection H as <- _; cbn in Hr; by apply eq_sym, app_self in Hr].
  apply on_db_Ok in E as [E _]. pose proof (fill_ledger_ok _ _ _ _ _ Hd E) as Hd3.
  apply apply_broker_fill_Ok in E as (o & Hg & _ & Hcase). change (get_order (bo_client_order_id local) (s_db s) = Some o) in Hg. rewrite Ho in Hg. injection Hg as <-.
  assert (Hex : exists o, get_order (bo_client_order_id local) (s_db s3) = Some o /\
    bo_requested_qty o = bo_requested_qty local).
  { destruct Hcase as [(_ & -> & _)|(_ & _ & _ & f & o' & -> & _ & _ & _ & _ & _ & Ho')]; [by exists local|].
    exists o'. split; [unfold get_order; rewrite orders_put; apply lookup_insert_eq|]. by rewrite Ho'. }
  destruct Hex as (o & Ho3 & Hq3). eapply settle_local_adopts; [exact Hd3|exact Ho3|exact Hq3|exact H|].
  by destruct ins.
Qed.

Lemma adopted_frame local b ids d d' :
  ledger_ok d -> ledger_frame ids d d' -> bo_client_order_id local ∉ ids -> adopted local b d -> adopted local b d'.
Proof.
  intros Hd Hf Hn [Hp Hs]. destruct (Hf Hd) as [Hd' Ht]. split; [by eapply touches_pending|].
  intros Hle. destruct (Hs Hle) as (o & st & Hg & ?). exists o, st. by rewrite (tc_orders _ _ _ Ht).
Qed.

Lemma reconcile_loop_adopts now orders l : forall p (s : sys W) p' s',
  ledger_ok (s_db s) -> NoDup (map bo_client_order_id l) ->
  (forall x, x ∈ l -> get_order (bo_client_order_id x) (s_db s) = Some x) ->
  foldM (reconcile_local now orders) p l s = (Ok p', s') -> pr_reasons p' = pr_reasons p ->
  forall x, x ∈ l -> exists b, settled orders x b /\ adopted x b (s_db s').
Proof.
  induction l as [|y l IH]; intros p s p' s' Hd Hnd Hg H Hr x Hx; [by apply elem_of_nil in Hx|].
  cbn [map] in Hnd. apply list.NoDup_cons in Hnd as [Hy Hnd]. cbn [foldM] in H.
  apply stm_bind_Ok in H as (p1 & s1 & H1 & H).
  pose proof (reconcile_local_frame now orders p y s) as [Hf1 _]. rewrite H1 in Hf1. cbn in Hf1.
  pose proof (reconcile_loop_frame now orders p1 l s1) as [Hf2 _]. rewrite H in Hf2. cbn in Hf2.
  destruct (Hf1 Hd) as [Hd1 Ht1].
  pose proof (reconcile_local_Ok _ _ _ _ _ _ _ H1) as (e1 & i1 & Hr1 & _ & _ & Hs1).
  pose proof (reconcile_loop_Ok _ _ _ _ _ _ _ H) as (e2 & i2 & Hr2 & _).
  rewrite Hr2, Hr1, <- app_assoc in Hr. apply eq_sym, app_self in Hr. apply app_eq_nil in Hr as [-> ->].
  rewrite app_nil_r in Hr1, Hr2. apply elem_of_cons in Hx as [->|Hx].
  - destruct (Hs1 eq_refl) as (b & Hb & Ha). exists b. split; [done|]. eapply adopted_frame; [exact Hd1|exact Hf2|done|].
    eapply adopt_fill_adopts; [exact Hd| |exact Ha|by rewrite Hr1]. apply Hg. apply list_elem_of_here.
  - eapply (IH p1 s1); try done. intros z Hz. rewrite (tc_orders _ _ _ Ht1).
    + apply Hg. by apply list_elem_of_further.
    + intros Hin. apply list_elem_of_singleton in Hin. apply Hy. rewrite <- Hin. apply list_elem_of_fmap. by exists z.
Qed.

Lemma reconcilable_rows d : ledger_ok d ->
  NoDup (map bo_client_order_id (reconcilable_orders d)) /\
  forall x, x ∈ reconcilable_orders d -> get_order (bo_client_order_id x) d = Some x.
Proof.
  intros Hd. split.
  - apply NoDup_map_filter, rows_by_NoDup. intros k o Hk. by apply (lo_orders _ Hd _ _ Hk).
  - intros x Hx. unfold reconcilable_orders in Hx. apply list_elem_of_In, filter_In in Hx as [Hx _].
    apply list_elem_of_In, elem_of_rows_by in Hx as [k Hk].
    unfold get_order. by rewrite (ok_id _ _ (lo_orders _ Hd _ _ Hk)).
Qed.

Lemma finish_only_metadata now p : keeps (db_rel only_metadata) (finish now p).
Proof.
  unfold finish. apply keeps_bind; [exact _| |intros _].
  - apply keeps_on_db; [exact _|]. intros. by eapply metadata_only.
  - apply keeps_bind; [exact _| |intros _; apply keeps_ret, _].
    apply keeps_on_db; [exact _|]. intros. by eapply metadata_only.
Qed.

Lemma compare_positions_only_metadata now a e p : keeps (db_rel only_metadata) (compare_positions now a e p).
Proof.
  unfold compare_positions. destruct e; [apply finish_only_metadata|]. apply keeps_bind; [exact _| |].
  - destruct a; [apply keeps_ret, _|]. apply keeps_attempt, keeps_on_world, _.
  - intros [an|er]; [|apply finish_only_metadata].
    apply keeps_bind; [exact _|apply keeps_query, _|]. intros. apply finish_only_metadata.
Qed.

Lemma reconcile_orders_frame now orders (s : sys W) :
  ledger_ok (s_db s) -> ledger_ok (s_db (reconcile_orders now orders s).2) /\
  s_trace (reconcile_orders now orders s).2 = s_trace s.
Proof.
  intros Hd. pose proof (reconcile_loop_frame now orders no_progress (reconcilable_orders (s_db s)) s) as [Hf Ht].
  unfold reconcile_orders, mbind, stm_bind, query, gets. destruct (foldM _ _ _ s) as [[p|e] s1];
    cbn in *; destruct (Hf Hd) as [Hk _]; by split.
Qed.

Lemma reconcile_quiet ct os oe a ae : keeps quiet_ok (reconcile_broker_state ct os oe a ae).
Proof.
  unfold reconcile_broker_state. apply keeps_bind; [exact _|destruct ct; [apply keeps_ret, _|apply read_clock_quiet]|].
  intros now. destruct oe; [apply keeps_quiet, finish_only_metadata|]. apply keeps_bind; [exact _| |].
  { destruct os; [apply keeps_ret, _|]. apply keeps_attempt, on_world_quiet. }
  intros [orders|e]; [|apply keeps_quiet, finish_only_metadata]. apply keeps_bind; [exact _| |].
  - intros s. split; [apply reconcile_orders_frame|].
    intros. pose proof (reconcile_loop_frame now orders no_progress (reconcilable_orders (s_db s)) s) as [_ Ht].
    unfold reconcile_orders, mbind, stm_bind, query, gets. by destruct (foldM _ _ _ s) as [[p|e] s1].
  - intros p. apply keeps_quiet, compare_positions_only_metadata.
Qed.

(** The same database, metadata aside. *)
Definition same_tables (d d' : db) : Prop := set_metadata (fun _ => ∅) d = set_metadata (fun _ => ∅) d'.

Lemma only_metadata_tables d d1 d2 : only_metadata d d1 -> only_metadata d d2 -> same_tables d1 d2.
Proof. intros [f ->] [g ->]. done. Qed.
End Pass.

(** ** Properties *)

(** C4: a reconciliation that leaves entries open has established agreement.
    The pass reports and persists one verdict, blocking entries exactly when it
    has a reason to; and when it does not block, the broker's orders and the
    account were read, every local order that was active or had unapplied fills
    is known and settled with its own row at the broker, every order still
    working at the broker is one of them, and for every symbol the open local
    quantity is the quantity held at the broker. *)
Theorem reconcile_unblocked_agrees {W} {BW : Broker W} ct os oe a ae (s : sys W) rep s' :
  reconcile_broker_state ct os oe a ae s = (Ok rep, s') ->
  rr_block_new_entries rep = negb (bool_decide (rr_reasons rep = [])) /\
  rr_operator_review rep = rr_block_new_entries rep /\
  get_metadata "block_new_entries" (s_db s') = Some (if rr_block_new_entries rep then "true" else "false") /\
  get_metadata "operator_review" (s_db s') = Some (if rr_block_new_entries rep then "true" else "false") /\
  (rr_block_new_entries rep = false -> exists orders account w w',
     (os = Some orders \/ (os = None /\ (today_orders w).1 = Ok orders)) /\
     (a = Some account \/ (a = None /\ (account_snapshot w').1 = Ok account)) /\
     (forall local, local ∈ reconcilable_orders (s_db s) -> exists b, settled orders local b) /\
     (forall b, b ∈ orders -> open_at_broker b = true ->
        exists local, local ∈ reconcilable_orders (s_db s) /\ bo_broker_order_id local = Some (sr_order_number b)) /\
     (forall sym, local_quantity sym (s_db s') = broker_quantity sym (as_positions account))).
Proof.
  assert (Hflags : forall now p (s1 : sys W), finish now p s1 = (Ok rep, s') ->
    rr_block_new_entries rep = negb (bool_decide (rr_reasons rep = [])) /\
    rr_operator_review rep = rr_block_new_entries rep /\
    get_metadata "block_new_entries" (s_db s') = Some (if rr_block_new_entries rep then "true" else "false") /\
    get_metadata "operator_review" (s_db s') = Some (if rr_block_new_entries rep then "true" else "false") /\
    (rr_block_new_entries rep = false -> pr_reasons p = [] /\ forall sym, local_quantity sym (s_db s') = local_quantity sym (s_db s1))).
  { intros now p s1 H. apply finish_Ok in H as (Hr & Hb & Ho & _ & ->). unfold flags.
    rewrite Hb, metadata_put_get. split; [by destruct (rr_reasons rep)|]. split; [by rewrite Ho, Hb|]. split; [done|].
    split; [by rewrite metadata_put_other, metadata_put_get|]. intros Hn. split; [|done].
    apply (dedup_nil (pr_reasons p)). rewrite <- Hr. by destruct (rr_reasons rep). }
  intros H. unfold reconcile_broker_state in H. apply stm_bind_Ok in H as (now & s0 & Hnow & H).
  assert (Hs0 : s_db s0 = s_db s).
  { destruct ct; [by injection Hnow as _ <-|]. unfold read_clock in Hnow.
    destruct (wall_clock (s_world s)). by injection Hnow as _ <-. }
  destruct oe as [e|].
  { apply Hflags in H as (H1 & H2 & H3 & H4 & H5). split_and!; try done. intros Hn. destruct (H5 Hn) as [Hx _]. done. }
  apply stm_bind_Ok in H as (answer & s1 & Ha & H).
  assert (Hs1 : s_db s1 = s_db s /\ forall orders, answer = Ok orders ->
    os = Some orders \/ (os = None /\ (today_orders (s_world s0)).1 = Ok orders)).
  { destruct os as [l|]; [injection Ha as <- <-; split; [done|]; intros o [= <-]; by left|].
    unfold attempt, on_world in Ha. destruct (today_orders (s_world s0)) as [r w] eqn:E. injection Ha as <- <-.
    split; [done|]. intros o ->. right. by split. }
  destruct Hs1 as [Hs1 Hos]. destruct answer as [orders|e].
  2: { apply Hflags in H as (H1 & H2 & H3 & H4 & H5). split_and!; try done. intros Hn. by destruct (H5 Hn). }
  apply stm_bind_Ok in H as (p & s2 & Hp & H). unfold compare_positions in H. destruct ae as [e|].
  { apply Hflags in H as (H1 & H2 & H3 & H4 & H5). split_and!; try done. intros Hn. destruct (H5 Hn) as [Hx _].
    cbn in Hx. by apply app_eq_nil in Hx as [_ ?]. }
  apply stm_bind_Ok in H as (answer & s3 & Ha' & H).
  assert (Hs3 : s_db s3 = s_db s2 /\ forall acc, answer = Ok acc ->
    a = Some acc \/ (a = None /\ (account_snapshot (s_world s2)).1 = Ok acc)).
  { destruct a as [l|]; [injection Ha' as <- <-; split; [done|]; intros o [= <-]; by left|].
    unfold attempt, on_world in Ha'. destruct (account_snapshot (s_world s2)) as [r w] eqn:E. injection Ha' as <- <-.
    split; [done|]. intros o ->. right. by split. }
  destruct Hs3 as [Hs3 Hacc]. destruct answer as [account|e].
  2: { apply Hflags in H as (H1 & H2 & H3 & H4 & H5). split_and!; try done. intros Hn. destruct (H5 Hn) as [Hx _].
       cbn in Hx. by apply app_eq_nil in Hx as [_ ?]. }
  apply stm_bind_Ok in H as (mm & s4 & Hq & H). injection Hq as <- <-.
  apply Hflags in H as (H1 & H2 & H3 & H4 & H5). split_and!; try done. intros Hn.
  destruct (H5 Hn) as [Hr Hlq]. rewrite (proj1 (with_reasons_spec _ _)) in Hr. apply app_eq_nil in Hr as [Hr1 Hr2].
  destruct (reconcile_orders_Ok _ _ _ _ _ Hp Hr1) as [Hset Hopen]. rewrite Hs1 in Hset, Hopen.
  exists orders, account, (s_world s0), (s_world s2). split_and!; auto.
  intros sym. rewrite Hlq. by apply position_reasons_nil.
Qed.

(** Fact: reconciliation never acts on holdings and never at the broker.  Whatever
    the account says (or fails to say), the database after the pass is the
    same, the metadata aside: no position is created from a broker-only
    holding, none is closed because a balance is missing or different.  The
    pass makes no call that changes anything at the broker and keeps the ledger
    well formed, even when it raises. *)
Theorem reconcile_ignores_holdings {W} {BW : Broker W} ct os oe a1 e1 a2 e2 (s : sys W) :
  ledger_ok (s_db s) ->
  let s1 := (reconcile_broker_state ct os oe a1 e1 s).2 in
  let s2 := (reconcile_broker_state ct os oe a2 e2 s).2 in
  same_tables (s_db s1) (s_db s2) /\ s_trace s1 = s_trace s /\ ledger_ok (s_db s1).
Proof.
  intros Hd. cbv zeta. unfold reconcile_broker_state.
  assert (Hnow : exists now w, (match ct with Some t => mret t | None => read_clock end) s =
    (Ok now, mkSys (s_db s) w (s_trace s))).
  { destruct ct as [t|]; [exists t, (s_world s); by destruct s|]. unfold read_clock.
    destruct (wall_clock (s_world s)) as [n w]. by exists n, w. }
  destruct Hnow as (now & w & Hnow). rewrite !(stm_bind_run _ _ _ _ _ Hnow). clear Hnow.
  assert (Hfin : forall p w, same_tables (s_db (finish now p (mkSys (s_db s) w (s_trace s))).2)
      (s_db (finish now p (mkSys (s_db s) w (s_trace s))).2) /\
    s_trace (finish now p (mkSys (s_db s) w (s_trace s))).2 = s_trace s /\
    ledger_ok (s_db (finish now p (mkSys (s_db s) w (s_trace s))).2)).
  { intros p w0. destruct (finish_only_metadata now p (mkSys (s_db s) w0 (s_trace s))) as [Ho Ht].
    split; [done|]. split; [exact Ht|]. exact (proj1 (only_metadata_ledger [] _ _ Ho Hd)). }
  destruct oe as [e|]; [apply Hfin|].
  assert (Hans : exists r w', (match os with Some l => mret (Ok l) | None => attempt (on_world today_orders) end)
    (mkSys (s_db s) w (s_trace s)) = (Ok r, mkSys (s_db s) w' (s_trace s))).
  { destruct os as [l|]; [by exists (Ok l), w|]. unfold attempt, on_world. cbn.
    destruct (today_orders w) as [r w']. by exists r, w'. }
  destruct Hans as (r & w' & Hans). rewrite !(stm_bind_run _ _ _ _ _ Hans). clear Hans.
  destruct r as [orders|e]; [|apply Hfin].
  destruct (reconcile_orders_frame now orders (mkSys (s_db s) w' (s_trace s)) Hd) as [Hd1 Ht1].
  unfold mbind, stm_bind. destruct (reconcile_orders now orders _) as [[p|e] s1]; [|by split_and!].
  destruct (compare_positions_only_metadata now a1 e1 p s1) as [H1 H2].
  destruct (compare_positions_only_metadata now a2 e2 p s1) as [H3 _].
  split; [by eapply only_metadata_tables|]. cbn in *. split; [congruence|].
  exact (proj1 (only_metadata_ledger [] _ _ H1 Hd1)).
Qed.

(** C15: a reconciliation without reasons has adopted the broker's state.  Every
    local order that was active or had unapplied fills has no unapplied fill
    left; and unless the broker reports more shares filled than were requested,
    its filled quantity is the broker's and its status the broker's, a pending
    cancellation staying pending until the broker reports a terminal state. *)
Theorem reconcile_adopts_broker_state {W} {BW : Broker W} ct orders oe a ae (s : sys W) rep s' :
  ledger_ok (s_db s) ->
  reconcile_broker_state ct (Some orders) oe a ae s = (Ok rep, s') -> rr_reasons rep = [] ->
  forall local, local ∈ reconcilable_orders (s_db s) -> exists b,
    settled orders local b /\ pending_fills (bo_client_order_id local) (s_db s') = [] /\
    (sr_filled_quantity b <= bo_requested_qty local -> exists o st,
       get_order (bo_client_order_id local) (s_db s') = Some o /\ bo_filled_qty o = sr_filled_quantity b /\
       local_status_for_broker (sr_status b) = Some st /\ bo_status o = merged_status (bo_status local) st).
Proof.
  intros Hd H Hr local Hl. unfold reconcile_broker_state in H. apply stm_bind_Ok in H as (now & s0 & Hnow & H).
  assert (Hs0 : s_db s0 = s_db s).
  { destruct ct; [by injection Hnow as _ <-|]. unfold read_clock in Hnow.
    destruct (wall_clock (s_world s)). by injection Hnow as _ <-. }
  destruct oe as [e|].
  { apply finish_Ok in H as (Hrr & _). by rewrite Hr in Hrr. }
  apply stm_bind_Ok in H as (answer & s1 & Ha & H). injection Ha as <- <-.
  apply stm_bind_Ok in H as (p & s2 & Hp & H).
  assert (Hpr : pr_reasons p = []).
  { revert H. unfold compare_positions. destruct ae as [e|].
    - intros H. apply finish_no_reasons in H; [|done]. by apply app_eq_nil in H as [? _].
    - intros H. apply stm_bind_Ok in H as ([acc|e] & s3 & _ & H).
      + apply stm_bind_Ok in H as (mm & s4 & _ & H). apply finish_no_reasons in H; [|done].
        rewrite (proj1 (with_reasons_spec _ _)) in H. by apply app_eq_nil in H as [? _].
      + apply finish_no_reasons in H; [|done]. by apply app_eq_nil in H as [? _]. }
  pose proof (compare_positions_only_metadata now a ae p s2) as [[f Hf] _]. rewrite H in Hf. cbn in Hf.
  unfold reconcile_orders in Hp. apply stm_bind_Ok in Hp as (rows & s3 & Hq & Hp). injection Hq as <- <-.
  apply stm_bind_Ok in Hp as (p1 & s4 & Hp & Hx). injection Hx as Hx <-. subst p.
  rewrite (proj1 (with_reasons_spec _ _)) in Hpr. apply app_eq_nil in Hpr as [Hpr _].
  rewrite Hs0 in Hp. destruct (reconcilable_rows _ Hd) as [Hnd Hrows].
  edestruct (reconcile_loop_adopts now orders (reconcilable_orders (s_db s)) no_progress s0 p1 s4) as (b & Hb & Hpend & Hadopt);
    [by rewrite Hs0|done|by rewrite Hs0|done|done|exact Hl|]. exists b. rewrite Hf. by split.
Qed.

(** Fact: an order without a fill whose row carries the average price 0, as the
    broker reports it, ends the whole pass: the status update refuses the price
    with a [ValueError] that nothing catches, so neither the later orders nor
    the positions are reconciled, and the database, with the flags that block
    entries, is left as it was. *)
Theorem reconcile_zero_average_raises {W} {BW : Broker W} now orders a ae (s : sys W) local rest b :
  reconcilable_orders (s_db s) = local :: rest ->
  sempty (strip (bo_client_order_id local)) = false -> sempty (strip (sr_order_number b)) = false ->
  bo_broker_order_id local = Some (sr_order_number b) ->
  dget (sr_order_number b) (by_broker_id orders) = Some b ->
  same_order local b = true -> sr_filled_quantity b = bo_filled_qty local ->
  sr_ordered_quantity b = bo_requested_qty local -> 0 <= bo_filled_qty local ->
  sr_status b = UNFILLED -> sr_average_fill_price b = Some fzero ->
  exists m s', reconcile_broker_state (Some now) (Some orders) None a ae s = (Err (ValueError m), s') /\
    s_db s' = s_db s.
Proof.
  intros Hrows Hid Hnum Hbid Hget Hsame Hf Hq H0 Hst Havg.
  assert (Hset : forall p, exists m s', settle_local now local b p s = (Err (ValueError m), s') /\ s_db s' = s_db s).
  { intros p. unfold settle_local. rewrite Hst. cbn [local_status_for_broker]. unfold mbind, stm_bind, on_db.
    assert (R1 : forall n, require_nonempty (bo_client_order_id local) n = Ok tt)
      by (intros; unfold require_nonempty; by rewrite Hid).
    assert (R2 : forall n, require_nonempty (sr_order_number b) n = Ok tt)
      by (intros; unfold require_nonempty; by rewrite Hnum).
    assert (R3 : validate_order_status (merged_status (bo_status local) "ACKNOWLEDGED") = Ok tt).
    { unfold merged_status. by destruct (String.eqb _ _). }
    assert (R4 : (sr_filled_quantity b <? 0) = false) by (apply Z.ltb_ge; lia).
    destruct (wall_clock (s_world s)) as [t w]. unfold update_broker_order_status. rewrite R1, R3. cbn -[require_nonempty].
    rewrite R2. cbn. rewrite R4, Havg. cbn.
    by eexists _, _. }
  unfold reconcile_broker_state. rewrite (stm_bind_run _ _ s now s) by done.
  rewrite (stm_bind_run _ _ s (Ok orders) s) by done. unfold reconcile_orders. unfold mbind, stm_bind, query, gets.
  rewrite Hrows. cbn [foldM]. unfold mbind, stm_bind, reconcile_local. rewrite Hbid. cbn [or_else]. rewrite Hget.
  assert (Hne : sempty (sr_order_number b) = false) by (by destruct (sr_order_number b)). rewrite Hne, Hsame. cbn [negb].
  rewrite Hf, Z.ltb_irrefl, Hq, Z.eqb_refl, andb_false_r. unfold adopt_fill. rewrite Hf, Z.sub_diag. cbn [Z.eqb].
  match goal with |- context [settle_local now local b ?p s] => destruct (Hset p) as (m & s' & -> & E) end.
  by exists m, s'.
Qed.

(** ** Witnesses *)

(** A world of fixed answers. *)
Definition w_broker (orders : list KisOrderStatusRecord) (positions : list KisAccountPosition) : Broker unit := {|
  broker_clock u := (w_clock, u);
  today_orders := mret orders;
  account_snapshot := mret (mkAccountSnapshot positions (parse_account_summary []));
  cancel_at_broker q := mret (mkCancelResult None (cq_order_number q) "cancel_requested" "");
  submit_at_broker r := raise (OtherError "unused");
|}.

Definition w_position : KisAccountPosition := mkAccountPosition "005930" 10 None None None None None "".
Definition w_order (filled : Z) (avg : option float) (st : KisOrderStatus) : KisOrderStatusRecord :=
  mkStatusRecord "b1" "005930" (Some BUY) 10 filled (10 - filled) (Some (f_of_Z 70000)) avg st None None None None None.

(** The claimed order is acknowledged as b1; its decision has risk terms. *)
Definition w_decision : ai_decision :=
  mkAiDecision "sig1" "005930" "BUY" (f_of_Z 1) (Some (f_of_Z 70000)) (Some (f_of_Z 72000)) (Some (f_of_Z 69000))
    "low" false "" (iso w_clock) "s" "m" "p" (Some 600).
Definition w_submitted : db :=
  set_decisions (<["sig1" := w_decision]>) (run_or (record_order_submission "c1" "b1" None w_clock w_claimed)).
Definition w_sys : sys unit := mkSys w_submitted tt [].

Definition w_report : ReconciliationReport := mkReport 1 1 1 false false [].

#[local] Instance w_filled_broker : Broker unit := w_broker [w_order 10 (Some (f_of_Z 70000)) FILLED] [w_position].

Definition w_run : res ReconciliationReport * sys unit := reconcile_broker_state None None None None None w_sys.
Definition w_run_given : res ReconciliationReport * sys unit :=
  reconcile_broker_state None (Some [w_order 10 (Some (f_of_Z 70000)) FILLED]) None None None w_sys.

Lemma w_submitted_ok : ledger_ok w_submitted.
Proof.
  assert (H : ledger_ok (run_or (record_order_submission "c1" "b1" None w_clock w_claimed))).
  { apply (submission_ledger_ok "c1" "b1" None w_clock true w_claimed); [|vm_compute; reflexivity].
    apply (claim_ledger_ok "c1" (Some "sig1") "005930" "buy" 10 (f_of_Z 70000) None w_clock true
      (init_schema empty_db)); [apply empty_ledger_ok|vm_compute; reflexivity]. }
  destruct H. by constructor.
Qed.

Lemma reconcile_unblocked_agrees_witness :
  w_run.1 = Ok w_report /\ get_metadata "block_new_entries" (s_db w_run.2) = Some "false" /\
  exists account, local_quantity "005930" (s_db w_run.2) = broker_quantity "005930" (as_positions account).
Proof.
  assert (E : w_run.1 = Ok w_report) by (vm_compute; reflexivity).
  assert (E2 : reconcile_broker_state None None None None None w_sys = (Ok w_report, w_run.2)).
  { rewrite <- E. exact (surjective_pairing w_run). }
  destruct (reconcile_unblocked_agrees _ _ _ _ _ _ _ _ E2) as (_ & _ & H1 & _ & H2).
  split; [exact E|]. split; [exact H1|]. destruct (H2 eq_refl) as (o & acc & w & w' & _ & _ & _ & _ & H).
  exists acc. apply H.
Defined.

Lemma reconcile_ignores_holdings_witness :
  same_tables (s_db (reconcile_broker_state None None None None None w_sys).2)
    (s_db (reconcile_broker_state None None None (Some (mkAccountSnapshot [] (parse_account_summary []))) None w_sys).2).
Proof. exact (proj1 (reconcile_ignores_holdings None None None None None _ None w_sys w_submitted_ok)). Defined.

Lemma reconcile_adopts_broker_state_witness :
  exists local b, local ∈ reconcilable_orders w_submitted /\ sr_filled_quantity b = 10 /\
    pending_fills (bo_client_order_id local) (s_db w_run_given.2) = [].
Proof.
  assert (E : w_run_given.1 = Ok w_report) by (vm_compute; reflexivity).
  assert (E2 : reconcile_broker_state None (Some [w_order 10 (Some (f_of_Z 70000)) FILLED]) None None None w_sys
    = (Ok w_report, w_run_given.2)).
  { rewrite <- E. exact (surjective_pairing w_run_given). }
  destruct (reconcilable_orders w_submitted) as [|local l] eqn:El; [vm_compute in El; discriminate|].
  assert (Hl : local ∈ reconcilable_orders (s_db w_sys)) by (change (s_db w_sys) with w_submitted; rewrite El; apply list_elem_of_here).
  destruct (reconcile_adopts_broker_state _ _ _ _ _ w_sys _ _ w_submitted_ok E2 eq_refl local Hl) as (b & Hb & Hp & _).
  exists local, b. split; [apply list_elem_of_here|]. split; [|exact Hp].
  destruct Hb as [_ Hb _ _ _ _ _]. apply list_elem_of_singleton in Hb. rewrite Hb. reflexivity.
Defined.

Definition w_zero_row : dict json :=
  [("odno", JStr "b1"); ("pdno", JStr "005930"); ("sll_buy_dvsn_cd", JStr "02"); ("ord_qty", JStr "10");
   ("tot_ccld_qty", JStr "0"); ("rmn_qty", JStr "10"); ("ord_unpr", JStr "70000"); ("avg_prvs", JStr "0")].

Lemma reconcile_zero_average_raises_witness :
  exists b m s', parse_order_status (JObj w_zero_row) = Ok (Some b) /\
    reconcile_broker_state (Some w_clock) (Some [b]) None None None w_sys = (Err (ValueError m), s') /\
    s_db s' = w_submitted.
Proof.
  exists (w_order 0 (Some fzero) UNFILLED).
  destruct (reconcilable_orders w_submitted) as [|local l] eqn:El; [vm_compute in El; discriminate|].
  assert (Hl : local = mkBrokerOrder "c1" (Some "sig1") "005930" "BUY" 10 (f_of_Z 70000) "ACKNOWLEDGED" (Some "b1") 0 None
    (iso w_clock) (iso w_clock) (Some (iso w_clock)) None None).
  { vm_compute in El. injection El as <- _. vm_compute. reflexivity. }
  destruct (reconcile_zero_average_raises w_clock [w_order 0 (Some fzero) UNFILLED] None None w_sys local l
    (w_order 0 (Some fzero) UNFILLED)) as (m & s' & H1 & H2); try (rewrite Hl; reflexivity); try reflexivity.
  - exact El.
  - exists m, s'. split; [vm_compute; reflexivity|]. split; [exact H1|exact H2].
Defined.
