(* ===== verification/OrderManagement.v ===== *)
(** * Stale orders and their cancellation ([pipeline/order_management.py])

    A cycle over the local orders that are not terminal: a stale one is marked
    CANCEL_PENDING, cancelled once at the broker and left pending until a later
    cycle sees a terminal state; a malformed order or an ambiguous cancellation
    becomes UNKNOWN and blocks new entries.  The cancellation marker of an order
    is a JSON object in the runtime metadata. *)

From S2P Require Import Prelude PyStr PyFloat PyTime PyDecimal PyDict PyJson DbCore DbOrders DbRuntime DbLedger DbFrames.
From S2P Require Import KisHttp KisOrder KisOrderStatus KisAccount System SystemFrames Reconciliation.

Definition ACTIVE_STATUSES : list string := ["ACKNOWLEDGED"; "PARTIALLY_FILLED"].
Definition TERMINAL_STATUSES : list string := ["FILLED"; "CANCELLED"; "REJECTED"].
Definition DO_NOT_RECALL_STATUSES : list string := ["CANCEL_PENDING"; "UNKNOWN"; "FILLED"; "CANCELLED"; "REJECTED"].

Record OrderManagementConfig := mkManagementConfig {
  buy_ttl_seconds : float;
  sell_ttl_seconds : float;
}.

Definition default_management_config : OrderManagementConfig := mkManagementConfig (f_of_Z 60) (f_of_Z 30).

(** [__post_init__] *)
Definition management_config (buy sell : float) : res OrderManagementConfig :=
  _ ← raise_if ((buy <? fzero)%F || (sell <? fzero)%F) (ValueError "order TTLs must be non-negative");
  Ok (mkManagementConfig buy sell).

Record OrderManagementAction := mkAction {
  oc_client_order_id : string;
  oc_symbol : string;
  oc_action : string;
  oc_reason : string;
  oc_remaining_quantity : Z;
}.

Record OrderManagementReport := mkManagementReport {
  om_inspected : Z;
  om_cancel_requested : Z;
  om_pending : Z;
  om_unknown : Z;
  om_confirmed : Z;
  om_operator_review : bool;
  om_block_new_entries : bool;
  om_actions : list OrderManagementAction;
}.

Record EntryReevaluationState := mkReevaluation {
  er_allowed : bool;
  er_reason : string;
  er_last_confirmed_bar_key : option json;
}.

(** ** Staleness *)

Section Staleness.
Variable calendar : option (Z -> bool).

(** [_age_seconds] *)
Definition age_seconds (local : broker_order) (now : datetime) : float :=
  let timestamp := text_or_default (text_or (bo_submitted_at local) (Some (bo_updated_at local))) (bo_created_at local) in
  match fromisoformat timestamp with
  | Err _ => finf
  | Ok started => fmax fzero (f_ratio (dt_us (as_kst now) - dt_us (as_kst started)) 1000000)
  end.

(** [_is_stale] *)
Definition is_stale (local : broker_order) (now : datetime) (config : OrderManagementConfig) : bool * string :=
  if negb (is_regular_market_open calendar now) then (false, "market_closed")
  else
    let side := upper (bo_side local) in
    let ttl := if String.eqb side "BUY" then buy_ttl_seconds config else sell_ttl_seconds config in
    if (ttl <=? age_seconds local now)%F then (true, "ttl_" +:+ lower side)
    else if String.eqb side "BUY" && negb (is_new_entry_window calendar now) && is_regular_market_open calendar now
    then (true, "entry_window_closed")
    else (false, "fresh").
End Staleness.

(** [_valid_cancel_fields]: the reason an order cannot be cancelled. *)
Definition invalid_cancel_field (b : KisOrderStatusRecord) : option string :=
  if sempty (sr_order_number b) then Some "missing_order_number"
  else if match sr_order_branch b with Some br => sempty br | None => true end then Some "missing_order_branch"
  else if sr_remaining_quantity b <=? 0 then Some "missing_remaining_quantity"
  else None.

(** ** Markers *)

Definition pending_key (client_id : string) : string := "order_management.pending." +:+ client_id.
Definition confirmed_key (symbol : string) : string := "order_management.confirmed." +:+ symbol.

(** [_pending_marker] *)
Definition pending_marker (client_id : string) (d : db) : option (dict json) :=
  match get_metadata (pending_key client_id) d with
  | None => None
  | Some value =>
      if sempty value then None
      else match loads value with
           | Some (JObj o) => Some o
           | Some _ => None
           | None => Some [("invalid", JBool true)]
           end
  end.

Definition marker_invalid (marker : dict json) : bool :=
  match dget "invalid" marker with Some v => truthy v | None => false end.

(** ** The cycle *)

(** The local variables of the cycle. *)
Record cycle := mkCycle {
  cy_pending : Z;
  cy_unknown : Z;
  cy_confirmed : Z;
  cy_cancel_requested : Z;
  cy_review : bool;
  cy_actions : list OrderManagementAction;
}.

Definition new_cycle : cycle := mkCycle 0 0 0 0 false [].
Definition count_pending (c : cycle) : cycle :=
  mkCycle (cy_pending c + 1) (cy_unknown c) (cy_confirmed c) (cy_cancel_requested c) (cy_review c) (cy_actions c).
Definition count_confirmed (c : cycle) : cycle :=
  mkCycle (cy_pending c) (cy_unknown c) (cy_confirmed c + 1) (cy_cancel_requested c) (cy_review c) (cy_actions c).
Definition count_unknown (a : OrderManagementAction) (c : cycle) : cycle :=
  mkCycle (cy_pending c) (cy_unknown c + 1) (cy_confirmed c) (cy_cancel_requested c) true (cy_actions c ++ [a]).
Definition count_cancel (a : OrderManagementAction) (c : cycle) : cycle :=
  mkCycle (cy_pending c + 1) (cy_unknown c) (cy_confirmed c) (cy_cancel_requested c + 1) (cy_review c) (cy_actions c ++ [a]).

(** [SELECT * FROM broker_orders WHERE status NOT IN (terminal) ORDER BY ...] *)
Definition open_orders (d : db) : list broker_order :=
  List.filter (fun o => negb (mem_str (bo_status o) TERMINAL_STATUSES))
    (rows_by bo_created_at bo_client_order_id (t_broker_orders d)).

Section Management.
Context {W : Type} {BW : Broker W}.
Variable calendar : option (Z -> bool).

(** [_block_new_entries] *)
Definition block_new_entries (reason : string) : stm (sys W) unit :=
  _ ← set_metadata_now "operator_review" "true" None;
  _ ← set_metadata_now "block_new_entries" "true" None;
  _ ← set_metadata_now "order_management.last_reason" reason None;
  mret tt.

(** [_mark_unknown] *)
Definition mark_unknown (client_id reason : string) (now : datetime) : stm (sys W) unit :=
  _ ← on_db (mark_order_unknown client_id (Some reason) (Some now));
  block_new_entries reason.

(** [_store_pending_marker] *)
Definition store_pending_marker (client_id : string) (bar_key : option string) (now : datetime) : stm (sys W) string :=
  set_metadata_now (pending_key client_id)
    (dumps (JObj [("bar_key", match bar_key with Some k => JStr k | None => JNull end);
                  ("requested_at", JStr (isoformat now))])) (Some now).

Definition broker_update (now : datetime) (b : KisOrderStatusRecord) (completed : option datetime) : status_update :=
  mkStatusUpdate (Some (sr_order_number b)) (Some (sr_filled_quantity b)) (sr_average_fill_price b) None (Some now) completed.

(** [_reconcile_pending_marker]: whether the cancellation is confirmed. *)
Definition reconcile_pending_marker (local : broker_order) (broker : option KisOrderStatusRecord) (now : datetime)
    (marker : dict json) : stm (sys W) bool :=
  let client_id := bo_client_order_id local in
  match broker with
  | None => mret false
  | Some b =>
      if marker_invalid marker then mret false
      else
        match sr_status b with
        | CANCELLED | FILLED | REJECTED =>
            let status := match sr_status b with CANCELLED => "CANCELLED" | FILLED => "FILLED" | _ => "REJECTED" end in
            _ ← on_db (update_broker_order_status client_id status (broker_update now b (Some now)));
            _ ← set_metadata_now (confirmed_key (bo_symbol local))
                  (dumps (JObj [("bar_key", or_else (dget "bar_key" marker) JNull); ("client_order_id", JStr client_id)]))
                  (Some now);
            _ ← set_metadata_now (pending_key client_id) "confirmed" (Some now);
            mret true
        | _ =>
            _ ← on_db (update_broker_order_status client_id "CANCEL_PENDING" (broker_update now b None));
            mret false
        end
  end.

(** [int(broker.order_price or float(local["requested_price"]))] *)
Definition cancel_price (local : broker_order) (b : KisOrderStatusRecord) : res Z :=
  int_of_float (match sr_order_price b with
                | Some p => if (p =? fzero)%F then bo_requested_price local else p
                | None => bo_requested_price local
                end).

(** The body of the [try]: persist, cancel once, mark. *)
Definition request_cancel (local : broker_order) (b : KisOrderStatusRecord) (bar_key : option string) (now : datetime)
    : stm (sys W) unit :=
  let client_id := bo_client_order_id local in
  order_price ← lift_res (cancel_price local b);
  _ ← on_db (update_broker_order_status client_id "CANCEL_PENDING" (broker_update now b None));
  _ ← call_cancel (mkCancelRequest (sr_order_number b) (or_else (sr_order_branch b) "") (sr_remaining_quantity b) order_price);
  _ ← store_pending_marker client_id bar_key now;
  mret tt.

Definition mark_and_report (local : broker_order) (reason action_reason : string) (now : datetime) (c : cycle) : stm (sys W) cycle :=
  _ ← mark_unknown (bo_client_order_id local) reason now;
  mret (count_unknown (mkAction (bo_client_order_id local) (bo_symbol local) "UNKNOWN" action_reason 0) c).

(** One iteration of the loop over the open orders. *)
Definition manage_order (orders : list KisOrderStatusRecord) (policy : OrderManagementConfig)
    (bar_key : option string) (now : datetime) (c : cycle) (local : broker_order) : stm (sys W) cycle :=
  let client_id := bo_client_order_id local in
  marker ← query (pending_marker client_id);
  let broker := dget (or_else (bo_broker_order_id local) "") (by_broker_id orders) in
  match marker : option (dict json) with
  | Some m =>
      confirmed ← reconcile_pending_marker local broker now m;
      mret (if confirmed : bool then count_confirmed c else count_pending c)
  | None =>
      if mem_str (bo_status local) DO_NOT_RECALL_STATUSES
      then mret (if String.eqb (bo_status local) "CANCEL_PENDING" then count_pending c else c)
      else if negb (mem_str (bo_status local) ACTIVE_STATUSES) then mret c
      else if sempty (strip (or_else (bo_broker_order_id local) ""))
      then mark_and_report local "missing_order_number" "missing_order_number" now c
      else
        match broker with
        | None => mret c
        | Some b =>
            if negb (bool_decide (sr_status b = UNFILLED) || bool_decide (sr_status b = PARTIALLY_FILLED)) then mret c
            else if negb (same_order local b)
            then mark_and_report local "order_identity_missing_or_mismatch" "identity_mismatch" now c
            else
              let '(stale, reason) := is_stale calendar local now policy in
              if negb stale then mret c
              else
                match invalid_cancel_field b with
                | Some v => mark_and_report local v v now c
                | None =>
                    outcome ← attempt (request_cancel local b bar_key now);
                    match outcome : res unit with
                    | Ok _ => mret (count_cancel (mkAction client_id (bo_symbol local) "CANCEL_PENDING" reason
                                                    (sr_remaining_quantity b)) c)
                    | Err e => mark_and_report local ("cancel_ambiguous:" +:+ exn_name e) "cancel_ambiguous" now c
                    end
                end
        end
  end.

Definition unavailable_report : OrderManagementReport :=
  mkManagementReport 0 0 0 0 0 true true [mkAction "" "" "UNKNOWN" "order_status_unavailable" 0].

Definition manage_stale_orders (current_time : option datetime) (config : option OrderManagementConfig)
    (entry_bar_key : option string) (broker_orders : option (list KisOrderStatusRecord))
    (broker_orders_error : option exn) : stm (sys W) OrderManagementReport :=
  now ← (match current_time with Some t => mret t | None => read_clock end);
  let policy := or_else config default_management_config in
  match broker_orders_error with
  | Some e => _ ← block_new_entries ("order_status_unavailable:" +:+ exn_name e); mret unavailable_report
  | None =>
      answer ← (match broker_orders with
                | Some l => mret (Ok l)
                | None => attempt (on_world today_orders)
                end);
      match answer : res (list KisOrderStatusRecord) with
      | Err e => _ ← block_new_entries ("order_status_unavailable:" +:+ exn_name e); mret unavailable_report
      | Ok orders =>
          rows ← query open_orders;
          c ← foldM (manage_order orders policy entry_bar_key now) new_cycle rows;
          _ ← (if cy_review c : bool then block_new_entries "order_management_operator_review" else mret tt);
          mret (mkManagementReport (Z.of_nat (length rows)) (cy_cancel_requested c) (cy_pending c) (cy_unknown c)
            (cy_confirmed c) (cy_review c) (cy_review c || (0 <? cy_pending c)) (cy_actions c))
      end
  end.

(** ** Entries after a cancellation *)

Definition unresolved (symbol : string) (d : db) : bool :=
  existsb (fun kv => String.eqb (bo_symbol kv.2) symbol &&
    mem_str (bo_status kv.2) ["INTENT"; "SUBMITTING"; "ACKNOWLEDGED"; "PARTIALLY_FILLED"; "CANCEL_PENDING"; "UNKNOWN"])
    (map_to_list (t_broker_orders d)).

(** [payload.get] of a value that is no object is an [AttributeError], which is
    not caught. *)
Definition can_re_evaluate_entry (symbol bar_key : string) (d : db) : res EntryReevaluationState :=
  if unresolved symbol d then Ok (mkReevaluation false "unresolved_order" None)
  else
    match get_metadata (confirmed_key symbol) d with
    | None => Ok (mkReevaluation true "no_unresolved_order" None)
    | Some marker =>
        if sempty marker then Ok (mkReevaluation true "no_unresolved_order" None)
        else match loads marker with
             | None => Ok (mkReevaluation false "invalid_confirmation_state" None)
             | Some (JObj payload) =>
                 let confirmed_bar := or_else (dget "bar_key" payload) JNull in
                 if match confirmed_bar with JStr k => String.eqb k bar_key | _ => false end
                 then Ok (mkReevaluation false "same_bar_after_cancel" (Some confirmed_bar))
                 else Ok (mkReevaluation true "cancel_confirmed_new_bar" (Some confirmed_bar))
             | Some _ => Err (OtherError "AttributeError")
             end
    end.

(** ** What a sound cancellation is *)

(** A cancellation marker stands for the order. *)
Definition marked (id : string) (d : db) : Prop := pending_marker id d <> None.

(** The request [q], made with the database [d], for the local order [local]
    and its row [b] among the [orders] read of the broker. *)
Record cancel_sound (now : datetime) (policy : OrderManagementConfig) (orders : list KisOrderStatusRecord)
    (local : broker_order) (b : KisOrderStatusRecord) (q : cancel_request) (d : db) : Prop := {
  cs_active : bo_status local ∈ ACTIVE_STATUSES;
  cs_row : b ∈ orders /\ bo_broker_order_id local = Some (sr_order_number b) /\ dget (sr_order_number b) (by_broker_id orders) = Some b;
  cs_working : sr_status b = UNFILLED \/ sr_status b = PARTIALLY_FILLED;
  cs_same : same_order local b = true;
  cs_stale : (is_stale calendar local now policy).1 = true;
  cs_number : cq_order_number q = sr_order_number b;
  cs_branch : sr_order_branch b = Some (cq_order_branch q) /\ cq_order_branch q <> "";
  cs_quantity : cq_quantity q = sr_remaining_quantity b /\ 0 < cq_quantity q;
  cs_price : cancel_price local b = Ok (cq_order_price q);
  cs_unmarked : ~ marked (bo_client_order_id local) d;
  cs_persisted : sr_filled_quantity b <= bo_requested_qty local -> exists o,
    get_order (bo_client_order_id local) d = Some o /\ bo_status o = "CANCEL_PENDING";
}.

(** ** Metadata that stands *)

Definition meta_kept (d d' : db) : Prop :=
  (forall id, marked id d -> marked id d') /\
  (get_metadata "block_new_entries" d = Some "true" -> get_metadata "block_new_entries" d' = Some "true").

Definition mgmt_rel (ids : list string) (d d' : db) : Prop := ledger_frame ids d d' /\ meta_kept d d'.

#[export] Instance meta_kept_preorder : PreOrder meta_kept.
Proof. split; [by split|]. intros a b c [H1 H2] [H3 H4]. split; auto. Qed.

#[export] Instance mgmt_rel_preorder ids : PreOrder (mgmt_rel ids).
Proof.
  split; [by split|]. intros a b c [H1 H2] [H3 H4]. split; [by eapply ledger_frame_preorder|by etrans].
Qed.

(** A text that reads as a marker. *)
Definition markerish (v : string) : Prop := sempty v = false /\ forall x, loads v = Some x -> exists o, x = JObj o.

Lemma markerish_marked id v ts d : markerish v -> marked id (put_metadata (pending_key id) v ts d).
Proof.
  intros [Hv Hl]. unfold marked, pending_marker. rewrite metadata_put_get, Hv.
  destruct (loads v) as [x|]; [|done]. by destruct (Hl x eq_refl) as [o ->].
Qed.

Lemma meta_kept_put k v ts d :
  k <> "block_new_entries" \/ v = "true" -> (forall id, k <> pending_key id) \/ markerish v ->
  meta_kept d (put_metadata k v ts d).
Proof.
  intros Hk Hp. split.
  - intros id Hm. destruct (decide (k = pending_key id)) as [->|Hne].
    + destruct Hp as [Hp|Hp]; [by destruct (Hp id)|by apply markerish_marked].
    + revert Hm. unfold marked, pending_marker. by rewrite (metadata_put_other k).
  - intros H. destruct (decide (k = "block_new_entries")) as [->|Hne].
    + rewrite metadata_put_get. destruct Hk as [Hk| ->]; done.
    + by rewrite metadata_put_other.
Qed.

Lemma meta_kept_same d d' : t_runtime_metadata d' = t_runtime_metadata d -> meta_kept d d'.
Proof. intros E. unfold meta_kept, marked, pending_marker, get_metadata. by rewrite E. Qed.

Lemma status_metadata c st u clock d b d' :
  update_broker_order_status c st u clock d = Ok (b, d') -> t_runtime_metadata d' = t_runtime_metadata d.
Proof.
  unfold update_broker_order_status. intros H. inv_ok.
  match goal with H : update_where _ _ _ _ = _ |- _ => apply update_where_Ok in H as [[_ ->]|(o & _ & _ & _ & ->)] end; done.
Qed.

Lemma unknown_metadata c e at_ clock d b d' :
  mark_order_unknown c e at_ clock d = Ok (b, d') -> t_runtime_metadata d' = t_runtime_metadata d.
Proof.
  unfold mark_order_unknown. intros H. inv_ok.
  match goal with H : update_where _ _ _ _ = _ |- _ => apply update_where_Ok in H as [[_ ->]|(o & _ & _ & _ & ->)] end; done.
Qed.

Lemma set_metadata_rel ids k v at_ :
  k <> "block_new_entries" \/ v = "true" -> (forall id, k <> pending_key id) \/ markerish v ->
  keeps (on_dbs (mgmt_rel ids)) (set_metadata_now (W := W) k v at_).
Proof.
  intros Hk Hp. apply dbs_on_db; [exact _|]. intros now d t d' E. split.
  - apply only_metadata_ledger. by eapply metadata_only.
  - unfold set_runtime_metadata in E. inv_ok. cbv zeta in *. inv_ok. by apply meta_kept_put.
Qed.

Lemma pending_key_inj a b : pending_key a = pending_key b -> a = b.
Proof. unfold pending_key. intros E. by apply (inj (String.append "order_management.pending.")) in E. Qed.

Lemma confirmed_not_pending sym id : confirmed_key sym <> pending_key id.
Proof. intros E. cbv [confirmed_key pending_key String.append] in E. discriminate. Qed.

Lemma confirmed_markerish : markerish "confirmed".
Proof. split; [done|]. intros x E. by vm_compute in E. Qed.

Lemma dumps_markerish o : markerish (dumps (JObj o)).
Proof. split; [done|]. intros x. apply loads_brace. Qed.

(** ** Frames of the cycle *)

Lemma block_rel ids reason : keeps (on_dbs (mgmt_rel ids)) (block_new_entries reason).
Proof.
  unfold block_new_entries. repeat (apply keeps_bind; [exact _| |intros _]).
  all: try apply keeps_ret, _; apply set_metadata_rel; auto; left; intros ? E; cbv [pending_key String.append] in E; discriminate.
Qed.

Lemma mark_unknown_rel id reason now : keeps (on_dbs (mgmt_rel [id])) (mark_unknown id reason now).
Proof.
  unfold mark_unknown. apply keeps_bind; [exact _| |intros _; apply block_rel].
  apply dbs_on_db; [exact _|]. intros. split; [by eapply unknown_frame|]. by eapply meta_kept_same, unknown_metadata.
Qed.

Lemma update_rel id st u : keeps (on_dbs (mgmt_rel [id])) (on_db (update_broker_order_status id st u)).
Proof.
  apply dbs_on_db; [exact _|]. intros. split; [by eapply status_frame|]. by eapply meta_kept_same, status_metadata.
Qed.

Lemma reconcile_pending_marker_rel local broker now m :
  keeps (on_dbs (mgmt_rel [bo_client_order_id local])) (reconcile_pending_marker local broker now m).
Proof.
  unfold reconcile_pending_marker. destruct broker as [b|]; [|apply keeps_ret, _].
  destruct (marker_invalid m); [apply keeps_ret, _|].
  destruct (sr_status b); (apply keeps_bind; [exact _|apply update_rel|intros _]); try apply keeps_ret, _.
  all: apply keeps_bind; [exact _| |intros _].
  all: try (apply set_metadata_rel; [by left|left; apply confirmed_not_pending]).
  all: apply keeps_bind; [exact _| |intros _; apply keeps_ret, _].
  all: apply set_metadata_rel; [by left|right; apply confirmed_markerish].
Qed.

Lemma request_cancel_rel local b bar now :
  keeps (on_dbs (mgmt_rel [bo_client_order_id local])) (request_cancel local b bar now).
Proof.
  unfold request_cancel. apply keeps_bind; [exact _|apply keeps_lift, _|intros price].
  apply keeps_bind; [exact _|apply update_rel|intros _].
  apply keeps_bind; [exact _|apply dbs_broker_write, _|intros _].
  apply keeps_bind; [exact _| |intros _; apply keeps_ret, _].
  apply set_metadata_rel; [by left|right; apply dumps_markerish].
Qed.

Lemma mark_and_report_rel local r a now c : keeps (on_dbs (mgmt_rel [bo_client_order_id local])) (mark_and_report local r a now c).
Proof. unfold mark_and_report. apply keeps_bind; [exact _|apply mark_unknown_rel|intros _; apply keeps_ret, _]. Qed.

Lemma manage_order_rel orders policy bar now c local :
  keeps (on_dbs (mgmt_rel [bo_client_order_id local])) (manage_order orders policy bar now c local).
Proof.
  unfold manage_order. apply keeps_bind; [exact _|apply keeps_query, _|]. intros [m|].
  - apply keeps_bind; [exact _|apply reconcile_pending_marker_rel|intros; apply keeps_ret, _].
  - repeat match goal with
    | |- keeps _ (if ?x then _ else _) => destruct x
    | |- keeps _ (match ?x with Some _ => _ | None => _ end) => destruct x
    | |- keeps _ (let '(_, _) := ?x in _) => destruct x
    end; try apply keeps_ret, _; try apply mark_and_report_rel.
    apply keeps_bind; [exact _|apply keeps_attempt, request_cancel_rel|].
    intros [[]|e]; [apply keeps_ret, _|apply mark_and_report_rel].
Qed.

(** ** One order, its call and what it leaves *)

(** After its cancellation an order is marked, or UNKNOWN with entries blocked. *)
Definition ended (local : broker_order) (d : db) : Prop :=
  marked (bo_client_order_id local) d \/
  (exists o, get_order (bo_client_order_id local) d = Some o /\ bo_status o = "UNKNOWN") /\
  get_metadata "block_new_entries" d = Some "true".

Lemma block_run reason (s : sys W) : exists s', block_new_entries reason s = (Ok tt, s') /\
  get_metadata "block_new_entries" (s_db s') = Some "true" /\ t_broker_orders (s_db s') = t_broker_orders (s_db s).
Proof.
  unfold block_new_entries.
  destruct (set_metadata_success "operator_review" "true" None s) as (t1 & w1 & E1); [done|].
  rewrite (stm_bind_run _ _ _ _ _ E1).
  match type of E1 with _ = (_, ?s1) =>
    destruct (set_metadata_success "block_new_entries" "true" None s1) as (t2 & w2 & E2); [done|] end.
  rewrite (stm_bind_run _ _ _ _ _ E2).
  match type of E2 with _ = (_, ?s1) =>
    destruct (set_metadata_success "order_management.last_reason" reason None s1) as (t3 & w3 & E3); [done|] end.
  rewrite (stm_bind_run _ _ _ _ _ E3). eexists. split; [done|]. split; [|done].
  cbn [s_db]. rewrite metadata_put_other by done. apply metadata_put_get.
Qed.

Lemma unknown_run id reason now (s : sys W) o :
  sempty (strip id) = false -> sempty (strip reason) = false -> get_order id (s_db s) = Some o -> exists s1 o1,
  on_db (mark_order_unknown id (Some reason) (Some now)) s = (Ok true, s1) /\
  get_order id (s_db s1) = Some o1 /\ bo_status o1 = "UNKNOWN".
Proof.
  intros Hid Hr Ho. unfold on_db. destruct (wall_clock (s_world s)) as [t w].
  unfold mark_order_unknown, when_some, require_nonempty. rewrite Hid, Hr. cbn. unfold update_where. rewrite Ho.
  eexists _, _. split; [done|]. cbn [s_db]. unfold get_order. rewrite orders_put, lookup_insert_eq. done.
Qed.

Lemma mark_and_report_ended local reason a now c (s : sys W) o :
  sempty (strip (bo_client_order_id local)) = false -> sempty (strip reason) = false ->
  get_order (bo_client_order_id local) (s_db s) = Some o ->
  ended local (s_db (mark_and_report local reason a now c s).2).
Proof.
  intros Hid Hr Ho. right. unfold mark_and_report, mark_unknown.
  destruct (unknown_run _ reason now s o Hid Hr Ho) as (s1 & o1 & E1 & Ho1 & Hst). destruct (block_run reason s1) as (s2 & E2 & Hb & Hor).
  rewrite (stm_bind_run _ _ s tt s2); [|by rewrite (stm_bind_run _ _ _ _ _ E1)]. split; [|exact Hb].
  exists o1. split; [|done]. unfold get_order in *. cbn [snd mret stm_ret]. by rewrite Hor.
Qed.

(** ** Which operations are quiet at the broker *)

Lemma block_quiet reason : keeps same_trace (block_new_entries reason).
Proof. unfold block_new_entries. repeat (apply keeps_bind; [exact _|apply quiet_on_db|intros _]). apply keeps_ret, _. Qed.

Lemma mark_and_report_quiet local r a now c : keeps same_trace (mark_and_report local r a now c).
Proof.
  unfold mark_and_report, mark_unknown. apply keeps_bind; [exact _| |intros _; apply keeps_ret, _].
  apply keeps_bind; [exact _|apply quiet_on_db|intros _; apply block_quiet].
Qed.

Lemma reconcile_pending_marker_quiet local broker now m :
  keeps same_trace (reconcile_pending_marker local broker now m).
Proof.
  unfold reconcile_pending_marker. destruct broker as [b|]; [|apply keeps_ret, _].
  destruct (marker_invalid m); [apply keeps_ret, _|].
  destruct (sr_status b); repeat (apply keeps_bind; [exact _|apply quiet_on_db|intros _]); apply keeps_ret, _.
Qed.

Lemma status_nonempty c st u clock d r :
  update_broker_order_status c st u clock d = Ok r -> sempty (strip c) = false.
Proof.
  unfold update_broker_order_status. intros H. apply bind_Ok in H as ([] & H & _).
  by apply raise_if_Ok in H.
Qed.

Lemma request_cancel_run local b bar now (s : sys W) :
  ledger_ok (s_db s) -> get_order (bo_client_order_id local) (s_db s) = Some local ->
  let '(r, s') := request_cancel local b bar now s in
  (s_trace s' = s_trace s /\ exists e, r = Err e) \/
  exists price d o, s_trace s' = s_trace s ++ [(CancelCall (mkCancelRequest (sr_order_number b)
      (or_else (sr_order_branch b) "") (sr_remaining_quantity b) price), d)] /\
    t_runtime_metadata d = t_runtime_metadata (s_db s) /\
    (sr_filled_quantity b <= bo_requested_qty local -> exists o,
       get_order (bo_client_order_id local) d = Some o /\ bo_status o = "CANCEL_PENDING") /\
    sempty (strip (bo_client_order_id local)) = false /\ cancel_price local b = Ok price /\
    get_order (bo_client_order_id local) (s_db s') = Some o /\ (r = Ok tt -> marked (bo_client_order_id local) (s_db s')).
Proof.
  intros Hd Ho. destruct (request_cancel local b bar now s) as [r s'] eqn:E. unfold request_cancel in E.
  unfold mbind at 1, stm_bind at 1, lift_res at 1 in E. destruct (cancel_price local b) as [price|e] eqn:Eprice;
    [|left; injection E as <- <-; eauto].
  unfold mbind at 1, stm_bind at 1 in E.
  destruct (on_db (update_broker_order_status (bo_client_order_id local) "CANCEL_PENDING" (broker_update now b None)) s)
    as [[u|e] s1] eqn:E1.
  2: { left. injection E as <- <-. split; [|eauto].
       pose proof (quiet_on_db (update_broker_order_status (bo_client_order_id local) "CANCEL_PENDING" (broker_update now b None)) s) as H.
       rewrite E1 in H. exact H. }
  apply on_db_Ok in E1 as [E1 Ht1]. right. exists price, (s_db s1).
  assert (Hex : exists o, get_order (bo_client_order_id local) (s_db s1) = Some o).
  { unfold update_broker_order_status in E1. inv_ok.
    match goal with H : update_where _ _ _ _ = _ |- _ => apply update_where_Ok in H as [[_ ->]|(o & _ & _ & _ & ->)] end.
    - by exists local.
    - eexists. unfold get_order. rewrite orders_put. apply lookup_insert_eq. }
  destruct Hex as [o Ho1]. exists o.
  assert (Hcommon : t_runtime_metadata (s_db s1) = t_runtime_metadata (s_db s) /\
    (sr_filled_quantity b <= bo_requested_qty local -> exists o,
       get_order (bo_client_order_id local) (s_db s1) = Some o /\ bo_status o = "CANCEL_PENDING") /\
    sempty (strip (bo_client_order_id local)) = false).
  { split; [by eapply status_metadata|]. split; [|by eapply status_nonempty].
    intros Hle. eapply status_effect in E1 as (o' & ? & _ & ?); [|exact Ho|reflexivity|exact Hle]. by exists o'. }
  destruct Hcommon as (Hm & Hp & Hne). rewrite <- Ht1. unfold mbind at 1, stm_bind at 1, call_cancel, broker_write in E.
  destruct (cancel_at_broker _ (s_world s1)) as [[cr|e] w2].
  - unfold store_pending_marker in E.
    destruct (set_metadata_success (pending_key (bo_client_order_id local))
      (dumps (JObj [("bar_key", match bar with Some k => JStr k | None => JNull end); ("requested_at", JStr (isoformat now))]))
      (Some now) (mkSys (s_db s1) w2 (s_trace s1 ++ [(CancelCall (mkCancelRequest (sr_order_number b)
        (or_else (sr_order_branch b) "") (sr_remaining_quantity b) price), s_db s1)]))) as (ts & w3 & E3);
      [by apply strip_head|].
    rewrite (stm_bind_run _ _ _ _ _ E3) in E. injection E as <- <-. cbn [s_trace s_db].
    split_and!; try done. intros _. apply markerish_marked. split; [reflexivity|]. intros x. apply loads_brace.
  - injection E as <- <-. cbn [s_trace s_db]. split_and!; try done.
Qed.

Lemma manage_order_run orders policy bar now c local (s : sys W) :
  ledger_ok (s_db s) -> get_order (bo_client_order_id local) (s_db s) = Some local ->
  let s' := (manage_order orders policy bar now c local s).2 in
  s_trace s' = s_trace s \/
  exists b q d, s_trace s' = s_trace s ++ [(CancelCall q, d)] /\ cancel_sound now policy orders local b q d /\
    ~ marked (bo_client_order_id local) (s_db s) /\ ended local (s_db s').
Proof.
  intros Hd Ho. cbv zeta. unfold manage_order. rewrite (stm_bind_run _ _ s (pending_marker (bo_client_order_id local) (s_db s)) s) by done.
  destruct (pending_marker (bo_client_order_id local) (s_db s)) as [m|] eqn:Em.
  { left. apply (keeps_bind same_trace); [apply reconcile_pending_marker_quiet|intros; apply keeps_ret, _]. }
  assert (Hum : ~ marked (bo_client_order_id local) (s_db s)) by (intros Hx; by apply Hx).
  destruct (mem_str (bo_status local) DO_NOT_RECALL_STATUSES); [by left|].
  destruct (mem_str (bo_status local) ACTIVE_STATUSES) eqn:Ea; cbn [negb]; [|by left].
  destruct (sempty (strip _)); [left; apply mark_and_report_quiet|].
  destruct (dget _ (by_broker_id orders)) as [b|] eqn:Eb; [|by left].
  destruct (bool_decide _ || bool_decide _) eqn:Est; cbn [negb]; [|by left].
  destruct (same_order local b) eqn:Esame; cbn [negb]; [|left; apply mark_and_report_quiet].
  destruct (is_stale calendar local now policy) as [stale reason] eqn:Estale.
  destruct stale; cbn [negb]; [|by left].
  destruct (invalid_cancel_field b) as [v|] eqn:Ev; [left; apply mark_and_report_quiet|].
  pose proof (request_cancel_run local b bar now s Hd Ho) as Hrun. unfold mbind, stm_bind, attempt.
  destruct (request_cancel local b bar now s) as [r s1]. destruct Hrun as [[Ht [e ->]]|(price & d & o & Ht & Hm & Hp & Hne & Hpr & Ho1 & Hmk)].
  { left. rewrite <- Ht. apply mark_and_report_quiet. }
  pose proof Eb as Eb'. apply by_broker_id_spec in Eb as (Hin & Hnum & Hnn).
  destruct (bo_broker_order_id local) as [bid|] eqn:Hbid; cbn in Hnum, Hnn; [|done]. subst bid. cbn [or_else] in Eb'.
  assert (Hs : cancel_sound now policy orders local b (mkCancelRequest (sr_order_number b) (or_else (sr_order_branch b) "")
    (sr_remaining_quantity b) price) d).
  { unfold invalid_cancel_field in Ev. destruct (sempty (sr_order_number b)); [done|].
    destruct (sr_order_branch b) as [br|] eqn:Ebr; [|done]. destruct (sempty br) eqn:Ebs; [done|].
    destruct (Z.leb_spec (sr_remaining_quantity b) 0); [done|].
    split; cbn; try done.
    - by apply mem_str_true.
    - apply orb_true_iff in Est as [Est|Est]; apply bool_decide_eq_true in Est; auto.
    - by rewrite Estale.
    - split; [done|]. intros ->. done.
    - unfold marked, pending_marker, get_metadata. rewrite Hm. exact Hum. }
  right. exists b, (mkCancelRequest (sr_order_number b) (or_else (sr_order_branch b) "") (sr_remaining_quantity b) price), d.
  destruct r as [[]|e].
  - cbn [snd mret stm_ret]. split; [exact Ht|]. split; [exact Hs|]. split; [exact Hum|]. left. by apply Hmk.
  - split; [|split; [exact Hs|split; [exact Hum|]]].
    + rewrite <- Ht. apply mark_and_report_quiet.
    + eapply mark_and_report_ended; [exact Hne| |exact Ho1]. by apply strip_head.
Qed.

(** ** The whole cycle *)

(** A cancellation of a cycle: the local order, its row at the broker, the
    request and the database it was made with. *)
Record cancellation := mkCancellation {
  ca_local : broker_order;
  ca_row : KisOrderStatusRecord;
  ca_request : cancel_request;
  ca_db : db;
}.

Definition ca_id (c : cancellation) : string := bo_client_order_id (ca_local c).
Definition ca_call (c : cancellation) : broker_call * db := (CancelCall (ca_request c), ca_db c).

Definition ca_ok now policy orders (rows : list broker_order) (d d' : db) (c : cancellation) : Prop :=
  ca_local c ∈ rows /\ cancel_sound now policy orders (ca_local c) (ca_row c) (ca_request c) (ca_db c) /\
  ~ marked (ca_id c) d /\ ended (ca_local c) d'.

Lemma ended_kept local ids d d' :
  ledger_ok d -> mgmt_rel ids d d' -> bo_client_order_id local ∉ ids -> ended local d -> ended local d'.
Proof.
  intros Hd [Hf [Hm Hb]] Hn [H|[(o & Ho & Hst) H]]; [left; by apply Hm|right]. split; [|by apply Hb].
  exists o. split; [|done]. destruct (Hf Hd) as [_ Ht]. by rewrite (tc_orders _ _ _ Ht).
Qed.

Lemma mgmt_rel_mono ids ids' d d' : ids ⊆ ids' -> mgmt_rel ids d d' -> mgmt_rel ids' d d'.
Proof. intros Hs [H1 H2]. split; [by eapply ledger_frame_mono|done]. Qed.

(** A loop over distinct orders, each step of which cancels at most its own. *)
Lemma cancel_loop_run {C} (step : C -> broker_order -> stm (sys W) C) (ok_at : db -> cancellation -> Prop) :
  (forall ids d d' e, mgmt_rel ids d d' -> ok_at d' e -> ok_at d e) ->
  (forall c x, keeps (on_dbs (mgmt_rel [bo_client_order_id x])) (step c x)) ->
  (forall c x s, ledger_ok (s_db s) -> get_order (bo_client_order_id x) (s_db s) = Some x ->
     s_trace (step c x s).2 = s_trace s \/
     exists e, ca_local e = x /\ s_trace (step c x s).2 = s_trace s ++ [ca_call e] /\ ok_at (s_db s) e /\
       ended x (s_db (step c x s).2)) ->
  forall l c (s : sys W), ledger_ok (s_db s) -> NoDup (map bo_client_order_id l) ->
  (forall x, x ∈ l -> get_order (bo_client_order_id x) (s_db s) = Some x) ->
  let s' := (foldM step c l s).2 in
  mgmt_rel (map bo_client_order_id l) (s_db s) (s_db s') /\
  exists cs, s_trace s' = s_trace s ++ map ca_call cs /\ NoDup (map ca_id cs) /\
    forall e, e ∈ cs -> ca_local e ∈ l /\ ok_at (s_db s) e /\ ended (ca_local e) (s_db s').
Proof.
  intros Hback Hrels Hruns. induction l as [|y l IH]; intros c s Hd Hnd Hg; cbn zeta.
  { split; [done|]. exists []. rewrite app_nil_r. split_and!; [done|constructor|]. intros e He. by apply elem_of_nil in He. }
  cbn [map] in *. apply list.NoDup_cons in Hnd as [Hy Hnd].
  pose proof (Hrels c y s) as Hrel. unfold on_dbs in Hrel.
  pose proof (Hruns c y s Hd (Hg y (list_elem_of_here _ _))) as Hrun.
  cbn [foldM]. unfold mbind, stm_bind. destruct (step c y s) as [[c1|e] s1]; cbn [snd] in *.
  - assert (Hd1 : ledger_ok (s_db s1)) by (by apply Hrel).
    assert (Hg1 : forall x, x ∈ l -> get_order (bo_client_order_id x) (s_db s1) = Some x).
    { intros x Hx. rewrite (tc_orders _ _ _ (proj2 (proj1 Hrel Hd))); [apply Hg; by apply list_elem_of_further|].
      intros Hin. apply list_elem_of_singleton in Hin. apply Hy. rewrite <- Hin. apply list_elem_of_fmap. by exists x. }
    destruct (IH c1 s1 Hd1 Hnd Hg1) as (Hrel2 & cs & Ht & Hcs & Hok).
    assert (Hids : forall e, e ∈ cs -> ca_id e ∈ map bo_client_order_id l).
    { intros e He. destruct (Hok e He) as (Hin & _). apply list_elem_of_fmap. by exists (ca_local e). }
    split; [etrans; [eapply mgmt_rel_mono; [|exact Hrel]|eapply mgmt_rel_mono; [|exact Hrel2]]; set_solver|].
    assert (Hok' : forall e, e ∈ cs -> ca_local e ∈ y :: l /\ ok_at (s_db s) e /\ ended (ca_local e) (s_db (foldM step c1 l s1).2)).
    { intros e He. destruct (Hok e He) as (H1 & H2 & H3). split; [by apply list_elem_of_further|]. split; [by eapply Hback|done]. }
    destruct Hrun as [E|(e & Hl & E & Ha & He)].
    + exists cs. rewrite Ht, E. by split_and!.
    + exists (e :: cs). rewrite Ht, E, <- app_assoc. split; [done|]. split.
      * cbn [map]. constructor; [|done]. intros Hin. apply Hy.
        apply list_elem_of_fmap in Hin as (e' & Heq & Hin). apply Hids in Hin. rewrite <- Heq in Hin.
        unfold ca_id in Hin. by rewrite Hl in Hin.
      * intros x [->|Hin]%elem_of_cons; [|by apply Hok']. rewrite Hl. split; [apply list_elem_of_here|]. split; [done|].
        eapply ended_kept; [exact Hd1|exact Hrel2|exact Hy|exact He].
  - split; [eapply mgmt_rel_mono; [|exact Hrel]; set_solver|]. destruct Hrun as [E|(e' & Hl & E & Ha & He)].
    + exists []. rewrite app_nil_r. split_and!; [done|constructor|]. intros x Hx. by apply elem_of_nil in Hx.
    + exists [e']. split; [done|]. split; [apply NoDup_singleton|].
      intros x ->%list_elem_of_singleton. rewrite Hl. split; [apply list_elem_of_here|]. by split.
Qed.

Lemma manage_loop_run orders policy bar now l c (s : sys W) :
  ledger_ok (s_db s) -> NoDup (map bo_client_order_id l) ->
  (forall x, x ∈ l -> get_order (bo_client_order_id x) (s_db s) = Some x) ->
  let s' := (foldM (manage_order orders policy bar now) c l s).2 in
  mgmt_rel (map bo_client_order_id l) (s_db s) (s_db s') /\
  exists cs, s_trace s' = s_trace s ++ map ca_call cs /\ NoDup (map ca_id cs) /\
    forall e, e ∈ cs -> ca_ok now policy orders l (s_db s) (s_db s') e.
Proof.
  intros Hd Hnd Hg.
  destruct (cancel_loop_run (manage_order orders policy bar now)
    (fun d e => cancel_sound now policy orders (ca_local e) (ca_row e) (ca_request e) (ca_db e) /\ ~ marked (ca_id e) d))
    with (l := l) (c := c) (s := s) as (Hrel & cs & Ht & Hcs & Hok); try done.
  - intros ids d d' e [_ [Hm _]] [Hs Hn]. split; [done|]. intros Hx. by apply Hn, Hm.
  - intros. apply manage_order_rel.
  - intros c0 x s0 Hd0 Hx. destruct (manage_order_run orders policy bar now c0 x s0 Hd0 Hx) as [E|(b & q & d & E & Hs & Hm & He)];
      [by left|]. right. exists (mkCancellation x b q d). by split_and!.
  - split; [done|]. exists cs. split; [done|]. split; [done|]. intros e He. destruct (Hok e He) as (H1 & [H2 H3] & H4). by split_and!.
Qed.

Lemma open_rows d : ledger_ok d ->
  NoDup (map bo_client_order_id (open_orders d)) /\
  forall x, x ∈ open_orders d -> get_order (bo_client_order_id x) d = Some x.
Proof.
  intros Hd. split.
  - apply NoDup_map_filter, rows_by_NoDup. intros k o Hk. by apply (lo_orders _ Hd _ _ Hk).
  - intros x Hx. unfold open_orders in Hx. apply list_elem_of_In, filter_In in Hx as [Hx _].
    apply list_elem_of_In, elem_of_rows_by in Hx as [k Hk].
    unfold get_order. by rewrite (ok_id _ _ (lo_orders _ Hd _ _ Hk)).
Qed.

(** The time a cycle that starts in [s] works with, and the orders it works on:
    those it is given, else those it reads of the broker, or none when their
    reading failed. *)
Definition management_time (current_time : option datetime) (s : sys W) : datetime :=
  match current_time with Some t => t | None => (wall_clock (s_world s)).1 end.
Definition management_orders (current_time : option datetime) (broker_orders : option (list KisOrderStatusRecord))
    (broker_orders_error : option exn) (s : sys W) : option (list KisOrderStatusRecord) :=
  match broker_orders_error, broker_orders with
  | Some _, _ => None
  | None, Some l => Some l
  | None, None =>
      match (today_orders (match current_time with Some _ => s_world s | None => (wall_clock (s_world s)).2 end)).1 with
      | Ok l => Some l
      | Err _ => None
      end
  end.

(** What a cycle leaves: the database relation, and the cancellations. *)
Definition cycle_ok now policy (orders : option (list KisOrderStatusRecord)) (s s' : sys W) : Prop :=
  ledger_ok (s_db s') /\ meta_kept (s_db s) (s_db s') /\
  exists cs, s_trace s' = s_trace s ++ map ca_call cs /\ NoDup (map ca_id cs) /\
    forall e, e ∈ cs -> exists l, orders = Some l /\ ca_ok now policy l (open_orders (s_db s)) (s_db s) (s_db s') e.

Lemma quiet_cycle now policy orders (s s1 s' : sys W) :
  ledger_ok (s_db s) -> s_db s1 = s_db s -> s_trace s1 = s_trace s ->
  mgmt_rel [] (s_db s1) (s_db s') -> s_trace s' = s_trace s1 -> cycle_ok now policy orders s s'.
Proof.
  intros Hd E1 E2 [Hf Hm] E3. rewrite E1 in *. split; [by apply Hf|]. split; [done|]. exists [].
  rewrite app_nil_r. split_and!; [congruence|constructor|]. intros e He. by apply elem_of_nil in He.
Qed.

Lemma manage_run ct config bar os oe (s : sys W) : ledger_ok (s_db s) ->
  cycle_ok (management_time ct s) (or_else config default_management_config) (management_orders ct os oe s) s
    (manage_stale_orders ct config bar os oe s).2.
Proof.
  intros Hd. unfold manage_stale_orders.
  assert (Hnow : (match ct with Some t => mret t | None => read_clock end) s =
    (Ok (management_time ct s), mkSys (s_db s) (match ct with Some _ => s_world s | None => (wall_clock (s_world s)).2 end) (s_trace s))).
  { destruct ct as [t|]; [by destruct s|]. unfold read_clock, management_time. by destruct (wall_clock (s_world s)). }
  rewrite (stm_bind_run _ _ _ _ _ Hnow). clear Hnow. unfold management_orders. set (now := management_time ct s). set (w := match ct with Some _ => _ | None => _ end).
  set (policy := or_else config default_management_config).
  assert (Hblock : forall orders reason w, cycle_ok now policy orders s
    ((_ ← block_new_entries reason; mret unavailable_report) (mkSys (s_db s) w (s_trace s))).2).
  { intros orders reason w0. apply (quiet_cycle _ _ _ _ (mkSys (s_db s) w0 (s_trace s))); try done.
    - apply (keeps_bind (on_dbs (mgmt_rel []))); [apply block_rel|intros; apply keeps_ret, _].
    - apply (keeps_bind same_trace); [apply block_quiet|intros; apply keeps_ret, _]. }
  destruct oe as [e|]; [apply Hblock|].
  assert (Hans : exists w', (match os with Some l => mret (Ok l) | None => attempt (on_world today_orders) end)
    (mkSys (s_db s) w (s_trace s)) = (Ok (match os with Some l => Ok l | None => (today_orders w).1 end), mkSys (s_db s) w' (s_trace s))).
  { destruct os as [l|]; [by exists w|]. unfold attempt, on_world. cbn. destruct (today_orders w) as [r w']. by exists w'. }
  destruct Hans as (w' & Hans). rewrite (stm_bind_run _ _ _ _ _ Hans). clear Hans.
  destruct (match os with Some l => Ok l | None => (today_orders w).1 end) as [orders|e] eqn:Er.
  2: { destruct os as [l|]; [done|]. apply Hblock. }
  assert (Eo : match os with Some l => Some l | None => match (today_orders w).1 with Ok l => Some l | Err _ => None end end = Some orders).
  { destruct os as [l|]; [by injection Er as ->|]. by rewrite Er. }
  rewrite Eo. clear Eo Er.
  set (s1 := mkSys (s_db s) w' (s_trace s)). rewrite (stm_bind_run _ _ s1 (open_orders (s_db s)) s1) by done.
  destruct (open_rows _ Hd) as [Hnd Hg].
  destruct (manage_loop_run orders policy bar now (open_orders (s_db s)) new_cycle s1 Hd Hnd Hg) as (Hrel & cs & Ht & Hcs & Hok).
  unfold mbind at 1, stm_bind at 1. destruct (foldM _ new_cycle (open_orders (s_db s)) s1) as [[c|e] s2]; cbn [snd] in *.
  2: { split; [by apply Hrel|]. split; [apply Hrel|]. exists cs. split_and!; try done. intros e0 He0. exists orders. auto. }
  assert (Hend : forall m : stm (sys W) unit, (m = block_new_entries "order_management_operator_review" \/ m = mret tt) ->
    mgmt_rel [] (s_db s2) (s_db (m s2).2) /\ s_trace (m s2).2 = s_trace s2 /\ (m s2).1 = Ok tt).
  { intros m [->| ->]; [|by split_and!]. split; [apply block_rel|]. split; [apply block_quiet|].
    by destruct (block_run "order_management_operator_review" s2) as (s3 & -> & _). }
  unfold mbind, stm_bind.
  match goal with |- context [(if cy_review c then ?a else ?b) s2] =>
    destruct (Hend (if cy_review c then a else b)) as (H1 & H2 & H3); [by destruct (cy_review c); auto|];
    destruct ((if cy_review c then a else b) s2) as [[[]|e] s3] end; [|done].
  cbn [snd mret stm_ret] in *. destruct Hrel as [Hf Hm]. destruct (Hf Hd) as [Hd2 _]. destruct H1 as [Hf1 Hm1].
  split; [by apply Hf1|]. split; [by etrans|]. exists cs. split; [rewrite H2; exact Ht|]. split; [done|].
  intros e He. destruct (Hok e He) as (A1 & A2 & A3 & A4). exists orders. split; [done|]. split_and!; try done.
  eapply (ended_kept _ []); [exact Hd2|by split|apply not_elem_of_nil|done].
Qed.
End Management.

(** ** Properties *)

(** C10: every cancellation a cycle requests is sound, and no order is cancelled
    twice in one.  Whatever happens in the cycle, the calls it makes at the
    broker are cancellations of distinct local orders open at its start, each with
    status ACKNOWLEDGED or PARTIALLY_FILLED and no cancellation marker, matched by
    number, symbol and side with the order of the broker's list, as this cycle was
    given it or read it, that is still working there, and stale by the policy at
    the time of this cycle; the request carries that order's number, branch,
    positive remaining quantity and price; and before the call CANCEL_PENDING was
    persisted, unless the broker reports more shares filled than were requested. *)
Theorem cancellations_are_sound {W} {BW : Broker W} calendar ct config bar os oe (s : sys W) :
  ledger_ok (s_db s) ->
  let s' := (manage_stale_orders calendar ct config bar os oe s).2 in
  exists cs, s_trace s' = s_trace s ++ map ca_call cs /\ NoDup (map ca_id cs) /\
    forall e, e ∈ cs -> ca_local e ∈ open_orders (s_db s) /\ exists orders, management_orders ct os oe s = Some orders /\
      cancel_sound calendar (management_time ct s) (or_else config default_management_config) orders
        (ca_local e) (ca_row e) (ca_request e) (ca_db e).
Proof.
  intros Hd. destruct (manage_run calendar ct config bar os oe s Hd) as (_ & _ & cs & Ht & Hnd & Hok).
  exists cs. split_and!; try done. intros e He. destruct (Hok e He) as (l & El & ? & ? & _). eauto.
Qed.

(** Fact: a cancellation is not repeated while it is unresolved.  Markers are never
    lost in a cycle and a marked order is not cancelled; an order that was
    cancelled ends the cycle marked, or, when its outcome is ambiguous, as
    UNKNOWN (which is not cancelled either) with new entries blocked.  The
    ledger stays well formed. *)
Theorem cancelled_orders_stay_marked {W} {BW : Broker W} calendar ct config bar os oe (s : sys W) :
  ledger_ok (s_db s) ->
  let s' := (manage_stale_orders calendar ct config bar os oe s).2 in
  ledger_ok (s_db s') /\ (forall id, marked id (s_db s) -> marked id (s_db s')) /\
  exists cs, s_trace s' = s_trace s ++ map ca_call cs /\
    forall e, e ∈ cs -> ~ marked (ca_id e) (s_db s) /\
      (marked (ca_id e) (s_db s') \/
       (exists o, get_order (ca_id e) (s_db s') = Some o /\ bo_status o = "UNKNOWN") /\
       get_metadata "block_new_entries" (s_db s') = Some "true").
Proof.
  intros Hd. destruct (manage_run calendar ct config bar os oe s Hd) as (Hl & [Hm _] & cs & Ht & _ & Hok).
  split; [done|]. split; [done|]. exists cs. split; [done|]. intros e He. by destruct (Hok e He) as (? & _ & _ & _ & ? & ?).
Qed.

(** ** Witnesses *)

(** The acknowledged order of [Reconciliation], two minutes later, unfilled. *)
Definition w_late : datetime := Datetime (dt_us w_clock + 120 * us_per_second) (Some KST).
Definition w_calendar : option (Z -> bool) := Some (fun _ => true).
Definition w_open_order : KisOrderStatusRecord :=
  mkStatusRecord "b1" "005930" (Some BUY) 10 0 10 (Some (f_of_Z 70000)) None UNFILLED None None (Some "91252") None None.

#[local] Instance w_open_broker : Broker unit := w_broker [w_open_order] [w_position].

Definition w_managed : res OrderManagementReport * sys unit :=
  manage_stale_orders w_calendar (Some w_late) None (Some "bar-1") (Some [w_open_order]) None w_sys.

Lemma cancellations_are_sound_witness :
  map fst (s_trace w_managed.2) = [CancelCall (mkCancelRequest "b1" "91252" 10 70000)] /\
  exists cs, s_trace w_managed.2 = [] ++ map ca_call cs /\
    forall e, e ∈ cs -> cancel_sound w_calendar w_late default_management_config [w_open_order]
      (ca_local e) (ca_row e) (ca_request e) (ca_db e).
Proof.
  split; [vm_compute; reflexivity|].
  destruct (cancellations_are_sound w_calendar (Some w_late) None (Some "bar-1") (Some [w_open_order]) None w_sys w_submitted_ok)
    as (cs & H1 & _ & H2).
  exists cs. split; [exact H1|]. intros e He. destruct (H2 e He) as (_ & orders & Ho & Hs). injection Ho as <-. exact Hs.
Defined.

Lemma cancelled_orders_stay_marked_witness :
  length (s_trace w_managed.2) = 1%nat /\
  exists cs, s_trace w_managed.2 = [] ++ map ca_call cs /\ forall e, e ∈ cs -> ~ marked (ca_id e) w_submitted.
Proof.
  split; [vm_compute; reflexivity|].
  destruct (cancelled_orders_stay_marked w_calendar (Some w_late) None (Some "bar-1") (Some [w_open_order]) None w_sys w_submitted_ok)
    as (_ & _ & cs & H1 & H2).
  exists cs. split; [exact H1|]. intros e He. exact (proj1 (H2 e He)).
Defined.
