(* ===== verification/SupervisorStatus.v ===== *)
(** * Status of the order supervisor ([ops/order_supervisor.py])

    The pure part of the supervisor: the reason codes it reports, which hide
    identifiers, the recognition of dependency and authentication failures, and
    the retry delay.  Texts are in ASCII, the Hangul marker aside. *)

From S2P Require Import Prelude PyStr PyFloat PyTime PyDecimal PyDict PyJson DbCore DbOrders DbRuntime.
From S2P Require Import KisHttp KisOrder KisOrderStatus KisAccount System SystemFrames Reconciliation OrderManagement.

Definition SERVICE_LEASE_NAME : string := "trading-service".
Definition SUPERVISOR_COMPONENT : string := "order-supervisor".
Definition STATUS_KEY : string := SUPERVISOR_COMPONENT +:+ ".status".
Definition LAST_ERROR_KEY : string := SUPERVISOR_COMPONENT +:+ ".last_error".
Definition CANCEL_REQUEST_KEY : string := "operator.cancel_open_buys_requested".
Definition CANCEL_STATUS_KEY : string := "operator.cancel_open_buys_status".
Definition DEFAULT_NOTIFY_THROTTLE_SECONDS : float := f_of_Z 300.
Definition RECOVERY_HEALTHY_ITERATIONS : Z := 3.
Definition KIS_AUTH_ERROR_MSG_CODES : list string := ["EGW00123"].
Definition KIS_RATE_LIMIT_MSG_CODES : list string := ["EGW00201"].
Definition SAFE_DEPENDENCY_ERROR_TYPES : list string :=
  ["ChunkedEncodingError"; "ConnectionError"; "ConnectTimeout"; "KisHttpError"; "ReadTimeout"; "SSLError"; "Timeout";
   "TimeoutError"; "TypeError"; "ValueError"].

(** [_CancelReport] *)
Record CancelReport := mkCancelReport {
  cp_requested : Z;
  cp_errors : Z;
  cp_skipped : Z;
  cp_error_type : option string;
}.

Definition no_cancel_report : CancelReport := mkCancelReport 0 0 0 None.

(** ** Reason codes *)

(** The parts of a reason that may be shown. *)
Definition safe_detail (part : string) : bool :=
  (startswith "http_" part || startswith "rt_cd_" part || startswith "msg_cd_" part || String.eqb part "KisHttpError")
  && sforall code_char part.

Definition default_text (s default : string) : string := if sempty s then default else s.

(** [_safe_reason] of a text *)
Definition safe_reason (value : string) : string :=
  let text := strip value in
  if sempty text then "unknown"
  else
    let parts := split_on ":" text in
    if mem_str text SAFE_DEPENDENCY_ERROR_TYPES then text
    else
      let code := default_text (lower (strip (hd "" parts))) "unknown" in
      match List.filter safe_detail (tl parts) with
      | [] =>
          match List.filter (fun detail => mem_str detail SAFE_DEPENDENCY_ERROR_TYPES) (map strip (tl parts)) with
          | detail :: _ => code +:+ ":" +:+ detail
          | [] => code
          end
      | safe_details => join ":" (code :: safe_details)
      end.

(** [_status_reasons] *)
Definition status_reasons (reconciliation : ReconciliationReport) (management : OrderManagementReport)
    (cancel_report : CancelReport) : list string :=
  dedup []
    (map (fun reason => "reconciliation:" +:+ safe_reason reason) (rr_reasons reconciliation)
     ++ omap (fun action =>
          let reason := safe_reason (oc_reason action) in
          if mem_str reason [""; "unknown"] then None else Some ("stale_order:" +:+ reason)) (om_actions management)
     ++ match cp_error_type cancel_report with
        | Some e => if sempty e then [] else ["cancel:" +:+ safe_reason e]
        | None => []
        end).

(** [_is_dependency_reason] *)
Definition is_dependency_reason (reason : string) : bool :=
  existsb (fun marker => contains marker reason)
    ["order_status_unavailable"; "account_snapshot_unavailable"; "dependency_unavailable"].

(** The loop body of [_safe_kis_error_from_reasons]. *)
Definition kis_error_of (reason : string) : dict string :=
  fold_left (fun acc part =>
    if startswith "http_" part then dset "http_status" (removeprefix "http_" part) acc
    else if startswith "rt_cd_" part then dset "rt_cd" (removeprefix "rt_cd_" part) acc
    else if startswith "msg_cd_" part then dset "msg_cd" (removeprefix "msg_cd_" part) acc
    else acc) (split_on ":" reason) [].

(** [_safe_kis_error_from_reasons] *)
Fixpoint safe_kis_error_from_reasons (reasons : list string) : option (dict string) :=
  match reasons with
  | [] => None
  | reason :: reasons' =>
      if mem_str "KisHttpError" (split_on ":" reason)
      then match kis_error_of reason with
           | [] => safe_kis_error_from_reasons reasons'
           | result => Some result
           end
      else safe_kis_error_from_reasons reasons'
  end.

(** [_dependency_backoff_seconds] *)
Definition dependency_backoff_seconds (failure_streak : Z) (safe_kis_error : option (dict string)) : Z :=
  if failure_streak <=? 0 then 0
  else
    let rate_limited :=
      match safe_kis_error with
      | Some e => match dget "msg_cd" e with Some c => mem_str c KIS_RATE_LIMIT_MSG_CODES | None => false end
      | None => false
      end in
    Z.min 60 ((if rate_limited then 15 else 5) * 2 ^ (failure_streak - 1)).

(** ** Errors *)

(** [str] of a [KisHttpError] *)
Definition kis_http_text (status : Z) (details : list (string * string)) : string :=
  let summary := join " " (omap (fun kv => if sempty kv.2 then None else Some (kv.1 +:+ "=" +:+ kv.2)) details) in
  "KIS HTTP " +:+ str_int status +:+ (if sempty summary then "" else " (" +:+ summary +:+ ")").

(** [_sanitized_error] *)
Definition sanitized_error (e : exn) : string :=
  match e with
  | KisHttpError status details => "KisHttpError: " +:+ kis_http_text status details
  | _ => exn_name e
  end.

(** [_looks_like_auth_error] of a text *)
Definition auth_error_text (value : string) : bool :=
  let text := lower value in
  existsb (fun code => contains ("msg_cd=" +:+ lower code) text || contains ("msg_cd_" +:+ lower code) text)
    KIS_AUTH_ERROR_MSG_CODES
  || existsb (fun token => contains token text) ["401"; "unauthorized"; "token expired"; "expired token"; "만료"].

(** [_looks_like_auth_error] of an exception; [exn_text] is its [str]. *)
Definition auth_error_exn (exn_text : exn -> string) (e : exn) : bool :=
  match e with
  | KisHttpError status details =>
      let msg_cd := upper (or_else (dget "msg_cd" details) "") in
      let text := lower (join " " (map snd details)) in
      (status =? 401) || mem_str msg_cd KIS_AUTH_ERROR_MSG_CODES
      || existsb (fun marker => contains marker text) ["token expired"; "expired token"; "만료"]
  | _ => auth_error_text (exn_text e)
  end.

(** [_report_needs_refresh] *)
Definition report_needs_refresh (report : ReconciliationReport) : bool := existsb auth_error_text (rr_reasons report).

(** ** Lease and environment *)

(** [_parse_timestamp], of the text of a row *)
Definition parse_timestamp (value : string) : option datetime :=
  match fromisoformat value with
  | Err _ => None
  | Ok parsed => Some (astimezone (if is_naive parsed then with_tz parsed (Some UTC) else parsed) UTC)
  end.

(** [a or b or None] of two texts *)
Definition or_text (a b : option string) : option string :=
  match a with Some s => if sempty s then b else Some s | None => b end.

(** [_expected_owner]; [env_owner] is the variable [TRADING_SERVICE_OWNER_ID]. *)
Definition expected_owner (expected_owner_id owner_id env_owner : option string) : res (option string) :=
  match or_text expected_owner_id None, or_text owner_id None with
  | Some a, Some b => if String.eqb a b then Ok (Some a) else Err (ValueError "expected_owner_id and owner_id disagree")
  | _, _ => Ok (or_text expected_owner_id (or_text owner_id (or_text env_owner None)))
  end.

(** [_lease_is_valid] *)
Definition lease_is_valid (expected : option string) (now : datetime) (d : db) : res bool :=
  lease ← get_service_lease SERVICE_LEASE_NAME d;
  Ok (match lease : option service_lease with
      | None => false
      | Some l =>
          if match expected with Some e => negb (String.eqb (sl_owner_id l) e) | None => false end then false
          else match parse_timestamp (sl_expires_at l) with
               | Some expires_at => instant now <? instant expires_at
               | None => false
               end
      end).

(** [_environment] *)
Definition control_environment (d : db) : res KisEnvironment := parse_environment (rc_environment (get_runtime_control d)).

(** [_account_components] *)
Definition account_components (account_no product_code : string) : res (string * string) :=
  let raw := strip account_no in
  let '(raw, product_code) :=
    match split_on "-" raw with
    | first :: ((_ :: _) as suffix) => (first, default_text (strip (join "-" suffix)) product_code)
    | _ => (raw, product_code)
    end in
  let digits := String.string_of_list_ascii (List.filter is_digit (String.list_ascii_of_string raw)) in
  if (slen digits =? 10) && String.eqb product_code "01"
  then Ok (String.substring 0 8 digits, String.substring 8 2 digits)
  else if negb (slen digits =? 8) then Err (ValueError "KIS account number must contain eight account digits")
  else Ok (digits, product_code).

(** ** Sorted JSON *)

(** ** Properties *)

(** Fact: the retry delay is zero without failures, between five seconds and one
    minute after any, never shortens while failures continue, and is the full
    minute from the fifth failure in a row on. *)
Theorem backoff_bounded (n m : Z) (e : option (dict string)) :
  (n <= 0 -> dependency_backoff_seconds n e = 0) /\
  (0 < n -> 5 <= dependency_backoff_seconds n e <= 60) /\
  (n <= m -> dependency_backoff_seconds n e <= dependency_backoff_seconds m e) /\
  (5 <= n -> dependency_backoff_seconds n e = 60).
Proof.
  unfold dependency_backoff_seconds. cbv zeta.
  assert (Hb : 5 <= (if match e with Some e => match dget "msg_cd" e with
      Some c => mem_str c KIS_RATE_LIMIT_MSG_CODES | None => false end | None => false end then 15 else 5))
    by (case_match; lia).
  revert Hb. generalize (if match e with Some e => match dget "msg_cd" e with
      Some c => mem_str c KIS_RATE_LIMIT_MSG_CODES | None => false end | None => false end then 15 else 5).
  intros base Hb.
  assert (Hpow : forall k, 0 < k -> 1 <= 2 ^ (k - 1)) by (intros k Hk; pose proof (Z.pow_pos_nonneg 2 (k - 1)); lia).
  split_and!.
  - intros H. destruct (Z.leb_spec n 0); [done|lia].
  - intros H. destruct (Z.leb_spec n 0); [lia|]. specialize (Hpow n). nia.
  - intros H. destruct (Z.leb_spec n 0), (Z.leb_spec m 0); try lia.
    apply Z.min_le_compat_l, Z.mul_le_mono_nonneg_l, Z.pow_le_mono_r; lia.
  - intros H. destruct (Z.leb_spec n 0); [lia|]. apply Z.min_l.
    pose proof (Z.pow_le_mono_r 2 4 (n - 1) ltac:(lia) ltac:(lia)). change (2 ^ 4) with 16 in *. nia.
Qed.

(** Fact: a reported reason reveals no identifier.  It is a code, which is the
    first part of the internal reason, followed only by parts of that reason that
    are HTTP or KIS status codes or known exception types. *)
Theorem safe_reason_redacts value : exists code details,
  safe_reason value = join ":" (code :: details) /\
  (code = "unknown" \/ code = lower (strip (hd "" (split_on ":" (strip value)))) \/ code ∈ SAFE_DEPENDENCY_ERROR_TYPES) /\
  Forall (fun d => (safe_detail d = true /\ d ∈ tl (split_on ":" (strip value))) \/ d ∈ SAFE_DEPENDENCY_ERROR_TYPES) details.
Proof.
  unfold safe_reason. destruct (sempty (strip value)); [exists "unknown", []; auto|].
  destruct (mem_str (strip value) SAFE_DEPENDENCY_ERROR_TYPES) eqn:Em.
  { exists (strip value), []. apply mem_str_true in Em. auto. }
  set (code := default_text _ _).
  assert (Hc : code = "unknown" \/ code = lower (strip (hd "" (split_on ":" (strip value))))).
  { unfold code, default_text. destruct (sempty _); auto. }
  destruct (List.filter safe_detail (tl (split_on ":" (strip value)))) as [|d ds] eqn:Ed.
  - destruct (List.filter _ (map strip _)) as [|x xs] eqn:Ex; [exists code, []; intuition|].
    exists code, [x]. split; [done|]. split; [intuition|]. constructor; [|done]. right.
    assert (Hin : In x (x :: xs)) by (by left). rewrite <- Ex in Hin. apply filter_In in Hin as [_ Hin].
    by apply mem_str_true.
  - exists code, (d :: ds). split; [done|]. split; [intuition|]. rewrite <- Ed. apply Forall_forall.
    intros x Hx. apply filter_In in Hx as [Hx Hs]. left. split; [done|]. by apply list_elem_of_In.
Qed.

(** ** Witnesses *)

Lemma backoff_bounded_witness :
  dependency_backoff_seconds 3 (Some [("msg_cd", "EGW00201")]) = 60 /\ dependency_backoff_seconds 3 None = 20 /\
  5 <= dependency_backoff_seconds 3 None <= dependency_backoff_seconds 4 None.
Proof.
  split; [reflexivity|]. split; [reflexivity|].
  split; [apply (proj1 (proj2 (backoff_bounded 3 4 None))); lia|apply (proj1 (proj2 (proj2 (backoff_bounded 3 4 None)))); lia].
Defined.
