(* ===== verification/Supervisor.v ===== *)
(** * The order supervisor ([ops/order_supervisor.py])

    A background pass over the database and the broker: it checks the service
    lease, reconciles, carries out an operator's request to cancel the open BUY
    orders, manages stale orders, and persists whether new entries are blocked.
    The clients of the broker are a value of the class [Broker], built by the
    parameter [connect] (configuration, authentication and token cache) and kept
    between iterations with the other fields of [SupervisorState].  Whatever
    raises in the pass is caught and blocks entries. *)

From S2P Require Import Prelude PyStr PyFloat PyTime PyDecimal PyDict PyJson DbCore DbOrders DbRuntime DbLedger DbFrames.
From S2P Require Import KisHttp KisOrder KisOrderStatus KisAccount System SystemFrames Reconciliation OrderManagement SupervisorStatus.

Record supervisor_state (W : Type) := mkSupervisorState {
  ss_environment : option KisEnvironment;
  ss_clients : option (Broker W);
  ss_force_refresh : bool;
  ss_last_notification_state : option string;
  ss_last_notification_at : float;
  ss_healthy_iterations : Z;
  ss_dependency_failure_streak : Z;
  ss_dependency_healthy_streak : Z;
}.
Arguments mkSupervisorState {W} _ _ _ _ _ _ _ _.
Arguments ss_environment {W} _.
Arguments ss_clients {W} _.
Arguments ss_force_refresh {W} _.
Arguments ss_last_notification_state {W} _.
Arguments ss_last_notification_at {W} _.
Arguments ss_healthy_iterations {W} _.
Arguments ss_dependency_failure_streak {W} _.
Arguments ss_dependency_healthy_streak {W} _.

Definition new_supervisor_state {W} : supervisor_state W := mkSupervisorState None None false None fzero 0 0 0.

Definition with_clients {W} (e : KisEnvironment) (c : Broker W) (s : supervisor_state W) : supervisor_state W :=
  mkSupervisorState (Some e) (Some c) false (ss_last_notification_state s) (ss_last_notification_at s)
    (ss_healthy_iterations s) (ss_dependency_failure_streak s) (ss_dependency_healthy_streak s).
Definition with_refresh {W} (s : supervisor_state W) : supervisor_state W :=
  mkSupervisorState (ss_environment s) (ss_clients s) true (ss_last_notification_state s) (ss_last_notification_at s)
    (ss_healthy_iterations s) (ss_dependency_failure_streak s) (ss_dependency_healthy_streak s).
Definition with_notification {W} (state : string) (at_ : float) (s : supervisor_state W) : supervisor_state W :=
  mkSupervisorState (ss_environment s) (ss_clients s) (ss_force_refresh s) (Some state) at_
    (ss_healthy_iterations s) (ss_dependency_failure_streak s) (ss_dependency_healthy_streak s).
Definition with_healthy {W} (n : Z) (s : supervisor_state W) : supervisor_state W :=
  mkSupervisorState (ss_environment s) (ss_clients s) (ss_force_refresh s) (ss_last_notification_state s)
    (ss_last_notification_at s) n (ss_dependency_failure_streak s) (ss_dependency_healthy_streak s).
Definition with_streaks {W} (failures healthy : Z) (s : supervisor_state W) : supervisor_state W :=
  mkSupervisorState (ss_environment s) (ss_clients s) (ss_force_refresh s) (ss_last_notification_state s)
    (ss_last_notification_at s) (ss_healthy_iterations s) failures healthy.

Record OrderSupervisorResult := mkSupervisorResult {
  os_status : string;
  os_environment : option string;
  os_paused : option bool;
  os_operator_review : bool;
  os_block_new_entries : bool;
  os_cancel_requested : Z;
  os_cancel_errors : Z;
  os_error : option string;
  os_auth_refresh_requested : bool;
  os_next_retry_seconds : Z;
}.

(** [OrderSupervisorResult.ok] *)
Definition result_ok (r : OrderSupervisorResult) : bool := mem_str (os_status r) ["reconciled"; "reconciled_operator_review"].

(** The supervisor's own state, and the system it runs over. *)
Record super (W : Type) := mkSuper {
  sv_state : supervisor_state W;
  sv_sys : sys W;
}.
Arguments mkSuper {W} _ _.
Arguments sv_state {W} _.
Arguments sv_sys {W} _.

Definition flag_text (b : bool) : string := if b then "true" else "false".

Definition jtext (o : option string) : json := match o with Some s => JStr s | None => JNull end.

(** ** Persisted status *)

Section Status.
Context {W : Type} {CW : Clock W}.

Definition status_payload (status : string) (environment : option string) (paused : option bool)
    (review block : bool) (reasons : list string) (failures healthy retry : Z) (kis_error : option (dict string))
    (now : datetime) : json :=
  JObj ([("status", JStr status); ("environment", jtext environment);
         ("paused", match paused with Some b => JBool b | None => JNull end);
         ("operator_review", JBool review); ("block_new_entries", JBool block);
         ("reasons", JList (map JStr (dedup [] reasons))); ("failure_streak", JInt failures);
         ("healthy_streak", JInt healthy); ("next_retry_seconds", JInt retry); ("updated_at", JStr (isoformat now))]
        ++ match kis_error with
           | Some (_ :: _ as e) => [("safe_kis_error", JObj (map (fun kv => (kv.1, JStr kv.2)) e))]
           | _ => []
           end).

(** [_write_status] *)
Definition write_status (payload : json) (error : option string) (now : datetime) : stm (sys W) unit :=
  _ ← set_metadata_now STATUS_KEY (dumps (sort_keys payload)) (Some now);
  _ ← set_metadata_now LAST_ERROR_KEY (or_else (or_text error None) "none") (Some now);
  _ ← on_db (record_heartbeat SUPERVISOR_COMPONENT (Some now));
  mret tt.

Definition set_flags (review block : bool) (now : datetime) : stm (sys W) unit :=
  _ ← set_metadata_now "operator_review" (flag_text review) (Some now);
  _ ← set_metadata_now "block_new_entries" (flag_text block) (Some now);
  mret tt.

(** [_mark_exception] *)
Definition mark_exception (e : exn) (now : datetime) : stm (sys W) unit :=
  let error := sanitized_error e in
  _ ← set_flags true true now;
  write_status (status_payload "error" None None true true ["error:" +:+ safe_reason error] 0 0 0 None now)
    (Some error) now.

(** [_set_cancel_status] *)
Definition set_cancel_status (status : string) (requested errors skipped : Z) (error_type : option string)
    (now : datetime) : stm (sys W) unit :=
  _ ← set_metadata_now CANCEL_STATUS_KEY (dumps (sort_keys (JObj
        [("status", JStr status); ("requested", JInt requested); ("errors", JInt errors); ("skipped", JInt skipped);
         ("error", JStr (or_else (or_text error_type None) "none")); ("updated_at", JStr (isoformat now))]))) (Some now);
  mret tt.
End Status.

(** ** The operator's cancellation of open buys *)

(** [SELECT * FROM broker_orders WHERE side='BUY' AND status IN (...) ORDER BY ...] *)
Definition cancelable_buys (d : db) : list broker_order :=
  List.filter (fun o => String.eqb (bo_side o) "BUY" && mem_str (bo_status o) ["ACKNOWLEDGED"; "PARTIALLY_FILLED"])
    (rows_by bo_created_at bo_client_order_id (t_broker_orders d)).

Definition cancel_marker (now : datetime) : string :=
  dumps (JObj [("reason", JStr "operator_cancel_open_buys"); ("requested_at", JStr (isoformat now))]).

Section CancelBuys.
Context {W : Type} {BW : Broker W}.

(** The order becomes UNKNOWN and new entries are blocked. *)
Definition cancel_problem (id reason error_type : string) (now : datetime) (c : CancelReport) : stm (sys W) CancelReport :=
  _ ← on_db (mark_order_unknown id (Some reason) (Some now));
  _ ← set_flags true true now;
  mret (mkCancelReport (cp_requested c) (cp_errors c + 1) (cp_skipped c) (Some error_type)).

Definition no_branch (b : KisOrderStatusRecord) : bool :=
  match sr_order_branch b with Some br => sempty br | None => true end.

(** The body of the [try] around the broker call. *)
Definition send_cancel (local : broker_order) (b : KisOrderStatusRecord) : stm (sys W) KisCancelResult :=
  order_price ← lift_res (cancel_price local b);
  call_cancel (mkCancelRequest (sr_order_number b) (or_else (sr_order_branch b) "") (sr_remaining_quantity b) order_price).

(** One iteration of the loop over the rows. *)
Definition cancel_buy (now : datetime) (orders : list KisOrderStatusRecord) (c : CancelReport) (local : broker_order)
    : stm (sys W) CancelReport :=
  let client_id := bo_client_order_id local in
  match dget (or_else (bo_broker_order_id local) "") (by_broker_id orders) with
  | None => cancel_problem client_id "order_identity_mismatch" "order_identity_mismatch" now c
  | Some b =>
      if negb (bool_decide (sr_side b = Some BUY))
      then cancel_problem client_id "order_identity_mismatch" "order_identity_mismatch" now c
      else if negb (bool_decide (sr_status b = UNFILLED) || bool_decide (sr_status b = PARTIALLY_FILLED))
      then mret (mkCancelReport (cp_requested c) (cp_errors c) (cp_skipped c + 1) (cp_error_type c))
      else if no_branch b || (sr_remaining_quantity b <=? 0)
      then cancel_problem client_id "missing_cancel_fields" "missing_cancel_fields" now c
      else
        _ ← on_db (update_broker_order_status client_id "CANCEL_PENDING" (broker_update now b None));
        outcome ← attempt (send_cancel local b);
        match outcome : res KisCancelResult with
        | Err e => cancel_problem client_id ("cancel_ambiguous:" +:+ sanitized_error e) (sanitized_error e) now c
        | Ok _ =>
            _ ← set_metadata_now (pending_key client_id) (cancel_marker now) (Some now);
            mret (mkCancelReport (cp_requested c + 1) (cp_errors c) (cp_skipped c) (cp_error_type c))
        end
  end.

Definition cancel_unavailable (e : exn) (now : datetime) : stm (sys W) CancelReport :=
  _ ← set_flags true true now;
  _ ← set_cancel_status "error" 0 1 0 (Some (sanitized_error e)) now;
  mret (mkCancelReport 0 1 0 (Some (sanitized_error e))).

(** [_cancel_requested_buys]: the request is consumed before any broker call. *)
Definition cancel_requested_buys (now : datetime) (broker_orders : option (list KisOrderStatusRecord))
    (broker_orders_error : option exn) : stm (sys W) CancelReport :=
  request ← query (get_metadata CANCEL_REQUEST_KEY);
  if negb (String.eqb (lower (strip (or_else request ""))) "true") then mret no_cancel_report
  else
    _ ← set_metadata_now CANCEL_REQUEST_KEY "false" (Some now);
    rows ← query cancelable_buys;
    match broker_orders_error, rows : list broker_order with
    | Some e, _ :: _ => cancel_unavailable e now
    | _, _ =>
        answer ← (match rows with
                  | [] => mret (Ok [])
                  | _ => match broker_orders with
                         | Some l => mret (Ok l)
                         | None => attempt (on_world today_orders)
                         end
                  end);
        match answer : res (list KisOrderStatusRecord) with
        | Err e => cancel_unavailable e now
        | Ok orders =>
            c ← foldM (cancel_buy now orders) no_cancel_report rows;
            _ ← set_cancel_status (if 0 <? cp_errors c then "error" else "completed") (cp_requested c) (cp_errors c)
                  (cp_skipped c) (cp_error_type c) now;
            mret c
        end
    end.
End CancelBuys.

(** ** One iteration *)

Section Iteration.
Context {W : Type} {CW : Clock W}.
Variable calendar : option (Z -> bool).
(** [str(exc)] *)
Variable exn_text : exn -> string.
(** The variable [TRADING_SERVICE_OWNER_ID] of the environment. *)
Variable env_owner : option string.
(** [client_factory or _build_clients], with [refresh_token] *)
Variable connect : KisEnvironment -> bool -> stm W (Broker W).
(** [time.monotonic] and the [sleeper] *)
Variable monotonic : W -> float * W.
Variable sleeper : float -> stm W unit.
(** The notifier, if there is one; what it raises is swallowed. *)
Variable notifier : option (string -> stm W unit).

(** The parameters of [one_iteration]. *)
Record iteration_args := mkIterationArgs {
  ia_buy_ttl : float;
  ia_sell_ttl : float;
  ia_refresh_token : bool;
  ia_expected_owner_id : option string;
  ia_owner_id : option string;
  ia_now : option datetime;
  ia_read_throttle : float;
}.

Definition in_sys {A} (m : stm (sys W) A) : stm (super W) A := fun u =>
  let '(r, s) := m (sv_sys u) in (r, mkSuper (sv_state u) s).
Definition update_state (f : supervisor_state W -> supervisor_state W) : stm (super W) unit := fun u =>
  (Ok tt, mkSuper (f (sv_state u)) (sv_sys u)).
Definition state : stm (super W) (supervisor_state W) := gets sv_state.

Definition read_monotonic : stm (sys W) float := fun s =>
  let '(t, w) := monotonic (s_world s) in (Ok t, mkSys (s_db s) w (s_trace s)).

(** [_notify] *)
Definition notify (message_state message : string) : stm (super W) unit :=
  match notifier with
  | None => mret tt
  | Some tell =>
      current ← in_sys read_monotonic;
      st ← state;
      let changed := match ss_last_notification_state st with
                     | Some l => negb (String.eqb message_state l)
                     | None => true
                     end in
      let throttled_due := (DEFAULT_NOTIFY_THROTTLE_SECONDS <=? current - ss_last_notification_at st)%F in
      if negb changed && negb throttled_due then mret tt
      else
        _ ← in_sys (attempt (on_world (tell message)));
        update_state (with_notification message_state current)
  end.

(** [(now or _now()).astimezone(timezone.utc)] *)
Definition current_time (a : iteration_args) : stm (super W) datetime :=
  t ← (match ia_now a with Some t => mret t | None => in_sys read_clock end);
  mret (astimezone t UTC).

(** The clients in use: new ones when there are none, when the environment
    changed, or when a refresh of the token is due. *)
Definition current_clients (a : iteration_args) (environment : KisEnvironment) : stm (super W) (Broker W) :=
  st ← state;
  match ss_clients st with
  | Some c =>
      if bool_decide (ss_environment st = Some environment) && negb (ss_force_refresh st) then mret c
      else
        c ← in_sys (on_world (connect environment (ia_refresh_token a || ss_force_refresh st)));
        _ ← update_state (with_clients environment c);
        mret c
  | None =>
      c ← in_sys (on_world (connect environment (ia_refresh_token a || ss_force_refresh st)));
      _ ← update_state (with_clients environment c);
      mret c
  end.

(** What was read of the broker: the orders, and, when they could be read, the account. *)
Record broker_view := mkBrokerView {
  bv_orders : option (list KisOrderStatusRecord);
  bv_orders_error : option exn;
  bv_account : option KisAccountSnapshot;
  bv_account_error : option exn;
}.

Definition read_broker (c : Broker W) (throttle : float) : stm (sys W) broker_view :=
  orders ← attempt (on_world (today_orders (Broker := c)));
  match orders : res (list KisOrderStatusRecord) with
  | Err e => mret (mkBrokerView None (Some e) None None)
  | Ok l =>
      _ ← (if (fzero <? throttle)%F then on_world (sleeper throttle) else mret tt);
      account ← attempt (on_world (account_snapshot (Broker := c)));
      mret (match account : res KisAccountSnapshot with
            | Ok s => mkBrokerView (Some l) None (Some s) None
            | Err e => mkBrokerView (Some l) None None (Some e)
            end)
  end.

Definition refresh_if (b : bool) : stm (super W) unit := if b then update_state with_refresh else mret tt.

(** [_looks_like_auth_error] of an optional text: [str(None)] is no error. *)
Definition auth_error_option (e : option string) : bool := auth_error_text (or_else e "None").

Record verdict := mkVerdict {
  vd_status : string;
  vd_review : bool;
  vd_block : bool;
  vd_reasons : list string;
  vd_dependency : bool;
}.

(** The union of the three reports. *)
Definition judge (reconciliation : ReconciliationReport) (cancel_report : CancelReport)
    (management : OrderManagementReport) : verdict :=
  let errors := negb (cp_errors cancel_report =? 0) in
  let review := rr_operator_review reconciliation || om_operator_review management || errors in
  let blocked := rr_block_new_entries reconciliation || om_block_new_entries management || errors in
  let reasons := status_reasons reconciliation management cancel_report in
  let dependency := review && existsb is_dependency_reason reasons in
  mkVerdict (if dependency then "dependency_unavailable"
             else if review then "reconciled_operator_review" else "reconciled")
    review blocked reasons dependency.

Definition count_streaks (dependency : bool) (st : supervisor_state W) : supervisor_state W :=
  if dependency then with_streaks (ss_dependency_failure_streak st + 1) 0 st
  else with_streaks 0 (ss_dependency_healthy_streak st + 1) st.

(** The notification at the end of a pass. *)
Definition announce (v : verdict) (environment : string) (paused : bool) : stm (super W) unit :=
  let context := "environment=" +:+ environment +:+ " paused=" +:+ flag_text paused in
  if mem_str (vd_status v) ["reconciled_operator_review"; "dependency_unavailable"] then
    _ ← update_state (with_healthy 0);
    notify (vd_status v) ("order-supervisor: " +:+ vd_status v +:+ " " +:+ context +:+ " reasons=" +:+
      match vd_reasons v with [] => "operator_review" | l => join ", " l end)
  else
    _ ← update_state (fun st => with_healthy (ss_healthy_iterations st + 1) st);
    st ← state;
    if (RECOVERY_HEALTHY_ITERATIONS <=? ss_healthy_iterations st)
       && (RECOVERY_HEALTHY_ITERATIONS <=? ss_dependency_healthy_streak st)
       && match ss_last_notification_state st with
          | Some l => mem_str l ["reconciled_operator_review"; "dependency_unavailable"; "error"; "lease_invalid"]
          | None => false
          end
    then notify "recovered" ("order-supervisor: recovered " +:+ context)
    else mret tt.

(** The three stages over the database and the broker. *)
Definition supervise (a : iteration_args) (c : Broker W) (current : datetime) : stm (super W) (verdict * CancelReport) :=
  view ← in_sys (read_broker c (ia_read_throttle a));
  reconciliation ← in_sys (reconcile_broker_state (BW := c) (Some current) (bv_orders view) (bv_orders_error view)
                             (bv_account view) (bv_account_error view));
  _ ← refresh_if (report_needs_refresh reconciliation);
  cancel_report ← in_sys (cancel_requested_buys (BW := c) current (bv_orders view) (bv_orders_error view));
  _ ← refresh_if (auth_error_option (cp_error_type cancel_report));
  management ← in_sys (
    config ← lift_res (management_config (ia_buy_ttl a) (ia_sell_ttl a));
    manage_stale_orders (BW := c) calendar (Some current) (Some config) None (bv_orders view) (bv_orders_error view));
  mret (judge reconciliation cancel_report management, cancel_report).

Definition lease_invalid_result : OrderSupervisorResult :=
  mkSupervisorResult "lease_invalid" None None false false 0 0 (Some "invalid_service_lease") false 0.

(** The pass without a valid lease: no broker is read. *)
Definition lease_lost (current : datetime) : stm (super W) OrderSupervisorResult :=
  _ ← update_state (with_healthy 0);
  _ ← in_sys (write_status (status_payload "lease_invalid" None None true true ["lease_invalid"] 0 0 0 None current)
                (Some "invalid_service_lease") current);
  _ ← notify "lease_invalid" "order-supervisor: service lease invalid";
  mret lease_invalid_result.

(** What a pass persists and announces once the verdict stands. *)
Definition conclude (v : verdict) (cancel_report : CancelReport) (environment : KisEnvironment) (paused : bool)
    (current : datetime) : stm (super W) OrderSupervisorResult :=
  _ ← update_state (count_streaks (vd_dependency v));
  st ← state;
  let kis_error := safe_kis_error_from_reasons (vd_reasons v) in
  let retry := if vd_dependency v then dependency_backoff_seconds (ss_dependency_failure_streak st) kis_error else 0 in
  _ ← in_sys (set_flags (vd_review v) (vd_block v) current);
  _ ← in_sys (write_status (status_payload (vd_status v) (Some (environment_value environment)) (Some paused)
                (vd_review v) (vd_block v) (vd_reasons v) (ss_dependency_failure_streak st)
                (ss_dependency_healthy_streak st) retry kis_error current) None current);
  _ ← announce v (environment_value environment) paused;
  st ← state;
  mret (mkSupervisorResult (vd_status v) (Some (environment_value environment)) (Some paused) (vd_review v) (vd_block v)
    (cp_requested cancel_report) (cp_errors cancel_report) None (ss_force_refresh st) retry).

(** The start of a pass: the schema, the lease, and, with a valid lease, the control,
    the environment and the clients *)
Definition open_pass (a : iteration_args) (expected : option string) (current : datetime)
    : stm (super W) (option (RuntimeControl * KisEnvironment * Broker W)) :=
  _ ← in_sys (on_db (fun _ d => Ok (tt, init_schema d)));
  valid ← in_sys (query (lease_is_valid expected current));
  valid ← lift_res valid;
  if negb valid then mret None
  else
    control ← in_sys (query get_runtime_control);
    environment ← in_sys (query control_environment);
    environment ← lift_res environment;
    clients ← current_clients a environment;
    mret (Some (control, environment, clients)).

(** The body of the [try]. *)
Definition supervised_pass (a : iteration_args) (expected : option string) (current : datetime)
    : stm (super W) OrderSupervisorResult :=
  opened ← open_pass a expected current;
  match opened : option (RuntimeControl * KisEnvironment * Broker W) with
  | None => lease_lost current
  | Some (control, environment, clients) =>
      judged ← supervise a clients current;
      conclude judged.1 judged.2 environment (rc_paused control) current
  end.

(** The [except Exception]. *)
Definition pass_failed (a : iteration_args) (e : exn) : stm (super W) OrderSupervisorResult :=
  _ ← update_state (with_healthy 0);
  current ← current_time a;
  _ ← in_sys (attempt (_ ← on_db (fun _ d => Ok (tt, init_schema d)); mark_exception e current));
  _ ← refresh_if (auth_error_exn exn_text e);
  _ ← notify ("error:" +:+ sanitized_error e) ("order-supervisor: error=" +:+ sanitized_error e);
  st ← state;
  mret (mkSupervisorResult "error" None None true true 0 0 (Some (sanitized_error e)) (ss_force_refresh st) 0).

Definition one_iteration (a : iteration_args) : stm (super W) OrderSupervisorResult :=
  _ ← lift_res (raise_if ((ia_buy_ttl a <? fzero)%F || (ia_sell_ttl a <? fzero)%F)
                  (ValueError "order TTLs must be non-negative"));
  _ ← lift_res (raise_if (ia_read_throttle a <? fzero)%F (ValueError "broker read throttle must be non-negative"));
  expected ← lift_res (expected_owner (ia_expected_owner_id a) (ia_owner_id a) env_owner);
  current ← current_time a;
  catch (supervised_pass a expected current) (pass_failed a).

(** ** The thread *)

(** [stop_event.is_set()] and [stop_event.wait(seconds)] *)
Variable stop_is_set : W -> bool * W.
Variable stop_wait : float -> W -> bool * W.

Definition read_world {A} (f : W -> A * W) : stm (super W) A :=
  in_sys (on_world (fun w => let '(x, w) := f w in (Ok x, w))).

Definition with_token (refresh : bool) (a : iteration_args) : iteration_args :=
  mkIterationArgs (ia_buy_ttl a) (ia_sell_ttl a) refresh (ia_expected_owner_id a) (ia_owner_id a) (ia_now a)
    (ia_read_throttle a).

(** How long the thread waits after a pass that needs a retry. *)
Definition retry_wait (last : OrderSupervisorResult) (backoff : float) : float :=
  fmin (if os_next_retry_seconds last =? 0 then backoff else f_of_Z (os_next_retry_seconds last)) (f_of_Z 60).

(** The [while] loop, for at most [fuel] passes: [None] when it goes on. *)
Fixpoint supervisor_loop (fuel : nat) (interval : float) (a : iteration_args) (backoff : float)
    (last : option OrderSupervisorResult) : stm (super W) (option (option OrderSupervisorResult)) :=
  match fuel with
  | O => mret None
  | S fuel =>
      stopped ← read_world stop_is_set;
      if stopped : bool then mret (Some last)
      else
        started ← in_sys read_monotonic;
        result ← one_iteration a;
        let a := with_token false a in
        if String.eqb (os_status result) "lease_invalid" then mret (Some (Some result))
        else if mem_str (os_status result) ["error"; "dependency_unavailable"] then
          _ ← refresh_if (os_auth_refresh_requested result);
          stopped ← read_world (stop_wait (retry_wait result backoff));
          if stopped : bool then mret (Some (Some result))
          else supervisor_loop fuel interval a
                 (if os_next_retry_seconds result =? 0 then fmin (backoff * f_of_Z 2)%F (f_of_Z 60) else backoff)
                 (Some result)
        else
          now ← in_sys read_monotonic;
          stopped ← read_world (stop_wait (fmax fzero (interval - (now - started)))%F);
          if stopped : bool then mret (Some (Some result))
          else supervisor_loop fuel interval a (f_of_Z 5) (Some result)
  end.

(** The thread passes no time of its own. *)
Definition thread_args (a : iteration_args) : iteration_args :=
  mkIterationArgs (ia_buy_ttl a) (ia_sell_ttl a) (ia_refresh_token a) (ia_expected_owner_id a) (ia_owner_id a) None
    (ia_read_throttle a).

(** [run_order_supervisor] *)
Definition run_order_supervisor (fuel : nat) (interval : float) (a : iteration_args)
    : stm (super W) (option (option OrderSupervisorResult)) :=
  _ ← lift_res (raise_if ((interval <=? fzero)%F || (ia_buy_ttl a <? fzero)%F || (ia_sell_ttl a <? fzero)%F
                          || (ia_read_throttle a <? fzero)%F)
                  (ValueError "interval must be positive and TTLs must be non-negative"));
  _ ← update_state (fun _ => new_supervisor_state);
  supervisor_loop fuel interval (thread_args a) (f_of_Z 5) None.
End Iteration.

(** ** Lemmas *)

Section FlagFacts.
Context {W : Type} {CW : Clock W}.

Lemma set_flags_quiet r b now : keeps quiet_ok (set_flags (W := W) r b now).
Proof. unfold set_flags. repeat (apply keeps_bind; [exact _|apply set_metadata_quiet|intros _]). apply keeps_ret, _. Qed.

Lemma flags_run r b now (s : sys W) : exists s', set_flags r b now s = (Ok tt, s') /\
  get_metadata "operator_review" (s_db s') = Some (flag_text r) /\
  get_metadata "block_new_entries" (s_db s') = Some (flag_text b) /\
  t_broker_orders (s_db s') = t_broker_orders (s_db s).
Proof.
  unfold set_flags.
  destruct (set_metadata_success "operator_review" (flag_text r) (Some now) s) as (t1 & w1 & E1); [done|].
  rewrite (stm_bind_run _ _ _ _ _ E1).
  match type of E1 with _ = (_, ?s1) =>
    destruct (set_metadata_success "block_new_entries" (flag_text b) (Some now) s1) as (t2 & w2 & E2); [done|] end.
  rewrite (stm_bind_run _ _ _ _ _ E2). eexists. split; [done|]. cbn [s_db]. split_and!; [|apply metadata_put_get|done].
  rewrite metadata_put_other by done. apply metadata_put_get.
Qed.
End FlagFacts.

Section CancelBuysFacts.
Context {W : Type} {BW : Broker W}.

(** The operator's cancellation [q] of [local], made with the database [d]. *)
Record buy_cancel_sound (orders : list KisOrderStatusRecord) (local : broker_order) (b : KisOrderStatusRecord)
    (q : cancel_request) (d : db) : Prop := {
  bc_buy : bo_side local = "BUY";
  bc_active : bo_status local ∈ ACTIVE_STATUSES;
  bc_row : b ∈ orders /\ bo_broker_order_id local = Some (sr_order_number b) /\ dget (sr_order_number b) (by_broker_id orders) = Some b;
  bc_side : sr_side b = Some BUY;
  bc_working : sr_status b = UNFILLED \/ sr_status b = PARTIALLY_FILLED;
  bc_number : cq_order_number q = sr_order_number b;
  bc_branch : sr_order_branch b = Some (cq_order_branch q) /\ cq_order_branch q <> "";
  bc_quantity : cq_quantity q = sr_remaining_quantity b /\ 0 < cq_quantity q;
  bc_price : cancel_price local b = Ok (cq_order_price q);
  bc_persisted : sr_filled_quantity b <= bo_requested_qty local -> exists o,
    get_order (bo_client_order_id local) d = Some o /\ bo_status o = "CANCEL_PENDING";
}.

Lemma plain_key_rel ids k v t :
  k <> "block_new_entries" -> (forall id, k <> pending_key id) ->
  keeps (on_dbs (mgmt_rel ids)) (set_metadata_now (W := W) k v t).
Proof. intros H1 H2. apply set_metadata_rel; auto. Qed.

Lemma set_flags_rel ids now : keeps (on_dbs (mgmt_rel ids)) (set_flags (W := W) true true now).
Proof.
  unfold set_flags. apply keeps_bind; [exact _| |intros _; apply keeps_bind; [exact _| |intros _; apply keeps_ret, _]].
  - apply plain_key_rel; [done|]. intros id E. cbv [pending_key String.append] in E. discriminate.
  - apply set_metadata_rel; [by right|]. left. intros id E. cbv [pending_key String.append] in E. discriminate.
Qed.

Lemma cancel_problem_rel id r e now c : keeps (on_dbs (mgmt_rel [id])) (cancel_problem id r e now c).
Proof.
  unfold cancel_problem. apply keeps_bind; [exact _| |intros _].
  - apply dbs_on_db; [exact _|]. intros. split; [by eapply unknown_frame|]. by eapply meta_kept_same, unknown_metadata.
  - apply keeps_bind; [exact _|apply set_flags_rel|intros _; apply keeps_ret, _].
Qed.

Lemma cancel_problem_quiet id r e now c : keeps same_trace (cancel_problem id r e now c).
Proof.
  unfold cancel_problem. apply keeps_bind; [exact _|apply quiet_on_db|intros _].
  apply keeps_bind; [exact _|apply quiet_trace, set_flags_quiet|intros _; apply keeps_ret, _].
Qed.

Lemma cancel_problem_ended local r e now c (s : sys W) o :
  sempty (strip (bo_client_order_id local)) = false -> sempty (strip r) = false ->
  get_order (bo_client_order_id local) (s_db s) = Some o ->
  ended local (s_db (cancel_problem (bo_client_order_id local) r e now c s).2).
Proof.
  intros Hid Hr Ho. right. unfold cancel_problem.
  destruct (unknown_run _ r now s o Hid Hr Ho) as (s1 & o1 & E1 & Ho1 & Hst). destruct (flags_run true true now s1) as (s2 & E2 & _ & Hb & Hor).
  rewrite (stm_bind_run _ _ _ _ _ E1), (stm_bind_run _ _ _ _ _ E2). split; [|exact Hb].
  exists o1. split; [|done]. unfold get_order in *. cbn [snd mret stm_ret]. by rewrite Hor.
Qed.

Lemma send_cancel_run local b (s : sys W) : let '(r, s') := send_cancel local b s in
  s_db s' = s_db s /\
  ((s_trace s' = s_trace s /\ exists e, r = Err e) \/
   exists price, cancel_price local b = Ok price /\ s_trace s' = s_trace s ++ [(CancelCall (mkCancelRequest (sr_order_number b)
      (or_else (sr_order_branch b) "") (sr_remaining_quantity b) price), s_db s)]).
Proof.
  unfold send_cancel, mbind, stm_bind, lift_res. destruct (cancel_price local b) as [p|e] eqn:Ep; [|split; [done|left; eauto]].
  unfold call_cancel, broker_write. destruct (cancel_at_broker _ _) as [r w]. split; [done|]. right. by exists p.
Qed.

(** What a call for [x] needs besides the row of the loop. *)
Definition buy_call (orders : list KisOrderStatusRecord) (e : cancellation) : Prop :=
  bo_side (ca_local e) = "BUY" -> bo_status (ca_local e) ∈ ACTIVE_STATUSES ->
  buy_cancel_sound orders (ca_local e) (ca_row e) (ca_request e) (ca_db e).

Lemma cancel_buy_rel now orders c x : keeps (on_dbs (mgmt_rel [bo_client_order_id x])) (cancel_buy now orders c x).
Proof.
  unfold cancel_buy. destruct (dget _ _) as [b|]; [|apply cancel_problem_rel].
  destruct (negb _); [apply cancel_problem_rel|]. destruct (negb _); [apply keeps_ret, _|].
  destruct (_ || _); [apply cancel_problem_rel|].
  apply keeps_bind; [exact _|apply update_rel|intros _]. apply keeps_bind; [exact _| |].
  - apply keeps_attempt. unfold send_cancel. apply keeps_bind; [exact _|apply keeps_lift, _|intros p].
    apply dbs_broker_write, _.
  - intros [r|e]; [|apply cancel_problem_rel]. apply keeps_bind; [exact _| |intros _; apply keeps_ret, _].
    apply set_metadata_rel; [by left|right; apply dumps_markerish].
Qed.

Lemma cancel_buy_run now orders c x (s : sys W) :
  ledger_ok (s_db s) -> get_order (bo_client_order_id x) (s_db s) = Some x ->
  s_trace (cancel_buy now orders c x s).2 = s_trace s \/
  exists e, ca_local e = x /\ s_trace (cancel_buy now orders c x s).2 = s_trace s ++ [ca_call e] /\
    buy_call orders e /\ ended x (s_db (cancel_buy now orders c x s).2).
Proof.
  intros Hd Ho. unfold cancel_buy.
  destruct (dget _ (by_broker_id orders)) as [b|] eqn:Eb; [|left; apply cancel_problem_quiet].
  destruct (bool_decide (sr_side b = Some BUY)) eqn:Eside; cbn [negb]; [|left; apply cancel_problem_quiet].
  apply bool_decide_eq_true in Eside.
  destruct (bool_decide _ || bool_decide _) eqn:Est; cbn [negb]; [|by left].
  destruct (no_branch b || _) eqn:Ebad; [left; apply cancel_problem_quiet|].
  apply orb_false_iff in Ebad as [Ebr Eq]. apply Z.leb_gt in Eq.
  unfold no_branch in Ebr. destruct (sr_order_branch b) as [br|] eqn:Ebranch; [|done].
  pose proof Eb as Eb'. apply by_broker_id_spec in Eb as (Hin & Hnum & Hnn).
  destruct (bo_broker_order_id x) as [bid|] eqn:Hbid; cbn in Hnum, Hnn; [|done]. subst bid. cbn [or_else] in Eb'.
  set (up := on_db (update_broker_order_status (bo_client_order_id x) "CANCEL_PENDING" (broker_update now b None))).
  destruct (up s) as [[u|e] s1] eqn:E1.
  2: { left. rewrite (stm_bind_err _ _ _ _ _ E1). pose proof (quiet_on_db (update_broker_order_status (bo_client_order_id x)
         "CANCEL_PENDING" (broker_update now b None)) s) as H. fold up in H. rewrite E1 in H. exact H. }
  rewrite !(stm_bind_run _ _ _ _ _ E1).
  apply on_db_Ok in E1 as [E1 Ht1]. pose proof (status_nonempty _ _ _ _ _ _ E1) as Hne.
  assert (Hex : exists o, get_order (bo_client_order_id x) (s_db s1) = Some o).
  { unfold update_broker_order_status in E1. inv_ok.
    match goal with H : update_where _ _ _ _ = _ |- _ => apply update_where_Ok in H as [[_ ->]|(o & _ & _ & _ & ->)] end.
    - by exists x.
    - eexists. unfold get_order. rewrite orders_put. apply lookup_insert_eq. }
  destruct Hex as [o Ho1].
  assert (Hp : sr_filled_quantity b <= bo_requested_qty x -> exists o,
    get_order (bo_client_order_id x) (s_db s1) = Some o /\ bo_status o = "CANCEL_PENDING").
  { intros Hle. eapply status_effect in E1 as (o' & ? & _ & ?); [|exact Ho|reflexivity|exact Hle]. by exists o'. }
  pose proof (send_cancel_run x b s1) as Hs.
  destruct (send_cancel x b s1) as [r s2] eqn:Esend. rewrite !(stm_bind_run _ _ _ _ _ (attempt_run _ _ _ _ Esend)).
  destruct Hs as [Hd2 [[Ht2 [e ->]]|(price & Hprice & Ht2)]].
  { left. rewrite <- Ht1, <- Ht2. apply cancel_problem_quiet. }
  right. exists (mkCancellation x b (mkCancelRequest (sr_order_number b) br (sr_remaining_quantity b) price) (s_db s1)).
  split; [done|]. rewrite Ebranch in Ht2. cbn [or_else] in Ht2. split.
  { destruct r as [r|e].
    - destruct (set_metadata_success (pending_key (bo_client_order_id x)) (cancel_marker now) (Some now) s2) as (ts & w & E3);
        [by apply strip_head|]. rewrite (stm_bind_run _ _ _ _ _ E3). cbn. by rewrite Ht2, Ht1.
    - unfold ca_call. cbn [ca_request ca_db]. rewrite <- Ht1, <- Ht2. apply cancel_problem_quiet. }
  split.
  { intros Hb Ha. split; try done; cbn.
    - apply orb_true_iff in Est as [Est|Est]; apply bool_decide_eq_true in Est; auto.
    - split; [done|]. intros ->. done. }
  destruct r as [r|e].
  - destruct (set_metadata_success (pending_key (bo_client_order_id x)) (cancel_marker now) (Some now) s2) as (ts & w & E3);
      [by apply strip_head|]. rewrite (stm_bind_run _ _ _ _ _ E3). left. apply markerish_marked, dumps_markerish.
  - eapply cancel_problem_ended; [exact Hne|by apply strip_head|]. by rewrite Hd2.
Qed.

Lemma buy_rows d : ledger_ok d ->
  NoDup (map bo_client_order_id (cancelable_buys d)) /\
  forall x, x ∈ cancelable_buys d -> get_order (bo_client_order_id x) d = Some x /\
    bo_side x = "BUY" /\ bo_status x ∈ ACTIVE_STATUSES.
Proof.
  intros Hd. split.
  - apply NoDup_map_filter, rows_by_NoDup. intros k o Hk. by apply (lo_orders _ Hd _ _ Hk).
  - intros x Hx. unfold cancelable_buys in Hx. apply list_elem_of_In, filter_In in Hx as [Hx Hp].
    apply andb_true_iff in Hp as [Hb Ha]. apply String.eqb_eq in Hb. apply mem_str_true in Ha.
    apply list_elem_of_In, elem_of_rows_by in Hx as [k Hk].
    split; [|done]. unfold get_order. by rewrite (ok_id _ _ (lo_orders _ Hd _ _ Hk)).
Qed.

Lemma set_cancel_status_rel ids st r e k t now : keeps (on_dbs (mgmt_rel ids)) (set_cancel_status (W := W) st r e k t now).
Proof.
  unfold set_cancel_status. apply keeps_bind; [exact _| |intros _; apply keeps_ret, _]. apply plain_key_rel; [done|].
  intros id E. cbv [pending_key String.append] in E. discriminate.
Qed.

Lemma set_cancel_status_quiet st r e k t now : keeps quiet_ok (set_cancel_status (W := W) st r e k t now).
Proof. unfold set_cancel_status. apply keeps_bind; [exact _|apply set_metadata_quiet|intros _; apply keeps_ret, _]. Qed.

(** The operator's request is not pending. *)
Definition consumed (d : db) : Prop := get_metadata CANCEL_REQUEST_KEY d = Some "false".

(** Once consumed, it stays so, and every call finds it consumed. *)
Definition consumed_rel (s s' : sys W) : Prop := consumed (s_db s) ->
  consumed (s_db s') /\ exists tr, s_trace s' = s_trace s ++ tr /\ Forall (fun p => consumed p.2) tr.

#[export] Instance consumed_rel_preorder : PreOrder consumed_rel.
Proof.
  split; [intros s H; split; [done|]; exists []; by rewrite app_nil_r|].
  intros a b c H1 H2 Ha. destruct (H1 Ha) as (Hb & t1 & E1 & F1). destruct (H2 Hb) as (Hc & t2 & E2 & F2).
  split; [done|]. exists (t1 ++ t2). rewrite E2, E1, app_assoc. split; [done|]. by apply Forall_app.
Qed.

Lemma consumed_same (s s' : sys W) :
  get_metadata CANCEL_REQUEST_KEY (s_db s') = get_metadata CANCEL_REQUEST_KEY (s_db s) -> s_trace s' = s_trace s ->
  consumed_rel s s'.
Proof. intros E1 E2 H. unfold consumed. rewrite E1. split; [done|]. exists []. by rewrite app_nil_r. Qed.

Lemma consumed_on_db {A} (f : datetime -> db -> res (A * db)) :
  (forall now d a d', f now d = Ok (a, d') -> get_metadata CANCEL_REQUEST_KEY d' = get_metadata CANCEL_REQUEST_KEY d) ->
  keeps consumed_rel (on_db f).
Proof.
  intros Hf s. apply consumed_same; [|apply quiet_on_db]. unfold on_db. destruct (wall_clock (s_world s)) as [t w].
  destruct (f t (s_db s)) as [[a d]|e] eqn:E; [|done]. by eapply Hf.
Qed.

Lemma consumed_set k v t : k <> CANCEL_REQUEST_KEY -> keeps consumed_rel (set_metadata_now k v t).
Proof.
  intros Hk. apply consumed_on_db. intros now d a d' E. unfold set_runtime_metadata in E. inv_ok. cbv zeta in *. inv_ok.
  by apply metadata_put_other.
Qed.

Lemma consumed_call {A} c (m : stm W A) : keeps consumed_rel (broker_write c m).
Proof.
  intros s H. unfold broker_write. destruct (m (s_world s)) as [r w]. split; [done|]. exists [(c, s_db s)].
  split; [done|]. by constructor.
Qed.

Lemma consumed_problem id r e now c : keeps consumed_rel (cancel_problem id r e now c).
Proof.
  unfold cancel_problem, set_flags. apply keeps_bind; [exact _| |intros _].
  - apply consumed_on_db. intros ? ? ? ? E. unfold get_metadata. by rewrite (unknown_metadata _ _ _ _ _ _ _ E).
  - apply keeps_bind; [exact _| |intros _; apply keeps_ret, _].
    repeat (apply keeps_bind; [exact _|by apply consumed_set|intros _]). apply keeps_ret, _.
Qed.

Lemma consumed_buy now orders c x : keeps consumed_rel (cancel_buy now orders c x).
Proof.
  unfold cancel_buy. destruct (dget _ _) as [b|]; [|apply consumed_problem].
  destruct (negb _); [apply consumed_problem|]. destruct (negb _); [apply keeps_ret, _|].
  destruct (_ || _); [apply consumed_problem|]. apply keeps_bind; [exact _| |intros _].
  { apply consumed_on_db. intros ? ? ? ? E. unfold get_metadata. by rewrite (status_metadata _ _ _ _ _ _ _ E). }
  apply keeps_bind; [exact _| |].
  - apply keeps_attempt. unfold send_cancel. apply keeps_bind; [exact _|apply keeps_lift, _|intros p]. apply consumed_call.
  - intros [r|e]; [|apply consumed_problem]. apply keeps_bind; [exact _| |intros _; apply keeps_ret, _].
    apply consumed_set. intros E. cbv [CANCEL_REQUEST_KEY pending_key String.append] in E. discriminate.
Qed.

(** The operator asks for the cancellation of the open buys. *)
Definition cancellation_asked (d : db) : Prop := String.eqb (lower (strip (or_else (get_metadata CANCEL_REQUEST_KEY d) ""))) "true" = true.

(** The cancellations of open buys from the state [s] to [s'], with the orders
    that were read of the broker. *)
Definition buys_ok (orders : option (list KisOrderStatusRecord)) (s s' : sys W) : Prop :=
  ledger_ok (s_db s') /\ exists bs, s_trace s' = s_trace s ++ map ca_call bs /\ NoDup (map ca_id bs) /\
    forall e, e ∈ bs -> (cancellation_asked (s_db s) /\ ca_local e ∈ cancelable_buys (s_db s) /\
      exists l, orders = Some l /\ buy_cancel_sound l (ca_local e) (ca_row e) (ca_request e) (ca_db e)) /\
      consumed (ca_db e) /\ ended (ca_local e) (s_db s').

Lemma quiet_buys orders (s s' : sys W) : ledger_ok (s_db s) -> quiet_ok s s' -> buys_ok orders s s'.
Proof.
  intros Hd [H1 H2]. split; [auto|]. exists []. rewrite app_nil_r. split; [done|]. split; [constructor|].
  intros e He. by apply elem_of_nil in He.
Qed.

Lemma cancel_unavailable_quiet e now : keeps quiet_ok (cancel_unavailable (W := W) e now).
Proof.
  unfold cancel_unavailable. apply keeps_bind; [exact _|apply set_flags_quiet|intros _].
  apply keeps_bind; [exact _|apply set_cancel_status_quiet|intros _; apply keeps_ret, _].
Qed.

Lemma cancel_loop_buys now orders (s : sys W) :
  ledger_ok (s_db s) -> consumed (s_db s) ->
  let s' := (foldM (cancel_buy now orders) no_cancel_report (cancelable_buys (s_db s)) s).2 in
  ledger_ok (s_db s') /\ exists bs, s_trace s' = s_trace s ++ map ca_call bs /\ NoDup (map ca_id bs) /\
    forall e, e ∈ bs -> (ca_local e ∈ cancelable_buys (s_db s) /\
      buy_cancel_sound orders (ca_local e) (ca_row e) (ca_request e) (ca_db e)) /\ consumed (ca_db e) /\ ended (ca_local e) (s_db s').
Proof.
  intros Hd Hc. destruct (buy_rows _ Hd) as [Hnd Hrows].
  destruct (cancel_loop_run (cancel_buy now orders) (fun _ e => buy_call orders e)) with
    (l := cancelable_buys (s_db s)) (c := no_cancel_report) (s := s) as ([Hf _] & bs & Ht & Hbs & Hok); try done.
  - intros. apply cancel_buy_rel.
  - intros c x s0 Hd0 Hx. by apply cancel_buy_run.
  - intros x Hx. by apply Hrows.
  - destruct (keeps_foldM consumed_rel (cancel_buy now orders) no_cancel_report (cancelable_buys (s_db s)))
      with (s := s) as (_ & tr & Htr & Hall); [intros; apply consumed_buy|done|].
    rewrite Ht in Htr. apply app_inv_head in Htr. subst tr.
    split; [by apply Hf|]. exists bs. split; [done|]. split; [done|]. intros e He.
    destruct (Hok e He) as (Hin & Hcall & Hend). destruct (Hrows _ Hin) as (_ & Hb & Ha). split; [split; [done|by apply Hcall]|].
    split; [|done]. rewrite list.Forall_forall in Hall. apply (Hall (ca_call e)). apply list_elem_of_fmap. by exists e.
Qed.

Lemma cancel_requested_run now os oe (s : sys W) :
  ledger_ok (s_db s) -> buys_ok (management_orders None os oe s) s (cancel_requested_buys now os oe s).2.
Proof.
  intros Hd. unfold cancel_requested_buys. rewrite (stm_bind_run _ _ s (get_metadata CANCEL_REQUEST_KEY (s_db s)) s) by done.
  destruct (negb _) eqn:Easked; [by apply quiet_buys|]. apply negb_false_iff in Easked. fold (cancellation_asked (s_db s)) in Easked.
  assert (E1 : exists ts, set_metadata_now CANCEL_REQUEST_KEY "false" (Some now) s =
    (Ok ts, mkSys (put_metadata CANCEL_REQUEST_KEY "false" ts (s_db s)) (wall_clock (s_world s)).2 (s_trace s))).
  { unfold set_metadata_now, on_db. destruct (wall_clock (s_world s)). by eexists. }
  destruct E1 as (ts & E1). rewrite (stm_bind_run _ _ _ _ _ E1). unfold management_orders. set (w := (wall_clock (s_world s)).2) in *.
  set (s1 := mkSys (put_metadata CANCEL_REQUEST_KEY "false" ts (s_db s)) w (s_trace s)).
  assert (Hd1 : ledger_ok (s_db s1)).
  { apply (set_metadata_quiet CANCEL_REQUEST_KEY "false" (Some now) s) in Hd. by rewrite E1 in Hd. }
  assert (Hc1 : consumed (s_db s1)) by apply metadata_put_get.
  rewrite (stm_bind_run _ _ s1 (cancelable_buys (s_db s1)) s1) by done.
  change (cancelable_buys (s_db s1)) with (cancelable_buys (s_db s)).
  assert (Hun : forall orders e w, buys_ok orders s (cancel_unavailable e now (mkSys (s_db s1) w (s_trace s1))).2).
  { intros orders e w0. pose proof (cancel_unavailable_quiet e now (mkSys (s_db s1) w0 (s_trace s1))) as [Hq Ht].
    split; [by apply Hq|]. exists []. rewrite app_nil_r. split; [exact Ht|]. split; [constructor|]. intros x Hx. by apply elem_of_nil in Hx. }
  assert (Hrun : forall orders result l w', (cancelable_buys (s_db s) <> [] -> result = Some orders) -> l = cancelable_buys (s_db s) ->
    buys_ok result s ((c ← foldM (cancel_buy now orders) no_cancel_report l;
        _ ← set_cancel_status (if 0 <? cp_errors c then "error" else "completed") (cp_requested c) (cp_errors c)
              (cp_skipped c) (cp_error_type c) now;
        mret c) (mkSys (s_db s1) w' (s_trace s1))).2).
  { intros orders result l w' Hres El. subst l. set (s2 := mkSys (s_db s1) w' (s_trace s1)).
    pose proof (cancel_loop_buys now orders s2 Hd1 Hc1) as Hloop. cbv zeta in Hloop.
    change (cancelable_buys (s_db s2)) with (cancelable_buys (s_db s)) in Hloop.
    assert (Hok : forall s3, ledger_ok (s_db s3) -> (exists bs, s_trace s3 = s_trace s2 ++ map ca_call bs /\ NoDup (map ca_id bs) /\
        forall e, e ∈ bs -> (ca_local e ∈ cancelable_buys (s_db s) /\
          buy_cancel_sound orders (ca_local e) (ca_row e) (ca_request e) (ca_db e)) /\ consumed (ca_db e) /\ ended (ca_local e) (s_db s3)) ->
      buys_ok result s s3).
    { intros s3 Hd3 (bs & Ht & Hnd & Hok). split; [exact Hd3|]. exists bs. split; [exact Ht|]. split; [exact Hnd|]. intros e He.
      destruct (Hok e He) as [[H1 H2] H3]. split; [|exact H3]. split; [exact Easked|]. split; [exact H1|]. exists orders.
      split; [|exact H2]. apply Hres. intros E. rewrite E in H1. by apply elem_of_nil in H1. }
    unfold mbind at 1, stm_bind at 1. destruct (foldM _ _ _ s2) as [[c|e] s3]; destruct Hloop as (Hd3 & Hbs); cbn [snd] in *; [|by apply Hok].
    match goal with |- context [mbind ?f ?m s3] =>
      assert (Hq : keeps quiet_ok (mbind f m) /\ keeps (on_dbs (mgmt_rel [])) (mbind f m)) end.
    { split; (apply keeps_bind; [exact _| |intros _; apply keeps_ret, _]);
        [apply set_cancel_status_quiet|apply set_cancel_status_rel]. }
    destruct Hq as [Hq Hr]. destruct (Hq s3) as [Hq1 Hq2]. specialize (Hr s3). unfold on_dbs in Hr.
    destruct Hbs as (bs & Ht & Hnd & Hb). apply Hok; [auto|]. exists bs. split; [rewrite Hq2; exact Ht|]. split; [done|]. intros e He.
    destruct (Hb e He) as (H1 & H2 & H3). split; [done|]. split; [done|].
    eapply (ended_kept _ []); [exact Hd3|exact Hr|apply not_elem_of_nil|done]. }
  destruct oe as [e|].
  { destruct (cancelable_buys (s_db s)) as [|x l] eqn:El; [|apply Hun]. by apply (Hrun [] None [] w). }
  destruct (cancelable_buys (s_db s)) as [|x l] eqn:El; [by apply (Hrun [] _ [] w)|].
  assert (Hans : exists w', (match os with Some l => mret (Ok l) | None => attempt (on_world today_orders) end) s1 =
    (Ok (match os with Some l => Ok l | None => (today_orders w).1 end), mkSys (s_db s1) w' (s_trace s1))).
  { destruct os as [l'|]; [by exists w|]. unfold attempt, on_world, s1. cbn [s_world s_db s_trace]. destruct (today_orders w) as [r w']. by exists w'. }
  destruct Hans as (w' & Hans). rewrite (stm_bind_run _ _ _ _ _ Hans).
  destruct os as [l'|]; [by apply Hrun|]. destruct (today_orders w).1 as [orders|e]; [by apply Hrun|apply Hun].
Qed.
End CancelBuysFacts.

Section IterationFacts.
Context {W : Type} {CW : Clock W}.
Variable calendar : option (Z -> bool).
Variable exn_text : exn -> string.
Variable env_owner : option string.
Variable connect : KisEnvironment -> bool -> stm W (Broker W).
Variable monotonic : W -> float * W.
Variable sleeper : float -> stm W unit.
Variable notifier : option (string -> stm W unit).

(** Relations of the system under the supervisor's state. *)
Definition over_sys (R : sys W -> sys W -> Prop) (u u' : super W) : Prop := R (sv_sys u) (sv_sys u').

#[export] Instance over_sys_preorder (R : sys W -> sys W -> Prop) `{!PreOrder R} : PreOrder (over_sys R).
Proof. split; [intros u; unfold over_sys; reflexivity|]. intros a b c. unfold over_sys. by etrans. Qed.

Lemma over_in_sys (R : sys W -> sys W -> Prop) {A} (m : stm (sys W) A) : keeps R m -> keeps (over_sys R) (in_sys m).
Proof. intros Hm u. specialize (Hm (sv_sys u)). unfold over_sys, in_sys. by destruct (m (sv_sys u)). Qed.

Section Over.
Context (R : sys W -> sys W -> Prop) `{!PreOrder R}.
Hypothesis world_only : forall A (m : stm W A), keeps R (on_world m).

Lemma over_state : keeps (over_sys R) state.
Proof. intros u. unfold over_sys. reflexivity. Qed.

Lemma over_update f : keeps (over_sys R) (update_state f).
Proof. intros u. unfold over_sys. reflexivity. Qed.

Lemma over_refresh b : keeps (over_sys R) (refresh_if b).
Proof. destruct b; [apply over_update|apply keeps_ret, _]. Qed.

Lemma over_clock : keeps (over_sys R) (in_sys (read_monotonic monotonic)).
Proof.
  apply over_in_sys. intros s. pose proof (world_only _ (fun w => let '(t, w) := monotonic w in (Ok t, w)) s) as H.
  unfold on_world, read_monotonic in *. by destruct (monotonic (s_world s)).
Qed.

Lemma over_notify st msg : keeps (over_sys R) (notify monotonic notifier st msg).
Proof.
  unfold notify. destruct notifier as [tell|]; [|apply keeps_ret, _]. apply keeps_bind; [exact _|apply over_clock|].
  intros t. apply keeps_bind; [exact _|apply over_state|]. intros u. destruct (_ && _); [apply keeps_ret, _|].
  apply keeps_bind; [exact _|apply over_in_sys, keeps_attempt, world_only|intros _; apply over_update].
Qed.

Lemma over_announce v e p : keeps (over_sys R) (announce monotonic notifier v e p).
Proof.
  unfold announce. destruct (mem_str _ _).
  - apply keeps_bind; [exact _|apply over_update|intros _; apply over_notify].
  - apply keeps_bind; [exact _|apply over_update|intros _]. apply keeps_bind; [exact _|apply over_state|]. intros st.
    destruct (_ && _); [apply over_notify|apply keeps_ret, _].
Qed.

Lemma over_clients a e : keeps (over_sys R) (current_clients connect a e).
Proof.
  unfold current_clients. apply keeps_bind; [exact _|apply over_state|]. intros st.
  assert (Hnew : keeps (over_sys R) (c ← in_sys (on_world (connect e (ia_refresh_token a || ss_force_refresh st)));
    _ ← update_state (with_clients e c); mret c)).
  { apply keeps_bind; [exact _|apply over_in_sys, world_only|intros c].
    apply keeps_bind; [exact _|apply over_update|intros _; apply keeps_ret, _]. }
  destruct (ss_clients st); [|exact Hnew]. destruct (_ && _); [apply keeps_ret, _|exact Hnew].
Qed.

Lemma over_read_broker c t : keeps (over_sys R) (in_sys (read_broker sleeper c t)).
Proof.
  apply over_in_sys. unfold read_broker. apply keeps_bind; [exact _|apply keeps_attempt, world_only|].
  intros [l|e]; [|apply keeps_ret, _]. apply keeps_bind; [exact _| |intros _].
  - destruct (_ <? _)%F; [apply world_only|apply keeps_ret, _].
  - apply keeps_bind; [exact _|apply keeps_attempt, world_only|]. intros. apply keeps_ret, _.
Qed.
End Over.

Lemma init_quiet : keeps quiet_ok (on_db (fun _ d => Ok (tt, init_schema d))).
Proof.
  intros s. unfold on_db. destruct (wall_clock (s_world s)) as [t w]. split; [|done]. cbn. intros []. by constructor.
Qed.

Lemma heartbeat_only_metadata c at_ : keeps (db_rel only_metadata) (on_db (record_heartbeat c at_)).
Proof.
  apply keeps_on_db; [exact _|]. intros now d a d' E. unfold record_heartbeat, set_heartbeat in E.
  apply bind_Ok in E as ([] & _ & E). apply bind_Ok in E as ([t d1] & E & H). cbn in H. injection H as _ <-.
  by eapply metadata_only.
Qed.

Lemma write_status_quiet p e now : keeps quiet_ok (write_status (W := W) p e now).
Proof.
  unfold write_status. repeat (apply keeps_bind; [exact _|apply set_metadata_quiet|intros _]).
  apply keeps_bind; [exact _|apply keeps_quiet, heartbeat_only_metadata|intros _; apply keeps_ret, _].
Qed.

Notation quiet := (keeps (over_sys quiet_ok)).

Lemma quiet_in_sys {A} (m : stm (sys W) A) : keeps quiet_ok m -> quiet (in_sys m).
Proof. apply over_in_sys. Qed.

Lemma notify_quiet st msg : quiet (notify monotonic notifier st msg).
Proof. apply over_notify; [exact _|]. intros. apply on_world_quiet. Qed.

Lemma current_time_quiet a : quiet (current_time a).
Proof.
  unfold current_time. apply keeps_bind; [exact _| |intros; apply keeps_ret, _].
  destruct (ia_now a); [apply keeps_ret, _|apply quiet_in_sys, read_clock_quiet].
Qed.

Lemma write_status_metadata p e now : keeps (db_rel only_metadata) (write_status (W := W) p e now).
Proof.
  unfold write_status. do 2 (apply keeps_bind; [exact _|apply keeps_on_db; [exact _|intros; by eapply metadata_only]|intros _]).
  apply keeps_bind; [exact _|apply heartbeat_only_metadata|intros _; apply keeps_ret, _].
Qed.

Lemma lease_lost_metadata now : keeps (over_sys (db_rel only_metadata)) (lease_lost monotonic notifier now).
Proof.
  unfold lease_lost. apply keeps_bind; [exact _|apply over_update, _|intros _].
  apply keeps_bind; [exact _|apply over_in_sys, write_status_metadata|intros _].
  apply keeps_bind; [exact _|apply over_notify; [exact _|intros; apply keeps_on_world, _]|intros _; apply keeps_ret, _].
Qed.

Lemma lease_lost_quiet now : quiet (lease_lost monotonic notifier now).
Proof.
  intros u. pose proof (lease_lost_metadata now u) as [Ho Ht]. split; [|exact Ht]. intros Hd.
  exact (proj1 (only_metadata_ledger [] _ _ Ho Hd)).
Qed.

Lemma conclude_quiet v c e p now : quiet (conclude monotonic notifier v c e p now).
Proof.
  unfold conclude. apply keeps_bind; [exact _|apply over_update, _|intros _].
  apply keeps_bind; [exact _|apply over_state, _|intros st]. cbv zeta.
  apply keeps_bind; [exact _|apply quiet_in_sys, set_flags_quiet|intros _].
  apply keeps_bind; [exact _|apply quiet_in_sys, write_status_quiet|intros _].
  apply keeps_bind; [exact _|apply over_announce; [exact _|intros; apply on_world_quiet]|intros _].
  apply keeps_bind; [exact _|apply over_state, _|intros; apply keeps_ret, _].
Qed.

Lemma pass_failed_quiet a e : quiet (pass_failed exn_text monotonic notifier a e).
Proof.
  unfold pass_failed. apply keeps_bind; [exact _|apply over_update, _|intros _].
  apply keeps_bind; [exact _|apply current_time_quiet|intros now].
  apply keeps_bind; [exact _| |intros _].
  { apply quiet_in_sys, keeps_attempt. apply keeps_bind; [exact _|apply init_quiet|intros _].
    unfold mark_exception. apply keeps_bind; [exact _|apply set_flags_quiet|intros _; apply write_status_quiet]. }
  apply keeps_bind; [exact _|apply over_refresh, _|intros _].
  apply keeps_bind; [exact _|apply notify_quiet|intros _].
  apply keeps_bind; [exact _|apply over_state, _|intros; apply keeps_ret, _].
Qed.

(** ** What a pass does at the broker *)

(** Where the iteration from [u] turns to the orders: it has the time [now], the
    clients [c] of a pass with a valid lease, what they read of the broker, and the
    system after the reconciliation of that. *)
Inductive reached (a : iteration_args) (u : super W) : datetime -> Broker W -> broker_view -> sys W -> Prop :=
  | Reached expected now u0 control e c u1 view u2 report u3 :
      expected_owner (ia_expected_owner_id a) (ia_owner_id a) env_owner = Ok expected -> current_time a u = (Ok now, u0) ->
      open_pass connect a expected now u0 = (Ok (Some (control, e, c)), u1) ->
      in_sys (read_broker sleeper c (ia_read_throttle a)) u1 = (Ok view, u2) ->
      in_sys (reconcile_broker_state (BW := c) (Some now) (bv_orders view) (bv_orders_error view) (bv_account view) (bv_account_error view)) u2
        = (Ok report, u3) ->
      reached a u now c view (sv_sys u3).

(** The operator asked for the cancellation [x], of an order that was then open. *)
Definition operator_cancel (a : iteration_args) (u : super W) (x : cancellation) : Prop :=
  exists now c view s orders, reached a u now c view s /\ bv_orders view = Some orders /\
    cancellation_asked (s_db s) /\ ca_local x ∈ cancelable_buys (s_db s) /\
    buy_cancel_sound orders (ca_local x) (ca_row x) (ca_request x) (ca_db x) /\ consumed (ca_db x).

(** The cancellation [x] is of an order that is stale after the operator's cancellations. *)
Definition stale_cancel (a : iteration_args) (u : super W) (x : cancellation) : Prop :=
  exists now c view s orders report s1 policy, reached a u now c view s /\ bv_orders view = Some orders /\
    cancel_requested_buys (BW := c) now (bv_orders view) (bv_orders_error view) s = (Ok report, s1) /\
    management_config (ia_buy_ttl a) (ia_sell_ttl a) = Ok policy /\ ca_local x ∈ open_orders (s_db s1) /\
    cancel_sound calendar now policy orders (ca_local x) (ca_row x) (ca_request x) (ca_db x).

(** The calls of the iteration from [u] to [u']: cancellations [bs] on the operator's
    request, then cancellations [cs] of stale orders. *)
Record supervised (a : iteration_args) (u u' : super W) (bs cs : list cancellation) : Prop := {
  sp_trace : s_trace (sv_sys u') = s_trace (sv_sys u) ++ map ca_call (bs ++ cs);
  sp_once : NoDup (map ca_id (bs ++ cs));
  sp_buys : forall x, x ∈ bs -> operator_cancel a u x;
  sp_stale : forall x, x ∈ cs -> stale_cancel a u x;
}.

Definition supervision (a : iteration_args) (u u' : super W) : Prop :=
  ledger_ok (s_db (sv_sys u')) /\ exists bs cs, supervised a u u' bs cs.

(** Nothing was called since [u]. *)
Definition still (u u1 : super W) : Prop := ledger_ok (s_db (sv_sys u1)) /\ s_trace (sv_sys u1) = s_trace (sv_sys u).

Lemma supervision_still a u u1 : still u u1 -> supervision a u u1.
Proof.
  intros [Hd Ht]. split; [exact Hd|]. exists [], []. split; cbn; [by rewrite app_nil_r|constructor| |]; intros x Hx; by apply elem_of_nil in Hx.
Qed.

Lemma supervision_after a u u1 u2 : supervision a u u1 -> over_sys quiet_ok u1 u2 -> supervision a u u2.
Proof.
  intros (Hd & bs & cs & [S1 S2 S3 S4]) [H1 H2]. split; [auto|]. exists bs, cs. split; try done. by rewrite H2, S1.
Qed.

Lemma supervises_l a u {A B} (m : stm (super W) A) (f : A -> stm (super W) B) u1 : quiet m -> still u u1 ->
  (forall x u2, m u1 = (Ok x, u2) -> still u u2 -> supervision a u (f x u2).2) -> supervision a u (mbind f m u1).2.
Proof.
  intros Hm [Hd Ht] Hf. destruct (Hm u1) as [H1 H2]. unfold mbind, stm_bind. destruct (m u1) as [[x|e] u2]; cbn [snd] in *.
  - apply Hf; [done|]. split; [auto|congruence].
  - apply supervision_still. split; [auto|congruence].
Qed.

(** The stale stage after the operator's cancellations: no order of the first
    stage is cancelled in the second. *)
Lemma stages_compose {BW : Broker W} now policy orders orders' (s s1 s2 : sys W) :
  buys_ok orders s s1 -> cycle_ok calendar now policy orders' s1 s2 -> exists bs cs,
  s_trace s2 = s_trace s ++ map ca_call (bs ++ cs) /\ NoDup (map ca_id (bs ++ cs)) /\
  (forall e, e ∈ bs -> (cancellation_asked (s_db s) /\ ca_local e ∈ cancelable_buys (s_db s) /\
      exists l, orders = Some l /\ buy_cancel_sound l (ca_local e) (ca_row e) (ca_request e) (ca_db e)) /\ consumed (ca_db e)) /\
  (forall e, e ∈ cs -> ca_local e ∈ open_orders (s_db s1) /\
      exists l, orders' = Some l /\ cancel_sound calendar now policy l (ca_local e) (ca_row e) (ca_request e) (ca_db e)).
Proof.
  intros (Hd1 & bs & Ht1 & Hn1 & Hb) (_ & _ & cs & Ht2 & Hn2 & Hc). exists bs, cs.
  split; [by rewrite Ht2, Ht1, map_app, app_assoc|]. split; [|split; [intros e He; destruct (Hb e He) as (? & ? & _); done|]].
  2: { intros e He. destruct (Hc e He) as (l & El & ? & ? & _). eauto. }
  rewrite map_app. apply list.NoDup_app. split; [done|]. split; [|done]. intros id Hin1 Hin2.
  apply list_elem_of_fmap in Hin1 as (e1 & -> & He1). apply list_elem_of_fmap in Hin2 as (e2 & Heq & He2).
  destruct (Hb e1 He1) as (_ & _ & Hend). destruct (Hc e2 He2) as (l & _ & Hrow & Hs & Hum & _).
  destruct Hend as [Hm|[(o & Ho & Hst) _]]; [by apply Hum; rewrite <- Heq|].
  destruct (open_rows _ Hd1) as [_ Hrows]. pose proof (Hrows _ Hrow) as Hg. unfold ca_id in Heq. rewrite <- Heq, Ho in Hg.
  injection Hg as ->. pose proof (cs_active _ _ _ _ _ _ _ _ Hs) as Ha. rewrite Hst in Ha.
  unfold ACTIVE_STATUSES in Ha. set_solver.
Qed.

(** The orders of both stages are those of the view. *)
Lemma view_orders c throttle (s s1 : sys W) view ct s2 l : read_broker sleeper c throttle s = (Ok view, s1) ->
  management_orders (BW := c) ct (bv_orders view) (bv_orders_error view) s2 = Some l -> bv_orders view = Some l.
Proof.
  unfold read_broker. intros H. apply stm_bind_Ok in H as (answer & s3 & _ & H). destruct answer as [l'|e].
  - apply stm_bind_Ok in H as (u & s4 & _ & H). apply stm_bind_Ok in H as (account & s5 & _ & H). injection H as <- _.
    by destruct account.
  - by injection H as <- _.
Qed.

Lemma supervise_supervises a expected control e (c : Broker W) now u u0 u1 :
  expected_owner (ia_expected_owner_id a) (ia_owner_id a) env_owner = Ok expected -> current_time a u = (Ok now, u0) ->
  open_pass connect a expected now u0 = (Ok (Some (control, e, c)), u1) -> still u u1 ->
  supervision a u (supervise calendar sleeper a c now u1).2.
Proof.
  intros He Hnow Hopen H1. unfold supervise.
  apply supervises_l; [apply over_read_broker; [exact _|intros; apply on_world_quiet]|done|]. intros view u2 Hview H2.
  apply supervises_l; [apply quiet_in_sys; intros s; apply (reconcile_quiet (BW := c))|done|]. intros report u3 Hrep H3.
  pose proof (Reached a u expected now u0 control e c u1 view u2 report u3 He Hnow Hopen Hview Hrep) as Hreach.
  assert (Hvo : forall ct s2 l, management_orders (BW := c) ct (bv_orders view) (bv_orders_error view) s2 = Some l -> bv_orders view = Some l).
  { intros ct s2 l. unfold in_sys in Hview. destruct (read_broker sleeper c (ia_read_throttle a) (sv_sys u1)) as [r s3] eqn:Er.
    injection Hview as -> _. by eapply view_orders. }
  assert (Hr : exists st, refresh_if (report_needs_refresh report) u3 = (Ok tt, mkSuper st (sv_sys u3))).
  { unfold refresh_if. destruct (report_needs_refresh report); [by exists (with_refresh (sv_state u3))|exists (sv_state u3); by destruct u3]. }
  destruct Hr as [st3 Hr]. rewrite (stm_bind_run _ _ _ _ _ Hr). clear Hr.
  destruct H3 as [Hd3 Ht3]. set (s := sv_sys u3) in *.
  pose proof (cancel_requested_run (BW := c) now (bv_orders view) (bv_orders_error view) s Hd3) as Hb.
  unfold mbind at 1, stm_bind at 1, in_sys at 1. cbn [sv_sys sv_state].
  destruct (cancel_requested_buys now (bv_orders view) (bv_orders_error view) s) as [cr s1] eqn:Ecr; cbn [snd] in Hb.
  assert (Hnone : forall st, supervision a u (mkSuper st s1)).
  { intros st. destruct Hb as (Hd1 & bs & Ht & Hn & Hb). split; [exact Hd1|]. exists bs, []. split; rewrite ?app_nil_r; try done.
    - cbn [sv_sys]. by rewrite Ht, Ht3.
    - intros x Hx. destruct (Hb x Hx) as ((Ha & Hin & l & Hl & Hs) & Hc & _). exists now, c, view, s, l. split_and!; try done. by eapply Hvo.
    - intros x Hx. by apply elem_of_nil in Hx. }
  destruct cr as [cr|x]; [|apply Hnone].
  set (u4 := mkSuper st3 s1).
  assert (Hr : exists st, refresh_if (auth_error_option (cp_error_type cr)) u4 = (Ok tt, mkSuper st s1)).
  { unfold refresh_if. destruct (auth_error_option _); [by exists (with_refresh st3)|by exists st3]. }
  destruct Hr as [st Hr]. rewrite (stm_bind_run _ _ _ _ _ Hr). unfold mbind at 1, stm_bind at 1, in_sys.
  unfold mbind at 1, stm_bind at 1, lift_res. cbn [sv_sys sv_state].
  destruct (management_config (ia_buy_ttl a) (ia_sell_ttl a)) as [config|x] eqn:Econf; [|by apply Hnone].
  pose proof (manage_run (BW := c) calendar (Some now) (Some config) None (bv_orders view) (bv_orders_error view) s1 (proj1 Hb)) as Hcy.
  destruct (stages_compose _ _ _ _ _ _ _ Hb Hcy) as (bs & cs & Ht & Hn & Hbs & Hcs).
  assert (Hfin : forall st' s2, s2 = (manage_stale_orders calendar (Some now) (Some config) None (bv_orders view) (bv_orders_error view) s1).2 ->
    supervision a u (mkSuper st' s2)).
  { intros st' s2 ->. split; [apply Hcy|]. exists bs, cs. split; [cbn [sv_sys]; by rewrite Ht, Ht3|exact Hn| |].
    - intros x Hx. destruct (Hbs x Hx) as ((Ha & Hin & l & Hl & Hs) & Hc). exists now, c, view, s, l. split_and!; try done. by eapply Hvo.
    - intros x Hx. destruct (Hcs x Hx) as (Hin & l & Hl & Hs). exists now, c, view, s, l, cr, s1, config. split_and!; try done. by eapply Hvo. }
  destruct (manage_stale_orders _ _ _ _ _ _ s1) as [[m|x] s2]; by apply Hfin.
Qed.

Lemma open_pass_quiet a expected now : quiet (open_pass connect a expected now).
Proof.
  unfold open_pass. apply keeps_bind; [exact _|apply quiet_in_sys, init_quiet|intros _].
  apply keeps_bind; [exact _|apply quiet_in_sys, keeps_query, _|intros valid]. apply keeps_bind; [exact _|apply keeps_lift, _|].
  intros [|]; cbn [negb]; [|apply keeps_ret, _].
  apply keeps_bind; [exact _|apply quiet_in_sys, keeps_query, _|intros control].
  apply keeps_bind; [exact _|apply quiet_in_sys, keeps_query, _|intros env]. apply keeps_bind; [exact _|apply keeps_lift, _|intros e].
  apply keeps_bind; [exact _|apply over_clients; [exact _|intros; apply on_world_quiet]|intros c]. apply keeps_ret, _.
Qed.

Lemma pass_supervises a expected now u u0 :
  expected_owner (ia_expected_owner_id a) (ia_owner_id a) env_owner = Ok expected -> current_time a u = (Ok now, u0) -> still u u0 ->
  supervision a u (supervised_pass calendar connect monotonic sleeper notifier a expected now u0).2.
Proof.
  intros He Hnow H0. unfold supervised_pass. apply supervises_l; [apply open_pass_quiet|done|].
  intros [[[control e] c]|] u1 Hopen H1; [|eapply supervision_after; [by apply supervision_still|apply lease_lost_quiet]].
  pose proof (supervise_supervises a expected control e c now u u0 u1 He Hnow Hopen H1) as Hs.
  unfold mbind, stm_bind. destruct (supervise calendar sleeper a c now u1) as [[judged|x] u2]; cbn [snd] in *; [|exact Hs].
  eapply supervision_after; [exact Hs|apply conclude_quiet].
Qed.

(** ** What a pass persists *)

Definition flags_are (r b : bool) (s : sys W) : Prop :=
  get_metadata "operator_review" (s_db s) = Some (flag_text r) /\
  get_metadata "block_new_entries" (s_db s) = Some (flag_text b).

Definition flags_kept (s s' : sys W) : Prop := forall r b, flags_are r b s -> flags_are r b s'.

#[export] Instance flags_kept_preorder : PreOrder flags_kept.
Proof. split; [by intros s r b|]. intros x y z H1 H2 r b H. by apply H2, H1. Qed.

Lemma flags_kept_set k v t : k <> "operator_review" -> k <> "block_new_entries" ->
  keeps flags_kept (set_metadata_now (W := W) k v t).
Proof.
  intros H1 H2 s r b [Hr Hb]. unfold flags_are, set_metadata_now, on_db. destruct (wall_clock (s_world s)) as [n w].
  unfold set_runtime_metadata. destruct (require_nonempty k "key") as [[]|]; [|done]. cbn.
  by rewrite !metadata_put_other.
Qed.

Lemma flags_kept_world {A} (m : stm W A) : keeps flags_kept (on_world m).
Proof. intros s r b H. unfold on_world. by destruct (m (s_world s)). Qed.

Lemma write_status_run p e now (s : sys W) r b : flags_are r b s -> exists s',
  write_status p e now s = (Ok tt, s') /\ flags_are r b s'.
Proof.
  intros Hf. unfold write_status.
  destruct (set_metadata_success STATUS_KEY (dumps (sort_keys p)) (Some now) s) as (t1 & w1 & E1); [done|].
  assert (H1 : flags_are r b (mkSys (put_metadata STATUS_KEY (dumps (sort_keys p)) t1 (s_db s)) w1 (s_trace s))).
  { pose proof (flags_kept_set STATUS_KEY (dumps (sort_keys p)) (Some now) ltac:(done) ltac:(done) s r b Hf) as H. by rewrite E1 in H. }
  rewrite (stm_bind_run _ _ _ _ _ E1). match type of H1 with flags_are _ _ ?s1 => set (u1 := s1) in * end.
  destruct (set_metadata_success LAST_ERROR_KEY (or_else (or_text e None) "none") (Some now) u1) as (t2 & w2 & E2); [done|].
  pose proof (flags_kept_set LAST_ERROR_KEY (or_else (or_text e None) "none") (Some now) ltac:(done) ltac:(done) u1 r b H1) as H2.
  rewrite E2 in H2. rewrite (stm_bind_run _ _ _ _ _ E2). clear E2. match type of H2 with flags_are _ _ (?x, ?s2).2 => set (u2 := s2) in * end.
  unfold mbind, stm_bind, on_db. destruct (wall_clock (s_world u2)) as [n w]. cbn -[u2]. eexists. split; [done|].
  destruct H2 as [Hr Hb]. cbn -[u2] in Hr, Hb. split; cbn -[u2]; by rewrite metadata_put_other.
Qed.

Lemma notify_run st msg u : exists u', notify monotonic notifier st msg u = (Ok tt, u').
Proof.
  unfold notify. destruct notifier as [tell|]; [|by eexists]. unfold mbind, stm_bind, in_sys, read_monotonic, state, gets.
  destruct (monotonic _) as [t w]. cbn. destruct (_ && _); [by eexists|].
  unfold attempt, on_world. cbn. destruct (tell msg w) as [x w']. by eexists.
Qed.

Lemma current_time_run a u : exists now s, current_time a u = (Ok now, mkSuper (sv_state u) s) /\ flags_kept (sv_sys u) s.
Proof.
  unfold current_time, mbind, stm_bind. destruct (ia_now a) as [t|].
  - eexists _, (sv_sys u). split; [by destruct u|reflexivity].
  - unfold in_sys, read_clock. destruct (wall_clock _) as [t w]. eexists _, _. split; [done|]. by intros r b H.
Qed.

Lemma conclude_persists v c e p now u r u' :
  conclude monotonic notifier v c e p now u = (Ok r, u') ->
  flags_are (vd_review v) (vd_block v) (sv_sys u') /\ os_status r = vd_status v /\
  os_operator_review r = vd_review v /\ os_block_new_entries r = vd_block v.
Proof.
  unfold conclude. intros H. apply stm_bind_Ok in H as ([] & u1 & _ & H). apply stm_bind_Ok in H as (st & u2 & _ & H).
  cbv zeta in H. apply stm_bind_Ok in H as ([] & u3 & E3 & H). apply stm_bind_Ok in H as ([] & u4 & E4 & H).
  apply stm_bind_Ok in H as ([] & u5 & E5 & H). apply stm_bind_Ok in H as (st' & u6 & E6 & H).
  injection E6 as <- <-. injection H as <- <-. split_and!; try done.
  assert (H3 : flags_are (vd_review v) (vd_block v) (sv_sys u3)).
  { unfold in_sys in E3. destruct (flags_run (vd_review v) (vd_block v) now (sv_sys u2)) as (s' & Ef & Hr & Hb & _).
    rewrite Ef in E3. injection E3 as <-. by split. }
  assert (H4 : flags_are (vd_review v) (vd_block v) (sv_sys u4)).
  { unfold in_sys in E4. match type of E4 with context [write_status ?p ?e ?n ?s] =>
      destruct (write_status_run p e n s _ _ H3) as (s' & Ew & Hw) end.
    rewrite Ew in E4. by injection E4 as <-. }
  pose proof (over_announce flags_kept (fun A m => flags_kept_world m) v (environment_value e) p u4) as H5.
  rewrite E5 in H5. by apply H5.
Qed.

Lemma pass_failed_run a e u : exists r u', pass_failed exn_text monotonic notifier a e u = (Ok r, u') /\
  flags_are true true (sv_sys u') /\ os_status r = "error" /\ os_operator_review r = true /\ os_block_new_entries r = true.
Proof.
  unfold pass_failed. rewrite (stm_bind_run _ _ u tt (mkSuper (with_healthy 0 (sv_state u)) (sv_sys u))) by done.
  destruct (current_time_run a (mkSuper (with_healthy 0 (sv_state u)) (sv_sys u))) as (now & s & E & _).
  rewrite (stm_bind_run _ _ _ _ _ E). clear E. cbn [sv_state].
  assert (Hm : exists s', attempt (_ ← on_db (fun _ d => Ok (tt, init_schema d)); mark_exception e now) s = (Ok (Ok tt), s') /\
    flags_are true true s').
  { unfold attempt, mbind at 1, stm_bind at 1, on_db. destruct (wall_clock (s_world s)) as [t w].
    set (s1 := mkSys (init_schema (s_db s)) w (s_trace s)). unfold mark_exception. cbv zeta.
    destruct (flags_run true true now s1) as (s2 & E2 & Hr & Hb & _). rewrite (stm_bind_run _ _ _ _ _ E2).
    match goal with |- context [write_status ?p ?e ?n s2] =>
      destruct (write_status_run p e n s2 true true) as (s3 & E3 & H3) end; [by split|].
    rewrite E3. by exists s3. }
  destruct Hm as (s' & Em & Hf).
  rewrite (stm_bind_run _ _ _ (Ok tt) (mkSuper (with_healthy 0 (sv_state u)) s')) by (unfold in_sys; cbn [sv_sys]; by rewrite Em).
  set (u3 := mkSuper (with_healthy 0 (sv_state u)) s').
  assert (Hr : exists u4, refresh_if (auth_error_exn exn_text e) u3 = (Ok tt, u4) /\ sv_sys u4 = s').
  { unfold refresh_if. destruct (auth_error_exn _ e); by eexists. }
  destruct Hr as (u4 & E4 & Hs4). rewrite (stm_bind_run _ _ _ _ _ E4).
  match goal with |- context [notify _ _ ?st ?msg] => destruct (notify_run st msg u4) as (u5 & E5);
    pose proof (over_notify flags_kept (fun A m => flags_kept_world m) st msg u4) as Hk end.
  rewrite (stm_bind_run _ _ _ _ _ E5). rewrite E5 in Hk. eexists _, u5. split; [done|]. split_and!; try done.
  apply Hk. by rewrite Hs4.
Qed.

Lemma lease_lost_run now u : exists u', lease_lost monotonic notifier now u = (Ok lease_invalid_result, u').
Proof.
  unfold lease_lost. rewrite (stm_bind_run _ _ u tt (mkSuper (with_healthy 0 (sv_state u)) (sv_sys u))) by done.
  set (u1 := mkSuper _ _).
  assert (Hw : forall p e, exists u2, in_sys (write_status p e now) u1 = (Ok tt, u2)).
  { intros p e. unfold in_sys, write_status.
    destruct (set_metadata_success STATUS_KEY (dumps (sort_keys p)) (Some now) (sv_sys u1)) as (t1 & w1 & E1); [done|].
    rewrite (stm_bind_run _ _ _ _ _ E1).
    match type of E1 with _ = (_, ?s1) =>
      destruct (set_metadata_success LAST_ERROR_KEY (or_else (or_text e None) "none") (Some now) s1) as (t2 & w2 & E2); [done|] end.
    rewrite (stm_bind_run _ _ _ _ _ E2). unfold mbind, stm_bind, on_db. cbn [s_world s_db s_trace].
    destruct (wall_clock w2) as [n w]. cbn. by eexists. }
  match goal with |- context [write_status ?p ?e now] => destruct (Hw p e) as (u2 & E2) end.
  rewrite (stm_bind_run _ _ _ _ _ E2).
  match goal with |- context [notify _ _ ?st ?msg] => destruct (notify_run st msg u2) as (u3 & E3) end.
  rewrite (stm_bind_run _ _ _ _ _ E3). by exists u3.
Qed.

(** Without a valid lease an iteration only writes its status. *)
Lemma iteration_without_lease a expected u :
  (ia_buy_ttl a <? fzero)%F = false -> (ia_sell_ttl a <? fzero)%F = false -> (ia_read_throttle a <? fzero)%F = false ->
  expected_owner (ia_expected_owner_id a) (ia_owner_id a) env_owner = Ok expected ->
  (forall now, lease_is_valid expected now (init_schema (s_db (sv_sys u))) = Ok false) ->
  exists u', one_iteration calendar exn_text env_owner connect monotonic sleeper notifier a u = (Ok lease_invalid_result, u') /\
    s_trace (sv_sys u') = s_trace (sv_sys u) /\ only_metadata (init_schema (s_db (sv_sys u))) (s_db (sv_sys u')).
Proof.
  intros Hb Hs Ht Ho Hl. unfold one_iteration. rewrite Hb, Hs, Ht, Ho.
  rewrite (stm_bind_run _ _ u tt u), (stm_bind_run _ _ u tt u), (stm_bind_run _ _ u expected u) by done.
  assert (Hc : exists now s, current_time a u = (Ok now, mkSuper (sv_state u) s) /\ s_db s = s_db (sv_sys u) /\
    s_trace s = s_trace (sv_sys u)).
  { unfold current_time, mbind, stm_bind. destruct (ia_now a) as [t|]; [eexists _, (sv_sys u); split; [by destruct u|done]|].
    unfold in_sys, read_clock. destruct (wall_clock _) as [t w]. by eexists _, _. }
  destruct Hc as (now & s & E & Hd & Htr). rewrite (stm_bind_run _ _ _ _ _ E). clear E.
  unfold catch, supervised_pass.
  assert (Hi : exists w, in_sys (on_db (fun _ d => Ok (tt, init_schema d))) (mkSuper (sv_state u) s) =
    (Ok tt, mkSuper (sv_state u) (mkSys (init_schema (s_db s)) w (s_trace s)))).
  { unfold in_sys, on_db. cbn [sv_sys]. destruct (wall_clock (s_world s)) as [t w]. by exists w. }
  destruct Hi as (w & Ei). set (u1 := mkSuper (sv_state u) (mkSys (init_schema (s_db s)) w (s_trace s))).
  assert (Eo : open_pass connect a expected now (mkSuper (sv_state u) s) = (Ok None, u1)).
  { unfold open_pass. rewrite (stm_bind_run _ _ _ _ _ Ei).
    rewrite (stm_bind_run _ _ u1 (lease_is_valid expected now (init_schema (s_db s))) u1) by done.
    rewrite Hd, Hl, (stm_bind_run _ _ u1 false u1) by done. done. }
  rewrite (stm_bind_run _ _ _ _ _ Eo).
  destruct (lease_lost_run now u1) as (u' & E). rewrite E. exists u'. split; [done|].
  pose proof (lease_lost_metadata now u1) as [H1 H2]. rewrite E in H1, H2. cbn in H1, H2. rewrite Hd in H1.
  split; [congruence|done].
Qed.

Lemma pass_persists a expected now u r u' :
  supervised_pass calendar connect monotonic sleeper notifier a expected now u = (Ok r, u') ->
  os_status r <> "lease_invalid" ->
  flags_are (os_operator_review r) (os_block_new_entries r) (sv_sys u') /\ (os_status r = "error" -> False).
Proof.
  intros H Hn. unfold supervised_pass in H. apply stm_bind_Ok in H as ([[[control e] c]|] & u1 & _ & H).
  - apply stm_bind_Ok in H as (judged & u2 & Hjudged & H). apply conclude_persists in H as (Hf & Hs & Hr & Hb).
    rewrite Hr, Hb, Hs. split; [done|]. intros He.
    match goal with E : supervise _ _ _ _ _ _ = (Ok ?j, _) |- _ => clear - E He; revert E He end.
    unfold supervise. intros E He. do 6 (apply stm_bind_Ok in E as (? & ? & _ & E)). injection E as <- <-.
    unfold judge in He. cbn in He. repeat case_match; done.
  - unfold lease_lost in H. do 3 (apply stm_bind_Ok in H as (? & ? & _ & H)). by injection H as <- _.
Qed.
End IterationFacts.

(** ** Properties *)

(** C11: what a supervisor does at the broker.  Whatever the broker answers and
    wherever a pass fails, an iteration keeps the ledger well formed and its only
    calls are cancellations of distinct local orders, on the orders that this
    iteration read of the broker after it found a valid lease, with the ledger as
    its reconciliation left it: first those of open BUY orders, when the operator's
    request was pending there, each matched by number with a working BUY row at the
    broker and persisted as CANCEL_PENDING, with the request already consumed; then
    the sound cancellations of the orders still open after that and stale by this
    iteration's policy at its time.  No order is cancelled by both stages, and
    nothing is ever submitted. *)
Theorem supervisor_cancels_soundly {W} {CW : Clock W} calendar exn_text env_owner connect monotonic sleeper notifier a
    (u : super W) :
  ledger_ok (s_db (sv_sys u)) ->
  let u' := (one_iteration calendar exn_text env_owner connect monotonic sleeper notifier a u).2 in
  ledger_ok (s_db (sv_sys u')) /\ exists bs cs, supervised calendar env_owner connect sleeper a u u' bs cs.
Proof.
  intros Hd u'. change (supervision calendar env_owner connect sleeper a u u'). unfold u', one_iteration. clear u'.
  assert (H0 : still u u) by (by split).
  apply supervises_l; [apply keeps_lift, _|done|]. intros _ ? [= _ <-] _. apply supervises_l; [apply keeps_lift, _|done|]. intros _ ? [= _ <-] _.
  apply supervises_l; [apply keeps_lift, _|done|]. intros expected ? [= He <-] _.
  apply supervises_l; [apply current_time_quiet|done|]. intros now u0 Hnow H1.
  unfold catch. pose proof (pass_supervises calendar env_owner connect monotonic sleeper notifier a expected now u u0 He Hnow H1) as Hp.
  destruct (supervised_pass _ _ _ _ _ _ _ _ u0) as [[r|e] u1]; cbn [snd] in *; [done|].
  eapply supervision_after; [exact Hp|apply pass_failed_quiet].
Qed.

(** C30: an iteration with valid parameters always returns a result, however the
    pass fails; unless the lease was lost, the review and entry-block flags it
    reports are the ones it persisted, and a failed pass reports and persists
    both. *)
Theorem iteration_never_raises {W} {CW : Clock W} calendar exn_text env_owner connect monotonic sleeper notifier a
    (u : super W) :
  (ia_buy_ttl a <? fzero)%F = false -> (ia_sell_ttl a <? fzero)%F = false -> (ia_read_throttle a <? fzero)%F = false ->
  is_ok (expected_owner (ia_expected_owner_id a) (ia_owner_id a) env_owner) = true ->
  exists r u', one_iteration calendar exn_text env_owner connect monotonic sleeper notifier a u = (Ok r, u') /\
    (os_status r <> "lease_invalid" -> flags_are (os_operator_review r) (os_block_new_entries r) (sv_sys u')) /\
    (os_status r = "error" -> os_operator_review r = true /\ os_block_new_entries r = true).
Proof.
  intros Hb Hs Ht Ho. unfold one_iteration. rewrite Hb, Hs, Ht.
  destruct (expected_owner _ _ _) as [expected|]; [|done].
  rewrite (stm_bind_run _ _ u tt u), (stm_bind_run _ _ u tt u), (stm_bind_run _ _ u expected u) by done.
  destruct (current_time_run a u) as (now & s & E & _). rewrite (stm_bind_run _ _ _ _ _ E). unfold catch.
  destruct (supervised_pass _ _ _ _ _ _ _ _ _) as [[r|e] u1] eqn:Ep.
  - exists r, u1. split; [done|]. destruct (decide (os_status r = "lease_invalid")) as [Hl|Hl].
    + split; [done|]. by rewrite Hl.
    + destruct (pass_persists _ _ _ _ _ _ _ _ _ _ _ Ep Hl) as [Hf Hn]. by split.
  - destruct (pass_failed_run exn_text monotonic notifier a e u1) as (r & u' & -> & Hf & Hst & Hr & Hbl).
    exists r, u'. rewrite Hr, Hbl. by split_and!.
Qed.

(** Fact: a recovery after a failed pass is never announced.  Failures are noted as
    [error:...] while the announcement of recovery looks for [error], so healthy
    passes after a failed one send no notification, however many there are. *)
Theorem recovery_after_error_unannounced {W} monotonic (notifier : option (string -> stm W unit)) v env paused e (u : super W) :
  vd_status v = "reconciled" -> ss_last_notification_state (sv_state u) = Some ("error:" +:+ sanitized_error e) ->
  announce monotonic notifier v env paused u =
    (Ok tt, mkSuper (with_healthy (ss_healthy_iterations (sv_state u) + 1) (sv_state u)) (sv_sys u)).
Proof.
  intros Hv Hl. unfold announce. rewrite Hv. change (mem_str "reconciled" _) with false.
  unfold mbind, stm_bind, update_state, state, gets. cbn -[String.append Z.add Z.leb mem_str]. rewrite Hl.
  assert (Hm : mem_str ("error:" +:+ sanitized_error e)
    ["reconciled_operator_review"; "dependency_unavailable"; "error"; "lease_invalid"] = false).
  { apply not_true_iff_false. rewrite mem_str_true, !elem_of_cons, elem_of_nil. cbv [String.append].
    intros [H|[H|[H|[H|H]]]]; try discriminate; done. }
  by rewrite Hm, andb_false_r.
Qed.

(** Fact: a thread whose service lease is lost stops in its first pass: it reports
    [lease_invalid], makes no call at the broker and leaves every table but the
    metadata as it was (the control row aside, which the first opening of the
    database creates). *)
Theorem lost_lease_stops_thread {W} {CW : Clock W} calendar exn_text env_owner connect monotonic sleeper notifier
    stop_is_set stop_wait fuel interval a expected (u : super W) :
  (interval <=? fzero)%F || (ia_buy_ttl a <? fzero)%F || (ia_sell_ttl a <? fzero)%F || (ia_read_throttle a <? fzero)%F = false ->
  expected_owner (ia_expected_owner_id a) (ia_owner_id a) env_owner = Ok expected ->
  (forall now, lease_is_valid expected now (init_schema (s_db (sv_sys u))) = Ok false) ->
  (stop_is_set (s_world (sv_sys u))).1 = false ->
  exists u', run_order_supervisor calendar exn_text env_owner connect monotonic sleeper notifier stop_is_set stop_wait
      (S fuel) interval a u = (Ok (Some (Some lease_invalid_result)), u') /\
    s_trace (sv_sys u') = s_trace (sv_sys u) /\ only_metadata (init_schema (s_db (sv_sys u))) (s_db (sv_sys u')).
Proof.
  intros Hp Ho Hl Hs. apply orb_false_iff in Hp as [Hp Ht]. apply orb_false_iff in Hp as [Hp Hsell].
  apply orb_false_iff in Hp as [Hi Hb]. unfold run_order_supervisor. rewrite Hi, Hb, Hsell, Ht.
  rewrite (stm_bind_run _ _ u tt u) by done.
  rewrite (stm_bind_run _ _ u tt (mkSuper new_supervisor_state (sv_sys u))) by done. cbn [supervisor_loop].
  destruct (stop_is_set (s_world (sv_sys u))) as [stopped w] eqn:Estop. cbn in Hs. subst stopped.
  rewrite (stm_bind_run (read_world stop_is_set) _ _ false
    (mkSuper new_supervisor_state (mkSys (s_db (sv_sys u)) w (s_trace (sv_sys u)))))
    by (unfold read_world, in_sys, on_world; cbn [sv_sys]; by rewrite Estop).
  destruct (monotonic w) as [t w2] eqn:Et.
  rewrite (stm_bind_run (in_sys (read_monotonic monotonic)) _ _ t
    (mkSuper new_supervisor_state (mkSys (s_db (sv_sys u)) w2 (s_trace (sv_sys u)))))
    by (unfold in_sys, read_monotonic; cbn [sv_sys s_world]; by rewrite Et).
  destruct (iteration_without_lease calendar exn_text env_owner connect monotonic sleeper notifier (thread_args a) expected
    (mkSuper new_supervisor_state (mkSys (s_db (sv_sys u)) w2 (s_trace (sv_sys u))))) as (u' & E & H1 & H2); try done.
  rewrite (stm_bind_run _ _ _ _ _ E). exists u'. by split_and!.
Qed.

(** ** Witnesses *)

(** The acknowledged BUY of [Reconciliation], a live lease, and the operator's
    request to cancel open buys. *)
Definition w_lease : service_lease :=
  mkLease "svc" (iso w_clock) (iso w_clock) (iso (dt_add w_clock (3600 * us_per_second))).
Definition w_supervised_db : db :=
  put_metadata CANCEL_REQUEST_KEY "true" (iso w_clock) (put_lease SERVICE_LEASE_NAME w_lease w_submitted).
Definition w_super : super unit := mkSuper new_supervisor_state (mkSys w_supervised_db tt []).
#[local] Instance w_machine_clock : Clock unit := fun u => (w_clock, u).
Definition w_connect (e : KisEnvironment) (refresh : bool) : stm unit (Broker unit) :=
  mret (w_broker [w_open_order] []).
Definition w_monotonic (u : unit) : float * unit := (fzero, u).
Definition w_sleeper (t : float) : stm unit unit := mret tt.
Definition w_args : iteration_args := mkIterationArgs (f_of_Z 60) (f_of_Z 30) false (Some "svc") None None fzero.
Definition w_iteration : res OrderSupervisorResult * super unit :=
  one_iteration w_calendar (fun _ => "") None w_connect w_monotonic w_sleeper None w_args w_super.
Definition w_failing_connect (e : KisEnvironment) (refresh : bool) : stm unit (Broker unit) :=
  raise (ValueError "credentials").

Lemma supervisor_cancels_soundly_witness :
  map fst (s_trace (sv_sys w_iteration.2)) = [CancelCall (mkCancelRequest "b1" "91252" 10 70000)] /\
  exists bs cs, supervised w_calendar None w_connect w_sleeper w_args w_super w_iteration.2 bs cs.
Proof.
  split; [vm_compute; reflexivity|].
  assert (Hd : ledger_ok (s_db (sv_sys w_super))) by (destruct w_submitted_ok; by constructor).
  exact (proj2 (supervisor_cancels_soundly w_calendar (fun _ => "") None w_connect w_monotonic w_sleeper None w_args w_super Hd)).
Defined.

Lemma iteration_never_raises_witness : exists r u',
  one_iteration w_calendar (fun _ => "") None w_failing_connect w_monotonic w_sleeper None w_args w_super = (Ok r, u') /\
  (os_status r = "error" -> os_operator_review r = true /\ os_block_new_entries r = true).
Proof.
  destruct (iteration_never_raises w_calendar (fun _ => "") None w_failing_connect w_monotonic w_sleeper None w_args w_super
    eq_refl eq_refl eq_refl eq_refl) as (r & u' & E & _ & H).
  exists r, u'. split; [exact E|exact H].
Defined.

Lemma recovery_after_error_unannounced_witness :
  let u := mkSuper (with_notification "error:ValueError" fzero (with_healthy 7 (with_streaks 0 9 new_supervisor_state)))
             (sv_sys w_super) in
  (announce w_monotonic (Some (fun _ => mret tt)) (mkVerdict "reconciled" false false [] false) "demo" false u).1 = Ok tt.
Proof.
  cbv zeta. rewrite (recovery_after_error_unannounced w_monotonic (Some (fun _ => mret tt))
    (mkVerdict "reconciled" false false [] false) "demo" false (ValueError "")
    (mkSuper (with_notification "error:ValueError" fzero (with_healthy 7 (with_streaks 0 9 new_supervisor_state)))
       (sv_sys w_super)) eq_refl eq_refl).
  reflexivity.
Defined.

Lemma lost_lease_stops_thread_witness : exists u',
  run_order_supervisor w_calendar (fun _ => "") None w_connect w_monotonic w_sleeper None (fun u => (false, u))
    (fun _ u => (false, u)) 1 (f_of_Z 5) w_args (mkSuper new_supervisor_state (mkSys w_submitted tt [])) =
    (Ok (Some (Some lease_invalid_result)), u') /\ s_trace (sv_sys u') = [].
Proof.
  destruct (lost_lease_stops_thread w_calendar (fun _ => "") None w_connect w_monotonic w_sleeper None (fun u => (false, u))
    (fun _ u => (false, u)) 0 (f_of_Z 5) w_args (Some "svc") (mkSuper new_supervisor_state (mkSys w_submitted tt []))
    eq_refl eq_refl (fun now => eq_refl) eq_refl) as (u' & E & H & _).
  exists u'. split; [exact E|exact H].
Defined.
