(* ===== verification/FillNotice.v ===== *)
(** * KIS realtime fill notices ([broker/kis_fill_notice.py])

    Subscription messages, acknowledgements and encrypted notice frames, and the
    client that keeps the keys of its subscription.  The AES cipher and its
    padding (the package [Crypto]) are parameters; the base64 and UTF-8 codecs
    of the language are modelled.  Texts of frames are in ASCII or opaque. *)

From S2P Require Import Prelude PyStr PyFloat PyDecimal PyDict PyJson DbCore KisHttp.

Definition FILL_NOTICE_REAL_TR_ID : string := "H0STCNI0".
Definition FILL_NOTICE_DEMO_TR_ID : string := "H0STCNI9".

Definition fill_notice_tr_id (e : KisEnvironment) : string :=
  match e with REAL => FILL_NOTICE_REAL_TR_ID | DEMO => FILL_NOTICE_DEMO_TR_ID end.
Definition known_tr_id (tr_id : string) : bool := mem_str tr_id [FILL_NOTICE_REAL_TR_ID; FILL_NOTICE_DEMO_TR_ID].

(** [len(FILL_NOTICE_COLUMNS)] *)
Definition COLUMNS : nat := 26.

Inductive FillNoticeKind := NoticeFilled | NoticeAccepted | NoticeRejected.

#[export] Instance fill_notice_kind_eq_dec : EqDecision FillNoticeKind.
Proof. solve_decision. Defined.

Definition kind_value (k : FillNoticeKind) : string :=
  match k with NoticeFilled => "filled" | NoticeAccepted => "accepted" | NoticeRejected => "rejected" end.

Record FillNotice := mkFillNotice {
  fn_kind : FillNoticeKind;
  fn_order_no : string;
  fn_original_order_no : string;
  fn_order_qty : Z;
  fn_side : string;
  fn_symbol : string;
  fn_fill_qty : Z;
  fn_fill_price : Z;
  fn_fill_time : string;
  fn_customer_id : string;
  fn_account_no : string;
  fn_receipt_type : string;
  fn_order_kind : string;
  fn_reject_flag : string;
  fn_accepted_flag : string;
  fn_order_price : Z;
  fn_exchange_id : string;
}.

Record FillNoticeAck := mkFillNoticeAck {
  ack_tr_id : string;
  ack_success : bool;
  ack_message : string;
  ack_hts_id : string;
  ack_aes_key : option string;
  ack_aes_iv : option string;
}.

Definition is_some {A} (x : option A) : bool := match x with Some _ => true | None => false end.

(** [FillNoticeAck.ready_for_data] *)
Definition ready_for_data (a : FillNoticeAck) : bool :=
  ack_success a && is_some (ack_aes_key a) && is_some (ack_aes_iv a).

(** ** Texts *)

Definition is_control (c : ascii) : bool := (code c <? 32) || (code c =? 127).

(** [_public_text] and [_secret_text], of a text *)
Definition public_text (value field_name : string) : res string :=
  let v := strip value in
  if sempty v || negb (sforall (fun c => negb (is_control c)) v)
  then Err (ValueError ("invalid " +:+ field_name)) else Ok v.

(** [_int_field] *)
Definition int_field (value name : string) (positive : bool) : res Z :=
  if negb (isdigit value) then Err (ValueError ("invalid " +:+ name))
  else
    let '(result, _, _) := digits 0 0 value in
    if positive && (result <=? 0) then Err (ValueError ("invalid " +:+ name)) else Ok result.

(** [text.split(sep, n)] *)
Fixpoint split_max (n : nat) (sep : ascii) (s : string) : list string :=
  match n with
  | O => [s]
  | S n' =>
      (fix go (s : string) : list string :=
         match s with
         | "" => [""]
         | String c s' =>
             if bool_decide (c = sep) then "" :: split_max n' sep s'
             else match go s' with w :: ws => String c w :: ws | [] => [String c ""] end
         end) s
  end.

(** ** Codecs *)

(** [text.encode("ascii")] succeeds. *)
Definition is_ascii (s : string) : bool := sforall (fun c => code c <? 128) s.

Definition base64_value (c : ascii) : option Z :=
  if is_upper c then Some (code c - 65)
  else if is_lower c then Some (code c - 71)
  else if is_digit c then Some (code c + 4)
  else if bool_decide (c = "+"%char) then Some 62
  else if bool_decide (c = "/"%char) then Some 63
  else None.

Definition pad_char : ascii := "="%char.

(** [base64.b64decode(s, validate=True)]: groups of four, padding at the end only. *)
Fixpoint b64decode (s : string) : option string :=
  match s with
  | "" => Some ""
  | String a (String b (String c (String d rest))) =>
      x ← base64_value a; y ← base64_value b;
      if bool_decide (d = pad_char) then
        match rest with
        | "" =>
            if bool_decide (c = pad_char) then Some (String (byte (4 * x + y / 16)) "")
            else z ← base64_value c; Some (String (byte (4 * x + y / 16)) (String (byte (16 * (y mod 16) + z / 4)) ""))
        | _ => None
        end
      else
        z ← base64_value c; w ← base64_value d; t ← b64decode rest;
        Some (String (byte (4 * x + y / 16)) (String (byte (16 * (y mod 16) + z / 4)) (String (byte (64 * (z mod 4) + w)) t)))
  | _ => None
  end.

(** [bytes.decode("utf-8")] succeeds: how many continuation bytes are due, and the range of the next. *)
Fixpoint utf8_from (due : nat) (lo hi : Z) (s : string) : bool :=
  match s, due with
  | "", O => true
  | "", S _ => false
  | String c s', S n => (lo <=? code c) && (code c <=? hi) && utf8_from n 128 191 s'
  | String c s', O =>
      let z := code c in
      if z <? 128 then utf8_from 0 128 191 s'
      else if (194 <=? z) && (z <=? 223) then utf8_from 1 128 191 s'
      else if z =? 224 then utf8_from 2 160 191 s'
      else if z =? 237 then utf8_from 2 128 159 s'
      else if (225 <=? z) && (z <=? 239) then utf8_from 2 128 191 s'
      else if z =? 240 then utf8_from 3 144 191 s'
      else if (241 <=? z) && (z <=? 243) then utf8_from 3 128 191 s'
      else if z =? 244 then utf8_from 3 128 143 s'
      else false
  end.
Definition valid_utf8 (s : string) : bool := utf8_from 0 128 191 s.

(** A frame of the socket. *)
Inductive raw_frame := RawText (s : string) | RawBytes (b : string).

Definition frame_text (raw : raw_frame) : option string :=
  match raw with RawText s => Some s | RawBytes b => if valid_utf8 b then Some b else None end.

(** ** Subscription *)

(** [json.dumps(..., ensure_ascii=False, separators=(",", ":"))] *)
Fixpoint escape_min (s : string) : string :=
  match s with
  | "" => ""
  | String c t =>
      (if 128 <=? code c then String c "" else if code c =? 127 then String c "" else escape_point (code c)) +:+ escape_min t
  end.
Definition quoted_min (s : string) : string := String quote (escape_min s +:+ String quote "").

Fixpoint compact_object (fields : list (string * string)) : string :=
  match fields with
  | [] => ""
  | [(k, v)] => quoted_min k +:+ ":" +:+ v
  | (k, v) :: rest => quoted_min k +:+ ":" +:+ v +:+ "," +:+ compact_object rest
  end.
Definition braces (s : string) : string := "{" +:+ s +:+ "}".

Definition build_fill_notice_subscription (approval_key hts_id : string) (e : KisEnvironment) (tr_type : string) : res string :=
  approval_key ← public_text approval_key "approval_key";
  hts_id ← public_text hts_id "hts_id";
  _ ← raise_if (negb (mem_str tr_type ["0"; "1"; "2"])) (ValueError "tr_type must be '1', '0', or '2'");
  Ok (braces (compact_object
    [("header", braces (compact_object
        [("approval_key", quoted_min approval_key); ("custtype", quoted_min "P"); ("tr_type", quoted_min tr_type);
         ("content-type", quoted_min "utf-8")]));
     ("body", braces (compact_object
        [("input", braces (compact_object [("tr_id", quoted_min (fill_notice_tr_id e)); ("tr_key", quoted_min hts_id)]))]))])).

(** ** Acknowledgements *)

(** [_json_object] *)
Definition json_object (raw : raw_frame) : option (dict json) :=
  s ← frame_text raw;
  if sempty (strip s) then None
  else match loads s with Some (JObj o) => Some o | _ => None end.

(** [d.get(key)] of an object, as a text or an object. *)
Definition get_text (k : string) (d : dict json) : option string :=
  match dget k d with Some (JStr s) => Some s | _ => None end.
Definition get_object (k : string) (d : dict json) : option (dict json) :=
  match dget k d with Some (JObj o) => Some o | _ => None end.

Definition AES_BLOCK : Z := 16.
Definition byte_length (s : string) : Z := Z.of_nat (String.length s).

Definition parse_fill_notice_ack (raw : raw_frame) (environment : option KisEnvironment) (hts_id : string)
    : option FillNoticeAck :=
  payload ← json_object raw;
  header ← get_object "header" payload;
  body ← get_object "body" payload;
  tr_id ← get_text "tr_id" header;
  if negb (known_tr_id tr_id) then None
  else if negb (sempty hts_id) && negb (bool_decide (get_text "tr_key" header = Some hts_id)) then None
  else if match environment with Some e => negb (String.eqb tr_id (fill_notice_tr_id e)) | None => false end then None
  else
    message ← get_text "msg1" body;
    rt_cd ← get_text "rt_cd" body;
    if negb (mem_str rt_cd ["0"; "1"]) then None
    else if negb (String.eqb rt_cd "0") then Some (mkFillNoticeAck tr_id false message hts_id None None)
    else
      output ← get_object "output" body;
      key ← get_text "key" output;
      iv ← get_text "iv" output;
      if negb (is_ascii key) || negb (is_ascii iv) || negb (byte_length key =? 32) || negb (byte_length iv =? AES_BLOCK)
      then None
      else Some (mkFillNoticeAck tr_id true message hts_id (Some key) (Some iv)).

(** ** Notices *)

(** The fields of one record. *)
Definition field (n : nat) (fields : list string) : string := nth n fields "".

Definition valid_time (t : string) : bool :=
  isdigit t && (slen t =? 6) &&
  let '(h, _, _) := digits 0 0 (String.substring 0 2 t) in
  let '(m, _, _) := digits 0 0 (String.substring 2 2 t) in
  let '(s, _, _) := digits 0 0 (String.substring 4 2 t) in
  (h <=? 23) && (m <=? 59) && (s <=? 59).

(** The event of a record, from its flags and quantities. *)
Definition notice_kind (event_code reject_flag accepted_flag : string) (fill_qty fill_price : Z) : res FillNoticeKind :=
  if String.eqb event_code "2" then
    _ ← raise_if (String.eqb reject_flag "Y" || (fill_qty <=? 0) || (fill_price <=? 0)) (ValueError "invalid fill event");
    Ok NoticeFilled
  else if String.eqb reject_flag "Y" then
    _ ← raise_if (negb (fill_qty =? 0)) (ValueError "invalid rejected event");
    Ok NoticeRejected
  else
    _ ← raise_if (negb (String.eqb accepted_flag "Y") || negb (fill_qty =? 0)) (ValueError "invalid accepted event");
    Ok NoticeAccepted.

(** [_parse_fields] *)
Definition parse_fields (fields : list string) : res FillNotice :=
  _ ← raise_if (negb (Nat.eqb (length fields) COLUMNS)) (ValueError "invalid fill-notice field count");
  order_qty ← int_field (field 16 fields) "order_qty" true;
  let side := field 4 fields in
  _ ← raise_if (negb (mem_str side ["01"; "02"])) (ValueError "unknown order side");
  let symbol := field 8 fields in
  _ ← raise_if (negb (slen symbol =? 6) || negb (isdigit symbol)) (ValueError "invalid symbol");
  fill_qty ← int_field (field 9 fields) "fill_qty" false;
  fill_price ← int_field (field 10 fields) "fill_price" false;
  let fill_time := field 11 fields in
  _ ← raise_if (negb (valid_time fill_time)) (ValueError "invalid fill time");
  let reject_flag := upper (field 12 fields) in
  let event_code := field 13 fields in
  let accepted_flag := upper (field 14 fields) in
  _ ← raise_if (negb (mem_str reject_flag ["Y"; "N"; ""]) || negb (mem_str event_code ["1"; "2"]))
        (ValueError "unknown fill-notice status");
  _ ← raise_if (negb (mem_str accepted_flag ["Y"; "N"; ""])) (ValueError "unknown acceptance status");
  kind ← notice_kind event_code reject_flag accepted_flag fill_qty fill_price;
  order_price ← (if sempty (field 25 fields) then Ok 0 else int_field (field 25 fields) "order_price" false);
  order_no ← public_text (field 2 fields) "order_no";
  original ← (if sempty (field 3 fields) then Ok "" else public_text (field 3 fields) "original_order_no");
  customer_id ← public_text (field 0 fields) "customer_id";
  account_no ← public_text (field 1 fields) "account_no";
  Ok (mkFillNotice kind order_no original order_qty side symbol fill_qty fill_price fill_time customer_id account_no
        (field 5 fields) (field 6 fields) (if sempty reject_flag then "N" else reject_flag) accepted_flag order_price
        (field 19 fields)).

(** Consecutive records of [n] fields. *)
Fixpoint records (count n : nat) (fields : list string) : list (list string) :=
  match count with O => [] | S c => firstn n fields :: records c n (skipn n fields) end.

Fixpoint parse_all (l : list (list string)) : res (list FillNotice) :=
  match l with
  | [] => Ok []
  | r :: l' => x ← parse_fields r; xs ← parse_all l'; Ok (x :: xs)
  end.

Section Cipher.
(** [AES.new(key, AES.MODE_CBC, iv).decrypt(data)] of whole blocks, and
    [unpad(data, 16)], from the package [Crypto]. *)
Variable aes_cbc_decrypt : string -> string -> string -> string.
Variable unpad : string -> option string.

(** [decrypt_aes_cbc_base64]: [None] is its [ValueError]. *)
Definition decrypt_aes_cbc_base64 (ciphertext aes_key aes_iv : string) : option string :=
  match public_text aes_key "aes_key", public_text aes_iv "aes_iv", public_text ciphertext "ciphertext" with
  | Ok key, Ok iv, Ok encoded =>
      if negb (is_ascii key) || negb (is_ascii iv) || negb (is_ascii encoded)
         || negb (byte_length key =? 32) || negb (byte_length iv =? AES_BLOCK) then None
      else
        encrypted ← b64decode encoded;
        if sempty encrypted || negb (byte_length encrypted mod AES_BLOCK =? 0) then None
        else
          plain ← unpad (aes_cbc_decrypt key iv encrypted);
          if valid_utf8 plain then Some plain else None
  | _, _, _ => None
  end.

(** The records of one frame; [None] stands for every frame that is refused. *)
Definition parse_fill_notice_events (raw : raw_frame) (aes_key aes_iv : string) (environment : option KisEnvironment)
    : list FillNotice :=
  match frame_text raw with
  | None => []
  | Some text =>
      match split_max 3 "|" text with
      | [flag; tr_id; n; data] =>
          if negb (String.eqb flag "1") || negb (known_tr_id tr_id)
             || match environment with Some e => negb (String.eqb tr_id (fill_notice_tr_id e)) | None => false end
          then []
          else
            match int_field n "record count" true with
            | Err _ => []
            | Ok count =>
                if 100 <? count then []
                else
                  match decrypt_aes_cbc_base64 data aes_key aes_iv with
                  | None => []
                  | Some plaintext =>
                      let fields := split_on "^" plaintext in
                      if negb (Z.of_nat (length fields) =? count * Z.of_nat COLUMNS) then []
                      else match parse_all (records (Z.to_nat count) COLUMNS fields) with Ok l => l | Err _ => [] end
                  end
            end
      | _ => []
      end
  end.

(** [parse_fill_notice] *)
Definition parse_fill_notice (raw : raw_frame) (aes_key aes_iv : string) (environment : option KisEnvironment)
    : option FillNotice :=
  match parse_fill_notice_events raw aes_key aes_iv environment with [e] => Some e | _ => None end.

(** ** The client *)

Record fill_client := mkFillClient {
  fc_environment : KisEnvironment;
  fc_approval_key : string;
  fc_hts_id : string;
  fc_ack : option FillNoticeAck;
}.

(** [KisFillNoticeClient.__init__] *)
Definition new_fill_client (e : KisEnvironment) (approval_key hts_id : string) : res fill_client :=
  a ← public_text approval_key "approval_key";
  h ← public_text hts_id "hts_id";
  Ok (mkFillClient e a h None).

Definition subscription_message (c : fill_client) : res string :=
  build_fill_notice_subscription (fc_approval_key c) (fc_hts_id c) (fc_environment c) "1".

Inductive handled := HandledAck (a : FillNoticeAck) | HandledEvents (l : list FillNotice) | Ignored.

(** [handle_message] without a callback: the callback is called on every event
    of a handled frame, in order. *)
Definition handle_message (c : fill_client) (raw : raw_frame) : fill_client * handled :=
  match parse_fill_notice_ack raw (Some (fc_environment c)) (fc_hts_id c) with
  | Some ack =>
      (mkFillClient (fc_environment c) (fc_approval_key c) (fc_hts_id c) (if ready_for_data ack then Some ack else None),
       HandledAck ack)
  | None =>
      match fc_ack c with
      | Some a =>
          if ready_for_data a then
            match parse_fill_notice_events raw (or_else (ack_aes_key a) "") (or_else (ack_aes_iv a) "")
                    (Some (fc_environment c)) with
            | [] => (c, Ignored)
            | events => (c, HandledEvents events)
            end
          else (c, Ignored)
      | None => (c, Ignored)
      end
  end.
End Cipher.

(** ** Lemmas *)

(** What every accepted notice satisfies. *)
Record valid_notice (n : FillNotice) : Prop := {
  vn_quantity : 0 < fn_order_qty n;
  vn_side : fn_side n ∈ ["01"; "02"];
  vn_symbol : slen (fn_symbol n) = 6 /\ isdigit (fn_symbol n) = true;
  vn_time : valid_time (fn_fill_time n) = true;
  vn_order_no : sempty (fn_order_no n) = false;
  vn_nonneg : 0 <= fn_fill_qty n /\ 0 <= fn_fill_price n;
  vn_fill : fn_kind n = NoticeFilled -> 0 < fn_fill_qty n /\ 0 < fn_fill_price n /\ fn_reject_flag n <> "Y";
  vn_no_fill : fn_kind n <> NoticeFilled -> fn_fill_qty n = 0;
  vn_rejected : fn_kind n = NoticeRejected <-> fn_reject_flag n = "Y";
}.

Lemma digits_nonneg s : forall acc n, 0 <= acc -> 0 <= (digits acc n s).1.1.
Proof.
  induction s as [|c s IH]; intros acc n Ha; cbn; [done|]. destruct (is_digit c) eqn:E; [|done]. apply IH.
  unfold is_digit in E. apply andb_true_iff in E as [E1 E2]. apply Z.leb_le in E1. lia.
Qed.

Lemma int_field_Ok v name p z : int_field v name p = Ok z -> 0 <= z /\ (p = true -> 0 < z).
Proof.
  unfold int_field. destruct (negb _); [done|]. pose proof (digits_nonneg v 0 0%nat ltac:(lia)) as Hd.
  destruct (digits 0 0 v) as [[r k] t]. cbn in Hd. destruct p; cbn [andb].
  - destruct (Z.leb_spec r 0); [done|]. intros [= <-]. split; [lia|]. intros _. lia.
  - intros [= <-]. by split.
Qed.

Lemma public_text_Ok v name t : public_text v name = Ok t -> sempty t = false.
Proof. unfold public_text. destruct (sempty (strip v)) eqn:E; [done|]. cbn. destruct (negb _); [done|]. by intros [= <-]. Qed.

Lemma notice_kind_Ok ev rj ac q p k : notice_kind ev rj ac q p = Ok k ->
  (k = NoticeFilled -> 0 < q /\ 0 < p /\ rj <> "Y") /\ (k <> NoticeFilled -> q = 0) /\
  (k = NoticeRejected <-> rj = "Y").
Proof.
  unfold notice_kind. destruct (String.eqb ev "2").
  - destruct (String.eqb_spec rj "Y") as [->|Hr]; [done|]. destruct (Z.leb_spec q 0); [done|].
    destruct (Z.leb_spec p 0); [done|]. cbn. by intros [= <-].
  - destruct (String.eqb_spec rj "Y") as [->|Hr].
    + destruct (Z.eqb_spec q 0); [|done]. cbn. by intros [= <-].
    + destruct (negb (String.eqb ac "Y")); [done|]. destruct (Z.eqb_spec q 0); [|done]. cbn. by intros [= <-].
Qed.

Lemma parse_fields_valid fields n : parse_fields fields = Ok n -> valid_notice n.
Proof.
  unfold parse_fields. intros H. apply bind_Ok in H as ([] & _ & H). apply bind_Ok in H as (oq & Hoq & H).
  apply bind_Ok in H as ([] & Hside & H). apply raise_if_Ok, negb_false_iff, mem_str_true in Hside.
  apply bind_Ok in H as ([] & Hsym & H). apply raise_if_Ok, orb_false_iff in Hsym as [Hs1 Hs2].
  apply negb_false_iff, Z.eqb_eq in Hs1. apply negb_false_iff in Hs2.
  apply bind_Ok in H as (fq & Hfq & H). apply bind_Ok in H as (fp & Hfp & H).
  apply bind_Ok in H as ([] & Ht & H). apply raise_if_Ok, negb_false_iff in Ht.
  apply bind_Ok in H as ([] & _ & H). apply bind_Ok in H as ([] & _ & H).
  apply bind_Ok in H as (kind & Hk & H). apply bind_Ok in H as (op & _ & H). apply bind_Ok in H as (ono & Hono & H).
  apply bind_Ok in H as (orig & _ & H). apply bind_Ok in H as (cid & _ & H). apply bind_Ok in H as (acc & _ & H).
  injection H as <-. apply int_field_Ok in Hoq as [_ Hoq], Hfq as [Hfq _], Hfp as [Hfp _].
  destruct (notice_kind_Ok _ _ _ _ _ _ Hk) as (H1 & H2 & H3).
  assert (Hflag : forall r, (if sempty r then "N" else r) = "Y" <-> r = "Y").
  { intros r. unfold sempty. destruct (String.eqb_spec r ""); [|done]. subst. split; done. }
  split; cbn [fn_order_qty fn_side fn_symbol fn_fill_time fn_order_no fn_fill_qty fn_fill_price fn_kind fn_reject_flag]; auto.
  - by eapply public_text_Ok.
  - intros Hf. destruct (H1 Hf) as (? & ? & ?). split_and!; try done. by rewrite Hflag.
  - by rewrite Hflag.
Qed.

Lemma parse_all_spec l : forall ns, parse_all l = Ok ns -> length ns = length l /\ Forall valid_notice ns.
Proof.
  induction l as [|r l IH]; intros ns H; cbn in H; [by injection H as <-|].
  apply bind_Ok in H as (x & Hx & H). apply bind_Ok in H as (xs & Hxs & H). injection H as <-.
  destruct (IH _ Hxs) as [Hl Hf]. split; [cbn; lia|]. constructor; [by eapply parse_fields_valid|done].
Qed.

Lemma records_length count n : forall l, length (records count n l) = count.
Proof. induction count as [|c IH]; intros l; cbn; [done|]. by rewrite IH. Qed.

Lemma ack_Ok raw e hts a : parse_fill_notice_ack raw (Some e) hts = Some a ->
  ack_tr_id a = fill_notice_tr_id e /\ ack_hts_id a = hts /\
  (ready_for_data a = true -> exists k v, ack_aes_key a = Some k /\ ack_aes_iv a = Some v /\
     byte_length k = 32 /\ byte_length v = 16).
Proof.
  unfold parse_fill_notice_ack. intros H.
  apply bind_Some in H as (payload & _ & H). apply bind_Some in H as (header & _ & H).
  apply bind_Some in H as (body & _ & H). apply bind_Some in H as (tr & _ & H).
  destruct (negb (known_tr_id tr)); [done|]. destruct (_ && _); [done|].
  destruct (String.eqb tr (fill_notice_tr_id e)) eqn:Etr; [|done]. apply String.eqb_eq in Etr. cbn [negb] in H.
  apply bind_Some in H as (msg & _ & H). apply bind_Some in H as (rt & _ & H).
  destruct (negb (mem_str rt _)); [done|]. destruct (negb (String.eqb rt "0")); [by injection H as <-|].
  apply bind_Some in H as (output & _ & H). apply bind_Some in H as (k & _ & H). apply bind_Some in H as (v & _ & H).
  destruct (_ || _) eqn:E; [done|]. injection H as <-. split; [done|]. split; [done|]. intros _. exists k, v.
  apply orb_false_iff in E as [E E4]. apply orb_false_iff in E as [_ E3].
  apply negb_false_iff, Z.eqb_eq in E3, E4. by split_and!.
Qed.

(** ** Properties *)

(** Fact: a notice frame is taken whole or not at all, and everything taken is
    consistent.  When a frame yields notices, it is an encrypted frame of the
    environment's feed, it yields exactly as many as it declares, between one and
    a hundred, and each has a positive order quantity, a known side, a six-digit
    symbol, a time of day, and is a fill exactly when shares were filled. *)
Theorem fill_notice_frames_all_or_nothing aes_cbc_decrypt unpad raw key iv environment :
  parse_fill_notice_events aes_cbc_decrypt unpad raw key iv environment = [] \/
  exists text tr_id n data count,
    frame_text raw = Some text /\ split_max 3 "|" text = ["1"; tr_id; n; data] /\
    (forall e, environment = Some e -> tr_id = fill_notice_tr_id e) /\
    int_field n "record count" true = Ok count /\ 1 <= count <= 100 /\
    Z.of_nat (length (parse_fill_notice_events aes_cbc_decrypt unpad raw key iv environment)) = count /\
    Forall valid_notice (parse_fill_notice_events aes_cbc_decrypt unpad raw key iv environment).
Proof.
  unfold parse_fill_notice_events. destruct (frame_text raw) as [text|]; [|by left].
  destruct (split_max 3 "|" text) as [|flag [|tr [|n [|data [|x l]]]]] eqn:Esplit; try by left.
  destruct (String.eqb_spec flag "1") as [->|]; [|by left]. destruct (known_tr_id tr); [|by left]. cbn [negb orb].
  destruct (match environment with Some _ => _ | None => _ end) eqn:Eenv; [by left|].
  destruct (int_field n "record count" true) as [count|] eqn:Ec; [|by left].
  destruct (Z.ltb_spec 100 count); [by left|].
  destruct (decrypt_aes_cbc_base64 _ _ data key iv) as [plain|]; [|by left]. cbv zeta.
  destruct (negb _); [by left|].
  destruct (parse_all _) as [ns|] eqn:Ep; [|by left]. right. exists text, tr, n, data, count.
  apply parse_all_spec in Ep as [Hl Hf]. rewrite records_length in Hl. pose proof (int_field_Ok _ _ _ _ Ec) as [_ Hpos].
  specialize (Hpos eq_refl). split_and!; try done; try lia.
  intros e ->. by apply negb_false_iff, String.eqb_eq in Eenv.
Qed.

(** Frames handled in turn. *)
Fixpoint run_frames aes unpad (c : fill_client) (frames : list raw_frame) : fill_client :=
  match frames with [] => c | f :: fs => run_frames aes unpad (handle_message aes unpad c f).1 fs end.

(** Fact: notices are delivered only under a live subscription.  After any frames,
    a client that delivers notices last saw a successful acknowledgement of its
    own feed and its own HTS id, with keys of the right lengths; a refused
    acknowledgement disarms it. *)
Theorem notices_need_acknowledgement aes unpad e approval hts c frames raw :
  new_fill_client e approval hts = Ok c ->
  let c' := run_frames aes unpad c frames in
  (forall l, (handle_message aes unpad c' raw).2 = HandledEvents l -> exists a k v,
     fc_ack c' = Some a /\ ack_tr_id a = fill_notice_tr_id e /\ ack_hts_id a = fc_hts_id c /\ ack_success a = true /\
     ack_aes_key a = Some k /\ ack_aes_iv a = Some v /\ byte_length k = 32 /\ byte_length v = 16) /\
  (forall a, (handle_message aes unpad c' raw).2 = HandledAck a -> ready_for_data a = false ->
     fc_ack (handle_message aes unpad c' raw).1 = None).
Proof.
  intros Hc. cbv zeta.
  assert (Hinv : forall frames c, fc_environment c = e ->
    (forall a, fc_ack c = Some a -> ready_for_data a = true /\ ack_tr_id a = fill_notice_tr_id e /\ ack_hts_id a = fc_hts_id c /\
       exists k v, ack_aes_key a = Some k /\ ack_aes_iv a = Some v /\ byte_length k = 32 /\ byte_length v = 16) ->
    let c' := run_frames aes unpad c frames in fc_hts_id c' = fc_hts_id c /\
    (forall a, fc_ack c' = Some a -> ready_for_data a = true /\ ack_tr_id a = fill_notice_tr_id e /\ ack_hts_id a = fc_hts_id c /\
       exists k v, ack_aes_key a = Some k /\ ack_aes_iv a = Some v /\ byte_length k = 32 /\ byte_length v = 16)).
  { clear. induction frames as [|f fs IH]; intros c He Ha; cbn [run_frames]; [done|].
    destruct (IH (handle_message aes unpad c f).1) as [H1 H2].
    - unfold handle_message. by repeat case_match.
    - unfold handle_message. rewrite He. destruct (parse_fill_notice_ack f (Some e) (fc_hts_id c)) as [a|] eqn:Ea.
      + cbn. intros a' Ha'. destruct (ready_for_data a) eqn:Er; [|done]. injection Ha' as <-.
        apply ack_Ok in Ea as (H1 & H2 & H3). by auto.
      + match goal with |- forall a, fc_ack ?x = _ -> _ => assert (Hx : x = c) by
          (destruct (fc_ack c) as [a0|]; [destruct (ready_for_data a0); [destruct (parse_fill_notice_events _ _ _ _ _ _)|]|]; done);
          rewrite Hx end. exact Ha.
    - assert (Hh : fc_hts_id (handle_message aes unpad c f).1 = fc_hts_id c) by (unfold handle_message; by repeat case_match).
      rewrite Hh in *. by split. }
  unfold new_fill_client in Hc. apply bind_Ok in Hc as (ap & _ & Hc). apply bind_Ok in Hc as (h & _ & Hc). injection Hc as <-.
  destruct (Hinv frames (mkFillClient e ap h None)) as [Hhts Ha]; [done|done|].
  set (c' := run_frames aes unpad _ frames) in *. split.
  - intros l H. unfold handle_message in H.
    destruct (parse_fill_notice_ack raw _ _); [done|]. destruct (fc_ack c') as [a|]; [|done].
    destruct (Ha a eq_refl) as (Hr & H1 & H2 & k & v & H3). exists a, k, v. split; [done|]. split; [done|]. split; [done|].
    split; [|done]. unfold ready_for_data in Hr. by destruct (ack_success a).
  - intros a H Hr. unfold handle_message in *. destruct (parse_fill_notice_ack raw _ _) as [a'|].
    + cbn in H. injection H as ->. cbn. by rewrite Hr.
    + repeat case_match; done.
Qed.

(** ** Witnesses *)

(** A stand-in cipher: the identity, without padding. *)
Definition w_ack : raw_frame := RawText
  (dumps (JObj [("header", JObj [("tr_id", JStr "H0STCNI9"); ("tr_key", JStr "hts1")]);
                ("body", JObj [("rt_cd", JStr "0"); ("msg1", JStr "SUBSCRIBE SUCCESS");
                   ("output", JObj [("key", JStr "01234567890123456789012345678901"); ("iv", JStr "0123456789012345")])])])).
Definition w_client : fill_client := mkFillClient DEMO "approval" "hts1" None.

Lemma notices_need_acknowledgement_witness :
  new_fill_client DEMO " approval " "hts1" = Ok w_client /\
  fc_ack (run_frames (fun _ _ s => s) (fun s => Some s) w_client [w_ack]) <> None /\
  (forall a, (handle_message (fun _ _ s => s) (fun s => Some s) (run_frames (fun _ _ s => s) (fun s => Some s) w_client [])
     w_ack).2 = HandledAck a -> ready_for_data a = false ->
     fc_ack (handle_message (fun _ _ s => s) (fun s => Some s) (run_frames (fun _ _ s => s) (fun s => Some s) w_client [])
       w_ack).1 = None).
Proof.
  split; [vm_compute; reflexivity|]. split; [vm_compute; discriminate|].
  exact (proj2 (notices_need_acknowledgement (fun _ _ s => s) (fun s => Some s) DEMO " approval " "hts1" w_client [] w_ack eq_refl)).
Defined.
