(* ===== verification/KisWs.v ===== *)
(** * The KIS realtime socket ([broker/kis_ws.py])

    Frames, system messages, subscriptions and realtime prices, and the bounded
    smoke session.  A socket and the clock of [time.monotonic] are operations of
    the world; [logged] records what is sent through a socket. *)

From S2P Require Import Prelude PyStr PyFloat PyTime PyDecimal PyDict PyJson DbCore DbRuntime KisHttp FillNotice System.

Definition TR_REALTIME_PRICE : string := "H0STCNT0".

Record RealtimePrice := mkRealtime {
  rp_symbol : string;
  rp_timestamp : string;
  rp_price : float;
  rp_volume : Z;
  rp_total_volume : Z;
}.

(** ** Text of a frame *)

Definition REPLACEMENT : string := String "239" (String "191" (String "189" "")).

(** What a first byte starts: the number of continuation bytes that are due and
    the range of the next, [None] when it starts nothing. *)
Definition lead_byte (z : Z) : option (nat * Z * Z) :=
  if (194 <=? z) && (z <=? 223) then Some (1%nat, 128, 191)
  else if z =? 224 then Some (2%nat, 160, 191)
  else if z =? 237 then Some (2%nat, 128, 159)
  else if (225 <=? z) && (z <=? 239) then Some (2%nat, 128, 191)
  else if z =? 240 then Some (3%nat, 144, 191)
  else if (241 <=? z) && (z <=? 243) then Some (3%nat, 128, 191)
  else if z =? 244 then Some (3%nat, 128, 143)
  else None.

(** [bytes.decode("utf-8", errors="replace")]: every maximal piece of an invalid
    sequence becomes one replacement character; [pending] are the bytes of the
    sequence being read. *)
Fixpoint decode_replace (pending : string) (due : nat) (lo hi : Z) (s : string) : string :=
  match s with
  | "" => match due with O => "" | S _ => REPLACEMENT end
  | String c s' =>
      let start :=
        if code c <? 128 then String c (decode_replace "" 0 128 191 s')
        else match lead_byte (code c) with
             | Some (n, l, h) => decode_replace (String c "") n l h s'
             | None => REPLACEMENT +:+ decode_replace "" 0 128 191 s'
             end in
      match due with
      | O => start
      | S n =>
          if (lo <=? code c) && (code c <=? hi) then
            let pending := pending +:+ String c "" in
            match n with
            | O => pending +:+ decode_replace "" 0 128 191 s'
            | S _ => decode_replace pending n 128 191 s'
            end
          else REPLACEMENT +:+ start
      end
  end.

Definition raw_to_text (raw : raw_frame) : string :=
  match raw with RawText s => s | RawBytes b => decode_replace "" 0 128 191 b end.

(** ** System messages *)

Record ws_message := mkMessage { wm_header : dict json; wm_body : option (dict json) }.

Definition parse_system_message (raw : raw_frame) : option ws_message :=
  let text := strip (raw_to_text raw) in
  if negb (startswith "{" text) then None
  else
    match loads text with
    | Some (JObj payload) =>
        match dget "header" payload with
        | Some (JObj header) =>
            Some (mkMessage header (match dget "body" payload with Some (JObj body) => Some body | _ => None end))
        | _ => None
        end
    | _ => None
    end.

Definition is_pingpong (message : option ws_message) : bool :=
  match message with
  | None => false
  | Some m => String.eqb (upper (py_str (or_else (dget "tr_id" (wm_header m)) (JStr "")))) "PINGPONG"
  end.

(** [json.dumps(v, ensure_ascii=False)] *)
Fixpoint plain_dumps (v : json) : string :=
  match v with
  | JStr s => quoted_min s
  | JList l => "[" +:+ join ", " (map plain_dumps l) +:+ "]"
  | JObj o => "{" +:+ join ", " (map (fun kv => quoted_min (fst kv) +:+ ": " +:+ plain_dumps (snd kv)) o) +:+ "}"
  | _ => dumps v
  end.

Definition message_json (m : ws_message) : json :=
  JObj (("header", JObj (wm_header m)) :: match wm_body m with Some b => [("body", JObj b)] | None => [] end).

Definition is_subscription_ack (message : option ws_message) : bool :=
  match message with
  | None => false
  | Some m =>
      let text := upper (plain_dumps (message_json m)) in
      contains "SUBSCRIBE SUCCESS" text ||
      contains "SUBSCRIBE SUCCESS" (smap (fun c => if bool_decide (c = "_"%char) then " "%char else c) text)
  end.

(** [_subscription_error_code] *)
Definition subscription_error_code (message : option ws_message) : option string :=
  match message with
  | None => None
  | Some m =>
      let body := or_else (wm_body m) [] in
      if mem_str (py_str (or_else (dget "rt_cd" body) (JStr "0"))) [""; "0"] then None
      else
        let msg_cd := or_else (dget "msg_cd" body) JNull in
        let text := if truthy msg_cd then py_str msg_cd else "websocket_rejected" in
        let bare := remove_char "-" (remove_char "_" text) in
        Some (if (40 <? slen text) || negb (negb (sempty bare) && sforall is_alnum bare) then "websocket_rejected" else text)
  end.

(** ** Subscriptions and prices *)

Definition domestic_symbol (s : string) : bool := isdigit s && (slen s =? 6).

Definition build_subscription (approval_key symbol tr_id : string) : res string :=
  _ ← raise_if (sempty approval_key) (ValueError "approval_key is required");
  _ ← raise_if (negb (domestic_symbol symbol)) (ValueError "domestic stock symbol must be a six-digit code");
  _ ← raise_if (negb (String.eqb tr_id TR_REALTIME_PRICE)) (ValueError "read-only smoke supports H0STCNT0 only");
  Ok (braces (compact_object
    [("header", braces (compact_object
        [("approval_key", quoted approval_key); ("custtype", quoted "P"); ("tr_type", quoted "1"); ("content-type", quoted "utf-8")]));
     ("body", braces (compact_object
        [("input", braces (compact_object [("tr_id", quoted tr_id); ("tr_key", quoted symbol)]))]))])).

(** [int] and [float] of a field, [None] when they raise *)
Definition try_res {A} (r : res A) : option A := match r with Ok a => Some a | Err _ => None end.

Definition parse_realtime_price (raw : raw_frame) : option RealtimePrice :=
  match split_max 3 "|" (strip (raw_to_text raw)) with
  | [flag; tr_id; _; data] =>
      if negb (String.eqb flag "0") || negb (String.eqb tr_id TR_REALTIME_PRICE) then None
      else
        let fields := split_on "^" data in
        if len fields <? 14 then None
        else
          price ← try_res (float_of_text (field 2 fields));
          volume ← try_res (parse_int (field 12 fields));
          total_volume ← try_res (parse_int (field 13 fields));
          let symbol := field 0 fields in
          let timestamp := field 1 fields in
          if negb (domestic_symbol symbol) || sempty timestamp || (price <=? fzero)%F then None
          else if (volume <? 0) || (total_volume <? 0) then None
          else Some (mkRealtime symbol timestamp price volume total_volume)
  | _ => None
  end.

(** The two digits of a text at [n], and [time(h, m, s)] *)
Definition two_digits (n : nat) (s : string) : Z := digits_value 0 (String.substring n 2 s).

Definition realtime_price_to_market_tick (price : RealtimePrice) (trading_date : Z) : res MarketTick :=
  let t := rp_timestamp price in
  _ ← raise_if (negb (domestic_symbol t)) (ValueError "KIS realtime timestamp must be HHMMSS");
  let h := two_digits 0 t in let m := two_digits 2 t in let s := two_digits 4 t in
  _ ← raise_if (23 <? h) (ValueError "hour must be in 0..23");
  _ ← raise_if (59 <? m) (ValueError "minute must be in 0..59");
  _ ← raise_if (59 <? s) (ValueError "second must be in 0..59");
  Ok (mkTick (rp_symbol price) (Datetime (trading_date * us_per_day + time_of h m + s * us_per_second) None) (rp_price price)
        (rp_volume price)).

(** ** Sockets *)

(** What a WebSocket connection offers: [async with connect(endpoint) as socket]
    opens and closes it; receiving waits at most the given number of seconds and
    then raises [asyncio.TimeoutError]. *)
Record ws_socket (W : Type) := mkSocket {
  ws_connect : string -> stm W unit;
  ws_close : stm W unit;
  ws_send : string -> stm W unit;
  ws_recv : option float -> stm W raw_frame;
}.
Arguments ws_connect {W} _ _.
Arguments ws_close {W} _.
Arguments ws_send {W} _ _.
Arguments ws_recv {W} _ _.

Definition ws_timeout : exn := OtherError "TimeoutError".
Definition is_timeout (e : exn) : bool := match e with OtherError n => String.eqb n "TimeoutError" | _ => false end.

(** [try: m  except Exception as exc: ...] as a value *)
Definition outcome {S A} (m : stm S A) : stm S (res A) := fun s => let '(r, s') := m s in (Ok r, s').

(** [async with]: the connection is closed however the body ends; an error of the
    closing replaces that of the body. *)
Definition with_socket {S A} (connect close : stm S unit) (body : stm S A) : stm S A :=
  _ ← connect;
  r ← outcome body;
  _ ← close;
  lift_res r.

(** Records what is sent, the last message first. *)
Definition on_fst {W L A} (m : stm W A) : stm (W * L) A := fun wl => let '(r, w) := m (fst wl) in (r, (w, snd wl)).
Definition logged {W} (k : ws_socket W) : ws_socket (W * list string) := {|
  ws_connect e := on_fst (ws_connect k e);
  ws_close := on_fst (ws_close k);
  ws_send m := fun wl => let '(r, w) := ws_send k m (fst wl) in (r, (w, m :: snd wl));
  ws_recv t := on_fst (ws_recv k t);
|}.

#[export] Instance logged_clock {W} {CW : Clock W} {L} : Clock (W * L) :=
  fun wl => let '(now, w) := wall_clock (fst wl) in (now, (w, snd wl)).

(** ** The smoke session *)

Record WebSocketSmokeResult := mkSmokeResult {
  wsr_acknowledged : bool;
  wsr_ticks : list RealtimePrice;
  wsr_error_code : option string;
}.

Section Smoke.
Context {W : Type} (socket : ws_socket W).
(** [time.monotonic()] *)
Variable monotonic : stm W float.

(** [try: raw = await wait_for(socket.recv(), ...)] with its two handlers *)
Inductive received := Frame (raw : raw_frame) | TimedOut | ConnectionClosed.

Definition receive (timeout : float) : stm W received :=
  r ← outcome (ws_recv socket (Some timeout));
  match (r : res raw_frame) with
  | Ok raw => mret (Frame raw)
  | Err e => if is_timeout e then mret TimedOut
             else if String.eqb (exn_name e) "ConnectionClosed" then mret ConnectionClosed
             else raise e
  end.

(** The session's frames; [None] when the fuel is spent before it ends. *)
Fixpoint smoke_loop (fuel : nat) (deadline : float) (symbol : string) (st : WebSocketSmokeResult)
    : stm W (option WebSocketSmokeResult) :=
  match fuel with
  | O => mret None
  | S fuel =>
      now ← monotonic;
      if negb (now <? deadline)%F then mret (Some st)
      else
        now ← monotonic;
        got ← receive (fmax (f_ratio 5 100) (deadline - now)%F);
        match (got : received) with
        | TimedOut => mret (Some st)
        | ConnectionClosed => mret (Some (mkSmokeResult (wsr_acknowledged st) (wsr_ticks st) (Some "connection_closed")))
        | Frame raw =>
            let system := parse_system_message raw in
            if is_pingpong system then _ ← ws_send socket (raw_to_text raw); smoke_loop fuel deadline symbol st
            else
              match subscription_error_code system with
              | Some code => mret (Some (mkSmokeResult (wsr_acknowledged st) (wsr_ticks st) (Some code)))
              | None =>
                  if is_subscription_ack system
                  then smoke_loop fuel deadline symbol (mkSmokeResult true (wsr_ticks st) (wsr_error_code st))
                  else
                    match parse_realtime_price raw with
                    | Some tick =>
                        smoke_loop fuel deadline symbol
                          (if String.eqb (rp_symbol tick) symbol
                           then mkSmokeResult (wsr_acknowledged st) (wsr_ticks st ++ [tick]) (wsr_error_code st) else st)
                    | None => smoke_loop fuel deadline symbol st
                    end
              end
        end
  end.

Definition smoke_realtime_price (fuel : nat) (endpoint approval_key symbol : string) (seconds : Z)
    : stm W (option WebSocketSmokeResult) :=
  _ ← lift_res (raise_if ((seconds <? 1) || (60 <? seconds)) (ValueError "seconds must be between 1 and 60"));
  now ← monotonic;
  let deadline := (now + f_of_Z seconds)%F in
  r ← with_socket (ws_connect socket endpoint) (ws_close socket)
        (message ← lift_res (build_subscription approval_key symbol TR_REALTIME_PRICE);
         _ ← ws_send socket message;
         smoke_loop fuel deadline symbol (mkSmokeResult false [] None));
  mret (st ← r;
        Some (mkSmokeResult (wsr_acknowledged st) (wsr_ticks st)
                (match wsr_error_code st with
                 | None => if wsr_acknowledged st then None else Some "subscription_not_acknowledged"
                 | e => e
                 end))).
End Smoke.

(** ** Lemmas *)

(** Only messages satisfying [P] have been sent. *)
Definition sent {W} (P : string -> Prop) (s s' : W * list string) : Prop := exists l, snd s' = l ++ snd s /\ Forall P l.

#[export] Instance sent_preorder {W} P : PreOrder (sent (W := W) P).
Proof.
  split; [by intros s; exists []|]. intros a b c (l1 & E1 & F1) (l2 & E2 & F2). exists (l2 ++ l1).
  rewrite E2, E1, Forall_app. by rewrite app_assoc.
Qed.

Section Sent.
Context {W : Type} (P : string -> Prop) (socket : ws_socket W).
Notation quiet m := (keeps (sent P) m).

Lemma sent_on_fst {A} (m : stm W A) : quiet (on_fst m).
Proof. intros [w l]. unfold on_fst. cbn. destruct (m w). by exists []. Qed.

Lemma sent_send m : P m -> quiet (ws_send (logged socket) m).
Proof. intros Hm [w l]. cbn. destruct (ws_send socket m w). exists [m]. cbn. split; [done|by constructor]. Qed.

Lemma sent_recv t : quiet (ws_recv (logged socket) t).
Proof. apply sent_on_fst. Qed.

Lemma keeps_outcome {S A} (R : S -> S -> Prop) (m : stm S A) : keeps R m -> keeps R (outcome m).
Proof. intros Hm s. unfold outcome. specialize (Hm s). by destruct (m s). Qed.

Lemma keeps_with_socket {S A} (R : S -> S -> Prop) `{!PreOrder R} (connect close : stm S unit) (body : stm S A) :
  keeps R connect -> keeps R close -> keeps R body -> keeps R (with_socket connect close body).
Proof.
  intros H1 H2 H3. unfold with_socket. apply keeps_bind; [done|done|intros _].
  apply keeps_bind; [done|by apply keeps_outcome|intros r]. apply keeps_bind; [done|done|intros _]. apply keeps_lift, _.
Qed.

Lemma sent_receive t : quiet (receive (logged socket) t).
Proof.
  unfold receive. apply keeps_bind; [exact _|apply keeps_outcome, sent_recv|]. intros [raw|e]; [apply keeps_ret, _|].
  destruct (is_timeout e); [apply keeps_ret, _|]. destruct (String.eqb _ _); [apply keeps_ret, _|apply keeps_raise, _].
Qed.
End Sent.

(** A message of the smoke session: its subscription, or a heartbeat sent back. *)
Definition echo (m : string) : Prop := exists raw, is_pingpong (parse_system_message raw) = true /\ m = raw_to_text raw.
Definition smoke_message (approval_key symbol m : string) : Prop :=
  build_subscription approval_key symbol TR_REALTIME_PRICE = Ok m \/ echo m.

(** What every accepted price satisfies; its price may be NaN. *)
Record valid_price (p : RealtimePrice) : Prop := mkValidPrice {
  vp_symbol : domestic_symbol (rp_symbol p) = true;
  vp_timestamp : rp_timestamp p <> "";
  vp_price : (rp_price p <=? fzero)%F = false;
  vp_volume : 0 <= rp_volume p;
  vp_total_volume : 0 <= rp_total_volume p;
}.

Lemma parse_realtime_price_valid raw p : parse_realtime_price raw = Some p -> valid_price p.
Proof.
  unfold parse_realtime_price. destruct (split_max _ _ _) as [|a [|b [|c [|d [|]]]]]; try done.
  destruct (_ || _); [done|]. cbv zeta. destruct (len _ <? 14); [done|]. intros H.
  apply bind_Some in H as (price & _ & H). apply bind_Some in H as (v & _ & H). apply bind_Some in H as (tv & _ & H). revert H.
  destruct (negb _ || _ || _) eqn:E1; [done|]. destruct ((v <? 0) || (tv <? 0)) eqn:E2; [done|]. intros [= <-]. bool_to_prop.
  split; cbn; try done. by intros Hs; rewrite Hs in *.
Qed.

Section SmokeFacts.
Context {W : Type} (socket : ws_socket W) (monotonic : stm W float) (approval_key symbol : string).
Notation quiet m := (keeps (sent (smoke_message approval_key symbol)) m).

Lemma smoke_loop_sent fuel : forall deadline st, quiet (smoke_loop (logged socket) (on_fst monotonic) fuel deadline symbol st).
Proof.
  induction fuel as [|fuel IH]; intros deadline st; cbn [smoke_loop]; [apply keeps_ret, _|].
  apply keeps_bind; [exact _|apply sent_on_fst|]. intros now. destruct (negb _); [apply keeps_ret, _|].
  apply keeps_bind; [exact _|apply sent_on_fst|]. intros now'.
  apply keeps_bind; [exact _|apply sent_receive|]. intros [raw| |]; [|apply keeps_ret, _..]. cbv zeta.
  destruct (is_pingpong _) eqn:Ep.
  - apply keeps_bind; [exact _|apply sent_send; right; by exists raw|intros; apply IH].
  - destruct (subscription_error_code _); [apply keeps_ret, _|]. destruct (is_subscription_ack _); [apply IH|].
    destruct (parse_realtime_price raw); [|apply IH]. apply IH.
Qed.

Lemma smoke_sent fuel endpoint seconds :
  quiet (smoke_realtime_price (logged socket) (on_fst monotonic) fuel endpoint approval_key symbol seconds).
Proof.
  unfold smoke_realtime_price. apply keeps_bind; [exact _|apply keeps_lift, _|intros _].
  apply keeps_bind; [exact _|apply sent_on_fst|intros now]. cbv zeta. apply keeps_bind; [exact _| |intros; apply keeps_ret, _].
  apply keeps_with_socket; [exact _|apply sent_on_fst|apply sent_on_fst|].
  intros s. destruct (build_subscription approval_key symbol TR_REALTIME_PRICE) as [m|e] eqn:E.
  - revert s. change (quiet (_ ← ws_send (logged socket) m;
      smoke_loop (logged socket) (on_fst monotonic) fuel (now + f_of_Z seconds)%F symbol (mkSmokeResult false [] None))).
    apply keeps_bind; [exact _|apply sent_send; by left|intros _; apply smoke_loop_sent].
  - change (sent (W := W) (smoke_message approval_key symbol) s s). reflexivity.
Qed.
End SmokeFacts.

(** The ticks of a session, as far as it has come *)
Definition session_ticks (symbol : string) (st : WebSocketSmokeResult) : Prop :=
  Forall (fun p => valid_price p /\ rp_symbol p = symbol) (wsr_ticks st).

Lemma stm_ret_inv {S A} (a : A) r (s s' : S) : (mret a : stm S A) s = (r, s') -> Ok a = r /\ s = s'.
Proof. by intros [= <- <-]. Qed.

Lemma smoke_loop_ticks {W} (socket : ws_socket W) monotonic fuel : forall deadline symbol st s st' s',
  session_ticks symbol st -> smoke_loop socket monotonic fuel deadline symbol st s = (Ok (Some st'), s') -> session_ticks symbol st'.
Proof.
  induction fuel as [|fuel IH]; intros deadline symbol st s st' s' Hst; cbn [smoke_loop]; [done|]. intros H.
  apply stm_bind_Ok in H as (now & s1 & _ & H). destruct (negb _); [by apply stm_ret_inv in H as [[= <-] _]|].
  apply stm_bind_Ok in H as (now' & s2 & _ & H). apply stm_bind_Ok in H as (got & s3 & _ & H). cbv zeta in H.
  destruct got as [raw| |]; [|by apply stm_ret_inv in H as [[= <-] _]..].
  destruct (is_pingpong _); [apply stm_bind_Ok in H as (? & s4 & _ & H); by eapply IH|].
  destruct (subscription_error_code _); [by apply stm_ret_inv in H as [[= <-] _]|]. destruct (is_subscription_ack _); [by eapply IH, H|].
  destruct (parse_realtime_price raw) as [p|] eqn:E; [|by eapply IH]. eapply IH, H.
  destruct (String.eqb _ _) eqn:Es; [|done]. unfold session_ticks in *. cbn. rewrite Forall_app. split; [done|].
  constructor; [|constructor]. split; [by eapply parse_realtime_price_valid|by apply String.eqb_eq].
Qed.

(** A world in which a session cannot receive for ever: [mu] bounds the frames
    that are still to come, and sending and reading the clock bring no new ones. *)
Record draining {W} (socket : ws_socket W) (monotonic : stm W float) (mu : W -> nat) : Prop := mkDraining {
  dr_recv : forall t w raw w', ws_recv socket t w = (Ok raw, w') -> (mu w' < mu w)%nat;
  dr_send : forall m w, (mu (ws_send socket m w).2 <= mu w)%nat;
  dr_clock : forall w, (mu (monotonic w).2 <= mu w)%nat;
  dr_connect : forall e w, (mu (ws_connect socket e w).2 <= mu w)%nat;
}.

Lemma receive_frame {W} (socket : ws_socket W) t w raw w' :
  receive socket t w = (Ok (Frame raw), w') -> ws_recv socket (Some t) w = (Ok raw, w').
Proof.
  unfold receive. intros H. apply stm_bind_Ok in H as (r & w1 & E & H). unfold outcome in E.
  destruct (ws_recv socket (Some t) w) as [r' w2]. injection E as -> ->. destruct r as [raw'|e].
  - apply stm_ret_inv in H as [H ->]. by injection H as ->.
  - destruct (is_timeout e); [by apply stm_ret_inv in H as [? _]|]. destruct (String.eqb _ _); [by apply stm_ret_inv in H as [? _]|done].
Qed.

Lemma smoke_loop_ends {W} (socket : ws_socket W) monotonic mu : draining socket monotonic mu -> forall fuel deadline symbol st w w',
  (mu w < fuel)%nat -> smoke_loop socket monotonic fuel deadline symbol st w <> (Ok None, w').
Proof.
  intros D. induction fuel as [|fuel IH]; intros deadline symbol st w w' Hf H; [lia|]. cbn [smoke_loop] in H.
  apply stm_bind_Ok in H as (now & w1 & E1 & H). pose proof (dr_clock _ _ _ D w) as L1. rewrite E1 in L1. cbn in L1.
  destruct (negb _); [done|]. apply stm_bind_Ok in H as (now2 & w2 & E2 & H).
  pose proof (dr_clock _ _ _ D w1) as L2. rewrite E2 in L2. cbn in L2.
  apply stm_bind_Ok in H as (got & w3 & E3 & H). cbv zeta in H.
  destruct got as [raw| |]; [|done..].
  assert (L3 : (mu w3 < mu w2)%nat).
  { apply receive_frame in E3. by eapply dr_recv. }
  destruct (is_pingpong _).
  - apply stm_bind_Ok in H as ([] & w4 & E4 & H). pose proof (dr_send _ _ _ D (raw_to_text raw) w3) as L4. rewrite E4 in L4. cbn in L4.
    eapply IH, H. lia.
  - destruct (subscription_error_code _); [done|].
    destruct (is_subscription_ack _); [|destruct (parse_realtime_price raw)]; (eapply IH, H; lia).
Qed.

(** ** Properties *)

(** Fact: the smoke session sends no order.  Whatever the broker sends, all it
    sends is its one subscription and heartbeats it has received; its ticks are
    of its symbol with non-negative volumes; and a session without an
    acknowledgement reports an error. *)
Theorem smoke_session_sound {W} (socket : ws_socket W) monotonic fuel endpoint approval_key symbol seconds w r w' log :
  smoke_realtime_price (logged socket) (on_fst monotonic) fuel endpoint approval_key symbol seconds (w, []) = (r, (w', log)) ->
  Forall (smoke_message approval_key symbol) log /\
  forall st, r = Ok (Some st) -> session_ticks symbol st /\ (wsr_acknowledged st = false -> wsr_error_code st <> None).
Proof.
  intros H. split.
  - pose proof (smoke_sent socket monotonic approval_key symbol fuel endpoint seconds (w, [])) as (l & E & F).
    rewrite H in E. cbn in E. by rewrite app_nil_r in E; subst.
  - intros st ->. unfold smoke_realtime_price in H. apply stm_bind_Ok in H as ([] & s1 & _ & H).
    apply stm_bind_Ok in H as (now & s2 & _ & H). cbv zeta in H. apply stm_bind_Ok in H as (o & s3 & E & H).
    apply stm_ret_inv in H as [H _]. injection H as H. destruct o as [st0|]; [|done]. injection H as <-.
    unfold with_socket in E. apply stm_bind_Ok in E as ([] & s4 & _ & E). apply stm_bind_Ok in E as (x & s5 & E5 & E).
    apply stm_bind_Ok in E as ([] & s6 & _ & E). unfold lift_res in E. injection E as -> _. unfold outcome in E5.
    match type of E5 with (let '(_, _) := ?m in _) = _ => destruct m as [x7 s7] eqn:E7 end. injection E5 as -> _. apply stm_bind_Ok in E7 as (m & s8 & _ & E7).
    apply stm_bind_Ok in E7 as ([] & s9 & _ & E7). apply smoke_loop_ticks in E7; [|by constructor].
    split; [exact E7|]. cbn. intros Ha. rewrite Ha. by destruct (wsr_error_code st0).
Qed.

(** Fact: a smoke session ends: with more fuel than frames to come its loop is
    never cut short. *)
Theorem smoke_session_ends {W} (socket : ws_socket W) monotonic mu fuel endpoint approval_key symbol seconds w w' :
  draining socket monotonic mu -> (mu w < fuel)%nat ->
  smoke_realtime_price socket monotonic fuel endpoint approval_key symbol seconds w <> (Ok None, w').
Proof.
  intros D Hf H. unfold smoke_realtime_price in H. apply stm_bind_Ok in H as ([] & w1 & E1 & H).
  assert (w1 = w) as -> by (unfold lift_res in E1; by injection E1).
  apply stm_bind_Ok in H as (now & w2 & E2 & H). pose proof (dr_clock _ _ _ D w) as L2. rewrite E2 in L2. cbn in L2.
  cbv zeta in H. apply stm_bind_Ok in H as (o & w3 & E & H). apply stm_ret_inv in H as [H _]. destruct o as [st|]; [done|].
  unfold with_socket in E. apply stm_bind_Ok in E as ([] & w4 & E4 & E). pose proof (dr_connect _ _ _ D endpoint w2) as L4.
  rewrite E4 in L4. cbn in L4. apply stm_bind_Ok in E as (x & w5 & E5 & E). apply stm_bind_Ok in E as ([] & w6 & _ & E).
  unfold lift_res in E. injection E as -> _. unfold outcome in E5. match type of E5 with (let '(_, _) := ?m in _) = _ => destruct m as [x7 w7] eqn:E7 end. injection E5 as -> _.
  apply stm_bind_Ok in E7 as (m & w8 & E8 & E7). assert (w8 = w4) as -> by (unfold lift_res in E8; by injection E8).
  apply stm_bind_Ok in E7 as ([] & w9 & E9 & E7). pose proof (dr_send _ _ _ D m w4) as L9. rewrite E9 in L9. cbn in L9.
  revert E7. eapply smoke_loop_ends; [exact D|]. lia.
Qed.

(** ** Witnesses *)

(** A scripted socket: the world is the frames still to come. *)
Definition scripted : ws_socket (list raw_frame) := {|
  ws_connect _ := mret tt;
  ws_close := mret tt;
  ws_send _ := mret tt;
  ws_recv _ := fun l => match l with raw :: l' => (Ok raw, l') | [] => (Err ws_timeout, []) end;
|}.
Definition w_tick : raw_frame := RawText "0|H0STCNT0|001|005930^093000^70000^2^0^0^0^0^0^0^0^0^5^100".
Definition w_ws_ack : raw_frame :=
  RawText (dumps (JObj [("header", JObj [("tr_id", JStr "H0STCNT0")]); ("body", JObj [("rt_cd", JStr "0"); ("msg1", JStr "SUBSCRIBE SUCCESS")])])).
Definition w_ping : raw_frame := RawBytes (dumps (JObj [("header", JObj [("tr_id", JStr "PINGPONG")])])).
Definition w_script : list raw_frame := [w_ws_ack; w_ping; w_tick].
Definition w_smoke := smoke_realtime_price (logged scripted) (on_fst (mret (f_of_Z 0))) 5 "ws://x" "key" "005930" 10 (w_script, []).

Lemma scripted_draining x : draining scripted (mret x) length.
Proof.
  split; [|intros; reflexivity..]. intros t w raw w' H. destruct w as [|r w]; [done|]. injection H as _ <-. cbn. lia.
Qed.

Lemma smoke_session_sound_witness :
  w_smoke.1 = Ok (Some (mkSmokeResult true [mkRealtime "005930" "093000" (f_of_Z 70000) 5 100] None)) /\
  length w_smoke.2.2 = 2%nat /\ Forall (smoke_message "key" "005930") w_smoke.2.2.
Proof.
  split; [vm_compute; reflexivity|]. split; [vm_compute; reflexivity|].
  eapply (smoke_session_sound scripted (mret (f_of_Z 0)) 5 "ws://x" "key" "005930" 10 w_script w_smoke.1 w_smoke.2.1 w_smoke.2.2).
  vm_compute. reflexivity.
Defined.

Lemma smoke_session_ends_witness : forall w',
  smoke_realtime_price scripted (mret (f_of_Z 0)) 5 "ws://x" "key" "005930" 10 w_script <> (Ok None, w').
Proof.
  intros w'. apply (smoke_session_ends scripted (mret (f_of_Z 0)) length 5 "ws://x" "key" "005930" 10 w_script w').
  - apply scripted_draining.
  - vm_compute. lia.
Defined.
