(* ===== verification/KisAuth.v ===== *)
(** * KIS credentials ([broker/kis_auth.py])

    The access token and the WebSocket approval key of an account: their issuance
    over an HTTP session, their cache on disk and the cooldown after a rate
    limit.  The cache file is part of the state, parsed; the lock around it, the
    replacement of the file and the session are operations of the world
    ([CredentialLock] models the lock itself). *)

From S2P Require Import Prelude PyStr PyFloat PyTime PyDecimal PyDict PyJson IsoText DbCore DbRuntime KisHttp KisOrder System KisWs.

Record KisAuthResult := mkAuthResult {
  ar_access_token : string;
  ar_approval_key : string;
  ar_cache_hit : bool;
}.

#[export] Instance auth_result_eq_dec : EqDecision KisAuthResult.
Proof. solve_decision. Defined.

(** [_CREDENTIAL_RATE_LIMIT_COOLDOWN_SECONDS], in microseconds *)
Definition COOLDOWN_US : Z := 60 * us_per_second.

(** ** The cached payload *)

(** [text.replace("Z", "+00:00")] *)
Fixpoint replace_zulu (s : string) : string :=
  match s with
  | "" => ""
  | String c t => if bool_decide (c = "Z"%char) then "+00:00" +:+ replace_zulu t else String c (replace_zulu t)
  end.

(** A date and time with another separator than [T], and a bare date: the forms
    of [datetime.fromisoformat] besides those [isoformat] prints. *)
Fixpoint with_T (n : nat) (s : string) : string :=
  match s with
  | "" => ""
  | String c t => match n with O => String "T" t | S n => String c (with_T n t) end
  end.
Definition loose_iso (s : string) : string := if (String.length s =? 10)%nat then s +:+ "T00:00:00" else with_T 10 s.
Definition fromisoformat_loose (s : string) : option datetime :=
  match read_iso s with Some d => Some d | None => read_iso (loose_iso s) end.

Definition parse_expiry (value : json) : option datetime :=
  if negb (truthy value) then None
  else
    parsed ← fromisoformat_loose (replace_zulu (py_str value));
    Some (if is_naive parsed then with_tz parsed (Some UTC) else parsed).

Definition entry (k : string) (payload : dict json) : json := or_else (dget k payload) JNull.

Definition token_cache_valid (payload : dict json) (now : datetime) : bool :=
  truthy (entry "access_token" payload) &&
  match parse_expiry (entry "expires_at" payload) with
  | Some e => instant (dt_add now (60 * us_per_second)) <? instant e
  | None => false
  end.

Definition cache_valid (payload : dict json) (now : datetime) : bool :=
  truthy (entry "approval_key" payload) && token_cache_valid payload now.

(** The end of a cooldown that is still running at [now] *)
Definition cooling_until (payload : dict json) (now : datetime) : option datetime :=
  match parse_expiry (entry "credential_retry_after" payload) with
  | Some t => if instant t <=? instant now then None else Some t
  | None => None
  end.

Definition raise_if_credential_cooldown (payload : dict json) (now : datetime) : res unit :=
  match cooling_until payload now with
  | None => Ok tt
  | Some retry_after =>
      status_code ← (match json_int (or_else (dget "last_error_status" payload) (JInt 429)) with
                     | Err e => if is_ValueError e || String.eqb (exn_name e) "TypeError" then Ok 429 else Err e
                     | ok => ok
                     end);
      let details := match dget "last_error_details" payload with Some (JObj o) => o | _ => [] end in
      Err (KisHttpError status_code
             (dset "retry_after" (isoformat retry_after) (map (fun kv => (fst kv, py_str (snd kv))) details)))
  end.

Definition positive_int (value : json) : res (option Z) :=
  match json_int value with
  | Ok z => Ok (if 0 <? z then Some z else None)
  | Err e => if is_ValueError e || String.eqb (exn_name e) "TypeError" then Ok None else Err e
  end.

(** ** The client *)

Record auth_client := mkAuthClient {
  ac_environment : KisEnvironment;
  ac_app_key : string;
  ac_app_secret : string;
}.

(** [KisAuthClient.__init__] *)
Definition new_auth_client (environment : KisEnvironment + string) (app_key app_secret : string) : res auth_client :=
  _ ← raise_if (sempty app_key || sempty app_secret) (ValueError "KIS app key and app secret are required");
  e ← (match environment with inl e => Ok e | inr text => parse_environment text end);
  Ok (mkAuthClient e app_key app_secret).

Definition auth_secrets (c : auth_client) : list string := [ac_app_key c; ac_app_secret c].

Definition token_request (c : auth_client) : http_request :=
  mkHttp (api_url (ac_environment c) "/oauth2/tokenP") []
    [("grant_type", JStr "client_credentials"); ("appkey", JStr (ac_app_key c)); ("appsecret", JStr (ac_app_secret c))].
Definition approval_key_request (c : auth_client) : http_request :=
  mkHttp (api_url (ac_environment c) "/oauth2/Approval") []
    [("grant_type", JStr "client_credentials"); ("appkey", JStr (ac_app_key c)); ("secretkey", JStr (ac_app_secret c))].

(** The file, as [_read_cache] sees it: a file that cannot be read, is no JSON or
    no object counts as empty. *)
Inductive cache_file := NoCache | Unreadable | Payload (payload : dict json).

Record auth_state (W : Type) := mkAuth {
  au_world : W;
  au_cache : cache_file;
  au_expires_in : option Z;
  au_expired_at : option string;
}.
Arguments mkAuth {W} _ _ _ _.
Arguments au_world {W} _.
Arguments au_cache {W} _.
Arguments au_expires_in {W} _.
Arguments au_expired_at {W} _.

Definition read_cache (f : cache_file) : dict json := match f with Payload p => p | _ => [] end.

(** [_cache_credential_rate_limit]: what replaces the cache *)
Definition limited_payload (cached : dict json) (status_code : Z) (details : list (string * string)) (now : datetime) : dict json :=
  (if token_cache_valid cached now
   then omap (fun key => match dget key cached with Some v => Some (key, v) | None => None end)
          ["access_token"; "issued_at"; "expires_at"]
   else []) ++
  [("credential_retry_after", JStr (isoformat (dt_add now COOLDOWN_US)));
   ("last_error_status", JInt status_code);
   ("last_error_details", JObj (map (fun kv => (fst kv, JStr (snd kv)))
      (List.filter (fun kv => mem_str (fst kv) ["rt_cd"; "msg_cd"; "error_description"]) details)))].

Definition rate_limited (status_code : Z) : bool := (status_code =? 403) || (status_code =? 429).

Section Auth.
Context {W : Type} {CW : Clock W}.
(** [session.post], the lock of the cache, and the replacement of the file *)
Variable post : http_request -> stm W response.
Variables acquire_lock release_lock store : stm W unit.
Variable c : auth_client.
Notation auth := (stm (auth_state W)).

Definition in_world {A} (m : stm W A) : auth A := fun s =>
  let '(r, w) := m (au_world s) in (r, mkAuth w (au_cache s) (au_expires_in s) (au_expired_at s)).

(** [datetime.now(timezone.utc)] *)
Definition utc_now : auth datetime := in_world (fun w => let '(t, w) := wall_clock w in (Ok (astimezone t UTC), w)).

(** [_write_cache]: the file is replaced, or left as it was. *)
Definition write_cache (payload : dict json) : auth unit :=
  _ ← in_world store;
  modify (fun s => mkAuth (au_world s) (Payload payload) (au_expires_in s) (au_expired_at s)).

Definition issue_access_token : auth string :=
  response ← in_world (post (token_request c));
  _ ← lift_res (raise_for_kis_response response (auth_secrets c));
  payload ← lift_res (json_object response);
  expires_in ← lift_res (positive_int (entry "expires_in" payload));
  _ ← modify (fun s => mkAuth (au_world s) (au_cache s) expires_in (au_expired_at s));
  let expired := entry "access_token_token_expired" payload in
  let expired_at := if truthy expired && negb (sempty (py_str expired)) then Some (py_str expired) else None in
  _ ← modify (fun s => mkAuth (au_world s) (au_cache s) (au_expires_in s) expired_at);
  let token := entry "access_token" payload in
  lift_res (if truthy token then Ok (py_str token) else Err (ValueError "KIS token response did not contain access_token")).

Definition issue_websocket_approval_key : auth string :=
  response ← in_world (post (approval_key_request c));
  _ ← lift_res (raise_for_kis_response response (auth_secrets c));
  payload ← lift_res (json_object response);
  let approval_key := entry "approval_key" payload in
  lift_res (if truthy approval_key then Ok (py_str approval_key)
            else Err (ValueError "KIS approval response did not contain approval_key")).

Definition token_expires_at (issued_at : datetime) : auth datetime :=
  gets (fun s =>
    match au_expires_in s with
    | Some n => dt_add issued_at (Z.max 0 n * us_per_second)
    | None =>
        or_else (parse_expiry (match au_expired_at s with Some t => JStr t | None => JNull end))
          (dt_add issued_at (23 * 3600 * us_per_second))
    end).

Definition cache_credential_rate_limit (status_code : Z) (details : list (string * string)) (now : datetime) (preserve_token : bool)
    : auth unit :=
  if negb (rate_limited status_code) then mret tt
  else
    cached ← gets (fun s => if preserve_token then read_cache (au_cache s) else []);
    write_cache (limited_payload cached status_code details now).

(** [try: m  except KisHttpError as exc: _cache_credential_rate_limit(...); raise] *)
Definition or_cool_down {A} (m : auth A) (now : datetime) (preserve_token : bool) : auth A :=
  catch m (fun e =>
    match e with
    | KisHttpError status_code details => _ ← cache_credential_rate_limit status_code details now preserve_token; raise e
    | _ => raise e
    end).

Record issued := mkIssued { is_token : string; is_issued_at : string; is_expires_at : string }.

Definition token_payload (i : issued) : dict json :=
  [("access_token", JStr (is_token i)); ("issued_at", JStr (is_issued_at i)); ("expires_at", JStr (is_expires_at i))].
Definition full_payload (i : issued) (approval_key : string) : dict json :=
  [("access_token", JStr (is_token i)); ("approval_key", JStr approval_key); ("issued_at", JStr (is_issued_at i));
   ("expires_at", JStr (is_expires_at i))].

(** The token: the cached one while it is valid, else a new one, which is cached. *)
Definition current_token (payload : dict json) (now : datetime) (refresh_token : bool) : auth issued :=
  if negb refresh_token && token_cache_valid payload now then
    let issued_at := entry "issued_at" payload in
    mret (mkIssued (py_str (entry "access_token" payload)) (if truthy issued_at then py_str issued_at else isoformat now)
            (py_str (entry "expires_at" payload)))
  else
    access_token ← or_cool_down issue_access_token now false;
    expires_at ← token_expires_at now;
    let i := mkIssued access_token (isoformat now) (isoformat expires_at) in
    _ ← write_cache (token_payload i);
    mret i.

(** The body of [with _cache_issue_lock(cache_path)] *)
Definition locked_authenticate (refresh_token : bool) : auth KisAuthResult :=
  now ← utc_now;
  payload ← gets (fun s => read_cache (au_cache s));
  if negb refresh_token && cache_valid payload now
  then mret (mkAuthResult (py_str (entry "access_token" payload)) (py_str (entry "approval_key" payload)) true)
  else
    _ ← lift_res (raise_if_credential_cooldown payload now);
    i ← current_token payload now refresh_token;
    approval_key ← or_cool_down issue_websocket_approval_key now true;
    _ ← write_cache (full_payload i approval_key);
    mret (mkAuthResult (is_token i) approval_key false).

(** [_issue_credentials] *)
Definition issue_credentials : auth KisAuthResult :=
  access_token ← issue_access_token;
  approval_key ← issue_websocket_approval_key;
  mret (mkAuthResult access_token approval_key false).

(** [authenticate_read_only]; the lock is given back however the body ends. *)
Definition authenticate_read_only (cached refresh_token : bool) : auth KisAuthResult :=
  if negb cached then issue_credentials
  else with_socket (in_world acquire_lock) (in_world release_lock) (locked_authenticate refresh_token).
End Auth.

(** ** Lemmas *)

(** [isoformat] prints no [Z], so that the text of an instant is read back. *)
Fixpoint no_zulu (s : string) : bool :=
  match s with "" => true | String c t => negb (bool_decide (c = "Z"%char)) && no_zulu t end.

Lemma replace_no_zulu s : no_zulu s = true -> replace_zulu s = s.
Proof. induction s as [|c s IH]; cbn; [done|]. destruct (bool_decide _); [done|]. intros H. by rewrite IH. Qed.

Lemma no_zulu_app s t : no_zulu (s +:+ t) = no_zulu s && no_zulu t.
Proof. induction s as [|c s IH]; [done|]. change (String c s +:+ t) with (String c (s +:+ t)). cbn [no_zulu]. by rewrite IH, andb_assoc. Qed.

Lemma digit_no_zulu n : no_zulu (String (Ascii.ascii_of_N (Z.to_N (48 + n mod 10))) "") = true.
Proof.
  cbn. rewrite andb_true_r. apply negb_true_iff, bool_decide_eq_false. intros H.
  pose proof (code_digit n) as Hc. unfold digit_char in Hc. rewrite H in Hc. change (code "Z") with 90 in Hc.
  pose proof (Z.mod_pos_bound n 10). lia.
Qed.

Lemma pad_no_zulu w : forall n, no_zulu (pad_digits w n) = true.
Proof. induction w as [|w IH]; intros n; [done|]. cbn [pad_digits]. by rewrite no_zulu_app, IH, digit_no_zulu. Qed.

Lemma iso_no_zulu d : no_zulu (isoformat d) = true.
Proof.
  unfold isoformat, iso_date, iso_time_seconds, iso_micro, iso_offset. destruct (civil_of_days _) as [[y m] dd].
  rewrite !no_zulu_app, !pad_no_zulu. cbn [no_zulu bool_decide andb negb]. rewrite !bool_decide_eq_false_2 by done. cbn [negb andb].
  destruct (_ =? 0); destruct (dt_tz d) as [off|]; rewrite ?no_zulu_app, ?pad_no_zulu; try done; by destruct (off <? 0).
Qed.

Lemma pad_nonempty w n : pad_digits (S w) n <> "".
Proof. intros H. apply (f_equal String.length) in H. by rewrite length_pad in H. Qed.

Lemma iso_nonempty d : sempty (isoformat d) = false.
Proof.
  unfold isoformat, iso_date. destruct (civil_of_days _) as [[y m] dd]. destruct (pad_digits 4 y) eqn:E; [by apply pad_nonempty in E|done].
Qed.

Lemma parse_expiry_iso d : valid_dt d -> is_naive d = false -> parse_expiry (JStr (isoformat d)) = Some d.
Proof.
  intros Hv Hn. unfold parse_expiry. cbn [truthy py_str]. rewrite iso_nonempty. cbn [negb].
  rewrite replace_no_zulu by apply iso_no_zulu. unfold fromisoformat_loose. rewrite read_iso_isoformat by done. cbn. by rewrite Hn.
Qed.

(** A valid cache depends on nothing but its fields. *)
Lemma token_valid_ext p p' now : dget "access_token" p = dget "access_token" p' -> dget "expires_at" p = dget "expires_at" p' ->
  token_cache_valid p now = token_cache_valid p' now.
Proof. unfold token_cache_valid, entry. by intros -> ->. Qed.

(** What a cooldown leaves never counts as full credentials. *)
Lemma limited_no_approval cached st details now : dget "approval_key" (limited_payload cached st details now) = None.
Proof.
  unfold limited_payload. destruct (token_cache_valid cached now); [|done]. cbn [omap list_omap].
  by destruct (dget "access_token" cached), (dget "issued_at" cached), (dget "expires_at" cached).
Qed.

Lemma limited_retry cached st details now :
  dget "credential_retry_after" (limited_payload cached st details now) = Some (JStr (isoformat (dt_add now COOLDOWN_US))) /\
  dget "last_error_status" (limited_payload cached st details now) = Some (JInt st).
Proof.
  unfold limited_payload. destruct (token_cache_valid cached now); [|done]. cbn [omap list_omap].
  by destruct (dget "access_token" cached), (dget "issued_at" cached), (dget "expires_at" cached).
Qed.

Lemma limited_cools cached st details now now' :
  valid_dt (dt_add now COOLDOWN_US) -> is_naive now = false -> instant now' < instant (dt_add now COOLDOWN_US) ->
  exists d, raise_if_credential_cooldown (limited_payload cached st details now) now' = Err (KisHttpError st d) /\
            cache_valid (limited_payload cached st details now) now' = false.
Proof.
  intros Hv Hn Hlt. destruct (limited_retry cached st details now) as [E1 E2].
  unfold raise_if_credential_cooldown, cooling_until, cache_valid, entry. rewrite E1, E2, limited_no_approval. cbn [or_else].
  rewrite parse_expiry_iso by done. destruct (Z.leb_spec (instant (dt_add now COOLDOWN_US)) (instant now')); [lia|].
  cbn [json_int]. by eexists.
Qed.

(** A truthy value has a text. *)
Lemma app_nonempty_l s t : sempty s = false -> sempty (s +:+ t) = false.
Proof. by destruct s. Qed.

Lemma app_nonempty_r s t : sempty t = false -> sempty (s +:+ t) = false.
Proof. by destruct s. Qed.

Lemma repr_positive_nonempty d : sempty (repr_positive d) = false.
Proof.
  unfold repr_positive. destruct (strip_zeros 400 _ _) as [k e]. cbv zeta.
  destruct (_ && _); [destruct (_ <=? 0); [done|destruct (_ <=? _)]|]; apply app_nonempty_r; try done; apply app_nonempty_r; try done.
Qed.

Lemma float_text_nonempty x : sempty (float_text x) = false.
Proof. destruct x as [s|s| |s m e]; [by destruct s|by destruct s|done|]. apply app_nonempty_r, repr_positive_nonempty. Qed.

Lemma str_int_nonempty z : sempty (str_int z) = false.
Proof.
  destruct z as [|p|p]; [done| |done]. destruct (sempty (str_int (Z.pos p))) eqn:E; [|done]. apply String.eqb_eq in E.
  pose proof (parse_int_str (Z.pos p) ltac:(lia)) as H. by rewrite E in H.
Qed.

Lemma py_str_nonempty v : truthy v = true -> sempty (py_str v) = false.
Proof.
  destruct v as [|b|z|x|s|l|o]; cbn; intros H; [done|by destruct b|apply str_int_nonempty|apply float_text_nonempty| |done|done].
  by apply negb_true_iff in H.
Qed.

(** ** Runs, with the requests of the session recorded (the last first) *)

Definition logged_post {W} (post : http_request -> stm W response) (q : http_request) : stm (W * list http_request) response :=
  fun wl => let '(r, w) := post q (fst wl) in (r, (w, q :: snd wl)).

Section AuthFacts.
Context {W : Type} {CW : Clock W}.
Variable post : http_request -> stm W response.
Variables acquire_lock release_lock store : stm W unit.
Variable c : auth_client.
Notation world := (W * list http_request)%type.
Notation state := (auth_state world).
Notation lpost := (logged_post post).
Notation lstore := (on_fst store).
Notation locked := (locked_authenticate lpost lstore c).
Notation authenticate := (authenticate_read_only lpost (on_fst acquire_lock) (on_fst release_lock) lstore c true).

Definition requests (s : state) : list http_request := snd (au_world s).

(** The moment a call reads, once it holds the lock *)
Definition auth_now (s : state) : datetime :=
  astimezone (wall_clock (acquire_lock (fst (au_world s))).2).1 UTC.

Definition same_requests (s s' : state) : Prop := requests s' = requests s.
#[export] Instance same_requests_preorder : PreOrder same_requests.
Proof. split; [done|]. unfold same_requests. intros a b d. congruence. Qed.
Notation silent m := (keeps same_requests m).

Lemma silent_world {A} (m : stm W A) : silent (in_world (on_fst m)).
Proof. intros s. unfold in_world, on_fst. by destruct (m (fst (au_world s))). Qed.

Lemma silent_modify f : (forall s, au_world (f s) = au_world s) -> silent (modify f).
Proof. intros H s. unfold same_requests, requests. cbn. by rewrite H. Qed.

Lemma silent_write p : silent (write_cache lstore p).
Proof. apply keeps_bind; [exact _|apply silent_world|]. intros _. by apply silent_modify. Qed.

Lemma silent_cooldown {A} (m : stm state A) now b : forall s l,
  requests (m s).2 = l -> requests (or_cool_down lstore m now b s).2 = l.
Proof.
  intros s l H. unfold or_cool_down, catch. destruct (m s) as [[a|e] s1]; [done|]. cbn [snd] in H. subst l.
  assert (silent (raise (A := A) e)) as Hr by apply keeps_raise, _.
  destruct e; try apply Hr. unfold cache_credential_rate_limit. destruct (negb _); [apply Hr|].
  refine (keeps_bind same_requests (gets _ ≫= _) _ _ _ s1); [|intros; apply Hr].
  apply keeps_bind; [exact _|apply keeps_gets, _|intros; apply silent_write].
Qed.

(** A request is sent, whatever comes of the answer. *)
Lemma posted {A} q (f : response -> stm state A) s : (forall r, silent (f r)) ->
  requests (mbind f (in_world (lpost q)) s).2 = q :: requests s.
Proof.
  intros Hf. unfold mbind, stm_bind, in_world, logged_post. destruct (post q (fst (au_world s))) as [[r|e] w]; [|done].
  apply (Hf r (mkAuth (w, q :: snd (au_world s)) _ _ _)).
Qed.

Lemma token_posted s : requests (issue_access_token lpost c s).2 = token_request c :: requests s.
Proof.
  apply posted. intros r. apply keeps_bind; [exact _|apply keeps_lift, _|intros _].
  apply keeps_bind; [exact _|apply keeps_lift, _|intros p]. apply keeps_bind; [exact _|apply keeps_lift, _|intros n].
  apply keeps_bind; [exact _|by apply silent_modify|intros _]. cbv zeta.
  apply keeps_bind; [exact _|by apply silent_modify|intros _]. apply keeps_lift, _.
Qed.

Lemma approval_posted s : requests (issue_websocket_approval_key lpost c s).2 = approval_key_request c :: requests s.
Proof.
  apply posted. intros r. apply keeps_bind; [exact _|apply keeps_lift, _|intros _].
  apply keeps_bind; [exact _|apply keeps_lift, _|intros p]. apply keeps_lift, _.
Qed.

(** The end of a call: after the token, the approval key is asked for. *)
Lemma current_token_requests payload now refresh s :
  (negb refresh && token_cache_valid payload now = true /\ (current_token lpost lstore c payload now refresh s).2 = s /\
   is_ok (current_token lpost lstore c payload now refresh s).1 = true) \/
  (negb refresh && token_cache_valid payload now = false /\
   requests (current_token lpost lstore c payload now refresh s).2 = token_request c :: requests s).
Proof.
  unfold current_token. destruct (negb refresh && _) eqn:E; [by left|right]. split; [done|].
  pose proof (silent_cooldown (issue_access_token lpost c) now false s _ (token_posted s)) as H.
  unfold mbind at 1, stm_bind. destruct (or_cool_down _ _ _ _ s) as [[t|e] s1]; cbn [snd] in *; [|done].
  rewrite <- H. change (same_requests s1 ((expires_at ← token_expires_at now;
    let i := mkIssued t (isoformat now) (isoformat expires_at) in _ ← write_cache lstore (token_payload i); mret i) s1).2).
  revert s1 H. intros s1 _. apply keeps_bind; [exact _|apply keeps_gets, _|]. intros x. cbv zeta.
  apply keeps_bind; [exact _|apply silent_write|intros _]. apply keeps_ret, _.
Qed.

Lemma finish_requests i now s :
  requests ((approval_key ← or_cool_down lstore (issue_websocket_approval_key lpost c) now true;
     _ ← write_cache lstore (full_payload i approval_key); mret (mkAuthResult (is_token i) approval_key false)) s).2 =
  approval_key_request c :: requests s.
Proof.
  pose proof (silent_cooldown (issue_websocket_approval_key lpost c) now true s _ (approval_posted s)) as H.
  unfold mbind at 1, stm_bind. destruct (or_cool_down _ _ _ _ s) as [[k|e] s1]; cbn [snd] in *; [|done].
  rewrite <- H. refine (keeps_bind same_requests (write_cache _ _) _ _ _ s1); [apply silent_write|intros; apply keeps_ret, _].
Qed.

(** What a locked call asks the broker for. *)
Definition asked (payload : dict json) (now : datetime) (refresh : bool) (before after : list http_request) : Prop :=
  after = before \/
  (raise_if_credential_cooldown payload now = Ok tt /\ negb refresh && cache_valid payload now = false /\
   ((negb refresh && token_cache_valid payload now = true /\ after = approval_key_request c :: before) \/
    (negb refresh && token_cache_valid payload now = false /\
     (after = token_request c :: before \/ after = approval_key_request c :: token_request c :: before)))).

Lemma utc_now_run (s : state) : utc_now s =
  (Ok (astimezone (wall_clock (fst (au_world s))).1 UTC),
   mkAuth ((wall_clock (fst (au_world s))).2, requests s) (au_cache s) (au_expires_in s) (au_expired_at s)).
Proof. unfold utc_now, in_world, wall_clock at 1, logged_clock. by destruct (wall_clock (fst (au_world s))). Qed.

Lemma locked_asks refresh s :
  asked (read_cache (au_cache s)) (astimezone (wall_clock (fst (au_world s))).1 UTC) refresh (requests s) (requests (locked refresh s).2).
Proof.
  unfold locked_authenticate. rewrite (stm_bind_run _ _ _ _ _ (utc_now_run s)).
  set (s1 := mkAuth _ _ _ _). set (now := astimezone _ _). change (requests s) with (requests s1). change (au_cache s) with (au_cache s1).
  clearbody s1 now. set (payload := read_cache (au_cache s1)).
  rewrite (stm_bind_run (gets _) _ s1 payload s1) by done.
  destruct (negb refresh && cache_valid payload now) eqn:Ev; [by left|].
  destruct (raise_if_credential_cooldown payload now) as [[]|e] eqn:Ec; [|by left].
  rewrite (stm_bind_run (lift_res _) _ s1 tt s1) by done.
  destruct (current_token_requests payload now refresh s1) as [(Ht & Hs & Hok)|[Ht Hr]].
  - right. split_and!; [done..|]. left. split; [done|]. destruct (current_token _ _ _ _ _ _ s1) as [[i|e] s2] eqn:E; [|done].
    cbn in Hs. subst s2. rewrite (stm_bind_run _ _ _ _ _ E). apply finish_requests.
  - right. split_and!; [done..|]. right. split; [done|]. destruct (current_token _ _ _ _ _ _ s1) as [[i|e] s2] eqn:E; cbn in Hr.
    + right. rewrite (stm_bind_run _ _ _ _ _ E). by rewrite finish_requests, Hr.
    + left. by rewrite (stm_bind_err _ _ _ _ _ E).
Qed.

Lemma authenticate_run refresh s r s' : authenticate refresh s = (r, s') ->
  (exists e w, acquire_lock (fst (au_world s)) = (Err e, w) /\ r = Err e /\
     s' = mkAuth (w, requests s) (au_cache s) (au_expires_in s) (au_expired_at s)) \/
  exists w r1 s2, acquire_lock (fst (au_world s)) = (Ok tt, w) /\
    locked refresh (mkAuth (w, requests s) (au_cache s) (au_expires_in s) (au_expired_at s)) = (r1, s2) /\
    requests s' = requests s2 /\ au_cache s' = au_cache s2 /\
    r = match (release_lock (fst (au_world s2))).1 with Ok _ => r1 | Err e => Err e end.
Proof.
  cbn [authenticate_read_only negb]. unfold authenticate_read_only, with_socket. cbn [negb].
  unfold mbind at 1, stm_bind. unfold in_world at 1, on_fst at 1. fold (requests s).
  destruct (acquire_lock (fst (au_world s))) as [[[]|e] w] eqn:Ea.
  2: { intros [= <- <-]. left. by exists e, w. }
  set (s1 := mkAuth (w, requests s) _ _ _). intros H. right. exists w.
  destruct (locked refresh s1) as [r1 s2] eqn:El. exists r1, s2.
  unfold mbind at 1, stm_bind in H. unfold outcome in H. rewrite El in H.
  unfold mbind, stm_bind, in_world, on_fst in H. destruct (release_lock (fst (au_world s2))) as [[[]|e] w3];
    injection H as <- <-; by split_and!.
Qed.
End AuthFacts.

(** A rate-limited request leaves a cooldown behind. *)
Section Limited.
Context {W : Type} {CW : Clock W}.
Variable post : http_request -> stm W response.
Variable store : stm W unit.
Variable c : auth_client.
Notation state := (auth_state (W * list http_request)).
Hypothesis store_ok : forall w, (store w).1 = Ok tt.

Definition cooled (st : Z) (details : list (string * string)) (now : datetime) (s : state) : Prop :=
  exists cached, read_cache (au_cache s) = limited_payload cached st details now.

Lemma write_ok p (s : state) : exists s', write_cache (on_fst store) p s = (Ok tt, s') /\ au_cache s' = Payload p /\ requests s' = requests s.
Proof.
  unfold write_cache, in_world, on_fst, mbind, stm_bind. specialize (store_ok (fst (au_world s))).
  destruct (store _) as [[[]|] w]; [|done]. by eexists.
Qed.

Lemma cool_down_limited {A} (m : stm state A) now b (s s' : state) st d :
  or_cool_down (on_fst store) m now b s = (Err (KisHttpError st d), s') -> rate_limited st = true -> cooled st d now s'.
Proof.
  unfold or_cool_down, catch. destruct (m s) as [[a|e] s1]; [done|]. destruct e; try done. unfold cache_credential_rate_limit.
  destruct (rate_limited status_code) eqn:Er; cbn [negb]; [|intros [= <- <- <-]; by rewrite Er].
  set (cached := if b then read_cache (au_cache s1) else []).
  destruct (write_ok (limited_payload cached status_code details now) s1) as (s2 & E & Hc & _).
  assert (K : (cached ← gets (fun s => if b then read_cache (au_cache s) else []);
    write_cache (on_fst store) (limited_payload cached status_code details now)) s1 = (Ok tt, s2)) by exact E.
  rewrite (stm_bind_run _ _ _ _ _ K). intros [= <- <- <-] _. exists cached. by rewrite Hc.
Qed.

Lemma write_not_limited p {A} (m : stm state A) (s s' : state) r : (_ ← write_cache (on_fst store) p; m) s = (r, s') ->
  exists s1, m s1 = (r, s') /\ au_cache s1 = Payload p /\ requests s1 = requests s.
Proof. destruct (write_ok p s) as (s1 & E & Hc & Hr). rewrite (stm_bind_run _ _ _ _ _ E). by exists s1. Qed.

(** The outcome of the first of two steps. *)
Ltac first_step s E :=
  match goal with
  | |- mbind ?f ?m s = _ -> _ => destruct (m s) as [[?|?] ?] eqn:E; [rewrite (stm_bind_run m f _ _ _ E)|rewrite (stm_bind_err m f _ _ _ E)]
  end.

Lemma finish_limited i now (s s' : state) st d :
  (approval_key ← or_cool_down (on_fst store) (issue_websocket_approval_key (logged_post post) c) now true;
     _ ← write_cache (on_fst store) (full_payload i approval_key); mret (mkAuthResult (is_token i) approval_key false)) s =
    (Err (KisHttpError st d), s') -> rate_limited st = true -> cooled st d now s'.
Proof.
  first_step s E.
  - intros H _. apply write_not_limited in H as (s2 & H & _). discriminate H.
  - intros [= -> ->]. eapply cool_down_limited, E.
Qed.

Lemma current_token_limited payload now refresh (s s' : state) st d :
  current_token (logged_post post) (on_fst store) c payload now refresh s = (Err (KisHttpError st d), s') ->
  rate_limited st = true -> cooled st d now s'.
Proof.
  unfold current_token. destruct (_ && _); [done|].
  first_step s E.
  - rewrite (stm_bind_run (token_expires_at _) _ _ _ _ eq_refl). cbv zeta.
    intros H _. by apply write_not_limited in H as (s2 & H & _).
  - intros [= -> ->]. eapply cool_down_limited, E.
Qed.

Lemma locked_limited refresh (s s' : state) r st d :
  locked_authenticate (logged_post post) (on_fst store) c refresh s = (r, s') -> requests s' <> requests s ->
  r = Err (KisHttpError st d) -> rate_limited st = true -> cooled st d (astimezone (wall_clock (fst (au_world s))).1 UTC) s'.
Proof.
  unfold locked_authenticate. rewrite (stm_bind_run _ _ _ _ _ (utc_now_run s)).
  set (s1 := mkAuth _ _ _ _). set (now := astimezone _ _). change (requests s) with (requests s1). clearbody s1 now.
  rewrite (stm_bind_run (gets _) _ s1 (read_cache (au_cache s1)) s1) by done.
  destruct (_ && cache_valid _ _); [by intros [= <- <-] ?|].
  destruct (raise_if_credential_cooldown _ _) as [[]|e]; [|by intros [= <- <-] ?].
  rewrite (stm_bind_run (lift_res _) _ s1 tt s1) by done. first_step s1 E.
  - intros H _ -> Hst. by apply finish_limited in H.
  - intros [= <- <-] _ [= ->] Hst. by apply current_token_limited in E.
Qed.
End Limited.

(** Credentials a call returned are the ones the cache holds. *)
Section Cached.
Context {W : Type} {CW : Clock W}.
Variable post : http_request -> stm W response.
Variable store : stm W unit.
Variable c : auth_client.
Notation state := (auth_state (W * list http_request)).
Hypothesis store_ok : forall w, (store w).1 = Ok tt.

Definition holds_credentials (r : KisAuthResult) (payload : dict json) : Prop :=
  truthy (entry "approval_key" payload) = true /\
  py_str (entry "access_token" payload) = ar_access_token r /\ py_str (entry "approval_key" payload) = ar_approval_key r.

Lemma approval_nonempty (s s' : state) k :
  issue_websocket_approval_key (logged_post post) c s = (Ok k, s') -> sempty k = false.
Proof.
  intros K. unfold issue_websocket_approval_key in K.
  apply stm_bind_Ok in K as (resp & ? & _ & K). apply stm_bind_Ok in K as ([] & ? & _ & K).
  apply stm_bind_Ok in K as (p & ? & _ & K). unfold lift_res in K. destruct (truthy _) eqn:E; [|done].
  injection K as <- _. by apply py_str_nonempty.
Qed.

Lemma cool_down_Ok {A} (m : stm state A) now b (s s' : state) a : or_cool_down (on_fst store) m now b s = (Ok a, s') -> m s = (Ok a, s').
Proof.
  unfold or_cool_down, catch. destruct (m s) as [[x|e] s1]; [done|].
  destruct e; try done. unfold mbind, stm_bind. by destruct (cache_credential_rate_limit _ _ _ _ _ _) as [[|] ?].
Qed.

Lemma locked_holds refresh (s s' : state) r :
  locked_authenticate (logged_post post) (on_fst store) c refresh s = (Ok r, s') -> holds_credentials r (read_cache (au_cache s')).
Proof.
  unfold locked_authenticate. rewrite (stm_bind_run _ _ _ _ _ (utc_now_run s)).
  set (s1 := mkAuth _ _ _ _). set (now := astimezone _ _). clearbody s1 now.
  rewrite (stm_bind_run (gets _) _ s1 (read_cache (au_cache s1)) s1) by done.
  destruct (negb refresh && cache_valid _ _) eqn:Ev.
  - intros [= <- <-]. apply andb_true_iff in Ev as [_ Ev]. apply andb_true_iff in Ev as [Ev _]. by split.
  - intros H. apply stm_bind_Ok in H as ([] & s2 & _ & H). apply stm_bind_Ok in H as (i & s3 & _ & H).
    apply stm_bind_Ok in H as (k & s4 & Hk & H). apply cool_down_Ok in Hk.
    apply write_not_limited in H as (s5 & H & Hc & _); [|done]. apply stm_ret_inv in H as [[= <-] <-]. rewrite Hc.
    split_and!; [|done|done]. cbn. apply negb_true_iff. eapply approval_nonempty, Hk.
Qed.
End Cached.

(** ** Properties *)

Section AuthProperties.
Context {W : Type} {CW : Clock W}.
Variable post : http_request -> stm W response.
Variables acquire_lock release_lock store : stm W unit.
Variable c : auth_client.
Notation state := (auth_state (W * list http_request)).
Notation authenticate := (authenticate_read_only (logged_post post) (on_fst acquire_lock) (on_fst release_lock) (on_fst store) c true).
Notation now_of := (auth_now acquire_lock).

(** Fact: credentials are requested only when the cache does not have them and no
    cooldown runs.  A call sends nothing, or, of the two requests, the approval
    request behind a valid cached token, or the token request followed by at most
    one approval request when the token has expired or a refresh is asked for. *)
Theorem credentials_requested_when_needed refresh (s s' : state) r :
  authenticate refresh s = (r, s') -> requests s = [] ->
  let payload := read_cache (au_cache s) in
  let sent := rev (requests s') in
  (sent <> [] -> cooling_until payload (now_of s) = None /\ (refresh = true \/ cache_valid payload (now_of s) = false)) /\
  (refresh = false -> token_cache_valid payload (now_of s) = true -> sent = [] \/ sent = [approval_key_request c]) /\
  (sent = [] \/ sent = [approval_key_request c] \/ sent = [token_request c] \/ sent = [token_request c; approval_key_request c]).
Proof.
  intros H Hl. apply authenticate_run in H as [(e & w & _ & _ & ->)|(w & r1 & s2 & Ea & El & Hr & _ & _)].
  - unfold requests in *. cbn. rewrite Hl. cbn. split_and!; [done|by left|by left].
  - pose proof (locked_asks post store c refresh
      (mkAuth (w, requests s) (au_cache s) (au_expires_in s) (au_expired_at s))) as K.
    rewrite El in K. cbn [snd] in K. rewrite <- Hr in K. clear El Hr s2. cbn [au_cache au_world fst] in K.
    unfold auth_now. rewrite Ea. cbn [fst snd].
    unfold requests in K at 1. cbn [au_world snd] in K. rewrite Hl in K.
    set (p := read_cache _) in *. set (now := astimezone _ _) in *.
    destruct K as [->|(Hc & Hv & K)]; [cbn; split_and!; [done|by left|by left]|].
    assert (Hcool : cooling_until p now = None).
    { unfold raise_if_credential_cooldown in Hc. destruct (cooling_until p now); [|done]. by destruct (match json_int _ with Ok _ => _ | Err _ => _ end). }
    assert (refresh = true \/ cache_valid p now = false) by (destruct refresh; [by left|by right]).
    destruct K as [[Ht ->]|[Ht [-> | ->]]]; cbn; (split_and!; [done| |tauto]); intros ->; cbn in Ht; intros Ht'.
    + by right.
    + congruence.
    + congruence.
Qed.

(** Fact: a rate limit is respected.  When a request fails with status 403 or 429
    nothing is sent for sixty seconds: until then every call, a refresh too,
    raises the same status out of the cache, without a request, and leaves the
    cache as it is. *)
Theorem rate_limit_backs_off refresh (s s1 : state) st details refresh' (s2 s3 : state) r :
  (forall w, (store w).1 = Ok tt) -> (forall w, (release_lock w).1 = Ok tt) ->
  requests s = [] -> authenticate refresh s = (Err (KisHttpError st details), s1) -> requests s1 <> [] -> rate_limited st = true ->
  valid_dt (dt_add (now_of s) COOLDOWN_US) ->
  au_cache s2 = au_cache s1 -> instant (now_of s2) < instant (now_of s) + COOLDOWN_US ->
  authenticate refresh' s2 = (r, s3) ->
  requests s3 = requests s2 /\ au_cache s3 = au_cache s2 /\
  ((acquire_lock (fst (au_world s2))).1 = Ok tt -> exists d, r = Err (KisHttpError st d)).
Proof.
  intros Hstore Hrel Hl H1 Hs1 Hst Hv Hcache Hlt H2.
  assert (Hlim : exists cached, read_cache (au_cache s1) = limited_payload cached st details (now_of s)).
  { apply authenticate_run in H1 as [(e & w & _ & _ & ->)|(w & r1 & s4 & Ea & El & Hr & Hc & Hres)].
    { by unfold requests in *. }
    rewrite Hc. rewrite Hr in Hs1. clear Hr Hc s1 Hcache. unfold auth_now in *. rewrite Ea in *. cbn [fst snd] in *.
    refine (locked_limited post store c Hstore refresh _ s4 r1 st details El _ _ Hst); [by rewrite Hl in *|]. specialize (Hrel (fst (au_world s4))).
    destruct (release_lock _) as [[[]|] ?]; cbn in *; [by symmetry|done]. }
  destruct Hlim as [cached Hlim]. rewrite <- Hcache in Hlim.
  destruct (limited_cools cached st details (now_of s) (now_of s2)) as (d & Hcool & Hno); [exact Hv|done|unfold instant, dt_add in *; cbn in *; lia|].
  rewrite <- Hlim in *.
  apply authenticate_run in H2 as [(e & w & Ea & -> & ->)|(w & r1 & s4 & Ea & El & Hr & Hc & ->)].
  { split_and!; [done|done|]. rewrite Ea. done. }
  unfold auth_now in Hcool, Hno. rewrite Ea in *. cbn [fst snd] in *.
  assert (r1 = Err (KisHttpError st d) /\ requests s4 = requests s2 /\ au_cache s4 = au_cache s2) as (-> & Hq & Hq').
  { unfold locked_authenticate in El. rewrite (stm_bind_run _ _ _ _ _ (utc_now_run _)) in El. cbn [au_world au_cache fst] in El.
    rewrite (stm_bind_run (gets _) _ _ (read_cache (au_cache s2)) _) in El by done.
    rewrite Hno, andb_false_r in El. erewrite (stm_bind_err (lift_res _)) in El by (unfold lift_res; by rewrite Hcool).
    by injection El as <- <-. }
  split_and!; [congruence|congruence|]. intros _. specialize (Hrel (fst (au_world s4))).
  destruct (release_lock _) as [[[]|] ?]; cbn in *; [by exists d|done].
Qed.

(** Fact: credentials that were issued are used again.  After a call has returned
    credentials, a later call returns the same ones out of the cache, without a
    request, as long as the cached token stays valid for more than a minute. *)
Theorem issued_credentials_are_reused refresh (s s1 s2 s3 : state) r r' :
  (forall w, (store w).1 = Ok tt) -> (forall w, (release_lock w).1 = Ok tt) ->
  authenticate refresh s = (Ok r, s1) ->
  au_cache s2 = au_cache s1 -> token_cache_valid (read_cache (au_cache s1)) (now_of s2) = true ->
  (acquire_lock (fst (au_world s2))).1 = Ok tt -> authenticate false s2 = (r', s3) ->
  r' = Ok (mkAuthResult (ar_access_token r) (ar_approval_key r) true) /\ requests s3 = requests s2 /\ au_cache s3 = au_cache s2.
Proof.
  intros Hstore Hrel H1 Hcache Hv Hlock H2.
  apply authenticate_run in H1 as [(e & w & _ & Hr & _)|(w & r1 & s4 & Ea & El & _ & Hc & Hr)]; [done|].
  assert (r1 = Ok r) as ->.
  { specialize (Hrel (fst (au_world s4))). destruct (release_lock _) as [[[]|] ?]; cbn in *; [by symmetry|done]. }
  apply locked_holds in El as (Ha & Ht & Hk); [|done]. rewrite <- Hc, <- Hcache in *.
  apply authenticate_run in H2 as [(e & w2 & E & _ & _)|(w2 & r2 & s5 & E & El & Hq & Hc2 & ->)]; [by rewrite E in Hlock|].
  unfold auth_now in Hv. rewrite E in Hv. cbn [fst snd] in Hv. unfold locked_authenticate in El.
  rewrite (stm_bind_run _ _ _ _ _ (utc_now_run _)) in El. cbn [au_world au_cache fst] in El.
  rewrite (stm_bind_run (gets _) _ _ (read_cache (au_cache s2)) _) in El by done.
  unfold cache_valid in El. rewrite Ha, Hv in El. apply stm_ret_inv in El as [<- <-]. rewrite Ht, Hk.
  split_and!; [|done|done]. specialize (Hrel (wall_clock w2).2). cbn. by destruct (release_lock _) as [[[]|] ?].
Qed.
End AuthProperties.

(** ** Witnesses *)

(** A scripted session: the world is the clock and the answers to come. *)
Definition w_auth_world : Type := Z * list response.
#[local] Instance w_auth_clock : Clock w_auth_world := fun w => (Datetime (fst w) (Some UTC), w).
Definition w_auth_post (q : http_request) : stm w_auth_world response :=
  fun w => match snd w with r :: l => (Ok r, (fst w, l)) | [] => (Err (OtherError "ConnectionError"), w) end.
Definition w_auth_client : auth_client := mkAuthClient REAL "key" "secret".
Definition w_auth_call (refresh : bool) := authenticate_read_only (CW := logged_clock) (logged_post w_auth_post) (on_fst (mret tt))
  (on_fst (mret tt)) (on_fst (mret tt)) w_auth_client true refresh.
Definition w_auth_state (us : Z) (answers : list response) (file : cache_file) : auth_state (w_auth_world * list http_request) :=
  mkAuth ((us, answers), []) file None None.
Definition w_us : Z := 1700000000000000.
Definition w_token_answer : response := mkResponse 200 [] (Some (JObj [("access_token", JStr "tok"); ("expires_in", JInt 86400)])).
Definition w_approval_answer : response := mkResponse 200 [] (Some (JObj [("approval_key", JStr "app")])).
Definition w_limited_answer : response := mkResponse 429 [] (Some (JObj [("error_description", JStr "slow down, secret")])).

Definition w_issued := Eval vm_compute in w_auth_call false (w_auth_state w_us [w_token_answer; w_approval_answer] NoCache).
Definition w_cooled := Eval vm_compute in w_auth_call true (w_auth_state w_us [w_limited_answer] NoCache).

Lemma credentials_requested_when_needed_witness :
  w_issued.1 = Ok (mkAuthResult "tok" "app" false) /\
  (rev (requests w_issued.2) = [] \/ rev (requests w_issued.2) = [approval_key_request w_auth_client] \/
   rev (requests w_issued.2) = [token_request w_auth_client] \/
   rev (requests w_issued.2) = [token_request w_auth_client; approval_key_request w_auth_client]).
Proof.
  split; [reflexivity|].
  apply (credentials_requested_when_needed (CW := w_auth_clock) w_auth_post (mret tt) (mret tt) (mret tt) w_auth_client false
    (w_auth_state w_us [w_token_answer; w_approval_answer] NoCache) w_issued.2 w_issued.1); [vm_compute; reflexivity|reflexivity].
Defined.

Lemma rate_limit_backs_off_witness : exists d d',
  w_cooled.1 = Err (KisHttpError 429 d) /\
  (w_auth_call true (w_auth_state (w_us + 59999999) [w_token_answer] (au_cache w_cooled.2))).1 = Err (KisHttpError 429 d').
Proof.
  set (s2 := w_auth_state (w_us + 59999999) [w_token_answer] (au_cache w_cooled.2)).
  destruct (rate_limit_backs_off (CW := w_auth_clock) w_auth_post (mret tt) (mret tt) (mret tt) w_auth_client true
    (w_auth_state w_us [w_limited_answer] NoCache) w_cooled.2 429 [("error_description", "slow down, [redacted]")] true s2
    (w_auth_call true s2).2 (w_auth_call true s2).1) as (_ & _ & H).
  - done.
  - done.
  - done.
  - vm_compute. reflexivity.
  - vm_compute. done.
  - reflexivity.
  - vm_compute. done.
  - reflexivity.
  - vm_compute. done.
  - apply surjective_pairing.
  - destruct H as [d' H]; [done|]. exists [("error_description", "slow down, [redacted]")], d'. split; [reflexivity|exact H].
Defined.

Lemma issued_credentials_are_reused_witness :
  (w_auth_call false (w_auth_state (w_us + 3600 * us_per_second) [] (au_cache w_issued.2))).1 = Ok (mkAuthResult "tok" "app" true).
Proof.
  set (s2 := w_auth_state (w_us + 3600 * us_per_second) [] (au_cache w_issued.2)).
  apply (issued_credentials_are_reused (CW := w_auth_clock) w_auth_post (mret tt) (mret tt) (mret tt) w_auth_client false
    (w_auth_state w_us [w_token_answer; w_approval_answer] NoCache) w_issued.2 s2 (w_auth_call false s2).2
    (mkAuthResult "tok" "app" false) (w_auth_call false s2).1).
  - done.
  - done.
  - vm_compute. reflexivity.
  - reflexivity.
  - vm_compute. reflexivity.
  - reflexivity.
  - apply surjective_pairing.
Defined.
