(* ===== verification/CredentialLock.v ===== *)
(** * The lock of the credential cache ([_cache_issue_lock] of [broker/kis_auth.py])

    Threads and containers serialise the issuance of credentials by a lock file
    that is created exclusively.  The calls are modelled as processes that take
    turns, one file operation at a time, over one shared file; a process may also
    die and leave its file behind.  [time.time()] and [time.monotonic()] are read
    off one clock of microseconds. *)

From S2P Require Import Prelude PyTime.

Definition LOCK_TIMEOUT_US : Z := 45 * us_per_second.
Definition LOCK_STALE_US : Z := 120 * us_per_second.

(** Where a call stands: about to create the file, to look at a file it found, to
    remove one it found stale; holding the lock since a moment; done. *)
Inductive phase :=
  | Opening (deadline : Z)
  | Looking (deadline : Z)
  | Removing (deadline : Z)
  | Holding (since : Z)
  | Released
  | TimedOut
  | Dead.

#[export] Instance phase_eq_dec : EqDecision phase.
Proof. solve_decision. Defined.

(** The lock file: the process that wrote its id, and the time it was written. *)
Record lock_state := mkLock {
  lk_file : option (nat * Z);
  lk_now : Z;
  lk_calls : gmap nat phase;
}.

Definition at_phase (p : nat) (f : phase) (s : lock_state) : lock_state := mkLock (lk_file s) (lk_now s) (<[p := f]> (lk_calls s)).
Definition with_file (f : option (nat * Z)) (s : lock_state) : lock_state := mkLock f (lk_now s) (lk_calls s).

(** One file operation of call [p] and what follows it. *)
Definition advance (p : nat) (s : lock_state) : lock_state :=
  match lk_calls s !! p with
  | Some (Opening deadline) =>
      match lk_file s with
      | None => at_phase p (Holding (lk_now s)) (with_file (Some (p, lk_now s)) s)
      | Some _ => at_phase p (Looking deadline) s
      end
  | Some (Looking deadline) =>
      match lk_file s with
      | None => at_phase p (Opening deadline) s
      | Some (_, mtime) =>
          if LOCK_STALE_US <=? lk_now s - mtime then at_phase p (Removing deadline) s
          else if deadline <=? lk_now s then at_phase p TimedOut s
          else at_phase p (Opening deadline) s
      end
  | Some (Removing deadline) => at_phase p (Opening deadline) (with_file None s)
  | Some (Holding _) => at_phase p Released (with_file None s)
  | _ => s
  end.

Inductive lock_event :=
  | Enter (p : nat)
  | Run (p : nat)
  | Crash (p : nat)
  | Pass (us : Z).

Definition lock_step (s : lock_state) (e : lock_event) : lock_state :=
  match e with
  | Enter p => match lk_calls s !! p with
               | None => at_phase p (Opening (lk_now s + LOCK_TIMEOUT_US)) s
               | Some _ => s
               end
  | Run p => advance p s
  | Crash p => match lk_calls s !! p with Some _ => at_phase p Dead s | None => s end
  | Pass us => mkLock (lk_file s) (lk_now s + Z.max 0 us) (lk_calls s)
  end.

Definition lock_run (s : lock_state) (l : list lock_event) : lock_state := fold_left lock_step l s.

Definition unlocked (now : Z) : lock_state := mkLock None now ∅.

Definition holds (p : nat) (s : lock_state) : Prop := exists t, lk_calls s !! p = Some (Holding t).

(** Nobody has held the lock for two minutes. *)
Definition prompt (s : lock_state) : Prop := forall p t, lk_calls s !! p = Some (Holding t) -> lk_now s - t < LOCK_STALE_US.

Definition is_crash (e : lock_event) : bool := match e with Crash _ => true | _ => false end.

(** The states that calls reach whose holders are prompt; with [crash] false,
    none of them dies. *)
Inductive reachable (crash : bool) : lock_state -> Prop :=
  | reach_start now : reachable crash (unlocked now)
  | reach_step s e : reachable crash s -> (is_crash e = true -> crash = true) -> prompt (lock_step s e) -> reachable crash (lock_step s e).

(** ** Lemmas *)

(** The file belongs to the one call that holds the lock, and nobody is about to
    remove it. *)
Record exclusive (s : lock_state) : Prop := mkExclusive {
  ex_holder : forall p t, lk_calls s !! p = Some (Holding t) -> lk_file s = Some (p, t);
  ex_file : forall p t, lk_file s = Some (p, t) -> lk_calls s !! p = Some (Holding t);
  ex_removing : forall p d, lk_calls s !! p <> Some (Removing d);
}.

Lemma exclusive_unlocked now : exclusive (unlocked now).
Proof. by split; intros p; cbn; try intros t; rewrite ?lookup_empty. Qed.

Lemma prompt_fresh s q t : exclusive s -> prompt s -> lk_file s = Some (q, t) -> (LOCK_STALE_US <=? lk_now s - t) = false.
Proof. intros Hx Hp Hf. apply Z.leb_gt. by eapply Hp, ex_file. Qed.

(** A call that neither holds nor comes to hold the lock moves without touching
    the file. *)
Lemma exclusive_move p f s : exclusive s -> (forall t, lk_calls s !! p <> Some (Holding t)) ->
  (forall t, f <> Holding t) -> (forall d, f <> Removing d) -> exclusive (at_phase p f s).
Proof.
  intros [H1 H2 H3] Hn Hh Hr. split; cbn.
  - intros q t. rewrite lookup_insert. case_decide; [intros [= ->]; by edestruct Hh|apply H1].
  - intros q t Hf. rewrite lookup_insert_ne; [by apply H2|]. intros ->. by eapply Hn, H2.
  - intros q d. rewrite lookup_insert. case_decide; [|apply H3]. intros [= ->]. by edestruct Hr.
Qed.

Lemma exclusive_advance p s : exclusive s -> prompt s -> exclusive (advance p s).
Proof.
  intros Hx Hp. unfold advance. destruct (lk_calls s !! p) as [[d|d|d|t| | |]|] eqn:E; try done.
  - destruct (lk_file s) as [[q u]|] eqn:Ef; [apply exclusive_move; congruence|].
    destruct Hx as [H1 H2 H3]. split; cbn.
    + intros r v. rewrite lookup_insert. case_decide as Hr; [by intros [= ->]; subst|]. intros Hv. apply H1 in Hv. congruence.
    + intros r v [= -> ->]. by rewrite lookup_insert_eq.
    + intros r v. rewrite lookup_insert. case_decide; [done|apply H3].
  - destruct (lk_file s) as [[q u]|] eqn:Ef; [|apply exclusive_move; congruence].
    rewrite (prompt_fresh s q u) by done. destruct (_ <=? _); apply exclusive_move; congruence.
  - destruct (ex_removing s Hx p d E).
  - destruct Hx as [H1 H2 H3]. pose proof (H1 p t E) as Hf. split; cbn.
    + intros r v. rewrite lookup_insert. case_decide as Hr; [done|]. intros Hv. apply H1 in Hv. congruence.
    + done.
    + intros r v. rewrite lookup_insert. case_decide; [done|apply H3].
Qed.

Lemma reachable_inv s : reachable false s -> exclusive s /\ prompt s.
Proof.
  induction 1 as [now|s e _ [Hx Hp] Hc Hq]; [split; [apply exclusive_unlocked|by intros p t; cbn; rewrite lookup_empty]|].
  split; [|done]. destruct e as [p|p|p|us]; cbn in *.
  - destruct (lk_calls s !! p) eqn:E; [done|]. apply exclusive_move; congruence.
  - by apply exclusive_advance.
  - discriminate (Hc eq_refl).
  - by destruct Hx as [H1 H2 H3].
Qed.

(** Promptness and the absence of crashes, decided along a run. *)
Definition promptb (s : lock_state) : bool :=
  forallb (fun kv => match kv.2 with Holding t => lk_now s - t <? LOCK_STALE_US | _ => true end) (map_to_list (lk_calls s)).

Lemma promptb_prompt s : promptb s = true -> prompt s.
Proof.
  unfold promptb. rewrite forallb_forall. intros H p t Hp. apply Z.ltb_lt.
  apply (H (p, Holding t)). by apply list_elem_of_In, elem_of_map_to_list.
Qed.

Fixpoint well_run (crash : bool) (s : lock_state) (l : list lock_event) : bool :=
  match l with
  | [] => true
  | e :: l => (negb (is_crash e) || crash) && promptb (lock_step s e) && well_run crash (lock_step s e) l
  end.

Lemma reachable_run crash l : forall s, reachable crash s -> well_run crash s l = true -> reachable crash (lock_run s l).
Proof.
  induction l as [|e l IH]; intros s Hs Hw; [done|]. cbn in *. apply andb_true_iff in Hw as [Hw H3].
  apply andb_true_iff in Hw as [H1 H2]. apply IH; [|done]. apply reach_step; [done| |by apply promptb_prompt].
  intros He. by rewrite He in H1.
Qed.

(** ** Properties *)

(** C34: the lock excludes.  While no holder dies and every holder is done within
    two minutes, at most one call issues credentials at any time, and the lock
    file is its own. *)
Theorem credential_lock_excludes s p q :
  reachable false s -> holds p s -> holds q s -> p = q /\ exists t, lk_file s = Some (p, t).
Proof.
  intros Hs [t Hp] [u Hq]. apply reachable_inv in Hs as [Hx _].
  pose proof (ex_holder s Hx p t Hp) as E1. pose proof (ex_holder s Hx q u Hq) as E2. split; [congruence|by exists t].
Qed.

(** Fact: the lock of a dead holder is taken over.  A call that finds a lock file
    two minutes old, and that nobody disturbs, holds the lock after four of its
    operations. *)
Theorem abandoned_lock_recovered p d s owner mtime :
  lk_calls s !! p = Some (Opening d) -> lk_file s = Some (owner, mtime) -> LOCK_STALE_US <= lk_now s - mtime ->
  let s' := lock_run s (replicate 4 (Run p)) in
  holds p s' /\ lk_file s' = Some (p, lk_now s) /\ forall q, q <> p -> lk_calls s' !! q = lk_calls s !! q.
Proof.
  intros Hp Hf Hs s'. set (s1 := at_phase p (Looking d) s). set (s2 := at_phase p (Removing d) s1).
  set (s3 := at_phase p (Opening d) (with_file None s2)).
  assert (E1 : advance p s = s1) by (unfold advance; by rewrite Hp, Hf).
  assert (E2 : advance p s1 = s2).
  { unfold advance, s1. cbn. rewrite lookup_insert_eq, Hf. destruct (Z.leb_spec LOCK_STALE_US (lk_now s - mtime)); [done|lia]. }
  assert (E3 : advance p s2 = s3) by (unfold advance, s2; cbn; by rewrite lookup_insert_eq).
  assert (E4 : s' = at_phase p (Holding (lk_now s)) (with_file (Some (p, lk_now s)) s3)).
  { subst s'. cbn. rewrite E1, E2, E3. unfold advance, s3. cbn. by rewrite lookup_insert_eq. }
  rewrite E4. split_and!; [exists (lk_now s); cbn; by rewrite lookup_insert_eq|done|]. intros q Hq. cbn. by rewrite !lookup_insert_ne.
Qed.

(** A holder dies; two waiting calls judge its file stale; the first removes it
    and takes the lock, the second removes the file of the first. *)
Definition takeover_race : list lock_event :=
  [Enter 0; Run 0; Crash 0; Pass LOCK_STALE_US; Enter 1; Enter 2; Run 1; Run 2; Run 1; Run 2; Run 1; Run 1; Run 2; Run 2].

(** A slow holder: its lock is taken over while it still works. *)
Definition slow_holder : list lock_event :=
  [Enter 0; Run 0; Pass LOCK_STALE_US; Enter 1; Run 1; Run 1; Run 1; Run 1].

(** Fact: the takeover does not exclude.  After one crash two calls, both prompt,
    may hold the lock at once; and so may a holder that needs two minutes and a
    call that takes its lock over, without any crash. *)
Theorem takeover_admits_two_holders :
  (exists s, reachable true s /\ holds 1 s /\ holds 2 s) /\
  exists s, s = lock_run (unlocked 0) slow_holder /\ holds 0 s /\ holds 1 s.
Proof.
  split.
  - exists (lock_run (unlocked 0) takeover_race). split_and!.
    + apply reachable_run; [apply reach_start|vm_compute; reflexivity].
    + exists LOCK_STALE_US. reflexivity.
    + exists LOCK_STALE_US. reflexivity.
  - exists (lock_run (unlocked 0) slow_holder). split_and!; [done|exists 0; reflexivity|exists LOCK_STALE_US; reflexivity].
Qed.

(** ** Witnesses *)

Definition w_contended : lock_state := lock_run (unlocked 0) [Enter 0; Enter 1; Run 0; Run 1; Run 1].

Lemma credential_lock_excludes_witness : exists t, lk_file w_contended = Some (0%nat, t).
Proof.
  apply (credential_lock_excludes w_contended 0%nat 0%nat); [|by exists 0..].
  apply reachable_run; [apply reach_start|vm_compute; reflexivity].
Defined.

Definition w_abandoned : lock_state := lock_run (unlocked 0) [Enter 0; Run 0; Crash 0; Pass (121 * us_per_second); Enter 1].

Lemma abandoned_lock_recovered_witness : holds 1 (lock_run w_abandoned (replicate 4 (Run 1))).
Proof.
  apply (abandoned_lock_recovered 1 (166 * us_per_second) w_abandoned 0 0); [reflexivity|reflexivity|].
  vm_compute. discriminate.
Defined.
