(* ===== verification/Config.v ===== *)
(** * Configuration ([config/loader.py])

    The YAML file, the [.env] files and the process environment, and the split
    between settings and secrets.  [yaml.safe_load] and pydantic's
    [AppConfig.model_validate] are parameters; [validates] states what pydantic
    documents about the latter. *)

From S2P Require Import Prelude PyStr PyFloat PyTime PyDecimal PyDict PyJson DbCore DbRuntime KisHttp.

Record KisApiCredentials := mkCredentials { cr_app_key : string; cr_app_secret : string }.
Record KisAccountInfo := mkAccountInfo { ai_account_no : option string; ai_account_product_code : string }.

#[export] Instance credentials_eq_dec : EqDecision KisApiCredentials.
Proof. solve_decision. Defined.

Record AppConfig := mkAppConfig {
  cf_log_level : string;
  cf_decision_schema_path : string;
  cf_kis_demo_api : option KisApiCredentials;
  cf_kis_real_api : option KisApiCredentials;
  cf_kis_demo_account : option KisAccountInfo;
  cf_kis_real_account : option KisAccountInfo;
}.

Definition kis_api_for (c : AppConfig) (environment : string) : option KisApiCredentials :=
  if String.eqb environment "real" then cf_kis_real_api c else cf_kis_demo_api c.
Definition kis_account_for (c : AppConfig) (environment : string) : option KisAccountInfo :=
  if String.eqb environment "real" then cf_kis_real_account c else cf_kis_demo_account c.

(** ** [.env] files *)

(** [text.splitlines()]: the line boundaries of one byte, and a carriage return
    followed by a line feed as one. *)
Definition line_end (c : ascii) : bool :=
  ((10 <=? code c) && (code c <=? 13)) || ((28 <=? code c) && (code c <=? 30)).
Fixpoint splitlines_from (line : string) (s : string) : list string :=
  match s with
  | "" => if sempty line then [] else [line]
  | String c t =>
      if line_end c then
        line :: splitlines_from "" (match t with
                                    | String d u => if (code c =? 13) && (code d =? 10) then u else t
                                    | "" => t
                                    end)
      else splitlines_from (line +:+ String c "") t
  end.
Definition splitlines (s : string) : list string := splitlines_from "" s.

(** [text.split("=", 1)] *)
Fixpoint split_once (sep : ascii) (s : string) : option (string * string) :=
  match s with
  | "" => None
  | String c t => if bool_decide (c = sep) then Some ("", t)
                  else match split_once sep t with Some (k, v) => Some (String c k, v) | None => None end
  end.

Definition strip_char (q : ascii) (s : string) : string :=
  rstrip_by (fun c => bool_decide (c = q)) (lstrip_by (fun c => bool_decide (c = q)) s).

(** One line: its setting, when it is one. *)
Definition dotenv_setting (raw_line : string) : option (string * string) :=
  let line := strip raw_line in
  if sempty line || startswith "#" line then None
  else
    match split_once "=" line with
    | None => None
    | Some (key, value) =>
        let key := strip key in
        if sempty key then None else Some (key, strip_char apostrophe (strip_char quote (strip value)))
    end.

(** [_read_dotenv] of the text of a file, [None] when there is no file *)
Definition read_dotenv (text : option string) : dict string :=
  match text with
  | None => []
  | Some text => fold_left (fun values line => match dotenv_setting line with Some (k, v) => dset k v values | None => values end)
                   (splitlines text) []
  end.

(** [env.setdefault(key, value)] *)
Definition setdefault (env : dict string) (kv : string * string) : dict string :=
  match dget kv.1 env with Some _ => env | None => env ++ [kv] end.

(** [_environment_with_dotenv]: the process environment, then the [.env] beside
    the configuration, then the one of the working directory. *)
Definition environment_with_dotenv (os_environ : dict string) (candidates : list (option string)) : dict string :=
  fold_left (fun env text => fold_left setdefault (read_dotenv text) env) candidates os_environ.

(** ** Loading *)

(** A value of the mapping that is validated. *)
Inductive setting :=
  | Yaml (v : json)
  | Credentials (c : KisApiCredentials)
  | Account (a : KisAccountInfo).

Definition FORBIDDEN : list string :=
  ["kis"; "kis_api"; "kis_account"; "app_key"; "app_secret"; "account_no"; "account_product_code"].

(** [env.get(name)] of a name that must not be empty *)
Definition env_value (env : dict string) (name : string) : option string :=
  match dget name env with Some v => if sempty v then None else Some v | None => None end.

Definition env_credentials (env : dict string) (key_name secret_name : string) : option KisApiCredentials :=
  match env_value env key_name, env_value env secret_name with
  | Some k, Some s => Some (mkCredentials k s)
  | _, _ => None
  end.

(** [KisAccountInfo(...)]: the product code must not be empty. *)
Definition env_account (env : dict string) (no_name code_name : string) : res (option KisAccountInfo) :=
  match env_value env no_name with
  | None => Ok None
  | Some no =>
      let product := or_else (dget code_name env) "01" in
      if sempty product then Err (ValueError "String should have at least 1 character")
      else Ok (Some (mkAccountInfo (Some no) product))
  end.

Definition put {A} (k : string) (f : A -> setting) (x : option A) (raw : dict setting) : dict setting :=
  match x with Some a => dset k (f a) raw | None => raw end.

Section Load.
(** [yaml.safe_load(text)] and [AppConfig.model_validate(raw)] *)
Variable safe_load : string -> res json.
Variable model_validate : dict setting -> res AppConfig.

Definition load_config (text : string) (env : dict string) : res AppConfig :=
  loaded ← safe_load text;
  raw ← (if truthy loaded then match loaded with JObj o => Ok o | _ => Err (ValueError "configuration root must be a mapping") end
         else Ok []);
  _ ← raise_if (existsb (fun k => mem_str k FORBIDDEN) (dkeys raw)) (ValueError "KIS secrets must not be stored in YAML");
  let raw := map (fun kv => (kv.1, Yaml kv.2)) (dpop "live_trading_enabled" (dpop "mode" raw)) in
  let raw := put "kis_demo_api" Credentials (env_credentials env "KIS_DEMO_APP_KEY" "KIS_DEMO_APP_SECRET") raw in
  let raw := put "kis_real_api" Credentials (env_credentials env "KIS_REAL_APP_KEY" "KIS_REAL_APP_SECRET") raw in
  demo ← env_account env "KIS_DEMO_ACCOUNT_NO" "KIS_DEMO_ACCOUNT_PRODUCT_CODE";
  let raw := put "kis_demo_account" Account demo raw in
  real ← env_account env "KIS_REAL_ACCOUNT_NO" "KIS_REAL_ACCOUNT_PRODUCT_CODE";
  let raw := put "kis_real_account" Account real raw in
  model_validate raw.
End Load.

(** ** What pydantic documents about [model_validate] *)

Definition FIELDS : list string :=
  ["log_level"; "decision_schema_path"; "kis_demo_api"; "kis_real_api"; "kis_demo_account"; "kis_real_account"].

(** A field of a model class: absent it takes its default, an instance is taken
    as it is, a mapping is validated field by field. *)
Definition field_credentials (x : option setting) (c : option KisApiCredentials) : Prop :=
  match x with
  | None => c = None
  | Some (Credentials k) => c = Some k
  | Some (Yaml (JObj o)) => exists key secret, dget "app_key" o = Some (JStr key) /\ dget "app_secret" o = Some (JStr secret) /\
      c = Some (mkCredentials key secret)
  | _ => c = None
  end.
Definition field_account (x : option setting) (a : option KisAccountInfo) : Prop :=
  match x with
  | None => a = None
  | Some (Account i) => a = Some i
  | _ => True
  end.

Record validates (model_validate : dict setting -> res AppConfig) : Prop := mkValidates {
  vl_extra : forall raw c, model_validate raw = Ok c -> forall k, k ∈ dkeys raw -> k ∈ FIELDS;
  vl_demo_api : forall raw c, model_validate raw = Ok c -> field_credentials (dget "kis_demo_api" raw) (cf_kis_demo_api c);
  vl_real_api : forall raw c, model_validate raw = Ok c -> field_credentials (dget "kis_real_api" raw) (cf_kis_real_api c);
  vl_demo_account : forall raw c, model_validate raw = Ok c -> field_account (dget "kis_demo_account" raw) (cf_kis_demo_account c);
  vl_real_account : forall raw c, model_validate raw = Ok c -> field_account (dget "kis_real_account" raw) (cf_kis_real_account c);
}.

(** ** Lemmas *)

(** The first value given. *)
Definition first_given {A} (l : list (option A)) : option A :=
  fold_right (fun x acc => match x with Some a => Some a | None => acc end) None l.

Lemma dget_app {A} k (d e : dict A) : dget k (d ++ e) = match dget k d with Some v => Some v | None => dget k e end.
Proof. induction d as [|[k' v] d IH]; [done|]. cbn. by destruct (String.eqb k' k). Qed.

Lemma setdefault_dget k env kv :
  dget k (setdefault env kv) = match dget k env with Some v => Some v | None => dget k [kv] end.
Proof.
  unfold setdefault. destruct kv as [k' v']. cbn [fst snd]. destruct (dget k' env) eqn:E.
  - destruct (dget k env) eqn:E2; [done|]. cbn. destruct (String.eqb_spec k' k) as [->|]; [congruence|done].
  - apply dget_app.
Qed.

Lemma setdefaults_dget k values : forall env,
  dget k (fold_left setdefault values env) = match dget k env with Some v => Some v | None => dget k values end.
Proof.
  induction values as [|[k' v'] values IH]; intros env; cbn [fold_left]; [by destruct (dget k env)|].
  rewrite IH, setdefault_dget. destruct (dget k env); [done|]. cbn. by destruct (String.eqb k' k).
Qed.

Lemma dget_map {A B} k (f : A -> B) (d : dict A) : dget k (map (fun kv => (kv.1, f kv.2)) d) = f <$> dget k d.
Proof. induction d as [|[k' v] d IH]; [done|]. cbn. by destruct (String.eqb k' k). Qed.

Lemma dget_put {A} k k' (f : A -> setting) x raw :
  dget k (put k' f x raw) = match x with Some a => if String.eqb k' k then Some (f a) else dget k raw | None => dget k raw end.
Proof. destruct x; [|done]. cbn. rewrite dget_dset. destruct (String.eqb_spec k' k); [by rewrite decide_True|by rewrite decide_False]. Qed.

Lemma dget_dpop_ne {A} k k' (d : dict A) : k <> k' -> dget k' (dpop k d) = dget k' d.
Proof.
  intros H. induction d as [|[k2 v] d IH]; [done|]. cbn. destruct (String.eqb_spec k2 k) as [->|].
  - by destruct (String.eqb_spec k k').
  - cbn. by rewrite IH.
Qed.

Section LoadFacts.
Context (safe_load : string -> res json) (model_validate : dict setting -> res AppConfig).
Hypothesis pydantic : validates model_validate.

Definition api_field (environment : string) : string := if String.eqb environment "real" then "kis_real_api" else "kis_demo_api".
Definition api_names (environment : string) : string * string :=
  if String.eqb environment "real" then ("KIS_REAL_APP_KEY", "KIS_REAL_APP_SECRET") else ("KIS_DEMO_APP_KEY", "KIS_DEMO_APP_SECRET").
Definition api_from_env (env : dict string) (environment : string) : option KisApiCredentials :=
  env_credentials env (api_names environment).1 (api_names environment).2.

Lemma load_inv text env c : load_config safe_load model_validate text env = Ok c -> exists root raw,
  safe_load text = Ok root /\ (truthy root = false /\ raw = [] \/ root = JObj raw) /\
  existsb (fun k => mem_str k FORBIDDEN) (dkeys raw) = false /\
  forall environment, field_credentials
    (match api_from_env env environment with
     | Some k => Some (Credentials k)
     | None => Yaml <$> dget (api_field environment) raw
     end) (kis_api_for c environment).
Proof.
  unfold load_config. intros H. apply Prelude.bind_Ok in H as (root & Hroot & H). apply Prelude.bind_Ok in H as (raw & Hraw & H).
  apply Prelude.bind_Ok in H as ([] & Hf & H). apply raise_if_Ok in Hf. cbv zeta in H.
  apply Prelude.bind_Ok in H as (demo & _ & H). apply Prelude.bind_Ok in H as (real & _ & H).
  exists root, raw. split_and!; [done| |done|].
  - destruct (truthy root) eqn:Et; [|injection Hraw as <-; by left]. destruct root; try done. injection Hraw as <-. by right.
  - intros environment. pose proof (vl_demo_api _ pydantic _ _ H) as Hd. pose proof (vl_real_api _ pydantic _ _ H) as Hr.
    revert Hd Hr. rewrite !dget_put, !dget_map, !dget_dpop_ne by done. cbn [String.eqb Ascii.eqb Bool.eqb].
    unfold kis_api_for, api_from_env, api_names, api_field.
    destruct (String.eqb environment "real"); cbn [fst snd]; intros Hd Hr; [revert Hr|revert Hd]; clear; destruct demo, real;
      destruct (env_credentials env "KIS_DEMO_APP_KEY" "KIS_DEMO_APP_SECRET"), (env_credentials env "KIS_REAL_APP_KEY" "KIS_REAL_APP_SECRET");
      auto.
Qed.
End LoadFacts.

(** ** Properties *)

(** Fact: precedence of settings.  A setting of the process environment wins over
    every [.env] file, and of the files the first that gives it. *)
Theorem dotenv_precedence os_environ candidates k :
  dget k (environment_with_dotenv os_environ candidates) =
  first_given (dget k os_environ :: map (fun text => dget k (read_dotenv text)) candidates).
Proof.
  unfold environment_with_dotenv. revert os_environ. induction candidates as [|t l IH]; intros env; cbn [fold_left map].
  - cbn. by destruct (dget k env).
  - rewrite IH. cbn. rewrite setdefaults_dget. by destruct (dget k env).
Qed.

(** Fact: credentials of the environment are the ones that are used.  A
    configuration that loads has none of the forbidden keys; for either KIS
    environment its credentials are those of the process environment, complete or
    not at all, unless the YAML names that field itself. *)
Theorem environment_credentials_used safe_load model_validate text env c environment :
  validates model_validate -> load_config safe_load model_validate text env = Ok c ->
  (forall o, safe_load text = Ok (JObj o) -> forall k, k ∈ dkeys o -> mem_str k FORBIDDEN = false) /\
  (forall k, api_from_env env environment = Some k -> kis_api_for c environment = Some k) /\
  (api_from_env env environment = None ->
   (forall o, safe_load text = Ok (JObj o) -> dget (api_field environment) o = None) -> kis_api_for c environment = None).
Proof.
  intros V H. destruct (load_inv _ _ V _ _ _ H) as (root & raw & Hroot & Hraw & Hf & Hc). specialize (Hc environment). split_and!.
  - intros o Ho k Hk. rewrite Hroot in Ho. injection Ho as ->. destruct Hraw as [[Ht ->]|Heq].
    + destruct o; [by apply elem_of_nil in Hk|done].
    + injection Heq as <-. destruct (mem_str k FORBIDDEN) eqn:E; [|done].
      assert (existsb (fun k => mem_str k FORBIDDEN) (dkeys o) = true) by (apply existsb_exists; exists k; by rewrite <- list_elem_of_In). congruence.
  - intros k Hk. by rewrite Hk in Hc.
  - intros Hn Ho. rewrite Hn in Hc. replace (dget (api_field environment) raw) with (@None json) in Hc; [done|].
    destruct Hraw as [[_ ->]| ->]; [done|]. by rewrite Ho.
Qed.

(** Fact: YAML secrets are used.  The keys [kis_demo_api] and [kis_real_api] are
    not forbidden in the YAML: without credentials in the environment the
    application key and secret written there are the ones the program uses. *)
Theorem yaml_credentials_accepted safe_load model_validate text env c environment o api :
  validates model_validate -> safe_load text = Ok (JObj o) -> dget (api_field environment) o = Some (JObj api) ->
  api_from_env env environment = None -> load_config safe_load model_validate text env = Ok c ->
  exists key secret, dget "app_key" api = Some (JStr key) /\ dget "app_secret" api = Some (JStr secret) /\
    kis_api_for c environment = Some (mkCredentials key secret).
Proof.
  intros V Hs Ho Hn H. destruct (load_inv _ _ V _ _ _ H) as (root & raw & Hroot & Hraw & _ & Hc). specialize (Hc environment).
  rewrite Hroot in Hs. injection Hs as ->. rewrite Hn in Hc. destruct Hraw as [[Ht ->]|Heq].
  - by destruct o.
  - injection Heq as <-. by rewrite Ho in Hc.
Qed.

(** ** Witnesses *)

(** A validator of the two credentials fields and the two account fields that
    takes the defaults elsewhere. *)
Definition w_credentials (x : option setting) : res (option KisApiCredentials) :=
  match x with
  | None => Ok None
  | Some (Credentials k) => Ok (Some k)
  | Some (Yaml (JObj o)) =>
      match dget "app_key" o, dget "app_secret" o with
      | Some (JStr k), Some (JStr s) => Ok (Some (mkCredentials k s))
      | _, _ => Err (ValueError "validation error")
      end
  | Some _ => Err (ValueError "validation error")
  end.
Definition w_account_info (x : option setting) : res (option KisAccountInfo) :=
  match x with None => Ok None | Some (Account a) => Ok (Some a) | Some _ => Err (ValueError "validation error") end.
Definition w_validate (raw : dict setting) : res AppConfig :=
  _ ← raise_if (negb (forallb (fun k => mem_str k FIELDS) (dkeys raw))) (ValueError "extra inputs are not permitted");
  d ← w_credentials (dget "kis_demo_api" raw);
  r ← w_credentials (dget "kis_real_api" raw);
  da ← w_account_info (dget "kis_demo_account" raw);
  ra ← w_account_info (dget "kis_real_account" raw);
  Ok (mkAppConfig "INFO" "schemas/trade_decision.schema.json" d r da ra).

Lemma w_credentials_ok x c : w_credentials x = Ok c -> field_credentials x c.
Proof.
  destruct x as [[[| | | | | |o]|k|a]|]; cbn; try (by intros [= <-]); try done.
  destruct (dget "app_key" o) as [[]|] eqn:E1; try done. destruct (dget "app_secret" o) as [[]|] eqn:E2; try done.
  intros [= <-]. by eexists _, _.
Qed.

Lemma w_account_ok x c : w_account_info x = Ok c -> field_account x c.
Proof. destruct x as [[]|]; cbn; by intros [= <-] || done. Qed.

Lemma w_validates : validates w_validate.
Proof.
  split; unfold w_validate; intros raw c H; apply Prelude.bind_Ok in H as ([] & Hk & H); do 4 (apply Prelude.bind_Ok in H as (? & ? & H));
    injection H as <-; cbn; try (by apply w_credentials_ok); try (by apply w_account_ok).
  intros k Hin. apply raise_if_Ok, negb_false_iff in Hk. rewrite forallb_forall in Hk. apply list_elem_of_In in Hin. apply Hk in Hin.
  unfold mem_str in Hin. apply existsb_exists in Hin as (f & Hf & E). apply String.eqb_eq in E. subst k. by apply list_elem_of_In.
Qed.

Definition w_yaml (text : string) : res json :=
  Ok (JObj [("mode", JStr "paper"); ("kis_real_api", JObj [("app_key", JStr "yaml-key"); ("app_secret", JStr "yaml-secret")])]).
Definition w_env : dict string := environment_with_dotenv [("KIS_DEMO_APP_KEY", "k")] [Some "KIS_DEMO_APP_KEY=other"; Some "KIS_DEMO_APP_SECRET='s'"].
Definition w_app_config : AppConfig :=
  mkAppConfig "INFO" "schemas/trade_decision.schema.json" (Some (mkCredentials "k" "s")) (Some (mkCredentials "yaml-key" "yaml-secret")) None None.

Lemma environment_credentials_used_witness :
  load_config w_yaml w_validate "" w_env = Ok w_app_config /\ kis_api_for w_app_config "demo" = Some (mkCredentials "k" "s").
Proof.
  split; [vm_compute; reflexivity|].
  apply (environment_credentials_used w_yaml w_validate "" w_env w_app_config "demo" w_validates); vm_compute; reflexivity.
Defined.

Lemma yaml_credentials_accepted_witness : exists key secret,
  kis_api_for w_app_config "real" = Some (mkCredentials key secret).
Proof.
  destruct (yaml_credentials_accepted w_yaml w_validate "" w_env w_app_config "real"
    [("mode", JStr "paper"); ("kis_real_api", JObj [("app_key", JStr "yaml-key"); ("app_secret", JStr "yaml-secret")])]
    [("app_key", JStr "yaml-key"); ("app_secret", JStr "yaml-secret")] w_validates) as (k & s & _ & _ & H);
    [vm_compute; reflexivity..|]. by exists k, s.
Defined.
