(* ===== verification/KisQueries.v ===== *)
(** * Read-only broker queries ([broker/kis_realized_pnl.py],
    [broker/kis_buying_power.py], [broker/kis_balance.py], [broker/kis_rankings.py],
    [broker/kis_rest.py])

    The realized profit and loss of the day, the buying power, the holdings, the
    most active stocks and the current price: each one GET request (the first
    paginated) and the parsing of its answer. *)

From S2P Require Import Prelude PyStr PyFloat PyTime PyDecimal PyDict PyJson DbCore DbRuntime KisHttp KisOrder KisOrderStatus KisAccount.

(** The secrets an error of these clients is freed of, and their headers. *)
Definition query_secrets (c : kis_client) : list string := [app_key c; app_secret c; access_token c].
Definition query_headers (c : kis_client) (tr_id : string) (more : dict string) : dict string :=
  [("content-type", "application/json; charset=utf-8"); ("authorization", "Bearer " +:+ access_token c); ("appkey", app_key c);
   ("appsecret", app_secret c); ("tr_id", tr_id); ("custtype", "P")] ++ more.

(** [float(str(value).replace(",", "").strip())], when it is a number *)
Definition plain_number (v : option json) : option float :=
  match float_value v with Some x => if (x =? x)%F then Some x else None | None => None end.

(** [x.is_integer()] and [math.isfinite(x)] *)
Definition whole_number (x : float) : option Z :=
  match int_of_float x with
  | Ok z => if (x =? f_of_Z z)%F then Some z else None
  | Err _ => None
  end.

(** [payload = response.json()] and the check of [rt_cd], missing counting as 0 *)
Definition accepted_payload (r : response) (failed : string) : res (dict json) :=
  match body r with
  | None => Err (ValueError "response body is not JSON")
  | Some (JObj o) =>
      if String.eqb (match dget "rt_cd" o with Some v => py_str v | None => "0" end) "0" then Ok o else Err (RuntimeError failed)
  | Some _ => Err (RuntimeError failed)
  end.

(** ** Realized profit and loss *)

Definition REALIZED_PNL_PATH : string := "/uapi/domestic-stock/v1/trading/inquire-balance-rlz-pl".
Definition realized_pnl_tr_id (e : KisEnvironment) : option string := match e with REAL => Some "TTTC8494R" | DEMO => None end.
Definition unsupported : exn := OtherError "KisRealizedPnlUnsupportedError".

Record KisRealizedPnlSnapshot := mkRealizedPnl { daily_realized_pnl : option float; rp_raw : dict json }.

Definition SUMMARY_PNL_FIELDS : list string := ["rlzt_pfls"; "RLZT_PFLS"; "tot_rlzt_pfls"; "TOT_RLZT_PFLS"; "realized_pnl"].
Definition ROW_PNL_FIELDS : list string := ["rlzt_pfls"; "RLZT_PFLS"; "realized_pnl"].

(** All the values, when none is missing *)
Fixpoint all_given {A} (l : list (option A)) : option (list A) :=
  match l with
  | [] => Some []
  | Some a :: l => match all_given l with Some r => Some (a :: r) | None => None end
  | None :: _ => None
  end.

(** [next_cursor] *)
Definition pnl_cursor (o : dict json) : string * string :=
  let text k := match dget k o with Some v => if truthy v then py_str v else "" | None => "" end in
  (text "ctx_area_fk100", text "ctx_area_nk100").
Definition pnl_has_next (r : response) : bool := mem_str (upper (header_of r "tr_cont")) ["M"; "F"].

Section RealizedPnl.
(** [sum] of floats, whose rounding differs between the Python versions the
    repository supports *)
Variable float_sum : list float -> float.

Definition parse_realized_pnl (payload : dict json) : KisRealizedPnlSnapshot :=
  let summary := match as_rows (dget "output2" payload) with row :: _ => row | [] => [] end in
  let value :=
    match plain_number (first_of summary SUMMARY_PNL_FIELDS) with
    | Some x => Some x
    | None =>
        match all_given (map (fun row => plain_number (first_of row ROW_PNL_FIELDS)) (as_rows (dget "output1" payload))) with
        | Some (x :: l) => Some (float_sum (x :: l))
        | _ => None
        end
    end in
  mkRealizedPnl value summary.

Definition validate_pnl_client (c : kis_client) (max_pages : Z) : res string :=
  match realized_pnl_tr_id (environment c) with
  | None => Err unsupported
  | Some tr_id =>
      _ ← validate_account c;
      _ ← raise_if (max_pages <=? 0) (ValueError "max_pages must be positive");
      Ok tr_id
  end.

Definition realized_pnl_request (c : kis_client) (tr_id : string) (cursor : string * string) : http_request :=
  mkHttp (api_url (environment c) REALIZED_PNL_PATH)
    (query_headers c tr_id [("tr_cont", if negb (sempty cursor.1) || negb (sempty cursor.2) then "N" else "")])
    [("CANO", JStr (account_no c)); ("ACNT_PRDT_CD", JStr (account_product_code c)); ("AFHR_FLPR_YN", JStr "N"); ("OFL_YN", JStr "");
     ("INQR_DVSN", JStr "02"); ("UNPR_DVSN", JStr "01"); ("FUND_STTL_ICLD_YN", JStr "N"); ("FNCG_AMT_AUTO_RDPT_YN", JStr "N");
     ("PRCS_DVSN", JStr "01"); ("COST_ICLD_YN", JStr "N"); ("CTX_AREA_FK100", JStr cursor.1); ("CTX_AREA_NK100", JStr cursor.2)].

Section Client.
Context {W : Type}.
Variable get : http_request -> stm W response.

(** One page: its answer and its payload *)
Definition pnl_page (c : kis_client) (tr_id : string) (cursor : string * string) : stm W (response * dict json) :=
  r ← get (realized_pnl_request c tr_id cursor);
  _ ← lift_res (raise_for_kis_response r (query_secrets c));
  o ← lift_res (accepted_payload r "KIS realized-P/L request failed");
  mret (r, o).

(** The loop over at most [n] pages: [last] is the last value given so far. *)
Fixpoint pnl_pages (n : nat) (c : kis_client) (tr_id : string) (cursor : string * string) (seen : list (string * string))
    (last : option float) : stm W KisRealizedPnlSnapshot :=
  match n with
  | O => raise (RuntimeError "KIS realized-P/L pagination exceeded max_pages")
  | S n =>
      page ← pnl_page c tr_id cursor;
      let parsed := parse_realized_pnl page.2 in
      let last := match daily_realized_pnl parsed with Some x => Some x | None => last end in
      if negb (pnl_has_next page.1) then mret (mkRealizedPnl last (rp_raw parsed))
      else
        let next := pnl_cursor page.2 in
        if bool_decide (next ∈ seen) || (sempty next.1 && sempty next.2)
        then raise (RuntimeError "KIS realized-P/L pagination cursor did not advance")
        else pnl_pages n c tr_id next (next :: seen) last
  end.

Definition get_realized_pnl (c : kis_client) (max_pages : Z) : stm W KisRealizedPnlSnapshot :=
  let n := Z.min max_pages 10 in
  tr_id ← lift_res (validate_pnl_client c n);
  pnl_pages (Z.to_nat n) c tr_id ("", "") [] None.
End Client.
End RealizedPnl.

(** ** Buying power *)

Definition BUYING_POWER_PATH : string := "/uapi/domestic-stock/v1/trading/inquire-psbl-order".
Definition buying_power_tr_id (e : KisEnvironment) : string := match e with REAL => "TTTC8908R" | DEMO => "VTTC8908R" end.

Record KisBuyingPowerSnapshot := mkBuyingPower {
  bp_symbol : string;
  bp_order_price : float;
  bp_orderable_cash : option float;
  bp_no_margin_buy_amount : option float;
  bp_max_buy_amount : option float;
  bp_orderable_quantity : option Z;
  bp_raw : dict json;
}.

(** [_number] and [_integer]: numbers that are not negative *)
Definition amount (v : option json) : option float :=
  match plain_number v with Some x => if (fzero <=? x)%F then Some x else None | None => None end.
Definition amount_integer (v : option json) : option Z := x ← amount v; whole_number x.

Definition parse_buying_power (payload : dict json) : KisBuyingPowerSnapshot :=
  let output := match dget "output" payload with Some (JObj o) => o | Some _ => [] | None => payload end in
  let no_margin := amount (first_of output ["nrcvb_buy_amt"; "NRCVB_BUY_AMT"; "no_margin_buy_amount"]) in
  let orderable := amount (first_of output ["ord_psbl_cash"; "ORD_PSBL_CASH"]) in
  mkBuyingPower
    (match first_of output ["pdno"; "PDNO"; "symbol"; "SYMBOL"] with Some v => if truthy v then py_str v else "" | None => "" end)
    (or_else (amount (first_of output ["psbl_qty_calc_unpr"; "PSBL_QTY_CALC_UNPR"; "ord_unpr"])) fzero)
    (match no_margin with Some x => Some x | None => orderable end)
    no_margin
    (amount (first_of output ["max_buy_amt"; "MAX_BUY_AMT"]))
    (amount_integer (first_of output ["nrcvb_buy_qty"; "NRCVB_BUY_QTY"; "ord_psbl_qty"; "ORD_PSBL_QTY"]))
    output.

Definition validate_buying_power (c : kis_client) (symbol : string) (price : float) : res unit :=
  _ ← raise_if (negb (isdigit symbol) || negb (slen symbol =? 6)) (ValueError "symbol must be a six-digit domestic stock code");
  _ ← raise_if (price <=? fzero)%F (ValueError "price must be positive");
  validate_account c.

(** [str(int(price)) if float(price).is_integer() else str(price)] *)
Definition price_text (price : float) : string := match whole_number price with Some z => str_int z | None => float_text price end.

Definition buying_power_request (c : kis_client) (symbol : string) (price : float) (order_type : string) : http_request :=
  mkHttp (api_url (environment c) BUYING_POWER_PATH) (query_headers c (buying_power_tr_id (environment c)) [])
    [("CANO", JStr (account_no c)); ("ACNT_PRDT_CD", JStr (account_product_code c)); ("PDNO", JStr symbol);
     ("ORD_UNPR", JStr (price_text price)); ("ORD_DVSN", JStr order_type); ("CMA_EVLU_AMT_ICLD_YN", JStr "N");
     ("OVRS_ICLD_YN", JStr "N")].

(** ** Holdings *)

Record KisBalancePosition := mkBalancePosition {
  bl_symbol : string;
  bl_name : string;
  bl_quantity : Z;
  bl_average_price : float;
  bl_current_price : option float;
}.

(** [row.get(a) or row.get(b)] *)
Definition get_either (row : dict json) (a b : string) : json :=
  match dget a row with
  | Some v => if truthy v then v else or_else (dget b row) JNull
  | None => or_else (dget b row) JNull
  end.
Definition or_blank (v : json) : string := if truthy v then py_str v else "".

Definition int_text (v : json) : res Z :=
  if is_blank v then Ok 0 else x ← float_of_text (remove_char "," (py_str v)); int_of_float x.
Definition float_text_of (v : json) : res float := float_of_text (remove_char "," (if truthy v then py_str v else "0")).
Definition optional_float_text (v : json) : res (option float) :=
  if is_blank v then Ok None else x ← float_text_of v; Ok (Some x).

(** [_parse_position] *)
Definition parse_balance_position (row : json) : res (option KisBalancePosition) :=
  match row with
  | JObj row =>
      let symbol := strip (or_blank (get_either row "pdno" "PDNO")) in
      if negb (isdigit symbol) || negb (slen symbol =? 6) then Ok None
      else
        quantity ← int_text (get_either row "hldg_qty" "HLDG_QTY");
        if quantity <=? 0 then Ok None
        else
          average ← float_text_of (get_either row "pchs_avg_pric" "PCHS_AVG_PRIC");
          current ← optional_float_text (get_either row "prpr" "PRPR");
          Ok (Some (mkBalancePosition symbol (or_blank (get_either row "prdt_name" "PRDT_NAME")) quantity average current))
  | _ => Ok None
  end.

Fixpoint parse_balance (rows : list json) : res (list KisBalancePosition) :=
  match rows with
  | [] => Ok []
  | r :: rows =>
      p ← parse_balance_position r;
      rest ← parse_balance rows;
      Ok (match p : option KisBalancePosition with Some p => p :: rest | None => rest end)
  end.

Definition simple_balance_request (c : kis_client) : http_request :=
  mkHttp (api_url (environment c) BALANCE_PATH) (query_headers c (balance_tr_id (environment c)) [])
    [("CANO", JStr (account_no c)); ("ACNT_PRDT_CD", JStr (account_product_code c)); ("AFHR_FLPR_YN", JStr "N"); ("OFL_YN", JStr "");
     ("INQR_DVSN", JStr "02"); ("UNPR_DVSN", JStr "01"); ("FUND_STTL_ICLD_YN", JStr "N"); ("FNCG_AMT_AUTO_RDPT_YN", JStr "N");
     ("PRCS_DVSN", JStr "01"); ("CTX_AREA_FK100", JStr ""); ("CTX_AREA_NK100", JStr "")].

(** ** Active stocks *)

Definition VOLUME_RANK_PATH : string := "/uapi/domestic-stock/v1/quotations/volume-rank".
Definition VOLUME_RANK_TR_ID : string := "FHPST01710000".

Record RankedStock := mkRanked {
  rk_symbol : string;
  rk_name : string;
  rk_price : float;
  rk_change_pct : float;
  rk_volume : Z;
  rk_trade_amount : float;
}.

(** [_number]: a finite number *)
Definition finite_number (v : option json) : option float :=
  match float_value v with Some x => if isfinite x then Some x else None | None => None end.

Definition parse_ranked_stock (row : json) : option RankedStock :=
  match row with
  | JObj row =>
      let symbol := strip (or_blank (get_either row "mksc_shrn_iscd" "stck_shrn_iscd")) in
      let trade_amount := match finite_number (dget "acml_tr_pbmn" row) with Some x => if (x =? fzero)%F then fzero else x | None => fzero end in
      if negb (isdigit symbol) || negb (slen symbol =? 6) then None
      else
        price ← finite_number (dget "stck_prpr" row);
        change_pct ← finite_number (dget "prdy_ctrt" row);
        volume ← finite_number (dget "acml_vol" row);
        shares ← (match int_of_float volume with Ok z => Some z | Err _ => None end);
        let name := strip (match dget "hts_kor_isnm" row with Some v => if truthy v then py_str v else symbol | None => symbol end) in
        Some (mkRanked symbol (if sempty name then symbol else name) price change_pct (Z.max 0 shares) (fmax fzero trade_amount))
  | _ => None
  end.

Record rank_filter := mkRankFilter {
  rf_limit : Z;
  rf_min_price : float;
  rf_max_price : float;
  rf_min_volume : Z;
  rf_min_change_pct : float;
  rf_max_change_pct : float;
}.

Definition validate_filter (f : rank_filter) : res unit :=
  _ ← raise_if (rf_limit f <=? 0) (ValueError "limit must be positive");
  _ ← raise_if ((rf_min_price f <? fzero)%F || (rf_max_price f <=? rf_min_price f)%F) (ValueError "price range is invalid");
  _ ← raise_if (rf_min_volume f <? 0) (ValueError "min_volume must not be negative");
  raise_if (rf_max_change_pct f <=? rf_min_change_pct f)%F (ValueError "change range is invalid").

Definition in_filter (f : rank_filter) (s : RankedStock) : bool :=
  (rf_min_price f <=? rk_price s)%F && (rk_price s <=? rf_max_price f)%F && (rf_min_volume f <=? rk_volume s) &&
  (rf_min_change_pct f <=? rk_change_pct s)%F && (rk_change_pct s <=? rf_max_change_pct f)%F.

(** The loop over the rows: the stocks selected so far, in order. *)
Fixpoint select_stocks (f : rank_filter) (rows : list json) (selected : list RankedStock) : list RankedStock :=
  match rows with
  | [] => selected
  | row :: rows =>
      match parse_ranked_stock row with
      | Some s =>
          if bool_decide (rk_symbol s ∈ map rk_symbol selected) || negb (in_filter f s) then select_stocks f rows selected
          else if rf_limit f <=? len (selected ++ [s]) then selected ++ [s]
          else select_stocks f rows (selected ++ [s])
      | None => select_stocks f rows selected
      end
  end.

Definition ranking_request (c : kis_client) (f : rank_filter) : res http_request :=
  low ← int_of_float (rf_min_price f);
  high ← int_of_float (rf_max_price f);
  Ok (mkHttp (api_url (environment c) VOLUME_RANK_PATH) (query_headers c VOLUME_RANK_TR_ID [])
    [("FID_COND_MRKT_DIV_CODE", JStr "J"); ("FID_COND_SCR_DIV_CODE", JStr "20171"); ("FID_INPUT_ISCD", JStr "0000");
     ("FID_DIV_CLS_CODE", JStr "1"); ("FID_BLNG_CLS_CODE", JStr "3"); ("FID_TRGT_CLS_CODE", JStr "111111111");
     ("FID_TRGT_EXLS_CLS_CODE", JStr "1111111111"); ("FID_INPUT_PRICE_1", JStr (str_int low));
     ("FID_INPUT_PRICE_2", JStr (str_int high)); ("FID_VOL_CNT", JStr (str_int (rf_min_volume f))); ("FID_INPUT_DATE_1", JStr "")]).

(** [payload.get("output") or payload.get("output1") or []], when it is a list *)
Definition ranking_rows (o : dict json) : list json := match get_either o "output" "output1" with JList l => l | _ => [] end.

(** [_safe_payload] *)
Definition ranking_payload (r : response) (secrets : list string) : res (dict json) :=
  _ ← raise_for_kis_response r secrets;
  match body r with
  | None => Err (RuntimeError "KIS ranking response was not valid JSON")
  | Some (JObj o) =>
      if String.eqb (match dget "rt_cd" o with Some v => py_str v | None => "1" end) "0" then Ok o
      else Err (KisHttpError (status_code r) (error_details secrets (JObj o)))
  | Some _ => Err (RuntimeError "KIS ranking response was not an object")
  end.

(** ** The current price *)

Record CurrentPrice := mkCurrentPrice { cp_symbol : string; cp_price : float; cp_raw : dict json }.

(** [float(v)] of a JSON value *)
Definition json_float (v : json) : res float :=
  match v with
  | JFloat x => Ok x
  | JInt z => float_of_int z
  | JBool b => Ok (if b then f_one else fzero)
  | JStr s => float_of_text s
  | _ => Err (TypeError "float() argument must be a string or a real number")
  end.

Definition current_price_of (symbol : string) (r : response) : res CurrentPrice :=
  _ ← raise_if (400 <=? status_code r) (OtherError "HTTPError");
  match body r with
  | None => Err (ValueError "response body is not JSON")
  | Some (JObj o) =>
      _ ← raise_if (negb (String.eqb (match dget "rt_cd" o with Some v => py_str v | None => "0" end) "0"))
            (RuntimeError ("KIS quote request failed: " +:+ match dget "msg1" o with Some v => py_str v | None => "unknown error" end));
      match (match dget "output" o with Some v => if truthy v then v else JObj [] | None => JObj [] end) with
      | JObj output =>
          let text := or_else (dget "stck_prpr" output) JNull in
          _ ← raise_if (is_blank text) (ValueError "KIS quote response did not contain output.stck_prpr");
          price ← json_float text;
          Ok (mkCurrentPrice symbol price output)
      | _ => Err no_attribute
      end
  | Some _ => Err no_attribute
  end.

Definition current_price_request (c : kis_client) (symbol : string) : http_request :=
  mkHttp (api_url (environment c) "/uapi/domestic-stock/v1/quotations/inquire-price")
    [("authorization", "Bearer " +:+ access_token c); ("appkey", app_key c); ("appsecret", app_secret c); ("tr_id", "FHKST01010100");
     ("custtype", "P")]
    [("FID_COND_MRKT_DIV_CODE", JStr "J"); ("FID_INPUT_ISCD", JStr symbol)].

(** ** The clients *)

Section Queries.
Context {W : Type}.
Variable get : http_request -> stm W response.

Definition get_buying_power (c : kis_client) (symbol : string) (price : float) (order_type : string) : stm W KisBuyingPowerSnapshot :=
  _ ← lift_res (validate_buying_power c symbol price);
  _ ← lift_res (raise_if (sempty order_type) (ValueError "order_type must not be empty"));
  r ← get (buying_power_request c symbol price order_type);
  _ ← lift_res (raise_for_kis_response r (query_secrets c));
  o ← lift_res (accepted_payload r "KIS buying-power request failed");
  let s := parse_buying_power o in
  mret (mkBuyingPower symbol (if (bp_order_price s =? fzero)%F then price else bp_order_price s) (bp_orderable_cash s)
          (bp_no_margin_buy_amount s) (bp_max_buy_amount s) (bp_orderable_quantity s) (bp_raw s)).

Definition get_positions (c : kis_client) : stm W (list KisBalancePosition) :=
  _ ← lift_res (validate_account c);
  r ← get (simple_balance_request c);
  _ ← lift_res (raise_for_kis_response r (query_secrets c));
  o ← lift_res (json_object r);
  _ ← lift_res (raise_if (negb (String.eqb (match dget "rt_cd" o with Some v => py_str v | None => "0" end) "0"))
        (RuntimeError ("KIS balance request failed: " +:+ match dget "msg1" o with Some v => py_str v | None => "unknown error" end)));
  lift_res (parse_balance (match dget "output1" o with Some (JList l) => l | _ => [] end)).

Definition get_active_stocks (c : kis_client) (f : rank_filter) : stm W (list RankedStock) :=
  _ ← lift_res (validate_filter f);
  request ← lift_res (ranking_request c f);
  r ← get request;
  o ← lift_res (ranking_payload r (query_secrets c));
  mret (select_stocks f (ranking_rows o) []).

Definition get_current_price (c : kis_client) (symbol : string) : stm W CurrentPrice :=
  _ ← lift_res (raise_if (negb (isdigit symbol) || negb (slen symbol =? 6)) (ValueError "domestic stock symbol must be a six-digit code"));
  r ← get (current_price_request c symbol);
  lift_res (current_price_of symbol r).
End Queries.

(** ** Lemmas *)

(** The last value given. *)
Definition last_given {A} (l : list (option A)) (d : option A) : option A :=
  fold_left (fun acc x => match x with Some _ => x | None => acc end) l d.

Section PnlFacts.
Context (float_sum : list float -> float) {W : Type} (get : http_request -> stm W response).

(** The pages of a query, each at the cursor the one before it announced. *)
Inductive pnl_chain (c : kis_client) (tr_id : string) : string * string -> list (string * string) -> W -> list (response * dict json) -> W -> Prop :=
  | pl_last cursor seen w page w' :
      pnl_page get c tr_id cursor w = (Ok page, w') -> pnl_has_next page.1 = false -> pnl_chain c tr_id cursor seen w [page] w'
  | pl_next cursor seen w page w1 pages w' :
      pnl_page get c tr_id cursor w = (Ok page, w1) -> pnl_has_next page.1 = true ->
      pnl_cursor page.2 ∉ seen -> pnl_cursor page.2 <> ("", "") ->
      pnl_chain c tr_id (pnl_cursor page.2) (pnl_cursor page.2 :: seen) w1 pages w' ->
      pnl_chain c tr_id cursor seen w (page :: pages) w'.

Definition page_value (page : response * dict json) : option float := daily_realized_pnl (parse_realized_pnl float_sum page.2).
Definition page_raw (page : response * dict json) : dict json := rp_raw (parse_realized_pnl float_sum page.2).

Lemma pnl_pages_chain c tr_id n : forall cursor seen d w snap w',
  pnl_pages float_sum get n c tr_id cursor seen d w = (Ok snap, w') ->
  exists pages, pnl_chain c tr_id cursor seen w pages w' /\ (length pages <= n)%nat /\
    daily_realized_pnl snap = last_given (map page_value pages) d /\
    exists front page, pages = front ++ [page] /\ rp_raw snap = page_raw page.
Proof.
  induction n as [|n IH]; intros cursor seen d w snap w' H; cbn [pnl_pages] in H; [done|].
  apply stm_bind_Ok in H as (page & w1 & E & H). cbv zeta in H. fold (page_value page) in H.
  destruct (pnl_has_next page.1) eqn:En; cbn [negb] in H.
  - destruct (bool_decide _) eqn:Ed; [done|]. destruct (sempty _ && sempty _) eqn:Ee; [done|]. cbn [orb] in H.
    apply IH in H as (pages & Hc & Hn & Hd & front & page' & -> & Hr). exists (page :: front ++ [page']). apply bool_decide_eq_false in Ed. split_and!.
    + eapply pl_next; [exact E|done|done| |exact Hc]. intros Heq. by rewrite Heq in Ee.
    + cbn. lia.
    + rewrite Hd. unfold last_given. cbn [map fold_left]. by destruct (page_value page).
    + by exists (page :: front), page'.
  - injection H as <- <-. exists [page]. split_and!; [by apply pl_last|cbn; lia|unfold last_given; cbn [map fold_left rp_raw daily_realized_pnl]; by destruct (page_value page)|by exists [], page].
Qed.
End PnlFacts.

Lemma plain_number_given v x : plain_number v = Some x -> exists j, v = Some j /\ is_blank j = false /\ (x =? x)%F = true.
Proof.
  unfold plain_number, float_value. destruct v as [j|]; [|done]. destruct (is_blank j) eqn:Eb; [done|].
  destruct (float_of_text _) as [y|]; [|done]. destruct (y =? y)%F eqn:Ey; [|done]. intros [= <-]. by exists j.
Qed.

Lemma first_of_given row names v : first_of row names = Some v -> is_blank v = false -> exists n, n ∈ names /\ dget n row = Some v.
Proof.
  induction names as [|n names IH]; cbn; [done|]. destruct (dget n row) as [u|] eqn:E.
  - destruct (is_blank u); [intros H Hb; destruct (IH H Hb) as (m & Hm & Hd); exists m; split; [by apply list_elem_of_further|done]|].
    intros [= ->] _. exists n. split; [apply list_elem_of_here|done].
  - intros H Hb. destruct (IH H Hb) as (m & Hm & Hd). exists m. split; [by apply list_elem_of_further|done].
Qed.

Lemma amount_sound v x : amount v = Some x -> (fzero <=? x)%F = true /\ (x =? x)%F = true.
Proof.
  unfold amount. destruct (plain_number v) as [y|] eqn:E; [|done]. destruct (fzero <=? y)%F eqn:Ey; [|done]. intros [= <-].
  apply plain_number_given in E as (j & _ & _ & H). done.
Qed.

Lemma int_of_float_nonneg x z : int_of_float x = Ok z -> (fzero <=? x)%F = true -> 0 <= z.
Proof.
  destruct x as [s|s| |s m e]; cbn [int_of_float]; try done; intros H Hx; injection H as <-.
  - unfold f_trunc. by vm_compute.
  - destruct s; [done|]. unfold f_trunc, f_parts. destruct (Z.leb_spec 0 e).
    + apply Z.mul_nonneg_nonneg; [lia|apply Z.pow_nonneg; lia].
    + apply Z.quot_pos; [lia|apply Z.pow_pos_nonneg; lia].
Qed.

(** A six-digit code *)
Definition domestic (s : string) : bool := isdigit s && (slen s =? 6).

Lemma whole_number_nonneg x z : whole_number x = Some z -> (fzero <=? x)%F = true -> 0 <= z.
Proof.
  unfold whole_number. intros H Hx. destruct (int_of_float x) as [y|] eqn:E; [|done]. destruct (x =? f_of_Z y)%F; [|done].
  injection H as ->. by eapply int_of_float_nonneg.
Qed.

(** What a selection of stocks satisfies on the way. *)
Record selected_ok (f : rank_filter) (l : list RankedStock) : Prop := mkSelected {
  se_distinct : NoDup (map rk_symbol l);
  se_filter : Forall (fun s => in_filter f s = true) l;
}.

Lemma select_spec f rows : 0 < rf_limit f -> forall l, selected_ok f l -> len l < rf_limit f -> exists more,
  select_stocks f rows l = l ++ more /\ selected_ok f (l ++ more) /\ len (l ++ more) <= rf_limit f /\
  Forall (fun s => Some s ∈ map parse_ranked_stock rows) more /\
  (len (l ++ more) = rf_limit f \/ forall row s, row ∈ rows -> parse_ranked_stock row = Some s -> in_filter f s = true ->
     rk_symbol s ∈ map rk_symbol (l ++ more)).
Proof.
  intros Hlim. induction rows as [|row rows IH]; intros l Hl Hlen; cbn [select_stocks].
  { exists []. rewrite app_nil_r. split_and!; [done|done|lia|constructor|]. right. intros row s Hr. by apply elem_of_nil in Hr. }
  assert (Hskip : (forall s, parse_ranked_stock row = Some s -> in_filter f s = true -> rk_symbol s ∈ map rk_symbol l) ->
    exists more, select_stocks f rows l = l ++ more /\ selected_ok f (l ++ more) /\ len (l ++ more) <= rf_limit f /\
      Forall (fun s => Some s ∈ map parse_ranked_stock (row :: rows)) more /\
      (len (l ++ more) = rf_limit f \/ forall row' s, row' ∈ row :: rows -> parse_ranked_stock row' = Some s -> in_filter f s = true ->
         rk_symbol s ∈ map rk_symbol (l ++ more))).
  { intros Hs. destruct (IH l Hl Hlen) as (more & E & H1 & H2 & H3 & H4). exists more. split_and!; [done|done|done| |].
    - revert H3. apply List.Forall_impl. intros s. by apply list_elem_of_further.
    - destruct H4 as [H4|H4]; [by left|right]. intros row' s Hr. apply elem_of_cons in Hr as [-> | Hr]; [|by apply H4].
      intros Hp Hf. rewrite map_app. apply elem_of_app. left. by apply Hs. }
  destruct (parse_ranked_stock row) as [s|] eqn:Ep; [|apply Hskip; congruence].
  destruct (bool_decide (rk_symbol s ∈ map rk_symbol l)) eqn:Ed; [apply Hskip; intros s' [= <-] _; by apply bool_decide_eq_true in Ed|].
  destruct (in_filter f s) eqn:Ef; [|apply Hskip; intros s' [= <-]; congruence]. cbn [orb negb]. apply bool_decide_eq_false in Ed.
  assert (Hok : selected_ok f (l ++ [s])).
  { destruct Hl as [H1 H2]. split.
    - rewrite map_app. apply list.NoDup_app. split_and!; [done| |apply NoDup_singleton]. intros x Hx Hy. apply list_elem_of_singleton in Hy. by subst x.
    - apply Forall_app. split; [done|by constructor]. }
  assert (Hlen' : len (l ++ [s]) = len l + 1) by (unfold len; rewrite length_app; cbn; lia).
  destruct (Z.leb_spec (rf_limit f) (len (l ++ [s]))).
  - exists [s]. split_and!; [done|done|lia| |left; lia]. constructor; [|constructor]. cbn. rewrite Ep. apply list_elem_of_here.
  - destruct (IH (l ++ [s]) Hok) as (more & E & H1 & H2 & H3 & H4); [lia|]. exists (s :: more).
    replace (l ++ s :: more) with ((l ++ [s]) ++ more) by (by rewrite <- app_assoc). split_and!; [done|done|done| |].
    + constructor; [cbn; rewrite Ep; apply list_elem_of_here|]. revert H3. apply List.Forall_impl. intros x. by apply list_elem_of_further.
    + destruct H4 as [H4|H4]; [by left|right]. intros row' s' Hr. apply elem_of_cons in Hr as [-> | Hr]; [|by apply H4].
      intros Hp _. rewrite Ep in Hp. injection Hp as <-. rewrite !map_app. cbn. set_solver.
Qed.

(** ** Properties *)

(** Fact: the realized profit and loss is that of the last page that gives one.
    A query that succeeds is for a real account; it has read between one and ten
    pages, each at the cursor the page before it announced, up to the first that
    announces no more. *)
Theorem realized_pnl_pages float_sum {W} (get : http_request -> stm W response) c max_pages w snap w' :
  get_realized_pnl float_sum get c max_pages w = (Ok snap, w') ->
  environment c = REAL /\ validate_account c = Ok tt /\ exists pages tr_id,
    pnl_chain get c tr_id ("", "") [] w pages w' /\ (0 < length pages <= 10)%nat /\ Z.of_nat (length pages) <= max_pages /\
    daily_realized_pnl snap = last_given (map (page_value float_sum) pages) None.
Proof.
  unfold get_realized_pnl. intros H. apply stm_bind_Ok in H as (tr_id & w1 & Hv & H). unfold lift_res in Hv. injection Hv as Hv <-.
  unfold validate_pnl_client in Hv. destruct (realized_pnl_tr_id (environment c)) as [t|] eqn:Et; [|done].
  apply bind_Ok in Hv as ([] & Ha & Hv). apply bind_Ok in Hv as ([] & Hm & Hv). apply raise_if_Ok, Z.leb_gt in Hm.
  apply pnl_pages_chain in H as (pages & Hc & Hn & Hd & front & page & Hp & _). split; [by destruct (environment c)|]. split; [done|].
  exists pages, tr_id. rewrite Hp, length_app in *. cbn in *. split_and!; [done|lia|lia|lia|done].
Qed.

(** Fact: only realized profit is reported.  A value comes from a field that names
    a realized profit, of the summary or of a row; an evaluated profit never
    stands in for it. *)
Theorem realized_pnl_is_explicit float_sum payload x :
  daily_realized_pnl (parse_realized_pnl float_sum payload) = Some x ->
  exists row name v, row ∈ as_rows (dget "output2" payload) ++ as_rows (dget "output1" payload) /\
    name ∈ SUMMARY_PNL_FIELDS /\ dget name row = Some v /\ is_blank v = false.
Proof.
  unfold parse_realized_pnl. cbv zeta. cbn [daily_realized_pnl].
  destruct (plain_number (first_of _ SUMMARY_PNL_FIELDS)) as [y|] eqn:E1.
  - intros _. apply plain_number_given in E1 as (j & Hj & Hb & _). apply first_of_given in Hj as (n & Hn & Hd); [|done].
    destruct (as_rows (dget "output2" payload)) as [|row rows]; [done|]. exists row, n, j. split_and!; [|done..].
    apply elem_of_app. left. apply list_elem_of_here.
  - destruct (as_rows (dget "output1" payload)) as [|row rows] eqn:Er; [done|]. cbn [map all_given].
    destruct (plain_number (first_of row ROW_PNL_FIELDS)) as [y|] eqn:E2; [|done]. intros _.
    apply plain_number_given in E2 as (j & Hj & Hb & _). apply first_of_given in Hj as (n & Hn & Hd); [|done].
    exists row, n, j. split_and!; [apply elem_of_app; right; apply list_elem_of_here| |done..].
    unfold ROW_PNL_FIELDS, SUMMARY_PNL_FIELDS in *. set_solver.
Qed.

(** Fact: buying power is conservative.  A snapshot is of the symbol and price that
    were asked for; its cash is the amount without margin whenever the broker
    gives it; no amount is negative or NaN, and a quantity is not negative. *)
Theorem buying_power_conservative {W} (get : http_request -> stm W response) c symbol price order_type w s w' :
  get_buying_power get c symbol price order_type w = (Ok s, w') ->
  bp_symbol s = symbol /\ domestic symbol = true /\
  (forall x, bp_no_margin_buy_amount s = Some x -> bp_orderable_cash s = Some x) /\
  (forall x, bp_orderable_cash s = Some x \/ bp_no_margin_buy_amount s = Some x \/ bp_max_buy_amount s = Some x ->
     (fzero <=? x)%F = true /\ (x =? x)%F = true) /\
  (forall q, bp_orderable_quantity s = Some q -> 0 <= q).
Proof.
  unfold get_buying_power. intros H. apply stm_bind_Ok in H as ([] & w1 & Hv & H). unfold lift_res in Hv. injection Hv as Hv <-.
  apply stm_bind_Ok in H as ([] & w2 & _ & H). apply stm_bind_Ok in H as (r & w3 & _ & H). apply stm_bind_Ok in H as ([] & w4 & _ & H).
  apply stm_bind_Ok in H as (o & w5 & _ & H). cbv zeta in H. apply (f_equal fst) in H. apply Ok_inj in H. subst s.
  unfold validate_buying_power in Hv.
  apply bind_Ok in Hv as ([] & Hs & _). apply raise_if_Ok, orb_false_iff in Hs as [Hs1 Hs2]. apply negb_false_iff in Hs1, Hs2.
  unfold parse_buying_power. cbv zeta. set (out := match dget "output" o with Some _ => _ | None => _ end).
  set (nm := amount (first_of out ["nrcvb_buy_amt"; "NRCVB_BUY_AMT"; "no_margin_buy_amount"])).
  cbn [bp_symbol bp_orderable_cash bp_no_margin_buy_amount bp_max_buy_amount bp_orderable_quantity]. split_and!.
  - done.
  - unfold domestic. by rewrite Hs1, Hs2.
  - by intros x ->.
  - assert (Ha : forall (v : option json) x, amount v = Some x -> (fzero <=? x)%F = true /\ (x =? x)%F = true) by apply amount_sound.
    intros x [Hx|[Hx|Hx]]; [|exact (Ha _ _ Hx)..].
    destruct nm eqn:E1; [|exact (Ha _ _ Hx)]. injection Hx as ->. exact (Ha _ _ E1).
  - intros q Hq. unfold amount_integer in Hq. apply bind_Some in Hq as (x & Hx & Hq). apply amount_sound in Hx as [Hx _].
    by eapply whole_number_nonneg.
Qed.

(** Fact: the selection of active stocks is exact.  It has at most [limit] stocks,
    each of another symbol and within every bound of the filter, and each parsed
    from a row of the answer; unless it is full, every row within the bounds has
    its symbol selected. *)
Theorem active_stocks_selection {W} (get : http_request -> stm W response) c f w l w' :
  get_active_stocks get c f w = (Ok l, w') ->
  len l <= rf_limit f /\ NoDup (map rk_symbol l) /\ Forall (fun s => in_filter f s = true) l /\
  exists rows, Forall (fun s => Some s ∈ map parse_ranked_stock rows) l /\
    (len l = rf_limit f \/ forall row s, row ∈ rows -> parse_ranked_stock row = Some s -> in_filter f s = true ->
       rk_symbol s ∈ map rk_symbol l).
Proof.
  unfold get_active_stocks. intros H. apply stm_bind_Ok in H as ([] & w1 & Hv & H). unfold lift_res in Hv. injection Hv as Hv <-.
  apply stm_bind_Ok in H as (q & w2 & _ & H). apply stm_bind_Ok in H as (r & w3 & _ & H). apply stm_bind_Ok in H as (o & w4 & _ & H).
  injection H as <- <-. unfold validate_filter in Hv. apply bind_Ok in Hv as ([] & Hl & _). apply raise_if_Ok, Z.leb_gt in Hl.
  destruct (select_spec f (ranking_rows o) Hl []) as (more & -> & [H1 H2] & H3 & H4 & H5); [split; constructor|done|].
  cbn [app] in *. split_and!; [done..|]. by exists (ranking_rows o).
Qed.

(** Fact: every holding that is reported is of a six-digit symbol and positive. *)
Theorem balance_positions_positive {W} (get : http_request -> stm W response) c w l w' :
  get_positions get c w = (Ok l, w') ->
  validate_account c = Ok tt /\ Forall (fun p => domestic (bl_symbol p) = true /\ 0 < bl_quantity p) l.
Proof.
  unfold get_positions. intros H. apply stm_bind_Ok in H as ([] & w1 & Hv & H). unfold lift_res in Hv. injection Hv as Hv <-.
  apply stm_bind_Ok in H as (r & w3 & _ & H). apply stm_bind_Ok in H as ([] & w4 & _ & H). apply stm_bind_Ok in H as (o & w5 & _ & H).
  apply stm_bind_Ok in H as ([] & w6 & _ & H). unfold lift_res in H. injection H as H <-. split; [done|]. revert l H.
  generalize (match dget "output1" o with Some (JList l) => l | _ => [] end). clear.
  induction l as [|row rows IH]; intros l H; [injection H as <-; constructor|].
  cbn in H. apply bind_Ok in H as (p & Hp & H). apply bind_Ok in H as (rest & Hr & H). injection H as <-. apply IH in Hr.
  destruct p as [p|]; [|done]. constructor; [|done]. unfold parse_balance_position in Hp. destruct row as [| | | | | |row]; try done.
  destruct (_ || _) eqn:Es; [done|]. apply bind_Ok in Hp as (q & _ & Hp). destruct (Z.leb_spec q 0); [done|].
  apply bind_Ok in Hp as (av & _ & Hp). apply bind_Ok in Hp as (cu & _ & Hp). injection Hp as <-. cbn. split; [|lia].
  apply orb_false_iff in Es as [E1 E2]. apply negb_false_iff in E1, E2. unfold domestic. by rewrite E1, E2.
Qed.

(** ** Witnesses *)

(** A scripted session: the answers to come. *)
Definition w_query_get (q : http_request) : stm (list response) response :=
  fun w => match w with r :: l => (Ok r, l) | [] => (Err (OtherError "ConnectionError"), w) end.
Definition w_query_client : kis_client := mkClient REAL "key" "secret" "token" "12345678" "01" false.
Definition w_answer (o : dict json) (more : dict string) : response := mkResponse 200 more (Some (JObj (("rt_cd", JStr "0") :: o))).
Definition w_float_sum (l : list float) : float := fold_left fadd l fzero.
Definition w_pnl_answers : list response :=
  [w_answer [("ctx_area_fk100", JStr "A"); ("output2", JList [JObj [("rlzt_pfls", JStr "1,000"); ("evlu_pfls_smtl_amt", JStr "5")]])] [("tr_cont", "M")];
   w_answer [("output1", JList [JObj [("rlzt_pfls", JStr "-20")]])] []].
Definition w_pnl := Eval vm_compute in get_realized_pnl w_float_sum w_query_get w_query_client 10 w_pnl_answers.

Lemma realized_pnl_pages_witness : exists pages,
  (0 < length pages <= 10)%nat /\ last_given (map (page_value w_float_sum) pages) None = Some (f_of_Z (-20)).
Proof.
  destruct (realized_pnl_pages w_float_sum w_query_get w_query_client 10 w_pnl_answers (mkRealizedPnl (Some (f_of_Z (-20))) []) [])
    as (_ & _ & pages & t & _ & Hn & _ & Hd); [vm_compute; reflexivity|]. exists pages. split; [exact Hn|symmetry; exact Hd].
Defined.

Lemma realized_pnl_is_explicit_witness : exists row name v,
  row ∈ [[("rlzt_pfls", JStr "7"); ("evlu_pfls_smtl_amt", JStr "5")]] ++ [] /\ name ∈ SUMMARY_PNL_FIELDS /\ dget name row = Some v /\ is_blank v = false.
Proof.
  apply (realized_pnl_is_explicit w_float_sum [("output2", JObj [("rlzt_pfls", JStr "7"); ("evlu_pfls_smtl_amt", JStr "5")])] (f_of_Z 7)).
  vm_compute. reflexivity.
Defined.

Definition w_power_answers : list response :=
  [w_answer [("output", JObj [("nrcvb_buy_amt", JStr "100"); ("ord_psbl_cash", JStr "250"); ("nrcvb_buy_qty", JStr "3")])] []].
Definition w_power := Eval vm_compute in get_buying_power w_query_get w_query_client "005930" (f_of_Z 70000) "01" w_power_answers.

Lemma buying_power_conservative_witness : exists s, w_power.1 = Ok s /\ bp_orderable_cash s = Some (f_of_Z 100).
Proof.
  eexists. split; [reflexivity|].
  eapply (buying_power_conservative w_query_get w_query_client "005930" (f_of_Z 70000) "01" w_power_answers _ w_power.2);
    vm_compute; reflexivity.
Defined.

Definition w_rank_row (symbol price change volume : string) : json :=
  JObj [("mksc_shrn_iscd", JStr symbol); ("stck_prpr", JStr price); ("prdy_ctrt", JStr change); ("acml_vol", JStr volume)].
Definition w_rank_filter : rank_filter := mkRankFilter 2 (f_of_Z 2000) (f_of_Z 200000) 100000 (f_ratio 1 2) (f_of_Z 20).
Definition w_rank_answers : list response :=
  [w_answer [("output", JList [w_rank_row "005930" "70000" "1.2" "200000"; w_rank_row "005930" "70000" "1.2" "200000";
                               w_rank_row "000660" "100" "1.2" "200000"; w_rank_row "035420" "5,000" "3" "150000"])] []].
Definition w_ranked := Eval vm_compute in get_active_stocks w_query_get w_query_client w_rank_filter w_rank_answers.

Lemma active_stocks_selection_witness : exists l, w_ranked.1 = Ok l /\ map rk_symbol l = ["005930"; "035420"] /\ len l <= 2.
Proof.
  eexists. split; [reflexivity|]. split; [reflexivity|].
  eapply (active_stocks_selection w_query_get w_query_client w_rank_filter w_rank_answers _ w_ranked.2). vm_compute. reflexivity.
Defined.

Definition w_holding_answers : list response :=
  [w_answer [("output1", JList [JObj [("pdno", JStr "005930"); ("hldg_qty", JStr "10"); ("pchs_avg_pric", JStr "70000")];
                                JObj [("pdno", JStr "000660"); ("hldg_qty", JStr "0")]])] []].
Definition w_holdings := Eval vm_compute in get_positions w_query_get w_query_client w_holding_answers.

Lemma balance_positions_positive_witness : exists l, w_holdings.1 = Ok l /\ length l = 1%nat /\
  Forall (fun p => domestic (bl_symbol p) = true /\ 0 < bl_quantity p) l.
Proof.
  eexists. split; [reflexivity|]. split; [reflexivity|].
  eapply (balance_positions_positive w_query_get w_query_client w_holding_answers _ w_holdings.2). vm_compute. reflexivity.
Defined.
