(* ===== verification/AutoUniverse.v ===== *)
(** * The trading universe of the service ([ops/auto_universe.py])

    The symbols the service watches in a cycle: the configured ones, the most
    active stocks found by a ranking query, and the symbols with an open position.
    The ranking is asked at most once in an interval; its answer and the times of
    the last attempt and of the last success live in the runtime metadata. *)

From S2P Require Import Prelude PyStr PyFloat PyTime IsoText PyDecimal PyDict PyJson DbCore DbOrders DbRuntime DbLedger DbFrames.
From S2P Require Import KisHttp KisOrder KisOrderStatus KisAccount System SystemFrames.

Definition UNIVERSE_SYMBOLS_KEY : string := "auto_universe.symbols".
Definition UNIVERSE_REFRESHED_AT_KEY : string := "auto_universe.refreshed_at".
Definition UNIVERSE_ATTEMPTED_AT_KEY : string := "auto_universe.attempted_at".
Definition UNIVERSE_ERROR_KEY : string := "auto_universe.last_error".

Record AutoUniverseSettings := mkUniverse {
  un_enabled : bool;
  un_size : Z;
  un_refresh_seconds : Z;
  un_failure_retry_seconds : Z;
  un_min_price : float;
  un_max_price : float;
  un_min_volume : Z;
  un_min_change_pct : float;
  un_max_change_pct : float;
}.

Definition default_universe : AutoUniverseSettings :=
  mkUniverse true 5 1800 60 (f_of_Z 2000) (f_of_Z 200000) 100000 (f_ratio 1 2) (f_of_Z 20).

(** [__post_init__] *)
Definition validate_universe (s : AutoUniverseSettings) : res unit :=
  _ ← raise_if (un_size s <=? 0) (ValueError "auto universe size must be positive");
  _ ← raise_if ((un_refresh_seconds s <=? 0) || (un_failure_retry_seconds s <=? 0))
        (ValueError "auto universe refresh intervals must be positive");
  _ ← raise_if ((un_min_price s <? fzero)%F || (un_max_price s <=? un_min_price s)%F)
        (ValueError "auto universe price range is invalid");
  _ ← raise_if (un_min_volume s <? 0) (ValueError "auto universe minimum volume must not be negative");
  raise_if (un_max_change_pct s <=? un_min_change_pct s)%F (ValueError "auto universe change range is invalid").

(** [_timestamp] *)
Definition universe_time (raw : option string) : option datetime :=
  match raw with
  | None | Some "" => None
  | Some s => match fromisoformat s with Ok d => Some d | Err _ => None end
  end.

Definition is_six_digits (s : string) : bool := isdigit s && (slen s =? 6).

(** The comprehension and the slice at the end of [_cached_symbols] *)
Definition universe_of (values : list string) (size : Z) : list string :=
  take (Z.to_nat size) (dedup [] (List.filter is_six_digits values)).

(** [_cached_symbols] *)
Definition cached_symbols (raw : option string) (size : Z) : list string :=
  match loads (match raw with Some s => if sempty s then "[]" else s | None => "[]" end) with
  | Some (JList values) => universe_of (map py_str values) size
  | _ => []
  end.

(** [error] is truthy *)
Definition failing (d : db) : bool :=
  match get_metadata UNIVERSE_ERROR_KEY d with Some e => negb (sempty e) | None => false end.

(** [_is_due] *)
Definition is_due (settings : AutoUniverseSettings) (now : datetime) (d : db) : res bool :=
  let error := failing d in
  let timestamp_key := if error then UNIVERSE_ATTEMPTED_AT_KEY else UNIVERSE_REFRESHED_AT_KEY in
  match universe_time (get_metadata timestamp_key d) with
  | None => Ok true
  | Some previous =>
      let interval := if error then un_failure_retry_seconds settings else un_refresh_seconds settings in
      before ← dt_ltb now (dt_add previous (interval * us_per_second));
      Ok (negb before)
  end.

(** [json.dumps] of symbols *)
Definition symbols_text (symbols : list string) : string := dumps (JList (map JStr symbols)).

Section Resolve.
Context {W : Type} {CW : Clock W}.
(** [discover(settings)] *)
Variable discover : AutoUniverseSettings -> stm W (list string).

(** The branch of a due refresh: the dynamic symbols it leaves. *)
Definition refresh_universe (settings : AutoUniverseSettings) (now : datetime) (dynamic : list string) : stm (sys W) (list string) :=
  _ ← set_metadata_now UNIVERSE_ATTEMPTED_AT_KEY (isoformat now) (Some now);
  found ← attempt (on_world (discover settings));
  match found : res (list string) with
  | Err e =>
      _ ← set_metadata_now UNIVERSE_ERROR_KEY (exn_name e) (Some now);
      mret dynamic
  | Ok symbols =>
      let discovered := cached_symbols (Some (symbols_text symbols)) (un_size settings) in
      _ ← set_metadata_now UNIVERSE_SYMBOLS_KEY (symbols_text discovered) (Some now);
      _ ← set_metadata_now UNIVERSE_REFRESHED_AT_KEY (isoformat now) (Some now);
      _ ← set_metadata_now UNIVERSE_ERROR_KEY "" (Some now);
      mret discovered
  end.

(** [resolve_service_symbols] *)
Definition resolve_service_symbols (base_symbols open_position_symbols : list string) (settings : AutoUniverseSettings)
    (now : datetime) : stm (sys W) (list string) :=
  stored ← query (get_metadata UNIVERSE_SYMBOLS_KEY);
  let cached := cached_symbols stored (un_size settings) in
  dynamic ← (if un_enabled settings then
               due ← query (is_due settings now);
               due ← lift_res due;
               if due : bool then refresh_universe settings now cached else mret cached
             else mret cached);
  mret (dedup [] (base_symbols ++ (if un_enabled settings then dynamic else []) ++ open_position_symbols)).
End Resolve.

(** ** Lemmas *)

Lemma dedup_distinct {A} `{EqDecision A} (l seen : list A) : NoDup l -> (forall x, x ∈ l -> x ∉ seen) -> dedup seen l = l.
Proof.
  revert seen. induction l as [|x l IH]; intros seen Hl Hs; [done|]. cbn [dedup].
  rewrite bool_decide_eq_false_2 by (apply Hs; set_solver). apply list.NoDup_cons in Hl as [Hx Hl].
  rewrite IH; [done..|]. intros y Hy [-> | Hin]%elem_of_cons; [done|]. apply (Hs y); set_solver.
Qed.

Lemma filter_all {A} (p : A -> bool) l : Forall (fun x => p x = true) l -> List.filter p l = l.
Proof. induction 1 as [|x l Hx _ IH]; [done|]. cbn. by rewrite Hx, IH. Qed.

Record universe_ok (size : Z) (l : list string) : Prop := mkUniverseOk {
  uo_distinct : NoDup l;
  uo_codes : Forall (fun x => is_six_digits x = true) l;
  uo_bounded : len l <= Z.max 0 size;
}.

Lemma universe_of_ok values size : universe_ok size (universe_of values size).
Proof.
  unfold universe_of. split.
  - eapply sublist_NoDup; [apply NoDup_dedup|apply sublist_take].
  - apply Forall_take. apply list.Forall_forall. intros x [Hx _]%elem_of_dedup. apply list_elem_of_In, filter_In in Hx. apply Hx.
  - unfold len. rewrite length_take. lia.
Qed.

Lemma universe_of_same size l : universe_ok size l -> universe_of l size = l.
Proof.
  intros [Hd Hc Hb]. unfold universe_of. rewrite filter_all by done. rewrite dedup_distinct; [|done|set_solver].
  apply take_ge. unfold len in Hb. lia.
Qed.

Lemma six_digits_plain s : is_six_digits s = true -> sforall plain_char s = true.
Proof.
  intros [[_ Hd]%andb_true_iff _]%andb_true_iff. induction s as [|c s IH]; [done|]. cbn [sforall] in *.
  apply andb_true_iff in Hd as [Hc Hd]. rewrite IH by done. unfold is_digit in Hc. unfold plain_char. lia.
Qed.

Lemma symbols_read_back size l : universe_ok size l -> cached_symbols (Some (symbols_text l)) size = l.
Proof.
  intros Hl. unfold cached_symbols, symbols_text.
  replace (sempty (dumps (JList (map JStr l)))) with false by done. rewrite loads_strings.
  - rewrite map_map, map_id. by apply universe_of_same.
  - apply forallb_forall. intros x Hx. apply six_digits_plain. destruct Hl as [_ Hc _]. rewrite list.Forall_forall in Hc.
    by apply Hc, list_elem_of_In.
Qed.

Lemma cached_symbols_ok raw size : universe_ok size (cached_symbols raw size).
Proof.
  assert (He : universe_ok size []) by (split; [constructor|constructor|unfold len; cbn; lia]).
  unfold cached_symbols. destruct (loads _) as [[]|]; try done. apply universe_of_ok.
Qed.

Section Runs.
Context {W : Type} {CW : Clock W}.
Variable discover : AutoUniverseSettings -> stm W (list string).

(** What a due refresh leaves: after a failure the name of the error, after a
    success the symbols, the time, and no error. *)
Inductive refreshed (settings : AutoUniverseSettings) (now : datetime) (old : list string) (d : db) : list string -> db -> Prop :=
  | RefreshFailed w e w' : discover settings w = (Err e, w') ->
      refreshed settings now old d old
        (put_metadata UNIVERSE_ERROR_KEY (exn_name e) (iso now) (put_metadata UNIVERSE_ATTEMPTED_AT_KEY (isoformat now) (iso now) d))
  | RefreshDone l : universe_ok (un_size settings) l ->
      refreshed settings now old d l
        (put_metadata UNIVERSE_ERROR_KEY "" (iso now) (put_metadata UNIVERSE_REFRESHED_AT_KEY (isoformat now) (iso now)
          (put_metadata UNIVERSE_SYMBOLS_KEY (symbols_text l) (iso now)
            (put_metadata UNIVERSE_ATTEMPTED_AT_KEY (isoformat now) (iso now) d)))).

Lemma refresh_run settings now old (s : sys W) : exists l w d,
  refresh_universe discover settings now old s = (Ok l, mkSys d w (s_trace s)) /\ refreshed settings now old (s_db s) l d.
Proof.
  unfold refresh_universe.
  destruct (set_metadata_run UNIVERSE_ATTEMPTED_AT_KEY (isoformat now) now s eq_refl) as [w H]. erewrite stm_bind_run by exact H.
  clear H. set (s1 := mkSys _ w _). destruct (discover settings w) as [r w1] eqn:D.
  erewrite stm_bind_run by (apply attempt_run; unfold on_world; subst s1; cbn [s_world s_db s_trace]; by rewrite D).
  destruct r as [l|e]; cbv beta iota zeta.
  - set (l' := cached_symbols _ _). set (s2 := mkSys (s_db s1) w1 (s_trace s1)).
    destruct (set_metadata_run UNIVERSE_SYMBOLS_KEY (symbols_text l') now s2 eq_refl) as [w2 H]. erewrite stm_bind_run by exact H.
    clear H. match goal with |- context [mbind _ _ ?s3] => destruct (set_metadata_run UNIVERSE_REFRESHED_AT_KEY (isoformat now) now s3 eq_refl) as [w3 H] end.
    erewrite stm_bind_run by exact H. clear H.
    match goal with |- context [mbind _ _ ?s3] => destruct (set_metadata_run UNIVERSE_ERROR_KEY "" now s3 eq_refl) as [w4 H] end.
    erewrite stm_bind_run by exact H. eexists _, _, _. split; [reflexivity|]. apply RefreshDone, cached_symbols_ok.
  - match goal with |- context [mbind _ _ ?s3] => destruct (set_metadata_run UNIVERSE_ERROR_KEY (exn_name e) now s3 eq_refl) as [w4 H] end.
    erewrite stm_bind_run by exact H. eexists _, _, _. split; [reflexivity|]. by eapply RefreshFailed.
Qed.

(** The dynamic symbols of a cycle: none when switched off, the stored ones until a
    refresh is due, then what the refresh leaves. *)
Definition dynamic_after (settings : AutoUniverseSettings) (now : datetime) (d : db) (l : list string) (d' : db) : Prop :=
  let cached := cached_symbols (get_metadata UNIVERSE_SYMBOLS_KEY d) (un_size settings) in
  if un_enabled settings then
    (is_due settings now d = Ok false /\ l = cached /\ d' = d) \/ (is_due settings now d = Ok true /\ refreshed settings now cached d l d')
  else l = [] /\ d' = d.

Lemma resolve_run base open settings now (s : sys W) l s' :
  resolve_service_symbols discover base open settings now s = (Ok l, s') -> exists dynamic,
  dynamic_after settings now (s_db s) dynamic (s_db s') /\ l = dedup [] (base ++ dynamic ++ open) /\ s_trace s' = s_trace s.
Proof.
  unfold resolve_service_symbols, dynamic_after. intros H.
  apply stm_bind_Ok in H as (stored & s1 & Hq & H). injection Hq as <- <-. cbv zeta in H.
  apply stm_bind_Ok in H as (dynamic & s2 & Hd & H). injection H as <- <-.
  destruct (un_enabled settings); [|injection Hd as <- <-; by exists []].
  apply stm_bind_Ok in Hd as (due & s3 & Hq & Hd). injection Hq as <- <-.
  apply stm_bind_Ok in Hd as (b & s3 & Hq & Hd). injection Hq as Hq <-. destruct b.
  - destruct (refresh_run settings now (cached_symbols (get_metadata UNIVERSE_SYMBOLS_KEY (s_db s)) (un_size settings)) s) as (l & w & d & E & R).
    rewrite E in Hd. injection Hd as <- <-. exists l. split; [right; by split|]. by split.
  - injection Hd as <- <-. eexists. split; [left; by repeat split|]. by split.
Qed.

Lemma dynamic_after_ok settings now d l d' : dynamic_after settings now d l d' -> universe_ok (un_size settings) l /\ only_metadata d d'.
Proof.
  unfold dynamic_after. destruct (un_enabled settings).
  - intros [(_ & -> & ->)|[_ H]]; [split; [apply cached_symbols_ok|reflexivity]|].
    destruct H as [w e w' _|l Hl]; split; try done; try apply cached_symbols_ok; unfold put_metadata; by repeat (etrans; [|eexists; reflexivity]).
  - intros [-> ->]. split; [|reflexivity]. split; [constructor|constructor|unfold len; cbn; lia].
Qed.
End Runs.

Lemma metadata_put k k' v ts d : get_metadata k (put_metadata k' v ts d) = if String.eqb k k' then Some v else get_metadata k d.
Proof.
  unfold get_metadata, put_metadata, set_metadata. cbn. destruct (String.eqb_spec k k') as [->|Hk].
  - by rewrite lookup_insert_eq.
  - by rewrite lookup_insert_ne by done.
Qed.

Ltac metadata_reads := rewrite ?metadata_put; cbn [String.eqb Ascii.eqb Bool.eqb UNIVERSE_ERROR_KEY UNIVERSE_ATTEMPTED_AT_KEY UNIVERSE_REFRESHED_AT_KEY UNIVERSE_SYMBOLS_KEY].

Lemma universe_time_iso now : valid_dt now -> universe_time (Some (isoformat now)) = Some now.
Proof.
  intros Hn. unfold universe_time, fromisoformat. rewrite read_iso_isoformat by done.
  destruct (isoformat now) eqn:E; [|done]. apply read_iso_isoformat in Hn. by rewrite E in Hn.
Qed.

(** After a refresh no other is due before the interval of its outcome is over. *)
Lemma not_due_again {W} (discover : AutoUniverseSettings -> stm W (list string)) settings now old d l d' now' :
  (forall st w e w', discover st w = (Err e, w') -> exn_name e <> "") -> valid_dt now -> is_naive now = is_naive now' ->
  refreshed discover settings now old d l d' ->
  instant now' < instant now + (if failing d' then un_failure_retry_seconds settings else un_refresh_seconds settings) * us_per_second ->
  is_due settings now' d' = Ok false.
Proof.
  intros Hname Hv Hn H Hlt. assert (Hadd : forall us, instant (dt_add now us) = instant now + us /\ is_naive (dt_add now us) = is_naive now).
  { intros us. destruct now as [t [off|]]; unfold instant, is_naive, dt_add; cbn; lia. }
  unfold is_due. revert Hlt. unfold failing. destruct H as [w e w' Hd|l Hl]; metadata_reads.
  - apply Hname in Hd. destruct (sempty (exn_name e)) eqn:E; [by apply String.eqb_eq in E|]. cbn [negb]. metadata_reads.
    rewrite universe_time_iso by done. intros Hlt. unfold dt_ltb. destruct (Hadd (un_failure_retry_seconds settings * us_per_second)) as [-> ->].
    rewrite Hn, Bool.eqb_reflx. cbn. by rewrite (proj2 (Z.ltb_lt _ _)).
  - change (negb (sempty "")) with false. cbv iota. metadata_reads. rewrite universe_time_iso by done. intros Hlt. unfold dt_ltb.
    destruct (Hadd (un_refresh_seconds settings * us_per_second)) as [-> ->]. rewrite Hn, Bool.eqb_reflx. cbn.
    by rewrite (proj2 (Z.ltb_lt _ _)).
Qed.

Lemma refreshed_symbols {W} (discover : AutoUniverseSettings -> stm W (list string)) settings now old d l d' :
  old = cached_symbols (get_metadata UNIVERSE_SYMBOLS_KEY d) (un_size settings) ->
  refreshed discover settings now old d l d' -> cached_symbols (get_metadata UNIVERSE_SYMBOLS_KEY d') (un_size settings) = l.
Proof.
  intros Ho H. destruct H as [w e w' Hd|l Hl]; metadata_reads; [by rewrite Ho|by apply symbols_read_back].
Qed.

(** ** Properties *)

(** Fact: the symbols a refresh stores are the ones the next cycle reads back. *)
Theorem universe_cache_roundtrip values size :
  cached_symbols (Some (symbols_text (universe_of values size))) size = universe_of values size.
Proof. apply symbols_read_back, universe_of_ok. Qed.

(** Fact: the symbols of a cycle are distinct; every configured symbol and every
    symbol with an open position is among them; the others are at most [size]
    six-digit codes, none when the universe is switched off; and nothing but
    runtime metadata changes. *)
Theorem resolved_symbols_sound {W} {CW : Clock W} (discover : AutoUniverseSettings -> stm W (list string)) base open settings now (s : sys W) l s' :
  resolve_service_symbols discover base open settings now s = (Ok l, s') ->
  NoDup l /\ (forall x, x ∈ base \/ x ∈ open -> x ∈ l) /\
  (exists dynamic, l = dedup [] (base ++ dynamic ++ open) /\ universe_ok (un_size settings) dynamic /\
     (un_enabled settings = false -> dynamic = [])) /\
  only_metadata (s_db s) (s_db s') /\ s_trace s' = s_trace s.
Proof.
  intros (dynamic & Hd & -> & Ht)%resolve_run. destruct (dynamic_after_ok _ _ _ _ _ _ Hd) as [Hok Hm].
  split; [apply NoDup_dedup|]. split; [intros x Hx; apply elem_of_dedup; set_solver|]. split; [|done].
  exists dynamic. split; [done|]. split; [done|]. intros He. unfold dynamic_after in Hd. rewrite He in Hd. apply Hd.
Qed.

(** Fact: once a cycle has asked for the active stocks, a cycle before the end of the
    interval of that attempt (the retry interval when it failed) asks nothing,
    changes nothing and works with the same dynamic symbols. *)
Theorem discovery_rate_limited {W} {CW : Clock W} (discover : AutoUniverseSettings -> stm W (list string)) base open base' open' settings
    now now' (s : sys W) l s' :
  (forall st w e w', discover st w = (Err e, w') -> exn_name e <> "") ->
  un_enabled settings = true -> valid_dt now -> is_naive now = is_naive now' ->
  resolve_service_symbols discover base open settings now s = (Ok l, s') -> is_due settings now (s_db s) = Ok true ->
  instant now' < instant now +
    (if failing (s_db s') then un_failure_retry_seconds settings else un_refresh_seconds settings) * us_per_second ->
  exists dynamic, l = dedup [] (base ++ dynamic ++ open) /\
    resolve_service_symbols discover base' open' settings now' s' = (Ok (dedup [] (base' ++ dynamic ++ open')), s').
Proof.
  intros Hname He Hv Hn (dynamic & Hd & -> & _)%resolve_run Hdue Hlt. exists dynamic. split; [done|].
  unfold dynamic_after in Hd. rewrite He, Hdue in Hd. destruct Hd as [(Hf & _)|(_ & Hr)]; [done|].
  unfold resolve_service_symbols. erewrite stm_bind_run by reflexivity. cbv zeta. rewrite He.
  erewrite stm_bind_run; [reflexivity|]. erewrite stm_bind_run by reflexivity. rewrite (not_due_again _ _ _ _ _ _ _ _ Hname Hv Hn Hr Hlt).
  erewrite stm_bind_run by reflexivity. by rewrite (refreshed_symbols _ _ _ _ _ _ _ eq_refl Hr).
Qed.

(** ** Witnesses *)

Definition w_universe_now : datetime := Datetime 1700042430000000 None.
Definition w_discover (st : AutoUniverseSettings) : stm unit (list string) := mret ["005930"; "x"; "035420"; "005930"; "000660"].
#[local] Instance w_universe_clock : Clock unit := fun w => (Datetime 1700042430000000 (Some 0), w).
Definition w_settings : AutoUniverseSettings := mkUniverse true 2 1800 60 (f_of_Z 2000) (f_of_Z 200000) 100000 (f_ratio 1 2) (f_of_Z 20).
Definition w_before : sys unit := mkSys empty_db tt [].
Definition w_resolved := Eval vm_compute in resolve_service_symbols w_discover ["000660"] ["068270"] w_settings w_universe_now w_before.

Lemma resolved_symbols_sound_witness : w_resolved.1 = Ok ["000660"; "005930"; "035420"; "068270"] /\
  "068270" ∈ ["000660"; "005930"; "035420"; "068270"].
Proof.
  split; [reflexivity|].
  assert (E : resolve_service_symbols w_discover ["000660"] ["068270"] w_settings w_universe_now w_before =
    (Ok ["000660"; "005930"; "035420"; "068270"], w_resolved.2)) by (vm_compute; reflexivity).
  apply (proj1 (proj2 (resolved_symbols_sound _ _ _ _ _ _ _ _ E))). right. apply list_elem_of_here.
Defined.

Lemma discovery_rate_limited_witness : is_due w_settings w_universe_now (s_db w_before) = Ok true /\
  exists l, resolve_service_symbols w_discover [] [] w_settings (dt_add w_universe_now 1799000000) w_resolved.2 = (Ok l, w_resolved.2).
Proof.
  split; [reflexivity|].
  destruct (discovery_rate_limited w_discover ["000660"] ["068270"] [] [] w_settings w_universe_now (dt_add w_universe_now 1799000000)
    w_before ["000660"; "005930"; "035420"; "068270"] w_resolved.2) as (dynamic & _ & H).
  - intros st w e w' H. discriminate H.
  - reflexivity.
  - unfold valid_dt, w_universe_now. cbn. unfold MIN_US, MAX_US. vm_compute. repeat split; congruence.
  - reflexivity.
  - vm_compute. reflexivity.
  - reflexivity.
  - vm_compute. reflexivity.
  - exists (dedup [] ([] ++ dynamic ++ [])). exact H.
Defined.
