(* ===== verification/Collector.v ===== *)
(** * Realtime tick collection ([market/collector.py], [market/streaming_collector.py])

    The bounded collector of one symbol and the reconnecting collector of
    several: what they subscribe, which frames become ticks and bars, how often
    they reconnect and what is written at the end. *)

From S2P Require Import Prelude PyStr PyFloat PyTime PyDecimal PyDict PyJson DbCore DbRuntime DbMarket Bars KisHttp FillNotice System KisWs.

Section Ticks.
Context {W : Type} {CW : Clock W}.

Definition store_tick (tick : MarketTick) : stm (sys W) unit :=
  on_db (fun now d => d' ← save_tick tick None now d; Ok (tt, d')).
Definition store_bar (bar : MinuteBar) : stm (sys W) unit :=
  on_db (fun _ d => d' ← save_bar bar d; Ok (tt, d')).

(** [completed = builder.update(tick)] and the saving of a completed bar: the
    new state of the builder, and whether a bar was saved. *)
Definition build_bar (tick : MarketTick) (bar : option MinuteBar) : stm (sys W) (option MinuteBar * bool) :=
  r ← lift_res (update_bar tick bar);
  match fst r with
  | Some completed => _ ← store_bar completed; mret (snd r, true)
  | None => mret (snd r, false)
  end.

(** [kst_today()] *)
Definition kst_today : stm (sys W) Z := now ← read_clock; mret (dt_days (astimezone now KST)).

Definition or_today (trading_date : option Z) : stm (sys W) Z :=
  match trading_date with Some d => mret d | None => kst_today end.
End Ticks.

(** ** The collector of one symbol *)

Record CollectorResult := mkCollectorResult {
  cr_symbol : string;
  cr_ticks_saved : Z;
  cr_bars_saved : Z;
  cr_subscribe_ack : bool;
  cr_last_price : option float;
}.

Definition validate_seconds (seconds : Z) : res unit :=
  raise_if ((seconds <? 1) || (3600 <? seconds)) (ValueError "seconds must be between 1 and 3600").

Section Collect.
Context {W : Type} {CW : Clock W} (socket : ws_socket W).
Variable monotonic : stm W float.

(** The frames of the connection, with the builder's bar and the counts *)
Fixpoint collect_loop (fuel : nat) (deadline : float) (symbol : string) (collection_date : Z)
    (bar : option MinuteBar) (r : CollectorResult) : stm (sys W) (option CollectorResult) :=
  match fuel with
  | O => mret None
  | S fuel =>
      now ← on_world monotonic;
      if negb (now <? deadline)%F then mret (Some r)
      else
        now ← on_world monotonic;
        got ← on_world (receive socket (fmax (f_ratio 5 100) (deadline - now)%F));
        match (got : received) with
        | TimedOut | ConnectionClosed => mret (Some r)
        | Frame raw =>
            let system := parse_system_message raw in
            if is_pingpong system
            then _ ← on_world (ws_send socket (raw_to_text raw)); collect_loop fuel deadline symbol collection_date bar r
            else if is_subscription_ack system
            then collect_loop fuel deadline symbol collection_date bar
                   (mkCollectorResult symbol (cr_ticks_saved r) (cr_bars_saved r) true (cr_last_price r))
            else
              match parse_realtime_price raw with
              | Some realtime =>
                  if negb (String.eqb (rp_symbol realtime) symbol) then collect_loop fuel deadline symbol collection_date bar r
                  else
                    tick ← lift_res (realtime_price_to_market_tick realtime collection_date);
                    _ ← store_tick tick;
                    b ← build_bar tick bar;
                    collect_loop fuel deadline symbol collection_date (fst b)
                      (mkCollectorResult symbol (cr_ticks_saved r + 1) (cr_bars_saved r + (if snd (b : option MinuteBar * bool) then 1 else 0))
                         (cr_subscribe_ack r) (Some (tk_price tick)))
              | None => collect_loop fuel deadline symbol collection_date bar r
              end
        end
  end.

Definition collect_realtime_prices (fuel : nat) (endpoint approval_key symbol : string) (seconds : Z) (trading_date : option Z)
    : stm (sys W) (option CollectorResult) :=
  _ ← lift_res (validate_seconds seconds);
  _ ← lift_res (raise_if (negb (domestic_symbol symbol)) (ValueError "domestic stock symbol must be a six-digit code"));
  collection_date ← or_today trading_date;
  now ← on_world monotonic;
  let deadline := (now + f_of_Z seconds)%F in
  _ ← open_schema;
  with_socket (on_world (ws_connect socket endpoint)) (on_world (ws_close socket))
    (message ← lift_res (build_subscription approval_key symbol TR_REALTIME_PRICE);
     _ ← on_world (ws_send socket message);
     collect_loop fuel deadline symbol collection_date None (mkCollectorResult symbol 0 0 false None)).
End Collect.

(** ** The reconnecting collector *)

Definition TRANSIENT_WEBSOCKET_CLOSES : list string :=
  ["ConnectionClosed"; "ConnectionClosedError"; "ConnectionClosedOK"; "InvalidMessage"].

Record HealthSnapshot := mkHealth { hs_acknowledged : bool; hs_last_tick_at : option datetime; hs_reconnect_count : Z }.
Record StreamingCollectorResult := mkStreamingResult { sc_ticks_saved : Z; sc_bars_saved : Z; sc_health : HealthSnapshot }.

(** [_symbols] *)
Definition collector_symbols (values : list string) : res (list string) :=
  _ ← raise_if (existsb (fun v => negb (domestic_symbol v)) values) (ValueError "domestic stock symbols must be six-digit codes");
  _ ← raise_if (match values with [] => true | _ => false end) (ValueError "at least one symbol is required");
  Ok (dedup [] values).

(** The constructor's arguments *)
Record collector_config := mkCollectorConfig {
  cc_endpoint : string;
  cc_approval_key : string;
  cc_symbols : list string;
  cc_trading_date : option Z;
  cc_subscription_throttle : float;
  cc_reconnect_base : float;
  cc_reconnect_max : float;
  cc_reconnect_jitter : float;
}.

(** [self] of a collector: its configuration, with the checked symbols and the
    trading date, and what it counts. *)
Record collector_state (W : Type) := mkCollector {
  co_sys : sys W;
  co_acknowledged : bool;
  co_last_tick_at : option datetime;
  co_reconnect_count : Z;
  co_ticks_saved : Z;
  co_bars_saved : Z;
  co_builders : gmap string (option MinuteBar);
}.
Arguments mkCollector {W} _ _ _ _ _ _ _.
Arguments co_sys {W} _.
Arguments co_acknowledged {W} _.
Arguments co_last_tick_at {W} _.
Arguments co_reconnect_count {W} _.
Arguments co_ticks_saved {W} _.
Arguments co_bars_saved {W} _.
Arguments co_builders {W} _.

Section Streaming.
Context {W : Type} {CW : Clock W} (socket : ws_socket W).
Variable monotonic : stm W float.
Variable sleeper : float -> stm W unit.
Variable random_source : stm W float.
(** [stop_event is not None and stop_event.is_set()] *)
Variable stopped : stm W bool.
(** The SQLite engine's order of equal rows, and whether an exception of foreign
    code is a [ConnectionError] or an [OSError]. *)
Variable engine_order : list tick_row -> list tick_row.
Variable foreign_os_error : string -> bool.

Notation run A := (stm (collector_state W) A).

Definition in_sys {A} (m : stm (sys W) A) : run A := fun c =>
  let '(r, s) := m (co_sys c) in
  (r, mkCollector s (co_acknowledged c) (co_last_tick_at c) (co_reconnect_count c) (co_ticks_saved c) (co_bars_saved c) (co_builders c)).
Definition world {A} (m : stm W A) : run A := in_sys (on_world m).

(** Its attributes *)
Definition acknowledge : run unit := modify (fun c =>
  mkCollector (co_sys c) true (co_last_tick_at c) (co_reconnect_count c) (co_ticks_saved c) (co_bars_saved c) (co_builders c)).
Definition count_tick (at_ : datetime) : run unit := modify (fun c =>
  mkCollector (co_sys c) (co_acknowledged c) (Some at_) (co_reconnect_count c) (co_ticks_saved c + 1) (co_bars_saved c) (co_builders c)).
Definition count_bar : run unit := modify (fun c =>
  mkCollector (co_sys c) (co_acknowledged c) (co_last_tick_at c) (co_reconnect_count c) (co_ticks_saved c) (co_bars_saved c + 1) (co_builders c)).
Definition count_reconnect : run unit := modify (fun c =>
  mkCollector (co_sys c) (co_acknowledged c) (co_last_tick_at c) (co_reconnect_count c + 1) (co_ticks_saved c) (co_bars_saved c) (co_builders c)).
Definition set_builder (symbol : string) (bar : option MinuteBar) : run unit := modify (fun c =>
  mkCollector (co_sys c) (co_acknowledged c) (co_last_tick_at c) (co_reconnect_count c) (co_ticks_saved c) (co_bars_saved c)
    (<[symbol := bar]> (co_builders c))).

Definition health (c : collector_state W) : HealthSnapshot := mkHealth (co_acknowledged c) (co_last_tick_at c) (co_reconnect_count c).

(** [deadline is not None and self.monotonic() >= deadline] *)
Definition past (deadline : option float) : run bool :=
  match deadline with None => mret false | Some d => now ← world monotonic; mret (d <=? now)%F end.
Definition finished (deadline : option float) : run bool :=
  s ← world stopped;
  if s : bool then mret true else past deadline.

(** [_backoff] *)
Definition backoff (reconnect_base reconnect_max reconnect_jitter : float) (reconnect_attempt : Z) : run float :=
  let exponent := Z.max 0 (reconnect_attempt - 1) in
  _ ← lift_res (raise_if (1024 <=? exponent) OverflowError);
  let delay := fmin reconnect_max (reconnect_base * f_of_Z (2 ^ exponent))%F in
  r ← world random_source;
  mret (fmin reconnect_max (delay + r * reconnect_jitter)%F).

(** [_sleep_until] *)
Definition sleep_until (seconds : float) (deadline : option float) : run bool :=
  s ← world stopped;
  if s : bool then mret false
  else
    seconds ← (match deadline with
               | None => mret seconds
               | Some d => now ← world monotonic; mret (fmin seconds (fmax fzero (d - now)%F))
               end);
    if (seconds <=? fzero)%F then
      match deadline with None => mret true | Some d => now ← world monotonic; mret (now <? d)%F end
    else
      _ ← world (sleeper seconds);
      f ← finished deadline;
      mret (negb f).

(** [_recv] *)
Definition recv (deadline : option float) : run raw_frame :=
  match deadline with
  | None => world (ws_recv socket None)
  | Some d =>
      now ← world monotonic;
      let remaining := (d - now)%F in
      if (remaining <=? fzero)%F then raise ws_timeout else world (ws_recv socket (Some remaining))
  end.

Variable config : collector_config.

(** [_subscribe], of the symbols from the [first] on *)
Fixpoint subscribe (first : bool) (symbols : list string) (deadline : option float) : run bool :=
  match symbols with
  | [] => mret true
  | symbol :: rest =>
      go ← (if first then mret true else sleep_until (cc_subscription_throttle config) deadline);
      if negb (go : bool) then mret false
      else
        message ← lift_res (build_subscription (cc_approval_key config) symbol TR_REALTIME_PRICE);
        _ ← world (ws_send socket message);
        subscribe false rest deadline
  end.

(** The processing of one frame *)
Definition consume_frame (trading_date : Z) (raw : raw_frame) : run unit :=
  let system := parse_system_message raw in
  if is_pingpong system then world (ws_send socket (raw_to_text raw))
  else if is_subscription_ack system then acknowledge
  else
    match parse_realtime_price raw with
    | None => mret tt
    | Some realtime =>
        builder ← gets (fun c => co_builders c !! rp_symbol realtime);
        match (builder : option (option MinuteBar)) with
        | None => mret tt
        | Some bar =>
            tick ← lift_res (realtime_price_to_market_tick realtime trading_date);
            _ ← in_sys (store_tick tick);
            _ ← count_tick (tk_timestamp tick);
            r ← lift_res (update_bar tick bar);
            _ ← set_builder (rp_symbol realtime) (snd r);
            match fst r with
            | Some completed => _ ← in_sys (store_bar completed); count_bar
            | None => mret tt
            end
        end
    end.

(** [_consume]: whether it ended, [false] when the fuel is spent first. *)
Fixpoint consume (fuel : nat) (trading_date : Z) (deadline : option float) : run bool :=
  match fuel with
  | O => mret false
  | S fuel =>
      f ← finished deadline;
      if f : bool then mret true
      else
        r ← outcome (recv deadline);
        match (r : res raw_frame) with
        | Ok raw => _ ← consume_frame trading_date raw; consume fuel trading_date deadline
        | Err e => if is_timeout e then mret true else raise e
        end
  end.

(** One connection: [Some tt] is the [break] of the loop, [None] spent fuel. *)
Definition connection (fuel : nat) (symbols : list string) (trading_date : Z) (deadline : option float) : run (option unit) :=
  with_socket (world (ws_connect socket (cc_endpoint config))) (world (ws_close socket))
    (subscribed ← subscribe true symbols deadline;
     if negb (subscribed : bool) then mret (Some tt)
     else
       ended ← consume fuel trading_date deadline;
       if negb (ended : bool) then mret None
       else
         s ← world stopped;
         if s : bool then mret (Some tt)
         else
           p ← past deadline;
           if p : bool then mret (Some tt) else raise (OtherError "ConnectionError")).

(** The handlers of the loop: an exception after which it reconnects *)
Definition reconnects_after (e : exn) : bool :=
  is_timeout e ||
  match e with
  | OtherError n => mem_str n ["ConnectionError"; "OSError"] || foreign_os_error n
  | _ => false
  end || mem_str (exn_name e) TRANSIENT_WEBSOCKET_CLOSES.

(** The loop of [run]; [retries] connections may still follow a failed one. *)
Fixpoint connections (retries : nat) (fuel : nat) (symbols : list string) (trading_date : Z) (deadline : option float) (attempt : Z)
    : run (option unit) :=
  f ← finished deadline;
  if f : bool then mret (Some tt)
  else
    r ← outcome (connection fuel symbols trading_date deadline);
    match (r : res (option unit)) with
    | Ok o => mret o
    | Err e =>
        if negb (reconnects_after e) then raise e
        else
          match retries with
          | O => mret (Some tt)
          | S more =>
              _ ← count_reconnect;
              delay ← backoff (cc_reconnect_base config) (cc_reconnect_max config) (cc_reconnect_jitter config) (attempt + 1);
              go ← sleep_until delay deadline;
              if go : bool then connections more fuel symbols trading_date deadline (attempt + 1) else mret (Some tt)
          end
    end.

(** [materialize_completed_bars(self.database, self.symbols, as_of=watermark)] *)
Definition materialize (symbols : list string) : run (list MinuteBar) := fun c =>
  let watermark := (fun t => if is_naive t then with_tz t (Some KST) else t) <$> co_last_tick_at c in
  in_sys (fun s =>
    let '(now, w) := wall_clock (s_world s) in
    let '(r, d) := materialize_completed_bars engine_order (Some symbols) watermark 1000 360 now (s_db s) in
    (r, mkSys d w (s_trace s))) c.

(** [StreamingCollector(...)] and [run] *)
Definition check_config : res (list string) :=
  _ ← raise_if (sempty (cc_endpoint config)) (ValueError "endpoint is required");
  _ ← raise_if (sempty (cc_approval_key config)) (ValueError "approval_key is required");
  _ ← raise_if ((cc_subscription_throttle config <? fzero) || (cc_reconnect_base config <? fzero)
                || (cc_reconnect_max config <? cc_reconnect_base config))%F
        (ValueError "invalid throttle or reconnect bounds");
  _ ← raise_if (cc_reconnect_jitter config <? fzero)%F (ValueError "reconnect_jitter must not be negative");
  collector_symbols (cc_symbols config).

Definition stream (symbols : list string) (trading_date : Z) (fuel : nat) (deadline : option float) (max_reconnects : Z)
    : run (option StreamingCollectorResult) :=
  _ ← lift_res (raise_if (max_reconnects <? 0) (ValueError "max_reconnects must not be negative"));
  _ ← in_sys open_schema;
  _ ← modify (fun c => mkCollector (co_sys c) (co_acknowledged c) (co_last_tick_at c) (co_reconnect_count c) (co_ticks_saved c)
                         (co_bars_saved c) (list_to_map (map (fun s => (s, None)) symbols)));
  r ← outcome (connections (Z.to_nat max_reconnects) fuel symbols trading_date deadline 0);
  _ ← materialize symbols;
  o ← lift_res r;
  c ← gets id;
  mret (_ ← (o : option unit); Some (mkStreamingResult (co_ticks_saved c) (co_bars_saved c) (health c))).

(** [collect_streaming_prices] *)
Definition new_collector (s : sys W) : collector_state W := mkCollector s false None 0 0 0 ∅.
Definition collect_streaming_prices (fuel : nat) (deadline : option float) (max_reconnects : Z)
    : stm (sys W) (option StreamingCollectorResult) := fun s =>
  match check_config with
  | Err e => (Err e, s)
  | Ok symbols =>
      match or_today (cc_trading_date config) s with
      | (Err e, s) => (Err e, s)
      | (Ok trading_date, s) =>
          let '(r, c) := stream symbols trading_date fuel deadline max_reconnects (new_collector s) in (r, co_sys c)
      end
  end.
End Streaming.

(** ** Lemmas *)

(** The database without its ticks and bars *)
Definition erase_market (d : db) : db := set_ticks (fun _ => []) (set_bars (fun _ => ∅) d).

Lemma erase_init d d' : erase_market d' = erase_market d -> erase_market (init_schema d') = erase_market (init_schema d).
Proof. intros H. change (init_schema (erase_market d') = init_schema (erase_market d)). by rewrite H. Qed.

Lemma save_tick_effect t r now d d' : save_tick t r now d = Ok d' -> exists row,
  t_ticks d' = t_ticks d ++ [row] /\ tr_symbol row = tk_symbol t /\ tr_price row = tk_price t /\ tr_volume row = tk_volume t /\
  t_bars d' = t_bars d /\ erase_market d' = erase_market d.
Proof. unfold save_tick. cbv zeta. intros H. apply bind_Ok in H as ([] & _ & H). injection H as <-. eexists. by split_and!. Qed.

Lemma save_bar_effect b d d' : save_bar b d = Ok d' -> t_ticks d' = t_ticks d /\ erase_market d' = erase_market d.
Proof. unfold save_bar. cbv zeta. intros H. apply bind_Ok in H as ([] & _ & H). by injection H as <-. Qed.

Lemma save_bars_effect bars : forall d r d', save_bars bars d = (r, d') -> t_ticks d' = t_ticks d /\ erase_market d' = erase_market d.
Proof.
  induction bars as [|b bars IH]; intros d r d'; cbn [save_bars]; [by intros [= _ <-]|].
  destruct (save_bar b d) as [d1|e] eqn:E; [|by intros [= _ <-]]. intros H. apply save_bar_effect in E as [E1 E2].
  apply IH in H as [H1 H2]. split; congruence.
Qed.

Lemma rebuild_effect eo l at_ n k now d r d' : materialize_completed_bars eo l at_ n k now d = (r, d') ->
  t_ticks d' = t_ticks d /\ (erase_market d' = erase_market d \/ erase_market d' = erase_market (init_schema d)).
Proof.
  unfold materialize_completed_bars. destruct (check_arguments _ _ _ _) as [sel|e]; [|intros [= _ <-]; auto].
  cbv zeta. destruct (completed_bars _ _ _ _ _) as [bars|e]; [|intros [= _ <-]; auto].
  unfold mbind, stm_bind. destruct (save_bars bars _) as [[[]|e] d1] eqn:E; intros [= _ <-];
    apply save_bars_effect in E as [E1 E2]; (split; [exact E1|by right]).
Qed.

(** *** What a connection does *)

Section Collected.
Context {W : Type} {CW : Clock W} (socket : ws_socket W) (monotonic : stm W float) (sleeper : float -> stm W unit)
  (random_source : stm W float) (stopped : stm W bool) (engine_order : list tick_row -> list tick_row)
  (foreign_os_error : string -> bool) (config : collector_config) (symbols : list string).
(** A relation that the world respects when only messages [P] are sent *)
Context (RW : W -> W -> Prop) `{!PreOrder RW} (P : string -> Prop).
Hypothesis wall_rel : forall w, RW w (wall_clock w).2.
Hypothesis connect_rel : forall e, keeps RW (ws_connect socket e).
Hypothesis close_rel : keeps RW (ws_close socket).
Hypothesis recv_rel : forall t, keeps RW (ws_recv socket t).
Hypothesis send_rel : forall m, P m -> keeps RW (ws_send socket m).
Hypothesis monotonic_rel : keeps RW monotonic.
Hypothesis sleeper_rel : forall t, keeps RW (sleeper t).
Hypothesis random_rel : keeps RW random_source.
Hypothesis stopped_rel : keeps RW stopped.
Hypothesis echo_allowed : forall m, echo m -> P m.
Hypothesis subscription_allowed : forall s m, s ∈ symbols -> build_subscription (cc_approval_key config) s TR_REALTIME_PRICE = Ok m -> P m.

(** Between two states of a collector: the ticks it has counted are the rows that
    were added, all of its symbols; nothing else but bars is written; and at most
    [n] reconnections. *)
Record collected (n : Z) (c c' : collector_state W) : Prop := mkCollected {
  cd_world : RW (s_world (co_sys c)) (s_world (co_sys c'));
  cd_trace : s_trace (co_sys c') = s_trace (co_sys c);
  cd_erase : erase_market (s_db (co_sys c')) = erase_market (s_db (co_sys c));
  cd_ticks : exists new, t_ticks (s_db (co_sys c')) = t_ticks (s_db (co_sys c)) ++ new /\
    len new = co_ticks_saved c' - co_ticks_saved c /\ Forall (fun r => tr_symbol r ∈ dom (co_builders c)) new;
  cd_dom : dom (co_builders c') = dom (co_builders c);
  cd_reconnects : 0 <= co_reconnect_count c' - co_reconnect_count c <= n;
}.

Lemma collected_refl n c : 0 <= n -> collected n c c.
Proof. intros Hn. split; [reflexivity|done|done| |done|lia]. exists []. rewrite app_nil_r. unfold len. cbn. split_and!; [done|lia|constructor]. Qed.

Lemma collected_trans a b c1 c2 c3 : collected a c1 c2 -> collected b c2 c3 -> collected (a + b) c1 c3.
Proof.
  intros [W1 T1 E1 (n1 & A1 & L1 & F1) D1 R1] [W2 T2 E2 (n2 & A2 & L2 & F2) D2 R2]. split; [by etrans|congruence..| |congruence|lia].
  exists (n1 ++ n2). split_and!; [by rewrite A2, A1, app_assoc| |].
  - unfold len in *. rewrite length_app. lia.
  - rewrite Forall_app. split; [done|]. by rewrite <- D1.
Qed.

#[local] Instance collected_preorder : PreOrder (collected 0).
Proof. split; [intros c; by apply collected_refl|]. intros a b c H1 H2. by apply (collected_trans 0 0 a b c). Qed.

Notation quiet m := (keeps (collected 0) m).

Lemma collected_sys {A} (m : stm (sys W) A) : (forall s, RW (s_world s) (s_world (m s).2) /\ s_trace (m s).2 = s_trace s /\
    erase_market (s_db (m s).2) = erase_market (s_db s) /\ t_ticks (s_db (m s).2) = t_ticks (s_db s)) -> quiet (in_sys m).
Proof.
  intros H c. unfold in_sys. destruct (H (co_sys c)) as (H1 & H2 & H3 & H4). destruct (m (co_sys c)) as [r s]. cbn in *.
  split; cbn; [done|done|done| |done|lia]. exists []. rewrite H4, app_nil_r. unfold len. cbn. split_and!; [done|lia|constructor].
Qed.

Lemma world_quiet {A} (m : stm W A) : keeps RW m -> quiet (world m).
Proof.
  intros Hm. apply collected_sys. intros s. unfold on_world. specialize (Hm (s_world s)). by destruct (m (s_world s)).
Qed.

Lemma modify_quiet f : (forall c, collected 0 c (f c)) -> quiet (modify f).
Proof. intros H c. apply H. Qed.

Lemma acknowledge_quiet : quiet acknowledge.
Proof.
  apply modify_quiet. intros c. destruct (collected_refl 0 c ltac:(lia)). by split.
Qed.
Lemma count_bar_quiet : quiet count_bar.
Proof.
  apply modify_quiet. intros c. destruct (collected_refl 0 c ltac:(lia)). by split.
Qed.

Lemma bind_quiet {A B} (m : stm (collector_state W) A) (f : A -> stm (collector_state W) B) :
  quiet m -> (forall a, quiet (f a)) -> quiet (mbind f m).
Proof. apply keeps_bind, _. Qed.

Ltac collect_walk := repeat first
  [ match goal with |- keeps _ (mbind _ _) => apply bind_quiet; [|intros ?] end
  | apply keeps_ret; exact _
  | apply keeps_lift; exact _
  | apply keeps_raise; exact _
  | apply keeps_gets; exact _
  | apply keeps_outcome
  | apply world_quiet; solve [auto]
  | match goal with |- keeps _ (match ?x with _ => _ end) => destruct x eqn:? end
  | match goal with |- keeps _ (let _ := _ in _) => cbv zeta end ].

Lemma past_quiet d : quiet (past monotonic d).
Proof. unfold past. collect_walk. Qed.
Lemma finished_quiet d : quiet (finished monotonic stopped d).
Proof. unfold finished. collect_walk. apply past_quiet. Qed.
Lemma sleep_until_quiet t d : quiet (sleep_until monotonic sleeper stopped t d).
Proof. unfold sleep_until. collect_walk; apply finished_quiet. Qed.
Lemma recv_quiet d : quiet (recv socket monotonic d).
Proof. unfold recv. collect_walk. Qed.
Lemma backoff_quiet a b j n : quiet (backoff random_source a b j n).
Proof. unfold backoff. collect_walk. Qed.

Lemma subscribe_quiet l : l ⊆ symbols -> forall first d, quiet (subscribe socket monotonic sleeper stopped config first l d).
Proof.
  induction l as [|x l IH]; intros Hl first d; cbn [subscribe]; [apply keeps_ret, _|].
  apply bind_quiet; [destruct first; [apply keeps_ret, _|apply sleep_until_quiet]|]. intros go. destruct (negb go); [apply keeps_ret, _|].
  intros c. destruct (build_subscription _ x _) as [m|e] eqn:E; [|change (collected 0 c c); reflexivity].
  revert c. change (quiet (_ ← world (ws_send socket m); subscribe socket monotonic sleeper stopped config false l d)).
  apply bind_quiet; [apply world_quiet, send_rel; eapply subscription_allowed, E; apply Hl, list_elem_of_here|].
  intros _. apply IH. intros y Hy. apply Hl. by apply list_elem_of_further.
Qed.

Lemma store_tick_run tick c : exists r,
  (_ ← in_sys (store_tick tick); count_tick (tk_timestamp tick)) c = r /\
  (forall a c', r = (Ok a, c') -> tk_symbol tick ∈ dom (co_builders c) -> collected 0 c c' /\ co_builders c' = co_builders c) /\
  (forall e c', r = (Err e, c') -> collected 0 c c').
Proof.
  eexists. split; [reflexivity|]. unfold mbind, stm_bind, in_sys, store_tick, on_db.
  pose proof (wall_rel (s_world (co_sys c))) as Hw. destruct (wall_clock _) as [now w]. cbn in Hw.
  destruct (save_tick tick None now (s_db (co_sys c))) as [d'|e] eqn:E; cbn.
  - apply save_tick_effect in E as (row & E1 & E2 & _ & _ & _ & E3). split; [|done]. intros a c' [= _ <-] Hd. split; [|done].
    split; cbn; [done|done|done| |done|lia]. exists [row]. unfold len. cbn. split_and!; [done|lia|]. constructor; [|constructor]. by rewrite E2.
  - split; [done|]. intros e' c' [= _ <-]. split; cbn; [done|done|done| |done|lia].
    exists []. rewrite app_nil_r. unfold len. cbn. split_and!; [done|lia|constructor].
Qed.

Lemma store_bar_quiet b : quiet (in_sys (store_bar b)).
Proof.
  apply collected_sys. intros s. unfold store_bar, on_db. pose proof (wall_rel (s_world s)) as Hw. destruct (wall_clock _) as [now w]. cbn in Hw.
  destruct (save_bar b (s_db s)) as [d'|e] eqn:E; cbn; [|done]. apply save_bar_effect in E as [E1 E2]. done.
Qed.

Lemma consume_frame_quiet date raw : quiet (consume_frame socket date raw).
Proof.
  unfold consume_frame. cbv zeta. destruct (is_pingpong _) eqn:Ep; [apply world_quiet, send_rel, echo_allowed; by exists raw|].
  destruct (is_subscription_ack _); [apply acknowledge_quiet|]. destruct (parse_realtime_price raw) as [p|]; [|apply keeps_ret, _].
  intros c. unfold mbind at 1, stm_bind at 1, gets at 1. destruct (co_builders c !! rp_symbol p) as [bar|] eqn:Eb; [|reflexivity].
  destruct (realtime_price_to_market_tick p date) as [tick|e] eqn:Et; [|change (collected 0 c c); reflexivity].
  assert (Hs : tk_symbol tick = rp_symbol p).
  { unfold realtime_price_to_market_tick in Et. cbv zeta in Et. do 4 (apply Prelude.bind_Ok in Et as ([] & _ & Et)). by injection Et as <-. }
  assert (Hd : tk_symbol tick ∈ dom (co_builders c)) by (rewrite Hs; apply elem_of_dom; by eexists).
  destruct (store_tick_run tick c) as (r & Er & Hok & Herr).
  unfold lift_res. unfold mbind at 1, stm_bind at 1. unfold mbind, stm_bind in Er |- *.
  destruct (in_sys (store_tick tick) c) as [[[]|e] c1]; [|subst; by apply (Herr e)].
  destruct (count_tick (tk_timestamp tick) c1) as [[[]|e] c2]; [|subst; by apply (Herr e)].
  destruct (Hok tt c2 (eq_sym Er) Hd) as [H1 H2]. destruct (update_bar tick bar) as [[completed bar']|e]; [|exact H1]. cbn [fst snd].
  unfold set_builder, modify. cbv beta iota. cbn [snd].
  set (c3 := mkCollector (co_sys c2) _ _ _ _ _ _).
  assert (H3 : collected 0 c c3).
  { apply (collected_trans 0 0 c c2 c3); [exact H1|]. subst c3. destruct (collected_refl 0 c2 ltac:(lia)). split; try done. cbn.
    rewrite dom_insert_L, H2. assert (rp_symbol p ∈ dom (co_builders c)) by (apply elem_of_dom; by eexists). set_solver. }
  destruct completed as [b|]; [|exact H3]. apply (collected_trans 0 0 c c3); [exact H3|].
  exact (bind_quiet (in_sys (store_bar b)) (fun _ => count_bar) (store_bar_quiet b) (fun _ => count_bar_quiet) c3).
Qed.

Lemma consume_collects fuel date d : quiet (consume socket monotonic stopped fuel date d).
Proof.
  induction fuel as [|fuel IH]; cbn [consume]; [apply keeps_ret, _|].
  apply bind_quiet; [apply finished_quiet|intros f]. destruct f; [apply keeps_ret, _|].
  apply bind_quiet; [apply keeps_outcome, recv_quiet|intros [raw|e]].
  - apply bind_quiet; [apply consume_frame_quiet|intros _; apply IH].
  - destruct (is_timeout e); [apply keeps_ret, _|apply keeps_raise, _].
Qed.

Lemma connection_quiet fuel l date d : l ⊆ symbols -> quiet (connection socket monotonic sleeper stopped config fuel l date d).
Proof.
  intros Hl. unfold connection. apply keeps_with_socket; [exact _|apply world_quiet, connect_rel|apply world_quiet, close_rel|].
  apply bind_quiet; [by apply subscribe_quiet|intros go]. destruct (negb go); [apply keeps_ret, _|].
  apply bind_quiet; [apply consume_collects|intros e]. destruct (negb e); [apply keeps_ret, _|]. collect_walk. apply past_quiet.
Qed.

Lemma collected_mono a b c c' : a <= b -> collected a c c' -> collected b c c'.
Proof. intros Hab [? ? ? ? ? ?]. split; try done. lia. Qed.

Lemma connections_collected l date d : l ⊆ symbols -> forall retries fuel attempt,
  keeps (collected (Z.of_nat retries))
    (connections socket monotonic sleeper random_source stopped foreign_os_error config retries fuel l date d attempt).
Proof.
  intros Hl. induction retries as [|n IH]; intros fuel attempt c; cbn [connections].
  all: match goal with |- collected ?k _ _ => set (K := k) end.
  all: unfold mbind at 1, stm_bind at 1; pose proof (finished_quiet d c) as Hf;
    destruct (finished monotonic stopped d c) as [[f|e] c1]; cbn [snd] in Hf; [|by eapply collected_mono, Hf; subst K; lia].
  all: destruct f; [by eapply collected_mono, Hf; subst K; lia|].
  all: unfold mbind at 1, stm_bind at 1; pose proof (keeps_outcome _ _ (connection_quiet fuel l date d Hl) c1) as Hc;
    destruct (outcome _ c1) as [[r|e] c2]; cbn [snd] in Hc.
  all: pose proof (collected_trans 0 0 c c1 c2 Hf Hc) as H2; cbn in H2.
  all: try (by eapply collected_mono, H2; subst K; lia).
  all: destruct r as [o|e]; [by eapply collected_mono, H2; subst K; lia|].
  all: destruct (negb (reconnects_after foreign_os_error e)); [by eapply collected_mono, H2; subst K; lia|].
  - by eapply collected_mono, H2; subst K; lia.
  - assert (H3 : collected 1 c (count_reconnect c2).2).
    { apply (collected_trans 0 1 c c2); [exact H2|]. destruct (collected_refl 0 c2 ltac:(lia)). split; try done. cbn. lia. }
    unfold mbind at 1, stm_bind at 1. destruct (count_reconnect c2) as [[[]|e'] c3] eqn:E3; [|done]. cbn [snd] in H3.
    unfold mbind at 1, stm_bind at 1. match goal with |- context [backoff random_source ?a ?b ?j ?k c3] =>
      pose proof (backoff_quiet a b j k c3) as H4; destruct (backoff random_source a b j k c3) as [[delay|e4] c4] end; cbn [snd] in H4.
    all: pose proof (collected_trans 1 0 c c3 c4 H3 H4) as H5; cbn in H5.
    2: { eapply collected_mono, H5. subst K. lia. }
    unfold mbind at 1, stm_bind at 1. pose proof (sleep_until_quiet delay d c4) as H6.
    destruct (sleep_until monotonic sleeper stopped delay d c4) as [[go|e6] c5]; cbn [snd] in H6.
    all: pose proof (collected_trans 1 0 c c4 c5 H5 H6) as H7; cbn in H7.
    2: { eapply collected_mono, H7. subst K. lia. }
    destruct go; [|eapply collected_mono, H7; subst K; lia].
    eapply collected_mono; [|apply (collected_trans 1 (Z.of_nat n) c c5); [exact H7|apply IH]]. subst K. lia.
Qed.

Lemma stream_collected date fuel d maxr c r c' :
  stream socket monotonic sleeper random_source stopped engine_order foreign_os_error config symbols date fuel d maxr c = (r, c') ->
  RW (s_world (co_sys c)) (s_world (co_sys c')) /\ s_trace (co_sys c') = s_trace (co_sys c) /\
  (forall res, r = Ok (Some res) ->
     0 <= maxr /\ erase_market (s_db (co_sys c')) = erase_market (init_schema (s_db (co_sys c))) /\
     (exists new, t_ticks (s_db (co_sys c')) = t_ticks (s_db (co_sys c)) ++ new /\
        len new = sc_ticks_saved res - co_ticks_saved c /\ Forall (fun row => tr_symbol row ∈ symbols) new) /\
     0 <= hs_reconnect_count (sc_health res) - co_reconnect_count c <= maxr).
Proof.
  unfold stream, lift_res. unfold mbind at 1, stm_bind at 1. destruct (raise_if _ _) as [[]|e] eqn:Em; [|intros [= <- <-]; by split_and!].
  apply raise_if_Ok in Em. bool_to_prop.
  unfold mbind at 1, stm_bind at 1, in_sys at 1. rewrite open_schema_run. cbn [co_sys].
  unfold mbind at 1, stm_bind at 1, modify at 1. cbv beta iota. cbn [co_sys co_acknowledged co_last_tick_at co_reconnect_count co_ticks_saved co_bars_saved co_builders].
  set (c1 := mkCollector (mkSys (init_schema (s_db (co_sys c))) (wall_clock (s_world (co_sys c))).2 (s_trace (co_sys c)))
    (co_acknowledged c) (co_last_tick_at c) (co_reconnect_count c) (co_ticks_saved c) (co_bars_saved c) (list_to_map (map (fun s => (s, None)) symbols))).
  assert (Hd : dom (co_builders c1) = list_to_set symbols).
  { cbn. rewrite dom_list_to_map_L. f_equal. rewrite <- list_fmap_compose. by rewrite list_fmap_id. }
  unfold mbind at 1, stm_bind at 1. pose proof (keeps_outcome _ _ (connections_collected symbols date d (reflexivity symbols) (Z.to_nat maxr) fuel 0) c1) as H1.
  destruct (outcome _ c1) as [[o|e] c2] eqn:Eo; cbn [snd] in H1.
  2: { by unfold outcome in Eo; destruct (connections _ _ _ _ _ _ _ _ _ _ _ _ _ c1). }
  destruct H1 as [W1 T1 E1 (new & N1 & L1 & F1) D1 R1]. cbn [co_sys c1 s_world s_trace s_db] in W1, T1, E1, N1.
  unfold mbind at 1, stm_bind at 1, materialize at 1, in_sys at 1. pose proof (wall_rel (s_world (co_sys c2))) as W2.
  destruct (wall_clock (s_world (co_sys c2))) as [now w2]. cbn [snd] in W2.
  destruct (materialize_completed_bars _ _ _ _ _ _ _) as [rm dm] eqn:Ed. apply rebuild_effect in Ed as [Nm Er].
  assert (W3 : RW (s_world (co_sys c)) w2).
  { etrans; [apply wall_rel|]. etrans; [exact W1|exact W2]. }
  destruct rm as [bars|e]; [|intros [= <- <-]; by split_and!]. unfold mbind at 1, stm_bind at 1.
  destruct o as [o|e]; [|intros [= <- <-]; by split_and!]. unfold mbind at 1, stm_bind at 1, gets at 1.
  intros [= <- <-]. split; [exact W3|]. split; [exact T1|]. intros res [= Hr]. destruct o as [[]|]; [|done]. injection Hr as <-.
  cbn [sc_ticks_saved sc_health health hs_reconnect_count co_ticks_saved co_reconnect_count co_sys s_db s_trace id] in *. split; [done|]. split_and!.
  - destruct Er as [->| ->]; [done|]. change (init_schema (erase_market (s_db (co_sys c2))) = erase_market (init_schema (s_db (co_sys c)))).
    rewrite E1. change (erase_market (init_schema (init_schema (s_db (co_sys c)))) = erase_market (init_schema (s_db (co_sys c)))).
    by rewrite init_idempotent.
  - exists new. rewrite Nm, N1. split_and!; [done|done|]. revert F1. apply List.Forall_impl. intros row Hrow. rewrite Hd in Hrow.
    by apply elem_of_list_to_set in Hrow.
  - change (co_reconnect_count c1) with (co_reconnect_count c) in R1. lia.
  - change (co_reconnect_count c1) with (co_reconnect_count c) in R1. lia.
Qed.

(** The collector of one symbol *)
Definition collected_one (symbol : string) (s s' : sys W) : Prop :=
  RW (s_world s) (s_world s') /\ s_trace s' = s_trace s /\
  erase_market (init_schema (s_db s')) = erase_market (init_schema (s_db s)) /\
  exists new, t_ticks (s_db s') = t_ticks (s_db s) ++ new /\ Forall (fun r => tr_symbol r = symbol) new.

#[local] Instance collected_one_preorder symbol : PreOrder (collected_one symbol).
Proof.
  split; [intros s; split_and!; try done; exists []; by rewrite app_nil_r|].
  intros a b c (W1 & T1 & E1 & n1 & N1 & F1) (W2 & T2 & E2 & n2 & N2 & F2). split_and!; [by etrans|congruence..|].
  exists (n1 ++ n2). rewrite N2, N1, Forall_app. by rewrite app_assoc.
Qed.

Lemma one_world symbol {A} (m : stm W A) : keeps RW m -> keeps (collected_one symbol) (on_world m).
Proof.
  intros Hm s. unfold on_world. specialize (Hm (s_world s)). destruct (m (s_world s)). split_and!; try done. exists []. by rewrite app_nil_r.
Qed.

Lemma one_store symbol tick : tk_symbol tick = symbol -> keeps (collected_one symbol) (store_tick tick).
Proof.
  intros Hs s. unfold store_tick, on_db. pose proof (wall_rel (s_world s)) as Hw. destruct (wall_clock _) as [now w].
  destruct (save_tick tick None now (s_db s)) as [d'|e] eqn:E; cbn.
  - apply save_tick_effect in E as (row & E1 & E2 & _ & _ & _ & E3). apply erase_init in E3. split_and!; try done. exists [row]. split; [done|].
    constructor; [|constructor]. congruence.
  - split_and!; try done. exists []. by rewrite app_nil_r.
Qed.

Lemma one_bar symbol bar : keeps (collected_one symbol) (store_bar bar).
Proof.
  intros s. unfold store_bar, on_db. pose proof (wall_rel (s_world s)) as Hw. destruct (wall_clock _) as [now w].
  destruct (save_bar bar (s_db s)) as [d'|e] eqn:E; cbn.
  - apply save_bar_effect in E as [E1 E2%erase_init]. split_and!; try done. exists []. rewrite app_nil_r. by split.
  - split_and!; try done. exists []. by rewrite app_nil_r.
Qed.

Lemma collect_loop_one symbol date : forall fuel deadline bar r,
  keeps (collected_one symbol) (collect_loop socket monotonic fuel deadline symbol date bar r).
Proof.
  assert (Hrecv : forall t, keeps RW (receive socket t)).
  { intros t. unfold receive. apply keeps_bind; [exact _|apply keeps_outcome, recv_rel|]. intros [raw|e]; [apply keeps_ret, _|].
    destruct (is_timeout e); [apply keeps_ret, _|]. destruct (String.eqb _ _); [apply keeps_ret, _|apply keeps_raise, _]. }
  induction fuel as [|fuel IH]; intros deadline bar r; cbn [collect_loop]; [apply keeps_ret, _|].
  apply keeps_bind; [exact _|by apply one_world|]. intros now. destruct (negb _); [apply keeps_ret, _|].
  apply keeps_bind; [exact _|by apply one_world|]. intros now2.
  apply keeps_bind; [exact _|by apply one_world|]. intros [raw| |]; [|apply keeps_ret, _..]. cbv zeta.
  destruct (is_pingpong _) eqn:Ep.
  { apply keeps_bind; [exact _|apply one_world, send_rel, echo_allowed; by exists raw|intros; apply IH]. }
  destruct (is_subscription_ack _); [apply IH|]. destruct (parse_realtime_price raw) as [p|]; [|apply IH].
  destruct (String.eqb (rp_symbol p) symbol) eqn:Es; cbn [negb]; [|apply IH]. bool_to_prop.
  intros s. destruct (realtime_price_to_market_tick p date) as [tick|e] eqn:Et; [|change (collected_one symbol s s); reflexivity].
  assert (Hs : tk_symbol tick = symbol).
  { unfold realtime_price_to_market_tick in Et. cbv zeta in Et. do 4 (apply Prelude.bind_Ok in Et as ([] & _ & Et)). by injection Et as <-. }
  revert s. change (keeps (collected_one symbol) (_ ← store_tick tick; b ← build_bar tick bar;
    collect_loop socket monotonic fuel deadline symbol date (fst b)
      (mkCollectorResult symbol (cr_ticks_saved r + 1) (cr_bars_saved r + (if snd (b : option MinuteBar * bool) then 1 else 0))
         (cr_subscribe_ack r) (Some (tk_price tick))))).
  apply keeps_bind; [exact _|by apply one_store|intros _]. apply keeps_bind; [exact _| |intros b; apply IH].
  unfold build_bar. apply keeps_bind; [exact _|apply keeps_lift, _|intros x]. destruct (fst x); [|apply keeps_ret, _].
  apply keeps_bind; [exact _|apply one_bar|intros; apply keeps_ret, _].
Qed.

Lemma one_clock symbol trading_date : keeps (collected_one symbol) (or_today trading_date).
Proof.
  unfold or_today, kst_today. destruct trading_date; [apply keeps_ret, _|]. apply keeps_bind; [exact _| |intros; apply keeps_ret, _].
  intros s. unfold read_clock. pose proof (wall_rel (s_world s)). destruct (wall_clock _). split_and!; try done. exists []. by rewrite app_nil_r.
Qed.

Lemma one_open symbol : keeps (collected_one symbol) open_schema.
Proof.
  intros s. rewrite open_schema_run. split_and!; cbn; [apply wall_rel|done|by rewrite init_idempotent|]. exists []. by rewrite app_nil_r.
Qed.

Lemma collect_one fuel endpoint symbol seconds trading_date : symbol ∈ symbols ->
  keeps (collected_one symbol) (collect_realtime_prices socket monotonic fuel endpoint (cc_approval_key config) symbol seconds trading_date).
Proof.
  intros Hs. unfold collect_realtime_prices. do 2 (apply keeps_bind; [exact _|apply keeps_lift, _|intros _]).
  apply keeps_bind; [exact _|apply one_clock|intros date]. apply keeps_bind; [exact _|by apply one_world|intros now]. cbv zeta.
  apply keeps_bind; [exact _|apply one_open|intros _].
  apply keeps_with_socket; [exact _|apply one_world, connect_rel|apply one_world, close_rel|].
  intros s. destruct (build_subscription (cc_approval_key config) symbol TR_REALTIME_PRICE) as [m|e] eqn:E;
    [|change (collected_one symbol s s); reflexivity].
  revert s. change (keeps (collected_one symbol) (_ ← on_world (ws_send socket m);
    collect_loop socket monotonic fuel (now + f_of_Z seconds)%F symbol date None (mkCollectorResult symbol 0 0 false None))).
  apply keeps_bind; [exact _|apply one_world, send_rel; by eapply subscription_allowed|intros _; apply collect_loop_one].
Qed.
End Collected.

(** *** A collection ends *)

(** A world that cannot deliver frames for ever: [mu] bounds the frames still to
    come, and no other operation brings new ones. *)
Record draining_world {W} {CW : Clock W} (socket : ws_socket W) (monotonic : stm W float) (sleeper : float -> stm W unit)
    (random_source : stm W float) (stopped : stm W bool) (mu : W -> nat) : Prop := mkDrainingWorld {
  dw_wall : forall w, (mu (wall_clock w).2 <= mu w)%nat;
  dw_connect : forall e w, (mu (ws_connect socket e w).2 <= mu w)%nat;
  dw_close : forall w, (mu (ws_close socket w).2 <= mu w)%nat;
  dw_recv : forall t w, (mu (ws_recv socket t w).2 <= mu w)%nat;
  dw_frame : forall t w raw w', ws_recv socket t w = (Ok raw, w') -> (mu w' < mu w)%nat;
  dw_send : forall m w, (mu (ws_send socket m w).2 <= mu w)%nat;
  dw_monotonic : forall w, (mu (monotonic w).2 <= mu w)%nat;
  dw_sleeper : forall t w, (mu (sleeper t w).2 <= mu w)%nat;
  dw_random : forall w, (mu (random_source w).2 <= mu w)%nat;
  dw_stopped : forall w, (mu (stopped w).2 <= mu w)%nat;
}.

Section Ends.
Context {W : Type} {CW : Clock W} (socket : ws_socket W) (monotonic : stm W float) (sleeper : float -> stm W unit)
  (random_source : stm W float) (stopped : stm W bool) (engine_order : list tick_row -> list tick_row)
  (foreign_os_error : string -> bool) (config : collector_config) (symbols : list string) (mu : W -> nat).
Hypothesis D : draining_world socket monotonic sleeper random_source stopped mu.

Definition fewer (w w' : W) : Prop := (mu w' <= mu w)%nat.
#[local] Instance fewer_preorder : PreOrder fewer.
Proof. split; unfold fewer; [intros w; lia|intros a b c; lia]. Qed.

Definition rest (c : collector_state W) : nat := mu (s_world (co_sys c)).

Lemma rest_le {A} (m : stm (collector_state W) A) c a c' : keeps (collected fewer 0) m -> m c = (a, c') -> (rest c' <= rest c)%nat.
Proof. intros Hm E. specialize (Hm c). rewrite E in Hm. exact (cd_world _ _ _ _ Hm). Qed.

Lemma recv_rest d c raw c' : recv socket monotonic d c = (Ok raw, c') -> (rest c' < rest c)%nat.
Proof.
  pose proof (dw_frame _ _ _ _ _ _ D) as Df. unfold recv, world, in_sys, on_world, rest. destruct d as [d|].
  - intros H. apply stm_bind_Ok in H as (now & c1 & E1 & H). cbv zeta in H.
    pose proof (dw_monotonic _ _ _ _ _ _ D (s_world (co_sys c))) as Dm.
    destruct (monotonic (s_world (co_sys c))) as [x w1] eqn:Em. injection E1 as -> <-. cbn in Dm.
    destruct (_ <=? _)%F; [done|]. cbn [co_sys s_world] in H.
    destruct (ws_recv socket _ _) as [x2 w2] eqn:Er. injection H as -> <-. apply Df in Er. cbn. lia.
  - destruct (ws_recv socket None _) as [x2 w2] eqn:Er. intros [= -> <-]. by apply Df in Er.
Qed.

Lemma send_fewer m : True -> keeps fewer (ws_send socket m).
Proof. intros _ w. apply (dw_send _ _ _ _ _ _ D). Qed.
Ltac drain := try exact _; auto.

Lemma finished_rest d c a c' : finished monotonic stopped d c = (a, c') -> (rest c' <= rest c)%nat.
Proof. apply rest_le. pose proof send_fewer; destruct D; eapply finished_quiet; auto with typeclass_instances. Qed.

Lemma frame_rest date raw c a c' : consume_frame socket date raw c = (a, c') -> (rest c' <= rest c)%nat.
Proof. apply rest_le. pose proof send_fewer; destruct D; eapply consume_frame_quiet with (P := fun _ : string => True) (monotonic := monotonic) (sleeper := sleeper) (random_source := random_source) (stopped := stopped)
    (engine_order := engine_order) (foreign_os_error := foreign_os_error) (config := config) (symbols := symbols); drain. Qed.

Lemma consume_ends fuel date d : forall c c', (rest c < fuel)%nat -> consume socket monotonic stopped fuel date d c <> (Ok false, c').
Proof.
  induction fuel as [|fuel IH]; intros c c' Hf H; [lia|]. cbn [consume] in H.
  apply stm_bind_Ok in H as (f & c1 & E1 & H). apply finished_rest in E1. destruct f; [done|].
  apply stm_bind_Ok in H as (r & c2 & E2 & H). unfold outcome in E2.
  destruct (recv socket monotonic d c1) as [r' c2'] eqn:Er. injection E2 as -> ->. destruct r as [raw|e].
  - apply recv_rest in Er. apply stm_bind_Ok in H as ([] & c3 & E3 & H). apply frame_rest in E3. eapply IH, H. lia.
  - by destruct (is_timeout e).
Qed.

Lemma connection_ends fuel l date d c c' : l ⊆ symbols -> (rest c < fuel)%nat ->
  connection socket monotonic sleeper stopped config fuel l date d c <> (Ok None, c').
Proof.
  intros Hl Hf H. unfold connection, with_socket in H. apply stm_bind_Ok in H as ([] & c1 & E1 & H).
  assert (L1 : (rest c1 <= rest c)%nat).
  { revert E1. apply rest_le, world_quiet. intros w. apply (dw_connect _ _ _ _ _ _ D). }
  apply stm_bind_Ok in H as (r & c2 & E2 & H). apply stm_bind_Ok in H as ([] & c3 & _ & H). unfold lift_res in H. injection H as -> _.
  unfold outcome in E2. match type of E2 with (let '(_, _) := ?m in _) = _ => destruct m as [r' c2'] eqn:E3 end. injection E2 as -> _.
  apply stm_bind_Ok in E3 as (go & c4 & E4 & E3).
  assert (L4 : (rest c4 <= rest c1)%nat) by (revert E4; apply rest_le; pose proof send_fewer; destruct D; eapply subscribe_quiet with (P := fun _ : string => True) (symbols := symbols); drain).
  destruct go; [|done]. cbn [negb] in E3. apply stm_bind_Ok in E3 as (ended & c5 & E5 & E3). destruct ended.
  - cbn [negb] in E3. apply stm_bind_Ok in E3 as (s & c6 & _ & E3). destruct s; [done|].
    apply stm_bind_Ok in E3 as (p & c7 & _ & E3). by destruct p.
  - eapply consume_ends, E5. lia.
Qed.

Lemma connections_end l date d : l ⊆ symbols -> forall retries fuel attempt c c', (rest c < fuel)%nat ->
  connections socket monotonic sleeper random_source stopped foreign_os_error config retries fuel l date d attempt c <> (Ok None, c').
Proof.
  intros Hl. induction retries as [|n IH]; intros fuel attempt c c' Hf H; cbn [connections] in H.
  all: apply stm_bind_Ok in H as (f & c1 & E1 & H); apply finished_rest in E1; destruct f; [done|].
  all: apply stm_bind_Ok in H as (r & c2 & E2 & H); unfold outcome in E2.
  all: destruct (connection socket monotonic sleeper stopped config fuel l date d c1) as [r' c2'] eqn:E3; injection E2 as -> ->.
  all: destruct r as [o|e]; [apply stm_ret_inv in H as [[= ->] _]; revert E3; apply connection_ends; [done|lia]|].
  all: assert (L2 : (rest c2 <= rest c1)%nat) by (revert E3; apply rest_le; pose proof send_fewer; destruct D; eapply connection_quiet with (P := fun _ : string => True) (monotonic := monotonic) (sleeper := sleeper) (random_source := random_source) (stopped := stopped)
    (engine_order := engine_order) (foreign_os_error := foreign_os_error) (config := config) (symbols := symbols); drain).
  all: destruct (negb _); [done|]; try done.
  apply stm_bind_Ok in H as ([] & c3 & E4 & H). assert (L3 : rest c3 = rest c2) by (unfold count_reconnect, modify in E4; by injection E4 as <-).
  apply stm_bind_Ok in H as (delay & c4 & E5 & H). assert (L4 : (rest c4 <= rest c3)%nat).
  { revert E5. apply rest_le, backoff_quiet; [exact _|intros w; apply (dw_random _ _ _ _ _ _ D)]. }
  apply stm_bind_Ok in H as (go & c5 & E6 & H). assert (L5 : (rest c5 <= rest c4)%nat).
  { revert E6. apply rest_le. pose proof send_fewer. destruct D. eapply sleep_until_quiet; drain. }
  destruct go; [|done]. revert H. apply IH. lia.
Qed.

Lemma stream_ends date fuel d maxr c c' : (rest c < fuel)%nat ->
  stream socket monotonic sleeper random_source stopped engine_order foreign_os_error config symbols date fuel d maxr c <> (Ok None, c').
Proof.
  intros Hf H. unfold stream in H. apply stm_bind_Ok in H as ([] & c1 & E1 & H). unfold lift_res in E1. injection E1 as _ <-.
  apply stm_bind_Ok in H as ([] & c2 & E2 & H).
  assert (L2 : (rest c2 <= rest c)%nat).
  { unfold in_sys in E2. rewrite open_schema_run in E2. injection E2 as <-. apply (dw_wall _ _ _ _ _ _ D). }
  apply stm_bind_Ok in H as ([] & c3 & E3 & H). assert (L3 : rest c3 = rest c2) by (unfold modify in E3; by injection E3 as <-).
  apply stm_bind_Ok in H as (o & c4 & E4 & H). unfold outcome in E4.
  destruct (connections _ _ _ _ _ _ _ _ _ _ _ _ _ c3) as [o' c5] eqn:E5. injection E4 as -> _.
  apply stm_bind_Ok in H as (bars & c6 & _ & H). apply stm_bind_Ok in H as (x & c7 & E7 & H). unfold lift_res in E7. injection E7 as -> _.
  apply stm_bind_Ok in H as (y & c8 & _ & H). apply stm_ret_inv in H as [[= H] _]. destruct x as [[]|]; [done|].
  revert E5. apply connections_end; [reflexivity|lia].
Qed.
End Ends.

(** ** Properties *)

(** A message of a collector: a subscription of one of its symbols, or a
    heartbeat sent back. *)
Definition collector_message (approval_key : string) (symbols : list string) (m : string) : Prop :=
  (exists s, s ∈ symbols /\ build_subscription approval_key s TR_REALTIME_PRICE = Ok m) \/ echo m.

Lemma sent_log {W} (P : string -> Prop) (w w' : W) log : sent P (w, []) (w', log) -> Forall P log.
Proof. intros (l & E & F). cbn in E. rewrite app_nil_r in E. by subst. Qed.

Lemma logged_wall {W} {CW : Clock W} P (w : W * list string) : sent P w (wall_clock w).2.
Proof. unfold wall_clock, logged_clock. destruct (wall_clock (fst w)). by exists []. Qed.

Section Properties.
Context {W : Type} {CW : Clock W} (socket : ws_socket W) (monotonic : stm W float) (sleeper : float -> stm W unit)
  (random_source : stm W float) (stopped : stm W bool) (engine_order : list tick_row -> list tick_row)
  (foreign_os_error : string -> bool).

(** C31: a streaming collection is read-only.  All it sends are subscriptions of
    its own symbols and heartbeats it has received, and it calls nothing of the
    order clients.  When it ends it has added one tick row for every tick it
    counts, all of its symbols, has reconnected at most [max_reconnects] times,
    and has written nothing else but bars. *)
Theorem streaming_collection_sound config fuel deadline max_reconnects d w tr r d' w' log tr' :
  collect_streaming_prices (logged socket) (on_fst monotonic) (fun t => on_fst (sleeper t)) (on_fst random_source) (on_fst stopped)
    engine_order foreign_os_error config fuel deadline max_reconnects (mkSys d (w, []) tr) = (r, mkSys d' (w', log) tr') ->
  Forall (collector_message (cc_approval_key config) (cc_symbols config)) log /\ tr' = tr /\
  forall result, r = Ok (Some result) ->
    erase_market d' = erase_market (init_schema d) /\
    (exists new, t_ticks d' = t_ticks d ++ new /\ len new = sc_ticks_saved result /\
       Forall (fun row => tr_symbol row ∈ cc_symbols config) new) /\
    0 <= hs_reconnect_count (sc_health result) <= max_reconnects.
Proof.
  unfold collect_streaming_prices. destruct (check_config config) as [symbols|e] eqn:Ec.
  2: { intros [= <- <- <- <- <-]. split_and!; [constructor|done|done]. }
  assert (Hs : forall s, s ∈ symbols -> s ∈ cc_symbols config).
  { unfold check_config in Ec. do 4 (apply Prelude.bind_Ok in Ec as ([] & _ & Ec)). unfold collector_symbols in Ec.
    do 2 (apply Prelude.bind_Ok in Ec as ([] & _ & Ec)). injection Ec as <-. intros s. rewrite elem_of_dedup. tauto. }
  set (P := collector_message (cc_approval_key config) (cc_symbols config)).
  destruct (or_today _ _) as [[date|e] [d1 [w1 l1] t1]] eqn:Et.
  all: assert (Hd : d1 = d /\ l1 = [] /\ t1 = tr) by
    (unfold or_today, kst_today in Et; destruct (cc_trading_date config); [by injection Et as _ <- _ <- <-|];
     unfold mbind, stm_bind, read_clock, logged_clock, wall_clock in Et; cbn in Et;
     destruct (CW w) in Et; injection Et as _ <- _ <- <-; done).
  all: destruct Hd as (-> & -> & ->).
  2: { intros [= <- <- <- <- <-]. split_and!; [constructor|done|done]. }
  match goal with |- context [stream ?a ?b ?c ?e ?f ?g ?h ?i ?j ?k ?l ?m ?n ?o] =>
    destruct (stream a b c e f g h i j k l m n o) as [r1 c1] eqn:E end.
  intros [= <- Hc]. eapply (stream_collected _ _ _ _ _ _ _ _ symbols (sent P) P) in E; cycle 1.
  - apply logged_wall.
  - intros. apply sent_on_fst.
  - apply sent_on_fst.
  - intros. apply sent_recv.
  - intros m Hm. by apply sent_send.
  - apply sent_on_fst.
  - intros. apply sent_on_fst.
  - apply sent_on_fst.
  - apply sent_on_fst.
  - intros m Hm. by right.
  - intros s m Hin Hm. left. exists s. split; [by apply Hs|done].
  - destruct E as (Hw & Ht & Hres). rewrite Hc in *. cbn in Hw, Ht. split; [by eapply sent_log|]. split; [done|].
    intros result Hr. destruct (Hres result Hr) as (Hm & He & (new & N & L & F) & R). cbn in He, N, L, R. split_and!; [done| |lia|lia].
    exists new. split_and!; [done|lia|]. revert F. apply List.Forall_impl. intros row. apply Hs.
Qed.

(** Fact: a streaming collection ends: with more fuel than frames to come it is
    never cut short, however often it reconnects. *)
Theorem streaming_collection_ends mu config fuel deadline max_reconnects s s' :
  draining_world socket monotonic sleeper random_source stopped mu -> (mu (s_world s) < fuel)%nat ->
  collect_streaming_prices socket monotonic sleeper random_source stopped engine_order foreign_os_error config fuel deadline
    max_reconnects s <> (Ok None, s').
Proof.
  intros D Hf. unfold collect_streaming_prices. destruct (check_config config) as [symbols|e]; [|done].
  destruct (or_today _ s) as [[date|e] s1] eqn:Et; [|done].
  assert (Hw : (mu (s_world s1) <= mu (s_world s))%nat).
  { unfold or_today, kst_today in Et. destruct (cc_trading_date config); [by injection Et as _ <-|].
    unfold mbind, stm_bind, read_clock in Et. pose proof (dw_wall _ _ _ _ _ _ D (s_world s)) as Hw. destruct (wall_clock (s_world s)).
    by injection Et as _ <-. }
  destruct (stream _ _ _ _ _ _ _ _ _ _ _ _ _ _) as [r c'] eqn:E. intros [= -> _].
  revert E. eapply stream_ends; [exact D|]. unfold rest. cbn. lia.
Qed.

(** Fact: the collection of one symbol is read-only too: one subscription and
    heartbeats sent back, rows of that symbol, nothing else but bars. *)
Theorem collection_sound fuel endpoint approval_key symbol seconds trading_date d w tr r d' w' log tr' :
  collect_realtime_prices (logged socket) (on_fst monotonic) fuel endpoint approval_key symbol seconds trading_date
    (mkSys d (w, []) tr) = (r, mkSys d' (w', log) tr') ->
  Forall (collector_message approval_key [symbol]) log /\ tr' = tr /\
  erase_market (init_schema d') = erase_market (init_schema d) /\
  exists new, t_ticks d' = t_ticks d ++ new /\ Forall (fun row => tr_symbol row = symbol) new.
Proof.
  set (P := collector_message approval_key [symbol]). intros H.
  set (config := mkCollectorConfig endpoint approval_key [symbol] None fzero fzero fzero fzero).
  assert (K : collected_one (sent P) symbol (mkSys d (w, []) tr) (mkSys d' (w', log) tr')).
  { change approval_key with (cc_approval_key config) in H.
    eapply (f_equal snd) in H. cbn [snd] in H. rewrite <- H.
    apply (collect_one (logged socket) (on_fst monotonic) config [symbol] (sent P) P).
    - apply logged_wall.
    - intros. apply sent_on_fst.
    - apply sent_on_fst.
    - intros. apply sent_recv.
    - intros m Hm. by apply sent_send.
    - apply sent_on_fst.
    - intros m Hm. by right.
    - intros s m Hin Hm. left. by exists s.
    - apply list_elem_of_here. }
  destruct K as (Hw & Ht & He & Hn). cbn in *. split; [by eapply sent_log|]. by split_and!.
Qed.
End Properties.

(** ** Witnesses *)

Section Witnesses.
#[local] Instance w_socket_clock : Clock (list raw_frame) := fun w => (Datetime 1700000000000000 (Some KST), w).
Definition w_config : collector_config :=
  mkCollectorConfig "ws://x" "key" ["005930"; "000660"] (Some 19675) fzero (f_ratio 25 100) (f_of_Z 5) (f_ratio 20 100).
Definition w_streamed := collect_streaming_prices (CW := logged_clock) (logged scripted) (on_fst (mret (f_of_Z 0)))
  (fun t => on_fst (mret tt)) (on_fst (mret fzero)) (on_fst (mret false)) id (fun _ => false) w_config 9 (Some (f_of_Z 60)) 1
  (mkSys empty_db ([w_ws_ack; w_ping; w_tick], []) []).
Definition w_collected := collect_realtime_prices (CW := logged_clock) (logged scripted) (on_fst (mret (f_of_Z 0))) 9 "ws://x" "key" "005930" 60
  (Some 19675) (mkSys empty_db ([w_ws_ack; w_ping; w_tick], []) []).

Lemma streaming_collection_sound_witness :
  length (t_ticks (s_db w_streamed.2)) = 1%nat /\ length (s_world w_streamed.2).2 = 5%nat /\
  Forall (collector_message "key" ["005930"; "000660"]) (s_world w_streamed.2).2.
Proof.
  split; [vm_compute; reflexivity|]. split; [vm_compute; reflexivity|].
  eapply (streaming_collection_sound scripted (mret (f_of_Z 0)) (fun t => mret tt) (mret fzero) (mret false) id (fun _ => false) w_config 9
            (Some (f_of_Z 60)) 1 empty_db [w_ws_ack; w_ping; w_tick] [] w_streamed.1 (s_db w_streamed.2) (s_world w_streamed.2).1
            (s_world w_streamed.2).2 (s_trace w_streamed.2)).
  vm_compute. reflexivity.
Defined.

Lemma streaming_collection_ends_witness : forall s',
  collect_streaming_prices (CW := w_socket_clock) scripted (mret (f_of_Z 0)) (fun t => mret tt) (mret fzero) (mret false) id (fun _ => false) w_config 9
    (Some (f_of_Z 60)) 1 (mkSys empty_db [w_ws_ack; w_ping; w_tick] []) <> (Ok None, s').
Proof.
  intros s'. apply (streaming_collection_ends scripted (mret (f_of_Z 0)) (fun t => mret tt) (mret fzero) (mret false) id (fun _ => false) length).
  - split; try (intros; reflexivity).
    + intros t w. destruct w; cbn; lia.
    + intros t w raw w' H. destruct w as [|r w]; [done|]. injection H as _ <-. cbn. lia.
  - vm_compute. lia.
Defined.

Lemma collection_sound_witness :
  length (t_ticks (s_db w_collected.2)) = 1%nat /\ Forall (collector_message "key" ["005930"]) (s_world w_collected.2).2.
Proof.
  split; [vm_compute; reflexivity|].
  eapply (collection_sound scripted (mret (f_of_Z 0)) 9 "ws://x" "key" "005930" 60 (Some 19675) empty_db [w_ws_ack; w_ping; w_tick] []
            w_collected.1 (s_db w_collected.2) (s_world w_collected.2).1 (s_world w_collected.2).2 (s_trace w_collected.2)).
  vm_compute. reflexivity.
Defined.
End Witnesses.
