(* ===== verification/GuardedSubmitter.v ===== *)
(** * The last gate before an order ([execution/guarded_submitter.py])

    Every order passes through a submitter that re-reads the runtime state from
    the database just before it calls the broker, and calls it at most once.
    Other processes may write between its statements: the database that each
    successive statement sees is the parameter [view]. *)

From S2P Require Import Prelude PyStr PyFloat PyTime PyDecimal PyDict PyJson DbCore DbOrders DbRuntime DbLedger.
From S2P Require Import KisHttp KisOrder KisOrderStatus KisAccount System Reconciliation.

Definition SERVICE_LEASE_NAME : string := "trading-service".
Definition TRUE_VALUES : list string := ["1"; "true"; "yes"; "on"].

Record guard := mkGuard {
  g_db_path : string;
  g_environment : KisEnvironment;
  g_owner : string;
  g_lease_name : string;
}.

(** The constructor.  A path is its normalised text; [submitter_environment] is
    the attribute of the wrapped submitter, if it has one. *)
Definition new_guard (submitter_environment db_path environment service_owner_id database_path
    expected_environment owner_id : option string) (lease_name : string) : res guard :=
  _ ← raise_if (match db_path, database_path with Some a, Some b => negb (String.eqb a b) | _, _ => false end)
        (ValueError "db_path and database_path must identify the same database");
  match (match db_path with Some p => Some p | None => database_path end) with
  | None => Err (ValueError "db_path is required")
  | Some path =>
      _ ← (match environment, expected_environment with
           | Some a, Some b =>
               a' ← parse_environment a; b' ← parse_environment b;
               raise_if (negb (bool_decide (a' = b'))) (ValueError "environment and expected_environment must match")
           | _, _ => Ok tt
           end);
      match (match environment with Some e => Some e | None =>
               match expected_environment with Some e => Some e | None => submitter_environment end end) with
      | None => Err (ValueError "expected KIS environment is required")
      | Some requested =>
          selected ← parse_environment requested;
          _ ← (match submitter_environment with
               | Some e => actual ← parse_environment e;
                   raise_if (negb (bool_decide (actual = selected)))
                     (ValueError "guard environment must match the underlying submitter environment")
               | None => Ok tt
               end);
          _ ← raise_if (match service_owner_id, owner_id with Some a, Some b => negb (String.eqb a b) | _, _ => false end)
                (ValueError "service_owner_id and owner_id must match");
          match (match service_owner_id with Some o => Some o | None => owner_id end) with
          | None => Err (ValueError "service_owner_id is required")
          | Some owner =>
              _ ← raise_if (sempty (strip owner)) (ValueError "service_owner_id is required");
              _ ← raise_if (sempty (strip lease_name)) (ValueError "lease_name is required");
              Ok (mkGuard path selected owner lease_name)
          end
      end
  end.

(** ** The checks *)

Definition blocked (reason : string) : exn :=
  OrderSafetyGateError ("order blocked by safety gate: " +:+ reason).

(** [_is_true] *)
Definition is_true (value : option string) : bool :=
  match value with Some v => mem_str (lower (strip v)) TRUE_VALUES | None => false end.

Definition flag_true (key : string) (d : db) : bool := is_true (get_metadata key d).

(** [_aware_now] *)
Definition aware_now (value : datetime) : datetime :=
  if is_naive value then with_tz value (Some KST) else value.

(** [_lease_belongs_to_owner] *)
Definition lease_belongs_to_owner (row : option service_lease) (owner_id : string) (now : datetime) : res bool :=
  match row with
  | None => Ok false
  | Some l =>
      if negb (String.eqb (sl_owner_id l) owner_id) then Ok false
      else match fromisoformat (sl_expires_at l) with
           | Err _ => Ok false
           | Ok expires_at => dt_ltb now (aware_now expires_at)
           end
  end.

Section Gate.
(** What the [k]-th statement of the check reads. *)
Variable view : nat -> db.

(** [_check_runtime_state], from statement [k] on *)
Definition check_runtime_state (g : guard) (now : datetime) (k : nat) : res unit :=
  let control := get_runtime_control (view k) in
  _ ← raise_if (rc_paused control) (blocked "runtime_paused");
  _ ← raise_if (negb (String.eqb (rc_environment control) (environment_value (g_environment g))))
        (blocked ("runtime_environment_mismatch runtime=" +:+ rc_environment control +:+ " expected=" +:+
                  environment_value (g_environment g)));
  let emergency_keys := (if flag_true "emergency_stop" (view (1 + k)%nat) then ["emergency_stop"] else []) ++
    (if flag_true "telegram.emergency_stop" (view (2 + k)%nat) then ["telegram.emergency_stop"] else []) in
  _ ← raise_if (match emergency_keys with [] => false | _ => true end)
        (blocked ("emergency_stop (" +:+ join ", " emergency_keys +:+ ")"));
  lease ← get_service_lease (g_lease_name g) (view (3 + k)%nat);
  valid ← lease_belongs_to_owner lease (g_owner g) now;
  raise_if (negb valid)
    (blocked ("service_lease_invalid lease=" +:+ g_lease_name g +:+ " owner=" +:+ g_owner g)).

(** Which of several unresolved rows [LIMIT 1] returns is not specified; it
    shows in the message only. *)
Definition unresolved_buy (d : db) : option broker_order :=
  head (List.filter (fun o => String.eqb (bo_side o) "BUY" &&
    mem_str (bo_status o) ["ACKNOWLEDGED"; "PARTIALLY_FILLED"; "CANCEL_PENDING"; "UNKNOWN"])
    (map snd (map_to_list (t_broker_orders d)))).

Definition check_buy : res unit :=
  let flags := (if flag_true "block_new_entries" (view 4) then ["block_new_entries"] else []) ++
    (if flag_true "operator_review" (view 5) then ["operator_review"] else []) in
  _ ← raise_if (match flags with [] => false | _ => true end) (blocked (join ", " flags));
  match unresolved_buy (view 6) with
  | Some o => Err (blocked ("unresolved_buy_order status=" +:+ bo_status o))
  | None => Ok tt
  end.

Definition check_sell (symbol : string) (quantity : Z) : res unit :=
  let open_quantity := local_quantity symbol (view 4) in
  _ ← raise_if (open_quantity <=? 0)
        (blocked ("sell_without_local_open_position symbol=" +:+ symbol));
  raise_if (open_quantity <? quantity)
    (blocked ("sell_quantity_exceeds_local_position requested=" +:+ str_int quantity +:+ " available=" +:+
              str_int open_quantity +:+ " symbol=" +:+ symbol)).

(** The body of the [try]: the runtime state is checked before and after the
    checks of the side. *)
Definition safety_gate (calendar : option (Z -> bool)) (g : guard) (now : datetime) (request : KisOrderRequest)
    : res unit :=
  _ ← raise_if (rq_quantity request <=? 0) (blocked "invalid_quantity");
  _ ← raise_if (negb (String.eqb (upper (rq_exchange_id request)) "KRX")) (blocked "exchange_not_krx");
  _ ← check_runtime_state g now 0;
  _ ← raise_if (negb (is_regular_market_open calendar now)) (blocked "market_closed");
  _ ← (match rq_side request with
       | BUY => check_buy
       | SELL => check_sell (rq_symbol request) (rq_quantity request)
       end);
  check_runtime_state g now 7.
End Gate.

Section Guarded.
Context {W : Type} {BW : Broker W}.
Variable calendar : option (Z -> bool).
(** The databases the statements see, from the one with its schema created;
    [view d 10] is the last, and what the broker call finds. *)
Variable view : db -> nat -> db.
(** [str(exc)] *)
Variable exn_text : exn -> string.

(** Every failed check is an [OrderSafetyGateError]. *)
Definition as_gate_error (e : exn) : exn :=
  match e with
  | OrderSafetyGateError _ => e
  | _ => OrderSafetyGateError ("order safety gate check failed: " +:+ exn_name e +:+ ": " +:+ exn_text e)
  end.

Definition guarded_submit (g : guard) (request : KisOrderRequest) : stm (sys W) KisOrderResult := fun s =>
  let '(clock, w) := wall_clock (s_world s) in
  let d := init_schema (s_db s) in
  match safety_gate (view d) calendar g (aware_now clock) request with
  | Err e => (Err (as_gate_error e), mkSys (view d 10%nat) w (s_trace s))
  | Ok _ => call_submit request (mkSys (view d 10%nat) w (s_trace s))
  end.
End Guarded.

(** ** Submitters *)

(** What the pipelines need of a submitter: a call sends the order
    to the broker at most once, and certainly when it returns a result, and
    leaves the database, but for the schema being initialised; [allowed] holds of
    the order when it is sent. *)
Class Submitter (W : Type) := submit_order_by : KisOrderRequest -> stm (sys W) KisOrderResult.

Definition ready (d d' : db) : Prop := d' = d \/ d' = init_schema d.

Class SubmitterLaw (W : Type) {SW : Submitter W} (allowed : KisOrderRequest -> db -> Prop) := submitter_law : forall r (s : sys W),
  let '(x, s') := submit_order_by r s in
  ready (s_db s) (s_db s') /\
  ((s_trace s' = s_trace s /\ is_ok x = false) \/ exists d, ready (s_db s) d /\ allowed r d /\ s_trace s' = s_trace s ++ [(SubmitCall r, d)]).

(** The order client itself, and the guarded submitter when nobody else writes. *)
#[export] Instance client_submitter {W} {BW : Broker W} : Submitter W := call_submit.

Definition guarded_submitter {W} {BW : Broker W} calendar exn_text g : Submitter W :=
  guarded_submit calendar (fun d _ => d) exn_text g.

(** ** What an open gate is *)

(** The runtime state, as four successive statements read it. *)
Record runtime_ok (view : nat -> db) (g : guard) (now : datetime) (k : nat) : Prop := {
  ro_running : rc_paused (get_runtime_control (view k)) = false;
  ro_environment : rc_environment (get_runtime_control (view k)) = environment_value (g_environment g);
  ro_emergency : flag_true "emergency_stop" (view (1 + k)%nat) = false;
  ro_telegram : flag_true "telegram.emergency_stop" (view (2 + k)%nat) = false;
  ro_lease : exists l t, t_service_leases (view (3 + k)%nat) !! g_lease_name g = Some l /\
    sl_owner_id l = g_owner g /\ fromisoformat (sl_expires_at l) = Ok t /\ instant now < instant (aware_now t);
}.

Definition buy_ok (view : nat -> db) : Prop :=
  flag_true "block_new_entries" (view 4%nat) = false /\ flag_true "operator_review" (view 5%nat) = false /\
  forall k o, t_broker_orders (view 6%nat) !! k = Some o -> bo_side o = "BUY" ->
    bo_status o ∉ ["ACKNOWLEDGED"; "PARTIALLY_FILLED"; "CANCEL_PENDING"; "UNKNOWN"].

Record gate_open (view : nat -> db) (calendar : option (Z -> bool)) (g : guard) (now : datetime)
    (request : KisOrderRequest) : Prop := {
  go_quantity : 0 < rq_quantity request;
  go_exchange : upper (rq_exchange_id request) = "KRX";
  go_market : is_regular_market_open calendar now = true;
  go_runtime : runtime_ok view g now 0;
  go_buy : rq_side request = BUY -> buy_ok view;
  go_sell : rq_side request = SELL -> rq_quantity request <= local_quantity (rq_symbol request) (view 4%nat);
  go_recheck : runtime_ok view g now 7;
}.

(** The gate of the guarded submitter, on one database. *)
Definition gate_passed (calendar : option (Z -> bool)) (gd : guard) (r : KisOrderRequest) (d : db) : Prop :=
  exists now, gate_open (fun _ => d) calendar gd now r.

(** ** Lemmas *)

Lemma aware_now_aware t : is_naive (aware_now t) = false.
Proof. unfold aware_now. by destruct t as [u [o|]]. Qed.

Lemma is_ok_bind {A B} (m : res A) (f : A -> res B) :
  is_ok (mbind f m) = true <-> exists a, m = Ok a /\ is_ok (f a) = true.
Proof.
  destruct m as [a|e]; cbn; split; [by exists a|by intros (a' & [= <-] & ?)|done|by intros (a' & ? & _)].
Qed.

Lemma is_ok_raise_if c e : is_ok (raise_if c e) = true <-> c = false.
Proof. by destruct c. Qed.

Lemma lease_belongs_spec row owner now : is_naive now = false ->
  lease_belongs_to_owner row owner now = Ok true <-> exists l t, row = Some l /\ sl_owner_id l = owner /\
    fromisoformat (sl_expires_at l) = Ok t /\ instant now < instant (aware_now t).
Proof.
  intros Hn. unfold lease_belongs_to_owner. destruct row as [l|]; [|split; [done|by intros (? & ? & ? & _)]].
  destruct (String.eqb_spec (sl_owner_id l) owner) as [E|E]; cbn [negb].
  2: { split; [done|]. by intros (l' & t & [= <-] & ? & _). }
  destruct (fromisoformat (sl_expires_at l)) as [t|e] eqn:Et.
  2: { split; [done|]. intros (l' & t & [= <-] & _ & H & _). congruence. }
  unfold dt_ltb. rewrite Hn, aware_now_aware. cbn. split.
  - intros [= H]. exists l, t. split_and!; try done. by apply Z.ltb_lt.
  - intros (l' & t' & [= <-] & _ & H & Hlt). rewrite Et in H. injection H as <-. f_equal. by apply Z.ltb_lt.
Qed.

Lemma lease_belongs_Ok row owner now : is_naive now = false -> exists b, lease_belongs_to_owner row owner now = Ok b.
Proof.
  intros Hn. unfold lease_belongs_to_owner. destruct row as [l|]; [|by eexists].
  destruct (negb _); [by eexists|]. destruct (fromisoformat _) as [t|]; [|by eexists].
  unfold dt_ltb. rewrite Hn, aware_now_aware. by eexists.
Qed.

Lemma runtime_check_spec view g now k : is_naive now = false -> sempty (strip (g_lease_name g)) = false ->
  is_ok (check_runtime_state view g now k) = true <-> runtime_ok view g now k.
Proof.
  intros Hn Hl. unfold check_runtime_state. rewrite !is_ok_bind. setoid_rewrite raise_if_Ok. split.
  - intros ([] & Hp & H). rewrite is_ok_bind in H. destruct H as ([] & He & H). apply raise_if_Ok in He.
    rewrite is_ok_bind in H. destruct H as ([] & Hem & H). apply raise_if_Ok in Hem.
    rewrite is_ok_bind in H. destruct H as (lease & Hlease & H). rewrite is_ok_bind in H.
    destruct H as (valid & Hv & H). apply is_ok_raise_if, negb_false_iff in H. subst valid.
    apply negb_false_iff, String.eqb_eq in He.
    unfold get_service_lease, require_nonempty in Hlease. rewrite Hl in Hlease. cbn in Hlease. injection Hlease as <-.
    apply (lease_belongs_spec _ _ _ Hn) in Hv.
    destruct (flag_true "emergency_stop" _) eqn:E1; [done|]. destruct (flag_true "telegram.emergency_stop" _) eqn:E2; [done|].
    by split.
  - intros [H1 H2 H3 H4 H5]. exists tt. split; [done|]. rewrite is_ok_bind. exists tt. split.
    { apply raise_if_Ok, negb_false_iff, String.eqb_eq. done. }
    rewrite is_ok_bind. exists tt. split; [apply raise_if_Ok; by rewrite H3, H4|].
    rewrite is_ok_bind. exists (t_service_leases (view (3 + k)%nat) !! g_lease_name g). split.
    { unfold get_service_lease, require_nonempty. by rewrite Hl. }
    rewrite is_ok_bind. exists true. split; [|done]. by apply lease_belongs_spec.
Qed.

Lemma unresolved_buy_None d : unresolved_buy d = None <->
  forall k o, t_broker_orders d !! k = Some o -> bo_side o = "BUY" ->
    bo_status o ∉ ["ACKNOWLEDGED"; "PARTIALLY_FILLED"; "CANCEL_PENDING"; "UNKNOWN"].
Proof.
  unfold unresolved_buy. split.
  - intros H k o Ho Hside Hst.
    assert (Hin : In o (List.filter (fun o => String.eqb (bo_side o) "BUY" &&
      mem_str (bo_status o) ["ACKNOWLEDGED"; "PARTIALLY_FILLED"; "CANCEL_PENDING"; "UNKNOWN"])
      (map snd (map_to_list (t_broker_orders d))))).
    { apply filter_In. split; [|apply andb_true_iff; split; [by apply String.eqb_eq|by apply mem_str_true]].
      apply list_elem_of_In, list_elem_of_fmap. exists (k, o). split; [done|]. by apply elem_of_map_to_list. }
    destruct (List.filter _ _); done.
  - intros H. destruct (List.filter _ _) as [|o l] eqn:E; [done|]. exfalso.
    assert (Hin : In o (o :: l)) by (by left). rewrite <- E in Hin. apply filter_In in Hin as [Hin Hc].
    apply andb_true_iff in Hc as [Hs Hm]. apply String.eqb_eq in Hs. apply mem_str_true in Hm.
    apply list_elem_of_In, list_elem_of_fmap in Hin as ([k o'] & Heq & Hin). cbn in Heq. subst o'.
    apply elem_of_map_to_list in Hin. by apply (H k o).
Qed.

Lemma check_buy_spec view : is_ok (check_buy view) = true <-> buy_ok view.
Proof.
  unfold check_buy, buy_ok. rewrite <- unresolved_buy_None, is_ok_bind. setoid_rewrite raise_if_Ok. split.
  - intros ([] & Hf & H). destruct (flag_true "block_new_entries" _); [done|].
    destruct (flag_true "operator_review" _); [done|]. by destruct (unresolved_buy (view 6%nat)).
  - intros (H1 & H2 & H3). exists tt. by rewrite H1, H2, H3.
Qed.

Lemma check_sell_spec view symbol quantity : 0 < quantity ->
  is_ok (check_sell view symbol quantity) = true <-> quantity <= local_quantity symbol (view 4%nat).
Proof.
  intros Hq. unfold check_sell. rewrite is_ok_bind. setoid_rewrite raise_if_Ok. split.
  - intros ([] & H1 & H2). apply is_ok_raise_if in H2. bool_to_prop. lia.
  - intros H. exists tt. rewrite is_ok_raise_if, Z.leb_gt, Z.ltb_ge. lia.
Qed.

Lemma safety_gate_spec view calendar g now request :
  is_naive now = false -> sempty (strip (g_lease_name g)) = false ->
  is_ok (safety_gate view calendar g now request) = true <-> gate_open view calendar g now request.
Proof.
  intros Hn Hl. unfold safety_gate. split.
  - rewrite is_ok_bind. intros ([] & Hq & H). apply raise_if_Ok, Z.leb_gt in Hq.
    rewrite is_ok_bind in H. destruct H as ([] & He & H). apply raise_if_Ok, negb_false_iff, String.eqb_eq in He.
    rewrite is_ok_bind in H. destruct H as ([] & Hr & H). rewrite is_ok_bind in H. destruct H as ([] & Hm & H).
    apply raise_if_Ok, negb_false_iff in Hm. rewrite is_ok_bind in H. destruct H as ([] & Hs & H).
    apply runtime_check_spec in H; [|done..]. assert (Hr' : is_ok (check_runtime_state view g now 0) = true) by (by rewrite Hr).
    apply runtime_check_spec in Hr'; [|done..]. split; try done.
    + intros E. rewrite E in Hs. apply check_buy_spec. by rewrite Hs.
    + intros E. rewrite E in Hs. apply check_sell_spec; [done|]. by rewrite Hs.
  - intros [H1 H2 H3 H4 H5 H6 H7]. rewrite is_ok_bind. exists tt. split; [by apply raise_if_Ok, Z.leb_gt|].
    rewrite is_ok_bind. exists tt. split; [by apply raise_if_Ok, negb_false_iff, String.eqb_eq|].
    apply runtime_check_spec in H4, H7; [|done..]. rewrite is_ok_bind.
    destruct (check_runtime_state view g now 0) as [[]|]; [|done]. exists tt. split; [done|].
    rewrite is_ok_bind. exists tt. split; [by apply raise_if_Ok, negb_false_iff|]. rewrite is_ok_bind.
    assert (Hs : is_ok (match rq_side request with BUY => check_buy view
      | SELL => check_sell view (rq_symbol request) (rq_quantity request) end) = true).
    { destruct (rq_side request); [by apply check_buy_spec, H5|by apply check_sell_spec, H6]. }
    destruct (match rq_side request with BUY => _ | SELL => _ end) as [[]|]; [|done]. by exists tt.
Qed.

Lemma new_guard_lease se dp e so dp' ee oi ln g :
  new_guard se dp e so dp' ee oi ln = Ok g -> sempty (strip (g_lease_name g)) = false.
Proof.
  unfold new_guard. intros H. apply bind_Ok in H as ([] & _ & H). destruct (match dp with Some _ => _ | None => _ end); [|done].
  apply bind_Ok in H as ([] & _ & H). destruct (match e with Some _ => _ | None => _ end); [|done].
  apply bind_Ok in H as (sel & _ & H). apply bind_Ok in H as ([] & _ & H). apply bind_Ok in H as ([] & _ & H).
  destruct (match so with Some _ => _ | None => _ end); [|done].
  apply bind_Ok in H as ([] & _ & H). apply bind_Ok in H as ([] & Hl & H). apply raise_if_Ok in Hl.
  by injection H as <-.
Qed.

Lemma client_law {W} {BW : Broker W} : SubmitterLaw W (fun _ _ => True).
Proof.
  intros r s. unfold submit_order_by, client_submitter, call_submit, broker_write. destruct (submit_at_broker r _) as [x w].
  split; [by left|]. right. exists (s_db s). split; [by left|done].
Qed.

Lemma guarded_law {W} {BW : Broker W} calendar exn_text gd : sempty (strip (g_lease_name gd)) = false ->
  SubmitterLaw W (SW := guarded_submitter calendar exn_text gd) (gate_passed calendar gd).
Proof.
  intros Hl r s. unfold submit_order_by, guarded_submitter, guarded_submit. destruct (wall_clock (s_world s)) as [t w]. cbv zeta.
  pose proof (safety_gate_spec (fun _ => init_schema (s_db s)) calendar gd (aware_now t) r (aware_now_aware t) Hl) as Hg.
  destruct (safety_gate _ _ _ _ _) as [[]|e]; [|by split; [right|left]].
  unfold call_submit, broker_write. cbn [s_world s_db s_trace]. destruct (submit_at_broker r w) as [x w'].
  split; [by right|]. right. exists (init_schema (s_db s)). split; [by right|]. split; [|done]. exists (aware_now t). by apply Hg.
Qed.

(** ** Properties *)

(** C2: the guarded submitter calls the broker exactly when every gate is open,
    and then exactly once, with the request it was given.  The gates are those
    of [gate_open], over whatever databases other processes let its statements
    see: a positive quantity on KRX in an open market, not paused, in the
    expected environment, without an emergency stop and holding the service
    lease, both before and after the checks of the side; for a BUY no block, no
    review and no unresolved BUY; for a SELL at most the local open quantity.
    Otherwise it raises [OrderSafetyGateError] without a call. *)
Theorem guarded_submit_exactly_when_open {W} {BW : Broker W} calendar view exn_text
    se dp e so dp' ee oi ln g request (s : sys W) :
  new_guard se dp e so dp' ee oi ln = Ok g ->
  let now := aware_now (wall_clock (s_world s)).1 in
  let d := init_schema (s_db s) in
  let '(r, s') := guarded_submit calendar view exn_text g request s in
  (gate_open (view d) calendar g now request /\ s_trace s' = s_trace s ++ [(SubmitCall request, view d 10%nat)]) \/
  (~ gate_open (view d) calendar g now request /\ s_trace s' = s_trace s /\
   exists m, r = Err (OrderSafetyGateError m)).
Proof.
  intros Hg. apply new_guard_lease in Hg. cbv zeta. unfold guarded_submit.
  destruct (wall_clock (s_world s)) as [clock w]. cbn [fst].
  pose proof (safety_gate_spec (view (init_schema (s_db s))) calendar g (aware_now clock) request
    (aware_now_aware clock) Hg) as Hspec.
  destruct (safety_gate _ calendar g (aware_now clock) request) as [[]|er].
  - unfold call_submit, broker_write. cbn [s_world s_db s_trace].
    destruct (submit_at_broker request w) as [r w']. left. split; [by apply Hspec|done].
  - right. split; [intros H; by apply Hspec in H|]. split; [done|]. destruct er; by eexists.
Qed.

(** ** Witnesses *)

(** A running service with its lease, and ten shares held. *)
Definition w_guard_db : db :=
  put_lease SERVICE_LEASE_NAME (mkLease "owner-1" (iso w_clock) (iso w_clock)
    (iso (dt_add w_clock (60 * us_per_second)))) w_materialized.

Definition w_guard : guard := mkGuard "db" DEMO "owner-1" SERVICE_LEASE_NAME.
Definition w_request : KisOrderRequest := mkOrderRequest "005930" SELL 10 (f_of_Z 71000) LIMIT "KRX" "" "".

#[local] Instance w_submit_broker : Broker unit := {|
  broker_clock u := (w_clock, u);
  today_orders := mret [];
  account_snapshot := raise (OtherError "unused");
  cancel_at_broker q := raise (OtherError "unused");
  submit_at_broker r := mret (mkOrderResult (rq_symbol r) (rq_side r) (rq_quantity r) (rq_price r) (rq_order_type r)
                                "VTTC0011U" (Some "b2"));
|}.

Definition w_unpaused (d : db) : db :=
  set_control (fun _ => Some (mkRuntimeControl false (iso w_clock) "run" "test" "demo")) d.

Definition w_guarded : res KisOrderResult * sys unit :=
  guarded_submit (Some (fun _ => true)) (fun d _ => d) exn_name w_guard w_request (mkSys (w_unpaused w_guard_db) tt []).

Lemma guarded_submit_exactly_when_open_witness :
  map fst (s_trace w_guarded.2) = [SubmitCall w_request] /\
  gate_open (fun _ => init_schema (w_unpaused w_guard_db)) (Some (fun _ => true)) w_guard (aware_now w_clock) w_request.
Proof.
  assert (Ht : map fst (s_trace w_guarded.2) = [SubmitCall w_request]) by (vm_compute; reflexivity).
  split; [exact Ht|].
  assert (Hg : new_guard (Some "demo") (Some "db") None (Some "owner-1") None None None SERVICE_LEASE_NAME = Ok w_guard)
    by (vm_compute; reflexivity).
  pose proof (guarded_submit_exactly_when_open (Some (fun _ => true)) (fun d _ => d) exn_name _ _ _ _ _ _ _ _
    w_guard w_request (mkSys (w_unpaused w_guard_db) tt []) Hg) as H.
  cbv zeta in H. change (guarded_submit _ _ _ _ _ _) with w_guarded in H.
  destruct w_guarded as [r s']. destruct H as [[H _]|(_ & H & _)]; [exact H|].
  cbn [snd] in Ht. rewrite H in Ht. discriminate.
Defined.
