(* ===== verification/AutoTrade.v ===== *)
(** * The automatic trading cycle ([pipeline/auto_trade.py])

    One pass over the symbols: an open position is managed (and closed by a SELL
    order when it is due), otherwise an entry may be made from a completed bar,
    after the deterministic candidates, the AI decision, the price and risk
    checks and, for a high-risk decision, the operator's approval.  Every order
    goes through the local ledger: claimed, marked as submitting, and only then
    sent.  What the cycle is given from outside (the model client, the price and
    budget checks, the notifier) acts on the world [W] only; the submitter is an
    interface with a law ([SubmitterLaw]), which the bare client and the guarded
    submitter satisfy. *)

From S2P Require Import Prelude PyStr PyFloat PyTime PyDecimal PyFormat PyDict PyJson Risk DbCore DbOrders DbRuntime DbApprovals DbMarket DbPaper.
From S2P Require Import DbLedger DbFrames MarketRules ExitPolicy Indicators AiBudget KisHttp AiDecision KisOrder KisOrderStatus KisAccount.
From S2P Require Import System SystemFrames Reconciliation GuardedSubmitter.

Record AutoTradeConfig := mkAutoConfig {
  ac_risk : RiskConfig;
  ac_max_quantity : Z;
  ac_min_confidence : float;
  ac_candidate_profile : string;
  ac_max_entry_deviation_pct : float;
  ac_require_confirmation : bool;
  ac_enforce_market_hours : bool;
  ac_max_tick_age_seconds : Z;
  ac_max_bar_age_seconds : Z;
  ac_cycle_deadline_seconds : option float;
  ac_max_ai_response_age_seconds : option float;
  ac_max_exit_requotes : Z;
}.

Definition default_auto_config : AutoTradeConfig :=
  mkAutoConfig default_risk_config 1 (f_ratio 75 100) "normal" f_one true true 10 90 (Some (f_of_Z 30)) None 3.

Definition validate_config (c : AutoTradeConfig) : res unit :=
  _ ← raise_if (ac_max_quantity c <=? 0) (ValueError "max_quantity must be positive");
  _ ← raise_if ((ac_max_tick_age_seconds c <=? 0) || (ac_max_bar_age_seconds c <=? 0))
        (ValueError "freshness limits must be positive");
  _ ← raise_if (match ac_cycle_deadline_seconds c with Some x => (x <=? fzero)%F | None => false end)
        (ValueError "cycle_deadline_seconds must be positive");
  _ ← raise_if (match ac_max_ai_response_age_seconds c with Some x => (x <=? fzero)%F | None => false end)
        (ValueError "max_ai_response_age_seconds must be positive");
  _ ← raise_if (ac_max_entry_deviation_pct c <? fzero)%F (ValueError "max_entry_deviation_pct must not be negative");
  raise_if (ac_max_exit_requotes c <? 0) (ValueError "max_exit_requotes must not be negative").

Record AutoTradeSymbolResult := mkSymbolResult {
  sr_symbol : string;
  sr_action : string;
  sr_submitted : bool;
  sr_blocked : bool;
  sr_reason : string;
  sr_quantity : Z;
  sr_broker_order_id : option string;
}.

(** [_blocked] *)
Definition symbol_blocked (symbol reason : string) : AutoTradeSymbolResult :=
  mkSymbolResult symbol "BLOCKED" false true reason 0 None.

Record AutoTradeCycleReport := mkCycleReport {
  cr_results : list AutoTradeSymbolResult;
  cr_ai_call_count : Z;
}.

Definition submitted_count (r : AutoTradeCycleReport) : Z := len (List.filter sr_submitted (cr_results r)).

(** ** Clock, freshness and identifiers *)

Definition deadline_reached (now : datetime) (deadline : option datetime) : bool :=
  match deadline with Some d => dt_us (as_kst d) <=? dt_us (as_kst now) | None => false end.

(** [(a - b).total_seconds()] of KST readings *)
Definition seconds_between (a b : datetime) : float := f_ratio (dt_us (as_kst a) - dt_us (as_kst b)) 1000000.

Definition freshness_of (tick : option MarketTick) (bar : option MinuteBar) (now : datetime) (c : AutoTradeConfig) : option string :=
  match tick with
  | None => Some "stale_tick"
  | Some tick =>
      match bar with
      | None => Some "stale_bar"
      | Some bar =>
          let tick_age := seconds_between now (tk_timestamp tick) in
          let bar_start := as_kst (mb_start bar) in
          let bar_age := seconds_between now (dt_add bar_start us_per_minute) in
          if (tick_age <? fzero)%F || (f_of_Z (ac_max_tick_age_seconds c) <? tick_age)%F then Some "stale_tick"
          else if (dt_us (as_kst now) <? dt_us bar_start) || (f_of_Z (ac_max_bar_age_seconds c) <? bar_age)%F then Some "stale_bar"
          else None
      end
  end.

(** [_freshness_reason] *)
Definition freshness_reason (symbol : string) (now : datetime) (c : AutoTradeConfig) (d : db) : res (option string) :=
  tick ← latest_tick symbol d;
  bar ← latest_bar symbol d;
  Ok (freshness_of tick bar now c).

(** [_emergency_stop] *)
Definition emergency_stop (d : db) : bool := flag_true "emergency_stop" d.

Definition entry_signal_id (symbol : string) (bar_start : datetime) : string :=
  "entry:" +:+ symbol +:+ ":" +:+ isoformat_minutes (as_kst bar_start).

Definition approval_request_id (symbol : string) (bar_start : datetime) : string :=
  "approval:" +:+ symbol +:+ ":" +:+ minute_stamp (as_kst bar_start).

(** [_exit_signal_id]: the ten seconds of [now]. *)
Definition exit_signal_id (p : live_position) (reason : string) (now : datetime) : string :=
  let current := as_kst now in
  let ten := 10 * us_per_second in
  "exit:" +:+ lp_position_id p +:+ ":" +:+ reason +:+ ":" +:+ isoformat (Datetime (dt_us current - dt_us current mod ten) (dt_tz current)).

Definition all_orders (d : db) : list broker_order := map snd (map_to_list (t_broker_orders d)).

Definition exit_attempt_count (p : live_position) (d : db) : Z :=
  len (List.filter (fun o => String.eqb (bo_side o) "SELL" && bool_decide (bo_signal_id o = Some (lp_signal_id p))
    && String.eqb (bo_symbol o) (lp_symbol p)) (all_orders d)).

Definition UNRESOLVED : list string :=
  ["INTENT"; "SUBMITTING"; "ACKNOWLEDGED"; "PARTIALLY_FILLED"; "CANCEL_PENDING"; "UNKNOWN"].
Definition has_unresolved_order (symbol side : string) (d : db) : bool :=
  existsb (fun o => String.eqb (bo_symbol o) symbol && String.eqb (bo_side o) side && mem_str (bo_status o) UNRESOLVED)
    (all_orders d).

(** [_candidate_strategies] *)
Definition candidate_strategies (l : list CandidateSignal) : list string :=
  List.filter (fun s => negb (sempty s)) (map (fun c => strip (cs_strategy c)) l).

(** The bars of the latest day that follow each other minute by minute: [rev_bars]
    is the rest, latest first. *)
Fixpoint contiguous_from (day expected : Z) (rev_bars : list MinuteBar) : list MinuteBar :=
  match rev_bars with
  | [] => []
  | b :: l =>
      let start := as_kst (mb_start b) in
      if negb (dt_days start =? day) || negb (dt_us start =? expected) then []
      else contiguous_from day (expected - us_per_minute) l ++ [b]
  end.

Definition latest_contiguous_session_bars (bars : list MinuteBar) : list MinuteBar :=
  match rev bars with
  | [] => []
  | latest :: l =>
      let start := as_kst (mb_start latest) in
      contiguous_from (dt_days start) (dt_us start - us_per_minute) l ++ [latest]
  end.

(** ** Prices *)

(** [float(value)] of what a price check returns *)
Definition py_float (v : pynum) : res float :=
  match v with
  | PNone => Err (TypeError "float() argument must be a string or a real number, not 'NoneType'")
  | PBool b => Ok (if b then f_one else fzero)
  | PInt z => float_of_int z
  | PFloat x => Ok x
  | PDec DNaN => Ok SpecFloat.S754_nan
  | PDec (DInf s) => Ok (SpecFloat.S754_infinity s)
  | PDec (DFin x) => Ok (float_of_dec x)
  | PStr s => float_of_text s
  end.

(** [abs(a - b) / b * 100] of a positive [b] *)
Definition deviation_pct (a b : float) : float := (fquot (fabs (a - b)) b * f_of_Z 100)%F.

Definition positive_finite (x : float) : bool := isfinite x && negb (x <=? fzero)%F.

(** [_post_ai_live_price_guard_reason], given the answer of the checker *)
Definition live_price_guard (answer : option (res pynum)) (snapshot_price entry : float) (max_deviation : float) : option string :=
  match answer with
  | None => None
  | Some (Err _) => Some "post_ai_price_check_failed"
  | Some (Ok (PBool _)) => Some "post_ai_price_invalid"
  | Some (Ok v) =>
      match py_float v with
      | Err _ => Some "post_ai_price_invalid"
      | Ok fresh =>
          if negb (positive_finite fresh) then Some "post_ai_price_invalid"
          else if negb (positive_finite snapshot_price && positive_finite entry) then Some "market_snapshot_invalid"
          else if (max_deviation <? deviation_pct fresh snapshot_price)%F then Some "post_ai_price_deviation_too_large"
          else if (max_deviation <? deviation_pct entry fresh)%F then Some "entry_deviation_from_live_too_large"
          else None
      end
  end.

(** [_ai_response_guard_reason], given the two readings after the response *)
Definition response_guard (freshness : option string) (pre post : option MarketTick) (response_now : datetime)
    (generated_at : datetime) (c : AutoTradeConfig) : res (option string) :=
  match freshness with
  | Some r => Ok (Some (r +:+ "_after_ai"))
  | None =>
      match post, pre with
      | None, _ => Ok (Some "stale_tick_after_ai")
      | Some post, Some pre =>
          if (tk_price pre <=? fzero)%F then Ok (Some "price_snapshot_invalid")
          else
            drift ← fdiv (fabs (tk_price post - tk_price pre)%F) (tk_price pre);
            if (ac_max_entry_deviation_pct c <? drift * f_of_Z 100)%F then Ok (Some "price_moved_during_ai")
            else
              let age := seconds_between response_now generated_at in
              if (age <? fzero)%F then Ok (Some "ai_response_from_future")
              else if match ac_max_ai_response_age_seconds c with Some m => (m <? age)%F | None => false end
              then Ok (Some "ai_response_too_old")
              else Ok None
      | _, None => Err no_attribute
      end
  end.

(** ** One order through the ledger *)

Record submission_result := mkSubmission {
  sb_submitted : bool;
  sb_reason : string;
  sb_broker_order_id : option string;
}.

(** What a submission is asked to do. *)
Record submission := mkSubmissionArgs {
  sm_request : KisOrderRequest;
  sm_signal_id : string;
  sm_idempotency_key : option string;
  sm_reason : string;
  sm_created_at : datetime;
}.

Definition text_else (x : option string) (y : string) : string :=
  match x with Some s => if sempty s then y else s | None => y end.

Definition client_id_of (a : submission) : string :=
  "ai:" +:+ lower (side_name (rq_side (sm_request a))) +:+ ":" +:+ text_else (sm_idempotency_key a) (sm_signal_id a).

Section Ledger.
Context {W : Type} {CW : Clock W} {SW : Submitter W}.
(** [str(exc)] *)
Variable exn_text : exn -> string.

(** [_record_execution_audit] *)
Definition record_execution_audit (a : submission) (status : string) (broker_order_id : option string)
    : stm (sys W) unit :=
  let r := sm_request a in
  let id := client_id_of a in
  _ ← on_db (record_broker_order_audit (mkOrderAudit ("broker-audit:" +:+ id +:+ ":" +:+ status) (Some (sm_signal_id a))
        (rq_symbol r) (side_name (rq_side r)) (rq_quantity r) (rq_price r) status (sm_reason a) broker_order_id "")
        (Some (sm_created_at a)));
  mret tt.

(** The end of a submission without an order number. *)
Definition order_unknown (a : submission) (error : string) : stm (sys W) submission_result :=
  _ ← on_db (mark_order_unknown (client_id_of a) (Some error) (Some (sm_created_at a)));
  _ ← record_execution_audit a "UNKNOWN" None;
  mret (mkSubmission false "order_unknown" None).

(** The claim and the mark that precede a call. *)
Definition claim_and_mark (a : submission) : stm (sys W) bool :=
  let r := sm_request a in
  claimed ← on_db (claim_order_intent (client_id_of a) (Some (sm_signal_id a)) (rq_symbol r) (side_name (rq_side r))
                     (rq_quantity r) (rq_price r) (Some (sm_created_at a)));
  if claimed : bool then
    _ ← on_db (mark_order_submitting (client_id_of a) (Some (sm_created_at a)));
    mret true
  else mret false.

(** The answer of the broker is recorded. *)
Definition record_answer (a : submission) (answer : res KisOrderResult) : stm (sys W) submission_result :=
  match answer with
  | Err e => order_unknown a (take_points 500 (exn_name e +:+ ": " +:+ exn_text e))
  | Ok broker =>
      match or_broker_order_id broker with
      | None | Some "" => order_unknown a "missing broker_order_id"
      | Some number =>
          _ ← on_db (record_order_submission (client_id_of a) number (Some (sm_created_at a)));
          _ ← record_execution_audit a "ACKNOWLEDGED" (Some number);
          mret (mkSubmission true (sm_reason a) (Some number))
      end
  end.

(** [_submit_with_ledger] *)
Definition submit_with_ledger (a : submission) : stm (sys W) submission_result :=
  claimed ← claim_and_mark a;
  if claimed : bool then
    answer ← attempt (submit_order_by (sm_request a));
    record_answer a answer
  else mret (mkSubmission false "order_already_claimed" None).
End Ledger.

(** ** What the cycle is given *)

Record ai_client (W : Type) := mkAiClient {
  ai_network : bool;                                        (* [_is_network_decision_client] *)
  ai_decide : AIDecisionContext -> stm W TradingAIDecision;
}.
Arguments mkAiClient {W} _ _.
Arguments ai_network {W} _.
Arguments ai_decide {W} _.

Record notifier (W : Type) := mkNotifier {
  nt_send : string -> stm W unit;
  nt_send_approval : option (string -> string -> stm W unit);
}.
Arguments mkNotifier {W} _ _.
Arguments nt_send {W} _.
Arguments nt_send_approval {W} _.

(** The optional arguments of the cycle *)
Record given (W : Type) := mkGiven {
  gv_notifier : option (notifier W);
  gv_portfolio : option PortfolioState;
  gv_entry_budget : option (string -> float -> Z -> stm W bool);
  gv_post_ai_price : option (string -> stm W pynum);
  gv_exit_price : option (string -> stm W pynum);
}.
Arguments mkGiven {W} _ _ _ _ _.
Arguments gv_notifier {W} _.
Arguments gv_portfolio {W} _.
Arguments gv_entry_budget {W} _.
Arguments gv_post_ai_price {W} _.
Arguments gv_exit_price {W} _.

Section Cycle.
Context {W : Type} {CW : Clock W} {SW : Submitter W}.
Variable calendar : option (Z -> bool).
(** The sums of Python and of SQLite, and the row of a group (see [DbPaper]). *)
Variables float_sum sum_real : list float -> float.
Variable group_row : paper_fill -> list paper_fill -> paper_fill.
Variable exn_text : exn -> string.
Variable g : given W.
Variable c : AutoTradeConfig.

(** [_notify] and [_notify_approval]: a failure is not reported. *)
Definition notify (text : string) : stm (sys W) unit :=
  match gv_notifier g with
  | Some n => _ ← attempt (on_world (nt_send n text)); mret tt
  | None => mret tt
  end.
Definition notify_approval (request_id text : string) : stm (sys W) unit :=
  match gv_notifier g with
  | Some n =>
      _ ← attempt (on_world (match nt_send_approval n with Some f => f request_id text | None => nt_send n text end));
      mret tt
  | None => mret tt
  end.

(** [_entry_budget_ok] *)
Definition entry_budget_ok (symbol : string) (price : float) (quantity : Z) : stm (sys W) bool :=
  match gv_entry_budget g with
  | None => mret true
  | Some check =>
      r ← attempt (on_world (check symbol price quantity));
      mret (match r : res bool with Ok b => b | Err _ => false end)
  end.

(** The live price after the decision, as the guard reads it. *)
Definition live_price (checker : option (string -> stm W pynum)) (symbol : string) : stm (sys W) (option (res pynum)) :=
  match checker with
  | None => mret None
  | Some check => r ← attempt (on_world (check symbol)); mret (Some r)
  end.

(** [portfolio if portfolio is not None else PortfolioState(open_positions=...)] *)
Definition portfolio_of (d : db) : PortfolioState :=
  match gv_portfolio g with
  | Some p => p
  | None => mkPortfolioState fzero (paper_positions sum_real group_row d) fzero 0 0 ∅
  end.

Definition order_intent (symbol signal_id : string) (confidence entry_price stop_loss : float) : OrderIntent :=
  mkOrderIntent symbol "AI_INTRADAY" signal_id entry_price stop_loss (Some confidence).

(** [_risk_quantity] *)
Definition risk_quantity (symbol signal_id : string) (confidence entry_price stop_loss : float) (d : db) : res (option Z) :=
  decision ← evaluate_order_intent (ac_risk c) (portfolio_of d) (order_intent symbol signal_id confidence entry_price stop_loss);
  Ok (if approved decision then
        let quantity := Z.min (ac_max_quantity c) (rd_quantity decision) in
        if 0 <? quantity then Some quantity else None
      else None).

(** A query that may raise. *)
Definition query_res {A} (f : db -> res A) : stm (sys W) A :=
  r ← query f;
  lift_res r.

Definition limit_order (symbol side : string) (quantity : Z) (price : float) : res KisOrderRequest :=
  order_request symbol side quantity price "limit" "KRX" "" "".

(** The result of an entry or exit. *)
Definition order_result (symbol side : string) (quantity : Z) (r : submission_result) : AutoTradeSymbolResult :=
  mkSymbolResult symbol side (sb_submitted r) (negb (sb_submitted r)) (sb_reason r) quantity (sb_broker_order_id r).

(** ** Exits *)

(** The reason to close the position, in the order of the source. *)
Definition exit_reason (p : live_position) (opened_at now : datetime) (price : float) : option string :=
  if is_forced_exit_window calendar now then Some "session_close"
  else if is_previous_trading_day_position opened_at now then Some "stale_previous_day_position"
  else if (price <=? lp_stop_loss_price p)%F then Some "stop_loss"
  else if (lp_take_profit_price p <=? price)%F then Some "take_profit"
  else match lp_max_holding_seconds p with
       | Some limit => if (f_of_Z limit <=? seconds_between now opened_at)%F then Some "time_stop" else None
       | None => None
       end.

(** The price an exit is planned from: the live one when there is a checker. *)
Definition exit_price (symbol : string) (price : float) : stm (sys W) (float + string) :=
  match gv_exit_price g with
  | None => mret (inl price)
  | Some check =>
      r ← attempt (on_world (check symbol));
      mret (match (match r : res pynum with Ok v => py_float v | Err e => Err e end) with
            | Err _ => inr "exit_price_check_failed"
            | Ok x => if positive_finite x then inl x else inr "exit_price_invalid"
            end)
  end.

(** [ExitPolicy().plan_sell_limit(...)]; only ExitPolicyError is caught. *)
Definition planned_exit (price : float) : res (option Z) :=
  match plan_sell_limit (mkExitPolicy default_exit_config default_tick_size) (mkExitQuote (Some (PFloat price)) None (Some (PFloat price))) None with
  | Ok p => Ok (Some (sp_price p))
  | Err (ExitPolicyError _) => Ok None
  | Err e => Err e
  end.

(** The SELL of the whole position. *)
Definition sell_position (symbol : string) (p : live_position) (reason : string) (price : Z) (now : datetime)
    : stm (sys W) AutoTradeSymbolResult :=
  price ← lift_res (float_of_int price);
  request ← lift_res (limit_order symbol "sell" (lp_quantity p) price);
  result ← submit_with_ledger exn_text (mkSubmissionArgs request (lp_signal_id p) (Some (exit_signal_id p reason now)) reason now);
  _ ← (match sb_broker_order_id result with
       | Some _ => notify ("SELL acknowledged " +:+ symbol +:+ " qty=" +:+ str_int (lp_quantity p) +:+ " reason=" +:+ reason)
       | None => mret tt
       end);
  mret (order_result symbol "SELL" (lp_quantity p) result).

(** [_maybe_exit_position] for the open position [p] that is due *)
Definition exit_due (symbol : string) (p : live_position) (reason : string) (price : float) (now : datetime)
    : stm (sys W) AutoTradeSymbolResult :=
  unresolved ← query (has_unresolved_order symbol "SELL");
  if unresolved : bool then mret (symbol_blocked symbol "exit_order_pending")
  else
    attempts ← query (exit_attempt_count p);
    if ac_max_exit_requotes c <? attempts then
      _ ← set_metadata_now "operator_review" "true" (Some now);
      _ ← set_metadata_now "block_new_entries" "true" (Some now);
      _ ← notify ("SELL requires operator review " +:+ symbol +:+ ": max requotes reached");
      mret (symbol_blocked symbol "max_exit_requotes_reached")
    else
      price ← exit_price symbol price;
      match price : float + string with
      | inr reason => mret (symbol_blocked symbol reason)
      | inl price =>
          plan ← lift_res (planned_exit price);
          match plan : option Z with
          | None => mret (symbol_blocked symbol "exit_price_policy_blocked")
          | Some limit => sell_position symbol p reason limit now
          end
      end.

(** [_maybe_exit_position]: [None] without an open position *)
Definition maybe_exit_position (symbol : string) (now : datetime) : stm (sys W) (option AutoTradeSymbolResult) :=
  positions ← query (list_open_live_positions (Some symbol));
  match positions : list live_position with
  | [] => mret None
  | p :: _ =>
      tick ← query_res (latest_tick symbol);
      bar ← query_res (latest_bar symbol);
      match (match tick : option MarketTick with
             | Some t => Some (tk_price t)
             | None => mb_close <$> (bar : option MinuteBar)
             end) with
      | None => mret (Some (symbol_blocked symbol "missing_price_for_exit"))
      | Some price =>
          opened_at ← lift_res (fromisoformat (lp_opened_at p));
          match exit_reason p (as_kst opened_at) now price with
          | None => mret (Some (symbol_blocked symbol "position_hold"))
          | Some reason => r ← exit_due symbol p reason price now; mret (Some r)
          end
      end
  end.

(** ** The approved entry *)

(** [float == int], exactly *)
Definition equals_int (x : float) (n : Z) : bool := feqb x (f_of_Z n) && (f_trunc x =? n).

(** The stored terms of an approval: entry, stop, take and quantity. *)
Definition approval_terms (a : approval_request) : option (float * float * float * Z) :=
  entry ← ar_entry_price a;
  stop ← ar_stop_loss_price a;
  take_profit ← ar_take_profit_price a;
  quantity ← ar_quantity a;
  Some (entry, stop, take_profit, quantity).

(** Whether the stored terms are those of the audited decision, on the ladder. *)
Definition same_terms (entry stop take_profit : float) (e s t : float) : res bool :=
  e ← normalize_krx_limit_price (PFloat e) "buy";
  s ← normalize_krx_limit_price (PFloat s) "buy";
  t ← normalize_krx_limit_price (PFloat t) "sell";
  Ok (equals_int entry e && equals_int stop s && equals_int take_profit t).

(** [validate_risk_reward], as the [try] reads it *)
Definition risk_reward_ok (entry take_profit stop : pynum) : res bool :=
  is_valid_risk_reward entry take_profit stop default_minimum_ratio default_minimum_stop_distance.

(** [abs(entry - close) / close * 100 > limit] *)
Definition entry_too_far (entry close : float) : res bool :=
  q ← fdiv (fabs (entry - close)%F) close;
  Ok (ac_max_entry_deviation_pct c <? q * f_of_Z 100)%F.

(** The decision audit that an approval names. *)
Definition approved_audit (symbol : string) (a : approval_request) (d : db) : res (option ai_decision) :=
  audit ← get_ai_decision_audit (text_else (ar_decision_id a) "") d;
  Ok (match audit with
      | Some x => if String.eqb (ad_symbol x) symbol && String.eqb (ad_action x) "BUY" then Some x else None
      | None => None
      end).

(** Why the approved terms cannot be used any more, [None] when they can; the
    price check is made in between. *)
Definition approved_entry_problem (symbol signal_id : string) (a : approval_request) (close : float)
    : stm (sys W) (string + (float * Z * string)) :=
  if negb (String.eqb (ar_symbol a) symbol) || negb (String.eqb (text_else (ar_signal_id a) "") signal_id)
  then mret (inl "approval_signal_mismatch")
  else
    audit ← query_res (approved_audit symbol a);
    match audit : option ai_decision with
    | None => mret (inl "approval_audit_unavailable")
    | Some audit =>
        match approval_terms a, ad_entry_price audit, ad_stop_loss_price audit, ad_take_profit_price audit with
        | Some (entry, stop, take_profit, quantity), Some e, Some s, Some t =>
            same ← lift_res (same_terms entry stop take_profit e s t);
            if negb same then mret (inl "approval_terms_changed")
            else
              live ← live_price (gv_post_ai_price g) symbol;
              match live_price_guard live close entry (ac_max_entry_deviation_pct c) with
              | Some r => mret (inl r)
              | None =>
                  sound ← lift_res (risk_reward_ok (PFloat entry) (PFloat take_profit) (PFloat stop));
                  if negb sound then mret (inl "invalid_risk_reward")
                  else
                    far ← lift_res (entry_too_far entry close);
                    if far : bool then mret (inl "entry_deviation_too_large")
                    else
                      expected ← query_res (risk_quantity symbol signal_id (ad_confidence audit) entry stop);
                      if negb (bool_decide ((expected : option Z) = Some quantity)) then mret (inl "approval_quantity_changed")
                      else
                        ok ← entry_budget_ok symbol entry quantity;
                        if negb ok then mret (inl "entry_budget_unavailable_or_insufficient")
                        else mret (inr (entry, quantity, text_else (ar_decision_id a) ""))
              end
        | _, _, _, _ => mret (inl "approval_terms_unavailable")
        end
    end.

Definition finish_request (request_id : string) (success : bool) (now : datetime) : stm (sys W) bool :=
  on_db (finish_approval_request request_id success (Some now)).

(** [_execute_approved_entry] *)
Definition execute_approved_entry (symbol signal_id : string) (a : approval_request) (close : float) (now : datetime)
    : stm (sys W) AutoTradeSymbolResult :=
  let request_id := ar_request_id a in
  problem ← approved_entry_problem symbol signal_id a close;
  match problem : string + (float * Z * string) with
  | inl reason =>
      _ ← finish_request request_id false now;
      mret (symbol_blocked symbol reason)
  | inr (entry, quantity, decision_id) =>
      consumed ← on_db (consume_approval_request request_id (Some now));
      if negb consumed then mret (symbol_blocked symbol "approval_not_available")
      else
        request ← lift_res (limit_order symbol "buy" quantity entry);
        result ← submit_with_ledger exn_text (mkSubmissionArgs request decision_id (Some signal_id) "approved_ai" now);
        _ ← finish_request request_id (sb_submitted result) now;
        _ ← (match sb_broker_order_id result with
             | Some _ => notify ("BUY acknowledged " +:+ symbol +:+ " qty=" +:+ str_int quantity +:+ " entry=" +:+ format_g entry)
             | None => mret tt
             end);
        mret (order_result symbol "BUY" quantity result)
  end.

(** ** The entry from a decision *)

(** [_record_decision] *)
Definition record_decision (d : TradingAIDecision) (now : datetime) : stm (sys W) bool :=
  on_db (record_ai_decision (td_decision_id d) (td_symbol d) (action_value (td_action d)) (td_confidence d) (td_entry_price d)
    (td_take_profit_price d) (td_stop_loss_price d) (risk_value (td_risk_level d)) (td_requires_operator_approval d)
    (td_rationale d) (td_max_holding_seconds d) (td_strategy d) (td_model d) (td_prompt_version d) (Some now)).

Definition response_guard_reason (symbol : string) (pre : MarketTick) (response_now : datetime) (decision : TradingAIDecision)
    (d : db) : res (option string) :=
  freshness ← freshness_reason symbol response_now c d;
  post ← latest_tick symbol d;
  response_guard freshness (Some pre) post response_now (td_generated_at decision) c.

(** Whether the decision is a BUY of a candidate for the symbol. *)
Definition decision_problem (symbol : string) (network : bool) (candidates : list CandidateSignal) (d : TradingAIDecision)
    : option string :=
  if negb (String.eqb (td_symbol d) symbol) then Some "ai_symbol_mismatch"
  else if negb (bool_decide (td_action d = ActBuy)) then Some ("ai_" +:+ lower (action_value (td_action d)))
  else match td_strategy d with
       | None => if network then Some "ai_strategy_required" else None
       | Some s => if mem_str s (candidate_strategies candidates) then None else Some "ai_strategy_not_in_candidates"
       end.

(** [assert ... is not None] *)
Definition asserted {A} (x : option A) : res A := match x with Some v => Ok v | None => Err AssertionError end.

(** The distance of the entry from the snapshot, read in a [try]. *)
Definition snapshot_problem (entry close : float) : option string :=
  match fdiv (fabs (entry - close)%F) close with
  | Err _ => Some "market_snapshot_invalid"
  | Ok q => let deviation := (q * f_of_Z 100)%F in
            if negb (isfinite deviation) || (ac_max_entry_deviation_pct c <? deviation)%F
            then Some "entry_deviation_too_large" else None
  end.

(** The plan of an entry: whole prices on the ladder. *)
Record entry_plan := mkEntryPlan { ep_entry : Z; ep_stop : Z; ep_take : Z }.

(** The request for the operator's approval *)
Definition request_approval (symbol signal_id request_id : string) (d : TradingAIDecision) (p : entry_plan) (now : datetime)
    : stm (sys W) AutoTradeSymbolResult :=
  entry ← lift_res (float_of_int (ep_entry p));
  stop ← lift_res (float_of_int (ep_stop p));
  take_profit ← lift_res (float_of_int (ep_take p));
  quantity ← query_res (risk_quantity symbol signal_id (td_confidence d) entry stop);
  match quantity : option Z with
  | None => mret (symbol_blocked symbol "risk_gate_rejected")
  | Some quantity =>
      created ← on_db (record_approval_request (mkApprovalArgs request_id symbol (Some (td_decision_id d)) "high_risk_ai_decision"
                         "PENDING" (Some signal_id) (Some quantity) (Some entry) (Some take_profit) (Some stop)
                         (td_max_holding_seconds d) None (Some now)));
      _ ← (if created : bool then
             raw_entry ← lift_res (asserted (td_entry_price d));
             raw_stop ← lift_res (asserted (td_stop_loss_price d));
             raw_take ← lift_res (asserted (td_take_profit_price d));
             notify_approval request_id
               ("Approval required " +:+ symbol +:+ ": request=" +:+ request_id +:+ " entry=" +:+ format_g raw_entry +:+
                " stop=" +:+ format_g raw_stop +:+ " take=" +:+ format_g raw_take +:+
                " confidence=" +:+ format_2f (td_confidence d) +:+ " risk=" +:+ risk_value (td_risk_level d))
           else mret tt);
      mret (symbol_blocked symbol "operator_approval_required")
  end.

Variable clock : option (W -> datetime * W).
Variable current_time : option datetime.
Variable client : ai_client W.

(** [now_provider] and [_clock_now] *)
Definition now_provider (w : W) : datetime * W :=
  match clock with
  | Some f => f w
  | None =>
      match current_time with
      | Some t => (t, w)
      | None => let '(t, w) := wall_clock w in (with_tz (astimezone t KST) None, w)
      end
  end.
Definition clock_now : stm (sys W) datetime := fun s =>
  let '(t, w) := now_provider (s_world s) in (Ok (as_kst t), mkSys (s_db s) w (s_trace s)).

(** The BUY of a decision that needs no approval *)
Definition buy_entry (symbol signal_id : string) (d : TradingAIDecision) (p : entry_plan) (now : datetime) (deadline : option datetime)
    : stm (sys W) AutoTradeSymbolResult :=
  entry ← lift_res (float_of_int (ep_entry p));
  stop ← lift_res (float_of_int (ep_stop p));
  decision ← query_res (fun b => evaluate_order_intent (ac_risk c) (portfolio_of b)
                                   (order_intent symbol signal_id (td_confidence d) entry stop));
  if negb (approved decision) then mret (symbol_blocked symbol (rd_reason decision))
  else
    let quantity := Z.min (ac_max_quantity c) (rd_quantity decision) in
    if quantity <=? 0 then mret (symbol_blocked symbol "quantity_zero")
    else
      ok ← entry_budget_ok symbol entry quantity;
      if negb ok then mret (symbol_blocked symbol "entry_budget_unavailable_or_insufficient")
      else
        late ← clock_now;
        if deadline_reached late deadline then mret (symbol_blocked symbol "cycle_deadline_exceeded")
        else
          request ← lift_res (limit_order symbol "buy" quantity entry);
          result ← submit_with_ledger exn_text (mkSubmissionArgs request (td_decision_id d) (Some signal_id) "ai_approved" now);
          _ ← (match sb_broker_order_id result with
               | Some _ => notify ("BUY acknowledged " +:+ symbol +:+ " qty=" +:+ str_int quantity +:+ " entry=" +:+ format_g entry)
               | None => mret tt
               end);
          mret (order_result symbol "BUY" quantity result).

(** A BUY decision for a candidate: its prices, then the approval or the order. *)
Definition act_on_decision (symbol signal_id request_id : string) (d : TradingAIDecision) (close : float) (now : datetime)
    (deadline : option datetime) : stm (sys W) AutoTradeSymbolResult :=
  raw_entry ← lift_res (asserted (td_entry_price d));
  raw_stop ← lift_res (asserted (td_stop_loss_price d));
  raw_take ← lift_res (asserted (td_take_profit_price d));
  n ← lift_res (normalize_krx_limit_price (PFloat raw_entry) "buy");
  entry ← lift_res (float_of_int n);
  live ← live_price (gv_post_ai_price g) symbol;
  match live_price_guard live close entry (ac_max_entry_deviation_pct c) with
  | Some r => mret (symbol_blocked symbol r)
  | None =>
      match snapshot_problem entry close with
      | Some r => mret (symbol_blocked symbol r)
      | None =>
          if (td_confidence d <? ac_min_confidence c)%F then mret (symbol_blocked symbol "confidence_below_minimum")
          else
            stop ← lift_res (normalize_krx_limit_price (PFloat raw_stop) "buy");
            take_profit ← lift_res (normalize_krx_limit_price (PFloat raw_take) "sell");
            sound ← lift_res (risk_reward_ok (PInt n) (PInt take_profit) (PInt stop));
            if negb sound then mret (symbol_blocked symbol "invalid_risk_reward")
            else
              let p := mkEntryPlan n stop take_profit in
              if high_risk d then request_approval symbol signal_id request_id d p now
              else buy_entry symbol signal_id d p now deadline
      end
  end.

(** What a pass over one symbol threads besides the system: the calls of the model. *)
Record cycle := mkCycle { cy_sys : sys W; cy_ai_calls : Z }.

Definition in_cycle {A} (m : stm (sys W) A) : stm cycle A := fun s =>
  let '(r, s') := m (cy_sys s) in (r, mkCycle s' (cy_ai_calls s)).
Definition count_ai_call : stm cycle unit := fun s => (Ok tt, mkCycle (cy_sys s) (cy_ai_calls s + 1)).

(** The snapshot and tick that the model is asked about, [inr] when it is not. *)
Definition before_ai (symbol : string) (candidates : list CandidateSignal) (deadline : option datetime)
    : stm (sys W) (string + MarketTick) :=
  if match candidates with [] => ai_network client | _ => false end then mret (inl "no_deterministic_candidate")
  else
    now ← clock_now;
    if deadline_reached now deadline then mret (inl "cycle_deadline_exceeded")
    else
      freshness ← query_res (freshness_reason symbol now c);
      match freshness : option string with
      | Some r => mret (inl r)
      | None =>
          tick ← query_res (latest_tick symbol);
          mret (match tick : option MarketTick with Some t => inr t | None => inl "stale_tick" end)
      end.

(** The decision is recorded, and checked against the market that has moved on. *)
Definition after_ai (symbol : string) (candidates : list CandidateSignal) (pre : MarketTick) (d : TradingAIDecision)
    (deadline : option datetime) : stm (sys W) (option string) :=
  now ← clock_now;
  _ ← record_decision d now;
  if deadline_reached now deadline then mret (Some "cycle_deadline_exceeded")
  else
    guard ← query_res (response_guard_reason symbol pre now d);
    match guard : option string with
    | Some r => mret (Some r)
    | None => mret (decision_problem symbol (ai_network client) candidates d)
    end.

(** The entry that asks the model *)
Definition enter_by_ai (symbol signal_id request_id : string) (snapshot : BarFeatureSnapshot) (now : datetime)
    (deadline : option datetime) : stm cycle AutoTradeSymbolResult :=
  existing ← in_cycle (query_res (get_broker_order ("ai:buy:" +:+ signal_id)));
  match existing : option broker_order with
  | Some _ => mret (symbol_blocked symbol "order_already_claimed")
  | None =>
      candidates ← lift_res (scan_candidates snapshot (ac_candidate_profile c));
      asked ← in_cycle (before_ai symbol candidates deadline);
      match asked : string + MarketTick with
      | inl r => mret (symbol_blocked symbol r)
      | inr pre =>
          _ ← count_ai_call;
          d ← in_cycle (on_world (ai_decide client (context_from_snapshot snapshot (map candidate_dict candidates) None None
                                                      (ac_candidate_profile c))));
          problem ← in_cycle (after_ai symbol candidates pre d deadline);
          match problem : option string with
          | Some r => mret (symbol_blocked symbol r)
          | None => in_cycle (act_on_decision symbol signal_id request_id d (latest_close snapshot) now deadline)
          end
      end
  end.

(** The approval of the bar, after those past their deadline have expired *)
Definition current_approval (request_id : string) (now : datetime) : stm (sys W) (option approval_request) :=
  approval ← query_res (get_approval_request request_id);
  match approval : option approval_request with
  | Some a =>
      if String.eqb (ar_status a) "PENDING" then
        _ ← on_db (fun t d => Ok (expire_approval_requests (Some now) t d));
        query_res (get_approval_request request_id)
      else mret (Some a)
  | None => mret None
  end.

(** [_maybe_enter_position] *)
Definition maybe_enter_position (symbol : string) (now : datetime) (deadline : option datetime) : stm cycle AutoTradeSymbolResult :=
  bars ← in_cycle (query_res (load_bars symbol (Some 120)));
  let bars := latest_contiguous_session_bars bars in
  snapshot ← lift_res (build_feature_snapshot float_sum bars 20);
  match (snapshot : option BarFeatureSnapshot), rev bars with
  | Some snapshot, latest :: _ =>
      let signal_id := entry_signal_id symbol (mb_start latest) in
      let request_id := approval_request_id symbol (mb_start latest) in
      approval ← in_cycle (current_approval request_id now);
      match approval : option approval_request with
      | Some a =>
          if String.eqb (ar_status a) "PENDING" then mret (symbol_blocked symbol "operator_approval_required")
          else if String.eqb (ar_status a) "APPROVED" then
            late ← in_cycle clock_now;
            if deadline_reached late deadline then mret (symbol_blocked symbol "cycle_deadline_exceeded")
            else in_cycle (execute_approved_entry symbol signal_id a (latest_close snapshot) now)
          else mret (symbol_blocked symbol ("approval_" +:+ lower (ar_status a)))
      | None => enter_by_ai symbol signal_id request_id snapshot now deadline
      end
  | _, _ => mret (symbol_blocked symbol "missing_bars")
  end.

(** ** The cycle *)

Variable paused : bool.
Variable confirmed : bool.

(** The body of the [try], for one symbol *)
Definition process_symbol (symbol : string) (deadline : option datetime) : stm cycle AutoTradeSymbolResult :=
  now ← in_cycle clock_now;
  if deadline_reached now deadline then mret (symbol_blocked symbol "cycle_deadline_exceeded")
  else if ac_enforce_market_hours c && negb (is_regular_market_open calendar now) then mret (symbol_blocked symbol "market_closed")
  else
    stop ← in_cycle (query emergency_stop);
    if stop : bool then mret (symbol_blocked symbol "emergency_stop")
    else
      freshness ← in_cycle (query_res (freshness_reason symbol now c));
      match freshness : option string with
      | Some r => mret (symbol_blocked symbol r)
      | None =>
          exit ← in_cycle (maybe_exit_position symbol now);
          match exit : option AutoTradeSymbolResult with
          | Some r => mret r
          | None =>
              positions ← in_cycle (query (list_open_live_positions (Some symbol)));
              match positions : list live_position with
              | _ :: _ => mret (symbol_blocked symbol "existing_open_position")
              | [] =>
                  if paused then mret (symbol_blocked symbol "runtime_paused")
                  else if ac_require_confirmation c && negb confirmed then mret (symbol_blocked symbol "confirmation_required")
                  else if negb (is_new_entry_window calendar now) then mret (symbol_blocked symbol "new_entry_window_closed")
                  else
                    late ← in_cycle clock_now;
                    if deadline_reached late deadline then mret (symbol_blocked symbol "cycle_deadline_exceeded")
                    else maybe_enter_position symbol now deadline
              end
          end
      end.

(** The [try] of one symbol: a failure becomes its result. *)
Definition symbol_result (deadline : option datetime) (results : list AutoTradeSymbolResult) (symbol : string)
    : stm cycle (list AutoTradeSymbolResult) := fun s =>
  match process_symbol symbol deadline s with
  | (Ok r, s') => (Ok (results ++ [r]), s')
  | (Err e, s') =>
      (_ ← in_cycle (notify (symbol +:+ " cycle error: " +:+ exn_name e));
       mret (results ++ [symbol_blocked symbol ("symbol_error:" +:+ exn_name e)])) s'
  end.

Definition cycle_deadline (started : datetime) : res (option datetime) :=
  match ac_cycle_deadline_seconds c with
  | None => Ok None
  | Some x => us ← timedelta_seconds x; Ok (Some (dt_add started us))
  end.

(** [list(dict.fromkeys([*symbols, *open_position_symbols]))] *)
Definition symbols_to_process (symbols : list string) (d : db) : list string :=
  dedup [] (symbols ++ map lp_symbol (list_open_live_positions None d)).

(** The loop over the symbols *)
Definition process_all (deadline : option datetime) (todo : list string) : stm (sys W) AutoTradeCycleReport := fun s =>
  let '(r, s') := foldM (symbol_result deadline) [] todo (mkCycle s 0) in
  (match r with Ok results => Ok (mkCycleReport results (cy_ai_calls s')) | Err e => Err e end, cy_sys s').

(** The configuration, the deadline and the symbols, before the loop *)
Definition cycle_start (symbols : list string) : stm (sys W) (option datetime * list string) :=
  _ ← lift_res (validate_config c);
  started ← (match current_time with Some t => mret (as_kst t) | None => clock_now end);
  deadline ← lift_res (cycle_deadline started);
  todo ← query (symbols_to_process symbols);
  mret (deadline, todo).

(** [run_auto_trade_cycle] *)
Definition run_auto_trade_cycle (symbols : list string) : stm (sys W) AutoTradeCycleReport :=
  start ← cycle_start symbols;
  process_all start.1 start.2.
End Cycle.

(** ** Orders that were sent *)

(** An order the cycle sent, with the database at the moment of the call. *)
Record sent := mkSent { sn_id : string; sn_request : KisOrderRequest; sn_db : db }.
Definition sent_call (e : sent) : broker_call * db := (SubmitCall (sn_request e), sn_db e).

(** It was claimed by this run under an identifier of its own, and the row of the
    ledger, in status SUBMITTING, was persisted before the call. *)
Record sent_soundly (allowed : KisOrderRequest -> db -> Prop) (d0 d1 : db) (e : sent) : Prop := mkSentSoundly {
  ss_new : get_order (sn_id e) d0 = None;
  ss_kept : is_Some (get_order (sn_id e) d1);
  ss_allowed : allowed (sn_request e) (sn_db e);
  ss_row : exists o, get_order (sn_id e) (sn_db e) = Some o /\ bo_status o = "SUBMITTING" /\ bo_broker_order_id o = None /\
    bo_symbol o = rq_symbol (sn_request e) /\ bo_side o = side_name (rq_side (sn_request e)) /\
    bo_requested_qty o = rq_quantity (sn_request e) /\ bo_requested_price o = rq_price (sn_request e);
}.

(** At most [n] orders are sent, each soundly, and the ledger stays well formed. *)
Record trades {W} (allowed : KisOrderRequest -> db -> Prop) (n : nat) (s s' : sys W) : Prop := mkTrades {
  tr_ok : ledger_ok (s_db s) -> ledger_ok (s_db s');
  tr_kept : forall k, is_Some (get_order k (s_db s)) -> is_Some (get_order k (s_db s'));
  tr_sent : exists es, s_trace s' = s_trace s ++ map sent_call es /\ (length es <= n)%nat /\ NoDup (map sn_id es) /\
    forall e, e ∈ es -> sent_soundly allowed (s_db s) (s_db s') e;
}.

(** ** Lemmas *)

Section Trades.
Context {W : Type} {allowed : KisOrderRequest -> db -> Prop}.

Lemma trades_refl (s : sys W) : trades allowed 0 s s.
Proof. split; [done|done|]. exists []. rewrite app_nil_r. split_and!; try done; [constructor|]. intros e He. by inversion He. Qed.

Lemma trades_trans n k (s1 s2 s3 : sys W) : trades allowed n s1 s2 -> trades allowed k s2 s3 -> trades allowed (n + k) s1 s3.
Proof.
  intros [O1 K1 (e1 & T1 & L1 & N1 & S1)] [O2 K2 (e2 & T2 & L2 & N2 & S2)]. split; [auto|auto|].
  exists (e1 ++ e2). rewrite !map_app, app_assoc, T2, T1. split; [done|]. rewrite length_app. split; [lia|]. split.
  - apply list.NoDup_app. split_and!; try done. intros i Hi1 Hi2.
    apply list_elem_of_fmap in Hi1 as (x & -> & Hx), Hi2 as (y & E & Hy).
    destruct (S1 x Hx) as [_ [o Ho] _ _]. destruct (S2 y Hy) as [Hn _ _ _]. rewrite E in Ho. congruence.
  - intros e [He|He]%elem_of_app.
    + destruct (S1 e He) as [A B C D]. split; auto.
    + destruct (S2 e He) as [A B C D]. split; [|done..]. destruct (get_order (sn_id e) (s_db s1)) eqn:E; [|done].
      destruct (K1 (sn_id e)) as [? ?]; [by eexists|congruence].
Qed.

Lemma trades_weaken n k (s s' : sys W) : (n <= k)%nat -> trades allowed n s s' -> trades allowed k s s'.
Proof. intros Hk [O K (es & T & L & N & S)]. split; [done|done|]. exists es. split_and!; try done. lia. Qed.

Lemma trades_quiet (s s' : sys W) : same_ledger (s_db s) (s_db s') -> s_trace s' = s_trace s -> trades allowed 0 s s'.
Proof.
  intros Hd Ht. split; [by apply same_ledger_ok|intros k; by rewrite (same_ledger_order _ _ k Hd)|].
  exists []. rewrite app_nil_r. split_and!; try done; [constructor|]. intros e He. by inversion He.
Qed.

(** Nothing is sent, and the ledger is not written. *)
Definition quiet_step : sys W -> sys W -> Prop := db_rel same_ledger.

(** The same, of a state that contains the system. *)
Definition via {S} (pi : S -> sys W) (R : sys W -> sys W -> Prop) (s s' : S) : Prop := R (pi s) (pi s').

#[export] Instance via_preorder {S} (pi : S -> sys W) R `{!PreOrder R} : PreOrder (via pi R).
Proof. split; [intros s; unfold via; reflexivity|]. intros a b c. unfold via. by etrans. Qed.

Section Via.
Context {S : Type} (pi : S -> sys W).

Lemma keeps_trades_bind n k {A B} (m : stm S A) (f : A -> stm S B) :
  keeps (via pi (trades allowed n)) m -> (forall a, keeps (via pi (trades allowed k)) (f a)) -> keeps (via pi (trades allowed (n + k))) (mbind f m).
Proof.
  intros Hm Hf s. unfold mbind, stm_bind. specialize (Hm s). destruct (m s) as [[a|e] s1]; cbn in *.
  - eapply trades_trans; [exact Hm|apply Hf].
  - eapply trades_weaken; [|exact Hm]. lia.
Qed.

Lemma keeps_trades_quiet n {A} (m : stm S A) : keeps (via pi quiet_step) m -> keeps (via pi (trades allowed n)) m.
Proof. intros Hm s. destruct (Hm s) as [Hd Ht]. eapply trades_weaken; [|by apply trades_quiet]. lia. Qed.

Lemma keeps_trades_then n {A B} (m : stm S A) (f : A -> stm S B) :
  keeps (via pi quiet_step) m -> (forall a, keeps (via pi (trades allowed n)) (f a)) -> keeps (via pi (trades allowed n)) (mbind f m).
Proof. intros Hm Hf. apply (keeps_trades_bind 0); [by apply keeps_trades_quiet|done]. Qed.

Lemma keeps_trades_last n {A B} (m : stm S A) (f : A -> stm S B) :
  keeps (via pi (trades allowed n)) m -> (forall a, keeps (via pi quiet_step) (f a)) -> keeps (via pi (trades allowed n)) (mbind f m).
Proof. intros Hm Hf. rewrite <- (Nat.add_0_r n). apply keeps_trades_bind; [done|]. intros a. by apply keeps_trades_quiet. Qed.

(** Either the first part may send, and the rest only reports it, or the rest. *)
Lemma keeps_trades_branch n {A B} (m : stm S (option A)) (f : option A -> stm S B) :
  keeps (via pi (trades allowed n)) m -> (forall s s', m s = (Ok None, s') -> via pi quiet_step s s') ->
  (forall a, keeps (via pi quiet_step) (f (Some a))) -> keeps (via pi (trades allowed n)) (f None) ->
  keeps (via pi (trades allowed n)) (mbind f m).
Proof.
  intros Hm Hn Hs Hf s. unfold mbind, stm_bind. specialize (Hm s). destruct (m s) as [[[a|]|e] s1] eqn:E; cbn in *.
  - rewrite <- (Nat.add_0_r n). eapply trades_trans; [exact Hm|]. destruct (Hs a s1). by apply trades_quiet.
  - destruct (Hn _ _ E). eapply (trades_trans 0 n); [by apply trades_quiet|apply Hf].
  - done.
Qed.
End Via.

Context {CW : Clock W}.

Lemma ledger_quiet_on_db {A} (f : datetime -> db -> res (A * db)) :
  (forall now d a d', f now d = Ok (a, d') -> same_ledger d d') -> keeps quiet_step (on_db f).
Proof. intros Hf. apply keeps_on_db; [exact _|done]. Qed.

Lemma quiet_query_res {A} (f : db -> res A) : keeps quiet_step (query_res f).
Proof. unfold query_res. apply keeps_bind; [exact _|apply keeps_query, _|]. intros r. apply keeps_lift, _. Qed.

Lemma quiet_metadata k v t : keeps quiet_step (set_metadata_now k v t).
Proof. apply ledger_quiet_on_db. intros. by eapply metadata_same_ledger. Qed.

Lemma quiet_world {A} (m : stm W A) : keeps quiet_step (on_world m).
Proof. apply keeps_on_world, _. Qed.
End Trades.

Create HintDb quiet.
Create HintDb trades.
#[export] Hint Resolve quiet_metadata quiet_world quiet_query_res : quiet.

(** Walking through a computation that sends nothing, and through one that sends
    at most one order, at its end. *)
Ltac quiet_walk := repeat first
  [ apply keeps_bind; [exact _| |intros ?]
  | apply keeps_ret; exact _
  | apply keeps_lift; exact _
  | apply keeps_raise; exact _
  | apply keeps_query; exact _
  | apply keeps_attempt
  | solve [eauto with quiet]
  | match goal with |- keeps _ (match ?x with _ => _ end) => destruct x end
  | match goal with |- keeps _ (let _ := _ in _) => cbv zeta end ].
Ltac trade_walk := repeat first
  [ solve [eauto with trades]
  | solve [apply (keeps_trades_quiet id); quiet_walk]
  | apply (keeps_trades_then id); [solve [quiet_walk]|intros ?]
  | apply (keeps_trades_last id); [solve [eauto with trades]|intros ?; solve [quiet_walk]]
  | match goal with |- keeps _ (match ?x with _ => _ end) => destruct x end
  | match goal with |- keeps _ (let _ := _ in _) => cbv zeta end ].

Section LedgerFacts.
Context {W : Type} {CW : Clock W} {SW : Submitter W} {allowed : KisOrderRequest -> db -> Prop} {SL : SubmitterLaw W allowed}.
Variable exn_text : exn -> string.

Lemma ready_same d d' : ready d d' -> same_ledger d d'.
Proof. intros [-> | ->]; [done|apply schema_same_ledger]. Qed.

(** Writing the row of an order keeps it and the others. *)
Lemma kept_update_where c cond f d b d' k : update_where c cond f d = (b, d') -> is_Some (get_order k d) -> is_Some (get_order k d').
Proof.
  intros H. apply update_where_Ok in H as [[_ ->]|(o & _ & _ & _ & ->)]; [done|]. intros Hk. unfold get_order in *.
  rewrite orders_put. destruct (decide (c = k)) as [-> |]; [rewrite lookup_insert_eq; by eexists|by rewrite lookup_insert_ne].
Qed.

Definition grows (d d' : db) : Prop :=
  (ledger_ok d -> ledger_ok d') /\ forall k, is_Some (get_order k d) -> is_Some (get_order k d').

#[local] Instance grows_preorder : PreOrder grows.
Proof. split; [by split|]. intros a b c [H1 H2] [H3 H4]. split; auto. Qed.

Lemma same_ledger_grows d d' : same_ledger d d' -> grows d d'.
Proof. intros H. split; [by apply same_ledger_ok|]. intros k. by rewrite (same_ledger_order _ _ k H). Qed.

Lemma unknown_grows c e at_ clock d b d' : mark_order_unknown c e at_ clock d = Ok (b, d') -> grows d d'.
Proof.
  intros H. split; [intros; by eapply unknown_ledger_ok|]. unfold mark_order_unknown in H. inv_ok.
  intros k. by eapply kept_update_where.
Qed.

Lemma submission_grows c bid at_ clock d b d' : record_order_submission c bid at_ clock d = Ok (b, d') -> grows d d'.
Proof.
  intros H. split; [intros; by eapply submission_ledger_ok|]. unfold record_order_submission in H. inv_ok.
  intros k. by eapply kept_update_where.
Qed.

Lemma submitting_grows c at_ clock d b d' : mark_order_submitting c at_ clock d = Ok (b, d') -> grows d d'.
Proof.
  intros H. split; [intros; by eapply submitting_ledger_ok|]. unfold mark_order_submitting in H. inv_ok.
  intros k. by eapply kept_update_where.
Qed.

Lemma audit_grows a status number : keeps (db_rel (W := W) grows) (record_execution_audit a status number).
Proof.
  unfold record_execution_audit. apply keeps_bind; [exact _| |intros; apply keeps_ret, _].
  apply keeps_on_db; [exact _|]. intros. by eapply same_ledger_grows, audit_same_ledger.
Qed.

(** What follows the call sends nothing. *)
Lemma answer_grows a x : keeps (db_rel (W := W) grows) (record_answer exn_text a x).
Proof.
  assert (Hu : forall e, keeps (db_rel (W := W) grows) (order_unknown a e)).
  { intros e. unfold order_unknown. apply keeps_bind; [exact _| |intros _; apply keeps_bind; [exact _|apply audit_grows|intros; apply keeps_ret, _]].
    apply keeps_on_db; [exact _|]. intros. by eapply unknown_grows. }
  unfold record_answer. destruct x as [b|e]; [|apply Hu]. destruct (or_broker_order_id b) as [[|ch number]|]; [apply Hu| |apply Hu].
  apply keeps_bind; [exact _| |intros _; apply keeps_bind; [exact _|apply audit_grows|intros; apply keeps_ret, _]].
  apply keeps_on_db; [exact _|]. intros. by eapply submission_grows.
Qed.

Lemma claim_grows c s sym side q p at_ clock d b d' : claim_order_intent c s sym side q p at_ clock d = Ok (b, d') -> grows d d'.
Proof.
  intros H. split; [intros; by eapply claim_ledger_ok|]. unfold claim_order_intent in H. inv_ok. cbv zeta in *. inv_ok.
  intros k Hold. destruct (get_order c d) eqn:Hg; inv_ok; simplify_eq; [done|]. unfold get_order in *. rewrite orders_put.
  destruct (decide (c = k)) as [-> |]; [rewrite lookup_insert_eq; by eexists|by rewrite lookup_insert_ne].
Qed.

Lemma claim_and_mark_grows a : keeps (db_rel (W := W) grows) (claim_and_mark a).
Proof.
  unfold claim_and_mark. apply keeps_bind; [exact _| |intros [|]].
  - apply keeps_on_db; [exact _|]. intros. by eapply claim_grows.
  - apply keeps_bind; [exact _| |intros; apply keeps_ret, _]. apply keeps_on_db; [exact _|]. intros. by eapply submitting_grows.
  - apply keeps_ret, _.
Qed.

Lemma side_upper r : upper (side_name r) = side_name r.
Proof. by destruct r. Qed.

(** A granted claim: the row was new and is now SUBMITTING. *)
Lemma claim_and_mark_true a (s s1 : sys W) : claim_and_mark a s = (Ok true, s1) ->
  get_order (client_id_of a) (s_db s) = None /\ exists o, get_order (client_id_of a) (s_db s1) = Some o /\
    bo_status o = "SUBMITTING" /\ bo_broker_order_id o = None /\ bo_symbol o = rq_symbol (sm_request a) /\
    bo_side o = side_name (rq_side (sm_request a)) /\ bo_requested_qty o = rq_quantity (sm_request a) /\
    bo_requested_price o = rq_price (sm_request a).
Proof.
  unfold claim_and_mark. intros H. apply stm_bind_Ok in H as (b & s0 & H1 & H). destruct b; [|done].
  apply stm_bind_Ok in H as (b2 & s2 & H2 & [= <-]).
  unfold on_db in H1, H2. destruct (wall_clock (s_world s)) as [now w]. destruct (wall_clock (s_world s0)) as [now2 w2].
  destruct (claim_order_intent _ _ _ _ _ _ _ _ (s_db s)) as [[c d]|e] eqn:Ec; [|done]. injection H1 as -> <-. cbn [s_db] in *.
  destruct (mark_order_submitting _ _ _ d) as [[m d']|e] eqn:Em; [|done]. injection H2 as _ <-. cbn [s_db].
  unfold claim_order_intent in Ec. inv_ok. cbv zeta in *. inv_ok. destruct (get_order (client_id_of a) (s_db s)) eqn:Hg; [inv_ok; by simplify_eq|].
  split; [done|]. inv_ok. simplify_eq. unfold mark_order_submitting in Em. apply bind_Ok in Em as ([] & _ & Em). cbv zeta in Em. injection Em as Em.
  unfold update_where, get_order in *. rewrite orders_put, lookup_insert_eq in Em. injection Em as _ <-.
  rewrite orders_put, lookup_insert_eq. eexists. split; [done|]. by rewrite side_upper.
Qed.

Lemma submit_trades a : keeps (trades allowed 1) (submit_with_ledger exn_text a).
Proof.
  intros s. unfold submit_with_ledger, mbind, stm_bind. pose proof (claim_and_mark_grows a s) as [[G1 K1] T1].
  destruct (claim_and_mark a s) as [[[|]|e] s1] eqn:Ec; cbn in G1, K1, T1.
  2,3: cbn; split; [done|done|exists []; rewrite app_nil_r; split_and!; try done; [cbn; lia|constructor|]; intros e0 He; by inversion He].
  destruct (claim_and_mark_true _ _ _ Ec) as [Hnew (o & Ho & Hrow)]. unfold attempt.
  pose proof (submitter_law (sm_request a) s1) as Hl. destruct (submit_order_by (sm_request a) s1) as [x s2].
  destruct Hl as [Hr Ht]. pose proof (answer_grows a x s2) as [[G3 K3] T3]. cbv beta iota.
  set (s3 := (record_answer exn_text a x s2).2) in *.
  assert (Hs : same_ledger (s_db s1) (s_db s2)) by (by apply ready_same).
  assert (K : forall k, is_Some (get_order k (s_db s1)) -> is_Some (get_order k (s_db s3))).
  { intros k Hk. apply K3. by rewrite (same_ledger_order _ _ k Hs). }
  split; [intros Hd; apply G3, (same_ledger_ok _ _ Hs), G1, Hd|intros k Hk; by apply K, K1|].
  destruct Ht as [[Ht _]|(d & Hd & Ha & Ht)].
  - exists []. rewrite app_nil_r, T3, Ht, T1. split_and!; try done; [cbn; lia|constructor|]. intros e0 He. by inversion He.
  - exists [mkSent (client_id_of a) (sm_request a) d]. rewrite T3, Ht, T1. split_and!; try done; [apply NoDup_singleton|].
    intros e ->%list_elem_of_singleton. split; cbn [sn_id sn_request sn_db].
    + done.
    + apply K. by exists o.
    + done.
    + exists o. split; [|done]. by rewrite (same_ledger_order _ _ _ (ready_same _ _ Hd)).
Qed.
End LedgerFacts.

#[export] Hint Extern 1 (keeps _ (submit_with_ledger _ _)) => apply submit_trades : trades.

Section InCycle.
Context {W : Type}.

Lemma in_cycle_keeps (R : sys W -> sys W -> Prop) {A} (m : stm (sys W) A) : keeps R m -> keeps (via cy_sys R) (in_cycle m).
Proof. intros Hm s. unfold in_cycle. specialize (Hm (cy_sys s)). by destruct (m (cy_sys s)). Qed.

Lemma count_quiet : keeps (via cy_sys (quiet_step (W := W))) count_ai_call.
Proof. intros s. unfold via, count_ai_call. cbn. reflexivity. Qed.

End InCycle.

#[export] Hint Resolve count_quiet : quiet.

(** The same of a pass, whose state contains the system. *)
Ltac in_quiet := first
  [ apply keeps_ret; exact _
  | apply keeps_lift; exact _
  | solve [eauto with quiet]
  | apply in_cycle_keeps; solve [quiet_walk] ].
Ltac cycle_walk := repeat first
  [ solve [eauto with trades]
  | solve [apply in_cycle_keeps; trade_walk]
  | solve [apply (keeps_trades_quiet cy_sys); in_quiet]
  | apply (keeps_trades_then cy_sys); [solve [in_quiet]|intros ?]
  | match goal with |- keeps _ (match ?x with _ => _ end) => destruct x end
  | match goal with |- keeps _ (let _ := _ in _) => cbv zeta end ].

Section CycleFacts.
Context {W : Type} {CW : Clock W} {SW : Submitter W} {allowed : KisOrderRequest -> db -> Prop} {SL : SubmitterLaw W allowed}.
Variable calendar : option (Z -> bool).
Variables float_sum sum_real : list float -> float.
Variable group_row : paper_fill -> list paper_fill -> paper_fill.
Variable exn_text : exn -> string.
Variable g : given W.
Variable c : AutoTradeConfig.
Variable clock : option (W -> datetime * W).
Variable current_time : option datetime.
Variable client : ai_client W.

Lemma notify_quiet_step text : keeps (quiet_step (W := W)) (notify g text).
Proof. unfold notify. quiet_walk. Qed.

Lemma notify_approval_quiet i text : keeps (quiet_step (W := W)) (notify_approval g i text).
Proof. unfold notify_approval. quiet_walk. Qed.

Lemma entry_budget_quiet s p q : keeps (quiet_step (W := W)) (entry_budget_ok g s p q).
Proof. unfold entry_budget_ok. quiet_walk. Qed.

Lemma live_price_quiet f s : keeps (quiet_step (W := W)) (live_price f s).
Proof. unfold live_price. quiet_walk. Qed.

Lemma exit_price_quiet s p : keeps (quiet_step (W := W)) (exit_price g s p).
Proof. unfold exit_price. quiet_walk. Qed.

Lemma clock_now_quiet : keeps (quiet_step (W := W)) (clock_now clock current_time).
Proof. intros s. unfold clock_now. by destruct (now_provider _ _ _). Qed.

Lemma record_decision_quiet d t : keeps (quiet_step (W := W)) (record_decision (W := W) d t).
Proof. apply ledger_quiet_on_db. intros. by eapply decision_same_ledger. Qed.

Lemma finish_quiet i b t : keeps (quiet_step (W := W)) (finish_request (W := W) i b t).
Proof. apply ledger_quiet_on_db. intros. by eapply finish_same_ledger. Qed.

Lemma consume_quiet i t : keeps (quiet_step (W := W)) (on_db (W := W) (consume_approval_request i t)).
Proof. apply ledger_quiet_on_db. intros. by eapply consume_same_ledger. Qed.

Lemma approval_quiet x : keeps (quiet_step (W := W)) (on_db (W := W) (record_approval_request x)).
Proof. apply ledger_quiet_on_db. intros. by eapply approval_same_ledger. Qed.

Lemma expire_quiet now : keeps (quiet_step (W := W)) (on_db (W := W) (fun t d => Ok (expire_approval_requests now t d))).
Proof. apply ledger_quiet_on_db. intros t d a d' [= _ <-]. done. Qed.
End CycleFacts.

#[export] Hint Resolve notify_quiet_step notify_approval_quiet entry_budget_quiet live_price_quiet exit_price_quiet clock_now_quiet
  record_decision_quiet finish_quiet consume_quiet approval_quiet expire_quiet : quiet.

Section CycleTrades.
Context {W : Type} {CW : Clock W} {SW : Submitter W} {allowed : KisOrderRequest -> db -> Prop} {SL : SubmitterLaw W allowed}.
Variable calendar : option (Z -> bool).
Variables float_sum sum_real : list float -> float.
Variable group_row : paper_fill -> list paper_fill -> paper_fill.
Variable exn_text : exn -> string.
Variable g : given W.
Variable c : AutoTradeConfig.
Variable clock : option (W -> datetime * W).
Variable current_time : option datetime.
Variable client : ai_client W.

Lemma sell_position_trades s p r l now : keeps (trades allowed 1) (sell_position exn_text g s p r l now).
Proof. unfold sell_position. trade_walk. Qed.

Lemma exit_due_trades s p r x now : keeps (trades allowed 1) (exit_due exn_text g c s p r x now).
Proof. unfold exit_due. pose proof sell_position_trades. trade_walk. Qed.

Lemma maybe_exit_trades s now : keeps (trades allowed 1) (maybe_exit_position calendar exn_text g c s now).
Proof. unfold maybe_exit_position. pose proof exit_due_trades. trade_walk. Qed.

Lemma approved_problem_quiet s i a x : keeps (quiet_step (W := W)) (approved_entry_problem sum_real group_row g c s i a x).
Proof. unfold approved_entry_problem. quiet_walk. Qed.

Lemma execute_approved_trades s i a x now :
  keeps (trades allowed 1) (execute_approved_entry sum_real group_row exn_text g c s i a x now).
Proof. unfold execute_approved_entry. pose proof approved_problem_quiet. trade_walk. Qed.

Lemma request_approval_quiet s i r d p now :
  keeps (quiet_step (W := W)) (request_approval sum_real group_row g c s i r d p now).
Proof. unfold request_approval. quiet_walk. Qed.

Lemma buy_entry_trades s i d p now dl :
  keeps (trades allowed 1) (buy_entry sum_real group_row exn_text g c clock current_time s i d p now dl).
Proof. unfold buy_entry. trade_walk. Qed.

Lemma act_on_decision_trades s i r d x now dl :
  keeps (trades allowed 1) (act_on_decision sum_real group_row exn_text g c clock current_time s i r d x now dl).
Proof.
  unfold act_on_decision. pose proof buy_entry_trades. pose proof request_approval_quiet. trade_walk.
Qed.

Lemma before_ai_quiet s l dl : keeps (quiet_step (W := W)) (before_ai c clock current_time client s l dl).
Proof. unfold before_ai. quiet_walk. Qed.

Lemma after_ai_quiet s l pre d dl : keeps (quiet_step (W := W)) (after_ai c clock current_time client s l pre d dl).
Proof. unfold after_ai. quiet_walk. Qed.

Lemma current_approval_quiet r now : keeps (quiet_step (W := W)) (current_approval r now).
Proof. unfold current_approval. quiet_walk. Qed.

Lemma enter_by_ai_trades s i r f now dl : keeps (via cy_sys (trades allowed 1))
  (enter_by_ai sum_real group_row exn_text g c clock current_time client s i r f now dl).
Proof.
  unfold enter_by_ai. pose proof act_on_decision_trades. pose proof before_ai_quiet. pose proof after_ai_quiet.
  cycle_walk.
Qed.

Lemma maybe_enter_trades s now dl : keeps (via cy_sys (trades allowed 1))
  (maybe_enter_position float_sum sum_real group_row exn_text g c clock current_time client s now dl).
Proof.
  unfold maybe_enter_position. pose proof enter_by_ai_trades. pose proof current_approval_quiet. pose proof execute_approved_trades.
  cycle_walk.
Qed.

Variables paused confirmed : bool.

(** Without an open position nothing is done. *)
Lemma maybe_exit_none s now (st st' : sys W) : maybe_exit_position calendar exn_text g c s now st = (Ok None, st') ->
  st' = st /\ list_open_live_positions (Some s) (s_db st) = [].
Proof.
  unfold maybe_exit_position. intros H. apply stm_bind_Ok in H as (ps & s1 & Hp & H). injection Hp as <- <-.
  destruct (list_open_live_positions _ _) as [|p l]; [by injection H|]. exfalso.
  apply stm_bind_Ok in H as (t & s1 & _ & H). apply stm_bind_Ok in H as (b & s2 & _ & H).
  destruct (match t with Some _ => _ | None => _ end); [|done].
  apply stm_bind_Ok in H as (o & s3 & _ & H). destruct (exit_reason _ _ _ _ _); [|done].
  by apply stm_bind_Ok in H as (r & s4 & _ & H).
Qed.

(** One order at most per symbol: what follows an exit attempt only reports it. *)
Lemma process_symbol_trades s dl : keeps (via cy_sys (trades allowed 1))
  (process_symbol calendar float_sum sum_real group_row exn_text g c clock current_time client paused confirmed s dl).
Proof.
  unfold process_symbol. pose proof maybe_enter_trades. cycle_walk.
  apply (keeps_trades_branch cy_sys).
  - apply in_cycle_keeps, maybe_exit_trades.
  - intros st st' E. unfold in_cycle in E. destruct (maybe_exit_position _ _ _ _ _ _ _) as [x s'] eqn:Ex.
    injection E as -> <-. apply maybe_exit_none in Ex as [-> _]. unfold via. cbn. reflexivity.
  - intros r. in_quiet.
  - cycle_walk.
Qed.

Lemma symbol_result_trades dl l s : keeps (via cy_sys (trades allowed 1))
  (symbol_result calendar float_sum sum_real group_row exn_text g c clock current_time client paused confirmed dl l s).
Proof.
  intros st. unfold symbol_result. pose proof (process_symbol_trades s dl st) as H. unfold via in *.
  destruct (process_symbol _ _ _ _ _ _ _ _ _ _ _ _ _ _ st) as [[r|e] s1]; cbn [snd] in H; [exact H|].
  unfold mbind, stm_bind, in_cycle. pose proof (notify_quiet_step g (s +:+ " cycle error: " +:+ exn_name e) (cy_sys s1)) as [H1 H2].
  destruct (notify g _ (cy_sys s1)) as [[[]|x] s2]; cbn in *; rewrite <- (Nat.add_0_r 1); (eapply trades_trans; [exact H|by apply trades_quiet]).
Qed.

Lemma fold_trades dl l acc : keeps (via cy_sys (trades allowed (length l)))
  (foldM (symbol_result calendar float_sum sum_real group_row exn_text g c clock current_time client paused confirmed dl) acc l).
Proof.
  revert acc. induction l as [|s l IH]; intros acc; cbn [foldM length].
  - intros st. apply trades_refl.
  - apply (keeps_trades_bind cy_sys 1 (length l)); [apply symbol_result_trades|]. intros a. apply IH.
Qed.
End CycleTrades.

(** ** Why an order is sent *)

(** At most one order is sent from [s], and its request satisfies [Q]. *)
Definition sends_from {W S A} (pi : S -> sys W) (Q : KisOrderRequest -> Prop) (m : stm S A) (s : S) : Prop :=
  s_trace (pi (m s).2) = s_trace (pi s) \/
  exists r d, s_trace (pi (m s).2) = s_trace (pi s) ++ [(SubmitCall r, d)] /\ Q r.

Section Sends.
Context {W S : Type} (pi : S -> sys W).

Lemma sends_quiet {A} Q (m : stm S A) s : keeps (via pi quiet_step) m -> sends_from pi Q m s.
Proof. intros Hm. left. by destruct (Hm s). Qed.

Lemma sends_then {A B} Q (m : stm S A) (f : A -> stm S B) s : keeps (via pi quiet_step) m ->
  (forall a s1, m s = (Ok a, s1) -> sends_from pi Q (f a) s1) -> sends_from pi Q (mbind f m) s.
Proof.
  intros Hm Hf. unfold sends_from, mbind, stm_bind. pose proof (Hm s) as [_ Ht]. destruct (m s) as [[a|e] s1] eqn:E; cbn [snd] in Ht; [|by left].
  destruct (Hf _ _ eq_refl) as [H|(r & d & H & Hq)]; unfold sends_from in *; rewrite Ht in H; [by left|right; by exists r, d].
Qed.

Lemma sends_last {A B} Q (m : stm S A) (f : A -> stm S B) s : sends_from pi Q m s -> (forall a, keeps (via pi quiet_step) (f a)) ->
  sends_from pi Q (mbind f m) s.
Proof.
  unfold sends_from. intros Hm Hf. unfold mbind, stm_bind. destruct (m s) as [[a|e] s1]; cbn [snd] in Hm; [|done].
  destruct (Hf a s1) as [_ Ht]. rewrite Ht. exact Hm.
Qed.

Lemma sends_branch {A B} Q (m : stm S (option A)) (f : option A -> stm S B) s : sends_from pi Q m s ->
  (forall a, keeps (via pi quiet_step) (f (Some a))) ->
  (forall s1, m s = (Ok None, s1) -> pi s1 = pi s /\ sends_from pi Q (f None) s1) -> sends_from pi Q (mbind f m) s.
Proof.
  unfold sends_from. intros Hm Hs Hn. unfold mbind, stm_bind. destruct (m s) as [[[a|]|e] s1]; cbn [snd] in Hm; [| |done].
  - destruct (Hs a s1) as [_ Ht]. rewrite Ht. exact Hm.
  - destruct (Hn _ eq_refl) as [E H]. by rewrite E in H.
Qed.

Lemma sends_weaken {A} (Q Q' : KisOrderRequest -> Prop) (m : stm S A) s :
  (forall r, Q r -> Q' r) -> sends_from pi Q m s -> sends_from pi Q' m s.
Proof. intros HQ [H|(r & d & H & Hq)]; [by left|right; exists r, d; auto]. Qed.
End Sends.

Lemma sends_in_cycle {W A} Q (m : stm (sys W) A) s : sends_from id Q m (cy_sys s) -> sends_from cy_sys Q (in_cycle m) s.
Proof. unfold sends_from, in_cycle. by destruct (m (cy_sys s)). Qed.

Lemma query_res_Ok {W} {A} (f : db -> res A) (s s1 : sys W) a : query_res f s = (Ok a, s1) -> f (s_db s) = Ok a /\ s1 = s.
Proof. unfold query_res. intros H. apply stm_bind_Ok in H as (r & s2 & Hq & H). injection Hq as <- <-. injection H as -> <-. done. Qed.

Lemma lift_res_Ok {S A} (r : res A) (s s1 : S) a : lift_res r s = (Ok a, s1) -> r = Ok a /\ s1 = s.
Proof. by intros [= -> ->]. Qed.

Ltac quiet_send := apply sends_quiet; solve [quiet_walk].
Tactic Notation "send_then" ident(a) ident(s) ident(H) := apply sends_then; [solve [quiet_walk]|intros a s H].

Tactic Notation "lift_then" ident(a) ident(H) :=
  let s1 := fresh "s1" in apply sends_then; [solve [quiet_walk]|intros a s1 H; apply lift_res_Ok in H as [H ->]].
Tactic Notation "query_then" ident(a) ident(H) :=
  let s1 := fresh "s1" in apply sends_then; [solve [quiet_walk]|intros a s1 H; apply query_res_Ok in H as [H ->]].

Ltac cycle_quiet := apply sends_quiet; solve [in_quiet].
Tactic Notation "cycle_then" ident(a) ident(s) ident(H) := apply sends_then; [solve [in_quiet]|intros a s H].

Lemma submit_sends {W} {CW : Clock W} {SW : Submitter W} {allowed : KisOrderRequest -> db -> Prop} {SL : SubmitterLaw W allowed} exn_text a (s : sys W) :
  sends_from id (fun r => r = sm_request a) (submit_with_ledger (W := W) exn_text a) s.
Proof.
  unfold sends_from, submit_with_ledger, mbind, stm_bind, id. pose proof (claim_and_mark_grows a s) as [_ T1].
  destruct (claim_and_mark a s) as [[[|]|e] s1]; cbn in T1; [|by left..]. unfold attempt.
  pose proof (submitter_law (sm_request a) s1) as Hl. destruct (submit_order_by (sm_request a) s1) as [x s2].
  destruct Hl as [_ Ht]. pose proof (answer_grows exn_text a x s2) as [_ T3]. cbv beta iota. rewrite T3, <- T1.
  destruct Ht as [[Ht _]|(d & _ & _ & Ht)]; [by left|right]. by exists (sm_request a), d.
Qed.

Lemma limit_order_Ok s side q p r : limit_order s side q p = Ok r ->
  rq_symbol r = s /\ KisOrderSide_of side = Ok (rq_side r) /\ rq_quantity r = q /\ rq_price r = p /\ 0 < q.
Proof.
  unfold limit_order, order_request. intros H. apply bind_Ok in H as (sd & Hs & H). apply bind_Ok in H as (t & _ & H).
  apply bind_Ok in H as ([] & _ & H). apply bind_Ok in H as ([] & Hq & H). do 3 (apply bind_Ok in H as ([] & _ & H)).
  injection H as <-. apply raise_if_Ok in Hq. cbn. split_and!; try done. lia.
Qed.

Section Evidence.
Context {W : Type} {CW : Clock W} {SW : Submitter W} {allowed : KisOrderRequest -> db -> Prop} {SL : SubmitterLaw W allowed}.
Variable calendar : option (Z -> bool).
Variables float_sum sum_real : list float -> float.
Variable group_row : paper_fill -> list paper_fill -> paper_fill.
Variable exn_text : exn -> string.
Variable g : given W.
Variable c : AutoTradeConfig.
Variable clock : option (W -> datetime * W).
Variable current_time : option datetime.
Variable client : ai_client W.

(** The SELL of the whole of the first open position, which is due at [now] by the
    last price of the database of [s], at the price planned from the answer of the
    price check made from [s]. *)
Record exit_evidence (symbol : string) (now : datetime) (s : sys W) (r : KisOrderRequest) : Prop := mkExitEvidence {
  xe_order : rq_symbol r = symbol /\ rq_side r = SELL;
  xe_no_other : has_unresolved_order symbol "SELL" (s_db s) = false;
  xe_due : exists p tick bar price opened_at reason,
    head (list_open_live_positions (Some symbol) (s_db s)) = Some p /\ rq_quantity r = lp_quantity p /\
    exit_attempt_count p (s_db s) <= ac_max_exit_requotes c /\
    latest_tick symbol (s_db s) = Ok tick /\ latest_bar symbol (s_db s) = Ok bar /\
    match tick with Some t => Some (tk_price t) | None => mb_close <$> bar end = Some price /\
    fromisoformat (lp_opened_at p) = Ok opened_at /\ exit_reason calendar p (as_kst opened_at) now price = Some reason /\
    exists planned limit s1, exit_price g symbol price s = (Ok (inl planned), s1) /\
      planned_exit planned = Ok (Some limit) /\ rq_price r = f_of_Z limit;
}.

(** The risk engine approves this much, on the portfolio given or the paper one of [d]. *)
Definition risk_approved (d : db) (symbol signal_id : string) (confidence entry stop : float) (quantity : Z) : Prop :=
  exists decision, evaluate_order_intent (ac_risk c) (portfolio_of sum_real group_row g d)
    (order_intent symbol signal_id confidence entry stop) = Ok decision /\ approved decision = true /\
    0 < quantity /\ quantity = Z.min (ac_max_quantity c) (rd_quantity decision).

(** A reading of the clock at [s] before the deadline; [s'] follows it. *)
Definition in_time (deadline : option datetime) (s s' : sys W) (now : datetime) : Prop :=
  clock_now clock current_time s = (Ok now, s') /\ deadline_reached now deadline = false.

(** From [s], before the deadline and on fresh data, the model is asked about the
    snapshot; its answer [d] is recorded, still in time, and the market of the
    database of [s'] has not moved on. *)
Record model_decided (symbol : string) (snapshot : BarFeatureSnapshot) (deadline : option datetime) (s s' : sys W)
    (d : TradingAIDecision) : Prop := mkModelDecided {
  md_run : exists candidates pre asked_at answered_at s1 s2 s3 recorded,
    scan_candidates snapshot (ac_candidate_profile c) = Ok candidates /\ (candidates = [] -> ai_network client = false) /\
    in_time deadline s s1 asked_at /\ freshness_reason symbol asked_at c (s_db s1) = Ok None /\
    latest_tick symbol (s_db s1) = Ok (Some pre) /\
    on_world (ai_decide client (context_from_snapshot snapshot (map candidate_dict candidates) None None
      (ac_candidate_profile c))) s1 = (Ok d, s2) /\
    in_time deadline s2 s3 answered_at /\ record_decision d answered_at s3 = (Ok recorded, s') /\
    response_guard_reason c symbol pre answered_at d (s_db s') = Ok None /\
    decision_problem symbol (ai_network client) candidates d = None;
  md_buy : td_symbol d = symbol /\ td_action d = ActBuy;
}.

(** The BUY of a decision that the model gives in this pass and that needs no
    approval: its prices on the ladder, close to the live price and to the
    snapshot, the risk approved, the budget and the deadline checked. *)
Record decision_evidence (symbol signal_id : string) (snapshot : BarFeatureSnapshot) (deadline : option datetime) (s : sys W)
    (r : KisOrderRequest) : Prop := mkDecisionEvidence {
  de_new : get_broker_order ("ai:buy:" +:+ signal_id) (s_db s) = Ok None;
  de_decision : exists d s1, model_decided symbol snapshot deadline s s1 d /\ high_risk d = false /\
    (td_confidence d <? ac_min_confidence c)%F = false /\
    exists e x t n stop take_profit live late s2 s3 s4,
      td_entry_price d = Some e /\ td_stop_loss_price d = Some x /\ td_take_profit_price d = Some t /\
      normalize_krx_limit_price (PFloat e) "buy" = Ok n /\ normalize_krx_limit_price (PFloat x) "buy" = Ok stop /\
      normalize_krx_limit_price (PFloat t) "sell" = Ok take_profit /\ rq_price r = f_of_Z n /\
      live_price (gv_post_ai_price g) symbol s1 = (Ok live, s2) /\
      live_price_guard live (latest_close snapshot) (rq_price r) (ac_max_entry_deviation_pct c) = None /\
      snapshot_problem c (rq_price r) (latest_close snapshot) = None /\
      risk_reward_ok (PInt n) (PInt take_profit) (PInt stop) = Ok true /\
      risk_approved (s_db s2) symbol signal_id (td_confidence d) (rq_price r) (f_of_Z stop) (rq_quantity r) /\
      entry_budget_ok g symbol (rq_price r) (rq_quantity r) s2 = (Ok true, s3) /\ in_time deadline s3 s4 late;
}.

(** The BUY of the approved request [a] whose terms still hold in this pass, and
    which is consumed just before. *)
Record approval_evidence (symbol signal_id : string) (a : approval_request) (close : float) (now : datetime) (s : sys W)
    (r : KisOrderRequest) : Prop := mkApprovalEvidence {
  ae_request : ar_symbol a = symbol /\ text_else (ar_signal_id a) "" = signal_id;
  ae_terms : exists audit e x t stop take_profit live s1 s2 s3,
    approved_audit symbol a (s_db s) = Ok (Some audit) /\
    approval_terms a = Some (rq_price r, stop, take_profit, rq_quantity r) /\
    ad_entry_price audit = Some e /\ ad_stop_loss_price audit = Some x /\ ad_take_profit_price audit = Some t /\
    same_terms (rq_price r) stop take_profit e x t = Ok true /\
    live_price (gv_post_ai_price g) symbol s = (Ok live, s1) /\
    live_price_guard live close (rq_price r) (ac_max_entry_deviation_pct c) = None /\ entry_too_far c (rq_price r) close = Ok false /\
    risk_reward_ok (PFloat (rq_price r)) (PFloat take_profit) (PFloat stop) = Ok true /\
    risk_approved (s_db s1) symbol signal_id (ad_confidence audit) (rq_price r) stop (rq_quantity r) /\
    entry_budget_ok g symbol (rq_price r) (rq_quantity r) s1 = (Ok true, s2) /\
    on_db (consume_approval_request (ar_request_id a) (Some now)) s2 = (Ok true, s3);
}.

Lemma sell_position_sends s p reason l now (st : sys W) :
  sends_from id (fun r => rq_symbol r = s /\ rq_side r = SELL /\ rq_quantity r = lp_quantity p /\ rq_price r = f_of_Z l)
    (sell_position exn_text g s p reason l now) st.
Proof.
  unfold sell_position. lift_then price E. apply float_of_int_Ok in E as ->. lift_then r Hr.
  apply limit_order_Ok in Hr as (H1 & H2 & H3 & H4 & _). injection H2 as H2.
  apply sends_last; [|intros a; quiet_walk]. eapply sends_weaken; [|apply submit_sends]. by intros r0 ->.
Qed.

Lemma exit_due_sends s p reason x now (st : sys W) :
  sends_from id (fun r => rq_symbol r = s /\ rq_side r = SELL /\ has_unresolved_order s "SELL" (s_db st) = false /\
      rq_quantity r = lp_quantity p /\ exit_attempt_count p (s_db st) <= ac_max_exit_requotes c /\
      exists planned limit s1, exit_price g s x st = (Ok (inl planned), s1) /\ planned_exit planned = Ok (Some limit) /\ rq_price r = f_of_Z limit)
    (exit_due exn_text g c s p reason x now) st.
Proof.
  unfold exit_due. send_then b s1 Hb. injection Hb as Hb <-. destruct b; [quiet_send|].
  send_then n s1 Hn. injection Hn as Hn <-. destruct (_ <? n) eqn:E; [quiet_send|].
  send_then y s1 Hy. destruct y as [y|r]; [|quiet_send]. lift_then l Hl. destruct l as [l|]; [|quiet_send].
  eapply sends_weaken; [|apply sell_position_sends]. intros r (H1 & H2 & H3 & H4). split_and!; try done; [lia|]. by exists y, l, s1.
Qed.

Lemma maybe_exit_sends s now (st : sys W) :
  sends_from id (exit_evidence s now st) (maybe_exit_position calendar exn_text g c s now) st.
Proof.
  unfold maybe_exit_position. send_then ps s1 Hp. injection Hp as Hp <-. destruct ps as [|p l]; [quiet_send|].
  query_then t Ht. query_then b Hb.
  destruct (match t with Some _ => _ | None => _ end) as [price|] eqn:Epr; [|quiet_send].
  lift_then o Ho. destruct (exit_reason _ _ _ _ _) as [reason|] eqn:E; [|quiet_send].
  apply sends_last; [|intros a; quiet_walk]. eapply sends_weaken; [|apply exit_due_sends].
  intros r (H1 & H2 & H3 & H4 & H5 & H6). split; [done..|]. exists p, t, b, price, o, reason. split_and!; try done. by rewrite Hp.
Qed.

Lemma risk_quantity_approved s i cf e st b q : risk_quantity sum_real group_row g c s i cf e st b = Ok (Some q) ->
  risk_approved b s i cf e st q.
Proof.
  unfold risk_quantity. intros H. apply bind_Ok in H as (d & Hd & H). injection H as H. destruct (approved d) eqn:Ea; [|done]. cbv zeta in H.
  destruct (0 <? _) eqn:Eq; [|done]. injection H as <-. exists d. split_and!; try done; lia.
Qed.

Lemma buy_entry_sends s i d p now dl (st : sys W) : sends_from id (fun r => rq_price r = f_of_Z (ep_entry p) /\ rq_side r = BUY /\ rq_symbol r = s /\
    risk_approved (s_db st) s i (td_confidence d) (rq_price r) (f_of_Z (ep_stop p)) (rq_quantity r) /\
    exists late s1 s2, entry_budget_ok g s (rq_price r) (rq_quantity r) st = (Ok true, s1) /\ in_time dl s1 s2 late)
  (buy_entry sum_real group_row exn_text g c clock current_time s i d p now dl) st.
Proof.
  unfold buy_entry. lift_then e He. apply float_of_int_Ok in He as ->. lift_then sp Hs. apply float_of_int_Ok in Hs as ->.
  query_then dec Hd. destruct (approved dec) eqn:Ea; cbn [negb]; [|quiet_send]. cbv zeta.
  destruct (_ <=? 0) eqn:Eq; [quiet_send|]. send_then ok s6 Hok. destruct ok; cbn [negb]; [|quiet_send].
  send_then late s7 Hlate. destruct (deadline_reached late dl) eqn:Edl; [quiet_send|]. lift_then r Hr.
  apply limit_order_Ok in Hr as (H1 & H2 & H3 & H4 & _). injection H2 as H2.
  apply sends_last; [|intros a; quiet_walk]. eapply sends_weaken; [|apply submit_sends]. intros r0 ->. cbn [sm_request].
  rewrite H3, H4. split_and!; try done; [exists dec; split_and!; try done; lia|]. by exists late, s6, s7.
Qed.

Lemma act_on_decision_sends s i rid d f now dl (st s1 : sys W) : get_broker_order ("ai:buy:" +:+ i) (s_db st) = Ok None ->
  model_decided s f dl st s1 d ->
  sends_from id (fun r => rq_symbol r = s /\ rq_side r = BUY /\ decision_evidence s i f dl st r)
    (act_on_decision sum_real group_row exn_text g c clock current_time s i rid d (latest_close f) now dl) s1.
Proof.
  intros Hnew Hd. unfold act_on_decision. lift_then e H1. lift_then x H2. lift_then t H3. lift_then n Hn.
  lift_then entry He. apply float_of_int_Ok in He as ->.
  send_then live s2 Hl. destruct (live_price_guard _ _ _ _) eqn:Eg; [quiet_send|]. destruct (snapshot_problem _ _ _) eqn:Ep; [quiet_send|].
  destruct (td_confidence d <? _)%F eqn:Ec; [quiet_send|]. lift_then stop Hst. lift_then take_profit Htp.
  lift_then sound Hso. destruct sound; cbn [negb]; [|quiet_send]. cbv zeta. destruct (high_risk d) eqn:Eh; [quiet_send|].
  eapply sends_weaken; [|apply buy_entry_sends]. cbn [ep_entry ep_stop]. intros r (Hp & Hb & Hy & Hr & late & s3 & s4 & Hbu & Hla).
  assert (Ha : forall A (o : option A) v, asserted o = Ok v -> o = Some v) by (intros A [w|] v; [by intros [= ->]|done]).
  split_and!; try done. split; [done|]. exists d, s1. split_and!; try done.
  exists e, x, t, n, stop, take_profit, live, late, s2, s3, s4. split_and!; try done; try (by apply Ha); by rewrite Hp.
Qed.

(** The terms of an approval, checked from [st]; [st'] follows the checks. *)
Lemma approved_problem_ok s i a x (st st' : sys W) entry q id_ :
  approved_entry_problem sum_real group_row g c s i a x st = (Ok (inr (entry, q, id_)), st') ->
  forall r now s3, rq_price r = entry -> rq_quantity r = q ->
  on_db (consume_approval_request (ar_request_id a) (Some now)) st' = (Ok true, s3) ->
  approval_evidence s i a x now st r.
Proof.
  unfold approved_entry_problem. destruct (String.eqb_spec (ar_symbol a) s) as [Hs|]; [|done].
  destruct (String.eqb_spec (text_else (ar_signal_id a) "") i) as [Hi|]; [|done]. cbn [negb orb]. intros H.
  apply stm_bind_Ok in H as (au & s1 & Hau & H). destruct au as [au|]; [|done]. apply query_res_Ok in Hau as [Hau ->].
  destruct (approval_terms a) as [[[[e s'] t] q']|] eqn:Et; [|done].
  destruct (ad_entry_price au) as [e0|] eqn:E1; [|done]. destruct (ad_stop_loss_price au) as [s0|] eqn:E2; [|done].
  destruct (ad_take_profit_price au) as [t0|] eqn:E3; [|done].
  apply stm_bind_Ok in H as (same & s2 & Hsa & H). apply lift_res_Ok in Hsa as [Hsa ->]. destruct same; [|done]. cbn [negb] in H.
  apply stm_bind_Ok in H as (live & s2 & Hli & H). destruct (live_price_guard _ _ _ _) eqn:Eg; [done|].
  apply stm_bind_Ok in H as (sound & s4 & Hso & H). apply lift_res_Ok in Hso as [Hso ->]. destruct sound; [|done]. cbn [negb] in H.
  apply stm_bind_Ok in H as (far & s5 & Hfa & H). apply lift_res_Ok in Hfa as [Hfa ->]. destruct far; [done|].
  apply stm_bind_Ok in H as (ex & s6 & Hex & H). apply query_res_Ok in Hex as [Hex ->].
  destruct (bool_decide_reflect (ex = Some q')) as [->|]; [|done]. cbn [negb] in H.
  apply stm_bind_Ok in H as (ok & s7 & Hok & H). destruct ok; [|done]. injection H as <- <- _ <-. apply risk_quantity_approved in Hex.
  intros r now s3 <- <- Hc. split; [done|].
  exists au, e0, s0, t0, s', t, live, s2, s7, s3. by split_and!.
Qed.

Lemma execute_approved_sends s i a x now (st : sys W) :
  sends_from id (fun r => rq_symbol r = s /\ rq_side r = BUY /\ approval_evidence s i a x now st r)
    (execute_approved_entry sum_real group_row exn_text g c s i a x now) st.
Proof.
  unfold execute_approved_entry. cbv zeta. apply sends_then; [apply approved_problem_quiet|]. intros p s1 Hp.
  destruct p as [r|[[entry q] did]]; [quiet_send|]. pose proof (approved_problem_ok _ _ _ _ _ _ _ _ _ Hp) as H.
  send_then ok s2 Hok. destruct ok; cbn [negb]; [|quiet_send].
  lift_then r Hr. apply limit_order_Ok in Hr as (H1 & H2 & H3 & H4 & _). injection H2 as H2.
  apply sends_last; [|intros b; quiet_walk]. eapply sends_weaken; [|apply submit_sends]. intros r0 ->. cbn [sm_request].
  split_and!; try done. by eapply H.
Qed.

Lemma in_cycle_Ok {A} (m : stm (sys W) A) (s s1 : cycle) a : in_cycle m s = (Ok a, s1) -> m (cy_sys s) = (Ok a, cy_sys s1).
Proof. unfold in_cycle. destruct (m (cy_sys s)) as [r s']. by intros [= -> <-]. Qed.

Lemma before_ai_ready s l dl (st s1 : sys W) pre : before_ai c clock current_time client s l dl st = (Ok (inr pre), s1) ->
  (l = [] -> ai_network client = false) /\ exists now, in_time dl st s1 now /\ freshness_reason s now c (s_db s1) = Ok None /\
    latest_tick s (s_db s1) = Ok (Some pre).
Proof.
  unfold before_ai. destruct (match l with [] => ai_network client | _ => false end) eqn:El; [done|]. intros H.
  apply stm_bind_Ok in H as (now & s2 & Hn & H). destruct (deadline_reached now dl) eqn:Ed; [done|].
  apply stm_bind_Ok in H as (f & s3 & Hf & H). apply query_res_Ok in Hf as [Hf ->]. destruct f; [done|].
  apply stm_bind_Ok in H as (t & s3 & Ht & H). apply query_res_Ok in Ht as [Ht ->]. destruct t as [t|]; [|done]. injection H as -> ->.
  split; [by destruct l|]. by exists now.
Qed.

Lemma after_ai_decision s l pre d dl (st st' : sys W) : after_ai c clock current_time client s l pre d dl st = (Ok None, st') ->
  exists now s1 b, in_time dl st s1 now /\ record_decision d now s1 = (Ok b, st') /\
    response_guard_reason c s pre now d (s_db st') = Ok None /\ decision_problem s (ai_network client) l d = None.
Proof.
  unfold after_ai. intros H. apply stm_bind_Ok in H as (now & s1 & Hn & H). apply stm_bind_Ok in H as (b & s2 & Hb & H).
  destruct (deadline_reached now dl) eqn:Ed; [done|]. apply stm_bind_Ok in H as (r & s3 & Hr & H). apply query_res_Ok in Hr as [Hr ->].
  destruct r; [done|]. injection H as H <-. by exists now, s1, b.
Qed.

Lemma decision_for s n l d : decision_problem s n l d = None -> td_symbol d = s /\ td_action d = ActBuy.
Proof.
  unfold decision_problem. destruct (String.eqb_spec (td_symbol d) s) as [|]; [|done].
  destruct (bool_decide_reflect (td_action d = ActBuy)) as [|]; [|done]. done.
Qed.

Lemma enter_by_ai_sends s i rid f now dl (st : cycle) :
  sends_from cy_sys (fun r => rq_symbol r = s /\ rq_side r = BUY /\ decision_evidence s i f dl (cy_sys st) r)
    (enter_by_ai sum_real group_row exn_text g c clock current_time client s i rid f now dl) st.
Proof.
  unfold enter_by_ai. pose proof before_ai_quiet. pose proof after_ai_quiet.
  cycle_then o s1 H1. apply in_cycle_Ok, query_res_Ok in H1 as [H1 H1']. destruct o; [cycle_quiet|].
  cycle_then l s2 H2. apply lift_res_Ok in H2 as [H2 ->]. cycle_then asked s3 H3. apply in_cycle_Ok in H3. destruct asked as [r|pre]; [cycle_quiet|].
  apply before_ai_ready in H3 as (Hl & asked_at & H3). rewrite H1' in H3.
  cycle_then u s4 H4. assert (H4' : cy_sys s4 = cy_sys s3) by by injection H4 as _ <-.
  cycle_then d s5 H5. apply in_cycle_Ok in H5. rewrite H4' in H5. cycle_then p s6 Hp. destruct p; [cycle_quiet|].
  apply in_cycle_Ok, after_ai_decision in Hp as (answered_at & t3 & b & Hi & Hr & Hg & Hp). apply sends_in_cycle.
  apply act_on_decision_sends; [done|]. split; [|by eapply decision_for].
  exists l, pre, asked_at, answered_at, (cy_sys s3), (cy_sys s5), t3, b. by destruct H3 as (? & ? & ?).
Qed.

(** What [maybe_enter_position] reads from [s]: a snapshot of the bars, the approval
    of the last bar, and the ground of the order. *)
Definition entry_evidence (symbol : string) (now : datetime) (deadline : option datetime) (s : sys W) (r : KisOrderRequest) : Prop :=
  rq_symbol r = symbol /\ rq_side r = BUY /\ exists bars snapshot latest older approval s1,
    load_bars symbol (Some 120) (s_db s) = Ok bars /\ rev (latest_contiguous_session_bars bars) = latest :: older /\
    build_feature_snapshot float_sum (latest_contiguous_session_bars bars) 20 = Ok (Some snapshot) /\
    current_approval (approval_request_id symbol (mb_start latest)) now s = (Ok approval, s1) /\
    match approval with
    | None => decision_evidence symbol (entry_signal_id symbol (mb_start latest)) snapshot deadline s1 r
    | Some a => ar_status a = "APPROVED" /\ exists late s2, in_time deadline s1 s2 late /\
        approval_evidence symbol (entry_signal_id symbol (mb_start latest)) a (latest_close snapshot) now s2 r
    end.

Lemma maybe_enter_sends s now dl (st : cycle) : sends_from cy_sys (entry_evidence s now dl (cy_sys st))
  (maybe_enter_position float_sum sum_real group_row exn_text g c clock current_time client s now dl) st.
Proof.
  unfold maybe_enter_position. pose proof current_approval_quiet. cycle_then l s1 H1. apply in_cycle_Ok, query_res_Ok in H1 as [H1 H1'].
  cbv zeta. cycle_then f s2 H2. apply lift_res_Ok in H2 as [H2 ->].
  destruct f as [f|]; [|cycle_quiet]. destruct (rev _) as [|b bs] eqn:Er; [cycle_quiet|]. cycle_then a s3 H3.
  apply in_cycle_Ok in H3. rewrite H1' in H3.
  destruct a as [a|].
  - destruct (String.eqb (ar_status a) "PENDING"); [cycle_quiet|].
    destruct (String.eqb_spec (ar_status a) "APPROVED") as [Ha|]; [|cycle_quiet]. cycle_then late s4 H4.
    destruct (deadline_reached late dl) eqn:Ed; [cycle_quiet|]. apply in_cycle_Ok in H4. apply sends_in_cycle.
    eapply sends_weaken; [|apply execute_approved_sends]. intros r (A1 & A2 & A3). split_and!; try done.
    exists l, f, b, bs, (Some a), (cy_sys s3). split_and!; try done. exists late, (cy_sys s4). by split_and!.
  - eapply sends_weaken; [|apply enter_by_ai_sends]. intros r (A1 & A2 & A3). split_and!; try done.
    by exists l, f, b, bs, None, (cy_sys s3).
Qed.

Variables paused confirmed : bool.

(** What was checked before an order of the symbol in the pass that starts at [s]. *)
Record order_evidence (symbol : string) (deadline : option datetime) (s : sys W) (r : KisOrderRequest) : Prop := mkOrderEvidence {
  oe_checked : exists now s1, in_time deadline s s1 now /\
    (ac_enforce_market_hours c = true -> is_regular_market_open calendar now = true) /\
    emergency_stop (s_db s1) = false /\ freshness_reason symbol now c (s_db s1) = Ok None /\
    (exit_evidence symbol now s1 r \/
     list_open_live_positions (Some symbol) (s_db s1) = [] /\ paused = false /\ (ac_require_confirmation c = true -> confirmed = true) /\
       is_new_entry_window calendar now = true /\
       exists late s2, in_time deadline s1 s2 late /\ entry_evidence symbol now deadline s2 r);
}.

Lemma process_symbol_sends s dl (st : cycle) : sends_from cy_sys (order_evidence s dl (cy_sys st))
  (process_symbol calendar float_sum sum_real group_row exn_text g c clock current_time client paused confirmed s dl) st.
Proof.
  unfold process_symbol. cycle_then now s1 H1. apply in_cycle_Ok in H1. destruct (deadline_reached now dl) eqn:Ed; [cycle_quiet|].
  destruct (_ && negb _) eqn:Eo; [cycle_quiet|]. cycle_then b s2 H2. apply in_cycle_Ok in H2. injection H2 as H2 H2'.
  destruct b; [cycle_quiet|]. cycle_then f s3 H3. apply in_cycle_Ok, query_res_Ok in H3 as [H3 H3']. destruct f; [cycle_quiet|].
  rewrite <- H2' in *. 
  assert (Ho : ac_enforce_market_hours c = true -> is_regular_market_open calendar now = true).
  { intros Hc. rewrite Hc in Eo. by destruct (is_regular_market_open calendar now). }
  apply sends_branch.
  - apply sends_in_cycle. eapply sends_weaken; [|apply maybe_exit_sends]. rewrite H3'. intros x E. split. exists now, (cy_sys s1).
    split_and!; try done. by left.
  - intros a. in_quiet.
  - intros s4 H4. apply in_cycle_Ok, maybe_exit_none in H4 as [H4 Hl]. rewrite H3' in Hl, H4.
    split; [by rewrite H4, H3'|]. cycle_then ps s5 H5. apply in_cycle_Ok in H5. injection H5 as _ H5. rewrite H4 in H5.
    destruct ps; [|cycle_quiet]. destruct paused eqn:Epa; [cycle_quiet|].
    destruct (_ && negb confirmed) eqn:Ec; [cycle_quiet|]. destruct (is_new_entry_window calendar now) eqn:Ew; cbn [negb]; [|cycle_quiet].
    cycle_then late s6 H6. apply in_cycle_Ok in H6. destruct (deadline_reached late dl) eqn:El; [cycle_quiet|].
    eapply sends_weaken; [|apply maybe_enter_sends]. intros x E. split. exists now, (cy_sys s1). split_and!; try done. right. split_and!; try done.
    + intros Hc. rewrite Hc in Ec. by destruct confirmed.
    + exists late, (cy_sys s6). split; [|done]. split; [by rewrite H5|done].
Qed.
End Evidence.

(** ** What a pass returns *)

(** What [m] returns when it does not raise. *)
Definition returns {S A} (P : A -> Prop) (m : stm S A) : Prop := forall s a s', m s = (Ok a, s') -> P a.

Section Returns.
Context {S A : Type} (P : A -> Prop).

Lemma returns_ret a : P a -> returns P (mret a : stm S A).
Proof. by intros Ha s b s' [= <- _]. Qed.

Lemma returns_then {B} (m : stm S B) (f : B -> stm S A) : (forall b, returns P (f b)) -> returns P (mbind f m).
Proof. intros Hf s a s' H. apply stm_bind_Ok in H as (b & s1 & _ & H). by eapply Hf. Qed.

Lemma returns_bind {B} (Q : B -> Prop) (m : stm S B) (f : B -> stm S A) : returns Q m -> (forall b, Q b -> returns P (f b)) ->
  returns P (mbind f m).
Proof. intros Hm Hf s a s' H. apply stm_bind_Ok in H as (b & s1 & Hb & H). eapply Hf; [|exact H]. by eapply Hm. Qed.
End Returns.

Lemma returns_in_cycle {W A} (P : A -> Prop) (m : stm (sys W) A) : returns P m -> returns P (in_cycle m).
Proof. intros Hm s a s' H. unfold in_cycle in H. destruct (m (cy_sys s)) as [x s1] eqn:E. injection H as -> _. by eapply Hm. Qed.

(** A result of a symbol: an order with its number, or a reason not to send one. *)
Record result_of (symbol : string) (r : AutoTradeSymbolResult) : Prop := mkResultOf {
  ro_symbol : sr_symbol r = symbol;
  ro_blocked : sr_blocked r = negb (sr_submitted r);
  ro_number : sr_submitted r = true <-> is_Some (sr_broker_order_id r);
  ro_action : sr_submitted r = true -> sr_action r = "BUY" \/ sr_action r = "SELL";
}.

Lemma blocked_result s r : result_of s (symbol_blocked s r).
Proof. split; try done. cbn. split; [done|]. by intros [? ?]. Qed.

Definition submission_ok (r : submission_result) : Prop := sb_submitted r = true <-> is_Some (sb_broker_order_id r).

Lemma order_result_of s side q r : submission_ok r -> side = "BUY" \/ side = "SELL" -> result_of s (order_result s side q r).
Proof. intros H1 H2. by split. Qed.

Ltac returns_step tac := first
  [ solve [tac]
  | solve [eauto using blocked_result]
  | apply returns_ret; solve [eauto using blocked_result, order_result_of]
  | match goal with |- returns _ (match ?x with _ => _ end) => destruct x end
  | match goal with |- returns _ (let _ := _ in _) => cbv zeta end
  | apply returns_then; intros ? ].
Ltac returns_walk := repeat returns_step fail.

Section ResultFacts.
Context {W : Type} {CW : Clock W} {SW : Submitter W}.
Variable calendar : option (Z -> bool).
Variables float_sum sum_real : list float -> float.
Variable group_row : paper_fill -> list paper_fill -> paper_fill.
Variable exn_text : exn -> string.
Variable g : given W.
Variable c : AutoTradeConfig.
Variable clock : option (W -> datetime * W).
Variable current_time : option datetime.
Variable client : ai_client W.

Lemma submit_returns a : returns submission_ok (submit_with_ledger (W := W) exn_text a).
Proof.
  assert (Hn : forall r, submission_ok (mkSubmission false r None)) by (intros r; split; [done|by intros [? ?]]).
  assert (Hu : forall e, returns submission_ok (order_unknown (W := W) a e)) by (intros e; unfold order_unknown; returns_walk).
  unfold submit_with_ledger. apply returns_then. intros [|]; [|by apply returns_ret]. apply returns_then. intros x.
  unfold record_answer. destruct x as [b|e]; [|apply Hu]. destruct (or_broker_order_id b) as [[|ch l]|]; [apply Hu| |apply Hu].
  do 2 (apply returns_then; intros ?). apply returns_ret. by split.
Qed.

Lemma order_returns s side q a (k : submission_result -> stm (sys W) unit) : side = "BUY" \/ side = "SELL" ->
  returns (result_of s) (result ← submit_with_ledger exn_text a; _ ← k result; mret (order_result s side q result)).
Proof.
  intros Hs. eapply returns_bind; [apply submit_returns|]. intros r Hr. apply returns_then. intros _. apply returns_ret.
  by apply order_result_of.
Qed.

Lemma exit_due_returns s p reason x now : returns (result_of s) (exit_due exn_text g c s p reason x now).
Proof.
  assert (H : forall p l, returns (result_of s) (sell_position (W := W) exn_text g s p reason l now)).
  { intros p' l. unfold sell_position. do 2 (apply returns_then; intros ?). apply order_returns. by right. }
  unfold exit_due. returns_walk.
Qed.

Lemma maybe_exit_returns s now :
  returns (fun o => match o with Some r => result_of s r | None => True end) (maybe_exit_position calendar exn_text g c s now).
Proof.
  unfold maybe_exit_position. apply returns_then. intros [|p l]; [by apply returns_ret|].
  do 2 (apply returns_then; intros ?). destruct (match b with Some _ => _ | None => _ end); [|returns_walk].
  apply returns_then; intros o. destruct (exit_reason _ _ _ _ _); [|returns_walk].
  eapply returns_bind; [apply exit_due_returns|]. intros r Hr. by apply returns_ret.
Qed.

Lemma execute_approved_returns s i a x now : returns (result_of s) (execute_approved_entry sum_real group_row exn_text g c s i a x now).
Proof.
  unfold execute_approved_entry. apply returns_then. intros [r|[[e q] d]]; [returns_walk|]. apply returns_then. intros [|]; [|returns_walk].
  apply returns_then. intros r. eapply returns_bind; [apply submit_returns|]. intros b Hb. apply returns_then. intros _.
  apply returns_then. intros _. apply returns_ret, order_result_of; [done|by left].
Qed.

Lemma act_on_decision_returns s i rid d x now dl :
  returns (result_of s) (act_on_decision sum_real group_row exn_text g c clock current_time s i rid d x now dl).
Proof. unfold act_on_decision, request_approval, buy_entry. repeat returns_step ltac:(apply order_returns; auto). Qed.

Lemma maybe_enter_returns s now dl :
  returns (result_of s) (maybe_enter_position float_sum sum_real group_row exn_text g c clock current_time client s now dl).
Proof.
  pose proof (fun i a x => execute_approved_returns s i a x now) as H1.
  pose proof (fun i rid d x => act_on_decision_returns s i rid d x now dl) as H2.
  unfold maybe_enter_position, enter_by_ai. returns_walk; apply returns_in_cycle; auto.
Qed.

Variables paused confirmed : bool.

Lemma process_symbol_returns s dl : returns (result_of s)
  (process_symbol calendar float_sum sum_real group_row exn_text g c clock current_time client paused confirmed s dl).
Proof.
  unfold process_symbol. pose proof (maybe_enter_returns s) as H. apply returns_then. intros now. destruct (deadline_reached _ _); [returns_walk|].
  destruct (_ && _); [returns_walk|]. apply returns_then. intros [|]; [returns_walk|]. apply returns_then. intros [f|]; [returns_walk|].
  eapply returns_bind; [apply returns_in_cycle, maybe_exit_returns|]. intros [r|] Hr; [by apply returns_ret|]. returns_walk.
Qed.
End ResultFacts.

(** ** The whole cycle *)

(** The calls of the model: at most [n]. *)
Definition asks {W} (n : Z) (s s' : cycle (W := W)) : Prop := cy_ai_calls s <= cy_ai_calls s' <= cy_ai_calls s + n.

Section Run.
Context {W : Type} {CW : Clock W} {SW : Submitter W} {allowed : KisOrderRequest -> db -> Prop} {SL : SubmitterLaw W allowed}.
Variable calendar : option (Z -> bool).
Variables float_sum sum_real : list float -> float.
Variable group_row : paper_fill -> list paper_fill -> paper_fill.
Variable exn_text : exn -> string.
Variable g : given W.
Variable c : AutoTradeConfig.
Variable clock : option (W -> datetime * W).
Variable current_time : option datetime.
Variable client : ai_client W.
Variables paused confirmed : bool.

Let symbol_result := symbol_result calendar float_sum sum_real group_row exn_text g c clock current_time client paused confirmed.
Let process_symbol := process_symbol calendar float_sum sum_real group_row exn_text g c clock current_time client paused confirmed.
Let run := run_auto_trade_cycle calendar float_sum sum_real group_row exn_text g c clock current_time client paused confirmed.

Lemma asks_in_cycle {A} (m : stm (sys W) A) : keeps (asks 0) (in_cycle m).
Proof. intros s. unfold in_cycle, asks. destruct (m (cy_sys s)). cbn. lia. Qed.

Lemma asks_ret {A} n (a : A) : 0 <= n -> keeps (asks (W := W) n) (mret a).
Proof. intros Hn s. unfold asks. cbn. lia. Qed.

Lemma asks_lift {A} n (r : res A) : 0 <= n -> keeps (asks (W := W) n) (lift_res r).
Proof. intros Hn s. unfold asks. cbn. lia. Qed.

Lemma asks_weaken {A} n k (m : stm cycle A) : n <= k -> keeps (asks (W := W) n) m -> keeps (asks k) m.
Proof. intros Hn Hm s. specialize (Hm s). unfold asks in *. lia. Qed.

Lemma asks_bind {A B} n k (m : stm cycle A) (f : A -> stm cycle B) : 0 <= k -> keeps (asks (W := W) n) m ->
  (forall a, keeps (asks k) (f a)) -> keeps (asks (n + k)) (mbind f m).
Proof.
  intros Hk Hm Hf s. unfold mbind, stm_bind. specialize (Hm s). destruct (m s) as [[a|e] s1]; cbn [snd] in *.
  - specialize (Hf a s1). unfold asks in *. lia.
  - unfold asks in *. lia.
Qed.

(** A step that asks nothing first. *)
Lemma asks_then {A B} k (m : stm cycle A) (f : A -> stm cycle B) : 0 <= k -> keeps (asks (W := W) 0) m ->
  (forall a, keeps (asks k) (f a)) -> keeps (asks k) (mbind f m).
Proof. intros Hk. rewrite <- (Z.add_0_l k). by apply asks_bind. Qed.

Ltac asks_walk := repeat first
  [ solve [auto]
  | apply asks_ret; lia
  | solve [apply (asks_weaken 0); [lia|apply asks_in_cycle]]
  | apply asks_then; [lia|solve [apply asks_in_cycle|apply asks_lift; lia]|intros ?]
  | match goal with |- keeps _ (match ?x with _ => _ end) => destruct x end
  | match goal with |- keeps _ (let _ := _ in _) => cbv zeta end ].

Lemma process_symbol_asks s dl : keeps (asks 1) (process_symbol s dl).
Proof.
  assert (H : forall i r f now, keeps (asks 1) (enter_by_ai sum_real group_row exn_text g c clock current_time client s i r f now dl)).
  { intros i r f now. unfold enter_by_ai. asks_walk. apply (asks_bind 1 0); [lia| |intros ?; asks_walk].
    intros st. unfold asks, count_ai_call. cbn. lia. }
  unfold process_symbol, AutoTrade.process_symbol, maybe_enter_position. asks_walk.
Qed.

Lemma notify_Ok text (s : sys W) : exists s', notify g text s = (Ok tt, s').
Proof.
  unfold notify. destruct (gv_notifier g) as [n|]; [|by eexists]. unfold mbind, stm_bind, attempt.
  destruct (on_world _ s) as [r s']. by eexists.
Qed.

(** A symbol always has its result. *)
Lemma symbol_result_Ok dl l s st : exists r st', symbol_result dl l s st = (Ok (l ++ [r]), st') /\ result_of s r /\ asks 1 st st'.
Proof.
  unfold symbol_result, AutoTrade.symbol_result. fold process_symbol. pose proof (process_symbol_asks s dl st) as Ha.
  destruct (process_symbol s dl st) as [[r|e] s1] eqn:E; cbn [snd] in Ha.
  - exists r, s1. split_and!; try done. by eapply process_symbol_returns.
  - destruct (notify_Ok (s +:+ " cycle error: " +:+ exn_name e) (cy_sys s1)) as [s2 Hn]. do 2 eexists. split_and!.
    + unfold mbind, stm_bind, in_cycle. rewrite Hn. reflexivity.
    + apply blocked_result.
    + done.
Qed.

Lemma fold_results dl l acc st : exists rs st', foldM (symbol_result dl) acc l st = (Ok (acc ++ rs), st') /\
  Forall2 result_of l rs /\ asks (len l) st st'.
Proof.
  revert acc st. induction l as [|s l IH]; intros acc st; cbn [foldM].
  - exists [], st. rewrite app_nil_r. split_and!; [done|constructor|]. unfold asks, len. cbn. lia.
  - destruct (symbol_result_Ok dl acc s st) as (r & s1 & E & Hr & H1). destruct (IH (acc ++ [r]) s1) as (rs & s2 & E2 & Hrs & H2).
    exists (r :: rs), s2. unfold mbind, stm_bind. rewrite E, E2, <- app_assoc. split_and!; [done|by constructor|].
    unfold asks, len in *. cbn [length]. lia.
Qed.

(** What precedes the loop reads the database and sends nothing. *)
Lemma start_spec symbols (s : sys W) : match cycle_start c clock current_time symbols s with
  | (Ok (dl, todo), s0) => s_db s0 = s_db s /\ s_trace s0 = s_trace s /\ todo = symbols_to_process symbols (s_db s)
  | (Err _, s0) => s_db s0 = s_db s /\ s_trace s0 = s_trace s
  end.
Proof.
  unfold cycle_start, mbind, stm_bind, query, gets, lift_res. destruct (validate_config c) as [[]|e]; [|done].
  assert (Hc : exists t s0, (match current_time with Some t => mret (as_kst t) | None => clock_now clock current_time end) s = (Ok t, s0) /\
    s_db s0 = s_db s /\ s_trace s0 = s_trace s).
  { destruct current_time as [t|]; [by exists (as_kst t), s|]. unfold clock_now. destruct (now_provider _ _ _) as [t w]. by do 2 eexists. }
  destruct Hc as (t & s0 & -> & Hd & Ht). destruct (cycle_deadline c t) as [dl|e]; [|done].
  unfold symbols_to_process. by rewrite <- Hd.
Qed.

(** The run: nothing when it cannot start, else its loop. *)
Lemma run_spec symbols (s : sys W) :
  (exists e s0, cycle_start c clock current_time symbols s = (Err e, s0) /\ run symbols s = (Err e, s0) /\
     s_db s0 = s_db s /\ s_trace s0 = s_trace s) \/
  exists s0 dl, cycle_start c clock current_time symbols s = (Ok (dl, symbols_to_process symbols (s_db s)), s0) /\
    s_db s0 = s_db s /\ s_trace s0 = s_trace s /\
    run symbols s = process_all calendar float_sum sum_real group_row exn_text g c clock current_time client paused confirmed
                      dl (symbols_to_process symbols (s_db s)) s0.
Proof.
  pose proof (start_spec symbols s) as H. unfold run, run_auto_trade_cycle, mbind, stm_bind.
  destruct (cycle_start c clock current_time symbols s) as [[[dl todo]|e] s0].
  - destruct H as (Hd & Ht & ->). right. by exists s0, dl.
  - left. by exists e, s0.
Qed.

Lemma run_trades symbols (s : sys W) : trades allowed (length (symbols_to_process symbols (s_db s))) s (run symbols s).2.
Proof.
  destruct (run_spec symbols s) as [(e & s0 & _ & -> & Hd & Ht)|(s0 & dl & _ & Hd & Ht & ->)].
  - eapply trades_weaken; [|cbn [snd]; apply trades_quiet; [by rewrite Hd|done]]. lia.
  - eapply (trades_trans 0); [apply trades_quiet; [by rewrite Hd|done]|]. unfold process_all.
    pose proof (fold_trades calendar float_sum sum_real group_row exn_text g c clock current_time client paused confirmed dl
      (symbols_to_process symbols (s_db s)) [] (mkCycle s0 0)) as H.
    by destruct (foldM _ _ _ _) as [r s'].
Qed.

(** The state in which the pass over each symbol starts *)
Fixpoint symbol_starts (dl : option datetime) (acc : list AutoTradeSymbolResult) (todo : list string) (st : cycle)
    : list (string * sys W) :=
  match todo with
  | [] => []
  | symbol :: l =>
      (symbol, cy_sys st) ::
        match symbol_result dl acc symbol st with
        | (Ok acc', st') => symbol_starts dl acc' l st'
        | (Err _, _) => []
        end
  end.

(** What a pass over a symbol sends: nothing, or one order with its evidence. *)
Definition pass_sends (dl : option datetime) (start : string * sys W) (es : list (broker_call * db)) : Prop :=
  es = [] \/ exists r d, es = [(SubmitCall r, d)] /\
    order_evidence calendar float_sum sum_real group_row g c clock current_time client paused confirmed start.1 dl start.2 r.

Lemma symbol_result_evidence dl l s st : exists es, s_trace (cy_sys (symbol_result dl l s st).2) = s_trace (cy_sys st) ++ es /\
  pass_sends dl (s, cy_sys st) es.
Proof.
  pose proof (process_symbol_sends calendar float_sum sum_real group_row exn_text g c clock current_time client paused confirmed s dl st) as H.
  assert (Ht : s_trace (cy_sys (symbol_result dl l s st).2) = s_trace (cy_sys (process_symbol s dl st).2)).
  { unfold symbol_result, AutoTrade.symbol_result. fold process_symbol. destruct (process_symbol s dl st) as [[r|e] s1]; [done|].
    unfold mbind, stm_bind, in_cycle. pose proof (notify_quiet_step g (s +:+ " cycle error: " +:+ exn_name e) (cy_sys s1)) as [_ Hn].
    by destruct (notify g _ (cy_sys s1)) as [[[]|x] s2]. }
  rewrite Ht. unfold process_symbol. destruct H as [H|(r & d & H & Hr)]; rewrite H; [exists []; rewrite app_nil_r; split; [done|by left]|].
  eexists. split; [done|]. right. by exists r, d.
Qed.

Lemma fold_evidence dl l acc st : exists parts,
  s_trace (cy_sys (foldM (symbol_result dl) acc l st).2) = s_trace (cy_sys st) ++ concat parts /\
  Forall2 (pass_sends dl) (symbol_starts dl acc l st) parts.
Proof.
  revert acc st. induction l as [|s l IH]; intros acc st; cbn [foldM symbol_starts]; [exists []; split; [by rewrite app_nil_r|constructor]|].
  destruct (symbol_result_evidence dl acc s st) as (e1 & T1 & H1).
  unfold mbind, stm_bind. destruct (symbol_result dl acc s st) as [[b|e] s1]; cbn [snd] in T1 |- *.
  - destruct (IH b s1) as (parts & -> & H2). exists (e1 :: parts). cbn [concat]. rewrite T1, <- app_assoc. split; [done|by constructor].
  - exists [e1]. cbn [concat]. rewrite T1, app_nil_r. split; [done|]. constructor; [done|constructor].
Qed.

Lemma run_evidence symbols (s : sys W) : match cycle_start c clock current_time symbols s with
  | (Ok (dl, todo), s0) => todo = symbols_to_process symbols (s_db s) /\ exists parts,
      s_trace (run symbols s).2 = s_trace s ++ concat parts /\ Forall2 (pass_sends dl) (symbol_starts dl [] todo (mkCycle s0 0)) parts
  | (Err _, _) => s_trace (run symbols s).2 = s_trace s
  end.
Proof.
  destruct (run_spec symbols s) as [(e & s0 & -> & -> & _ & Ht)|(s0 & dl & -> & _ & Ht & ->)]; [done|]. split; [done|].
  unfold process_all. rewrite <- Ht.
  destruct (fold_evidence dl (symbols_to_process symbols (s_db s)) [] (mkCycle s0 0)) as (parts & H & He). exists parts.
  unfold symbol_result in H. destruct (foldM _ _ _ _) as [r s']. done.
Qed.
End Run.

(** ** The calls of the model *)

Section Counting.
Context {W : Type} {CW : Clock W} {SW : Submitter W}.
Variable calendar : option (Z -> bool).
Variables float_sum sum_real : list float -> float.
Variable group_row : paper_fill -> list paper_fill -> paper_fill.
Variable exn_text : exn -> string.
Variable g : given W.
Variable c : AutoTradeConfig.
Variable clock : option (W -> datetime * W).
Variable current_time : option datetime.
Variable client : ai_client W.
Variables paused confirmed : bool.

(** How often the model was asked up to a state of the world. *)
Variable asked : W -> Z.
Definition unasked (w w' : W) : Prop := asked w' = asked w.

(** [asked] counts the calls of the model, whether they return or raise, and nothing
    else that the cycle is given moves it. *)
Record counts_asks : Prop := mkCountsAsks {
  ca_model : forall x w, asked (ai_decide client x w).2 = asked w + 1;
  ca_wall : forall w, unasked w (wall_clock w).2;
  ca_clock : forall f w, clock = Some f -> unasked w (f w).2;
  ca_notifier : forall n, gv_notifier g = Some n -> (forall t, keeps unasked (nt_send n t)) /\
    forall f, nt_send_approval n = Some f -> forall i t, keeps unasked (f i t);
  ca_budget : forall f, gv_entry_budget g = Some f -> forall x p q, keeps unasked (f x p q);
  ca_post_ai_price : forall f, gv_post_ai_price g = Some f -> forall x, keeps unasked (f x);
  ca_exit_price : forall f, gv_exit_price g = Some f -> forall x, keeps unasked (f x);
  ca_submitter : forall r (s : sys W), unasked (s_world s) (s_world (submit_order_by r s).2);
}.

Definition idle (s s' : sys W) : Prop := unasked (s_world s) (s_world s').
(** The calls made are the calls counted. *)
Definition counted (st st' : cycle) : Prop :=
  asked (s_world (cy_sys st')) - cy_ai_calls st' = asked (s_world (cy_sys st)) - cy_ai_calls st.

#[local] Instance idle_preorder : PreOrder idle.
Proof. split; [done|]. unfold idle, unasked. intros s1 s2 s3 -> ->. done. Qed.

#[local] Instance counted_preorder : PreOrder counted.
Proof. split; [done|]. unfold counted. intros s1 s2 s3 -> ->. done. Qed.

Hypothesis Hasked : counts_asks.

Lemma idle_on_db {A} (f : datetime -> db -> res (A * db)) : keeps idle (on_db f).
Proof.
  intros s. unfold on_db, idle. pose proof (ca_wall Hasked (s_world s)) as H. destruct (wall_clock (s_world s)) as [t w].
  by destruct (f t (s_db s)) as [[a d]|e].
Qed.

Lemma idle_on_world {A} (m : stm W A) : keeps unasked m -> keeps idle (on_world m).
Proof. intros Hm s. unfold on_world, idle. specialize (Hm (s_world s)). by destruct (m (s_world s)). Qed.

Lemma idle_query_res {A} (f : db -> res A) : keeps idle (query_res f).
Proof. by intros s. Qed.

Lemma idle_clock_now ct : keeps idle (clock_now clock ct).
Proof.
  intros s. unfold clock_now, now_provider, idle. destruct clock as [f|] eqn:E.
  - pose proof (ca_clock Hasked f (s_world s) E) as H. by destruct (f (s_world s)).
  - destruct ct; [done|]. pose proof (ca_wall Hasked (s_world s)) as H. by destruct (wall_clock (s_world s)).
Qed.

Ltac idle_walk := repeat first
  [ solve [eauto]
  | apply keeps_bind; [exact _| |intros ?]
  | apply keeps_ret; exact _
  | apply keeps_lift; exact _
  | apply keeps_query; exact _
  | apply keeps_attempt
  | apply idle_on_db
  | apply idle_query_res
  | apply idle_clock_now
  | match goal with |- keeps _ (match ?x with _ => _ end) => destruct x end
  | match goal with |- keeps _ (let _ := _ in _) => cbv zeta end ].

Lemma idle_notify text : keeps idle (notify g text).
Proof.
  unfold notify. destruct (gv_notifier g) as [n|] eqn:E; [|idle_walk].
  pose proof (fun t => idle_on_world _ (proj1 (ca_notifier Hasked n E) t)). idle_walk.
Qed.

Lemma idle_notify_approval i text : keeps idle (notify_approval g i text).
Proof.
  unfold notify_approval. destruct (gv_notifier g) as [n|] eqn:E; [|idle_walk].
  destruct (ca_notifier Hasked n E) as [H1 H2]. apply keeps_bind; [exact _| |intros ?; idle_walk].
  apply keeps_attempt, idle_on_world. destruct (nt_send_approval n) as [f|] eqn:Ef; [by apply H2|apply H1].
Qed.

Lemma idle_budget x p q : keeps idle (entry_budget_ok g x p q).
Proof.
  unfold entry_budget_ok. destruct (gv_entry_budget g) as [f|] eqn:E; [|idle_walk].
  pose proof (idle_on_world _ (ca_budget Hasked f E x p q)). idle_walk.
Qed.

Lemma idle_live_price x : keeps idle (live_price (gv_post_ai_price g) x).
Proof.
  unfold live_price. destruct (gv_post_ai_price g) as [f|] eqn:E; [|idle_walk].
  pose proof (idle_on_world _ (ca_post_ai_price Hasked f E x)). idle_walk.
Qed.

Lemma idle_exit_price x p : keeps idle (exit_price g x p).
Proof.
  unfold exit_price. destruct (gv_exit_price g) as [f|] eqn:E; [|idle_walk].
  pose proof (idle_on_world _ (ca_exit_price Hasked f E x)). idle_walk.
Qed.

Lemma idle_submit a : keeps idle (submit_with_ledger exn_text a).
Proof.
  assert (Hs : forall r, keeps idle (submit_order_by r)) by (intros r s; apply (ca_submitter Hasked)).
  unfold submit_with_ledger, claim_and_mark, record_answer, order_unknown, record_execution_audit. idle_walk.
Qed.

Lemma idle_maybe_exit x now : keeps idle (maybe_exit_position calendar exn_text g c x now).
Proof.
  pose proof idle_notify. pose proof idle_exit_price. pose proof idle_submit.
  unfold maybe_exit_position, exit_due, sell_position, set_metadata_now. idle_walk.
Qed.

Lemma idle_execute_approved x i a p now : keeps idle (execute_approved_entry sum_real group_row exn_text g c x i a p now).
Proof.
  pose proof idle_notify. pose proof idle_live_price. pose proof idle_budget. pose proof idle_submit.
  unfold execute_approved_entry, approved_entry_problem, finish_request. idle_walk.
Qed.

Lemma idle_act_on_decision x i rid d p now dl :
  keeps idle (act_on_decision sum_real group_row exn_text g c clock current_time x i rid d p now dl).
Proof.
  pose proof idle_notify. pose proof idle_notify_approval. pose proof idle_live_price. pose proof idle_budget. pose proof idle_submit.
  unfold act_on_decision, request_approval, buy_entry. idle_walk.
Qed.

Lemma idle_before_ai x l dl : keeps idle (before_ai c clock current_time client x l dl).
Proof. unfold before_ai. idle_walk. Qed.

Lemma idle_after_ai x l pre d dl : keeps idle (after_ai c clock current_time client x l pre d dl).
Proof. unfold after_ai, record_decision. idle_walk. Qed.

Lemma idle_current_approval i now : keeps idle (current_approval (W := W) i now).
Proof. unfold current_approval. idle_walk. Qed.

Lemma counted_in_cycle {A} (m : stm (sys W) A) : keeps idle m -> keeps counted (in_cycle m).
Proof.
  intros Hm st. unfold in_cycle, counted. specialize (Hm (cy_sys st)). unfold idle, unasked in Hm.
  destruct (m (cy_sys st)) as [r s']. cbn in *. lia.
Qed.

(** The count is raised just before the model is asked. *)
Lemma counted_ask {A} x (f : TradingAIDecision -> stm cycle A) : (forall d, keeps counted (f d)) ->
  keeps counted (_ ← count_ai_call; d ← in_cycle (on_world (ai_decide client x)); f d).
Proof.
  intros Hf st. unfold mbind, stm_bind, count_ai_call, in_cycle, on_world. cbn [cy_sys].
  pose proof (ca_model Hasked x (s_world (cy_sys st))) as H. destruct (ai_decide client x (s_world (cy_sys st))) as [[d|e] w].
  - etrans; [|apply Hf]. unfold counted. cbn in *. lia.
  - unfold counted. cbn in *. lia.
Qed.

Ltac counted_walk := repeat first
  [ solve [eauto]
  | apply counted_ask; intros ?
  | apply keeps_bind; [exact _| |intros ?]
  | apply keeps_ret; exact _
  | apply keeps_lift; exact _
  | apply counted_in_cycle; solve [idle_walk]
  | match goal with |- keeps _ (match ?x with _ => _ end) => destruct x end
  | match goal with |- keeps _ (let _ := _ in _) => cbv zeta end ].

Lemma counted_process x dl : keeps counted
  (process_symbol calendar float_sum sum_real group_row exn_text g c clock current_time client paused confirmed x dl).
Proof.
  pose proof idle_before_ai. pose proof idle_after_ai. pose proof idle_act_on_decision. pose proof idle_current_approval.
  pose proof idle_execute_approved. pose proof idle_maybe_exit.
  assert (forall i r f now, keeps counted (enter_by_ai sum_real group_row exn_text g c clock current_time client x i r f now dl)).
  { intros. unfold enter_by_ai. counted_walk. }
  unfold process_symbol, maybe_enter_position. counted_walk.
Qed.

Lemma counted_fold dl l acc : keeps counted
  (foldM (symbol_result calendar float_sum sum_real group_row exn_text g c clock current_time client paused confirmed dl) acc l).
Proof.
  revert acc. induction l as [|x l IH]; intros acc; cbn [foldM]; [apply keeps_ret, _|]. apply keeps_bind; [exact _| |done].
  intros st. unfold symbol_result. pose proof (counted_process x dl st) as H.
  destruct (process_symbol _ _ _ _ _ _ _ _ _ _ _ _ _ _ st) as [[r|e] s1]; cbn [snd] in H; [done|].
  etrans; [exact H|]. apply (keeps_bind counted); [apply counted_in_cycle, idle_notify|intros; apply keeps_ret, _].
Qed.

Lemma idle_start symbols : keeps idle (cycle_start c clock current_time symbols).
Proof. unfold cycle_start. idle_walk. Qed.
End Counting.

(** ** Approvals that are refused *)

Ltac read_walk := repeat first
  [ apply keeps_bind; [exact _| |intros ?]
  | apply keeps_ret; exact _
  | apply keeps_lift; exact _
  | apply keeps_query; exact _
  | apply keeps_attempt
  | apply keeps_on_world; exact _
  | match goal with |- keeps _ (match ?x with _ => _ end) => destruct x end
  | match goal with |- keeps _ (let _ := _ in _) => cbv zeta end ].

(** Checking the terms of an approval writes nothing. *)
Lemma approved_problem_reads {W} sum_real group_row (g : given W) c s i a x :
  keeps (db_rel eq) (approved_entry_problem sum_real group_row g c s i a x).
Proof. unfold approved_entry_problem, query_res, live_price, entry_budget_ok. read_walk. Qed.

(** A request that is not being consumed is not finished. *)
Lemma finish_not_consuming id b now t d r d' : status_of id d <> Some "CONSUMING" ->
  finish_approval_request id b now t d = Ok (r, d') -> d' = d.
Proof.
  unfold finish_approval_request, status_of. intros Hs H. apply bind_Ok in H as ([] & _ & H). cbv zeta in H. injection H as H.
  unfold update_request in H. destruct (t_approvals d !! id) as [a|]; [|by injection H].
  unfold has_status in H. cbn in Hs. destruct (String.eqb_spec (ar_status a) "CONSUMING") as [E|E]; [by rewrite E in Hs|by injection H].
Qed.

Section Properties.
Context {W : Type} {CW : Clock W} {SW : Submitter W} {allowed : KisOrderRequest -> db -> Prop} {SL : SubmitterLaw W allowed}.
Variable calendar : option (Z -> bool).
Variables float_sum sum_real : list float -> float.
Variable group_row : paper_fill -> list paper_fill -> paper_fill.
Variable exn_text : exn -> string.
Variable g : given W.
Variable c : AutoTradeConfig.
Variable clock : option (W -> datetime * W).
Variable current_time : option datetime.
Variable client : ai_client W.
Variables paused confirmed : bool.

(** C3: through any lawful submitter, a cycle sends at most one order per symbol it
    processes, and every order is sent soundly: its client identifier was not in
    the ledger before the cycle and is the order's own, and at the moment of the
    call the ledger holds its row, in status SUBMITTING without an order number
    and with the symbol, side, quantity and price of the request; the submitter
    allowed it; and the row is still there at the end.  The ledger stays well
    formed. *)
Theorem cycle_sends_soundly symbols (s : sys W) :
  ledger_ok (s_db s) ->
  let s' := (run_auto_trade_cycle calendar float_sum sum_real group_row exn_text g c clock current_time client paused confirmed symbols s).2 in
  ledger_ok (s_db s') /\
  exists es, s_trace s' = s_trace s ++ map sent_call es /\ (length es <= length (symbols_to_process symbols (s_db s)))%nat /\
    NoDup (map sn_id es) /\ forall e, e ∈ es -> sent_soundly allowed (s_db s) (s_db s') e.
Proof.
  intros Hd. destruct (run_trades (SL := SL) calendar float_sum sum_real group_row exn_text g c clock current_time client paused confirmed
    symbols s) as [H1 _ H2]. by split; [apply H1|].
Qed.

(** C6: the orders of a cycle are those of its passes over the symbols, in their
    order and at most one of each, and each order has its evidence in the very
    states of its pass: read by the clock before the deadline, with the market
    open, and with no emergency stop and fresh market data in the database of that
    moment, it is one of three.  The SELL of the whole of an open position that is
    due to be closed by the last price, at the price planned from the price check,
    without another unresolved SELL and within the limit of attempts.  Or, with no
    position, not paused, confirmed and in the entry window, the BUY of a confident
    decision that the model gives in this pass on the snapshot of the bars, and
    that needs no approval; or that of an approved request of the last bar, whose
    terms still are those audited and which is consumed just before: in both cases
    with the price close to the live and the snapshot price, a sound risk and
    reward, and the quantity the risk engine approves on the portfolio then, within
    the budget.  A cycle that cannot start sends nothing. *)
Theorem cycle_orders_have_evidence symbols (s : sys W) :
  let s' := (run_auto_trade_cycle calendar float_sum sum_real group_row exn_text g c clock current_time client paused confirmed symbols s).2 in
  match cycle_start c clock current_time symbols s with
  | (Ok (dl, todo), s0) => todo = symbols_to_process symbols (s_db s) /\ exists parts,
      s_trace s' = s_trace s ++ concat parts /\
      Forall2 (pass_sends calendar float_sum sum_real group_row g c clock current_time client paused confirmed dl)
        (symbol_starts calendar float_sum sum_real group_row exn_text g c clock current_time client paused confirmed dl [] todo (mkCycle s0 0))
        parts
  | (Err _, _) => s_trace s' = s_trace s
  end.
Proof. apply (run_evidence (SL := SL)). Qed.

(** C23: with a valid configuration a cycle always returns a report, whatever fails
    while a symbol is processed: one result per symbol, in their order and each
    either submitted with its order number or blocked.  The report counts the calls
    of the model, those that raise included, at most one per symbol: any measure of
    the world that each call of the model raises by one, and nothing else moves,
    has risen by the count of the report. *)
Theorem cycle_always_reports (asked : W -> Z) symbols (s : sys W) :
  counts_asks g clock client asked ->
  validate_config c = Ok tt -> (forall x, ac_cycle_deadline_seconds c = Some x -> is_ok (timedelta_seconds x) = true) ->
  let '(r, s') := run_auto_trade_cycle calendar float_sum sum_real group_row exn_text g c clock current_time client paused confirmed symbols s in
  exists report, r = Ok report /\ Forall2 result_of (symbols_to_process symbols (s_db s)) (cr_results report) /\
    asked (s_world s') = asked (s_world s) + cr_ai_call_count report /\
    0 <= cr_ai_call_count report <= len (symbols_to_process symbols (s_db s)).
Proof.
  intros Hasked Hv Hdl. pose proof (idle_start g c clock current_time client asked Hasked symbols s) as Hi.
  destruct (run_spec calendar float_sum sum_real group_row exn_text g c clock current_time client paused confirmed symbols s)
    as [(e & s0 & Hs & _)|(s0 & dl & Hs & _ & _ & ->)]; rewrite Hs in Hi.
  - exfalso. unfold cycle_start, mbind, stm_bind, query, gets, lift_res in Hs. rewrite Hv in Hs.
    assert (Ht : exists t s1, (match current_time with Some t => mret (as_kst t) | None => clock_now clock current_time end) s = (Ok t, s1)).
    { destruct current_time; [by do 2 eexists|]. unfold clock_now. destruct (now_provider _ _ _). by do 2 eexists. }
    destruct Ht as (t & s1 & Et). rewrite Et in Hs. unfold cycle_deadline in Hs. destruct (ac_cycle_deadline_seconds c) as [x|]; [|done].
    specialize (Hdl x eq_refl). by destruct (timedelta_seconds x).
  - unfold process_all. destruct (fold_results calendar float_sum sum_real group_row exn_text g c clock current_time client paused confirmed dl
      (symbols_to_process symbols (s_db s)) [] (mkCycle s0 0)) as (rs & st' & E & Hr & Ha).
    pose proof (counted_fold calendar float_sum sum_real group_row exn_text g c clock current_time client paused confirmed asked Hasked dl
      (symbols_to_process symbols (s_db s)) [] (mkCycle s0 0)) as Hc. rewrite E in Hc |- *. eexists. split; [done|].
    unfold counted, asks, idle, unasked in *. cbn in *. split_and!; [done|lia|lia|lia].
Qed.
End Properties.

(** C29: with the guarded submitter, while no other process writes, every order that
    a cycle sends passes the gate on the very database of the call: not paused,
    in the expected environment, no emergency stop, holding the service lease,
    the market open, and the checks of the side. *)
Theorem guarded_cycle_passes_gate {W} {BW : Broker W} calendar float_sum sum_real group_row exn_text (g : given W) c clock current_time
    client paused confirmed se dp e so dp' ee oi ln gd symbols (s : sys W) :
  new_guard se dp e so dp' ee oi ln = Ok gd ->
  exists es, s_trace (run_auto_trade_cycle (SW := guarded_submitter calendar exn_text gd) calendar float_sum sum_real group_row exn_text
      g c clock current_time client paused confirmed symbols s).2 = s_trace s ++ map sent_call es /\
    forall x, x ∈ es -> gate_passed calendar gd (sn_request x) (sn_db x).
Proof.
  intros Hg. apply new_guard_lease in Hg. destruct (run_trades (SL := guarded_law calendar exn_text gd Hg) calendar float_sum sum_real
    group_row exn_text g c clock current_time client paused confirmed symbols s) as [_ _ (es & H1 & _ & _ & H2)].
  exists es. split; [done|]. intros x Hx. by destruct (H2 x Hx).
Qed.

(** Fact: an approved entry that fails a check is blocked with the reason of the
    check, nothing is sent, and the approval is left as it was: it is still
    APPROVED, although the code asks for it to be finished as failed, because
    finishing acts on a request that is being consumed only. *)
Theorem refused_entry_keeps_approval {W} {CW : Clock W} {SW : Submitter W} sum_real group_row exn_text (g : given W) c
    symbol signal_id a close now reason (s s1 : sys W) :
  status_of (ar_request_id a) (s_db s) = Some "APPROVED" ->
  approved_entry_problem sum_real group_row g c symbol signal_id a close s = (Ok (inl reason), s1) ->
  let '(r, s') := execute_approved_entry sum_real group_row exn_text g c symbol signal_id a close now s in
  s_db s' = s_db s /\ s_trace s' = s_trace s /\ (sempty (strip (ar_request_id a)) = false -> r = Ok (symbol_blocked symbol reason)).
Proof.
  intros Hs Hp. pose proof (approved_problem_reads sum_real group_row g c symbol signal_id a close s) as [Hd Ht]. rewrite Hp in Hd, Ht.
  cbn [snd] in Hd, Ht. rewrite Hd, <- Ht. unfold execute_approved_entry, finish_request, on_db, mbind, stm_bind. rewrite Hp.
  destruct (wall_clock (s_world s1)) as [t w]. destruct (finish_approval_request _ _ _ t (s_db s1)) as [[b d]|e] eqn:E; cbn.
  - split_and!; try done. eapply finish_not_consuming; [|exact E]. rewrite <- Hd, Hs. done.
  - split_and!; try done. intros Hi. unfold finish_approval_request, require_nonempty in E. by rewrite Hi in E.
Qed.

(** ** Witnesses *)

(** Wednesday 2023-11-15, thirty seconds past ten, ticks and bars up to date. *)
Definition w_open : datetime := Datetime 1700042430000000 (Some KST).
Definition w_bar (k : Z) : MinuteBar :=
  mkBar "005930" (Datetime (1700042340000000 - k * us_per_minute) None) (f_of_Z 70000) (f_of_Z 70100) (f_of_Z 69900) (f_of_Z 70000) 100.
Definition w_saved (b : MinuteBar) (d : db) : db := or_else (match save_bar b d with Ok d' => Some d' | Err _ => None end) d.
Definition w_market : db :=
  match save_tick (mkTick "005930" (Datetime 1700042425000000 None) (f_of_Z 70000) 5) None w_open
    (foldr w_saved (init_schema empty_db) (map w_bar [0; 1; 2])) with Ok d => d | Err _ => empty_db end.

(** A model that buys at 70000, and a broker that acknowledges. *)
Definition w_buy : TradingAIDecision :=
  mkDecision "d1" "005930" ActBuy None None None (f_ratio 8 10) (Some (f_of_Z 70000)) (Some (f_of_Z 71100))
    (Some (f_of_Z 69400)) (Some 600) RiskNormal false "breakout" w_open.
Definition w_model : ai_client unit := mkAiClient false (fun _ => mret w_buy).
#[local] Instance w_cycle_broker {W} : Broker W := {|
  broker_clock u := (w_open, u);
  today_orders := mret [];
  account_snapshot := raise (OtherError "unused");
  cancel_at_broker q := raise (OtherError "unused");
  submit_at_broker r := mret (mkOrderResult (rq_symbol r) (rq_side r) (rq_quantity r) (rq_price r) (rq_order_type r) "VTTC0012U" (Some "b1"));
|}.
Definition w_total (l : list float) : float := foldl fadd fzero l.
Definition w_group (f : paper_fill) (_ : list paper_fill) : paper_fill := f.
Definition w_given : given unit := mkGiven None None None None None.
Definition w_config : AutoTradeConfig := default_auto_config.

(** The cycle through a submitter, over a database *)
#[local] Notation w_cycle sw d :=
  (run_auto_trade_cycle (SW := sw) (Some (fun _ => true)) w_total w_total w_group exn_name w_given w_config (Some (fun u => (w_open, u))) None
     w_model false true ["005930"; "005930"] (mkSys d tt [])).

Lemma w_market_ok : ledger_ok w_market.
Proof. apply (same_ledger_ok (init_schema empty_db)); [by split; vm_compute|apply empty_ledger_ok]. Qed.

Definition w_order : KisOrderRequest := mkOrderRequest "005930" BUY 1 (f_of_Z 70000) LIMIT "KRX" "" "".

Lemma cycle_sends_soundly_witness : exists e : sent,
  map fst (s_trace (w_cycle client_submitter w_market).2) = [SubmitCall w_order] /\ s_trace (w_cycle client_submitter w_market).2 = [sent_call e] /\
  get_order (sn_id e) w_market = None.
Proof.
  pose proof (cycle_sends_soundly (SL := client_law) (Some (fun _ => true)) w_total w_total w_group exn_name w_given w_config
    (Some (fun u => (w_open, u))) None w_model false true ["005930"; "005930"] (mkSys w_market tt []) w_market_ok) as H.
  cbv zeta in H.
  destruct H as (_ & es & H1 & _ & _ & H2).
  assert (Ht : map fst (s_trace (w_cycle client_submitter w_market).2) = [SubmitCall w_order]) by (vm_compute; reflexivity).
  rewrite H1 in Ht |- *. destruct es as [|e [|e' l]]; [discriminate| |discriminate].
  exists e. split; [exact Ht|]. split; [reflexivity|]. exact (ss_new _ _ _ _ (H2 e (list_elem_of_here e []))).
Defined.

Lemma cycle_orders_have_evidence_witness : map fst (s_trace (w_cycle client_submitter w_market).2) = [SubmitCall w_order] /\ exists dl s0,
  order_evidence (Some (fun _ => true)) w_total w_total w_group w_given w_config (Some (fun u => (w_open, u))) None w_model false true
    "005930" dl s0 w_order.
Proof.
  pose proof (cycle_orders_have_evidence (SL := client_law) (Some (fun _ => true)) w_total w_total w_group exn_name w_given w_config
    (Some (fun u => (w_open, u))) None w_model false true ["005930"; "005930"] (mkSys w_market tt [])) as H. cbv zeta in H.
  assert (Ht : map fst (s_trace (w_cycle client_submitter w_market).2) = [SubmitCall w_order]) by (vm_compute; reflexivity).
  split; [exact Ht|]. destruct (cycle_start _ _ _ _ _) as [[[dl todo]|e] s0]; [|by rewrite H in Ht].
  destruct H as (-> & parts & H1 & H2). change (symbols_to_process _ _) with ["005930"] in H2. cbn [symbol_starts] in H2.
  inversion H2 as [|x es l l' Hp Hl]; subst. rewrite H1 in Ht. clear H1 H2.
  assert (Hl' : l' = []) by (destruct (symbol_result _ _ _ _ _ _ _ _ _ _ _ _ _ _ _ _) as [[?|?] ?]; by inversion Hl).
  rewrite Hl' in Ht. destruct Hp as [->|(r & d & -> & Hp)]; [discriminate Ht|]. injection Ht as Hr. rewrite Hr in Hp.
  exists dl, s0. exact Hp.
Defined.

(** A model whose calls are counted by the world, and which fails: the symbol still has
    its result, and the call is counted. *)
Definition w_counting : ai_client Z := mkAiClient false (fun _ n => (Err (OtherError "model"), n + 1)).
#[local] Notation w_counted :=
  (run_auto_trade_cycle (Some (fun _ => true)) w_total w_total w_group exn_name (mkGiven None None None None None) w_config
    (Some (fun n => (w_open, n))) None w_counting false true ["005930"; "005930"] (mkSys w_market 7 [])).

Lemma cycle_always_reports_witness : exists report,
  w_counted.1 = Ok report /\ map sr_symbol (cr_results report) = ["005930"] /\ s_world w_counted.2 = 7 + cr_ai_call_count report /\
  cr_ai_call_count report = 1.
Proof.
  pose proof (cycle_always_reports (Some (fun _ => true)) w_total w_total w_group exn_name (mkGiven None None None None None) w_config
    (Some (fun n => (w_open, n))) None w_counting false true id ["005930"; "005930"] (mkSys w_market 7 [])) as H.
  assert (Hw : s_world w_counted.2 = 8) by (vm_compute; reflexivity).
  destruct w_counted as [r s'].
  destruct H as (report & -> & H2 & H3 & _).
  - split; try done. by intros f w [= <-].
  - vm_compute. reflexivity.
  - intros x [= <-]. vm_compute. reflexivity.
  - change (symbols_to_process _ _) with ["005930"] in *. cbn in Hw, H3. exists report. split; [reflexivity|].
    split; [|split; [exact H3|lia]]. inversion H2 as [|? r ? l [Hr _ _ _] Hl]; subst. inversion Hl; subst. cbn. by rewrite Hr.
Defined.

(** The service that holds the lease, ten minutes long. *)
Definition w_service : db :=
  w_unpaused (put_lease SERVICE_LEASE_NAME (mkLease "owner-1" (iso w_open) (iso w_open) (iso (dt_add w_open (600 * us_per_second)))) w_market).

Lemma guarded_cycle_passes_gate_witness : exists e : sent,
  map fst (s_trace (w_cycle (guarded_submitter (Some (fun _ => true)) exn_name w_guard) w_service).2) = [SubmitCall w_order] /\
  sn_request e = w_order /\ gate_passed (Some (fun _ => true)) w_guard w_order (sn_db e).
Proof.
  assert (Hg : new_guard (Some "demo") (Some "db") None (Some "owner-1") None None None SERVICE_LEASE_NAME = Ok w_guard)
    by (vm_compute; reflexivity).
  destruct (guarded_cycle_passes_gate (Some (fun _ => true)) w_total w_total w_group exn_name w_given w_config
    (Some (fun u => (w_open, u))) None w_model false true _ _ _ _ _ _ _ _ w_guard ["005930"; "005930"] (mkSys w_service tt []) Hg)
    as (es & H1 & H2).
  assert (Ht : map fst (s_trace (w_cycle (guarded_submitter (Some (fun _ => true)) exn_name w_guard) w_service).2)
    = [SubmitCall w_order]) by (vm_compute; reflexivity).
  pose proof Ht as Ht'. rewrite H1 in Ht'. destruct es as [|e l]; [discriminate|]. injection Ht' as Hr _.
  exists e. split; [exact Ht|]. split; [exact Hr|]. rewrite <- Hr. exact (H2 e (list_elem_of_here e l)).
Defined.

(** An approval for another symbol. *)
Lemma refused_entry_keeps_approval_witness : exists a, t_approvals DbApprovals.w_approved !! "r1" = Some a /\ ar_status a = "APPROVED" /\
  (execute_approved_entry w_total w_group exn_name w_given w_config "000660" "s" a (f_of_Z 70000) w_open (mkSys DbApprovals.w_approved tt [])).1
    = Ok (symbol_blocked "000660" "approval_signal_mismatch").
Proof.
  destruct (t_approvals DbApprovals.w_approved !! "r1") as [a|] eqn:E; [|vm_compute in E; discriminate].
  exists a. split; [reflexivity|]. split; [vm_compute in E; by injection E as <-|].
  pose proof (refused_entry_keeps_approval w_total w_group exn_name w_given w_config "000660" "s" a (f_of_Z 70000) w_open
    "approval_signal_mismatch" (mkSys DbApprovals.w_approved tt []) (mkSys DbApprovals.w_approved tt [])) as H.
  destruct (execute_approved_entry _ _ _ _ _ _ _ _ _ _ _) as [r s']. destruct H as (_ & _ & H).
  - vm_compute in E. injection E as <-. vm_compute. reflexivity.
  - vm_compute in E. injection E as <-. vm_compute. reflexivity.
  - apply H. vm_compute in E. injection E as <-. reflexivity.
Defined.
