(* ===== verification/Sha256.v ===== *)
(** * SHA-256 ([hashlib.sha256])

    The hash of the standard library, on bytes as characters of a string: 32-bit
    words are integers below 2^32. *)

From S2P Require Import Prelude PyStr PyJson.

Definition word (z : Z) : Z := z mod 4294967296.
Definition rotr (n z : Z) : Z := Z.lor (Z.shiftr z n) (word (Z.shiftl z (32 - n))).

(** The constants of the standard are the first 32 bits of the fractional parts
    of roots of the first primes: cube roots for the rounds, square roots for
    the initial state. *)
Definition is_prime (n : Z) : bool :=
  forallb (fun k => negb (n mod Z.of_nat k =? 0)) (seq 2 (Z.to_nat n - 2)).
Definition primes_below (n : nat) : list Z := List.filter is_prime (map Z.of_nat (seq 2 (n - 2))).

(** The largest [x] between [lo] and [lo + 2^bits] with [x^3 <= z]. *)
Fixpoint cube_root (bits : nat) (lo z : Z) : Z :=
  match bits with
  | O => lo
  | S b => let mid := lo + Z.shiftl 1 (Z.of_nat b) in
           cube_root b (if mid * mid * mid <=? z then mid else lo) z
  end.

Definition ROUND_CONSTANTS : list Z :=
  map (fun p => word (cube_root 35 0 (Z.shiftl p 96))) (primes_below 312).
Definition INITIAL_HASH : list Z :=
  map (fun p => word (Z.sqrt (Z.shiftl p 64))) (primes_below 20).

(** The message with its padding: a 1 bit, zeros, and the length in bits. *)
Definition padded (message : list Z) : list Z :=
  let n := Z.of_nat (length message) in
  message ++ [128] ++ repeat 0 (Z.to_nat ((55 - n) mod 64)) ++
  map (fun k => Z.shiftr (8 * n) (8 * k) mod 256) [7; 6; 5; 4; 3; 2; 1; 0].

Fixpoint words_of (l : list Z) : list Z :=
  match l with
  | a :: b :: c :: d :: l' => a * 16777216 + b * 65536 + c * 256 + d :: words_of l'
  | _ => []
  end.

(** The schedule, latest word first. *)
Fixpoint extend (n : nat) (ws : list Z) : list Z :=
  match n with
  | O => ws
  | S n' =>
      let w k := nth k ws 0 in
      let s0 := Z.lxor (Z.lxor (rotr 7 (w 14%nat)) (rotr 18 (w 14%nat))) (Z.shiftr (w 14%nat) 3) in
      let s1 := Z.lxor (Z.lxor (rotr 17 (w 1%nat)) (rotr 19 (w 1%nat))) (Z.shiftr (w 1%nat) 10) in
      extend n' (word (w 15%nat + s0 + w 6%nat + s1) :: ws)
  end.

Definition round (state : list Z) (kw : Z * Z) : list Z :=
  match state with
  | [a; b; c; d; e; f; g; h] =>
      let s1 := Z.lxor (Z.lxor (rotr 6 e) (rotr 11 e)) (rotr 25 e) in
      let ch := Z.lxor (Z.land e f) (Z.land (word (Z.lnot e)) g) in
      let t1 := word (h + s1 + ch + fst kw + snd kw) in
      let s0 := Z.lxor (Z.lxor (rotr 2 a) (rotr 13 a)) (rotr 22 a) in
      let maj := Z.lxor (Z.lxor (Z.land a b) (Z.land a c)) (Z.land b c) in
      [word (t1 + word (s0 + maj)); a; b; c; word (d + t1); e; f; g]
  | _ => state
  end.

Definition compress (hash block : list Z) : list Z :=
  let ws := rev (extend 48 (rev block)) in
  zip_with (fun x y => word (x + y)) hash (fold_left round (zip ROUND_CONSTANTS ws) hash).

Fixpoint blocks (fuel : nat) (ws : list Z) (hash : list Z) : list Z :=
  match fuel with
  | O => hash
  | S f => match ws with [] => hash | _ => blocks f (drop 16 ws) (compress hash (take 16 ws)) end
  end.

Fixpoint bytes_of (s : string) : list Z :=
  match s with "" => [] | String c t => code c :: bytes_of t end.

Fixpoint hex_of (n : nat) (z : Z) (acc : string) : string :=
  match n with O => acc | S m => hex_of m (z / 16) (String (hex_digit (z mod 16)) acc) end.

(** [hashlib.sha256(text.encode("utf-8")).hexdigest()] *)
Definition sha256_hex (s : string) : string :=
  let ws := words_of (padded (bytes_of s)) in
  fold_right (fun z acc => hex_of 8 z "" +:+ acc) "" (blocks (S (length ws)) ws INITIAL_HASH).

Lemma constants_length : length ROUND_CONSTANTS = 64%nat /\ length INITIAL_HASH = 8%nat.
Proof. vm_compute. done. Qed.

Lemma sha256_abc : sha256_hex "abc" = "ba7816bf8f01cfea414140de5dae2223b00361a396177a9cb410ff61f20015ad".
Proof. vm_compute. reflexivity. Qed.

Lemma sha256_two_blocks : sha256_hex "abcdbcdecdefdefgefghfghighijhijkijkljklmklmnlmnomnopnopq" =
  "248d6a61d20638b8e5c026930c3e6039a33ce45964ff2167f6ecedd419db06c1".
Proof. vm_compute. reflexivity. Qed.
