(* ===== verification/FillNoticeReconciliation.v ===== *)
(** * Fill notices in the local ledger ([pipeline/fill_notice_reconciliation.py])

    One notice of the realtime feed updates at most the one local order with its
    broker number: an acceptance or rejection changes its status, a fill is
    recorded under an identifier derived from the notice and materialised.  Any
    conflict blocks new entries instead.  The stream is the only caller, so the
    statements of one application are not interleaved with other writers. *)

From S2P Require Import Prelude PyStr PyFloat PyTime PyDecimal PyDict PyJson DbCore DbOrders DbRuntime DbLedger DbFrames.
From S2P Require Import KisHttp KisOrder KisOrderStatus KisAccount System SystemFrames Reconciliation FillNotice Sha256.

Definition LAST_REASON_KEY : string := "fill_notice.last_reason".
Definition NONTERMINAL : list string :=
  ["INTENT"; "SUBMITTING"; "ACKNOWLEDGED"; "PARTIALLY_FILLED"; "CANCEL_PENDING"; "UNKNOWN"].
Definition TERMINAL : list string := ["FILLED"; "CANCELLED"; "REJECTED"].

Record FillNoticeApplyResult := mkApplyResult {
  fr_outcome : string;
  fr_blocked : bool;
  fr_client_order_id : option string;
  fr_fill_id : option string;
  fr_materialized : Z;
  fr_reason : option string;
}.

(** [_SAFE_CODE.fullmatch] *)
Definition safe_code (s : string) : bool :=
  negb (sempty s) && sforall (fun c => is_lower c || is_digit c || bool_decide (c = "_"%char)) s.

(** [_safe_reason] *)
Definition apply_error_reason (e : exn) : string :=
  let reason := "fill_apply_" +:+ lower (exn_name e) in
  if safe_code reason then reason else "fill_apply_failed".

(** [_public_identifier] *)
Definition public_identifier (value : string) : option string :=
  if sempty value || (64 <? slen value) || negb (sforall (fun c => negb (is_control c)) value) then None else Some value.

(** [_fill_id] *)
Definition notice_fill_id (n : FillNotice) : string :=
  "kis:fill:" +:+ sha256_hex (join "|"
    [kind_value (fn_kind n); fn_order_no n; fn_original_order_no n; str_int (fn_order_qty n); fn_side n; fn_symbol n;
     str_int (fn_fill_qty n); str_int (fn_fill_price n); fn_fill_time n; fn_receipt_type n; fn_order_kind n;
     fn_reject_flag n; fn_accepted_flag n; str_int (fn_order_price n); fn_exchange_id n]).

(** [_filled_at]; a trading date is a day number. *)
Definition filled_at (fill_time : string) (trading_date : option Z) (received : datetime) : datetime + string :=
  let kst := astimezone received KST in
  let day := or_else trading_date (dt_days kst) in
  if dt_days kst <? day then inr "future_trading_date"
  else if negb (slen fill_time =? 6) || negb (isdigit fill_time) then inr "invalid_fill_time"
  else
    let '(hour, _, _) := digits 0 0 (String.substring 0 2 fill_time) in
    let '(minute, _, _) := digits 0 0 (String.substring 2 2 fill_time) in
    let '(second, _, _) := digits 0 0 (String.substring 4 2 fill_time) in
    if (23 <? hour) || (59 <? minute) || (59 <? second) then inr "invalid_fill_time"
    else
      let value := Datetime (day * us_per_day + ((60 * hour + minute) * 60 + second) * us_per_second) (Some KST) in
      if instant kst <? instant value then inr "future_fill_time" else inl value.

(** [{"02": "BUY", "01": "SELL"}.get(side)] *)
Definition notice_side (side : string) : option string :=
  if String.eqb side "02" then Some "BUY" else if String.eqb side "01" then Some "SELL" else None.

(** [_identity_mismatch] *)
Definition identity_mismatch (local : broker_order) (n : FillNotice) (side : string) : option string :=
  if negb (String.eqb (bo_symbol local) (fn_symbol n)) then Some "symbol_mismatch"
  else if negb (String.eqb (upper (bo_side local)) side) then Some "side_mismatch"
  else if negb (bo_requested_qty local =? fn_order_qty n) then Some "order_quantity_mismatch"
  else if (fn_fill_qty n <? 0) || (negb (bool_decide (fn_kind n = NoticeFilled)) && negb (fn_fill_qty n =? 0))
  then Some "invalid_notice_quantity"
  else None.

(** [_entry_risk] *)
Definition entry_risk (local : broker_order) (d : db) : option risk_terms :=
  signal_id ← bo_signal_id local;
  if sempty signal_id then None
  else
    row ← t_ai_decisions d !! signal_id;
    stop ← ad_stop_loss_price row;
    take ← ad_take_profit_price row;
    holding ← ad_max_holding_seconds row;
    if (fzero <? stop)%F && (fzero <? take)%F && (stop <? take)%F && (0 <? holding)
    then Some (mkRiskTerms (Some stop) (Some take) (Some holding)) else None.

Definition no_risk : risk_terms := mkRiskTerms None None None.

(** [SELECT * FROM broker_orders WHERE broker_order_id=?] *)
Definition orders_numbered (order_no : string) (d : db) : list broker_order :=
  List.filter (fun o => bool_decide (bo_broker_order_id o = Some order_no)) (map snd (map_to_list (t_broker_orders d))).

(** [COALESCE(SUM(quantity), 0)] of the fills of an order *)
Definition existing_fills (client_order_id : string) (d : db) : Z := sum_by bf_quantity (list_broker_fills client_order_id d).

Section Apply.
Context {W : Type} {CW : Clock W}.

(** [_received_at] *)
Definition received_at (value : option datetime) : stm (sys W) datetime :=
  match value with
  | None => t ← read_clock; mret (astimezone t UTC)
  | Some t => mret (if is_naive t then with_tz t (Some KST) else t)
  end.

(** [_blocked] *)
Definition notice_blocked (reason : string) (now : datetime) (client_order_id fill_id : option string)
    : stm (sys W) FillNoticeApplyResult :=
  let reason := if safe_code reason then reason else "fill_notice_blocked" in
  _ ← set_metadata_now "operator_review" "true" (Some now);
  _ ← set_metadata_now "block_new_entries" "true" (Some now);
  _ ← set_metadata_now LAST_REASON_KEY reason (Some now);
  mret (mkApplyResult "blocked" true client_order_id fill_id 0 (Some reason)).

Definition settled_notice (outcome : string) (client_order_id : string) : FillNoticeApplyResult :=
  mkApplyResult outcome false (Some client_order_id) None 0 None.

(** [try: database.update_broker_order_status(...)  except Exception: return _blocked(...)] *)
Definition notice_status (client_order_id status outcome failure : string) (now : datetime) : stm (sys W) FillNoticeApplyResult :=
  updated ← attempt (on_db (update_broker_order_status client_order_id status
                              (mkStatusUpdate None None None None (Some now) None)));
  match updated : res bool with
  | Err _ => notice_blocked failure now (Some client_order_id) None
  | Ok _ => mret (settled_notice outcome client_order_id)
  end.

(** [_apply_accepted] *)
Definition apply_accepted (local : broker_order) (existing : Z) (now : datetime) : stm (sys W) FillNoticeApplyResult :=
  let id := bo_client_order_id local in
  let status := bo_status local in
  let filled := bo_filled_qty local in
  let block reason := notice_blocked reason now (Some id) None in
  if (filled <? 0) || (existing <? 0) || (filled <? existing) then block "fill_ledger_inconsistent"
  else if String.eqb status "CANCEL_PENDING" then mret (settled_notice "ignored" id)
  else if mem_str status ["PARTIALLY_FILLED"; "FILLED"] && (0 <? filled) then mret (settled_notice "ignored" id)
  else if String.eqb status "UNKNOWN" then block "accepted_after_unknown_order"
  else if mem_str status TERMINAL then block "accepted_after_terminal_order"
  else if negb (mem_str status NONTERMINAL) then block "invalid_local_order_status"
  else if negb (filled =? 0) then block "accepted_fill_regression"
  else if negb (String.eqb status "ACKNOWLEDGED")
  then notice_status id "ACKNOWLEDGED" "acknowledged" "accepted_status_update_failed" now
  else mret (settled_notice "acknowledged" id).

(** [_apply_rejected] *)
Definition apply_rejected (local : broker_order) (existing : Z) (now : datetime) : stm (sys W) FillNoticeApplyResult :=
  let id := bo_client_order_id local in
  let status := bo_status local in
  if negb (bo_filled_qty local =? 0) || negb (existing =? 0) then notice_blocked "rejected_order_has_fills" now (Some id) None
  else if String.eqb status "REJECTED" then mret (settled_notice "rejected" id)
  else if mem_str status TERMINAL || String.eqb status "UNKNOWN"
  then notice_blocked "rejected_after_terminal_order" now (Some id) None
  else notice_status id "REJECTED" "rejected" "rejected_status_update_failed" now.

(** [_materialize_if_needed] *)
Definition materialize_if_needed (local : broker_order) (side fill_id : string) : stm (sys W) (option Z) :=
  applied ← query (fun d => t_fill_applications d !! fill_id);
  match applied : option fill_application with
  | Some _ => mret (Some 0)
  | None =>
      risk ← (if String.eqb side "BUY" then query (entry_risk local) else mret (Some no_risk));
      match risk : option risk_terms with
      | None => mret None
      | Some t =>
          n ← attempt (on_db (materialize_order_fills (bo_client_order_id local) t "broker_fill"));
          mret (match n : res Z with Ok n => Some n | Err _ => None end)
      end
  end.

Definition notice_fill (n : FillNotice) (local : broker_order) (order_no side : string) (at_ received : datetime) (price : float)
    : fill_args :=
  mkFillArgs (notice_fill_id n) (bo_client_order_id local) (fn_fill_qty n) price at_ (Some order_no) (Some (fn_symbol n))
    (Some side) (Some received).

(** The body of the [try]: [None] when the fill is already recorded. *)
Definition record_fill (n : FillNotice) (local : broker_order) (order_no side : string) (at_ received : datetime)
    (t : risk_terms) : stm (sys W) (option Z) :=
  price ← lift_res (float_of_int (fn_fill_price n));
  inserted ← on_db (apply_broker_fill (notice_fill n local order_no side at_ received price));
  if inserted : bool then
    m ← on_db (materialize_order_fills (bo_client_order_id local) t "broker_fill");
    mret (Some m)
  else mret None.

(** A fill event for the order [local]. *)
Definition apply_fill_event (n : FillNotice) (local : broker_order) (order_no side : string) (at_ received : datetime)
    : stm (sys W) FillNoticeApplyResult :=
  let id := bo_client_order_id local in
  let fill_id := notice_fill_id n in
  let block reason := notice_blocked reason received (Some id) None in
  existing ← query (fun d => t_broker_fills d !! fill_id);
  match existing : option broker_fill with
  | Some _ =>
      materialized ← materialize_if_needed local side fill_id;
      match materialized : option Z with
      | None => notice_blocked "missing_entry_risk_metadata" received (Some id) (Some fill_id)
      | Some m => mret (mkApplyResult "duplicate" false (Some id) (Some fill_id) m None)
      end
  | None =>
      if (fn_fill_qty n <=? 0) || (fn_fill_price n <=? 0) then block "invalid_fill_values"
      else if bo_requested_qty local <? bo_filled_qty local + fn_fill_qty n then block "fill_quantity_overflow"
      else if mem_str (bo_status local) ["CANCELLED"; "REJECTED"] then block "fill_after_terminal_order"
      else
        risk ← (if String.eqb side "BUY" then query (entry_risk local) else mret (Some no_risk));
        match risk : option risk_terms with
        | None => notice_blocked "missing_entry_risk_metadata" received (Some id) (Some fill_id)
        | Some t =>
            outcome ← attempt (record_fill n local order_no side at_ received t);
            match outcome : res (option Z) with
            | Err e => notice_blocked (apply_error_reason e) received (Some id) (Some fill_id)
            | Ok None => mret (mkApplyResult "duplicate" false (Some id) (Some fill_id) 0 None)
            | Ok (Some m) => mret (mkApplyResult "applied" false (Some id) (Some fill_id) m None)
            end
        end
  end.

Definition apply_fill_notice (n : FillNotice) (trading_date : option Z) (received : option datetime)
    : stm (sys W) FillNoticeApplyResult :=
  received ← received_at received;
  match filled_at (fn_fill_time n) trading_date received with
  | inr date_error => notice_blocked date_error received None None
  | inl at_ =>
      match notice_side (fn_side n) with
      | None => notice_blocked "invalid_side_code" received None None
      | Some side =>
          match public_identifier (fn_order_no n) with
          | None => notice_blocked "invalid_broker_order_id" received None None
          | Some order_no =>
              rows ← query (orders_numbered order_no);
              match rows : list broker_order with
              | [] => notice_blocked "broker_order_not_found" received None None
              | [local] =>
                  let id := bo_client_order_id local in
                  match identity_mismatch local n side with
                  | Some mismatch => notice_blocked mismatch received (Some id) None
                  | None =>
                      existing ← query (existing_fills id);
                      match fn_kind n with
                      | NoticeAccepted => apply_accepted local existing received
                      | NoticeRejected => apply_rejected local existing received
                      | NoticeFilled => apply_fill_event n local order_no side at_ received
                      end
                  end
              | _ => notice_blocked "broker_order_ambiguous" received None None
              end
          end
      end
  end.
End Apply.

(** ** Concrete data *)

#[local] Instance w_stream_clock : Clock unit := fun u => (w_clock, u).
#[local] Instance w_partial_broker : Broker unit := w_broker [w_order 4 (Some (f_of_Z 70000)) PARTIALLY_FILLED] [mkAccountPosition "005930" 4 None None None None None ""].
Definition w_notice : FillNotice :=
  mkFillNotice NoticeFilled "b1" "" 10 "02" "005930" 4 70000 "090000" "CUST01" "12345678" "0" "00" "0" "2" 70000 "KRX".
Definition w_reconciled : sys unit := (reconcile_broker_state (BW := w_partial_broker) None None None None None w_sys).2.
Definition w_applied : res FillNoticeApplyResult * sys unit := apply_fill_notice w_notice None (Some w_clock) w_sys.
Definition w_result : FillNoticeApplyResult := mkApplyResult "applied" false (Some "c1") (Some (notice_fill_id w_notice)) 1 None.
Definition run_result (r : res FillNoticeApplyResult * sys unit) : FillNoticeApplyResult :=
  match r.1 with Ok x => x | Err _ => mkApplyResult "" false None None 0 None end.

(** ** Lemmas *)

Section ApplyFacts.
Context {W : Type} {CW : Clock W}.

(** Entries are blocked for review. *)
Definition flagged (s : sys W) : Prop :=
  get_metadata "operator_review" (s_db s) = Some "true" /\ get_metadata "block_new_entries" (s_db s) = Some "true".

(** A computation that always ends, and one that ends in a sound report. *)
Definition total {A} (m : stm (sys W) A) : Prop := forall s, exists a s', m s = (Ok a, s').
Definition reports (m : stm (sys W) FillNoticeApplyResult) : Prop := forall s, exists r s',
  m s = (Ok r, s') /\ (fr_blocked r = true -> flagged s').

Lemma total_bind {A} (m : stm (sys W) A) f : total m -> (forall a, reports (f a)) -> reports (mbind f m).
Proof. intros Hm Hf s. destruct (Hm s) as (a & s1 & E). rewrite (stm_bind_run _ _ _ _ _ E). apply Hf. Qed.

Lemma total_then {A B} (m : stm (sys W) A) (f : A -> stm (sys W) B) : total m -> (forall a, total (f a)) -> total (mbind f m).
Proof. intros Hm Hf s. destruct (Hm s) as (a & s1 & E). rewrite (stm_bind_run _ _ _ _ _ E). apply Hf. Qed.

Lemma total_ret {A} (a : A) : total (mret a).
Proof. intros s. by exists a, s. Qed.

Lemma total_query {A} (f : db -> A) : total (query f).
Proof. intros s. by eexists _, s. Qed.

Lemma total_attempt {A} (m : stm (sys W) A) : total (attempt m).
Proof. intros s. unfold attempt. destruct (m s) as [r s']. by eexists _, s'. Qed.

Lemma reports_ret r : fr_blocked r = false -> reports (mret r).
Proof. intros Hr s. exists r, s. split; [done|]. by rewrite Hr. Qed.

Lemma blocked_reports reason now c f : reports (notice_blocked reason now c f).
Proof.
  intros s. unfold notice_blocked. set (r := if safe_code reason then _ else _).
  destruct (set_metadata_success "operator_review" "true" (Some now) s) as (t1 & w1 & E1); [done|].
  rewrite (stm_bind_run _ _ _ _ _ E1).
  match type of E1 with _ = (_, ?s1) =>
    destruct (set_metadata_success "block_new_entries" "true" (Some now) s1) as (t2 & w2 & E2); [done|] end.
  rewrite (stm_bind_run _ _ _ _ _ E2).
  match type of E2 with _ = (_, ?s1) =>
    destruct (set_metadata_success LAST_REASON_KEY r (Some now) s1) as (t3 & w3 & E3); [done|] end.
  rewrite (stm_bind_run _ _ _ _ _ E3). eexists _, _. split; [done|]. intros _. unfold flagged. cbn [s_db].
  rewrite !(metadata_put_other LAST_REASON_KEY) by done. rewrite metadata_put_get.
  rewrite metadata_put_other by done. by rewrite metadata_put_get.
Qed.

Lemma received_total v : total (received_at v).
Proof.
  unfold received_at. destruct v as [t|]; [apply total_ret|]. apply total_then; [|intros; apply total_ret].
  intros s. unfold read_clock. destruct (wall_clock (s_world s)) as [t w]. by eexists _, _.
Qed.

Lemma accepted_reports o e now : reports (apply_accepted o e now).
Proof.
  unfold apply_accepted. repeat match goal with |- context [if ?b then _ else _] => destruct b end;
    try apply blocked_reports; try by apply reports_ret.
  unfold notice_status. apply total_bind; [apply total_attempt|]. intros [b|x]; [by apply reports_ret|apply blocked_reports].
Qed.

Lemma rejected_reports o e now : reports (apply_rejected o e now).
Proof.
  unfold apply_rejected. repeat match goal with |- context [if ?b then _ else _] => destruct b end;
    try apply blocked_reports; try by apply reports_ret.
  unfold notice_status. apply total_bind; [apply total_attempt|]. intros [b|x]; [by apply reports_ret|apply blocked_reports].
Qed.

Lemma materialize_total o side id : total (materialize_if_needed o side id).
Proof.
  unfold materialize_if_needed. apply total_then; [apply total_query|]. intros [a|]; [apply total_ret|].
  apply total_then; [destruct (String.eqb side "BUY"); [apply total_query|apply total_ret]|]. intros [t|]; [|apply total_ret].
  apply total_then; [apply total_attempt|]. intros. apply total_ret.
Qed.

Lemma fill_event_reports n o no side at_ r : reports (apply_fill_event n o no side at_ r).
Proof.
  unfold apply_fill_event. apply total_bind; [apply total_query|]. intros [f|].
  - apply total_bind; [apply materialize_total|]. intros [m|]; [by apply reports_ret|apply blocked_reports].
  - repeat match goal with |- context [if ?b then notice_blocked _ _ _ _ else _] => destruct b; [apply blocked_reports|] end.
    apply total_bind; [destruct (String.eqb side "BUY"); [apply total_query|apply total_ret]|].
    intros [t|]; [|apply blocked_reports]. apply total_bind; [apply total_attempt|].
    intros [[m|]|e]; [by apply reports_ret|by apply reports_ret|apply blocked_reports].
Qed.

Lemma apply_reports n td r : reports (apply_fill_notice n td r).
Proof.
  unfold apply_fill_notice. apply total_bind; [apply received_total|]. intros now.
  destruct (filled_at _ td now) as [at_|e]; [|apply blocked_reports].
  destruct (notice_side _) as [side|]; [|apply blocked_reports].
  destruct (public_identifier _) as [no|]; [|apply blocked_reports].
  apply total_bind; [apply total_query|]. intros [|o [|o2 l]]; try apply blocked_reports.
  destruct (identity_mismatch o n side); [apply blocked_reports|].
  apply total_bind; [apply total_query|]. intros e.
  destruct (fn_kind n); [apply fill_event_reports|apply accepted_reports|apply rejected_reports].
Qed.

(** ** What a notice touches *)

Notation frame ids := (db_rel (W := W) (ledger_frame ids)).

Lemma meta_frame ids k v t : keeps (frame ids) (set_metadata_now k v t).
Proof. apply keeps_on_db; [exact _|]. intros. by eapply only_metadata_ledger, metadata_only. Qed.

Lemma blocked_frame ids reason now c f : keeps (frame ids) (notice_blocked reason now c f).
Proof.
  unfold notice_blocked. repeat (apply keeps_bind; [exact _|apply meta_frame|intros _]). apply keeps_ret, _.
Qed.

Lemma received_frame ids v : keeps (frame ids) (received_at v).
Proof.
  unfold received_at. destruct v; [apply keeps_ret, _|].
  apply keeps_bind; [exact _|apply keeps_read_clock, _|intros; apply keeps_ret, _].
Qed.

Lemma status_notice_frame c st out f now : keeps (frame [c]) (notice_status c st out f now).
Proof.
  unfold notice_status. apply keeps_bind; [exact _| |].
  - apply keeps_attempt, keeps_on_db; [exact _|]. intros. by eapply status_frame.
  - intros [b|e]; [apply keeps_ret, _|apply blocked_frame].
Qed.

Lemma materialize_on_frame ids c t : keeps (frame ids) (on_db (materialize_order_fills c t "broker_fill")).
Proof.
  apply keeps_on_db; [exact _|]. intros. eapply ledger_frame_mono; [|by eapply materialize_frame]. set_solver.
Qed.

Lemma fill_event_frame n o no side at_ r :
  keeps (frame [bo_client_order_id o]) (apply_fill_event n o no side at_ r).
Proof.
  unfold apply_fill_event. apply keeps_bind; [exact _|apply keeps_query, _|]. intros [f|].
  - apply keeps_bind; [exact _| |intros [m|]; [apply keeps_ret, _|apply blocked_frame]].
    unfold materialize_if_needed. apply keeps_bind; [exact _|apply keeps_query, _|]. intros [a|]; [apply keeps_ret, _|].
    apply keeps_bind; [exact _|destruct (String.eqb side "BUY"); [apply keeps_query, _|apply keeps_ret, _]|].
    intros [t|]; [|apply keeps_ret, _].
    apply keeps_bind; [exact _|apply keeps_attempt, materialize_on_frame|intros; apply keeps_ret, _].
  - repeat match goal with |- context [if ?b then notice_blocked _ _ _ _ else _] => destruct b; [apply blocked_frame|] end.
    apply keeps_bind; [exact _|destruct (String.eqb side "BUY"); [apply keeps_query, _|apply keeps_ret, _]|].
    intros [t|]; [|apply blocked_frame]. apply keeps_bind; [exact _| |].
    + apply keeps_attempt. unfold record_fill. apply keeps_bind; [exact _|apply keeps_lift, _|intros price].
      apply keeps_bind; [exact _| |].
      * apply keeps_on_db; [exact _|]. intros ? ? ? ? E. by apply fill_frame in E.
      * intros [|]; [|apply keeps_ret, _]. apply keeps_bind; [exact _|apply materialize_on_frame|intros; apply keeps_ret, _].
    + intros [[m|]|e]; [apply keeps_ret, _|apply keeps_ret, _|apply blocked_frame].
Qed.

Lemma orders_numbered_In no o d : ledger_ok d -> o ∈ orders_numbered no d ->
  get_order (bo_client_order_id o) d = Some o /\ bo_broker_order_id o = Some no.
Proof.
  intros Hd Ho. apply list_elem_of_In, filter_In in Ho as [Ho Hb]. apply bool_decide_eq_true in Hb. split; [|done].
  apply in_map_iff in Ho as ([k o'] & E & Hin). cbn in E. subst o'.
  apply list_elem_of_In, elem_of_map_to_list in Hin. unfold get_order. by rewrite (ok_id _ _ (lo_orders _ Hd _ _ Hin)).
Qed.

Lemma identity_match o n side : identity_mismatch o n side = None ->
  bo_symbol o = fn_symbol n /\ upper (bo_side o) = side /\ bo_requested_qty o = fn_order_qty n.
Proof.
  unfold identity_mismatch. destruct (String.eqb_spec (bo_symbol o) (fn_symbol n)); [|done].
  destruct (String.eqb_spec (upper (bo_side o)) side); [|done].
  destruct (Z.eqb_spec (bo_requested_qty o) (fn_order_qty n)); [|done]. intros _. by split_and!.
Qed.

Lemma public_identifier_Some v no : public_identifier v = Some no -> no = v.
Proof. unfold public_identifier. destruct (_ || _); [done|]. by intros [= <-]. Qed.

(** The order a notice may touch. *)
Definition notice_order (n : FillNotice) (d : db) (id : string) : Prop := exists o,
  get_order id d = Some o /\ bo_broker_order_id o = Some (fn_order_no n) /\ bo_symbol o = fn_symbol n /\
  bo_requested_qty o = fn_order_qty n /\ notice_side (fn_side n) = Some (upper (bo_side o)).

Lemma apply_frame n td r (s : sys W) : ledger_ok (s_db s) ->
  frame [] s (apply_fill_notice n td r s).2 \/
  exists id, notice_order n (s_db s) id /\ frame [id] s (apply_fill_notice n td r s).2.
Proof.
  intros Hd. unfold apply_fill_notice. destruct (received_total r s) as (now & s1 & E).
  pose proof (received_frame [] r s) as Hf. rewrite E in Hf. cbn in Hf. rewrite !(stm_bind_run _ _ _ _ _ E). clear E.
  destruct Hf as [Hf Ht]. destruct (Hf Hd) as [Hd1 Htouch].
  assert (Hback : forall ids s', frame ids s1 s' -> frame ids s s').
  { intros ids s' H. etrans; [|exact H]. split; [eapply ledger_frame_mono; [|exact Hf]; set_solver|done]. }
  assert (Hblock : forall reason c f, frame [] s (notice_blocked reason now c f s1).2) by (intros; apply Hback, blocked_frame).
  destruct (filled_at _ td now) as [at_|e]; [|left; apply Hblock].
  destruct (notice_side (fn_side n)) as [side|] eqn:Eside; [|left; apply Hblock].
  destruct (public_identifier (fn_order_no n)) as [no|] eqn:Eno; [|left; apply Hblock].
  apply public_identifier_Some in Eno. subst no.
  rewrite !(stm_bind_run _ _ s1 (orders_numbered (fn_order_no n) (s_db s1)) s1) by done.
  destruct (orders_numbered (fn_order_no n) (s_db s1)) as [|o [|o2 l]] eqn:Erows; try (left; apply Hblock).
  destruct (identity_mismatch o n side) eqn:Em; [left; apply Hblock|]. right. exists (bo_client_order_id o).
  apply identity_match in Em as (H1 & H2 & H3).
  destruct (orders_numbered_In (fn_order_no n) o (s_db s1) Hd1) as [Hg Hb]; [rewrite Erows; apply list_elem_of_here|].
  split.
  - exists o. rewrite <- Hg. rewrite (tc_orders _ _ _ Htouch) by apply not_elem_of_nil. split; [done|]. split_and!; try done.
    by rewrite H2.
  - apply Hback. rewrite (stm_bind_run _ _ s1 (existing_fills (bo_client_order_id o) (s_db s1)) s1) by done.
    destruct (fn_kind n); [apply fill_event_frame| |].
    + unfold apply_accepted. repeat match goal with |- context [if ?b then _ else _] => destruct b end;
        try apply blocked_frame; try apply keeps_ret, _; apply status_notice_frame.
    + unfold apply_rejected. repeat match goal with |- context [if ?b then _ else _] => destruct b end;
        try apply blocked_frame; try apply keeps_ret, _; apply status_notice_frame.
Qed.

(** ** What an applied notice did *)

Lemma not_applied_blocked reason now c f (s s' : sys W) r :
  notice_blocked reason now c f s = (Ok r, s') -> fr_outcome r = "blocked".
Proof.
  unfold notice_blocked. intros H. do 3 (apply stm_bind_Ok in H as (? & ? & _ & H)). by injection H as <- _.
Qed.

(** The recorded fill and its materialisation. *)
Record applied_run (n : FillNotice) (s s' : sys W) (r : FillNoticeApplyResult) (o : broker_order) (d1 : db) : Prop := {
  ar_rows : orders_numbered (fn_order_no n) (s_db s) = [o];
  ar_identity : exists side, notice_side (fn_side n) = Some side /\ identity_mismatch o n side = None;
  ar_public : public_identifier (fn_order_no n) = Some (fn_order_no n);
  ar_kind : fn_kind n = NoticeFilled;
  ar_new : t_broker_fills (s_db s) !! notice_fill_id n = None;
  ar_recorded : exists at_ now price side clock, apply_broker_fill (notice_fill n o (fn_order_no n) side at_ now price) clock (s_db s) = Ok (true, d1);
  ar_materialized : exists t clock, materialize_order_fills (bo_client_order_id o) t "broker_fill" clock d1 = Ok (fr_materialized r, s_db s');
  ar_ids : fr_client_order_id r = Some (bo_client_order_id o) /\ fr_fill_id r = Some (notice_fill_id n);
}.

Lemma fill_event_applied n o side at_ now (s s' : sys W) r :
  apply_fill_event n o (fn_order_no n) side at_ now s = (Ok r, s') -> fr_outcome r = "applied" ->
  t_broker_fills (s_db s) !! notice_fill_id n = None /\
  exists d1 price clock t clock2,
    apply_broker_fill (notice_fill n o (fn_order_no n) side at_ now price) clock (s_db s) = Ok (true, d1) /\
    materialize_order_fills (bo_client_order_id o) t "broker_fill" clock2 d1 = Ok (fr_materialized r, s_db s') /\
    fr_client_order_id r = Some (bo_client_order_id o) /\ fr_fill_id r = Some (notice_fill_id n).
Proof.
  unfold apply_fill_event. intros H Ho.
  rewrite (stm_bind_run _ _ s (t_broker_fills (s_db s) !! notice_fill_id n) s) in H by done.
  destruct (t_broker_fills (s_db s) !! notice_fill_id n) as [f|].
  { apply stm_bind_Ok in H as (m & s1 & _ & H). destruct m as [m|]; [by injection H as <- _|].
    apply not_applied_blocked in H. congruence. }
  repeat match type of H with (if ?b then notice_blocked _ _ _ _ else _) _ = _ =>
    destruct b; [apply not_applied_blocked in H; congruence|] end.
  apply stm_bind_Ok in H as (t & s1 & Et & H).
  assert (Hs1 : s1 = s) by (destruct (String.eqb side "BUY"); by injection Et as _ <-). subst s1.
  destruct t as [t|]; [|apply not_applied_blocked in H; congruence].
  apply stm_bind_Ok in H as (out & s1 & Eout & H).
  destruct out as [[m|]|e]; [|by injection H as <- _|apply not_applied_blocked in H; congruence].
  injection H as <- <-. split; [done|]. unfold attempt in Eout.
  destruct (record_fill n o (fn_order_no n) side at_ now t s) as [out s2] eqn:Er. injection Eout as -> <-.
  unfold record_fill in Er. apply stm_bind_Ok in Er as (price & s3 & Ep & Er). apply stm_bind_Ok in Er as (ins & s4 & Ei & Er).
  unfold lift_res in Ep. injection Ep as _ <-. apply on_db_Ok in Ei as [Ei _].
  destruct ins; [|done]. apply stm_bind_Ok in Er as (m' & s5 & Em & Er). injection Er as -> <-.
  apply on_db_Ok in Em as [Em _]. exists (s_db s4), price, (wall_clock (s_world s)).1, t, (wall_clock (s_world s4)).1.
  by split_and!.
Qed.

Lemma applied_inv n td (rec : option datetime) (s s' : sys W) r :
  apply_fill_notice n td rec s = (Ok r, s') -> fr_outcome r = "applied" -> exists o d1, applied_run n s s' r o d1.
Proof.
  intros H Ho. unfold apply_fill_notice in H. apply stm_bind_Ok in H as (now & s1 & Enow & H).
  assert (Hs1 : s_db s1 = s_db s).
  { unfold received_at in Enow. destruct rec as [t|]; [by injection Enow as _ <-|].
    apply stm_bind_Ok in Enow as (t & s2 & E & Enow). injection Enow as _ <-. unfold read_clock in E.
    destruct (wall_clock _). by injection E as _ <-. }
  destruct (filled_at _ td now) as [at_|e]; [|apply not_applied_blocked in H; congruence].
  destruct (notice_side (fn_side n)) as [side|] eqn:Eside; [|apply not_applied_blocked in H; congruence].
  destruct (public_identifier (fn_order_no n)) as [no|] eqn:Eno; [|apply not_applied_blocked in H; congruence].
  pose proof (public_identifier_Some _ _ Eno) as ->.
  rewrite !(stm_bind_run _ _ s1 (orders_numbered (fn_order_no n) (s_db s1)) s1) in H by done.
  destruct (orders_numbered (fn_order_no n) (s_db s1)) as [|o [|o2 l]] eqn:Erows; try (apply not_applied_blocked in H; congruence).
  destruct (identity_mismatch o n side) eqn:Em; [apply not_applied_blocked in H; congruence|].
  rewrite (stm_bind_run _ _ s1 (existing_fills (bo_client_order_id o) (s_db s1)) s1) in H by done.
  destruct (fn_kind n) eqn:Ek.
  - destruct (fill_event_applied _ _ _ _ _ _ _ _ H Ho) as (Hn & d1 & price & clock & t & clock2 & H1 & H2 & H3).
    rewrite Hs1 in *. exists o, d1. split; try done; eauto 10.
  - exfalso. revert H Ho. unfold apply_accepted.
    repeat match goal with |- context [if ?b then _ else _] => destruct b end;
      try (intros H; apply not_applied_blocked in H; congruence); try (by intros [= <- <-]).
    unfold notice_status. intros H. apply stm_bind_Ok in H as ([b|e] & s2 & _ & H); [by injection H as <- _|].
    apply not_applied_blocked in H. congruence.
  - exfalso. revert H Ho. unfold apply_rejected.
    repeat match goal with |- context [if ?b then _ else _] => destruct b end;
      try (intros H; apply not_applied_blocked in H; congruence); try (by intros [= <- <-]).
    unfold notice_status. intros H. apply stm_bind_Ok in H as ([b|e] & s2 & _ & H); [by injection H as <- _|].
    apply not_applied_blocked in H. congruence.
Qed.
End ApplyFacts.

(** A new fill joins the pending ones of its order. *)
Lemma pending_new_fill a clock d d1 : ledger_ok d -> apply_broker_fill a clock d = Ok (true, d1) -> exists f,
  bf_client_order_id f = fl_client_order_id a /\ bf_fill_id f = fl_fill_id a /\ bf_quantity f = fl_quantity a /\
  (forall o, get_order (fl_client_order_id a) d = Some o -> bf_symbol f = bo_symbol o /\ bf_side f = bo_side o) /\
  pending_fills (fl_client_order_id a) d1 ≡ₚ f :: pending_fills (fl_client_order_id a) d.
Proof.
  intros Hd H. apply apply_broker_fill_Ok in H as (o & Hg & _ & [(? & _)|(_ & Hnew & _ & f & o' & -> & H1 & H2 & H3 & H4 & H5 & _)]); [done|].
  exists f. split; [done|]. split; [done|]. split; [done|]. split; [by intros o2 [= <-]%(eq_trans (eq_sym Hg))|].
  unfold pending_fills, list_broker_fills, rows_by. cbn [t_broker_fills put_order set_orders set_fills].
  assert (Hun : t_fill_applications d !! bf_fill_id f = None).
  { destruct (t_fill_applications d !! bf_fill_id f) as [x|] eqn:E; [|done].
    destruct (lo_applications _ Hd _ _ E) as (g & Hgg & _). rewrite H1 in Hgg. congruence. }
  assert (Hp : map snd (map_to_list (<[fl_fill_id a := f]> (t_broker_fills d))) ≡ₚ f :: map snd (map_to_list (t_broker_fills d))).
  { change (f :: map snd (map_to_list (t_broker_fills d))) with (map snd ((fl_fill_id a, f) :: map_to_list (t_broker_fills d))).
    apply Permutation_map. by rewrite map_to_list_insert. }
  assert (Hs : sort_by (order_leb bf_filled_at bf_fill_id) (map snd (map_to_list (<[fl_fill_id a := f]> (t_broker_fills d)))) ≡ₚ
    f :: sort_by (order_leb bf_filled_at bf_fill_id) (map snd (map_to_list (t_broker_fills d)))).
  { by rewrite !sort_by_perm. }
  apply (filter_perm (fun f0 => String.eqb (bf_client_order_id f0) (fl_client_order_id a))) in Hs.
  cbn [List.filter] in Hs. rewrite H2, String.eqb_refl in Hs.
  apply (filter_perm (unmaterialized d)) in Hs. cbn [List.filter] in Hs.
  assert (Huf : unmaterialized d f = true) by (unfold unmaterialized; by rewrite Hun). rewrite Huf in Hs. exact Hs.
Qed.

(** The orders of a number, after an update that keeps the number. *)
Lemma numbered_update no o o' d :
  orders_numbered no d = [o] -> get_order (bo_client_order_id o) d = Some o ->
  bo_broker_order_id o' = Some no ->
  orders_numbered no (put_order (bo_client_order_id o) o' d) = [o'].
Proof.
  intros H Hg Hb. set (p := fun x => bool_decide (bo_broker_order_id x = Some no)).
  set (m := t_broker_orders d) in *. set (k := bo_client_order_id o) in *.
  assert (Hm : map snd (map_to_list m) ≡ₚ o :: map snd (map_to_list (delete k m))).
  { change (o :: map snd (map_to_list (delete k m))) with (map snd ((k, o) :: map_to_list (delete k m))).
    apply Permutation_map. by rewrite map_to_list_delete. }
  assert (Hn : map snd (map_to_list (<[k := o']> m)) ≡ₚ o' :: map snd (map_to_list (delete k m))).
  { change (o' :: map snd (map_to_list (delete k m))) with (map snd ((k, o') :: map_to_list (delete k m))).
    apply Permutation_map. rewrite <- map_to_list_insert by apply lookup_delete_eq. by rewrite insert_delete_eq. }
  apply (filter_perm p) in Hm, Hn. change (List.filter p (map snd (map_to_list m))) with (orders_numbered no d) in Hm.
  rewrite H in Hm. cbn [List.filter] in Hm, Hn.
  assert (Ho : p o = true).
  { assert (Hin : In o (orders_numbered no d)) by (rewrite H; by left). by apply filter_In in Hin as [_ Hin]. }
  assert (Ho' : p o' = true) by (by apply bool_decide_eq_true). rewrite Ho in Hm. rewrite Ho' in Hn.
  apply (Permutation_cons_inv (l := [])), Permutation_nil in Hm. rewrite Hm in Hn.
  symmetry in Hn. apply Permutation_length_1_inv in Hn. exact Hn.
Qed.

Lemma fill_keeps_number a clock d b d' o x :
  apply_broker_fill a clock d = Ok (b, d') -> get_order (fl_client_order_id a) d = Some o -> bo_broker_order_id o = Some x ->
  exists o', get_order (fl_client_order_id a) d' = Some o' /\ bo_broker_order_id o' = Some x.
Proof.
  unfold apply_broker_fill. intros H Hg Hx. do 7 (apply bind_Ok in H as ([] & _ & H)). cbv zeta in H.
  apply bind_Ok in H as ([] & _ & H). rewrite Hg in H. do 3 (apply bind_Ok in H as ([] & _ & H)).
  destruct (t_broker_fills d !! _); [injection H as _ <-; by exists o|]. apply bind_Ok in H as ([] & _ & H).
  injection H as _ <-. eexists. split; [apply lookup_insert_eq|]. cbn. by rewrite Hx.
Qed.

(** What an applied notice leaves in the database. *)
Lemma applied_effects {W} n (s s' : sys W) r o d1 :
  ledger_ok (s_db s) -> applied_run n s s' r o d1 -> exists o' f,
  notice_order n (s_db s) (bo_client_order_id o) /\ get_order (bo_client_order_id o) (s_db s) = Some o /\
  (t_broker_orders (s_db s') = <[bo_client_order_id o := o']> (t_broker_orders (s_db s)) /\
   bo_client_order_id o' = bo_client_order_id o /\ bo_symbol o' = bo_symbol o /\ bo_side o' = bo_side o /\
   bo_requested_qty o' = bo_requested_qty o /\ bo_broker_order_id o' = Some (fn_order_no n) /\
   bo_filled_qty o' = bo_filled_qty o + fn_fill_qty n /\ bo_filled_qty o' <= bo_requested_qty o) /\
  t_broker_fills (s_db s') !! notice_fill_id n = Some f /\ bf_quantity f = fn_fill_qty n /\
  is_Some (t_fill_applications (s_db s') !! notice_fill_id n) /\ pending_fills (bo_client_order_id o) (s_db s') = [] /\
  forall sym, open_quantity sym (s_db s') = open_quantity sym (s_db s)
    + sum_by (signed_fill sym) (pending_fills (bo_client_order_id o) (s_db s)) + signed_fill sym f.
Proof.
  intros Hd [Hrows (side & Hside & Him) _ _ Hnew (at_ & now & price & side' & clock & Hrec) (t & clock2 & Hmat) _].
  destruct (orders_numbered_In (fn_order_no n) o (s_db s) Hd) as [Hg Hb]; [rewrite Hrows; apply list_elem_of_here|].
  apply identity_match in Him as (I1 & I2 & I3).
  pose proof (pending_new_fill _ _ _ _ Hd Hrec) as (f & F1 & F2 & _ & _ & Hpend).
  pose proof (fill_ledger_ok _ _ _ _ _ Hd Hrec) as Hd1.
  destruct (materialize_effect _ _ _ _ _ _ _ Hd1 Hmat) as (_ & _ & Hfills & Happ & Hopen).
  pose proof (materialize_pending_nil _ _ _ _ _ _ _ Hd1 Hmat) as Hnil.
  assert (Horders : t_broker_orders (s_db s') = t_broker_orders d1).
  { unfold materialize_order_fills in Hmat. do 5 (apply bind_Ok in Hmat as ([] & _ & Hmat)).
    destruct (get_order _ d1); [|done]. by apply apply_fills_orders in Hmat as [-> _]. }
  destruct (fill_keeps_number _ _ _ _ _ o _ Hrec Hg Hb) as (o3 & Hg3 & Hb3).
  apply apply_broker_fill_Ok in Hrec as (o2 & Hg2 & _ & [(? & _)|(_ & _ & Hle & f' & o' & Hd1eq & _ & _ & _ & _ & G5 & Ho')]); [done|].
  cbn [notice_fill fl_client_order_id fl_quantity fl_fill_id] in *. rewrite Hg in Hg2. injection Hg2 as <-.
  assert (Hf' : t_broker_fills d1 !! notice_fill_id n = Some f') by (rewrite Hd1eq; apply lookup_insert_eq).
  assert (Hnum : bo_broker_order_id o' = Some (fn_order_no n)).
  { unfold get_order in Hg3. rewrite Hd1eq in Hg3. cbn in Hg3. rewrite lookup_insert_eq in Hg3. by injection Hg3 as ->. }
  assert (Hin : f ∈ pending_fills (bo_client_order_id o) d1) by (rewrite Hpend; apply list_elem_of_here).
  assert (Hsame : f = f').
  { unfold pending_fills in Hin. apply list_elem_of_In, filter_In in Hin as [Hin _].
    apply filter_In in Hin as [Hin _]. apply list_elem_of_In, elem_of_rows_by in Hin as [k Hk].
    destruct (lo_fills _ Hd1 _ _ Hk) as [E _]. rewrite F2 in E. subst k. rewrite Hf' in Hk. by injection Hk as ->. }
  subst f'. exists o', f. split; [exists o; split_and!; try done; by rewrite I2|]. split; [done|]. split.
  { split; [by rewrite Horders, Hd1eq|]. rewrite Ho'. cbn [update_order bo_client_order_id bo_symbol bo_side bo_requested_qty
      bo_broker_order_id bo_filled_qty]. by split_and!. }
  split; [by rewrite Hfills|]. split; [done|]. split.
  { apply elem_of_dom. rewrite Happ. apply elem_of_union_l, elem_of_list_to_set, list_elem_of_fmap. by exists f. }
  split; [done|]. intros sym. rewrite Hopen, (sum_by_perm _ _ _ Hpend). cbn [sum_by].
  replace (open_quantity sym d1) with (open_quantity sym (s_db s)) by (by rewrite Hd1eq). lia.
Qed.

(** ** Properties *)

(** C12: a notice touches at most one order, the local order with its broker
    number, symbol, side and quantity, and never creates one.  Applying it always
    ends, keeps the ledger well formed and calls nothing at the broker; when it
    is refused, review and the block of new entries are persisted. *)
Theorem notice_touches_one_order {W} {CW : Clock W} n td received (s : sys W) :
  ledger_ok (s_db s) -> exists r s', apply_fill_notice n td received s = (Ok r, s') /\
    (fr_blocked r = true -> flagged s') /\ ledger_ok (s_db s') /\ s_trace s' = s_trace s /\
    exists ids, (ids = [] \/ exists id, ids = [id] /\ notice_order n (s_db s) id) /\ touches ids (s_db s) (s_db s').
Proof.
  intros Hd. destruct (apply_reports n td received s) as (r & s' & E & Hb). exists r, s'. split; [done|]. split; [done|].
  destruct (apply_frame n td received s Hd) as [[Hf Ht]|(id & Hn & Hf & Ht)]; rewrite E in Hf, Ht; cbn in Hf, Ht;
    destruct (Hf Hd) as [Hd' Htouch]; (split; [done|]; split; [done|]).
  - exists []. split; [by left|done].
  - exists [id]. split; [right; by exists id|done].
Qed.

(** C16: an applied notice counts once and moves the position.  Its order's filled
    quantity grows by exactly the shares of the notice, within the requested
    quantity; the fill is recorded under the notice's identifier; no fill of the
    order is left unapplied; and the open quantity of every symbol changes by the
    fills that were pending and the signed shares of the notice. *)
Theorem applied_notice_effect {W} {CW : Clock W} n td received (s : sys W) r s' :
  ledger_ok (s_db s) -> apply_fill_notice n td received s = (Ok r, s') -> fr_outcome r = "applied" ->
  exists o o' f, notice_order n (s_db s) (bo_client_order_id o) /\ get_order (bo_client_order_id o) (s_db s) = Some o /\
    get_order (bo_client_order_id o) (s_db s') = Some o' /\
    bo_filled_qty o' = bo_filled_qty o + fn_fill_qty n /\ bo_filled_qty o' <= bo_requested_qty o /\
    t_broker_fills (s_db s) !! notice_fill_id n = None /\ t_broker_fills (s_db s') !! notice_fill_id n = Some f /\
    bf_quantity f = fn_fill_qty n /\ pending_fills (bo_client_order_id o) (s_db s') = [] /\
    forall sym, open_quantity sym (s_db s') = open_quantity sym (s_db s)
      + sum_by (signed_fill sym) (pending_fills (bo_client_order_id o) (s_db s)) + signed_fill sym f.
Proof.
  intros Hd H Ho. destruct (applied_inv _ _ _ _ _ _ H Ho) as (o & d1 & Hrun).
  destruct (applied_effects _ _ _ _ _ _ Hd Hrun) as (o' & f & H1 & H2 & (H3 & _ & _ & _ & _ & _ & H4 & H5) & H6 & H7 & _ & H8 & H9).
  exists o, o', f. split_and!; try done; [|exact (ar_new _ _ _ _ _ _ Hrun)].
  unfold get_order. rewrite H3. apply lookup_insert_eq.
Qed.

(** Fact: a notice that is delivered again is a duplicate.  The same notice, received
    at the same time after it was applied, changes nothing at all. *)
Theorem repeated_notice_is_duplicate {W} {CW : Clock W} n td received (s : sys W) r s' :
  ledger_ok (s_db s) -> apply_fill_notice n td (Some received) s = (Ok r, s') -> fr_outcome r = "applied" ->
  apply_fill_notice n td (Some received) s' =
    (Ok (mkApplyResult "duplicate" false (fr_client_order_id r) (Some (notice_fill_id n)) 0 None), s').
Proof.
  intros Hd H Ho. destruct (applied_inv _ _ _ _ _ _ H Ho) as (o & d1 & Hrun).
  destruct (applied_effects _ _ _ _ _ _ Hd Hrun) as (o' & f & _ & Hg & (H3 & K1 & K2 & K3 & K4 & K5 & _) & H6 & _ & [x Hx] & _).
  destruct Hrun as [Hrows (side & Hside & Him) Hpub Hkind _ _ _ [Hid _]].
  unfold apply_fill_notice in H |- *. apply stm_bind_Ok in H as (now & s1 & Enow & H).
  assert (Enow' : received_at (Some received) s' = (Ok now, s')) by (injection Enow as <- _; done).
  rewrite (stm_bind_run _ _ _ _ _ Enow').
  destruct (filled_at _ td now) as [at_|e]; [|apply not_applied_blocked in H; congruence]. rewrite Hside, Hpub.
  assert (Hrows' : orders_numbered (fn_order_no n) (s_db s') = [o']).
  { pose proof (numbered_update (fn_order_no n) o o' (s_db s) Hrows Hg K5) as E. unfold orders_numbered in *. rewrite H3.
    exact E. }
  rewrite (stm_bind_run _ _ s' [o'] s') by (unfold query, gets; by rewrite Hrows').
  assert (Him' : identity_mismatch o' n side = None) by (unfold identity_mismatch in *; by rewrite K2, K3, K4).
  rewrite Him'. rewrite (stm_bind_run _ _ s' (existing_fills (bo_client_order_id o') (s_db s')) s') by done. rewrite Hkind.
  unfold apply_fill_event. rewrite (stm_bind_run _ _ s' (Some f) s') by (unfold query, gets; by rewrite H6).
  unfold materialize_if_needed. rewrite (stm_bind_run _ _ s' (Some 0) s').
  { by rewrite Hid, K1. }
  by rewrite (stm_bind_run _ _ s' (Some x) s') by (unfold query, gets; by rewrite Hx).
Qed.

(** Fact: an execution that reconciliation has adopted is counted again by its late
    notice.  The fills of reconciliation and of the stream are recorded under
    different identifiers, so that after the broker's row with 4 executed shares
    has been reconciled, the notice of the same 4 shares is applied as a new fill
    and the order counts 8 filled shares of an execution of 4. *)
Theorem late_notice_counted_twice : exists n o o',
  fn_fill_qty n = 4 /\
  (reconcile_broker_state (BW := w_partial_broker) None None None None None w_sys).1 = Ok (mkReport 1 1 1 false false []) /\
  get_order "c1" (s_db w_reconciled) = Some o /\ bo_filled_qty o = 4 /\
  fr_outcome (run_result (apply_fill_notice n None None w_reconciled)) = "applied" /\
  get_order "c1" (s_db (apply_fill_notice n None None w_reconciled).2) = Some o' /\ bo_filled_qty o' = 8.
Proof.
  exists w_notice. do 2 eexists. split; [done|]. split; [vm_compute; reflexivity|].
  split; [vm_compute; reflexivity|]. split; [vm_compute; reflexivity|]. split; [vm_compute; reflexivity|].
  split; vm_compute; reflexivity.
Qed.

(** ** Witnesses *)

Lemma notice_touches_one_order_witness : exists r s', apply_fill_notice w_notice None None w_sys = (Ok r, s') /\
  ledger_ok (s_db s') /\ s_trace s' = [].
Proof.
  destruct (notice_touches_one_order w_notice None None w_sys w_submitted_ok) as (r & s' & E & _ & H1 & H2 & _).
  exists r, s'. split; [exact E|]. split; [exact H1|exact H2].
Defined.

Lemma w_applied_run : apply_fill_notice w_notice None (Some w_clock) w_sys = (Ok w_result, w_applied.2).
Proof. assert (E : w_applied.1 = Ok w_result) by (vm_compute; reflexivity). rewrite <- E. exact (surjective_pairing w_applied). Qed.

Lemma applied_notice_effect_witness : exists o o',
  get_order (bo_client_order_id o) (s_db w_applied.2) = Some o' /\ bo_filled_qty o' = bo_filled_qty o + 4.
Proof.
  destruct (applied_notice_effect w_notice None (Some w_clock) w_sys w_result _ w_submitted_ok w_applied_run eq_refl)
    as (o & o' & f & _ & _ & H1 & H2 & _).
  exists o, o'. split; [exact H1|exact H2].
Defined.

Lemma repeated_notice_is_duplicate_witness :
  apply_fill_notice w_notice None (Some w_clock) w_applied.2 =
    (Ok (mkApplyResult "duplicate" false (Some "c1") (Some (notice_fill_id w_notice)) 0 None), w_applied.2).
Proof.
  exact (repeated_notice_is_duplicate w_notice None w_clock w_sys w_result _ w_submitted_ok w_applied_run eq_refl).
Defined.
