(* ===== verification/FillNoticeWorker.v ===== *)
(** * The fill notice worker ([ops/fill_notice_worker.py])

    A service that keeps one subscription to the broker's execution notices
    alive: it connects, subscribes, answers heartbeats, applies the notices it is
    sent and reconnects with a growing delay.  Every database access opens a
    connection of its own, which may fail.  The stop event, the clock of
    [time.monotonic], sleeping, the notifier, the socket, the configuration files
    and the authentication are operations of the world. *)

From S2P Require Import Prelude PyStr PyFloat PyTime PyDecimal PyDict PyJson DbCore DbOrders DbLedger DbRuntime KisHttp KisOrder.
From S2P Require Import DbFrames System SystemFrames FillNotice KisWs KisAuth Config FillNoticeReconciliation.

Definition websocket_url (e : KisEnvironment) : string :=
  match e with REAL => "ws://ops.koreainvestment.com:21000" | DEMO => "ws://ops.koreainvestment.com:31000" end.

(** The worker's own exception classes *)
Definition worker_fault : exn := OtherError "_WorkerFault".
Definition missing_hts : exn := OtherError "_MissingHTS".
Definition environment_changed : exn := OtherError "_EnvironmentChanged".

Definition is_changed (e : exn) : bool := String.eqb (exn_name e) "_EnvironmentChanged".

(** [_SAFE_CODE.fullmatch] and [_safe_code] *)
Definition public_char (c : ascii) : bool :=
  is_lower c || is_digit c || existsb (fun d => bool_decide (c = d)) ["_"; "."; ":"; "-"]%char.
Definition public_code (value fallback : string) : string :=
  let candidate := smap (fun c => if bool_decide (c = " "%char) then "_"%char else c) (lower value) in
  if negb (sempty candidate) && (slen candidate <=? 80) && sforall public_char candidate then candidate else fallback.

Definition fault_code (e : exn) : string :=
  if String.eqb (exn_name e) "_MissingHTS" then "missing_hts_id"
  else if is_changed e then "environment_changed"
  else if is_timeout e then "timeout"
  else public_code (lower (exn_name e)) "connection_error".

Definition hts_id (values : dict string) : res string :=
  let value := strip (or_else (dget "KIS_HTS_ID" values) "") in
  if sempty value || (64 <? slen value) || negb (sforall (fun c => negb (is_control c)) value) then Err missing_hts else Ok value.

(** What the worker is given of the outside world.  The stop event may have
    [wait]; a sleeper and a notifier may be given.  [asyncio.sleep] does not
    fail. *)
Record surroundings (W : Type) := mkSurroundings {
  sr_socket : ws_socket W;
  sr_is_set : stm W bool;
  sr_monotonic : stm W float;
  sr_wait : option (float -> stm W unit);
  sr_sleep : float -> W -> W;
  sr_sleeper : option (float -> stm W unit);
  sr_notifier : option (string -> stm W unit);
  sr_connect_database : stm W unit;
  sr_config_text : stm W string;
  sr_environment : stm W (dict string);
  sr_authenticate : KisEnvironment -> string -> string -> stm W KisAuthResult;
}.
Arguments sr_socket {W} _.
Arguments sr_is_set {W} _.
Arguments sr_monotonic {W} _.
Arguments sr_wait {W} _.
Arguments sr_sleep {W} _ _ _.
Arguments sr_sleeper {W} _.
Arguments sr_notifier {W} _.
Arguments sr_connect_database {W} _.
Arguments sr_config_text {W} _.
Arguments sr_environment {W} _.
Arguments sr_authenticate {W} _ _ _ _.

Record worker_settings := mkWorkerSettings {
  ws_reconnect_min : float;
  ws_reconnect_max : float;
  ws_receive_timeout : float;
  ws_ack_timeout : float;
  ws_notify_throttle : float;
}.

(** The running worker: the system, the reporter's last state and the time of its
    last message, the reconnect delay and the current environment. *)
Record worker (W : Type) := mkWorker {
  wk_sys : sys W;
  wk_last_state : option (string * string * string);
  wk_last_sent_at : float;
  wk_delay : float;
  wk_environment : option KisEnvironment;
}.
Arguments mkWorker {W} _ _ _ _ _.
Arguments wk_sys {W} _.
Arguments wk_last_state {W} _.
Arguments wk_last_sent_at {W} _.
Arguments wk_delay {W} _.
Arguments wk_environment {W} _.

Section Worker.
Context {W : Type} {CW : Clock W}.
Variable k : surroundings W.
Variable st : worker_settings.
Variable safe_load : string -> res json.
Variable model_validate : dict setting -> res AppConfig.
Variable aes_cbc_decrypt : string -> string -> string -> string.
Variable unpad : string -> option string.
Notation run := (stm (worker W)).

Definition on_sys {A} (m : stm (sys W) A) : run A := fun w =>
  let '(r, s) := m (wk_sys w) in (r, mkWorker s (wk_last_state w) (wk_last_sent_at w) (wk_delay w) (wk_environment w)).
Definition outside {A} (m : stm W A) : run A := on_sys (on_world m).

(** [_is_stopped] *)
Definition is_stopped : run bool :=
  r ← outcome (outside (sr_is_set k));
  mret (match (r : res bool) with Ok b => b | Err _ => true end).

(** [with connect_database(db_path) as database: database.init_schema()] *)
Definition open_database : stm (sys W) unit := _ ← on_world (sr_connect_database k); open_schema.

(** [_sleep] *)
Definition worker_sleep (seconds : float) : run unit :=
  outside (match sr_sleeper k with
           | Some sleeper => sleeper (fmax fzero seconds)
           | None => match sr_wait k with
                     | Some wait => wait (fmax fzero seconds)
                     | None => fun w => (Ok tt, sr_sleep k (fmax fzero seconds) w)
                     end
           end).

(** [_runtime_environment] *)
Definition runtime_environment : stm (sys W) KisEnvironment :=
  _ ← open_database;
  control ← query get_runtime_control;
  lift_res (parse_environment (rc_environment control)).

(** [_connection_material], the cache path aside *)
Definition connection_material (e : KisEnvironment) : stm W (KisApiCredentials * string) :=
  env ← sr_environment k;
  text ← sr_config_text k;
  config ← lift_res (load_config safe_load model_validate text env);
  match kis_api_for config (environment_value e) with
  | None => raise worker_fault
  | Some credentials =>
      values ← sr_environment k;
      hts ← lift_res (hts_id values);
      mret (credentials, hts)
  end.

Definition utc_clock : stm (sys W) datetime := t ← read_clock; mret (astimezone t UTC).

(** [_record_runtime] *)
Definition record_runtime (status environment last_error : string) : stm (sys W) unit :=
  let safe_status := public_code status "unavailable" in
  let safe_error := if sempty last_error then "" else public_code last_error "worker_error" in
  let env_value := if mem_str environment [""; "demo"; "real"] then environment else "" in
  now ← utc_clock;
  _ ← open_database;
  _ ← on_db (record_heartbeat "fill-notice" (Some now));
  _ ← set_metadata_now "fill-notice:status" safe_status (Some now);
  _ ← set_metadata_now "fill-notice:environment" env_value (Some now);
  _ ← set_metadata_now "fill-notice:last_error" safe_error (Some now);
  mret tt.

(** [_record_apply_result] *)
Definition record_apply_result (result : FillNoticeApplyResult) : stm (sys W) unit :=
  let outcome := public_code (fr_outcome result) "unknown" in
  let error :=
    if String.eqb outcome "blocked" then "ledger_blocked"
    else match fr_reason result with
         | Some reason => if sempty reason then "" else public_code reason "ledger_error"
         | None => ""
         end in
  now ← utc_clock;
  _ ← open_database;
  _ ← on_db (record_heartbeat "fill-notice" (Some now));
  _ ← set_metadata_now "fill-notice:last_apply" outcome (Some now);
  if sempty error then mret tt
  else _ ← set_metadata_now "fill-notice:last_error" error (Some now); mret tt.

(** [_dispatch_notice]: it never fails. *)
Definition dispatch_notice (n : FillNotice) : stm (sys W) unit :=
  applied ← outcome (_ ← open_database;
                     now ← utc_clock;
                     result ← apply_fill_notice n None (Some now);
                     record_apply_result result);
  match (applied : res unit) with
  | Ok _ => mret tt
  | Err _ => _ ← outcome (record_runtime "connected" "" "ledger_apply_error"); mret tt
  end.

(** ** The reporter *)

Definition state_message (status environment error : string) : string :=
  "fill-notice: " +:+ status +:+ (if sempty environment then "" else " environment=" +:+ environment) +:+
  (if sempty error then "" else " error=" +:+ error).

Definition environment_text (e : option KisEnvironment) : string := match e with Some e => environment_value e | None => "" end.

(** [_StateReporter.set] *)
Definition report_state (status : string) (environment : option KisEnvironment) (error : string) : run unit :=
  let env_value := environment_text environment in
  let safe_status := public_code status "unavailable" in
  let safe_error := if sempty error then "" else public_code error "worker_error" in
  recorded ← outcome (on_sys (record_runtime safe_status env_value safe_error));
  match (recorded : res unit) with
  | Err _ => mret tt
  | Ok _ =>
      let state := (safe_status, env_value, safe_error) in
      now ← outside (sr_monotonic k);
      w ← gets id;
      let due := match sr_notifier k with
                 | None => false
                 | Some _ => negb (bool_decide (wk_last_state w = Some state)) ||
                     (negb (sempty safe_error) && (ws_notify_throttle st <=? now - wk_last_sent_at w)%F)
                 end in
      _ ← modify (fun w => mkWorker (wk_sys w) (Some state) (wk_last_sent_at w) (wk_delay w) (wk_environment w));
      match sr_notifier k with
      | Some send =>
          if due then
            told ← outcome (outside (send (state_message safe_status env_value safe_error)));
            match (told : res unit) with
            | Ok _ => modify (fun w => mkWorker (wk_sys w) (wk_last_state w) now (wk_delay w) (wk_environment w))
            | Err _ => mret tt
            end
          else mret tt
      | None => mret tt
      end
  end.

(** ** A session *)

Inductive frame_result := Received (raw : raw_frame) | NothingYet.

(** [try: raw = await asyncio.wait_for(socket.recv(), ...)  except TimeoutError] *)
Definition next_frame : run frame_result :=
  r ← outcome (outside (ws_recv (sr_socket k) (Some (ws_receive_timeout st))));
  match (r : res raw_frame) with
  | Ok raw => mret (Received raw)
  | Err e => if is_timeout e then mret NothingYet else raise e
  end.

Definition heartbeat (raw : raw_frame) : bool :=
  is_pingpong (parse_system_message raw) || String.eqb (upper (strip (raw_to_text raw))) "PINGPONG".

Definition acknowledged (c : fill_client) : bool := match fc_ack c with Some _ => true | None => false end.

(** What is done about one frame; the client after it. *)
Definition handle_frame (e : KisEnvironment) (c : fill_client) (raw : raw_frame) : run fill_client :=
  if heartbeat raw then _ ← outside (ws_send (sr_socket k) (raw_to_text raw)); mret c
  else
    let '(c, what) := handle_message aes_cbc_decrypt unpad c raw in
    match what with
    | HandledAck a => if ready_for_data a then _ ← report_state "connected" (Some e) ""; mret c else raise worker_fault
    | HandledEvents l =>
        _ ← foldM (fun _ n => on_sys (dispatch_notice n)) tt l;
        _ ← on_sys (record_runtime "connected" (environment_value e) "");
        mret c
    | Ignored => mret c
    end.

(** The receive loop; [None] when the fuel is spent before it ends. *)
Fixpoint receive_loop (fuel : nat) (e : KisEnvironment) (ack_deadline : float) (c : fill_client) : run (option string) :=
  match fuel with
  | O => mret None
  | S fuel =>
      stopped ← is_stopped;
      if (stopped : bool) then mret (Some "stopped")
      else
        current ← on_sys runtime_environment;
        if bool_decide (current <> e) then raise environment_changed
        else
          got ← next_frame;
          match (got : frame_result) with
          | NothingYet =>
              _ ← on_sys (record_runtime (if acknowledged c then "connected" else "subscribing") (environment_value e) "");
              if acknowledged c then receive_loop fuel e ack_deadline c
              else
                now ← outside (sr_monotonic k);
                if (ack_deadline <=? now)%F then raise worker_fault else receive_loop fuel e ack_deadline c
          | Received raw => c ← handle_frame e c raw; receive_loop fuel e ack_deadline c
          end
  end.

(** [_session] *)
Definition session (fuel : nat) (e : KisEnvironment) (approval_key hts : string) : run (option string) :=
  with_socket (outside (ws_connect (sr_socket k) (websocket_url e))) (outside (ws_close (sr_socket k)))
    (c ← lift_res (new_fill_client e approval_key hts);
     message ← lift_res (subscription_message c);
     _ ← outside (ws_send (sr_socket k) message);
     now ← outside (sr_monotonic k);
     _ ← report_state "subscribing" (Some e) "";
     receive_loop fuel e (now + ws_ack_timeout st)%F c).

(** ** The worker *)

Definition set_delay (d : float) : run unit :=
  modify (fun w => mkWorker (wk_sys w) (wk_last_state w) (wk_last_sent_at w) d (wk_environment w)).
Definition note_environment (e : KisEnvironment) : run unit :=
  modify (fun w => mkWorker (wk_sys w) (wk_last_state w) (wk_last_sent_at w) (wk_delay w) (Some e)).

(** The body of the loop's [try] *)
Definition connect_once (fuel : nat) : run (option string) :=
  e ← on_sys runtime_environment;
  w ← gets id;
  _ ← (if bool_decide (wk_environment w = Some e) then mret tt
       else _ ← note_environment e; set_delay (ws_reconnect_min st));
  material ← outside (connection_material e);
  auth ← outside (sr_authenticate k e (cr_app_key material.1) (cr_app_secret material.1));
  _ ← (if sempty (ar_approval_key auth) then raise worker_fault else mret tt);
  _ ← report_state "connecting" (Some e) "";
  session fuel e (ar_approval_key auth) material.2.

(** [min(reconnect_max_seconds, max(reconnect_min_seconds, delay * 2))] *)
Definition next_delay (delay : float) : float :=
  fmin (ws_reconnect_max st) (fmax (ws_reconnect_min st) (delay * f_of_Z 2)%F).

(** The [except Exception] clause: report, wait and back off; whether the worker
    has been stopped. *)
Definition back_off (e : exn) : run bool :=
  known ← outcome (on_sys runtime_environment);
  w ← gets id;
  _ ← outcome (report_state "unavailable" (match (known : res KisEnvironment) with Ok e => Some e | Err _ => wk_environment w end)
                 (fault_code e));
  stopped ← is_stopped;
  if (stopped : bool) then mret true
  else
    w ← gets id;
    slept ← outcome (worker_sleep (wk_delay w));
    _ ← (match (slept : res unit) with
         | Ok _ => mret tt
         | Err _ => outside (fun x => (Ok tt, sr_sleep k (fmin (wk_delay w) (ws_reconnect_max st)) x))
         end);
    _ ← modify (fun w => mkWorker (wk_sys w) (wk_last_state w) (wk_last_sent_at w) (next_delay (wk_delay w)) (wk_environment w));
    mret false.

(** The reconnect loop; [None] when the fuel is spent before it ends. *)
Fixpoint reconnect_loop (fuel : nat) : run (option unit) :=
  match fuel with
  | O => mret None
  | S fuel =>
      stopped ← is_stopped;
      if (stopped : bool) then mret (Some tt)
      else
        r ← outcome (connect_once fuel);
        match (r : res (option string)) with
        | Ok None => mret None
        | Ok (Some result) =>
            if String.eqb result "stopped" then mret (Some tt)
            else _ ← set_delay (ws_reconnect_min st); reconnect_loop fuel
        | Err e =>
            if is_changed e then
              _ ← set_delay (ws_reconnect_min st);
              w ← gets id;
              _ ← outcome (report_state "reconnecting" (wk_environment w) "environment_changed");
              reconnect_loop fuel
            else
              stopped ← back_off e;
              if (stopped : bool) then mret (Some tt) else reconnect_loop fuel
        end
  end.

(** [_run_fill_notice_worker] *)
Definition worker_main (fuel : nat) : run (option unit) :=
  _ ← set_delay (ws_reconnect_min st);
  _ ← outcome (report_state "starting" None "");
  ended ← reconnect_loop fuel;
  match (ended : option unit) with
  | None => mret None
  | Some _ =>
      w ← gets id;
      _ ← outcome (report_state "stopped" (wk_environment w) (match wk_last_state w with Some (_, _, error) => error | None => "" end));
      mret (Some tt)
  end.

(** [run_fill_notice_worker] *)
Definition check_settings : res unit :=
  _ ← raise_if ((ws_reconnect_min st <=? fzero)%F || (ws_reconnect_max st <? ws_reconnect_min st)%F) (ValueError "invalid reconnect bounds");
  _ ← raise_if ((ws_receive_timeout st <=? fzero)%F || (ws_ack_timeout st <=? fzero)%F)
        (ValueError "receive and ACK timeouts must be positive");
  raise_if (ws_notify_throttle st <? fzero)%F (ValueError "notify throttle must be non-negative").

Definition new_worker (s : sys W) : worker W := mkWorker s None (SpecFloat.S754_infinity true) (ws_reconnect_min st) None.

Definition run_fill_notice_worker (fuel : nat) (s : sys W) : res (option unit) * sys W :=
  match check_settings with
  | Err e => (Err e, s)
  | Ok _ => let '(r, w) := worker_main fuel (new_worker s) in (r, wk_sys w)
  end.
End Worker.

(** ** Lemmas *)

(** What a code of the worker may look like. *)
Definition is_code (s : string) : bool := negb (sempty s) && (slen s <=? 80) && sforall public_char s.

Lemma public_code_code v f : is_code f = true -> is_code (public_code v f) = true.
Proof. intros Hf. unfold public_code. cbv zeta. destruct (_ && _ && _) eqn:E; [exact E|done]. Qed.

(** A message of the worker's own making: codes, and the name of the environment. *)
Definition coded_message (m : string) : Prop := exists status environment error,
  m = state_message status environment error /\ is_code status = true /\ environment ∈ [""; "demo"; "real"] /\
  (error = "" \/ is_code error = true).

(** A message to the broker: a subscription to execution notices, or a heartbeat
    sent back. *)
Definition worker_message (m : string) : Prop :=
  (exists approval_key hts e, build_fill_notice_subscription approval_key hts e "1" = Ok m) \/
  exists raw, heartbeat raw = true /\ m = raw_to_text raw.

Lemma subscription_allowed e approval_key hts c m :
  new_fill_client e approval_key hts = Ok c -> subscription_message c = Ok m -> worker_message m.
Proof.
  unfold new_fill_client. intros H. apply Prelude.bind_Ok in H as (a & _ & H). apply Prelude.bind_Ok in H as (h & _ & H).
  injection H as <-. intros H. left. by eexists _, _, _.
Qed.

Lemma environment_text_known e : environment_text e ∈ [""; "demo"; "real"].
Proof. destruct e as [[]|]; cbn; set_solver. Qed.

(** Proper settings: the bounds are numbers, and valid. *)
Record proper (st : worker_settings) : Prop := mkProper {
  pr_positive : (fzero <? ws_reconnect_min st)%F = true;
  pr_ordered : (ws_reconnect_min st <=? ws_reconnect_max st)%F = true;
}.

Lemma check_settings_proper st : check_settings st = Ok tt -> is_nan (ws_reconnect_min st) = false ->
  is_nan (ws_reconnect_max st) = false -> proper st.
Proof.
  unfold check_settings. intros H N1 N2. apply Prelude.bind_Ok in H as ([] & H & _). apply raise_if_Ok, orb_false_iff in H as [H1 H2].
  split; [by apply fleb_false|by apply fltb_false].
Qed.

Definition in_bounds (st : worker_settings) (d : float) : Prop :=
  (ws_reconnect_min st <=? d)%F = true /\ (d <=? ws_reconnect_max st)%F = true.

Lemma min_in_bounds st : proper st -> in_bounds st (ws_reconnect_min st).
Proof. intros [Hp Ho]. split; [|done]. apply fleb_refl. by apply fltb_not_nan in Hp as [_ ?]. Qed.

Lemma next_in_bounds st d : proper st -> in_bounds st (next_delay st d).
Proof.
  intros Hp. pose proof (min_in_bounds st Hp) as [Hm Hx]. unfold next_delay, fmin, fmax.
  assert (Hmax : in_bounds st (ws_reconnect_max st)).
  { split; [done|]. apply fleb_refl. by apply fleb_not_nan in Hx as [_ ?]. }
  destruct (fltb (ws_reconnect_min st) _) eqn:E1.
  - destruct (fltb _ (ws_reconnect_max st)) eqn:E2; [split; by apply fltb_fleb|done].
  - destruct (fltb _ (ws_reconnect_max st)); [by split|done].
Qed.

Lemma sleep_argument st d : proper st -> in_bounds st d -> fmax fzero d = d /\ fmin d (ws_reconnect_max st) = d.
Proof.
  intros [Hp _] [H1 H2]. split; [unfold fmax; by rewrite (fltb_fleb_trans _ _ _ Hp H1)|].
  unfold fmin. by rewrite (fleb_not_fltb _ _ H2).
Qed.

Section Kept.
Context {W : Type} {CW : Clock W}.
Variables (k : surroundings W) (st : worker_settings) (safe_load : string -> res json) (model_validate : dict setting -> res AppConfig).
Variables (aes : string -> string -> string -> string) (unpad : string -> option string).
Variable R : sys W -> sys W -> Prop.
Context `{!PreOrder R}.

(** Every operation of the worker keeps [R], those with an effect as far as the
    effect is allowed. *)
Record admits : Prop := mkAdmits {
  ad_heartbeat : forall now, keeps R (on_db (record_heartbeat "fill-notice" (Some now)));
  ad_metadata : forall key v now, keeps R (set_metadata_now key v (Some now));
  ad_schema : keeps R open_schema;
  ad_clock : keeps R read_clock;
  ad_notice : forall n now, keeps R (apply_fill_notice n None (Some now));
  ad_is_set : keeps R (on_world (sr_is_set k));
  ad_monotonic : keeps R (on_world (sr_monotonic k));
  ad_database : keeps R (on_world (sr_connect_database k));
  ad_config : keeps R (on_world (sr_config_text k));
  ad_environment : keeps R (on_world (sr_environment k));
  ad_authenticate : forall e key secret, keeps R (on_world (sr_authenticate k e key secret));
  ad_connect : forall e, keeps R (on_world (ws_connect (sr_socket k) e));
  ad_close : keeps R (on_world (ws_close (sr_socket k)));
  ad_recv : forall t, keeps R (on_world (ws_recv (sr_socket k) t));
  ad_send : forall m, worker_message m -> keeps R (on_world (ws_send (sr_socket k) m));
  ad_tell : forall send m, sr_notifier k = Some send -> coded_message m -> keeps R (on_world (send m));
  ad_sleeper : forall f d, sr_sleeper k = Some f -> in_bounds st d -> keeps R (on_world (f d));
  ad_wait : forall f d, sr_wait k = Some f -> in_bounds st d -> keeps R (on_world (f d));
  ad_sleep : forall d, in_bounds st d -> keeps R (on_world (fun w => (Ok tt, sr_sleep k d w)));
}.
Hypothesis A : admits.
Hypothesis Hst : proper st.

Definition kept (w w' : worker W) : Prop :=
  in_bounds st (wk_delay w) -> in_bounds st (wk_delay w') /\ R (wk_sys w) (wk_sys w').

#[export] Instance kept_preorder : PreOrder kept.
Proof.
  split; [intros w Hw; by split|]. intros a b c Hab Hbc Ha. destruct (Hab Ha) as [Hb R1]. destruct (Hbc Hb) as [Hc R2].
  split; [done|by etrans].
Qed.

Lemma kept_sys {X} (m : stm (sys W) X) : keeps R m -> keeps kept (on_sys m).
Proof. intros Hm w Hw. unfold on_sys. specialize (Hm (wk_sys w)). destruct (m (wk_sys w)). by split. Qed.

Lemma kept_outcome {X} (m : stm (worker W) X) : keeps kept m -> keeps kept (outcome m).
Proof. apply keeps_outcome. Qed.

Lemma kept_gets {X} (f : worker W -> stm (worker W) X) : (forall w, kept w (f w w).2) -> keeps kept (w ← gets id; f w).
Proof. intros H w. apply H. Qed.

Lemma kept_modify f : (forall w, wk_sys (f w) = wk_sys w) -> (forall w, in_bounds st (wk_delay w) -> in_bounds st (wk_delay (f w))) ->
  keeps kept (modify f).
Proof. intros H1 H2 w Hw. cbn. rewrite H1. by split; [apply H2|]. Qed.

Hint Resolve kept_sys kept_outcome : kept.

Lemma open_database_kept : keeps R (open_database k).
Proof. apply keeps_bind; [done|apply A|intros _; apply A]. Qed.

Lemma utc_clock_kept : keeps R utc_clock.
Proof. apply keeps_bind; [done|apply A|intros; by apply keeps_ret]. Qed.

Lemma record_runtime_kept s e x : keeps R (record_runtime k s e x).
Proof.
  unfold record_runtime. cbv zeta. apply keeps_bind; [done|apply utc_clock_kept|intros now].
  apply keeps_bind; [done|apply open_database_kept|intros _]. apply keeps_bind; [done|apply A|intros _].
  repeat (apply keeps_bind; [done|apply A|intros _]). by apply keeps_ret.
Qed.

Lemma record_apply_kept r : keeps R (record_apply_result k r).
Proof.
  unfold record_apply_result. cbv zeta. apply keeps_bind; [done|apply utc_clock_kept|intros now].
  apply keeps_bind; [done|apply open_database_kept|intros _]. apply keeps_bind; [done|apply A|intros _].
  apply keeps_bind; [done|apply A|intros _]. destruct (sempty _); [by apply keeps_ret|].
  apply keeps_bind; [done|apply A|intros _]. by apply keeps_ret.
Qed.

Lemma dispatch_kept n : keeps R (dispatch_notice k n).
Proof.
  apply keeps_bind; [done| |].
  - apply keeps_outcome. apply keeps_bind; [done|apply open_database_kept|intros _].
    apply keeps_bind; [done|apply utc_clock_kept|intros now]. apply keeps_bind; [done|apply A|intros r]. apply record_apply_kept.
  - intros [[]|e]; [by apply keeps_ret|]. apply keeps_bind; [done|apply keeps_outcome, record_runtime_kept|intros; by apply keeps_ret].
Qed.

Lemma runtime_environment_kept : keeps R (runtime_environment k).
Proof.
  apply keeps_bind; [done|apply open_database_kept|intros _]. apply keeps_bind; [done|by apply keeps_query|intros; by apply keeps_lift].
Qed.

Lemma on_world_bind {X Y} (m : stm W X) (f : X -> stm W Y) :
  keeps R (on_world m) -> (forall x, keeps R (on_world (f x))) -> keeps R (on_world (x ← m; f x)).
Proof.
  intros Hm Hf s. unfold on_world. specialize (Hm s). unfold on_world in Hm. unfold mbind, stm_bind.
  destruct (m (s_world s)) as [[x|e] w]; [|exact Hm]. cbn in Hm. etrans; [exact Hm|].
  specialize (Hf x (mkSys (s_db s) w (s_trace s))). unfold on_world in Hf. cbn in Hf. by destruct (f x w).
Qed.

Lemma on_world_pure {X} (r : res X) : keeps R (on_world (lift_res r)).
Proof. intros s. by destruct s. Qed.

Lemma material_kept e : keeps R (on_world (connection_material k safe_load model_validate e)).
Proof.
  apply on_world_bind; [apply A|intros env]. apply on_world_bind; [apply A|intros text].
  apply on_world_bind; [apply on_world_pure|intros config]. destruct (kis_api_for _ _); [|apply (on_world_pure (Err worker_fault))].
  apply on_world_bind; [apply A|intros values]. apply on_world_bind; [apply on_world_pure|intros hts]. apply (on_world_pure (Ok _)).
Qed.

Lemma is_stopped_kept : keeps kept (is_stopped k).
Proof. apply keeps_bind; [exact _|apply kept_outcome, kept_sys, A|intros; apply keeps_ret, _]. Qed.

Lemma report_kept s e x : keeps kept (report_state k st s e x).
Proof.
  unfold report_state. cbv zeta. set (ss := public_code s "unavailable"). set (se := if sempty x then "" else _).
  assert (Hm : coded_message (state_message ss (environment_text e) se)).
  { exists ss, (environment_text e), se. split_and!; [done|by apply public_code_code|apply environment_text_known|].
    subst se. destruct (sempty x); [by left|right; by apply public_code_code]. }
  apply keeps_bind; [exact _|apply kept_outcome, kept_sys, record_runtime_kept|]. intros [[]|err]; [|apply keeps_ret, _].
  apply keeps_bind; [exact _|apply kept_sys, A|intros now]. apply kept_gets. intros w0.
  match goal with |- kept w0 (?m w0).2 => enough (keeps kept m) by auto end.
  apply keeps_bind; [exact _|by apply kept_modify|intros _]. destruct (sr_notifier k) as [send|] eqn:En; [|apply keeps_ret, _].
  destruct (_ || _); [|apply keeps_ret, _]. apply keeps_bind; [exact _|apply kept_outcome, kept_sys; by eapply ad_tell|].
  intros [[]|err]; [by apply kept_modify|apply keeps_ret, _].
Qed.

Lemma next_frame_kept : keeps kept (next_frame k st).
Proof.
  apply keeps_bind; [exact _|apply kept_outcome, kept_sys, A|]. intros [raw|e]; [apply keeps_ret, _|].
  destruct (is_timeout e); [apply keeps_ret, _|apply keeps_raise, _].
Qed.

Lemma handle_frame_kept e c raw : keeps kept (handle_frame k st aes unpad e c raw).
Proof.
  unfold handle_frame. destruct (heartbeat raw) eqn:Eh.
  - apply keeps_bind; [exact _|apply kept_sys, A; right; by exists raw|intros; apply keeps_ret, _].
  - destruct (handle_message aes unpad c raw) as [c' [a|l|]]; [| |apply keeps_ret, _].
    + destruct (ready_for_data a); [|apply keeps_raise, _]. apply keeps_bind; [exact _|apply report_kept|intros; apply keeps_ret, _].
    + apply keeps_bind; [exact _|apply keeps_foldM; [exact _|intros; apply kept_sys, dispatch_kept]|intros _].
      apply keeps_bind; [exact _|apply kept_sys, record_runtime_kept|intros; apply keeps_ret, _].
Qed.

Lemma receive_loop_kept fuel e d : forall c, keeps kept (receive_loop k st aes unpad fuel e d c).
Proof.
  induction fuel as [|fuel IH]; intros c; cbn [receive_loop]; [apply keeps_ret, _|].
  apply keeps_bind; [exact _|apply is_stopped_kept|intros []; [apply keeps_ret, _|]].
  apply keeps_bind; [exact _|apply kept_sys, runtime_environment_kept|intros current].
  destruct (bool_decide _); [apply keeps_raise, _|]. apply keeps_bind; [exact _|apply next_frame_kept|intros [raw|]].
  - apply keeps_bind; [exact _|apply handle_frame_kept|intros; apply IH].
  - apply keeps_bind; [exact _|apply kept_sys, record_runtime_kept|intros _]. destruct (acknowledged c); [apply IH|].
    apply keeps_bind; [exact _|apply kept_sys, A|intros now]. destruct (_ <=? _)%F; [apply keeps_raise, _|apply IH].
Qed.

Lemma session_kept fuel e key hts : keeps kept (session k st aes unpad fuel e key hts).
Proof.
  apply keeps_with_socket; [exact _|apply kept_sys, A..|]. intros w. destruct (new_fill_client e key hts) as [c|] eqn:Ec; [|reflexivity].
  destruct (subscription_message c) as [m|] eqn:Em; [|unfold mbind, stm_bind, lift_res; rewrite Em; reflexivity].
  unfold mbind, stm_bind at 1, lift_res at 1. unfold mbind, stm_bind at 1, lift_res at 1. rewrite Em. revert w.
  match goal with |- forall w, kept w (?f w).2 => change (keeps kept f) end.
  apply keeps_bind; [exact _|apply kept_sys, A; by eapply subscription_allowed|intros _].
  apply keeps_bind; [exact _|apply kept_sys, A|intros now]. apply keeps_bind; [exact _|apply report_kept|intros _]. apply receive_loop_kept.
Qed.

Lemma set_delay_kept : keeps kept (set_delay (ws_reconnect_min st)).
Proof. apply kept_modify; [done|intros; by apply min_in_bounds]. Qed.

Lemma connection_kept fuel : keeps kept (connect_once k st safe_load model_validate aes unpad fuel).
Proof.
  apply keeps_bind; [exact _|apply kept_sys, runtime_environment_kept|intros e]. apply kept_gets. intros w.
  match goal with |- kept w (?m w).2 => enough (keeps kept m) by auto end.
  apply keeps_bind; [exact _| |intros _].
  { destruct (bool_decide _); [apply keeps_ret, _|]. apply keeps_bind; [exact _|by apply kept_modify|intros _]. apply set_delay_kept. }
  apply keeps_bind; [exact _|apply kept_sys, material_kept|intros material]. apply keeps_bind; [exact _|apply kept_sys, A|intros auth].
  apply keeps_bind; [exact _|destruct (sempty _); [apply keeps_raise, _|apply keeps_ret, _]|intros _].
  apply keeps_bind; [exact _|apply report_kept|intros _]. apply session_kept.
Qed.

Lemma sleep_kept d : in_bounds st d -> keeps kept (worker_sleep k d).
Proof.
  intros Hd. unfold worker_sleep. destruct (sleep_argument st d Hst Hd) as [-> _]. apply kept_sys.
  destruct (sr_sleeper k) eqn:E1; [by eapply ad_sleeper|]. destruct (sr_wait k) eqn:E2; [by eapply ad_wait|by apply A].
Qed.

Lemma back_off_kept e : keeps kept (back_off k st e).
Proof.
  apply keeps_bind; [exact _|apply kept_outcome, kept_sys, runtime_environment_kept|intros known]. apply kept_gets. intros w.
  match goal with |- kept w (?m w).2 => enough (keeps kept m) by auto end.
  apply keeps_bind; [exact _|apply kept_outcome, report_kept|intros _]. apply keeps_bind; [exact _|apply is_stopped_kept|intros []; [apply keeps_ret, _|]].
  apply kept_gets. clear w. intros w Hw.
  match goal with |- _ /\ R _ (wk_sys (?m w).2) => enough (keeps kept m) as H by by apply H end.
  apply keeps_bind; [exact _|by apply kept_outcome, sleep_kept|intros slept].
  apply keeps_bind; [exact _| |intros _].
  { destruct slept as [[]|err]; [apply keeps_ret, _|]. destruct (sleep_argument st (wk_delay w) Hst Hw) as [_ ->].
    by apply kept_sys, A. }
  apply keeps_bind; [exact _|apply kept_modify; [done|intros; by apply next_in_bounds]|intros _]. apply keeps_ret, _.
Qed.

Lemma reconnect_kept fuel : keeps kept (reconnect_loop k st safe_load model_validate aes unpad fuel).
Proof.
  induction fuel as [|fuel IH]; cbn [reconnect_loop]; [apply keeps_ret, _|].
  apply keeps_bind; [exact _|apply is_stopped_kept|intros []; [apply keeps_ret, _|]].
  apply keeps_bind; [exact _|apply kept_outcome, connection_kept|intros [[result|]|e]].
  - destruct (String.eqb _ _); [apply keeps_ret, _|]. apply keeps_bind; [exact _|apply set_delay_kept|intros _; apply IH].
  - apply keeps_ret, _.
  - destruct (is_changed e).
    + apply keeps_bind; [exact _|apply set_delay_kept|intros _]. apply kept_gets. intros w.
      match goal with |- kept w (?m w).2 => enough (keeps kept m) by auto end.
      apply keeps_bind; [exact _|apply kept_outcome, report_kept|intros _; apply IH].
    + apply keeps_bind; [exact _|apply back_off_kept|intros []; [apply keeps_ret, _|apply IH]].
Qed.

Lemma worker_main_kept fuel : keeps kept (worker_main k st safe_load model_validate aes unpad fuel).
Proof.
  apply keeps_bind; [exact _|apply set_delay_kept|intros _]. apply keeps_bind; [exact _|apply kept_outcome, report_kept|intros _].
  apply keeps_bind; [exact _|apply reconnect_kept|intros [[]|]; [|apply keeps_ret, _]]. apply kept_gets. intros w.
  match goal with |- kept w (?m w).2 => enough (keeps kept m) by auto end.
  apply keeps_bind; [exact _|apply kept_outcome, report_kept|intros _]. apply keeps_ret, _.
Qed.

Lemma run_kept fuel s : R s (run_fill_notice_worker k st safe_load model_validate aes unpad fuel s).2.
Proof.
  unfold run_fill_notice_worker. destruct (check_settings st); [|reflexivity].
  pose proof (worker_main_kept fuel (new_worker st s) (min_in_bounds st Hst)) as [_ H].
  by destruct (worker_main _ _ _ _ _ _ _ _).
Qed.
End Kept.

(** ** The effects of a run *)

(** What the worker does to the outside: messages to the broker, sleeps, and
    messages to the notifier; recorded, the last first. *)
Inductive effect := Sent (m : string) | Slept (seconds : float) | Told (m : string).

Definition recorded {W A} (e : effect) (m : stm W A) : stm (W * list effect) A :=
  fun wl => let '(r, w) := m (fst wl) in (r, (w, e :: snd wl)).

Definition logged_surroundings {W} (k : surroundings W) : surroundings (W * list effect) := {|
  sr_socket := {| ws_connect e := on_fst (ws_connect (sr_socket k) e); ws_close := on_fst (ws_close (sr_socket k));
                  ws_send m := recorded (Sent m) (ws_send (sr_socket k) m); ws_recv t := on_fst (ws_recv (sr_socket k) t) |};
  sr_is_set := on_fst (sr_is_set k);
  sr_monotonic := on_fst (sr_monotonic k);
  sr_wait := (fun f d => recorded (Slept d) (f d)) <$> sr_wait k;
  sr_sleep d wl := (sr_sleep k d (fst wl), Slept d :: snd wl);
  sr_sleeper := (fun f d => recorded (Slept d) (f d)) <$> sr_sleeper k;
  sr_notifier := (fun f m => recorded (Told m) (f m)) <$> sr_notifier k;
  sr_connect_database := on_fst (sr_connect_database k);
  sr_config_text := on_fst (sr_config_text k);
  sr_environment := on_fst (sr_environment k);
  sr_authenticate e key secret := on_fst (sr_authenticate k e key secret);
|}.

Definition allowed (st : worker_settings) (e : effect) : Prop :=
  match e with Sent m => worker_message m | Slept d => in_bounds st d | Told m => coded_message m end.

(** Only allowed effects, no call of an order client, and a ledger that stays
    sound. *)
Definition harmless {W} (st : worker_settings) (s s' : sys (W * list effect)) : Prop :=
  (exists l, snd (s_world s') = l ++ snd (s_world s) /\ Forall (allowed st) l) /\
  (ledger_ok (s_db s) -> ledger_ok (s_db s') /\ s_trace s' = s_trace s).

#[export] Instance harmless_preorder {W} st : PreOrder (harmless (W := W) st).
Proof.
  split.
  - intros s. split; [by exists []|done].
  - intros a b c [(l1 & E1 & F1) H1] [(l2 & E2 & F2) H2]. split.
    + exists (l2 ++ l1). rewrite E2, E1, Forall_app. by rewrite app_assoc.
    + intros Ha. destruct (H1 Ha) as [Hb T1]. destruct (H2 Hb) as [Hc T2]. split; [done|congruence].
Qed.

Section Harmless.
Context {W : Type} {CW : Clock W} (k : surroundings W) (st : worker_settings).
Notation quiet m := (keeps (harmless (W := W) st) m).

Lemma harmless_world {A} (m : stm W A) : quiet (on_world (on_fst m)).
Proof. intros s. unfold on_world, on_fst. destruct (m (fst (s_world s))). split; [by exists []|done]. Qed.

Lemma harmless_effect {A} e (m : stm W A) : allowed st e -> quiet (on_world (recorded e m)).
Proof.
  intros He s. unfold on_world, recorded. destruct (m (fst (s_world s))). split; [|done]. exists [e]. split; [done|by constructor].
Qed.

Lemma harmless_db {A} (f : datetime -> db -> res (A * db)) :
  (forall now d a d', f now d = Ok (a, d') -> ledger_ok d -> ledger_ok d') -> quiet (on_db f).
Proof.
  intros Hf s. unfold on_db, wall_clock, logged_clock. destruct (wall_clock (fst (s_world s))) as [now w].
  destruct (f now (s_db s)) as [[a d]|e] eqn:E; cbn; (split; [by exists []|]); [|done]. intros Hd. split; [by eapply Hf|done].
Qed.

Lemma harmless_clock : quiet read_clock.
Proof. intros s. unfold read_clock, wall_clock, logged_clock. destruct (wall_clock (fst (s_world s))). split; [by exists []|done]. Qed.
End Harmless.

(** A notice is applied by database methods alone: of the world it only reads the
    clock. *)
Section OnlyClock.
Context {W : Type} {CW : Clock W} (RW : W -> W -> Prop) `{!PreOrder RW}.
Hypothesis wall : forall w, RW w (wall_clock w).2.

Definition world_rel (s s' : sys W) : Prop := RW (s_world s) (s_world s').
#[export] Instance world_rel_preorder : PreOrder world_rel.
Proof. unfold world_rel. split; [by intros s|]. intros a b c H1 H2. by etrans. Qed.

Lemma world_db {A} (f : datetime -> db -> res (A * db)) : keeps world_rel (on_db f).
Proof.
  intros s. unfold on_db, world_rel. pose proof (wall (s_world s)). destruct (wall_clock (s_world s)) as [now w].
  by destruct (f now (s_db s)) as [[a d]|e].
Qed.

Lemma world_clock : keeps world_rel read_clock.
Proof. intros s. unfold read_clock, world_rel. pose proof (wall (s_world s)). by destruct (wall_clock (s_world s)). Qed.

(** Programs of database methods, step by step. *)
Ltac only_clock :=
  repeat first
    [ apply keeps_ret, _ | apply keeps_raise, _ | apply keeps_lift, _ | apply keeps_query, _ | apply world_db | apply world_clock
    | apply keeps_attempt
    | match goal with |- keeps _ (mbind _ _) => apply keeps_bind; [exact _| |intros ?] end
    | match goal with |- keeps _ (match ?x with _ => _ end) => destruct x end ].

Lemma apply_notice_world n now : keeps world_rel (apply_fill_notice n None (Some now)).
Proof.
  unfold apply_fill_notice, received_at, apply_accepted, apply_rejected, apply_fill_event, materialize_if_needed, record_fill,
    notice_status, notice_blocked. cbv zeta. only_clock.
Qed.
End OnlyClock.

Lemma harmless_notice {W} {CW : Clock W} st n now : keeps (harmless (W := W) st) (apply_fill_notice n None (Some now)).
Proof.
  intros s. split.
  - exists []. split; [|done]. assert (P : PreOrder (fun w w' : W * list effect => snd w' = snd w)).
    { split; [done|intros a b c; congruence]. }
    apply (apply_notice_world _ (PreOrder0 := P)). intros w. unfold wall_clock, logged_clock. by destruct (wall_clock (fst w)).
  - intros Hd. destruct (apply_frame n None (Some now) s Hd) as [[Hf Ht]|(id & _ & [Hf Ht])]; split; try done; by apply Hf.
Qed.

Lemma harmless_admits {W} {CW : Clock W} (k : surroundings W) st :
  admits (logged_surroundings k) st (harmless st).
Proof.
  split; try (intros; apply harmless_world).
  - intros now. apply harmless_db. intros t d a d' H. unfold record_heartbeat, set_heartbeat in H.
    apply Prelude.bind_Ok in H as ([] & _ & H). apply Prelude.bind_Ok in H as ([t1 d1] & E & H). injection H as _ <-.
    by eapply same_ledger_ok, metadata_same_ledger.
  - intros key v now. apply harmless_db. intros t d a d' H. by eapply same_ledger_ok, metadata_same_ledger.
  - apply harmless_db. intros t d a d' [= _ <-]. apply same_ledger_ok, schema_same_ledger.
  - apply harmless_clock.
  - apply harmless_notice.
  - intros m Hm. by apply harmless_effect.
  - intros send m Hs Hm. cbn in Hs. destruct (sr_notifier k); [|done]. injection Hs as <-. by apply harmless_effect.
  - intros f d Hf Hd. cbn in Hf. destruct (sr_sleeper k); [|done]. injection Hf as <-. by apply harmless_effect.
  - intros f d Hf Hd. cbn in Hf. destruct (sr_wait k); [|done]. injection Hf as <-. by apply harmless_effect.
  - intros d Hd. apply (harmless_effect (W := W) st (Slept d) (fun w => (Ok tt, sr_sleep k d w)) Hd).
Qed.

(** ** A run that raises nothing *)

Section Total.
Context {W : Type} {CW : Clock W}.
Variables (k : surroundings W) (st : worker_settings) (safe_load : string -> res json) (model_validate : dict setting -> res AppConfig).
Variables (aes : string -> string -> string -> string) (unpad : string -> option string).

Definition never_raises {A} (m : stm (worker W) A) : Prop := forall w, exists a w', m w = (Ok a, w').

Lemma calm_bind {A B} (m : stm (worker W) A) (f : A -> stm (worker W) B) :
  never_raises m -> (forall a, never_raises (f a)) -> never_raises (mbind f m).
Proof. intros Hm Hf w. destruct (Hm w) as (a & w1 & E). rewrite (stm_bind_run _ _ _ _ _ E). apply Hf. Qed.

Lemma calm_ret {A} (a : A) : never_raises (mret a).
Proof. intros w. by exists a, w. Qed.

Lemma calm_gets {A} (f : worker W -> A) : never_raises (gets f).
Proof. intros w. by exists (f w), w. Qed.

Lemma calm_modify f : never_raises (modify f).
Proof. intros w. by eexists tt, _. Qed.

Lemma calm_outcome {A} (m : stm (worker W) A) : never_raises (outcome m).
Proof. intros w. unfold outcome. destruct (m w) as [r w']. by eexists _, _. Qed.

Hint Resolve calm_ret calm_gets calm_modify calm_outcome : total.

Lemma is_stopped_total : never_raises (is_stopped k).
Proof. apply calm_bind; auto with total. Qed.

Lemma back_off_total e : never_raises (back_off k st e).
Proof.
  apply calm_bind; [auto with total|intros known]. apply calm_bind; [auto with total|intros w]. apply calm_bind; [auto with total|intros _].
  apply calm_bind; [apply is_stopped_total|intros []; [auto with total|]]. apply calm_bind; [auto with total|intros w1].
  apply calm_bind; [auto with total|intros [[]|err]]; (apply calm_bind; [|intros _; apply calm_bind; auto with total]); [auto with total|].
  intros w2. by eexists tt, _.
Qed.

Lemma reconnect_total fuel : never_raises (reconnect_loop k st safe_load model_validate aes unpad fuel).
Proof.
  induction fuel as [|fuel IH]; cbn [reconnect_loop]; [auto with total|].
  apply calm_bind; [apply is_stopped_total|intros []; [auto with total|]].
  apply calm_bind; [auto with total|intros [[result|]|e]]; [|auto with total|].
  - destruct (String.eqb _ _); [auto with total|]. apply calm_bind; [apply calm_modify|done].
  - destruct (is_changed e).
    + apply calm_bind; [apply calm_modify|intros _]. apply calm_bind; [auto with total|intros w]. apply calm_bind; auto with total.
    + apply calm_bind; [apply back_off_total|intros []; auto with total].
Qed.

Lemma worker_main_total fuel : never_raises (worker_main k st safe_load model_validate aes unpad fuel).
Proof.
  apply calm_bind; [apply calm_modify|intros _]. apply calm_bind; [auto with total|intros _].
  apply calm_bind; [apply reconnect_total|intros [[]|]; [|auto with total]]. apply calm_bind; [auto with total|intros w].
  apply calm_bind; auto with total.
Qed.
End Total.

(** ** A run that ends *)

(** A world whose stop event is set in the end: [mu] bounds the polls that still
    find it clear, and nothing else makes more of them. *)
Record winding_down {W} {CW : Clock W} (k : surroundings W) (mu : W -> nat) : Prop := mkWinding {
  wd_poll : forall w w', sr_is_set k w = (Ok false, w') -> (mu w' < mu w)%nat;
  wd_is_set : forall w, (mu (sr_is_set k w).2 <= mu w)%nat;
  wd_wall : forall w, (mu (wall_clock w).2 <= mu w)%nat;
  wd_monotonic : forall w, (mu (sr_monotonic k w).2 <= mu w)%nat;
  wd_database : forall w, (mu (sr_connect_database k w).2 <= mu w)%nat;
  wd_config : forall w, (mu (sr_config_text k w).2 <= mu w)%nat;
  wd_environment : forall w, (mu (sr_environment k w).2 <= mu w)%nat;
  wd_authenticate : forall e key secret w, (mu (sr_authenticate k e key secret w).2 <= mu w)%nat;
  wd_connect : forall e w, (mu (ws_connect (sr_socket k) e w).2 <= mu w)%nat;
  wd_close : forall w, (mu (ws_close (sr_socket k) w).2 <= mu w)%nat;
  wd_recv : forall t w, (mu (ws_recv (sr_socket k) t w).2 <= mu w)%nat;
  wd_send : forall m w, (mu (ws_send (sr_socket k) m w).2 <= mu w)%nat;
  wd_tell : forall f m w, sr_notifier k = Some f -> (mu (f m w).2 <= mu w)%nat;
  wd_sleeper : forall f d w, sr_sleeper k = Some f -> (mu (f d w).2 <= mu w)%nat;
  wd_wait : forall f d w, sr_wait k = Some f -> (mu (f d w).2 <= mu w)%nat;
  wd_sleep : forall d w, (mu (sr_sleep k d w) <= mu w)%nat;
}.

Section Ends.
Context {W : Type} {CW : Clock W}.
Variables (k : surroundings W) (st : worker_settings) (safe_load : string -> res json) (model_validate : dict setting -> res AppConfig).
Variables (aes : string -> string -> string -> string) (unpad : string -> option string) (mu : W -> nat).
Hypothesis D : winding_down k mu.
Hypothesis Hst : proper st.

Definition polls_left (w w' : W) : Prop := (mu w' <= mu w)%nat.
#[export] Instance polls_left_preorder : PreOrder polls_left.
Proof. unfold polls_left. split; [intros w; lia|intros a b c; lia]. Qed.
Notation R := (world_rel polls_left).

Lemma polls_world {A} (m : stm W A) : (forall w, polls_left w (m w).2) -> keeps R (on_world m).
Proof. intros H s. unfold on_world, world_rel. specialize (H (s_world s)). by destruct (m (s_world s)). Qed.

Lemma polls_admits : admits k st R.
Proof.
  pose proof (wd_wall k mu D) as Hw. destruct D. split; intros; try (apply polls_world; intros w; unfold polls_left; by eauto).
  - by apply world_db.
  - by apply world_db.
  - by apply world_db.
  - by apply world_clock.
  - apply (apply_notice_world polls_left Hw).
Qed.

Notation kept := (kept st R).

(** Applies a lemma of what a part of the worker keeps. *)
Tactic Notation "kept_by" uconstr(L) :=
  first [eapply L | eapply kept_sys, L | eapply kept_outcome, L]; first [exact _ | exact polls_admits | exact Hst].

(** The state of a run so far: in bounds, with fewer than [n] polls left. *)
Definition ready (n : nat) (w : worker W) : Prop := in_bounds st (wk_delay w) /\ (mu (s_world (wk_sys w)) < n)%nat.

Lemma ready_kept n w w' : ready n w -> kept w w' -> ready n w'.
Proof. intros [Hb Hn] Hk. destruct (Hk Hb) as [Hb' Hm]. split; [done|]. unfold world_rel, polls_left in Hm. lia. Qed.

Lemma ready_run {A} n (m : stm (worker W) A) w r w' : keeps kept m -> ready n w -> m w = (r, w') -> ready n w'.
Proof. intros Hm Hn E. eapply ready_kept; [exact Hn|]. specialize (Hm w). by rewrite E in Hm. Qed.

Lemma ready_poll n w b w' : ready (S n) w -> is_stopped k w = (Ok b, w') -> b = true \/ ready n w'.
Proof.
  intros [Hb Hn] H. unfold is_stopped, outside, on_sys, on_world in H. unfold mbind, stm_bind, outcome in H.
  destruct (sr_is_set k (s_world (wk_sys w))) as [r x] eqn:E. cbn in H. apply stm_ret_inv in H as [H <-]. injection H as <-.
  destruct r as [[]|e]; [by left| |by left]. right. split; [done|]. cbn. pose proof (wd_poll k mu D _ _ E). lia.
Qed.

(** A bind that cannot yield [None] in its second step cannot yield it. *)
Lemma receive_ends fuel e d : forall c w w', ready fuel w -> receive_loop k st aes unpad fuel e d c w <> (Ok None, w').
Proof.
  pose proof polls_admits as A.
  induction fuel as [|fuel IH]; intros c w w' Hw; [destruct Hw; lia|]. cbn [receive_loop]. intros H.
  apply stm_bind_Ok in H as (b & w1 & E1 & H). apply (ready_poll fuel) in E1; [|done].
  destruct b; [by apply stm_ret_inv in H as [? _]|]. destruct E1 as [|R1]; [done|].
  apply stm_bind_Ok in H as (current & w2 & E2 & H). eapply ready_run in E2; [|kept_by runtime_environment_kept|exact R1].
  destruct (bool_decide _); [done|].
  apply stm_bind_Ok in H as (got & w3 & E3 & H). eapply ready_run in E3; [|kept_by next_frame_kept|exact E2]. destruct got as [raw|].
  - apply stm_bind_Ok in H as (c' & w4 & E4 & H). eapply ready_run in E4; [|kept_by handle_frame_kept|exact E3]. by eapply IH.
  - apply stm_bind_Ok in H as ([] & w4 & E4 & H). eapply ready_run in E4; [|kept_by record_runtime_kept|exact E3].
    destruct (acknowledged c); [by eapply IH|]. apply stm_bind_Ok in H as (now & w5 & E5 & H).
    eapply ready_run in E5; [|apply kept_sys, A|exact E4]. destruct (_ <=? _)%F; [done|by eapply IH].
Qed.

Lemma session_ends fuel e key hts w w' : ready fuel w -> session k st aes unpad fuel e key hts w <> (Ok None, w').
Proof.
  pose proof polls_admits as A. intros Hw H. unfold session, with_socket in H.
  apply stm_bind_Ok in H as ([] & w1 & E1 & H). eapply ready_run in E1; [|apply kept_sys, A|exact Hw].
  apply stm_bind_Ok in H as (r & w2 & E2 & H). apply stm_bind_Ok in H as ([] & w3 & _ & H).
  unfold lift_res in H. injection H as -> _. unfold outcome in E2.
  match type of E2 with (let '(_, _) := ?m in _) = _ => destruct m as [r4 w4] eqn:E4 end. injection E2 as -> _.
  apply stm_bind_Ok in E4 as (c & w5 & Ec & H). unfold lift_res in Ec. injection Ec as Ec <-.
  apply stm_bind_Ok in H as (m & w6 & Em & H). unfold lift_res in Em. injection Em as Em <-.
  apply stm_bind_Ok in H as ([] & w7 & E7 & H).
  eapply ready_run in E7; [|apply kept_sys, A; by eapply subscription_allowed|exact E1].
  apply stm_bind_Ok in H as (now & w8 & E8 & H). eapply ready_run in E8; [|apply kept_sys, A|exact E7].
  apply stm_bind_Ok in H as ([] & w9 & E9 & H). eapply ready_run in E9; [|kept_by report_kept|exact E8].
  by eapply receive_ends.
Qed.

Lemma connect_ends fuel w w' : ready fuel w -> connect_once k st safe_load model_validate aes unpad fuel w <> (Ok None, w').
Proof.
  pose proof polls_admits as A. intros Hw H. unfold connect_once in H.
  apply stm_bind_Ok in H as (e & w1 & E1 & H). eapply ready_run in E1; [|kept_by runtime_environment_kept|exact Hw].
  apply stm_bind_Ok in H as (x & w2 & E2 & H). injection E2 as <- <-.
  apply stm_bind_Ok in H as ([] & w3 & E3 & H). eapply ready_run in E3; [| |exact E1].
  2: { destruct (bool_decide _); [apply keeps_ret, _|]. apply keeps_bind; [exact _|apply kept_modify; [exact _|done|done]|intros _]. kept_by set_delay_kept. }
  apply stm_bind_Ok in H as (mat & w4 & E4 & H). eapply ready_run in E4; [|kept_by material_kept|exact E3].
  apply stm_bind_Ok in H as (auth & w5 & E5 & H). eapply ready_run in E5; [|apply kept_sys, A|exact E4].
  apply stm_bind_Ok in H as ([] & w6 & E6 & H). eapply ready_run in E6; [| |exact E5].
  2: { destruct (sempty _); [apply keeps_raise, _|apply keeps_ret, _]. }
  apply stm_bind_Ok in H as ([] & w7 & E7 & H). eapply ready_run in E7; [|kept_by report_kept|exact E6].
  by eapply session_ends.
Qed.

Lemma reconnect_ends fuel : forall w w', ready fuel w -> reconnect_loop k st safe_load model_validate aes unpad fuel w <> (Ok None, w').
Proof.
  pose proof polls_admits as A.
  induction fuel as [|fuel IH]; intros w w' Hw; [destruct Hw; lia|]. cbn [reconnect_loop]. intros H.
  apply stm_bind_Ok in H as (b & w1 & E1 & H). apply (ready_poll fuel) in E1; [|done].
  destruct b; [by apply stm_ret_inv in H as [? _]|]. destruct E1 as [|R1]; [done|].
  apply stm_bind_Ok in H as (r & w2 & E2 & H).
  assert (Hr : r <> Ok None).
  { intros ->. unfold outcome in E2. destruct (connect_once k st safe_load model_validate aes unpad fuel w1) as [r0 w0] eqn:E.
    injection E2 as -> _. by apply connect_ends in E. }
  eapply ready_run in E2; [|kept_by connection_kept|exact R1]. destruct r as [[result|]|e]; [|done|].
  - destruct (String.eqb _ _); [by apply stm_ret_inv in H as [? _]|].
    apply stm_bind_Ok in H as ([] & w3 & E3 & H). eapply ready_run in E3; [|kept_by set_delay_kept|exact E2]. by eapply IH.
  - destruct (is_changed e).
    + apply stm_bind_Ok in H as ([] & w3 & E3 & H). eapply ready_run in E3; [|kept_by set_delay_kept|exact E2].
      apply stm_bind_Ok in H as (x & w4 & E4 & H). injection E4 as <- <-.
      apply stm_bind_Ok in H as (y & w5 & E5 & H). eapply ready_run in E5; [|kept_by report_kept|exact E3]. by eapply IH.
    + apply stm_bind_Ok in H as (b & w3 & E3 & H). eapply ready_run in E3; [|kept_by back_off_kept|exact E2].
      destruct b; [by apply stm_ret_inv in H as [? _]|by eapply IH].
Qed.

Lemma worker_main_ends fuel w w' : ready fuel w -> worker_main k st safe_load model_validate aes unpad fuel w <> (Ok None, w').
Proof.
  pose proof polls_admits as A. intros Hw H. unfold worker_main in H.
  apply stm_bind_Ok in H as ([] & w1 & E1 & H). eapply ready_run in E1; [|kept_by set_delay_kept|exact Hw].
  apply stm_bind_Ok in H as (x & w2 & E2 & H). eapply ready_run in E2; [|kept_by report_kept|exact E1].
  apply stm_bind_Ok in H as (ended & w3 & E3 & H). destruct ended as [[]|].
  - apply stm_bind_Ok in H as (y & w4 & _ & H). apply stm_bind_Ok in H as (z & w5 & _ & H). by apply stm_ret_inv in H as [? _].
  - by apply reconnect_ends in E3.
Qed.
End Ends.

(** ** The state the worker leaves *)

Section Final.
Context {W : Type} {CW : Clock W}.
Variables (k : surroundings W) (st : worker_settings).
Hypothesis database_opens : forall w, (sr_connect_database k w).1 = Ok tt.

Definition shows (status environment error : string) (s : sys W) : Prop :=
  get_metadata "fill-notice:status" (s_db s) = Some status /\
  get_metadata "fill-notice:environment" (s_db s) = Some environment /\
  get_metadata "fill-notice:last_error" (s_db s) = Some error.

Lemma heartbeat_success now (s : sys W) : exists t s', on_db (record_heartbeat "fill-notice" (Some now)) s = (Ok t, s').
Proof. unfold on_db. destruct (wall_clock (s_world s)) as [x w]. by eexists _, _. Qed.

Lemma open_database_success (s : sys W) : exists s', open_database k s = (Ok tt, s').
Proof.
  unfold open_database, on_world. unfold mbind, stm_bind. specialize (database_opens (s_world s)).
  destruct (sr_connect_database k (s_world s)) as [[[]|] w]; [|done]. rewrite open_schema_run. by eexists.
Qed.

Lemma record_runtime_run status e x (s : sys W) : exists s', record_runtime k status e x s = (Ok tt, s') /\
  shows (public_code status "unavailable") (if mem_str e [""; "demo"; "real"] then e else "")
    (if sempty x then "" else public_code x "worker_error") s'.
Proof.
  unfold record_runtime. cbv zeta. destruct (utc_clock s) as [r s1] eqn:E1.
  assert (exists now, r = Ok now) as [now ->].
  { unfold utc_clock, read_clock, mbind, stm_bind in E1. destruct (wall_clock (s_world s)). injection E1 as <- _. by eexists. }
  rewrite (stm_bind_run _ _ _ _ _ E1). destruct (open_database_success s1) as [s2 E2]. rewrite (stm_bind_run _ _ _ _ _ E2).
  destruct (heartbeat_success now s2) as (t & s3 & E3). rewrite (stm_bind_run _ _ _ _ _ E3). clear E1 E2 E3.
  set (ss := public_code status _). set (ee := if mem_str e _ then e else _). set (xx := if sempty x then _ else _).
  destruct (set_metadata_success "fill-notice:status" ss (Some now) s3) as (t4 & w4 & E4); [done|]. rewrite (stm_bind_run _ _ _ _ _ E4).
  match type of E4 with _ = (_, ?s4) => destruct (set_metadata_success "fill-notice:environment" ee (Some now) s4) as (t5 & w5 & E5); [done|] end.
  rewrite (stm_bind_run _ _ _ _ _ E5).
  match type of E5 with _ = (_, ?s5) => destruct (set_metadata_success "fill-notice:last_error" xx (Some now) s5) as (t6 & w6 & E6); [done|] end.
  rewrite (stm_bind_run _ _ _ _ _ E6). eexists. split; [reflexivity|].
  unfold shows. cbn [s_db]. rewrite !(metadata_put_other "fill-notice:last_error"), !(metadata_put_other "fill-notice:environment") by done.
  by rewrite !metadata_put_get.
Qed.

(** A report is in the database, whatever becomes of the message about it. *)
Lemma report_shows status e x (w : worker W) :
  is_code status = true -> public_code status "unavailable" = status ->
  shows status (environment_text e) (if sempty x then "" else public_code (public_code x "worker_error") "worker_error")
    (wk_sys (report_state k st status e x w).2).
Proof.
  intros Hc Hs. unfold report_state. cbv zeta. rewrite !Hs.
  set (xx := if sempty x then "" else public_code x "worker_error").
  destruct (record_runtime_run status (environment_text e) xx (wk_sys w)) as (s' & E & Hsh).
  assert (K : shows status (environment_text e) (if sempty x then "" else public_code (public_code x "worker_error") "worker_error") s').
  { rewrite Hs in Hsh. destruct Hsh as (H1 & H2 & H3). split_and!; [done| |].
    - rewrite H2. by destruct e as [[]|].
    - rewrite H3. subst xx. destruct (sempty x) eqn:Ex; [done|].
      pose proof (public_code_code x "worker_error" eq_refl) as Hp. unfold is_code in Hp.
      destruct (sempty (public_code x "worker_error")); [done|done]. }
  unfold mbind at 1, stm_bind, outcome at 1, on_sys at 1. rewrite E.
  set (w1 := mkWorker s' _ _ _ _).
  match goal with |- shows _ _ _ (wk_sys (?m w1).2) =>
    assert (Hk : keeps (fun a b => s_db (wk_sys b) = s_db (wk_sys a)) m) end.
  2: { specialize (Hk w1). unfold shows in *. rewrite Hk. exact K. }
  assert (P : PreOrder (fun a b : worker W => s_db (wk_sys b) = s_db (wk_sys a))) by (split; [done|intros a b c; congruence]).
  assert (Hw : forall A (m : stm W A), keeps (fun a b => s_db (wk_sys b) = s_db (wk_sys a)) (outside m)).
  { intros A m v. unfold outside, on_sys, on_world. by destruct (m _). }
  apply keeps_bind; [done|apply Hw|intros now]. apply keeps_bind; [done|by apply keeps_gets|intros v].
  apply keeps_bind; [done|done|intros _]. destruct (sr_notifier k) as [send|]; [|by apply keeps_ret].
  destruct (_ || _); [|by apply keeps_ret]. apply keeps_bind; [done|apply keeps_outcome, Hw|intros [[]|err]; [done|by apply keeps_ret]].
Qed.
End Final.

(** ** A scripted world *)

(** The polls until the stop event is set, and the frames of the connection. *)
Definition w_stream : Type := nat * list raw_frame.
#[local] Instance w_stream_time : Clock w_stream := fun w => (Datetime 1700000000000000 (Some KST), w).

Definition w_surroundings (frames : list raw_frame) : surroundings w_stream := {|
  sr_socket := {| ws_connect _ := fun w => (Ok tt, (w.1, frames)); ws_close := mret tt; ws_send _ := mret tt;
                  ws_recv _ := fun w => match w.2 with f :: l => (Ok f, (w.1, l)) | [] => (Err (OtherError "ConnectionClosed"), w) end |};
  sr_is_set := fun w => match w.1 with O => (Ok true, w) | S n => (Ok false, (n, w.2)) end;
  sr_monotonic := mret (f_of_Z 100);
  sr_wait := Some (fun _ => mret tt);
  sr_sleep _ w := w;
  sr_sleeper := None;
  sr_notifier := Some (fun _ => mret tt);
  sr_connect_database := mret tt;
  sr_config_text := mret "";
  sr_environment := mret [("KIS_DEMO_APP_KEY", "k"); ("KIS_DEMO_APP_SECRET", "s"); ("KIS_HTS_ID", "hts1")];
  sr_authenticate _ _ _ := mret (mkAuthResult "token" "approval" false);
|}.
Definition w_settings : worker_settings := mkWorkerSettings f_one (f_of_Z 30) f_one (f_of_Z 15) (f_of_Z 60).
Definition w_cipher (a b c : string) : string := "".
Definition w_unpad (s : string) : option string := None.
Definition w_worker_run (frames : list raw_frame) (s : sys (w_stream * list effect)) : res (option unit) * sys (w_stream * list effect) :=
  run_fill_notice_worker (CW := logged_clock) (logged_surroundings (w_surroundings frames)) w_settings (fun _ => Ok JNull) w_validate
    w_cipher w_unpad 20 s.
Definition w_worker_start (polls : nat) : sys (w_stream * list effect) := mkSys empty_db ((polls, []), []) [].

(** The sleeps of a log, and its messages to the notifier, in order. *)
Definition sleeps (log : list effect) : list float := omap (fun e => match e with Slept d => Some d | _ => None end) (rev log).
Definition tellings (log : list effect) : list string := omap (fun e => match e with Told m => Some m | _ => None end) (rev log).

Lemma w_winding frames : winding_down (w_surroundings frames) fst.
Proof.
  split; cbn; intros; try done; try lia.
  - destruct w as [[|n] l]; cbn in *; [done|]. injection H as <-. cbn. lia.
  - by destruct w as [[|n] l]; cbn; lia.
  - by destruct w as [n [|f l]].
  - injection H as <-. cbn. lia.
  - injection H as <-. cbn. lia.
Qed.

(** ** Properties *)

Section WorkerProperties.
Context {W : Type} {CW : Clock W}.
Variables (k : surroundings W) (st : worker_settings) (safe_load : string -> res json) (model_validate : dict setting -> res AppConfig).
Variables (aes : string -> string -> string -> string) (unpad : string -> option string).

(** Fact: the worker is read-only.  Whatever the world does, all it sends to the
    broker are subscriptions to execution notices and heartbeats it has received;
    every sleep lies within the reconnect bounds; every message to the notifier
    consists of short codes and the name of the environment.  It calls no order
    client, and a sound ledger stays sound. *)
Theorem worker_is_read_only fuel d w tr r d' w' log tr' :
  is_nan (ws_reconnect_min st) = false -> is_nan (ws_reconnect_max st) = false ->
  run_fill_notice_worker (logged_surroundings k) st safe_load model_validate aes unpad fuel (mkSys d (w, []) tr) =
    (r, mkSys d' (w', log) tr') ->
  Forall (allowed st) log /\ (ledger_ok d -> ledger_ok d' /\ tr' = tr).
Proof.
  intros N1 N2 H. destruct (check_settings st) as [[]|e] eqn:Ec.
  - assert (K : harmless st (mkSys d (w, []) tr)
      (run_fill_notice_worker (logged_surroundings k) st safe_load model_validate aes unpad fuel (mkSys d (w, []) tr)).2).
    { apply run_kept; [exact _|apply harmless_admits|by apply check_settings_proper]. }
    rewrite H in K. destruct K as [(l & E & F) Hl]. cbn in E, Hl. rewrite app_nil_r in E. by subst l.
  - unfold run_fill_notice_worker in H. rewrite Ec in H. injection H as _ <- <- <- <-. by split; [constructor|].
Qed.

(** Fact: the worker ends.  Once the stop event comes to be set the worker returns
    normally, whatever has failed before, with its last state in the database:
    [stopped], and a word for the last error. *)
Theorem worker_ends_stopped mu fuel s :
  winding_down k mu -> proper st -> check_settings st = Ok tt -> (mu (s_world s) < fuel)%nat ->
  exists s', run_fill_notice_worker k st safe_load model_validate aes unpad fuel s = (Ok (Some tt), s') /\
    ((forall w, (sr_connect_database k w).1 = Ok tt) -> exists environment error, shows "stopped" environment error s').
Proof.
  intros D Hp Hc Hf. unfold run_fill_notice_worker. rewrite Hc.
  assert (Hr : ready st mu fuel (new_worker st s)) by (split; [by apply min_in_bounds|done]).
  pose proof (fun w' => worker_main_ends k st safe_load model_validate aes unpad mu D Hp fuel (new_worker st s) w' Hr) as Hn.
  destruct (worker_main k st safe_load model_validate aes unpad fuel (new_worker st s)) as [r w'] eqn:E.
  destruct (worker_main_total k st safe_load model_validate aes unpad fuel (new_worker st s)) as (o & w2 & E2).
  rewrite E in E2. injection E2 as -> <-. destruct o as [[]|]; [|by destruct (Hn w')]. exists (wk_sys w'). split; [done|].
  intros Hdb. unfold worker_main in E. apply stm_bind_Ok in E as ([] & w1 & _ & E). apply stm_bind_Ok in E as (x & w2 & _ & E).
  apply stm_bind_Ok in E as (ended & w3 & _ & E). destruct ended as [[]|]; [|by apply stm_ret_inv in E as [? _]].
  apply stm_bind_Ok in E as (w4 & w5 & E4 & E). injection E4 as <- <-. apply stm_bind_Ok in E as (y & w6 & E6 & E).
  apply stm_ret_inv in E as [_ <-]. set (err := match wk_last_state w3 with Some _ => _ | None => _ end) in *.
  pose proof (report_shows k st Hdb "stopped" (wk_environment w3) err w3 eq_refl eq_refl) as K.
  unfold outcome in E6. destruct (report_state k st "stopped" (wk_environment w3) err w3) as [r7 w7]. injection E6 as _ <-. by eexists _, _.
Qed.

Lemma receive_stops fuel e d : forall c w r w', receive_loop k st aes unpad fuel e d c w = (Ok (Some r), w') -> r = "stopped".
Proof.
  induction fuel as [|fuel IH]; intros c w r w'; cbn [receive_loop]; [intros H; by apply stm_ret_inv in H as [? _]|]. intros H.
  apply stm_bind_Ok in H as ([] & w1 & _ & H); [by apply stm_ret_inv in H as [[= <-] _]|].
  apply stm_bind_Ok in H as (current & w2 & _ & H). destruct (bool_decide _); [done|].
  apply stm_bind_Ok in H as ([raw|] & w3 & _ & H).
  - apply stm_bind_Ok in H as (c' & w4 & _ & H). by eapply IH.
  - apply stm_bind_Ok in H as ([] & w4 & _ & H). destruct (acknowledged c); [by eapply IH|].
    apply stm_bind_Ok in H as (now & w5 & _ & H). destruct (_ <=? _)%F; [done|by eapply IH].
Qed.
End WorkerProperties.

(** Fact: a connection does not reset the delay.  A session that returns at all
    returns ["stopped"], so that the reset of the delay after a session is never
    reached: a worker whose connections are acknowledged and lost waits twice as
    long after each. *)
Theorem delay_outlives_connections :
  (forall W (CW : Clock W) (k : surroundings W) st aes unpad fuel e key hts w r w',
     session k st aes unpad fuel e key hts w = (Ok (Some r), w') -> r = "stopped") /\
  exists log, (s_world (w_worker_run [w_ack] (w_worker_start 13)).2).2 = log /\
    take 3 (sleeps log) = [f_one; f_of_Z 2; f_of_Z 4] /\
    length (List.filter (String.eqb "fill-notice: connected environment=demo") (tellings log)) = 3%nat.
Proof.
  split.
  - intros W CW k st aes unpad fuel e key hts w r w' H. unfold session, with_socket in H.
    apply stm_bind_Ok in H as ([] & w1 & _ & H). apply stm_bind_Ok in H as (x & w2 & E2 & H). apply stm_bind_Ok in H as ([] & w3 & _ & H).
    unfold lift_res in H. injection H as -> _. unfold outcome in E2.
    match type of E2 with (let '(_, _) := ?m in _) = _ => destruct m as [r4 w4] eqn:E4 end. injection E2 as -> _.
    do 5 (apply stm_bind_Ok in E4 as (? & ? & _ & E4)). by eapply receive_stops.
  - eexists. split; [reflexivity|]. split; vm_compute; reflexivity.
Qed.

(** ** Witnesses *)

Lemma worker_is_read_only_witness :
  length (s_world (w_worker_run [w_ack] (w_worker_start 4)).2).2 = 8%nat /\
  Forall (allowed w_settings) (s_world (w_worker_run [w_ack] (w_worker_start 4)).2).2.
Proof.
  split; [vm_compute; reflexivity|].
  apply (worker_is_read_only (CW := w_stream_time) (w_surroundings [w_ack]) w_settings (fun _ => Ok JNull) w_validate w_cipher w_unpad 20
    empty_db (4%nat, []) [] (w_worker_run [w_ack] (w_worker_start 4)).1 (s_db (w_worker_run [w_ack] (w_worker_start 4)).2)
    (s_world (w_worker_run [w_ack] (w_worker_start 4)).2).1 _ (s_trace (w_worker_run [w_ack] (w_worker_start 4)).2)).
  - reflexivity.
  - reflexivity.
  - vm_compute. reflexivity.
Defined.

Lemma worker_ends_stopped_witness : exists s',
  run_fill_notice_worker (CW := w_stream_time) (w_surroundings [w_ack]) w_settings (fun _ => Ok JNull) w_validate w_cipher w_unpad 5
    (mkSys empty_db (4%nat, []) []) = (Ok (Some tt), s') /\ exists environment error, shows "stopped" environment error s'.
Proof.
  destruct (worker_ends_stopped (CW := w_stream_time) (w_surroundings [w_ack]) w_settings (fun _ => Ok JNull) w_validate w_cipher w_unpad
    fst 5 (mkSys empty_db (4%nat, []) [])) as (s' & H & Hs).
  - apply w_winding.
  - split; vm_compute; reflexivity.
  - vm_compute. reflexivity.
  - cbn. lia.
  - exists s'. split; [exact H|]. by apply Hs.
Defined.
