(* ===== verification/Idempotency.v ===== *)
(** * Signal identifiers and the signal ledger ([execution/idempotency.py])

    A candidate signal has a stable identifier: its strategy, its symbol and a
    short hash of both with the time; a process-local ledger accepts each
    identifier once. *)

From S2P Require Import Prelude PyStr PyTime Sha256 PyJson.

(** The three kinds of timestamp the caller may pass. *)
Inductive signal_time :=
  | AtDatetime (t : datetime)
  | AtDate (days : Z)
  | AtText (s : string).

(** [_canonical_timestamp] *)
Definition canonical_timestamp (t : signal_time) : res string :=
  let value := match t with
               | AtDatetime d => isoformat_seconds d
               | AtDate n => iso_date n
               | AtText s => strip s
               end in
  _ ← raise_if (sempty value) (ValueError "timestamp must not be empty");
  Ok value.

(** [re.sub("[^A-Za-z0-9]+", "_", s)]: [run] says that the run of other
    characters has its underscore already. *)
Fixpoint sub_runs (run : bool) (s : string) : string :=
  match s with
  | "" => ""
  | String c t =>
      if is_alnum c then String c (sub_runs false t)
      else if run then sub_runs true t else String "_" (sub_runs true t)
  end.

Definition is_underscore (c : ascii) : bool := bool_decide (c = "_"%char).

(** [_prefix] *)
Definition signal_prefix (value : string) : res string :=
  let normalized := rstrip_by is_underscore (lstrip_by is_underscore (sub_runs false (strip value))) in
  _ ← raise_if (sempty normalized) (ValueError "strategy and symbol must not be empty");
  Ok (upper normalized).

Definition build_signal_id (strategy symbol : string) (timestamp : signal_time) : res string :=
  t ← canonical_timestamp timestamp;
  let canonical := strip strategy +:+ "|" +:+ strip symbol +:+ "|" +:+ t in
  let suffix := String.substring 0 12 (sha256_hex canonical) in
  a ← signal_prefix strategy;
  b ← signal_prefix symbol;
  Ok (a +:+ ":" +:+ b +:+ ":" +:+ suffix).

(** [SignalLedger]: the set of seen identifiers. *)
Definition signal_ledger : Type := gset string.

Definition record (signal_id : string) (seen : signal_ledger) : res (bool * signal_ledger) :=
  let id := strip signal_id in
  _ ← raise_if (sempty id) (ValueError "signal_id must not be empty");
  _ ← raise_if (bool_decide (id ∈ seen)) (DuplicateSignalError ("duplicate signal_id: " +:+ id));
  Ok (true, {[id]} ∪ seen).

Definition seen (signal_id : string) (l : signal_ledger) : bool := bool_decide (strip signal_id ∈ l).

Definition ledger_len (l : signal_ledger) : Z := Z.of_nat (size l).

(** A run of calls; one that raises leaves the ledger as it was. *)
Fixpoint record_all (ids : list string) (l : signal_ledger) : list (res bool) * signal_ledger :=
  match ids with
  | [] => ([], l)
  | i :: ids' =>
      let '(r, l1) := match record i l with Ok (b, l1) => (Ok b, l1) | Err e => (Err e, l) end in
      let '(rs, l2) := record_all ids' l1 in (r :: rs, l2)
  end.

Definition accepted (r : res bool) : bool := is_ok r.

(** ** Lemmas *)

Definition is_id_char (c : ascii) : bool := is_digit c || is_upper c || is_underscore c.
Definition is_hex (c : ascii) : bool := is_digit c || ((97 <=? code c) && (code c <=? 102)).

Lemma sforall_app p s1 s2 : sforall p (s1 +:+ s2) = sforall p s1 && sforall p s2.
Proof.
  induction s1 as [|c s1 IH]; [done|]. change (String c s1 +:+ s2) with (String c (s1 +:+ s2)). cbn.
  by rewrite IH, andb_assoc.
Qed.

Lemma sub_runs_chars s : forall run, sforall (fun c => is_alnum c || is_underscore c) (sub_runs run s) = true.
Proof.
  induction s as [|c s IH]; intros run; cbn; [done|]. destruct (is_alnum c) eqn:E; cbn; [by rewrite E, IH|].
  destruct run; cbn; by rewrite IH.
Qed.

Lemma lstrip_sforall p q s : sforall p s = true -> sforall p (lstrip_by q s) = true.
Proof.
  induction s as [|c s IH]; cbn; [done|]. intros H. apply andb_true_iff in H as [H1 H2].
  destruct (q c); [auto|]. cbn. by rewrite H1, H2.
Qed.

Lemma rstrip_sforall p q s : sforall p s = true -> sforall p (rstrip_by q s) = true.
Proof.
  induction s as [|c s IH]; cbn; [done|]. intros H. apply andb_true_iff in H as [H1 H2]. specialize (IH H2).
  destruct (rstrip_by q s); [by destruct (q c); cbn; rewrite ?H1|]. cbn in *. by rewrite H1, IH.
Qed.

Lemma upper_id_chars s :
  sforall (fun c => is_alnum c || is_underscore c) s = true -> sforall is_id_char (upper s) = true.
Proof.
  induction s as [|c s IH]; cbn; [done|]. intros H. apply andb_true_iff in H as [H1 H2].
  fold (upper s). rewrite IH by done. rewrite andb_true_r. revert H1. clear.
  destruct c as [[] [] [] [] [] [] [] []]; vm_compute; done.
Qed.

Lemma upper_empty s : upper s = "" -> s = "".
Proof. by destruct s. Qed.

Lemma signal_prefix_Ok v p : signal_prefix v = Ok p -> p <> "" /\ sforall is_id_char p = true.
Proof.
  unfold signal_prefix. intros H. apply bind_Ok in H as ([] & Hn & H). injection H as <-.
  apply raise_if_Ok in Hn. split.
  - intros E%upper_empty. by rewrite E in Hn.
  - apply upper_id_chars, rstrip_sforall, lstrip_sforall, sub_runs_chars.
Qed.

Lemma round_length st kw : length st = 8%nat -> length (round st kw) = 8%nat.
Proof. destruct st as [|? [|? [|? [|? [|? [|? [|? [|? [|? ?]]]]]]]]]; done. Qed.

Lemma compress_length h b : length h = 8%nat -> length (compress h b) = 8%nat.
Proof.
  intros Hh. unfold compress. rewrite length_zip_with.
  assert (Hf : forall l st, length st = 8%nat -> length (fold_left round l st) = 8%nat).
  { induction l as [|x l IH]; cbn; intros st Hst; [done|]. by apply IH, round_length. }
  rewrite Hh, Hf; done.
Qed.

Lemma blocks_length f : forall ws h, length h = 8%nat -> length (blocks f ws h) = 8%nat.
Proof.
  induction f as [|f IH]; intros ws h Hh; cbn; [done|]. destruct ws; [done|]. by apply IH, compress_length.
Qed.

Lemma hex_digit_hex n : 0 <= n < 16 -> is_hex (hex_digit n) = true.
Proof.
  intros Hn. assert (Forall (fun k => is_hex (hex_digit k) = true) (seqZ 0 16)) as Hall
    by (apply (bool_decide_unpack _); vm_compute; done).
  by apply (proj1 (list.Forall_forall _ _) Hall), elem_of_seqZ.
Qed.

Lemma hex_of_spec n : forall z acc, sforall is_hex acc = true ->
  sforall is_hex (hex_of n z acc) = true /\ String.length (hex_of n z acc) = (n + String.length acc)%nat.
Proof.
  induction n as [|n IH]; intros z acc H; cbn [hex_of]; [done|].
  destruct (IH (z / 16) (String (hex_digit (z mod 16)) acc)) as [H1 H2].
  { cbn. rewrite hex_digit_hex, H; [done|]. by apply Z.mod_pos_bound. }
  split; [done|]. rewrite H2. cbn. lia.
Qed.

Lemma append_length a b : String.length (a +:+ b) = (String.length a + String.length b)%nat.
Proof. induction a as [|c a IH]; [done|]. change (String c a +:+ b) with (String c (a +:+ b)). cbn. by rewrite IH. Qed.

Lemma sha256_hex_spec s : sforall is_hex (sha256_hex s) = true /\ String.length (sha256_hex s) = 64%nat.
Proof.
  unfold sha256_hex. set (l := blocks _ _ _). assert (Hl : length l = 8%nat) by (by apply blocks_length).
  clearbody l. assert (H : forall l, sforall is_hex (fold_right (fun z acc => hex_of 8 z "" +:+ acc) "" l) = true /\
    String.length (fold_right (fun z acc => hex_of 8 z "" +:+ acc) "" l) = (8 * length l)%nat).
  { clear. induction l as [|z l [IH1 IH2]]; [done|]. cbn [fold_right length].
    destruct (hex_of_spec 8 z "" eq_refl) as [H1 H2].
    rewrite sforall_app, H1, IH1, append_length, H2, IH2. cbn [String.length]. split; [done|lia]. }
  destruct (H l) as [H1 H2]. rewrite Hl in H2. done.
Qed.

Lemma substring_head n s : (n <= String.length s)%nat -> String.length (String.substring 0 n s) = n.
Proof.
  revert s. induction n as [|n IH]; intros [|c s] H; cbn in *; try lia; [done..|]. rewrite IH; lia.
Qed.

Lemma substring_sforall p n s : sforall p s = true -> sforall p (String.substring 0 n s) = true.
Proof.
  revert s. induction n as [|n IH]; intros [|c s] H; cbn in *; try done.
  apply andb_true_iff in H as [-> H]. cbn. by apply IH.
Qed.

Lemma record_Ok i l b l' : record i l = Ok (b, l') -> b = true /\ strip i <> "" /\ strip i ∉ l /\ l' = {[strip i]} ∪ l.
Proof.
  unfold record. intros H. apply bind_Ok in H as ([] & H1 & H). apply bind_Ok in H as ([] & H2 & H).
  apply raise_if_Ok in H1, H2. injection H as <- <-. apply bool_decide_eq_false in H2.
  split_and!; try done. intros E. by rewrite E in H1.
Qed.

Lemma record_all_grows ids : forall l, l ⊆ (record_all ids l).2.
Proof.
  induction ids as [|i ids IH]; intros l; cbn [record_all]; [done|].
  destruct (record i l) as [[b l1]|e] eqn:E.
  - apply record_Ok in E as (_ & _ & _ & ->). specialize (IH ({[strip i]} ∪ l)).
    destruct (record_all ids _) as [rs l2]. cbn in *. set_solver.
  - specialize (IH l). by destruct (record_all ids l).
Qed.

(** The identifiers a run accepted, stripped, in order. *)
Definition accepted_ids (ids : list string) (l : signal_ledger) : list string :=
  omap (fun ir => if accepted (snd ir) then Some (strip (fst ir)) else None) (zip ids (record_all ids l).1).

Lemma accepted_ids_spec ids : forall l,
  NoDup (accepted_ids ids l) /\ (forall i, i ∈ accepted_ids ids l -> i ∉ l) /\
  forall i, i ∈ (record_all ids l).2 <-> i ∈ accepted_ids ids l \/ i ∈ l.
Proof.
  unfold accepted_ids. induction ids as [|i ids IH]; intros l; cbn [record_all].
  { cbn. split_and!; [constructor|by intros ? ?%elem_of_nil|]. intros i. rewrite elem_of_nil. tauto. }
  destruct (record i l) as [[b l1]|e] eqn:E.
  - apply record_Ok in E as (-> & _ & Hn & ->). destruct (IH ({[strip i]} ∪ l)) as (H1 & H2 & H3).
    destruct (record_all ids ({[strip i]} ∪ l)) as [rs l2]. cbn in *. split_and!.
    + constructor; [|done]. intros Hin. apply H2 in Hin. set_solver.
    + intros j [->|Hj]%elem_of_cons; [done|]. apply H2 in Hj. set_solver.
    + intros j. rewrite H3, elem_of_cons. set_solver.
  - destruct (IH l) as (H1 & H2 & H3). destruct (record_all ids l) as [rs l2]. cbn in *. by split_and!.
Qed.

(** ** Properties *)

(** Fact: in any run of [record] calls each identifier is accepted at most once,
    surrounding spaces aside: the accepted identifiers are distinct and were not
    seen before, the ledger ends as its start with exactly those added, and
    every further [record] of one that is in it raises
    [DuplicateSignalError]. *)
Theorem signal_recorded_once ids (l : signal_ledger) i :
  NoDup (accepted_ids ids l) /\ (forall j, j ∈ accepted_ids ids l -> j ∉ l) /\
  (record_all ids l).2 = list_to_set (accepted_ids ids l) ∪ l /\
  (strip i <> "" -> (exists j, j ∈ ids /\ strip j = strip i) ->
   exists m, record i (record_all ids l).2 = Err (DuplicateSignalError m)).
Proof.
  destruct (accepted_ids_spec ids l) as (H1 & H2 & H3). split_and!; try done.
  - apply set_eq. intros j. rewrite H3, elem_of_union, elem_of_list_to_set. done.
  - intros Hne (j & Hj & Heq).
    assert (Hin : strip i ∈ (record_all ids l).2).
    { clear H1 H2 H3. rewrite <- Heq in *. clear i Heq. revert l. induction ids as [|k ids IH]; intros l.
      - by apply elem_of_nil in Hj.
      - cbn [record_all]. apply elem_of_cons in Hj as [->|Hj].
        + destruct (record k l) as [[b l1]|e] eqn:E.
          * apply record_Ok in E as (_ & _ & _ & ->). pose proof (record_all_grows ids ({[strip k]} ∪ l)) as Hg.
            destruct (record_all ids _) as [rs l2]. cbn in *. set_solver.
          * assert (Hl : strip k ∈ l).
            { unfold record in E. unfold sempty in E. destruct (String.eqb_spec (strip k) ""); [done|]. cbn in E.
              case_bool_decide; [done|]. by cbn in E. }
            pose proof (record_all_grows ids l) as Hg. destruct (record_all ids l) as [rs l2]. cbn in *. set_solver.
        + destruct (record k l) as [[b l1]|e]; [specialize (IH Hj l1)|specialize (IH Hj l)];
            by destruct (record_all ids _). }
    unfold record, sempty. destruct (String.eqb_spec (strip i) ""); [done|]. cbn.
    rewrite bool_decide_eq_true_2 by done. by eexists.
Qed.

(** Fact: a signal identifier is the two prefixes and twelve hexadecimal digits,
    separated by colons: the prefixes are not empty and made of upper-case
    letters, digits and underscores, so the parts can be read back and the
    identifier carries nothing of the caller's text that would need escaping. *)
Theorem build_signal_id_shape strategy symbol timestamp id :
  build_signal_id strategy symbol timestamp = Ok id ->
  exists a b suffix, id = a +:+ ":" +:+ b +:+ ":" +:+ suffix /\
    a <> "" /\ sforall is_id_char a = true /\ b <> "" /\ sforall is_id_char b = true /\
    String.length suffix = 12%nat /\ sforall is_hex suffix = true.
Proof.
  unfold build_signal_id. intros H. apply bind_Ok in H as (t & _ & H). cbv zeta in H.
  apply bind_Ok in H as (a & Ha & H). apply bind_Ok in H as (b & Hb & H). injection H as <-.
  apply signal_prefix_Ok in Ha as [? ?], Hb as [? ?].
  destruct (sha256_hex_spec (strip strategy +:+ "|" +:+ strip symbol +:+ "|" +:+ t)) as [Hx Hlen].
  exists a, b. eexists. split; [done|]. split_and!; try done.
  - apply substring_head. rewrite Hlen. lia.
  - by apply substring_sforall.
Qed.

(** ** Witnesses *)

Lemma build_signal_id_shape_witness :
  exists id, build_signal_id " vwap-breakout " "005930" (AtText "2026-01-05T09:30:00") = Ok id /\
    exists a b suffix, id = a +:+ ":" +:+ b +:+ ":" +:+ suffix /\ String.length suffix = 12%nat.
Proof.
  destruct (build_signal_id " vwap-breakout " "005930" (AtText "2026-01-05T09:30:00")) as [id|e] eqn:E;
    [|vm_compute in E; discriminate].
  exists id. split; [reflexivity|]. destruct (build_signal_id_shape _ _ _ _ E) as (a & b & x & H1 & _ & _ & _ & _ & H2 & _).
  exists a, b, x. split; [exact H1|exact H2].
Defined.

Lemma signal_recorded_once_witness :
  exists m, record "VWAP:005930:abc " (record_all ["VWAP:005930:abc"; "VWAP:005930:def"] ∅).2 = Err (DuplicateSignalError m).
Proof.
  destruct (signal_recorded_once ["VWAP:005930:abc"; "VWAP:005930:def"] ∅ "VWAP:005930:abc ") as (_ & _ & _ & H).
  apply H; [vm_compute; discriminate|]. exists "VWAP:005930:abc". split; [apply list_elem_of_here|vm_compute; reflexivity].
Defined.
