(* ===== verification/Shadow.v ===== *)
(** * Shadow and paper cycles ([market/health.py], [pipeline/shadow_cycle.py],
    [pipeline/dry_run.py], [pipeline/paper_shadow.py], [pipeline/paper_session.py])

    The read-only evaluation of one symbol: the health of its market data, the
    features and candidates of its bars, the risk gate and the order lifecycle;
    the same offline; and the paper trade that records an approved evaluation. *)

From S2P Require Import Prelude PyStr PyFloat PyTime Risk StateMachine PositionManager DbCore DbRuntime DbPaper DbMarket.
From S2P Require Import Indicators Sha256 PyJson Idempotency KisHttp KisOrder KisOrderStatus KisAccount System KisWs Collector.

(** ** Market health *)

Inductive MarketHealthStatus := HealthOk | HealthStale | HealthDisconnected | HealthNoData.

#[export] Instance MarketHealthStatus_eq_dec : EqDecision MarketHealthStatus.
Proof. solve_decision. Defined.

Definition health_value (s : MarketHealthStatus) : string :=
  match s with
  | HealthOk => "OK" | HealthStale => "STALE" | HealthDisconnected => "DISCONNECTED" | HealthNoData => "NO_DATA"
  end.

Record MarketHealth := mkHealth {
  mh_status : MarketHealthStatus;
  mh_trading_blocked : bool;
  mh_enter_safe_mode : bool;
  mh_reason : string;
  mh_tick_age_seconds : option float;
  mh_bar_age_seconds : option float;
}.

(** [_age_seconds] *)
Definition age_seconds (current_time timestamp : datetime) : res float :=
  us ← dt_sub current_time timestamp;
  Ok (fmax fzero (f_ratio us 1000000)).

(** [_age_seconds(...) if latest else None] *)
Definition age_of (current_time : datetime) (timestamp : option datetime) : res (option float) :=
  match timestamp with
  | Some t => age ← age_seconds current_time t; Ok (Some age)
  | None => Ok None
  end.

Definition fresh (age : option float) (limit : float) : bool :=
  match age with Some x => (x <=? limit)%F | None => false end.

Definition evaluate_market_health (current_time : datetime) (max_tick_age_seconds max_bar_age_seconds : float)
    (websocket_acknowledged : bool) (latest_tick : option MarketTick) (latest_bar : option MinuteBar) : res MarketHealth :=
  _ ← raise_if ((max_tick_age_seconds <=? fzero) || (max_bar_age_seconds <=? fzero))%F
        (ValueError "maximum data ages must be positive");
  tick_age ← age_of current_time (tk_timestamp <$> latest_tick);
  bar_age ← age_of current_time (mb_start <$> latest_bar);
  if negb websocket_acknowledged
  then Ok (mkHealth HealthDisconnected true true "websocket subscription is not acknowledged" tick_age bar_age)
  else match latest_tick, latest_bar with
  | None, None => Ok (mkHealth HealthNoData true true "no tick or bar data is available" None None)
  | _, _ =>
      if fresh tick_age max_tick_age_seconds || fresh bar_age max_bar_age_seconds
      then Ok (mkHealth HealthOk false false "market data is fresh" tick_age bar_age)
      else Ok (mkHealth HealthStale true true "latest market data is stale" tick_age bar_age)
  end.

(** ** The shadow cycle *)

Record ShadowCycleConfig := mkShadowConfig {
  sc_risk : RiskConfig;
  sc_lookback : Z;
  sc_max_tick_age_seconds : float;
  sc_max_bar_age_seconds : float;
  sc_websocket_acknowledged : bool;
}.

Definition default_shadow_config : ShadowCycleConfig := mkShadowConfig default_risk_config 20 (f_of_Z 5) (f_of_Z 90) false.

Record ShadowCycleReport := mkShadowReport {
  sh_symbol : string;
  sh_bars_count : Z;
  sh_health_status : string;
  sh_trading_blocked : bool;
  sh_safe_mode : bool;
  sh_candidates_count : Z;
  sh_selected_strategy : option string;
  sh_risk_approved : bool;
  sh_risk_reason : string;
  sh_risk_quantity : Z;
  sh_lifecycle_final_state : string;
  sh_signal_id : option string;
  sh_entry_price : option float;
}.

(** [(a.score, a.strategy) > (b.score, b.strategy)] *)
Definition candidate_gt (a b : CandidateSignal) : bool :=
  if feqb (cs_score a) (cs_score b) then text_ltb (cs_strategy b) (cs_strategy a) else (cs_score b <? cs_score a)%F.

(** [_select_candidate] of the shadow cycle: the first of the greatest. *)
Definition select_candidate (first : CandidateSignal) (rest : list CandidateSignal) : CandidateSignal :=
  foldl (fun best x => if candidate_gt x best then x else best) first rest.

(** [sorted(..., key=...)] of timestamps: naive and aware ones are not ordered. *)
Definition sort_times {A} (time : A -> datetime) (l : list A) : res (list A) :=
  match l with
  | [] => Ok []
  | x :: l' =>
      _ ← raise_if (existsb (fun y => negb (Bool.eqb (is_naive (time x)) (is_naive (time y)))) l')
            (TypeError "can't compare offset-naive and offset-aware datetimes");
      Ok (sort_by (fun a b => instant (time a) <=? instant (time b)) l)
  end.

Definition last_of {A} (l : list A) : option A := head (rev l).

(** [_clock_for_data]; [clock] is the aware reading of the machine. *)
Definition clock_for_data (current_time : option datetime) (tick : option MarketTick) (bar : option MinuteBar)
    (clock : datetime) : datetime :=
  match current_time with
  | Some t => t
  | None =>
      match (time ← (match tick with Some t => Some (tk_timestamp t) | None => mb_start <$> bar end); dt_tz time) with
      | Some off => astimezone clock off
      | None => with_tz (astimezone clock KST) None
      end
  end.

(** [for command in (...): state = transition(state, command)] *)
Fixpoint transitions (state : string) (commands : list Command) : res string :=
  match commands with
  | [] => Ok state
  | c :: l => s ← transition state (Command_value c); transitions (OrderState_value s) l
  end.

Definition ENTRY_COMMANDS : list Command := [WATCH; ARM; SUBMIT_ENTRY; MARK_ENTRY_FILLED].

Definition default_portfolio : PortfolioState := mkPortfolioState fzero [] fzero 0 0 ∅.

(** What a cycle reads: the bars and the latest tick and bar. *)
Record market_view := mkView {
  vw_bars : list MinuteBar;
  vw_tick : option MarketTick;
  vw_bar : option MinuteBar;
}.

(** What the database has of the symbol. *)
Definition stored_market (symbol : string) (d : db) : res (list MinuteBar * option MarketTick * option MinuteBar) :=
  bars ← load_bars symbol None d;
  tick ← latest_tick symbol d;
  bar ← latest_bar symbol d;
  Ok (bars, tick, bar).

(** The bars come from the database when there is one; the ticks given are used
    when it has none. *)
Definition read_market (symbol : string) (bars : list MinuteBar) (ticks : list MarketTick) (database : option db) : res market_view :=
  '(bars, tick, bar) ← (match database with Some d => stored_market symbol d | None => Ok (bars, None, None) end);
  bars ← sort_times mb_start (List.filter (fun b => String.eqb (mb_symbol b) symbol) bars);
  tick ← (match tick with
          | Some t => Ok (Some t)
          | None => ticks ← sort_times tk_timestamp (List.filter (fun t => String.eqb (tk_symbol t) symbol) ticks);
                    Ok (last_of ticks)
          end);
  Ok (mkView bars tick (match bar with Some b => Some b | None => last_of bars end)).

Section Cycle.
(** The sum of Python's floats. *)
Variable float_sum : list float -> float.

(** The candidates of a snapshot, with the default profile. *)
Definition candidates_of (bars : list MinuteBar) (lookback : Z) : res (list CandidateSignal) :=
  snapshot ← build_feature_snapshot float_sum bars lookback;
  match snapshot with Some s => scan_candidates s "normal" | None => Ok [] end.

(** The intent of the selected candidate, at the close of the latest bar. *)
Definition shadow_intent (symbol : string) (selected : CandidateSignal) (latest : MinuteBar) : res OrderIntent :=
  let entry_price := mb_close latest in
  signal_id ← build_signal_id (cs_strategy selected) symbol (AtDatetime (mb_start latest));
  Ok (mkOrderIntent symbol (cs_strategy selected) signal_id entry_price (entry_price * f_ratio 99 100)%F (Some (cs_score selected))).

Definition evaluate_shadow (symbol : string) (v : market_view) (health : MarketHealth) (c : ShadowCycleConfig)
    (portfolio : PortfolioState) : res ShadowCycleReport :=
  let count := len (vw_bars v) in
  let status := health_value (mh_status health) in
  if mh_trading_blocked health
  then Ok (mkShadowReport symbol count status true (mh_enter_safe_mode health) 0 None false (mh_reason health) 0
             (OrderState_value SAFE_MODE) None None)
  else
    candidates ← candidates_of (vw_bars v) (sc_lookback c);
    match candidates, last_of (vw_bars v) with
    | first :: rest, Some latest =>
        let selected := select_candidate first rest in
        intent ← shadow_intent symbol selected latest;
        decision ← evaluate_order_intent (sc_risk c) portfolio intent;
        state ← (if approved decision then transitions (OrderState_value FLAT) ENTRY_COMMANDS else Ok (OrderState_value FLAT));
        Ok (mkShadowReport symbol count status false false (len candidates) (Some (cs_strategy selected)) (approved decision)
              (rd_reason decision) (rd_quantity decision) state (Some (oi_signal_id intent)) (Some (oi_entry_price intent)))
    | _, _ => Ok (mkShadowReport symbol count status false false 0 None false "no_candidate" 0 (OrderState_value FLAT) None None)
    end.

(** [run_shadow_cycle], over what was read *)
Definition shadow_of_view (symbol : string) (v : market_view) (current_time : option datetime) (c : ShadowCycleConfig)
    (portfolio : option PortfolioState) (clock : datetime) : res ShadowCycleReport :=
  let now := clock_for_data current_time (vw_tick v) (vw_bar v) clock in
  health ← evaluate_market_health now (sc_max_tick_age_seconds c) (sc_max_bar_age_seconds c) (sc_websocket_acknowledged c)
             (vw_tick v) (vw_bar v);
  evaluate_shadow symbol v health c (or_else portfolio default_portfolio).

Definition run_shadow_cycle (symbol : string) (bars : list MinuteBar) (ticks : list MarketTick) (database : option db)
    (current_time : option datetime) (c : ShadowCycleConfig) (portfolio : option PortfolioState) (clock : datetime)
    : res ShadowCycleReport :=
  v ← read_market symbol bars ticks database;
  shadow_of_view symbol v current_time c portfolio clock.

(** ** The offline dry run *)

Record DryRunReport := mkDryRunReport {
  dr_symbol : string;
  dr_bars_count : Z;
  dr_candidates_count : Z;
  dr_selected_strategy : option string;
  dr_risk_approved : bool;
  dr_risk_reason : string;
  dr_risk_quantity : Z;
  dr_lifecycle_final_state : string;
  dr_position_action : option PositionAction;
  dr_position_reason : option string;
  dr_signal_id : option string;
}.

Definition empty_report (symbol : string) (bars_count : Z) (reason : string) : DryRunReport :=
  mkDryRunReport symbol bars_count 0 None false reason 0 (OrderState_value FLAT) None None None.

(** [_select_candidate] of the dry run *)
Definition dry_key_gt (a b : CandidateSignal) : bool :=
  if feqb (cs_score a) (cs_score b) then text_ltb (cs_strategy b) (cs_strategy a) else (cs_score b <? cs_score a)%F.
Definition dry_select_candidate (first : CandidateSignal) (rest : list CandidateSignal) : CandidateSignal :=
  foldl (fun best x => if dry_key_gt x best then x else best) first rest.

(** The candidates of the dry run, with the default profile *)
Definition dry_candidates (bars : list MinuteBar) (lookback : Z) : res (list CandidateSignal) :=
  snapshot ← build_feature_snapshot float_sum bars lookback;
  match snapshot with Some s => scan_candidates s "normal" | None => Ok [] end.

(** The intent of the dry run *)
Definition dry_run_intent (symbol signal_id : string) (selected : CandidateSignal) (entry_price stop_loss : float) : OrderIntent :=
  mkOrderIntent symbol (cs_strategy selected) signal_id entry_price stop_loss (Some (cs_score selected)).

(** The commands of the dry run *)
Definition DRY_RUN_COMMANDS : list Command := [WATCH; ARM; SUBMIT_ENTRY; MARK_ENTRY_FILLED].

(** The position an approved replay opens. *)
Definition dry_run_position (symbol : string) (quantity : Z) (entry_price stop_loss : float) (opened_at : datetime) : ManagedPosition := {|
  mp_symbol := symbol;
  mp_quantity := quantity;
  mp_entry_price := entry_price;
  mp_stop_loss := stop_loss;
  mp_tp1_price := (entry_price * f_ratio 1005 1000)%F;
  mp_tp2_price := (entry_price * f_ratio 101 100)%F;
  mp_opened_at := opened_at;
  mp_tp1_ratio := f_ratio 1 2;
  mp_tp1_filled := false;
  mp_highest_price := None;
  mp_trailing_active := false;
  mp_max_holding_seconds := None;
|}.

Definition run_offline_dry_run (bars : list MinuteBar) (risk : RiskConfig) (lookback : Z) : res DryRunReport :=
  match bars, last_of bars with
  | b0 :: _, Some latest =>
      let symbol := mb_symbol b0 in
      _ ← raise_if (existsb (fun b => negb (String.eqb (mb_symbol b) symbol)) bars)
            (ValueError "dry-run requires bars for exactly one symbol");
      candidates ← dry_candidates bars lookback;
      match candidates with
      | [] => Ok (empty_report symbol (len bars) "no_candidate")
      | first :: rest =>
          let selected := dry_select_candidate first rest in
          signal_id ← build_signal_id (cs_strategy selected) symbol (AtDatetime (mb_start latest));
          _ ← record signal_id ∅;
          let entry_price := mb_close latest in
          let stop_loss := (entry_price * f_ratio 99 100)%F in
          decision ← evaluate_order_intent risk default_portfolio (dry_run_intent symbol signal_id selected entry_price stop_loss);
          let report := mkDryRunReport symbol (len bars) (len candidates) (Some (cs_strategy selected)) (approved decision)
                          (rd_reason decision) (rd_quantity decision) in
          if negb (approved decision)
          then Ok (report (OrderState_value FLAT) None None (Some signal_id))
          else
            state ← transitions (OrderState_value FLAT) DRY_RUN_COMMANDS;
            let position := dry_run_position symbol (rd_quantity decision) entry_price stop_loss (mb_start latest) in
            held ← evaluate_position position entry_price (mb_start latest) default_rules;
            _ ← apply_position_decision position held;
            Ok (report state (Some (pd_action held)) (Some (pd_reason held)) (Some signal_id))
      end
  | _, _ => Ok (empty_report "unknown" 0 "no_bars")
  end.

(** ** Paper trades *)

Record PaperShadowResult := mkPaperShadow {
  px_shadow : ShadowCycleReport;
  px_recorded : bool;
  px_duplicate_skipped : bool;
  px_order_id : option string;
  px_fill_id : option string;
}.

(** The signal, quantity and price of a fully approved report. *)
Definition tradable (r : ShadowCycleReport) : option (string * Z * float) :=
  if sh_trading_blocked r || negb (sh_risk_approved r) || (sh_risk_quantity r <=? 0) then None
  else match sh_signal_id r, sh_entry_price r with
       | Some s, Some p => if sempty s then None else Some (s, sh_risk_quantity r, p)
       | _, _ => None
       end.

Definition record_shadow_paper_buy (r : ShadowCycleReport) (current_time : option datetime) (clock : datetime) (d : db)
    : res (PaperShadowResult * db) :=
  match tradable r with
  | None => Ok (mkPaperShadow r false false None None, d)
  | Some (signal, quantity, price) =>
      let order_id := "paper-order:" +:+ signal in
      let fill_id := "paper-fill:" +:+ signal in
      '(recorded, d) ← record_paper_buy order_id fill_id signal (sh_symbol r) quantity price current_time clock d;
      Ok (mkPaperShadow r recorded (negb recorded) (Some order_id) (Some fill_id), d)
  end.

(** SQLite's sum and group row (see [DbPaper]). *)
Variable sum_real : list float -> float.
Variable group_row : paper_fill -> list paper_fill -> paper_fill.

Definition run_paper_shadow_cycle (symbol : string) (c : ShadowCycleConfig) (current_time : option datetime) (clock : datetime) (d : db)
    : res (PaperShadowResult * db) :=
  let portfolio := mkPortfolioState fzero (paper_positions sum_real group_row d) fzero 0 0 ∅ in
  report ← run_shadow_cycle symbol [] [] (Some d) current_time c (Some portfolio) clock;
  record_shadow_paper_buy report current_time clock d.
End Cycle.

(** ** The paper session *)

Record PaperSessionIteration := mkIteration {
  it_iteration : Z;
  it_subscribe_ack : bool;
  it_ticks_saved : Z;
  it_bars_saved : Z;
  it_health_status : string;
  it_risk_approved : bool;
  it_risk_reason : string;
  it_recorded : bool;
  it_duplicate_skipped : bool;
  it_blocked : bool;
  it_exit_code : Z;
}.

Definition session_exit_code (l : list PaperSessionIteration) : Z :=
  if existsb (fun i => it_recorded i || it_duplicate_skipped i) l then 0 else 3.

Definition validate_bounds (iterations collect_seconds sleep_seconds : Z) : res unit :=
  _ ← raise_if (negb ((1 <=? iterations) && (iterations <=? 100))) (ValueError "iterations must be between 1 and 100");
  _ ← raise_if (negb ((1 <=? collect_seconds) && (collect_seconds <=? 3600))) (ValueError "collect_seconds must be between 1 and 3600");
  raise_if (negb ((0 <=? sleep_seconds) && (sleep_seconds <=? 3600))) (ValueError "sleep_seconds must be between 0 and 3600").

Definition paused_iteration (k : Z) : PaperSessionIteration :=
  mkIteration k false 0 0 "PAUSED" false "runtime_paused" false false true 3.

Definition shadow_iteration (k : Z) (collected : CollectorResult) (x : PaperShadowResult) : PaperSessionIteration :=
  let r := px_shadow x in
  let eligible := match tradable r with Some _ => true | None => false end in
  mkIteration k (cr_subscribe_ack collected) (cr_ticks_saved collected) (cr_bars_saved collected) (sh_health_status r)
    (sh_risk_approved r) (sh_risk_reason r) (px_recorded x) (px_duplicate_skipped x) (negb eligible)
    (if px_recorded x || px_duplicate_skipped x then 0 else 3).

Section Session.
Context {W : Type} {CW : Clock W}.
(** The collector saves what it receives; the runner is the paper shadow cycle;
    both and [asyncio.sleep] are arguments of the session. *)
Variable collector : stm (sys W) CollectorResult.
Variable shadow_runner : ShadowCycleConfig -> stm (sys W) PaperShadowResult.
Variable sleeper : Z -> stm W unit.
Variables iterations sleep_seconds : Z.
Variables max_tick_age_seconds max_bar_age_seconds : float.

Definition session_sleep (k : Z) : stm (sys W) unit :=
  if (k <? iterations) && negb (sleep_seconds =? 0) then on_world (sleeper sleep_seconds) else mret tt.

Definition session_iteration (k : Z) : stm (sys W) PaperSessionIteration :=
  _ ← open_schema;
  runtime ← query get_runtime_control;
  if rc_paused runtime then
    _ ← session_sleep k;
    mret (paused_iteration k)
  else
    collected ← collector;
    _ ← open_schema;
    result ← shadow_runner (mkShadowConfig default_risk_config 20 max_tick_age_seconds max_bar_age_seconds (cr_subscribe_ack collected));
    _ ← session_sleep k;
    mret (shadow_iteration k collected result).

Fixpoint session_loop (left : nat) (k : Z) : stm (sys W) (list PaperSessionIteration) :=
  match left with
  | O => mret []
  | S n => i ← session_iteration k; l ← session_loop n (k + 1); mret (i :: l)
  end.

Definition run_paper_session (collect_seconds : Z) : stm (sys W) (list PaperSessionIteration) :=
  _ ← lift_res (validate_bounds iterations collect_seconds sleep_seconds);
  _ ← lift_res (raise_if ((max_tick_age_seconds <=? fzero) || (max_bar_age_seconds <=? fzero))%F
        (ValueError "market data ages must be positive"));
  session_loop (Z.to_nat iterations) 1.
End Session.

(** ** Lemmas *)

(** The better of two, by score. *)
Lemma candidate_gt_score a b : is_nan (cs_score a) = false -> is_nan (cs_score b) = false ->
  fleb (cs_score (if candidate_gt a b then a else b)) (cs_score (if candidate_gt a b then a else b)) = true /\
  fleb (cs_score a) (cs_score (if candidate_gt a b then a else b)) = true /\
  fleb (cs_score b) (cs_score (if candidate_gt a b then a else b)) = true.
Proof.
  intros Ha Hb. pose proof (fleb_refl _ Ha) as Ra. pose proof (fleb_refl _ Hb) as Rb. unfold candidate_gt.
  destruct (feqb (cs_score a) (cs_score b)) eqn:E.
  - apply feqb_fleb in E as [E1 E2]. by destruct (text_ltb _ _).
  - destruct (cs_score b <? cs_score a)%F eqn:E2; [apply fltb_fleb in E2; done|]. apply fltb_false in E2; done.
Qed.

Lemma select_candidate_spec first rest :
  (forall x, x ∈ first :: rest -> is_nan (cs_score x) = false) ->
  select_candidate first rest ∈ first :: rest /\
  forall x, x ∈ first :: rest -> fleb (cs_score x) (cs_score (select_candidate first rest)) = true.
Proof.
  unfold select_candidate. revert first. induction rest as [|y l IH]; intros best Hn; cbn [foldl].
  - split; [apply list_elem_of_here|]. intros x ->%list_elem_of_singleton. apply fleb_refl, Hn, list_elem_of_here.
  - setoid_rewrite elem_of_cons in Hn. setoid_rewrite elem_of_cons in Hn.
    destruct (candidate_gt_score y best) as (_ & G1 & G2); [by apply Hn; auto..|].
    assert (Hb : (if candidate_gt y best then y else best) = y \/ (if candidate_gt y best then y else best) = best)
      by (destruct (candidate_gt y best); auto).
    set (b := if candidate_gt y best then y else best) in *.
    destruct (IH b) as [I1 I2].
    { intros x. rewrite elem_of_cons. intros [-> |Hx]; [|by apply Hn; auto]. destruct Hb as [-> | ->]; apply Hn; auto. }
    assert (Hbl := I2 b (list_elem_of_here _ _)). split.
    + rewrite elem_of_cons in I1. rewrite !elem_of_cons. destruct I1 as [E|I1]; [rewrite E; tauto|tauto].
    + intros x. rewrite !elem_of_cons. intros [-> |[-> |Hx]]; [by eapply fleb_trans..|]. apply I2. by apply list_elem_of_further.
Qed.

Lemma scan_scores s p l x : scan_candidates s p = Ok l -> x ∈ l -> is_nan (cs_score x) = false.
Proof.
  intros H Hx. assert (Hl : Forall (fun x => is_nan (cs_score x) = false) l); [|by eapply list.Forall_forall in Hl].
  revert H. unfold scan_candidates. destruct (candidate_profile p) as [t|]; [|done]. intros [= <-].
  rewrite !Forall_app. destruct (pullback t s), (momentum t s), (breakout t s); split_and!; repeat constructor.
Qed.

Lemma health_Ok now mt mb ack tick bar h : evaluate_market_health now mt mb ack tick bar = Ok h ->
  exists ta ba, age_of now (tk_timestamp <$> tick) = Ok ta /\ age_of now (mb_start <$> bar) = Ok ba /\
    mh_enter_safe_mode h = mh_trading_blocked h /\ (mh_status h = HealthOk <-> mh_trading_blocked h = false) /\
    (mh_trading_blocked h = false <-> ack = true /\ (fresh ta mt = true \/ fresh ba mb = true)).
Proof.
  unfold evaluate_market_health. intros H. apply bind_Ok in H as ([] & _ & H). apply bind_Ok in H as (ta & Ht & H).
  apply bind_Ok in H as (ba & Hb & H). exists ta, ba. split; [done|]. split; [done|]. destruct ack; cbn [negb] in H.
  2: { injection H as <-. cbn. split_and!; [done|done|]. split; [done|by intros [? _]]. }
  destruct tick as [t|], bar as [b|]; cbn in Ht, Hb.
  4: { injection Ht as <-. injection Hb as <-. injection H as <-. cbn. split_and!; [done|done|]. split; [done|by intros [_ [?|?]]]. }
  all: destruct (fresh ta mt), (fresh ba mb); cbn [orb] in H; injection H as <-; cbn; split_and!; split; auto; try done; by intros [_ [?|?]].
Qed.

Lemma tradable_Some r s q p : tradable r = Some (s, q, p) ->
  sh_trading_blocked r = false /\ sh_risk_approved r = true /\ 0 < q /\ q = sh_risk_quantity r /\
  sh_signal_id r = Some s /\ sempty s = false /\ sh_entry_price r = Some p.
Proof.
  unfold tradable. destruct (sh_trading_blocked r), (sh_risk_approved r), (sh_risk_quantity r <=? 0) eqn:E; cbn; try done.
  destruct (sh_signal_id r) as [x|]; [|done]. destruct (sh_entry_price r) as [y|]; [|done].
  destruct (sempty x) eqn:Ex; [done|]. intros [= <- <- <-]. split_and!; try done. lia.
Qed.

Lemma paper_buy_recorded o f s sym q p at_ clock d d' : record_paper_buy o f s sym q p at_ clock d = Ok (true, d') ->
  paper_signal_exists s d = false /\ paper_signal_exists s d' = true.
Proof.
  unfold record_paper_buy. intros H. apply bind_Ok in H as ([] & _ & H).
  apply insert_paper_trade_Ok in H as [[? _]|(_ & _ & Hs & _ & ->)]; [done|]. split; [done|].
  apply paper_signal_exists_true. exists o. cbn. rewrite lookup_insert_eq. by eexists.
Qed.

Lemma paper_buy_again o f s sym q p at_ clock d b d' : record_paper_buy o f s sym q p at_ clock d = Ok (b, d') ->
  paper_signal_exists s d = true -> b = false /\ d' = d.
Proof.
  unfold record_paper_buy. intros H Hs. apply bind_Ok in H as ([] & _ & H).
  apply insert_paper_trade_Ok in H as [?|(_ & _ & Hs' & _)]; [done|congruence].
Qed.

Lemma shadow_intent_Ok symbol x latest i : shadow_intent symbol x latest = Ok i ->
  oi_entry_price i = mb_close latest /\ oi_strategy i = cs_strategy x /\ oi_confidence i = Some (cs_score x) /\
  build_signal_id (cs_strategy x) symbol (AtDatetime (mb_start latest)) = Ok (oi_signal_id i).
Proof. unfold shadow_intent. intros H. apply bind_Ok in H as (s & Hs & H). by injection H as <-. Qed.

Section SessionFacts.
Context {W : Type} {CW : Clock W}.
Variable collector : stm (sys W) CollectorResult.
Variable shadow_runner : ShadowCycleConfig -> stm (sys W) PaperShadowResult.
Variable sleeper : Z -> stm W unit.
Variables iterations sleep_seconds : Z.
Variables max_tick_age_seconds max_bar_age_seconds : float.

(** The numbers of the iterations, in order. *)
Lemma session_loop_numbers left k s l s' :
  session_loop collector shadow_runner sleeper iterations sleep_seconds max_tick_age_seconds max_bar_age_seconds left k s = (Ok l, s') ->
  map it_iteration l = map (fun i => k + Z.of_nat i) (seq 0 left).
Proof.
  revert k s l s'. induction left as [|n IH]; intros k s l s' H; [by injection H as <- _|].
  cbn [session_loop] in H. apply stm_bind_Ok in H as (i & s1 & Hi & H). apply stm_bind_Ok in H as (r & s2 & Hr & H). injection H as <- _.
  cbn [map seq]. f_equal.
  - rewrite Z.add_0_r. unfold session_iteration in Hi. apply stm_bind_Ok in Hi as ([] & s3 & _ & Hi).
    apply stm_bind_Ok in Hi as (c & s4 & _ & Hi). destruct (rc_paused c).
    + apply stm_bind_Ok in Hi as (u & s5 & _ & Hi). by injection Hi as <- _.
    + apply stm_bind_Ok in Hi as (x & s5 & _ & Hi). apply stm_bind_Ok in Hi as (u & s6 & _ & Hi).
      apply stm_bind_Ok in Hi as (y & s7 & _ & Hi). apply stm_bind_Ok in Hi as (v & s8 & _ & Hi). by injection Hi as <- _.
  - rewrite (IH _ _ _ _ Hr), <- seq_shift, map_map. apply map_ext. intros j. lia.
Qed.

(** While trading is paused an iteration only waits. *)
Lemma paused_iteration_run k (s : sys W) : rc_paused (get_runtime_control (s_db s)) = true ->
  let '(r, s') := session_iteration collector shadow_runner sleeper iterations sleep_seconds max_tick_age_seconds max_bar_age_seconds k s in
  s_db s' = init_schema (s_db s) /\ s_trace s' = s_trace s /\ (forall i, r = Ok i -> i = paused_iteration k) /\
  (forall c2 r2, session_iteration c2 r2 sleeper iterations sleep_seconds max_tick_age_seconds max_bar_age_seconds k s = (r, s')).
Proof.
  intros Hp. unfold session_iteration, mbind, stm_bind. rewrite open_schema_run. unfold query, gets. cbn [s_db]. rewrite control_init, Hp.
  unfold session_sleep, on_world. destruct (_ && _); cbn; [|by split_and!; intros; simplify_eq].
  destruct (sleeper sleep_seconds _) as [[[]|e] w]; cbn; by split_and!; intros; simplify_eq.
Qed.

Lemma init_schema_idem d : init_schema (init_schema d) = init_schema d.
Proof. unfold init_schema. by destruct (t_runtime_control d) eqn:E; destruct d; cbn in *; subst. Qed.

Lemma paused_loop left k (s : sys W) : rc_paused (get_runtime_control (s_db s)) = true ->
  let '(r, s') := session_loop collector shadow_runner sleeper iterations sleep_seconds max_tick_age_seconds max_bar_age_seconds left k s in
  init_schema (s_db s') = init_schema (s_db s) /\ s_trace s' = s_trace s /\
  (forall l, r = Ok l -> l = map (fun i => paused_iteration (k + Z.of_nat i)) (seq 0 left)) /\
  (forall c2 r2, session_loop c2 r2 sleeper iterations sleep_seconds max_tick_age_seconds max_bar_age_seconds left k s = (r, s')).
Proof.
  revert k s. induction left as [|n IH]; intros k s Hp; [by split_and!; intros; simplify_eq/=|].
  cbn [session_loop]. unfold mbind, stm_bind. pose proof (paused_iteration_run k s Hp) as H1.
  destruct (session_iteration _ _ _ _ _ _ _ k s) as [[i|e] s1]; destruct H1 as (D1 & T1 & R1 & E1).
  2: { split_and!; [by rewrite D1, init_schema_idem|done|done|]. intros c2 r2. by rewrite E1. }
  assert (Hp1 : rc_paused (get_runtime_control (s_db s1)) = true) by (by rewrite D1, control_init).
  specialize (IH (k + 1) s1 Hp1). destruct (session_loop _ _ _ _ _ _ _ n (k + 1) s1) as [[l|e] s2] eqn:E2; destruct IH as (D2 & T2 & R2 & E3).
  2: { split_and!; [by rewrite D2, D1, init_schema_idem|congruence|done|]. intros c2 r2. by rewrite E1, E3. }
  split_and!; [by rewrite D2, D1, init_schema_idem|cbn; congruence| |].
  - intros l' [= <-]. cbn [seq map]. rewrite (R1 _ eq_refl), (R2 _ eq_refl), Z.add_0_r. f_equal.
    rewrite <- seq_shift, map_map. apply map_ext. intros j. f_equal. lia.
  - intros c2 r2. by rewrite E1, E3.
Qed.
End SessionFacts.

(** ** Properties *)

(** Fact: market data lets trading happen exactly when the subscription was
    acknowledged and the latest tick or the latest bar is no older than its
    limit; a blocked evaluation always asks for safe mode. *)
Theorem market_health_spec now max_tick max_bar ack tick bar h :
  evaluate_market_health now max_tick max_bar ack tick bar = Ok h ->
  mh_enter_safe_mode h = mh_trading_blocked h /\ (mh_status h = HealthOk <-> mh_trading_blocked h = false) /\
  (mh_trading_blocked h = false <-> ack = true /\
     ((exists t age, tick = Some t /\ age_seconds now (tk_timestamp t) = Ok age /\ fleb age max_tick = true) \/
      (exists b age, bar = Some b /\ age_seconds now (mb_start b) = Ok age /\ fleb age max_bar = true))).
Proof.
  intros H. destruct (health_Ok _ _ _ _ _ _ _ H) as (ta & ba & Ha & Hb & H1 & H2 & H3). split; [done|]. split; [done|].
  rewrite H3. assert (Hf : forall {A} (time : A -> datetime) (x : option A) age limit, age_of now (time <$> x) = Ok age ->
    fresh age limit = true <-> exists y a, x = Some y /\ age_seconds now (time y) = Ok a /\ fleb a limit = true).
  { intros A time x age limit Hx. unfold age_of in Hx. destruct x as [y|]; cbn in Hx.
    - apply bind_Ok in Hx as (a & Hy & [= <-]). cbn. split; [by exists y, a|]. intros (y' & a' & [= <-] & E & F). congruence.
    - injection Hx as <-. cbn. split; [done|]. by intros (? & ? & ? & _). }
  by rewrite (Hf _ _ _ _ _ Ha), (Hf _ _ _ _ _ Hb).
Qed.

(** Fact: a shadow cycle approves only with healthy market data, for a candidate of
    the best score, at the close of the latest bar, with the quantity of the risk
    engine, and then the lifecycle has reached LONG; an evaluation that is not
    approved leaves it flat or in safe mode. *)
Theorem shadow_approval_sound float_sum symbol v at_ c portfolio clock r :
  shadow_of_view float_sum symbol v at_ c portfolio clock = Ok r ->
  if sh_risk_approved r then
    sh_trading_blocked r = false /\ sc_websocket_acknowledged c = true /\ sh_lifecycle_final_state r = "LONG" /\
    exists latest l x intent decision, last_of (vw_bars v) = Some latest /\ candidates_of float_sum (vw_bars v) (sc_lookback c) = Ok l /\
      x ∈ l /\ (forall y, y ∈ l -> fleb (cs_score y) (cs_score x) = true) /\
      evaluate_order_intent (sc_risk c) (or_else portfolio default_portfolio) intent = Ok decision /\ approved decision = true /\
      oi_entry_price intent = mb_close latest /\ oi_strategy intent = cs_strategy x /\
      sh_entry_price r = Some (mb_close latest) /\ sh_risk_quantity r = rd_quantity decision /\
      sh_selected_strategy r = Some (cs_strategy x) /\ sh_signal_id r = Some (oi_signal_id intent)
  else sh_lifecycle_final_state r = "FLAT" \/ sh_lifecycle_final_state r = "SAFE_MODE".
Proof.
  unfold shadow_of_view. cbv zeta. intros H. apply bind_Ok in H as (h & Hh & H).
  destruct (health_Ok _ _ _ _ _ _ _ Hh) as (ta & ba & _ & _ & _ & _ & Hb). unfold evaluate_shadow in H. cbv zeta in H.
  destruct (mh_trading_blocked h); [injection H as <-; by right|]. destruct (proj1 Hb eq_refl) as [Hack _].
  apply bind_Ok in H as (l & Hl & H). destruct l as [|first rest]; [injection H as <-; by left|].
  destruct (last_of (vw_bars v)) as [latest|] eqn:E; [|injection H as <-; by left].
  apply bind_Ok in H as (i & Hi & H). apply bind_Ok in H as (d & Hd & H). apply bind_Ok in H as (st & Hst & H). injection H as <-. cbn.
  destruct (approved d) eqn:Ea; [|injection Hst as <-; by left]. injection Hst as <-.
  destruct (shadow_intent_Ok _ _ _ _ Hi) as (I1 & I2 & _). destruct (select_candidate_spec first rest) as [S1 S2].
  { intros x Hx. unfold candidates_of in Hl. apply bind_Ok in Hl as (s & _ & Hl). destruct s as [s|]; [by eapply scan_scores|done]. }
  split_and!; try done. exists latest, (first :: rest), (select_candidate first rest), i, d. rewrite I1. by split_and!.
Qed.

(** Bars that are all naive or all aware, none of them before its predecessor *)
Definition in_time_order (bars : list MinuteBar) : Prop :=
  StronglySorted (fun a b => instant (mb_start a) <= instant (mb_start b)) bars /\
  forall a b, a ∈ bars -> b ∈ bars -> is_naive (mb_start a) = is_naive (mb_start b).

Lemma insert_by_first {A} (le : A -> A -> bool) x l : Forall (fun y => le x y = true) l -> insert_by le x l = x :: l.
Proof. intros H. destruct H as [|y l Hy _]; [done|]. cbn. by rewrite Hy. Qed.

Lemma sort_by_id {A} (le : A -> A -> bool) l : StronglySorted (fun a b => le a b = true) l -> sort_by le l = l.
Proof. induction 1 as [|x l _ IH Hx]; [done|]. cbn. rewrite IH. by apply insert_by_first. Qed.

Lemma sort_times_id bars : in_time_order bars -> sort_times mb_start bars = Ok bars.
Proof.
  intros [Hs Hn]. unfold sort_times. destruct bars as [|x l]; [done|].
  replace (existsb _ l) with false.
  - cbn [raise_if mbind res_bind]. f_equal. apply sort_by_id. clear Hn.
    induction Hs as [|y l' _ IH Hy]; [constructor|]. constructor; [done|]. eapply list.Forall_impl; [exact Hy|]. intros z Hz. by apply Z.leb_le.
  - symmetry. apply not_true_is_false. rewrite existsb_exists. intros (y & Hy & Hb). apply list_elem_of_In in Hy.
    rewrite (Hn x y) in Hb; [|apply list_elem_of_here|by apply list_elem_of_further]. by destruct (is_naive (mb_start y)).
Qed.

(** C27: the offline dry run, which has its own selection of the candidate, intent
    and lifecycle, agrees with the shadow cycle.  Of bars in time order, when the
    market data that the shadow cycle reads with those bars is healthy at its time,
    the shadow cycle with an empty portfolio returns a report with the dry run's
    symbol and counts, candidate and strategy, risk decision, quantity and reason,
    signal and lifecycle state. *)
Theorem dry_run_agrees_with_shadow float_sum bars ticks current_time c clock r v health :
  run_offline_dry_run float_sum bars (sc_risk c) (sc_lookback c) = Ok r -> bars <> [] -> in_time_order bars ->
  read_market (dr_symbol r) bars ticks None = Ok v ->
  evaluate_market_health (clock_for_data current_time (vw_tick v) (vw_bar v) clock) (sc_max_tick_age_seconds c) (sc_max_bar_age_seconds c)
    (sc_websocket_acknowledged c) (vw_tick v) (vw_bar v) = Ok health -> mh_trading_blocked health = false ->
  exists r', run_shadow_cycle float_sum (dr_symbol r) bars ticks None current_time c None clock = Ok r' /\
    sh_symbol r' = dr_symbol r /\ sh_bars_count r' = dr_bars_count r /\ sh_candidates_count r' = dr_candidates_count r /\
    sh_selected_strategy r' = dr_selected_strategy r /\ sh_risk_approved r' = dr_risk_approved r /\
    sh_risk_reason r' = dr_risk_reason r /\ sh_risk_quantity r' = dr_risk_quantity r /\
    sh_lifecycle_final_state r' = dr_lifecycle_final_state r /\ sh_signal_id r' = dr_signal_id r.
Proof.
  intros H Hne Ho Hv Hh Hb. unfold run_shadow_cycle. rewrite Hv. cbn [mbind res_bind]. unfold shadow_of_view. rewrite Hh. cbn [mbind res_bind or_else].
  unfold run_offline_dry_run in H. destruct bars as [|b0 l]; [done|]. set (bars := b0 :: l) in *.
  destruct (last_of bars) as [latest|] eqn:E.
  2: { exfalso. unfold last_of, bars in E. cbn [rev] in E. by destruct (rev l). }
  cbv zeta in H. apply bind_Ok in H as ([] & Hsym & H). apply raise_if_Ok in Hsym.
  apply bind_Ok in H as (cs & Hc & H). fold (dry_candidates float_sum bars (sc_lookback c)) in Hc.
  assert (Hdr : dr_symbol r = mb_symbol b0).
  { destruct cs as [|x xs]; [by injection H as <-|]. apply bind_Ok in H as (i & _ & H). apply bind_Ok in H as (rec & _ & H).
    apply bind_Ok in H as (d & _ & H). destruct (approved d); cbn [negb] in H; [|by injection H as <-].
    apply bind_Ok in H as (st & _ & H). apply bind_Ok in H as (p & _ & H). apply bind_Ok in H as (q & _ & H). by injection H as <-. }
  assert (Hbars : vw_bars v = bars).
  { unfold read_market in Hv. cbn [mbind res_bind] in Hv. rewrite Hdr in Hv.
    assert (Hf : List.filter (fun b => String.eqb (mb_symbol b) (mb_symbol b0)) bars = bars).
    { clear -Hsym. induction bars as [|x m IH]; [done|]. cbn in Hsym |- *. apply orb_false_iff in Hsym as [Hx Hm].
      apply negb_false_iff in Hx. by rewrite Hx, IH. }
    rewrite Hf, sort_times_id in Hv by done. cbn [mbind res_bind] in Hv. apply bind_Ok in Hv as (tick & _ & Hv). by injection Hv as <-. }
  unfold evaluate_shadow. rewrite Hb, Hbars, Hdr. change (candidates_of float_sum bars (sc_lookback c)) with (dry_candidates float_sum bars (sc_lookback c)).
  rewrite Hc, E. cbn [mbind res_bind]. destruct cs as [|x xs]; [injection H as <-; by eexists|].
  change (select_candidate x xs) with (dry_select_candidate x xs). unfold shadow_intent.
  apply bind_Ok in H as (i & Hi & H). rewrite Hi. apply bind_Ok in H as (rec & _ & H). apply bind_Ok in H as (d & Hd & H).
  unfold dry_run_intent in Hd. cbn [mbind res_bind]. rewrite Hd. cbn [mbind res_bind].
  destruct (approved d) eqn:Ea; cbn [negb] in H.
  - apply bind_Ok in H as (st & Hst & H). apply bind_Ok in H as (h & _ & H). apply bind_Ok in H as (p & _ & H). injection H as <-.
    change ENTRY_COMMANDS with DRY_RUN_COMMANDS. rewrite Hst. cbn. by eexists.
  - injection H as <-. cbn. by eexists.
Qed.

(** Fact: a signal is recorded as a paper BUY at most once: after it was recorded,
    any report with that signal is a duplicate and writes nothing; and a report
    that is not fully approved never writes. *)
Theorem paper_signal_recorded_once r r2 at1 at2 clock1 clock2 d d1 d2 d3 x y :
  record_shadow_paper_buy r at1 clock1 d = Ok (x, d1) -> t_paper_orders d1 ⊆ t_paper_orders d2 ->
  record_shadow_paper_buy r2 at2 clock2 d2 = Ok (y, d3) -> sh_signal_id r2 = sh_signal_id r ->
  (tradable r = None -> px_recorded x = false /\ d1 = d) /\ (px_recorded x = true -> px_recorded y = false /\ d3 = d2).
Proof.
  unfold record_shadow_paper_buy. intros H1 Hsub H2 Hs. destruct (tradable r) as [[[s q] p]|] eqn:E.
  2: { injection H1 as <- <-. split; [done|]. cbn. done. }
  split; [done|]. cbv zeta in H1. apply bind_Ok in H1 as ([b d0] & Hb & H1). injection H1 as <- <-. cbn. intros ->.
  apply paper_buy_recorded in Hb as [_ Hb]. destruct (tradable r2) as [[[s2 q2] p2]|] eqn:E2; [|by injection H2 as <- <-].
  cbv zeta in H2. apply bind_Ok in H2 as ([b2 d4] & Hb2 & H2). injection H2 as <- <-. cbn.
  apply tradable_Some in E as (_ & _ & _ & _ & E & _). apply tradable_Some in E2 as (_ & _ & _ & _ & E2 & _).
  assert (s2 = s) as -> by congruence. eapply paper_buy_again; [exact Hb2|].
  apply paper_signal_exists_true. apply paper_signal_exists_true in Hb as (k & o & Ho & Hs'). exists k, o. split; [|done].
  by eapply lookup_weaken.
Qed.

(** Fact: a paper session that is not interrupted makes exactly the configured
    number of iterations, numbered from one; and while trading is paused it never
    collects market data and never trades: whatever the collector and the runner
    are, every iteration is the paused one and the broker is not called. *)
Theorem paper_session_bounded {W} {CW : Clock W} collector runner sleeper iterations sleep_seconds mt mb collect (s : sys W) l s' :
  run_paper_session collector runner sleeper iterations sleep_seconds mt mb collect s = (Ok l, s') ->
  1 <= iterations <= 100 /\ map it_iteration l = map (fun i => 1 + Z.of_nat i) (seq 0 (Z.to_nat iterations)) /\
  (rc_paused (get_runtime_control (s_db s)) = true ->
     l = map (fun i => paused_iteration (1 + Z.of_nat i)) (seq 0 (Z.to_nat iterations)) /\ s_trace s' = s_trace s /\
     session_exit_code l = 3 /\
     forall collector' runner', run_paper_session collector' runner' sleeper iterations sleep_seconds mt mb collect s = (Ok l, s')).
Proof.
  unfold run_paper_session. intros H. apply stm_bind_Ok in H as ([] & s1 & Hv & H). injection Hv as Hv <-.
  apply stm_bind_Ok in H as ([] & s2 & Ha & H). injection Ha as Ha <-.
  pose proof Hv as Hv'. unfold validate_bounds in Hv'. apply bind_Ok in Hv' as ([] & Hi & _). apply raise_if_Ok in Hi.
  split; [destruct (Z.leb_spec 1 iterations), (Z.leb_spec iterations 100); cbn in Hi; try done; lia|].
  split; [by eapply session_loop_numbers|]. intros Hp.
  pose proof (paused_loop collector runner sleeper iterations sleep_seconds mt mb (Z.to_nat iterations) 1 s Hp) as Hl.
  rewrite H in Hl. destruct Hl as (_ & Ht & Hl & He). specialize (Hl _ eq_refl). split_and!; try done.
  - rewrite Hl. unfold session_exit_code. replace (existsb _ _) with false; [done|]. symmetry. apply not_true_is_false.
    rewrite existsb_exists. intros (i & Hin & Hx). apply in_map_iff in Hin as (j & <- & _). done.
  - intros c' r'. unfold mbind, stm_bind, lift_res. rewrite Hv, Ha. apply He.
Qed.

(** ** Witnesses *)

(** Twenty rising bars and one that breaks out, a minute apart. *)
Definition w_start : Z := 1700038800000000.
Definition w_bar (k : Z) : MinuteBar :=
  let close := if k <? 20 then 100000 + k * 1000 else 121000 in
  mkBar "005930" (Datetime (w_start + k * us_per_minute) None) (f_of_Z close) (f_of_Z (close + 500)) (f_of_Z (close - 500)) (f_of_Z close)
    (if k <? 20 then 100 else 150).
Definition w_bars : list MinuteBar := map w_bar (seqZ 0 21).
Definition w_health_now : datetime := Datetime (w_start + 21 * us_per_minute) None.
Definition w_sum (l : list float) : float := foldl fadd fzero l.
Definition w_view : market_view := mkView w_bars None (last_of w_bars).
Definition w_config : ShadowCycleConfig := mkShadowConfig default_risk_config 20 (f_of_Z 5) (f_of_Z 90) true.
Definition w_report : res ShadowCycleReport := shadow_of_view w_sum "005930" w_view (Some w_health_now) w_config None w_clock.
Definition w_dry : res DryRunReport := run_offline_dry_run w_sum w_bars default_risk_config 20.
Definition w_health : res MarketHealth := evaluate_market_health w_health_now (f_of_Z 5) (f_of_Z 90) true None (last_of w_bars).
Definition w_shadow_report : ShadowCycleReport :=
  match w_report with Ok r => r | Err _ => mkShadowReport "" 0 "" true true 0 None false "" 0 "" None None end.

Lemma market_health_spec_witness : exists h, w_health = Ok h /\ mh_status h = HealthOk /\ mh_trading_blocked h = false.
Proof.
  destruct w_health as [h|e] eqn:E; [|vm_compute in E; discriminate]. exists h. split; [reflexivity|].
  destruct (market_health_spec w_health_now (f_of_Z 5) (f_of_Z 90) true None (last_of w_bars) h E) as (_ & H & _).
  assert (Hs : mh_status h = HealthOk) by (vm_compute in E; injection E as <-; reflexivity).
  split; [exact Hs|]. by apply H.
Defined.

Lemma w_report_Ok : w_report = Ok w_shadow_report.
Proof. unfold w_shadow_report. destruct w_report as [r|e] eqn:E; [reflexivity|]. vm_compute in E. discriminate. Qed.

Lemma shadow_approval_sound_witness : sh_risk_approved w_shadow_report = true /\ sh_risk_quantity w_shadow_report = 2 /\
  sh_lifecycle_final_state w_shadow_report = "LONG".
Proof.
  assert (Ha : sh_risk_approved w_shadow_report = true) by (vm_compute; reflexivity).
  split; [exact Ha|]. split; [vm_compute; reflexivity|].
  pose proof (shadow_approval_sound w_sum "005930" w_view (Some w_health_now) w_config None w_clock _ w_report_Ok) as H. rewrite Ha in H. exact (proj1 (proj2 (proj2 H))).
Defined.

Lemma w_bars_in_order : in_time_order w_bars.
Proof.
  split.
  - assert (H : forall n k, StronglySorted (fun a b => instant (mb_start a) <= instant (mb_start b)) (map w_bar (seqZ k (Z.of_nat n)))).
    { induction n as [|n IH]; intros k; [constructor|]. rewrite seqZ_cons by lia. replace (Z.pred (Z.of_nat (S n))) with (Z.of_nat n) by lia.
      cbn [map]. constructor; [apply IH|]. apply list.Forall_forall. intros b Hb. apply list_elem_of_fmap in Hb as (j & -> & Hj).
      apply elem_of_seqZ in Hj. unfold w_bar, instant, dt_us. cbn. unfold us_per_minute, us_per_second. lia. }
    exact (H 21%nat 0).
  - intros a b Ha Hb. apply list_elem_of_fmap in Ha as (i & -> & _), Hb as (j & -> & _). reflexivity.
Qed.

Lemma dry_run_agrees_with_shadow_witness : exists r r', w_dry = Ok r /\ dr_risk_quantity r = 2 /\
  run_shadow_cycle w_sum (dr_symbol r) w_bars [] None (Some w_health_now) w_config None w_clock = Ok r' /\
  sh_risk_quantity r' = 2 /\ sh_signal_id r' = dr_signal_id r.
Proof.
  destruct w_dry as [r|e] eqn:E; [|vm_compute in E; discriminate].
  assert (Hr : dr_symbol r = "005930" /\ dr_risk_quantity r = 2) by (vm_compute in E; injection E as <-; split; reflexivity).
  destruct Hr as [Hs Hq]. destruct w_health as [h|e] eqn:Eh; [|vm_compute in Eh; discriminate].
  assert (Hh : mh_trading_blocked h = false) by (vm_compute in Eh; injection Eh as <-; reflexivity).
  destruct (dry_run_agrees_with_shadow w_sum w_bars [] (Some w_health_now) w_config w_clock r w_view h E)
    as (r' & H & _ & _ & _ & _ & _ & _ & H1 & _ & H2).
  - discriminate.
  - exact w_bars_in_order.
  - rewrite Hs. vm_compute. reflexivity.
  - exact Eh.
  - exact Hh.
  - exists r, r'. split; [reflexivity|]. split; [exact Hq|]. split; [exact H|]. split; [rewrite H1; exact Hq|exact H2].
Defined.

Definition w_paper_db : db :=
  match record_shadow_paper_buy w_shadow_report None w_clock (init_schema empty_db) with Ok (_, d) => d | Err _ => empty_db end.

Lemma paper_signal_recorded_once_witness : exists x y d3,
  record_shadow_paper_buy w_shadow_report None w_clock (init_schema empty_db) = Ok (x, w_paper_db) /\ px_recorded x = true /\
  record_shadow_paper_buy w_shadow_report None w_clock w_paper_db = Ok (y, d3) /\ px_recorded y = false.
Proof.
  destruct (record_shadow_paper_buy w_shadow_report None w_clock (init_schema empty_db)) as [[x d1]|e] eqn:E1; [|vm_compute in E1; discriminate].
  assert (Hd : w_paper_db = d1) by (unfold w_paper_db; rewrite E1; reflexivity).
  destruct (record_shadow_paper_buy w_shadow_report None w_clock w_paper_db) as [[y d3]|e] eqn:E2; [|vm_compute in E2; discriminate].
  assert (Hx : px_recorded x = true) by (vm_compute in E1; injection E1 as <- _; reflexivity).
  exists x, y, d3. rewrite Hd. split; [reflexivity|]. split; [exact Hx|]. split; [reflexivity|].
  rewrite Hd in E2. exact (proj1 (proj2 (paper_signal_recorded_once _ _ _ _ _ _ _ _ _ _ _ _ E1 ltac:(reflexivity) E2 eq_refl) Hx)).
Defined.

#[local] Instance w_session_clock : Clock unit := fun u => (w_clock, u).
(** A collector and a runner that would fail. *)
Definition w_collector : stm (sys unit) CollectorResult := raise (OtherError "no network").
Definition w_runner (_ : ShadowCycleConfig) : stm (sys unit) PaperShadowResult := raise (OtherError "unused").
Definition w_session : res (list PaperSessionIteration) * sys unit :=
  run_paper_session w_collector w_runner (fun _ => mret tt) 2 0 (f_of_Z 5) (f_of_Z 90) 60 (mkSys (init_schema empty_db) tt []).

Lemma paper_session_bounded_witness : exists l s', w_session = (Ok l, s') /\
  l = [paused_iteration 1; paused_iteration 2].
Proof.
  destruct w_session as [[l|e] s'] eqn:E; [|vm_compute in E; discriminate].
  exists l, s'. split; [reflexivity|].
  destruct (paper_session_bounded w_collector w_runner (fun _ => mret tt) 2 0 (f_of_Z 5) (f_of_Z 90) 60 _ l s' E) as (_ & _ & H).
  exact (proj1 (H eq_refl)).
Defined.
