(* ===== verification/Operator.v ===== *)
(** * Operator controls ([ops/control.py], [ops/trading_frequency.py] and the
    operations of [ops/telegram.py])

    What the operator can change and what is checked first: the pause, the
    runtime environment with its challenge and single-use resume arm, the
    cancellation of open BUY orders, the trade frequency, the watchlist, and the
    readiness that a resume requires. *)

From S2P Require Import Prelude PyStr PyFloat PyTime PyDecimal PyFormat PyDict PyJson DbCore DbOrders DbRuntime DbApprovals.
From S2P Require Import KisHttp KisOrder KisOrderStatus KisAccount System.

Definition REAL_CHALLENGE_KEY : string := "telegram.real_challenge".
Definition REAL_CHALLENGE_EXPIRES_KEY : string := "telegram.real_challenge_expires".
Definition REAL_RESUME_ARM_EXPIRES_KEY : string := "telegram.real_resume_arm_expires".
Definition REAL_RESUME_ARM_USES_KEY : string := "telegram.real_resume_arm_uses".
Definition EMERGENCY_STOP_KEY : string := "telegram.emergency_stop".
Definition CANCEL_OPEN_BUYS_KEY : string := "operator.cancel_open_buys_requested".
Definition AUTO_UNIVERSE_SYMBOLS_KEY : string := "auto_universe.symbols".

(** [x or y] of optional texts *)
Definition or_text (x y : option string) : option string :=
  match x with Some s => if sempty s then y else x | None => y end.
Definition or_empty (x : option string) : string := or_else x "".

(** [value.strip().lower() in {"1", "true", "yes", "on"}] *)
Definition truth_text (s : string) : bool := mem_str (lower (strip s)) ["1"; "true"; "yes"; "on"].

(** [_safe_flag] *)
Definition safe_flag (value : option string) : string :=
  match value with
  | None => "unavailable"
  | Some s => if truth_text s then "true" else "false"
  end.
Definition flag_set (value : option string) : bool := String.eqb (safe_flag value) "true".

(** A six-digit domestic stock code *)
Definition six_digits_code (s : string) : bool := isdigit s && (slen s =? 6).

(** [_auto_universe_symbols] *)
Definition auto_universe_symbols (raw : option string) : list string :=
  match loads (or_empty (or_text raw (Some "[]"))) with
  | Some (JList values) => List.filter six_digits_code (map py_str values)
  | _ => []
  end.

(** [_supervisor_reasons]: the first five reasons, on one line each. *)
Definition one_line (s : string) : string :=
  smap (fun c => if bool_decide (c = "010"%char) || bool_decide (c = "013"%char) then " "%char else c) s.
Definition supervisor_reasons (value : option string) : list string :=
  match value with
  | None | Some "" => []
  | Some text =>
      match loads text with
      | Some (JObj payload) =>
          match dget "reasons" payload with
          | Some (JList items) =>
              List.filter (fun r => negb (sempty r)) (map (fun v => take_points 80 (strip (one_line (py_str v)))) (take 5 items))
          | _ => []
          end
      | _ => []
      end
  end.

(** ** Trade frequency *)

Definition PROFILE_KEY : string := "trade_frequency.profile".
Definition AI_MIN_CONFIDENCE_KEY : string := "trade_frequency.ai_min_confidence".

Record TradeFrequencySettings := mkFrequency { tf_profile : string; tf_ai_min_confidence : float }.

Definition FREQUENCY_PRESETS : dict TradeFrequencySettings :=
  [("conservative", mkFrequency "conservative" (f_ratio 82 100)); ("normal", mkFrequency "normal" (f_ratio 75 100));
   ("aggressive", mkFrequency "aggressive" (f_ratio 65 100))].

(** [_parse_confidence] *)
Definition parse_confidence (raw : option string) (default : float) : float :=
  match raw with
  | None => default
  | Some text =>
      match float_of_text text with
      | Ok value => if ((fzero <=? value) && (value <=? f_one))%F then value else default
      | Err _ => default
      end
  end.

Definition read_trade_frequency (default_ai_min_confidence : float) (d : db) : TradeFrequencySettings :=
  let profile := or_empty (or_text (Some (strip (or_empty (or_text (get_metadata PROFILE_KEY d) (Some "env"))))) (Some "env")) in
  let confidence := parse_confidence (get_metadata AI_MIN_CONFIDENCE_KEY d) default_ai_min_confidence in
  mkFrequency profile
    (if String.eqb profile "aggressive" && feqb confidence (f_ratio 70 100) then f_ratio 65 100 else confidence).

Section Operator.
Context {W : Type} {CW : Clock W}.

(** [_utcnow] *)
Definition utcnow : stm (sys W) datetime := t ← read_clock; mret (astimezone t UTC).

(** [_set_metadata] *)
Definition write_metadata (key value : string) : stm (sys W) unit :=
  _ ← set_metadata_now key value None;
  mret tt.

Definition apply_trade_frequency_preset (profile : string) : stm (sys W) TradeFrequencySettings :=
  match dget profile FREQUENCY_PRESETS with
  | None => raise (ValueError "unknown frequency profile")
  | Some settings =>
      _ ← write_metadata PROFILE_KEY (tf_profile settings);
      _ ← write_metadata AI_MIN_CONFIDENCE_KEY (format_2f (tf_ai_min_confidence settings));
      mret settings
  end.

(** ** Control *)

Definition set_paused (paused : bool) (reason source : string) : stm (sys W) RuntimeControl :=
  _ ← open_schema;
  on_db (set_runtime_paused paused reason source).

Definition control_status : stm (sys W) RuntimeControl :=
  _ ← open_schema;
  query get_runtime_control.

Definition set_environment (environment reason source : string) : stm (sys W) RuntimeControl :=
  _ ← open_schema;
  on_db (set_runtime_environment environment reason source).

(** ** Cancellation and resume *)

Definition OPEN_BUY_STATUSES : list string := ["ACKNOWLEDGED"; "PARTIALLY_FILLED"; "CANCEL_PENDING"; "UNKNOWN"].
Definition orders_of (d : db) : list broker_order := map snd (map_to_list (t_broker_orders d)).
Definition open_buy_pending (d : db) : bool :=
  existsb (fun o => String.eqb (bo_side o) "BUY" && mem_str (bo_status o) OPEN_BUY_STATUSES) (orders_of d).

(** [_request_open_buy_cancellation] *)
Definition request_open_buy_cancellation : stm (sys W) bool :=
  _ ← open_schema;
  pending ← query open_buy_pending;
  _ ← write_metadata CANCEL_OPEN_BUYS_KEY (if pending : bool then "true" else "false");
  mret pending.

(** An order that the broker has not settled; which of several [LIMIT 1] returns
    is not specified, and shows in the message only. *)
Definition unresolved_order (d : db) : option broker_order :=
  head (List.filter (fun o => mem_str (bo_status o) ["CANCEL_PENDING"; "UNKNOWN"]) (orders_of d)).

(** [_resume_safety_reason] *)
Definition resume_safety_reason (d : db) : option string :=
  if flag_set (get_metadata "operator_review" d) then Some "operator review is active"
  else if flag_set (get_metadata "block_new_entries" d) then Some "new entries are blocked"
  else match unresolved_order d with
       | Some o => Some ("broker order is unresolved (" +:+ bo_status o +:+ ")")
       | None => None
       end.

(** ** The challenge of the real environment *)

(** [secrets.randbelow(1_000_000)] *)
Variable randbelow : stm W Z.

(** [_real_challenge] *)
Definition real_challenge : stm (sys W) string :=
  n ← on_world randbelow;
  let code := pad_digits 6 n in
  now ← utcnow;
  let expires := isoformat (dt_add now (5 * us_per_minute)) in
  _ ← open_schema;
  _ ← write_metadata REAL_CHALLENGE_KEY code;
  _ ← write_metadata REAL_CHALLENGE_EXPIRES_KEY expires;
  mret code.

(** [not expires_text or _utcnow() >= datetime.fromisoformat(expires_text)], a
    text that is no timestamp counting as expired. *)
Definition challenge_expired (expires_text : string) : stm (sys W) bool :=
  if sempty expires_text then mret true
  else
    now ← utcnow;
    match fromisoformat expires_text with
    | Ok t => early ← lift_res (dt_ltb now t); mret (negb early)
    | Err e => if is_ValueError e then mret true else raise e
    end.

(** [secrets.compare_digest] of two texts *)
Definition compare_digest (a b : string) : res bool :=
  _ ← raise_if (negb (sforall (fun c => code c <? 128) (a +:+ b)))
        (TypeError "comparing strings with non-ASCII characters is not supported");
  Ok (String.eqb a b).

(** What the confirmation writes once the environment has changed. *)
Definition arm_one_resume : stm (sys W) unit :=
  _ ← write_metadata REAL_CHALLENGE_KEY "";
  _ ← write_metadata REAL_CHALLENGE_EXPIRES_KEY "";
  now ← utcnow;
  _ ← write_metadata REAL_RESUME_ARM_EXPIRES_KEY (isoformat (dt_add now (15 * us_per_minute)));
  write_metadata REAL_RESUME_ARM_USES_KEY "1".

(** [except ValueError as exc] *)
Definition on_value_error {A} (m : stm (sys W) A) : stm (sys W) (A + exn) := fun s =>
  match m s with
  | (Ok a, s') => (Ok (inl a), s')
  | (Err e, s') => if is_ValueError e then (Ok (inr e), s') else (Err e, s')
  end.

(** [str(exc)] *)
Variable exn_text : exn -> string.

(** [_confirm_real] *)
Definition confirm_real (code : string) : stm (sys W) string :=
  _ ← open_schema;
  control ← query get_runtime_control;
  if negb (rc_paused control) then mret "real environment can only be confirmed while paused"
  else
    expected ← query (fun d => or_empty (get_metadata REAL_CHALLENGE_KEY d));
    expires_text ← query (fun d => or_empty (get_metadata REAL_CHALLENGE_EXPIRES_KEY d));
    expired ← challenge_expired expires_text;
    same ← (if sempty code then mret false else lift_res (compare_digest code expected));
    if negb same || expired then mret "real challenge invalid or expired"
    else
      selected ← on_value_error (set_environment "real" "telegram_operator" "telegram");
      match selected : RuntimeControl + exn with
      | inr e => mret ("runtime environment unchanged: " +:+ exn_text e)
      | inl _ => _ ← arm_one_resume; mret "runtime environment: real (armed for one resume)"
      end.

(** The uses of the arm that are left, [None] when it is not valid; both
    [ValueError] and [TypeError] are caught. *)
Definition arm_uses (expires_text uses_text : string) : stm (sys W) (option Z) :=
  now ← utcnow;
  mret (match fromisoformat expires_text with
        | Ok t => match dt_ltb now t with
                  | Ok true => match parse_int uses_text with Ok n => if 0 <? n then Some n else None | Err _ => None end
                  | _ => None
                  end
        | Err _ => None
        end).

(** [_real_resume_allowed]: it takes one use of the arm. *)
Definition real_resume_allowed : stm (sys W) bool :=
  _ ← open_schema;
  control ← query get_runtime_control;
  if negb (String.eqb (rc_environment control) "real") then mret true
  else
    expires_text ← query (fun d => or_empty (get_metadata REAL_RESUME_ARM_EXPIRES_KEY d));
    uses_text ← query (fun d => or_empty (or_text (get_metadata REAL_RESUME_ARM_USES_KEY d) (Some "0")));
    uses ← arm_uses expires_text uses_text;
    match uses : option Z with
    | Some n => _ ← write_metadata REAL_RESUME_ARM_USES_KEY (str_int (n - 1)); mret true
    | None => mret false
    end.

(** [_emergency_stop_active] *)
Definition emergency_stop_active (d : db) : bool := String.eqb (lower (or_empty (get_metadata EMERGENCY_STOP_KEY d))) "true".

(** ** Readiness *)

Definition HEARTBEAT_MAX_AGE_SECONDS : Z := 180.

(** [_heartbeat_status(value)[1]] *)
Definition heartbeat_healthy (value : option string) : stm (sys W) bool :=
  match value with
  | None | Some "" => mret false
  | Some text =>
      match fromisoformat text with
      | Err _ => mret false
      | Ok t =>
          let t := if is_naive t then with_tz t (Some UTC) else t in
          now ← utcnow;
          let age := instant now - instant t in
          mret ((0 <=? age) && (age <=? HEARTBEAT_MAX_AGE_SECONDS * us_per_second))
      end
  end.

(** [optional_env_value]: the environment and the [.env] file. *)
Variable env : string -> option string.
(** The package [exchange_calendars], when it is there. *)
Variable calendar : option (Z -> bool).

Definition env_text (name default : string) : string := lower (strip (or_empty (or_text (env name) (Some default)))).

(** The names of [_required_env_status] that are missing *)
Definition missing_env (names : list string) : list string :=
  List.filter (fun n => match env n with None => true | Some _ => false end) names.

Definition when (b : bool) (s : string) : list string := if b then [s] else [].

(** The blockers of [_readiness], in its order. *)
Definition readiness_blockers (d : db) (trading_ok supervisor_ok : bool) : list string :=
  let environment := rc_environment (get_runtime_control d) in
  let prefix := if String.eqb environment "demo" then "KIS_DEMO" else "KIS_REAL" in
  let missing := missing_env [prefix +:+ "_APP_KEY"; prefix +:+ "_APP_SECRET"; prefix +:+ "_ACCOUNT_NO"] in
  let auto_universe_enabled := mem_str (env_text "AUTO_UNIVERSE_ENABLED" "true") ["1"; "true"; "yes"; "on"] in
  let reasons := join "," (supervisor_reasons (get_metadata "order-supervisor.status" d)) in
  when (negb (String.eqb (env_text "LIVE_TRADING_ENABLED" "") "true")) "LIVE_TRADING_ENABLED=true 필요" ++
  when (match missing with [] => false | _ => true end) (environment +:+ " KIS 누락: " +:+ join "," missing) ++
  when (String.eqb (env_text "AUTO_TRADE_AI" "openai") "openai" && match env "OPENAI_API_KEY" with None => true | Some _ => false end)
    "OPENAI_API_KEY 필요(AUTO_TRADE_AI=openai)" ++
  when (match list_watchlist_symbols true d with [] => negb auto_universe_enabled | _ => false end) "관심종목 없음" ++
  when (flag_set (get_metadata "operator_review" d))
    ("operator_review=true" +:+ (if sempty reasons then "" else " (" +:+ reasons +:+ ")")) ++
  when (flag_set (get_metadata "block_new_entries" d)) "block_new_entries=true" ++
  when (flag_set (or_text (get_metadata EMERGENCY_STOP_KEY d) (get_metadata "emergency_stop" d))) "emergency_stop=true" ++
  when (flag_set (get_metadata CANCEL_OPEN_BUYS_KEY d) || match unresolved_order d with Some _ => true | None => false end)
    "cancellation is still pending (미해결 주문/취소 대기)" ++
  when (negb trading_ok) "trading-service heartbeat 없음/오래됨" ++
  when (negb supervisor_ok) "order-supervisor heartbeat 없음/오래됨" ++
  when (match calendar with None => true | Some _ => false end) "KRX 캘린더 사용 불가".

(** [_readiness]: what blocks a resume; its report is [TelegramViews.readiness_report]. *)
Definition readiness : stm (sys W) (list string) :=
  _ ← utcnow;
  _ ← open_schema;
  d ← query id;
  trading ← heartbeat_healthy (get_metadata "heartbeat:trading-service" d);
  supervisor ← heartbeat_healthy (get_metadata "heartbeat:order-supervisor" d);
  mret (readiness_blockers d trading supervisor).

(** ** Watchlist and frequency texts *)

Definition lines_or_none (l : list string) : string := match l with [] => "none" | _ => join (String "010" "") l end.
Definition newline : string := String "010" "".

(** [_watchlist_text] *)
Definition watchlist_text : stm (sys W) string :=
  _ ← open_schema;
  symbols ← query (list_watchlist_symbols true);
  selected ← query (fun d => auto_universe_symbols (get_metadata AUTO_UNIVERSE_SYMBOLS_KEY d));
  mret ("관심종목" +:+ newline +:+ lines_or_none symbols +:+ newline +:+ newline +:+ "자동선정" +:+ newline +:+ lines_or_none selected).

Definition watchlist_add_prompt_text : stm (sys W) string :=
  t ← watchlist_text;
  mret (t +:+ newline +:+ newline +:+ "추가할 종목코드를 메시지로 보내세요." +:+ newline +:+ "예: /watchlist_add 005930,000660").

Definition current_line (l : list string) : string := match l with [] => "none" | _ => join "," l end.

(** [_watchlist_remove_symbol_text] *)
Definition watchlist_remove_symbol (symbol : string) : stm (sys W) string :=
  if negb (six_digits_code symbol) then mret ("잘못된 종목코드: " +:+ symbol +:+ " (6자리 숫자 필요)")
  else
    _ ← open_schema;
    changed ← on_db (fun _ d => set_watchlist_enabled symbol false d);
    current ← query (list_watchlist_symbols true);
    mret ("관심종목 제거: " +:+ (if changed : bool then symbol else "변경 없음") +:+ newline +:+ "현재: " +:+ current_line current).

(** One symbol of [_watchlist_change_text]: what it adds to [changed]. *)
Definition change_symbol (add : bool) (changed : list string) (symbol : string) : stm (sys W) (list string) :=
  if add then
    _ ← on_db (add_watchlist_symbol symbol true None);
    mret (changed ++ [symbol])
  else
    b ← on_db (fun _ d => set_watchlist_enabled symbol false d);
    mret (if b : bool then changed ++ [symbol] else changed).

(** [_watchlist_change_text], with the symbols of [_symbols_argument] *)
Definition watchlist_change (symbols : list string) (add : bool) : stm (sys W) string :=
  match symbols with
  | [] => mret ("usage: " +:+ (if add then "/watchlist-add" else "/watchlist-remove") +:+ " <6자리코드들>")
  | _ =>
      match List.filter (fun s => negb (six_digits_code s)) symbols with
      | _ :: _ as invalid => mret ("잘못된 종목코드: " +:+ join "," invalid +:+ " (각각 6자리 숫자 필요)")
      | [] =>
          _ ← open_schema;
          changed ← foldM (change_symbol add) [] symbols;
          current ← query (list_watchlist_symbols true);
          mret ("관심종목 " +:+ (if add then "추가" else "제거") +:+ ": " +:+
                match (changed : list string) with [] => "변경 없음" | _ => join "," changed end +:+
                newline +:+ "현재: " +:+ current_line current)
      end
  end.

(** [_set_frequency_text] *)
Definition set_frequency (profile : string) : stm (sys W) string :=
  _ ← open_schema;
  r ← on_value_error (apply_trade_frequency_preset profile);
  match r : TradeFrequencySettings + exn with
  | inr _ => mret "usage: /frequency conservative|normal|aggressive"
  | inl settings =>
      mret ("거래 빈도 설정 완료" +:+ newline +:+ "profile=" +:+ tf_profile settings +:+ newline +:+
            "ai_min_confidence=" +:+ format_2f (tf_ai_min_confidence settings) +:+ newline +:+
            "candidate_sensitivity=" +:+ tf_profile settings +:+ newline +:+ "daily_trade_limit=none")
  end.
End Operator.
