(* ===== verification/Telegram.v ===== *)
(** * The Telegram bot ([ops/telegram.py])

    The client of the Bot API, the reading of an update, the authorisation of
    its sender, the operation it names and its effect on the runtime, and the
    polling loop.  A reply is its text, or the name of one of the read-only
    reports ([view]), whose text is in [TelegramViews.v]. *)

From S2P Require Import Prelude PyStr PyFloat PyTime PyDecimal PyFormat PyDict PyJson DbCore DbOrders DbRuntime DbApprovals.
From S2P Require Import KisHttp KisOrder KisOrderStatus KisAccount System Operator.

(** ** The client *)

(** [_positive_int] of a JSON value *)
Definition nonneg_int (v : json) : res (option Z) :=
  match v with
  | JBool _ => Ok None
  | _ =>
      match json_int v with
      | Ok n => Ok (if 0 <=? n then Some n else None)
      | Err e => if is_ValueError e || match e with TypeError _ => true | _ => false end then Ok None else Err e
      end
  end.

(** [_telegram_error_category] *)
Definition telegram_error_category (status_code error_code : option Z) : string :=
  match (match error_code with Some c => Some c | None => status_code end) with
  | Some c => if c =? 409 then "conflict" else if c =? 429 then "rate_limited" else if 500 <=? c then "server_error" else "api_error"
  | None => "api_error"
  end.

(** [TelegramApiError.safe_summary] *)
Definition safe_summary (category : string) (status_code error_code retry_after : option Z) : string :=
  let detail name (x : option Z) := match x with Some n => [name +:+ str_int n] | None => [] end in
  join ":" ([category] ++ detail "http_" status_code ++ detail "error_" error_code ++ detail "retry_after_" retry_after).

(** What [session.post] does: a failure of the transport, or a response with its
    status and its body, [None] when it is not JSON. *)
Inductive post_outcome :=
  | PostTimeout
  | PostConnectionError
  | PostRequestError
  | PostResponse (status_code : json) (body : option json).

Definition at_least_400 (status : option Z) : bool := match status with Some c => 400 <=? c | None => false end.

(** [TelegramClient._call], of the outcome of its request *)
Definition read_response (r : post_outcome) : res (dict json) :=
  let fail category status error retry := Err (TelegramApiError (safe_summary category status error retry)) in
  match r with
  | PostTimeout => fail "timeout" None None None
  | PostConnectionError => fail "connection_error" None None None
  | PostRequestError => fail "request_error" None None None
  | PostResponse status body =>
      status ← nonneg_int status;
      match body with
      | None => fail (if at_least_400 status then telegram_error_category status None else "invalid_response") status None None
      | Some (JObj o) =>
          if negb (match dget "ok" o with Some (JBool b) => b | _ => false end) || at_least_400 status then
            error ← nonneg_int (or_else (dget "error_code" o) JNull);
            retry ← (match dget "parameters" o with
                     | Some (JObj p) => nonneg_int (or_else (dget "retry_after" p) JNull)
                     | _ => Ok None
                     end);
            fail (telegram_error_category status error) status error retry
          else Ok o
      | Some _ => fail "invalid_response" status None None
      end
  end.

(** [get_updates], of the outcome of its request *)
Definition read_updates (r : post_outcome) : res (list json) :=
  o ← read_response r;
  match dget "result" o with
  | None => Ok []
  | Some (JList l) => Ok l
  | Some _ => Err (TelegramApiError (safe_summary "invalid_response" None None None))
  end.

(** ** Keyboards *)

(** Rows of buttons: a text and its callback data. *)
Definition keyboard : Type := list (list (string * string)).

Definition MAIN_MENU_KEYBOARD : keyboard :=
  [[("모의매매 준비 점검", "control:readiness")];
   [("상태·리포트", "menu:status"); ("계좌·거래", "menu:trading")];
   [("운용 제어", "menu:control"); ("환경 설정", "menu:environment")];
   [("AI·비용", "menu:ai")]].
Definition STATUS_MENU_KEYBOARD : keyboard :=
  [[("현재 상태", "control:status"); ("라이브 리포트", "control:live-report")];
   [("페이퍼 리포트", "control:report")]; [("메인 메뉴", "menu:main")]].
Definition TRADING_MENU_KEYBOARD : keyboard :=
  [[("보유 포지션", "control:positions"); ("주문", "control:orders")];
   [("체결", "control:fills"); ("승인 대기", "control:approvals")];
   [("관심종목 관리", "control:watchlist"); ("최근 AI 판단", "control:decisions")]; [("메인 메뉴", "menu:main")]].
Definition CONTROL_MENU_KEYBOARD : keyboard :=
  [[("미체결 매수 취소", "control:cancel-open-buys")];
   [("긴급 정지", "control:emergency-stop"); ("긴급 정지 해제", "control:clear-emergency")];
   [("거래 빈도", "control:frequency")]; [("메인 메뉴", "menu:main")]].
Definition ENVIRONMENT_MENU_KEYBOARD : keyboard :=
  [[("모의투자", "control:environment:demo"); ("실전투자", "control:environment:real")]; [("메인 메뉴", "menu:main")]].
Definition AI_MENU_KEYBOARD : keyboard :=
  [[("OpenAI 사용금액", "control:cost"); ("성과", "control:performance")]; [("메인 메뉴", "menu:main")]].

Definition frequency_keyboard : keyboard :=
  [[("보수", "frequency:set:conservative"); ("표준", "frequency:set:normal"); ("적극", "frequency:set:aggressive")];
   [("운용 제어", "menu:control")]; [("메인 메뉴", "menu:main")]].

(** [_watchlist_keyboard], of the watchlist *)
Definition watchlist_keyboard_of (symbols : list string) : keyboard :=
  [[("추가", "watchlist:add")]] ++ map (fun s => [(s +:+ " 삭제", "watchlist:remove:" +:+ s)]) symbols ++
  [[("계좌·거래", "menu:trading")]; [("메인 메뉴", "menu:main")]].

(** [_approval_markup] *)
Definition approval_markup (rows : list approval_request) : keyboard :=
  map (fun a => [("Approve " +:+ ar_request_id a, "approval:approve:" +:+ ar_request_id a);
                 ("Reject " +:+ ar_request_id a, "approval:reject:" +:+ ar_request_id a)]) (take 10 rows) ++
  [[("계좌·거래", "menu:trading"); ("메인 메뉴", "menu:main")]].

(** ** Reading an update *)

(** [v.get(key)] *)
Definition attr_get (key : string) (v : json) : res json :=
  match v with JObj o => Ok (or_else (dget key o) JNull) | _ => Err no_attribute end.
(** [v or {}], [str(v or "")] *)
Definition or_object (v : json) : json := if truthy v then v else JObj [].
Definition str_or_empty (v : json) : string := if truthy v then py_str v else "".

(** [s.split(sep, 1)]: what precedes the first separator, and what follows it. *)
Fixpoint cut_at (sep : ascii) (s : string) : string * option string :=
  match s with
  | "" => ("", None)
  | String ch s' =>
      if bool_decide (ch = sep) then ("", Some s')
      else let '(a, b) := cut_at sep s' in (String ch a, b)
  end.

(** The part after the last separator: [s.rsplit(sep, 1)[1]]. *)
Definition after_last (sep : ascii) (s : string) : string := List.last (split_on sep s) "".

(** The words of [s.split()] *)
Definition words (s : string) : list string :=
  List.filter (fun w => negb (sempty w)) (split_on " " (smap (fun ch => if is_space ch then " "%char else ch) s)).

(** A command: its name, its argument when it takes one, and who sent it. *)
Record tg_command := mkCommand { cm_name : string; cm_argument : option string; cm_chat : json; cm_user : json }.

Definition WITH_ARGUMENT : list string :=
  ["/pause"; "/resume"; "/env"; "/environment"; "/confirm-real"; "/approve"; "/reject"; "/watchlist-add"; "/watchlist-remove";
   "/watchlist_add"; "/watchlist_remove"; "/frequency"].

(** The name and the argument of the text of a command *)
Definition split_command (text : string) : string * option string :=
  let '(head, rest) := span (fun ch => negb (is_space ch)) text in
  let name := lower (fst (cut_at "@" head)) in
  let argument := strip rest in
  let argument := if mem_str name ["/pause"; "/resume"] && sempty argument then "telegram_operator" else argument in
  (name, if negb (sempty argument) && mem_str name WITH_ARGUMENT then Some argument else None).

(** [_command] *)
Definition read_command (update : json) : res (option tg_command) :=
  message ← attr_get "message" update;
  let message := or_object message in
  text ← attr_get "text" message;
  let text := strip (str_or_empty text) in
  chat ← attr_get "chat" message;
  chat_id ← attr_get "id" (or_object chat);
  if sempty text || match chat_id with JNull => true | _ => false end || negb (startswith "/" text) then Ok None
  else
    from ← attr_get "from" message;
    user_id ← attr_get "id" (or_object from);
    let '(name, argument) := split_command text in
    Ok (Some (mkCommand name argument chat_id user_id)).

Record tg_callback := mkCallback {
  cb_data : string;
  cb_chat : json;
  cb_id : json;
  cb_user : json;
  cb_message_id : option Z;
}.

Definition CALLBACK_PREFIXES : list string := ["control:"; "approval:"; "menu:"; "watchlist:"; "frequency:"].

(** [_callback] *)
Definition read_callback (update : json) : res (option tg_callback) :=
  callback ← attr_get "callback_query" update;
  let callback := or_object callback in
  message ← attr_get "message" callback;
  let message := or_object message in
  chat ← attr_get "chat" message;
  chat_id ← attr_get "id" (or_object chat);
  data ← attr_get "data" callback;
  let data := str_or_empty data in
  id ← attr_get "id" callback;
  if match chat_id with JNull => true | _ => false end || negb (truthy id) || negb (existsb (fun p => startswith p data) CALLBACK_PREFIXES)
  then Ok None
  else
    message_id ← attr_get "message_id" message;
    from ← attr_get "from" callback;
    user_id ← attr_get "id" (or_object from);
    message_id ← (match message_id with JNull => Ok None | v => n ← json_int v; Ok (Some n) end);
    Ok (Some (mkCallback data chat_id id user_id message_id)).

(** The name of the operation of a button *)
Definition callback_command_name (action : string) : string :=
  if startswith "approval:" action then "/approval-callback"
  else if startswith "menu:" action || startswith "watchlist:" action || startswith "frequency:" action then "/" +:+ action
  else "/" +:+ or_empty (snd (cut_at ":" action)).

(** ** Operations *)

Inductive operation :=
  | OpMenu (name : string)             (* the menus: main, status, trading, control, environment, ai *)
  | OpReadiness
  | OpWatchlist | OpWatchlistPrompt | OpWatchlistRemove (symbol : string) | OpWatchlistChange (add : bool)
  | OpFrequency | OpFrequencySet (profile : string)
  | OpDecisions
  | OpApprovalCallback | OpResolve (approve : bool) | OpApprovals
  | OpPause | OpResume | OpStatus
  | OpEnvironment | OpEnvironmentButton (value : string) | OpConfirmReal
  | OpPositions | OpOrders | OpFills
  | OpEmergencyStop | OpCancelOpenBuys | OpClearEmergency
  | OpReport | OpLiveReport | OpCost | OpPerformance.

(** The conditions of [handle_update], in their order *)
Definition operation_of (name : string) : option operation :=
  let one_of l := mem_str name l in
  if one_of ["/start"; "/menu"; "/menu:main"] then Some (OpMenu "main")
  else if one_of ["/menu:status"] then Some (OpMenu "status")
  else if one_of ["/menu:trading"] then Some (OpMenu "trading")
  else if one_of ["/menu:control"] then Some (OpMenu "control")
  else if one_of ["/menu:environment"] then Some (OpMenu "environment")
  else if one_of ["/menu:ai"] then Some (OpMenu "ai")
  else if one_of ["/readiness"] then Some OpReadiness
  else if one_of ["/watchlist"] then Some OpWatchlist
  else if one_of ["/watchlist:add"] then Some OpWatchlistPrompt
  else if startswith "/watchlist:remove:" name then Some (OpWatchlistRemove (after_last ":" name))
  else if one_of ["/watchlist-add"; "/watchlist-remove"; "/watchlist_add"; "/watchlist_remove"]
  then Some (OpWatchlistChange (one_of ["/watchlist-add"; "/watchlist_add"]))
  else if one_of ["/frequency"] then Some OpFrequency
  else if startswith "/frequency:set:" name then Some (OpFrequencySet (after_last ":" name))
  else if one_of ["/decisions"] then Some OpDecisions
  else if one_of ["/approval-callback"] then Some OpApprovalCallback
  else if one_of ["/approve"; "approve"; "/reject"; "reject"] then Some (OpResolve (one_of ["/approve"; "approve"]))
  else if one_of ["/approvals"; "approvals"] then Some OpApprovals
  else if one_of ["/pause"; "pause"] then Some OpPause
  else if one_of ["/resume"; "resume"] then Some OpResume
  else if one_of ["/status"; "status"; "/control"; "control"] then Some OpStatus
  else if one_of ["/env"; "env"; "/environment"; "environment"] then Some OpEnvironment
  else if one_of ["/confirm-real"; "confirm-real"] then Some OpConfirmReal
  else if one_of ["/positions"; "positions"] then Some OpPositions
  else if one_of ["/orders"; "orders"] then Some OpOrders
  else if one_of ["/fills"; "fills"] then Some OpFills
  else if one_of ["/emergency-stop"; "emergency-stop"] then Some OpEmergencyStop
  else if one_of ["/cancel-open-buys"; "cancel-open-buys"] then Some OpCancelOpenBuys
  else if one_of ["/environment:demo"; "/environment:real"] then Some (OpEnvironmentButton (or_empty (snd (cut_at ":" name))))
  else if one_of ["/clear-emergency"; "clear-emergency"] then Some OpClearEmergency
  else if one_of ["/report"; "report"] then Some OpReport
  else if one_of ["/live-report"; "live-report"] then Some OpLiveReport
  else if one_of ["/cost"; "cost"] then Some OpCost
  else if one_of ["/performance"; "performance"] then Some OpPerformance
  else None.

(** [_default_keyboard] *)
Definition default_keyboard (name : string) : keyboard :=
  let one_of l := mem_str name l in
  if one_of ["/readiness"; "readiness"; "/decisions"; "decisions"]
  then (if one_of ["/readiness"; "readiness"] then MAIN_MENU_KEYBOARD else TRADING_MENU_KEYBOARD)
  else if one_of ["/status"; "status"; "/report"; "report"; "/live-report"; "live-report"] then STATUS_MENU_KEYBOARD
  else if one_of ["/positions"; "positions"; "/orders"; "orders"; "/fills"; "fills"; "/approvals"; "approvals"; "/approval-callback";
              "/approve"; "approve"; "/reject"; "reject"] then TRADING_MENU_KEYBOARD
  else if one_of ["/pause"; "pause"; "/resume"; "resume"; "/control"; "control"; "/emergency-stop"; "emergency-stop"; "/clear-emergency";
              "clear-emergency"; "/cancel-open-buys"; "cancel-open-buys"] then CONTROL_MENU_KEYBOARD
  else if one_of ["/frequency"; "frequency"; "/frequency:set:conservative"; "/frequency:set:normal"; "/frequency:set:aggressive"]
  then frequency_keyboard
  else if one_of ["/env"; "env"; "/environment"; "environment"; "/confirm-real"; "confirm-real"; "/environment:demo"; "/environment:real"]
  then ENVIRONMENT_MENU_KEYBOARD
  else if one_of ["/cost"; "cost"; "/performance"; "performance"] then AI_MENU_KEYBOARD
  else if one_of ["/watchlist"; "watchlist"; "/watchlist-add"; "watchlist-add"; "/watchlist-remove"; "watchlist-remove"; "/watchlist_add";
              "watchlist_add"; "/watchlist_remove"; "watchlist_remove"; "/watchlist:add"; "/watchlist:remove"] then TRADING_MENU_KEYBOARD
  else MAIN_MENU_KEYBOARD.

(** ** Replies *)

Inductive view := StatusView | ReadinessView | DecisionsView | PositionsView | OrdersView | FillsView | ReportView | LiveReportView
  | CostView | PerformanceView | FrequencyView | ApprovalsView.

Inductive reply :=
  | Say (text : string)
  | View (v : view)
  | ResumeBlocked (blockers : list string).

(** [_truncate] *)
Definition truncate (text : string) : string :=
  if slen text <=? 3500 then text else take_points 3480 text +:+ newline +:+ "...[truncated]".

Definition usage_resolve (approve : bool) : string := "usage: " +:+ (if approve then "/approve" else "/reject") +:+ " <request_id>".

(** The status line of a resolved approval *)
Definition approval_text (request_id : string) (changed approve : bool) (row : option approval_request) : string :=
  "approval " +:+ request_id +:+ ": " +:+
  (if changed && approve then "approved" else if changed then "rejected"
   else match row with Some a => lower (ar_status a) | None => "not found" end).

(** ** The texts of the operations *)

(** [f"{s:<chars>}"] pieces the replies share *)
Definition lines (l : list string) : string := join newline l.

(** [_frequency_text], with the setting [AI_MIN_CONFIDENCE] of the process *)
Definition frequency_text_of (settings : TradeFrequencySettings) : string :=
  lines (["거래 빈도"; "profile=" +:+ tf_profile settings; "ai_min_confidence=" +:+ format_2f (tf_ai_min_confidence settings);
          "candidate_sensitivity=" +:+ tf_profile settings; "daily_trade_limit=none"; "presets:"] ++
         map (fun kv : string * TradeFrequencySettings =>
                "- " +:+ fst kv +:+ ": ai_min_confidence=" +:+ format_2f (tf_ai_min_confidence (snd kv)) +:+
                " candidate_sensitivity=" +:+ fst kv) FREQUENCY_PRESETS).

Definition challenge_text (code : string) : string :=
  lines ["runtime environment: real pending"; "challenge: " +:+ code; "confirm with /confirm-real " +:+ code].

Definition stop_text (cancellation_requested : bool) : string :=
  if cancellation_requested then "emergency stop active; runtime paused; open BUY cancellation requested"
  else "emergency stop active; runtime paused; no open BUY orders".

(** [_symbols_argument] *)
Definition symbols_argument (argument : option string) : list string :=
  match argument with
  | None => []
  | Some raw => words (smap (fun ch => if bool_decide (ch = ","%char) || bool_decide (ch = ";"%char) then " "%char else ch) raw)
  end.

(** [action.split(":", 2)], which the callback of an approval unpacks into three *)
Definition split_approval (action : string) : res (string * string) :=
  match cut_at ":" action with
  | (_, Some rest) =>
      match cut_at ":" rest with
      | (decision, Some request_id) => Ok (decision, request_id)
      | _ => Err (ValueError "not enough values to unpack (expected 3, got 2)")
      end
  | _ => Err (ValueError "not enough values to unpack (expected 3, got 1)")
  end.

(** The client of the bot: what [handle_update] and [poll_telegram] ask of it.
    Editing and deleting a message are optional ([hasattr]). *)
Record tg_client (W : Type) := mkTgClient {
  tc_answer : json -> stm W unit;
  tc_edit : option (json -> Z -> reply -> keyboard -> stm W unit);
  tc_delete : option (json -> Z -> stm W unit);
  tc_send : json -> reply -> keyboard -> stm W unit;
  tc_updates : option Z -> Z -> Z -> stm W (list json);
}.
Arguments tc_answer {W} _ _.
Arguments tc_edit {W} _.
Arguments tc_delete {W} _.
Arguments tc_send {W} _ _ _ _.
Arguments tc_updates {W} _ _ _ _.

Section Telegram.
Context {W : Type} {CW : Clock W}.
Variable randbelow : stm W Z.
Variable exn_text : exn -> string.
Variable env : string -> option string.
Variable calendar : option (Z -> bool).
(** [os.getenv] *)
Variable getenv : string -> option string.

Notation run A := (stm (sys W) A).

(** ** Operations *)

(** A reply, and the keyboard when the operation chooses one. *)
Definition say (text : string) : run (reply * option keyboard) := mret (Say text, None).
Definition show_view (v : view) : run (reply * option keyboard) := _ ← open_schema; mret (View v, None).

(** [_watchlist_keyboard] *)
Definition watchlist_keyboard : run keyboard :=
  _ ← open_schema;
  symbols ← query (list_watchlist_symbols true);
  mret (watchlist_keyboard_of symbols).

Definition with_watchlist (m : run string) : run (reply * option keyboard) :=
  text ← m;
  kb ← watchlist_keyboard;
  mret (Say text, Some kb).

(** [_frequency_settings] *)
Definition frequency_settings : run TradeFrequencySettings :=
  _ ← open_schema;
  default ← lift_res (float_of_text (or_else (getenv "AI_MIN_CONFIDENCE") "0.75"));
  query (read_trade_frequency default).

Definition frequency_text : run string := settings ← frequency_settings; mret (frequency_text_of settings).

(** [_status_text]: its text is [TelegramViews.runtime_status_text]; the settings of the
    frequency, which may not be readable, are read here. *)
Definition status_view : run (reply * option keyboard) :=
  _ ← open_schema;
  _ ← frequency_settings;
  mret (View StatusView, None).

(** The answer to an approval: [resolve_approval_request] and its row *)
Definition resolve (request_id : string) (approve : bool) (user : json) : run string :=
  _ ← open_schema;
  now ← utcnow;
  changed ← on_db (resolve_approval_request request_id (if approve then "APPROVED" else "REJECTED")
              (match user with JNull => None | u => Some (py_str u) end) (Some now));
  row ← query (get_approval_request request_id);
  row ← lift_res row;
  mret (approval_text request_id changed approve row).

(** [_approvals_text] *)
Definition approvals : run (reply * option keyboard) :=
  _ ← open_schema;
  now ← utcnow;
  _ ← on_db (fun clock d => Ok (expire_approval_requests (Some now) clock d));
  rows ← query (list_approval_requests (Some "PENDING") 10);
  rows ← lift_res rows;
  mret (View ApprovalsView, Some (approval_markup rows)).

(** What [/pause] and [/emergency-stop] share *)
Definition stop_trading : run bool :=
  _ ← open_schema;
  _ ← write_metadata EMERGENCY_STOP_KEY "true";
  _ ← set_paused true "telegram_emergency_stop" "telegram";
  request_open_buy_cancellation.

Definition emergency_stop_now : run string :=
  cancelling ← stop_trading;
  _ ← open_schema;
  _ ← write_metadata REAL_RESUME_ARM_EXPIRES_KEY "";
  _ ← open_schema;
  _ ← write_metadata REAL_RESUME_ARM_USES_KEY "0";
  mret (stop_text cancelling).

Definition clear_emergency : run string :=
  allowed ← real_resume_allowed;
  if negb (allowed : bool) then mret "clear emergency rejected: real environment requires a fresh challenge confirmation"
  else
    _ ← open_schema;
    _ ← write_metadata EMERGENCY_STOP_KEY "false";
    _ ← write_metadata "emergency_stop" "false";
    _ ← on_db (set_runtime_paused false "emergency_stop_cleared" "telegram");
    mret "emergency stop cleared; automatic runtime control restored".

Definition resume (reason : string) : run reply :=
  blockers ← readiness env calendar;
  _ ← open_schema;
  safety ← query resume_safety_reason;
  _ ← open_schema;
  stopped ← query emergency_stop_active;
  if stopped : bool then mret (Say "resume rejected: emergency stop is active; use /clear-emergency while paused")
  else
    match (blockers : list string) with
    | _ :: _ => mret (ResumeBlocked blockers)
    | [] =>
        _ ← open_schema;
        pending ← query (fun d => truth_text (or_empty (get_metadata CANCEL_OPEN_BUYS_KEY d)));
        if pending : bool then mret (Say "resume rejected: open BUY cancellation is still pending")
        else
          match (safety : option string) with
          | Some r => mret (Say ("resume rejected: " +:+ r))
          | None =>
              allowed ← real_resume_allowed;
              if negb (allowed : bool)
              then mret (Say "resume rejected: real environment requires a fresh challenge confirmation")
              else _ ← set_paused false reason "telegram"; mret (Say "runtime resumed")
          end
    end.

(** The selection of an environment, of [/env] and of its buttons *)
Definition select_environment (value : string) : run string :=
  if String.eqb value "real" then
    code ← real_challenge randbelow;
    mret (challenge_text code)
  else
    selected ← on_value_error (set_environment value "telegram_operator" "telegram");
    match (selected : RuntimeControl + exn) with
    | inr e => mret ("environment unchanged: " +:+ exn_text e)
    | inl c => mret ("runtime environment: " +:+ rc_environment c)
    end.

Definition said (m : run string) : run (reply * option keyboard) := text ← m; mret (Say text, None).
Definition with_keyboard (kb : keyboard) (m : run (reply * option keyboard)) : run (reply * option keyboard) :=
  r ← m;
  mret (fst r, Some kb).

(** The menus *)
Definition menu (name : string) : run (reply * option keyboard) :=
  if String.eqb name "main" then with_keyboard MAIN_MENU_KEYBOARD (say "메인 메뉴")
  else if String.eqb name "status" then with_keyboard STATUS_MENU_KEYBOARD status_view
  else if String.eqb name "trading" then with_keyboard TRADING_MENU_KEYBOARD (say "계좌·거래 메뉴")
  else if String.eqb name "control" then with_keyboard CONTROL_MENU_KEYBOARD status_view
  else if String.eqb name "environment" then with_keyboard ENVIRONMENT_MENU_KEYBOARD status_view
  else with_keyboard AI_MENU_KEYBOARD (say "AI·비용 메뉴").

(** The branches of [handle_update], of the operation; [argument] is the one of
    the command, and [callback] the data of the button, when there is one. *)
Definition perform (op : operation) (argument : option string) (callback : option string) (user : json)
    : run (reply * option keyboard) :=
  match op with
  | OpMenu name => menu name
  | OpReadiness => _ ← readiness env calendar; mret (View ReadinessView, None)
  | OpWatchlist => with_watchlist watchlist_text
  | OpWatchlistPrompt => with_watchlist watchlist_add_prompt_text
  | OpWatchlistRemove symbol => with_watchlist (watchlist_remove_symbol symbol)
  | OpWatchlistChange add => with_watchlist (watchlist_change (symbols_argument argument) add)
  | OpFrequency =>
      with_keyboard frequency_keyboard
        (said (match argument with Some a => set_frequency (strip a) | None => frequency_text end))
  | OpFrequencySet profile => with_keyboard frequency_keyboard (said (set_frequency profile))
  | OpDecisions => show_view DecisionsView
  | OpApprovalCallback =>
      match callback with
      | None => raise (OtherError "UnboundLocalError")
      | Some action =>
          parts ← lift_res (split_approval action);
          said (resolve (snd parts) (String.eqb (fst parts) "approve") user)
      end
  | OpResolve approve =>
      let request_id := strip (or_empty argument) in
      if sempty request_id then say (usage_resolve approve) else said (resolve request_id approve user)
  | OpApprovals => approvals
  | OpPause => said (b ← stop_trading; mret (stop_text b))
  | OpResume => r ← resume (or_else argument "telegram_operator"); mret (r, None)
  | OpStatus => status_view
  | OpEnvironment =>
      match argument with
      | None => status_view
      | Some value => if mem_str value ["demo"; "real"] then said (select_environment value) else say "usage: /env demo|real"
      end
  | OpEnvironmentButton value => said (select_environment value)
  | OpConfirmReal => said (confirm_real exn_text (or_empty argument))
  | OpPositions => show_view PositionsView
  | OpOrders => show_view OrdersView
  | OpFills => show_view FillsView
  | OpEmergencyStop => said emergency_stop_now
  | OpCancelOpenBuys =>
      said (b ← request_open_buy_cancellation;
            mret (if b : bool then "open BUY cancellation requested; new entries temporarily blocked" else "no open BUY orders"))
  | OpClearEmergency => said clear_emergency
  | OpReport => show_view ReportView
  | OpLiveReport => show_view LiveReportView
  | OpCost => mret (View CostView, None)
  | OpPerformance => show_view PerformanceView
  end.

(** ** Handling an update *)

Variable client : tg_client W.

(** [try: m  except RuntimeError: ...]: whether it went through. *)
Definition unless_RuntimeError {A} (m : run A) : run bool :=
  r ← attempt m;
  match (r : res A) with
  | Ok _ => mret true
  | Err e => if is_RuntimeError e then mret false else raise e
  end.

Definition truncate_reply (r : reply) : reply := match r with Say t => Say (truncate t) | _ => r end.

(** The end of [handle_update]: the message of a button is edited, and failing
    that deleted and replaced. *)
Definition deliver (chat : json) (message_id : option Z) (r : reply) (kb : keyboard) : run bool :=
  let send := _ ← on_world (tc_send client chat r kb); mret true in
  match message_id, tc_edit client with
  | Some mid, Some edit =>
      edited ← unless_RuntimeError (on_world (edit chat mid r kb));
      if edited : bool then mret true
      else
        _ ← (match tc_delete client with
             | Some del => _ ← unless_RuntimeError (on_world (del chat mid)); mret tt
             | None => mret tt
             end);
        send
  | _, _ => send
  end.

(** The chat and the user an update speaks for *)
Definition sender (command : option tg_command) (callback : option tg_callback) : json * json :=
  match command, callback with
  | Some c, _ => (cm_chat c, cm_user c)
  | None, Some b => (cb_chat b, cb_user b)
  | None, None => (JNull, JNull)
  end.

Definition authorized (allowed_chat : string) (allowed_user : option string) (chat user : json) : bool :=
  match chat with
  | JNull => false
  | _ => String.eqb (py_str chat) allowed_chat &&
         match allowed_user with Some u => String.eqb (py_str user) u | None => true end
  end.

(** The operation's name: that of the button, else that of the command *)
Definition update_name (command : option tg_command) (callback : option tg_callback) : string :=
  match callback, command with
  | Some b, _ => callback_command_name (cb_data b)
  | None, Some c => cm_name c
  | None, None => ""
  end.

Definition handle_update (update : json) (allowed_chat : string) (allowed_user : option string) : run bool :=
  command ← lift_res (read_command update);
  callback ← lift_res (read_callback update);
  let '(chat, user) := sender command callback in
  if negb (authorized allowed_chat allowed_user chat user) then mret false
  else
    _ ← (match callback with Some b => on_world (tc_answer client (cb_id b)) | None => mret tt end);
    let name := update_name command callback in
    let chat := match callback with Some b => cb_chat b | None => chat end in
    match operation_of name with
    | None => mret false
    | Some op =>
        r ← perform op (c ← command; cm_argument c) (cb_data <$> callback) user;
        deliver chat (b ← callback; cb_message_id b) (truncate_reply (fst r)) (or_else (snd r) (default_keyboard name))
    end.

(** ** Polling *)

(** The keys by which the updates are sorted *)
Fixpoint update_keys (updates : list json) : res (list (Z * json)) :=
  match updates with
  | [] => Ok []
  | u :: rest =>
      key ← (match u with
             | JObj o => match dget "update_id" o with Some v => json_int v | None => Ok (-1) end
             | _ => Err no_attribute
             end);
      rest ← update_keys rest;
      Ok ((key, u) :: rest)
  end.

Definition has_update_id (u : json) : bool := match u with JObj o => match dget "update_id" o with Some _ => true | None => false end | _ => false end.

(** One update of the loop *)
Definition poll_step (allowed_chat : string) (allowed_user : option string) (max_update_id : option Z) (ku : Z * json)
    : run (option Z) :=
  _ ← handle_update (snd ku) allowed_chat allowed_user;
  mret (if has_update_id (snd ku) then Some (Z.max (or_else max_update_id (-1)) (fst ku)) else max_update_id).

Definition poll_telegram (allowed_chat : string) (allowed_user : option string) (limit timeout_seconds : Z) : run Z :=
  _ ← lift_res (raise_if (negb ((1 <=? limit) && (limit <=? 100))) (ValueError "limit must be between 1 and 100"));
  _ ← lift_res (raise_if (negb ((0 <=? timeout_seconds) && (timeout_seconds <=? 60)))
                 (ValueError "timeout_seconds must be between 0 and 60"));
  let allowed_user := match allowed_user with Some u => Some u | None => env "TELEGRAM_ALLOWED_USER_ID" end in
  _ ← open_schema;
  offset ← query get_telegram_update_offset;
  offset ← lift_res offset;
  updates ← on_world (tc_updates client offset limit timeout_seconds);
  keyed ← lift_res (update_keys (take (Z.to_nat limit) updates));
  max_update_id ← foldM (poll_step allowed_chat allowed_user) ((fun o => o - 1) <$> (offset : option Z))
                    (sort_by (fun a b => fst a <=? fst b) keyed);
  match (max_update_id : option Z) with
  | None => mret 0
  | Some m =>
      _ ← open_schema;
      _ ← on_db (set_telegram_update_offset (m + 1) None);
      mret 0
  end.
End Telegram.
