(* ===== verification/TelegramSafety.v ===== *)
(** * What the operator's updates can do ([ops/telegram.py])

    The effect of the operations of [Telegram] on the runtime control: which of
    them leave the program paused, which can resume it and behind which gates,
    how the real environment is reached, how often one confirmation can be
    spent, who is obeyed, and what the polling loop remembers. *)

From S2P Require Import Prelude PyStr PyFloat PyTime PyDict PyJson DbCore DbOrders DbRuntime DbApprovals DbLedger DbFrames.
From S2P Require Import KisHttp KisOrder KisOrderStatus KisAccount System Operator Telegram.

Definition paused (d : db) : bool := rc_paused (get_runtime_control d).
Definition environment (d : db) : string := rc_environment (get_runtime_control d).

(** The resumes that the arm still allows *)
Definition arm_left (d : db) : Z :=
  match parse_int (or_empty (or_text (get_metadata REAL_RESUME_ARM_USES_KEY d) (Some "0"))) with
  | Ok n => Z.max 0 n
  | Err _ => 0
  end.

(** The ledger and the offset of the polling loop are as they were. *)
Record framed (d d' : db) : Prop := mkFramed {
  fr_ledger : same_ledger d d';
  fr_offset : get_metadata TELEGRAM_UPDATE_OFFSET_KEY d' = get_metadata TELEGRAM_UPDATE_OFFSET_KEY d;
}.

(** Nothing has been resumed, no real environment entered, no arm extended. *)
Record tame (d d' : db) : Prop := mkTame {
  tm_framed : framed d d';
  tm_paused : paused d = true -> paused d' = true;
  tm_environment : environment d' = environment d \/ environment d' = "demo";
  tm_arm : arm_left d' <= arm_left d;
}.

(** The clock as the program reads it for the [k]-th time from now on *)
Fixpoint clock_at {W} `{Clock W} (k : nat) (w : W) : datetime :=
  match k with
  | O => astimezone (wall_clock w).1 UTC
  | S k => clock_at k (wall_clock w).2
  end.

(** The heartbeat of a service was written within the last three minutes before [now]. *)
Definition beating (now : datetime) (key : string) (d : db) : Prop :=
  exists text t, get_metadata key d = Some text /\ text <> "" /\ fromisoformat text = Ok t /\
    0 <= instant now - instant (if is_naive t then with_tz t (Some UTC) else t) <= 180 * us_per_second.

(** What a resume requires of the settings and of the database, when the
    heartbeats of the trading service and of the supervisor are read at [now] and [now'] *)
Record resume_gate (env : string -> option string) (calendar : option (Z -> bool)) (now now' : datetime) (d : db) : Prop := mkGate {
  rg_live : env_text env "LIVE_TRADING_ENABLED" "" = "true";
  rg_credentials : Forall (fun field => env ((if String.eqb (environment d) "demo" then "KIS_DEMO" else "KIS_REAL") +:+ field) <> None)
                     ["_APP_KEY"; "_APP_SECRET"; "_ACCOUNT_NO"];
  rg_model : env_text env "AUTO_TRADE_AI" "openai" = "openai" -> env "OPENAI_API_KEY" <> None;
  rg_symbols : list_watchlist_symbols true d <> [] \/ mem_str (env_text env "AUTO_UNIVERSE_ENABLED" "true") ["1"; "true"; "yes"; "on"] = true;
  rg_review : flag_set (get_metadata "operator_review" d) = false;
  rg_entries : flag_set (get_metadata "block_new_entries" d) = false;
  rg_emergency : emergency_stop_active d = false;
  rg_stop_flag : flag_set (or_text (get_metadata EMERGENCY_STOP_KEY d) (get_metadata "emergency_stop" d)) = false;
  rg_cancellation : truth_text (or_empty (get_metadata CANCEL_OPEN_BUYS_KEY d)) = false;
  rg_settled : unresolved_order d = None;
  rg_trading : beating now "heartbeat:trading-service" d;
  rg_supervisor : beating now' "heartbeat:order-supervisor" d;
  rg_calendar : calendar <> None;
}.

(** The system after the answer to the button of an update, if it has one *)
Definition answered {W} (client : tg_client W) (update : json) (s : sys W) : sys W :=
  match read_callback update with
  | Ok (Some b) => (on_world (tc_answer client (cb_id b)) s).2
  | _ => s
  end.

(** In the real environment a use of the arm is taken. *)
Definition arm_taken (d d' : db) : Prop :=
  environment d = "real" -> 0 < arm_left d /\ arm_left d' = arm_left d - 1.

(** The arm is valid at [now]: it has not expired, and [n] uses are left. *)
Definition arm_valid (now : datetime) (d : db) (n : Z) : Prop :=
  0 < n /\ arm_left d = n /\
  exists t, fromisoformat (or_empty (get_metadata REAL_RESUME_ARM_EXPIRES_KEY d)) = Ok t /\ dt_ltb now t = Ok true.

(** The outcomes of [real_resume_allowed], and the database they leave *)
Inductive allowed_outcome (d : db) : bool -> db -> Prop :=
  | AllowedDemo : environment d <> "real" -> allowed_outcome d true (init_schema d)
  | AllowedArmed now n ts : environment d = "real" -> arm_valid now d n ->
      allowed_outcome d true (put_metadata REAL_RESUME_ARM_USES_KEY (str_int (n - 1)) ts (init_schema d))
  | Refused : environment d = "real" -> allowed_outcome d false (init_schema d).

(** What a confirmation of the real environment at [now] requires, and leaves *)
Record confirmed (code : string) (now : datetime) (d d' : db) : Prop := mkConfirmed {
  cf_paused : paused d = true;
  cf_code : code <> "" /\ get_metadata REAL_CHALLENGE_KEY d = Some code;
  cf_unexpired : exists e t, get_metadata REAL_CHALLENGE_EXPIRES_KEY d = Some e /\ fromisoformat e = Ok t /\ dt_ltb now t = Ok true;
  cf_idle : environment d = "real" \/ has_open_position d = false /\ has_active_order d = false;
  cf_stays_paused : paused d' = true;
  cf_real : environment d' = "real";
  cf_spent : get_metadata REAL_CHALLENGE_KEY d' = Some "";
  cf_armed : arm_left d' = 1;
}.

(** The operation an update asks for, with its argument, the data of its button,
    and the chat and the user that ask *)
Definition requested (update : json) (op : operation) (argument callback_data : option string) (chat user : json) : Prop :=
  exists command callback,
    read_command update = Ok command /\ read_callback update = Ok callback /\ sender command callback = (chat, user) /\
    operation_of (update_name command callback) = Some op /\
    argument = (c ← command; cm_argument c) /\ callback_data = cb_data <$> callback.

(** The operation of an update, as far as it can be read *)
Definition update_operation (update : json) : option operation :=
  match read_command update, read_callback update with
  | Ok command, Ok callback => operation_of (update_name command callback)
  | _, _ => None
  end.

(** The offset [o'] after a poll that started at [o] is not behind it, and beyond
    every update that the poll was given. *)
Definition acknowledges {W} (client : tg_client W) (limit timeout : Z) (o o' : option Z) : Prop :=
  (forall n, o = Some n -> exists n', o' = Some n' /\ n <= n') /\
  exists w updates w' keyed,
    tc_updates client o limit timeout w = (Ok updates, w') /\ update_keys (take (Z.to_nat limit) updates) = Ok keyed /\
    (forall k u, (k, u) ∈ keyed -> has_update_id u = true -> exists n', o' = Some n' /\ k < n').

(** ** Lemmas *)

#[export] Instance framed_preorder : PreOrder framed.
Proof.
  split; [intros d; split; done|].
  intros d1 d2 d3 [H1 H2] [H3 H4]. split; [by etrans|congruence].
Qed.

#[export] Instance tame_preorder : PreOrder tame.
Proof.
  split; [intros d; split; auto; [reflexivity|lia]|].
  intros d1 d2 d3 [F1 P1 E1 A1] [F2 P2 E2 A2]. split; [by etrans|auto| |lia].
  destruct E2 as [->|]; [|by right]. destruct E1 as [->|]; [by left|by right].
Qed.

Lemma metadata_init k d : get_metadata k (init_schema d) = get_metadata k d.
Proof. done. Qed.

Lemma paused_init d : paused (init_schema d) = paused d.
Proof. unfold paused. by rewrite control_init. Qed.
Lemma environment_init d : environment (init_schema d) = environment d.
Proof. unfold environment. by rewrite control_init. Qed.

Lemma init_tame d : tame d (init_schema d).
Proof.
  split; [by split| |left|reflexivity].
  - by rewrite paused_init.
  - apply environment_init.
Qed.

Lemma put_framed k v ts d : k <> TELEGRAM_UPDATE_OFFSET_KEY -> framed d (put_metadata k v ts d).
Proof. intros Hk. split; [done|]. by apply metadata_put_other. Qed.

Lemma arm_put_other k v ts d : k <> REAL_RESUME_ARM_USES_KEY -> arm_left (put_metadata k v ts d) = arm_left d.
Proof. intros Hk. unfold arm_left. by rewrite metadata_put_other. Qed.

Lemma arm_put n ts d : 0 <= n -> arm_left (put_metadata REAL_RESUME_ARM_USES_KEY (str_int n) ts d) = n.
Proof.
  intros Hn. unfold arm_left. rewrite metadata_put_get. cbn [or_text].
  destruct (sempty (str_int n)) eqn:E.
  - pose proof (parse_int_str n Hn) as H. destruct (str_int n); [|done]. discriminate H.
  - cbn [or_empty or_else]. rewrite parse_int_str; [lia|done].
Qed.

Lemma arm_nonneg d : 0 <= arm_left d.
Proof. unfold arm_left. destruct (parse_int _); lia. Qed.

Lemma put_tame k v ts d :
  k <> TELEGRAM_UPDATE_OFFSET_KEY -> k <> REAL_RESUME_ARM_USES_KEY \/ v = "0" -> tame d (put_metadata k v ts d).
Proof.
  intros Hk Hv. split; [by apply put_framed|done|by left|].
  destruct (decide (k = REAL_RESUME_ARM_USES_KEY)) as [->|Hn].
  - destruct Hv as [| ->]; [done|]. change "0" with (str_int 0). rewrite arm_put; [apply arm_nonneg|lia].
  - by rewrite arm_put_other.
Qed.

(** A change of other tables *)
Lemma other_tables_tame d d' :
  same_ledger d d' -> t_runtime_metadata d' = t_runtime_metadata d -> t_runtime_control d' = t_runtime_control d -> tame d d'.
Proof.
  intros Hl Hm Hc. split; [split; [done|]| |left|].
  - unfold get_metadata. by rewrite Hm.
  - unfold paused, get_runtime_control. by rewrite Hc.
  - unfold environment, get_runtime_control. by rewrite Hc.
  - unfold arm_left, get_metadata. by rewrite Hm.
Qed.

Lemma set_paused_Ok b reason source clock d c d' : set_runtime_paused b reason source clock d = Ok (c, d') ->
  framed d d' /\ paused d' = b /\ environment d' = environment d /\ arm_left d' = arm_left d /\ t_runtime_metadata d' = t_runtime_metadata d.
Proof.
  unfold set_runtime_paused. intros H. apply bind_Ok in H as ([] & _ & H). injection H as _ <-.
  split; [by split|]. unfold paused, environment, get_runtime_control. cbn. by destruct (t_runtime_control d) as [[]|].
Qed.

Lemma set_environment_Ok e reason source clock d c d' : set_runtime_environment e reason source clock d = Ok (c, d') ->
  framed d d' /\ paused d = true /\ paused d' = true /\ environment d' = e /\ mem_str e ["demo"; "real"] = true /\
  t_runtime_metadata d' = t_runtime_metadata d /\
  (e = environment d \/ has_open_position d = false /\ has_active_order d = false).
Proof.
  unfold set_runtime_environment. intros H. apply bind_Ok in H as ([] & Hm%raise_if_Ok & H).
  apply bind_Ok in H as ([] & _ & H). cbv zeta in H. apply bind_Ok in H as ([] & Hp%raise_if_Ok & H).
  apply bind_Ok in H as ([] & Ho%raise_if_Ok & H). injection H as _ <-. bool_to_prop.
  split; [by split|]. split; [done|]. unfold paused, environment in *. split_and!; try done.
  - unfold get_runtime_control in *. cbn. by destruct (t_runtime_control d) as [[]|].
  - unfold get_runtime_control. cbn.
    apply mem_str_true in Hm. rewrite !elem_of_cons, elem_of_nil in Hm. by destruct Hm as [->|[->|[]]].
  - apply andb_false_iff in Ho as [Ho|Ho]; bool_to_prop; auto.
Qed.

(** *** Operations that resume nothing *)

Create HintDb operator.

Section Tame.
Context {W : Type} {CW : Clock W}.
Notation quiet m := (keeps (db_rel (W := W) tame) m).

Lemma open_tame : quiet open_schema.
Proof. apply keeps_on_db; [exact _|]. intros now d [] d' [= <-]. apply init_tame. Qed.

Lemma write_tame k v :
  k <> TELEGRAM_UPDATE_OFFSET_KEY -> k <> REAL_RESUME_ARM_USES_KEY \/ v = "0" -> quiet (write_metadata k v).
Proof.
  intros Hk Hv. unfold write_metadata. apply keeps_bind; [exact _| |intros; apply keeps_ret, _].
  apply keeps_on_db; [exact _|]. intros now d a d' H. unfold set_runtime_metadata in H.
  apply bind_Ok in H as ([] & _ & H). injection H as _ <-. by apply put_tame.
Qed.

Lemma utcnow_tame : quiet utcnow.
Proof. unfold utcnow. apply keeps_bind; [exact _|apply keeps_read_clock, _|intros; apply keeps_ret, _]. Qed.

Lemma pause_tame reason source : quiet (set_paused true reason source).
Proof.
  apply keeps_bind; [exact _|apply open_tame|intros _]. apply keeps_on_db; [exact _|].
  intros now d c d' H. destruct (set_paused_Ok _ _ _ _ _ _ _ H) as (F & P & E & A & _). split; [done|by rewrite P|by left|lia].
Qed.

Lemma demo_tame e reason source : e <> "real" -> quiet (set_environment e reason source).
Proof.
  intros He. apply keeps_bind; [exact _|apply open_tame|intros _]. apply keeps_on_db; [exact _|].
  intros now d c d' H. apply set_environment_Ok in H as (F & _ & P & E & Hm & A & _). split; [done|by rewrite P|right|].
  - apply mem_str_true in Hm. rewrite !elem_of_cons, elem_of_nil in Hm. by destruct Hm as [->|[->|[]]].
  - unfold arm_left, get_metadata. by rewrite A.
Qed.

Lemma add_symbol_tame symbol e t now d b d' : add_watchlist_symbol symbol e t now d = Ok (b, d') -> tame d d'.
Proof.
  unfold add_watchlist_symbol. intros H. apply bind_Ok in H as ([] & _ & H). cbv zeta in H.
  destruct (t_watchlist d !! symbol); injection H as _ <-; by apply other_tables_tame.
Qed.

Lemma symbol_enabled_tame symbol e d b d' : set_watchlist_enabled symbol e d = Ok (b, d') -> tame d d'.
Proof.
  unfold set_watchlist_enabled. intros H. apply bind_Ok in H as ([] & _ & H).
  destruct (t_watchlist d !! symbol); injection H as _ <-; by apply other_tables_tame.
Qed.

Lemma update_request_tame i p f d b d' : update_request i p f d = (b, d') -> tame d d'.
Proof.
  unfold update_request. destruct (t_approvals d !! i) as [a|]; [destruct (p a)|]; intros [= _ <-]; by apply other_tables_tame.
Qed.

Lemma resolve_tame i dec by_ t now d b d' : resolve_approval_request i dec by_ t now d = Ok (b, d') -> tame d d'.
Proof.
  unfold resolve_approval_request. intros H. do 2 (apply bind_Ok in H as ([] & _ & H)). cbv zeta in H.
  destruct (update_request i _ (expire_row _) d) as [b1 d1] eqn:E1. injection H as H.
  apply update_request_tame in E1, H. by etrans.
Qed.

Lemma on_value_error_keeps {A} (m : stm (sys W) A) : quiet m -> quiet (on_value_error m).
Proof.
  intros Hm s. unfold on_value_error. specialize (Hm s). destruct (m s) as [[a|e] s']; [done|]. by destruct (is_ValueError e).
Qed.
End Tame.

#[export] Hint Resolve open_tame utcnow_tame pause_tame : operator.
#[export] Hint Extern 1 (keeps _ (write_metadata _ _)) => apply write_tame; [discriminate|first [by left|by right]] : operator.
#[export] Hint Extern 1 (keeps _ (on_world _)) => apply keeps_on_world, _ : operator.
#[export] Hint Extern 1 (keeps _ read_clock) => apply keeps_read_clock, _ : operator.
#[export] Hint Extern 1 (keeps _ (query _)) => apply keeps_query, _ : operator.

(** Walking through an operation, step by step *)
Ltac tame_walk := repeat first
  [ solve [eauto with operator]
  | match goal with |- keeps _ (mbind _ _) => apply keeps_bind; [exact _| |intros ?] end
  | apply keeps_ret; exact _
  | apply keeps_lift; exact _
  | apply keeps_raise; exact _
  | apply on_value_error_keeps
  | apply keeps_foldM; [exact _|intros ? ? _]
  | match goal with |- keeps _ (match ?x with _ => _ end) => destruct x eqn:? end
  | match goal with |- keeps _ (let _ := _ in _) => cbv zeta end ].

Section TameOperations.
Context {W : Type} {CW : Clock W} (randbelow : stm W Z) (exn_text : exn -> string) (env : string -> option string)
  (calendar : option (Z -> bool)) (getenv : string -> option string).
Notation quiet m := (keeps (db_rel (W := W) tame) m).

Lemma heartbeat_tame v : quiet (heartbeat_healthy v).
Proof. unfold heartbeat_healthy. tame_walk. Qed.
#[local] Hint Resolve heartbeat_tame : operator.

Lemma readiness_tame : quiet (readiness env calendar).
Proof. unfold readiness. tame_walk. Qed.

Lemma cancellation_tame : quiet request_open_buy_cancellation.
Proof. unfold request_open_buy_cancellation. tame_walk. Qed.
#[local] Hint Resolve readiness_tame cancellation_tame : operator.

Lemma stop_tame : quiet stop_trading.
Proof. unfold stop_trading. tame_walk. Qed.
#[local] Hint Resolve stop_tame : operator.

Lemma emergency_tame : quiet emergency_stop_now.
Proof. unfold emergency_stop_now. tame_walk. Qed.

Lemma select_tame value : quiet (select_environment randbelow exn_text value).
Proof.
  unfold select_environment, real_challenge. tame_walk.
  apply demo_tame. by apply String.eqb_neq.
Qed.

Lemma preset_tame profile : quiet (apply_trade_frequency_preset profile).
Proof. unfold apply_trade_frequency_preset. tame_walk. Qed.
#[local] Hint Resolve emergency_tame select_tame preset_tame : operator.

Lemma settings_tame : quiet (frequency_settings getenv).
Proof. unfold frequency_settings. tame_walk. Qed.
#[local] Hint Resolve settings_tame : operator.

Lemma status_tame : quiet (status_view getenv).
Proof. unfold status_view. tame_walk. Qed.

Lemma set_frequency_tame profile : quiet (set_frequency profile).
Proof. unfold set_frequency. tame_walk. Qed.

Lemma watchlist_text_tame : quiet watchlist_text.
Proof. unfold watchlist_text. tame_walk. Qed.
#[local] Hint Resolve status_tame set_frequency_tame watchlist_text_tame : operator.

Lemma change_symbol_tame add changed symbol : quiet (change_symbol add changed symbol).
Proof.
  unfold change_symbol. tame_walk; (apply keeps_on_db; [exact _|intros now d b d' H]).
  - by eapply add_symbol_tame.
  - by eapply symbol_enabled_tame.
Qed.
#[local] Hint Resolve change_symbol_tame : operator.

Lemma watchlist_change_tame symbols add : quiet (watchlist_change symbols add).
Proof. unfold watchlist_change. tame_walk. Qed.

Lemma watchlist_remove_tame symbol : quiet (watchlist_remove_symbol symbol).
Proof. unfold watchlist_remove_symbol. tame_walk. apply keeps_on_db; [exact _|]. intros now d b d' H. by eapply symbol_enabled_tame. Qed.

Lemma prompt_tame : quiet watchlist_add_prompt_text.
Proof. unfold watchlist_add_prompt_text. tame_walk. Qed.
#[local] Hint Resolve watchlist_change_tame watchlist_remove_tame prompt_tame : operator.

Lemma with_watchlist_tame m : quiet m -> quiet (with_watchlist m).
Proof. intros Hm. unfold with_watchlist, watchlist_keyboard. tame_walk. Qed.

Lemma with_keyboard_tame kb m : quiet m -> quiet (with_keyboard kb m).
Proof. intros Hm. unfold with_keyboard. tame_walk. Qed.

Lemma said_tame m : quiet m -> quiet (said m).
Proof. intros Hm. unfold said. tame_walk. Qed.

Lemma resolve_request_tame i approve user : quiet (resolve i approve user).
Proof. unfold resolve. tame_walk. apply keeps_on_db; [exact _|]. intros now d b d' H. by eapply resolve_tame. Qed.

Lemma approvals_tame : quiet approvals.
Proof.
  unfold approvals. tame_walk. apply keeps_on_db; [exact _|]. intros now d n d' [= _ <-]. by apply other_tables_tame.
Qed.
#[local] Hint Resolve approvals_tame resolve_request_tame : operator.

Lemma menu_tame name : quiet (menu getenv name).
Proof. unfold menu, say. repeat (destruct (String.eqb _ _); [by apply with_keyboard_tame; tame_walk|]). apply with_keyboard_tame. tame_walk. Qed.
#[local] Hint Resolve menu_tame : operator.

(** Every operation but three is tame. *)
Lemma perform_tame op argument callback user :
  op <> OpResume -> op <> OpClearEmergency -> op <> OpConfirmReal ->
  quiet (perform randbelow exn_text env calendar getenv op argument callback user).
Proof.
  intros H1 H2 H3. unfold perform. destruct op; try done.
  all: repeat first [ apply with_keyboard_tame | apply with_watchlist_tame | apply said_tame | progress tame_walk
                    | progress unfold say, show_view, frequency_text ].
Qed.
End TameOperations.

(** *** The runs of the three others *)

#[export] Instance operation_eq_dec : EqDecision operation.
Proof. solve_decision. Defined.

Section Runs.
Context {W : Type} {CW : Clock W}.

Lemma bind_lift {A B} (x : res A) (f : A -> stm (sys W) B) s :
  mbind f (lift_res x) s = match x with Ok a => f a s | Err e => (Err e, s) end.
Proof. by destruct x. Qed.

Lemma bind_query {A B} (g : db -> A) (f : A -> stm (sys W) B) s : mbind f (query g) s = f (g (s_db s)) s.
Proof. done. Qed.

Lemma bind_open {B} (f : unit -> stm (sys W) B) s : exists w, mbind f open_schema s = f tt (mkSys (init_schema (s_db s)) w (s_trace s)).
Proof. eexists. by apply stm_bind_run, open_schema_run. Qed.

Lemma bind_now {B} (f : datetime -> stm (sys W) B) s :
  mbind f utcnow s = f (astimezone (wall_clock (s_world s)).1 UTC) (mkSys (s_db s) (wall_clock (s_world s)).2 (s_trace s)).
Proof. unfold utcnow, read_clock, mbind, stm_bind. by destruct (wall_clock (s_world s)). Qed.

Lemma bind_write {B} k v (f : unit -> stm (sys W) B) s : sempty (strip k) = false ->
  exists ts w, mbind f (write_metadata k v) s = f tt (mkSys (put_metadata k v ts (s_db s)) w (s_trace s)).
Proof.
  intros Hk. unfold write_metadata. unfold set_metadata_now, on_db, mbind, stm_bind. destruct (wall_clock (s_world s)) as [t w].
  unfold set_runtime_metadata, require_nonempty. rewrite Hk. cbn. by eexists _, _.
Qed.

Lemma write_run k v s : sempty (strip k) = false ->
  exists ts w, write_metadata k v s = (Ok tt, mkSys (put_metadata k v ts (s_db s)) w (s_trace s)).
Proof.
  intros Hk. unfold write_metadata. unfold set_metadata_now, on_db, mbind, stm_bind. destruct (wall_clock (s_world s)) as [t w].
  unfold set_runtime_metadata, require_nonempty. rewrite Hk. cbn. by eexists _, _.
Qed.

Lemma heartbeat_run k s : exists b w, heartbeat_healthy (get_metadata k (s_db s)) s = (Ok b, mkSys (s_db s) w (s_trace s)) /\
  (b = true -> w = (wall_clock (s_world s)).2 /\ beating (clock_at 0 (s_world s)) k (s_db s)).
Proof.
  unfold heartbeat_healthy, beating. destruct s as [d w tr]. cbn [s_db s_world s_trace].
  destruct (get_metadata k d) as [[|c v]|]; [by eexists _, _| |by eexists _, _].
  destruct (fromisoformat _) as [t|e] eqn:E; [|by eexists _, _]. cbv zeta. rewrite bind_now.
  eexists _, _. split; [reflexivity|]. cbn [s_world]. intros Hb. split; [done|]. bool_to_prop.
  exists (String c v), t. split_and!; try done.
Qed.

Lemma readiness_run env calendar s : exists t p w,
  readiness env calendar s = (Ok (readiness_blockers env calendar (init_schema (s_db s)) t p), mkSys (init_schema (s_db s)) w (s_trace s)) /\
  (t = true -> beating (clock_at 2 (s_world s)) "heartbeat:trading-service" (s_db s) /\
    (p = true -> beating (clock_at 3 (s_world s)) "heartbeat:order-supervisor" (s_db s))).
Proof.
  unfold readiness. rewrite bind_now. rewrite (stm_bind_run _ _ _ _ _ (open_schema_run _)). cbn [s_db s_trace s_world].
  set (s1 := mkSys (init_schema (s_db s)) _ _).
  rewrite bind_query. unfold id. change (init_schema (s_db s)) with (s_db s1).
  edestruct (heartbeat_run "heartbeat:trading-service" s1) as (t & w2 & E2 & B2). rewrite (stm_bind_run _ _ _ _ _ E2).
  edestruct (heartbeat_run "heartbeat:order-supervisor" (mkSys (s_db s1) w2 (s_trace s1))) as (p & w3 & E3 & B3). cbn [s_db s_trace] in *.
  rewrite (stm_bind_run _ _ _ _ _ E3). eexists _, _, _. split; [reflexivity|].
  intros Ht. specialize (B2 Ht) as [-> B2]. cbn [clock_at]. split; [exact B2|]. intros Hp. by apply B3.
Qed.

Lemma when_nil b x : when b x = [] -> b = false.
Proof. by destruct b. Qed.

(** No blocker: every check has passed. *)
Lemma blockers_nil env calendar d t p now now' :
  readiness_blockers env calendar d t p = [] -> emergency_stop_active d = false ->
  truth_text (or_empty (get_metadata CANCEL_OPEN_BUYS_KEY d)) = false ->
  (t = true -> beating now "heartbeat:trading-service" d /\ (p = true -> beating now' "heartbeat:order-supervisor" d)) ->
  resume_gate env calendar now now' d.
Proof.
  unfold readiness_blockers. cbv zeta. intros H He Hc Hb.
  repeat match goal with E : _ ++ _ = [] |- _ => apply app_eq_nil in E as [?%when_nil E] end. apply when_nil in H.
  bool_to_prop. destruct t, p; try done. destruct (Hb eq_refl) as [B1 B2].
  split; try done; [| | | |by apply B2|]; fold (environment d) in *.
  - repeat constructor; intros En; match goal with M : match missing_env _ _ with _ => _ end = false |- _ => cbn in M; rewrite ?En in M end;
      repeat case_match; congruence.
  - intros Hm Hn. rewrite Hm, Hn in *. done.
  - destruct (list_watchlist_symbols true d); [right|by left]. bool_to_prop. by destruct (mem_str _ _).
  - destruct (unresolved_order d); [|done]. bool_to_prop. done.
  - by destruct calendar.
Qed.
End Runs.

Section RunsOfResume.
Context {W : Type} {CW : Clock W}.

Lemma arm_uses_run e u (s : sys W) : exists w, arm_uses e u s =
  (Ok (match fromisoformat e with
       | Ok t => match dt_ltb (astimezone (wall_clock (s_world s)).1 UTC) t with
                 | Ok true => match parse_int u with Ok n => if 0 <? n then Some n else None | Err _ => None end
                 | _ => None
                 end
       | Err _ => None
       end), mkSys (s_db s) w (s_trace s)).
Proof. unfold arm_uses. rewrite bind_now. by eexists. Qed.

(** The outcome of [real_resume_allowed] *)
Lemma resume_allowed_run (s : sys W) : exists b d w,
  real_resume_allowed s = (Ok b, mkSys d w (s_trace s)) /\ allowed_outcome (s_db s) b d.
Proof.
  unfold real_resume_allowed. edestruct @bind_open as [w1 ->]. rewrite bind_query. cbn [s_db s_trace].
  rewrite control_init. destruct (String.eqb _ "real") eqn:E; cbn [negb]; bool_to_prop.
  2: { eexists _, _, _. split; [reflexivity|]. by constructor. }
  rewrite !bind_query. cbn [s_db]. rewrite !metadata_init.
  edestruct arm_uses_run as [w2 E2]. erewrite stm_bind_run; [|exact E2].
  set (uses := match fromisoformat _ with Ok _ => _ | Err _ => _ end). destruct uses as [n|] eqn:Eu; subst uses.
  2: { eexists _, _, _. split; [reflexivity|]. by constructor. }
  edestruct (@bind_write W) as (ts & w3 & ->); [done|]. eexists _, _, _. split; [reflexivity|]. cbn [s_db].
  destruct (fromisoformat _) as [t|] eqn:Et; [|done]. destruct (dt_ltb _ t) as [[]|] eqn:El; try done.
  destruct (parse_int _) as [m|] eqn:Ep; [|done]. destruct (0 <? m) eqn:Em; [|done]. injection Eu as ->. bool_to_prop.
  eapply (AllowedArmed _ _ n); [done|]. split_and!; [done| |by eauto]. unfold arm_left. rewrite Ep. lia.
Qed.

Lemma allowed_framed d b d' : allowed_outcome d b d' ->
  framed d d' /\ get_runtime_control d' = get_runtime_control d /\ (b = true -> arm_taken d d') /\ arm_left d' <= arm_left d /\
  (forall k, k <> REAL_RESUME_ARM_USES_KEY -> get_metadata k d' = get_metadata k d).
Proof.
  intros [He|now n ts He (Hn & Ha & _)|He].
  - split_and!; try done. by apply control_init.
  - split_and!.
    + etrans; [apply (tm_framed _ _ (init_tame d))|]. by apply put_framed.
    + apply control_init.
    + intros _ _. rewrite arm_put; lia.
    + rewrite arm_put; lia.
    + intros k Hk. by rewrite metadata_put_other.
  - split_and!; try done. by apply control_init.
Qed.

Lemma allowed_tame d b d' : allowed_outcome d b d' -> tame d d'.
Proof.
  intros (F & C & _ & A & _)%allowed_framed. unfold paused, environment. by split; unfold paused, environment; rewrite ?C; auto.
Qed.
End RunsOfResume.

Section Effects.
Context {W : Type} {CW : Clock W} (randbelow : stm W Z) (exn_text : exn -> string) (env : string -> option string)
  (calendar : option (Z -> bool)) (getenv : string -> option string).

(** What any operation respects *)
Record lawful (d d' : db) : Prop := mkLawful {
  lw_framed : framed d d';
  lw_environment : environment d' = environment d \/ environment d' = "demo";
  lw_arm : arm_left d' <= arm_left d;
}.

Lemma tame_lawful d d' : tame d d' -> lawful d d'.
Proof. by intros [? ? ? ?]. Qed.

Lemma set_paused_run b reason source (s : sys W) : exists r d w,
  set_paused b reason source s = (r, mkSys d w (s_trace s)) /\
  (d = init_schema (s_db s) \/
   framed (s_db s) d /\ paused d = b /\ environment d = environment (s_db s) /\ arm_left d = arm_left (s_db s) /\
   t_runtime_metadata d = t_runtime_metadata (s_db s)).
Proof.
  unfold set_paused. edestruct @bind_open as [w1 ->]. unfold on_db. destruct (wall_clock _) as [now w2]. cbn [s_db s_trace].
  destruct (set_runtime_paused _ _ _ _ _) as [[c d]|e] eqn:E; eexists _, _, _; (split; [reflexivity|]); [right|by left].
  apply set_paused_Ok in E as (F & P & En & A & M). rewrite environment_init in En.
  split_and!; [|done..]. by rewrite (tm_framed _ _ (init_tame (s_db s))).
Qed.

Lemma set_paused_succeeds b reason source (s : sys W) : sempty reason || sempty source = false -> exists c d w,
  set_paused b reason source s = (Ok c, mkSys d w (s_trace s)) /\
  framed (s_db s) d /\ paused d = b /\ t_runtime_metadata d = t_runtime_metadata (s_db s).
Proof.
  intros Hr. unfold set_paused. edestruct @bind_open as [w1 ->]. unfold on_db. destruct (wall_clock _) as [now w2].
  cbn [s_db s_trace]. destruct (set_runtime_paused _ _ _ _ _) as [[c d]|e] eqn:E; [|by unfold set_runtime_paused in E; rewrite Hr in E].
  eexists _, _, _. split; [reflexivity|]. apply set_paused_Ok in E as (F & P & En & A & M).
  split_and!; [|done..]. by rewrite (tm_framed _ _ (init_tame (s_db s))).
Qed.

Lemma set_environment_run e reason source (s : sys W) : exists r d w,
  set_environment e reason source s = (r, mkSys d w (s_trace s)) /\
  match r with
  | Ok _ => exists now c, set_runtime_environment e reason source now (init_schema (s_db s)) = Ok (c, d)
  | Err _ => d = init_schema (s_db s)
  end.
Proof.
  unfold set_environment. edestruct @bind_open as [w1 ->]. unfold on_db. destruct (wall_clock _) as [now w2]. cbn [s_db s_trace].
  destruct (set_runtime_environment _ _ _ _ _) as [[c d]|x] eqn:E;
    eexists _, _, _; (split; [reflexivity|]); [by exists now, c|done].
Qed.

Lemma blockers_init d t p : readiness_blockers env calendar (init_schema d) t p = readiness_blockers env calendar d t p.
Proof. unfold readiness_blockers. by rewrite control_init. Qed.

(** What a resumption has passed *)
Definition resumed (d d' : db) : Prop := lawful d d' /\ arm_taken d d'.

Lemma resume_spec reason s r s' : resume env calendar reason s = (r, s') ->
  s_trace s' = s_trace s /\
  (tame (s_db s) (s_db s') \/ resume_gate env calendar (clock_at 2 (s_world s)) (clock_at 3 (s_world s)) (s_db s) /\ resumed (s_db s) (s_db s')).
Proof.
  unfold resume. edestruct (readiness_run env calendar s) as (t & p & w1 & E1 & Hb). rewrite (stm_bind_run _ _ _ _ _ E1).
  edestruct @bind_open as [w2 ->]. rewrite bind_query. cbn [s_db s_trace]. rewrite init_idempotent.
  edestruct @bind_open as [w3 ->]. rewrite bind_query. cbn [s_db s_trace]. rewrite init_idempotent, blockers_init.
  destruct (emergency_stop_active _) eqn:Ee; [intros [= _ <-]; split; [done|left; apply init_tame]|].
  destruct (readiness_blockers env calendar (s_db s) t p) as [|x l] eqn:Eb; [|intros [= _ <-]; split; [done|left; apply init_tame]].
  edestruct @bind_open as [w4 ->]. rewrite bind_query. cbn [s_db s_trace]. rewrite init_idempotent.
  destruct (truth_text _) eqn:Ec; [intros [= _ <-]; split; [done|left; apply init_tame]|].
  destruct (resume_safety_reason _) eqn:Es; [intros [= _ <-]; split; [done|left; apply init_tame]|].
  edestruct resume_allowed_run as (b & d1 & w5 & E5 & O). rewrite (stm_bind_run _ _ _ _ _ E5). cbn [s_db s_trace] in *.
  pose proof (allowed_tame _ _ _ O) as T1. pose proof (allowed_framed _ _ _ O) as (F & C & A & L & _).
  assert (T : tame (s_db s) d1) by (etrans; [apply init_tame|done]).
  destruct b; cbn [negb]; [|intros [= _ <-]; split; [done|by left]].
  edestruct (set_paused_run false reason "telegram" (mkSys d1 w5 (s_trace s))) as (r2 & d2 & w6 & E6 & O2). cbn [s_db s_trace] in *.
  intros H. assert (s' = mkSys d2 w6 (s_trace s)) as -> by (unfold mbind, stm_bind in H; rewrite E6 in H; by destruct r2; injection H).
  split; [done|]. destruct O2 as [->|(F2 & P2 & En2 & A2 & _)]; [left; etrans; [exact T|apply init_tame]|right].
  cbn [s_db]. split; [by eapply blockers_nil|]. split.
  - pose proof (tame_lawful _ _ T) as [F0 E0 A0]. split; [by etrans|by rewrite En2|by rewrite A2].
  - intros He. rewrite <- environment_init in He. rewrite A2. by apply A.
Qed.

Lemma clear_spec s r s' : clear_emergency s = (r, s') ->
  s_trace s' = s_trace s /\
  (tame (s_db s) (s_db s') /\ environment (s_db s) = "real" \/
   emergency_stop_active (s_db s') = false /\ paused (s_db s') = false /\ resumed (s_db s) (s_db s') /\
   r = Ok "emergency stop cleared; automatic runtime control restored" /\
   get_metadata "operator_review" (s_db s') = get_metadata "operator_review" (s_db s)).
Proof.
  unfold clear_emergency. edestruct resume_allowed_run as (b & d1 & w1 & E1 & O). rewrite (stm_bind_run _ _ _ _ _ E1).
  pose proof (allowed_tame _ _ _ O) as T1. pose proof (allowed_framed _ _ _ O) as (F & C & A & L & K).
  destruct b; cbn [negb]; [|intros [= _ <-]; split; [done|left; split; [done|by inversion O]]].
  edestruct @bind_open as [w2 ->]. edestruct (@bind_write W) as (t1 & w3 & ->); [done|].
  edestruct (@bind_write W) as (t2 & w4 & ->); [done|]. cbn [s_db s_trace].
  unfold mbind, stm_bind, on_db. destruct (wall_clock _) as [now w5]. cbn [s_db s_trace].
  destruct (set_runtime_paused _ _ _ _ _) as [[c d]|e] eqn:E; [|by unfold set_runtime_paused in E].
  apply set_paused_Ok in E as (F2 & P & En & A2 & M). intros [= <- <-]. split; [done|right]. cbn [s_db].
  set (d2 := put_metadata "emergency_stop" _ _ _) in *.
  assert (T : tame (s_db s) d2).
  { rewrite T1, (init_tame d1). unfold d2. rewrite <- put_tame; [|discriminate|by left]. apply put_tame; [discriminate|by left]. }
  split_and!; [|done|split|done|].
  - assert (emergency_stop_active d = emergency_stop_active d2) as -> by (unfold emergency_stop_active, get_metadata; by rewrite M).
    unfold emergency_stop_active, d2. by rewrite metadata_put_other, metadata_put_get.
  - pose proof (tame_lawful _ _ T) as [F0 E0 A0]. split; [by etrans|by rewrite En|by rewrite A2].
  - intros He. rewrite A2. unfold d2. rewrite !arm_put_other; [|done..]. by apply A.
  - unfold get_metadata at 1. rewrite M. change (get_metadata "operator_review" d2 = get_metadata "operator_review" (s_db s)).
    unfold d2. do 2 (rewrite metadata_put_other; [|done]). by apply K.
Qed.

(** The moment at which a confirmation compares the expiry *)
Definition confirm_now (s : sys W) : datetime := astimezone (wall_clock (wall_clock (s_world s)).2).1 UTC.

Lemma expired_run e s : exists r w, challenge_expired e s = (r, mkSys (s_db s) w (s_trace s)) /\
  (r = Ok false -> e <> "" /\ exists t, fromisoformat e = Ok t /\ dt_ltb (astimezone (wall_clock (s_world s)).1 UTC) t = Ok true).
Proof.
  unfold challenge_expired. destruct s as [d w tr]. destruct (sempty e) eqn:Ee; [by eexists _, _|]. rewrite bind_now.
  destruct (fromisoformat e) as [t|x] eqn:Et.
  - destruct (dt_ltb _ t) as [b|x] eqn:El; [|by eexists _, _].
    eexists _, _. split; [reflexivity|]. cbn. intros [= Hb%negb_false_iff]. subst b. split; [by intros ->|]. by exists t.
  - destruct (is_ValueError x); by eexists _, _.
Qed.

Lemma compare_digest_true a b : compare_digest a b = Ok true -> a = b.
Proof. unfold compare_digest. intros H. apply bind_Ok in H as ([] & _ & H). injection H as H. by apply String.eqb_eq. Qed.

Lemma arm_run (s : sys W) : exists d w, arm_one_resume s = (Ok tt, mkSys d w (s_trace s)) /\
  framed (s_db s) d /\ get_runtime_control d = get_runtime_control (s_db s) /\ arm_left d = 1 /\
  get_metadata REAL_CHALLENGE_KEY d = Some "".
Proof.
  unfold arm_one_resume. edestruct (@bind_write W) as (t1 & w1 & ->); [done|]. edestruct (@bind_write W) as (t2 & w2 & ->); [done|].
  rewrite bind_now. edestruct (@bind_write W) as (t3 & w3 & ->); [done|].
  edestruct (write_run REAL_RESUME_ARM_USES_KEY "1") as (t4 & w4 & ->); [done|]. eexists _, _. split; [reflexivity|]. cbn [s_db].
  split_and!; [split|..].
  - done.
  - rewrite !metadata_put_other; done.
  - done.
  - change "1" with (str_int 1). by rewrite arm_put.
  - do 3 (rewrite metadata_put_other; [|done]). apply metadata_put_get.
Qed.

Lemma confirm_spec code s r s' : confirm_real exn_text code s = (r, s') ->
  s_trace s' = s_trace s /\
  (tame (s_db s) (s_db s') \/ framed (s_db s) (s_db s') /\ confirmed code (confirm_now s) (s_db s) (s_db s')).
Proof.
  unfold confirm_real, confirm_now. rewrite (stm_bind_run _ _ _ _ _ (open_schema_run s)). rewrite bind_query. cbn [s_db].
  pose proof (init_tame (s_db s)) as T0. change (rc_paused (get_runtime_control ?d)) with (paused d). rewrite paused_init.
  destruct (paused (s_db s)) eqn:Ep; cbn [negb]; [|intros [= _ <-]; split; [done|by left]].
  rewrite !bind_query. cbn [s_db]. rewrite !metadata_init.
  edestruct expired_run as (e & w2 & E2 & He). cbn [s_world s_db s_trace] in *.
  destruct e as [expired|x]; unfold mbind at 1, stm_bind at 1; rewrite E2; [|intros [= _ <-]; split; [done|by left]].
  set (same := if sempty code then _ else _).
  assert (exists q, forall t, same t = (q, t)) as [q Hq] by (unfold same; destruct (sempty code); by eexists).
  destruct q as [b|x]; [rewrite (stm_bind_run _ _ _ _ _ (Hq _))|unfold mbind at 1, stm_bind at 1; rewrite Hq].
  2: { intros [= _ <-]. split; [done|by left]. }
  destruct (negb b || expired) eqn:Eb; [intros [= _ <-]; split; [done|by left]|]. bool_to_prop. subst.
  unfold mbind at 1, stm_bind at 1. unfold on_value_error. match goal with |- context [set_environment _ _ _ ?st] =>
    destruct (set_environment_run "real" "telegram_operator" "telegram" st) as (r1 & d & w3 & E3 & O) end.
  rewrite E3. cbn [s_db s_trace] in *. rewrite init_idempotent in O. destruct r1 as [c|x].
  2: { destruct (is_ValueError x); intros [= _ <-]; (split; [done|left]); by subst d. }
  destruct O as (now & c' & Es).
  apply set_environment_Ok in Es as (F & _ & P & En & _ & M & I). rewrite environment_init in I.
  edestruct (arm_run (mkSys d w3 (s_trace s))) as (d2 & w4 & E4 & F4 & C4 & A4 & X4). rewrite (stm_bind_run _ _ _ _ _ E4).
  intros [= _ <-]. split; [done|right]. cbn [s_db] in *. split; [by rewrite (tm_framed _ _ T0), F|].
  destruct (He eq_refl) as [Hne (t & Ht & Hl)].
  assert (Hc : code <> "" /\ code = or_empty (get_metadata REAL_CHALLENGE_KEY (s_db s))).
  { specialize (Hq s). unfold same in Hq. destruct (sempty code) eqn:Ec; [done|]. split; [by intros ->|].
    apply compare_digest_true. by injection Hq. }
  split; unfold paused, environment in *; rewrite ?C4; try done.
  - destruct Hc as [Hn Hc]. split; [done|]. destruct (get_metadata REAL_CHALLENGE_KEY _); cbn in Hc; by subst.
  - destruct (get_metadata REAL_CHALLENGE_EXPIRES_KEY (s_db s)) as [x|]; [|done]. by exists x, t.
  - destruct I as [->|I]; auto.
Qed.
End Effects.

(** *** Updates *)

Section Updates.
Context {W : Type} {CW : Clock W} (randbelow : stm W Z) (exn_text : exn -> string) (env : string -> option string)
  (calendar : option (Z -> bool)) (getenv : string -> option string) (client : tg_client W).
Notation perform := (perform randbelow exn_text env calendar getenv).
Notation handle_update := (handle_update randbelow exn_text env calendar getenv client).
Notation poll_telegram := (poll_telegram randbelow exn_text env calendar getenv client).

Lemma deliver_keeps chat mid r kb : keeps (db_rel eq) (deliver client chat mid r kb).
Proof.
  assert (Hs : keeps (db_rel eq) (_ ← on_world (tc_send client chat r kb); mret true)).
  { apply keeps_bind; [exact _|apply keeps_on_world, _|intros; apply keeps_ret, _]. }
  assert (Hu : forall A (m : stm W A), keeps (db_rel eq) (unless_RuntimeError (on_world m))).
  { intros A m. unfold unless_RuntimeError. apply keeps_bind; [exact _|apply keeps_attempt, keeps_on_world, _|].
    intros [a|e]; [apply keeps_ret, _|]. destruct (is_RuntimeError e); [apply keeps_ret, _|apply keeps_raise, _]. }
  unfold deliver. destruct mid as [mid|], (tc_edit client) as [edit|]; try done.
  apply keeps_bind; [exact _|apply Hu|]. intros []; [apply keeps_ret, _|].
  apply keeps_bind; [exact _| |done]. destruct (tc_delete client) as [del|]; [|apply keeps_ret, _].
  apply keeps_bind; [exact _|apply Hu|intros; apply keeps_ret, _].
Qed.

Lemma answered_same update s : s_db (answered client update s) = s_db s /\ s_trace (answered client update s) = s_trace s.
Proof.
  unfold answered. destruct (read_callback update) as [[b|]|]; try done.
  unfold on_world. by destruct (tc_answer client (cb_id b) (s_world s)).
Qed.

(** An update either changes nothing but the world, or performs the operation
    that it asks for on behalf of an authorized sender. *)
Lemma handle_update_spec update ac au s r s' : handle_update update ac au s = (r, s') ->
  s_db s' = s_db s /\ s_trace s' = s_trace s \/
  exists op argument data chat user r1 s1,
    requested update op argument data chat user /\ authorized ac au chat user = true /\
    perform op argument data user (answered client update s) = (r1, s1) /\ s_db s' = s_db s1 /\ s_trace s' = s_trace s1.
Proof.
  unfold handle_update. rewrite bind_lift. destruct (read_command update) as [c|e] eqn:Ec; [|intros [= _ <-]; by left].
  rewrite bind_lift. destruct (read_callback update) as [b|e] eqn:Eb; [|intros [= _ <-]; by left].
  destruct (sender c b) as [chat user] eqn:Es. cbn beta iota.
  destruct (authorized ac au chat user) eqn:Ea; cbn [negb]; [|intros [= _ <-]; by left].
  match goal with |- mbind _ ?m s = _ -> _ => set (answer := m) end.
  assert (Ea' : (answer s).2 = answered client update s) by (unfold answer, answered; rewrite Eb; by destruct b).
  destruct (answered_same update s) as [Hd Ht]. rewrite <- Ea' in Hd, Ht |- *. clear Ea'.
  destruct (answer s) as [[[]|e] s1] eqn:E1; [rewrite (stm_bind_run _ _ _ _ _ E1)|rewrite (stm_bind_err _ _ _ _ _ E1)].
  2: { intros [= _ <-]. by left. }
  cbn [snd] in *. cbv zeta.
  destruct (operation_of _) as [op|] eqn:Eo; [|intros [= _ <-]; by left]. intros H. right.
  exists op, (c ← c; cm_argument c), (cb_data <$> b), chat, user.
  destruct (perform op (c ← c; cm_argument c) (cb_data <$> b) user s1) as [r1 s2] eqn:Ep.
  exists r1, s2. split; [by exists c, b|]. split; [done|]. split; [done|].
  destruct r1 as [rep|e]; [rewrite (stm_bind_run _ _ _ _ _ Ep) in H|rewrite (stm_bind_err _ _ _ _ _ Ep) in H; by injection H as _ <-].
  apply (f_equal snd) in H. cbn [snd] in H. subst s'. edestruct deliver_keeps as [K1 K2]. split; [symmetry; exact K1|exact K2].
Qed.

(** The effects of the operations *)
Inductive effect (op : operation) (argument : option string) (s : sys W) (d' : db) : Prop :=
  | Tame : tame (s_db s) d' -> effect op argument s d'
  | Resumes : op = OpResume -> resume_gate env calendar (clock_at 2 (s_world s)) (clock_at 3 (s_world s)) (s_db s) ->
      resumed (s_db s) d' -> effect op argument s d'
  | Clears : op = OpClearEmergency -> emergency_stop_active d' = false -> resumed (s_db s) d' -> effect op argument s d'
  | Confirms : op = OpConfirmReal -> framed (s_db s) d' -> confirmed (or_empty argument) (confirm_now s) (s_db s) d' ->
      effect op argument s d'.

Lemma said_run (m : stm (sys W) string) s r s' : said m s = (r, s') -> exists r1, m s = (r1, s').
Proof.
  unfold said. destruct (m s) as [[a|e] s1] eqn:E; [rewrite (stm_bind_run _ _ _ _ _ E)|rewrite (stm_bind_err _ _ _ _ _ E)];
    intros [= _ <-]; by eexists.
Qed.

Lemma perform_effect op argument data user s r s' : perform op argument data user s = (r, s') ->
  s_trace s' = s_trace s /\ effect op argument s (s_db s').
Proof.
  destruct (decide (op <> OpResume /\ op <> OpClearEmergency /\ op <> OpConfirmReal)) as [(H1 & H2 & H3)|Hop]; intros H.
  { destruct (perform_tame randbelow exn_text env calendar getenv op argument data user H1 H2 H3 s) as [T E].
    rewrite H in T, E. split; [done|by apply Tame]. }
  destruct op; try (exfalso; apply Hop; by split_and!); cbn [Telegram.perform] in H.
  - destruct (resume env calendar (or_else argument "telegram_operator") s) as [[a|e] s1] eqn:E; [rewrite (stm_bind_run _ _ _ _ _ E) in H|rewrite (stm_bind_err _ _ _ _ _ E) in H].
    all: injection H as _ <-; apply resume_spec in E as [Et [E|[G R]]]; (split; [done|]); [by apply Tame|by apply Resumes].
  - apply said_run in H as [r1 H]. apply confirm_spec in H as [Et [E|[F C]]]; (split; [done|]); [by apply Tame|by apply Confirms].
  - apply said_run in H as [r1 H]. apply clear_spec in H as [Et [[E _]|(E & P & R & _)]]; (split; [done|]); [by apply Tame|by apply Clears].
Qed.

Lemma resumed_framed d d' : resumed d d' -> framed d d'.
Proof. by intros [[F _ _] _]. Qed.

Lemma effect_framed op argument s d' : effect op argument s d' -> framed (s_db s) d'.
Proof. by intros [[F _ _ _]|_ _ R%resumed_framed|_ _ R%resumed_framed|_ F _]. Qed.
End Updates.

Lemma requested_operation update op a c chat user : requested update op a c chat user -> update_operation update = Some op.
Proof. intros (x & y & E1 & E2 & _ & Ho & _). unfold update_operation. by rewrite E1, E2. Qed.

(** ** What the operator's updates can do *)

Section Properties.
Context {W : Type} {CW : Clock W} (randbelow : stm W Z) (exn_text : exn -> string) (env : string -> option string)
  (calendar : option (Z -> bool)) (getenv : string -> option string) (client : tg_client W).
Notation perform := (perform randbelow exn_text env calendar getenv).
Notation handle_update := (handle_update randbelow exn_text env calendar getenv client).
Notation poll_telegram := (poll_telegram randbelow exn_text env calendar getenv client).

(** Fact: an update of a chat or a user that is not the configured one is
    answered with nothing and changes nothing, the outside world included. *)
Theorem unauthorized_update_ignored update ac au s command callback :
  read_command update = Ok command -> read_callback update = Ok callback ->
  authorized ac au (fst (sender command callback)) (snd (sender command callback)) = false ->
  handle_update update ac au s = (Ok false, s).
Proof.
  intros E1 E2 Ha. unfold Telegram.handle_update. rewrite !bind_lift, E1, bind_lift, E2.
  destruct (sender command callback) as [chat user]. cbn [fst snd] in Ha. by rewrite Ha.
Qed.

Lemma updates_frame update ac au s :
  framed (s_db s) (s_db (handle_update update ac au s).2) /\ s_trace (handle_update update ac au s).2 = s_trace s.
Proof.
  destruct (handle_update update ac au s) as [r s'] eqn:E. cbn. pose proof (answered_same client update s) as [Ed Ew].
  apply handle_update_spec in E as [[-> ->]|(op & a & c & ch & u & r1 & s1 & _ & _ & P & -> & ->)]; [by split|].
  apply perform_effect in P as [Et P%effect_framed]. rewrite Ed in P. by rewrite Et.
Qed.

Lemma offset_framed d d' : framed d d' -> get_telegram_update_offset d' = get_telegram_update_offset d.
Proof. intros [_ E]. unfold get_telegram_update_offset, get_runtime_metadata. by rewrite E. Qed.

(** Fact: no update touches the order ledger, calls the broker or moves the
    offset of the polling loop. *)
Theorem updates_leave_ledger update ac au s :
  same_ledger (s_db s) (s_db (handle_update update ac au s).2) /\
  get_telegram_update_offset (s_db (handle_update update ac au s).2) = get_telegram_update_offset (s_db s) /\
  s_trace (handle_update update ac au s).2 = s_trace s.
Proof.
  pose proof (updates_frame update ac au s) as [F T]. split_and!; [apply F|by apply offset_framed|done].
Qed.

(** C7: of the Telegram updates only an authorized [/resume] or
    [/clear-emergency] resumes the program.  The former resumes behind the whole
    readiness gate: live trading is enabled, the credentials of the environment
    and of the model are there, there is something to trade, the trading calendar
    is there, the operator asks for no review, no entries are blocked, there is
    no emergency stop, no cancellation pending and no unsettled order, and both
    the trading service and the supervisor wrote their heartbeat in the three
    minutes before the moment at which this update reads the clock for it.  The
    latter resumes by lifting the emergency stop.  In the real environment either
    takes one use of the arm. *)
Theorem update_resumes_soundly update ac au s r s' :
  handle_update update ac au s = (r, s') -> paused (s_db s) = true -> paused (s_db s') = false ->
  exists op argument data chat user,
    requested update op argument data chat user /\ authorized ac au chat user = true /\ arm_taken (s_db s) (s_db s') /\
    (op = OpResume /\
       resume_gate env calendar (clock_at 2 (s_world (answered client update s))) (clock_at 3 (s_world (answered client update s))) (s_db s) \/
     op = OpClearEmergency /\ emergency_stop_active (s_db s') = false).
Proof.
  intros H Hp Hn. pose proof (answered_same client update s) as [Ed _].
  apply handle_update_spec in H as [[E _]|(op & a & c & ch & u & r1 & s1 & Hr & Ha & P & E & _)]; [congruence|].
  apply perform_effect in P as [_ P]. rewrite <- E in P. exists op, a, c, ch, u. split; [done|]. split; [done|].
  destruct P as [[_ T _ _]|Ho G [_ A]|Ho G [_ A]|_ _ [_ _ _ _ T _ _ _]]; rewrite ?Ed in *;
    [rewrite T in Hn; done|auto..|congruence].
Qed.

(** C8: the environment becomes the real one only by an authorized
    [/confirm-real] with the code of the pending challenge, before that expires,
    while the program is paused and no position or order is open; the program
    stays paused, the challenge is spent and exactly one resume is armed. *)
Theorem real_environment_needs_confirmation update ac au s r s' :
  handle_update update ac au s = (r, s') -> environment (s_db s) <> "real" -> environment (s_db s') = "real" ->
  exists code data chat user,
    requested update OpConfirmReal (Some code) data chat user /\ authorized ac au chat user = true /\
    confirmed code (confirm_now (answered client update s)) (s_db s) (s_db s').
Proof.
  intros H Hn He. pose proof (answered_same client update s) as [Ed _].
  apply handle_update_spec in H as [[E _]|(op & a & c & ch & u & r1 & s1 & Hr & Ha & P & E & _)]; [congruence|].
  apply perform_effect in P as [_ P]. rewrite <- E in P.
  destruct P as [[_ _ [T|T] _]|_ _ [[_ [T|T] _] _]|_ _ [[_ [T|T] _] _]| -> _ C]; rewrite ?Ed in *; try congruence.
  pose proof (cf_code _ _ _ _ C) as [Hc _]. destruct a as [code|]; [|done]. by exists code, c, ch, u.
Qed.

(** The resumes of a sequence of updates in the real environment *)
Fixpoint real_resumes (updates : list json) (ac : string) (au : option string) (s : sys W) : Z :=
  match updates with
  | [] => 0
  | u :: rest =>
      let s' := (handle_update u ac au s).2 in
      (if paused (s_db s) && negb (paused (s_db s')) && String.eqb (environment (s_db s)) "real" then 1 else 0)
      + real_resumes rest ac au s'
  end.

Lemma update_arm update ac au s : update_operation update <> Some OpConfirmReal ->
  let s' := (handle_update update ac au s).2 in
  arm_left (s_db s') <= arm_left (s_db s) /\
  (paused (s_db s) = true -> paused (s_db s') = false -> arm_taken (s_db s) (s_db s')).
Proof.
  intros Hu. destruct (handle_update update ac au s) as [r s'] eqn:H. cbn.
  pose proof (answered_same client update s) as [Ed _].
  apply handle_update_spec in H as [[-> _]|(op & a & c & ch & u & r1 & s1 & Hr & Ha & P & -> & _)]; [by split; [|congruence]|].
  apply requested_operation in Hr. apply perform_effect in P as [_ P]. rewrite <- Ed.
  destruct P as [[_ T _ A]|_ _ [[_ _ A] R]|_ _ [[_ _ A] R]| -> _ _]; [|by split..|done].
  split; [done|]. intros Hp. rewrite T; done.
Qed.

(** C24: one confirmation allows one resume.  Without a further
    [/confirm-real], any sequence of updates resumes the program in the real
    environment at most as often as the arm has uses left. *)
Theorem one_resume_per_confirmation updates ac au s :
  Forall (fun u => update_operation u <> Some OpConfirmReal) updates ->
  real_resumes updates ac au s <= arm_left (s_db s).
Proof.
  intros Hu. revert s. induction Hu as [|u us Hu _ IH]; intros s; cbn [real_resumes]; [apply arm_nonneg|].
  specialize (IH (handle_update u ac au s).2). pose proof (update_arm u ac au s Hu) as [Ha Ht]. cbv zeta.
  destruct (_ && _ && _) eqn:E; [|lia]. bool_to_prop. destruct (Ht ltac:(done) ltac:(done)) as [_ Ht']; [done|]. lia.
Qed.

(** *** Polling *)

Notation poll_step := (poll_step randbelow exn_text env calendar getenv client).

Lemma poll_step_spec ac au m ku s r s' : poll_step ac au m ku s = (r, s') ->
  framed (s_db s) (s_db s') /\ s_trace s' = s_trace s /\
  (forall m', r = Ok m' -> m' = if has_update_id (snd ku) then Some (Z.max (or_else m (-1)) (fst ku)) else m).
Proof.
  unfold Telegram.poll_step. pose proof (updates_frame (snd ku) ac au s) as [F T].
  destruct (handle_update (snd ku) ac au s) as [[b|e] s1] eqn:E; [rewrite (stm_bind_run _ _ _ _ _ E)|rewrite (stm_bind_err _ _ _ _ _ E)];
    intros [= <- <-]; (split_and!; [done|done|]); [by intros m' [= <-]|done].
Qed.

Lemma poll_fold_spec ac au l : forall m s r s',
  foldM (poll_step ac au) m l s = (r, s') ->
  framed (s_db s) (s_db s') /\ s_trace s' = s_trace s /\
  (forall m', r = Ok m' ->
     (forall n, m = Some n -> exists n', m' = Some n' /\ n <= n') /\
     (forall k u, (k, u) ∈ l -> has_update_id u = true -> exists n', m' = Some n' /\ k <= n')).
Proof.
  induction l as [|ku l IH]; intros m s r s'; cbn [foldM].
  { intros [= <- <-]. split_and!; [done|done|]. intros m' [= <-]. split; [intros n ->; by exists n|]. by intros k u ?%elem_of_nil. }
  destruct (poll_step ac au m ku s) as [[m1|e] s1] eqn:E1;
    [rewrite (stm_bind_run _ _ _ _ _ E1)|rewrite (stm_bind_err _ _ _ _ _ E1)];
    pose proof (poll_step_spec _ _ _ _ _ _ _ E1) as (F1 & T1 & M1).
  2: { intros [= <- <-]. by split_and!. }
  intros (F2 & T2 & M2)%IH. split_and!; [by etrans|congruence|]. intros m' Hr. specialize (M1 _ eq_refl). destruct (M2 _ Hr) as [A B].
  split.
  - intros n ->. destruct (has_update_id _); subst m1.
    + destruct (A _ eq_refl) as (n' & -> & Hn). cbn in Hn. exists n'. split; [done|lia].
    + by apply A.
  - intros k u [Hin|Hin]%elem_of_cons Hu; [|by eapply B]. subst ku. cbn in M1. rewrite Hu in M1. subst m1.
    destruct (A _ eq_refl) as (n' & -> & Hn). exists n'. split; [done|]. destruct m; cbn in Hn; lia.
Qed.


Lemma set_offset_Ok n t clock d ts d' : set_telegram_update_offset n t clock d = Ok (ts, d') ->
  get_telegram_update_offset d' = Ok (Some n) /\ same_ledger d d'.
Proof.
  unfold set_telegram_update_offset. intros H. apply bind_Ok in H as ([] & Hn%raise_if_Ok & H). bool_to_prop.
  unfold set_runtime_metadata in H. apply bind_Ok in H as ([] & _ & H). injection H as _ <-. split; [|done].
  unfold get_telegram_update_offset, get_runtime_metadata.
  change (require_nonempty TELEGRAM_UPDATE_OFFSET_KEY "key") with (Ok ()). cbn [mbind res_bind].
  rewrite metadata_put_get. cbn [mbind res_bind]. by rewrite parse_int_str.
Qed.

(** C25: the polling loop loses no update.  When a poll ends normally, its
    offset has not gone back and lies beyond every update that was delivered;
    when it raises, the offset is where it was, and Telegram delivers the same
    updates again. *)
Theorem poll_acknowledges_handled_updates ac au limit timeout s r s' o :
  poll_telegram ac au limit timeout s = (r, s') -> get_telegram_update_offset (s_db s) = Ok o ->
  s_trace s' = s_trace s /\
  match r with
  | Err _ => get_telegram_update_offset (s_db s') = Ok o
  | Ok _ => exists o', get_telegram_update_offset (s_db s') = Ok o' /\ acknowledges client limit timeout o o'
  end.
Proof.
  unfold Telegram.poll_telegram. rewrite bind_lift. intros H Ho. destruct (raise_if _ _) as [[]|e]; [|by injection H as <- <-].
  rewrite bind_lift in H. destruct (raise_if _ _) as [[]|e]; [|by injection H as <- <-]. cbv zeta in H.
  rewrite (stm_bind_run _ _ _ _ _ (open_schema_run s)), bind_query in H. cbn [s_db] in H.
  rewrite (offset_framed _ _ (tm_framed _ _ (init_tame (s_db s)))), Ho, bind_lift in H.
  set (d0 := init_schema (s_db s)) in *. assert (F0 : framed (s_db s) d0) by apply init_tame. cbn [s_world s_trace] in H.
  unfold mbind at 1, stm_bind at 1, on_world at 1 in H. cbn [s_world s_db s_trace] in H.
  destruct (tc_updates client o limit timeout _) as [[us|e] w1] eqn:Eu; [|injection H as <- <-; split; [done|]; cbn [s_db]; by rewrite (offset_framed _ _ F0)].
  rewrite bind_lift in H. destruct (update_keys _) as [keyed|e] eqn:Ek; [|injection H as <- <-; split; [done|]; cbn [s_db]; by rewrite (offset_framed _ _ F0)].
  match type of H with mbind _ ?fold ?st = _ => destruct (fold st) as [[m|e] s2] eqn:Ef end;
    [rewrite (stm_bind_run _ _ _ _ _ Ef) in H|rewrite (stm_bind_err _ _ _ _ _ Ef) in H];
    apply poll_fold_spec in Ef as (F1 & T1 & M); cbn [s_db s_trace] in F1, T1;
    assert (F2 : framed (s_db s) (s_db s2)) by (by etrans).
  2: { injection H as <- <-. split; [done|]. by rewrite (offset_framed _ _ F2). }
  destruct (M _ eq_refl) as [M1 M2].
  assert (Hk : forall k u, (k, u) ∈ keyed -> has_update_id u = true -> exists n', m = Some n' /\ k <= n').
  { intros k u Hin. apply M2. by rewrite elem_of_sort_by. }
  destruct m as [m|].
  - rewrite (stm_bind_run _ _ _ _ _ (open_schema_run s2)) in H. cbn [s_db s_trace s_world] in H.
    unfold mbind, stm_bind, on_db in H. cbn [s_db s_trace s_world] in H.
    destruct (wall_clock (wall_clock (s_world s2)).2) as [now w3].
    destruct (set_telegram_update_offset (m + 1) None now (init_schema (s_db s2))) as [[ts d3]|e] eqn:E3; injection H as <- <-; (split; [done|]).
    + apply set_offset_Ok in E3 as [E3 _]. exists (Some (m + 1)). split; [done|]. split; [|eexists _, us, w1, keyed; split_and!; [exact Eu|done|]].
      * intros n ->. destruct (M1 (n - 1) eq_refl) as (? & [= <-] & ?). exists (m + 1). split; [done|lia].
      * intros k u Hin Hu. destruct (Hk k u Hin Hu) as (? & [= <-] & ?). exists (m + 1). split; [done|lia].
    + cbn [s_db]. rewrite (offset_framed (s_db s) (init_schema (s_db s2))); [done|].
      etrans; [exact F2|apply init_tame].
  - injection H as <- <-. split; [done|]. exists o. rewrite (offset_framed _ _ F2). split; [done|].
    split; [|eexists _, us, w1, keyed; split_and!; [exact Eu|done|]].
    + intros n ->. by destruct (M1 (n - 1) eq_refl) as (? & ? & _).
    + intros k u Hin Hu. by destruct (Hk k u Hin Hu) as (? & ? & _).
Qed.

(** ** Stopping, and what lifts a stop *)

Lemma stop_run s : exists d w,
  stop_trading s = (Ok (open_buy_pending (s_db s)), mkSys d w (s_trace s)) /\
  paused d = true /\ emergency_stop_active d = true /\ framed (s_db s) d /\
  get_metadata CANCEL_OPEN_BUYS_KEY d = Some (if open_buy_pending (s_db s) then "true" else "false").
Proof.
  unfold stop_trading. rewrite (stm_bind_run _ _ _ _ _ (open_schema_run s)). edestruct (@bind_write W) as (t1 & w1 & ->); [done|].
  cbn [s_db s_trace]. set (d1 := put_metadata _ _ _ _).
  edestruct (set_paused_succeeds true "telegram_emergency_stop" "telegram") as (c & d2 & w2 & E2 & F2 & P2 & M2); [done|].
  rewrite (stm_bind_run _ _ _ _ _ E2). cbn [s_db s_trace] in *. unfold request_open_buy_cancellation.
  rewrite (stm_bind_run _ _ _ _ _ (open_schema_run _)), bind_query. cbn [s_db s_trace].
  assert (Hb : open_buy_pending (init_schema d2) = open_buy_pending (s_db s)).
  { unfold open_buy_pending, orders_of. change (t_broker_orders (init_schema d2)) with (t_broker_orders d2).
    by rewrite (sl_orders _ _ (fr_ledger _ _ F2)). }
  rewrite Hb. edestruct (@bind_write W) as (t3 & w3 & ->); [done|]. eexists _, _. split; [reflexivity|]. cbn [s_db].
  assert (F1 : framed (s_db s) d1) by (etrans; [apply (tm_framed _ _ (init_tame (s_db s)))|by apply put_framed]).
  split_and!.
  - change (paused (init_schema d2) = true). by rewrite paused_init.
  - unfold emergency_stop_active. rewrite metadata_put_other by done. unfold get_metadata. cbn. rewrite M2.
    change (emergency_stop_active d1 = true). unfold emergency_stop_active, d1. by rewrite metadata_put_get.
  - etrans; [exact F1|]. etrans; [exact F2|]. etrans; [apply (tm_framed _ _ (init_tame d2))|by apply put_framed].
  - apply metadata_put_get.
Qed.

(** Fact: [/pause] and [/emergency-stop] always go through: the program is
    paused, the emergency stop is set, and the supervisor is asked to cancel
    exactly when a BUY order is open.  [/emergency-stop] also disarms a confirmed
    resume. *)
Theorem stop_takes_effect op argument data user s :
  op = OpPause \/ op = OpEmergencyStop ->
  exists d w,
    perform op argument data user s = (Ok (Say (stop_text (open_buy_pending (s_db s))), None), mkSys d w (s_trace s)) /\
    paused d = true /\ emergency_stop_active d = true /\ same_ledger (s_db s) d /\
    get_metadata CANCEL_OPEN_BUYS_KEY d = Some (if open_buy_pending (s_db s) then "true" else "false") /\
    (op = OpEmergencyStop -> arm_left d = 0).
Proof.
  destruct (stop_run s) as (d & w & E & P & Em & F & C). intros [-> | ->]; cbn [Telegram.perform]; unfold said.
  - eexists _, _. split; [erewrite stm_bind_run; [|erewrite stm_bind_run; [reflexivity|exact E]]; reflexivity|]. split_and!; [done|done|apply F|done|done].
  - assert (exists d' w', emergency_stop_now s = (Ok (stop_text (open_buy_pending (s_db s))), mkSys d' w' (s_trace s)) /\
              get_runtime_control d' = get_runtime_control d /\ same_ledger d d' /\ arm_left d' = 0 /\
              (forall k, k <> REAL_RESUME_ARM_EXPIRES_KEY -> k <> REAL_RESUME_ARM_USES_KEY -> get_metadata k d' = get_metadata k d))
      as (d' & w' & E' & C' & L' & A' & M').
    { unfold emergency_stop_now. rewrite (stm_bind_run _ _ _ _ _ E), (stm_bind_run _ _ _ _ _ (open_schema_run _)).
      edestruct (@bind_write W) as (t3 & w3 & ->); [done|]. rewrite (stm_bind_run _ _ _ _ _ (open_schema_run _)).
      edestruct (@bind_write W) as (t4 & w4 & ->); [done|]. cbn [s_db s_trace]. eexists _, _. split; [reflexivity|]. split_and!.
      - change (get_runtime_control (init_schema (init_schema d)) = get_runtime_control d). by rewrite !control_init.
      - done.
      - change "0" with (str_int 0). by rewrite arm_put.
      - intros k H1 H2. rewrite metadata_put_other by done. rewrite metadata_init. by rewrite metadata_put_other. }
    exists d', w'. split; [by erewrite stm_bind_run; [|exact E']|].
    split_and!; [|unfold emergency_stop_active; by rewrite M'|etrans; [apply F|done]|by rewrite M'|done].
    unfold paused. by rewrite C'.
Qed.

(** Fact: outside the real environment [/clear-emergency] resumes the program
    whatever the readiness says: it looks at no blocker, no review, no pending
    cancellation and no unsettled order. *)
Theorem clear_emergency_ignores_readiness argument data user s :
  environment (s_db s) <> "real" ->
  exists d w,
    perform OpClearEmergency argument data user s =
      (Ok (Say "emergency stop cleared; automatic runtime control restored", None), mkSys d w (s_trace s)) /\
    paused d = false /\ emergency_stop_active d = false /\
    get_metadata "operator_review" d = get_metadata "operator_review" (s_db s) /\
    unresolved_order d = unresolved_order (s_db s).
Proof.
  intros He. cbn [Telegram.perform]. unfold said. destruct (clear_emergency s) as [r [d w t]] eqn:E.
  pose proof (clear_spec _ _ _ E) as [T [[_ Hr]|(Em & P & [[F _ _] _] & -> & Ho)]]; [done|]. cbn in T, Em, P, F, Ho. subst t.
  exists d, w. rewrite (stm_bind_run _ _ _ _ _ E). split_and!; try done.
  unfold unresolved_order, orders_of. by rewrite (sl_orders _ _ (fr_ledger _ _ F)).
Qed.

(** ** An update that blocks the loop *)

(** Fact: the text "/approval-callback", typed as a message by the operator,
    makes every poll raise, and the loop is offered it again for ever. *)
Theorem typed_approval_callback_blocks_polling ac au limit timeout update o s :
  1 <= limit <= 100 -> 0 <= timeout <= 60 ->
  get_telegram_update_offset (s_db s) = Ok o ->
  (forall w, exists w', tc_updates client o limit timeout w = (Ok [update], w')) ->
  is_ok (update_keys [update]) = true ->
  (exists command, read_command update = Ok (Some command) /\ cm_name command = "/approval-callback" /\
     authorized ac (match au with Some u => Some u | None => env "TELEGRAM_ALLOWED_USER_ID" end) (cm_chat command) (cm_user command) = true) ->
  read_callback update = Ok None ->
  exists s', poll_telegram ac au limit timeout s = (Err (OtherError "UnboundLocalError"), s') /\
    get_telegram_update_offset (s_db s') = Ok o.
Proof.
  intros Hl Ht Ho Hu Hk (c & Hc & Hn & Ha) Hb.
  set (au' := match au with Some u => Some u | None => _ end) in *.
  assert (Hh : forall st, handle_update update ac au' st = (Err (OtherError "UnboundLocalError"), st)).
  { intros st. unfold Telegram.handle_update. rewrite bind_lift, Hc, bind_lift, Hb. cbn [sender]. rewrite Ha. cbn [negb update_name].
    rewrite Hn. reflexivity. }
  destruct (update_keys [update]) as [keyed|] eqn:Ek; [|done].
  assert (exists k, keyed = [(k, update)]) as [k ->].
  { cbn [update_keys] in Ek. apply bind_Ok in Ek as (k & _ & Ek). cbn in Ek. injection Ek as <-. by exists k. }
  unfold Telegram.poll_telegram. rewrite bind_lift. assert (negb ((1 <=? limit) && (limit <=? 100)) = false) as -> by lia.
  cbn [raise_if]. rewrite bind_lift. assert (negb ((0 <=? timeout) && (timeout <=? 60)) = false) as -> by lia. cbn [raise_if]. cbv zeta.
  rewrite (stm_bind_run _ _ _ _ _ (open_schema_run s)), bind_query. cbn [s_db].
  pose proof (tm_framed _ _ (init_tame (s_db s))) as F0.
  rewrite (offset_framed _ _ F0), Ho, bind_lift. cbn [s_world s_trace].
  unfold mbind at 1, stm_bind at 1, on_world at 1. cbn [s_world s_db s_trace]. destruct (Hu (wall_clock (s_world s)).2) as [w' ->].
  rewrite bind_lift. rewrite take_ge by (cbn [length]; lia).
  rewrite Ek. erewrite stm_bind_err; [|cbn [sort_by insert_by foldM]; apply stm_bind_err; unfold Telegram.poll_step; apply stm_bind_err, Hh].
  eexists. split; [reflexivity|]. cbn [s_db]. by rewrite (offset_framed _ _ F0).
Qed.
End Properties.

(** ** Buttons *)

Definition buttons (kb : keyboard) : list string := map snd (concat kb).
Definition static_keyboards : list keyboard :=
  [MAIN_MENU_KEYBOARD; STATUS_MENU_KEYBOARD; TRADING_MENU_KEYBOARD; CONTROL_MENU_KEYBOARD; ENVIRONMENT_MENU_KEYBOARD;
   AI_MENU_KEYBOARD; frequency_keyboard].

(** The data of a button is accepted, and names an operation. *)
Definition handled (data : string) : bool :=
  existsb (fun p => startswith p data) CALLBACK_PREFIXES &&
  match operation_of (callback_command_name data) with Some _ => true | None => false end.

Lemma split_no_colon s : sforall is_digit s = true -> split_on ":" s = [s].
Proof.
  induction s as [|c s IH]; [done|]. cbn [sforall split_on]. intros [Hc Hs]%andb_true_iff.
  rewrite bool_decide_false by (intros ->; discriminate Hc). by rewrite IH.
Qed.

Lemma removal_handled s : six_digits_code s = true ->
  operation_of (callback_command_name ("watchlist:remove:" +:+ s)) = Some (OpWatchlistRemove s).
Proof.
  unfold six_digits_code, isdigit. intros [[_ Hd]%andb_true_iff _]%andb_true_iff. destruct s as [|c s]; [done|].
  change (operation_of (callback_command_name ("watchlist:remove:" +:+ String c s)))
    with (Some (OpWatchlistRemove (List.last ("/watchlist" :: "remove" :: split_on ":" (String c s)) ""))).
  by rewrite split_no_colon.
Qed.

(** Fact: every button that the bot shows is answered, and asks for what it
    says: the removal of a symbol names that symbol, and the two buttons of an
    approval carry its identifier whatever characters that contains. *)
Theorem every_button_handled symbols rows :
  Forall (fun s => six_digits_code s = true) symbols ->
  Forall (fun data => handled data = true)
    (concat (map buttons (static_keyboards ++ [watchlist_keyboard_of symbols; approval_markup rows]))) /\
  Forall (fun s => operation_of (callback_command_name ("watchlist:remove:" +:+ s)) = Some (OpWatchlistRemove s)) symbols /\
  Forall (fun a => split_approval ("approval:approve:" +:+ ar_request_id a) = Ok ("approve", ar_request_id a) /\
                   split_approval ("approval:reject:" +:+ ar_request_id a) = Ok ("reject", ar_request_id a)) rows.
Proof.
  intros Hs. split_and!.
  - assert (Hst : Forall (fun data => handled data = true) (concat (map buttons static_keyboards))).
    { by repeat (constructor; [vm_compute; reflexivity|]). }
    rewrite map_app, concat_app, Forall_app. split; [exact Hst|]. cbn [map concat]. rewrite app_nil_r, Forall_app. split.
    + unfold buttons, watchlist_keyboard_of. rewrite concat_app, map_app. cbn [concat app map snd]. constructor; [done|].
      rewrite concat_app, map_app, Forall_app. split; [|by repeat (constructor; [vm_compute; reflexivity|])].
      induction Hs as [|x l Hx _ IH]; [constructor|]. cbn [map concat app snd]. constructor; [|exact IH].
      unfold handled. rewrite (removal_handled _ Hx). by destruct x.
    + unfold buttons, approval_markup. rewrite concat_app, map_app, Forall_app.
      split; [|by repeat (constructor; [vm_compute; reflexivity|])].
      generalize (take 10 rows). intros l. induction l as [|a l IH]; [constructor|]. cbn [map concat app snd].
      destruct a as [[|c i] ? ?]; by repeat constructor.
  - induction Hs as [|x l Hx _ IH]; constructor; [by apply removal_handled|done].
  - apply Forall_true. intros a. by destruct (ar_request_id a).
Qed.

(** ** Witnesses *)

Section Witnesses.
#[local] Instance w_bot_clock : Clock unit := fun u => (Datetime 1700000000000000 (Some 0), u).

Definition w_message (text : string) (chat : Z) : json :=
  JObj [("update_id", JInt 7); ("message", JObj [("text", JStr text); ("chat", JObj [("id", JInt chat)]); ("from", JObj [("id", JInt 2)])])].
Definition w_client (updates : list json) : tg_client unit :=
  mkTgClient _ (fun _ => mret tt) None None (fun _ _ _ => mret tt) (fun _ _ _ => mret updates).
Definition w_state (d : db) : sys unit := mkSys d tt [].
Definition w_update (d : db) (text : string) : res bool * sys unit :=
  handle_update (mret 7) exn_name (fun _ => None) None (fun _ => None) (w_client []) (w_message text 1) "1" (Some "2") (w_state d).
Definition w_poll (text : string) : res Z * sys unit :=
  poll_telegram (mret 7) exn_name (fun _ => None) None (fun _ => None) (w_client [w_message text 1]) "1" (Some "2") 10 0 (w_state empty_db).

(** A pending challenge, and a confirmed one *)
Definition w_challenged : db :=
  put_metadata REAL_CHALLENGE_KEY "000007" "t" (put_metadata REAL_CHALLENGE_EXPIRES_KEY "2023-11-15T00:00:00+00:00" "t" (init_schema empty_db)).
Definition w_confirmed : db := Eval vm_compute in s_db (w_update w_challenged "/confirm-real 000007").2.

Lemma unauthorized_update_ignored_witness :
  handle_update (mret 7) exn_name (fun _ => None) None (fun _ => None) (w_client []) (w_message "/pause" 9) "1" (Some "2") (w_state empty_db) =
  (Ok false, w_state empty_db).
Proof.
  apply (unauthorized_update_ignored (mret 7) exn_name (fun _ => None) None (fun _ => None) (w_client []) (w_message "/pause" 9) "1" (Some "2")
           (w_state empty_db) (Some (mkCommand "/pause" (Some "telegram_operator") (JInt 9) (JInt 2))) None); vm_compute; reflexivity.
Defined.

(** A paused program with both heartbeats a minute old, in a configuration that is ready *)
Definition w_ready : db :=
  put_metadata "heartbeat:trading-service" "2023-11-14T22:12:20+00:00" "t"
    (put_metadata "heartbeat:order-supervisor" "2023-11-14T22:12:30+00:00" "t" (init_schema empty_db)).
Definition w_env (name : string) : option string := Some (if String.eqb name "LIVE_TRADING_ENABLED" then "true" else "on").
Definition w_resume : res bool * sys unit :=
  handle_update (mret 7) exn_name w_env (Some (fun _ => true)) (fun _ => None) (w_client []) (w_message "/resume" 1) "1" (Some "2") (w_state w_ready).

Lemma update_resumes_soundly_witness :
  (paused (s_db (w_update empty_db "/clear-emergency").2) = false /\
   exists op argument data chat user, requested (w_message "/clear-emergency" 1) op argument data chat user) /\
  (paused w_ready = true /\ paused (s_db w_resume.2) = false /\
   beating (clock_at 3 tt) "heartbeat:order-supervisor" w_ready).
Proof.
  split; [split; [vm_compute; reflexivity|]|split; [vm_compute; reflexivity|split; [vm_compute; reflexivity|]]].
  - edestruct (update_resumes_soundly (mret 7) exn_name (fun _ => None) None (fun _ => None) (w_client []) (w_message "/clear-emergency" 1)
               "1" (Some "2") (w_state empty_db)) as (op & a & c & ch & u & H & _); [apply surjective_pairing| | |].
    + vm_compute. reflexivity.
    + vm_compute. reflexivity.
    + by exists op, a, c, ch, u.
  - edestruct (update_resumes_soundly (mret 7) exn_name w_env (Some (fun _ => true)) (fun _ => None) (w_client []) (w_message "/resume" 1)
               "1" (Some "2") (w_state w_ready)) as (op & a & c & ch & u & R & _ & _ & [[_ G]|[E _]]); [apply surjective_pairing| | | |].
    + vm_compute. reflexivity.
    + vm_compute. reflexivity.
    + exact (rg_supervisor _ _ _ _ _ G).
    + exfalso. apply requested_operation in R. subst op. vm_compute in R. discriminate R.
Defined.

Lemma real_environment_needs_confirmation_witness :
  environment (s_db (w_update w_challenged "/confirm-real 000007").2) = "real" /\
  arm_left (s_db (w_update w_challenged "/confirm-real 000007").2) = 1.
Proof.
  split; [vm_compute; reflexivity|].
  edestruct (real_environment_needs_confirmation (mret 7) exn_name (fun _ => None) None (fun _ => None) (w_client [])
               (w_message "/confirm-real 000007" 1) "1" (Some "2") (w_state w_challenged)) as (code & c & ch & u & _ & _ & H);
    [apply surjective_pairing| | |].
  - vm_compute. discriminate.
  - vm_compute. reflexivity.
  - exact (cf_armed _ _ _ _ H).
Defined.

Lemma one_resume_per_confirmation_witness :
  real_resumes (mret 7) exn_name (fun _ => None) None (fun _ => None) (w_client [])
    [w_message "/clear-emergency" 1; w_message "/pause" 1; w_message "/clear-emergency" 1] "1" (Some "2") (w_state w_confirmed) = 1 /\
  real_resumes (mret 7) exn_name (fun _ => None) None (fun _ => None) (w_client [])
    [w_message "/clear-emergency" 1; w_message "/pause" 1; w_message "/clear-emergency" 1] "1" (Some "2") (w_state w_confirmed)
  <= arm_left (s_db (w_state w_confirmed)).
Proof.
  split; [vm_compute; reflexivity|].
  apply (one_resume_per_confirmation (mret 7) exn_name (fun _ => None) None (fun _ => None) (w_client []) _ "1" (Some "2") (w_state w_confirmed)).
  repeat (constructor; [vm_compute; discriminate|]). constructor.
Defined.

Lemma poll_acknowledges_handled_updates_witness :
  get_telegram_update_offset (s_db (w_poll "/pause").2) = Ok (Some 8) /\ s_trace (w_poll "/pause").2 = [].
Proof.
  split; [vm_compute; reflexivity|].
  edestruct (poll_acknowledges_handled_updates (mret 7) exn_name (fun _ => None) None (fun _ => None) (w_client [w_message "/pause" 1])
               "1" (Some "2") 10 0 (w_state empty_db)) as [H _]; [apply surjective_pairing| |exact H].
  vm_compute. reflexivity.
Defined.

Lemma stop_takes_effect_witness :
  exists d w,
    perform (mret 7) exn_name (fun _ => None) None (fun _ => None) OpPause None None JNull (w_state w_confirmed) =
      (Ok (Say (stop_text false), None), mkSys d w []) /\ paused d = true /\ emergency_stop_active d = true.
Proof.
  edestruct (stop_takes_effect (mret 7) exn_name (fun _ => None) None (fun _ => None) OpPause None None JNull (w_state w_confirmed))
    as (d & w & H & P & E & _); [by left|]. exists d, w. split; [exact H|by split].
Defined.

Lemma clear_emergency_ignores_readiness_witness :
  exists d w,
    perform (mret 7) exn_name (fun _ => None) None (fun _ => None) OpClearEmergency None None JNull
      (w_state (put_metadata "operator_review" "true" "t" w_challenged)) =
      (Ok (Say "emergency stop cleared; automatic runtime control restored", None), mkSys d w []) /\
    paused d = false /\ resume_safety_reason d = Some "operator review is active".
Proof.
  edestruct (clear_emergency_ignores_readiness (mret 7) exn_name (fun _ => None) None (fun _ => None) None None JNull
               (w_state (put_metadata "operator_review" "true" "t" w_challenged))) as (d & w & H & P & E & R & _).
  - vm_compute. discriminate.
  - exists d, w. split; [exact H|]. split; [exact P|]. unfold resume_safety_reason. rewrite R. vm_compute. reflexivity.
Defined.

Lemma typed_approval_callback_blocks_polling_witness : exists s', w_poll "/approval-callback" = (Err (OtherError "UnboundLocalError"), s').
Proof.
  edestruct (typed_approval_callback_blocks_polling (mret 7) exn_name (fun _ => None) None (fun _ => None)
               (w_client [w_message "/approval-callback" 1]) "1" (Some "2") 10 0 (w_message "/approval-callback" 1) None (w_state empty_db))
    as (s' & H & _).
  - lia.
  - lia.
  - vm_compute. reflexivity.
  - intros w. exists w. reflexivity.
  - vm_compute. reflexivity.
  - eexists. split; [vm_compute; reflexivity|]. split; vm_compute; reflexivity.
  - vm_compute. reflexivity.
  - by exists s'.
Defined.

Lemma every_button_handled_witness :
  Forall (fun s => operation_of (callback_command_name ("watchlist:remove:" +:+ s)) = Some (OpWatchlistRemove s)) ["005930"].
Proof. apply (every_button_handled ["005930"] []). repeat constructor. Defined.
End Witnesses.
