(* ===== verification/LiveExecution.v ===== *)
(** * A live BUY for an approved shadow report ([pipeline/live_execution.py])

    The bridge from a shadow report to one broker order, behind the runtime
    pause, the confirmation and the checks of the report; every outcome is
    audited when a database is given, and a signal whose submission was audited
    is not submitted again. *)

From S2P Require Import Prelude PyStr PyFloat PyTime Risk DbCore DbRuntime DbPaper DbFrames.
From S2P Require Import KisHttp KisOrder KisOrderStatus KisAccount System Reconciliation GuardedSubmitter Shadow.

Record LiveOrderExecutionResult := mkLiveResult {
  lx_shadow : ShadowCycleReport;
  lx_submitted : bool;
  lx_blocked : bool;
  lx_reason : string;
  lx_quantity : Z;
  lx_broker_order_id : option string;
}.

(** [x or y] for texts *)
Definition text_or_else (x : option string) (y : string) : string :=
  match x with Some s => if sempty s then y else s | None => y end.

Section Live.
Context {W : Type} {CW : Clock W} {SW : Submitter W}.
(** [uuid4().hex] *)
Variable uuid_hex : stm W string.
(** Whether a database is given. *)
Variable audited : bool.

(** [_audit_id] *)
Definition audit_id (signal_id : option string) (suffix : string) : stm (sys W) string :=
  u ← on_world uuid_hex;
  mret ("broker-audit:" +:+ text_or_else signal_id "no-signal" +:+ ":" +:+ suffix +:+ ":" +:+ u).

Definition record_audit (r : ShadowCycleReport) (suffix : string) (quantity : Z) (price : float) (status reason : string)
    (broker_order_id : option string) (current_time : option datetime) : stm (sys W) unit :=
  if audited then
    id ← audit_id (sh_signal_id r) suffix;
    _ ← on_db (record_broker_order_audit (mkOrderAudit id (sh_signal_id r) (sh_symbol r) "BUY" quantity price status reason
                 broker_order_id "") current_time);
    mret tt
  else mret tt.

(** [_blocked] *)
Definition live_blocked (r : ShadowCycleReport) (reason : string) (current_time : option datetime)
    : stm (sys W) LiveOrderExecutionResult :=
  let quantity := Z.max 1 (if sh_risk_quantity r =? 0 then 1 else sh_risk_quantity r) in
  let price := match sh_entry_price r with Some p => if (fzero <? p)%F then p else f_one | None => f_one end in
  _ ← record_audit r ("blocked-" +:+ reason) quantity price "BLOCKED" reason None current_time;
  mret (mkLiveResult r false true reason 0 None).

(** Why nothing is submitted, in the order of the checks. *)
Definition live_problem (r : ShadowCycleReport) (paused confirm_submit : bool) (d : db) : option string :=
  if paused then Some "runtime_paused"
  else if negb confirm_submit then Some "confirmation_required"
  else if sh_trading_blocked r then Some (text_or_else (Some (sh_risk_reason r)) "market_health_blocked")
  else if negb (sh_risk_approved r) then Some (text_or_else (Some (sh_risk_reason r)) "risk_rejected")
  else match sh_signal_id r with
  | None | Some "" => Some "missing_signal_id"
  | Some signal =>
      match sh_entry_price r with
      | None => Some "missing_entry_price"
      | Some p =>
          if (p <=? fzero)%F then Some "missing_entry_price"
          else if sh_risk_quantity r <=? 0 then Some "risk_quantity_zero"
          else if audited && broker_signal_submitted signal d then Some "duplicate_signal"
          else None
      end
  end.

Definition submit_shadow_live_buy (r : ShadowCycleReport) (paused confirm_submit : bool) (max_quantity : Z)
    (current_time : option datetime) : stm (sys W) LiveOrderExecutionResult :=
  _ ← lift_res (raise_if (max_quantity <=? 0) (ValueError "max_quantity must be positive"));
  problem ← query (live_problem r paused confirm_submit);
  match (problem : option string), sh_entry_price r with
  | None, Some price =>
      let quantity := Z.min (sh_risk_quantity r) max_quantity in
      request ← lift_res (order_request (sh_symbol r) "buy" quantity price "limit" "KRX" "" "");
      broker ← submit_order_by request;
      _ ← record_audit r "submitted" quantity price "SUBMITTED" "approved" (or_broker_order_id broker) current_time;
      mret (mkLiveResult r true false "approved" quantity (or_broker_order_id broker))
  | Some reason, _ => live_blocked r reason current_time
  | None, None => live_blocked r "missing_entry_price" current_time
  end.
End Live.

(** ** Lemmas *)

(** What must hold of a report that is submitted. *)
Record live_approved (audited paused confirm_submit : bool) (r : ShadowCycleReport) (d : db) : Prop := mkLiveApproved {
  la_running : paused = false;
  la_confirmed : confirm_submit = true;
  la_healthy : sh_trading_blocked r = false;
  la_risk : sh_risk_approved r = true;
  la_quantity : 0 < sh_risk_quantity r;
  la_price : exists p, sh_entry_price r = Some p /\ fleb p fzero = false;
  la_signal : exists s, sh_signal_id r = Some s /\ s <> "" /\ (audited = true -> broker_signal_submitted s d = false);
}.

Lemma live_problem_None audited r paused confirm d : live_problem audited r paused confirm d = None ->
  live_approved audited paused confirm r d.
Proof.
  unfold live_problem. destruct paused; [done|]. destruct confirm; [|done]. cbn [negb].
  destruct (sh_trading_blocked r) eqn:E1; [done|]. destruct (sh_risk_approved r) eqn:E2; [|done]. cbn [negb].
  destruct (sh_signal_id r) as [[|ch s]|] eqn:E3; [done| |done]. destruct (sh_entry_price r) as [p|] eqn:E4; [|done].
  destruct (p <=? fzero)%F eqn:E5; [done|]. destruct (sh_risk_quantity r <=? 0) eqn:E6; [done|].
  destruct (audited && _) eqn:E7; [done|]. intros _. split; try done; [lia|by exists p|]. exists (String ch s). split_and!; try done.
  intros ->. done.
Qed.

Lemma audit_recorded a at_ clock d b d' : record_broker_order_audit a at_ clock d = Ok (b, d') ->
  t_order_audits d !! oa_audit_id a = None -> is_nan (oa_price a) = false ->
  exists x, t_order_audits d' = <[oa_audit_id a := x]> (t_order_audits d) /\ oa_signal_id x = oa_signal_id a /\ oa_status x = oa_status a.
Proof.
  unfold record_broker_order_audit. intros H Hn Hp. do 2 (apply bind_Ok in H as ([] & _ & H)). cbv zeta in H. rewrite Hn, Hp in H.
  injection H as _ <-. by eexists.
Qed.

Lemma signal_submitted_true s d : broker_signal_submitted s d = true <->
  exists k a, t_order_audits d !! k = Some a /\ oa_signal_id a = Some s /\ oa_status a = "SUBMITTED".
Proof.
  unfold broker_signal_submitted. rewrite existsb_map_to_list. cbn. split; intros (k & a & Ha & H); exists k, a.
  - apply andb_true_iff in H as [H1 H2]. destruct (oa_signal_id a) as [x|]; [|done]. apply String.eqb_eq in H1, H2. by subst.
  - destruct H as [-> ->]. by rewrite String.eqb_refl.
Qed.

Section Facts.
Context {W : Type} {CW : Clock W} {SW : Submitter W} {allowed : KisOrderRequest -> db -> Prop} {SL : SubmitterLaw W allowed}.
Variable uuid_hex : stm W string.
Variable audited : bool.

Lemma record_audit_quiet r suffix q p st reason bid t : keeps (db_rel (W := W) same_ledger) (record_audit uuid_hex audited r suffix q p st reason bid t).
Proof.
  unfold record_audit, audit_id. destruct audited; [|apply keeps_ret, _]. apply keeps_bind; [exact _| |intros id].
  - apply keeps_bind; [exact _|apply keeps_on_world, _|intros u; apply keeps_ret, _].
  - apply keeps_bind; [exact _| |intros b; apply keeps_ret, _]. apply keeps_on_db; [exact _|]. intros. by eapply audit_same_ledger.
Qed.

Lemma live_blocked_quiet r reason t : keeps (db_rel (W := W) same_ledger) (live_blocked uuid_hex audited r reason t).
Proof. unfold live_blocked. apply keeps_bind; [exact _|apply record_audit_quiet|intros ?; apply keeps_ret, _]. Qed.

(** A run: blocked without a call, rejected before one, or one call. *)
Lemma live_run r paused confirm n t (s : sys W) :
  let '(x, s') := submit_shadow_live_buy uuid_hex audited r paused confirm n t s in
  (s_trace s' = s_trace s /\ forall res, x = Ok res -> lx_submitted res = false) \/
  (exists request price d s1 answer, 0 < n /\ live_approved audited paused confirm r (s_db s) /\ sh_entry_price r = Some price /\
     order_request (sh_symbol r) "buy" (Z.min (sh_risk_quantity r) n) price "limit" "KRX" "" "" = Ok request /\
     submit_order_by request s = (answer, s1) /\ allowed request d /\ s_trace s' = s_trace s ++ [(SubmitCall request, d)] /\
     match answer with
     | Err e => x = Err e /\ s' = s1
     | Ok broker => (x, s') = (_ ← record_audit uuid_hex audited r "submitted" (Z.min (sh_risk_quantity r) n) price "SUBMITTED" "approved"
                                     (or_broker_order_id broker) t;
                               mret (mkLiveResult r true false "approved" (Z.min (sh_risk_quantity r) n) (or_broker_order_id broker))) s1
     end) \/
  (exists request s1 e, submit_order_by request s = (Err e, s1) /\ x = Err e /\ s' = s1 /\ s_trace s' = s_trace s).
Proof.
  unfold submit_shadow_live_buy. unfold mbind at 1, stm_bind at 1, lift_res at 1. destruct (Z.leb_spec n 0) as [|Hn]; cbn [raise_if]; [by left|].
  unfold mbind at 1, stm_bind at 1, query, gets.
  assert (Hb : forall reason, let '(x, s') := live_blocked uuid_hex audited r reason t s in
    s_trace s' = s_trace s /\ forall res, x = Ok res -> lx_submitted res = false).
  { intros reason. pose proof (live_blocked_quiet r reason t s) as [_ H].
    destruct (live_blocked _ _ _ _ _ s) as [x s'] eqn:E. split; [done|]. intros res ->. unfold live_blocked in E.
    apply stm_bind_Ok in E as (u & s2 & _ & E). by injection E as <- _. }
  destruct (live_problem audited r paused confirm (s_db s)) as [reason|] eqn:Ep.
  - specialize (Hb reason). destruct (live_blocked _ _ _ _ _ s). by left.
  - apply live_problem_None in Ep. destruct (sh_entry_price r) as [price|] eqn:Epr; [|destruct (la_price _ _ _ _ _ Ep) as (? & ? & _); congruence].
    unfold mbind at 1, stm_bind at 1, lift_res at 1. destruct (order_request _ _ _ _ _ _ _ _) as [request|e] eqn:Er; [|by left].
    unfold mbind at 1, stm_bind at 1. pose proof (submitter_law request s) as Hl. destruct (submit_order_by request s) as [answer s1] eqn:Es.
    destruct Hl as [_ Ht]. destruct answer as [broker|e].
    + destruct Ht as [[_ Ht]|(d & _ & Ha & Ht)]; [done|].
      match goal with |- let '(_, _) := ?m in _ => destruct m as [x s'] eqn:E end. right; left. exists request, price, d, s1, (Ok broker). split_and!; try done.
      rewrite <- Ht. symmetry. change s' with (x, s').2. rewrite <- E.
      pose proof (record_audit_quiet r "submitted" (Z.min (sh_risk_quantity r) n) price "SUBMITTED" "approved"
        (or_broker_order_id broker) t s1) as [_ Hq]. unfold mbind, stm_bind. by destruct (record_audit _ _ _ _ _ _ _ _ _ _ s1) as [[[]|e] s2].
    + destruct Ht as [[Ht _]|(d & _ & Ha & Ht)].
      * right; right. by exists request, s1, e.
      * right; left. by exists request, price, d, s1, (Err e).
Qed.
End Facts.

(** ** Properties *)

(** Fact: at most one order is sent, and only for a report that is approved in full
    while trading runs and the operator confirmed: healthy market data, an
    approving risk decision, a signal and a price; it is a BUY of the report's
    symbol at its price, of at least one share and no more than the risk decision
    and the limit of the call allow; and the submitter allowed it. *)
Theorem live_buy_only_when_approved {W} {CW : Clock W} {SW : Submitter W} {allowed} {SL : SubmitterLaw W allowed}
    uuid_hex audited r paused confirm n t (s : sys W) :
  let s' := (submit_shadow_live_buy uuid_hex audited r paused confirm n t s).2 in
  s_trace s' = s_trace s \/
  exists request d, s_trace s' = s_trace s ++ [(SubmitCall request, d)] /\ live_approved audited paused confirm r (s_db s) /\
    allowed request d /\ rq_symbol request = sh_symbol r /\ rq_side request = BUY /\ sh_entry_price r = Some (rq_price request) /\
    0 < rq_quantity request <= n /\ rq_quantity request <= sh_risk_quantity r.
Proof.
  cbv zeta. pose proof (live_run uuid_hex audited r paused confirm n t s) as H.
  destruct (submit_shadow_live_buy _ _ _ _ _ _ _ s) as [x s'].
  destruct H as [[H _]|[(q & p & d & s1 & a & Hn & Hl & Hp & Hq & _ & Ha & Ht & _)|(q & s1 & e & _ & _ & _ & H)]]; [by left| |by left].
  right. exists q, d. split; [done|]. split; [done|]. split; [done|]. unfold order_request in Hq. apply bind_Ok in Hq as (sd & Hsd & Hq).
  apply bind_Ok in Hq as (ty & _ & Hq). apply bind_Ok in Hq as ([] & _ & Hq). apply bind_Ok in Hq as ([] & Hz & Hq). apply raise_if_Ok in Hz.
  do 3 (apply bind_Ok in Hq as ([] & _ & Hq)). injection Hsd as <-. injection Hq as <-. cbn. split_and!; try done; lia.
Qed.

(** C26: with a database, a signal whose submission succeeded is never submitted
    again: any later run for a report with that signal, while the audits are
    kept, calls the broker no more.  The identifier [uuid4] draws is not one of
    the table, and the price is a number. *)
Theorem live_signal_submitted_once {W} {CW : Clock W} {SW : Submitter W} {allowed} {SL : SubmitterLaw W allowed}
    uuid_hex r r2 paused paused2 confirm confirm2 n n2 t t2 (s s' s2 : sys W) res signal price :
  submit_shadow_live_buy uuid_hex true r paused confirm n t s = (Ok res, s') -> lx_submitted res = true ->
  sh_signal_id r = Some signal -> sh_entry_price r = Some price -> is_nan price = false ->
  (forall w u, (uuid_hex w).1 = Ok u -> t_order_audits (s_db s) !! ("broker-audit:" +:+ signal +:+ ":submitted:" +:+ u) = None) ->
  t_order_audits (s_db s') ⊆ t_order_audits (s_db s2) -> sh_signal_id r2 = Some signal ->
  s_trace (submit_shadow_live_buy uuid_hex true r2 paused2 confirm2 n2 t2 s2).2 = s_trace s2.
Proof.
  intros H Hres Hsig Hpr Hnan Hfresh Hsub Hsig2.
  assert (Hdone : broker_signal_submitted signal (s_db s') = true).
  { pose proof (live_run uuid_hex true r paused confirm n t s) as Hr. rewrite H in Hr.
    destruct Hr as [[_ Hr]|[(q & p & d & s1 & a & _ & Hl & Hp & _ & Es & _ & _ & Hx)|(q & s1 & e & _ & Hx & _)]]; [by specialize (Hr _ eq_refl); congruence| |done].
    destruct a as [broker|e]; [|by destruct Hx]. assert (p = price) as -> by congruence.
    pose proof (submitter_law q s) as Hlaw. rewrite Es in Hlaw. destruct Hlaw as [Hready _].
    assert (Hau : t_order_audits (s_db s1) = t_order_audits (s_db s)) by (by destruct Hready as [-> | ->]).
    symmetry in Hx. apply stm_bind_Ok in Hx as ([] & s3 & Hx & Hret). injection Hret as _ <-.
    unfold record_audit, audit_id in Hx. apply stm_bind_Ok in Hx as (id & s4 & Hid & Hx). apply stm_bind_Ok in Hid as (u & s5 & Hu & Hid).
    injection Hid as <- <-. apply stm_bind_Ok in Hx as (b & s6 & Hb & Hx). injection Hx as <-.
    unfold on_world in Hu. destruct (uuid_hex (s_world s1)) as [ru w] eqn:Ew. injection Hu as -> <-.
    apply on_db_Ok in Hb as [Hb _]. cbn [s_db s_world] in Hb. rewrite Hsig in Hb.
    destruct (la_signal _ _ _ _ _ Hl) as (sg & Hsg & Hne & _). assert (sg = signal) as -> by congruence.
    assert (Ht : text_or_else (Some signal) "no-signal" = signal) by (by destruct signal).
    rewrite Ht in Hb. apply audit_recorded in Hb as (x & Hx & Hxs & Hxt); [|cbn|done].
    - apply signal_submitted_true. eexists _, x. split; [by rewrite Hx, lookup_insert_eq|]. cbn in Hxs, Hxt. done.
    - rewrite Hau. apply (Hfresh (s_world s1)). by rewrite Ew. }
  pose proof (live_run uuid_hex true r2 paused2 confirm2 n2 t2 s2) as Hr.
  destruct (submit_shadow_live_buy _ _ r2 _ _ _ _ s2) as [x2 s2'].
  destruct Hr as [[Hr _]|[(q & p & d & s1 & a & _ & Hl & _)|(q & s1 & e & _ & _ & _ & Hr)]]; [done| |done]. exfalso.
  destruct (la_signal _ _ _ _ _ Hl) as (sg & Hsg & _ & Hno). assert (sg = signal) as -> by congruence.
  apply signal_submitted_true in Hdone as (k & a0 & Ha & H1 & H2). specialize (Hno eq_refl).
  assert (broker_signal_submitted signal (s_db s2) = true); [|congruence]. apply signal_submitted_true. exists k, a0.
  split; [by eapply lookup_weaken|done].
Qed.

(** Fact: a submission that raises is not remembered: the exception is passed on and
    nothing is written, so running the same report again sends the same order
    again, although the first may have reached the market. *)
Theorem failed_submission_is_resent {W} {BW : Broker W} uuid_hex r n t (s : sys W) price request e :
  0 < n -> live_problem true r false true (s_db s) = None -> sh_entry_price r = Some price ->
  order_request (sh_symbol r) "buy" (Z.min (sh_risk_quantity r) n) price "limit" "KRX" "" "" = Ok request ->
  (forall w, (submit_at_broker request w).1 = Err e) ->
  let '(x, s1) := submit_shadow_live_buy uuid_hex true r false true n t s in
  let '(y, s2) := submit_shadow_live_buy uuid_hex true r false true n t s1 in
  x = Err e /\ y = Err e /\ s_db s2 = s_db s /\ s_trace s2 = s_trace s ++ [(SubmitCall request, s_db s); (SubmitCall request, s_db s)].
Proof.
  intros Hn Hp Hpr Hq He.
  assert (H : forall s0 : sys W, s_db s0 = s_db s -> exists w, submit_shadow_live_buy uuid_hex true r false true n t s0 =
    (Err e, mkSys (s_db s) w (s_trace s0 ++ [(SubmitCall request, s_db s)]))).
  { intros s0 Hs. unfold submit_shadow_live_buy, mbind, stm_bind, lift_res, query, gets. destruct (Z.leb_spec n 0) as [|_]; [lia|].
    cbn [raise_if]. rewrite Hs, Hp, Hpr, Hq. unfold submit_order_by, client_submitter, call_submit, broker_write. specialize (He (s_world s0)).
    destruct (submit_at_broker request (s_world s0)) as [a w]. cbn in He. subst a. exists w. by rewrite Hs. }
  destruct (H s eq_refl) as [w1 ->]. cbn [s_db]. destruct (H (mkSys (s_db s) w1 (s_trace s ++ [(SubmitCall request, s_db s)])) eq_refl) as [w2 ->].
  cbn. by rewrite <- app_assoc.
Qed.

(** ** Witnesses *)

Definition w_db : db := init_schema empty_db.
(** A broker that acknowledges, and one whose answer never comes. *)
Definition w_broker_of (answer : KisOrderRequest -> res KisOrderResult) : Broker unit := {|
  broker_clock u := (w_clock, u);
  today_orders := mret [];
  account_snapshot := raise (OtherError "unused");
  cancel_at_broker q := raise (OtherError "unused");
  submit_at_broker r := lift_res (answer r);
|}.
#[local] Instance w_ack : Broker unit := w_broker_of (fun r => Ok (mkOrderResult (rq_symbol r) (rq_side r) (rq_quantity r) (rq_price r)
  (rq_order_type r) "VTTC0012U" (Some "b1"))).
Definition w_timeout : Broker unit := w_broker_of (fun _ => Err (OtherError "Timeout")).
Definition w_uuid : stm unit string := mret "0123".
Definition w_order : KisOrderRequest := mkOrderRequest "005930" BUY 1 (f_of_Z 121000) LIMIT "KRX" "" "".
(** The report of the bars of [Shadow]'s witnesses. *)
Definition w_approved : ShadowCycleReport :=
  mkShadowReport "005930" 21 "OK" false false 1 (Some "BREAKOUT_WATCH") true "approved" 2 "LONG"
    (Some "BREAKOUT_WATCH:005930:9b2d5bafef3f") (Some (f_of_Z 121000)).
Definition w_live {BW : Broker unit} (s : sys unit) : res LiveOrderExecutionResult * sys unit :=
  submit_shadow_live_buy w_uuid true w_approved false true 1 None s.
Definition w_start_sys : sys unit := mkSys w_db tt [].

Lemma live_buy_only_when_approved_witness :
  map fst (s_trace (w_live (BW := w_ack) w_start_sys).2) = [SubmitCall w_order] /\ live_approved true false true w_approved w_db.
Proof.
  assert (Ht : map fst (s_trace (w_live (BW := w_ack) w_start_sys).2) = [SubmitCall w_order]) by (vm_compute; reflexivity).
  split; [exact Ht|].
  pose proof (live_buy_only_when_approved (SL := client_law (BW := w_ack)) w_uuid true w_approved false true 1 None w_start_sys) as H.
  cbv zeta in H. change (submit_shadow_live_buy _ _ _ _ _ _ _ _) with (w_live (BW := w_ack) w_start_sys) in H.
  destruct H as [H|(q & d & _ & H & _)]; [|exact H]. rewrite H in Ht. discriminate.
Defined.

Lemma live_signal_submitted_once_witness : exists res s', w_live (BW := w_ack) w_start_sys = (Ok res, s') /\
  map fst (s_trace s') = [SubmitCall w_order] /\ s_trace (w_live (BW := w_ack) s').2 = s_trace s'.
Proof.
  destruct (w_live (BW := w_ack) w_start_sys) as [[res|e] s'] eqn:E; [|vm_compute in E; discriminate].
  exists res, s'. split; [reflexivity|].
  assert (Ht : map fst (s_trace (w_live (BW := w_ack) w_start_sys).2) = [SubmitCall w_order]) by (vm_compute; reflexivity).
  assert (Hs : match (w_live (BW := w_ack) w_start_sys).1 with Ok x => lx_submitted x | Err _ => false end = true) by (vm_compute; reflexivity).
  rewrite E in Ht, Hs. cbn in Ht, Hs. split; [exact Ht|].
  destruct (sh_signal_id w_approved) as [sg|] eqn:Esg; [|vm_compute in Esg; discriminate].
  destruct (sh_entry_price w_approved) as [p|] eqn:Ep; [|vm_compute in Ep; discriminate].
  apply (live_signal_submitted_once (SL := client_law (BW := w_ack)) w_uuid w_approved w_approved false false true true 1 1 None None
    w_start_sys s' s' res sg p E Hs Esg Ep).
  - vm_compute in Ep. injection Ep as <-. reflexivity.
  - intros w u _. apply lookup_empty.
  - reflexivity.
  - exact Esg.
Defined.

Lemma failed_submission_is_resent_witness :
  map fst (s_trace (w_live (BW := w_timeout) (w_live (BW := w_timeout) w_start_sys).2).2) = [SubmitCall w_order; SubmitCall w_order].
Proof.
  pose proof (failed_submission_is_resent (BW := w_timeout) w_uuid w_approved 1 None w_start_sys (f_of_Z 121000) w_order (OtherError "Timeout")
    eq_refl ltac:(vm_compute; reflexivity) ltac:(vm_compute; reflexivity) ltac:(vm_compute; reflexivity) ltac:(reflexivity)) as H.
  change (submit_shadow_live_buy _ _ _ _ _ _ _ w_start_sys) with (w_live (BW := w_timeout) w_start_sys) in H.
  destruct (w_live (BW := w_timeout) w_start_sys) as [x s1]. cbn [snd].
  change (submit_shadow_live_buy _ _ _ _ _ _ _ s1) with (w_live (BW := w_timeout) s1) in H.
  destruct (w_live (BW := w_timeout) s1) as [y s2]. destruct H as (_ & _ & _ & H). cbn [snd]. rewrite H. reflexivity.
Defined.
