(* ===== verification/RateLimit.v ===== *)
(** * Pacing of the broker calls ([broker/kis_rate_limit.py])

    One limiter for the process spaces the calls of an environment and cools
    down after a transient failure; a session retries reads a bounded number of
    times and never a write.  The lock serialises the limiter's methods, so a
    method is one step.  The monotonic clock, the sleep and the HTTP session are
    the outside world; the state carries the trace of what was done to it. *)

From S2P Require Import Prelude PyStr PyFloat PyDecimal PyDict PyJson KisHttp KisOrder.

Definition rest_interval (e : KisEnvironment) : float :=
  match e with DEMO => f_ratio 1 2 | REAL => f_ratio 1 20 end.
Definition KIS_RATE_LIMIT_CODE : string := "EGW00201".
Definition KIS_TRANSIENT_READ_CODES : list string := [KIS_RATE_LIMIT_CODE; "EGW00300"].
Definition KIS_RATE_LIMIT_COOLDOWN_SECONDS : float := f_of_Z 1.
Definition KIS_READ_MAX_RETRIES : nat := 2.

(** A dictionary keyed by the two environments. *)
Record per_env := mkPerEnv { of_demo : option float; of_real : option float }.
Definition env_get (e : KisEnvironment) (d : per_env) : option float :=
  match e with DEMO => of_demo d | REAL => of_real d end.
Definition env_set (e : KisEnvironment) (x : float) (d : per_env) : per_env :=
  match e with DEMO => mkPerEnv (Some x) (of_real d) | REAL => mkPerEnv (of_demo d) (Some x) end.

Inductive event :=
  | Waited (e : KisEnvironment)
  | Slept (seconds : float)
  | Penalized (e : KisEnvironment)
  | Sent (r : http_request).

Record limited (W : Type) := mkLimited {
  last_call_at : per_env;
  not_before : per_env;
  l_world : W;
  l_events : list event;
}.
Arguments mkLimited {W} _ _ _ _.
Arguments last_call_at {W} _.
Arguments not_before {W} _.
Arguments l_world {W} _.
Arguments l_events {W} _.

(** [response.json()["msg_cd"]] as the session reads it *)
Definition message_code (r : response) : string :=
  match body r with
  | Some (JObj o) => match dget "msg_cd" o with Some v => py_str v | None => "" end
  | _ => ""
  end.

(** [_is_rate_limited], [_is_transient_read_response] *)
Definition is_rate_limited (r : response) : bool := String.eqb (message_code r) KIS_RATE_LIMIT_CODE.
Definition is_transient_read_response (r : response) : bool :=
  (500 <=? status_code r) || existsb (String.eqb (message_code r)) KIS_TRANSIENT_READ_CODES.

Section Session.
Context {W : Type}.
(** [time.monotonic], [time.sleep], and the wrapped [requests] session. *)
Variable clock : W -> float * W.
Variable sleeper : float -> W -> W.
Variables raw_get raw_post : http_request -> stm W response.
(** [isinstance(exc, (requests.ConnectionError, requests.Timeout))] *)
Variable is_transport_error : exn -> bool.

Definition emit (ev : event) (s : limited W) : limited W :=
  mkLimited (last_call_at s) (not_before s) (l_world s) (l_events s ++ [ev]).

Definition read_monotonic : stm (limited W) float := fun s =>
  let '(t, w) := clock (l_world s) in (Ok t, mkLimited (last_call_at s) (not_before s) w (l_events s)).

Definition sleep (seconds : float) : stm (limited W) unit := fun s =>
  (Ok tt, mkLimited (last_call_at s) (not_before s) (sleeper seconds (l_world s)) (l_events s ++ [Slept seconds])).

(** How long a call of [e] that starts at [now] has to wait. *)
Definition remaining_wait (e : KisEnvironment) (now : float) (s : limited W) : float :=
  let interval_remaining := match env_get e (last_call_at s) with
                            | None => fzero
                            | Some previous => (rest_interval e - (now - previous))%F
                            end in
  let cooldown_remaining := (or_else (env_get e (not_before s)) fzero - now)%F in
  fmax (fmax fzero interval_remaining) cooldown_remaining.

(** [KisRateLimiter.wait] *)
Definition wait (e : KisEnvironment) : stm (limited W) unit :=
  now ← read_monotonic;
  remaining ← gets (remaining_wait e now);
  _ ← (if (fzero <? remaining)%F then sleep remaining else mret tt);
  now' ← read_monotonic;
  modify (fun s => mkLimited (env_set e now' (last_call_at s)) (not_before s) (l_world s) (l_events s ++ [Waited e])).

(** [KisRateLimiter.penalize] with the default cooldown *)
Definition penalize (e : KisEnvironment) : stm (limited W) unit :=
  now ← read_monotonic;
  modify (fun s => mkLimited (last_call_at s)
    (env_set e (fmax (or_else (env_get e (not_before s)) fzero) (now + KIS_RATE_LIMIT_COOLDOWN_SECONDS)%F) (not_before s))
    (l_world s) (l_events s ++ [Penalized e])).

(** A call of the wrapped session. *)
Definition send (m : stm W response) (r : http_request) : stm (limited W) response := fun s =>
  let '(a, w) := m (l_world s) in (a, mkLimited (last_call_at s) (not_before s) w (l_events s ++ [Sent r])).

(** The loop of [KisRateLimitedSession.get], with [left] attempts after this one. *)
Fixpoint get_loop (left : nat) (e : KisEnvironment) (r : http_request) : stm (limited W) response := fun s =>
  match wait e s with
  | (Err x, s1) => (Err x, s1)
  | (Ok _, s1) =>
      match send (raw_get r) r s1 with
      | (Ok answer, s2) =>
          if negb (is_transient_read_response answer) then (Ok answer, s2)
          else match left with
               | O => (Ok answer, s2)
               | S left' => (_ ← penalize e; get_loop left' e r) s2
               end
      | (Err x, s2) =>
          if is_transport_error x
          then match left with
               | O => (Err x, s2)
               | S left' => (_ ← penalize e; get_loop left' e r) s2
               end
          else (Err x, s2)
      end
  end.

Definition limited_get (e : KisEnvironment) (r : http_request) : stm (limited W) response :=
  get_loop KIS_READ_MAX_RETRIES e r.

(** [KisRateLimitedSession.post], never retried *)
Definition limited_post (e : KisEnvironment) (r : http_request) : stm (limited W) response :=
  _ ← wait e;
  send (raw_post r) r.

(** ** Lemmas *)

(** The events of one attempt: the wait, with its sleep when one was due, and
    the request. *)
Inductive attempt_events (e : KisEnvironment) (r : http_request) : list event -> Prop :=
  | ae_now : attempt_events e r [Waited e; Sent r]
  | ae_slept x : (fzero <? x)%F = true -> attempt_events e r [Slept x; Waited e; Sent r].

(** The events of [n] attempts, a penalty between them. *)
Inductive attempts (e : KisEnvironment) (r : http_request) : nat -> list event -> Prop :=
  | at_one l : attempt_events e r l -> attempts e r 1 l
  | at_more n l l' : attempt_events e r l -> attempts e r n l' -> attempts e r (S n) (l ++ Penalized e :: l').

Lemma wait_run e (s : limited W) : exists evs s', wait e s = (Ok tt, s') /\
  l_events s' = l_events s ++ evs ++ [Waited e] /\
  (evs = [] \/ exists x, evs = [Slept x] /\ (fzero <? x)%F = true) /\
  not_before s' = not_before s /\
  (forall e', e' <> e -> env_get e' (last_call_at s') = env_get e' (last_call_at s)) /\
  (let '(now, w) := clock (l_world s) in
   let remaining := remaining_wait e now s in
   evs = (if (fzero <? remaining)%F then [Slept remaining] else []) /\
   env_get e (last_call_at s') =
     Some (clock (if (fzero <? remaining)%F then sleeper remaining w else w)).1).
Proof.
  unfold wait, mbind, stm_bind, read_monotonic, gets. destruct (clock (l_world s)) as [now w] eqn:Ec. cbn.
  change (remaining_wait e now (mkLimited (last_call_at s) (not_before s) w (l_events s))) with (remaining_wait e now s).
  set (x := remaining_wait e now s). destruct (fzero <? x)%F eqn:Ex; cbn.
  - destruct (clock (sleeper x w)) as [now' w'] eqn:Ec'. exists [Slept x]. eexists. split; [done|]. cbn.
    rewrite <- app_assoc. split_and!; [done|right; by exists x|done| |done|by destruct e].
    intros e' He. by destruct e, e'.
  - destruct (clock w) as [now' w'] eqn:Ec'. exists []. eexists. split; [done|]. cbn.
    split_and!; [done|by left|done| |done|by destruct e]. intros e' He. by destruct e, e'.
Qed.

Lemma send_run m r (s : limited W) : l_events (send m r s).2 = l_events s ++ [Sent r].
Proof. unfold send. by destruct (m (l_world s)). Qed.

Lemma wait_send_events e m r (s : limited W) : exists s1 l, wait e s = (Ok tt, s1) /\
  l_events (send m r s1).2 = l_events s ++ l /\ attempt_events e r l.
Proof.
  destruct (wait_run e s) as (evs & s1 & E & Hev & Hc & _). exists s1, (evs ++ [Waited e; Sent r]). split; [done|].
  rewrite send_run, Hev, <- !app_assoc. split; [done|]. destruct Hc as [->|(x & -> & Hx)]; by constructor.
Qed.

Lemma get_loop_run left e r : forall (s : limited W), exists n l,
  l_events (get_loop left e r s).2 = l_events s ++ l /\ attempts e r n l /\ (1 <= n <= S left)%nat /\
  match (get_loop left e r s).1 with
  | Ok answer => is_transient_read_response answer = false \/ n = S left
  | Err x => is_transport_error x = false \/ n = S left
  end.
Proof.
  assert (Hnext : forall (s2 : limited W) left l, (forall s, exists n l, l_events (get_loop left e r s).2 = l_events s ++ l /\
      attempts e r n l /\ (1 <= n <= S left)%nat /\
      match (get_loop left e r s).1 with
      | Ok answer => is_transient_read_response answer = false \/ n = S left
      | Err x => is_transport_error x = false \/ n = S left
      end) -> attempt_events e r l ->
    exists n l', l_events ((_ ← penalize e; get_loop left e r) s2).2 = l_events s2 ++ Penalized e :: l' /\
      attempts e r n l' /\ (1 <= n <= S left)%nat /\
      match ((_ ← penalize e; get_loop left e r) s2).1 with
      | Ok answer => is_transient_read_response answer = false \/ n = S left
      | Err x => is_transport_error x = false \/ n = S left
      end).
  { intros s2 left' l IH _. unfold penalize, read_monotonic, modify, mbind, stm_bind.
    destruct (clock (l_world s2)) as [now w].
    match goal with |- context [get_loop left' _ _ ?s3] => destruct (IH s3) as (n & l' & H1 & H2 & H3 & H4) end.
    exists n, l'. rewrite H1. cbn [l_events]. rewrite <- app_assoc. split_and!; try done; lia. }
  assert (Hstop : forall (s s2 : limited W) (a : res response) l left, l_events s2 = l_events s ++ l -> attempt_events e r l ->
    match a with Ok answer => is_transient_read_response answer = false \/ left = 0%nat
               | Err x => is_transport_error x = false \/ left = 0%nat end ->
    exists n l, l_events (a, s2).2 = l_events s ++ l /\ attempts e r n l /\ (1 <= n <= S left)%nat /\
      match (a, s2).1 with Ok answer => is_transient_read_response answer = false \/ n = S left
                         | Err x => is_transport_error x = false \/ n = S left end).
  { intros s s2 a l left' Hl Ha Hs. exists 1%nat, l. cbn [fst snd]. split_and!; [done|by constructor|lia|lia|].
    destruct a; destruct Hs as [Hs|Hs]; auto. }
  induction left as [|left IH]; intros s; cbn [get_loop];
    destruct (wait_send_events e (raw_get r) r s) as (s1 & l & -> & Hl & Ha);
    destruct (send (raw_get r) r s1) as [a s2] eqn:Es; cbn [snd] in Hl.
  - destruct a as [answer|x].
    + destruct (negb (is_transient_read_response answer)); eapply Hstop; eauto.
    + destruct (is_transport_error x); eapply Hstop; eauto.
  - assert (Hgo : exists n l0, l_events ((_ ← penalize e; get_loop left e r) s2).2 = l_events s ++ l0 /\
      attempts e r n l0 /\ (1 <= n <= S (S left))%nat /\
      match ((_ ← penalize e; get_loop left e r) s2).1 with
      | Ok answer => is_transient_read_response answer = false \/ n = S (S left)
      | Err x => is_transport_error x = false \/ n = S (S left)
      end).
    { destruct (Hnext s2 left l IH Ha) as (n & l' & H1 & H2 & H3 & H4). exists (S n), (l ++ Penalized e :: l').
      rewrite H1, Hl, <- app_assoc. split; [done|]. split; [by constructor|]. split; [lia|].
      destruct ((_ ← penalize e; get_loop left e r) s2).1; destruct H4; auto. }
    destruct a as [answer|x].
    + destruct (is_transient_read_response answer) eqn:Et; cbn [negb]; [exact Hgo|eapply Hstop; eauto].
    + destruct (is_transport_error x) eqn:Et; [exact Hgo|eapply Hstop; eauto].
Qed.

Lemma limited_post_run e r (s : limited W) : exists l,
  l_events (limited_post e r s).2 = l_events s ++ l /\ attempt_events e r l.
Proof.
  destruct (wait_send_events e (raw_post r) r s) as (s1 & l & E & Hl & Ha). exists l. split; [|done].
  unfold limited_post, mbind, stm_bind. by rewrite E.
Qed.
End Session.

(** The requests of a trace that went to a URL. *)
Definition sent_to (target : string) (ev : event) : bool :=
  match ev with Sent r => String.eqb (url r) target | _ => false end.
Definition count_sent (target : string) (evs : list event) : nat := length (List.filter (sent_to target) evs).

Lemma count_sent_app u a b : count_sent u (a ++ b) = (count_sent u a + count_sent u b)%nat.
Proof. unfold count_sent. by rewrite List.filter_app, length_app. Qed.

Lemma attempt_sent e r l u : attempt_events e r l -> count_sent u l = if String.eqb (url r) u then 1%nat else 0%nat.
Proof. destruct 1; unfold count_sent; cbn; by destruct (String.eqb (url r) u). Qed.

(** ** Properties *)

(** Fact: a read makes at most three attempts, each after a wait of its own, with a
    penalty between two of them; it ends at the first answer that is not
    transient or error that is not a transport error, and only the third
    attempt may end otherwise.  So the unreachable assertion after the loop is
    never reached and a transient failure is never handed out early. *)
Theorem limited_get_bounded {W} clock sleeper (raw_get : http_request -> stm W response) is_transport_error e r
    (s : limited W) :
  let '(a, s') := limited_get clock sleeper raw_get is_transport_error e r s in
  exists n l, l_events s' = l_events s ++ l /\ attempts e r n l /\ (1 <= n <= 3)%nat /\
    match a with
    | Ok answer => is_transient_read_response answer = false \/ n = 3%nat
    | Err x => is_transport_error x = false \/ n = 3%nat
    end.
Proof.
  pose proof (get_loop_run clock sleeper raw_get is_transport_error KIS_READ_MAX_RETRIES e r s) as H.
  unfold limited_get. destruct (get_loop _ _ _ _ _ e r s) as [a s']. exact H.
Qed.

(** Fact: a call starts only when its environment is due.  [wait] sleeps once, for
    exactly the longer of the rest of the interval since the last call and the
    rest of the cooldown, and does not sleep exactly when neither has any time
    left; the time of the call is then recorded for this environment and the
    other one is not touched. *)
Theorem wait_spaces_calls {W} clock sleeper e (s : limited W) :
  let '(now, w) := clock (l_world s) in
  let remaining := remaining_wait e now s in
  let '(r, s') := wait clock sleeper e s in
  r = Ok tt /\
  l_events s' = l_events s ++ (if (fzero <? remaining)%F then [Slept remaining] else []) ++ [Waited e] /\
  ((fzero <? remaining)%F = false <->
     match env_get e (last_call_at s) with
     | Some previous => (fzero <? rest_interval e - (now - previous))%F = false
     | None => True
     end /\ (fzero <? or_else (env_get e (not_before s)) fzero - now)%F = false) /\
  env_get e (last_call_at s') = Some (clock (if (fzero <? remaining)%F then sleeper remaining w else w)).1 /\
  not_before s' = not_before s /\
  (forall e', e' <> e -> env_get e' (last_call_at s') = env_get e' (last_call_at s)).
Proof.
  destruct (wait_run clock sleeper e s) as (evs & s' & E & Hev & _ & Hnb & Ho & Hr).
  destruct (clock (l_world s)) as [now w]. cbv zeta in *. rewrite E. destruct Hr as [-> Hl].
  split_and!; try done. unfold remaining_wait.
  set (b := (or_else (env_get e (not_before s)) fzero - now)%F).
  destruct (env_get e (last_call_at s)) as [p|].
  - set (a := (rest_interval e - (now - p))%F). clearbody a b. clear. unfold fmax.
    destruct (fltb fzero a) eqn:Ea.
    + destruct (fltb a b) eqn:Eab; [rewrite (fltb_trans _ _ _ Ea Eab)|rewrite Ea]; intuition congruence.
    + destruct (fltb fzero b) eqn:Eb; rewrite ?Eb, ?fltb_irrefl; intuition congruence.
  - clearbody b. clear. unfold fmax. rewrite fltb_irrefl.
    destruct (fltb fzero b) eqn:Eb; rewrite ?Eb, ?fltb_irrefl; intuition congruence.
Qed.

(** C22: an order is sent to the broker at most once.  Whatever the session and
    the broker answer, submitting through the rate-limited session makes no
    more than one request to the order endpoint, none when the order body is
    rejected, and retries nothing. *)
Theorem order_sent_at_most_once {W} clock sleeper (raw_post : http_request -> stm W response) c request (s : limited W) :
  let '(a, s') := submit_order (limited_post clock sleeper raw_post (environment c)) c request s in
  exists evs, l_events s' = l_events s ++ evs /\
    (count_sent (api_url (environment c) ORDER_CASH_PATH) evs <= 1)%nat /\
    (is_ok (build_order_body (account_no c) (account_product_code c) request) = false -> evs = []) /\
    (is_ok a = true -> count_sent (api_url (environment c) ORDER_CASH_PATH) evs = 1%nat).
Proof.
  assert (Hne : String.eqb (api_url (environment c) HASHKEY_PATH) (api_url (environment c) ORDER_CASH_PATH) = false)
    by (by destruct (environment c); vm_compute).
  unfold submit_order. unfold mbind at 1, stm_bind at 1, lift_res at 1.
  destruct (build_order_body _ _ request) as [ob|er]; cbn [is_ok].
  2: { exists []. rewrite app_nil_r. split_and!; try done. unfold count_sent. cbn. lia. }
  set (hash := if include_hashkey c then _ else _).
  assert (Hh : forall s, exists l, l_events (hash s).2 = l_events s ++ l /\
    count_sent (api_url (environment c) ORDER_CASH_PATH) l = 0%nat).
  { intros s0. unfold hash. destruct (include_hashkey c).
    2: { exists []. by rewrite app_nil_r. }
    unfold issue_hashkey. match goal with |- context [limited_post clock sleeper raw_post (environment c) ?r] =>
      destruct (limited_post_run clock sleeper raw_post (environment c) r s0) as (l & Hl & Ha) end.
    exists l. split; [|by rewrite (attempt_sent _ _ _ _ Ha); cbn [url]; rewrite Hne].
    rewrite <- Hl. unfold mbind, stm_bind, lift_res, mret, stm_ret.
    destruct (limited_post _ _ _ _ _ s0) as [[a|x] s1]; [|done].
    destruct (raise_for_kis_response a _); [|done]. destruct (json_object a); [|done].
    by destruct (match dget "HASH" _ with Some _ => _ | None => _ end). }
  unfold mbind at 1, stm_bind at 1. destruct (Hh s) as (l1 & Hl1 & Hc1).
  destruct (hash s) as [[h|x] s1]; cbn [snd] in Hl1.
  2: { exists l1. rewrite Hc1. split_and!; try done. lia. }
  match goal with |- context [limited_post clock sleeper raw_post (environment c) ?r] =>
    destruct (limited_post_run clock sleeper raw_post (environment c) r s1) as (l2 & Hl2 & Ha2) end.
  unfold mbind, stm_bind, lift_res.
  assert (Hc2 : count_sent (api_url (environment c) ORDER_CASH_PATH) (l1 ++ l2) = 1%nat).
  { rewrite count_sent_app, Hc1, (attempt_sent _ _ _ _ Ha2). cbn [url]. by rewrite String.eqb_refl. }
  destruct (limited_post _ _ _ _ _ s1) as [[a|x] s2]; cbn [snd] in Hl2;
    (exists (l1 ++ l2); rewrite Hc2, Hl2, Hl1, app_assoc; split_and!; done || lia).
Qed.
