(* ===== verification/Performance.v ===== *)
(** * Net performance of the fills ([ops/performance.py])

    Fills in time order are matched first-in first-out: each matched pair of a
    buy lot and a sell is one outcome, net of estimated costs.  The text of a report
    is in [TelegramViews.v]. *)

From S2P Require Import Prelude PyStr PyFloat PyDecimal PyDict PyJson KisHttp DbCore DbOrders.

Record StrategyPerformance := mkStrategyPerformance {
  sp_closed_trades : Z;
  sp_gross_realized_pnl : float;
  sp_estimated_costs : float;
  sp_net_realized_pnl : float;
}.

Record PerformanceReport := mkPerformance {
  pe_closed_trades : Z;
  pe_gross_realized_pnl : float;
  pe_estimated_costs : float;
  pe_net_realized_pnl : float;
  pe_wins : Z;
  pe_losses : Z;
  pe_win_rate : float;
  pe_average_win : float;
  pe_average_loss : float;
  pe_profit_factor : float;
  pe_max_drawdown : float;
  pe_buy_cost_bps : float;
  pe_sell_cost_bps : float;
  pe_outcomes : list float;
  pe_by_strategy : dict StrategyPerformance;
}.

Record Lot := mkLot { lot_quantity : Z; lot_price : float; lot_strategy : string }.

Record StrategyAccumulator := mkAccumulator { sa_closed_trades : Z; sa_gross : float; sa_costs : float; sa_net : float }.
Definition new_accumulator : StrategyAccumulator := mkAccumulator 0 fzero fzero fzero.

(** [round(x, 10)]: the nearest multiple of 10^-10, ties to even, as a float. *)
Definition round10 (x : float) : float :=
  match x with
  | SpecFloat.S754_finite s _ _ =>
      let '(num, den) := f_fraction x in
      let y := f_ratio (half_even (num * 10 ^ 10) den) 10000000000 in
      if s then fopp y else y
  | _ => x
  end.

Definition accumulator_report (a : StrategyAccumulator) : StrategyPerformance :=
  mkStrategyPerformance (sa_closed_trades a) (round10 (sa_gross a)) (round10 (sa_costs a)) (round10 (sa_net a)).

(** A fill with the strategy of its order's decision. *)
Record fill_row := mkFillRow {
  fr_fill_id : string;
  fr_symbol : string;
  fr_side : string;
  fr_quantity : Z;
  fr_price : float;
  fr_filled_at : string;
  fr_strategy : string;
}.

(** The state of the matching. *)
Record matching := mkMatching {
  mt_lots : gmap string (list Lot);
  mt_outcomes : list float;
  mt_gross : float;
  mt_costs : float;
  mt_by_strategy : dict StrategyAccumulator;
}.

Definition new_matching : matching := mkMatching ∅ [] fzero fzero [].
Definition lots_of (symbol : string) (m : matching) : list Lot := or_else (mt_lots m !! symbol) [].
Definition set_lots (symbol : string) (l : list Lot) (m : matching) : matching :=
  mkMatching (<[symbol := l]> (mt_lots m)) (mt_outcomes m) (mt_gross m) (mt_costs m) (mt_by_strategy m).

(** [_env_bps]: the variable's text as a number, else the default. *)
Definition env_bps (variable : option string) (default : float) : float :=
  match variable with
  | None => default
  | Some text => match float_of_text text with Ok x => x | Err _ => default end
  end.

Section Performance.
(** [sum] of floats, whose rounding differs between the Python versions the
    package allows. *)
Variable float_sum : list float -> float.
Variables buy_bps sell_bps : float.

(** The outcome of one matched pair. *)
Definition match_lot (lot : Lot) (price : float) (matched : Z) (m : matching) : res matching :=
  buy_notional ← fmul_Z matched (lot_price lot);
  sell_notional ← fmul_Z matched price;
  let gross := (sell_notional - buy_notional)%F in
  let costs := (fquot (buy_notional * buy_bps)%F (f_of_Z 10000) + fquot (sell_notional * sell_bps)%F (f_of_Z 10000))%F in
  let net := (gross - costs)%F in
  let a := or_else (dget (lot_strategy lot) (mt_by_strategy m)) new_accumulator in
  Ok (mkMatching (mt_lots m) (mt_outcomes m ++ [net]) (mt_gross m + gross)%F (mt_costs m + costs)%F
    (dset (lot_strategy lot) (mkAccumulator (sa_closed_trades a + 1) (sa_gross a + gross)%F (sa_costs a + costs)%F
       (sa_net a + net)%F) (mt_by_strategy m))).

(** The [while remaining] loop over the lots of the symbol, and the lots left. *)
Fixpoint sell_lots (symbol : string) (price : float) (remaining : Z) (lots : list Lot) (m : matching)
    : res (list Lot * matching) :=
  if remaining =? 0 then Ok (lots, m)
  else
    match lots with
    | [] => Err (ValueError ("sell exceeds FIFO inventory for " +:+ symbol))
    | lot :: rest =>
        let matched := Z.min remaining (lot_quantity lot) in
        m ← match_lot lot price matched m;
        if matched =? lot_quantity lot then sell_lots symbol price (remaining - matched) rest m
        else Ok (mkLot (lot_quantity lot - matched) (lot_price lot) (lot_strategy lot) :: rest, m)
    end.

(** One row of the loop. *)
Definition match_row (row : fill_row) (m : matching) : res matching :=
  let side := upper (fr_side row) in
  _ ← raise_if (sempty (fr_symbol row) || negb (mem_str side ["BUY"; "SELL"]) || (fr_quantity row <=? 0)
                || (fr_price row <=? fzero)%F) (ValueError "invalid broker fill row");
  if String.eqb side "BUY" then
    let s := strip (if sempty (fr_strategy row) then "UNKNOWN" else fr_strategy row) in
    let strategy := if sempty s then "UNKNOWN" else s in
    Ok (set_lots (fr_symbol row) (lots_of (fr_symbol row) m ++ [mkLot (fr_quantity row) (fr_price row) strategy]) m)
  else
    '(rest, m) ← sell_lots (fr_symbol row) (fr_price row) (fr_quantity row) (lots_of (fr_symbol row) m) m;
    Ok (set_lots (fr_symbol row) rest m).

Fixpoint match_rows (rows : list fill_row) (m : matching) : res matching :=
  match rows with
  | [] => Ok m
  | r :: rs => m ← match_row r m; match_rows rs m
  end.

(** [_max_drawdown] *)
Definition max_drawdown (outcomes : list float) : float :=
  let '(_, _, drawdown) := fold_left (fun '(equity, peak, drawdown) outcome =>
    let equity := (equity + outcome)%F in
    let peak := fmax peak equity in
    (equity, peak, fmax drawdown (peak - equity)%F)) outcomes (fzero, fzero, fzero) in drawdown.

Definition row_leb (a b : fill_row) : bool :=
  text_ltb (fr_filled_at a) (fr_filled_at b)
  || (String.eqb (fr_filled_at a) (fr_filled_at b) && text_leb (fr_fill_id a) (fr_fill_id b)).


(** [sum(values) / len(values)] rounded, for a non-empty list *)
Definition average (values : list float) : float :=
  match values with [] => fzero | _ => round10 (fquot (float_sum values) (f_of_Z (len values))) end.

(** [sum(wins) / abs(sum(losses))]: raises when the losses sum to zero. *)
Definition profit_factor (wins losses : list float) : res float :=
  match losses with
  | [] => Ok (match wins with [] => fzero | _ => finf end)
  | _ => fdiv (float_sum wins) (fabs (float_sum losses))
  end.

Definition build_performance_report (fills : list fill_row) : res PerformanceReport :=
  _ ← raise_if ((buy_bps <? fzero)%F || (sell_bps <? fzero)%F) (ValueError "cost bps must be non-negative");
  m ← match_rows (sort_by row_leb fills) new_matching;
  let outcomes := mt_outcomes m in
  let wins := List.filter (fun v => fzero <? v)%F outcomes in
  let losses := List.filter (fun v => v <? fzero)%F outcomes in
  let win_base := len wins + len losses in
  factor ← profit_factor wins losses;
  Ok (mkPerformance (len outcomes) (round10 (mt_gross m)) (round10 (mt_costs m)) (round10 (mt_gross m - mt_costs m)%F)
    (len wins) (len losses)
    (match win_base with 0 => fzero | _ => f_ratio (len wins) (Z.to_pos win_base) end)
    (average wins) (average losses)
    (if (factor =? finf)%F then factor else round10 factor)
    (round10 (max_drawdown outcomes)) buy_bps sell_bps (map round10 outcomes)
    (map (fun kv => (fst kv, accumulator_report (snd kv))) (mt_by_strategy m))).

(** The fills of the database with their strategies: the joins of the query. *)
Definition fill_rows (d : db) : list fill_row :=
  omap (fun f =>
    o ← get_order (bf_client_order_id f) d;
    Some (mkFillRow (bf_fill_id f) (bf_symbol f) (bf_side f) (bf_quantity f) (bf_price f) (bf_filled_at f)
      (match (s ← bo_signal_id o; t_ai_decisions d !! s) with Some a => ad_strategy a | None => "UNKNOWN" end)))
    (rows_by bf_filled_at bf_fill_id (t_broker_fills d)).

Definition performance_report_from_database (d : db) : res PerformanceReport :=
  build_performance_report (fill_rows d).

(** ** What the matching conserves *)

Definition lots_total (lots : list Lot) : Z := sum_by lot_quantity lots.
Definition inventory (symbol : string) (m : matching) : Z := lots_total (lots_of symbol m).

Definition signed_row (symbol : string) (r : fill_row) : Z :=
  if String.eqb (fr_symbol r) symbol
  then if String.eqb (upper (fr_side r)) "BUY" then fr_quantity r else - fr_quantity r
  else 0.

Definition lots_ok (m : matching) : Prop := forall s l, mt_lots m !! s = Some l -> Forall (fun x => 0 < lot_quantity x) l.

(** ** Lemmas *)

Lemma lots_total_nonneg l : Forall (fun x => 0 < lot_quantity x) l -> 0 <= lots_total l.
Proof. induction 1; unfold lots_total in *; cbn; lia. Qed.

Lemma lots_of_ok s m : lots_ok m -> Forall (fun x => 0 < lot_quantity x) (lots_of s m).
Proof. intros H. unfold lots_of. destruct (mt_lots m !! s) eqn:E; cbn; [by eapply H|constructor]. Qed.

Lemma match_lot_lots lot price q m m' : match_lot lot price q m = Ok m' -> mt_lots m' = mt_lots m.
Proof. unfold match_lot. intros H. inv_ok. done. Qed.

Lemma sell_lots_spec symbol price lots : forall remaining m rest m',
  0 <= remaining -> Forall (fun x => 0 < lot_quantity x) lots ->
  sell_lots symbol price remaining lots m = Ok (rest, m') ->
  Forall (fun x => 0 < lot_quantity x) rest /\ lots_total rest = lots_total lots - remaining /\
  mt_lots m' = mt_lots m.
Proof.
  induction lots as [|lot lots IH]; intros remaining m rest m' Hr Hl H; cbn [sell_lots] in H.
  - destruct (Z.eqb_spec remaining 0) as [->|]; [|done]. injection H as <- <-. split_and!; [constructor|cbn; lia|done].
  - apply Forall_cons_1 in Hl as [Hq Hl]. destruct (Z.eqb_spec remaining 0) as [->|Hne].
    { injection H as <- <-. split_and!; [by constructor|lia|done]. }
    cbv zeta in H. apply bind_Ok in H as (m1 & Hm & H). apply match_lot_lots in Hm.
    destruct (Z.eqb_spec (Z.min remaining (lot_quantity lot)) (lot_quantity lot)) as [E|E].
    + apply IH in H as (H1 & H2 & H3); [|lia|done]. split; [done|]. unfold lots_total in *. cbn. split; [lia|congruence].
    + injection H as <- <-. split; [constructor; [cbn; lia|done]|]. unfold lots_total. cbn. split; [lia|done].
Qed.

Lemma lots_of_set s s' l m : lots_of s (set_lots s' l m) = if decide (s = s') then l else lots_of s m.
Proof.
  unfold lots_of, set_lots. cbn. case_decide as E; [subst; by rewrite lookup_insert_eq|].
  by rewrite lookup_insert_ne by congruence.
Qed.

Lemma set_lots_ok s l m : lots_ok m -> Forall (fun x => 0 < lot_quantity x) l -> lots_ok (set_lots s l m).
Proof. intros Hm Hl s' l' H. cbn in H. apply lookup_insert_Some in H as [[_ <-]|[_ H]]; [done|by eapply Hm]. Qed.

Lemma match_row_spec row m m' : lots_ok m -> match_row row m = Ok m' ->
  lots_ok m' /\ forall s, inventory s m' = inventory s m + signed_row s row.
Proof.
  intros Hm H. unfold match_row in H. cbv zeta in H. apply bind_Ok in H as ([] & Hv & H). apply raise_if_Ok in Hv.
  bool_to_prop. unfold inventory, signed_row. pose proof (lots_of_ok (fr_symbol row) m Hm) as Hl.
  destruct (String.eqb (upper (fr_side row)) "BUY").
  - injection H as <-. split.
    + apply set_lots_ok; [done|]. apply Forall_app. split; [done|]. by repeat constructor.
    + intros s. rewrite lots_of_set. destruct (String.eqb_spec (fr_symbol row) s), (decide (s = fr_symbol row)); subst; try done; [|lia].
      unfold lots_total. rewrite sum_by_app. cbn. lia.
  - apply bind_Ok in H as ([rest m1] & Hs & H). injection H as <-.
    apply sell_lots_spec in Hs as (Hs1 & Hs2 & Hs3); [|lia|done]. split.
    + apply set_lots_ok; [|done]. unfold lots_ok. by rewrite Hs3.
    + intros s. rewrite lots_of_set. assert (E : forall s, lots_of s m1 = lots_of s m) by (intros; unfold lots_of; by rewrite Hs3).
      destruct (String.eqb_spec (fr_symbol row) s), (decide (s = fr_symbol row)); subst; try done; rewrite ?E; lia.
Qed.

Lemma match_rows_spec rows : forall m m', lots_ok m -> match_rows rows m = Ok m' ->
  lots_ok m' /\ (forall s, inventory s m' = inventory s m + sum_by (signed_row s) rows) /\
  forall k s, 0 <= inventory s m + sum_by (signed_row s) (take k rows).
Proof.
  induction rows as [|r rows IH]; intros m m' Hm H; cbn [match_rows] in H.
  - injection H as <-. split_and!; [done|intros s; cbn; lia|]. intros k s. rewrite take_nil. cbn.
    pose proof (lots_total_nonneg _ (lots_of_ok s m Hm)). unfold inventory. lia.
  - apply bind_Ok in H as (m1 & H1 & H). apply match_row_spec in H1 as [Hm1 Hi1]; [|done].
    apply IH in H as (Hm' & Hi & Hp); [|done]. split_and!; [done|intros s; rewrite Hi, Hi1; cbn; lia|].
    intros [|k] s; cbn.
    + pose proof (lots_total_nonneg _ (lots_of_ok s m Hm)). unfold inventory. lia.
    + specialize (Hp k s). rewrite Hi1 in Hp. lia.
Qed.

Lemma match_lot_outcomes lot price q m m' : match_lot lot price q m = Ok m' ->
  length (mt_outcomes m') = S (length (mt_outcomes m)).
Proof. unfold match_lot. intros H. inv_ok. cbn. rewrite length_app. cbn. lia. Qed.
End Performance.

(** ** Properties *)

(** Fact: a performance report exists only for a history that never sells what it
    does not hold: when the report is built, in time order the shares sold of
    each symbol never exceed those bought before, and the costs are not
    negative.  Its trades are its wins, its losses and its break-even trades,
    and it has one outcome for each. *)
Theorem performance_report_never_oversold float_sum buy sell fills rep :
  build_performance_report float_sum buy sell fills = Ok rep ->
  (buy <? fzero)%F = false /\ (sell <? fzero)%F = false /\
  (forall k s, 0 <= sum_by (signed_row s) (take k (sort_by row_leb fills))) /\
  pe_wins rep + pe_losses rep <= pe_closed_trades rep /\
  Z.of_nat (length (pe_outcomes rep)) = pe_closed_trades rep.
Proof.
  unfold build_performance_report. intros H. apply bind_Ok in H as ([] & Hb & H). apply raise_if_Ok in Hb.
  bool_to_prop. apply bind_Ok in H as (m & Hm & H). cbv zeta in H. apply bind_Ok in H as (f & _ & H).
  apply Ok_inj in H. subst rep. cbn [pe_wins pe_losses pe_closed_trades pe_outcomes].
  assert (Hempty : lots_ok new_matching) by (intros s l E; cbn in E; by rewrite lookup_empty in E).
  destruct (match_rows_spec buy sell _ _ _ Hempty Hm) as (_ & _ & Hp). split_and!; try done.
  - unfold len. clear. induction (mt_outcomes m) as [|x l IH]; cbn; [done|].
    destruct (fltb fzero x) eqn:E1, (fltb x fzero) eqn:E2; cbn; try lia.
    exfalso. pose proof (fltb_trans _ _ _ E1 E2) as E. by rewrite fltb_irrefl in E.
  - unfold len. by rewrite length_map.
Qed.

(** ** Witnesses *)

(** Ten shares bought, four of them sold at a gain. *)
Definition w_history : list fill_row :=
  [mkFillRow "f2" "005930" "SELL" 4 (f_of_Z 71000) "2026-01-05T10:00:00+09:00" "UNKNOWN";
   mkFillRow "f1" "005930" "BUY" 10 (f_of_Z 70000) "2026-01-05T09:30:00+09:00" "vwap"].
Definition w_sum (l : list float) : float := fold_left fadd l fzero.

Lemma performance_report_never_oversold_witness :
  exists rep, build_performance_report w_sum (f_of_Z 15) (f_of_Z 15) w_history = Ok rep /\ pe_wins rep = 1 /\
    pe_net_realized_pnl rep = f_of_Z 3154 /\
    forall k s, 0 <= sum_by (signed_row s) (take k (sort_by row_leb w_history)).
Proof.
  destruct (build_performance_report w_sum (f_of_Z 15) (f_of_Z 15) w_history) as [rep|e] eqn:E; [|vm_compute in E; discriminate].
  exists rep. split; [reflexivity|]. split; [vm_compute in E; injection E as <-; reflexivity|].
  split; [|exact (proj1 (proj2 (proj2 (performance_report_never_oversold _ _ _ _ _ E))))].
  vm_compute in E. injection E as <-. vm_compute. reflexivity.
Defined.
