(* ===== verification/Portfolio.v ===== *)
(** * The portfolio seen by the risk engine ([risk/portfolio_snapshot.py])

    The account and the persisted ledger become the inputs of [Risk], with the
    set of facts that are unknown; a single unknown one forbids new entries.
    The realised profit of the day is taken from the ledger only when the last
    reconciliation of the day found nothing to review. *)

From S2P Require Import Prelude PyStr PyFloat PyTime PyDecimal PyDict PyJson Risk DbCore DbOrders DbRuntime DbLedger.
From S2P Require Import KisHttp KisOrder KisOrderStatus KisAccount Performance.

Record PortfolioRiskSnapshot := mkRiskSnapshot {
  px_portfolio : PortfolioState;
  px_unknown_fields : gset string;
  px_broker_orders_today : Z;
  px_broker_fills_today : Z;
  px_orderable_cash : option float;
}.

Definition fail_closed (s : PortfolioRiskSnapshot) : bool := negb (bool_decide (px_unknown_fields s = ∅)).
Definition can_enter (s : PortfolioRiskSnapshot) : bool := negb (fail_closed s).

(** [_as_aware_kst], and the calendar day of the result *)
Definition as_aware_kst (value : datetime) : datetime :=
  if is_naive value then with_tz value (Some KST) else astimezone value KST.
Definition kst_day (value : datetime) : Z := dt_days (as_aware_kst value).

(** [_rows_for_day]: the rows whose timestamp reads as one of the day. *)
Definition on_day (day : Z) (timestamp : string) : bool :=
  match fromisoformat timestamp with Ok t => kst_day t =? day | Err _ => false end.
Definition orders_for_day (day : Z) (d : db) : list broker_order :=
  List.filter (fun o => on_day day (bo_created_at o)) (rows_by bo_created_at bo_client_order_id (t_broker_orders d)).
Definition fills_for_day (day : Z) (d : db) : list broker_fill :=
  List.filter (fun f => on_day day (bf_filled_at f)) (rows_by bf_filled_at bf_fill_id (t_broker_fills d)).

Section Snapshot.
Variable float_sum : list float -> float.
(** [cost_bps_from_env] *)
Variables buy_cost_bps sell_cost_bps : float.

Fixpoint leading_losses (outcomes : list float) : Z :=
  match outcomes with
  | [] => 0
  | x :: l => if (x <? fzero)%F then 1 + leading_losses l else 0
  end.

(** [_consecutive_losses] *)
Definition latest_losses (d : db) : res (option Z) :=
  match build_performance_report float_sum buy_cost_bps sell_cost_bps (fill_rows d) with
  | Ok report => Ok (Some (leading_losses (rev (pe_outcomes report))))
  | Err e => if is_ValueError e then Ok None else Err e
  end.

(** ** The realised profit of the day *)

(** The reconciliation flag [key] is clear and of today; its instant. *)
Definition reconciled_at (key : string) (now : datetime) (d : db) : option Z :=
  match t_runtime_metadata d !! key with
  | None => None
  | Some row =>
      if negb (String.eqb (lower (md_value row)) "false") then None
      else match fromisoformat (md_updated_at row) with
           | Err _ => None
           | Ok t =>
               let t := as_aware_kst t in
               if negb (dt_days t =? dt_days now) then None
               else if instant now <? instant t then None
               else Some (instant t)
           end
  end.

Definition reconciled_through (now : datetime) (d : db) : option Z :=
  match reconciled_at "operator_review" now d with
  | None => None
  | Some a => match reconciled_at "block_new_entries" now d with
              | None => None
              | Some b => Some (Z.min a b)
              end
  end.

(** The [while remaining] loop: [None] when the lots run out. *)
Fixpoint realize (price : float) (remaining : Z) (lots : list (Z * float)) (realized : float)
    : res (option (list (Z * float) * float)) :=
  if remaining =? 0 then Ok (Some (lots, realized))
  else
    match lots with
    | [] => Ok None
    | (lot_quantity, lot_price) :: rest =>
        let matched := Z.min remaining lot_quantity in
        buy_notional ← fmul_Z matched lot_price;
        sell_notional ← fmul_Z matched price;
        let realized := (realized + (sell_notional - buy_notional - fquot (buy_notional * buy_cost_bps) (f_of_Z 10000)
                          - fquot (sell_notional * sell_cost_bps) (f_of_Z 10000)))%F in
        if matched =? lot_quantity then realize price (remaining - matched) rest realized
        else Ok (Some ((lot_quantity - matched, lot_price) :: rest, realized))
    end.

Notation lots_map := (gmap string (list (Z * float))).

(** A fill the profit can be computed from, with its time. *)
Definition usable_fill (now : datetime) (through : Z) (row : fill_row) : option datetime :=
  match fromisoformat (fr_filled_at row) with
  | Err _ => None
  | Ok t =>
      if sempty (fr_symbol row) || (fr_quantity row <=? 0) || (fr_price row <=? fzero)%F
         || negb (mem_str (upper (fr_side row)) ["BUY"; "SELL"]) then None
      else
        let t := as_aware_kst t in
        if (instant now <? instant t) || (through <? instant t) then None else Some t
  end.

(** The loop over the fills: [None] is the early [return None]. *)
Fixpoint realize_rows (now : datetime) (through : Z) (rows : list fill_row) (lots : lots_map) (realized : float)
    : res (option float) :=
  match rows with
  | [] => Ok (Some realized)
  | row :: rows' =>
      match usable_fill now through row with
      | None => Ok None
      | Some filled_at =>
          let held := or_else (lots !! fr_symbol row) [] in
          if String.eqb (upper (fr_side row)) "BUY"
          then realize_rows now through rows' (<[fr_symbol row := held ++ [(fr_quantity row, fr_price row)]]> lots) realized
          else
            sold ← realize (fr_price row) (fr_quantity row) held fzero;
            match sold : option (list (Z * float) * float) with
            | None => Ok None
            | Some (rest, sell_realized) =>
                realize_rows now through rows' (<[fr_symbol row := rest]> lots)
                  (if dt_days filled_at =? dt_days now then (realized + sell_realized)%F else realized)
            end
      end
  end.

Definition calculate_local_daily_realized_pnl (now : datetime) (d : db) : res (option float) :=
  let now := as_aware_kst now in
  match reconciled_through now d with
  | None => Ok None
  | Some through =>
      realized ← realize_rows now through (fill_rows d) ∅ fzero;
      Ok (round10 <$> (realized : option float))
  end.

(** ** The snapshot *)

(** The [realized_pnl] argument. *)
Inductive realized_input :=
  | NoRealized
  | RealizedSnapshot (daily_realized_pnl : option float)
  | RealizedNumber (pnl : float).

Definition position_state (p : KisAccountPosition) : PositionState :=
  mkPositionState (kp_symbol p) (kp_qty p) (or_else (kp_avg_price p) fzero) None.

Definition unknown_of_position (p : KisAccountPosition) : gset string :=
  (match kp_avg_price p with None => {["position:" +:+ kp_symbol p +:+ ".average_price"]} | Some _ => ∅ end) ∪
  (match kp_current_price p with None => {["position:" +:+ kp_symbol p +:+ ".current_price"]} | Some _ => ∅ end).

Fixpoint exposure_of (positions : list KisAccountPosition) (exposure : float) : res float :=
  match positions with
  | [] => Ok exposure
  | p :: ps =>
      match kp_current_price p with
      | None => exposure_of ps exposure
      | Some price => amount ← fmul_Z (kp_qty p) price; exposure_of ps (exposure + amount)%F
      end
  end.

Definition count_orders (orders : list broker_order) : gmap string Z :=
  fold_left (fun acc o => <[bo_symbol o := or_else (acc !! bo_symbol o) 0 + 1]> acc) orders ∅.

(** [x or 0.0] *)
Definition or_zero (x : option float) : float :=
  match x with Some v => if (v =? fzero)%F then fzero else v | None => fzero end.

Definition build_portfolio_risk_snapshot (account : KisAccountSnapshot) (now : datetime)
    (buying_power : option (option float)) (realized_pnl : realized_input) (d : db) : res PortfolioRiskSnapshot :=
  exposure ← exposure_of (as_positions account) fzero;
  let orderable_cash := match buying_power with
                        | Some cash => cash
                        | None => ks_orderable_cash_estimate (as_summary account)
                        end in
  daily_pnl ← (match realized_pnl with
               | RealizedSnapshot (Some x) => Ok (Some x)
               | RealizedNumber x => Ok (Some x)
               | _ => calculate_local_daily_realized_pnl now d
               end);
  losses ← latest_losses d;
  let unknown := foldr (fun p acc => unknown_of_position p ∪ acc) ∅ (as_positions account) ∪
    (match orderable_cash with None => {["orderable_cash"]} | Some _ => ∅ end) ∪
    (match daily_pnl : option float with None => {["daily_pnl"]} | Some _ => ∅ end) ∪
    (match losses : option Z with None => {["consecutive_losses"]} | Some _ => ∅ end) in
  let orders := orders_for_day (kst_day now) d in
  Ok (mkRiskSnapshot
    (mkPortfolioState exposure (map position_state (as_positions account)) (or_zero daily_pnl) (or_else losses 0)
       (len orders) (count_orders orders))
    unknown (len orders) (len (fills_for_day (kst_day now) d)) orderable_cash).

Definition validate_entry_budget (requested_price : float) (quantity : Z) (orderable_cash : option float)
    (allocated_cap : float) : res bool :=
  match orderable_cash with
  | None => Ok false
  | Some cash =>
      if (requested_price <=? fzero)%F || (quantity <=? 0) || (allocated_cap <=? fzero)%F then Ok false
      else if (cash <? fzero)%F then Ok false
      else
        amount ← fmul_Z quantity requested_price;
        Ok ((amount <=? cash) && (amount <=? allocated_cap))%F
  end.

(** ** Lemmas *)

Definition held_total (lots : list (Z * float)) : Z := sum_by fst lots.
Definition held (s : string) (m : lots_map) : Z := held_total (or_else (m !! s) []).
Definition lots_positive (m : lots_map) : Prop := forall s l, m !! s = Some l -> Forall (fun x => 0 < fst x) l.

Lemma held_nonneg s m : lots_positive m -> 0 <= held s m.
Proof.
  intros H. unfold held. destruct (m !! s) eqn:E; cbn; [|done]. apply H in E. clear H.
  induction E as [|x l Hx Hl IH]; unfold held_total in *; cbn; lia.
Qed.

Lemma realize_spec price lots : forall remaining acc rest x,
  0 <= remaining -> Forall (fun x => 0 < fst x) lots ->
  realize price remaining lots acc = Ok (Some (rest, x)) ->
  Forall (fun x => 0 < fst x) rest /\ held_total rest = held_total lots - remaining.
Proof.
  induction lots as [|[q p] lots IH]; intros remaining acc rest x Hr Hl H; cbn [realize] in H.
  - destruct (Z.eqb_spec remaining 0) as [->|]; [|done]. injection H as <- <-. split; [constructor|done].
  - apply Forall_cons_1 in Hl as [Hq Hl]. cbn in Hq. destruct (Z.eqb_spec remaining 0) as [->|Hne].
    { injection H as <- <-. split; [by constructor|lia]. }
    cbv zeta in H. apply bind_Ok in H as (b & _ & H). apply bind_Ok in H as (c & _ & H).
    destruct (Z.eqb_spec (Z.min remaining q) q) as [E|E].
    + apply IH in H as (H1 & H2); [|lia|done]. split; [done|]. unfold held_total in *. cbn. lia.
    + injection H as <- <-. split; [constructor; [cbn; lia|done]|]. unfold held_total. cbn. lia.
Qed.

Lemma held_insert s s' l m : held s (<[s' := l]> m) = if decide (s = s') then held_total l else held s m.
Proof.
  unfold held. case_decide as E; [subst; by rewrite lookup_insert_eq|]. by rewrite lookup_insert_ne by congruence.
Qed.

Lemma lots_positive_insert s l m : lots_positive m -> Forall (fun x => 0 < fst x) l -> lots_positive (<[s := l]> m).
Proof. intros Hm Hl s' l' H. apply lookup_insert_Some in H as [[_ <-]|[_ H]]; [done|by eapply Hm]. Qed.

Lemma realize_rows_spec now through rows : forall lots acc x,
  lots_positive lots -> realize_rows now through rows lots acc = Ok (Some x) ->
  (forall r, r ∈ rows -> is_Some (usable_fill now through r)) /\
  forall k s, 0 <= held s lots + sum_by (signed_row s) (take k rows).
Proof.
  induction rows as [|r rows IH]; intros lots acc x Hl H; cbn [realize_rows] in H.
  - split; [by intros ? ?%elem_of_nil|]. intros k s. rewrite take_nil. cbn. pose proof (held_nonneg s lots Hl). lia.
  - destruct (usable_fill now through r) as [t|] eqn:Eu; [|done].
    assert (Hq : 0 < fr_quantity r /\ Forall (fun x => 0 < fst x) (or_else (lots !! fr_symbol r) [])).
    { unfold usable_fill in Eu. destruct (fromisoformat _); [|done]. destruct (_ || _ || _ || _) eqn:E; [done|].
      bool_to_prop. split; [done|]. destruct (lots !! fr_symbol r) eqn:El; cbn; [by eapply Hl|constructor]. }
    destruct Hq as [Hq Hheld]. cbv zeta in H.
    assert (Hstep : exists lots' acc', lots_positive lots' /\ realize_rows now through rows lots' acc' = Ok (Some x) /\
      forall s, held s lots' = held s lots + signed_row s r).
    { unfold signed_row. destruct (String.eqb (upper (fr_side r)) "BUY").
      - eexists _, _. split; [|split; [exact H|]].
        + apply lots_positive_insert; [done|]. apply Forall_app. split; [done|by repeat constructor].
        + intros s. rewrite held_insert. destruct (String.eqb_spec (fr_symbol r) s), (decide (s = fr_symbol r));
            subst; try done; [|lia]. unfold held, held_total. rewrite sum_by_app. cbn. lia.
      - apply bind_Ok in H as ([[rest y]|] & Hs & H); [|done]. apply realize_spec in Hs as (H1 & H2); [|lia|done].
        eexists _, _. split; [|split; [exact H|]]; [by apply lots_positive_insert|].
        intros s. rewrite held_insert. destruct (String.eqb_spec (fr_symbol r) s), (decide (s = fr_symbol r));
          subst; try done; unfold held in *; lia. }
    destruct Hstep as (lots' & acc' & Hl' & H' & Hs). apply IH in H' as [Hu Hp]; [|done]. split.
    + intros r' [->|Hin]%elem_of_cons; [by exists t|by apply Hu].
    + intros [|k] s; cbn; [pose proof (held_nonneg s lots Hl); lia|]. specialize (Hp k s). rewrite Hs in Hp. lia.
Qed.

Lemma union_empty (a b : gset string) : a ∪ b = ∅ <-> a = ∅ /\ b = ∅.
Proof. split; [intros H; split; set_solver|intros [-> ->]; set_solver]. Qed.

Lemma unknown_positions_empty ps :
  foldr (fun p acc => unknown_of_position p ∪ acc) ∅ ps = ∅ <->
  forall p, p ∈ ps -> is_Some (kp_avg_price p) /\ is_Some (kp_current_price p).
Proof.
  induction ps as [|p ps IH]; cbn; [split; [by intros _ ? ?%elem_of_nil|done]|].
  rewrite union_empty, IH. unfold unknown_of_position. rewrite union_empty.
  assert (Hne : forall x : string, ({[x]} : gset string) = ∅ <-> False) by (intros x; split; [set_solver|done]).
  split.
  - intros [[H1 H2] H3] q [->|Hq]%elem_of_cons; [|auto].
    destruct (kp_avg_price p), (kp_current_price p); try (by apply Hne in H1); try (by apply Hne in H2); by split; eexists.
  - intros H. destruct (H p (list_elem_of_here _ _)) as [[a ->] [b ->]]. split; [done|].
    intros q Hq. apply H. by apply list_elem_of_further.
Qed.
End Snapshot.

(** The reconciliation flag is clear, and was written today and not later than now. *)
Definition clear_today (key : string) (now : datetime) (d : db) (at_ : datetime) : Prop :=
  exists row t, t_runtime_metadata d !! key = Some row /\ lower (md_value row) = "false" /\
    fromisoformat (md_updated_at row) = Ok t /\ at_ = as_aware_kst t /\
    dt_days at_ = dt_days now /\ instant at_ <= instant now.

Lemma reconciled_at_spec key now d x : reconciled_at key now d = Some x ->
  exists at_, clear_today key now d at_ /\ x = instant at_.
Proof.
  unfold reconciled_at. destruct (t_runtime_metadata d !! key) as [row|] eqn:Er; [|done].
  destruct (String.eqb_spec (lower (md_value row)) "false") as [Ev|]; [cbn [negb]|done].
  destruct (fromisoformat (md_updated_at row)) as [t|] eqn:Et; [|done]. cbv zeta.
  destruct (Z.eqb_spec (dt_days (as_aware_kst t)) (dt_days now)) as [Ed|]; [cbn [negb]|done].
  destruct (Z.ltb_spec (instant now) (instant (as_aware_kst t))); [done|]. intros [= <-].
  exists (as_aware_kst t). split; [|done]. by exists row, t.
Qed.

(** ** Properties *)

(** Fact: the local profit of the day fails closed.  It is known only when both
    reconciliation flags are clear and were written on the day in question, not
    in the future; every fill of the ledger reads, is positive and is no later
    than both reconciliations; and in time order no symbol is sold beyond what
    was bought.  A review, a block, an old reconciliation or a fill after it
    makes it unknown. *)
Theorem local_pnl_fails_closed buy_bps sell_bps now d x :
  calculate_local_daily_realized_pnl buy_bps sell_bps now d = Ok (Some x) ->
  exists a b, clear_today "operator_review" (as_aware_kst now) d a /\
    clear_today "block_new_entries" (as_aware_kst now) d b /\
    (forall r, r ∈ fill_rows d -> exists t, fromisoformat (fr_filled_at r) = Ok t /\ 0 < fr_quantity r /\
       (fr_price r <=? fzero)%F = false /\ upper (fr_side r) ∈ ["BUY"; "SELL"] /\
       instant (as_aware_kst t) <= instant a /\ instant (as_aware_kst t) <= instant b) /\
    (forall k s, 0 <= sum_by (signed_row s) (take k (fill_rows d))).
Proof.
  unfold calculate_local_daily_realized_pnl, reconciled_through. cbv zeta.
  destruct (reconciled_at "operator_review" _ d) as [ia|] eqn:Ea; [|done].
  destruct (reconciled_at "block_new_entries" _ d) as [ib|] eqn:Eb; [|done].
  apply reconciled_at_spec in Ea as (a & Ha & ->). apply reconciled_at_spec in Eb as (b & Hb & ->).
  intros H. apply bind_Ok in H as ([y|] & Hr & H); [|done].
  apply realize_rows_spec in Hr as [Hu Hp]; [|by intros s l E; rewrite lookup_empty in E].
  exists a, b. split_and!; try done.
  - intros r Hr. destruct (Hu r Hr) as [t Ht]. unfold usable_fill in Ht.
    destruct (fromisoformat (fr_filled_at r)) as [t0|] eqn:Et; [|done]. exists t0. split; [done|].
    destruct (_ || _ || _ || _) eqn:E; [done|]. cbv zeta in Ht. destruct (_ || _) eqn:E2 in Ht; [done|].
    bool_to_prop. split_and!; try done; try lia. by apply mem_str_true.
Qed.

(** Fact: an entry may be considered only when everything the risk engine needs is
    known: the snapshot can enter exactly when every holding has an average and
    a current price and the orderable cash, the profit of the day and the losing
    streak are known; its order counts are those of the ledger's orders of the
    Korean calendar day. *)
Theorem snapshot_can_enter_iff float_sum buy_bps sell_bps account now buying_power realized d snap :
  build_portfolio_risk_snapshot float_sum buy_bps sell_bps account now buying_power realized d = Ok snap ->
  (can_enter snap = true <->
     (forall p, p ∈ as_positions account -> is_Some (kp_avg_price p) /\ is_Some (kp_current_price p)) /\
     is_Some (match buying_power with Some c => c | None => ks_orderable_cash_estimate (as_summary account) end) /\
     is_Some (match realized with
              | RealizedSnapshot (Some x) | RealizedNumber x => Some x
              | _ => match calculate_local_daily_realized_pnl buy_bps sell_bps now d with Ok r => r | Err _ => None end
              end) /\
     exists rep, build_performance_report float_sum buy_bps sell_bps (fill_rows d) = Ok rep) /\
  trades_today (px_portfolio snap) = len (orders_for_day (kst_day now) d) /\
  map ps_symbol (open_positions (px_portfolio snap)) = map kp_symbol (as_positions account).
Proof.
  unfold build_portfolio_risk_snapshot. intros H. apply bind_Ok in H as (ex & _ & H). cbv zeta in H.
  apply bind_Ok in H as (pnl & Hpnl & H). apply bind_Ok in H as (losses & Hl & H). apply Ok_inj in H. subst snap.
  cbn [px_portfolio px_unknown_fields trades_today open_positions]. split; [|split; [done|by rewrite map_map]].
  unfold can_enter, fail_closed. cbn [px_unknown_fields]. rewrite negb_involutive, bool_decide_eq_true.
  rewrite !union_empty, unknown_positions_empty.
  assert (Hne : forall x : string, ({[x]} : gset string) = ∅ <-> False) by (intros x; split; [set_solver|done]).
  assert (Hone : forall A (o : option A) (x : string),
    (match o with None => {[x]} | Some _ => ∅ end : gset string) = ∅ <-> is_Some o).
  { intros A [v|] x; [split; [by eexists|done]|]. rewrite Hne. split; [done|by intros [? ?]]. }
  rewrite !Hone.
  assert (Hpnl' : pnl = match realized with
              | RealizedSnapshot (Some x) | RealizedNumber x => Some x
              | _ => match calculate_local_daily_realized_pnl buy_bps sell_bps now d with Ok r => r | Err _ => None end
              end).
  { destruct realized as [|[v|]|v]; try (by injection Hpnl as <-); by rewrite Hpnl. }
  assert (Hlosses : is_Some losses <-> exists rep, build_performance_report float_sum buy_bps sell_bps (fill_rows d) = Ok rep).
  { unfold latest_losses in Hl. destruct (build_performance_report _ _ _ _) as [rep|e].
    - injection Hl as <-. split; [by exists rep|by eexists].
    - destruct (is_ValueError e); [injection Hl as <-|done]. split; [by intros [? ?]|by intros [? ?]]. }
  rewrite <- Hpnl', <- Hlosses. tauto.
Qed.

(** ** Witnesses *)

(** Ten shares bought, and a clean reconciliation a minute later. *)
Definition w_now : datetime := dt_add w_clock (120 * us_per_second).
Definition w_reconciled : db :=
  let at_ := iso (dt_add w_clock (60 * us_per_second)) in
  put_metadata "block_new_entries" "false" at_ (put_metadata "operator_review" "false" at_ w_filled10).

Lemma local_pnl_fails_closed_witness :
  exists x, calculate_local_daily_realized_pnl (f_of_Z 15) (f_of_Z 15) w_now w_reconciled = Ok (Some x) /\
    exists a, clear_today "operator_review" (as_aware_kst w_now) w_reconciled a.
Proof.
  destruct (calculate_local_daily_realized_pnl (f_of_Z 15) (f_of_Z 15) w_now w_reconciled) as [[x|]|e] eqn:E;
    [|vm_compute in E; discriminate..].
  exists x. split; [reflexivity|]. destruct (local_pnl_fails_closed _ _ _ _ _ E) as (a & b & Ha & _).
  exists a. exact Ha.
Defined.

Definition w_account : KisAccountSnapshot :=
  mkAccountSnapshot [mkAccountPosition "005930" 10 None (Some (f_of_Z 70000)) (Some (f_of_Z 70500)) None None ""]
    (parse_account_summary [("ord_psbl_cash", JStr "1000000")]).

Lemma snapshot_can_enter_iff_witness :
  exists snap, build_portfolio_risk_snapshot w_sum (f_of_Z 15) (f_of_Z 15) w_account w_now None NoRealized w_reconciled = Ok snap /\
    can_enter snap = true /\ trades_today (px_portfolio snap) = 1 /\
    (forall p, p ∈ as_positions w_account -> is_Some (kp_avg_price p)).
Proof.
  destruct (build_portfolio_risk_snapshot w_sum (f_of_Z 15) (f_of_Z 15) w_account w_now None NoRealized w_reconciled)
    as [snap|e] eqn:E; [|vm_compute in E; discriminate].
  exists snap. split; [reflexivity|].
  assert (Hc : can_enter snap = true) by (vm_compute in E; injection E as <-; vm_compute; reflexivity).
  split; [exact Hc|]. split; [vm_compute in E; injection E as <-; vm_compute; reflexivity|].
  destruct (snapshot_can_enter_iff _ _ _ _ _ _ _ _ _ E) as [[H _] _].
  intros p Hp. exact (proj1 (proj1 (H Hc) p Hp)).
Defined.
