(* ===== verification/ServiceSettings.v ===== *)
(** * The settings of the trading service ([cli.py])

    The environment variables the service reads, their bounds, and the
    configuration records made of them: the risk limits, the trading cycle, the
    universe and the AI budget.  [env] is [optional_env_value], the value of a
    variable in the process or in [.env] when it is not empty. *)

From S2P Require Import Prelude PyStr PyFloat PyTime PyDecimal PyDict PyJson Risk DbCore DbRuntime KisHttp KisOrder KisOrderStatus KisAccount.
From S2P Require Import System AiBudget Operator ExitPolicy Bars Indicators AiDecision AutoTrade AutoUniverse.

(** [_parse_symbols] *)
Definition parse_symbols (symbols : option string) : res (list string) :=
  match symbols with
  | None | Some "" => Ok []
  | Some text =>
      let parsed := List.filter (fun s => negb (sempty s))
        (map strip (split_on "," (smap (fun c => if bool_decide (c = ";"%char) then ","%char else c) text))) in
      _ ← raise_if (negb (forallb is_six_digits parsed)) (ValueError "symbols must be six-digit domestic stock codes");
      Ok parsed
  end.

Section Settings.
Variable env : string -> option string.

(** [_env_number] of an integer, and of a float; a bound comes with its text *)
Definition env_int (name : string) (default : Z) (minimum maximum : option Z) : res Z :=
  match env name with
  | None => Ok default
  | Some raw =>
      value ← (match parse_int raw with Ok z => Ok z | Err _ => Err (ValueError (name +:+ " must be a integer")) end);
      _ ← raise_if (match minimum with Some m => value <? m | None => false end)
            (ValueError (name +:+ " must be >= " +:+ str_int (or_else minimum 0)));
      _ ← raise_if (match maximum with Some m => m <? value | None => false end)
            (ValueError (name +:+ " must be <= " +:+ str_int (or_else maximum 0)));
      Ok value
  end.

Definition env_float (name : string) (default : float) (minimum maximum : option (float * string)) : res float :=
  match env name with
  | None => Ok default
  | Some raw =>
      value ← (match float_of_text raw with Ok x => Ok x | Err _ => Err (ValueError (name +:+ " must be a number")) end);
      _ ← raise_if (negb (isfinite value)) (ValueError (name +:+ " must be finite"));
      _ ← (match minimum with
           | Some (m, text) => raise_if (value <? m)%F (ValueError (name +:+ " must be >= " +:+ text))
           | None => Ok tt
           end);
      _ ← (match maximum with
           | Some (m, text) => raise_if (m <? value)%F (ValueError (name +:+ " must be <= " +:+ text))
           | None => Ok tt
           end);
      Ok value
  end.

(** [_env_bool] *)
Definition env_bool (name : string) (default : bool) : res bool :=
  match env name with
  | None => Ok default
  | Some raw =>
      let normalized := lower (strip raw) in
      if mem_str normalized ["1"; "true"; "yes"; "on"] then Ok true
      else if mem_str normalized ["0"; "false"; "no"; "off"] then Ok false
      else Err (ValueError (name +:+ " must be a boolean"))
  end.

(** [_auto_universe_settings_from_env] *)
Definition universe_settings_from_env : res AutoUniverseSettings :=
  enabled ← env_bool "AUTO_UNIVERSE_ENABLED" true;
  size ← env_int "AUTO_UNIVERSE_SIZE" 5 (Some 1) (Some 20);
  refresh ← env_int "AUTO_UNIVERSE_REFRESH_SECONDS" 1800 (Some 60) None;
  retry ← env_int "AUTO_UNIVERSE_FAILURE_RETRY_SECONDS" 60 (Some 5) None;
  min_price ← env_float "AUTO_UNIVERSE_MIN_PRICE" (f_of_Z 2000) (Some (fzero, "0")) None;
  max_price ← env_float "AUTO_UNIVERSE_MAX_PRICE" (f_of_Z 200000) (Some (f_one, "1")) None;
  min_volume ← env_int "AUTO_UNIVERSE_MIN_VOLUME" 100000 (Some 0) None;
  min_change ← env_float "AUTO_UNIVERSE_MIN_CHANGE_PCT" (f_ratio 1 2) (Some (fzero, "0")) (Some (f_of_Z 29, "29"));
  max_change ← env_float "AUTO_UNIVERSE_MAX_CHANGE_PCT" (f_of_Z 20) (Some (f_ratio 1 10, "0.1")) (Some (f_of_Z 30, "30"));
  let settings := mkUniverse enabled size refresh retry min_price max_price min_volume min_change max_change in
  _ ← validate_universe settings;
  Ok settings.

(** [_risk_config_from_env], without a database *)
Definition percent_bounds : option (float * string) * option (float * string) :=
  (Some (f_ratio 1 100, "0.01"), Some (f_of_Z 100, "100")).

Definition risk_settings_from_env : res RiskConfig :=
  let d := default_risk_config in
  allocated ← env_float "AUTO_TRADE_ALLOCATED_KRW" (allocated_krw d) (Some (f_ratio 1 100, "0.01")) None;
  risk ← env_float "RISK_PER_TRADE_PCT" (risk_per_trade_pct d) percent_bounds.1 percent_bounds.2;
  position ← env_float "MAX_POSITION_PCT" (max_position_pct d) percent_bounds.1 percent_bounds.2;
  exposure ← env_float "MAX_TOTAL_EXPOSURE_PCT" (max_total_exposure_pct d) percent_bounds.1 percent_bounds.2;
  positions ← env_int "MAX_POSITIONS" (max_positions d) (Some 1) None;
  daily_loss ← env_float "MAX_DAILY_LOSS_PCT" (max_daily_loss_pct d) (Some (fzero, "0")) (Some (f_of_Z 100, "100"));
  losses ← env_int "CONSECUTIVE_LOSS_LIMIT" (consecutive_loss_limit d) (Some 1) None;
  orders ← env_int "MAX_ORDERS_PER_SYMBOL" (max_orders_per_symbol d) (Some 1) None;
  confidence ← env_float "AI_MIN_CONFIDENCE" (minimum_confidence d) (Some (fzero, "0")) (Some (f_one, "1"));
  Ok (mkRiskConfig allocated risk position exposure positions daily_loss losses None orders confidence).

(** [replace(config, minimum_confidence=...)] *)
Definition with_confidence (c : RiskConfig) (confidence : float) : RiskConfig :=
  mkRiskConfig (allocated_krw c) (risk_per_trade_pct c) (max_position_pct c) (max_total_exposure_pct c) (max_positions c)
    (max_daily_loss_pct c) (consecutive_loss_limit c) (max_trades_per_day c) (max_orders_per_symbol c) confidence.

(** [_risk_config_from_env] with the operator's frequency of the database [d] *)
Definition risk_config_from_env (d : db) : res RiskConfig :=
  config ← risk_settings_from_env;
  Ok (with_confidence config (tf_ai_min_confidence (read_trade_frequency (minimum_confidence config) d))).

(** [_auto_trade_config_from_env] *)
Definition auto_trade_config_from_env (max_quantity : Z) (d : db) : res AutoTradeConfig :=
  risk ← risk_config_from_env d;
  let profile := tf_profile (read_trade_frequency (minimum_confidence risk) d) in
  let candidate_profile := if mem_str profile ["conservative"; "normal"; "aggressive"] then profile else "normal" in
  deadline ← env_float "AUTO_TRADE_DECISION_DEADLINE_SECONDS" (f_of_Z 25) (Some (f_one, "1")) None;
  response_age ← env_float "OPENAI_MAX_RESPONSE_AGE_SECONDS" (f_of_Z 20) (Some (f_one, "1")) None;
  let c := default_auto_config in
  Ok (mkAutoConfig risk max_quantity (minimum_confidence risk) candidate_profile (ac_max_entry_deviation_pct c)
        (ac_require_confirmation c) (ac_enforce_market_hours c) (ac_max_tick_age_seconds c) (ac_max_bar_age_seconds c)
        (Some deadline) (Some response_age) (ac_max_exit_requotes c)).

(** [_usage_budget_from_env] on the day [today] *)
Definition usage_budget_from_env (today : Z) : res UsageBudget :=
  process ← env_int "OPENAI_MAX_PROCESS_CALLS" 500 (Some 0) None;
  daily ← env_int "OPENAI_MAX_DAILY_CALLS" 1000 (Some 0) None;
  process_usd ← env_float "OPENAI_MAX_PROCESS_COST_USD" (f_of_Z 10) (Some (fzero, "0")) None;
  daily_usd ← env_float "OPENAI_MAX_DAILY_COST_USD" (f_of_Z 25) (Some (fzero, "0")) None;
  new_budget process daily process_usd daily_usd today.

(** [_env_live_trading_enabled] and [_assert_broker_order_allowed] *)
Definition live_trading_enabled : res bool :=
  match env "LIVE_TRADING_ENABLED" with
  | Some v => Ok (String.eqb (lower v) "true")
  | None => Err (ValueError "required environment variable is missing: LIVE_TRADING_ENABLED")
  end.

Definition assert_broker_order_allowed : res unit :=
  allowed ← live_trading_enabled;
  raise_if (negb allowed) (ValueError "broker order submission requires LIVE_TRADING_ENABLED=true").
End Settings.

(** ** Lemmas *)

Definition at_least {A} (le : A -> A -> bool) (m : option A) (v : A) : Prop := match m with Some b => le b v = true | None => True end.
Definition at_most {A} (le : A -> A -> bool) (m : option A) (v : A) : Prop := match m with Some b => le v b = true | None => True end.

Lemma env_int_bounds env name default lo hi v : env_int env name default lo hi = Ok v ->
  at_least Z.leb lo default -> at_most Z.leb hi default -> at_least Z.leb lo v /\ at_most Z.leb hi v.
Proof.
  unfold env_int. destruct (env name) as [raw|]; [|by intros [= <-]]. intros H _ _.
  apply bind_Ok in H as (z & _ & H). apply bind_Ok in H as (u1 & H1 & H). apply bind_Ok in H as (u2 & H2 & H).
  apply raise_if_Ok in H1, H2.
  injection H as <-. unfold at_least, at_most. destruct lo, hi; lia.
Qed.

Definition bound_ok (b : option (float * string)) : Prop := match b with Some (m, _) => is_nan m = false | None => True end.

Lemma env_float_bounds env name default lo hi v : env_float env name default lo hi = Ok v ->
  isfinite default = true -> at_least fleb (fst <$> lo) default -> at_most fleb (fst <$> hi) default -> bound_ok lo -> bound_ok hi ->
  isfinite v = true /\ at_least fleb (fst <$> lo) v /\ at_most fleb (fst <$> hi) v.
Proof.
  unfold env_float. destruct (env name) as [raw|]; [|by intros [= <-]]. intros H _ _ _ Hlo Hhi.
  apply bind_Ok in H as (x & _ & H). apply bind_Ok in H as (u0 & Hf & H). apply raise_if_Ok, negb_false_iff in Hf.
  apply bind_Ok in H as (u1 & H1 & H). apply bind_Ok in H as (u2 & H2 & H). injection H as <-. split; [done|].
  pose proof (isfinite_not_nan _ Hf) as Hn. unfold at_least, at_most. split.
  - destruct lo as [[m t]|]; [|done]. apply raise_if_Ok in H1. cbn in *. by apply fltb_false.
  - destruct hi as [[m t]|]; [|done]. apply raise_if_Ok in H2. cbn in *. by apply fltb_false.
Qed.

(** The limits are finite and in the ranges the settings allow. *)
Record limits_in_range (c : RiskConfig) : Prop := mkLimitsInRange {
  li_allocated : isfinite (allocated_krw c) = true /\ (f_ratio 1 100 <=? allocated_krw c)%F = true;
  li_percents : Forall (fun x => isfinite x = true /\ (f_ratio 1 100 <=? x)%F = true /\ (x <=? f_of_Z 100)%F = true)
                  [risk_per_trade_pct c; max_position_pct c; max_total_exposure_pct c];
  li_daily_loss : (fzero <=? max_daily_loss_pct c)%F = true /\ (max_daily_loss_pct c <=? f_of_Z 100)%F = true;
  li_counts : 1 <= max_positions c /\ 1 <= consecutive_loss_limit c /\ 1 <= max_orders_per_symbol c;
  li_trades : max_trades_per_day c = None;
  li_confidence : (fzero <=? minimum_confidence c)%F = true /\ (minimum_confidence c <=? f_one)%F = true;
}.

Lemma env_percent env name default v : env_float env name default percent_bounds.1 percent_bounds.2 = Ok v ->
  isfinite default = true -> (f_ratio 1 100 <=? default)%F = true -> (default <=? f_of_Z 100)%F = true ->
  isfinite v = true /\ (f_ratio 1 100 <=? v)%F = true /\ (v <=? f_of_Z 100)%F = true.
Proof. intros H Hf Hl Hh. by apply (env_float_bounds _ _ _ _ _ _ H). Qed.

Lemma env_count env name default v : env_int env name default (Some 1) None = Ok v -> 1 <= default -> 1 <= v.
Proof. intros H Hd. apply env_int_bounds in H as [H _]; cbn in *; lia. Qed.

Lemma frequency_confidence default d : (fzero <=? default)%F = true -> (default <=? f_one)%F = true ->
  let c := tf_ai_min_confidence (read_trade_frequency default d) in (fzero <=? c)%F = true /\ (c <=? f_one)%F = true.
Proof.
  intros H0 H1. cbv zeta. unfold read_trade_frequency. cbn [tf_ai_min_confidence].
  assert (Hp : (fzero <=? parse_confidence (get_metadata AI_MIN_CONFIDENCE_KEY d) default)%F = true /\
    (parse_confidence (get_metadata AI_MIN_CONFIDENCE_KEY d) default <=? f_one)%F = true).
  { unfold parse_confidence. destruct (get_metadata _ d) as [text|]; [|done]. destruct (float_of_text text) as [x|]; [|done].
    destruct (_ && _) eqn:E; [|done]. by apply andb_true_iff in E. }
  destruct (_ && _); [|done]. by vm_compute.
Qed.

Lemma one_second_positive x : (f_one <=? x)%F = true -> (x <=? fzero)%F = false.
Proof.
  intros H. destruct (x <=? fzero)%F eqn:E; [|done]. pose proof (fleb_trans _ _ _ H E) as Hx. by vm_compute in Hx.
Qed.

(** ** Properties *)

(** Fact: whatever the environment and the operator's settings hold, the risk limits
    the service works with are finite and within the documented ranges. *)
Theorem risk_limits_in_range env d c : risk_config_from_env env d = Ok c -> limits_in_range c.
Proof.
  unfold risk_config_from_env, risk_settings_from_env. intros H. apply bind_Ok in H as (r & H & [= <-]).
  apply bind_Ok in H as (allocated & Ha & H). apply bind_Ok in H as (risk & Hr & H). apply bind_Ok in H as (position & Hp & H).
  apply bind_Ok in H as (exposure & He & H). apply bind_Ok in H as (positions & Hn & H). apply bind_Ok in H as (loss & Hd & H).
  apply bind_Ok in H as (losses & Hl & H). apply bind_Ok in H as (orders & Ho & H). apply bind_Ok in H as (confidence & Hc & [= <-]).
  apply env_float_bounds in Ha as (Haf & Hal & _); [|vm_compute; done..].
  apply env_float_bounds in Hd as (_ & Hdl & Hdh); [|vm_compute; done..].
  apply env_float_bounds in Hc as (_ & Hcl & Hch); [|vm_compute; done..]. cbn in *. constructor; cbn.
  - done.
  - repeat constructor; by (eapply env_percent; [eassumption|..]; vm_compute).
  - done.
  - repeat split; by (eapply env_count; [eassumption|]; vm_compute).
  - done.
  - by apply frequency_confidence.
Qed.

(** Fact: the trading configuration made of the settings is one the trading cycle
    accepts, and its deadline leaves at least a second. *)
Theorem trade_settings_accepted env max_quantity d c :
  auto_trade_config_from_env env max_quantity d = Ok c -> 0 < max_quantity ->
  validate_config c = Ok tt /\ ac_risk c = with_confidence (ac_risk c) (ac_min_confidence c) /\
  exists deadline, ac_cycle_deadline_seconds c = Some deadline /\ (f_one <=? deadline)%F = true.
Proof.
  unfold auto_trade_config_from_env. intros H Hq. apply bind_Ok in H as (risk & _ & H).
  apply bind_Ok in H as (deadline & Hd & H). apply bind_Ok in H as (age & Ha & H). injection H as <-.
  apply env_float_bounds in Hd as (_ & Hd & _); [|vm_compute; done..].
  apply env_float_bounds in Ha as (_ & Ha & _); [|vm_compute; done..]. cbn in Hd, Ha. split; [|split; [|by exists deadline]].
  - unfold validate_config. cbn [ac_max_quantity ac_cycle_deadline_seconds ac_max_ai_response_age_seconds].
    replace (max_quantity <=? 0) with false by lia. rewrite !one_second_positive by done. reflexivity.
  - cbn. by destruct risk.
Qed.

(** ** Witnesses *)

Definition w_settings_env (name : string) : option string :=
  if String.eqb name "RISK_PER_TRADE_PCT" then Some "0.5" else if String.eqb name "MAX_POSITIONS" then Some "2" else None.

Lemma risk_limits_in_range_witness : exists c, risk_config_from_env w_settings_env empty_db = Ok c /\ max_positions c = 2 /\ 1 <= max_positions c.
Proof.
  assert (H : is_ok (risk_config_from_env w_settings_env empty_db) = true) by (vm_compute; reflexivity).
  destruct (risk_config_from_env w_settings_env empty_db) as [c|] eqn:E; [|discriminate H]. exists c. split; [reflexivity|]. split.
  - vm_compute in E. injection E as <-. reflexivity.
  - exact (proj1 (li_counts c (risk_limits_in_range w_settings_env empty_db c E))).
Defined.

Lemma trade_settings_accepted_witness : exists c, auto_trade_config_from_env w_settings_env 3 empty_db = Ok c /\ validate_config c = Ok tt.
Proof.
  assert (H : is_ok (auto_trade_config_from_env w_settings_env 3 empty_db) = true) by (vm_compute; reflexivity).
  destruct (auto_trade_config_from_env w_settings_env 3 empty_db) as [c|] eqn:E; [|discriminate H]. exists c. split; [reflexivity|].
  apply (trade_settings_accepted w_settings_env 3 empty_db c E). reflexivity.
Defined.
