(* ===== verification/ServiceGates.v ===== *)
(** * The gates of the trading service ([cli.py])

    What the service loop and a trading cycle look at before they act, and what
    they record: the operator's pause, the emergency stop, the automatic pause, the
    lease of another service, the state of the order supervisor, the daily
    retention and the throttled alerts. *)

From S2P Require Import Prelude PyStr PyFloat PyTime IsoText PyDecimal PyDict PyJson Sha256 DbCore DbOrders DbRuntime DbLedger DbMarket DbFrames.
From S2P Require Import KisHttp KisOrder KisOrderStatus KisAccount System SystemFrames Reconciliation OrderManagement Operator KisQueries AutoUniverse.
From S2P Require Import Risk AiBudget ExitPolicy Bars Indicators AiDecision AutoTrade ServiceSettings.

Definition AUTO_PAUSE_KEY : string := "runtime.auto_paused".
Definition AUTO_PAUSE_REASON_KEY : string := "runtime.auto_pause_reason".
Definition LEASE_NAME : string := "trading-service".
Definition RETENTION_LAST_DAY_KEY : string := "market_retention:last_cleanup_day".
Definition SERVICE_ALERT_THROTTLE : Z := 15 * us_per_minute.

(** [_metadata_flag] *)
Definition metadata_flag (keys : list string) (d : db) : bool := existsb (fun k => truth_text (or_empty (get_metadata k d))) keys.

Definition emergency_active (d : db) : bool := metadata_flag [EMERGENCY_STOP_KEY; "emergency_stop"] d.

(** [payload.get("status")] of the supervisor's record, when that is an object *)
Definition supervisor_status (d : db) : option (dict json) :=
  match loads (or_empty (or_text (get_metadata "order-supervisor.status" d) (Some "{}"))) with
  | Some (JObj payload) => Some payload
  | _ => None
  end.

(** [_supervisor_dependency_blocks_service] *)
Definition supervisor_dependency_blocks (d : db) : bool :=
  match supervisor_status d with
  | Some payload =>
      mem_str (lower (strip (match dget "status" payload with Some v => if truthy v then py_str v else "" | None => "" end)))
        ["dependency_unavailable"; "error"]
  | None => false
  end.

(** [naive.astimezone(...)] takes a naive value for the machine's local time:
    [local_offset] minutes east of UTC. *)
Definition local_instant (local_offset : Z) (d : datetime) : Z :=
  match dt_tz d with Some _ => instant d | None => dt_us d - local_offset * us_per_minute end.

Definition SUPERVISOR_UNKNOWN : list string := ["order_supervisor"].

(** [_supervisor_gate_unknown_fields] *)
Definition supervisor_gate_unknown_fields (env : string -> option string) (local_offset : Z) (now : datetime) (d : db) : res (list string) :=
  heartbeat ← get_heartbeat "order-supervisor" d;
  match heartbeat : option string with
  | None => Ok SUPERVISOR_UNKNOWN
  | Some text =>
      match fromisoformat text with
      | Err _ => Ok SUPERVISOR_UNKNOWN
      | Ok at_ =>
          let at_ := if is_naive at_ then with_tz at_ (Some UTC) else at_ in
          max_age ← env_float env "SERVICE_HEARTBEAT_MAX_AGE_SECONDS" (f_of_Z 180) (Some (f_one, "1")) None;
          if (max_age <? f_ratio (local_instant local_offset now - instant at_) 1000000)%F then Ok SUPERVISOR_UNKNOWN
          else
            match supervisor_status d with
            | Some payload =>
                match dget "status" payload with
                | Some (JStr status) => if String.eqb status "reconciled" then Ok [] else Ok SUPERVISOR_UNKNOWN
                | _ => Ok SUPERVISOR_UNKNOWN
                end
            | None => Ok SUPERVISOR_UNKNOWN
            end
      end
  end.

(** [_cleanup_market_data]: [None] when the day was already cleaned *)
Definition retention_day (now : datetime) : string := iso_date (dt_days (as_kst now)).

Section Gates.
Context {W : Type} {CW : Clock W}.

(** [market.clock.kst_now] *)
Definition kst_now : stm (sys W) datetime := t ← read_clock; mret (with_tz (astimezone t KST) None).

(** [_sync_service_runtime] *)
Definition set_paused_now (paused : bool) (reason : string) : stm (sys W) RuntimeControl := on_db (set_runtime_paused paused reason "service").

Definition sync_service_runtime (startup : bool) : stm (sys W) RuntimeControl :=
  control ← query get_runtime_control;
  emergency ← query emergency_active;
  if emergency : bool then
    if negb (rc_paused control) then set_paused_now true "emergency_stop_restored" else mret control
  else if startup || rc_paused control then set_paused_now false (if startup then "service_start_auto_resume" else "automatic_recovery")
  else mret control.

(** [_set_automatic_pause] *)
Definition set_automatic_pause (active : bool) (reason : string) : stm (sys W) unit :=
  _ ← set_metadata_now AUTO_PAUSE_KEY (if active then "true" else "false") None;
  _ ← set_metadata_now AUTO_PAUSE_REASON_KEY (if active then reason else "") None;
  mret tt.

(** [_lease_is_active] *)
Definition lease_is_active (owner_id : option string) : stm (sys W) bool :=
  current ← read_clock;
  _ ← open_schema;
  lease ← query (fun d => t_service_leases d !! LEASE_NAME);
  match lease : option service_lease with
  | None => mret false
  | Some l =>
      if match owner_id with Some o => String.eqb (sl_owner_id l) o | None => false end then mret false
      else
        match fromisoformat (sl_expires_at l) with
        | Err _ => mret true
        | Ok expires_at => if is_naive expires_at then mret true else lift_res (dt_ltb current expires_at)
        end
  end.

Definition cleanup_market_data (now : datetime) (tick_days bar_days : Z) : stm (sys W) (option (Z * Z)) :=
  let aware_now := if is_naive now then with_tz now (Some KST) else now in
  done ← query (get_metadata RETENTION_LAST_DAY_KEY);
  if bool_decide (done = Some (retention_day now)) then mret None
  else
    ticks ← on_db (fun _ d => Ok (delete_old_ticks (dt_add aware_now (- (tick_days * us_per_day))) d));
    bars ← on_db (fun _ d => Ok (delete_old_bars (dt_add aware_now (- (bar_days * us_per_day))) d));
    _ ← set_metadata_now RETENTION_LAST_DAY_KEY (retention_day now) (Some now);
    mret (Some (ticks, bars)).

(** The operator's notifier, if there is one: [notifier] or that of the
    environment.  Its [send] may store what it sent. *)
Variable notifier : option (string -> stm (sys W) unit).

(** [_notify_operator_if_possible] *)
Definition notify_operator (text : string) : stm (sys W) bool :=
  match notifier with
  | None => mret false
  | Some send => sent ← except_Exception (send text); mret (is_ok (sent : res unit))
  end.

(** The alert was sent less than a quarter of an hour ago. *)
Definition recently_sent (message : string) (now : datetime) (fingerprint_key sent_at_key : string) (d : db) : bool :=
  match get_metadata fingerprint_key d, get_metadata sent_at_key d with
  | Some previous, Some at_ =>
      if String.eqb previous (sha256_hex message) && negb (sempty at_) then
        match fromisoformat at_ with
        | Ok parsed => instant now - instant parsed <? SERVICE_ALERT_THROTTLE
        | Err _ => false
        end
      else false
  | _, _ => false
  end.

(** [_send_throttled_service_alert] *)
Definition send_throttled_service_alert (message : string) (now : datetime) (fingerprint_key sent_at_key : string) : stm (sys W) bool :=
  recent ← query (recently_sent message now fingerprint_key sent_at_key);
  if recent : bool then mret false
  else
    delivered ← notify_operator message;
    if negb delivered then mret false
    else
      _ ← set_metadata_now fingerprint_key (sha256_hex message) (Some now);
      _ ← set_metadata_now sent_at_key (isoformat now) (Some now);
      mret true.

(** [_notify_order_management_alert]: the events as a sorted set of triples *)
Definition event_leb (a b : string * string * string) : bool :=
  let '(a1, a2, a3) := a in let '(b1, b2, b3) := b in
  if String.eqb a1 b1 then if String.eqb a2 b2 then text_leb a3 b3 else text_leb a2 b2 else text_leb a1 b1.
Definition management_events (report : OrderManagementReport) : list (string * string * string) :=
  sort_by event_leb (dedup []
    (map (fun a => (oc_action a, if sempty (oc_symbol a) then "unknown" else oc_symbol a, oc_reason a))
       (List.filter (fun a => mem_str (oc_action a) ["CANCEL_PENDING"; "UNKNOWN"; "OPERATOR_REVIEW"]) (om_actions report)) ++
     (if om_operator_review report then [("OPERATOR_REVIEW", "unknown", "manual_review_required")] else []))).

Definition NEWLINE : string := String "010" "".
Definition ORDER_MANAGEMENT_ALERT_FINGERPRINT_KEY : string := "service:order_management_alert:fingerprint".
Definition ORDER_MANAGEMENT_ALERT_AT_KEY : string := "service:order_management_alert:at".

Definition notify_order_management_alert (report : OrderManagementReport) (now : datetime) : stm (sys W) bool :=
  match management_events report with
  | [] => mret false
  | events =>
      send_throttled_service_alert
        ("order management alert" +:+ NEWLINE +:+
         join NEWLINE (map (fun e => "- action=" +:+ e.1.1 +:+ " symbol=" +:+ e.1.2 +:+ " reason=" +:+ e.2) events) +:+
         NEWLINE +:+ "New entries are blocked until operator review.")
        now ORDER_MANAGEMENT_ALERT_FINGERPRINT_KEY ORDER_MANAGEMENT_ALERT_AT_KEY
  end.
End Gates.

(** [_reconcile_broker_positions]: the comparison of the broker's holdings with the
    local positions, both keyed by symbol *)
Definition with_quantity (m : gmap string Z) (s : string) : string := s +:+ ":" +:+ str_int (or_else (m !! s) 0).
Definition sorted_symbols (s : gset string) : list string := sort_by text_leb (elements s).

Definition position_discrepancies (broker local : gmap string Z) : bool * list string :=
  let broker_only := sorted_symbols (dom broker ∖ dom local) in
  let local_only := sorted_symbols (dom local ∖ dom broker) in
  let mismatched := List.filter (fun s => negb (bool_decide (broker !! s = local !! s))) (sorted_symbols (dom broker ∩ dom local)) in
  let line (name : string) (text : string -> string) (l : list string) : list string :=
    match l with [] => [] | _ => [name +:+ join "," (map text l)] end in
  (match local_only, broker_only, mismatched with [], [], [] => true | _, _, _ => false end,
   line "operator_review_local_position_only=" (with_quantity local) local_only ++
   line "operator_review_broker_only=" (with_quantity broker) broker_only ++
   line "operator_review_quantity_mismatch="
     (fun s => s +:+ ":broker=" +:+ str_int (or_else (broker !! s) 0) +:+ ":local=" +:+ str_int (or_else (local !! s) 0)) mismatched).

(** [{position.symbol: position.quantity for ...}]: the last of a symbol stays *)
Definition quantities {A} (symbol : A -> string) (quantity : A -> Z) (l : list A) : gmap string Z :=
  fold_left (fun m p => <[symbol p := quantity p]> m) l ∅.

Definition reconcile_positions (broker_positions : list KisBalancePosition) (d : db) : bool * list string :=
  position_discrepancies (quantities bl_symbol bl_quantity broker_positions) (quantities lp_symbol lp_quantity (list_open_live_positions None d)).

(** ** Lemmas *)

(** Only the control row differs. *)
Definition only_control (d d' : db) : Prop := exists f, d' = set_control f d.

#[export] Instance only_control_refl : Reflexive only_control.
Proof. intros d. exists (fun c => c). by destruct d. Qed.

Lemma paused_now_run {W} {CW : Clock W} paused reason (s : sys W) : sempty reason = false -> exists c d w,
  set_paused_now paused reason s = (Ok c, mkSys d w (s_trace s)) /\ rc_paused c = paused /\ get_runtime_control d = c /\
  rc_environment c = rc_environment (get_runtime_control (s_db s)) /\ only_control (s_db s) d.
Proof.
  intros Hr. unfold set_paused_now, on_db, set_runtime_paused. destruct (wall_clock (s_world s)) as [now w]. rewrite Hr.
  eexists _, _, w. split; [reflexivity|]. split; [done|]. split; [|split; [|by eexists]].
  - unfold get_runtime_control. cbn. f_equal.
  - unfold get_runtime_control. cbn. by destruct (t_runtime_control (s_db s)).
Qed.

Lemma clock_run {W} {CW : Clock W} (s : sys W) :
  read_clock s = (Ok (wall_clock (s_world s)).1, mkSys (s_db s) (wall_clock (s_world s)).2 (s_trace s)).
Proof. unfold read_clock. by destruct (wall_clock (s_world s)). Qed.

Lemma local_instant_kst local_offset t :
  local_instant local_offset (with_tz (astimezone t KST) None) = instant t + (KST - local_offset) * us_per_minute.
Proof. unfold local_instant, with_tz, astimezone. cbn. lia. Qed.

(** ** Properties *)

(** Fact: after the synchronisation of a start or of a cycle the runtime is paused
    exactly when an emergency stop is set: any other pause, the operator's
    included, is lifted.  Only the control row changes, never its environment. *)
Theorem sync_follows_emergency {W} {CW : Clock W} startup (s : sys W) : exists c s',
  sync_service_runtime startup s = (Ok c, s') /\ rc_paused c = emergency_active (s_db s) /\
  get_runtime_control (s_db s') = c /\ rc_environment c = rc_environment (get_runtime_control (s_db s)) /\
  only_control (s_db s) (s_db s') /\ s_trace s' = s_trace s.
Proof.
  unfold sync_service_runtime. do 2 (erewrite stm_bind_run by reflexivity).
  set (c0 := get_runtime_control (s_db s)). destruct (emergency_active (s_db s)) eqn:E.
  - destruct (rc_paused c0) eqn:P; cbn [negb]; [by exists c0, s|].
    destruct (paused_now_run true "emergency_stop_restored" s eq_refl) as (c & d & w & H & H1 & H2 & H3 & H4). rewrite H.
    by eexists c, _.
  - destruct (startup || rc_paused c0) eqn:P.
    + destruct (paused_now_run false (if startup then "service_start_auto_resume" else "automatic_recovery") s ltac:(by destruct startup)) as (c & d & w & H & H1 & H2 & H3 & H4).
      rewrite H. by eexists c, _.
    + apply orb_false_iff in P as [_ P]. by exists c0, s.
Qed.

(** Fact: no new entry is allowed by the supervisor's gate unless the supervisor's last
    record is [reconciled] and its heartbeat is young enough, where the age is
    measured as if the Korean time [now] were the machine's local time: it is wrong
    by the distance of the machine's zone to Korea's. *)
Theorem supervisor_gate_open env local_offset clock d :
  let now := with_tz (astimezone clock KST) None in
  supervisor_gate_unknown_fields env local_offset now d = Ok [] ->
  exists text at_ payload max_age, get_heartbeat "order-supervisor" d = Ok (Some text) /\ fromisoformat text = Ok at_ /\
    env_float env "SERVICE_HEARTBEAT_MAX_AGE_SECONDS" (f_of_Z 180) (Some (f_one, "1")) None = Ok max_age /\
    (max_age <? f_ratio (instant clock - instant at_ + (KST - local_offset) * us_per_minute) 1000000)%F = false /\
    supervisor_status d = Some payload /\ dget "status" payload = Some (JStr "reconciled").
Proof.
  cbv zeta. unfold supervisor_gate_unknown_fields. intros H. apply bind_Ok in H as ([text|] & Hh & H); [|done].
  destruct (fromisoformat text) as [at_|] eqn:Ht; [|done].
  apply bind_Ok in H as (max_age & Hm & H). destruct (_ <? _)%F eqn:Ha; [done|].
  destruct (supervisor_status d) as [payload|] eqn:Hs; [|done]. destruct (dget "status" payload) as [[| | | |status| |]|] eqn:Hg; try done.
  destruct (String.eqb status "reconciled") eqn:He; [|done]. apply String.eqb_eq in He as ->.
  exists text, at_, payload, max_age. repeat split; try done. rewrite <- Ha. f_equal. f_equal.
  rewrite local_instant_kst. destruct at_ as [us [off|]]; unfold instant, is_naive, with_tz; cbn; unfold UTC; lia.
Qed.

(** Fact: a service that held its lease at the time of the check keeps every other
    trading cycle out: another owner finds the lease active. *)
Theorem running_lease_blocks_others {W} {CW : Clock W} owner (s : sys W) l e :
  t_service_leases (s_db s) !! LEASE_NAME = Some l -> owner <> Some (sl_owner_id l) ->
  fromisoformat (sl_expires_at l) = Ok e -> is_naive e = false -> is_naive (wall_clock (s_world s)).1 = false ->
  instant (wall_clock (s_world s)).1 < instant e ->
  (lease_is_active owner s).1 = Ok true.
Proof.
  intros Hl Ho He Hn Hw Hlt. unfold lease_is_active. erewrite stm_bind_run by apply clock_run.
  erewrite stm_bind_run by apply open_schema_run. erewrite stm_bind_run by reflexivity. cbn [s_db].
  change (t_service_leases (init_schema (s_db s))) with (t_service_leases (s_db s)). rewrite Hl.
  replace (match owner with Some o => String.eqb (sl_owner_id l) o | None => false end) with false.
  - rewrite He, Hn. unfold lift_res, dt_ltb. rewrite Hw, Hn. cbn. by rewrite (proj2 (Z.ltb_lt _ _)).
  - destruct owner as [o|]; [|done]. symmetry. apply String.eqb_neq. congruence.
Qed.

(** Fact: the retention runs at most once on a Korean day: after a run of the day, a
    later cycle of the same day deletes nothing and changes nothing. *)
Theorem retention_once_a_day {W} {CW : Clock W} now tick_days bar_days (s : sys W) r s' now' ticks bars (s2 : sys W) :
  cleanup_market_data now tick_days bar_days s = (Ok r, s') -> retention_day now' = retention_day now ->
  get_metadata RETENTION_LAST_DAY_KEY (s_db s2) = get_metadata RETENTION_LAST_DAY_KEY (s_db s') ->
  cleanup_market_data now' ticks bars s2 = (Ok None, s2).
Proof.
  intros H Hd Hk. assert (Hm : get_metadata RETENTION_LAST_DAY_KEY (s_db s') = Some (retention_day now)).
  { revert H. unfold cleanup_market_data. erewrite stm_bind_run by reflexivity. case_bool_decide as E; [by intros [= <- <-]|].
    intros H. apply stm_bind_Ok in H as (a & s1 & _ & H). apply stm_bind_Ok in H as (b & s3 & _ & H).
    destruct (set_metadata_run RETENTION_LAST_DAY_KEY (retention_day now) now s3 eq_refl) as [w Hw].
    erewrite stm_bind_run in H by exact Hw. injection H as <- <-. cbn [s_db]. rewrite metadata_put. by rewrite String.eqb_refl. }
  unfold cleanup_market_data. erewrite stm_bind_run by reflexivity. rewrite Hk, Hm, Hd. by rewrite bool_decide_eq_true_2.
Qed.

Lemma alert_run {W} {CW : Clock W} notifier message now fk ak (s : sys W) b s' : sempty (strip fk) = false -> sempty (strip ak) = false ->
  send_throttled_service_alert notifier message now fk ak s = (Ok b, s') ->
  (recently_sent message now fk ak (s_db s) = true /\ b = false /\ s' = s) \/
  (recently_sent message now fk ak (s_db s) = false /\ exists d s1, notify_operator notifier message s = (Ok d, s1) /\ b = d /\
     s_trace s' = s_trace s1 /\
     s_db s' = if d then put_metadata ak (isoformat now) (iso now) (put_metadata fk (sha256_hex message) (iso now) (s_db s1)) else s_db s1).
Proof.
  intros Hf Ha. unfold send_throttled_service_alert. erewrite stm_bind_run by reflexivity.
  destruct (recently_sent _ _ _ _ _); [intros [= <- <-]; by left|]. intros H. right. split; [done|].
  apply stm_bind_Ok in H as (d & s1 & Hn & H). exists d, s1. split; [done|]. destruct d; cbn [negb] in H; [|by injection H as <- <-].
  destruct (set_metadata_run fk (sha256_hex message) now s1 Hf) as [w1 H1]. erewrite stm_bind_run in H by exact H1.
  match type of H with mbind _ _ ?s2 = _ => destruct (set_metadata_run ak (isoformat now) now s2 Ha) as [w2 H2] end.
  erewrite stm_bind_run in H by exact H2. by injection H as <- <-.
Qed.

Lemma isoformat_nonempty d : valid_dt d -> sempty (isoformat d) = false.
Proof. intros Hd. destruct (isoformat d) eqn:E; [|done]. apply read_iso_isoformat in Hd. by rewrite E in Hd. Qed.

(** Fact: once an alert was delivered, the same alert within a quarter of an hour is
    not sent again (nothing at all happens), across restarts, as long as its two
    entries stay; and the entries are written only after a delivery. *)
Theorem alerts_throttled {W} {CW : Clock W} notifier message now fk ak (s : sys W) s' notifier' now' (s2 : sys W) :
  sempty (strip fk) = false -> sempty (strip ak) = false -> fk <> ak -> valid_dt now ->
  send_throttled_service_alert notifier message now fk ak s = (Ok true, s') ->
  get_metadata fk (s_db s2) = get_metadata fk (s_db s') -> get_metadata ak (s_db s2) = get_metadata ak (s_db s') ->
  instant now' < instant now + SERVICE_ALERT_THROTTLE ->
  send_throttled_service_alert notifier' message now' fk ak s2 = (Ok false, s2).
Proof.
  intros Hf Ha Hne Hv H Ef Ea Hlt. apply alert_run in H; [|done|done]. destruct H as [(_ & H & _)|(_ & d & s1 & _ & <- & _ & Hd)]; [done|].
  unfold send_throttled_service_alert. erewrite stm_bind_run by reflexivity.
  replace (recently_sent message now' fk ak (s_db s2)) with true; [done|]. unfold recently_sent. rewrite Ef, Ea, Hd, !metadata_put.
  rewrite (proj2 (String.eqb_neq fk ak)) by done. rewrite !String.eqb_refl. rewrite isoformat_nonempty by done. cbn [negb andb].
  unfold fromisoformat. rewrite read_iso_isoformat by done. symmetry. apply Z.ltb_lt. lia.
Qed.

Lemma filter_none {A} (p : A -> bool) l : (forall x, p x = false) -> List.filter p l = [].
Proof. intros H. induction l as [|x l IH]; [done|]. cbn. by rewrite H. Qed.

Lemma sorted_symbols_nil s : sorted_symbols s = [] <-> s = ∅.
Proof.
  unfold sorted_symbols. split.
  - intros H. assert (Hp : Permutation (sort_by text_leb (elements s)) (elements s)) by apply sort_by_perm.
    rewrite H in Hp. apply Permutation_nil in Hp. apply leibniz_equiv. by apply elements_empty_iff.
  - by intros ->.
Qed.

Lemma sorted_symbols_elem s x : In x (sorted_symbols s) <-> x ∈ s.
Proof.
  unfold sorted_symbols. rewrite <- elem_of_elements, list_elem_of_In.
  assert (Hp : Permutation (sort_by text_leb (elements s)) (elements s)) by apply sort_by_perm.
  split; apply Permutation_in; [done|by symmetry].
Qed.

(** Fact: the comparison of the broker's holdings with the local positions passes
    exactly when the two agree on every symbol and quantity, and otherwise says
    what an operator must look at. *)
Theorem positions_agree_iff broker local :
  ((position_discrepancies broker local).1 = true <-> broker = local) /\
  ((position_discrepancies broker local).2 = [] <-> broker = local).
Proof.
  unfold position_discrepancies. set (bo := sorted_symbols (dom broker ∖ dom local)). set (lo := sorted_symbols (dom local ∖ dom broker)).
  set (mm := List.filter _ _). cbv zeta. cbn [fst snd].
  assert (H : (lo = [] /\ bo = [] /\ mm = []) <-> broker = local).
  { split.
    - intros (Hl & Hb & Hm). subst bo lo. apply sorted_symbols_nil in Hl, Hb. apply map_eq. intros x.
      destruct (decide (x ∈ dom broker ∩ dom local)) as [Hx|Hx].
      + destruct (decide (broker !! x = local !! x)) as [|Hne]; [done|]. assert (Hin : In x mm).
        { subst mm. apply filter_In. split; [by apply sorted_symbols_elem|]. by rewrite bool_decide_eq_false_2. }
        by rewrite Hm in Hin.
      + assert (x ∉ dom broker /\ x ∉ dom local) as [H1 H2] by set_solver. apply not_elem_of_dom in H1, H2. congruence.
    - intros ->. subst bo lo mm. rewrite (proj2 (sorted_symbols_nil (dom local ∖ dom local))) by set_solver.
      rewrite filter_none; [done|]. intros x. by rewrite bool_decide_eq_true_2. }
  rewrite <- H. clear H. split; destruct lo, bo, mm; cbn; split; try done; try (by intros (?&?&?)); by intros ?.
Qed.

(** ** Witnesses *)

(** A supervisor that reconciled a second ago *)
Definition w_gate_clock : datetime := Datetime 1700010031000000 (Some 0).
Definition w_gate_now : datetime := with_tz (astimezone w_gate_clock KST) None.
Definition w_supervised : db := Eval vm_compute in
  put_metadata "order-supervisor.status" (dumps (JObj [("status", JStr "reconciled")])) "2023-11-15T01:00:30+00:00"
    (put_metadata "heartbeat:order-supervisor" "2023-11-15T01:00:30+00:00" "2023-11-15T01:00:30+00:00" empty_db).

(** Fact: on a machine whose zone is Korea's the gate is open; on one whose zone is
    UTC, as in the container image, the same supervisor is taken for dead. *)
Example supervisor_gate_needs_korean_zone :
  supervisor_gate_unknown_fields (fun _ => None) KST w_gate_now w_supervised = Ok [] /\
  supervisor_gate_unknown_fields (fun _ => None) UTC w_gate_now w_supervised = Ok SUPERVISOR_UNKNOWN.
Proof. vm_compute. split; reflexivity. Qed.

Lemma supervisor_gate_open_witness :
  supervisor_gate_unknown_fields (fun _ => None) KST w_gate_now w_supervised = Ok [] /\
  exists payload, supervisor_status w_supervised = Some payload /\ dget "status" payload = Some (JStr "reconciled").
Proof.
  assert (E : supervisor_gate_unknown_fields (fun _ => None) KST w_gate_now w_supervised = Ok []) by (vm_compute; reflexivity).
  split; [exact E|].
  destruct (supervisor_gate_open (fun _ => None) KST w_gate_clock w_supervised E) as (text & at_ & payload & m & _ & _ & _ & _ & H1 & H2).
  by exists payload.
Defined.

#[local] Instance w_gate_wall : Clock unit := fun w => (w_gate_clock, w).
Definition w_held : sys unit := mkSys (set_leases (<[LEASE_NAME := mkLease "service" "2023-11-15T01:00:00+00:00" "2023-11-15T01:00:00+00:00" "2023-11-15T01:03:00+00:00"]>) empty_db) tt [].

Lemma running_lease_blocks_others_witness : (lease_is_active (Some "operator") w_held).1 = Ok true.
Proof.
  apply (running_lease_blocks_others (Some "operator") w_held (mkLease "service" "2023-11-15T01:00:00+00:00" "2023-11-15T01:00:00+00:00" "2023-11-15T01:03:00+00:00")
    (Datetime 1700010180000000 (Some 0))); [reflexivity|discriminate|vm_compute; reflexivity|reflexivity..].
Defined.

Definition w_cleaned := Eval vm_compute in cleanup_market_data w_gate_now 7 365 (mkSys empty_db tt []).

Lemma retention_once_a_day_witness : w_cleaned.1 = Ok (Some (0, 0)) /\
  cleanup_market_data (dt_add w_gate_now 3600000000) 7 365 w_cleaned.2 = (Ok None, w_cleaned.2).
Proof.
  split; [reflexivity|].
  apply (retention_once_a_day w_gate_now 7 365 (mkSys empty_db tt []) (Some (0, 0)) w_cleaned.2); vm_compute; reflexivity.
Defined.

Definition w_alerted := Eval vm_compute in
  send_throttled_service_alert (Some (fun _ => mret tt)) "setup issue" w_gate_now "alert:fingerprint" "alert:at" (mkSys empty_db tt []).

Lemma alerts_throttled_witness : w_alerted.1 = Ok true /\
  send_throttled_service_alert (Some (fun _ => mret tt)) "setup issue" (dt_add w_gate_now 60000000) "alert:fingerprint" "alert:at" w_alerted.2 =
  (Ok false, w_alerted.2).
Proof.
  split; [reflexivity|].
  apply (alerts_throttled (Some (fun _ => mret tt)) "setup issue" w_gate_now "alert:fingerprint" "alert:at" (mkSys empty_db tt []) w_alerted.2);
    [reflexivity|reflexivity|discriminate|split; [vm_compute; split; congruence|exact I]|vm_compute; reflexivity..].
Defined.
