(* ===== verification/TradeCycle.v ===== *)
(** * One trading cycle of the command line and of the service ([cli.py])

    [_make_broker_cycle_state] reads the account, the prices, the buying power and
    the realized profit and loss into one risk snapshot; [auto_trade_cycle] passes
    every gate, collects market data, looks at the gates again and runs the
    trading pipeline of [AutoTrade] with the KIS clients, behind the guarded
    submitter when a service runs it.  What both are given of the outside world is
    the record [host]. *)

From S2P Require Import Prelude PyStr PyFloat PyTime IsoText PyDecimal PyDict PyJson Risk DbCore DbOrders DbRuntime DbMarket DbLedger DbFrames DbPaper.
From S2P Require Import KisHttp KisOrder KisOrderStatus KisAccount System SystemFrames Reconciliation OrderManagement FillNotice KisWs KisAuth Config KisQueries.
From S2P Require Import Bars ExitPolicy Indicators AiBudget AiDecision GuardedSubmitter AutoTrade Operator Collector Performance Portfolio AutoUniverse ServiceSettings ServiceGates SupervisorStatus FillNoticeReconciliation FillNoticeWorker.

(** What the process is given: its configuration file and environment, the
    authentication and the HTTP sessions of KIS, the market data socket and the
    machine's clocks, the OpenAI client, and the Telegram notifier (without a
    database) that [TELEGRAM_BOT_TOKEN] and [TELEGRAM_ALLOWED_CHAT_ID] make. *)
Record host (W : Type) := mkHost {
  ho_config_text : stm W string;
  ho_environment : stm W (dict string);
  ho_authenticate : KisEnvironment -> KisApiCredentials -> bool -> stm W KisAuthResult;
  ho_get : http_request -> stm W response;
  ho_post : http_request -> stm W response;
  ho_socket : ws_socket W;
  ho_monotonic : stm W float;
  ho_sleeper : float -> stm W unit;
  ho_random : stm W float;
  ho_fresh : W -> string * W;
  ho_openai : stm W (ai_client W);
  ho_notifier : stm W (notifier W);
}.
Arguments mkHost {W} _ _ _ _ _ _ _ _ _ _ _ _.
Arguments ho_config_text {W} _.
Arguments ho_environment {W} _.
Arguments ho_authenticate {W} _ _ _ _.
Arguments ho_get {W} _.
Arguments ho_post {W} _.
Arguments ho_socket {W} _.
Arguments ho_monotonic {W} _.
Arguments ho_sleeper {W} _.
Arguments ho_random {W} _.
Arguments ho_fresh {W} _.
Arguments ho_openai {W} _.
Arguments ho_notifier {W} _.

(** [_kis_api_for] and [_kis_account_for] *)
Definition required_api (c : AppConfig) (e : KisEnvironment) : res KisApiCredentials :=
  match kis_api_for c (environment_value e) with
  | Some credentials => Ok credentials
  | None => Err (ValueError (match e with
      | REAL => "KIS_REAL_APP_KEY and KIS_REAL_APP_SECRET environment variables are required for real KIS environment"
      | DEMO => "KIS_DEMO_APP_KEY and KIS_DEMO_APP_SECRET are required for demo KIS environment" end))
  end.

Definition required_account (c : AppConfig) (e : KisEnvironment) : res (string * string) :=
  let missing := Err (ValueError (match e with
      | REAL => "KIS_REAL_ACCOUNT_NO is required for real broker order submission"
      | DEMO => "KIS_DEMO_ACCOUNT_NO is required for demo broker order submission" end)) in
  match kis_account_for c (environment_value e) with
  | Some a => match ai_account_no a with
              | Some no => if sempty no then missing else Ok (no, ai_account_product_code a)
              | None => missing
              end
  | None => missing
  end.

(** [json.dumps(..., separators=(",", ":"))] *)
Fixpoint dumps_compact (v : json) : string :=
  match v with
  | JList l => "[" +:+ join "," (map dumps_compact l) +:+ "]"
  | JObj o => "{" +:+ join "," (map (fun kv => quoted (fst kv) +:+ ":" +:+ dumps_compact (snd kv)) o) +:+ "}"
  | _ => dumps v
  end.

Definition jnumber (x : option float) : json := match x with Some v => JFloat v | None => JNull end.
Definition sorted_text (l : list string) : json := JList (map JStr (sort_by text_leb l)).

(** [_sanitized_live_report] *)
Definition sanitized_live_report (e : KisEnvironment) (account : KisAccountSnapshot) (portfolio : option PortfolioRiskSnapshot)
    (reconciliation : option ReconciliationReport) (observed_at : datetime) : string :=
  dumps_compact (sort_keys (JObj
    [("environment", JStr (environment_value e)); ("observed_at", JStr (isoformat observed_at));
     ("positions", JList (map (fun p => JObj
        [("symbol", JStr (kp_symbol p)); ("qty", JInt (kp_qty p));
         ("sellable_qty", match kp_sellable_qty p with Some q => JInt q | None => JNull end);
         ("current_price", jnumber (kp_current_price p)); ("evaluation_pnl", jnumber (kp_evaluation_pnl p))]) (as_positions account)));
     ("cash", jnumber (ks_deposit (as_summary account))); ("orderable_cash", jnumber (ks_orderable_cash_estimate (as_summary account)));
     ("total_evaluation", jnumber (ks_total_evaluation (as_summary account)));
     ("evaluation_pnl", jnumber (ks_evaluation_pnl (as_summary account)));
     ("daily_pnl", match portfolio with Some p => JFloat (daily_pnl_krw (px_portfolio p)) | None => JNull end);
     ("unknown_fields", match portfolio with Some p => sorted_text (elements (px_unknown_fields p)) | None => JList [] end);
     ("reconcile_reasons", match reconciliation with Some r => JList (map JStr (rr_reasons r)) | None => JList [] end)])).

Definition empty_reconciliation : ReconciliationReport := mkReport 0 0 0 false false [].
Definition empty_management : OrderManagementReport := mkManagementReport 0 0 0 0 0 false false [].
Definition LIVE_REPORT_KEY : string := "live_report_snapshot".
Definition AUTO_TRADE_LAST_CYCLE_KEY : string := "auto_trade:last_cycle".

(** [_BrokerCycleState]: the clients are those of one [kis_client]. *)
Record BrokerCycleState := mkCycleState {
  bc_client : kis_client;
  bc_account : KisAccountSnapshot;
  bc_portfolio : PortfolioRiskSnapshot;
  bc_reconciliation : ReconciliationReport;
  bc_order_management : OrderManagementReport;
  bc_realized : option KisRealizedPnlSnapshot;
}.

(** The price of a symbol: the last tick, else the last bar, else the account's. *)
Definition known_price (account : KisAccountSnapshot) (symbol : string) (d : db) : res (option (string * float)) :=
  tick ← latest_tick symbol d;
  bar ← latest_bar symbol d;
  let price := match tick : option MarketTick with
               | Some t => Some (tk_price t)
               | None => match bar : option MinuteBar with
                         | Some b => Some (mb_close b)
                         | None => match List.find (fun p => String.eqb (kp_symbol p) symbol) (as_positions account) with
                                   | Some p => kp_current_price p
                                   | None => None
                                   end
                         end
               end in
  Ok (match price with Some x => if (fzero <? x)%F then Some (symbol, x) else None | None => None end).

Fixpoint known_prices (account : KisAccountSnapshot) (symbols : list string) (d : db) : res (list (string * float)) :=
  match symbols with
  | [] => Ok []
  | s :: l =>
      p ← known_price account s d;
      rest ← known_prices account l d;
      Ok (match p : option (string * float) with Some x => x :: rest | None => rest end)
  end.

(** The facts that stay unknown for new entries *)
Definition unknown_facts (e : KisEnvironment) (buying_power : option KisBuyingPowerSnapshot) (realized_error : bool)
    (supervisor_unknown : list string) (reconciliation : ReconciliationReport) (management : OrderManagementReport) : gset string :=
  (match buying_power with
   | None => {["buying_power"]}
   | Some b => match bp_orderable_cash b, bp_orderable_quantity b with
               | Some _, Some _ => ∅
               | _, _ => {["buying_power_fields"]}
               end
   end) ∪
  (if bool_decide (e = REAL) && realized_error then {["realized_pnl"]} else ∅) ∪ list_to_set supervisor_unknown ∪
  (if rr_block_new_entries reconciliation then {["broker_reconciliation"]} else ∅) ∪
  (if om_block_new_entries management then {["order_management"]} else ∅).

Definition with_unknown (p : PortfolioRiskSnapshot) (u : gset string) : PortfolioRiskSnapshot :=
  mkRiskSnapshot (px_portfolio p) (px_unknown_fields p ∪ u) (px_broker_orders_today p) (px_broker_fills_today p) (px_orderable_cash p).

Section Cycle.
Context {W : Type} {CW : Clock W}.
Variable h : host W.
Variable calendar : option (Z -> bool).
Variables float_sum sum_real : list float -> float.
Variable group_row : paper_fill -> list paper_fill -> paper_fill.
Variable exn_text : exn -> string.
Variable safe_load : string -> res json.
Variable model_validate : dict setting -> res AppConfig.
Variables buy_cost_bps sell_cost_bps : float.
(** [optional_env_value], the machine's offset from UTC, and [db_path] *)
Variable env : string -> option string.
Variable local_offset : Z.
Variable db_path : string.

(** [with connect_database(db_path)] and a query whose rows may not be readable *)
Definition query_rows {A} (f : db -> res A) : stm (sys W) A := r ← query f; lift_res r.

Definition read_config : stm W AppConfig :=
  environment ← ho_environment h;
  text ← ho_config_text h;
  lift_res (load_config safe_load model_validate text environment).

(** The credentials and the account of an environment *)
Definition credentials (e : KisEnvironment) : stm W (KisApiCredentials * (string * string)) :=
  config ← read_config;
  api ← lift_res (required_api config e);
  account ← lift_res (required_account config e);
  mret (api, account).

Definition make_client (e : KisEnvironment) (api : KisApiCredentials) (token : string) (account : string * string) : kis_client :=
  mkClient e (cr_app_key api) (cr_app_secret api) token account.1 account.2 true.

(** [_today()] of the order status client *)
Definition today_text (now : datetime) : string := remove_char "-" (iso_date (dt_days now)).

(** [KisOrderStatusClient] and [KisAccountClient] of the cycle *)
Definition cycle_broker (today : string) (c : kis_client) : Broker W :=
  kis_broker (wall_clock (W := W)) (ho_get h) (ho_post h) today c.

(** The branch [manage_orders]: the broker's orders and the account, reconciled
    with the ledger, and the stale orders managed. *)
Definition manage_broker_orders (c : kis_client) (cycle_time : datetime)
    : stm (sys W) (KisAccountSnapshot * ReconciliationReport * OrderManagementReport) :=
  day ← kst_now;
  let broker := cycle_broker (today_text day) c in
  orders ← on_world (@today_orders W broker);
  account ← on_world (@account_snapshot W broker);
  reconciliation ← @reconcile_broker_state W broker (Some cycle_time) (Some orders) None (Some account) None;
  buy_ttl ← lift_res (env_float env "BUY_ORDER_TTL_SECONDS" (f_of_Z 60) (Some (fzero, "0")) None);
  sell_ttl ← lift_res (env_float env "SELL_ORDER_TTL_SECONDS" (f_of_Z 30) (Some (fzero, "0")) None);
  management ← @manage_stale_orders W broker calendar (Some cycle_time) (Some (mkManagementConfig buy_ttl sell_ttl)) None (Some orders) None;
  mret (account, reconciliation, management).

(** The price the buying power is asked for: the first known one, else a quote. *)
Definition first_price (c : kis_client) (account : KisAccountSnapshot) (symbols : list string) : stm (sys W) (option (string * float)) :=
  prices ← query_rows (known_prices account (dedup [] (symbols ++ map kp_symbol (as_positions account))));
  match prices : list (string * float), symbols with
  | p :: _, _ => mret (Some p)
  | [], [] => mret None
  | [], symbol :: _ =>
      quote ← attempt (on_world (get_current_price (ho_get h) c symbol));
      mret (match quote : res CurrentPrice with Ok q => Some (cp_symbol q, cp_price q) | Err _ => None end)
  end.

(** The connection of a cycle to the broker, and the time it works with *)
Definition open_cycle (e : KisEnvironment) (refresh_token : bool) : stm (sys W) (kis_client * datetime) :=
  material ← on_world (credentials e);
  account_parts ← lift_res (account_components material.2.1 material.2.2);
  auth ← on_world (ho_authenticate h e material.1 refresh_token);
  _ ← open_schema;
  cycle_time ← kst_now;
  mret (make_client e material.1 (ar_access_token auth) account_parts, cycle_time).

(** The account, and what the ledger and the orders at the broker say: read and
    managed here, or by the supervisor whose record is looked at *)
Definition read_cycle (c : kis_client) (cycle_time : datetime) (manage_orders : bool)
    : stm (sys W) (KisAccountSnapshot * ReconciliationReport * OrderManagementReport * list string) :=
  if manage_orders then
    managed ← manage_broker_orders c cycle_time;
    mret (managed.1.1, managed.1.2, managed.2, [])
  else
    account ← on_world (get_account_snapshot (ho_get h) c 10);
    unknown ← query_rows (supervisor_gate_unknown_fields env local_offset cycle_time);
    mret (account, empty_reconciliation, empty_management, unknown).

(** [_make_broker_cycle_state] *)
Definition make_broker_cycle_state (e : KisEnvironment) (symbols : list string) (refresh_token manage_orders : bool)
    : stm (sys W) BrokerCycleState :=
  opened ← open_cycle e refresh_token;
  let '(c, cycle_time) := (opened : kis_client * datetime) in
  read ← read_cycle c cycle_time manage_orders;
  let '(account, reconciliation, management, supervisor_unknown) :=
    (read : KisAccountSnapshot * ReconciliationReport * OrderManagementReport * list string) in
  price ← first_price c account symbols;
  buying_power ← (match price : option (string * float) with
                  | Some (symbol, x) =>
                      answer ← attempt (on_world (get_buying_power (ho_get h) c symbol x "01"));
                      mret (match answer : res KisBuyingPowerSnapshot with Ok b => Some b | Err _ => None end)
                  | None => mret None
                  end);
  realized ← (if bool_decide (e = REAL) then
                answer ← attempt (on_world (get_realized_pnl float_sum (ho_get h) c 10));
                mret (match answer : res KisRealizedPnlSnapshot with Ok r => Some r | Err _ => None end)
              else mret None);
  now ← kst_now;
  portfolio ← query_rows (build_portfolio_risk_snapshot float_sum buy_cost_bps sell_cost_bps account now
                 (bp_orderable_cash <$> (buying_power : option KisBuyingPowerSnapshot))
                 (match realized : option KisRealizedPnlSnapshot with
                  | Some r => RealizedSnapshot (daily_realized_pnl r)
                  | None => NoRealized
                  end));
  let realized_error := match realized : option KisRealizedPnlSnapshot with Some _ => false | None => true end in
  let portfolio := with_unknown portfolio (unknown_facts e buying_power realized_error supervisor_unknown reconciliation management) in
  observed_at ← kst_now;
  updated_at ← kst_now;
  _ ← set_metadata_now LIVE_REPORT_KEY (sanitized_live_report e account (Some portfolio) (Some reconciliation) observed_at) (Some updated_at);
  mret (mkCycleState c account portfolio reconciliation management realized).

(** [_entry_budget_checker] *)
Definition entry_budget_checker (c : kis_client) (symbol : string) (price : float) (quantity : Z) : stm W bool :=
  snapshot ← get_buying_power (ho_get h) c symbol price "01";
  match bp_orderable_cash snapshot, bp_orderable_quantity snapshot with
  | Some cash, Some shares =>
      if shares <? quantity then mret false
      else amount ← lift_res (fmul_Z quantity price); mret (amount <=? cash)%F
  | _, _ => mret false
  end.

(** [float(client.get_current_price(symbol).price)] *)
Definition quoted_price (c : kis_client) (symbol : string) : stm W pynum :=
  quote ← get_current_price (ho_get h) c symbol;
  mret (PFloat (cp_price quote)).

(** [RuleBasedAIClient] over the world: fresh names and the UTC clock *)
Definition rule_client (buy_threshold : float) : ai_client W :=
  mkAiClient false (fun ctx w =>
    let '(fresh, w) := ho_fresh h w in
    let '(now, w) := wall_clock w in
    (rule_based_decide buy_threshold fresh (astimezone now UTC) ctx, w)).

(** The market stream of a cycle, for [seconds] from now.  [fuel] bounds the frames
    read, and the rows of one timestamp come in [engine_order]. *)
Definition collector_settings (e : KisEnvironment) (approval_key : string) (symbols : list string) : collector_config :=
  mkCollectorConfig (websocket_url e) approval_key symbols None (f_ratio 5 100) (f_ratio 25 100) (f_of_Z 5) (f_ratio 2 10).

Variable engine_order : list tick_row -> list tick_row.
Variable foreign_os_error : string -> bool.
Variable fuel : nat.

Definition collect_market (e : KisEnvironment) (approval_key : string) (symbols : list string) (seconds : Z) : stm (sys W) unit :=
  _ ← open_schema;
  started ← on_world (ho_monotonic h);
  _ ← collect_streaming_prices (ho_socket h) (ho_monotonic h) (ho_sleeper h) (ho_random h) (mret false) engine_order foreign_os_error
        (collector_settings e approval_key symbols) fuel (Some (started + f_of_Z seconds)%F) 3;
  mret tt.

(** The arguments of [auto_trade_cycle] *)
Record cycle_args := mkCycleArgs {
  ca_environment : string;
  ca_symbols_text : option string;
  ca_ai : string;
  ca_max_quantity : Z;
  ca_collect_seconds : Z;
  ca_confirm : string;
  ca_notify_telegram : bool;
  ca_refresh_token : bool;
  ca_shared_ai : option (ai_client W);
  ca_service_owner : option string;
  ca_portfolio : option PortfolioRiskSnapshot;
  ca_buying_power : option kis_client;
  ca_control_override : option RuntimeControl;
}.

(** What a cycle comes to: the reason printed after [BLOCKED] (exit code 3), or the
    report of the pipeline (exit code 0). *)
Inductive cycle_outcome :=
  | Blocked (reason : string)
  | Ran (report : AutoTradeCycleReport).

(** [text_set or list_watchlist_symbols()] *)
Definition cycle_symbols (symbols_text : option string) (d : db) : res (list string) :=
  match symbols_text with
  | None | Some "" => Ok (list_watchlist_symbols true d)
  | Some _ => parse_symbols symbols_text
  end.

(** The gates looked at again after the collection, on a connection of its own *)
Definition post_collection_gates (e : KisEnvironment) (d : db) : list string :=
  let control := get_runtime_control d in
  let emergency := or_empty (or_text (get_metadata "emergency_stop" d) (get_metadata EMERGENCY_STOP_KEY d)) in
  (if rc_paused control then ["runtime_paused"] else []) ++
  (if negb (String.eqb (rc_environment control) (environment_value e)) then ["runtime_environment_mismatch"] else []) ++
  (if truth_text emergency then ["emergency_stop"] else []) ++
  (if truth_text (or_empty (get_metadata CANCEL_OPEN_BUYS_KEY d)) then ["open_buy_cancellation_pending"] else []).

(** [replace(latest_control, ...)] of a paused override *)
Definition cycle_control (override : option RuntimeControl) (latest : RuntimeControl) : RuntimeControl :=
  match override with
  | Some o => if rc_paused o then mkRuntimeControl true (rc_updated_at latest) (rc_reason o) (rc_source o) (rc_environment latest) else latest
  | None => latest
  end.

(** The submitter of a cycle: guarded when a service runs it *)
Definition cycle_submitter (e : KisEnvironment) (c : kis_client) (owner : option string) : res (Submitter W) :=
  match owner with
  | Some o =>
      g ← new_guard (Some (environment_value e)) (Some db_path) (Some (environment_value e)) (Some o) None None None LEASE_NAME;
      Ok (@guarded_submitter W (cycle_broker "" c) calendar exn_text g)
  | None => Ok (@client_submitter W (cycle_broker "" c))
  end.

Definition cycle_ai (a : cycle_args) (config : AutoTradeConfig) : stm W (ai_client W) :=
  match ca_shared_ai a with
  | Some client => mret client
  | None =>
      if String.eqb (ca_ai a) "rule" then
        threshold ← lift_res (rule_based_client (ac_min_confidence config));
        mret (rule_client threshold)
      else ho_openai h
  end.

(** The entry of [AUTO_TRADE_LAST_CYCLE_KEY] *)
Definition cycle_record (e : KisEnvironment) (ai : string) (cycle_time : datetime) (report : AutoTradeCycleReport) : string :=
  dumps_compact (sort_keys (JObj
    [("observed_at", JStr (isoformat cycle_time)); ("environment", JStr (environment_value e)); ("ai", JStr ai);
     ("ai_calls", JInt (cr_ai_call_count report));
     ("results", JList (map (fun r => JObj
        [("symbol", JStr (sr_symbol r)); ("action", JStr (sr_action r)); ("submitted", JBool (sr_submitted r));
         ("blocked", JBool (sr_blocked r)); ("reason", JStr (sr_reason r)); ("quantity", JInt (sr_quantity r))]) (cr_results report)))])).

Definition kst_reading (w : W) : datetime * W := let '(t, w) := wall_clock w in (with_tz (astimezone t KST) None, w).

(** From the time of the cycle to its report *)
Definition run_pipeline (a : cycle_args) (e : KisEnvironment) (c : kis_client) (symbols : list string) (portfolio : PortfolioRiskSnapshot)
    (budget : kis_client) (control : RuntimeControl) : stm (sys W) cycle_outcome :=
  _ ← open_schema;
  config ← query_rows (auto_trade_config_from_env env (ca_max_quantity a));
  cycle_time ← kst_now;
  SW ← lift_res (cycle_submitter e c (ca_service_owner a));
  ai ← on_world (cycle_ai a config);
  notifier ← (if ca_notify_telegram a then n ← on_world (ho_notifier h); mret (Some n) else mret None);
  _ ← open_schema;
  let given := mkGiven notifier (Some (px_portfolio portfolio)) (Some (entry_budget_checker budget)) (Some (quoted_price c)) (Some (quoted_price c)) in
  report ← @run_auto_trade_cycle W CW SW calendar float_sum sum_real group_row exn_text given config (Some kst_reading) (Some cycle_time) ai
             (rc_paused control) true symbols;
  _ ← set_metadata_now AUTO_TRADE_LAST_CYCLE_KEY (cycle_record e (ca_ai a) cycle_time report) (Some cycle_time);
  mret (Ran report).

(** What the pipeline starts from: the environment, its client, the risk snapshot,
    the client of the buying power and the control *)
Definition pipeline_start : Type := KisEnvironment * kis_client * PortfolioRiskSnapshot * kis_client * RuntimeControl.

(** From the credentials to the gates after the collection: the reason that blocks
    the cycle, or what the pipeline starts from *)
Definition prepare_run (a : cycle_args) (symbols open_symbols : list string) : stm (sys W) (string + pipeline_start) :=
  e ← lift_res (parse_environment (ca_environment a));
  material ← on_world (credentials e);
  _ ← lift_res (assert_broker_order_allowed env);
  account_parts ← lift_res (account_components material.2.1 material.2.2);
  risk ← (match ca_portfolio a, ca_buying_power a with
          | Some p, Some c => mret (inl (p, c))
          | _, _ =>
              state ← make_broker_cycle_state e (dedup [] (symbols ++ open_symbols)) (ca_refresh_token a) true;
              mret (if fail_closed (bc_portfolio state) then inr "broker_risk_snapshot_unavailable"
                    else inl (bc_portfolio state, bc_client state))
          end);
  match risk : (PortfolioRiskSnapshot * kis_client) + string with
  | inr reason => mret (inl reason)
  | inl (portfolio, budget) =>
      auth ← on_world (ho_authenticate h e material.1 (ca_refresh_token a));
      let c := make_client e material.1 (ar_access_token auth) account_parts in
      _ ← (if ca_collect_seconds a =? 0 then mret tt
           else collect_market e (ar_approval_key auth) (dedup [] (symbols ++ open_symbols)) (ca_collect_seconds a));
      _ ← open_schema;
      reasons ← query (post_collection_gates e);
      latest ← query get_runtime_control;
      match reasons : list string with
      | _ :: _ => mret (inl ("post_collection_gate:" +:+ join "," reasons))
      | [] => mret (inr (e, c, portfolio, budget, cycle_control (ca_control_override a) latest))
      end
  end.

Definition collect_and_run (a : cycle_args) (symbols open_symbols : list string) : stm (sys W) cycle_outcome :=
  ready ← prepare_run a symbols open_symbols;
  match ready : string + pipeline_start with
  | inl reason => mret (Blocked reason)
  | inr (e, c, portfolio, budget, control) => run_pipeline a e c symbols portfolio budget control
  end.

(** [auto_trade_cycle] *)
Definition auto_trade_cycle (a : cycle_args) : stm (sys W) cycle_outcome :=
  if negb (String.eqb (ca_confirm a) "AUTO_TRADE") then mret (Blocked "confirmation_required")
  else
    _ ← lift_res (raise_if ((ca_collect_seconds a <? 0) || (3600 <? ca_collect_seconds a)) (ValueError "collect_seconds must be between 0 and 3600"));
    _ ← open_schema;
    symbols ← query_rows (cycle_symbols (ca_symbols_text a));
    open_symbols ← query (fun d => map lp_symbol (list_open_live_positions None d));
    stored ← query get_runtime_control;
    let control := match ca_control_override a with Some o => o | None => stored end in
    requested ← lift_res (parse_environment (ca_environment a));
    if negb (String.eqb (rc_environment control) (environment_value requested)) then mret (Blocked "runtime_environment_mismatch")
    else
      _ ← lift_res (raise_if (match symbols ++ open_symbols with [] => true | _ => false end)
            (ValueError "no symbols supplied and watchlist is empty"));
      leased ← lease_is_active (ca_service_owner a);
      if leased : bool then mret (Blocked "trading_service_lease_active")
      else if rc_paused control then mret (Blocked "runtime_paused")
      else
        now ← kst_now;
        if negb (exchange_calendar_available calendar) then mret (Blocked "exchange_calendar_unavailable")
        else if negb (is_regular_market_open calendar now) then mret (Blocked "market_closed")
        else collect_and_run a symbols open_symbols.
End Cycle.

(** ** Lemmas *)

(** Runs that call nothing at the broker *)
Section Quiet.
Context {W : Type} {CW : Clock W}.

Lemma quiet_set_metadata k v t : keeps (same_trace (W := W)) (set_metadata_now k v t).
Proof. apply quiet_on_db. Qed.
Lemma quiet_open_schema : keeps (same_trace (W := W)) open_schema.
Proof. apply quiet_on_db. Qed.
Lemma quiet_query {A} (f : db -> A) : keeps (same_trace (W := W)) (query f).
Proof. by intros s. Qed.
Lemma quiet_kst_now : keeps (same_trace (W := W)) kst_now.
Proof. apply keeps_bind; [exact _|apply quiet_read_clock|]. intros t. apply keeps_ret, _. Qed.
Lemma quiet_query_rows {A} (f : db -> res A) : keeps (same_trace (W := W)) (query_rows f).
Proof. apply keeps_bind; [exact _|apply quiet_query|]. intros r. apply keeps_lift, _. Qed.
Lemma quiet_lease_is_active owner : keeps (same_trace (W := W)) (lease_is_active owner).
Proof.
  apply keeps_bind; [exact _|apply quiet_read_clock|]. intros t. apply keeps_bind; [exact _|apply quiet_open_schema|]. intros _.
  apply keeps_bind; [exact _|apply quiet_query|]. intros [l|]; [|apply keeps_ret, _].
  destruct (match owner with Some o => _ | None => _ end); [apply keeps_ret, _|]. destruct (fromisoformat _); [|apply keeps_ret, _].
  destruct (is_naive _); [apply keeps_ret, _|apply keeps_lift, _].
Qed.
End Quiet.

Create HintDb quiet_runs.
#[export] Hint Resolve quiet_set_metadata quiet_open_schema quiet_query quiet_kst_now quiet_query_rows quiet_lease_is_active
  quiet_on_world quiet_read_clock quiet_on_db : quiet_runs.
Ltac quiet_leaf := first [solve [auto with quiet_runs] | apply keeps_ret, _ | apply keeps_raise, _ | apply keeps_lift, _ |
  solve [apply keeps_attempt; auto with quiet_runs] |
  solve [case_match; [apply keeps_bind; [exact _|quiet_leaf|intros ?; quiet_leaf]|quiet_leaf]]].

(** The end of [m; f]: after a failure of [m], or after [f]. *)
Lemma after {S A B} (m : stm S A) (f : A -> stm S B) s (P : S -> Prop) :
  (forall e s1, m s = (Err e, s1) -> P s1) -> (forall a s1, m s = (Ok a, s1) -> P (f a s1).2) -> P (mbind f m s).2.
Proof. intros He Hf. unfold mbind, stm_bind. destruct (m s) as [[a|e] s1] eqn:E; [by apply Hf|by eapply He]. Qed.

(** What holds of a state whose trace is still [tr], and of the end of a run that
    starts with quiet steps. *)
Lemma after_quiet {W A B} (m : stm (sys W) A) (f : A -> stm (sys W) B) s tr (P : sys W -> Prop) :
  keeps same_trace m -> s_trace s = tr -> (forall s', s_trace s' = tr -> P s') ->
  (forall a s1, m s = (Ok a, s1) -> s_trace s1 = tr -> P (f a s1).2) -> P (mbind f m s).2.
Proof.
  intros Hm Ht HP Hf. specialize (Hm s). apply after.
  - intros e s1 E. rewrite E in Hm. apply HP. by rewrite <- Ht.
  - intros a s1 E. rewrite E in Hm. apply Hf; [done|]. by rewrite <- Ht.
Qed.

Lemma after_calm {W A B} (m : stm (sys W) A) (f : A -> stm (sys W) B) s s0 (P : res B * sys W -> Prop) :
  keeps quiet_step m -> quiet_step s0 s -> (forall e s', quiet_step s0 s' -> P (Err e, s')) ->
  (forall a s1, m s = (Ok a, s1) -> quiet_step s0 s1 -> P (f a s1)) -> P (mbind f m s).
Proof.
  intros Hm Ht HP Hf. specialize (Hm s). unfold mbind, stm_bind. destruct (m s) as [[a|e] s1] eqn:E; [apply Hf|apply HP]; try done; by etrans.
Qed.

(** The same, for a whole outcome *)
Lemma after_silent {W A B} (m : stm (sys W) A) (f : A -> stm (sys W) B) s tr (P : res B * sys W -> Prop) :
  keeps same_trace m -> s_trace s = tr -> (forall e s', s_trace s' = tr -> P (Err e, s')) ->
  (forall a s1, m s = (Ok a, s1) -> s_trace s1 = tr -> P (f a s1)) -> P (mbind f m s).
Proof.
  intros Hm Ht HP Hf. specialize (Hm s). unfold mbind, stm_bind. destruct (m s) as [[a|e] s1] eqn:E; [apply Hf|apply HP]; try done; by rewrite <- Ht.
Qed.

Lemma calm_open_schema {W} {CW : Clock W} : keeps (quiet_step (W := W)) open_schema.
Proof. apply keeps_on_db; [exact _|]. intros now d x d' [= _ <-]. apply schema_same_ledger. Qed.

Lemma calm_query_rows {W A} (f : db -> res A) : keeps (quiet_step (W := W)) (query_rows f).
Proof. apply keeps_bind; [exact _|apply keeps_query, _|]. intros r. apply keeps_lift, _. Qed.

Lemma calm_lease_is_active {W} {CW : Clock W} owner : keeps (quiet_step (W := W)) (lease_is_active owner).
Proof.
  apply keeps_bind; [exact _|apply keeps_read_clock, _|]. intros t. apply keeps_bind; [exact _|apply calm_open_schema|]. intros _.
  apply keeps_bind; [exact _|apply keeps_query, _|]. intros [l|]; [|apply keeps_ret, _].
  destruct (match owner with Some o => _ | None => _ end); [apply keeps_ret, _|]. destruct (fromisoformat _); [|apply keeps_ret, _].
  destruct (is_naive _); [apply keeps_ret, _|apply keeps_lift, _].
Qed.

(** One quiet step of a run whose trace so far is that of [T], where [H] is what is
    known when it stops there. *)
Ltac step T H := cbv beta; eapply after_quiet; [quiet_leaf|exact T|exact H|].

Section CycleFacts.
Context {W : Type} {CW : Clock W}.
Variables (h : host W) (calendar : option (Z -> bool)) (float_sum sum_real : list float -> float).
Variables (group_row : paper_fill -> list paper_fill -> paper_fill) (exn_text : exn -> string).
Variables (safe_load : string -> res json) (model_validate : dict setting -> res AppConfig) (buy_cost_bps sell_cost_bps : float).
Variables (env : string -> option string) (local_offset : Z) (db_path : string).
Variables (engine_order : list tick_row -> list tick_row) (foreign_os_error : string -> bool) (fuel : nat).

Lemma quiet_collect_market e key symbols seconds :
  keeps same_trace (collect_market h engine_order foreign_os_error fuel e key symbols seconds).
Proof.
  apply keeps_bind; [exact _|quiet_leaf|]. intros _. apply keeps_bind; [exact _|quiet_leaf|]. intros started.
  apply keeps_bind; [exact _| |intros _; apply keeps_ret, _].
  intros s. unfold collect_streaming_prices. destruct (check_config _) as [l|]; [|done].
  assert (Hd : keeps (same_trace (W := W)) (or_today (cc_trading_date (collector_settings e key symbols)))).
  { cbn [cc_trading_date collector_settings or_today]. apply keeps_bind; [exact _|apply quiet_read_clock|]. intros t. apply keeps_ret, _. }
  specialize (Hd s). destruct (or_today _ s) as [[date|x] s1]; cbn [snd] in Hd; [|done].
  assert (Ho : PreOrder (fun _ _ : W => True)) by by split.
  destruct (stream _ _ _ _ _ _ _ _ _ _ _ _ _ _) as [r c] eqn:E. apply (stream_collected _ _ _ _ _ _ _ _ _ (fun _ _ => True) (fun _ => True)) in E; try done.
  destruct E as (_ & Ht & _). unfold same_trace. cbn [snd]. rewrite Ht. exact Hd.
Qed.

Notation cycle := (auto_trade_cycle h calendar float_sum sum_real group_row exn_text safe_load model_validate buy_cost_bps sell_cost_bps
  env local_offset db_path engine_order foreign_os_error fuel).

(** The system when a cycle that starts in [s] has opened the database *)
Definition database_opened (s : sys W) : sys W := mkSys (init_schema (s_db s)) (wall_clock (s_world s)).2 (s_trace s).

(** The control a cycle that starts in [s] goes by *)
Definition control_of (a : cycle_args (W := W)) (s : sys W) : RuntimeControl :=
  match ca_control_override a with Some o => o | None => get_runtime_control (s_db (database_opened s)) end.

(** The gates that the cycle from [s] passed before it went to the broker in [s2]:
    the confirmation and the bounds of its arguments, the environment of the
    control, the lease (which no other service holds, read right after the opening
    of the database), the pause, the calendar, the market (which is open at the time
    read after the lease), and the operator's switch for orders. *)
Record gates_passed (a : cycle_args (W := W)) (s s2 : sys W) (gd : guard) : Prop := mkGatesPassed {
  gp_confirmed : ca_confirm a = "AUTO_TRADE";
  gp_seconds : 0 <= ca_collect_seconds a <= 3600;
  gp_environment : parse_environment (ca_environment a) = Ok (g_environment gd);
  gp_same_environment : rc_environment (control_of a s) = environment_value (g_environment gd);
  gp_owner : ca_service_owner a = Some (g_owner gd);
  gp_running : rc_paused (control_of a s) = false;
  gp_calendar : exchange_calendar_available calendar = true;
  gp_market : exists s1 now, lease_is_active (ca_service_owner a) (database_opened s) = (Ok false, s1) /\ kst_now s1 = (Ok now, s2) /\
    is_regular_market_open calendar now = true;
  gp_allowed : assert_broker_order_allowed env = Ok tt;
}.

(** The run of the cycle from [s2] to its end [s']: it prepared the pipeline for the
    symbols it was asked for (else the watchlist's) and those of the open positions
    until [s3], found in that database, looked at again after the collection, no
    pause, change of environment, emergency stop or cancellation of the open
    purchases, and ended as the pipeline did. *)
Definition ran_pipeline (a : cycle_args (W := W)) (e : KisEnvironment) (s s2 s' : sys W) : Prop :=
  exists symbols p b c s3,
    cycle_symbols (ca_symbols_text a) (s_db (database_opened s)) = Ok symbols /\ ca_portfolio a = Some p /\ ca_buying_power a = Some b /\
    let control := cycle_control (ca_control_override a) (get_runtime_control (s_db s3)) in
    prepare_run h calendar float_sum safe_load model_validate buy_cost_bps sell_cost_bps env local_offset engine_order foreign_os_error fuel
      a symbols (map lp_symbol (list_open_live_positions None (s_db (database_opened s)))) s2 = (Ok (inr (e, c, p, b, control)), s3) /\
    post_collection_gates e (s_db s3) = [] /\
    s' = (run_pipeline h calendar float_sum sum_real group_row exn_text env db_path a e c symbols p b control s3).2.

(** What a cycle of the service sent until [s'], each order past the guarded submitter *)
Definition sends_checked (s s' : sys W) (gd : guard) : Prop :=
  exists es, s_trace s' = s_trace s ++ map sent_call es /\ forall x, x ∈ es -> gate_passed calendar gd (sn_request x) (sn_db x).

(** The end of a cycle of the service that started at [s] *)
Definition sends_guarded (a : cycle_args (W := W)) (s s' : sys W) : Prop :=
  s_trace s' = s_trace s \/ exists gd s2, gates_passed a s s2 gd /\ ran_pipeline a (g_environment gd) s s2 s' /\ sends_checked s s' gd.

Lemma guard_of_service e owner g :
  new_guard (Some (environment_value e)) (Some db_path) (Some (environment_value e)) (Some owner) None None None LEASE_NAME = Ok g ->
  g_environment g = e /\ g_owner g = owner.
Proof.
  unfold new_guard. intros H. apply bind_Ok in H as ([] & _ & H). apply bind_Ok in H as ([] & _ & H).
  apply bind_Ok in H as (sel & Hs & H). apply bind_Ok in H as ([] & _ & H). apply bind_Ok in H as ([] & _ & H).
  apply bind_Ok in H as ([] & _ & H). apply bind_Ok in H as ([] & _ & H). injection H as <-. split; [|done]. cbn.
  destruct e; cbn in Hs; by injection Hs as <-.
Qed.

Lemma run_pipeline_sends a e c symbols portfolio budget control owner (s0 s : sys W) :
  ca_service_owner a = Some owner -> s_trace s = s_trace s0 ->
  let s' := (run_pipeline h calendar float_sum sum_real group_row exn_text env db_path a e c symbols portfolio budget control s).2 in
  s_trace s' = s_trace s0 \/ exists gd, g_environment gd = e /\ g_owner gd = owner /\ sends_checked s0 s' gd.
Proof.
  intros Ho Ht. cbv zeta.
  set (P := fun s' : sys W => s_trace s' = s_trace s0 \/ exists gd, g_environment gd = e /\ g_owner gd = owner /\ sends_checked s0 s' gd).
  change (P (run_pipeline h calendar float_sum sum_real group_row exn_text env db_path a e c symbols portfolio budget control s).2).
  assert (Hl : forall s', s_trace s' = s_trace s0 -> P s') by (by left).
  unfold run_pipeline. step Ht Hl. intros _ s1 _ T1.
  step T1 Hl. intros config s2 _ T2.
  step T2 Hl. intros cycle_time s3 _ T3.
  step T3 Hl. intros SW s4 E T4. injection E as E <-.
  unfold cycle_submitter in E. rewrite Ho in E. apply bind_Ok in E as (gd & Egd & [= <-]).
  step T3 Hl. intros ai s5 _ T5.
  step T5 Hl.
  intros notifier s6 _ T6. step T6 Hl. intros _ s7 _ T7.
  set (BW := cycle_broker h "" c). pose proof (new_guard_lease _ _ _ _ _ _ _ _ _ Egd) as Hlease.
  destruct (guard_of_service _ _ _ Egd) as [G1 G2].
  match goal with |- P (mbind _ (@run_auto_trade_cycle _ _ _ _ _ _ _ _ ?g ?co ?ck ?ct ?cl ?p ?cf ?sy) _).2 =>
    destruct (@run_trades W (@broker_clock W BW) (@guarded_submitter W BW calendar exn_text gd) _ (@guarded_law W BW calendar exn_text gd Hlease)
      calendar float_sum sum_real group_row exn_text g co ck ct cl p cf sy s7) as [_ _ (es & H1 & _ & _ & H2)] end.
  assert (Hs : forall s', s_trace s' = s_trace s0 ++ map sent_call es -> P s').
  { intros s' Hs'. right. exists gd. split; [done|]. split; [done|]. exists es. split; [done|]. intros x Hx. by destruct (H2 x Hx). }
  rewrite T7 in H1. apply after.
  - intros x s8 E8. apply Hs. pose proof (f_equal (fun p => s_trace p.2) E8) as T8. cbn [snd] in T8. rewrite <- T8. exact H1.
  - intros report s8 E8. pose proof (f_equal (fun p => s_trace p.2) E8) as T8. cbn [snd] in T8.
    assert (T9 : s_trace s8 = s_trace s0 ++ map sent_call es) by (rewrite <- T8; exact H1).
    step T9 Hs. intros t s9 _ T10. by apply Hs.
Qed.

(** What [prepare_run] does with the risk snapshot of the service *)
Lemma prepare_run_ready a symbols open_symbols p b (s : sys W) :
  ca_portfolio a = Some p -> ca_buying_power a = Some b ->
  let '(r, s3) := prepare_run h calendar float_sum safe_load model_validate buy_cost_bps sell_cost_bps env local_offset engine_order foreign_os_error fuel
    a symbols open_symbols s in
  s_trace s3 = s_trace s /\ match r with
    | Ok (inr ready) => exists e c, ready = (e, c, p, b, cycle_control (ca_control_override a) (get_runtime_control (s_db s3))) /\
        parse_environment (ca_environment a) = Ok e /\ assert_broker_order_allowed env = Ok tt /\ post_collection_gates e (s_db s3) = []
    | _ => True
    end.
Proof.
  intros Hp Hb. set (P := fun x : res (string + pipeline_start) * sys W => s_trace x.2 = s_trace s /\ match x.1 with
    | Ok (inr ready) => exists e c, ready = (e, c, p, b, cycle_control (ca_control_override a) (get_runtime_control (s_db x.2))) /\
        parse_environment (ca_environment a) = Ok e /\ assert_broker_order_allowed env = Ok tt /\ post_collection_gates e (s_db x.2) = []
    | _ => True
    end).
  enough (HP : P (prepare_run h calendar float_sum safe_load model_validate buy_cost_bps sell_cost_bps env local_offset engine_order foreign_os_error fuel
    a symbols open_symbols s)) by (destruct (prepare_run _ _ _ _ _ _ _ _ _ _ _ _ _ _ _ s); exact HP).
  assert (He : forall x s', s_trace s' = s_trace s -> P (Err x, s')) by (by split).
  assert (Hl : forall x s', s_trace s' = s_trace s -> P (Ok (inl x), s')) by (by split).
  unfold prepare_run. eapply after_silent; [quiet_leaf|reflexivity|exact He|]. intros e s1 E T1. injection E as Ee <-.
  eapply after_silent; [quiet_leaf|exact T1|exact He|]. intros material s2 _ T2.
  eapply after_silent; [quiet_leaf|exact T2|exact He|]. intros u s3 E T3. injection E as Ea <-. destruct u.
  eapply after_silent; [quiet_leaf|exact T2|exact He|]. intros parts s4 E T4. injection E as _ <-. rewrite Hp, Hb.
  eapply after_silent; [quiet_leaf|exact T2|exact He|]. intros risk s5 E T5. injection E as <- <-.
  eapply after_silent; [quiet_leaf|exact T2|exact He|]. intros auth s6 _ T6. cbv beta zeta.
  eapply after_silent; [|exact T6|exact He|]. { destruct (ca_collect_seconds a =? 0); [quiet_leaf|apply quiet_collect_market]. }
  intros u s7 _ T7. eapply after_silent; [quiet_leaf|exact T7|exact He|]. intros _ s8 _ T8.
  eapply after_silent; [quiet_leaf|exact T8|exact He|]. intros reasons s9 E T9. injection E as <- <-.
  eapply after_silent; [quiet_leaf|exact T8|exact He|]. intros latest s10 E T10. injection E as <- <-.
  destruct (post_collection_gates e (s_db s8)) as [|r l] eqn:Eg; [|by apply Hl].
  split; [exact T8|]. cbn. by eexists _, _.
Qed.

Lemma collect_and_run_sends a symbols owner p b (s s2 : sys W) :
  ca_portfolio a = Some p -> ca_buying_power a = Some b -> s_trace s2 = s_trace s ->
  cycle_symbols (ca_symbols_text a) (s_db (database_opened s)) = Ok symbols ->
  (forall gd, parse_environment (ca_environment a) = Ok (g_environment gd) -> g_owner gd = owner -> assert_broker_order_allowed env = Ok tt ->
    gates_passed a s s2 gd) -> ca_service_owner a = Some owner ->
  sends_guarded a s (collect_and_run h calendar float_sum sum_real group_row exn_text safe_load model_validate buy_cost_bps sell_cost_bps
    env local_offset db_path engine_order foreign_os_error fuel a symbols (map lp_symbol (list_open_live_positions None (s_db (database_opened s)))) s2).2.
Proof.
  intros Hp Hb Ht Hsy Hg Ho. set (opens := map lp_symbol _). unfold collect_and_run.
  pose proof (prepare_run_ready a symbols opens p b s2 Hp Hb) as Hr.
  destruct (prepare_run _ _ _ _ _ _ _ _ _ _ _ _ _ _ _ s2) as [[[reason|ready]|x] s3] eqn:Er; destruct Hr as [T3 Hr].
  - rewrite (stm_bind_run _ _ _ _ _ Er). left. cbn. by rewrite T3.
  - destruct Hr as (e & c & -> & He & Ha & Hgates). rewrite (stm_bind_run _ _ _ _ _ Er). cbn beta iota.
    set (control := cycle_control _ _) in *. set (s' := (run_pipeline _ _ _ _ _ _ _ _ _ _ _ _ _ _ _ s3).2).
    destruct (run_pipeline_sends a e c symbols p b control owner s s3 Ho (eq_trans T3 Ht)) as [H|(gd & <- & Hown & H)]; [by left|].
    right. exists gd, s2. split; [by apply Hg|]. split; [|exact H]. exists symbols, p, b, c, s3. by split_and!.
  - rewrite (stm_bind_err _ _ _ _ _ Er). left. cbn. by rewrite T3.
Qed.

Lemma guarded_cycle_sends a owner p b (s : sys W) :
  ca_service_owner a = Some owner -> ca_portfolio a = Some p -> ca_buying_power a = Some b ->
  sends_guarded a s (cycle a s).2.
Proof.
  intros Ho Hp Hb. assert (Hl : forall s', s_trace s' = s_trace s -> sends_guarded a s s') by (by left).
  unfold auto_trade_cycle. destruct (String.eqb (ca_confirm a) "AUTO_TRADE") eqn:Ec; [|by apply Hl]. apply String.eqb_eq in Ec. cbn [negb].
  step (eq_refl (s_trace s)) Hl. intros u s1 E T1. injection E as Esec <-. apply raise_if_Ok in Esec. step T1 Hl. intros u' s2 E T2.
  rewrite open_schema_run in E. injection E as _ <-. fold (database_opened s) in T2 |- *. step T2 Hl. intros symbols s3 E T3.
  unfold query_rows in E. apply stm_bind_Ok in E as (x & s4 & Eq & E). injection Eq as <- <-. injection E as Esym <-.
  step T2 Hl. intros open_symbols s4 E T4. injection E as <- <-. step T2 Hl. intros stored s5 E T5. injection E as <- <-.
  step T2 Hl. intros requested s6 E T6. injection E as Ereq <-. cbv zeta. fold (control_of a s).
  destruct (String.eqb _ _) eqn:Eenv; [|by apply Hl]. apply String.eqb_eq in Eenv. cbn [negb]. step T2 Hl. intros u2 s7 E T7. injection E as _ <-.
  step T2 Hl. intros leased s8 E8 T8. destruct leased; [by apply Hl|].
  destruct (rc_paused _) eqn:Er; [by apply Hl|]. step T8 Hl. intros now s9 E9 T9.
  destruct (exchange_calendar_available calendar) eqn:Ecal; [|by apply Hl]. cbn [negb].
  destruct (is_regular_market_open calendar now) eqn:Em; [|by apply Hl]. cbn [negb].
  eapply collect_and_run_sends; try done. intros gd He Hown Ha. split; try done.
  - apply orb_false_iff in Esec as [? ?]. lia.
  - rewrite Ereq in He. injection He as <-. exact Eenv.
  - by rewrite Ho, Hown.
  - by exists s8, now.
Qed.

(** C5: a cycle the service runs sends nothing, or it has passed every gate of the
    trading cycle: it was confirmed with a collection time in its bounds, for the
    environment of the runtime control, while no other service held the lease, the
    runtime was not paused, the exchange calendar was there, the market was open at
    the time the cycle read, and orders were switched on; the pipeline then ran from
    the state reached by the preparation, in whose database, after the collection of
    market data, nothing had paused the runtime, changed its environment, or
    requested an emergency stop or the cancellation of open purchases; and every
    order sent passed the guarded submitter of the service and of its environment. *)
Theorem service_cycle_sends_through_gates a owner p b (s : sys W) :
  ca_service_owner a = Some owner -> ca_portfolio a = Some p -> ca_buying_power a = Some b ->
  sends_guarded a s (cycle a s).2.
Proof. apply guarded_cycle_sends. Qed.

(** Fact: a cycle whose caller passes a paused control does nothing: it reports
    [BLOCKED] or fails, the pipeline never runs, and so no open position is managed,
    whatever its stop or the closing time.  The service passes such a control when
    only new entries should be blocked. *)
Theorem paused_override_blocks_everything a o (s : sys W) :
  ca_control_override a = Some o -> rc_paused o = true ->
  (forall report, (cycle a s).1 <> Ok (Ran report)) /\ s_trace (cycle a s).2 = s_trace s /\ same_ledger (s_db s) (s_db (cycle a s).2).
Proof.
  intros Ho Hr. set (P := fun x : res cycle_outcome * sys W => (forall report, x.1 <> Ok (Ran report)) /\ quiet_step s x.2).
  assert (Hl : forall e s', quiet_step s s' -> P (Err e, s')) by (by split).
  assert (Hb : forall reason s', quiet_step s s' -> P (Ok (Blocked reason), s')) by (by split).
  enough (HP : P (cycle a s)) by (destruct HP as (H1 & H2 & H3); done).
  unfold auto_trade_cycle. rewrite Ho. assert (T0 : quiet_step s s) by reflexivity.
  destruct (negb (String.eqb (ca_confirm a) "AUTO_TRADE")); [by apply Hb|].
  eapply after_calm; [apply keeps_lift, _|exact T0|exact Hl|]. intros u s1 _ T1.
  eapply after_calm; [apply calm_open_schema|exact T1|exact Hl|]. intros u2 s2 _ T2.
  eapply after_calm; [apply calm_query_rows|exact T2|exact Hl|]. intros symbols s3 _ T3.
  eapply after_calm; [apply keeps_query, _|exact T3|exact Hl|]. intros open_symbols s4 _ T4.
  eapply after_calm; [apply keeps_query, _|exact T4|exact Hl|]. intros stored s5 _ T5.
  eapply after_calm; [apply keeps_lift, _|exact T5|exact Hl|]. intros requested s6 _ T6. cbv zeta.
  destruct (negb (String.eqb (rc_environment o) _)); [by apply Hb|].
  eapply after_calm; [apply keeps_lift, _|exact T6|exact Hl|]. intros u3 s7 _ T7.
  eapply after_calm; [apply calm_lease_is_active|exact T7|exact Hl|]. intros leased s8 _ T8.
  destruct leased; [by apply Hb|]. rewrite Hr. by apply Hb.
Qed.

End CycleFacts.

Section StateFacts.
Context {W : Type} {CW : Clock W}.
Variables (h : host W) (calendar : option (Z -> bool)) (float_sum : list float -> float).
Variables (safe_load : string -> res json) (model_validate : dict setting -> res AppConfig) (buy_cost_bps sell_cost_bps : float).
Variables (env : string -> option string) (local_offset : Z).

(** C9: a risk snapshot that allows new entries rests on what this very run read:
    with the client and at the time of its opening, the account or the managed
    orders; the buying power that the broker then gave in full for the first known
    price; in a real account, the realized profit and loss read after it; a
    reconciliation and an order management that block nothing; and, in the service,
    the supervisor's record in the database at that time, whose gate is open. *)
Theorem entries_need_known_facts e symbols refresh manage (s : sys W) st s' :
  make_broker_cycle_state h calendar float_sum safe_load model_validate buy_cost_bps sell_cost_bps env local_offset
    e symbols refresh manage s = (Ok st, s') -> fail_closed (bc_portfolio st) = false ->
  exists c cycle_time s1 account reconciliation management unknown s2 symbol price s3 b w4,
    open_cycle h safe_load model_validate e refresh s = (Ok (c, cycle_time), s1) /\
    read_cycle h calendar env local_offset c cycle_time manage s1 = (Ok (account, reconciliation, management, unknown), s2) /\
    first_price h c account symbols s2 = (Ok (Some (symbol, price)), s3) /\
    get_buying_power (ho_get h) c symbol price "01" (s_world s3) = (Ok b, w4) /\
    is_Some (bp_orderable_cash b) /\ is_Some (bp_orderable_quantity b) /\
    (e = REAL -> exists r w5, get_realized_pnl float_sum (ho_get h) c 10 w4 = (Ok r, w5) /\ bc_realized st = Some r) /\
    bc_reconciliation st = reconciliation /\ rr_block_new_entries reconciliation = false /\
    bc_order_management st = management /\ om_block_new_entries management = false /\
    (manage = false -> supervisor_gate_unknown_fields env local_offset cycle_time (s_db s1) = Ok []).
Proof.
  unfold make_broker_cycle_state. intros H Hf.
  apply stm_bind_Ok in H as ([c cycle_time] & s1 & Hopen & H).
  apply stm_bind_Ok in H as ([[[account reconciliation] management] unknown] & s2 & Hread & H).
  apply stm_bind_Ok in H as (price & s3 & Hprice & H). apply stm_bind_Ok in H as (bp & s4 & Hbp & H).
  apply stm_bind_Ok in H as (realized & s5 & Hreal & H). apply stm_bind_Ok in H as (now & s6 & _ & H).
  apply stm_bind_Ok in H as (portfolio & s7 & _ & H). apply stm_bind_Ok in H as (o & s8 & _ & H).
  apply stm_bind_Ok in H as (u2 & s9 & _ & H). apply stm_bind_Ok in H as (t & s10 & _ & H). injection H as <- _.
  cbn [bc_portfolio bc_client bc_realized bc_reconciliation bc_order_management] in *.
  unfold fail_closed in Hf. apply negb_false_iff, bool_decide_eq_true in Hf. cbn [px_unknown_fields with_unknown] in Hf.
  assert (Hu : unknown_facts e bp (match realized with Some _ => false | None => true end) unknown reconciliation management = ∅) by (by apply empty_union_L in Hf as [_ ?]).
  clear Hf. unfold unknown_facts in Hu. rewrite !empty_union_L in Hu. destruct Hu as ((((H1 & H2) & H3) & H4) & H5).
  destruct bp as [b|]; [|set_solver]. destruct price as [[symbol x]|]; [|by injection Hbp].
  apply stm_bind_Ok in Hbp as (answer & s11 & Ha & Hbp). destruct answer as [b'|]; [|by injection Hbp]. injection Hbp as <- <-.
  unfold attempt, on_world in Ha. destruct (get_buying_power (ho_get h) c symbol x "01" (s_world s3)) as [r w4] eqn:Eg.
  injection Ha as -> <-.
  exists c, cycle_time, s1, account, reconciliation, management, unknown, s2, symbol, x, s3, b', w4. split_and!; try done.
  - destruct (bp_orderable_cash b') eqn:Ec; [by eexists|set_solver].
  - destruct (bp_orderable_cash b') eqn:Ec; [|set_solver]. destruct (bp_orderable_quantity b') eqn:Eq; [by eexists|set_solver].
  - intros ->. rewrite bool_decide_eq_true_2 in H2, Hreal by done. destruct realized as [pnl|]; [|cbn in H2; set_solver].
    apply stm_bind_Ok in Hreal as (answer & s12 & Ha & Hreal). destruct answer as [pnl'|]; [|by injection Hreal]. injection Hreal as <- _.
    unfold attempt, on_world in Ha. cbn [s_world] in Ha. destruct (get_realized_pnl float_sum (ho_get h) c 10 w4) as [x5 w5] eqn:Er.
    injection Ha as -> _. by exists pnl', w5.
  - destruct (rr_block_new_entries reconciliation); [set_solver|done].
  - destruct (om_block_new_entries management); [set_solver|done].
  - intros ->. unfold read_cycle in Hread. apply stm_bind_Ok in Hread as (a & s12 & Hacc & Hread).
    apply stm_bind_Ok in Hread as (un & s13 & Hun & Hread). injection Hread as <- <- <- <- _.
    unfold on_world in Hacc. destruct (get_account_snapshot _ _ _ _) as [? w]. injection Hacc as _ <-. unfold query_rows in Hun.
    apply stm_bind_Ok in Hun as (un0 & s14 & Hr & Hun). injection Hr as <- <-. cbn [s_db] in Hun. injection Hun as Hun _. rewrite Hun. f_equal.
    destruct un as [|x0 l]; [done|]. cbn in H3. set_solver.
Qed.

(** Fact: the check before an entry passes only when the broker's buying power for
    this symbol and price covers the shares and their price. *)
Theorem entry_budget_covers_order c symbol price quantity (w w' : W) :
  entry_budget_checker h c symbol price quantity w = (Ok true, w') -> exists b cash shares amount,
    get_buying_power (ho_get h) c symbol price "01" w = (Ok b, w') /\ bp_orderable_cash b = Some cash /\ bp_orderable_quantity b = Some shares /\
    quantity <= shares /\ fmul_Z quantity price = Ok amount /\ (amount <=? cash)%F = true.
Proof.
  unfold entry_budget_checker. intros H. apply stm_bind_Ok in H as (b & w1 & Hb & H).
  destruct (bp_orderable_cash b) as [cash|] eqn:Ec; [|by injection H]. destruct (bp_orderable_quantity b) as [shares|] eqn:Es; [|by injection H].
  destruct (shares <? quantity) eqn:Eq; [by injection H|]. apply stm_bind_Ok in H as (amount & w2 & Ha & H). injection Ha as Ha <-.
  injection H as H <-. exists b, cash, shares, amount. repeat split; try done. lia.
Qed.
End StateFacts.

(** ** Witnesses *)

(** A demo account whose broker quotes 70000, has cash for the order and
    acknowledges it. *)
Definition w_answers (q : http_request) : response :=
  let output (o : dict json) := mkResponse 200 [] (Some (JObj [("rt_cd", JStr "0"); ("output", JObj o)])) in
  if contains "inquire-psbl-order" (url q) then output [("nrcvb_buy_amt", JStr "1000000"); ("nrcvb_buy_qty", JStr "14")]
  else if contains "hashkey" (url q) then mkResponse 200 [] (Some (JObj [("HASH", JStr "hash")]))
  else if contains "order-cash" (url q) then output [("ODNO", JStr "b1")]
  else output [("stck_prpr", JStr "70000")].
#[local] Instance w_trade_clock : Clock unit := fun u => (w_open, u).
Definition w_host : host unit := {|
  ho_config_text := mret "";
  ho_environment := mret [("KIS_DEMO_APP_KEY", "k"); ("KIS_DEMO_APP_SECRET", "s"); ("KIS_DEMO_ACCOUNT_NO", "12345678-01")];
  ho_authenticate _ _ _ := mret (mkAuthResult "token" "approval" true);
  ho_get q := mret (w_answers q);
  ho_post q := mret (w_answers q);
  ho_socket := {| ws_connect _ := raise (OtherError "unused"); ws_close := mret tt; ws_send _ := mret tt; ws_recv _ := raise (OtherError "unused") |};
  ho_monotonic := mret fzero;
  ho_sleeper _ := mret tt;
  ho_random := mret fzero;
  ho_fresh u := ("1", u);
  ho_openai := raise (ValueError "required environment variable is missing: OPENAI_API_KEY");
  ho_notifier := raise (ValueError "required environment variable is missing: TELEGRAM_BOT_TOKEN");
|}.
Definition w_trade_env (name : string) : option string := if String.eqb name "LIVE_TRADING_ENABLED" then Some "true" else None.
Definition w_trade_client : kis_client := mkClient DEMO "k" "s" "token" "12345678" "01" true.
Definition w_trade_portfolio : PortfolioRiskSnapshot := mkRiskSnapshot (mkPortfolioState fzero [] fzero 0 0 ∅) ∅ 0 0 (Some (f_of_Z 1000000)).
Definition w_trade_args (override : option RuntimeControl) : cycle_args (W := unit) :=
  mkCycleArgs "demo" (Some "005930") "rule" 1 0 "AUTO_TRADE" false false (Some w_model) (Some "owner-1") (Some w_trade_portfolio) (Some w_trade_client) override.
Definition w_traded (override : option RuntimeControl) (d : db) : res cycle_outcome * sys unit :=
  auto_trade_cycle w_host (Some (fun _ => true)) w_total w_total w_group exn_name (fun _ => Ok JNull) w_validate fzero fzero w_trade_env KST "db"
    (fun l => l) (fun _ => false) 9 (w_trade_args override) (mkSys d tt []).

(** The service's database with a position bought at 71000, its stop at 70500 *)
Definition w_stopped : db := match open_live_position "p1" "s1" "005930" 1 (f_of_Z 71000) (f_of_Z 70500) (f_of_Z 73000) (dt_add w_open (-600000000)) None None w_service with Ok (_, d) => d | Err _ => empty_db end.
Definition w_sale : KisOrderRequest := mkOrderRequest "005930" SELL 1 (f_of_Z 70000) LIMIT "KRX" "" "".
Definition w_gate_blocked : RuntimeControl := mkRuntimeControl true "" "entry_gate_blocked" "service" "demo".

Lemma service_cycle_sends_through_gates_witness :
  map fst (s_trace (w_traded None w_service).2) = [SubmitCall w_order] /\
  exists gd x, g_owner gd = "owner-1" /\ sn_request x = w_order /\ gate_passed (Some (fun _ => true)) gd w_order (sn_db x).
Proof.
  assert (Ht : map fst (s_trace (w_traded None w_service).2) = [SubmitCall w_order]) by (vm_compute; reflexivity).
  split; [exact Ht|].
  destruct (service_cycle_sends_through_gates w_host (Some (fun _ => true)) w_total w_total w_group exn_name (fun _ => Ok JNull) w_validate fzero fzero
    w_trade_env KST "db" (fun l => l) (fun _ => false) 9 (w_trade_args None) "owner-1" w_trade_portfolio w_trade_client (mkSys w_service tt [])
    eq_refl eq_refl eq_refl) as [H|(gd & s2 & H2 & _ & es & H1 & H3)].
  - fold (w_traded None w_service) in H. rewrite H in Ht. discriminate Ht.
  - fold (w_traded None w_service) in H1. rewrite H1 in Ht. destruct es as [|x l]; [discriminate Ht|]. injection Ht as Hr _.
    pose proof (gp_owner _ _ _ _ _ _ H2) as Ho. injection Ho as Ho. exists gd, x. split; [by symmetry|]. split; [exact Hr|].
    rewrite <- Hr. exact (H3 x (list_elem_of_here x l)).
Defined.

(** A position below its stop is sold by a cycle of the service; with the control
    the service passes when new entries should wait, it is not. *)
Lemma paused_override_blocks_everything_witness :
  map fst (s_trace (w_traded None w_stopped).2) = [SubmitCall w_sale] /\
  (w_traded (Some w_gate_blocked) w_stopped).1 = Ok (Blocked "runtime_paused") /\
  s_trace (w_traded (Some w_gate_blocked) w_stopped).2 = [].
Proof.
  split; [vm_compute; reflexivity|]. split; [vm_compute; reflexivity|].
  exact (proj1 (proj2 (paused_override_blocks_everything w_host (Some (fun _ => true)) w_total w_total w_group exn_name (fun _ => Ok JNull) w_validate
    fzero fzero w_trade_env KST "db" (fun l => l) (fun _ => false) 9 (w_trade_args (Some w_gate_blocked)) w_gate_blocked (mkSys w_stopped tt []) eq_refl eq_refl))).
Defined.

(** A real account without positions: its cash, buying power and realized profit
    and loss are known, and the supervisor has just reconciled. *)
Definition w_real_answers (q : http_request) : response :=
  let answer (o : dict json) := mkResponse 200 [] (Some (JObj (("rt_cd", JStr "0") :: o))) in
  if contains "inquire-psbl-order" (url q) then answer [("output", JObj [("nrcvb_buy_amt", JStr "1000000"); ("nrcvb_buy_qty", JStr "14")])]
  else if contains "rlz-pl" (url q) then answer [("output2", JList [JObj [("rlzt_pfls", JStr "-5000")]])]
  else answer [("output1", JList []); ("output2", JList [JObj [("ord_psbl_cash", JStr "1000000")]])].
Definition w_real_answers_get (q : http_request) : stm unit response := mret (w_real_answers q).
Definition w_real_host : host unit := {|
  ho_config_text := mret "";
  ho_environment := mret [("KIS_REAL_APP_KEY", "k"); ("KIS_REAL_APP_SECRET", "s"); ("KIS_REAL_ACCOUNT_NO", "12345678-01")];
  ho_authenticate _ _ _ := mret (mkAuthResult "token" "approval" true);
  ho_get := w_real_answers_get;
  ho_post q := mret (w_real_answers q);
  ho_socket := ho_socket w_host;
  ho_monotonic := mret fzero;
  ho_sleeper _ := mret tt;
  ho_random := mret fzero;
  ho_fresh u := ("1", u);
  ho_openai := raise (ValueError "required environment variable is missing: OPENAI_API_KEY");
  ho_notifier := raise (ValueError "required environment variable is missing: TELEGRAM_BOT_TOKEN");
|}.
Definition w_watched : db := Eval vm_compute in
  put_metadata "order-supervisor.status" (dumps (JObj [("status", JStr "reconciled")])) (iso w_open)
    (put_metadata "heartbeat:order-supervisor" (iso w_open) (iso w_open) w_market).
Definition w_state (local_offset : Z) : res BrokerCycleState * sys unit :=
  make_broker_cycle_state w_real_host (Some (fun _ => true)) w_total (fun _ => Ok JNull) w_validate fzero fzero w_trade_env local_offset REAL ["005930"] false false
    (mkSys w_watched tt []).

Lemma entries_need_known_facts_witness : exists st, (w_state KST).1 = Ok st /\ fail_closed (bc_portfolio st) = false /\
  exists c cycle_time s1, open_cycle w_real_host (fun _ => Ok JNull) w_validate REAL false (mkSys w_watched tt []) = (Ok (c, cycle_time), s1) /\
    supervisor_gate_unknown_fields w_trade_env KST cycle_time (s_db s1) = Ok [] /\
    exists symbol price w b w', get_buying_power w_real_answers_get c symbol price "01" w = (Ok b, w').
Proof.
  assert (H : match (w_state KST).1 with Ok st => fail_closed (bc_portfolio st) | Err _ => true end = false) by (vm_compute; reflexivity).
  destruct (w_state KST) as [[st|e] s'] eqn:E; [|discriminate H]. exists st. split; [reflexivity|]. split; [exact H|].
  destruct (entries_need_known_facts w_real_host (Some (fun _ => true)) w_total (fun _ => Ok JNull) w_validate fzero fzero w_trade_env KST REAL ["005930"]
    false false (mkSys w_watched tt []) st s' E H) as (c & t & s1 & account & rec & man & un & s2 & symbol & price & s3 & b & w4 & H1 & _ & _ & Hb & _ & _ & _ & _ & _ & _ & _ & Hg).
  exists c, t, s1. split; [exact H1|]. split; [exact (Hg eq_refl)|]. exists symbol, price, (s_world s3), b, w4. exact Hb.
Defined.

(** Fact: the same account, a second after the supervisor reconciled, on a machine
    whose zone is UTC: new entries are blocked. *)
Example entries_blocked_in_utc : match (w_state UTC).1 with
  | Ok st => px_unknown_fields (bc_portfolio st) = {["order_supervisor"]}
  | Err _ => False
  end.
Proof. vm_compute. reflexivity. Qed.

Definition w_budget := Eval vm_compute in entry_budget_checker w_host w_trade_client "005930" (f_of_Z 70000) 14 tt.

Lemma entry_budget_covers_order_witness : w_budget = (Ok true, tt) /\ exists shares, 14 <= shares.
Proof.
  split; [reflexivity|].
  destruct (entry_budget_covers_order w_host w_trade_client "005930" (f_of_Z 70000) 14 tt tt ltac:(vm_compute; reflexivity))
    as (b & cash & shares & amount & _ & _ & _ & H & _). by exists shares.
Defined.
