(* ===== verification/Service.v ===== *)
(** * The trading service ([cli.py], [service_loop])

    One process holds the service lease and, cycle after cycle, lifts pauses no
    emergency asks for, renews the lease, cleans old market data, checks its
    configuration, keeps its workers alive, and, when nothing stands in the way and
    the market is open, resolves the universe, collects market data, reads the
    broker and runs a trading cycle.  A failing cycle is recorded, not fatal. *)

From S2P Require Import Prelude PyStr PyFloat PyTime IsoText PyDecimal PyDict PyJson Risk DbCore DbOrders DbRuntime DbMarket DbLedger DbFrames DbPaper.
From S2P Require Import KisHttp KisOrder KisOrderStatus KisAccount System SystemFrames Reconciliation OrderManagement FillNotice KisWs KisAuth Config KisQueries.
From S2P Require Import Bars ExitPolicy Indicators AiBudget AiDecision GuardedSubmitter AutoTrade Operator Collector Performance Portfolio AutoUniverse.
From S2P Require Import ServiceSettings ServiceGates SupervisorStatus FillNoticeReconciliation FillNoticeWorker TradeCycle.

Definition SERVICE_LEASE_TTL_SECONDS : Z := 180.
Definition PREFLIGHT_ALERT_FINGERPRINT_KEY : string := "service:preflight_alert:fingerprint".
Definition PREFLIGHT_ALERT_AT_KEY : string := "service:preflight_alert:at".

(** What the service is started with *)
Record service_settings (W : Type) := mkServiceSettings {
  ss_symbols_text : option string;
  ss_ai : string;
  ss_max_quantity : Z;
  ss_collect_seconds : Z;
  ss_cycle_interval : Z;
  ss_refresh_token : bool;
  ss_shared_ai : option (ai_client W);   (* the OpenAI client made at the start *)
}.
Arguments mkServiceSettings {W} _ _ _ _ _ _ _.
Arguments ss_symbols_text {W} _.
Arguments ss_ai {W} _.
Arguments ss_max_quantity {W} _.
Arguments ss_collect_seconds {W} _.
Arguments ss_cycle_interval {W} _.
Arguments ss_refresh_token {W} _.
Arguments ss_shared_ai {W} _.

(** The parameters of the order supervisor's thread *)
Record supervisor_settings := mkSupervisorSettings {
  vs_interval : float;
  vs_buy_ttl : float;
  vs_sell_ttl : float;
  vs_read_throttle : float;
  vs_owner : string;
  vs_refresh_token : bool;
}.

(** The threads of the process: whether the Telegram poll last failed, whether a
    worker is alive, and its start; the notifier; and the sleep between cycles,
    which an interrupt ends with a [KeyboardInterrupt]. *)
Record threads (W : Type) := mkThreads {
  th_poll_failed : stm W bool;
  th_fill_notice_alive : stm W bool;
  th_start_fill_notice : stm W unit;
  th_supervisor_alive : stm W bool;
  th_start_supervisor : supervisor_settings -> stm W unit;
  th_start_poll : stm W unit;
  th_stop : W -> W;
  th_notifier : option (string -> stm (sys W) unit);
  th_install_menu : stm W unit;
  th_sleep : float -> stm W unit;
}.
Arguments mkThreads {W} _ _ _ _ _ _ _ _ _ _.
Arguments th_poll_failed {W} _.
Arguments th_fill_notice_alive {W} _.
Arguments th_start_fill_notice {W} _.
Arguments th_supervisor_alive {W} _.
Arguments th_start_supervisor {W} _ _.
Arguments th_start_poll {W} _.
Arguments th_stop {W} _ _.
Arguments th_notifier {W} _.
Arguments th_install_menu {W} _.
Arguments th_sleep {W} _ _.

(** How a cycle ends: for a configuration error, for the supervisor's dependency,
    paused, with the market closed, because the control changed while market data
    was collected, or with a trading cycle. *)
Inductive cycle_end :=
  | SetupIssue (errors : list string)
  | DependencyWait
  | ServicePaused
  | MarketClosed
  | ControlChanged
  | Traded (outcome : cycle_outcome).

(** The loop's variables [last_alert] and [last_alert_at] *)
Record loop (W : Type) := mkLoop { lo_sys : sys W; lo_alert : string; lo_alert_at : float }.
Arguments mkLoop {W} _ _ _.
Arguments lo_sys {W} _.
Arguments lo_alert {W} _.
Arguments lo_alert_at {W} _.

Section Service.
Context {W : Type} {CW : Clock W}.
Variable h : host W.
Variable th : threads W.
Variable calendar : option (Z -> bool).
Variables float_sum sum_real : list float -> float.
Variable group_row : paper_fill -> list paper_fill -> paper_fill.
Variable exn_text : exn -> string.
Variable safe_load : string -> res json.
Variable model_validate : dict setting -> res AppConfig.
Variables buy_cost_bps sell_cost_bps : float.
Variable env : string -> option string.
Variable local_offset : Z.
Variable db_path : string.
Variable engine_order : list tick_row -> list tick_row.
Variable foreign_os_error : string -> bool.
Variable fuel : nat.
(** SQLite's [julianday], for the lease *)
Variable julianday : string -> option Z.
Variable owner_id : string.
Variable st : service_settings W.

(** [_runtime_preflight] *)
Definition preflight_checks (config : AppConfig) (e : KisEnvironment) : list (string * res unit) :=
  [("kis_api", _ ← required_api config e; Ok tt); ("kis_account", _ ← required_account config e; Ok tt);
   ("broker_gate", assert_broker_order_allowed env);
   ("exchange_calendar", raise_if (negb (exchange_calendar_available calendar))
                           (RuntimeError "exchange calendar is unavailable; broker trading is fail-closed"));
   ("risk_config", _ ← risk_settings_from_env env; Ok tt)].

Definition failed_checks (checks : list (string * res unit)) : list string :=
  flat_map (fun c => match c.2 with Ok _ => [] | Err e => [c.1 +:+ ": " +:+ exn_text e] end) checks.

Definition runtime_preflight (e : KisEnvironment) : stm W (list string) :=
  loaded ← KisWs.outcome (read_config h safe_load model_validate);
  match loaded : res AppConfig with
  | Err x => mret ["config: " +:+ exn_text x]
  | Ok config =>
      mret (failed_checks (preflight_checks config e) ++
        (if String.eqb (ss_ai st) "openai" && match env "OPENAI_API_KEY" with None => true | Some _ => false end
         then ["openai: OPENAI_API_KEY is required when AUTO_TRADE_AI=openai"] else []))
  end.

(** [_discover_auto_universe] *)
Definition discover_auto_universe (e : KisEnvironment) (settings : AutoUniverseSettings) : stm W (list string) :=
  config ← read_config h safe_load model_validate;
  api ← lift_res (required_api config e);
  auth ← ho_authenticate h e api (ss_refresh_token st);
  ranked ← get_active_stocks (ho_get h) (make_client e api (ar_access_token auth) ("", ""))
             (mkRankFilter (un_size settings) (un_min_price settings) (un_max_price settings) (un_min_volume settings)
                (un_min_change_pct settings) (un_max_change_pct settings));
  mret (map rk_symbol ranked).

(** [_resolve_service_symbols_for_cycle] *)
Definition service_symbols (e : KisEnvironment) (now : datetime) : stm (sys W) (list string) :=
  settings ← lift_res (universe_settings_from_env env);
  _ ← open_schema;
  base ← query_rows (cycle_symbols (ss_symbols_text st));
  open_symbols ← query (fun d => map lp_symbol (list_open_live_positions None d));
  resolve_service_symbols (discover_auto_universe e) base open_symbols settings now.

(** [_collect_service_market_window] *)
Definition collect_window (e : KisEnvironment) (symbols : list string) : stm (sys W) unit :=
  if (ss_collect_seconds st <=? 0) || match symbols with [] => true | _ => false end then mret tt
  else
    config ← on_world (read_config h safe_load model_validate);
    api ← lift_res (required_api config e);
    auth ← on_world (ho_authenticate h e api (ss_refresh_token st));
    collect_market h engine_order foreign_os_error fuel e (ar_approval_key auth) symbols (ss_collect_seconds st).

(** [control_status], over a connection of its own *)
Definition cycle_control_status : stm (sys W) RuntimeControl := _ ← open_schema; query get_runtime_control.

(** The retention of a cycle: a failure is recorded. *)
Definition clean_market_data (now : datetime) : stm (sys W) unit :=
  cleaned ← attempt (tick_days ← lift_res (env_int env "MARKET_TICK_RETENTION_DAYS" 7 (Some 1) None);
                     bar_days ← lift_res (env_int env "MARKET_BAR_RETENTION_DAYS" 365 (Some 1) None);
                     cleanup_market_data now tick_days bar_days);
  match cleaned : res (option (Z * Z)) with
  | Ok _ => mret tt
  | Err e => _ ← set_metadata_now "market_retention:last_error" ("market retention warning: " +:+ exn_name e) (Some now); mret tt
  end.

(** The fill notices: by REST while this process has the market stream, else by the
    worker's thread. *)
Definition tend_fill_notice (e : KisEnvironment) : stm (sys W) unit :=
  if 0 <? ss_collect_seconds st then
    t ← utc_clock;
    _ ← on_db (record_heartbeat "fill-notice" (Some t));
    _ ← set_metadata_now "fill-notice:status" "rest_reconciliation" (Some t);
    _ ← set_metadata_now "fill-notice:environment" (environment_value e) (Some t);
    _ ← set_metadata_now "fill-notice:last_error" "" (Some t);
    mret tt
  else
    alive ← on_world (th_fill_notice_alive th);
    if alive : bool then mret tt else on_world (th_start_fill_notice th).

Definition tend_supervisor : stm (sys W) unit :=
  alive ← on_world (th_supervisor_alive th);
  if alive : bool then mret tt
  else
    interval ← lift_res (env_float env "ORDER_SUPERVISOR_INTERVAL_SECONDS" (f_of_Z 5) (Some (f_one, "1")) None);
    buy_ttl ← lift_res (env_float env "BUY_ORDER_TTL_SECONDS" (f_of_Z 60) (Some (fzero, "0")) None);
    sell_ttl ← lift_res (env_float env "SELL_ORDER_TTL_SECONDS" (f_of_Z 30) (Some (fzero, "0")) None);
    throttle ← lift_res (env_float env "ORDER_SUPERVISOR_BROKER_READ_THROTTLE_SECONDS" (f_ratio 25 100) (Some (fzero, "0")) None);
    on_world (th_start_supervisor th (mkSupervisorSettings interval buy_ttl sell_ttl throttle owner_id (ss_refresh_token st))).

Notation run := (stm (loop W)).
Definition in_loop {A} (m : stm (sys W) A) : run A := fun l => let '(r, s) := m (lo_sys l) in (r, mkLoop s (lo_alert l) (lo_alert_at l)).

(** The alert on the reasons of a reconciliation, at most every five minutes *)
Definition reconciliation_alert (reasons : list string) : run unit :=
  match reasons with
  | [] => mret tt
  | _ =>
      let message := "broker reconciliation" +:+ NEWLINE +:+ join NEWLINE (map (fun r => "- " +:+ r) reasons) in
      l ← gets (fun l => l);
      elapsed ← (if String.eqb message (lo_alert l) then t ← in_loop (on_world (ho_monotonic h)); mret (f_of_Z 300 <? t - lo_alert_at l)%F
                 else mret true);
      if elapsed : bool then
        t ← in_loop (on_world (ho_monotonic h));
        _ ← modify (fun l => mkLoop (lo_sys l) message t);
        _ ← in_loop (notify_operator (th_notifier th) (message +:+ NEWLINE +:+ "New entries are auto-paused until recovery."));
        mret tt
      else mret tt
  end.

(** The reasons that block entries automatically *)
Definition automatic_gates (poll_failed unavailable : bool) : list string :=
  (if poll_failed then ["telegram_poll_unavailable"] else []) ++ (if unavailable then ["portfolio_unavailable"] else []).

(** [replace(control, paused=True, reason="entry_gate_blocked")] *)
Definition gated_control (reasons : list string) (control : RuntimeControl) : RuntimeControl :=
  match reasons with
  | [] => control
  | _ => mkRuntimeControl true (rc_updated_at control) "entry_gate_blocked" (rc_source control) (rc_environment control)
  end.

Definition service_args (e : KisEnvironment) (symbols : list string) (state : BrokerCycleState) (control : RuntimeControl) : cycle_args :=
  mkCycleArgs (environment_value e) (Some (join "," symbols)) (ss_ai st) (ss_max_quantity st) 0 "AUTO_TRADE"
    (match th_notifier th with Some _ => true | None => false end) (ss_refresh_token st) (ss_shared_ai st) (Some owner_id)
    (Some (bc_portfolio state)) (Some (bc_client state)) (Some control).

(** The part of a cycle in which the market is open *)
Definition trade (control : RuntimeControl) (e : KisEnvironment) (now : datetime) : run cycle_end :=
  symbols ← in_loop (service_symbols e now);
  _ ← in_loop (collect_window e symbols);
  latest ← in_loop cycle_control_status;
  if rc_paused latest || negb (String.eqb (rc_environment latest) (environment_value e)) then mret ControlChanged
  else
    state ← in_loop (make_broker_cycle_state h calendar float_sum safe_load model_validate buy_cost_bps sell_cost_bps env local_offset
              e symbols (ss_refresh_token st) false);
    _ ← in_loop (notify_order_management_alert (th_notifier th) (bc_order_management state) now);
    _ ← reconciliation_alert (rr_reasons (bc_reconciliation state));
    poll_failed ← in_loop (on_world (th_poll_failed th));
    let reasons := automatic_gates poll_failed (fail_closed (bc_portfolio state)) in
    _ ← in_loop (set_automatic_pause (match reasons with [] => false | _ => true end) (join "," reasons));
    outcome ← in_loop (auto_trade_cycle h calendar float_sum sum_real group_row exn_text safe_load model_validate buy_cost_bps sell_cost_bps
                env local_offset db_path engine_order foreign_os_error fuel (service_args e symbols state (gated_control reasons control)));
    mret (Traded outcome).

(** The [try] of a cycle up to the market window: how the cycle ends early, or the
    control, the environment and the time it goes on with *)
Definition cycle_gates : run (cycle_end + RuntimeControl * KisEnvironment * datetime) :=
  now ← in_loop kst_now;
  heartbeat_at ← in_loop read_clock;
  _ ← in_loop (on_db (record_heartbeat "trading-service" (Some heartbeat_at)));
  _ ← in_loop (sync_service_runtime false);
  renewed ← in_loop (on_db (renew_service_lease julianday LEASE_NAME owner_id SERVICE_LEASE_TTL_SECONDS None));
  if negb renewed then raise (RuntimeError "trading-service lease renewal failed")
  else
    _ ← in_loop (clean_market_data now);
    control ← in_loop cycle_control_status;
    e ← lift_res (parse_environment (rc_environment control));
    errors ← in_loop (on_world (runtime_preflight e));
    match errors : list string with
    | _ :: _ =>
        _ ← in_loop (set_automatic_pause true "preflight_failed");
        _ ← in_loop (send_throttled_service_alert (th_notifier th)
              ("auto-trade auto-paused: setup issue" +:+ NEWLINE +:+ join NEWLINE (map (fun x => "- " +:+ x) errors)) now
              PREFLIGHT_ALERT_FINGERPRINT_KEY PREFLIGHT_ALERT_AT_KEY);
        mret (inl (SetupIssue errors))
    | [] =>
        _ ← in_loop (tend_fill_notice e);
        _ ← in_loop tend_supervisor;
        waiting ← in_loop (query supervisor_dependency_blocks);
        if waiting : bool then
          _ ← in_loop (set_automatic_pause true "supervisor_dependency_unavailable");
          mret (inl DependencyWait)
        else
          _ ← in_loop (set_automatic_pause false "");
          if rc_paused control then mret (inl ServicePaused)
          else if negb (is_regular_market_open calendar now) then mret (inl MarketClosed)
          else mret (inr (control, e, now))
    end.

(** The [try] of a cycle *)
Definition service_cycle : run cycle_end :=
  cleared ← cycle_gates;
  match cleared : cycle_end + RuntimeControl * KisEnvironment * datetime with
  | inl ended => mret ended
  | inr (control, e, now) => trade control e now
  end.

(** The [except Exception] of a cycle *)
Definition cycle_failed (e : exn) : run unit :=
  let message := "service cycle warning: " +:+ exn_name e in
  _ ← in_loop (set_automatic_pause true ("service_cycle_error:" +:+ exn_name e));
  now ← in_loop kst_now;
  _ ← in_loop (set_metadata_now "service:last_error" message (Some now));
  _ ← in_loop (notify_operator (th_notifier th) message);
  mret tt.

(** One turn of the [while], up to its sleep: the end of the cycle, or the failure
    that was recorded; an interrupt passes unrecorded. *)
Definition service_pass : run (cycle_end + exn) :=
  catch (r ← service_cycle; mret (inl r))
    (fun e => if bool_decide (e = KeyboardInterrupt) then raise e else _ ← cycle_failed e; mret (inr e)).

(** [_sleep_remaining] *)
Definition sleep_remaining (started : float) : run unit :=
  t ← in_loop (on_world (ho_monotonic h));
  in_loop (on_world (th_sleep th (fmax fzero (f_of_Z (ss_cycle_interval st) - (t - started)))%F)).

(** The [while True], for at most [n] turns *)
Fixpoint service_turns (n : nat) : run unit :=
  match n with
  | O => mret tt
  | S n =>
      started ← in_loop (on_world (ho_monotonic h));
      _ ← service_pass;
      _ ← sleep_remaining started;
      service_turns n
  end.

(** The states in which the turns of [service_turns] start their cycle *)
Fixpoint turn_starts (n : nat) (l : loop W) : list (loop W) :=
  match n with
  | O => []
  | S n =>
      match in_loop (on_world (ho_monotonic h)) l with
      | (Ok started, l) =>
          l :: match service_pass l with
               | (Ok _, l') => match sleep_remaining started l' with (Ok _, l'') => turn_starts n l'' | _ => [] end
               | _ => []
               end
      | _ => []
      end
  end.

(** The start of the service, up to its loop *)
Definition startup_message (control : RuntimeControl) : string :=
  "auto-trade service started" +:+ NEWLINE +:+ "runtime: " +:+ (if rc_paused control then "paused (emergency stop)" else "running") +:+
  NEWLINE +:+ "Automatic dependency recovery is enabled.".

Definition greet (control : RuntimeControl) : stm (sys W) unit :=
  match th_notifier th with
  | None => mret tt
  | Some send =>
      _ ← except_Exception (on_world (th_install_menu th));
      _ ← except_Exception (send (startup_message control));
      mret tt
  end.

Definition start_poll : stm (sys W) unit :=
  match env "TELEGRAM_BOT_TOKEN", env "TELEGRAM_ALLOWED_CHAT_ID" with
  | Some _, Some _ => on_world (th_start_poll th)
  | _, _ => mret tt
  end.

(** The [finally]: the threads are stopped and the lease is given back. *)
Definition shut_down : stm (sys W) bool :=
  _ ← on_world (fun w => (Ok tt, th_stop th w));
  on_db (fun _ => release_service_lease LEASE_NAME owner_id).

Definition run_turns (n : nat) : stm (sys W) unit := fun s => let '(r, l) := service_turns n (mkLoop s "" fzero) in (r, lo_sys l).

(** [service_loop], for at most [n] turns *)
Definition service_loop (n : nat) : stm (sys W) unit :=
  _ ← lift_res (raise_if (ss_cycle_interval st <? 1) (ValueError "cycle_interval_seconds must be positive"));
  _ ← open_schema;
  heartbeat_at ← read_clock;
  _ ← on_db (record_heartbeat "trading-service" (Some heartbeat_at));
  acquired ← on_db (acquire_service_lease julianday LEASE_NAME owner_id SERVICE_LEASE_TTL_SECONDS None);
  if negb acquired then raise (RuntimeError "another trading-service instance already holds the service lease")
  else
    control ← sync_service_runtime true;
    ended ← attempt (_ ← greet control; _ ← start_poll; run_turns n);
    _ ← shut_down;
    lift_res ended.
End Service.

(** ** Lemmas *)

(** The two entries a notifier may write *)
Definition NOTIFIER_KEYS : list string := ["telegram.notification_history"; "telegram.notification_message_id"].

(** What the service needs of a notifier: it calls nothing at the broker, and writes
    no metadata but its own. *)
Class QuietNotifier {W : Type} (send : string -> stm (sys W) unit) := quiet_notifier : forall text s,
  s_trace (send text s).2 = s_trace s /\ forall k, k ∉ NOTIFIER_KEYS -> get_metadata k (s_db (send text s).2) = get_metadata k (s_db s).

Definition same_loop_trace {W} (l l' : loop W) : Prop := s_trace (lo_sys l') = s_trace (lo_sys l).
#[export] Instance same_loop_trace_preorder {W} : PreOrder (same_loop_trace (W := W)).
Proof. split; [done|]. unfold same_loop_trace. intros a b c. congruence. Qed.

Lemma quiet_in_loop {W A} (m : stm (sys W) A) : keeps same_trace m -> keeps same_loop_trace (in_loop m).
Proof. intros Hm l. specialize (Hm (lo_sys l)). unfold in_loop. by destruct (m (lo_sys l)). Qed.

Lemma in_loop_run {W A} (m : stm (sys W) A) (l : loop W) r l' : in_loop m l = (r, l') ->
  m (lo_sys l) = (r, lo_sys l') /\ lo_alert l' = lo_alert l /\ lo_alert_at l' = lo_alert_at l.
Proof. unfold in_loop. destruct (m (lo_sys l)). by intros [= <- <-]. Qed.

(** The end of a run that starts with quiet steps. *)
Lemma after_quiet_loop {W A B} (m : stm (loop W) A) (f : A -> stm (loop W) B) l tr (P : loop W -> Prop) :
  keeps same_loop_trace m -> s_trace (lo_sys l) = tr -> (forall l', s_trace (lo_sys l') = tr -> P l') ->
  (forall a l1, m l = (Ok a, l1) -> s_trace (lo_sys l1) = tr -> P (f a l1).2) -> P (mbind f m l).2.
Proof.
  intros Hm Ht HP Hf. specialize (Hm l). apply after.
  - intros e s1 E. rewrite E in Hm. apply HP. by rewrite <- Ht.
  - intros a s1 E. rewrite E in Hm. apply Hf; [done|]. by rewrite <- Ht.
Qed.

Section ServiceFacts.
Context {W : Type} {CW : Clock W}.
Variables (h : host W) (th : threads W) (calendar : option (Z -> bool)) (float_sum sum_real : list float -> float).
Variables (group_row : paper_fill -> list paper_fill -> paper_fill) (exn_text : exn -> string).
Variables (safe_load : string -> res json) (model_validate : dict setting -> res AppConfig) (buy_cost_bps sell_cost_bps : float).
Variables (env : string -> option string) (local_offset : Z) (db_path : string).
Variables (engine_order : list tick_row -> list tick_row) (foreign_os_error : string -> bool) (fuel : nat).
Variables (julianday : string -> option Z) (owner_id : string) (st : service_settings W).
Hypothesis notifier_quiet : forall send, th_notifier th = Some send -> QuietNotifier send.

Lemma quiet_service_symbols e now : keeps same_trace (service_symbols h safe_load model_validate env st e now).
Proof.
  apply keeps_bind; [exact _|quiet_leaf|]. intros settings. apply keeps_bind; [exact _|quiet_leaf|]. intros _.
  apply keeps_bind; [exact _|quiet_leaf|]. intros base. apply keeps_bind; [exact _|quiet_leaf|]. intros open.
  apply keeps_bind; [exact _|quiet_leaf|]. intros stored. apply keeps_bind; [exact _| |intros ?; quiet_leaf].
  destruct (un_enabled settings); [|quiet_leaf]. apply keeps_bind; [exact _|quiet_leaf|]. intros due.
  apply keeps_bind; [exact _|quiet_leaf|]. intros []; [|quiet_leaf]. apply keeps_bind; [exact _|quiet_leaf|]. intros _.
  apply keeps_bind; [exact _|quiet_leaf|]. intros [l|x]; repeat (apply keeps_bind; [exact _|quiet_leaf|]; intros ?); quiet_leaf.
Qed.

Lemma quiet_collect_window e symbols :
  keeps same_trace (collect_window h safe_load model_validate engine_order foreign_os_error fuel st e symbols).
Proof.
  unfold collect_window. destruct (_ || _); [quiet_leaf|]. apply keeps_bind; [exact _|quiet_leaf|]. intros config.
  apply keeps_bind; [exact _|quiet_leaf|]. intros api. apply keeps_bind; [exact _|quiet_leaf|]. intros auth. apply quiet_collect_market.
Qed.

Lemma quiet_control_status : keeps (same_trace (W := W)) cycle_control_status.
Proof. apply keeps_bind; [exact _|quiet_leaf|]. intros _. quiet_leaf. Qed.

Lemma quiet_notify_operator text : keeps same_trace (notify_operator (th_notifier th) text).
Proof.
  unfold notify_operator. destruct (th_notifier th) as [send|] eqn:E; [|quiet_leaf]. apply keeps_bind; [exact _| |intros ?; quiet_leaf].
  apply keeps_except. intros s. apply (notifier_quiet send eq_refl).
Qed.

Lemma quiet_alert message now fk ak : keeps same_trace (send_throttled_service_alert (th_notifier th) message now fk ak).
Proof.
  apply keeps_bind; [exact _|quiet_leaf|]. intros []; [quiet_leaf|]. apply keeps_bind; [exact _|apply quiet_notify_operator|].
  intros []; cbn [negb]; [|quiet_leaf]. repeat (apply keeps_bind; [exact _|quiet_leaf|]; intros ?). quiet_leaf.
Qed.

Lemma quiet_management_alert report now : keeps same_trace (notify_order_management_alert (th_notifier th) report now).
Proof. unfold notify_order_management_alert. destruct (management_events report); [quiet_leaf|apply quiet_alert]. Qed.

Lemma quiet_automatic_pause active reason : keeps (same_trace (W := W)) (set_automatic_pause active reason).
Proof. repeat (apply keeps_bind; [exact _|quiet_leaf|]; intros ?). quiet_leaf. Qed.

Lemma quiet_sync startup : keeps (same_trace (W := W)) (sync_service_runtime startup).
Proof.
  apply keeps_bind; [exact _|quiet_leaf|]. intros c. apply keeps_bind; [exact _|quiet_leaf|]. intros [];
    [destruct (negb _)|destruct (_ || _)]; unfold set_paused_now; quiet_leaf.
Qed.

Lemma quiet_clean now : keeps same_trace (clean_market_data env now).
Proof.
  apply keeps_bind; [exact _| |intros []; [quiet_leaf|apply keeps_bind; [exact _|quiet_leaf|]; intros ?; quiet_leaf]].
  apply keeps_attempt. apply keeps_bind; [exact _|quiet_leaf|]. intros t. apply keeps_bind; [exact _|quiet_leaf|]. intros b.
  apply keeps_bind; [exact _|quiet_leaf|]. intros done. destruct (bool_decide _); [quiet_leaf|].
  repeat (apply keeps_bind; [exact _|quiet_leaf|]; intros ?). quiet_leaf.
Qed.

Lemma quiet_tend_fill e : keeps same_trace (tend_fill_notice th st e).
Proof.
  unfold tend_fill_notice. destruct (0 <? _).
  - apply keeps_bind; [exact _| |intros t; repeat (apply keeps_bind; [exact _|quiet_leaf|]; intros ?); quiet_leaf].
    apply keeps_bind; [exact _|quiet_leaf|]. intros t. quiet_leaf.
  - apply keeps_bind; [exact _|quiet_leaf|]. intros []; quiet_leaf.
Qed.

Lemma quiet_tend_supervisor : keeps same_trace (tend_supervisor th env owner_id st).
Proof.
  apply keeps_bind; [exact _|quiet_leaf|]. intros []; [quiet_leaf|]. repeat (apply keeps_bind; [exact _|quiet_leaf|]; intros ?). quiet_leaf.
Qed.

Lemma quiet_cycle_state e symbols refresh :
  keeps same_trace (make_broker_cycle_state h calendar float_sum safe_load model_validate buy_cost_bps sell_cost_bps env local_offset e symbols refresh false).
Proof.
  unfold make_broker_cycle_state. apply keeps_bind; [exact _|unfold open_cycle; do 5 (apply keeps_bind; [exact _|quiet_leaf|]; intros ?); quiet_leaf|].
  intros [c cycle_time]. apply keeps_bind; [exact _| |].
  { apply keeps_bind; [exact _|quiet_leaf|]. intros account. apply keeps_bind; [exact _|quiet_leaf|]. intros unknown. quiet_leaf. }
  intros [[[account reconciliation] management] unknown].
  apply keeps_bind; [exact _| |].
  { apply keeps_bind; [exact _|quiet_leaf|]. intros [|p l]; [destruct symbols|]; try quiet_leaf.
    apply keeps_bind; [exact _|quiet_leaf|]. intros []; quiet_leaf. }
  intros price. apply keeps_bind; [exact _| |].
  { destruct price as [[symbol x]|]; [|quiet_leaf]. apply keeps_bind; [exact _|quiet_leaf|]. intros []; quiet_leaf. }
  intros bp. apply keeps_bind; [exact _| |].
  { destruct (bool_decide _); [|quiet_leaf]. apply keeps_bind; [exact _|quiet_leaf|]. intros []; quiet_leaf. }
  intros realized. cbv zeta. repeat (apply keeps_bind; [exact _|quiet_leaf|]; intros ?). quiet_leaf.
Qed.

Lemma quiet_reconciliation_alert reasons : keeps same_loop_trace (reconciliation_alert h th reasons).
Proof.
  unfold reconciliation_alert. destruct reasons as [|r l]; [apply keeps_ret, _|]. cbv zeta.
  apply keeps_bind; [exact _|by intros ?|]. intros l0. apply keeps_bind; [exact _| |].
  - destruct (String.eqb _ _); [|apply keeps_ret, _]. apply keeps_bind; [exact _|apply quiet_in_loop; quiet_leaf|]. intros t. apply keeps_ret, _.
  - intros []; [|apply keeps_ret, _]. apply keeps_bind; [exact _|apply quiet_in_loop; quiet_leaf|]. intros t.
    apply keeps_bind; [exact _|by intros ?|]. intros _. apply keeps_bind; [exact _|apply quiet_in_loop, quiet_notify_operator|].
    intros b. apply keeps_ret, _.
Qed.

Create HintDb quiet_service.
#[local] Hint Resolve quiet_service_symbols quiet_collect_window quiet_control_status quiet_notify_operator quiet_alert quiet_management_alert
  quiet_automatic_pause quiet_sync quiet_clean quiet_tend_fill quiet_tend_supervisor quiet_cycle_state quiet_reconciliation_alert : quiet_service.
Ltac loop_step T H := cbv beta; eapply after_quiet_loop;
  [first [solve [auto with quiet_service] | apply quiet_in_loop; first [quiet_leaf | solve [auto with quiet_service]] | apply keeps_lift, _]
  |exact T|exact H|].

Notation gates := (cycle_gates h th calendar exn_text safe_load model_validate env julianday owner_id st).
Notation traded := (auto_trade_cycle h calendar float_sum sum_real group_row exn_text safe_load model_validate buy_cost_bps sell_cost_bps env local_offset
    db_path engine_order foreign_os_error fuel).
Notation broker_state := (make_broker_cycle_state h calendar float_sum safe_load model_validate buy_cost_bps sell_cost_bps env local_offset).
Notation in_cycle := (service_cycle h th calendar float_sum sum_real group_row exn_text safe_load model_validate buy_cost_bps sell_cost_bps env local_offset
    db_path engine_order foreign_os_error fuel julianday owner_id st).

(** What stands behind every order of a cycle of the service that started in [l]: its
    gates let it through with a control that is not paused and an open market, the
    state it then read at the broker has every fact new entries need, and it ended
    as the trading cycle did with that state and that control, guarded by the lease
    of this service. *)
Definition cleared_in (l : loop W) (gd : guard) : Prop :=
  exists control now l1 symbols state s s1 s2,
    gates l = (Ok (inr (control, g_environment gd, now)), l1) /\ rc_paused control = false /\ is_regular_market_open calendar now = true /\
    s_trace s = s_trace (lo_sys l) /\ broker_state (g_environment gd) symbols (ss_refresh_token st) false s = (Ok state, s1) /\
    fail_closed (bc_portfolio state) = false /\ s_trace s2 = s_trace (lo_sys l) /\
    lo_sys (in_cycle l).2 = (traded (service_args th owner_id st (g_environment gd) symbols state control) s2).2 /\ g_owner gd = owner_id.

(** What was sent from one moment to a later one, by cycles that started in [ls] *)
Definition sends_cleared (ls : list (loop W)) (l l' : loop W) : Prop := exists es,
  s_trace (lo_sys l') = s_trace (lo_sys l) ++ map sent_call es /\
  forall x, x ∈ es -> exists l0 gd, l0 ∈ ls /\ cleared_in l0 gd /\ gate_passed calendar gd (sn_request x) (sn_db x).

Lemma cleared_quietly ls l l' : same_loop_trace l l' -> sends_cleared ls l l'.
Proof. intros H. exists []. cbn. rewrite app_nil_r. split; [exact H|intros x Hx; by apply elem_of_nil in Hx]. Qed.

Lemma cleared_then ls ls' l1 l2 l3 : sends_cleared ls l1 l2 -> sends_cleared ls' l2 l3 -> sends_cleared (ls ++ ls') l1 l3.
Proof.
  intros (es & H1 & H2) (es' & H3 & H4). exists (es ++ es'). split; [by rewrite H3, H1, map_app, app_assoc|].
  intros x Hx. apply elem_of_app in Hx as [Hx|Hx]; [destruct (H2 x Hx) as (l0 & gd & Hl & H)|destruct (H4 x Hx) as (l0 & gd & Hl & H)];
    exists l0, gd; (split; [apply elem_of_app; auto|exact H]).
Qed.

Lemma parse_environment_value e : parse_environment (environment_value e) = Ok e.
Proof. by destruct e. Qed.

(** The gates call nothing at the broker, and let a cycle through only with an
    unpaused control and an open market. *)
Lemma gates_quiet : keeps same_loop_trace gates.
Proof.
  intros l. assert (Hl : forall l', s_trace (lo_sys l') = s_trace (lo_sys l) -> same_loop_trace l l') by done.
  unfold cycle_gates. loop_step (eq_refl (s_trace (lo_sys l))) Hl. intros now l1 _ T1. loop_step T1 Hl. intros t l2 _ T2.
  loop_step T2 Hl. intros u l3 _ T3. loop_step T3 Hl. intros c0 l4 _ T4. loop_step T4 Hl. intros renewed l5 _ T5.
  destruct renewed; cbn [negb]; [|by apply Hl]. loop_step T5 Hl. intros u2 l6 _ T6. loop_step T6 Hl. intros control l7 _ T7.
  loop_step T7 Hl. intros e l8 _ T8. loop_step T8 Hl. intros errors l9 _ T9. destruct errors as [|x errors].
  - loop_step T9 Hl. intros u3 l10 _ T10. loop_step T10 Hl. intros u4 l11 _ T11. loop_step T11 Hl. intros waiting l12 _ T12. destruct waiting.
    + loop_step T12 Hl. intros u5 l13 _ T13. by apply Hl.
    + loop_step T12 Hl. intros u5 l13 _ T13. destruct (rc_paused control); [by apply Hl|].
      destruct (is_regular_market_open calendar now); by apply Hl.
  - loop_step T9 Hl. intros u3 l10 _ T10. loop_step T10 Hl. intros u4 l11 _ T11. by apply Hl.
Qed.

Lemma gates_open l control e now l1 : gates l = (Ok (inr (control, e, now)), l1) ->
  rc_paused control = false /\ is_regular_market_open calendar now = true.
Proof.
  unfold cycle_gates. intros H. do 4 (apply stm_bind_Ok in H as (? & ? & _ & H)). apply stm_bind_Ok in H as (renewed & ? & _ & H).
  destruct renewed; cbn [negb] in H; [|discriminate H]. apply stm_bind_Ok in H as (? & ? & _ & H). apply stm_bind_Ok in H as (control' & ? & _ & H).
  apply stm_bind_Ok in H as (e' & ? & _ & H). apply stm_bind_Ok in H as (errors & ? & _ & H). destruct errors as [|r errors].
  - do 2 (apply stm_bind_Ok in H as (? & ? & _ & H)). apply stm_bind_Ok in H as (waiting & ? & _ & H).
    destruct waiting; apply stm_bind_Ok in H as (? & ? & _ & H); [discriminate H|].
    destruct (rc_paused control') eqn:Er; [discriminate H|]. destruct (is_regular_market_open _ _) eqn:Em; [|discriminate H]. cbn in H.
    injection H as <- <- <- _. done.
  - do 2 (apply stm_bind_Ok in H as (? & ? & _ & H)). discriminate H.
Qed.

Lemma trade_sends control e now (l0 l : loop W) : gates l0 = (Ok (inr (control, e, now)), l) -> sends_cleared [l0] l0 (in_cycle l0).2.
Proof.
  intros Eg. destruct (gates_open _ _ _ _ _ Eg) as [Hrun Hopen].
  assert (Ht : s_trace (lo_sys l) = s_trace (lo_sys l0)) by (pose proof (gates_quiet l0) as Hq; rewrite Eg in Hq; exact Hq).
  set (final := (in_cycle l0).2). assert (Hl : forall l', s_trace (lo_sys l') = s_trace (lo_sys l0) -> sends_cleared [l0] l0 l') by (by intros; apply cleared_quietly).
  assert (Ef : final = (trade h th calendar float_sum sum_real group_row exn_text safe_load model_validate buy_cost_bps sell_cost_bps env local_offset
    db_path engine_order foreign_os_error fuel owner_id st control e now l).2).
  { subst final. unfold service_cycle. by rewrite (stm_bind_run _ _ _ _ _ Eg). }
  set (P := fun l' : loop W => final = l' -> sends_cleared [l0] l0 l').
  enough (Hp : P (trade h th calendar float_sum sum_real group_row exn_text safe_load model_validate buy_cost_bps sell_cost_bps env local_offset
    db_path engine_order foreign_os_error fuel owner_id st control e now l).2) by (rewrite Ef; exact (Hp Ef)).
  assert (Hq : forall l', s_trace (lo_sys l') = s_trace (lo_sys l0) -> P l') by (intros l' H _; by apply Hl). clear Ef.
  unfold trade. loop_step Ht Hq. intros symbols l1 _ T1. loop_step T1 Hq. intros u l2 _ T2. loop_step T2 Hq. intros latest l3 _ T3.
  destruct (_ || _); [by apply Hq|]. loop_step T3 Hq. intros state l4 E4 T4. apply in_loop_run in E4 as (E4 & _).
  loop_step T4 Hq. intros b l5 _ T5. loop_step T5 Hq. intros u2 l6 _ T6. loop_step T6 Hq. intros failed l7 _ T7.
  cbv zeta. set (reasons := automatic_gates failed (fail_closed (bc_portfolio state))). loop_step T7 Hq. intros u3 l8 _ T8.
  set (a := service_args th owner_id st e symbols state (gated_control reasons control)).
  pose proof (guarded_cycle_sends h calendar float_sum sum_real group_row exn_text safe_load model_validate buy_cost_bps sell_cost_bps env local_offset
    db_path engine_order foreign_os_error fuel a owner_id (bc_portfolio state) (bc_client state) (lo_sys l8) eq_refl eq_refl eq_refl) as Hx.
  assert (Hs : forall l', lo_sys l' = (traded a (lo_sys l8)).2 -> P l').
  { intros l' El Efin. rewrite <- El in Hx. destruct Hx as [H|(gd & s2 & H2 & _ & es & H1 & H3)]; [apply Hl; congruence|].
    exists es. split; [by rewrite H1, T8|]. intros x Hin. exists l0, gd. split; [apply list_elem_of_here|]. split; [|by apply H3].
    destruct H2 as [_ _ He _ Ho Hr _ _ _]. cbn in Hr, He, Ho. rewrite parse_environment_value in He. injection He as He. injection Ho as Ho.
    assert (Hg : reasons = []) by (destruct reasons; [done|discriminate Hr]).
    assert (Hf : fail_closed (bc_portfolio state) = false).
    { subst reasons. unfold automatic_gates in Hg. destruct (fail_closed (bc_portfolio state)); [|done]. by destruct failed. }
    subst a. rewrite Hg in El. cbn [gated_control] in El. subst e.
    exists control, now, l, symbols, state, (lo_sys l3), (lo_sys l4), (lo_sys l8).
    split_and!; try done. fold final. by rewrite Efin, El. }
  apply after.
  - intros x l9 E9. apply in_loop_run in E9 as (E9 & _). apply Hs. by rewrite E9.
  - intros o l9 E9. apply in_loop_run in E9 as (E9 & _). apply Hs. by rewrite E9.
Qed.

Lemma service_cycle_sends l : sends_cleared [l] l (in_cycle l).2.
Proof.
  destruct (gates l) as [[[ended|[[control e] now]]|x] l1] eqn:Eg; [|by eapply trade_sends|].
  all: apply cleared_quietly; pose proof (gates_quiet l) as Hq; rewrite Eg in Hq; unfold service_cycle;
    first [rewrite (stm_bind_run _ _ _ _ _ Eg)|rewrite (stm_bind_err _ _ _ _ _ Eg)]; exact Hq.
Qed.

Notation service := (service_loop h th calendar float_sum sum_real group_row exn_text safe_load model_validate buy_cost_bps sell_cost_bps env local_offset
    db_path engine_order foreign_os_error fuel julianday owner_id st).
Notation turns := (service_turns h th calendar float_sum sum_real group_row exn_text safe_load model_validate buy_cost_bps sell_cost_bps env local_offset
    db_path engine_order foreign_os_error fuel julianday owner_id st).
Notation starts := (turn_starts h th calendar float_sum sum_real group_row exn_text safe_load model_validate buy_cost_bps sell_cost_bps env local_offset
    db_path engine_order foreign_os_error fuel julianday owner_id st).
Notation pass := (service_pass h th calendar float_sum sum_real group_row exn_text safe_load model_validate buy_cost_bps sell_cost_bps env local_offset
    db_path engine_order foreign_os_error fuel julianday owner_id st).

Lemma cycle_failed_quiet e : keeps same_loop_trace (cycle_failed th e).
Proof.
  unfold cycle_failed. cbv zeta.
  repeat (apply keeps_bind; [exact _|apply quiet_in_loop; first [quiet_leaf|solve [auto with quiet_service]]|]; intros ?). apply keeps_ret, _.
Qed.

Lemma pass_sends l : sends_cleared [l] l (pass l).2.
Proof.
  pose proof (service_cycle_sends l) as Hc. unfold service_pass, catch.
  destruct (in_cycle l) as [[r|e] l1] eqn:E; [by rewrite (stm_bind_run _ _ _ _ _ E)|rewrite (stm_bind_err _ _ _ _ _ E)].
  cbv beta. destruct (bool_decide _); [exact Hc|].
  change [l] with ([l] ++ []). eapply cleared_then; [exact Hc|]. apply cleared_quietly.
  exact (keeps_bind same_loop_trace (cycle_failed th e) (fun _ => mret (inr e)) (cycle_failed_quiet e) (fun _ => keeps_ret _ _) l1).
Qed.

Lemma sleep_quiet started : keeps same_loop_trace (sleep_remaining h th st started).
Proof. apply keeps_bind; [exact _|apply quiet_in_loop; quiet_leaf|]. intros t. apply quiet_in_loop. quiet_leaf. Qed.

Lemma turns_send n : forall l, sends_cleared (starts n l) l (turns n l).2.
Proof.
  induction n as [|n IH]; intros l; [by apply cleared_quietly|]. cbn [service_turns turn_starts].
  assert (Hm : same_loop_trace l (in_loop (on_world (ho_monotonic h)) l).2) by (apply quiet_in_loop; quiet_leaf).
  destruct (in_loop (on_world (ho_monotonic h)) l) as [[started|e] l1] eqn:E1; [|rewrite (stm_bind_err _ _ _ _ _ E1); by apply cleared_quietly].
  rewrite (stm_bind_run _ _ _ _ _ E1). pose proof (pass_sends l1) as Hp.
  assert (H1 : sends_cleared [] l l1) by (by apply cleared_quietly).
  destruct (pass l1) as [[ended|e] l2] eqn:E2; [rewrite (stm_bind_run _ _ _ _ _ E2)|rewrite (stm_bind_err _ _ _ _ _ E2); exact (cleared_then [] [l1] _ _ _ H1 Hp)].
  refine (cleared_then [] _ l l1 _ H1 _). refine (cleared_then [l1] _ l1 l2 _ Hp _).
  pose proof (sleep_quiet started l2) as Hs. destruct (sleep_remaining h th st started l2) as [[u|e] l3] eqn:E3;
    [rewrite (stm_bind_run _ _ _ _ _ E3)|rewrite (stm_bind_err _ _ _ _ _ E3); by apply cleared_quietly].
  refine (cleared_then [] _ l2 l3 _ _ (IH l3)). by apply cleared_quietly.
Qed.

Lemma quiet_greet control : keeps same_trace (greet th control).
Proof.
  unfold greet. destruct (th_notifier th) as [send|] eqn:E; [|quiet_leaf]. apply keeps_bind; [exact _|apply keeps_except; quiet_leaf|]. intros u.
  apply keeps_bind; [exact _| |intros ?; quiet_leaf]. apply keeps_except. intros s. apply (notifier_quiet send eq_refl).
Qed.

(** C1: Over the whole life of the service, whatever fails in it, each order it sends
    to the broker was sent in a turn of its loop whose cycle was cleared as
    [cleared_in] says, and passed the guarded submitter with the lease of the
    service. *)
Theorem service_loop_sends_cleared n s : exists s0 es, s_trace s0 = s_trace s /\ s_trace (service n s).2 = s_trace s ++ map sent_call es /\
  forall x, x ∈ es -> exists l gd, l ∈ starts n (mkLoop s0 "" fzero) /\ cleared_in l gd /\ gate_passed calendar gd (sn_request x) (sn_db x).
Proof.
  set (P := fun s' : sys W => exists s0 es, s_trace s0 = s_trace s /\ s_trace s' = s_trace s ++ map sent_call es /\
    forall x, x ∈ es -> exists l gd, l ∈ starts n (mkLoop s0 "" fzero) /\ cleared_in l gd /\ gate_passed calendar gd (sn_request x) (sn_db x)).
  change (P (service n s).2).
  assert (Hq : forall s', s_trace s' = s_trace s -> P s').
  { intros s' H. exists s, []. cbn. rewrite app_nil_r. split; [done|]. split; [done|]. intros x Hx. by apply elem_of_nil in Hx. }
  unfold service_loop. eapply after_quiet; [quiet_leaf|reflexivity|exact Hq|]. intros u1 s1 _ T1.
  eapply after_quiet; [quiet_leaf|exact T1|exact Hq|]. intros u2 s2 _ T2. eapply after_quiet; [quiet_leaf|exact T2|exact Hq|]. intros at_ s3 _ T3.
  eapply after_quiet; [quiet_leaf|exact T3|exact Hq|]. intros u4 s4 _ T4. eapply after_quiet; [quiet_leaf|exact T4|exact Hq|]. intros acquired s5 _ T5.
  destruct acquired; cbn [negb]; [|by apply Hq]. eapply after_quiet; [apply quiet_sync|exact T5|exact Hq|]. intros control s6 _ T6.
  assert (Hrest : forall s', P s' -> forall r : res unit, P ((_ ← shut_down th owner_id; lift_res r) s').2).
  { intros s' (s0 & es & H0 & H1 & H2) r. exists s0, es. split; [done|]. split; [|done]. rewrite <- H1.
    assert (Hk : keeps same_trace (_ ← shut_down th owner_id; lift_res r)).
    { apply keeps_bind; [exact _| |intros ?; apply keeps_lift, _]. unfold shut_down. apply keeps_bind; [exact _|quiet_leaf|]. intros ?. quiet_leaf. }
    apply Hk. }
  assert (Hend : forall body : stm (sys W) unit, P (body s6).2 -> P ((ended ← attempt body; _ ← shut_down th owner_id; lift_res ended) s6).2).
  { intros body Hb. unfold attempt. unfold mbind at 1, stm_bind at 1. cbv beta. destruct (body s6) as [r s9]. exact (Hrest s9 Hb r). }
  apply Hend. eapply after_quiet; [apply quiet_greet|exact T6|exact Hq|]. intros u7 s7 _ T7.
  eapply after_quiet; [unfold start_poll; destruct (env _); [destruct (env _)|]; quiet_leaf|exact T7|exact Hq|]. intros u8 s8 _ T8.
  unfold run_turns. pose proof (turns_send n (mkLoop s8 "" fzero)) as (es & H1 & H2). destruct (turns n (mkLoop s8 "" fzero)) as [r l'].
  exists s8, es. split; [done|]. split; [by rewrite <- T8|done].
Qed.
End ServiceFacts.

(** ** The life of the service *)

Lemma metadata_now_run {W} {CW : Clock W} key value t (s : sys W) : sempty (strip key) = false ->
  exists ts w, set_metadata_now key value t s = (Ok ts, mkSys (put_metadata key value ts (s_db s)) w (s_trace s)).
Proof.
  intros Hk. unfold set_metadata_now, on_db, set_runtime_metadata, require_nonempty. rewrite Hk. cbn.
  destruct (wall_clock (s_world s)) as [now w]. by eexists _, _.
Qed.

Lemma automatic_pause_run {W} {CW : Clock W} active reason (s : sys W) : exists s', set_automatic_pause active reason s = (Ok tt, s') /\
  get_metadata AUTO_PAUSE_KEY (s_db s') = Some (if active then "true" else "false") /\
  get_metadata AUTO_PAUSE_REASON_KEY (s_db s') = Some (if active then reason else "").
Proof.
  unfold set_automatic_pause.
  destruct (metadata_now_run AUTO_PAUSE_KEY (if active then "true" else "false") None s eq_refl) as (t1 & w1 & E1). rewrite (stm_bind_run _ _ _ _ _ E1).
  destruct (metadata_now_run AUTO_PAUSE_REASON_KEY (if active then reason else "") None
    (mkSys (put_metadata AUTO_PAUSE_KEY (if active then "true" else "false") t1 (s_db s)) w1 (s_trace s)) eq_refl) as (t2 & w2 & E2).
  rewrite (stm_bind_run _ _ _ _ _ E2). eexists. split; [reflexivity|]. cbn [s_db]. by rewrite !metadata_put.
Qed.

Lemma in_loop_ran {W A} (m : stm (sys W) A) (l : loop W) r s' : m (lo_sys l) = (r, s') -> in_loop m l = (r, mkLoop s' (lo_alert l) (lo_alert_at l)).
Proof. unfold in_loop. by intros ->. Qed.

Lemma read_clock_run {W} {CW : Clock W} (s : sys W) : exists t w, read_clock s = (Ok t, mkSys (s_db s) w (s_trace s)).
Proof. unfold read_clock. destruct (wall_clock (s_world s)) as [t w]. by eexists _, _. Qed.

Lemma kst_now_run {W} {CW : Clock W} (s : sys W) : exists now w, kst_now s = (Ok now, mkSys (s_db s) w (s_trace s)).
Proof. destruct (read_clock_run s) as (t & w & E). unfold kst_now. rewrite (stm_bind_run _ _ _ _ _ E). by eexists _, _. Qed.

Lemma on_db_total {W A} {CW : Clock W} (f : datetime -> db -> res (A * db)) (s : sys W) : (forall now, is_ok (f now (s_db s)) = true) ->
  exists a d now w, on_db f s = (Ok a, mkSys d w (s_trace s)) /\ f now (s_db s) = Ok (a, d).
Proof.
  intros Hf. unfold on_db. destruct (wall_clock (s_world s)) as [now w]. specialize (Hf now).
  destruct (f now (s_db s)) as [[a d]|e] eqn:E; [|discriminate Hf]. by exists a, d, now, w.
Qed.

Section ServiceLife.
Context {W : Type} {CW : Clock W}.
Variables (h : host W) (th : threads W) (calendar : option (Z -> bool)) (float_sum sum_real : list float -> float).
Variables (group_row : paper_fill -> list paper_fill -> paper_fill) (exn_text : exn -> string).
Variables (safe_load : string -> res json) (model_validate : dict setting -> res AppConfig) (buy_cost_bps sell_cost_bps : float).
Variables (env : string -> option string) (local_offset : Z) (db_path : string).
Variables (engine_order : list tick_row -> list tick_row) (foreign_os_error : string -> bool) (fuel : nat).
Variables (julianday : string -> option Z) (owner_id : string) (st : service_settings W).

Notation service := (service_loop h th calendar float_sum sum_real group_row exn_text safe_load model_validate buy_cost_bps sell_cost_bps env local_offset
    db_path engine_order foreign_os_error fuel julianday owner_id st).
Notation turns := (service_turns h th calendar float_sum sum_real group_row exn_text safe_load model_validate buy_cost_bps sell_cost_bps env local_offset
    db_path engine_order foreign_os_error fuel julianday owner_id st).
Notation pass := (service_pass h th calendar float_sum sum_real group_row exn_text safe_load model_validate buy_cost_bps sell_cost_bps env local_offset
    db_path engine_order foreign_os_error fuel julianday owner_id st).
Notation starts := (turn_starts h th calendar float_sum sum_real group_row exn_text safe_load model_validate buy_cost_bps sell_cost_bps env local_offset
    db_path engine_order foreign_os_error fuel julianday owner_id st).
Notation cycle := (service_cycle h th calendar float_sum sum_real group_row exn_text safe_load model_validate buy_cost_bps sell_cost_bps env local_offset
    db_path engine_order foreign_os_error fuel julianday owner_id st).

(** What the record of a failed cycle holds *)
Definition failure_recorded (e : exn) (l : loop W) : Prop :=
  get_metadata AUTO_PAUSE_KEY (s_db (lo_sys l)) = Some "true" /\
  get_metadata AUTO_PAUSE_REASON_KEY (s_db (lo_sys l)) = Some ("service_cycle_error:" +:+ exn_name e) /\
  get_metadata "service:last_error" (s_db (lo_sys l)) = Some ("service cycle warning: " +:+ exn_name e).

Lemma notify_keeps text (s : sys W) : (forall send, th_notifier th = Some send -> QuietNotifier send) ->
  exists r s', notify_operator (th_notifier th) text s = (r, s') /\ (r = Err KeyboardInterrupt \/ is_ok r = true) /\
    forall k, k ∉ NOTIFIER_KEYS -> get_metadata k (s_db s') = get_metadata k (s_db s).
Proof.
  intros Hq. unfold notify_operator. destruct (th_notifier th) as [send|]; [|by eexists _, _; split_and!; [|right|]].
  destruct (send text s) as [r s1] eqn:E. pose proof (Hq send eq_refl text s) as [_ H]. rewrite E in H.
  unfold mbind, stm_bind, except_Exception. rewrite E.
  destruct r as [u|e]; [by eexists _, _; split_and!; [|right|]|]. case_bool_decide as Ee; [subst e|]; eexists _, _; (split_and!; [reflexivity| |exact H]); auto.
Qed.

(** The record of a failure is made before the operator is told, so that it stays
    when the telling is interrupted. *)
Lemma cycle_failed_run e l : (forall send, th_notifier th = Some send -> QuietNotifier send) ->
  exists r l', cycle_failed th e l = (r, l') /\ (r = Err KeyboardInterrupt \/ is_ok r = true) /\ failure_recorded e l'.
Proof.
  intros Hq. unfold cycle_failed. cbv zeta. set (message := "service cycle warning: " +:+ exn_name e).
  destruct (automatic_pause_run true ("service_cycle_error:" +:+ exn_name e) (lo_sys l)) as (s1 & E1 & H1 & H2).
  rewrite (stm_bind_run _ _ _ _ _ (in_loop_ran _ _ _ _ E1)).
  destruct (kst_now_run s1) as (now & w & E2). rewrite (stm_bind_run _ _ _ _ _ (in_loop_ran _ (mkLoop s1 _ _) _ _ E2)).
  destruct (metadata_now_run "service:last_error" message (Some now) (mkSys (s_db s1) w (s_trace s1)) eq_refl) as (ts & w3 & E3).
  rewrite (stm_bind_run _ _ _ _ _ (in_loop_ran _ (mkLoop (mkSys (s_db s1) w (s_trace s1)) _ _) _ _ E3)). cbn [s_db s_trace lo_alert lo_alert_at].
  set (s3 := mkSys _ w3 _). destruct (notify_keeps message s3 Hq) as (b & s4 & E4 & Hb & H4).
  assert (Hr : failure_recorded e (mkLoop s4 (lo_alert l) (lo_alert_at l))).
  { unfold failure_recorded. cbn [lo_sys]. rewrite !H4 by (apply (bool_decide_unpack _); vm_compute; exact I).
    unfold s3. cbn [s_db]. rewrite !metadata_put. by split_and!. }
  pose proof (in_loop_ran _ (mkLoop s3 (lo_alert l) (lo_alert_at l)) _ _ E4) as E5. destruct b as [b|x].
  - rewrite (stm_bind_run _ _ _ _ _ E5). eexists _, _. split; [reflexivity|]. split; [by right|exact Hr].
  - rewrite (stm_bind_err _ _ _ _ _ E5). eexists _, _. split; [reflexivity|]. split; [|exact Hr].
    destruct Hb as [[= ->]|Hb]; [by left|discriminate Hb].
Qed.

(** How a turn of the loop ends: it goes on to its sleep, with the failure of its
    cycle recorded, or it is interrupted. *)
Lemma pass_run l : (forall send, th_notifier th = Some send -> QuietNotifier send) ->
  ((pass l).1 = Err KeyboardInterrupt \/ is_ok (pass l).1 = true) /\
  forall e l1, cycle l = (Err e, l1) -> e <> KeyboardInterrupt -> failure_recorded e (pass l).2.
Proof.
  intros Hq. unfold service_pass, catch. destruct (cycle l) as [[c|e] l1] eqn:E.
  - rewrite (stm_bind_run _ _ _ _ _ E). split; [by right|]. by intros ? ? [=].
  - rewrite (stm_bind_err _ _ _ _ _ E). cbv beta. case_bool_decide as Ee; [subst e; split; [by left|intros ? ? [= <- _]; done]|].
    destruct (cycle_failed_run e l1 Hq) as (r & l2 & E2 & Hr & Hf). destruct r as [u|x].
    + rewrite (stm_bind_run _ _ _ _ _ E2). split; [by right|]. by intros ? ? [= <- _].
    + rewrite (stm_bind_err _ _ _ _ _ E2). split; [destruct Hr as [[= ->]|Hr]; [by left|discriminate Hr]|]. by intros ? ? [= <- _].
Qed.

(** Fact: a cycle that fails does not end the service: entries are paused, with the
    class of the failure as the reason, and the failure is kept for the operator. *)
Theorem failed_cycle_pauses l e l1 : (forall send, th_notifier th = Some send -> QuietNotifier send) ->
  cycle l = (Err e, l1) -> e <> KeyboardInterrupt ->
  ((pass l).1 = Err KeyboardInterrupt \/ is_ok (pass l).1 = true) /\ failure_recorded e (pass l).2.
Proof. intros Hq E He. destruct (pass_run l Hq) as [H1 H2]. split; [exact H1|]. by eapply H2. Qed.

(** Where an interrupt can end the loop: in the turn that started in [l], or in the
    sleep after it *)
Definition turn_interrupted (l : loop W) : Prop :=
  (pass l).1 = Err KeyboardInterrupt \/ exists started, (sleep_remaining h th st started (pass l).2).1 = Err KeyboardInterrupt.

(** C13: the service is not ended by what fails in it: as long as the clock can be
    read, it makes all the turns it is asked for, unless an interrupt reaches one of
    its turns or the sleep after it, and then it ends with that interrupt, in that
    turn.  In every turn that it starts, a failure of the cycle other than an interrupt
    leaves entries paused with the class of the failure as the reason, and is kept
    for the operator. *)
Theorem service_outlives_failures n l : (forall send, th_notifier th = Some send -> QuietNotifier send) ->
  (forall w, is_ok (ho_monotonic h w).1 = true) -> (forall d w, (th_sleep th d w).1 = Err KeyboardInterrupt \/ is_ok (th_sleep th d w).1 = true) ->
  match (turns n l).1 with
  | Ok _ => length (starts n l) = n
  | Err e => e = KeyboardInterrupt /\ exists before l0, starts n l = before ++ [l0] /\ turn_interrupted l0
  end /\
  forall l0 e l1, l0 ∈ starts n l -> cycle l0 = (Err e, l1) -> e <> KeyboardInterrupt -> failure_recorded e (pass l0).2.
Proof.
  intros Hq Hm Hs. split; [|intros l0 e l1 _; by apply pass_run]. revert l. induction n as [|n IH]; intros l; [done|]. cbn [service_turns turn_starts].
  assert (Hclock : forall l, exists t l', in_loop (on_world (ho_monotonic h)) l = (Ok t, l')).
  { intros l0. unfold in_loop, on_world. specialize (Hm (s_world (lo_sys l0))). destruct (ho_monotonic h _) as [[t|e] w]; [by eexists _, _|discriminate Hm]. }
  destruct (Hclock l) as (started & l1 & E1). rewrite (stm_bind_run _ _ _ _ _ E1), E1.
  destruct (pass_run l1 Hq) as [Hp _]. destruct (pass l1) as [[ended|e] l2] eqn:E2.
  2: { rewrite (stm_bind_err _ _ _ _ _ E2). destruct Hp as [[= ->]|Hp]; [|discriminate Hp]. split; [done|]. exists [], l1. split; [done|].
       left. by rewrite E2. }
  rewrite (stm_bind_run _ _ _ _ _ E2). destruct (sleep_remaining h th st started l2) as [[u|e] l3] eqn:E3.
  - rewrite (stm_bind_run _ _ _ _ _ E3). specialize (IH l3). destruct (turns n l3).1 as [[]|e]; [cbn; by f_equal|].
    destruct IH as (He & before & l0 & E & H). split; [done|]. exists (l1 :: before), l0. split; [by rewrite E|done].
  - rewrite (stm_bind_err _ _ _ _ _ E3). assert (He : e = KeyboardInterrupt).
    { destruct (Hclock l2) as (t & l4 & E4). unfold sleep_remaining in E3. rewrite (stm_bind_run _ _ _ _ _ E4) in E3.
      unfold in_loop, on_world in E3. match type of E3 with context [th_sleep th ?d ?w] => specialize (Hs d w); destruct (th_sleep th d w) as [[?|x] w'] end;
        [discriminate E3|]. injection E3 as -> _. destruct Hs as [[= ->]|Hs]; [done|discriminate Hs]. }
    subst e. split; [done|]. exists [], l1. split; [done|]. right. exists started. rewrite E2. cbn [snd]. by rewrite E3.
Qed.

(** The lease at the start: asked for in a database that has been read and beaten. *)
Lemma startup_run n s : 1 <= ss_cycle_interval st -> exists d w, t_service_leases d = t_service_leases (s_db s) /\
  service n s = (acquired ← on_db (acquire_service_lease julianday LEASE_NAME owner_id SERVICE_LEASE_TTL_SECONDS None);
    if negb acquired then raise (RuntimeError "another trading-service instance already holds the service lease")
    else control ← sync_service_runtime true;
         ended ← attempt (_ ← greet th control; _ ← start_poll th env; run_turns h th calendar float_sum sum_real group_row exn_text safe_load
           model_validate buy_cost_bps sell_cost_bps env local_offset db_path engine_order foreign_os_error fuel julianday owner_id st n);
         _ ← shut_down th owner_id; lift_res ended) (mkSys d w (s_trace s)).
Proof.
  intros Hi. unfold service_loop. rewrite (proj2 (Z.ltb_ge _ _) Hi). cbn [raise_if].
  rewrite (stm_bind_run _ _ _ _ _ (eq_refl : lift_res (Ok tt) s = (Ok tt, s))), (stm_bind_run _ _ _ _ _ (open_schema_run s)).
  destruct (read_clock_run (mkSys (init_schema (s_db s)) (wall_clock (s_world s)).2 (s_trace s))) as (t & w & Et).
  rewrite (stm_bind_run _ _ _ _ _ Et). set (s1 := mkSys _ w _).
  destruct (on_db_total (record_heartbeat "trading-service" (Some t)) s1 (fun now => eq_refl)) as (a & d & now & w2 & E & Hd).
  rewrite (stm_bind_run _ _ _ _ _ E). exists d, w2. split; [|reflexivity]. injection Hd as _ <-. reflexivity.
Qed.

Lemma sync_runs startup (s : sys W) : exists c s', sync_service_runtime startup s = (Ok c, s').
Proof.
  assert (Hp : forall paused reason (s0 : sys W), sempty reason = false -> exists c s', set_paused_now paused reason s0 = (Ok c, s')).
  { intros paused reason s0 Hr. destruct (on_db_total (set_runtime_paused paused reason "service") s0) as (c & d & now & w & E & _).
    - intros now. unfold set_runtime_paused. rewrite Hr. reflexivity.
    - unfold set_paused_now. rewrite E. by eexists _, _. }
  unfold sync_service_runtime. rewrite (stm_bind_run _ _ _ _ _ (eq_refl : query get_runtime_control s = (Ok _, s))).
  rewrite (stm_bind_run _ _ _ _ _ (eq_refl : query emergency_active s = (Ok _, s))).
  destruct (emergency_active (s_db s)); [destruct (negb (rc_paused (get_runtime_control (s_db s))))|destruct (startup || rc_paused (get_runtime_control (s_db s)))]; try (by eexists _, _); apply Hp; by destruct startup.
Qed.

Lemma acquire_run now d : require_nonempty owner_id "owner_id" = Ok tt ->
  exists d', acquire_service_lease julianday LEASE_NAME owner_id SERVICE_LEASE_TTL_SECONDS None now d =
    match t_service_leases d !! LEASE_NAME with
    | None => Ok (true, d')
    | Some l => if String.eqb (sl_owner_id l) owner_id || julian_leb julianday (sl_expires_at l) (iso now) then Ok (true, d') else Ok (false, d)
    end.
Proof.
  intros Ho. unfold acquire_service_lease. change (require_nonempty LEASE_NAME "lease_name") with (Ok tt : res unit). rewrite Ho.
  by eexists (put_lease _ _ d).
Qed.

Lemma shut_down_releases s l : require_nonempty owner_id "owner_id" = Ok tt ->
  t_service_leases (s_db (shut_down th owner_id s).2) !! LEASE_NAME = Some l -> sl_owner_id l <> owner_id.
Proof.
  intros Ho. unfold shut_down, on_world, mbind, stm_bind, on_db. cbn [s_db s_world]. destruct (wall_clock _) as [now w].
  unfold release_service_lease. rewrite Ho. cbn [require_nonempty]. change (require_nonempty LEASE_NAME "lease_name") with (Ok tt : res unit). cbn [mbind res_bind].
  destruct (t_service_leases (s_db s) !! LEASE_NAME) as [l0|] eqn:El; cbn [s_db snd]; [|by rewrite El].
  destruct (String.eqb_spec (sl_owner_id l0) owner_id) as [E|E]; cbn.
  - by rewrite lookup_delete_eq.
  - rewrite El. by intros [= <-].
Qed.

(** C14: the service gives its lease back: once it has been started, and however it
    ends, the lease is not its own. *)
Theorem service_gives_lease_back n s : 1 <= ss_cycle_interval st -> require_nonempty owner_id "owner_id" = Ok tt ->
  match t_service_leases (s_db (service n s).2) !! LEASE_NAME with Some l => sl_owner_id l <> owner_id | None => True end.
Proof.
  intros Hi Ho. cut (forall l, t_service_leases (s_db (service n s).2) !! LEASE_NAME = Some l -> sl_owner_id l <> owner_id).
  { destruct (t_service_leases _ !! _) as [l|]; [|done]. intros H. by apply H. }
  intros l. destruct (startup_run n s Hi) as (d & w & _ & ->). set (s1 := mkSys d w _).
  destruct (on_db_total (acquire_service_lease julianday LEASE_NAME owner_id SERVICE_LEASE_TTL_SECONDS None) s1) as (got & d2 & now & w2 & E & Hd).
  { intros now. destruct (acquire_run now (s_db s1) Ho) as [d' ->]. by repeat case_match. }
  rewrite (stm_bind_run _ _ _ _ _ E). destruct got; cbn [negb].
  - destruct (sync_runs true (mkSys d2 w2 (s_trace s1))) as (c & s2 & E2). rewrite (stm_bind_run _ _ _ _ _ E2).
    match goal with |- context [attempt ?m] => destruct (m s2) as [r s3] eqn:E3; rewrite (stm_bind_run _ _ _ _ _ (attempt_run _ _ _ _ E3)) end.
    pose proof (shut_down_releases s3 l Ho) as H. apply (after _ _ s3 (fun s' => t_service_leases (s_db s') !! LEASE_NAME = Some l -> sl_owner_id l <> owner_id)).
    + intros e s4 E4. by rewrite E4 in H.
    + intros a s4 E4. by rewrite E4 in H.
  - cbn. destruct (acquire_run now (s_db s1) Ho) as [d' Ha]. rewrite Ha in Hd.
    destruct (t_service_leases (s_db s1) !! LEASE_NAME) as [l0|] eqn:El; [|discriminate Hd].
    destruct (String.eqb_spec (sl_owner_id l0) owner_id); cbn [orb] in Hd; [discriminate Hd|]. destruct (julian_leb _ _ _); [discriminate Hd|].
    injection Hd as <-. cbn in El. rewrite El. by intros [= <-].
Qed.

(** Fact: a second service does not start while another holds the lease: it stops with
    an error, sends nothing to the broker, and leaves the lease as it was. *)
Theorem second_service_refused n s l : 1 <= ss_cycle_interval st -> require_nonempty owner_id "owner_id" = Ok tt ->
  t_service_leases (s_db s) !! LEASE_NAME = Some l -> sl_owner_id l <> owner_id ->
  (forall w : W, julian_leb julianday (sl_expires_at l) (iso (wall_clock w).1) = false) ->
  let '(r, s') := service n s in
  r = Err (RuntimeError "another trading-service instance already holds the service lease") /\
  s_trace s' = s_trace s /\ t_service_leases (s_db s') !! LEASE_NAME = Some l.
Proof.
  intros Hi Ho Hl Hne Hj. destruct (startup_run n s Hi) as (d & w & Hd & ->). rewrite <- Hd in Hl. set (s1 := mkSys d w _).
  assert (E : on_db (acquire_service_lease julianday LEASE_NAME owner_id SERVICE_LEASE_TTL_SECONDS None) s1 = (Ok false, mkSys d (wall_clock w).2 (s_trace s))).
  { unfold on_db, s1. cbn [s_world s_db]. specialize (Hj w). destruct (wall_clock w) as [now w2]. destruct (acquire_run now d Ho) as [d' ->].
    rewrite Hl. cbn in Hj. by rewrite Hj, (proj2 (String.eqb_neq _ _) Hne). }
  rewrite (stm_bind_run _ _ _ _ _ E). cbn. by split_and!.
Qed.
End ServiceLife.

(** ** Witnesses *)

(** A demo account with cash, a quote of 70000, a running service whose workers are
    alive, and the day's reconciliation done. *)
#[local] Instance w_service_clock : Clock unit := fun u => (w_open, u).
Definition w_threads : threads unit := mkThreads (mret false) (mret true) (mret tt) (mret true) (fun _ => mret tt) (mret tt) (fun u => u) None (mret tt) (fun _ => mret tt).
Definition w_service_answers (q : http_request) : response :=
  let answer (o : dict json) := mkResponse 200 [] (Some (JObj (("rt_cd", JStr "0") :: o))) in
  if contains "inquire-psbl-order" (url q) then answer [("output", JObj [("nrcvb_buy_amt", JStr "1000000"); ("nrcvb_buy_qty", JStr "14")])]
  else if contains "hashkey" (url q) then mkResponse 200 [] (Some (JObj [("HASH", JStr "hash")]))
  else if contains "order-cash" (url q) then answer [("output", JObj [("ODNO", JStr "b1")])]
  else if contains "inquire-price" (url q) then answer [("output", JObj [("stck_prpr", JStr "70000")])]
  else answer [("output1", JList []); ("output2", JList [JObj [("ord_psbl_cash", JStr "1000000")]])].
Definition w_service_host : host unit := {|
  ho_config_text := mret "";
  ho_environment := ho_environment w_host;
  ho_authenticate _ _ _ := mret (mkAuthResult "token" "approval" true);
  ho_get q := mret (w_service_answers q);
  ho_post q := mret (w_service_answers q);
  ho_socket := ho_socket w_host;
  ho_monotonic := mret fzero;
  ho_sleeper _ := mret tt;
  ho_random := mret fzero;
  ho_fresh u := ("1", u);
  ho_openai := ho_openai w_host;
  ho_notifier := ho_notifier w_host;
|}.
Definition w_service_db : db := Eval vm_compute in
  put_metadata "order-supervisor.status" (dumps (JObj [("status", JStr "reconciled")])) (iso w_open)
    (put_metadata "heartbeat:order-supervisor" (iso w_open) (iso w_open)
      (put_metadata "operator_review" "false" (iso w_open) (put_metadata "block_new_entries" "false" (iso w_open) w_service))).
Definition w_service_settings : service_settings unit := mkServiceSettings (Some "005930") "rule" 1 0 60 false (Some w_model).
Definition w_julian (text : string) : option Z := Some (if String.eqb text (iso w_open) then 0 else 1).
Definition w_start : sys unit := mkSys w_service_db tt [].
#[local] Notation w_run n := (
  service_loop w_service_host w_threads (Some (fun _ => true)) w_total w_total w_group exn_name (fun _ => Ok JNull) w_validate fzero fzero w_trade_env KST "db"
    (fun l => l) (fun _ => false) 9 w_julian "owner-1" w_service_settings n w_start).
(** The same service without a time its lease could be renewed at *)
#[local] Notation w_failing loop0 := (
  service_cycle w_service_host w_threads (Some (fun _ => true)) w_total w_total w_group exn_name (fun _ => Ok JNull) w_validate fzero fzero w_trade_env KST "db" (fun l => l) (fun _ => false) 9 (fun _ => None) "owner-1" w_service_settings loop0).
#[local] Notation w_recovering loop0 := (
  service_pass w_service_host w_threads (Some (fun _ => true)) w_total w_total w_group exn_name (fun _ => Ok JNull) w_validate fzero fzero w_trade_env KST "db" (fun l => l) (fun _ => false) 9 (fun _ => None) "owner-1" w_service_settings loop0).

(** A turn of the service reads the broker, decides and buys one share. *)
Lemma service_loop_sends_cleared_witness : map fst (s_trace (w_run 1).2) = [SubmitCall w_order] /\
  exists x gd, sn_request x = w_order /\ g_owner gd = "owner-1" /\ gate_passed (Some (fun _ => true)) gd w_order (sn_db x).
Proof.
  assert (Ht : map fst (s_trace (w_run 1).2) = [SubmitCall w_order]) by (vm_compute; reflexivity). split; [exact Ht|].
  assert (Hq : forall send, th_notifier w_threads = Some send -> QuietNotifier send) by discriminate.
  pose proof (service_loop_sends_cleared w_service_host w_threads (Some (fun _ => true)) w_total w_total w_group exn_name (fun _ => Ok JNull) w_validate fzero fzero w_trade_env KST "db" (fun l => l) (fun _ => false) 9 w_julian "owner-1" w_service_settings Hq 1 w_start) as H.
  destruct (w_run 1) as [r s']. destruct H as (s0 & es & _ & H1 & H2). cbn in H1, Ht. rewrite H1 in Ht.
  destruct es as [|x l]; [discriminate Ht|]. injection Ht as Hr _. destruct (H2 x (list_elem_of_here x l)) as (l0 & gd & _ & Hc & Hg).
  destruct Hc as (control & now & l1 & symbols & state & sa & sb & sc & _ & _ & _ & _ & _ & _ & _ & _ & Ho).
  exists x, gd. split; [exact Hr|]. split; [exact Ho|]. rewrite <- Hr. exact Hg.
Defined.

Lemma failed_cycle_pauses_witness : exists l, w_failing (mkLoop w_start "" fzero) = (Err (RuntimeError "trading-service lease renewal failed"), l) /\
  get_metadata AUTO_PAUSE_REASON_KEY (s_db (lo_sys (w_recovering (mkLoop w_start "" fzero)).2)) = Some "service_cycle_error:RuntimeError".
Proof.
  assert (E : (w_failing (mkLoop w_start "" fzero)).1 = Err (RuntimeError "trading-service lease renewal failed")) by (vm_compute; reflexivity).
  destruct (w_failing (mkLoop w_start "" fzero)) as [r l] eqn:Ef. cbn in E. subst r. exists l.
  assert (Hq : forall send, th_notifier w_threads = Some send -> QuietNotifier send) by discriminate.
  destruct (failed_cycle_pauses w_service_host w_threads (Some (fun _ => true)) w_total w_total w_group exn_name (fun _ => Ok JNull) w_validate fzero fzero w_trade_env KST "db" (fun l => l) (fun _ => false) 9 (fun _ => None) "owner-1" w_service_settings (mkLoop w_start "" fzero) _ l Hq Ef) as (_ & _ & Hr & _);
    [discriminate|]. split; [reflexivity|exact Hr].
Defined.

(** Three failing turns are all made; a turn whose notifier is interrupted is the last. *)
#[local] Notation w_turns th0 n := (
  service_turns w_service_host th0 (Some (fun _ => true)) w_total w_total w_group exn_name (fun _ => Ok JNull) w_validate fzero fzero w_trade_env KST "db" (fun l => l) (fun _ => false) 9 (fun _ => None) "owner-1" w_service_settings n (mkLoop w_start "" fzero)).
#[local] Notation w_starts th0 n := (
  turn_starts w_service_host th0 (Some (fun _ => true)) w_total w_total w_group exn_name (fun _ => Ok JNull) w_validate fzero fzero w_trade_env KST "db" (fun l => l) (fun _ => false) 9 (fun _ => None) "owner-1" w_service_settings n (mkLoop w_start "" fzero)).
Definition w_interrupted : threads unit :=
  mkThreads (mret false) (mret true) (mret tt) (mret true) (fun _ => mret tt) (mret tt) (fun u => u)
    (Some (fun _ => raise KeyboardInterrupt)) (mret tt) (fun _ => mret tt).

Lemma w_interrupted_quiet send : th_notifier w_interrupted = Some send -> QuietNotifier send.
Proof.
  unfold w_interrupted. cbn [th_notifier]. intros H. injection H as <-. intros text s. split; [reflexivity|]. intros k _. reflexivity.
Qed.

Lemma service_outlives_failures_witness :
  ((w_turns w_threads 3).1 = Ok tt /\ length (w_starts w_threads 3) = 3%nat) /\
  ((w_turns w_interrupted 3).1 = Err KeyboardInterrupt /\ exists before l0, w_starts w_interrupted 3 = before ++ [l0]).
Proof.
  assert (E1 : (w_turns w_threads 3).1 = Ok tt) by (vm_compute; reflexivity).
  assert (E2 : (w_turns w_interrupted 3).1 = Err KeyboardInterrupt) by (vm_compute; reflexivity).
  assert (Hq : forall send, th_notifier w_threads = Some send -> QuietNotifier send) by discriminate.
  pose proof w_interrupted_quiet as Hi.
  destruct (service_outlives_failures w_service_host w_threads (Some (fun _ => true)) w_total w_total w_group exn_name (fun _ => Ok JNull) w_validate fzero fzero w_trade_env KST "db" (fun l => l) (fun _ => false) 9 (fun _ => None) "owner-1" w_service_settings 3 (mkLoop w_start "" fzero) Hq (fun _ => eq_refl) (fun _ _ => or_intror eq_refl)) as [H1 _].
  destruct (service_outlives_failures w_service_host w_interrupted (Some (fun _ => true)) w_total w_total w_group exn_name (fun _ => Ok JNull) w_validate fzero fzero w_trade_env KST "db" (fun l => l) (fun _ => false) 9 (fun _ => None) "owner-1" w_service_settings 3 (mkLoop w_start "" fzero) Hi (fun _ => eq_refl) (fun _ _ => or_intror eq_refl)) as [H2 _].
  rewrite E1 in H1. rewrite E2 in H2. destruct H2 as (_ & before & l0 & H2 & _).
  split; [split; [exact E1|exact H1]|split; [exact E2|by exists before, l0]].
Defined.

Lemma service_gives_lease_back_witness : t_service_leases (s_db w_start) !! LEASE_NAME <> None /\
  match t_service_leases (s_db (w_run 1).2) !! LEASE_NAME with Some l => sl_owner_id l <> "owner-1" | None => True end.
Proof.
  split; [vm_compute; discriminate|].
  exact (service_gives_lease_back w_service_host w_threads (Some (fun _ => true)) w_total w_total w_group exn_name (fun _ => Ok JNull) w_validate fzero fzero w_trade_env KST "db" (fun l => l) (fun _ => false) 9 w_julian "owner-1" w_service_settings 1 w_start ltac:(vm_compute; discriminate) eq_refl).
Defined.

#[local] Notation w_second := (
  service_loop w_service_host w_threads (Some (fun _ => true)) w_total w_total w_group exn_name (fun _ => Ok JNull) w_validate fzero fzero w_trade_env KST "db" (fun l => l) (fun _ => false) 9 w_julian "owner-2" w_service_settings 1 w_start).

Lemma second_service_refused_witness : w_second.1 = Err (RuntimeError "another trading-service instance already holds the service lease") /\ s_trace w_second.2 = [].
Proof.
  set (l := mkLease "owner-1" (iso w_open) (iso w_open) (iso (dt_add w_open (600 * us_per_second)))).
  assert (Hl : t_service_leases (s_db w_start) !! LEASE_NAME = Some l) by (vm_compute; reflexivity).
  assert (Hj : forall w : unit, julian_leb w_julian (sl_expires_at l) (iso (wall_clock w).1) = false) by (intros []; vm_compute; reflexivity).
  pose proof (second_service_refused w_service_host w_threads (Some (fun _ => true)) w_total w_total w_group exn_name (fun _ => Ok JNull) w_validate fzero fzero w_trade_env KST "db" (fun l => l) (fun _ => false) 9 w_julian "owner-2" w_service_settings 1 w_start l
    ltac:(vm_compute; discriminate) eq_refl Hl ltac:(vm_compute; discriminate) Hj) as H.
  destruct w_second as [r s']. destruct H as (H1 & H2 & _). split; [exact H1|exact H2].
Defined.
