(* ===== verification/JsonText.v ===== *)
(** * JSON text, read back

    What [json.dumps] writes, with its own separators or the compact ones the
    stored reports use, [json.loads] reads back as the same value: for values of
    ASCII text, integers, booleans and [None], in lists and in objects whose keys
    are distinct. *)

From stdpp Require Import pretty.

From S2P Require Import Prelude PyStr PyFloat PyTime IsoText PyDecimal PyDict PyJson DbCore DbRuntime TradeCycle.

Definition ascii_char (c : ascii) : bool := code c <? 128.

(** [json.dumps(v, separators=("," + pad, ":" + pad))] *)
Fixpoint json_text (pad : string) (v : json) : string :=
  match v with
  | JList l => "[" +:+ join (String "," pad) (map (json_text pad) l) +:+ "]"
  | JObj o => "{" +:+ join (String "," pad) (map (fun kv => quoted (fst kv) +:+ String ":" pad +:+ json_text pad (snd kv)) o) +:+ "}"
  | _ => dumps v
  end.

(** The values that are read back *)
Fixpoint distinct (l : list string) : bool := match l with [] => true | k :: l => negb (mem_str k l) && distinct l end.

Fixpoint readable (v : json) : bool :=
  match v with
  | JFloat _ => false
  | JStr s => sforall ascii_char s
  | JList l => forallb readable l
  | JObj o => distinct (map fst o) && forallb (fun kv => sforall ascii_char (fst kv) && readable (snd kv)) o
  | _ => true
  end.

(** ** Strings *)

Lemma ascii_step c n t : ascii_char c = true ->
  read_string (S n) (escape_point (code c) +:+ t) = '(r, t') ← read_string n t; Some (String c r, t').
Proof. destruct c as [[] [] [] [] [] [] [] []]; intros H; first [discriminate H|reflexivity]. Qed.

Lemma escape_cons c s : ascii_char c = true -> escape (String c s) = escape_point (code c) +:+ escape s.
Proof. intros Hc. unfold escape, ascii_char in *. cbn [code_points]. by rewrite Hc. Qed.

Lemma read_ascii s : forall n r, sforall ascii_char s = true -> (String.length s < n)%nat ->
  read_string n (escape s +:+ String quote r) = Some (s, r).
Proof.
  induction s as [|c s IH]; intros [|n] r Hs Hn; cbn [String.length] in Hn; try lia; [reflexivity|].
  cbn [sforall] in Hs. apply andb_true_iff in Hs as [Hc Hs]. rewrite escape_cons by done. rewrite sapp_assoc, ascii_step by done.
  by rewrite IH by (done || lia).
Qed.

Lemma escape_length s : sforall ascii_char s = true -> (String.length s <= String.length (escape s))%nat.
Proof.
  induction s as [|c s IH]; [cbn; lia|]. cbn [sforall]. intros [Hc Hs]%andb_true_iff. rewrite escape_cons by done. rewrite slength_app.
  specialize (IH Hs). assert (1 <= String.length (escape_point (code c)))%nat; [|cbn [String.length]; lia].
  clear. unfold escape_point. repeat (destruct (_ =? _); [cbn; lia|]). destruct (_ && _); [cbn; lia|]. destruct (_ <? _); [cbn; lia|].
  rewrite slength_app. cbn. lia.
Qed.

(** ** Integers *)

Definition nonzero_head (s : string) : Prop := exists c t, s = String c t /\ code c <> 48.

Lemma pretty_go_head n : forall s, n <> 0%N -> nonzero_head (pretty_N_go n s).
Proof.
  induction n as [n IH] using (well_founded_induction N.lt_wf_0). intros s Hn. rewrite pretty_N_go_step by lia.
  destruct (decide (n `div` 10 = 0)%N) as [Hd|Hd].
  - rewrite Hd, pretty_N_go_0. eexists _, _. split; [reflexivity|].
    assert (n < 10)%N by (by apply N.div_small_iff). rewrite N.mod_small by done.
    destruct n as [|p]; [done|]. do 4 (destruct p as [p|p|]; try (by vm_compute)); exfalso; lia.
  - apply IH; [apply N.div_lt; lia|done].
Qed.

Lemma digits_all s : forall acc n, sforall is_digit s = true -> (digits acc n s).1.1 = digits_value acc s.
Proof. induction s as [|c s IH]; intros acc n; [done|]. cbn [sforall digits digits_value]. intros [-> Hs]%andb_true_iff. by apply IH. Qed.

Lemma span_digits s r : sforall is_digit s = true -> match r with String c _ => is_digit c = false | "" => True end ->
  span is_digit (s +:+ r) = (s, r).
Proof.
  induction s as [|c s IH]; intros Hs Hr.
  - destruct r as [|c r]; [done|]. change ("" +:+ String c r) with (String c r). cbn [span]. by rewrite Hr.
  - cbn [sforall] in Hs. apply andb_true_iff in Hs as [Hc Hs]. change (String c s +:+ r) with (String c (s +:+ r)). cbn [span].
    by rewrite Hc, IH.
Qed.

(** What follows a value of a list, of an object, or of the whole text *)
Definition after_value (r : string) : Prop := r = "" \/ exists t, r = String "," t \/ r = String "]" t \/ r = String "}" t.

Lemma read_pos p r : after_value r -> read_json_number (str_int (Z.pos p) +:+ r) = Some (JInt (Z.pos p), r) /\
  read_json_number ("-" +:+ str_int (Z.pos p) +:+ r) = Some (JInt (Z.neg p), r).
Proof.
  intros Hr. unfold str_int. change (pretty (Z.pos p)) with (pretty_N_go (N.pos p) "").
  destruct (pretty_go_value (N.pos p) "" 0 eq_refl eq_refl) as [Hd Hv]. cbn [digits_value] in Hv.
  destruct (pretty_go_head (N.pos p) "" ltac:(lia)) as (c & t & Ht & Hc). rewrite Ht in *.
  assert (Hspan : span is_digit (String c t +:+ r) = (String c t, r)).
  { apply span_digits; [done|]. by destruct Hr as [->|(u & [->|[->| ->]])]. }
  assert (Hdig : (digits 0 0 (String c t)).1.1 = Z.pos p) by (by rewrite digits_all, Hv).
  assert (H0 : c <> "0"%char) by (intros ->; by apply Hc).
  assert (Hm : c <> "-"%char) by (intros ->; by vm_compute in Hd).
  split; unfold read_json_number.
  - change (String c t +:+ r) with (String c (t +:+ r)). cbv iota beta. rewrite bool_decide_eq_false_2 by done. cbv iota beta.
    rewrite bool_decide_eq_false_2 by done. change (String c (t +:+ r)) with (String c t +:+ r). rewrite Hspan. cbn [sempty].
    destruct Hr as [->|(u & [->|[->| ->]])]; cbn [sempty andb]; rewrite ?Hdig; by rewrite ?Z.mul_1_l.
  - change ("-" +:+ String c t +:+ r) with (String "-" (String c (t +:+ r))). cbv iota beta. rewrite bool_decide_eq_true_2 by done. cbv iota beta.
    rewrite bool_decide_eq_false_2 by done. change (String c (t +:+ r)) with (String c t +:+ r). rewrite Hspan. cbn [sempty].
    destruct Hr as [->|(u & [->|[->| ->]])]; cbn [sempty andb]; rewrite ?Hdig; done.
Qed.

(** ** Values *)

Lemma skip_spaces pad t : sforall json_space pad = true -> skip (pad +:+ t) = skip t.
Proof.
  unfold skip. induction pad as [|c pad IH]; [done|]. cbn [sforall]. intros [Hc Hp]%andb_true_iff.
  change (String c pad +:+ t) with (String c (pad +:+ t)). cbn [lstrip_by]. rewrite Hc. by apply IH.
Qed.

Lemma skip_head c t : json_space c = false -> skip (String c t) = String c t.
Proof. unfold skip. cbn [lstrip_by]. by intros ->. Qed.

Section Text.
Variable pad : string.
Hypothesis pad_spaces : sforall json_space pad = true.

Notation text := (json_text pad).
Notation size v := (String.length (text v)).

(** A value begins with a character that is neither a space nor a closing bracket. *)
Definition opening (s : string) : Prop := exists c t, s = String c t /\ json_space c = false /\ c <> "]"%char /\ c <> "}"%char.

Lemma int_opening z : opening (str_int z).
Proof.
  assert (H : forall p, opening (pretty_N_go (N.pos p) "")).
  { intros p. destruct (pretty_go_value (N.pos p) "" 0 eq_refl eq_refl) as [Hd _]. destruct (pretty_go_head (N.pos p) "" ltac:(lia)) as (c & t & Ht & Hc).
    rewrite Ht in *. exists c, t. cbn [sforall] in Hd. apply andb_true_iff in Hd as [Hd _]. split; [done|].
    split; [unfold is_digit, json_space in *; lia|]. by split; intros ->. }
  destruct z as [|p|p]; [by eexists _, _|apply H|]. destruct (H p) as (c & t & Ht & _). change (str_int (Z.neg p)) with ("-" +:+ pretty_N_go (N.pos p) "").
  by eexists "-"%char, _.
Qed.

Lemma text_opening v : readable v = true -> opening (text v).
Proof.
  destruct v as [|[]|z|x|s|l|o]; intros Hv; try discriminate Hv; try apply int_opening; by eexists _, _.
Qed.

Lemma opening_app s r : opening s -> opening (s +:+ r).
Proof. intros (c & t & -> & H). by exists c, (t +:+ r). Qed.

Lemma skip_opening s : opening s -> skip s = s.
Proof. intros (c & t & -> & H & _). by apply skip_head. Qed.

Lemma text_size v : readable v = true -> (1 <= size v)%nat.
Proof. intros Hv. destruct (text_opening v Hv) as (c & t & -> & _). cbn. lia. Qed.

Lemma skip_after r : after_value r -> skip r = r.
Proof. by intros [->|(t & [->|[->| ->]])]. Qed.

(** What is read after a separator *)
Lemma after_comma s : opening s -> skip (pad +:+ s) = s.
Proof. intros H. rewrite skip_spaces by done. by apply skip_opening. Qed.

Definition reads (v : json) : Prop := forall fuel r, (size v <= fuel)%nat -> after_value r -> read_value fuel (text v +:+ r) = Some (v, r).

Lemma read_items l : forall v acc fuel r, forallb readable (v :: l) = true -> (forall x, x ∈ v :: l -> reads x) ->
  (String.length (join (String "," pad) (map text (v :: l))) < fuel)%nat -> after_value r ->
  read_elements fuel acc (join (String "," pad) (map text (v :: l)) +:+ String "]" r) = Some (JList (acc ++ v :: l), r).
Proof.
  induction l as [|v' l IH]; intros v acc [|fuel] r Hr Hv Hf Ha; try lia.
  - cbn [map join] in *. cbn [read_elements].
    rewrite (Hv v (list_elem_of_here _ _) fuel (String "]" r)) by (lia || (right; eauto)). reflexivity.
  - change (join (String "," pad) (map text (v :: v' :: l))) with (text v +:+ (String "," pad +:+ join (String "," pad) (map text (v' :: l)))) in *.
    rewrite !slength_app in Hf. cbn [String.length] in Hf. cbn [forallb] in Hr. apply andb_true_iff in Hr as [Hrv Hr].
    pose proof (text_size v Hrv). rewrite (sapp_assoc (text v)), sapp_assoc.
    set (rest := join (String "," pad) (map text (v' :: l)) +:+ String "]" r). cbn [read_elements].
    change (String "," pad +:+ rest) with (String "," (pad +:+ rest)).
    rewrite (Hv v (list_elem_of_here _ _) fuel) by (lia || (right; eauto)). cbn [mbind option_bind].
    change (skip (String "," (pad +:+ rest))) with (String "," (pad +:+ rest)). cbv iota beta.
    rewrite bool_decide_eq_false_2, bool_decide_eq_true_2 by done.
    assert (Ho : opening rest).
    { apply opening_app. cbn [forallb] in Hr. apply andb_true_iff in Hr as [Hr _]. destruct l; [by apply text_opening|by apply opening_app, text_opening]. }
    rewrite after_comma by done. unfold rest. rewrite IH; [by rewrite <- app_assoc|done| |lia|done]. intros x Hx. apply Hv. set_solver.
Qed.

Definition member (kv : string * json) : string := quoted (fst kv) +:+ String ":" pad +:+ text (snd kv).

Lemma dset_fresh {A} k (v : A) (d : dict A) : mem_str k (map fst d) = false -> dset k v d = d ++ [(k, v)].
Proof.
  induction d as [|[k' v'] d IH]; [done|]. cbn [map mem_str existsb fst dset app]. rewrite String.eqb_sym. intros [-> Hd]%orb_false_iff.
  by rewrite IH.
Qed.

Lemma quoted_app k r : quoted k +:+ r = String quote (escape k +:+ String quote r).
Proof.
  unfold quoted. change (String quote (escape k +:+ String quote "") +:+ r) with (String quote ((escape k +:+ String quote "") +:+ r)).
  by rewrite sapp_assoc.
Qed.

Lemma read_key k r : sforall ascii_char k = true ->
  read_string (S (String.length (escape k +:+ String quote r))) (escape k +:+ String quote r) = Some (k, r).
Proof. intros Hk. apply read_ascii; [done|]. rewrite slength_app. pose proof (escape_length k Hk). lia. Qed.

Lemma member_opening kv : opening (member kv).
Proof. unfold member. rewrite quoted_app. by eexists _, _. Qed.

(** One member of an object is read. *)
Lemma read_member kv acc fuel s : sforall ascii_char (fst kv) = true -> readable (snd kv) = true -> reads (snd kv) ->
  (String.length (member kv) <= fuel)%nat -> after_value s -> mem_str (fst kv) (map fst acc) = false ->
  read_members (S fuel) acc (member kv +:+ s) =
    match s with
    | String c r => if bool_decide (c = "}"%char) then Some (JObj (acc ++ [kv]), r)
                    else if bool_decide (c = ","%char) then read_members fuel (acc ++ [kv]) (skip r) else None
    | "" => None
    end.
Proof.
  destruct kv as [k v]. cbn [fst snd]. intros Hk Hr Hv Hf Ha Hn. unfold member in *. cbn [fst snd] in *.
  rewrite !slength_app in Hf. cbn [String.length] in Hf. rewrite sapp_assoc, quoted_app. cbn [read_members].
  rewrite bool_decide_eq_true_2 by done. rewrite read_key by done. cbn [mbind option_bind].
  change ((String ":" pad +:+ text v) +:+ s) with (String ":" ((pad +:+ text v) +:+ s)).
  rewrite skip_head by done. rewrite bool_decide_eq_true_2 by done. rewrite sapp_assoc, after_comma by (by apply opening_app, text_opening).
  rewrite (Hv fuel) by (lia || done). cbn [mbind option_bind]. rewrite dset_fresh, skip_after by done. reflexivity.
Qed.

Lemma fresh_key k k' (v : json) acc : mem_str k' (map fst acc) = false -> k <> k' -> mem_str k' (map fst (acc ++ [(k, v)])) = false.
Proof.
  intros Ha Hk. rewrite map_app. unfold mem_str in *. rewrite existsb_app, Ha. cbn. by rewrite (proj2 (String.eqb_neq _ _)) by congruence.
Qed.

Lemma read_pairs o : forall kv acc fuel r,
  forallb (fun kv => sforall ascii_char (fst kv) && readable (snd kv)) (kv :: o) = true -> distinct (map fst (kv :: o)) = true ->
  (forall k, k ∈ map fst (kv :: o) -> mem_str k (map fst acc) = false) -> (forall x, x ∈ kv :: o -> reads (snd x)) ->
  (String.length (join (String "," pad) (map member (kv :: o))) < fuel)%nat -> after_value r ->
  read_members fuel acc (join (String "," pad) (map member (kv :: o)) +:+ String "}" r) = Some (JObj (acc ++ kv :: o), r).
Proof.
  induction o as [|kv' o IH]; intros kv acc [|fuel] r Hr Hd Hk Hv Hf Ha; try lia.
  - cbn [forallb] in Hr. apply andb_true_iff in Hr as [[Hka Hrv]%andb_true_iff _]. change (join _ (map member [kv])) with (member kv) in *.
    rewrite read_member; [done|done|done|apply Hv, list_elem_of_here|lia|right; eauto|apply Hk, list_elem_of_here].
  - change (join (String "," pad) (map member (kv :: kv' :: o))) with (member kv +:+ (String "," pad +:+ join (String "," pad) (map member (kv' :: o)))) in *.
    rewrite !slength_app in Hf. cbn [String.length] in Hf. cbn [forallb] in Hr. apply andb_true_iff in Hr as [[Hka Hrv]%andb_true_iff Hr].
    rewrite sapp_assoc, sapp_assoc. set (rest := join (String "," pad) (map member (kv' :: o)) +:+ String "}" r).
    change (String "," pad +:+ rest) with (String "," (pad +:+ rest)).
    rewrite read_member; [|done|done|apply Hv, list_elem_of_here|lia|right; eauto|apply Hk, list_elem_of_here].
    rewrite bool_decide_eq_false_2, bool_decide_eq_true_2 by done.
    rewrite after_comma by (apply opening_app; destruct o; [apply member_opening|apply opening_app, member_opening]).
    cbn [map distinct] in Hd. apply andb_true_iff in Hd as [Hkd Hd]. apply negb_true_iff in Hkd.
    unfold rest. rewrite IH; [by rewrite <- app_assoc|done|done| | |lia|done].
    + intros k' Hk'. destruct kv as [k v]. apply fresh_key; [apply Hk; by apply list_elem_of_further|].
      intros ->. unfold mem_str in Hkd. apply not_true_iff_false in Hkd. apply Hkd, existsb_exists. exists k'.
      split; [by apply list_elem_of_In|apply String.eqb_refl].
    + intros x Hx. apply Hv. by apply list_elem_of_further.
Qed.

Lemma substring_whole r : String.substring 0 (String.length r) r = r.
Proof. induction r as [|c r IH]; [done|exact (f_equal (String c) IH)]. Qed.

Lemma startswith_app p r : startswith p (p +:+ r) = true.
Proof.
  unfold startswith. induction p as [|c p IH]; [by destruct r|]. change (String c p +:+ r) with (String c (p +:+ r)). cbn [String.prefix].
  by destruct (Ascii.ascii_dec c c).
Qed.

Lemma removeprefix_app p r : removeprefix p (p +:+ r) = r.
Proof.
  unfold removeprefix. pose proof (startswith_app p r) as H. unfold startswith in H. rewrite H. clear H. rewrite slength_app, Nat.add_comm, Nat.add_sub. induction p as [|c p IH]; [apply substring_whole|exact IH].
Qed.

Lemma int_value z fuel r : after_value r -> read_value (S fuel) (str_int z +:+ r) = Some (JInt z, r).
Proof.
  intros Ha. destruct z as [|p|p]; [by destruct Ha as [->|(t & [->|[->| ->]])]| |].
  - rewrite <- (proj1 (read_pos p r Ha)). unfold str_int. change (pretty (Z.pos p)) with (pretty_N_go (N.pos p) "").
    destruct (pretty_go_value (N.pos p) "" 0 eq_refl eq_refl) as [Hd _]. destruct (pretty_go_head (N.pos p) "" ltac:(lia)) as (c & t & Ht & _).
    rewrite Ht in *. cbn [sforall] in Hd. apply andb_true_iff in Hd as [Hd _]. clear Ht.
    destruct c as [[] [] [] [] [] [] [] []]; first [discriminate Hd|reflexivity].
  - rewrite <- (proj2 (read_pos p r Ha)). change (str_int (Z.neg p)) with ("-" +:+ str_int (Z.pos p)). rewrite sapp_assoc.
    unfold str_int. change (pretty (Z.pos p)) with (pretty_N_go (N.pos p) "").
    destruct (pretty_go_value (N.pos p) "" 0 eq_refl eq_refl) as [Hd _]. destruct (pretty_go_head (N.pos p) "" ltac:(lia)) as (c & t & Ht & _).
    rewrite Ht in *. cbn [sforall] in Hd. apply andb_true_iff in Hd as [Hd _]. clear Ht.
    destruct c as [[] [] [] [] [] [] [] []]; first [discriminate Hd|reflexivity].
Qed.

Lemma item_size {A} (f : A -> string) sep l x : x ∈ l -> (String.length (f x) <= String.length (join sep (map f l)))%nat.
Proof.
  induction l as [|y l IH]; [intros H; by apply elem_of_nil in H|]. intros H. destruct l as [|z l].
  - apply elem_of_cons in H as [->|H]; [done|by apply elem_of_nil in H].
  - change (join sep (map f (y :: z :: l))) with (f y +:+ sep +:+ join sep (map f (z :: l))). rewrite !slength_app.
    apply elem_of_cons in H as [->|H]; [lia|]. specialize (IH H). lia.
Qed.

Lemma reads_all n : forall v, (size v <= n)%nat -> readable v = true -> reads v.
Proof.
  induction n as [|n IH]; intros v Hn Hv; [pose proof (text_size v Hv); lia|]. intros [|fuel] r Hf Ha; [pose proof (text_size v Hv); lia|].
  destruct v as [|[]|z|x|s|l|o]; try discriminate Hv.
  - change (text JNull +:+ r) with (String "n" ("ull" +:+ r)). cbn [read_value]. do 3 rewrite bool_decide_eq_false_2 by done.
    change (String "n" ("ull" +:+ r)) with ("null" +:+ r). by rewrite startswith_app, removeprefix_app.
  - change (text (JBool true) +:+ r) with (String "t" ("rue" +:+ r)). cbn [read_value]. do 3 rewrite bool_decide_eq_false_2 by done.
    change (startswith "null" (String "t" ("rue" +:+ r))) with false. change (String "t" ("rue" +:+ r)) with ("true" +:+ r).
    by rewrite startswith_app, removeprefix_app.
  - change (text (JBool false) +:+ r) with (String "f" ("alse" +:+ r)). cbn [read_value]. do 3 rewrite bool_decide_eq_false_2 by done.
    change (startswith "null" (String "f" ("alse" +:+ r))) with false. change (startswith "true" (String "f" ("alse" +:+ r))) with false.
    change (String "f" ("alse" +:+ r)) with ("false" +:+ r). by rewrite startswith_app, removeprefix_app.
  - by apply int_value.
  - cbn [json_text dumps]. rewrite quoted_app. cbn [read_value]. rewrite bool_decide_eq_true_2 by done. by rewrite read_key.
  - cbn [json_text] in *. destruct l as [|v l]; [reflexivity|]. set (body := join (String "," pad) (map text (v :: l))) in *.
    rewrite !slength_app in Hf, Hn. cbn [String.length] in Hf, Hn. rewrite sapp_assoc, sapp_assoc.
    change ("]" +:+ r) with (String "]" r). change ("[" +:+ ?t) with (String "[" t). cbn [read_value].
    rewrite bool_decide_eq_false_2, bool_decide_eq_false_2, bool_decide_eq_true_2 by done.
    cbn [readable] in Hv. assert (Hr : readable v = true) by (cbn [forallb] in Hv; by apply andb_true_iff in Hv as [? _]).
    assert (Ho : opening (body +:+ String "]" r)).
    { apply opening_app. unfold body. destruct l; [by apply text_opening|by apply opening_app, text_opening]. }
    rewrite (skip_opening _ Ho). destruct Ho as (c & t & Ht & _ & Hc & _). rewrite Ht. cbv iota. rewrite bool_decide_eq_false_2 by done. rewrite <- Ht.
    unfold body. rewrite read_items; [done|done| |fold body; lia|done].
    intros x Hx. apply IH; [|by apply (forallb_forall readable (v :: l)), list_elem_of_In].
    pose proof (item_size text (String "," pad) (v :: l) x Hx) as Hs. fold body in Hs. lia.
  - change (text (JObj o)) with ("{" +:+ join (String "," pad) (map member o) +:+ "}") in *. destruct o as [|kv o]; [reflexivity|].
    set (body := join (String "," pad) (map member (kv :: o))) in *.
    rewrite !slength_app in Hf, Hn. cbn [String.length] in Hf, Hn. rewrite sapp_assoc, sapp_assoc.
    change ("}" +:+ r) with (String "}" r). change ("{" +:+ ?t) with (String "{" t). cbn [read_value].
    rewrite bool_decide_eq_false_2, bool_decide_eq_true_2 by done.
    change (readable (JObj (kv :: o))) with (distinct (map fst (kv :: o)) && forallb (fun kv => sforall ascii_char (fst kv) && readable (snd kv)) (kv :: o)) in Hv.
    apply andb_true_iff in Hv as [Hd Hv].
    assert (Ho : opening (body +:+ String "}" r)).
    { apply opening_app. unfold body. destruct o; [apply member_opening|apply opening_app, member_opening]. }
    rewrite (skip_opening _ Ho). destruct Ho as (c & t & Ht & _ & _ & Hc). rewrite Ht. cbv iota. rewrite bool_decide_eq_false_2 by done. rewrite <- Ht.
    unfold body. rewrite read_pairs; [done|done|done|done| |fold body; lia|done].
    intros x Hx. pose proof (proj1 (forallb_forall _ _) Hv x (proj1 (list_elem_of_In _ _) Hx)) as [_ Hrx]%andb_true_iff. apply IH; [|done].
    pose proof (item_size member (String "," pad) (kv :: o) x Hx) as Hs. fold body in Hs. unfold member in Hs. rewrite !slength_app in Hs.
    unfold quoted in Hs. cbn [String.length] in Hs. lia.
Qed.

Lemma append_empty s : s +:+ "" = s.
Proof. induction s as [|c s IH]; [done|exact (f_equal (String c) IH)]. Qed.

Lemma loads_text v : readable v = true -> loads (text v) = Some v.
Proof.
  intros Hv. unfold loads. rewrite skip_opening by (by apply text_opening).
  pose proof (reads_all (size v) v ltac:(lia) Hv (S (S (size v))) "" ltac:(lia) (or_introl eq_refl)) as H.
  rewrite append_empty in H. by rewrite H.
Qed.
End Text.

Lemma dumps_text : forall v, dumps v = json_text " " v.
Proof.
  fix IH 1. intros v. destruct v as [| | | | |l|o]; try reflexivity; cbn [dumps json_text]; do 3 f_equal.
  - induction l as [|v l IHl]; [done|]. cbn [map]. by rewrite IH, IHl.
  - induction o as [|[k v] o IHo]; [done|]. cbn [map fst snd]. by rewrite IH, IHo.
Qed.

Lemma dumps_compact_text : forall v, dumps_compact v = json_text "" v.
Proof.
  fix IH 1. intros v. destruct v as [| | | | |l|o]; try reflexivity; cbn [dumps_compact json_text]; do 3 f_equal.
  - induction l as [|v l IHl]; [done|]. cbn [map]. by rewrite IH, IHl.
  - induction o as [|[k v] o IHo]; [done|]. cbn [map fst snd]. by rewrite IH, IHo.
Qed.

Lemma loads_compact v : readable v = true -> loads (dumps_compact v) = Some v.
Proof. intros Hv. rewrite dumps_compact_text. by apply loads_text. Qed.

(** Fact: a value written with [json.dumps], with its own separators or the compact
    ones, is read back by [json.loads] as it was. *)
Theorem json_roundtrip v : readable v = true -> loads (dumps v) = Some v /\ loads (dumps_compact v) = Some v.
Proof. intros Hv. split; [|rewrite dumps_compact_text; by apply loads_text]. rewrite dumps_text. by apply loads_text. Qed.

Definition w_value : json :=
  JObj [("status", JStr "reconciled"); ("reasons", JList [JStr "a"; JNull; JBool true]); ("count", JInt (-120)); ("none", JObj [])].

Lemma json_roundtrip_witness : loads (dumps w_value) = Some w_value /\ loads (dumps_compact w_value) = Some w_value.
Proof. exact (json_roundtrip w_value eq_refl). Defined.
