(* ===== verification/Notifier.v ===== *)
(** * The operator's notifier and the Telegram poll of the service ([cli.py])

    [_TelegramNotifier] keeps the last notifications in one message of the
    operator's chat: each one edits that message, or replaces it when it cannot be
    edited, and what was shown is stored so that the next process goes on with it.
    [_telegram_poll_worker] polls the operator's commands on a thread of its own and
    waits longer after each failure. *)

From S2P Require Import Prelude PyStr PyFloat PyTime IsoText PyDecimal PyDict PyJson Risk DbCore DbOrders DbRuntime DbMarket DbLedger DbFrames DbPaper.
From S2P Require Import KisHttp KisOrder KisOrderStatus KisAccount System SystemFrames Reconciliation OrderManagement FillNotice KisWs Operator Telegram.
From S2P Require Import AutoUniverse ServiceSettings ServiceGates TradeCycle Service JsonText.

Definition HISTORY_KEY : string := "telegram.notification_history".
Definition MESSAGE_ID_KEY : string := "telegram.notification_message_id".
Definition HISTORY_LIMIT : Z := 5.
Definition ENTRY_LIMIT : Z := 650.
Definition TIMESTAMP_LIMIT : Z := 32.
Definition TELEGRAM_POLL_MAX_RETRY_SECONDS : float := f_of_Z 60.

Record notification := mkNotification { no_timestamp : string; no_text : string }.

(** The fields of a [_TelegramNotifier] that change *)
Record notifier_state := mkNotifierState {
  nt_history : list notification;
  nt_message_id : option json;
  nt_loaded : bool;
}.
Definition fresh_notifier : notifier_state := mkNotifierState [] None false.

(** The bot's client, for the operator's chat and with the main menu *)
Record chat_client (W : Type) := mkChat {
  ch_edit : json -> string -> stm W unit;
  ch_delete : json -> stm W unit;
  ch_send : string -> stm W (dict json);
  ch_set_my_commands : stm W unit;
  ch_set_chat_menu_button : stm W unit;
}.
Arguments mkChat {W} _ _ _ _ _.
Arguments ch_edit {W} _ _ _.
Arguments ch_delete {W} _ _.
Arguments ch_send {W} _ _.
Arguments ch_set_my_commands {W} _.
Arguments ch_set_chat_menu_button {W} _.

(** [l[-n:]] *)
Definition last_items {A} (n : Z) (l : list A) : list A := drop (length l - Z.to_nat n) l.

(** [now.strftime("%m-%d %H:%M:%S")] *)
Definition notification_stamp (now : datetime) : string :=
  let '(_, month, day) := civil_of_days (dt_days now) in
  pad_digits 2 month +:+ "-" +:+ pad_digits 2 day +:+ " " +:+ iso_time_seconds (dt_tod now).

Definition entry_of (now : datetime) (text : string) : notification :=
  mkNotification (notification_stamp now) (take_points ENTRY_LIMIT (strip text)).

(** [_render_history] *)
Definition render_history (history : list notification) : string :=
  join newline (("최근 운영 알림 (" +:+ str_int (len history) +:+ "/" +:+ str_int HISTORY_LIMIT +:+ ")") ::
    map (fun item => newline +:+ "[" +:+ no_timestamp item +:+ "]" +:+ newline +:+ no_text item) history).

(** An item of the stored history, when it holds a notification *)
Definition stored_notification (item : json) : list notification :=
  match item with
  | JObj o =>
      let field key limit := take_points limit (strip (str_or_empty (or_else (dget key o) JNull))) in
      let timestamp := field "timestamp" TIMESTAMP_LIMIT in
      let text := field "text" ENTRY_LIMIT in
      if sempty timestamp || sempty text then [] else [mkNotification timestamp text]
  | _ => []
  end.

(** What [_load_state] reads from the two stored texts *)
Definition stored_history (raw : option string) : list notification :=
  match loads (match raw with Some s => if sempty s then "[]" else s | None => "[]" end) with
  | Some (JList items) => flat_map stored_notification (last_items HISTORY_LIMIT items)
  | _ => []
  end.

Definition stored_message_id (raw : option string) : option json :=
  match parse_int (or_else raw "") with
  | Ok n => if 0 <? n then Some (JInt n) else None
  | Err _ => None
  end.

(** What [_persist_state] writes *)
Definition history_json (history : list notification) : json :=
  JList (map (fun item => JObj [("timestamp", JStr (no_timestamp item)); ("text", JStr (no_text item))]) history).
Definition message_id_text (id : option json) : string :=
  match id with Some v => if truthy v then py_str v else "" | None => "" end.

(** [isinstance(result, dict)] and its message's id *)
Definition new_message_id (answer : dict json) : option json :=
  match dget "result" answer with
  | Some (JObj message) => match dget "message_id" message with
                           | Some (JInt n) => Some (JInt n)
                           | Some (JBool b) => Some (JBool b)
                           | _ => None
                           end
  | _ => None
  end.

Section Notifier.
Context {W : Type} {CW : Clock W}.
Variable client : chat_client W.
(** [db_path is not None] *)
Variable stored : bool.

Notation run := (stm (sys (W * notifier_state))).

Definition self : run notifier_state := fun s => (Ok (s_world s).2, s).
Definition update_self (f : notifier_state -> notifier_state) : run unit := on_world (fun w => (Ok tt, (w.1, f w.2))).
Definition chat {A} (m : stm W A) : run A := on_world (on_fst m).

(** [_load_state] *)
Definition load_state : run unit :=
  n ← self;
  if nt_loaded n then mret tt
  else
    _ ← update_self (fun n => mkNotifierState (nt_history n) (nt_message_id n) true);
    if negb stored then mret tt
    else
      _ ← open_schema;
      raw_history ← query (get_metadata HISTORY_KEY);
      raw_message_id ← query (get_metadata MESSAGE_ID_KEY);
      update_self (fun n => mkNotifierState (nt_history n ++ stored_history raw_history) (stored_message_id raw_message_id) true).

(** [_persist_state] *)
Definition persist_state (now : datetime) : run unit :=
  if negb stored then mret tt
  else
    _ ← open_schema;
    n ← self;
    _ ← set_metadata_now HISTORY_KEY (dumps_compact (history_json (nt_history n))) (Some now);
    _ ← set_metadata_now MESSAGE_ID_KEY (message_id_text (nt_message_id n)) (Some now);
    mret tt.

Definition with_message_id (id : option json) (n : notifier_state) : notifier_state := mkNotifierState (nt_history n) id (nt_loaded n).
Definition remember (entry : notification) (n : notifier_state) : notifier_state :=
  mkNotifierState (last_items HISTORY_LIMIT (nt_history n ++ [entry])) (nt_message_id n) (nt_loaded n).

(** [try: m  except RuntimeError: ...]: whether it went through. *)
Definition tolerating_RuntimeError {A} (m : run A) : run bool :=
  r ← attempt m;
  match (r : res A) with Ok _ => mret true | Err e => if is_RuntimeError e then mret false else raise e end.

(** [send] and [send_menu] *)
Definition send_new (now : datetime) (rendered : string) : run unit :=
  answer ← chat (ch_send client rendered);
  _ ← (match new_message_id answer with
       | Some id => update_self (with_message_id (Some id))
       | None => mret tt
       end);
  persist_state now.

Definition send (text : string) : run unit :=
  now ← kst_now;
  _ ← load_state;
  _ ← update_self (remember (entry_of now text));
  n ← self;
  let rendered := render_history (nt_history n) in
  match nt_message_id n with
  | Some id =>
      edited ← tolerating_RuntimeError (_ ← chat (ch_edit client id rendered); persist_state now);
      if edited : bool then mret tt
      else
        _ ← tolerating_RuntimeError (chat (ch_delete client id));
        _ ← update_self (with_message_id None);
        send_new now rendered
  | None => send_new now rendered
  end.

Definition install_menu : run unit := _ ← chat (ch_set_my_commands client); chat (ch_set_chat_menu_button client).
End Notifier.

(** [_telegram_notifier_from_env]: the token and the chat of a notifier *)
Definition notifier_from_env (env : string -> option string) : option (string * string) :=
  match env "TELEGRAM_BOT_TOKEN", env "TELEGRAM_ALLOWED_CHAT_ID" with
  | Some token, Some chat_id => if sempty token || sempty chat_id then None else Some (token, chat_id)
  | _, _ => None
  end.

(** ** The poll of the operator's commands *)

(** [telegram_error_summary] *)
Definition telegram_error_summary (e : exn) : string := match e with TelegramApiError summary => summary | _ => exn_name e end.

(** [exc.retry_after] of a Telegram error, which its summary ends with *)
Definition retry_after (e : exn) : option Z :=
  match e with
  | TelegramApiError summary =>
      match List.find (startswith "retry_after_") (split_on ":" summary) with
      | Some part => match parse_int (removeprefix "retry_after_" part) with Ok n => Some n | Err _ => None end
      | None => None
      end
  | _ => None
  end.

(** The worker's [failed_event] and its local variable [retry_delay] *)
Record poller (W : Type) := mkPoller { po_sys : sys W; po_failed : bool; po_delay : float }.
Arguments mkPoller {W} _ _ _.
Arguments po_sys {W} _.
Arguments po_failed {W} _.
Arguments po_delay {W} _.

Section Poll.
Context {W : Type} {CW : Clock W}.
(** [poll_telegram] with the worker's arguments, the service's notifier, and the
    stop event: [wait] and [is_set] *)
Variable poll : stm (sys W) Z.
Variable notifier : option (string -> stm (sys W) unit).
Variable timeout_seconds : Z.
Variable wait : float -> W -> W.
Variable stopped : W -> bool.

Notation run := (stm (poller W)).
Definition in_poll {A} (m : stm (sys W) A) : run A := fun p => let '(r, s) := m (po_sys p) in (r, mkPoller s (po_failed p) (po_delay p)).
Definition set_failed (b : bool) : run unit := modify (fun p => mkPoller (po_sys p) b (po_delay p)).
Definition set_retry_delay (f : float -> float) : run unit := modify (fun p => mkPoller (po_sys p) (po_failed p) (f (po_delay p))).

Definition poll_alert (warning : string) : stm (sys W) unit :=
  _ ← open_schema;
  now ← kst_now;
  _ ← set_metadata_now "telegram:last_error" warning (Some now);
  now ← kst_now;
  _ ← send_throttled_service_alert notifier warning now "service:telegram_poll_alert:fingerprint" "service:telegram_poll_alert:at";
  mret tt.

(** One turn of the loop: the seconds it waited after a failure. *)
Definition poll_turn : run (option float) :=
  polled ← in_poll (attempt poll);
  match polled : res Z with
  | Ok _ =>
      _ ← set_failed false;
      _ ← set_retry_delay (fun _ => f_one);
      _ ← (if timeout_seconds =? 0 then in_poll (on_world (fun w => (Ok tt, wait (f_ratio 1 10) w))) else mret tt);
      mret None
  | Err e =>
      _ ← set_failed true;
      _ ← in_poll (attempt (poll_alert ("telegram poll warning: " +:+ telegram_error_summary e)));
      delay ← gets po_delay;
      let wait_seconds := fmin TELEGRAM_POLL_MAX_RETRY_SECONDS (fmax delay (f_of_Z (or_else (retry_after e) 0))) in
      _ ← in_poll (on_world (fun w => (Ok tt, wait wait_seconds w)));
      _ ← set_retry_delay (fun delay => fmin TELEGRAM_POLL_MAX_RETRY_SECONDS (delay * f_of_Z 2)%F);
      mret (Some wait_seconds)
  end.

(** [_telegram_poll_worker], for at most [n] turns *)
Fixpoint poll_turns (n : nat) : run unit :=
  match n with
  | O => mret tt
  | S n =>
      stop ← gets (fun p => stopped (s_world (po_sys p)));
      if stop : bool then mret tt else _ ← poll_turn; poll_turns n
  end.

Definition telegram_poll_worker (n : nat) : stm (sys W) unit :=
  fun s => let '(r, p) := poll_turns n (mkPoller s false f_one) in (r, po_sys p).
End Poll.

(** ** Lemmas *)

Lemma take_points_length n s : 0 <= n -> slen (take_points n s) <= n.
Proof.
  revert n. induction s as [|c s IH]; intros n Hn; [done|]. cbn [take_points]. unfold cont.
  destruct ((128 <=? code c) && (code c <? 192)) eqn:Ec; [cbn [slen]; rewrite Ec; specialize (IH n Hn); lia|].
  destruct (n <=? 0) eqn:En; [done|]. cbn [slen]. rewrite Ec. specialize (IH (n - 1) ltac:(lia)). lia.
Qed.

Lemma slen_nonneg s : 0 <= slen s.
Proof. induction s as [|c s IH]; [done|]. cbn [slen]. destruct (_ && _); lia. Qed.

Lemma take_points_whole n s : slen s <= n -> take_points n s = s.
Proof.
  revert n. induction s as [|c s IH]; intros n Hn; [done|]. cbn [take_points slen] in *. unfold cont.
  destruct ((128 <=? code c) && (code c <? 192)); [by rewrite IH by lia|].
  pose proof (slen_nonneg s). rewrite (proj2 (Z.leb_gt n 0)) by lia. by rewrite IH by lia.
Qed.

Lemma last_items_length {A} n (l : list A) : (length (last_items n l) <= Z.to_nat n)%nat.
Proof. unfold last_items. rewrite length_drop. lia. Qed.

Lemma last_items_whole {A} n (l : list A) : (length l <= Z.to_nat n)%nat -> last_items n l = l.
Proof. intros H. unfold last_items. by replace (length l - Z.to_nat n)%nat with 0%nat by lia. Qed.

(** What the notifier keeps when it has been loaded and stored *)
Record restorable (n : notifier_state) : Prop := mkRestorable {
  rs_length : (length (nt_history n) <= Z.to_nat HISTORY_LIMIT)%nat;
  rs_items : forall item, item ∈ nt_history n ->
    sforall ascii_char (no_timestamp item) = true /\ sforall ascii_char (no_text item) = true /\
    sempty (no_timestamp item) = false /\ sempty (no_text item) = false /\
    strip (no_timestamp item) = no_timestamp item /\ strip (no_text item) = no_text item /\
    slen (no_timestamp item) <= TIMESTAMP_LIMIT /\ slen (no_text item) <= ENTRY_LIMIT;
  rs_message_id : match nt_message_id n with None => True | Some v => exists k, v = JInt k /\ 0 < k end;
}.

Lemma history_readable h : (forall item, item ∈ h -> sforall ascii_char (no_timestamp item) = true /\ sforall ascii_char (no_text item) = true) ->
  readable (history_json h) = true.
Proof.
  intros H. cbn [readable history_json]. apply forallb_forall. intros x Hx. apply in_map_iff in Hx as (item & <- & Hi).
  apply list_elem_of_In in Hi. destruct (H item Hi) as [H1 H2]. cbn. by rewrite H1, H2.
Qed.

Lemma str_or_empty_text t : str_or_empty (JStr t) = t.
Proof. unfold str_or_empty. cbn. by destruct t. Qed.

Lemma stored_history_back n : restorable n -> stored_history (Some (dumps_compact (history_json (nt_history n)))) = nt_history n.
Proof.
  intros [Hl Hi _]. unfold stored_history.
  assert (Hne : sempty (dumps_compact (history_json (nt_history n))) = false) by done. rewrite Hne.
  rewrite loads_compact by (apply history_readable; intros item H; destruct (Hi item H) as (? & ? & _); by split).
  unfold history_json. rewrite last_items_whole by (by rewrite length_map). clear Hl Hne.
  induction (nt_history n) as [|item h IH]; [done|]. cbn [map flat_map].
  rewrite IH by (intros x Hx; apply Hi; by apply list_elem_of_further).
  destruct (Hi item (list_elem_of_here _ _)) as (_ & _ & H1 & H2 & H3 & H4 & H5 & H6).
  set (o := [("timestamp", JStr (no_timestamp item)); ("text", JStr (no_text item))]).
  assert (E1 : str_or_empty (or_else (dget "timestamp" o) JNull) = no_timestamp item) by apply str_or_empty_text.
  assert (E2 : str_or_empty (or_else (dget "text" o) JNull) = no_text item) by apply str_or_empty_text.
  unfold stored_notification. rewrite E1, E2, H3, H4, !take_points_whole by done. cbv zeta. rewrite H1, H2. by destruct item.
Qed.

Lemma stored_message_id_back n : restorable n -> stored_message_id (Some (message_id_text (nt_message_id n))) = nt_message_id n.
Proof.
  intros [_ _ Hm]. unfold stored_message_id, message_id_text. destruct (nt_message_id n) as [v|]; [|reflexivity].
  destruct Hm as (k & -> & Hk). cbn [truthy or_else]. rewrite (proj2 (Z.eqb_neq k 0)) by lia. cbn [negb].
  change (py_str (JInt k)) with (str_int k). rewrite parse_int_str by lia. by rewrite (proj2 (Z.ltb_lt 0 k)).
Qed.

Section NotifierFacts.
Context {W : Type} {CW : Clock W}.
Variables (client : chat_client W) (stored : bool).
Notation state := (sys (W * notifier_state)).

Definition same_notifier (s s' : state) : Prop := (s_world s').2 = (s_world s).2.
#[local] Instance same_notifier_preorder : PreOrder same_notifier.
Proof. split; [done|]. unfold same_notifier. intros a b c. congruence. Qed.
Definition same_history (s s' : state) : Prop := nt_history (s_world s').2 = nt_history (s_world s).2.
#[local] Instance same_history_preorder : PreOrder same_history.
Proof. split; [done|]. unfold same_history. intros a b c. congruence. Qed.

Lemma same_clock (s : state) : (wall_clock (s_world s)).2.2 = (s_world s).2.
Proof. unfold wall_clock, logged_clock. by destruct (wall_clock (s_world s).1). Qed.

Lemma same_on_db {A} (f : datetime -> db -> res (A * db)) : keeps same_notifier (on_db f).
Proof.
  intros s. unfold on_db, same_notifier. pose proof (same_clock s) as H. destruct (wall_clock (s_world s)) as [now w]. cbn in H.
  by destruct (f now (s_db s)) as [[a d]|e].
Qed.

Lemma same_metadata k v t (s : state) r s' : set_metadata_now k v t s = (r, s') -> (s_world s').2 = (s_world s).2.
Proof. intros E. pose proof (same_on_db (set_runtime_metadata k v t) s) as H. unfold set_metadata_now in E. rewrite E in H. exact H. Qed.

Lemma same_read_clock : keeps same_notifier read_clock.
Proof. intros s. unfold read_clock, same_notifier. pose proof (same_clock s) as H. by destruct (wall_clock (s_world s)). Qed.

Lemma same_chat {A} (m : stm W A) : keeps same_notifier (chat m).
Proof. intros s. unfold chat, on_world, on_fst, same_notifier. by destruct (m (s_world s).1). Qed.

Lemma history_of {A} (m : stm state A) : keeps same_notifier m -> keeps same_history m.
Proof. intros H s. specialize (H s). unfold same_notifier, same_history in *. by rewrite H. Qed.

Lemma history_attempt {A} (m : stm state A) : keeps same_history m -> keeps same_history (tolerating_RuntimeError m).
Proof.
  intros H. apply keeps_bind; [exact _|by apply keeps_attempt|]. intros [a|e]; [apply keeps_ret, _|].
  destruct (is_RuntimeError e); [apply keeps_ret, _|apply keeps_raise, _].
Qed.

Lemma history_persist now : keeps same_history (persist_state stored now).
Proof.
  apply history_of. unfold persist_state. destruct stored; cbn [negb]; [|apply keeps_ret, _].
  apply keeps_bind; [exact _|apply same_on_db|]. intros _. apply keeps_bind; [exact _|by intros ?|]. intros n.
  do 2 (apply keeps_bind; [exact _|apply same_on_db|]; intros ?). apply keeps_ret, _.
Qed.

Lemma history_message_id id : keeps same_history (update_self (with_message_id id)).
Proof. by intros s. Qed.

Lemma history_send_new now rendered : keeps same_history (send_new client stored now rendered).
Proof.
  apply keeps_bind; [exact _|apply history_of, same_chat|]. intros answer. apply keeps_bind; [exact _| |intros _; apply history_persist].
  destruct (new_message_id answer); [apply history_message_id|apply keeps_ret, _].
Qed.

(** The state that [persist_state] and [load_state] leave *)
Lemma persist_run now (s : state) : stored = true -> exists s', persist_state stored now s = (Ok tt, s') /\ (s_world s').2 = (s_world s).2 /\
  get_metadata HISTORY_KEY (s_db s') = Some (dumps_compact (history_json (nt_history (s_world s).2))) /\
  get_metadata MESSAGE_ID_KEY (s_db s') = Some (message_id_text (nt_message_id (s_world s).2)).
Proof.
  intros Hs. unfold persist_state. rewrite Hs. cbn [negb]. rewrite (stm_bind_run _ _ _ _ _ (open_schema_run s)).
  set (s1 := mkSys _ _ _). assert (E1 : (s_world s1).2 = (s_world s).2) by apply same_clock.
  rewrite (stm_bind_run _ _ _ _ _ (eq_refl : self s1 = (Ok (s_world s1).2, s1))). rewrite E1.
  destruct (metadata_now_run HISTORY_KEY (dumps_compact (history_json (nt_history (s_world s).2))) (Some now) s1 eq_refl) as (t2 & w2 & E2).
  rewrite (stm_bind_run _ _ _ _ _ E2). set (s2 := mkSys _ w2 _) in *.
  pose proof (same_metadata _ _ _ _ _ _ E2) as N2.
  destruct (metadata_now_run MESSAGE_ID_KEY (message_id_text (nt_message_id (s_world s).2)) (Some now) s2 eq_refl) as (t3 & w3 & E3).
  rewrite (stm_bind_run _ _ _ _ _ E3). pose proof (same_metadata _ _ _ _ _ _ E3) as N3.
  eexists. split; [reflexivity|]. split; [by rewrite N3, N2|]. cbn [s_db]. unfold s2. cbn [s_db]. by rewrite !metadata_put.
Qed.

Lemma load_run (s : state) : exists s', load_state stored s = (Ok tt, s') /\
  (stored = true -> nt_loaded (s_world s).2 = false ->
     nt_history (s_world s').2 = nt_history (s_world s).2 ++ stored_history (get_metadata HISTORY_KEY (s_db s)) /\
     nt_message_id (s_world s').2 = stored_message_id (get_metadata MESSAGE_ID_KEY (s_db s))).
Proof.
  unfold load_state. rewrite (stm_bind_run _ _ _ _ _ (eq_refl : self s = (Ok (s_world s).2, s))).
  destruct (nt_loaded (s_world s).2); [by eexists|]. set (s1 := mkSys (s_db s) ((s_world s).1, mkNotifierState (nt_history (s_world s).2) (nt_message_id (s_world s).2) true) (s_trace s)).
  rewrite (stm_bind_run _ _ s _ s1) by reflexivity. destruct stored; cbn [negb]; [|by eexists].
  rewrite (stm_bind_run _ _ _ _ _ (open_schema_run s1)). set (s2 := mkSys _ _ _).
  assert (N2 : (s_world s2).2 = (s_world s1).2) by apply same_clock.
  rewrite (stm_bind_run _ _ s2 _ s2) by reflexivity. rewrite (stm_bind_run _ _ s2 _ s2) by reflexivity.
  eexists. split; [reflexivity|]. intros _ _. cbn [s_world snd nt_history nt_message_id]. by rewrite N2.
Qed.

Lemma notifier_send_run text (s : state) : exists before now s1, nt_history (s_world s1).2 = last_items HISTORY_LIMIT (before ++ [entry_of now text]) /\
  send client stored text s =
    (n ← self;
     let rendered := render_history (nt_history n) in
     match nt_message_id n with
     | Some id =>
         edited ← tolerating_RuntimeError (_ ← chat (ch_edit client id rendered); persist_state stored now);
         if edited : bool then mret tt
         else
           _ ← tolerating_RuntimeError (chat (ch_delete client id));
           _ ← update_self (with_message_id None);
           send_new client stored now rendered
     | None => send_new client stored now rendered
     end) s1.
Proof.
  unfold send. destruct (kst_now_run s) as (now & w & E). rewrite (stm_bind_run _ _ _ _ _ E).
  destruct (load_run (mkSys (s_db s) w (s_trace s))) as (s2 & E2 & _). rewrite (stm_bind_run _ _ _ _ _ E2).
  exists (nt_history (s_world s2).2), now, (mkSys (s_db s2) ((s_world s2).1, remember (entry_of now text) (s_world s2).2) (s_trace s2)).
  split; reflexivity.
Qed.

Definition history_stored (s : state) : Prop := get_metadata HISTORY_KEY (s_db s) = Some (dumps_compact (history_json (nt_history (s_world s).2))).

Lemma persist_stores now (s s' : state) r : stored = true -> persist_state stored now s = (r, s') -> history_stored s'.
Proof.
  intros Hs H. destruct (persist_run now s Hs) as (s1 & E & Hw & H1 & _). rewrite E in H. injection H as _ <-. unfold history_stored. by rewrite Hw.
Qed.

Lemma send_new_stores now rendered (s s' : state) : stored = true -> send_new client stored now rendered s = (Ok tt, s') -> history_stored s'.
Proof.
  intros Hs H. apply stm_bind_Ok in H as (answer & s1 & _ & H). apply stm_bind_Ok in H as (u & s2 & _ & H). by eapply persist_stores.
Qed.

(** Fact: a notification always takes its place at the end of the history, even when
    it cannot be delivered; the history never holds more than five, and a delivered
    one leaves in the database what the chat shows. *)
Theorem notification_takes_its_place text s : let '(r, s') := send client stored text s in
  (exists before now, nt_history (s_world s').2 = last_items HISTORY_LIMIT (before ++ [entry_of now text])) /\
  (length (nt_history (s_world s').2) <= 5)%nat /\ (r = Ok tt -> stored = true -> history_stored s').
Proof.
  destruct (notifier_send_run text s) as (before & now & s1 & Hh & ->). set (n := (s_world s1).2) in *.
  rewrite (stm_bind_run _ _ _ _ _ (eq_refl : self s1 = (Ok n, s1))). cbv zeta.
  match goal with |- let '(r, s') := ?m s1 in _ => assert (Hk : keeps same_history m); [|specialize (Hk s1); destruct (m s1) as [r s'] eqn:E] end.
  { destruct (nt_message_id n) as [id|]; [|apply history_send_new]. apply keeps_bind; [exact _| |].
    - apply history_attempt, keeps_bind; [exact _|apply history_of, same_chat|]. intros _. apply history_persist.
    - intros []; [apply keeps_ret, _|]. apply keeps_bind; [exact _|apply history_attempt, history_of, same_chat|]. intros _.
      apply keeps_bind; [exact _|apply history_message_id|]. intros _. apply history_send_new. }
  unfold same_history in Hk. cbn [snd] in Hk. fold n in Hk. split; [exists before, now; by rewrite Hk|]. split.
  { rewrite Hk, Hh. apply (last_items_length HISTORY_LIMIT). }
  intros -> Hs. destruct (nt_message_id n) as [id|]; [|by eapply send_new_stores].
  apply stm_bind_Ok in E as ([] & s2 & E2 & E).
  - injection E as <-. apply stm_bind_Ok in E2 as (a & s3 & E3 & E2). destruct a as [u|e]; [|destruct (is_RuntimeError e); discriminate E2].
    injection E2 as <-. unfold attempt in E3. destruct ((_ ← chat (ch_edit client id (render_history (nt_history n))); persist_state stored now) s1) as [r3 s4] eqn:E4.
    injection E3 as -> <-. apply stm_bind_Ok in E4 as (v & s5 & _ & E4). by eapply persist_stores.
  - apply stm_bind_Ok in E as (b & s3 & _ & E). apply stm_bind_Ok in E as (u & s4 & _ & E). by eapply send_new_stores.
Qed.

(** Fact: the notifications survive a restart: what a notifier stored is what a new
    process loads, the message to edit included. *)
Theorem notifications_survive_restart now (s s1 : state) w tr : stored = true -> restorable (s_world s).2 ->
  persist_state stored now s = (Ok tt, s1) -> exists s2, load_state stored (mkSys (s_db s1) (w, fresh_notifier) tr) = (Ok tt, s2) /\
  nt_history (s_world s2).2 = nt_history (s_world s).2 /\ nt_message_id (s_world s2).2 = nt_message_id (s_world s).2.
Proof.
  intros Hs Hr H. destruct (persist_run now s Hs) as (s1' & E & _ & H1 & H2). rewrite E in H. injection H as <-.
  destruct (load_run (mkSys (s_db s1') (w, fresh_notifier) tr)) as (s2 & E2 & Hl). exists s2. split; [exact E2|].
  destruct (Hl Hs eq_refl) as [L1 L2]. cbn [s_db] in L1, L2. rewrite H1 in L1. rewrite H2 in L2.
  by rewrite L1, L2, stored_history_back, stored_message_id_back.
Qed.

(** ** The promise to the service *)

(** Only the notifier's own entries of the metadata may differ. *)
Definition own_entries (d d' : db) : Prop := forall k, k ∉ NOTIFIER_KEYS -> get_metadata k d' = get_metadata k d.
#[local] Instance own_entries_preorder : PreOrder own_entries.
Proof. split; [by intros d k|]. intros a b c H1 H2 k Hk. by rewrite H2, H1. Qed.
Notation own := (db_rel own_entries).

Lemma own_schema : keeps own (open_schema (W := W * notifier_state)).
Proof. apply keeps_on_db; [exact _|]. by intros now d a d' [= <- <-]. Qed.

Lemma own_metadata k v t : k ∈ NOTIFIER_KEYS -> keeps own (set_metadata_now (W := W * notifier_state) k v t).
Proof.
  intros Hk. apply keeps_on_db; [exact _|]. intros now d a d' H. unfold set_runtime_metadata in H. apply bind_Ok in H as (u & _ & H).
  injection H as _ <-. intros k' Hk'. rewrite metadata_put. destruct (String.eqb_spec k' k) as [->|]; done.
Qed.

Lemma own_world {A} (m : stm (W * notifier_state) A) : keeps own (on_world m).
Proof. apply keeps_on_world, _. Qed.

Lemma own_persist now : keeps own (persist_state stored now).
Proof.
  unfold persist_state. destruct (negb stored); [apply keeps_ret, _|]. apply keeps_bind; [exact _|apply own_schema|]. intros _.
  apply keeps_bind; [exact _|by intros s|]. intros n. apply keeps_bind; [exact _|apply own_metadata, list_elem_of_here|]. intros _.
  apply keeps_bind; [exact _|apply own_metadata, list_elem_of_further, list_elem_of_here|]. intros _. apply keeps_ret, _.
Qed.

Lemma own_tolerating {A} (m : stm state A) : keeps own m -> keeps own (tolerating_RuntimeError m).
Proof.
  intros H. apply keeps_bind; [exact _|by apply keeps_attempt|]. intros [a|e]; [apply keeps_ret, _|].
  destruct (is_RuntimeError e); [apply keeps_ret, _|apply keeps_raise, _].
Qed.

Lemma own_send_new now rendered : keeps own (send_new client stored now rendered).
Proof.
  apply keeps_bind; [exact _|apply own_world|]. intros answer.
  apply keeps_bind; [exact _|destruct (new_message_id answer); [apply own_world|apply keeps_ret, _]|]. intros u. apply own_persist.
Qed.

Lemma own_load : keeps own (load_state stored).
Proof.
  apply keeps_bind; [exact _|by intros s|]. intros n. destruct (nt_loaded n); [apply keeps_ret, _|].
  apply keeps_bind; [exact _|apply own_world|]. intros u. destruct (negb stored); [apply keeps_ret, _|].
  apply keeps_bind; [exact _|apply own_schema|]. intros _. apply keeps_bind; [exact _|apply keeps_query, _|]. intros rh.
  apply keeps_bind; [exact _|apply keeps_query, _|]. intros ri. apply own_world.
Qed.

Lemma own_send text : keeps own (send client stored text).
Proof.
  unfold send. apply keeps_bind; [exact _|apply keeps_bind; [exact _|apply keeps_read_clock, _|intros t; apply keeps_ret, _]|]. intros now.
  apply keeps_bind; [exact _|apply own_load|]. intros u. apply keeps_bind; [exact _|apply own_world|]. intros u2.
  apply keeps_bind; [exact _|by intros s|]. intros n. destruct (nt_message_id n) as [id|]; [|apply own_send_new].
  apply keeps_bind; [exact _| |].
  { apply own_tolerating, keeps_bind; [exact _|apply own_world|]. intros u3. apply own_persist. }
  intros []; [apply keeps_ret, _|]. apply keeps_bind; [exact _|apply own_tolerating, own_world|]. intros b.
  apply keeps_bind; [exact _|apply own_world|]. intros u3. apply own_send_new.
Qed.

(** Fact: the Telegram notifier is what the service asks of a notifier: sending a
    message calls nothing at the broker and writes no metadata but its own two
    entries, whether it is delivered or not. *)
Theorem telegram_notifier_quiet : QuietNotifier (send client stored).
Proof. intros text s. destruct (own_send text s) as [H1 H2]. by split. Qed.
End NotifierFacts.

#[export] Instance quiet_telegram {W} {CW : Clock W} (client : chat_client W) stored : QuietNotifier (send client stored).
Proof. intros text s. destruct (own_send client stored text s) as [H1 H2]. by split. Qed.

(** The delays between polls: doubled after each failure, up to a minute *)
Definition BACKOFF : list float := [f_one; f_of_Z 2; f_of_Z 4; f_of_Z 8; f_of_Z 16; f_of_Z 32; f_of_Z 60].

Lemma backoff_next x : x ∈ BACKOFF -> fmin TELEGRAM_POLL_MAX_RETRY_SECONDS (x * f_of_Z 2)%F ∈ BACKOFF.
Proof.
  intros H. repeat (apply elem_of_cons in H as [->|H]; [apply (bool_decide_unpack _); vm_compute; exact I|]). by apply elem_of_nil in H.
Qed.

Lemma backoff_bounds x : x ∈ BACKOFF -> fleb f_one x = true /\ fleb x TELEGRAM_POLL_MAX_RETRY_SECONDS = true.
Proof.
  intros H. repeat (apply elem_of_cons in H as [->|H]; [by vm_compute|]). by apply elem_of_nil in H.
Qed.

Lemma waited_bounds x r : x ∈ BACKOFF -> fleb x (fmin TELEGRAM_POLL_MAX_RETRY_SECONDS (fmax x r)) = true /\
  fleb (fmin TELEGRAM_POLL_MAX_RETRY_SECONDS (fmax x r)) TELEGRAM_POLL_MAX_RETRY_SECONDS = true.
Proof.
  intros Hx. destruct (backoff_bounds x Hx) as [_ H60]. unfold fmin.
  destruct (fltb (fmax x r) TELEGRAM_POLL_MAX_RETRY_SECONDS) eqn:E; [|by split; [|vm_compute]]. split; [|by apply fltb_fleb].
  unfold fmax in *. destruct (fltb x r) eqn:Er; [by apply fltb_fleb|]. apply fleb_refl. by destruct (fleb_not_nan _ _ H60).
Qed.

Section PollFacts.
Context {W : Type} {CW : Clock W}.
Variables (poll : stm (sys W) Z) (notifier : option (string -> stm (sys W) unit)) (timeout_seconds : Z) (wait : float -> W -> W) (stopped : W -> bool).

Lemma in_poll_attempt {A} (m : stm (sys W) A) p : exists r s, in_poll (attempt m) p = (Ok r, mkPoller s (po_failed p) (po_delay p)).
Proof. unfold in_poll, attempt. destruct (m (po_sys p)) as [r s]. by eexists _, _. Qed.

Lemma poll_turn_run p : po_delay p ∈ BACKOFF -> exists waited p', poll_turn poll notifier timeout_seconds wait p = (Ok waited, p') /\ po_delay p' ∈ BACKOFF /\
  match waited with
  | None => po_failed p' = false /\ po_delay p' = f_one
  | Some seconds => po_failed p' = true /\ fleb (po_delay p) seconds = true /\ fleb seconds TELEGRAM_POLL_MAX_RETRY_SECONDS = true
  end.
Proof.
  intros Hp. unfold poll_turn. destruct (in_poll_attempt poll p) as (r & s & E). rewrite (stm_bind_run _ _ _ _ _ E). destruct r as [z|e].
  - assert (Hone : f_one ∈ BACKOFF) by apply list_elem_of_here. unfold mbind, stm_bind, set_failed, set_retry_delay, modify. cbn [po_sys po_failed po_delay].
    destruct (timeout_seconds =? 0); eexists None, _; (split; [reflexivity|]); by cbn.
  - set (p1 := mkPoller s true (po_delay p)). rewrite (stm_bind_run _ _ _ _ p1) by reflexivity.
    destruct (in_poll_attempt (poll_alert notifier ("telegram poll warning: " +:+ telegram_error_summary e)) p1) as (r2 & s2 & E2).
    rewrite (stm_bind_run _ _ _ _ _ E2). destruct (waited_bounds (po_delay p) (f_of_Z (or_else (retry_after e) 0)) Hp) as [H1 H2].
    eexists (Some _), _. split; [reflexivity|]. cbn [po_delay po_failed]. split; [by apply backoff_next|]. by split_and!.
Qed.

(** Fact: no failure ends a poll of the operator's commands: a turn that failed is
    known to the service, and waits at least the current delay and at most a
    minute, and the delay stays in one, two, four and so on up to sixty seconds; a
    turn that went through is known as well and starts again with one second. *)
Theorem poll_backs_off p : po_delay p ∈ BACKOFF -> let '(r, p') := poll_turn poll notifier timeout_seconds wait p in
  po_delay p' ∈ BACKOFF /\ match r with
  | Ok None => po_failed p' = false /\ po_delay p' = f_one
  | Ok (Some seconds) => po_failed p' = true /\ fleb (po_delay p) seconds = true /\ fleb seconds TELEGRAM_POLL_MAX_RETRY_SECONDS = true
  | Err _ => False
  end.
Proof. intros Hp. destruct (poll_turn_run p Hp) as (waited & p' & -> & Hd & H). by destruct waited. Qed.

(** Fact: whatever the polls do, the worker runs until it is told to stop. *)
Theorem poll_worker_survives n s : (telegram_poll_worker poll notifier timeout_seconds wait stopped n s).1 = Ok tt.
Proof.
  unfold telegram_poll_worker. assert (H : forall p, po_delay p ∈ BACKOFF -> (poll_turns poll notifier timeout_seconds wait stopped n p).1 = Ok tt).
  { induction n as [|n IH]; intros p Hp; [done|]. cbn [poll_turns].
    rewrite (stm_bind_run _ _ _ _ _ (eq_refl : gets (fun p => stopped (s_world (po_sys p))) p = (Ok _, p))).
    destruct (stopped _); [done|]. destruct (poll_turn_run p Hp) as (waited & p' & E & Hd & _). rewrite (stm_bind_run _ _ _ _ _ E). by apply IH. }
  specialize (H (mkPoller s false f_one) (list_elem_of_here _ _)). by destruct (poll_turns _ _ _ _ _ n _).
Qed.
End PollFacts.

(** ** Witnesses *)

(** Wednesday 2023-11-15, thirty seconds past ten, and a chat in which the message
    is sent once and then edited. *)
Definition w_notify_time : datetime := Datetime 1700042430000000 (Some KST).
#[local] Instance w_notify_clock : Clock unit := fun u => (w_notify_time, u).
Definition w_chat : chat_client unit :=
  mkChat (fun _ _ => mret tt) (fun _ => mret tt) (fun _ => mret [("ok", JBool true); ("result", JObj [("message_id", JInt 42)])]) (mret tt) (mret tt).
(** A chat that has gone: nothing can be edited, deleted or sent. *)
Definition w_gone : chat_client unit :=
  let fail {A} : stm unit A := raise (TelegramApiError "connection_error") in mkChat (fun _ _ => fail) (fun _ => fail) (fun _ => fail) (mret tt) (mret tt).
Definition w_silent : sys (unit * notifier_state) := mkSys empty_db (tt, fresh_notifier) [].
Definition w_told : sys (unit * notifier_state) := Eval vm_compute in (send w_chat true "first" w_silent).2.
Definition w_failed : res unit * sys (unit * notifier_state) := Eval vm_compute in send w_gone true "second" w_told.

Lemma notification_takes_its_place_witness :
  map no_text (nt_history (s_world w_failed.2).2) = ["first"; "second"] /\ w_failed.1 = Err (TelegramApiError "connection_error") /\
  exists before now, nt_history (s_world w_failed.2).2 = last_items HISTORY_LIMIT (before ++ [entry_of now "second"]).
Proof.
  split; [reflexivity|]. split; [reflexivity|].
  pose proof (notification_takes_its_place w_gone true "second" w_told) as H.
  assert (E : send w_gone true "second" w_told = w_failed) by (vm_compute; reflexivity). rewrite E in H. exact (proj1 H).
Defined.

Lemma w_told_restorable : restorable (s_world w_told).2.
Proof. split; [vm_compute; lia| |by exists 42]. intros item Hi. apply list_elem_of_singleton in Hi as ->. by vm_compute. Qed.

Definition w_persisted : sys (unit * notifier_state) := Eval vm_compute in (persist_state true w_notify_time w_told).2.

Lemma notifications_survive_restart_witness : exists s2,
  load_state true (mkSys (s_db w_persisted) (tt, fresh_notifier) []) = (Ok tt, s2) /\
  map no_text (nt_history (s_world s2).2) = ["first"] /\ nt_message_id (s_world s2).2 = Some (JInt 42).
Proof.
  assert (E : persist_state true w_notify_time w_told = (Ok tt, w_persisted)) by (vm_compute; reflexivity).
  destruct (notifications_survive_restart true w_notify_time w_told w_persisted tt [] eq_refl w_told_restorable E) as (s2 & H & H1 & H2).
  exists s2. split; [exact H|]. rewrite H1, H2. split; reflexivity.
Defined.

Definition w_limited : stm (sys unit) Z := raise (TelegramApiError "rate_limited:http_429:error_429:retry_after_90").
Definition w_poller : poller unit := mkPoller (mkSys empty_db tt []) false (f_of_Z 4).
Definition w_polled : res (option float) * poller unit := Eval vm_compute in poll_turn w_limited None 0 (fun _ u => u) w_poller.

Lemma poll_backs_off_witness : w_polled.1 = Ok (Some (f_of_Z 60)) /\ po_failed w_polled.2 = true /\ po_delay w_polled.2 ∈ BACKOFF.
Proof.
  assert (Hp : po_delay w_poller ∈ BACKOFF) by (apply (bool_decide_unpack _); vm_compute; exact I).
  pose proof (poll_backs_off w_limited None 0 (fun _ u => u) w_poller Hp) as H.
  assert (E : poll_turn w_limited None 0 (fun _ u => u) w_poller = w_polled) by (vm_compute; reflexivity). rewrite E in H.
  split; [vm_compute; reflexivity|]. split; [reflexivity|]. exact (proj1 H).
Defined.
