(* ===== verification/Commands.v ===== *)
(** * Commands of the operator ([cli.py])

    Single commands next to the service: the submission of one order of the shadow
    pipeline, the watchlist, the runtime control, the comparison of the broker's
    holdings with the local positions, and the read-only user test. *)

From S2P Require Import Prelude PyStr PyFloat PyTime IsoText PyDecimal PyDict PyJson Risk DbCore DbOrders DbRuntime DbMarket DbLedger DbFrames DbPaper.
From S2P Require Import KisHttp KisOrder KisOrderStatus KisAccount System SystemFrames Reconciliation OrderManagement FillNotice KisWs KisAuth Config KisQueries.
From S2P Require Import Bars ExitPolicy Indicators AiBudget AiDecision GuardedSubmitter AutoTrade Operator Collector Shadow LiveExecution AutoUniverse.
From S2P Require Import ServiceSettings ServiceGates SupervisorStatus TradeCycle.

(** [_BlockedSubmitter] *)
Definition blocked_submitter {W} : Submitter W := fun _ => raise (RuntimeError "blocked submitter must not be called").

(** [ShadowCycleConfig(websocket_acknowledged=...)] *)
Definition acknowledged_config (acknowledged : bool) : ShadowCycleConfig :=
  mkShadowConfig default_risk_config 20 (f_of_Z 5) (f_of_Z 90) acknowledged.

Section Commands.
Context {W : Type} {CW : Clock W}.
Variable h : host W.
Variable float_sum : list float -> float.
(** SQLite's sum and the row it shows for a group, for the paper positions *)
Variable sum_real : list float -> float.
Variable group_row : paper_fill -> list paper_fill -> paper_fill.
Variable safe_load : string -> res json.
Variable model_validate : dict setting -> res AppConfig.
Variable env : string -> option string.
(** [uuid4().hex] *)
Variable uuid_hex : stm W string.

(** [run_shadow_cycle] over the open database *)
Definition shadow_report (symbol : string) (c : ShadowCycleConfig) (portfolio : option PortfolioState) : stm (sys W) ShadowCycleReport :=
  clock ← read_clock;
  query_rows (fun d => run_shadow_cycle float_sum symbol [] [] (Some d) None c portfolio clock).

(** A report whose submission is refused *)
Definition refused (symbol : string) (c : ShadowCycleConfig) (paused confirmed : bool) (max_quantity : Z) : stm (sys W) LiveOrderExecutionResult :=
  report ← shadow_report symbol c None;
  @submit_shadow_live_buy W CW blocked_submitter uuid_hex true report paused confirmed max_quantity None.

(** [submit_live_shadow_order]: the result of the submission; the command's exit
    code is 0 when it was submitted, 3 otherwise. *)
Definition submit_live_shadow_order (environment symbol : string) (max_quantity : Z) (websocket_acknowledged : bool)
    (confirm : string) (refresh_token : bool) : stm (sys W) LiveOrderExecutionResult :=
  _ ← open_schema;
  control ← query get_runtime_control;
  let c := acknowledged_config websocket_acknowledged in
  let confirmed := String.eqb confirm "SUBMIT_KIS_ORDER" in
  if rc_paused control then refused symbol c true confirmed max_quantity
  else if negb confirmed then refused symbol c (rc_paused control) false max_quantity
  else
    e ← lift_res (parse_environment environment);
    material ← on_world (credentials h safe_load model_validate e);
    _ ← lift_res (assert_broker_order_allowed env);
    account ← lift_res (account_components material.2.1 material.2.2);
    auth ← on_world (ho_authenticate h e material.1 refresh_token);
    let client := make_client e material.1 (ar_access_token auth) account in
    _ ← open_schema;
    control ← query get_runtime_control;
    positions ← query (paper_positions sum_real group_row);
    report ← shadow_report symbol c (Some (mkPortfolioState fzero positions fzero 0 0 ∅));
    @submit_shadow_live_buy W CW (@client_submitter W (cycle_broker h "" client)) uuid_hex true report (rc_paused control) true max_quantity None.

(** [watchlist_add], [watchlist_remove] and [watchlist_list] *)
Fixpoint for_symbols (f : string -> stm (sys W) bool) (symbols : list string) : stm (sys W) unit :=
  match symbols with [] => mret tt | s :: l => _ ← f s; for_symbols f l end.

Definition watchlist_add (symbols : string) : stm (sys W) unit :=
  parsed ← lift_res (parse_symbols (Some symbols));
  _ ← open_schema;
  for_symbols (fun s => on_db (add_watchlist_symbol s true None)) parsed.

Definition watchlist_remove (symbols : string) : stm (sys W) unit :=
  parsed ← lift_res (parse_symbols (Some symbols));
  _ ← open_schema;
  for_symbols (fun s => on_db (fun _ => set_watchlist_enabled s false)) parsed.

Definition watchlist_list (all_symbols : bool) : stm (sys W) (list string) :=
  _ ← open_schema;
  query (list_watchlist_symbols (negb all_symbols)).

(** [runtime_control_set] *)
Definition runtime_control_set (paused : bool) (reason : string) : stm (sys W) RuntimeControl := set_paused paused reason "cli".

(** [_reconcile_broker_positions] *)
Definition reconcile_broker_positions (e : KisEnvironment) (refresh_token : bool) : stm (sys W) (bool * list string) :=
  material ← on_world (credentials h safe_load model_validate e);
  account ← lift_res (account_components material.2.1 material.2.2);
  auth ← on_world (ho_authenticate h e material.1 refresh_token);
  holdings ← on_world (KisQueries.get_positions (ho_get h) (make_client e material.1 (ar_access_token auth) account));
  _ ← open_schema;
  query (reconcile_positions holdings).

(** [run_user_test] and its exit code *)
Definition user_test_exit_code (collected : CollectorResult) (shadow : ShadowCycleReport) : Z :=
  let no_data := (cr_ticks_saved collected =? 0) && (cr_bars_saved collected =? 0) in
  if cr_subscribe_ack collected && negb no_data && (0 <? sh_bars_count shadow) && negb (sh_trading_blocked shadow) &&
     negb (sh_safe_mode shadow) && negb (mem_str (sh_health_status shadow) ["STALE"; "NO_DATA"])
  then 0 else 3.

Variable collector : stm (sys W) CollectorResult.
Definition run_user_test (symbol : string) (max_tick_age_seconds max_bar_age_seconds : float) : stm (sys W) (CollectorResult * ShadowCycleReport) :=
  collected ← collector;
  _ ← open_schema;
  shadow ← shadow_report symbol (mkShadowConfig default_risk_config 20 max_tick_age_seconds max_bar_age_seconds (cr_subscribe_ack collected)) None;
  mret (collected, shadow).
End Commands.

(** ** Lemmas *)

Lemma blocked_law {W} : SubmitterLaw W (SW := blocked_submitter) (fun _ _ => False).
Proof. intros r s. unfold submit_order_by, blocked_submitter, raise. split; [by left|]. by left. Qed.

Section Facts.
Context {W : Type} {CW : Clock W}.
Variables (h : host W) (float_sum sum_real : list float -> float) (group_row : paper_fill -> list paper_fill -> paper_fill).
Variables (safe_load : string -> res json) (model_validate : dict setting -> res AppConfig) (env : string -> option string) (uuid_hex : stm W string).

Lemma quiet_shadow_report symbol c portfolio : keeps same_trace (shadow_report (W := W) float_sum symbol c portfolio).
Proof.
  apply keeps_bind; [exact _|apply quiet_read_clock|]. intros clock. apply keeps_bind; [exact _|apply keeps_query, _|]. intros r. apply keeps_lift, _.
Qed.

Lemma refused_quiet symbol c paused confirmed n (s : sys W) : paused = true \/ confirmed = false ->
  s_trace (refused float_sum uuid_hex symbol c paused confirmed n s).2 = s_trace s.
Proof.
  intros Hr. apply (after_quiet _ _ s (s_trace s) (fun s' => s_trace s' = s_trace s)); [apply quiet_shadow_report|done|done|].
  intros report s1 _ T1.
  pose proof (live_run (SW := blocked_submitter) (SL := blocked_law) uuid_hex true report paused confirmed n None s1) as H.
  destruct (submit_shadow_live_buy _ _ _ _ _ _ _ s1) as [x s'].
  destruct H as [[H _]|[(q & p & d & s2 & a & _ & _ & _ & _ & _ & [] & _)|(q & s2 & e & _ & _ & _ & H)]]; cbn; congruence.
Qed.

(** What stands behind an order of the command *)
Record shadow_order (confirm : string) (n : Z) (d0 : db) (request : KisOrderRequest) : Prop := mkShadowOrder {
  so_confirmed : confirm = "SUBMIT_KIS_ORDER";
  so_running : rc_paused (get_runtime_control (init_schema d0)) = false;
  so_enabled : assert_broker_order_allowed env = Ok tt;
  so_buy : rq_side request = BUY;
  so_quantity : 0 < rq_quantity request <= n;
}.

(** Fact: the command sends at most one order, a BUY within the limit of the call, and
    only when it was confirmed, trading runs, and live trading is enabled. *)
Theorem shadow_order_behind_gates environment symbol n acknowledged confirm refresh (s : sys W) :
  let s' := (submit_live_shadow_order h float_sum sum_real group_row safe_load model_validate env uuid_hex environment symbol n acknowledged confirm refresh s).2 in
  s_trace s' = s_trace s \/ exists request d, s_trace s' = s_trace s ++ [(SubmitCall request, d)] /\
    shadow_order confirm n (s_db s) request.
Proof.
  cbv zeta. set (P := fun s' : sys W => s_trace s' = s_trace s \/ exists request d, s_trace s' = s_trace s ++ [(SubmitCall request, d)] /\
    shadow_order confirm n (s_db s) request). change (P (submit_live_shadow_order h float_sum sum_real group_row safe_load model_validate env uuid_hex environment symbol n acknowledged confirm refresh s).2).
  assert (HP : forall s', s_trace s' = s_trace s -> P s') by (by left). unfold submit_live_shadow_order.
  rewrite (stm_bind_run _ _ _ _ _ (open_schema_run s)). set (s1 := mkSys _ _ _). rewrite (stm_bind_run _ _ _ _ _ (eq_refl : query get_runtime_control s1 = (Ok _, s1))).
  cbv zeta. destruct (rc_paused _) eqn:Ep; [apply HP; rewrite refused_quiet; auto|].
  destruct (String.eqb_spec confirm "SUBMIT_KIS_ORDER") as [Hc|Hc]; cbn [negb]; [|apply HP; rewrite refused_quiet; auto].
  eapply after_quiet; [apply keeps_lift, _|exact (eq_refl (s_trace s))|exact HP|]. intros e s2 _ T2.
  eapply after_quiet; [apply quiet_on_world|exact T2|exact HP|]. intros material s3 _ T3.
  eapply after_quiet; [apply keeps_lift, _|exact T3|exact HP|]. intros [] s4 E4 T4. injection E4 as He _.
  eapply after_quiet; [apply keeps_lift, _|exact T4|exact HP|]. intros account s5 _ T5.
  eapply after_quiet; [apply quiet_on_world|exact T5|exact HP|]. intros auth s6 _ T6. cbv zeta.
  eapply after_quiet; [apply quiet_on_db|exact T6|exact HP|]. intros u s7 _ T7.
  eapply after_quiet; [apply keeps_query, _|exact T7|exact HP|]. intros control s8 _ T8.
  eapply after_quiet; [apply keeps_query, _|exact T8|exact HP|]. intros positions s9 _ T9.
  eapply after_quiet; [apply quiet_shadow_report|exact T9|exact HP|]. intros report s10 _ T10.
  set (client := make_client e material.1 (ar_access_token auth) account).
  pose proof (live_run (SW := @client_submitter W (cycle_broker h "" client)) (SL := @client_law W (cycle_broker h "" client))
    uuid_hex true report (rc_paused control) true n None s10) as H.
  destruct (submit_shadow_live_buy _ _ _ _ _ _ _ s10) as [x s'].
  destruct H as [[H _]|[(q & p & d & s11 & a & Hn & _ & _ & Hq & _ & _ & Ht & _)|(q & s11 & er & _ & _ & _ & H)]]; [apply HP; cbn; congruence| |apply HP; cbn; congruence].
  right. exists q, d. cbn [snd]. split; [by rewrite Ht, T10|]. unfold order_request in Hq. apply bind_Ok in Hq as (sd & Hsd & Hq).
  apply bind_Ok in Hq as (ty & _ & Hq). apply bind_Ok in Hq as ([] & _ & Hq). apply bind_Ok in Hq as ([] & Hz & Hq). apply raise_if_Ok in Hz.
  do 3 (apply bind_Ok in Hq as ([] & _ & Hq)). injection Hsd as <-. injection Hq as <-. split; [done..|]. cbn. lia.
Qed.

End Facts.

Section Watchlist.
Context {W : Type} {CW : Clock W}.

Lemma listed_iff d x : x ∈ list_watchlist_symbols true d <-> exists w, t_watchlist d !! x = Some w /\ wr_enabled w = true.
Proof.
  unfold list_watchlist_symbols. rewrite elem_of_sort_by, list_elem_of_In, in_map_iff. split.
  - intros ([k w] & <- & H). apply filter_In in H as [H Hw]. apply list_elem_of_In, elem_of_map_to_list in H. exists w. split; [exact H|exact Hw].
  - intros (w & H & Hw). exists (x, w). split; [done|]. apply filter_In. split; [|exact Hw]. by apply list_elem_of_In, elem_of_map_to_list.
Qed.

Lemma six_digits_valid x : is_six_digits x = true -> validate_symbol x = Ok tt.
Proof.
  unfold is_six_digits, validate_symbol. intros [Hd Hl]%andb_true_iff. rewrite Hd, Hl. cbn [negb orb raise_if].
  unfold isdigit in Hd. apply andb_true_iff in Hd as [Hne Hd]. assert (Hx : x <> "") by (by intros ->).
  unfold strip. rewrite lstrip_digit, rstrip_digits by done. apply negb_true_iff in Hne. destruct x; [done|]. reflexivity.
Qed.

(** The symbols an update of the watchlist leaves enabled *)
Lemma symbols_run (f : string -> stm (sys W) bool) (enable : bool) l (s : sys W) : forallb is_six_digits l = true ->
  (forall x s, is_six_digits x = true -> exists b s', f x s = (Ok b, s') /\ s_trace s' = s_trace s /\
     forall y, y ∈ list_watchlist_symbols true (s_db s') <-> (if enable then y = x \/ (y ∈ list_watchlist_symbols true (s_db s)) else y <> x /\ (y ∈ list_watchlist_symbols true (s_db s)))) ->
  exists s', for_symbols f l s = (Ok tt, s') /\ s_trace s' = s_trace s /\
    forall y, y ∈ list_watchlist_symbols true (s_db s') <-> (if enable then y ∈ l \/ y ∈ list_watchlist_symbols true (s_db s) else y ∉ l /\ y ∈ list_watchlist_symbols true (s_db s)).
Proof.
  intros Hl Hf. revert s. induction l as [|x l IH]; intros s.
  - exists s. split; [done|]. split; [done|]. intros y. pose proof (proj1 (elem_of_nil (A := string) y)). destruct enable; tauto.
  - cbn [forallb] in Hl. apply andb_true_iff in Hl as [Hx Hl]. destruct (Hf x s Hx) as (b & s1 & E & T & H1). cbn [for_symbols].
    rewrite (stm_bind_run _ _ _ _ _ E). destruct (IH Hl s1) as (s2 & E2 & T2 & H2). exists s2. split; [exact E2|]. split; [congruence|].
    intros y. specialize (H1 y). specialize (H2 y). destruct enable; rewrite ?elem_of_cons in *; naive_solver.
Qed.

Lemma parsed_six_digits text l : parse_symbols text = Ok l -> forallb is_six_digits l = true.
Proof.
  unfold parse_symbols. destruct text as [[|c t]|]; [by intros [= <-]| |by intros [= <-]].
  intros H. cbv zeta in H. apply bind_Ok in H as (u & Hu & H). apply raise_if_Ok, negb_false_iff in Hu. injection H as <-. exact Hu.
Qed.

Lemma add_run x (s : sys W) : is_six_digits x = true -> exists b s', on_db (add_watchlist_symbol x true None) s = (Ok b, s') /\ s_trace s' = s_trace s /\
  forall y, y ∈ list_watchlist_symbols true (s_db s') <-> y = x \/ (y ∈ list_watchlist_symbols true (s_db s)).
Proof.
  intros Hx. unfold on_db, add_watchlist_symbol. rewrite (six_digits_valid x Hx). destruct (wall_clock (s_world s)) as [now w]. cbn [mbind res_bind].
  assert (H : forall added y, y ∈ list_watchlist_symbols true (set_watchlist (<[x := mkWatch true added]>) (s_db s)) <-> y = x \/ y ∈ list_watchlist_symbols true (s_db s)).
  { intros added y. rewrite !listed_iff. cbn [set_watchlist t_watchlist]. destruct (decide (y = x)) as [->|Hy].
    - rewrite lookup_insert_eq. split; [by left|]. intros _. by eexists.
    - rewrite lookup_insert_ne by done. split; [by right|]. by intros [?|?]. }
  destruct (t_watchlist (s_db s) !! x); eexists _, _; (split; [reflexivity|]); (split; [reflexivity|]); apply H.
Qed.

Lemma remove_run x (s : sys W) : is_six_digits x = true -> exists b s', on_db (fun _ => set_watchlist_enabled x false) s = (Ok b, s') /\ s_trace s' = s_trace s /\
  forall y, y ∈ list_watchlist_symbols true (s_db s') <-> y <> x /\ y ∈ list_watchlist_symbols true (s_db s).
Proof.
  intros Hx. unfold on_db, set_watchlist_enabled. rewrite (six_digits_valid x Hx). destruct (wall_clock (s_world s)) as [now w]. cbn [mbind res_bind].
  destruct (t_watchlist (s_db s) !! x) as [wx|] eqn:E; eexists _, _; (split; [reflexivity|]); (split; [reflexivity|]); intros y; cbn [s_db].
  - rewrite !listed_iff. cbn [set_watchlist t_watchlist]. destruct (decide (y = x)) as [->|Hy].
    + rewrite lookup_insert_eq. split; [intros (w' & [= <-] & H); discriminate H|by intros [? _]].
    + rewrite lookup_insert_ne by done. split; [by split|by intros [_ ?]].
  - split; [|by intros [_ ?]]. intros H. split; [|exact H]. intros ->. apply listed_iff in H as (w' & H & _). congruence.
Qed.

(** Fact: the watchlist commands do what they say: after adding, the enabled symbols
    are those there were and those added; after removing, those there were without
    the removed; a text with anything but six-digit symbols changes nothing. *)
Theorem watchlist_commands text (s : sys W) : match parse_symbols (Some text) with
  | Err e => watchlist_add text s = (Err e, s) /\ watchlist_remove text s = (Err e, s)
  | Ok l => exists s1 s2, watchlist_add text s = (Ok tt, s1) /\ watchlist_remove text s = (Ok tt, s2) /\
      forall y, (y ∈ list_watchlist_symbols true (s_db s1) <-> y ∈ l \/ y ∈ list_watchlist_symbols true (s_db s)) /\
                (y ∈ list_watchlist_symbols true (s_db s2) <-> y ∉ l /\ y ∈ list_watchlist_symbols true (s_db s))
  end.
Proof.
  unfold watchlist_add, watchlist_remove. destruct (parse_symbols (Some text)) as [l|e] eqn:El; [|by split].
  pose proof (parsed_six_digits _ _ El) as Hl. rewrite !(stm_bind_run _ _ _ _ _ (eq_refl : lift_res (Ok l) s = (Ok l, s))).
  rewrite !(stm_bind_run _ _ _ _ _ (open_schema_run s)). set (s0 := mkSys _ _ _).
  destruct (symbols_run _ true l s0 Hl (fun x s' => add_run x s')) as (s1 & E1 & _ & H1).
  destruct (symbols_run _ false l s0 Hl (fun x s' => remove_run x s')) as (s2 & E2 & _ & H2).
  exists s1, s2. split; [exact E1|]. split; [exact E2|]. intros y. split; [apply H1|apply H2].
Qed.
End Watchlist.

(** ** Witnesses *)

(** The bars of [Shadow]'s witnesses in the database of a running service in the
    demo environment, a minute after the last of them. *)
#[local] Instance w_command_clock : Clock unit := fun u => (Datetime (w_start + 21 * us_per_minute) (Some KST), u).
Definition w_command_db : db := Eval vm_compute in w_unpaused (foldr w_saved (init_schema empty_db) w_bars).
Definition w_command_host : host unit := {|
  ho_config_text := mret "";
  ho_environment := mret [("KIS_REAL_APP_KEY", "k"); ("KIS_REAL_APP_SECRET", "s"); ("KIS_REAL_ACCOUNT_NO", "12345678-01");
                          ("KIS_DEMO_APP_KEY", "k"); ("KIS_DEMO_APP_SECRET", "s"); ("KIS_DEMO_ACCOUNT_NO", "12345678-01")];
  ho_authenticate _ _ _ := mret (mkAuthResult "token" "approval" true);
  ho_get q := mret (w_answers q);
  ho_post q := mret (w_answers q);
  ho_socket := ho_socket w_host;
  ho_monotonic := mret fzero;
  ho_sleeper _ := mret tt;
  ho_random := mret fzero;
  ho_fresh u := ("1", u);
  ho_openai := ho_openai w_host;
  ho_notifier := ho_notifier w_host;
|}.
Definition w_command (environment confirm : string) : res LiveOrderExecutionResult * sys unit :=
  submit_live_shadow_order w_command_host w_sum w_sum w_group (fun _ => Ok JNull) w_validate w_trade_env w_uuid environment "005930" 1 true confirm false
    (mkSys w_command_db tt []).
Definition w_submitted := Eval vm_compute in w_command "demo" "SUBMIT_KIS_ORDER".

Lemma shadow_order_behind_gates_witness : (map fst (s_trace w_submitted.2)) = [SubmitCall w_order] /\
  exists request, rq_side request = BUY /\ 0 < rq_quantity request <= 1 /\ rc_paused (get_runtime_control (init_schema w_command_db)) = false.
Proof.
  split; [vm_compute; reflexivity|].
  pose proof (shadow_order_behind_gates w_command_host w_sum w_sum w_group (fun _ => Ok JNull) w_validate w_trade_env w_uuid "demo" "005930" 1 true
    "SUBMIT_KIS_ORDER" false (mkSys w_command_db tt [])) as H. cbv zeta in H.
  assert (E : submit_live_shadow_order w_command_host w_sum w_sum w_group (fun _ => Ok JNull) w_validate w_trade_env w_uuid "demo" "005930" 1 true
    "SUBMIT_KIS_ORDER" false (mkSys w_command_db tt []) = w_submitted) by (vm_compute; reflexivity). rewrite E in H.
  destruct H as [H|(request & d & H & Hs)]; [discriminate H|]. exists request. split; [exact (so_buy _ _ _ _ _ Hs)|].
  split; [exact (so_quantity _ _ _ _ _ Hs)|exact (so_running _ _ _ _ _ Hs)].
Defined.

(** Fact: while the runtime control names the demo environment, the command sends the
    order to the real account that its argument names. *)
Example shadow_order_ignores_runtime_environment :
  rc_environment (get_runtime_control w_command_db) = "demo" /\ map fst (s_trace (w_command "real" "SUBMIT_KIS_ORDER").2) = [SubmitCall w_order].
Proof. split; vm_compute; reflexivity. Qed.

Lemma watchlist_commands_witness : exists s1 s2, watchlist_add "005930;000660" (mkSys empty_db tt []) = (Ok tt, s1) /\
  watchlist_remove "005930;000660" (mkSys empty_db tt []) = (Ok tt, s2) /\ ("000660" ∈ list_watchlist_symbols true (s_db s1)).
Proof.
  pose proof (watchlist_commands "005930;000660" (mkSys empty_db tt [])) as H.
  assert (E : parse_symbols (Some "005930;000660") = Ok ["005930"; "000660"]) by (vm_compute; reflexivity). rewrite E in H.
  destruct H as (s1 & s2 & H1 & H2 & H). exists s1, s2. split; [exact H1|]. split; [exact H2|].
  apply (proj1 (H "000660")). left. apply list_elem_of_further, list_elem_of_here.
Defined.
