(* ===== verification/PaperReport.v ===== *)
(** * The report of the paper journal ([paper/report.py])

    The fills of the local journal, replayed in the order of their times, give the
    open positions at their weighted average cost, the value bought and the
    realized profit and loss. *)

From S2P Require Import Prelude PyStr PyFloat PyTime PyDict Risk DbCore DbPaper.

Record PaperPositionReport := mkPaperPosition {
  pp_symbol : string;
  pp_quantity : Z;
  pp_average_cost : float;
}.

Record PaperReport := mkPaperReport {
  pt_total_paper_orders : Z;
  pt_total_paper_fills : Z;
  pt_open_positions : list PaperPositionReport;
  pt_gross_buy_value : float;
  pt_realized_pnl : float;
  pt_symbols : list string;
  pt_first_fill_timestamp : option string;
  pt_last_fill_timestamp : option string;
}.

(** [PaperReport.empty] *)
Definition report_is_empty (r : PaperReport) : bool := (pt_total_paper_orders r =? 0) && (pt_total_paper_fills r =? 0).

(** [_Inventory] and its [average_cost] *)
Record paper_inventory := mkInventory { iv_quantity : Z; iv_cost : float }.
Definition no_inventory : paper_inventory := mkInventory 0 fzero.
Definition average_cost (i : paper_inventory) : res float :=
  if iv_quantity i =? 0 then Ok fzero else q ← float_of_int (iv_quantity i); fdiv (iv_cost i) q.

(** The variables of the replay *)
Record replay := mkReplay { rp_inventory : dict paper_inventory; rp_realized : float; rp_gross : float }.

(** One fill *)
Definition replay_fill (s : replay) (row : paper_fill) : res replay :=
  let symbol := pf_symbol row in
  let side := upper (pf_side row) in
  let quantity := pf_quantity row in
  let position := or_else (dget symbol (rp_inventory s)) no_inventory in
  let keep i := dset symbol i (rp_inventory s) in
  if String.eqb side "BUY" then
    value ← fmul_Z quantity (pf_price row);
    Ok (mkReplay (keep (mkInventory (iv_quantity position + quantity) (iv_cost position + value)%F)) (rp_realized s) (rp_gross s + value)%F)
  else if String.eqb side "SELL" then
    _ ← raise_if (iv_quantity position <? quantity) (ValueError ("paper sell exceeds long position for " +:+ symbol));
    average ← average_cost position;
    gain ← fmul_Z quantity (pf_price row - average)%F;
    sold ← fmul_Z quantity average;
    Ok (mkReplay (keep (mkInventory (iv_quantity position - quantity) (iv_cost position - sold)%F)) (rp_realized s + gain)%F (rp_gross s))
  else Ok (mkReplay (keep position) (rp_realized s) (rp_gross s)).

Fixpoint replay_fills (s : replay) (rows : list paper_fill) : res replay :=
  match rows with [] => Ok s | row :: rows => s ← replay_fill s row; replay_fills s rows end.

(** The order of the replay: by time, then by fill *)
Definition fill_leb (a b : paper_fill) : bool :=
  if String.eqb (pf_filled_at a) (pf_filled_at b) then text_leb (pf_fill_id a) (pf_fill_id b) else text_leb (pf_filled_at a) (pf_filled_at b).

Fixpoint position_reports (l : list (string * paper_inventory)) : res (list PaperPositionReport) :=
  match l with
  | [] => Ok []
  | (symbol, i) :: l =>
      if 0 <? iv_quantity i then
        average ← average_cost i;
        rest ← position_reports l;
        Ok (mkPaperPosition symbol (iv_quantity i) average :: rest)
      else position_reports l
  end.

(** [min] and [max] of texts *)
Definition least (l : list string) : option string :=
  match l with [] => None | x :: l => Some (fold_left (fun a b => if text_ltb b a then b else a) l x) end.
Definition greatest (l : list string) : option string :=
  match l with [] => None | x :: l => Some (fold_left (fun a b => if text_ltb a b then b else a) l x) end.

(** [build_paper_report] *)
Definition build_paper_report (orders : list paper_order) (fills : list paper_fill) : res PaperReport :=
  let rows := sort_by fill_leb fills in
  s ← replay_fills (mkReplay [] fzero fzero) rows;
  positions ← position_reports (sort_by (fun a b => text_leb a.1 b.1) (rp_inventory s));
  let timestamps := map pf_filled_at rows in
  Ok (mkPaperReport (len orders) (len rows) positions (rp_gross s) (rp_realized s)
        (sort_by text_leb (dedup [] (map pf_symbol rows))) (least timestamps) (greatest timestamps)).

(** [report_from_database] *)
Definition report_from_database (symbol : option string) (d : db) : res PaperReport :=
  build_paper_report (list_paper_orders symbol d) (list_paper_fills symbol d).

(** ** Lemmas *)

(** The shares of a symbol in the replay *)
Definition shares (symbol : string) (s : replay) : Z := iv_quantity (or_else (dget symbol (rp_inventory s)) no_inventory).

Definition known_side (f : paper_fill) : Prop := pf_side f = "BUY" \/ pf_side f = "SELL".
Definition signed_of (symbol : string) (f : paper_fill) : Z := if String.eqb (pf_symbol f) symbol then signed_quantity f else 0.

Lemma replay_fill_shares s row s' symbol : known_side row -> replay_fill s row = Ok s' -> shares symbol s' = shares symbol s + signed_of symbol row.
Proof.
  intros Hside H. unfold replay_fill in H. cbv zeta in H. unfold signed_of, signed_quantity, is_buy.
  assert (Hset : forall i r g, shares symbol (mkReplay (dset (pf_symbol row) i (rp_inventory s)) r g) =
    if decide (pf_symbol row = symbol) then iv_quantity i else shares symbol s).
  { intros i r g. unfold shares. cbn [rp_inventory]. rewrite dget_dset. by destruct (decide (pf_symbol row = symbol)). }
  destruct Hside as [E|E]; rewrite E in H |- *; cbn [upper smap ascii_upper String.eqb] in H.
  - change (upper "BUY") with "BUY" in H. cbn in H. apply bind_Ok in H as (v & _ & H). injection H as <-. rewrite Hset.
    destruct (String.eqb_spec (pf_symbol row) symbol) as [<-|Hn]; [rewrite decide_True by done|rewrite decide_False by done; lia].
    reflexivity.
  - change (upper "SELL") with "SELL" in H. cbn in H. apply bind_Ok in H as ([] & _ & H). apply bind_Ok in H as (a & _ & H).
    apply bind_Ok in H as (g & _ & H). apply bind_Ok in H as (c & _ & H). injection H as <-. rewrite Hset.
    destruct (String.eqb_spec (pf_symbol row) symbol) as [<-|Hn]; [rewrite decide_True by done|rewrite decide_False by done; lia].
    cbn [iv_quantity]. unfold shares. cbn. lia.
Qed.

Lemma replay_fill_keys s row s' : replay_fill s row = Ok s' -> NoDup (dkeys (rp_inventory s)) -> NoDup (dkeys (rp_inventory s')).
Proof.
  intros H Hn. unfold replay_fill in H. cbv zeta in H. destruct (String.eqb _ _).
  - apply bind_Ok in H as (v & _ & H). injection H as <-. by apply dset_NoDup.
  - destruct (String.eqb _ _); [|injection H as <-; by apply dset_NoDup]. do 4 (apply bind_Ok in H as (? & _ & H)). injection H as <-. by apply dset_NoDup.
Qed.

Lemma replay_fills_shares rows : forall s s' symbol, Forall known_side rows -> replay_fills s rows = Ok s' -> NoDup (dkeys (rp_inventory s)) ->
  shares symbol s' = shares symbol s + sum_by (signed_of symbol) rows /\ NoDup (dkeys (rp_inventory s')).
Proof.
  induction rows as [|row rows IH]; intros s s' symbol Hs H Hn; [injection H as <-; cbn; split; [lia|done]|].
  apply list.Forall_cons in Hs as [Hr Hs]. cbn [replay_fills] in H. apply bind_Ok in H as (s1 & H1 & H).
  destruct (IH s1 s' symbol Hs H (replay_fill_keys _ _ _ H1 Hn)) as [E Hk]. split; [|done]. rewrite E, (replay_fill_shares _ _ _ symbol Hr H1). cbn. lia.
Qed.

Lemma position_reports_elem l ps p : position_reports l = Ok ps -> NoDup (map fst l) ->
  (exists a, mkPaperPosition (pp_symbol p) (pp_quantity p) a ∈ ps) <-> 0 < pp_quantity p /\ exists i, (pp_symbol p, i) ∈ l /\ iv_quantity i = pp_quantity p.
Proof.
  revert ps. induction l as [|[s i] l IH]; intros ps H Hn.
  - injection H as <-. split; [intros [a Ha]; by apply elem_of_nil in Ha|intros [_ (i & Hi & _)]; by apply elem_of_nil in Hi].
  - cbn [position_reports] in H. cbn [map] in Hn. apply list.NoDup_cons in Hn as [_ Hn]. destruct (Z.ltb_spec 0 (iv_quantity i)) as [Hq|Hq].
    + apply bind_Ok in H as (a & _ & H). apply bind_Ok in H as (rest & Hr & H). injection H as <-. specialize (IH rest Hr Hn). split.
      * intros [b Hb]. apply elem_of_cons in Hb as [Hb|Hb].
        { injection Hb as -> -> _. split; [done|]. exists i. split; [apply list_elem_of_here|done]. }
        destruct (proj1 IH (ex_intro _ b Hb)) as [H1 (j & Hj & H2)]. split; [done|]. exists j. split; [by apply list_elem_of_further|done].
      * intros [H1 (j & Hj & H2)]. apply elem_of_cons in Hj as [Hj|Hj].
        { injection Hj as -> ->. exists a. rewrite H2. apply list_elem_of_here. }
        destruct (proj2 IH (conj H1 (ex_intro _ j (conj Hj H2)))) as [b Hb]. exists b. by apply list_elem_of_further.
    + specialize (IH ps H Hn). rewrite IH. split; intros [H1 (j & Hj & H2)]; (split; [done|]); exists j; (split; [|done]).
      * by apply list_elem_of_further.
      * apply elem_of_cons in Hj as [Hj|Hj]; [|done]. injection Hj as -> ->. lia.
Qed.

(** The journal's net quantity is the sum over the replayed fills. *)
Lemma journal_sum symbol d : journal_quantity symbol d = sum_by (signed_of symbol) (sort_by fill_leb (list_paper_fills None d)).
Proof.
  unfold journal_quantity, list_paper_fills, rows_by. rewrite (sum_by_perm _ _ _ (sort_by_perm fill_leb _)), map_sum_list.
  assert (Hf : forall l : list paper_fill, List.filter (fun _ => true) l = l) by (induction l as [|x l IH]; [done|]; cbn; by rewrite IH).
  rewrite Hf, (sum_by_perm _ _ _ (sort_by_perm _ _)). reflexivity.
Qed.

(** Fact: the open positions of the report are exactly the symbols the journal holds
    shares of, each with the journal's net quantity. *)
Theorem report_shows_journal d r p : (forall k f, t_paper_fills d !! k = Some f -> known_side f) -> report_from_database None d = Ok r ->
  (exists a, mkPaperPosition (pp_symbol p) (pp_quantity p) a ∈ pt_open_positions r) <->
  0 < pp_quantity p /\ journal_quantity (pp_symbol p) d = pp_quantity p.
Proof.
  intros Hside H. unfold report_from_database, build_paper_report in H. cbv zeta in H. apply bind_Ok in H as (s & Hs & H).
  apply bind_Ok in H as (ps & Hp & H). injection H as <-. cbn [pt_open_positions].
  assert (Hall : Forall known_side (sort_by fill_leb (list_paper_fills None d))).
  { apply list.Forall_forall. intros f Hf. rewrite elem_of_sort_by in Hf. unfold list_paper_fills in Hf.
    apply list_elem_of_In, filter_In in Hf as [Hf _]. apply list_elem_of_In in Hf. unfold rows_by in Hf. rewrite elem_of_sort_by in Hf.
    apply list_elem_of_fmap in Hf as ([k v] & -> & Hf%elem_of_map_to_list). by eapply Hside. }
  destruct (replay_fills_shares _ _ _ (pp_symbol p) Hall Hs ltac:(constructor)) as [Hq Hn]. cbn in Hq. rewrite <- journal_sum, Z.add_0_l in Hq.
  assert (Hperm : map fst (sort_by (fun a b : string * paper_inventory => text_leb a.1 b.1) (rp_inventory s)) ≡ₚ dkeys (rp_inventory s))
    by (apply Permutation_map, sort_by_perm).
  rewrite (position_reports_elem _ _ p Hp) by (by rewrite Hperm).
  rewrite <- Hq. split; intros [H1 H2]; (split; [done|]).
  - destruct H2 as (i & Hi & H2). rewrite elem_of_sort_by in Hi. unfold shares. cbn.
    assert (Hg : dget (pp_symbol p) (rp_inventory s) = Some i).
    { clear - Hi Hn. induction (rp_inventory s) as [|[k v] l IH]; [by apply elem_of_nil in Hi|]. cbn [dget]. cbn [dkeys map] in Hn.
      apply list.NoDup_cons in Hn as [Hk Hn]. apply elem_of_cons in Hi as [Hi|Hi]; [injection Hi as <- <-; by rewrite String.eqb_refl|].
      destruct (String.eqb_spec k (pp_symbol p)) as [->|]; [|by apply IH]. exfalso. apply Hk. apply list_elem_of_fmap. by exists (pp_symbol p, i). }
    by rewrite Hg.
  - unfold shares in H2. cbn in H2. destruct (dget (pp_symbol p) (rp_inventory s)) as [i|] eqn:E; [|cbn in H2; lia].
    exists i. split; [|exact H2]. rewrite elem_of_sort_by. by apply dget_In.
Qed.

(** ** Witnesses *)

(** Five shares bought, two of them sold: the side of the journal's writes is BUY
    or SELL. *)
Definition w_reported : db := Eval vm_compute in
  let buy := record_paper_buy "o1" "f1" "s1" "005930" 5 (f_of_Z 70000) None w_clock empty_db in
  match (b ← buy; record_paper_sell (foldl fadd fzero) (fun f _ => f) "o2" "f2" "s2" "005930" 2 (f_of_Z 71000) None (dt_add w_clock 1000000) b.2) with
  | Ok (_, d) => d
  | Err _ => empty_db
  end.

Lemma w_reported_sides k f : t_paper_fills w_reported !! k = Some f -> known_side f.
Proof.
  intros H. apply elem_of_map_to_list in H.
  assert (E : map (fun kv => pf_side kv.2) (map_to_list (t_paper_fills w_reported)) ⊆ ["BUY"; "SELL"]) by (apply (bool_decide_unpack _); vm_compute; exact I).
  assert (Hs : pf_side f ∈ ["BUY"; "SELL"]) by (apply E, list_elem_of_fmap; by exists (k, f)).
  apply elem_of_cons in Hs as [Hs|Hs]; [by left|]. apply list_elem_of_singleton in Hs. by right.
Qed.

Lemma report_shows_journal_witness : exists r, report_from_database None w_reported = Ok r /\ journal_quantity "005930" w_reported = 3 /\
  exists a, mkPaperPosition "005930" 3 a ∈ pt_open_positions r.
Proof.
  assert (Hok : is_ok (report_from_database None w_reported) = true) by (vm_compute; reflexivity).
  destruct (report_from_database None w_reported) as [r|e] eqn:E; [|discriminate Hok]. exists r. split; [reflexivity|].
  assert (Hq : journal_quantity "005930" w_reported = 3) by (vm_compute; reflexivity). split; [exact Hq|].
  apply (proj2 (report_shows_journal w_reported r (mkPaperPosition "005930" 3 fzero) w_reported_sides E)). split; [reflexivity|exact Hq].
Defined.
