(* ===== verification/Healthcheck.v ===== *)
(** * The container's health check ([ops/healthcheck.py])

    The orchestrator restarts the container when the heartbeat the service stores
    in the database is missing, unreadable, ahead of the clock or too old. *)

From Stdlib Require Import Floats.SpecFloat.
From S2P Require Import Prelude PyStr PyFloat PyTime IsoText PyDecimal PyFormat Risk DbCore DbOrders DbRuntime DbMarket.

Definition DEFAULT_COMPONENT : string := "trading-service".
Definition DEFAULT_MAX_AGE_SECONDS : float := f_of_Z 180.

(** [f"{x:.1f}"] *)
Definition format_1f (x : float) : string :=
  match x with
  | S754_nan => "nan"
  | S754_infinity s => if s then "-inf" else "inf"
  | S754_zero s => (if s then "-" else "") +:+ "0.0"
  | S754_finite s _ _ =>
      let '(num, den) := f_fraction x in
      (if s then "-" else "") +:+ fixed_text 1 (half_even (num * 10) den)
  end.

(** [_parse_timestamp], and an instant in microseconds *)
Definition parse_heartbeat (value : string) : res Z := d ← fromisoformat (strip value); Ok (instant d).

(** [(current - heartbeat_at).total_seconds()] *)
Definition heartbeat_age (current : datetime) (heartbeat_at : Z) : float := f_ratio (instant current - heartbeat_at) 1000000.

(** The age of a heartbeat, judged *)
Definition judge_age (component : string) (max_age_seconds age : float) : bool * string :=
  if (age <? fzero)%F then (false, "heartbeat is in the future: " +:+ component)
  else if (max_age_seconds <? age)%F then (false, "stale heartbeat: " +:+ component +:+ " age=" +:+ format_1f age +:+ "s")
  else (true, "healthy: " +:+ component +:+ " age=" +:+ format_1f age +:+ "s").

(** [check_heartbeat] at an aware [now] *)
Definition check_heartbeat (component : string) (max_age_seconds : float) (current : datetime) (d : db) : bool * string :=
  if sempty (strip component) then (false, "invalid component")
  else if negb (isfinite max_age_seconds) || (max_age_seconds <? fzero)%F then (false, "invalid max age")
  else
    match get_heartbeat component d with
    | Err e => (false, "heartbeat check failed: " +:+ exn_name e)
    | Ok None => (false, "missing heartbeat: " +:+ component)
    | Ok (Some heartbeat) =>
        if sempty (strip heartbeat) then (false, "missing heartbeat: " +:+ component)
        else match parse_heartbeat heartbeat with
             | Err e => (false, "heartbeat check failed: " +:+ exn_name e)
             | Ok heartbeat_at => judge_age component max_age_seconds (heartbeat_age current heartbeat_at)
             end
    end.

(** [main]: the exit code *)
Definition health_exit_code (r : bool * string) : Z := if r.1 then 0 else 1.

(** ** Lemmas *)

Lemma judge_healthy component limit age : (judge_age component limit age).1 = true <-> (age <? fzero)%F = false /\ (limit <? age)%F = false.
Proof. unfold judge_age. destruct (age <? fzero)%F, (limit <? age)%F; cbn; intuition congruence. Qed.

Lemma get_heartbeat_metadata component d : sempty (strip component) = false -> get_heartbeat component d = Ok (get_metadata ("heartbeat:" +:+ component) d).
Proof.
  intros Hc. unfold get_heartbeat, get_runtime_metadata, require_nonempty. rewrite Hc. cbn [raise_if mbind res_bind].
  assert (Hk : sempty (strip ("heartbeat:" +:+ component)) = false); [|by rewrite Hk].
  apply (strip_head "h"). reflexivity.
Qed.

Definition no_space (c : ascii) : bool := negb (is_space c).

Lemma strip_no_space s : sforall no_space s = true -> strip s = s.
Proof.
  intros Hs. unfold strip. assert (Hl : lstrip_by is_space s = s).
  { destruct s as [|c s]; [done|]. cbn [sforall] in Hs. apply andb_true_iff in Hs as [Hc _]. cbn [lstrip_by].
    unfold no_space in Hc. apply negb_true_iff in Hc. by rewrite Hc. }
  rewrite Hl. clear Hl. induction s as [|c s IH]; [done|]. cbn [sforall] in Hs. apply andb_true_iff in Hs as [Hc Hs].
  cbn [rstrip_by]. rewrite (IH Hs). unfold no_space in Hc. apply negb_true_iff in Hc. rewrite Hc. by destruct s.
Qed.

Lemma sforall_append p s t : sforall p (s +:+ t) = sforall p s && sforall p t.
Proof. induction s as [|c s IH]; [done|]. change (String c s +:+ t) with (String c (s +:+ t)). cbn [sforall]. by rewrite IH, andb_assoc. Qed.

Lemma pad_no_space w : forall n, sforall no_space (pad_digits w n) = true.
Proof.
  induction w as [|w IH]; intros n; [done|]. cbn [pad_digits]. rewrite sforall_append, IH. cbn [sforall andb]. rewrite andb_true_r.
  pose proof (code_digit n) as Hc. unfold digit_char in Hc. unfold no_space, is_space. rewrite Hc. pose proof (Z.mod_pos_bound n 10). lia.
Qed.

Lemma iso_no_space d : sforall no_space (isoformat d) = true.
Proof.
  unfold isoformat, iso_date, iso_time_seconds, iso_micro, iso_offset. destruct (civil_of_days _) as [[y m] dd].
  rewrite !sforall_append, !pad_no_space. destruct (_ =? 0); destruct (dt_tz d) as [off|]; rewrite ?sforall_append, ?pad_no_space; try done; by destruct (off <? 0).
Qed.

(** ** Properties *)

(** Fact: the check says healthy exactly for a named component whose stored heartbeat
    can be read, is not ahead of the clock and is no older than the limit. *)
Theorem healthy_iff component limit now d : (check_heartbeat component limit now d).1 = true <->
  sempty (strip component) = false /\ isfinite limit = true /\ (limit <? fzero)%F = false /\
  exists text at_, get_metadata ("heartbeat:" +:+ component) d = Some text /\ sempty (strip text) = false /\ parse_heartbeat text = Ok at_ /\
    (heartbeat_age now at_ <? fzero)%F = false /\ (limit <? heartbeat_age now at_)%F = false.
Proof.
  unfold check_heartbeat. destruct (sempty (strip component)) eqn:Ec; [split; [done|by intros [? _]]|].
  destruct (isfinite limit) eqn:Ef; cbn [negb orb]; [|split; [done|by intros (_ & ? & _)]].
  destruct (limit <? fzero)%F eqn:El; [split; [done|by intros (_ & _ & ? & _)]|].
  rewrite get_heartbeat_metadata by done. destruct (get_metadata _ d) as [text|]; [|split; [done|by intros (_ & _ & _ & t & a & ? & _)]].
  destruct (sempty (strip text)) eqn:Et; [split; [done|by intros (_ & _ & _ & t & a & [= <-] & ? & _); congruence]|].
  destruct (parse_heartbeat text) as [at_|e] eqn:Ep; [|split; [done|intros (_ & _ & _ & t & a & [= <-] & _ & H & _); congruence]].
  rewrite judge_healthy. split; [intros [H1 H2]; split_and!; [done..|by exists text, at_]|].
  intros (_ & _ & _ & t & a & [= <-] & _ & H & H1 & H2). rewrite Ep in H. injection H as <-. by split.
Qed.

(** Fact: right after a heartbeat was recorded, the health of the component is decided
    by its age alone: healthy while it is between zero and the limit. *)
Theorem recorded_heartbeat_judged_by_age component at_ clock d x d' limit now :
  record_heartbeat component (Some at_) clock d = Ok (x, d') -> valid_dt at_ -> isfinite limit = true -> (limit <? fzero)%F = false ->
  (check_heartbeat component limit now d').1 = true <->
    (heartbeat_age now (instant at_) <? fzero)%F = false /\ (limit <? heartbeat_age now (instant at_))%F = false.
Proof.
  intros H Hv Hf Hl. unfold record_heartbeat in H. apply bind_Ok in H as ([] & Hc & H). apply raise_if_Ok in Hc.
  unfold set_heartbeat in H. apply bind_Ok in H as ([ts d1] & H1 & H). injection H as _ <-.
  unfold set_runtime_metadata in H1. apply bind_Ok in H1 as ([] & _ & H1). injection H1 as _ <-. cbn [or_else].
  unfold check_heartbeat. rewrite Hc, Hf, Hl. cbn [negb orb]. rewrite get_heartbeat_metadata by done. rewrite metadata_put_get.
  unfold iso. rewrite strip_no_space by apply iso_no_space. unfold parse_heartbeat. rewrite strip_no_space by apply iso_no_space.
  pose proof (fromisoformat_iso at_ Hv) as Hi. unfold iso in Hi. rewrite Hi. cbn [mbind res_bind].
  assert (Hne : sempty (isoformat at_) = false); [|rewrite Hne; apply judge_healthy].
  destruct (isoformat at_); [discriminate Hi|done].
Qed.

(** ** Witnesses *)

Definition w_beat : datetime := Datetime 1700042430000000 (Some KST).
Definition w_beating : db := Eval vm_compute in match record_heartbeat "trading-service" (Some w_beat) w_beat empty_db with Ok (_, d) => d | Err _ => empty_db end.

Lemma recorded_heartbeat_judged_by_age_witness :
  (check_heartbeat "trading-service" DEFAULT_MAX_AGE_SECONDS (dt_add w_beat 180000000) w_beating).1 = true.
Proof.
  assert (E : exists x, record_heartbeat "trading-service" (Some w_beat) w_beat empty_db = Ok (x, w_beating)) by (eexists; vm_compute; reflexivity).
  destruct E as [x E].
  apply (proj2 (recorded_heartbeat_judged_by_age "trading-service" w_beat w_beat empty_db x w_beating DEFAULT_MAX_AGE_SECONDS (dt_add w_beat 180000000)
    E ltac:(split; [split; vm_compute; congruence|vm_compute; reflexivity]) ltac:(vm_compute; reflexivity) ltac:(vm_compute; reflexivity))).
  split; vm_compute; reflexivity.
Defined.
