(* ===== verification/OpenaiUsage.v ===== *)
(** * The cost report of the OpenAI organization ([ops/openai_usage.py])

    The administrator's key, from the environment or the [.env] file, the request
    for the cost of the last days, and the summary the operator reads.  The HTTP
    session is a parameter: what one request answers. *)

From Stdlib Require Import Floats.SpecFloat.
From S2P Require Import Prelude PyStr PyFloat PyTime PyDecimal PyFormat PyDict PyJson DbCore DbOrders DbRuntime KisHttp System Config AiDecision.

Record OpenAICostSummary := mkCost {
  oc_available : bool;
  oc_total : float;
  oc_currency : string;
  oc_days : Z;
  oc_reason : string;
}.

(** [f"{x:.4f}"] *)
Definition format_4f (x : float) : string :=
  match x with
  | S754_nan => "nan"
  | S754_infinity s => if s then "-inf" else "inf"
  | S754_zero s => (if s then "-" else "") +:+ "0.0000"
  | S754_finite s _ _ =>
      let '(num, den) := f_fraction x in
      (if s then "-" else "") +:+ fixed_text 4 (half_even (num * 10000) den)
  end.

(** [OpenAICostSummary.text] *)
Definition cost_summary_text (c : OpenAICostSummary) : string :=
  if negb (oc_available c) then "openai cost: unavailable (" +:+ oc_reason c +:+ ")"
  else "openai cost: " +:+ format_4f (oc_total c) +:+ " " +:+ upper (oc_currency c) +:+ " last_" +:+ str_int (oc_days c) +:+ "d".

(** ** The key *)

(** A line of the [.env] file that settles [name]: its value, [Some None] when it
    is empty. *)
Definition dotenv_line (name raw_line : string) : option (option string) :=
  let line := strip raw_line in
  if sempty line || startswith "#" line then None
  else
    match split_once "=" line with
    | None => None
    | Some (key, candidate) =>
        if String.eqb (strip key) name then
          let candidate := strip_char apostrophe (strip_char quote (strip candidate)) in
          Some (if sempty candidate then None else Some candidate)
        else None
    end.

Fixpoint dotenv_lookup (name : string) (lines : list string) : option string :=
  match lines with
  | [] => None
  | line :: lines => match dotenv_line name line with Some v => v | None => dotenv_lookup name lines end
  end.

(** [env_value_optional]: the environment, then the [.env] file when there is one *)
Definition env_value_optional (getenv : string -> option string) (dotenv : option string) (name : string) : option string :=
  match getenv name with
  | Some (String c v) => Some (String c v)
  | _ => match dotenv with Some text => dotenv_lookup name (splitlines text) | None => None end
  end.

(** The administrator's key *)
Definition usage_key (getenv : string -> option string) (dotenv : option string) : option string :=
  match env_value_optional getenv dotenv "OPENAI_ADMIN_KEY" with
  | Some k => Some k
  | None => env_value_optional getenv dotenv "OPENAI_USAGE_API_KEY"
  end.

(** ** The answer *)

(** The items a [for] loop visits *)
Definition iterate (v : json) : res (list json) :=
  match v with
  | JList l => Ok l
  | JObj o => Ok (map (fun kv => JStr kv.1) o)
  | JStr s => Ok (map (fun p => JStr (utf8 p)) (code_points s))
  | _ => Err (TypeError "object is not iterable")
  end.

(** [v.get(key, default)] *)
Definition get_default (key : string) (default v : json) : res json :=
  match v with JObj o => Ok (or_else (dget key o) default) | _ => Err no_attribute end.

(** A [for] loop that adds up, and stops at an exception *)
Fixpoint add_all {A B} (f : B -> A -> res B) (acc : B) (l : list A) : res B :=
  match l with [] => Ok acc | x :: l => acc ← f acc x; add_all f acc l end.

(** One item of a bucket *)
Definition add_item (acc : float * string) (item : json) : res (float * string) :=
  amount ← get_default "amount" JNull item;
  let amount := if truthy amount then amount else JObj [] in
  value ← get_default "value" JNull amount;
  value ← json_float (if truthy value then value else JInt 0);
  currency ← get_default "currency" JNull amount;
  Ok ((acc.1 + value)%F, if truthy currency then py_str currency else acc.2).

Definition add_bucket (acc : float * string) (bucket : json) : res (float * string) :=
  old ← get_default "result" (JList []) bucket;
  results ← get_default "results" old bucket;
  items ← iterate (if truthy results then results else JList []);
  add_all add_item acc items.

(** The total of a payload and its currency *)
Definition cost_of (payload : json) : res (float * string) :=
  data ← get_default "data" (JList []) payload;
  buckets ← iterate data;
  add_all add_bucket (fzero, "usd") buckets.

(** What a request comes to: the status and the body, [None] when it is no JSON,
    or [requests.RequestException] *)
Inductive usage_answer :=
  | UsageAnswer (status : Z) (payload : option json)
  | UsageRequestFailed.

Record usage_request := mkUsageRequest {
  us_authorization : string;
  us_start_time : Z;
  us_end_time : Z;
  us_limit : Z;
}.

(** How [openai_cost_summary_from_env] reports a failure *)
Definition unavailable (days : Z) (reason : string) : OpenAICostSummary := mkCost false fzero "usd" days reason.

(** The answer, read: [raise_for_status], the body, and the sum of its amounts *)
Definition read_costs (days : Z) (answer : usage_answer) : res OpenAICostSummary :=
  match answer with
  | UsageRequestFailed => Ok (unavailable days "request_failed")
  | UsageAnswer status payload =>
      if (400 <=? status) && (status <? 600) then Ok (unavailable days ("HTTP " +:+ str_int status))
      else
        match payload with
        | None => Ok (unavailable days "request_failed")
        | Some payload =>
            match cost_of payload with
            | Ok (total, currency) => Ok (mkCost true total currency days "ok")
            | Err (KeyError _ | TypeError _) => Ok (unavailable days "unexpected_response")
            | Err e => if is_ValueError e then Ok (unavailable days "unexpected_response") else Err e
            end
        end
  end.

Section Usage.
Context {W : Type} {CW : Clock W}.
(** [requests.Session().get] of the cost endpoint *)
Variable http_get : usage_request -> stm W usage_answer.
Variable getenv : string -> option string.
(** The text of [.env] in the working directory *)
Variable dotenv : option string.

(** The request of [fetch_openai_cost_summary] *)
Definition usage_request_of (api_key : string) (days : Z) (now : datetime) : usage_request :=
  mkUsageRequest ("Bearer " +:+ api_key) (Z.quot (instant now - days * us_per_day) us_per_second) (Z.quot (instant now) us_per_second) (Z.min days 180).

(** [openai_cost_summary_from_env], with [fetch_openai_cost_summary] inside its [try] *)
Definition openai_cost_summary_from_env (days : Z) : stm W OpenAICostSummary :=
  match usage_key getenv dotenv with
  | None => mret (unavailable days "OPENAI_ADMIN_KEY missing")
  | Some key =>
      if negb ((1 <=? days) && (days <=? 180)) then mret (unavailable days "unexpected_response")
      else
        now ← (fun w => let '(t, w) := wall_clock w in (Ok t, w));
        answer ← http_get (usage_request_of key days now);
        lift_res (read_costs days answer)
  end.

(** [_cost_text] *)
Definition cost_text : stm W string := summary ← openai_cost_summary_from_env 30; mret (cost_summary_text summary).
End Usage.

(** ** Lemmas *)

(** The exceptions a malformed payload raises that no handler of the summary takes *)
Definition escapes (e : exn) : Prop := e = no_attribute \/ e = OverflowError.
Definition caught (e : exn) : bool := is_ValueError e || match e with KeyError _ | TypeError _ => true | _ => false end.
Definition expected_only {A} (r : res A) : Prop := match r with Ok _ => True | Err e => caught e = true \/ escapes e end.

Lemma expected_bind {A B} (m : res A) (f : A -> res B) : expected_only m -> (forall a, expected_only (f a)) -> expected_only (a ← m; f a).
Proof. destruct m as [a|e]; cbn; intros Hm Hf; [apply Hf|done]. Qed.

Lemma expected_add_all {A B} (f : B -> A -> res B) l : (forall b a, expected_only (f b a)) -> forall b, expected_only (add_all f b l).
Proof. intros Hf. induction l as [|a l IH]; intros b; [done|]. apply expected_bind; [apply Hf|apply IH]. Qed.

Lemma get_default_expected k v d : expected_only (get_default k d v).
Proof. destruct v; cbn; unfold escapes; auto. Qed.

Lemma iterate_expected v : expected_only (iterate v).
Proof. destruct v; cbn; auto. Qed.

Lemma float_of_text_expected s : expected_only (float_of_text s).
Proof.
  unfold float_of_text. cbv zeta. destruct (negb _); [by left|]. destruct (decimal_of_string _) as [[[[|p|p] e]|b|]|]; try done; [|by left].
  destruct (_ || _); [done|by left].
Qed.

Lemma json_float_expected v : expected_only (json_float v).
Proof.
  destruct v as [|b|z|x|s|l|o]; cbn; auto; [|apply float_of_text_expected].
  unfold float_of_int. destruct (_ : bool); cbn; unfold escapes; auto.
Qed.

Create HintDb expected.
#[local] Hint Resolve get_default_expected iterate_expected json_float_expected : expected.

Lemma cost_of_expected payload : expected_only (cost_of payload).
Proof.
  assert (Hitem : forall acc item, expected_only (add_item acc item)).
  { intros acc item. unfold add_item. repeat (apply expected_bind; [auto with expected|intros ?]). done. }
  assert (Hbucket : forall acc bucket, expected_only (add_bucket acc bucket)).
  { intros acc bucket. unfold add_bucket. repeat (apply expected_bind; [auto with expected|intros ?]). by apply expected_add_all. }
  unfold cost_of. repeat (apply expected_bind; [auto with expected|intros ?]). by apply expected_add_all.
Qed.

Lemma read_costs_expected days answer : match read_costs days answer with Ok _ => True | Err e => escapes e end.
Proof.
  unfold read_costs. destruct answer as [status payload|]; [|done]. destruct (_ && _); [done|]. destruct payload as [payload|]; [|done].
  pose proof (cost_of_expected payload) as H. destruct (cost_of payload) as [[t c]|e]; [done|]. cbn in H.
  destruct e; cbn in *; try done; (destruct H as [H|H]; [discriminate|exact H]).
Qed.

(** The amounts of a well-formed payload *)
Definition amount_json (a : float * string) : json := JObj [("amount", JObj [("value", JFloat a.1); ("currency", JStr a.2)])].
Definition bucket_json (l : list (float * string)) : json := JObj [("results", JList (map amount_json l))].
Definition costs_json (buckets : list (list (float * string))) : json := JObj [("data", JList (map bucket_json buckets))].
Definition currency_after (c c' : string) : string := if sempty c' then c else c'.

Lemma add_amounts l : forall acc, Forall (fun a => (a.1 =? fzero)%F = false) l ->
  add_all add_item acc (map amount_json l) = Ok (fold_left (fun t a => t + a.1)%F l acc.1, fold_left (fun c a => currency_after c a.2) l acc.2).
Proof.
  induction l as [|[x c] l IH]; intros [t u] H; [done|]. apply list.Forall_cons in H as [Hx H]. cbn in Hx. cbn [map add_all].
  unfold add_item at 1. cbn. rewrite Hx. cbn. rewrite IH by done. cbn. unfold currency_after. by destruct c.
Qed.

Lemma add_buckets buckets : forall acc, Forall (Forall (fun a => (a.1 =? fzero)%F = false)) buckets ->
  add_all add_bucket acc (map bucket_json buckets) =
    Ok (fold_left (fun t a => t + a.1)%F (concat buckets) acc.1, fold_left (fun c a => currency_after c a.2) (concat buckets) acc.2).
Proof.
  induction buckets as [|l buckets IH]; intros [t u] H; [done|]. apply list.Forall_cons in H as [Hl H]. cbn [map add_all].
  assert (E : add_bucket (t, u) (bucket_json l) = Ok (fold_left (fun t a => t + a.1)%F l t, fold_left (fun c a => currency_after c a.2) l u)).
  { unfold add_bucket. cbn. destruct l as [|a l]; [done|]. cbn [map]. cbn [truthy iterate]. exact (add_amounts (a :: l) (t, u) Hl). }
  rewrite E. unfold mbind, res_bind. rewrite IH by done. cbn [concat fst snd]. by rewrite !fold_left_app.
Qed.

(** ** Properties *)

Section Properties.
Context {W : Type} {CW : Clock W}.
Variables (getenv : string -> option string) (dotenv : option string).

(** Fact: What the operator reads of the costs depends on the answer alone, never on
    the key that asked for it. *)
Theorem cost_report_keeps_key getenv' dotenv' (answer : stm W usage_answer) :
  is_Some (usage_key getenv dotenv) -> is_Some (usage_key getenv' dotenv') ->
  cost_text (fun _ => answer) getenv dotenv = cost_text (fun _ => answer) getenv' dotenv'.
Proof. intros [k Hk] [k' Hk']. unfold cost_text, openai_cost_summary_from_env. by rewrite Hk, Hk'. Qed.

(** Fact: A refused request, a failed request and a malformed answer are reasons the
    operator reads; what escapes is an answer whose parts are no objects, or an amount
    no float holds. *)
Theorem cost_failures_are_reasons (answer : usage_answer) days (w : W) : is_Some (usage_key getenv dotenv) -> 1 <= days <= 180 ->
  exists w', openai_cost_summary_from_env (fun _ => mret answer) getenv dotenv days w = (read_costs days answer, w') /\
  (match read_costs days answer with Ok _ => True | Err e => escapes e end) /\
  (forall status payload, answer = UsageAnswer status payload -> 400 <= status < 600 ->
     read_costs days answer = Ok (unavailable days ("HTTP " +:+ str_int status))).
Proof.
  intros [k Hk] Hd. unfold openai_cost_summary_from_env. rewrite Hk. replace ((1 <=? days) && (days <=? 180)) with true by lia.
  cbn [negb]. unfold mbind, stm_bind. cbv beta. destruct (wall_clock w) as [t w']. exists w'. split; [reflexivity|].
  split; [apply read_costs_expected|]. intros status payload -> Hs. unfold read_costs. assert (E : (400 <=? status) && (status <? 600) = true) by lia. by rewrite E.
Qed.

(** Fact: The cost of a well-formed answer is the sum of its amounts in order, in the
    currency named last. *)
Theorem cost_is_the_sum days buckets status : Forall (Forall (fun a => (a.1 =? fzero)%F = false)) buckets -> ~ (400 <= status < 600) ->
  read_costs days (UsageAnswer status (Some (costs_json buckets))) =
    Ok (mkCost true (fold_left (fun t a => t + a.1)%F (concat buckets) fzero) (fold_left (fun c a => currency_after c a.2) (concat buckets) "usd") days "ok").
Proof.
  intros Hb Hs. unfold read_costs. replace ((400 <=? status) && (status <? 600)) with false by lia.
  unfold cost_of, costs_json. cbn [get_default dget String.eqb Ascii.eqb Bool.eqb or_else]. cbn. by rewrite add_buckets.
Qed.
End Properties.

(** ** Witnesses *)

Definition w_usage_env (name : string) : option string := if String.eqb name "OPENAI_ADMIN_KEY" then Some "sk-admin" else None.
Definition w_usage_buckets : list (list (float * string)) := [[(f_ratio 3 2, "usd")]; []; [(f_ratio 1 4, ""); (f_of_Z 2, "eur")]].
#[local] Instance w_usage_clock : Clock unit := fun u => (Datetime 1700042430000000 (Some 0), u).

Lemma cost_report_keeps_key_witness :
  (cost_text (fun _ => mret (UsageAnswer 401 None)) w_usage_env None tt).1 = Ok "openai cost: unavailable (HTTP 401)" /\
  cost_text (W := unit) (fun _ => mret (UsageAnswer 401 None)) w_usage_env None =
    cost_text (fun _ => mret (UsageAnswer 401 None)) (fun _ => None) (Some "OPENAI_USAGE_API_KEY = 'sk-other' ").
Proof. split; [by vm_compute|]. apply cost_report_keeps_key; [by exists "sk-admin"|by exists "sk-other"]. Defined.

Lemma cost_failures_are_reasons_witness :
  read_costs 30 (UsageAnswer 503 None) = Ok (unavailable 30 "HTTP 503") /\
  exists w' : unit, openai_cost_summary_from_env (fun _ => mret (UsageAnswer 200 (Some (JList [])))) w_usage_env None 30 tt = (Err no_attribute, w').
Proof.
  split; [by destruct (cost_failures_are_reasons w_usage_env None (UsageAnswer 503 None) 30 tt ltac:(by exists "sk-admin") ltac:(lia)) as (_ & _ & _ & H); exact (H 503 None eq_refl ltac:(lia))|].
  by exists tt.
Defined.

Lemma cost_is_the_sum_witness :
  read_costs 30 (UsageAnswer 200 (Some (costs_json w_usage_buckets))) = Ok (mkCost true (f_ratio 15 4) "eur" 30 "ok") /\
  cost_summary_text (mkCost true (f_ratio 15 4) "eur" 30 "ok") = "openai cost: 3.7500 EUR last_30d".
Proof.
  split; [|by vm_compute]. rewrite cost_is_the_sum; [by vm_compute| |lia].
  repeat (constructor || (by vm_compute)).
Defined.

(** An answer that is a list escapes the summary's handlers. *)
Example unexpected_list_escapes : read_costs 30 (UsageAnswer 200 (Some (JList []))) = Err no_attribute.
Proof. reflexivity. Qed.
