(* ===== verification/TelegramViews.v ===== *)
(** * The reports of the Telegram bot ([ops/telegram.py])

    The texts behind the names of [Telegram.view]: status, readiness, decisions,
    positions, orders, fills, the paper, live, cost and performance reports, and the
    pending approvals.  They read the database and the clock, and the cost report
    also asks OpenAI; none of them writes. *)

From S2P Require Import Prelude PyStr PyFloat PyTime PyDecimal PyFormat PyDict PyJson DbCore DbOrders DbRuntime DbMarket DbApprovals DbPaper KisHttp.
From S2P Require Import Risk System Operator Telegram TelegramSafety Performance PaperReport Healthcheck OpenaiUsage.
From S2P Require Import KisAccount AutoUniverse ServiceGates Shadow TradeCycle Notifier.


(** ** Texts that may have come from outside *)

(** [str(b)], [str(b).lower()] *)
Definition bool_text (b : bool) : string := if b then "True" else "False".
Definition lower_bool (b : bool) : string := if b then "true" else "false".

(** [x or "none"] of a text of the database, [",".join(l) or "none"] *)
Definition text_default (default : string) (x : option string) : string := match x with Some (String c s) => String c s | _ => default end.
Definition joined (l : list string) : string := text_default "none" (Some (join "," l)).

(** [s.replace("_", "").replace("-", "").isalnum()] *)
Definition plain_name (s : string) : bool :=
  let t := remove_char "-" (remove_char "_" s) in negb (sempty t) && sforall is_alnum t.
Definition name_or_unavailable (s : string) : string := if plain_name s then s else "unavailable".

(** [str(payload.get(key) or default)] *)
Definition field_text (key default : string) (payload : dict json) : string :=
  match dget key payload with Some v => if truthy v then py_str v else default | None => default end.

(** A non-empty text that is a JSON object *)
Definition stored_object (value : option string) : option (dict json) :=
  match value with
  | None | Some "" => None
  | Some text => match loads text with Some (JObj o) => Some o | _ => None end
  end.

(** [_worker_status] *)
Definition worker_status (value : option string) : string :=
  match value with
  | None | Some "" => "unavailable"
  | Some text =>
      name_or_unavailable (match stored_object value with Some payload => field_text "status" "unavailable" payload | None => text end)
  end.

(** [_safe_token] *)
Definition token_char (c : ascii) : bool := is_alnum c || bool_decide (c = "-"%char) || bool_decide (c = "_"%char).
Definition safe_token (v : option json) : string :=
  let text := strip (str_or_empty (or_else v JNull)) in
  if negb (sempty text) && sforall token_char text then text else "".

(** ** Heartbeats and the supervisor *)

(** [(_utcnow() - timestamp).total_seconds()] with one decimal, and "future" *)
Definition age_text (age : Z) : string := if 0 <=? age then format_1f (f_ratio age 1000000) +:+ "s" else "future".

Section Clocked.
Context {W : Type} {CW : Clock W}.
Notation run A := (stm (sys W) A).

(** The age of a stored timestamp, in microseconds *)
Definition stamp_age (text : string) : run (option Z) :=
  match fromisoformat text with
  | Err _ => mret None
  | Ok t =>
      let t := if is_naive t then with_tz t (Some UTC) else t in
      now ← utcnow;
      mret (Some (instant now - instant t))
  end.

(** [_heartbeat_status] *)
Definition heartbeat_status (value : option string) : run (string * bool) :=
  match value with
  | None | Some "" => mret ("unavailable", false)
  | Some text =>
      age ← stamp_age text;
      match (age : option Z) with
      | None => mret ("unavailable", false)
      | Some age =>
          mret (if 0 <=? age then "age=" +:+ age_text age else "future",
                (0 <=? age) && (age <=? HEARTBEAT_MAX_AGE_SECONDS * us_per_second))
      end
  end.

(** What [_supervisor_detail] tells *)
Record supervisor_report := mkSupervisorReport {
  sr_status : string;
  sr_age : string;
  sr_failure_streak : string;
  sr_healthy_streak : string;
  sr_next_retry_seconds : string;
  sr_safe_kis_error : string;
}.

Definition no_detail : supervisor_report := mkSupervisorReport "unavailable" "unavailable" "0" "0" "0" "none".

(** [str(max(0, int(payload.get(key, 0))))]: an infinite number escapes. *)
Definition streak_text (key : string) (payload : dict json) : res string :=
  match json_int (or_else (dget key payload) (JInt 0)) with
  | Ok z => Ok (str_int (Z.max 0 z))
  | Err (TypeError _) => Ok "0"
  | Err e => if is_ValueError e then Ok "0" else Err e
  end.

(** The parts of [safe_kis_error] that are tokens *)
Definition kis_error_text (payload : dict json) : string :=
  match dget "safe_kis_error" payload with
  | Some (JObj safe) =>
      let part prefix key := match safe_token (dget key safe) with "" => [] | t => [prefix +:+ t] end in
      match (part "http_" "http_status" ++ part "rt_cd=" "rt_cd" ++ part "msg_cd=" "msg_cd")%list with
      | [] => "none"
      | parts => join " " parts
      end
  | _ => "none"
  end.

(** [_supervisor_detail] *)
Definition supervisor_detail (value : option string) : run supervisor_report :=
  match stored_object value with
  | None => mret no_detail
  | Some payload =>
      age ← (match dget "updated_at" payload with
             | Some v => if truthy v then stamp_age (py_str v) else mret None
             | None => mret None
             end);
      failures ← lift_res (streak_text "failure_streak" payload);
      healthy ← lift_res (streak_text "healthy_streak" payload);
      retry ← lift_res (streak_text "next_retry_seconds" payload);
      mret (mkSupervisorReport (name_or_unavailable (field_text "status" "unavailable" payload))
              (match (age : option Z) with Some age => age_text age | None => "unavailable" end)
              failures healthy retry (kis_error_text payload))
  end.
End Clocked.

(** ** Reports of the database *)

(** [ORDER BY ... DESC LIMIT n] *)
Definition latest {A} (n : nat) (key id : A -> string) (t : gmap string A) : list A := take n (reverse (rows_by key id t)).

(** [_orders_text] *)
Definition order_line (o : broker_order) : string :=
  bo_symbol o +:+ " " +:+ bo_side o +:+ " qty=" +:+ str_int (bo_requested_qty o) +:+ " filled=" +:+ str_int (bo_filled_qty o) +:+
  " price=" +:+ format_g (bo_requested_price o) +:+ " status=" +:+ bo_status o.
Definition orders_text (d : db) : string :=
  match map order_line (latest 20 bo_created_at bo_client_order_id (t_broker_orders d)) with
  | [] => lines ["broker orders"; "none"]
  | l => lines ("broker orders" :: l)
  end.

(** [_fills_text] *)
Definition fill_line (f : broker_fill) : string :=
  bf_symbol f +:+ " " +:+ bf_side f +:+ " qty=" +:+ str_int (bf_quantity f) +:+ " price=" +:+ format_g (bf_price f) +:+ " at=" +:+ bf_filled_at f.
Definition fills_text (d : db) : string :=
  match map fill_line (latest 20 bf_filled_at bf_fill_id (t_broker_fills d)) with
  | [] => lines ["broker fills"; "none"]
  | l => lines ("broker fills" :: l)
  end.

(** [_approvals_text] of the pending rows *)
Definition approval_line (a : approval_request) : string :=
  ar_request_id a +:+ " " +:+ ar_symbol a +:+ " qty=" +:+ match ar_quantity a with Some 0 | None => "unknown" | Some q => str_int q end +:+
  " entry=" +:+ match ar_entry_price a with Some x => if (x =? fzero)%F then "unknown" else float_text x | None => "unknown" end +:+
  " expires=" +:+ text_default "unknown" (ar_expires_at a).
Definition approvals_text (rows : list approval_request) : string :=
  truncate (lines ("pending approvals" :: match rows with [] => ["none"] | _ => map approval_line rows end)).

(** [_live_snapshot] *)
Definition live_snapshot (d : db) : option (dict json) := stored_object (get_metadata LIVE_REPORT_KEY d).

(** [snapshot.get(k1) or snapshot.get(k2) or default] *)
Definition first_truthy (keys : list string) (default : json) (o : dict json) : json :=
  fold_right (fun k rest => match dget k o with Some v => if truthy v then v else rest | None => rest end) default keys.

(** [str(item.get(k1, item.get(k2, default)))] *)
Fixpoint first_given_text (keys : list string) (default : string) (o : dict json) : string :=
  match keys with
  | [] => default
  | k :: keys => match dget k o with Some v => py_str v | None => first_given_text keys default o end
  end.

(** [_safe_flag(str(snapshot.get(key, "")))] *)
Definition snapshot_flag (key : string) (o : dict json) : string := safe_flag (Some (first_given_text [key] "" o)).

(** [_snapshot_positions_text] *)
Definition snapshot_position_line (item : json) : list string :=
  match item with
  | JObj o =>
      if isdigit (first_given_text ["symbol"] "" o) then
        [first_given_text ["symbol"] "" o +:+ " qty=" +:+ first_given_text ["qty"; "quantity"] "unknown" o +:+
         " avg=" +:+ first_given_text ["avg_price"; "entry_price"] "unknown" o]
      else []
  | _ => []
  end.
Definition snapshot_positions_text (snapshot : dict json) : string :=
  let positions := first_truthy ["positions"; "account_positions"] (JList []) snapshot in
  let shown := match positions with JList items => flat_map snapshot_position_line (take 50 items) | _ => [] end in
  truncate (lines (("live broker positions (metadata snapshot)" :: match shown with [] => ["none"] | _ => shown end) ++
                   ["reconciliation=" +:+ snapshot_flag "reconciliation_ok" snapshot])).

(** [len(v)] *)
Definition json_length (v : json) : res Z :=
  match v with
  | JList l => Ok (len l)
  | JObj o => Ok (len o)
  | JStr s => Ok (slen s)
  | _ => Err (TypeError "object has no len()")
  end.

(** [_snapshot_report_text] *)
Definition snapshot_report_text (snapshot : dict json) : res string :=
  let summary := match first_truthy ["summary"; "account"] (JObj []) snapshot with JObj o => o | _ => [] end in
  positions ← json_length (first_truthy ["positions"; "account_positions"] (JList []) snapshot);
  Ok (lines ["environment=" +:+ first_given_text ["environment"] "live" snapshot;
             "cash=" +:+ first_given_text ["orderable_cash"; "cash"] "unknown" summary;
             "total_eval=" +:+ first_given_text ["total_eval"; "total_evaluation"] "unknown" summary;
             "daily_pnl=" +:+ first_given_text ["daily_pnl"] "unknown" summary;
             "positions=" +:+ str_int positions;
             "operator_review=" +:+ snapshot_flag "operator_review" snapshot;
             "block_new_entries=" +:+ snapshot_flag "block_new_entries" snapshot]).

(** [_positions_text], the cost following *)
Definition positions_text (sum_real : list float -> float) (group_row : paper_fill -> list paper_fill -> paper_fill) (d : db) (cost : string) : string :=
  match live_snapshot d with
  | Some snapshot => truncate (lines [snapshot_positions_text snapshot; cost])
  | None =>
      let live := map (fun p => "live " +:+ lp_symbol p +:+ " qty=" +:+ str_int (lp_quantity p)) (list_open_live_positions None d) in
      let paper := map (fun p => "paper " +:+ ps_symbol p +:+ " qty=" +:+ str_int (ps_quantity p)) (paper_positions sum_real group_row d) in
      truncate (lines (("open positions" :: match live ++ paper with [] => ["none"] | l => l end) ++ [cost]))
  end.

(** [_report_text] before its cost: the lines, and whether they are truncated *)
Definition report_text (d : db) : res (list string * bool) :=
  match live_snapshot d with
  | Some snapshot => text ← snapshot_report_text snapshot; Ok (["live broker report"; text], true)
  | None =>
      r ← report_from_database None d;
      Ok (["paper report";
           "orders=" +:+ str_int (pt_total_paper_orders r) +:+ " fills=" +:+ str_int (pt_total_paper_fills r) +:+
           " open_positions=" +:+ str_int (len (pt_open_positions r)) +:+ " realized_pnl=" +:+ format_g (pt_realized_pnl r);
           "symbols=" +:+ joined (pt_symbols r)], false)
  end.

(** [json.dumps(v, ensure_ascii=False, indent=2)] *)
Definition raw_point (p : Z) : string := if (32 <=? p) && negb (p =? 34) && negb (p =? 92) then utf8 p else escape_point p.
Definition quoted_raw (s : string) : string :=
  String quote (fold_right (fun p acc => raw_point p +:+ acc) "" (code_points s) +:+ String quote "").
Definition indented (depth : nat) (s : string) : string := newline +:+ repeat_char " " (2 * depth) +:+ s.
Fixpoint dumps_indented (depth : nat) (v : json) : string :=
  match v with
  | JStr s => quoted_raw s
  | JList [] => "[]"
  | JList l => "[" +:+ join "," (map (fun v => indented (S depth) (dumps_indented (S depth) v)) l) +:+ indented depth "]"
  | JObj [] => "{}"
  | JObj o =>
      "{" +:+ join "," (map (fun kv => indented (S depth) (quoted_raw (fst kv) +:+ ": " +:+ dumps_indented (S depth) (snd kv))) o) +:+ indented depth "}"
  | _ => dumps v
  end.

(** [_live_report_text] *)
Definition live_report_text (d : db) : string :=
  match get_metadata LIVE_REPORT_KEY d with
  | None | Some "" => lines ["live report"; "none"]
  | Some raw => match loads raw with Some payload => lines ["live report"; dumps_indented 0 payload] | None => lines ["live report"; "unavailable"] end
  end.

(** [PerformanceReport.text] *)
Definition strategy_line (kv : string * StrategyPerformance) : string :=
  "- " +:+ kv.1 +:+ " trades=" +:+ str_int (sp_closed_trades kv.2) +:+ " gross=" +:+ format_g (sp_gross_realized_pnl kv.2) +:+
  " costs=" +:+ format_g (sp_estimated_costs kv.2) +:+ " net=" +:+ format_g (sp_net_realized_pnl kv.2).
Definition performance_text (r : PerformanceReport) : string :=
  lines (["performance report";
          "closed_trades=" +:+ str_int (pe_closed_trades r) +:+ " wins=" +:+ str_int (pe_wins r) +:+ " losses=" +:+ str_int (pe_losses r) +:+
          " win_rate=" +:+ format_2f (pe_win_rate r * f_of_Z 100)%F +:+ "%";
          "gross_realized_pnl=" +:+ format_g (pe_gross_realized_pnl r) +:+ " estimated_costs=" +:+ format_g (pe_estimated_costs r) +:+
          " net_realized_pnl=" +:+ format_g (pe_net_realized_pnl r);
          "average_win=" +:+ format_g (pe_average_win r) +:+ " average_loss=" +:+ format_g (pe_average_loss r) +:+
          " profit_factor=" +:+ format_g (pe_profit_factor r) +:+ " max_drawdown=" +:+ format_g (pe_max_drawdown r);
          "cost_bps=buy:" +:+ format_g (pe_buy_cost_bps r) +:+ " sell:" +:+ format_g (pe_sell_cost_bps r);
          "by_strategy:"] ++
         match sort_by (fun a b => text_leb a.1 b.1) (pe_by_strategy r) with [] => ["- none"] | l => map strategy_line l end).

(** [_decisions_text]: the last cycle of the service *)
Definition cycle_result_line (result : json) : list string :=
  match result with
  | JObj o =>
      ["cycle " +:+ first_given_text ["symbol"] "?" o +:+ " action=" +:+ first_given_text ["action"] "?" o +:+
       " reason=" +:+ take_points 80 (first_given_text ["reason"] "?" o) +:+
       " submitted=" +:+ lower (first_given_text ["submitted"] "False" o) +:+ " qty=" +:+ first_given_text ["quantity"] "0" o]
  | _ => []
  end.

(** [results[:10]] of what the cycle stored *)
Definition first_results (cycle : dict json) : res (list json) :=
  match first_truthy ["results"] (JList []) cycle with
  | JList l => Ok (take 10 l)
  | JStr _ => Ok []
  | _ => Err (TypeError "object is not subscriptable")
  end.

Definition cycle_lines (raw : option string) : res (list string) :=
  match raw with
  | None | Some "" => Ok ["아직 장중 사이클 없음"]
  | Some _ =>
      match stored_object raw with
      | None => Ok []
      | Some cycle =>
          results ← first_results cycle;
          Ok (("cycle observed_at=" +:+ first_given_text ["observed_at"] "unknown" cycle +:+
               " environment=" +:+ first_given_text ["environment"] "unknown" cycle +:+ " ai=" +:+ first_given_text ["ai"] "unknown" cycle)
              :: flat_map cycle_result_line results)
      end
  end.

Definition price_or_none (x : option float) : string := match x with Some v => format_g v | None => "none" end.
Definition audit_line (a : ai_decision) : string :=
  ad_created_at a +:+ " " +:+ ad_symbol a +:+ " action=" +:+ ad_action a +:+ " conf=" +:+ format_g (ad_confidence a) +:+
  " entry=" +:+ price_or_none (ad_entry_price a) +:+ " target=" +:+ price_or_none (ad_take_profit_price a) +:+
  " stop=" +:+ price_or_none (ad_stop_loss_price a) +:+ " risk=" +:+ ad_risk_level a.

Definition decisions_text (d : db) : res string :=
  cycle ← cycle_lines (get_metadata AUTO_TRADE_LAST_CYCLE_KEY d);
  Ok (truncate (lines ("최근 AI 판단" :: cycle ++
        match latest 10 ad_created_at ad_decision_id (t_ai_decisions d) with
        | [] => ["AI audit: none"]
        | rows => "AI audit:" :: map audit_line rows
        end))).

(** ** The reports *)

Section Views.
Context {W : Type} {CW : Clock W}.
(** [_cost_text] *)
Variable cost : stm W string.
Variable env getenv : string -> option string.
Variable calendar : option (Z -> bool).
(** SQL's [SUM] of reals, and the costs of the performance report *)
Variables (float_sum sum_real : list float -> float) (group_row : paper_fill -> list paper_fill -> paper_fill) (buy_bps sell_bps : float).

Notation run A := (stm (sys W) A).

(** The state of the runtime in [_status_text] *)
Definition runtime_state (d : db) : string :=
  if rc_paused (get_runtime_control d) then "paused"
  else if flag_set (get_metadata AUTO_PAUSE_KEY d) || flag_set (get_metadata "operator_review" d) || flag_set (get_metadata "block_new_entries" d)
  then "auto_paused" else "running".

(** [_status_text] *)
Definition runtime_status_text : run string :=
  _ ← open_schema;
  d ← query id;
  frequency ← frequency_settings getenv;
  service ← heartbeat_status (get_metadata "heartbeat:trading-service" d);
  fill ← heartbeat_status (get_metadata "heartbeat:fill-notice" d);
  supervisor ← heartbeat_status (get_metadata "heartbeat:order-supervisor" d);
  let control := get_runtime_control d in
  let md key := get_metadata key d in
  let beat (b : string * bool) := b.1 +:+ " healthy=" +:+ bool_text b.2 in
  mret (lines [
    "runtime: " +:+ runtime_state d;
    "environment: " +:+ rc_environment control;
    "open_live_positions: " +:+ str_int (len (list_open_live_positions None d));
    "open_paper_positions: " +:+ str_int (len (paper_positions sum_real group_row d));
    "reason: " +:+ rc_reason control;
    "source: " +:+ rc_source control;
    "updated_at: " +:+ rc_updated_at control;
    "trading_service: " +:+ beat service;
    "fill_notice: " +:+ worker_status (md "fill-notice:status") +:+ " heartbeat=" +:+ beat fill;
    "order_supervisor: " +:+ worker_status (md "order-supervisor.status") +:+ " heartbeat=" +:+ beat supervisor;
    "operator_review_reasons: " +:+ joined (supervisor_reasons (md "order-supervisor.status"));
    "operator_review: " +:+ safe_flag (md "operator_review");
    "block_new_entries: " +:+ safe_flag (md "block_new_entries");
    "emergency_stop: " +:+ safe_flag (or_text (md EMERGENCY_STOP_KEY) (md "emergency_stop"));
    "automatic_pause: " +:+ safe_flag (md AUTO_PAUSE_KEY) +:+ " reason=" +:+ text_default "none" (md AUTO_PAUSE_REASON_KEY);
    "cancel_open_buys_pending: " +:+ safe_flag (md CANCEL_OPEN_BUYS_KEY);
    "auto_universe: " +:+ joined (auto_universe_symbols (md AUTO_UNIVERSE_SYMBOLS_KEY)) +:+ " error=" +:+ text_default "none" (md UNIVERSE_ERROR_KEY);
    "trade_frequency: profile=" +:+ tf_profile frequency +:+ " ai_min_confidence=" +:+ format_2f (tf_ai_min_confidence frequency) +:+
      " candidate_sensitivity=" +:+ tf_profile frequency +:+ " daily_trade_limit=none"]).

(** [_readiness]: its text, and whether nothing blocks *)
Definition readiness_report : run (string * bool) :=
  now ← utcnow;
  _ ← open_schema;
  d ← query id;
  trading ← heartbeat_healthy (get_metadata "heartbeat:trading-service" d);
  supervisor ← heartbeat_healthy (get_metadata "heartbeat:order-supervisor" d);
  detail ← supervisor_detail (get_metadata "order-supervisor.status" d);
  let control := get_runtime_control d in
  let md key := get_metadata key d in
  let blockers := readiness_blockers env calendar d trading supervisor in
  let ready := match blockers with [] => true | _ => false end in
  let prefix := if String.eqb (rc_environment control) "demo" then "KIS_DEMO" else "KIS_REAL" in
  let kis_ok := match missing_env env [prefix +:+ "_APP_KEY"; prefix +:+ "_APP_SECRET"; prefix +:+ "_ACCOUNT_NO"] with [] => true | _ => false end in
  let market_open := match calendar with Some _ => is_regular_market_open calendar now | None => false end in
  mret (truncate (lines ([
    "모의매매 준비 점검";
    "environment=" +:+ rc_environment control +:+ " paused=" +:+ lower_bool (rc_paused control);
    "resume_ready=" +:+ lower_bool ready;
    "LIVE_TRADING_ENABLED=" +:+ lower_bool (String.eqb (env_text env "LIVE_TRADING_ENABLED" "") "true") +:+ " KIS=" +:+ lower_bool kis_ok +:+
      " AI=" +:+ env_text env "AUTO_TRADE_AI" "openai";
    "watchlist=" +:+ joined (list_watchlist_symbols true d);
    "auto_universe=" +:+ joined (auto_universe_symbols (md AUTO_UNIVERSE_SYMBOLS_KEY)) +:+
      " enabled=" +:+ lower_bool (mem_str (env_text env "AUTO_UNIVERSE_ENABLED" "true") ["1"; "true"; "yes"; "on"]) +:+
      " refreshed_at=" +:+ text_default "none" (md UNIVERSE_REFRESHED_AT_KEY) +:+ " error=" +:+ text_default "none" (md UNIVERSE_ERROR_KEY);
    "operator_review=" +:+ safe_flag (md "operator_review") +:+ " block_new_entries=" +:+ safe_flag (md "block_new_entries") +:+
      " emergency=" +:+ safe_flag (or_text (md EMERGENCY_STOP_KEY) (md "emergency_stop")) +:+
      " cancel_pending=" +:+ lower_bool (flag_set (md CANCEL_OPEN_BUYS_KEY) || match unresolved_order d with Some _ => true | None => false end);
    "worker_heartbeat=trading-service:" +:+ lower_bool trading +:+ " order-supervisor:" +:+ lower_bool supervisor;
    "order_supervisor_status=" +:+ sr_status detail +:+ " order_supervisor_status_age=" +:+ sr_age detail;
    "failure_streak=" +:+ sr_failure_streak detail +:+ " healthy_streak=" +:+ sr_healthy_streak detail +:+
      " next_retry_seconds=" +:+ sr_next_retry_seconds detail;
    "safe_kis_error=" +:+ sr_safe_kis_error detail;
    "krx_market_open=" +:+ lower_bool market_open +:+ " (시장 휴장은 resume blocker 아님)"] ++
    match blockers with [] => ["blockers: none"] | _ => "blockers:" :: map (fun b => "- " +:+ b) blockers end)), ready).

Definition with_cost (f : db -> string -> string) : run string :=
  _ ← open_schema;
  d ← query id;
  c ← on_world cost;
  mret (f d c).

(** [_report_text] *)
Definition report_view : run string :=
  _ ← open_schema;
  d ← query id;
  report ← lift_res (report_text d);
  c ← on_world cost;
  mret (let text := lines ((report : list string * bool).1 ++ [c]) in if report.2 then truncate text else text).

Definition plain_view (f : db -> res string) : run string := _ ← open_schema; d ← query id; lift_res (f d).

(** The text a [View] names *)
Definition view_text (v : view) : run string :=
  match v with
  | StatusView => runtime_status_text
  | ReadinessView => r ← readiness_report; mret r.1
  | DecisionsView => plain_view decisions_text
  | PositionsView => with_cost (positions_text sum_real group_row)
  | OrdersView => plain_view (fun d => Ok (orders_text d))
  | FillsView => plain_view (fun d => Ok (fills_text d))
  | ReportView => report_view
  | LiveReportView => plain_view (fun d => Ok (live_report_text d))
  | CostView => on_world cost
  | PerformanceView => plain_view (fun d => r ← performance_report_from_database float_sum buy_bps sell_bps d; Ok (performance_text r))
  | FrequencyView => frequency_text getenv
  | ApprovalsView => rows ← query (list_approval_requests (Some "PENDING") 10); rows ← lift_res rows; mret (approvals_text rows)
  end.
End Views.

(** ** Lemmas *)

Lemma slen_app a b : slen (a +:+ b) = slen a + slen b.
Proof. induction a as [|c a IH]; [done|]. change (String c a +:+ b) with (String c (a +:+ b)). cbn [slen]. rewrite IH. lia. Qed.

Lemma truncate_bound text : slen (truncate text) <= 3500.
Proof.
  unfold truncate. destruct (Z.leb_spec (slen text) 3500); [done|]. rewrite !slen_app.
  pose proof (take_points_length 3480 text ltac:(lia)). change (slen newline) with 1. change (slen "...[truncated]") with 14. lia.
Qed.

Lemma keep_plain s : plain_name (name_or_unavailable s) = true.
Proof. unfold name_or_unavailable. by destruct (plain_name s) eqn:E. Qed.

(** A report may have created the schema *)
Definition schema_only (d d' : db) : Prop := d' = d \/ d' = init_schema d.

#[export] Instance schema_only_preorder : PreOrder schema_only.
Proof. split; [by left|]. intros a b c [->| ->] [->| ->]; rewrite ?init_schema_idem; by (left + right). Qed.

Section Reads.
Context {W : Type} {CW : Clock W}.
Notation reads m := (keeps (db_rel (W := W) schema_only) m).

Lemma open_reads : reads open_schema.
Proof. apply keeps_on_db; [exact _|]. intros now d [] d' [= <-]. by right. Qed.

Lemma query_reads {A} (f : db -> A) : reads (query f).
Proof. apply keeps_gets, _. Qed.

Lemma utcnow_reads : reads utcnow.
Proof. unfold utcnow. apply keeps_bind; [exact _|apply keeps_read_clock, _|]. intros t. apply keeps_ret, _. Qed.

Create HintDb reports.
#[local] Hint Resolve open_reads query_reads utcnow_reads : reports.
#[local] Hint Extern 1 (keeps _ (mret _)) => apply keeps_ret, _ : reports.
#[local] Hint Extern 1 (keeps _ (lift_res _)) => apply keeps_lift, _ : reports.
#[local] Hint Extern 1 (keeps _ (on_world _)) => apply keeps_on_world, _ : reports.

(** One step of a report *)
Ltac report_step :=
  first [ solve [auto with reports] | apply keeps_bind; [exact _| |intros ?] | case_match | progress cbv zeta ].
Ltac report_walk := repeat report_step.

Lemma age_reads text : reads (stamp_age text).
Proof. unfold stamp_age. report_walk. Qed.
#[local] Hint Resolve age_reads : reports.

Lemma heartbeat_reads v : reads (heartbeat_status v).
Proof. unfold heartbeat_status. report_walk. Qed.

Lemma healthy_reads v : reads (heartbeat_healthy v).
Proof. unfold heartbeat_healthy. report_walk. Qed.

Lemma detail_reads v : reads (supervisor_detail v).
Proof. unfold supervisor_detail. report_walk. Qed.

Lemma settings_reads getenv : reads (frequency_settings getenv).
Proof. unfold frequency_settings. report_walk. Qed.
#[local] Hint Resolve heartbeat_reads healthy_reads detail_reads settings_reads : reports.

(** Fact: No report of the bot changes a table or calls the broker: at most it creates
    the schema. *)
Theorem reports_change_nothing cost env getenv calendar float_sum sum_real group_row buy_bps sell_bps v :
  reads (view_text cost env getenv calendar float_sum sum_real group_row buy_bps sell_bps v).
Proof.
  destruct v; cbn [view_text]; unfold runtime_status_text, readiness_report, plain_view, with_cost, report_view, frequency_text; report_walk.
Qed.

(** Fact: The readiness report computes the blockers of [readiness], the gate of
    [/resume], from the same readings, and calls the runtime ready exactly when there
    are none. *)
Theorem readiness_report_agrees env calendar s text ready s' : readiness_report (W := W) env calendar s = (Ok (text, ready), s') ->
  exists blockers s1, readiness env calendar s = (Ok blockers, s1) /\ (ready = true <-> blockers = []) /\ slen text <= 3500.
Proof.
  unfold readiness_report, readiness. intros H.
  apply stm_bind_Ok in H as (now & s1 & E1 & H). erewrite stm_bind_run by exact E1.
  apply stm_bind_Ok in H as ([] & s2 & E2 & H). erewrite stm_bind_run by exact E2.
  apply stm_bind_Ok in H as (d & s3 & E3 & H). erewrite stm_bind_run by exact E3.
  apply stm_bind_Ok in H as (trading & s4 & E4 & H). erewrite stm_bind_run by exact E4.
  apply stm_bind_Ok in H as (supervisor & s5 & E5 & H). erewrite stm_bind_run by exact E5.
  apply stm_bind_Ok in H as (detail & s6 & E6 & H). injection H as <- <- _.
  eexists _, _. split; [reflexivity|]. split; [by destruct (readiness_blockers _ _ _ _ _)|apply truncate_bound].
Qed.
End Reads.

Section Heartbeats.
Context {W : Type} {CW : Clock W}.

(** Fact: The heartbeat a report calls healthy is the one the readiness gate accepts, and
    a healthy one is shown by its age. *)
Theorem heartbeat_report_agrees value (s : sys W) text healthy s' : heartbeat_status value s = (Ok (text, healthy), s') ->
  heartbeat_healthy value s = (Ok healthy, s') /\
  (healthy = true -> exists age, 0 <= age <= HEARTBEAT_MAX_AGE_SECONDS * us_per_second /\ text = "age=" +:+ format_1f (f_ratio age 1000000) +:+ "s").
Proof.
  unfold heartbeat_status, heartbeat_healthy. destruct value as [[|c v]|]; [intros [= <- <- <-]; by split| |intros [= <- <- <-]; by split].
  unfold stamp_age. destruct (fromisoformat _) as [t|e]; [|intros [= <- <- <-]; by split]. cbv zeta. intros H.
  apply stm_bind_Ok in H as (age & s1 & H1 & H). apply stm_bind_Ok in H1 as (now & s2 & E2 & H1). injection H1 as <- <-.
  injection H as <- <- <-. split; [by rewrite (stm_bind_run _ _ _ _ _ E2)|]. intros Hh. bool_to_prop. eexists. split; [by split|].
  unfold age_text. by rewrite (proj2 (Z.leb_le _ _)).
Qed.

(** The characters of an error text *)
Definition error_char (c : ascii) : bool := token_char c || bool_decide (c = "="%char) || bool_decide (c = " "%char).

Lemma sforall_weaken (p q : ascii -> bool) s : (forall c, p c = true -> q c = true) -> sforall p s = true -> sforall q s = true.
Proof. intros Hpq. induction s as [|c s IH]; [done|]. cbn. destruct (p c) eqn:E; [|done]. by rewrite (Hpq _ E). Qed.

Lemma sforall_join p sep l : sforall p sep = true -> Forall (fun s => sforall p s = true) l -> sforall p (join sep l) = true.
Proof.
  intros Hs. induction 1 as [|x l Hx Hl IH]; [done|]. destruct l as [|y l]; [done|].
  change (join sep (x :: y :: l)) with (x +:+ sep +:+ join sep (y :: l)). by rewrite !sforall_append, Hx, Hs, IH.
Qed.

Lemma token_part v prefix : sforall error_char prefix = true ->
  Forall (fun s => sforall error_char s = true) (match safe_token v with "" => [] | t => [prefix +:+ t] end).
Proof.
  intros Hp. assert (H : sforall token_char (safe_token v) = true).
  { unfold safe_token. cbv zeta. destruct (negb _ && sforall token_char _) eqn:E; [|done]. by apply andb_true_iff in E as [_ E]. }
  destruct (safe_token v) as [|c t]; [constructor|]. constructor; [|constructor]. rewrite sforall_append, Hp. cbn [andb].
  eapply sforall_weaken; [|exact H]. intros x Hx. unfold error_char. by rewrite Hx.
Qed.

Lemma kis_error_plain payload : sforall error_char (kis_error_text payload) = true.
Proof.
  unfold kis_error_text. destruct (dget _ payload) as [[| | | | | |safe]|]; try done. cbv zeta.
  assert (H : Forall (fun s => sforall error_char s = true)
    ((match safe_token (dget "http_status" safe) with "" => [] | t => ["http_" +:+ t] end ++
      match safe_token (dget "rt_cd" safe) with "" => [] | t => ["rt_cd=" +:+ t] end) ++
      match safe_token (dget "msg_cd" safe) with "" => [] | t => ["msg_cd=" +:+ t] end)%list).
  { apply list.Forall_app. split; [apply list.Forall_app; split|]; by apply token_part. }
  rewrite <- app_assoc in H. destruct (_ ++ _)%list as [|x l]; [done|]. by apply sforall_join.
Qed.

Lemma streak_number key payload t : streak_text key payload = Ok t -> exists z, 0 <= z /\ t = str_int z.
Proof.
  unfold streak_text. destruct (json_int _) as [z|e]; [intros [= <-]; exists (Z.max 0 z); split; [lia|done]|].
  assert (H0 : exists z, 0 <= z /\ "0" = str_int z) by (exists 0; done).
  intros H. destruct e; cbn in H; try discriminate; injection H as <-; exact H0.
Qed.

(** Fact: Of what the supervisor stored, the reports show names of letters, digits,
    hyphens and underscores, error codes of the same characters, and counts that are
    not negative. *)
Theorem supervisor_report_is_plain value (s : sys W) detail s' : supervisor_detail value s = (Ok detail, s') ->
  plain_name (sr_status detail) = true /\ sforall error_char (sr_safe_kis_error detail) = true /\
  Forall (fun t => exists z, 0 <= z /\ t = str_int z) [sr_failure_streak detail; sr_healthy_streak detail; sr_next_retry_seconds detail] /\
  plain_name (worker_status value) = true.
Proof.
  assert (Hw : plain_name (worker_status value) = true) by (destruct value as [[|c v]|]; [done|apply keep_plain|done]).
  unfold supervisor_detail. destruct (stored_object value) as [payload|].
  - intros H. apply stm_bind_Ok in H as (age & s1 & _ & H).
    apply stm_bind_Ok in H as (f & s2 & [= E1 _] & H). apply stm_bind_Ok in H as (h & s3 & [= E2 _] & H).
    apply stm_bind_Ok in H as (r & s4 & [= E3 _] & H). injection H as <- _. cbn. split; [apply keep_plain|]. split; [apply kis_error_plain|].
    split; [|done]. apply streak_number in E1, E2, E3. by repeat constructor.
  - intros [= <- _]. split; [done|]. split; [done|]. split; [|done]. repeat constructor; by exists 0.
Qed.
End Heartbeats.

(** ** The newest rows *)

Lemma order_leb_total {A} (key id : A -> string) a b : order_leb key id a b = false -> order_leb key id b a = true.
Proof.
  unfold order_leb, text_ltb, text_leb, String.ltb, String.leb. rewrite (String.compare_antisym (key b)), (String.compare_antisym (id b)).
  destruct (String.compare (key a) (key b)) eqn:E; cbn; try done.
  apply String.compare_eq_iff in E. rewrite E, !String.eqb_refl. cbn. by destruct (String.compare (id a) (id b)).
Qed.

Lemma string_compare_refl a : String.compare a a = Eq.
Proof. pose proof (String.compare_antisym a a) as H. by destruct (String.compare a a). Qed.

Lemma text_below_leb a b : text_ltb a b = true -> text_leb a b = true.
Proof. unfold text_ltb, text_leb, String.ltb, String.leb. by destruct (String.compare a b). Qed.

Lemma text_leb_cases a b : text_leb a b = text_ltb a b || String.eqb a b.
Proof.
  unfold text_ltb, text_leb, String.ltb, String.leb. destruct (String.compare a b) eqn:E; cbn; try done.
  - apply String.compare_eq_iff in E. by rewrite E, String.eqb_refl.
  - destruct (String.eqb_spec a b) as [->|]; [|done]. by rewrite string_compare_refl in E.
Qed.

Lemma text_ltb_irrefl a : text_ltb a a = false.
Proof. unfold text_ltb, String.ltb. by rewrite string_compare_refl. Qed.

Lemma text_ltb_trans a b c : text_ltb a b = true -> text_ltb b c = true -> text_ltb a c = true.
Proof.
  intros H1 H2. pose proof (text_leb_trans a b c (text_below_leb _ _ H1) (text_below_leb _ _ H2)) as H.
  rewrite text_leb_cases in H. apply orb_true_iff in H as [H|H]; [done|]. apply String.eqb_eq in H as <-. clear - H1 H2.
  unfold text_ltb, String.ltb in *. rewrite String.compare_antisym in H2. by destruct (String.compare a b).
Qed.

Lemma order_leb_trans {A} (key id : A -> string) a b c : order_leb key id a b = true -> order_leb key id b c = true -> order_leb key id a c = true.
Proof.
  unfold order_leb. rewrite !orb_true_iff, !andb_true_iff, !String.eqb_eq. intros [H1|[E1 H1]] [H2|[E2 H2]].
  - left. by eapply text_ltb_trans.
  - left. by rewrite <- E2.
  - left. by rewrite E1.
  - right. split; [congruence|by eapply text_leb_trans].
Qed.

Lemma order_leb_key {A} (key id : A -> string) a b : order_leb key id a b = true -> text_leb (key a) (key b) = true.
Proof. unfold order_leb. rewrite (text_leb_cases (key a)), !orb_true_iff, andb_true_iff. intros [H|[H _]]; auto. Qed.

Lemma sorted_split {A} (le : A -> A -> bool) l1 l2 a b : StronglySorted (fun x y => le x y = true) (l1 ++ l2) -> a ∈ l1 -> b ∈ l2 -> le a b = true.
Proof.
  induction l1 as [|x l1 IH]; cbn; intros Hs Ha Hb; [by apply elem_of_nil in Ha|]. inversion Hs as [|? ? Hs' Hx]; subst.
  apply elem_of_cons in Ha as [->|Ha]; [|by apply IH]. rewrite list.Forall_forall in Hx. apply Hx, elem_of_app. by right.
Qed.

(** The rows a report shows are the newest ones. *)
Lemma latest_newest {A} n (key id : A -> string) (t : gmap string A) shown old :
  shown ∈ latest n key id t -> old ∈ map snd (map_to_list t) -> old ∉ latest n key id t -> text_leb (key old) (key shown) = true.
Proof.
  unfold latest. set (rows := rows_by key id t). intros Hs Ho Hn.
  assert (Hr : old ∈ rows) by (unfold rows, rows_by; by apply elem_of_sort_by).
  assert (Hsort : StronglySorted (fun x y => order_leb key id x y = true) rows)
    by (apply sort_by_sorted; [apply order_leb_total|apply order_leb_trans]).
  rewrite <- (reverse_involutive rows) in Hsort, Hr. rewrite <- (take_drop n (reverse rows)), reverse_app in Hsort, Hr.
  apply (order_leb_key key id). eapply sorted_split; [exact Hsort| |by apply elem_of_reverse].
  apply elem_of_app in Hr as [Hr|Hr]; [done|]. rewrite elem_of_reverse in Hr. by destruct (Hn Hr).
Qed.

(** Fact: The report of the orders shows one line for each of the twenty newest ones, or
    for all when there are fewer: an order left out is no newer than any shown. *)
Theorem orders_report_shows_newest d :
  let rows := latest 20 bo_created_at bo_client_order_id (t_broker_orders d) in
  orders_text d = lines ("broker orders" :: match rows with [] => ["none"] | _ => map order_line rows end) /\
  length rows = Nat.min 20 (size (t_broker_orders d)) /\
  forall shown old id, shown ∈ rows -> t_broker_orders d !! id = Some old -> old ∉ rows -> text_leb (bo_created_at old) (bo_created_at shown) = true.
Proof.
  cbv zeta. split; [|split].
  - unfold orders_text. by destruct (latest _ _ _ _).
  - unfold latest, rows_by. by rewrite length_take, length_reverse, sort_by_length, length_map, length_map_to_list.
  - intros shown old id Hs Ho Hn. eapply latest_newest; [exact Hs| |exact Hn]. apply list_elem_of_In, in_map_iff.
    exists (id, old). split; [done|]. by apply list_elem_of_In, elem_of_map_to_list.
Qed.

(** ** The live report and its writer *)

(** Fact: A stored snapshot without a nested summary, as [_sanitized_live_report] writes
    it, is reported with its cash, its value and its result of the day unknown. *)
Theorem flat_snapshot_reads_unknown snapshot : dget "summary" snapshot = None -> dget "account" snapshot = None ->
  forall text, snapshot_report_text snapshot = Ok text ->
  exists positions, text = lines ["environment=" +:+ first_given_text ["environment"] "live" snapshot; "cash=unknown"; "total_eval=unknown"; "daily_pnl=unknown";
    "positions=" +:+ str_int positions; "operator_review=" +:+ snapshot_flag "operator_review" snapshot;
    "block_new_entries=" +:+ snapshot_flag "block_new_entries" snapshot].
Proof.
  intros H1 H2 text H. unfold snapshot_report_text in H. cbv zeta in H. apply bind_Ok in H as (positions & _ & [= <-]). exists positions.
  cbn [first_truthy fold_right]. rewrite H1, H2. reflexivity.
Qed.

(** ** Witnesses *)

#[local] Instance w_report_clock : Clock unit := fun u => (Datetime 1700042430000000 (Some 0), u).

Definition w_shown_order (i : string) (at_ : string) (requested : Z) : broker_order :=
  mkBrokerOrder i None "005930" "BUY" requested (f_of_Z 70000) "ACKNOWLEDGED" None 3 None at_ at_ None None None.
Definition w_bot_db : db := Eval vm_compute in
  put_metadata "heartbeat:trading-service" "2023-11-15T10:00:10+00:00" "" (put_metadata "order-supervisor.status"
    (dumps (JObj [("status", JStr "blocked"); ("updated_at", JStr "2023-11-15T19:00:00+09:00"); ("failure_streak", JInt 3); ("healthy_streak", JStr "x");
                  ("safe_kis_error", JObj [("http_status", JInt 500); ("rt_cd", JStr "1"); ("msg_cd", JStr "EGW 00201")])])) ""
    (set_orders (<["o1" := w_shown_order "o1" "2023-11-15T09:00:00" 10]> ∘ <["o2" := w_shown_order "o2" "2023-11-15T09:01:00" 20]>) (init_schema empty_db))).
Definition w_report_state : sys unit := mkSys w_bot_db tt [].
Definition w_report_env (name : string) : option string := if String.eqb name "LIVE_TRADING_ENABLED" then Some "true" else None.
Definition w_readiness : res (string * bool) * sys unit := Eval vm_compute in readiness_report w_report_env (Some (fun _ => true)) w_report_state.
Definition w_heartbeat : res (string * bool) * sys unit := Eval vm_compute in heartbeat_status (Some "2023-11-15T10:00:10+00:00") w_report_state.
Definition w_detail : res supervisor_report * sys unit := Eval vm_compute in
  supervisor_detail (get_metadata "order-supervisor.status" w_bot_db) w_report_state.
Definition w_written : string := Eval vm_compute in
  sanitized_live_report DEMO (mkAccountSnapshot [mkAccountPosition "005930" 10 None (Some (f_of_Z 70000)) (Some (f_of_Z 70500)) None None ""]
    (parse_account_summary [("dnca_tot_amt", JStr "1000000"); ("ord_psbl_cash", JStr "900000")])) None None (Datetime 1700042430000000 (Some KST)).
Definition w_flat : dict json := Eval vm_compute in or_else (stored_object (Some w_written)) [].

Lemma readiness_report_agrees_witness :
  (exists text, w_readiness.1 = Ok (text, false)) /\
  exists blockers s1, readiness w_report_env (Some (fun _ => true)) w_report_state = (Ok blockers, s1) /\ blockers <> [].
Proof.
  split; [by eexists|]. assert (H : readiness_report w_report_env (Some (fun _ => true)) w_report_state = w_readiness) by (vm_compute; reflexivity).
  unfold w_readiness in H. destruct (readiness_report_agrees _ _ _ _ _ _ H) as (blockers & s1 & Hr & Hb & _). exists blockers, s1.
  split; [exact Hr|]. intros ->. by destruct Hb as [_ Hb]; specialize (Hb eq_refl).
Defined.

Lemma heartbeat_report_agrees_witness :
  w_heartbeat.1 = Ok ("age=20.0s", true) /\ (heartbeat_healthy (Some "2023-11-15T10:00:10+00:00") w_report_state).1 = Ok true.
Proof.
  split; [reflexivity|]. assert (H : heartbeat_status (Some "2023-11-15T10:00:10+00:00") w_report_state = w_heartbeat) by (vm_compute; reflexivity).
  unfold w_heartbeat in H. destruct (heartbeat_report_agrees _ _ _ _ _ H) as [Hh _]. by rewrite Hh.
Defined.

Lemma supervisor_report_is_plain_witness :
  w_detail.1 = Ok (mkSupervisorReport "blocked" "30.0s" "3" "0" "0" "http_500 rt_cd=1") /\ sforall error_char "http_500 rt_cd=1" = true.
Proof.
  split; [reflexivity|]. assert (H : supervisor_detail (get_metadata "order-supervisor.status" w_bot_db) w_report_state = w_detail) by (vm_compute; reflexivity).
  unfold w_detail in H. exact (proj1 (proj2 (supervisor_report_is_plain _ _ _ _ H))).
Defined.

Example orders_report_example :
  orders_text w_bot_db = lines ["broker orders"; "005930 BUY qty=20 filled=3 price=70000 status=ACKNOWLEDGED";
                                  "005930 BUY qty=10 filled=3 price=70000 status=ACKNOWLEDGED"].
Proof. by rewrite (proj1 (orders_report_shows_newest w_bot_db)). Qed.

Lemma flat_snapshot_reads_unknown_witness :
  stored_object (Some w_written) = Some w_flat /\ dget "cash" w_flat = Some (JFloat (f_of_Z 1000000)) /\
  exists text positions, snapshot_report_text w_flat = Ok text /\
    text = lines ["environment=demo"; "cash=unknown"; "total_eval=unknown"; "daily_pnl=unknown"; "positions=" +:+ str_int positions;
                  "operator_review=false"; "block_new_entries=false"].
Proof.
  split; [by vm_compute|]. split; [by vm_compute|]. eexists.
  destruct (flat_snapshot_reads_unknown w_flat eq_refl eq_refl _ eq_refl) as [n H]. exists n. split; [reflexivity|exact H].
Defined.
