(* ===== verification/Migration.v ===== *)
(** * Schema creation and migration ([Database.init_schema] of [storage/database.py])

    A database file of any age: the columns of the three tables whose layout has
    changed, and the rows, in which a column the file lacks reads as the NULL or the
    default the migration gives it.  The other files of this development work on
    files of the current layout, for which [DbCore.init_schema] is what remains. *)

From S2P Require Import Prelude PyStr PyFloat PyTime DbCore DbOrders DbRuntime DbApprovals IsoText.

(** [SCHEMA]: the columns of a new file *)
Definition RUNTIME_COLUMNS : list string := ["control_id"; "paused"; "runtime_env"; "updated_at"; "reason"; "source"].
Definition DECISION_COLUMNS : list string :=
  ["decision_id"; "symbol"; "action"; "confidence"; "entry_price"; "take_profit_price"; "stop_loss_price"; "risk_level";
   "requires_operator_approval"; "rationale"; "created_at"; "strategy"; "model"; "prompt_version"; "max_holding_seconds"].
Definition APPROVAL_COLUMNS : list string :=
  ["request_id"; "symbol"; "decision_id"; "reason"; "status"; "created_at"; "resolved_at"; "expires_at"; "resolved_by"; "consumed_at";
   "signal_id"; "quantity"; "entry_price"; "take_profit_price"; "stop_loss_price"; "max_holding_seconds"].

(** The columns the migration adds when they are missing, in its order *)
Definition RUNTIME_ADDITIONS : list string := ["runtime_env"].
Definition DECISION_ADDITIONS : list string := ["max_holding_seconds"; "strategy"; "model"; "prompt_version"].
Definition APPROVAL_ADDITIONS : list string :=
  ["expires_at"; "resolved_by"; "consumed_at"; "signal_id"; "quantity"; "entry_price"; "take_profit_price"; "stop_loss_price"; "max_holding_seconds"].

(** A file: the columns of the three tables ([[]] when the table is not there) and the rows *)
Record file := mkFile {
  fl_runtime : list string;
  fl_decisions : list string;
  fl_approvals : list string;
  fl_db : db;
}.

(** [CREATE TABLE IF NOT EXISTS] *)
Definition create_table (schema columns : list string) : list string := match columns with [] => schema | _ => columns end.

(** [ALTER TABLE ... ADD COLUMN] for each of the names that are not among the columns read before *)
Definition add_columns (additions columns : list string) : list string :=
  columns ++ List.filter (fun n => negb (mem_str n columns)) additions.

(** What the rows hold in the columns just added *)
Definition had {A} (columns : list string) (name : string) (value default : A) : A := if mem_str name columns then value else default.

Definition migrate_control (columns : list string) (c : RuntimeControl) : RuntimeControl :=
  mkRuntimeControl (rc_paused c) (rc_updated_at c) (rc_reason c) (rc_source c) (had columns "runtime_env" (rc_environment c) "demo").

Definition migrate_decision (columns : list string) (a : ai_decision) : ai_decision := {|
  ad_decision_id := ad_decision_id a; ad_symbol := ad_symbol a; ad_action := ad_action a; ad_confidence := ad_confidence a;
  ad_entry_price := ad_entry_price a; ad_take_profit_price := ad_take_profit_price a; ad_stop_loss_price := ad_stop_loss_price a;
  ad_risk_level := ad_risk_level a; ad_requires_operator_approval := ad_requires_operator_approval a; ad_rationale := ad_rationale a;
  ad_created_at := ad_created_at a;
  ad_strategy := had columns "strategy" (ad_strategy a) "UNKNOWN";
  ad_model := had columns "model" (ad_model a) "UNKNOWN";
  ad_prompt_version := had columns "prompt_version" (ad_prompt_version a) "UNKNOWN";
  ad_max_holding_seconds := had columns "max_holding_seconds" (ad_max_holding_seconds a) None;
|}.

Definition migrate_approval (columns : list string) (a : approval_request) : approval_request := {|
  ar_request_id := ar_request_id a; ar_symbol := ar_symbol a; ar_decision_id := ar_decision_id a; ar_reason := ar_reason a;
  ar_status := ar_status a; ar_created_at := ar_created_at a; ar_resolved_at := ar_resolved_at a;
  ar_expires_at := had columns "expires_at" (ar_expires_at a) None;
  ar_resolved_by := had columns "resolved_by" (ar_resolved_by a) None;
  ar_consumed_at := had columns "consumed_at" (ar_consumed_at a) None;
  ar_signal_id := had columns "signal_id" (ar_signal_id a) None;
  ar_quantity := had columns "quantity" (ar_quantity a) None;
  ar_entry_price := had columns "entry_price" (ar_entry_price a) None;
  ar_take_profit_price := had columns "take_profit_price" (ar_take_profit_price a) None;
  ar_stop_loss_price := had columns "stop_loss_price" (ar_stop_loss_price a) None;
  ar_max_holding_seconds := had columns "max_holding_seconds" (ar_max_holding_seconds a) None;
|}.

(** The deadline of a request from before there were deadlines *)
Definition with_deadline (a : approval_request) (expires_at : option string) : approval_request :=
  mkApproval (ar_request_id a) (ar_symbol a) (ar_decision_id a) (ar_reason a) (ar_status a) (ar_created_at a) (ar_resolved_at a) expires_at
    (ar_resolved_by a) (ar_consumed_at a) (ar_signal_id a) (ar_quantity a) (ar_entry_price a) (ar_take_profit_price a) (ar_stop_loss_price a)
    (ar_max_holding_seconds a).
Definition legacy_deadline (a : approval_request) : approval_request :=
  match ar_expires_at a with
  | Some _ => a
  | None =>
      match fromisoformat (ar_created_at a) with
      | Ok created => with_deadline a (Some (iso (dt_add created (2 * us_per_minute))))
      | Err _ => a
      end
  end.

(** [_migrate_schema] *)
Definition migrate_schema (f : file) : file :=
  let d := set_control (option_map (migrate_control (fl_runtime f))) (fl_db f) in
  let d := set_decisions (fmap (migrate_decision (fl_decisions f))) d in
  let d := set_approvals (fmap (migrate_approval (fl_approvals f))) d in
  mkFile (add_columns RUNTIME_ADDITIONS (fl_runtime f)) (add_columns DECISION_ADDITIONS (fl_decisions f))
    (add_columns APPROVAL_ADDITIONS (fl_approvals f)) (set_approvals (fmap legacy_deadline) d).

(** [init_schema] of a file *)
Definition init_file (f : file) : file :=
  let f := mkFile (create_table RUNTIME_COLUMNS (fl_runtime f)) (create_table DECISION_COLUMNS (fl_decisions f))
             (create_table APPROVAL_COLUMNS (fl_approvals f)) (fl_db f) in
  let f := migrate_schema f in
  mkFile (fl_runtime f) (fl_decisions f) (fl_approvals f) (init_schema (fl_db f)).

(** ** Lemmas *)

Lemma add_columns_elem additions columns n : n ∈ add_columns additions columns <-> n ∈ columns \/ n ∈ additions.
Proof.
  unfold add_columns. rewrite elem_of_app.
  assert (E : n ∈ List.filter (fun n => negb (mem_str n columns)) additions <-> n ∈ additions /\ negb (mem_str n columns) = true)
    by (rewrite list_elem_of_In, filter_In, <- list_elem_of_In; done).
  rewrite E, negb_true_iff. split; [tauto|]. intros [H|H]; [by left|].
  destruct (mem_str n columns) eqn:En; [left; by apply mem_str_true|by right].
Qed.

Lemma add_columns_none additions columns : Forall (fun n => n ∈ columns) additions -> add_columns additions columns = columns.
Proof.
  intros H. unfold add_columns. replace (List.filter _ additions) with (@nil string); [apply app_nil_r|].
  induction H as [|n additions Hn _ IH]; [done|]. cbn. by rewrite (proj2 (mem_str_true n columns) Hn).
Qed.

Lemma add_columns_twice additions columns : add_columns additions (add_columns additions columns) = add_columns additions columns.
Proof. apply add_columns_none, list.Forall_forall. intros n Hn. apply add_columns_elem. by right. Qed.

Lemma had_same {A} columns name (v d : A) : name ∈ columns -> had columns name v d = v.
Proof. intros H. unfold had. by rewrite (proj2 (mem_str_true name columns) H). Qed.

(** A file of the current layout: every addition is there. *)
Record current (f : file) : Prop := mkCurrent {
  cu_runtime : Forall (fun n => n ∈ fl_runtime f) RUNTIME_ADDITIONS;
  cu_decisions : Forall (fun n => n ∈ fl_decisions f) DECISION_ADDITIONS;
  cu_approvals : Forall (fun n => n ∈ fl_approvals f) APPROVAL_ADDITIONS;
}.

Ltac in_columns H := rewrite list.Forall_forall in H; apply H, mem_str_true; reflexivity.

Lemma migrate_control_same columns c : Forall (fun n => n ∈ columns) RUNTIME_ADDITIONS -> migrate_control columns c = c.
Proof. intros H. unfold migrate_control. rewrite had_same by in_columns H. by destruct c. Qed.

Lemma migrate_decision_same columns a : Forall (fun n => n ∈ columns) DECISION_ADDITIONS -> migrate_decision columns a = a.
Proof. intros H. unfold migrate_decision. rewrite !had_same by in_columns H. by destruct a. Qed.

Lemma migrate_approval_same columns a : Forall (fun n => n ∈ columns) APPROVAL_ADDITIONS -> migrate_approval columns a = a.
Proof. intros H. unfold migrate_approval. rewrite !had_same by in_columns H. by destruct a. Qed.

Lemma fmap_same {A} (f : A -> A) (t : gmap string A) : (forall k a, t !! k = Some a -> f a = a) -> f <$> t = t.
Proof. intros H. apply map_eq. intros k. rewrite lookup_fmap. destruct (t !! k) as [a|] eqn:E; cbn; [by rewrite (H k a E)|done]. Qed.

Lemma create_table_elem schema columns n : schema <> [] -> n ∈ columns -> n ∈ create_table schema columns.
Proof. destruct columns; [by intros _ H%elem_of_nil|done]. Qed.

Lemma create_table_nonempty schema columns : schema <> [] -> create_table schema columns <> [].
Proof. by destruct columns. Qed.

Lemma create_table_same schema columns : columns <> [] -> create_table schema columns = columns.
Proof. by destruct columns. Qed.

Lemma add_columns_nonempty additions columns : columns <> [] -> add_columns additions columns <> [].
Proof. by destruct columns. Qed.

Lemma legacy_deadline_twice a : legacy_deadline (legacy_deadline a) = legacy_deadline a.
Proof.
  unfold legacy_deadline at 2 3. destruct (ar_expires_at a) eqn:E; [unfold legacy_deadline; by rewrite E|].
  destruct (fromisoformat (ar_created_at a)) as [t|e] eqn:F; [done|]. unfold legacy_deadline. by rewrite E, F.
Qed.

Lemma init_file_current f : current (init_file f).
Proof. split; apply list.Forall_forall; intros n Hn; apply add_columns_elem; by right. Qed.

(** The migration of a file of the current layout gives the legacy deadlines only. *)
Lemma migrate_current f : current f ->
  migrate_schema f = mkFile (fl_runtime f) (fl_decisions f) (fl_approvals f) (set_approvals (fmap legacy_deadline) (fl_db f)).
Proof.
  intros [H1 H2 H3]. unfold migrate_schema. cbv zeta. rewrite !add_columns_none by done. f_equal.
  destruct (fl_db f) as []. unfold set_control, set_decisions, set_approvals. cbn.
  rewrite (fmap_same (migrate_decision _)) by (intros; by apply migrate_decision_same).
  rewrite (fmap_same (migrate_approval _)) by (intros; by apply migrate_approval_same).
  destruct t_runtime_control as [c|]; [|done]. cbn. by rewrite migrate_control_same.
Qed.

Lemma init_file_db f : exists d, fl_db (init_file f) = init_schema (set_approvals (fmap legacy_deadline) d).
Proof. eexists. reflexivity. Qed.

Lemma deadlines_twice d :
  init_schema (set_approvals (fmap legacy_deadline) (init_schema (set_approvals (fmap legacy_deadline) d))) =
  init_schema (set_approvals (fmap legacy_deadline) d).
Proof.
  destruct d. unfold init_schema, set_control, set_approvals. cbn. f_equal; [by destruct t_runtime_control|].
  rewrite <- map_fmap_compose. apply map_fmap_ext. intros k a _. apply legacy_deadline_twice.
Qed.

(** A file with the current layout of the three tables *)
Lemma init_current f : current f -> fl_runtime f <> [] -> fl_decisions f <> [] -> fl_approvals f <> [] ->
  init_file f = mkFile (fl_runtime f) (fl_decisions f) (fl_approvals f) (init_schema (set_approvals (fmap legacy_deadline) (fl_db f))).
Proof.
  intros Hc H1 H2 H3. unfold init_file. rewrite !create_table_same by done. destruct f as [r ds a d]. cbn [fl_runtime fl_decisions fl_approvals fl_db]. by rewrite (migrate_current _ Hc).
Qed.

Lemma init_file_columns f : fl_runtime (init_file f) <> [] /\ fl_decisions (init_file f) <> [] /\ fl_approvals (init_file f) <> [].
Proof. split_and!; apply add_columns_nonempty, create_table_nonempty; discriminate. Qed.

(** ** Properties *)

(** Fact: Creating the schema of a file of any age gives every table its columns, keeps
    the columns there were and their order, and leaves nothing to do for a second
    time. *)
Theorem init_completes_schema f :
  current (init_file f) /\ init_file (init_file f) = init_file f /\
  (forall n, n ∈ fl_approvals f -> n ∈ fl_approvals (init_file f)) /\ (fl_approvals f <> [] -> fl_approvals f `prefix_of` fl_approvals (init_file f)).
Proof.
  split; [apply init_file_current|]. split; [|split].
  - destruct (init_file_columns f) as (H1 & H2 & H3). rewrite (init_current _ (init_file_current f)) by done.
    destruct (init_file_db f) as [d E]. rewrite E, deadlines_twice, <- E. by destruct (init_file f).
  - intros n Hn. apply add_columns_elem. left. by apply create_table_elem.
  - intros Hn. cbn. rewrite create_table_same by done. by eexists.
Qed.

(** Fact: On a file of the current layout whose approval requests all have deadlines,
    which is what the program writes, creating the schema does what [init_schema]
    says, and on a new file it gives the empty database of that schema. *)
Theorem init_schema_is_enough f : current f -> (forall k a, t_approvals (fl_db f) !! k = Some a -> is_Some (ar_expires_at a)) ->
  fl_db (init_file f) = init_schema (fl_db f) /\ fl_db (init_file (mkFile [] [] [] empty_db)) = init_schema empty_db.
Proof.
  intros Hc Ha. split; [|by vm_compute]. unfold init_file. cbv zeta. cbn [fl_db].
  assert (Hc' : current (mkFile (create_table RUNTIME_COLUMNS (fl_runtime f)) (create_table DECISION_COLUMNS (fl_decisions f))
    (create_table APPROVAL_COLUMNS (fl_approvals f)) (fl_db f))).
  { destruct Hc as [H1 H2 H3]. split; apply list.Forall_forall; intros n Hn; (apply create_table_elem; [discriminate|]).
    - rewrite list.Forall_forall in H1. by apply H1.
    - rewrite list.Forall_forall in H2. by apply H2.
    - rewrite list.Forall_forall in H3. by apply H3. }
  rewrite (migrate_current _ Hc'). cbn [fl_db]. f_equal. destruct (fl_db f) as []. unfold set_approvals. cbn in *. f_equal.
  apply fmap_same. intros k a Hk. unfold legacy_deadline. by destruct (Ha k a Hk) as [e ->].
Qed.

(** A request without a deadline has one after the schema was created. *)
Lemma init_file_deadline f id a created : t_approvals (fl_db f) !! id = Some a ->
  "expires_at" ∉ create_table APPROVAL_COLUMNS (fl_approvals f) \/ ar_expires_at a = None -> fromisoformat (ar_created_at a) = Ok created ->
  exists row, t_approvals (fl_db (init_file f)) !! id = Some row /\ ar_status row = ar_status a /\
    ar_expires_at row = Some (iso (dt_add created (2 * us_per_minute))).
Proof.
  intros Ha Hn Hc. eexists. unfold init_file. cbv zeta. cbn. rewrite !lookup_fmap, Ha. cbn. split; [done|].
  unfold legacy_deadline. cbn [ar_expires_at ar_created_at migrate_approval].
  assert (E : had (create_table APPROVAL_COLUMNS (fl_approvals f)) "expires_at" (ar_expires_at a) None = None).
  { unfold had. destruct (mem_str "expires_at" _) eqn:Em; [|done]. destruct Hn as [Hn|Hn]; [|done]. by apply mem_str_true in Em. }
  by rewrite E, Hc.
Qed.

(** Consuming an approved request that has a deadline: before it, or never. *)
Lemma consume_by_deadline id a e now t d b d' : t_approvals d !! id = Some a -> ar_status a = "APPROVED" -> ar_expires_at a = Some e ->
  consume_approval_request id (Some now) t d = Ok (b, d') ->
  b = text_ltb (iso now) e /\ status_of id d' = Some (if b then "CONSUMING" else "EXPIRED").
Proof.
  intros Ha Hs He H. unfold consume_approval_request in H. apply bind_Ok in H as ([] & _ & H). cbn [or_else] in H. unfold update_request in H.
  rewrite Ha in H. unfold has_status, past_deadline, before_deadline in H. rewrite Hs, He, String.eqb_refl in H. cbn [andb] in H. unfold status_of.
  rewrite text_ltb_leb. destruct (text_leb e (iso now)) eqn:Ep.
  - cbn [t_approvals set_approvals] in H. rewrite lookup_insert_eq in H. cbn in H. injection H as <- <-. cbn. by rewrite lookup_insert_eq.
  - cbn in H. rewrite Ha, Hs, He, text_ltb_leb, Ep in H. injection H as <- <-. cbn.
    by rewrite lookup_insert_eq.
Qed.

(** C37: After the schema was created, an approval given under a version without
    deadlines is consumed exactly within the two minutes that follow its creation,
    and expires when it is tried later.  (The deadline is stored as a text and
    compared as one: the times of the request and of the attempt are in the same
    offset, as the program writes them.) *)
Theorem legacy_approvals_expire f id a created now t b d' :
  t_approvals (fl_db f) !! id = Some a -> ar_status a = "APPROVED" ->
  "expires_at" ∉ create_table APPROVAL_COLUMNS (fl_approvals f) \/ ar_expires_at a = None ->
  fromisoformat (ar_created_at a) = Ok created -> dt_tz now = dt_tz created ->
  valid_dt now -> valid_dt (dt_add created (2 * us_per_minute)) ->
  consume_approval_request id (Some now) t (fl_db (init_file f)) = Ok (b, d') ->
  b = (dt_us now <? dt_us created + 2 * us_per_minute) /\ status_of id d' = Some (if b then "CONSUMING" else "EXPIRED").
Proof.
  intros Ha Hs Hn Hc Ht Hv Hv' H. destruct (init_file_deadline f id a created Ha Hn Hc) as (row & Hr & Hst & He).
  destruct (consume_by_deadline id row _ now t _ b d' Hr (eq_trans Hst Hs) He H) as [Hb Hd]. split; [|done].
  rewrite Hb. unfold iso. by rewrite text_ltb_isoformat.
Qed.

(** ** Witnesses *)

Definition w_legacy_row : approval_request :=
  mkApproval "r1" "005930" None "entry" "APPROVED" "2026-08-15T09:00:00+09:00" None None None None None None None None None None.
Definition w_legacy : file :=
  mkFile ["control_id"; "paused"; "updated_at"; "reason"; "source"] []
    ["request_id"; "symbol"; "decision_id"; "reason"; "status"; "created_at"; "resolved_at"]
    (set_approvals (<["r1" := w_legacy_row]>) (init_schema empty_db)).
Definition w_asked (seconds : Z) : datetime := dt_add (Datetime 1786784400000000 (Some KST)) (seconds * us_per_second).

(** A minute after its creation the request is consumed, two minutes after it not. *)
Example legacy_approval_consumed : match consume_approval_request "r1" (Some (w_asked 60)) (w_asked 60) (fl_db (init_file w_legacy)) with
  Ok (b, _) => b | Err _ => false end = true.
Proof. vm_compute. reflexivity. Qed.

Lemma init_completes_schema_witness :
  fl_approvals (init_file w_legacy) = ["request_id"; "symbol"; "decision_id"; "reason"; "status"; "created_at"; "resolved_at"; "expires_at"; "resolved_by";
    "consumed_at"; "signal_id"; "quantity"; "entry_price"; "take_profit_price"; "stop_loss_price"; "max_holding_seconds"] /\
  init_file (init_file w_legacy) = init_file w_legacy.
Proof. split; [vm_compute; reflexivity|]. exact (proj1 (proj2 (init_completes_schema w_legacy))). Defined.

Lemma init_schema_is_enough_witness : fl_db (init_file (mkFile RUNTIME_COLUMNS DECISION_COLUMNS APPROVAL_COLUMNS empty_db)) = init_schema empty_db.
Proof.
  refine (proj1 (init_schema_is_enough (mkFile RUNTIME_COLUMNS DECISION_COLUMNS APPROVAL_COLUMNS empty_db) _ _)).
  - split; repeat (apply list.Forall_cons; split; [apply mem_str_true; reflexivity|]); by apply list.Forall_nil.
  - intros k a. cbn [fl_db empty_db t_approvals]. by rewrite lookup_empty.
Defined.

(** A second before the deadline the request is consumed, and at the deadline it has expired. *)
Lemma legacy_approvals_expire_witness :
  (exists d', consume_approval_request "r1" (Some (w_asked 119)) (w_asked 119) (fl_db (init_file w_legacy)) = Ok (true, d') /\
     status_of "r1" d' = Some "CONSUMING") /\
  (exists d', consume_approval_request "r1" (Some (w_asked 120)) (w_asked 120) (fl_db (init_file w_legacy)) = Ok (false, d') /\
     status_of "r1" d' = Some "EXPIRED").
Proof.
  assert (E : forall now, exists b d', consume_approval_request "r1" (Some now) now (fl_db (init_file w_legacy)) = Ok (b, d')).
  { intros now. unfold consume_approval_request. cbn -[update_request init_file w_legacy]. destruct (update_request _ _ _ _) as [b d].
    destruct (update_request _ _ _ d) as [b' d'] eqn:Ed. by exists b', d'. }
  assert (H : forall n, 0 <= n <= 1000 -> exists d', consume_approval_request "r1" (Some (w_asked n)) (w_asked n) (fl_db (init_file w_legacy))
      = Ok (n <? 120, d') /\ status_of "r1" d' = Some (if n <? 120 then "CONSUMING" else "EXPIRED")).
  { intros n Hn. destruct (E (w_asked n)) as (b & d' & Hb). exists d'.
    destruct (legacy_approvals_expire w_legacy "r1" w_legacy_row (w_asked 0) (w_asked n) (w_asked n) b d') as [H1 H2].
    - vm_compute. reflexivity.
    - reflexivity.
    - right. reflexivity.
    - vm_compute. reflexivity.
    - reflexivity.
    - split; [|done]. unfold w_asked, MIN_US, MAX_US, us_per_second, us_per_day, us_per_minute. cbn. lia.
    - split; [|done]. vm_compute. split; congruence.
    - exact Hb.
    - assert (Ht : b = (n <? 120)).
      { rewrite H1. unfold w_asked. cbn. destruct (Z.ltb_spec n 120); [apply Z.ltb_lt|apply Z.ltb_ge]; unfold us_per_minute, us_per_second; lia. }
      rewrite <- Ht. by split. }
  split; [apply (H 119); lia|apply (H 120); lia].
Defined.
