(* ===== verification/Replay.v ===== *)
(** * Offline replay ([storage/replay.py], [analyze_bars] of [cli.py])

    Minute bars read from a CSV file: the reader of the [csv] module in its default
    dialect as a machine over the characters, the rows as dictionaries of the header,
    the checks of a bar, and the offline analysis that stores the bars and the
    candidates found on them.  The text is the decoded file; [csv]'s limit on the
    length of a field is not modelled. *)

From S2P Require Import Prelude PyStr PyFloat PyTime PyDict DbCore DbOrders DbRuntime DbMarket KisHttp System Indicators.

Definition REQUIRED_COLUMNS : list string := ["symbol"; "start"; "open"; "high"; "low"; "close"; "volume"].

(** ** The reader *)

Definition comma : ascii := ",".
Definition double_quote : ascii := Ascii.ascii_of_N 34.
Definition ends_record (c : ascii) : bool := (code c =? 10) || (code c =? 13).

(** The states of the reader, its pending field and the fields before it *)
Inductive csv_state := START_RECORD | START_FIELD | IN_FIELD | IN_QUOTED_FIELD | QUOTE_IN_QUOTED_FIELD.
Record csv_reader := mkReader { cr_state : csv_state; cr_field : string; cr_fields : list string; cr_rows : list (list string) }.
Definition fresh_reader : csv_reader := mkReader START_RECORD "" [] [].

Definition add_char (c : ascii) (st : csv_state) (r : csv_reader) : csv_reader := mkReader st (cr_field r +:+ String c "") (cr_fields r) (cr_rows r).
Definition save_field (r : csv_reader) : csv_reader := mkReader START_FIELD "" (cr_fields r ++ [cr_field r]) (cr_rows r).
Definition save_record (r : csv_reader) : csv_reader := mkReader START_RECORD "" [] (cr_rows r ++ [cr_fields r]).

(** The start of a field *)
Definition at_field_start (r : csv_reader) (c : ascii) : csv_reader :=
  if ends_record c then save_record (save_field r)
  else if bool_decide (c = double_quote) then mkReader IN_QUOTED_FIELD "" (cr_fields r) (cr_rows r)
  else if bool_decide (c = comma) then save_field r
  else add_char c IN_FIELD r.

(** One character *)
Definition read_csv_char (r : csv_reader) (c : ascii) : csv_reader :=
  match cr_state r with
  | START_RECORD => if ends_record c then save_record r else at_field_start r c
  | START_FIELD => at_field_start r c
  | IN_FIELD =>
      if ends_record c then save_record (save_field r)
      else if bool_decide (c = comma) then save_field r
      else add_char c IN_FIELD r
  | IN_QUOTED_FIELD =>
      if bool_decide (c = double_quote) then mkReader QUOTE_IN_QUOTED_FIELD (cr_field r) (cr_fields r) (cr_rows r)
      else add_char c IN_QUOTED_FIELD r
  | QUOTE_IN_QUOTED_FIELD =>
      if bool_decide (c = double_quote) then add_char c IN_QUOTED_FIELD r
      else if bool_decide (c = comma) then save_field r
      else if ends_record c then save_record (save_field r)
      else add_char c IN_FIELD r
  end.

Fixpoint read_csv_text (r : csv_reader) (s : string) : csv_reader :=
  match s with "" => r | String c s => read_csv_text (read_csv_char r c) s end.

(** The end of the file ends the last record. *)
Definition read_csv_end (r : csv_reader) : csv_reader :=
  match cr_state r with START_RECORD => r | _ => save_record (save_field r) end.

Definition csv_rows (text : string) : list (list string) := cr_rows (read_csv_end (read_csv_text fresh_reader text)).

(** ** The rows of [csv.DictReader] *)

(** The header is the first row; a later empty row is skipped; a missing value is
    [None]. *)
Definition dict_row (fieldnames row : list string) : dict (option string) :=
  fold_left (fun d kv => dset kv.1 kv.2 d) (zip fieldnames (map Some row ++ repeat None (length fieldnames - length row))) [].

Definition nonempty_row (row : list string) : bool := match row with [] => false | _ => true end.

(** ** The bars *)

Section Replay.
(** [str(exc)] *)
Variable exn_text : exn -> string.
(** The built-in [sum] of floats *)
Variable float_sum : list float -> float.

(** [row[key]], and the operations that refuse [None] *)
Definition column (key : string) (row : dict (option string)) : option string := or_else (dget key row) None.
Definition stripped (v : option string) : res string := match v with Some s => Ok (strip s) | None => Err no_attribute end.
Definition number {A} (parse : string -> res A) (v : option string) : res A :=
  match v with Some s => parse s | None => Err (TypeError "argument must be a string or a real number, not 'NoneType'") end.

Definition zulu (s : string) : string := replace_all (S (String.length s)) "Z" "+00:00" s.

(** One row, checked *)
Definition parse_bar (row : dict (option string)) : res MinuteBar :=
  start ← (s ← stripped (column "start" row); fromisoformat (zulu s));
  symbol ← stripped (column "symbol" row);
  open_price ← number float_of_text (column "open" row);
  high ← number float_of_text (column "high" row);
  low ← number float_of_text (column "low" row);
  close ← number float_of_text (column "close" row);
  volume ← number parse_int (column "volume" row);
  _ ← raise_if (negb (isdigit symbol) || negb (slen symbol =? 6)) (ValueError "symbol must be a six-digit domestic stock code");
  _ ← raise_if (volume <? 0) (ValueError "volume must be non-negative");
  _ ← raise_if (fmin (fmin (fmin open_price high) low) close <=? fzero)%F (ValueError "OHLC prices must be positive");
  _ ← raise_if ((high <? fmax open_price close) || (fmin open_price close <? low) || (high <? low))%F (ValueError "OHLC prices are inconsistent");
  Ok (mkBar symbol start open_price high low close volume).

(** The [except (AttributeError, TypeError, ValueError)] clause *)
Definition bad_bar (e : exn) : bool :=
  is_ValueError e || match e with TypeError _ => true | OtherError n => String.eqb n "AttributeError" | _ => false end.

Definition parse_line (line : Z) (row : dict (option string)) : res MinuteBar :=
  match parse_bar row with
  | Ok bar => Ok bar
  | Err e => if bad_bar e then Err (ValueError ("invalid bar at CSV line " +:+ str_int line +:+ ": " +:+ exn_text e)) else Err e
  end.

Fixpoint parse_lines (line : Z) (rows : list (dict (option string))) : res (list MinuteBar) :=
  match rows with
  | [] => Ok []
  | row :: rows => bar ← parse_line line row; bars ← parse_lines (line + 1) rows; Ok (bar :: bars)
  end.

(** [parse_bars_csv] of the text of the file *)
Definition parse_bars_csv (text : string) : res (list MinuteBar) :=
  match csv_rows text with
  | [] => Err (ValueError ("CSV must contain columns: " +:+ join "," REQUIRED_COLUMNS))
  | fieldnames :: rows =>
      _ ← raise_if (existsb (fun column => negb (mem_str column fieldnames)) REQUIRED_COLUMNS)
            (ValueError ("CSV must contain columns: " +:+ join "," REQUIRED_COLUMNS));
      parse_lines 2 (map (dict_row fieldnames) (List.filter nonempty_row rows))
  end.

(** [sample_bars] *)
Definition sample_closes : list Z := map (fun i => 100000 + Z.of_nat i * 1000) (seq 0 20) ++ [121000].
Definition sample_bars (symbol : string) : list MinuteBar :=
  imap (fun i close => mkBar symbol (Datetime ((days_of_civil 2026 8 15 * 1440 + 540 + Z.of_nat i) * us_per_minute) None)
          (f_of_Z close) (f_of_Z (close + 500)) (f_of_Z (close - 500)) (f_of_Z close) (if (i <? 20)%nat then 100 else 150)) sample_closes.

(** ** [analyze_bars] *)

(** [save_bar] for each of the bars: what was stored before an error stays. *)
Definition keep_bar (bar : MinuteBar) : stm db unit := fun d => match save_bar bar d with Ok d => (Ok tt, d) | Err e => (Err e, d) end.
Fixpoint keep_bars (bars : list MinuteBar) : stm db unit :=
  match bars with [] => mret tt | bar :: bars => _ ← keep_bar bar; keep_bars bars end.

(** A row of [candidate_signals], less the time it was written *)
Record candidate_row := mkCandidateRow { cn_candidate : CandidateSignal; cn_bar_start : string }.

(** [Database.save_candidate] *)
Definition save_candidate (candidate : CandidateSignal) (bar_start : datetime) : candidate_row := mkCandidateRow candidate (iso bar_start).

(** The candidates an analysis stores, and the database it leaves *)
Definition analyze_bars (bars : list MinuteBar) (symbol : string) : stm db (list candidate_row) :=
  let bars := List.filter (fun b => String.eqb (mb_symbol b) symbol) bars in
  match bars with
  | [] => raise (ValueError ("no bars found for symbol " +:+ symbol))
  | first :: _ =>
      _ ← (fun d => (Ok tt, init_schema d));
      _ ← keep_bars bars;
      snapshot ← lift_res (build_feature_snapshot float_sum bars 20);
      candidates ← lift_res (match snapshot with Some s => scan_candidates s "normal" | None => Ok [] end);
      mret (map (fun c => save_candidate c (mb_start (List.last bars first))) candidates)
  end.
End Replay.

(** ** Lemmas *)

Lemma parse_lines_ok exn_text rows : forall line bars, parse_lines exn_text line rows = Ok bars -> Forall2 (fun row bar => parse_bar row = Ok bar) rows bars.
Proof.
  induction rows as [|row rows IH]; intros line bars H; [injection H as <-; constructor|].
  cbn [parse_lines] in H. apply bind_Ok in H as (bar & Hb & H). apply bind_Ok in H as (rest & Hr & H). injection H as <-.
  constructor; [|by eapply IH]. unfold parse_line in Hb. destruct (parse_bar row) as [b|e]; [by injection Hb as <-|]. by destruct (bad_bar e).
Qed.

(** A bar without a NaN price *)
Definition numbers (b : MinuteBar) : Prop := Forall (fun x => is_nan x = false) [mb_open b; mb_high b; mb_low b; mb_close b].

(** What [parse_bars_csv] promises of a bar *)
Record bar_checked (b : MinuteBar) : Prop := mkBarChecked {
  ck_symbol : isdigit (mb_symbol b) = true /\ slen (mb_symbol b) = 6;
  ck_volume : 0 <= mb_volume b;
  ck_prices : numbers b -> fltb fzero (mb_low b) = true /\
    Forall (fun x => fleb (mb_low b) x = true /\ fleb x (mb_high b) = true) [mb_open b; mb_close b; mb_low b; mb_high b];
}.

Lemma fmin_not_nan x y : is_nan x = false -> is_nan y = false -> is_nan (fmin x y) = false.
Proof. unfold fmin. by destruct (fltb y x). Qed.
Lemma fmax_not_nan x y : is_nan x = false -> is_nan y = false -> is_nan (fmax x y) = false.
Proof. unfold fmax. by destruct (fltb x y). Qed.
Create HintDb ohlc.
#[local] Hint Resolve fmin_not_nan fmax_not_nan fleb_refl fmin_le_l fmin_le_r fmax_ge_l fmax_ge_r : ohlc.

Lemma parse_bar_checked row b : parse_bar row = Ok b -> bar_checked b.
Proof.
  unfold parse_bar. intros H. apply bind_Ok in H as (start & _ & H). apply bind_Ok in H as (symbol & _ & H).
  apply bind_Ok in H as (open_price & _ & H).
  apply bind_Ok in H as (high & _ & H). apply bind_Ok in H as (low & _ & H). apply bind_Ok in H as (close & _ & H). apply bind_Ok in H as (volume & _ & H).
  apply bind_Ok in H as ([] & Hs%raise_if_Ok & H). apply bind_Ok in H as ([] & Hv%raise_if_Ok & H).
  apply bind_Ok in H as ([] & Hp%raise_if_Ok & H). apply bind_Ok in H as ([] & Ho%raise_if_Ok & H). injection H as <-.
  apply orb_false_iff in Hs as [Hd Hl]. apply orb_false_iff in Ho as [Ho Hlh]. apply orb_false_iff in Ho as [Hh Hlow].
  split; cbn [mb_symbol mb_volume mb_open mb_high mb_low mb_close].
  - split; [by destruct (isdigit symbol)|]. bool_to_prop. lia.
  - bool_to_prop. lia.
  - intros Hn. unfold numbers in Hn. cbn [mb_open mb_high mb_low mb_close] in Hn.
    apply list.Forall_cons in Hn as [No Hn]. apply list.Forall_cons in Hn as [Nh Hn]. apply list.Forall_cons in Hn as [Nl Hn].
    apply list.Forall_cons in Hn as [Nc _].
    apply fltb_false in Hh; [|auto with ohlc..]. apply fltb_false in Hlow; [|auto with ohlc..]. apply fltb_false in Hlh; [|auto with ohlc..].
    apply fleb_false in Hp; [|auto with ohlc..]. split; [eapply fltb_fleb_trans; [exact Hp|]|].
    + eapply fleb_trans; [apply fmin_le_l; auto with ohlc|apply fmin_le_r; auto with ohlc].
    + assert (Hlo : forall x, fleb (fmin open_price close) x = true -> fleb low x = true) by (intros x Hx; exact (fleb_trans _ _ _ Hlow Hx)).
      assert (Hhi : forall x, fleb x (fmax open_price close) = true -> fleb x high = true) by (intros x Hx; exact (fleb_trans _ _ _ Hx Hh)).
      repeat constructor; auto with ohlc.
Qed.

(** ** Writing and reading records *)

Fixpoint doubled (s : string) : string :=
  match s with "" => "" | String c s => if bool_decide (c = double_quote) then String c (String c (doubled s)) else String c (doubled s) end.
(** A field in quotes, a record of such fields, and a text of records *)
Definition quoted_field (s : string) : string := String double_quote (doubled s +:+ String double_quote "").
Definition csv_record (row : list string) : string := join "," (map quoted_field row) +:+ String "010" "".
Definition csv_text (rows : list (list string)) : string := fold_right (fun row acc => csv_record row +:+ acc) "" rows.

Lemma append_assoc (a b c : string) : (a +:+ b) +:+ c = a +:+ (b +:+ c).
Proof. induction a as [|x a IH]; [done|]. change (String x ((a +:+ b) +:+ c) = String x (a +:+ (b +:+ c))). by rewrite IH. Qed.

Lemma text_append_nil (a : string) : a +:+ "" = a.
Proof. induction a as [|x a IH]; [done|]. change (String x (a +:+ "") = String x a). by rewrite IH. Qed.

Lemma read_next_char r c s : read_csv_text r (String c s) = read_csv_text (read_csv_char r c) s.
Proof. done. Qed.

Lemma read_doubled s : forall acc fs rows rest,
  read_csv_text (mkReader IN_QUOTED_FIELD acc fs rows) (doubled s +:+ rest) = read_csv_text (mkReader IN_QUOTED_FIELD (acc +:+ s) fs rows) rest.
Proof.
  induction s as [|c s IH]; intros acc fs rows rest; [by rewrite text_append_nil|]. cbn [doubled]. destruct (bool_decide_reflect (c = double_quote)) as [->|Hc].
  - change (String double_quote (String double_quote (doubled s)) +:+ rest) with (String double_quote (String double_quote (doubled s +:+ rest))).
    rewrite !read_next_char. change (read_csv_char (read_csv_char _ double_quote) double_quote) with (mkReader IN_QUOTED_FIELD (acc +:+ String double_quote "") fs rows).
    by rewrite IH, append_assoc.
  - change (String c (doubled s) +:+ rest) with (String c (doubled s +:+ rest)). rewrite read_next_char.
    replace (read_csv_char _ c) with (mkReader IN_QUOTED_FIELD (acc +:+ String c "") fs rows) by (unfold read_csv_char; cbn [cr_state]; by rewrite bool_decide_false).
    by rewrite IH, append_assoc.
Qed.

(** A quoted field, read from the start of a field, up to the character behind it *)
Lemma read_field s st fs rows rest : st = START_RECORD \/ st = START_FIELD ->
  read_csv_text (mkReader st "" fs rows) (quoted_field s +:+ rest) = read_csv_text (mkReader QUOTE_IN_QUOTED_FIELD s fs rows) rest.
Proof.
  intros Hst. unfold quoted_field. change (String double_quote (doubled s +:+ String double_quote "") +:+ rest)
    with (String double_quote ((doubled s +:+ String double_quote "") +:+ rest)). rewrite append_assoc. cbn [read_csv_text].
  replace (read_csv_char (mkReader st "" fs rows) double_quote) with (mkReader IN_QUOTED_FIELD "" fs rows) by (by destruct Hst as [->| ->]).
  rewrite read_doubled. change (String double_quote "" +:+ rest) with (String double_quote rest). by rewrite read_next_char.
Qed.

Lemma read_record row : forall st fs rows rest, st = START_RECORD \/ st = START_FIELD -> row <> [] ->
  read_csv_text (mkReader st "" fs rows) (csv_record row +:+ rest) = read_csv_text (mkReader START_RECORD "" [] (rows ++ [fs ++ row])) rest.
Proof.
  induction row as [|s row IH]; intros st fs rows rest Hst Hn; [done|]. unfold csv_record. destruct row as [|s' row].
  - cbn [map join]. rewrite append_assoc, read_field by done. reflexivity.
  - change (join "," (map quoted_field (s :: s' :: row))) with (quoted_field s +:+ "," +:+ join "," (map quoted_field (s' :: row))).
    rewrite !append_assoc, read_field by done. change ("," +:+ ?x) with (String "," x). cbn [read_csv_text].
    replace (read_csv_char (mkReader QUOTE_IN_QUOTED_FIELD s fs rows) ",") with (mkReader START_FIELD "" (fs ++ [s]) rows) by done.
    rewrite <- append_assoc. fold (csv_record (s' :: row)). rewrite IH by (by (right + idtac)). by rewrite <- app_assoc.
Qed.

Lemma read_text rows : forall before, Forall (fun row => row <> []) rows ->
  read_csv_text (mkReader START_RECORD "" [] before) (csv_text rows) = mkReader START_RECORD "" [] (before ++ rows).
Proof.
  induction rows as [|row rows IH]; intros before H; [by rewrite app_nil_r|]. apply list.Forall_cons in H as [Hr H].
  cbn [csv_text fold_right]. rewrite read_record by (by auto). fold (csv_text rows). rewrite IH by done. by rewrite <- app_assoc.
Qed.

(** ** Properties *)

(** Fact: Records of quoted fields, whatever characters the fields hold, are read back
    as they are. *)
Theorem csv_roundtrip rows : Forall (fun row => row <> []) rows -> csv_rows (csv_text rows) = rows.
Proof. intros H. unfold csv_rows, fresh_reader. by rewrite read_text. Qed.

(** Fact: A file is accepted as a whole or refused: an accepted one has the required
    columns and gives one bar per row, each a six-digit symbol with a volume that is
    not negative and, its prices being numbers, with a positive low no price is below
    and a high no price is above. *)
Theorem parsed_bars_checked exn_text text bars : parse_bars_csv exn_text text = Ok bars ->
  exists header rows, csv_rows text = header :: rows /\ Forall (fun column => column ∈ header) REQUIRED_COLUMNS /\
    length bars = length (List.filter nonempty_row rows) /\ Forall bar_checked bars.
Proof.
  unfold parse_bars_csv. destruct (csv_rows text) as [|header rows]; [done|]. intros H. apply bind_Ok in H as ([] & Hc%raise_if_Ok & H).
  apply parse_lines_ok in H. exists header, rows. split; [done|]. split; [|split].
  - apply list.Forall_forall. intros column Hin. destruct (mem_str column header) eqn:E; [by apply mem_str_true in E|].
    assert (Ht : existsb (fun column => negb (mem_str column header)) REQUIRED_COLUMNS = true); [|congruence].
    apply existsb_exists. exists column. split; [by apply list_elem_of_In|by rewrite E].
  - apply Forall2_length in H. by rewrite <- H, length_map.
  - apply list.Forall_forall. intros b Hb. apply list_elem_of_lookup in Hb as [i Hi]. destruct (Forall2_lookup_r _ _ _ _ _ H Hi) as (row & _ & Hrow).
    by eapply parse_bar_checked.
Qed.

(** What storing bars of [symbol] may have done to the database *)
Definition bars_of_symbol (symbol : string) (d d' : db) : Prop :=
  (exists t, d' = set_bars (fun _ => t) d) /\ (forall s start, s <> symbol -> t_bars d' !! (s, start) = t_bars d !! (s, start)) /\
  (forall k, is_Some (t_bars d !! k) -> is_Some (t_bars d' !! k)).

#[export] Instance bars_of_symbol_preorder symbol : PreOrder (bars_of_symbol symbol).
Proof.
  split; [intros d; split; [by exists (t_bars d); destruct d|by split]|].
  intros a b c ([t1 ->] & H1 & K1) ([t2 ->] & H2 & K2). split; [by exists t2|]. split; [intros s st Hs; by rewrite H2, H1|auto].
Qed.

Lemma keep_bar_effect b d : let '(r, d') := keep_bar b d in
  bars_of_symbol (mb_symbol b) d d' /\ (r = Ok tt -> is_Some (t_bars d' !! (mb_symbol b, iso (canonical_market_time (mb_start b))))).
Proof.
  unfold keep_bar, save_bar. cbv zeta. destruct (raise_if _ _) as [[]|e]; cbn; [|by split].
  split; [|intros _; cbn [set_bars t_bars]; rewrite lookup_insert_eq; by eexists]. split; [by eexists|]. cbn [set_bars t_bars]. split.
  - intros s start Hs. rewrite lookup_insert_ne; [done|congruence].
  - intros k Hk. destruct (decide (k = (mb_symbol b, iso (canonical_market_time (mb_start b))))) as [->|Hn];
      [rewrite lookup_insert_eq; by eexists|by rewrite lookup_insert_ne].
Qed.

Lemma keep_bars_effect symbol bars : Forall (fun b => mb_symbol b = symbol) bars -> forall d, let '(r, d') := keep_bars bars d in
  bars_of_symbol symbol d d' /\ (r = Ok tt -> forall b, b ∈ bars -> is_Some (t_bars d' !! (symbol, iso (canonical_market_time (mb_start b))))).
Proof.
  induction 1 as [|b bars Hb _ IH]; intros d; [split; [done|]; intros _ b Hb; by apply elem_of_nil in Hb|].
  cbn [keep_bars]. unfold mbind, stm_bind. pose proof (keep_bar_effect b d) as H1. rewrite Hb in H1.
  destruct (keep_bar b d) as [[[]|e] d1]; destruct H1 as [H1 K1]; [|by split]. specialize (IH d1).
  destruct (keep_bars bars d1) as [r d2]. destruct IH as [H2 K2]. split; [by etrans|]. intros -> x Hx.
  apply elem_of_cons in Hx as [->|Hx]; [|by apply K2]. apply H2. by apply K1.
Qed.

(** Fact: An analysis stores bars of its symbol and nothing else: other symbols' bars and
    every other table stay, no stored bar is lost, and when it ends every bar of the
    symbol is stored. *)
Theorem analysis_stores_bars float_sum bars symbol d : let '(r, d') := analyze_bars float_sum bars symbol d in
  (bars_of_symbol symbol d d' \/ bars_of_symbol symbol (init_schema d) d') /\
  (is_ok r = true -> forall b, b ∈ bars -> mb_symbol b = symbol -> is_Some (t_bars d' !! (symbol, iso (canonical_market_time (mb_start b))))).
Proof.
  unfold analyze_bars. set (own := List.filter _ bars).
  assert (Hown : forall b, b ∈ own <-> b ∈ bars /\ mb_symbol b = symbol).
  { intros b. unfold own. rewrite !list_elem_of_In, filter_In, String.eqb_eq. done. }
  destruct own as [|first rest] eqn:Eo; [cbn; split; [by left|done]|]. rewrite <- Eo in *. clear Eo.
  assert (Hf : Forall (fun b => mb_symbol b = symbol) own) by (apply list.Forall_forall; intros b Hb; by apply Hown).
  unfold mbind at 1, stm_bind at 1. cbv beta iota. unfold mbind at 1, stm_bind at 1.
  pose proof (keep_bars_effect symbol own Hf (init_schema d)) as H. destruct (keep_bars own (init_schema d)) as [[[]|e] d1]; destruct H as [H K].
  - assert (Hd : forall m : stm db (list candidate_row), (forall d, (m d).2 = d) -> let '(r, d') := m d1 in
      (bars_of_symbol symbol d d' \/ bars_of_symbol symbol (init_schema d) d') /\
      (is_ok r = true -> forall b, b ∈ bars -> mb_symbol b = symbol -> is_Some (t_bars d' !! (symbol, iso (canonical_market_time (mb_start b)))))).
    { intros m Hm. specialize (Hm d1). destruct (m d1) as [r d2]. cbn in Hm. subst d2. split; [by right|].
      intros _ b Hb Hs. apply K; [done|]. by apply Hown. }
    apply Hd. intros d2. unfold mbind, stm_bind, lift_res. destruct (build_feature_snapshot _ _ _) as [snapshot|e]; [|done].
    by destruct (match snapshot with Some _ => _ | None => _ end).
  - split; [by right|done].
Qed.

(** ** Witnesses *)

Definition w_csv : string := csv_text [["symbol"; "start"; "open"; "high"; "low"; "close"; "volume"];
  ["005930"; " 2026-08-15T09:00:00Z"; "70000"; "70500.5"; "6_9900"; "70100"; "12"]].
Definition w_csv_text (e : exn) : string := exn_name e.

Lemma csv_roundtrip_witness :
  csv_rows (csv_text [["a"; String double_quote ",
"]; [""]]) = [["a"; String double_quote ",
"]; [""]].
Proof. apply csv_roundtrip. by repeat constructor. Defined.

Lemma parsed_bars_checked_witness : exists bars, parse_bars_csv w_csv_text w_csv = Ok bars /\ length bars = 1%nat /\ Forall bar_checked bars.
Proof.
  destruct (parse_bars_csv w_csv_text w_csv) as [bars|e] eqn:E; [|vm_compute in E; discriminate E]. exists bars. split; [reflexivity|].
  destruct (parsed_bars_checked _ _ _ E) as (header & rows & Hr & _ & Hl & Hb). split; [|exact Hb]. rewrite Hl.
  assert (Hc : csv_rows w_csv = [["symbol"; "start"; "open"; "high"; "low"; "close"; "volume"];
    ["005930"; " 2026-08-15T09:00:00Z"; "70000"; "70500.5"; "6_9900"; "70100"; "12"]]) by (vm_compute; reflexivity).
  rewrite Hc in Hr. injection Hr as _ <-. reflexivity.
Defined.

Definition w_plain_sum (l : list float) : float := fold_left fadd l fzero.

(** The sample bars hold a breakout. *)
Example sample_breaks_out : exists c, fst (analyze_bars w_plain_sum (sample_bars "005930") "005930" empty_db) = Ok c /\
  map (fun r => cs_strategy (cn_candidate r)) c = ["BREAKOUT_WATCH"] /\ Forall (fun r => cn_bar_start r = "2026-08-15T09:20:00") c.
Proof. eexists. split; [vm_compute; reflexivity|]. split; [reflexivity|]. repeat constructor. Qed.

(** A price that is not a number passes the checks of a bar. *)
Example nan_price_accepted : exists b, parse_bars_csv w_csv_text (csv_text [REQUIRED_COLUMNS;
    ["005930"; "2026-08-15T09:00:00"; "nan"; "nan"; "nan"; "nan"; "0"]]) = Ok [b] /\ is_nan (mb_close b) = true.
Proof. eexists. split; [vm_compute; reflexivity|reflexivity]. Qed.
